(* ===== verification/_CoqProject ===== *)
-Q . S2P
Prelude.v
EggBuffer.v
BufferOps.v
Pkcs11.v
RpcUtil.v
Calls.v
Message.v
DispatchProto.v
Dispatch.v
Allocators.v
DispatchReads.v
DispatchReplies.v
DispatchProps.v
Transport.v
Server.v
ServerProps.v
ServeExact.v
CString.v
TlsPsk.v
ModuleArgs.v
Client.v
ClientProto.v
ClientCalls.v
ClientSpecs.v
ClientReads.v
ClientRun.v
ClientReplies.v
ClientMacros.v
ClientPool.v
ClientExact.v
ClientResults.v
ClientProps.v
ClientErrors.v
ClientThreads.v
ThreadsShare.v
ThreadsAlone.v
ClientInit.v
Remote.v
RemoteServer.v
RemoteClient.v
RemoteResults.v
ResultsServer.v
ResultsClient.v
Forwarding.v
EndToEnd.v
Lifetime.v
Connections.v
Threads.v
Sockets.v
Reporter.v
Seccomp.v
Daemon.v
