(* ===== verification/Prelude.v ===== *)
(** * pkcs11-proxy

    A PKCS#11 module on one machine is used by applications on others.  An application
    loads the client library (gck-rpc-module.c), whose functions turn each call into a
    message (gck-rpc-message.c, over the data buffer of egg-buffer.c) and send it over a
    TCP, TLS or UNIX domain socket.  The daemon (gck-rpc-daemon-standalone.c) starts a
    thread for each connection, which reads the messages, calls the functions of the
    module and sends the results back (gck-rpc-dispatch.c).  Both sides filter mechanisms
    and parse addresses with gck-rpc-util.c and find the keys of TLS-PSK with
    gck-rpc-tls-psk.c.

    ** The files, in the order of the code

    - Prelude: integers at their widths, the results of functions that may fault ([res]),
      stateful functions ([ST]) with their rules of weakest preconditions ([wp_bind] ...),
      memory objects, strings.
    - EggBuffer: egg-buffer.c.  An [EggBuffer] holds the bytes of the object its pointer
      points into; the allocator is a field as in the code, and [AllocatorOk] is the class
      of allocators that behave like [realloc].
    - BufferOps: the calls of egg-buffer.c as the operations of an abstract machine over
      the bytes held, which the buffer refines ([egg_buffer_refines_bytes]).
    - Pkcs11: the part of pkcs11.h that crosses the wire; [CK_FUNCTION_LIST W] is the
      PKCS#11 module, a record of functions over a state [W] of its own, some missing.
    - RpcUtil: gck-rpc-util.c.  CString: strings of C in memory.
    - Calls, Message: the table of calls of gck-rpc-private.h, and gck-rpc-message.c.
    - DispatchProto, Dispatch: gck-rpc-dispatch.c up to [dispatch_call].  A handler is
      written with the macros of the code ([BEGIN_CALL], [IN_ULONG], [PROCESS_CALL],
      [OUT_ULONG], [END_CALL]), which are operations of a monad with an early exit; its
      state [Proc W] is the [CallState], the module and the other dispatchers.
    - Transport, Server: the loops around [recv] and [send], and [run_dispatch_loop] with
      one turn of it ([serve_request]).
    - Threads: the threads of the daemon and the list they share: [gck_rpc_layer_accept],
      [run_dispatch_thread], the end of [rpc_C_Finalize], [gck_rpc_layer_uninitialize].
    - ModuleArgs, Client, ClientProto, ClientCalls: gck-rpc-module.c: the argument string,
      the pool of connections and the course of a call, the [proto_] functions and macros,
      and the functions of the API, which [Api.perform] gathers.
    - ClientThreads: the same pool in memory, as threads of an application share it:
      [call_lookup] and [call_done] one access at a time, with [call_state_mutex].
      ClientInit: C_Initialize and C_Finalize among them, with [init_mutex].
    - TlsPsk: gck-rpc-tls-psk.c.  Sockets: the loops over addresses, with the descriptors
      they open and close.  Seccomp: the system call filters.  Reporter:
      syscall-reporter.c, the handler that reports a call that a filter has stopped.
      Daemon: setting up and tearing down the layer, and [main].

    What the code does with objects that live on the stack or belong to the caller is
    passed in and returned.  A fault - an assertion that fails, an access outside of an
    object, a null pointer that is followed - is the result [Crash]; so a theorem that a
    function returns [Ok] says that none happens.

    ** The other files, and what they show

    - DispatchProps, over the specifications in DispatchProto: no request makes the
      dispatcher fault ([dispatch_call_total]), and what the table of sessions holds.
    - DispatchReads, DispatchReplies: given a request of known parts, a handler calls the
      module with them, and its response is the module's answer ([answers]).
    - Allocators: a call leaves the messages their allocators, so that with memory each
      request has its answer ([dispatch_call_answers]).
    - ServerProps: a connection is served to its end whatever it brings: what is sent back
      is a [conversation], and with memory and a client that takes its answers every
      request is [answered].  The answers do not depend on how the network cuts the bytes
      up; sessions are closed.
      ServeExact: one turn of the loop, exactly.
    - ClientSpecs, ClientReads, ClientRun, ClientReplies, ClientMacros, ClientPool: what
      holds of a call of the client library at each point; ClientProps: of every sequence
      of calls with a daemon that keeps to the protocol; ClientExact: what it sends and returns, exactly; ClientErrors: the
      responses it does not survive.
    - ThreadsShare: threads of an application share the pool safely, whatever the order of
      their steps ([threads_share_pool]).  ThreadsAlone: a call in one piece, as in the
      files above, is a run of the steps of one thread ([call_runs_as_steps]).
      ClientInit: threads that initialize, finalize and call at once find a machine of two
      states ([threads_initialize_once]), if they finalize when the standard allows it; else
      the application may be aborted ([finalize_aborts_other_call]).  C_Initialize and
      C_Finalize in one piece are such runs too ([initialize_as_steps],
      [finalize_as_steps]).
    - Remote and RemoteResults: tables that say, for each of the 65 calls that are
      forwarded (all but C_Initialize and C_Finalize), which function of the module stands
      behind it, what becomes of arguments and results, and what the caller gets
      ([Forwarded]).  This is the call as the proxy makes it, which is not quite that of
      the application: slot numbers are masked with 0x3FF, CKR_BUFFER_TOO_SMALL for a null
      array becomes CKR_OK, the daemon counts the sessions of a connection and closes them
      itself, and the list of mechanisms is purged.  RemoteServer and ResultsServer: that the daemon does what the tables
      say; RemoteClient, and ResultsClient over ClientResults: that the client library
      does.  Forwarding puts the two together, and EndToEnd concludes that each of the
      calls, made over the proxy, has the results of the call made locally
      ([calls_forwarded]), and so have whole dialogs ([dialog_over_proxy]).
    - Lifetime: an application over the proxy from C_Initialize, which makes the
      connection, to C_Finalize, which closes the sessions, with the thread of the daemon
      from the first byte of the connection to the last ([application_over_proxy]).
    - Connections: several applications at once.  Each has a thread of the daemon, which
      goes on a part of [run_dispatch_loop] at a time while the others are anywhere in
      theirs; they share the module and see each other on the list of dispatchers.  Calls
      take effect where their requests are processed, as if they were made one after the
      other ([applications_take_turns]).

    The properties of the development carry a number (C1, C2, ...) in front of their
    comment, in the order of importance.

    ** Loops and fuel

    Loops over data that shrinks are structural.  Others have fuel, and a theorem says
    that it is enough: [serve_fuel] turns of [serve_loop], one for each byte and event
    that is still to come ([run_dispatch_loop_total]: the result is never [OutOfFuel]); a
    turn for each read of the file of keys ([psk_key_of_file]); in [_connect_to_host_port]
    a turn for each address and one for each failing [getnameinfo], if those are finitely
    many, which is exactly when the loop ends ([connect_to_host_port_terminates]); ten digits of an [unsigned int].  A call that
    waits for the network is the result [None] of the monad [Net].

    ** Assumptions

    Integers are those of LP64; assertions are enabled; SIGPIPE is ignored by the
    application.  The network is a script of what [recv] and [send] return next; memory
    that cannot be had is a result of the allocator and of the functions [malloc_ok].
    Memory given out by [call_alloc] holds the bytes 0xff, as the code fills it.  The
    PKCS#11 module is a parameter; theorems about the daemon assume of it [module_ok]: it
    keeps to the space it is given.  The [failures] of a buffer, an [int] in the code, are
    counted without a bound: an overflow is undefined, and takes 2{^31} failing calls since
    the last reset, as [egg_buffer_refines_bytes] shows; there can be as many only in a
    call with so many arguments.  OpenSSL, the resolver and the other system calls are
    parameters that say what they return.

    ** Not modelled

    Logging, and the texts of messages.  The branches for Windows.  The macros of
    seccomp-bpf.h, which nothing uses, and the constants of the PKCS#11 headers that the
    program does not use.  In Threads a connection's requests are seen only as far as
    they concern other threads; in Connections the dialogs are seen, the threads are given
    and the main thread is not; a request is processed in one step there, as a module
    called by several threads takes care that its functions exclude each other.  TLS is
    for one connection at a time: with more of them the one [GckRpcTlsPskState] is shared
    by all, which the code gets wrong.  In ClientInit an application's threads write the
    settings where they have [init_mutex] and read them where they connect, in one step
    each; the theorem leaves out arguments that change the settings while others connect. *)
From stdpp Require Export base tactics decidable option list numbers strings.
From Stdlib Require Export ZArith Lia.

Declare Scope proxy_scope.
Delimit Scope proxy_scope with proxy.
#[global] Open Scope Z_scope.
#[global] Open Scope proxy_scope.

(** ** Machine integers *)

(** [uint8_t], [uint16_t], [uint32_t] and [size_t]/[CK_ULONG]/[uint64_t] (the
    development models the LP64 platforms the daemon and the module are built
    for) are integers in the ranges below; a conversion to the type reduces
    modulo its size. *)
Definition wrap8 (z : Z) : Z := z mod 256.
Definition wrap16 (z : Z) : Z := z mod 65536.
Definition wrap32 (z : Z) : Z := z mod 4294967296.
Definition wrap64 (z : Z) : Z := z mod 18446744073709551616.

Abbreviation is_u8 z := (0 <= z < 256).
Abbreviation is_u16 z := (0 <= z < 65536).
Abbreviation is_u32 z := (0 <= z < 4294967296).
Abbreviation is_u64 z := (0 <= z < 18446744073709551616).

(** The largest object the C library hands out. *)
Abbreviation PTRDIFF_MAX := 9223372036854775807.

Definition is_byte (z : Z) : Prop := is_u8 z.
#[global] Arguments is_byte _ /.
Abbreviation bytes l := (Forall is_byte l).

#[export] Instance is_byte_dec z : Decision (is_byte z).
Proof. unfold is_byte. apply _. Defined.

Lemma wrap8_id z : is_u8 z -> wrap8 z = z.
Proof. intros. apply Z.mod_small. lia. Qed.
Lemma wrap16_id z : is_u16 z -> wrap16 z = z.
Proof. intros. apply Z.mod_small. lia. Qed.
Lemma wrap32_id z : is_u32 z -> wrap32 z = z.
Proof. intros. apply Z.mod_small. lia. Qed.
Lemma wrap64_id z : is_u64 z -> wrap64 z = z.
Proof. intros. apply Z.mod_small. lia. Qed.
Lemma wrap8_range z : is_u8 (wrap8 z).
Proof. apply Z.mod_pos_bound. lia. Qed.
Lemma wrap32_range z : is_u32 (wrap32 z).
Proof. apply Z.mod_pos_bound. lia. Qed.
Lemma wrap64_range z : is_u64 (wrap64 z).
Proof. apply Z.mod_pos_bound. lia. Qed.

(** ** Results: a C function returns, or the process is lost *)

(** [AssertionFailed] is an [assert] that does not hold (the process aborts),
    [OutOfBounds] an access outside the object a pointer points into,
    [NullDereference] an access through a null pointer. *)
Inductive fault := AssertionFailed | OutOfBounds | NullDereference.

Inductive res (A : Type) : Type :=
| Ok (a : A)
| Crash (f : fault).
Arguments Ok {A} a.
Arguments Crash {A} f.

#[export] Instance fault_eq_dec : EqDecision fault.
Proof. solve_decision. Defined.

#[export] Instance res_ret : MRet res := fun A a => Ok a.
#[export] Instance res_bind : MBind res := fun A B k m =>
  match m with Ok a => k a | Crash f => Crash f end.

Lemma res_bind_ok {A B} (a : A) (k : A -> res B) : (Ok a ≫= k) = k a.
Proof. done. Qed.

(** Code that updates an object in place: explicit state passing. *)
Definition ST (S A : Type) : Type := S -> res (A * S).

#[export] Instance ST_ret S : MRet (ST S) := fun A a s => Ok (a, s).
#[export] Instance ST_bind S : MBind (ST S) := fun A B k m s =>
  match m s with Ok (a, s') => k a s' | Crash f => Crash f end.

Definition crash {S A} (f : fault) : ST S A := fun _ => Crash f.
Definition get_st {S} : ST S S := fun s => Ok (s, s).
Definition put_st {S} (s : S) : ST S unit := fun _ => Ok (tt, s).
Definition modify {S} (f : S -> S) : ST S unit := fun s => Ok (tt, f s).
Definition gets {S A} (f : S -> A) : ST S A := fun s => Ok (f s, s).
Definition lift_res {S A} (r : res A) : ST S A := fun s =>
  match r with Ok a => Ok (a, s) | Crash f => Crash f end.

(** [assert (e)]. *)
Definition assert_ {S} (e : bool) : ST S unit :=
  if e then mret tt else crash AssertionFailed.

(** Runs code on a component of a larger object. *)
Definition zoom {S T A} (get : S -> T) (set : T -> S -> S) (m : ST T A) : ST S A :=
  fun s => match m (get s) with
           | Ok (a, t) => Ok (a, set t s)
           | Crash f => Crash f
           end.

(** A pointer used as a condition. *)
Definition nonnull {A} (p : option A) : bool :=
  match p with Some _ => true | None => false end.

Lemma nonnull_is_Some {A} (p : option A) : nonnull p = true -> is_Some p.
Proof. destruct p; [by eexists|done]. Qed.

(** [switch (v) { case k: return a; ... default: return d; }]. *)
Fixpoint switch {A} (v : Z) (cases : list (Z * A)) (d : A) : A :=
  match cases with
  | [] => d
  | (k, a) :: cases => if v =? k then a else switch v cases d
  end.

(** Several [case] labels for one statement. *)
Definition one_of (v : Z) (ks : list Z) : bool := existsb (Z.eqb v) ks.

(** ** Weakest preconditions *)

(** [wp m Q s]: run in [s], [m] does not crash, and it returns a value and a
    state that satisfy [Q].  Every specification below is a total one. *)
Definition wp {S A} (m : ST S A) (Q : A -> S -> Prop) (s : S) : Prop :=
  match m s with Ok (a, s') => Q a s' | Crash _ => False end.

Section Wp.
Context {S : Type}.

Lemma wp_ret {A} (a : A) (Q : A -> S -> Prop) s : Q a s -> wp (mret a) Q s.
Proof. done. Qed.

Lemma wp_bind {A B} (m : ST S A) (k : A -> ST S B) Q s :
  wp m (fun a s' => wp (k a) Q s') s -> wp (m ≫= k) Q s.
Proof. unfold wp, mbind, ST_bind. destruct (m s) as [[a s']|]; done. Qed.

Lemma wp_mono {A} (m : ST S A) (P Q : A -> S -> Prop) s :
  wp m P s -> (forall a s', P a s' -> Q a s') -> wp m Q s.
Proof. unfold wp. destruct (m s) as [[a s']|]; naive_solver. Qed.

Lemma wp_and {A} (m : ST S A) (P Q : A -> S -> Prop) s :
  wp m P s -> wp m Q s -> wp m (fun a s' => P a s' /\ Q a s') s.
Proof. unfold wp. destruct (m s) as [[a s']|]; naive_solver. Qed.

(** Consequence in the form proofs use: the specification of a call, then
    what is left of the caller. *)
Lemma wp_call {A B} (m : ST S A) (k : A -> ST S B) P Q s :
  wp m P s -> (forall a s', P a s' -> wp (k a) Q s') -> wp (m ≫= k) Q s.
Proof. intros Hm Hk. apply wp_bind. eapply wp_mono; [exact Hm|exact Hk]. Qed.

Lemma wp_inv {A} (m : ST S A) Q s :
  wp m Q s -> exists a s', m s = Ok (a, s') /\ Q a s'.
Proof. unfold wp. destruct (m s) as [[a s']|]; naive_solver. Qed.

Lemma wp_intro {A} (m : ST S A) (Q : A -> S -> Prop) s a s' :
  m s = Ok (a, s') -> Q a s' -> wp m Q s.
Proof. unfold wp. intros ->. done. Qed.

Lemma wp_get (Q : S -> S -> Prop) s : Q s s -> wp get_st Q s.
Proof. done. Qed.
Lemma wp_gets {A} (f : S -> A) Q s : Q (f s) s -> wp (gets f) Q s.
Proof. done. Qed.
Lemma wp_put (t : S) Q s : Q tt t -> wp (put_st t) Q s.
Proof. done. Qed.
Lemma wp_modify f (Q : unit -> S -> Prop) s : Q tt (f s) -> wp (modify f) Q s.
Proof. done. Qed.
Lemma wp_assert (e : bool) (Q : unit -> S -> Prop) s :
  e = true -> Q tt s -> wp (assert_ e) Q s.
Proof. intros ->. done. Qed.
(** An assertion that holds does nothing. *)
Lemma bind_assert {A} (e : bool) (k : ST S A) s : e = true -> (assert_ e;; k) s = k s.
Proof. by intros ->. Qed.
Lemma wp_lift_res {A} (r : res A) (Q : A -> S -> Prop) s a :
  r = Ok a -> Q a s -> wp (lift_res r) Q s.
Proof. unfold wp, lift_res. intros ->. done. Qed.

Lemma wp_if {A} (b : bool) (m1 m2 : ST S A) Q s :
  (b = true -> wp m1 Q s) -> (b = false -> wp m2 Q s) ->
  wp (if b then m1 else m2) Q s.
Proof. destruct b; auto. Qed.

Lemma wp_zoom {T A} (get : S -> T) (set : T -> S -> S) (m : ST T A) Q s :
  wp m (fun a t => Q a (set t s)) (get s) -> wp (zoom get set m) Q s.
Proof. unfold wp, zoom. destruct (m (get s)) as [[a t]|]; done. Qed.
End Wp.

(** ** Concrete runs *)

(** The state a run ends in, and whether it returned [true]. *)
Definition after {S A} (m : ST S A) (s : S) : S :=
  match m s with Ok (_, s') => s' | Crash _ => s end.

Definition returns_true {S} (m : ST S bool) (s : S) : bool :=
  match m s with Ok (r, _) => r | Crash _ => false end.

Lemma after_run {S} (m : ST S bool) s : returns_true m s = true -> m s = Ok (true, after m s).
Proof. unfold returns_true, after. by destruct (m s) as [[[|] s']|]. Qed.

Lemma after_wp {S A} (m : ST S A) Q s : wp m Q s -> exists a, m s = Ok (a, after m s) /\ Q a (after m s).
Proof. unfold after, wp. destruct (m s) as [[a s']|]; [|done]. eauto. Qed.

(** ** Memory: the object a pointer points into is a list of bytes *)

Abbreviation block := (list Z).

Definition zlen {A} (l : list A) : Z := Z.of_nat (length l).

Definition slice (b : block) (off n : Z) : block :=
  take (Z.to_nat n) (drop (Z.to_nat off) b).

(** Reading [n] bytes at [b + off]. *)
Definition mem_read (b : block) (off n : Z) : res block :=
  if bool_decide (0 <= off /\ 0 <= n /\ off + n <= zlen b)
  then Ok (slice b off n) else Crash OutOfBounds.

(** Storing the bytes [bs] at [b + off]. *)
Definition mem_write (b : block) (off : Z) (bs : list Z) : res block :=
  if bool_decide (0 <= off /\ off + zlen bs <= zlen b)
  then Ok (take (Z.to_nat off) b ++ bs ++ drop (Z.to_nat (off + zlen bs)) b)
  else Crash OutOfBounds.

Lemma zlen_nonneg {A} (l : list A) : 0 <= zlen l.
Proof. unfold zlen. lia. Qed.
Lemma zlen_nil {A} : zlen (@nil A) = 0.
Proof. done. Qed.
Lemma zlen_cons {A} (x : A) l : zlen (x :: l) = 1 + zlen l.
Proof. unfold zlen. simpl. lia. Qed.
Lemma zlen_app {A} (l k : list A) : zlen (l ++ k) = zlen l + zlen k.
Proof. unfold zlen. rewrite length_app. lia. Qed.
Lemma zlen_take {A} (l : list A) n :
  0 <= n <= zlen l -> zlen (take (Z.to_nat n) l) = n.
Proof. unfold zlen. rewrite length_take. lia. Qed.
Lemma zlen_drop {A} (l : list A) n :
  0 <= n <= zlen l -> zlen (drop (Z.to_nat n) l) = zlen l - n.
Proof. unfold zlen. rewrite length_drop. lia. Qed.
Lemma zlen_replicate {A} (x : A) n : zlen (replicate n x) = Z.of_nat n.
Proof. unfold zlen. by rewrite length_replicate. Qed.

Lemma zlen_slice b off n :
  0 <= off -> 0 <= n -> off + n <= zlen b -> zlen (slice b off n) = n.
Proof. intros. unfold slice. apply zlen_take. rewrite zlen_drop; lia. Qed.

Lemma slice_bytes b off n : bytes b -> bytes (slice b off n).
Proof. intros. unfold slice. by apply Forall_take, Forall_drop. Qed.

(** The bytes that lie between a prefix and a suffix. *)
Lemma slice_app pre mid post :
  slice (pre ++ mid ++ post) (zlen pre) (zlen mid) = mid.
Proof.
  unfold slice, zlen. rewrite !Nat2Z.id, drop_app_length. apply take_app_length.
Qed.

(** Reading below [n] bytes does not see what is stored beyond them. *)
Lemma slice_take b k off n :
  0 <= off -> 0 <= n -> off + n <= k -> slice (take (Z.to_nat k) b) off n = slice b off n.
Proof.
  intros. unfold slice. rewrite !skipn_firstn_comm, take_take. f_equal. lia.
Qed.

Lemma slice_full b : slice b 0 (zlen b) = b.
Proof. unfold slice, zlen. rewrite Nat2Z.id. simpl. apply firstn_all. Qed.

Lemma mem_read_ok b off n :
  0 <= off -> 0 <= n -> off + n <= zlen b -> mem_read b off n = Ok (slice b off n).
Proof. intros. unfold mem_read. by rewrite bool_decide_true. Qed.

Lemma mem_write_ok b off bs :
  0 <= off -> off + zlen bs <= zlen b ->
  exists b', mem_write b off bs = Ok b'
    /\ zlen b' = zlen b
    /\ take (Z.to_nat (off + zlen bs)) b' = take (Z.to_nat off) b ++ bs
    /\ (bytes b -> bytes bs -> bytes b').
Proof.
  intros Ho Hn. unfold mem_write. rewrite bool_decide_true by done.
  pose proof (zlen_nonneg bs). eexists; split; [done|]. split; [|split].
  - rewrite !zlen_app, zlen_take, zlen_drop by lia. lia.
  - rewrite app_assoc. apply take_app_length'.
    rewrite length_app, length_take. unfold zlen in *. lia.
  - intros Hb Hbs. rewrite !Forall_app. auto using Forall_take, Forall_drop.
Qed.

(** ** Bit operations used by the byte-order code *)

Lemma land_255 z : Z.land z 255 = z mod 256.
Proof. change 255 with (Z.ones 8). rewrite Z.land_ones by lia. done. Qed.
Lemma land_u32 z : Z.land z 4294967295 = z mod 4294967296.
Proof. change 4294967295 with (Z.ones 32). rewrite Z.land_ones by lia. done. Qed.

(** Or-ing a value into the zero bits below a shifted one adds it. *)
Lemma lor_shiftl_add a b n :
  0 <= n -> 0 <= b < 2 ^ n -> Z.lor (Z.shiftl a n) b = a * 2 ^ n + b.
Proof.
  intros Hn Hb. rewrite <- Z.add_nocarry_lor.
  - rewrite Z.shiftl_mul_pow2 by done. done.
  - apply Z.bits_inj'. intros i Hi. rewrite Z.land_spec, Z.bits_0.
    destruct (decide (i < n)) as [Hlt|Hge].
    + rewrite Z.shiftl_spec_low by done. done.
    + rewrite <- (Z.mod_small b (2 ^ n)) by done.
      rewrite Z.mod_pow2_bits_high by lia. apply andb_false_r.
Qed.

(** ** C strings *)

Definition string_bytes (s : string) : list Z :=
  map (fun c => Z.of_N (Ascii.N_of_ascii c)) (String.list_ascii_of_string s).

Definition strlen (s : string) : Z := Z.of_nat (String.length s).

(** [strncmp (s, p, strlen (p)) == 0], and then the pointer [s + strlen (p)]. *)
Fixpoint string_strip (p s : string) : option string :=
  match p, s with
  | EmptyString, _ => Some s
  | String a p', String b s' => if Ascii.eqb a b then string_strip p' s' else None
  | String _ _, EmptyString => None
  end.

Lemma zlen_string_bytes s : zlen (string_bytes s) = strlen s.
Proof.
  unfold zlen, string_bytes, strlen. rewrite length_map. f_equal.
  induction s; simpl; congruence.
Qed.

Lemma string_bytes_bytes s : bytes (string_bytes s).
Proof.
  unfold string_bytes. apply Forall_map, Forall_true. intros c. simpl.
  pose proof (Ascii.N_ascii_bounded c). lia.
Qed.

Lemma string_bytes_inj s t : string_bytes s = string_bytes t -> s = t.
Proof.
  revert t. induction s as [|a s IH]; intros [|b t]; try done.
  unfold string_bytes. cbn. intros [= H Ht]. f_equal; [|by apply IH].
  rewrite <- (Ascii.ascii_N_embedding a), <- (Ascii.ascii_N_embedding b). f_equal. lia.
Qed.

Lemma string_strip_self s : string_strip s s = Some EmptyString.
Proof. induction s; simpl; [done|]. by rewrite Ascii.eqb_refl. Qed.

Lemma string_strip_app p s : string_strip p (String.append p s) = Some s.
Proof. induction p; simpl; [done|]. by rewrite Ascii.eqb_refl. Qed.

Lemma string_strip_app2 p1 p2 s r :
  string_strip (String.append p1 p2) s = Some r <->
  exists t, string_strip p1 s = Some t /\ string_strip p2 t = Some r.
Proof.
  revert s. induction p1 as [|a p1 IH]; intros s.
  - split; [intros H; by exists s|]. by intros (t & [= <-] & H).
  - destruct s as [|b s]; [split; [done|by intros (t & ? & _)]|].
    change (String.append (String a p1) p2) with (String a (String.append p1 p2)).
    cbn [string_strip]. destruct (Ascii.eqb a b); [apply IH|].
    split; [done|by intros (t & ? & _)].
Qed.

Lemma string_append_nil s : String.append s EmptyString = s.
Proof.
  induction s as [|a s IH]; [done|].
  change (String.append (String a s) EmptyString) with (String a (String.append s EmptyString)).
  by rewrite IH.
Qed.

Lemma string_append_assoc s t u :
  String.append s (String.append t u) = String.append (String.append s t) u.
Proof.
  induction s as [|a s IH]; [done|].
  change (String a (String.append s (String.append t u))
          = String a (String.append (String.append s t) u)). by rewrite IH.
Qed.

Lemma string_strip_all p s : string_strip p s = Some EmptyString -> s = p.
Proof.
  revert s. induction p as [|a p IH]; intros [|b s]; cbn [string_strip]; try congruence.
  destruct (Ascii.eqb_spec a b) as [->|]; [|done]. intros H. by rewrite (IH _ H).
Qed.

(** ** Automation *)

(** The lemmas that automate the common cases: lengths of lists, byte ranges. *)
Create HintDb proxy.
Create Rewrite HintDb zlen.
#[export] Hint Resolve zlen_nonneg string_bytes_bytes slice_bytes : proxy.
#[export] Hint Resolve Forall_nil_2 Forall_cons_2 Forall_app_2 : proxy.
#[export] Hint Rewrite @zlen_app @zlen_cons @zlen_nil zlen_string_bytes : zlen.

(** Symbolic execution of straight-line code: peels binds, returns and
    assertions whose condition is computed. *)
Ltac wp_simpl :=
  repeat first
    [ apply wp_ret
    | apply wp_bind
    | apply wp_get | apply wp_gets | apply wp_put | apply wp_modify ].

(** The specification [H] of the call at the head of the goal. *)
Ltac wp_use H := eapply wp_call; [eapply H|].
Ltac wp_done H := eapply wp_mono; [eapply H|].
