(* ===== verification/EggBuffer.v ===== *)
(** The growable data buffer of egg-buffer.c / egg-buffer.h: allocation,
    growth, appending and reading of bytes, big-endian integers, byte arrays and
    strings.  The first part translates the code; the second states what each
    operation does to the bytes the buffer holds. *)
From S2P Require Import Prelude.

(** ** Data *)

(** [EggBufferAllocator]: a function with the syntax and logic of [realloc].
    A function pointer is its address (pointers are compared by
    [egg_buffer_set_allocator]) and what a call does: from the old object, or
    [None] for a null pointer, and the wanted size to the new object, or
    [None] on failure. *)
Record EggBufferAllocator := mkAllocator {
  al_addr : Z;
  al_realloc : option block -> Z -> option block;
}.

(** [struct _EggBuffer].  [eb_buf] is the object [buf] points to.  [failures] is
    an [int], which the code only counts up, sets to 0 or 1 and compares with
    0: the model counts it without bound, so it speaks of the code as long as
    fewer than 2{^31} operations fail between two resets, which the bound of
    [egg_buffer_refines_bytes] tells; past that, counting overflows. *)
Record EggBuffer := mkEggBuffer {
  eb_buf : option block;
  eb_len : Z;
  eb_allocated_len : Z;
  eb_failures : Z;
  eb_allocator : option EggBufferAllocator;
}.

Definition EGG_BUFFER_EMPTY : EggBuffer := mkEggBuffer None 0 0 0 None.

Definition set_buf (m : option block) (b : EggBuffer) : EggBuffer :=
  mkEggBuffer m (eb_len b) (eb_allocated_len b) (eb_failures b) (eb_allocator b).
Definition set_len (n : Z) (b : EggBuffer) : EggBuffer :=
  mkEggBuffer (eb_buf b) n (eb_allocated_len b) (eb_failures b) (eb_allocator b).
Definition fail_buffer (b : EggBuffer) : EggBuffer :=
  mkEggBuffer (eb_buf b) (eb_len b) (eb_allocated_len b) (eb_failures b + 1)
    (eb_allocator b).

(** The bytes an access through [buf] can reach; none through a null pointer. *)
Definition bmem (b : EggBuffer) : block := default [] (eb_buf b).

(** [egg_buffer_has_error], [egg_buffer_length]. *)
Definition egg_buffer_has_error (b : EggBuffer) : bool := 0 <? eb_failures b.
Definition egg_buffer_length (b : EggBuffer) : Z := eb_len b.

(** [buffer->failures++; return r;] *)
Definition buffer_fail {A} (r : A) : ST EggBuffer A :=
  modify fail_buffer;; mret r.

(** ** Life cycle *)

Section Lifecycle.
(** [DEFAULT_ALLOCATOR]: the C library's [realloc]. *)
Context (DEFAULT_ALLOCATOR : EggBufferAllocator).

Definition egg_buffer_init_full (reserve : Z) (allocator : option EggBufferAllocator)
    : bool * EggBuffer :=
  let allocator := default DEFAULT_ALLOCATOR allocator in
  let reserve := if reserve =? 0 then 64 else reserve in
  match al_realloc allocator None reserve with
  | None => (false, mkEggBuffer None 0 0 1 None)
  | Some m => (true, mkEggBuffer (Some m) 0 reserve 0 (Some allocator))
  end.

Definition egg_buffer_init (reserve : Z) : bool * EggBuffer :=
  egg_buffer_init_full reserve None.

Definition egg_buffer_init_static (m : block) (len : Z) : EggBuffer :=
  mkEggBuffer (Some m) len len 0 None.

Definition egg_buffer_init_allocated (m : block) (len : Z)
    (allocator : option EggBufferAllocator) : EggBuffer :=
  mkEggBuffer (Some m) len len 0 (Some (default DEFAULT_ALLOCATOR allocator)).

(** The memory the call gives back to the allocator is returned with the
    zeroed structure. *)
Definition egg_buffer_uninit (b : EggBuffer) : option block * EggBuffer :=
  (match eb_buf b, eb_allocator b with
   | Some m, Some _ => Some m
   | _, _ => None
   end, EGG_BUFFER_EMPTY).

Definition egg_buffer_set_allocator (allocator : option EggBufferAllocator)
    : ST EggBuffer bool := fun b =>
  let allocator := default DEFAULT_ALLOCATOR allocator in
  if match eb_allocator b with
     | Some old => al_addr old =? al_addr allocator
     | None => false
     end then Ok (true, b) else
  if eb_allocated_len b =? 0 then
    Ok (true, mkEggBuffer None (eb_len b) (eb_allocated_len b) (eb_failures b)
                (Some allocator))
  else
    match al_realloc allocator None (eb_allocated_len b) with
    | None => Ok (false, b)
    | Some m =>
        old ← mem_read (bmem b) 0 (eb_allocated_len b);
        m' ← mem_write m 0 old;
        Ok (true, mkEggBuffer (Some m') (eb_len b) (eb_allocated_len b)
                    (eb_failures b) (Some allocator))
    end.
End Lifecycle.

Definition egg_buffer_reset : ST EggBuffer unit := fun b =>
  m ← mem_write (bmem b) 0 (replicate (Z.to_nat (eb_allocated_len b)) 0);
  Ok (tt, mkEggBuffer (Some m) 0 (eb_allocated_len b) 0 (eb_allocator b)).

(** ** Growing *)

Definition egg_buffer_reserve (len : Z) : ST EggBuffer bool := fun b =>
  if len <? eb_allocated_len b then Ok (true, b) else
  (* Calculate a new length, minimize number of buffer allocations *)
  let newlen := wrap64 (eb_allocated_len b * 2) in
  let newlen := if newlen <? len then wrap64 (newlen + len) else newlen in
  match eb_allocator b with
  | None => buffer_fail false b
  | Some allocator =>
      match al_realloc allocator (eb_buf b) newlen with
      | None => buffer_fail false b
      | Some newbuf =>
          Ok (true, mkEggBuffer (Some newbuf) (eb_len b) newlen (eb_failures b)
                      (eb_allocator b))
      end
  end.

Definition egg_buffer_resize (len : Z) : ST EggBuffer bool :=
  ok ← egg_buffer_reserve len;
  if (ok : bool) then modify (set_len len);; mret true else mret false.

(** [buffer->buf + off], as the destination of [bs]. *)
Definition store (off : Z) (bs : list Z) : ST EggBuffer unit := fun b =>
  m ← mem_write (bmem b) off bs;
  Ok (tt, set_buf (Some m) b).

(** Returns the offset the caller may write at, [None] for a null pointer. *)
Definition egg_buffer_add_empty (len : Z) : ST EggBuffer (option Z) :=
  pos ← gets eb_len;
  ok ← egg_buffer_reserve (wrap64 (pos + len));
  if (ok : bool) then
    modify (fun b => set_len (wrap64 (eb_len b + len)) b);; mret (Some pos)
  else mret None.

(** [val] is the object the argument points into, [len] the byte count. *)
Definition egg_buffer_append (val : block) (len : Z) : ST EggBuffer bool :=
  pos ← gets eb_len;
  ok ← egg_buffer_reserve (wrap64 (pos + len));
  if (ok : bool) then
    bs ← lift_res (mem_read val 0 len);
    store pos bs;;
    modify (fun b => set_len (wrap64 (eb_len b + len)) b);; mret true
  else mret false.

Definition egg_buffer_add_byte (val : Z) : ST EggBuffer bool :=
  pos ← gets eb_len;
  ok ← egg_buffer_reserve (wrap64 (pos + 1));
  if (ok : bool) then
    store pos [val];;
    modify (fun b => set_len (wrap64 (eb_len b + 1)) b);; mret true
  else mret false.

Definition egg_buffer_equal (b1 b2 : EggBuffer) : res bool :=
  if negb (eb_len b1 =? eb_len b2) then Ok false else
  m1 ← mem_read (bmem b1) 0 (eb_len b1);
  m2 ← mem_read (bmem b2) 0 (eb_len b1);
  Ok (bool_decide (m1 = m2)).

(** ** Reading

    A reader returns [None] where the C function returns 0, and the value and
    [next_offset] where it returns 1. *)

(** [buffer->len < n || offset > buffer->len - n] *)
Definition out_of_range (b : EggBuffer) (n offset : Z) : bool :=
  (eb_len b <? n) || (eb_len b - n <? offset).

Definition read_at {A} (n : Z) (decode : list Z -> A) (offset : Z)
    : ST EggBuffer (option (A * Z)) := fun b =>
  if out_of_range b n offset then buffer_fail None b else
  bs ← mem_read (bmem b) offset n;
  Ok (Some (decode bs, wrap64 (offset + n)), b).

Definition nth_byte (bs : list Z) (i : nat) : Z := nth i bs 0.

Definition egg_buffer_get_byte : Z -> ST EggBuffer (option (Z * Z)) :=
  read_at 1 (fun ptr => nth_byte ptr 0).

Definition egg_buffer_encode_uint16 (val : Z) : list Z :=
  [Z.land (Z.shiftr val 8) 255; Z.land (Z.shiftr val 0) 255].

Definition egg_buffer_decode_uint16 (buf : list Z) : Z :=
  wrap16 (Z.lor (Z.shiftl (nth_byte buf 0) 8) (nth_byte buf 1)).

Definition egg_buffer_set_uint16 (offset val : Z) : ST EggBuffer bool := fun b =>
  if out_of_range b 2 offset then buffer_fail false b else
  (store offset (egg_buffer_encode_uint16 val);; mret true) b.

Definition egg_buffer_add_uint16 (val : Z) : ST EggBuffer bool :=
  pos ← gets eb_len;
  ok ← egg_buffer_reserve (wrap64 (pos + 2));
  if (ok : bool) then
    modify (fun b => set_len (wrap64 (eb_len b + 2)) b);;
    pos' ← gets (fun b => wrap64 (eb_len b - 2));
    _ ← egg_buffer_set_uint16 pos' val; mret true
  else mret false.

Definition egg_buffer_get_uint16 : Z -> ST EggBuffer (option (Z * Z)) :=
  read_at 2 egg_buffer_decode_uint16.

Definition egg_buffer_encode_uint32 (val : Z) : list Z :=
  [Z.land (Z.shiftr val 24) 255; Z.land (Z.shiftr val 16) 255;
   Z.land (Z.shiftr val 8) 255; Z.land (Z.shiftr val 0) 255].

Definition egg_buffer_decode_uint32 (ptr : list Z) : Z :=
  wrap32 (Z.lor (Z.lor (Z.lor (Z.shiftl (nth_byte ptr 0) 24)
                          (Z.shiftl (nth_byte ptr 1) 16))
                  (Z.shiftl (nth_byte ptr 2) 8)) (nth_byte ptr 3)).

Definition egg_buffer_set_uint32 (offset val : Z) : ST EggBuffer bool := fun b =>
  if out_of_range b 4 offset then buffer_fail false b else
  (store offset (egg_buffer_encode_uint32 val);; mret true) b.

(** The parameter is a [uint32_t]: a wider argument is converted. *)
Definition egg_buffer_add_uint32 (val : Z) : ST EggBuffer bool :=
  let val := wrap32 val in
  pos ← gets eb_len;
  ok ← egg_buffer_reserve (wrap64 (pos + 4));
  if (ok : bool) then
    modify (fun b => set_len (wrap64 (eb_len b + 4)) b);;
    pos' ← gets (fun b => wrap64 (eb_len b - 4));
    _ ← egg_buffer_set_uint32 pos' val; mret true
  else mret false.

Definition egg_buffer_get_uint32 : Z -> ST EggBuffer (option (Z * Z)) :=
  read_at 4 egg_buffer_decode_uint32.

Definition egg_buffer_add_uint64 (val : Z) : ST EggBuffer bool :=
  ok ← egg_buffer_add_uint32 (Z.land (Z.shiftr val 32) 4294967295);
  if (ok : bool) then egg_buffer_add_uint32 (Z.land val 4294967295) else mret false.

Definition egg_buffer_get_uint64 (offset : Z) : ST EggBuffer (option (Z * Z)) :=
  ra ← egg_buffer_get_uint32 offset;
  match ra with
  | None => mret None
  | Some (a, offset) =>
      rb ← egg_buffer_get_uint32 offset;
      match rb with
      | None => mret None
      | Some (b, offset) => mret (Some (wrap64 (Z.lor (Z.shiftl a 32) b), offset))
      end
  end.

(** ** Byte arrays and strings *)

(** A null [val] is [None]. *)
Definition egg_buffer_add_byte_array (val : option block) (len : Z) : ST EggBuffer bool :=
  match val with
  | None => egg_buffer_add_uint32 4294967295
  | Some val =>
      if 2147483647 <=? len then buffer_fail false else
      ok ← egg_buffer_add_uint32 len;
      if (ok : bool) then egg_buffer_append val len else mret false
  end.

Definition egg_buffer_add_byte_array_empty (vlen : Z) : ST EggBuffer (option Z) :=
  if 2147483647 <=? vlen then buffer_fail None else
  ok ← egg_buffer_add_uint32 vlen;
  if (ok : bool) then egg_buffer_add_empty vlen else mret None.

(** Returns the array ([None] for a null pointer, else the [vlen] bytes that
    [val] points to), [vlen] and [next_offset]. *)
Definition egg_buffer_get_byte_array (offset : Z)
    : ST EggBuffer (option ((option block * Z) * Z)) :=
  r ← egg_buffer_get_uint32 offset;
  match r with
  | None => mret None
  | Some (len, offset) =>
      if len =? 4294967295 then mret (Some ((None, 0), offset))
      else if 2147483647 <=? len then buffer_fail None
      else
        b ← get_st;
        if out_of_range b len offset then buffer_fail None else
        bs ← lift_res (mem_read (bmem b) offset len);
        mret (Some ((Some bs, len), wrap64 (offset + len)))
  end.

(** A C string is the bytes before its terminating zero. *)
Definition egg_buffer_add_string (str : option block) : ST EggBuffer bool :=
  match str with
  | None => egg_buffer_add_uint32 4294967295
  | Some str =>
      let len := zlen str in
      if 2147483647 <=? len then mret false else
      ok ← egg_buffer_add_uint32 len;
      if (ok : bool) then egg_buffer_append str len else mret false
  end.

(** The loop of [egg_buffer_add_stringv] over the individual strings. *)
Fixpoint add_strings (v : list block) : ST EggBuffer bool :=
  match v with
  | [] => mret true
  | s :: v =>
      ok ← egg_buffer_add_string (Some s);
      if (ok : bool) then add_strings v else mret false
  end.

(** [strv] is the strings before the terminating null pointer. *)
Definition egg_buffer_add_stringv (strv : option (list block)) : ST EggBuffer bool :=
  match strv with
  | None => mret false
  | Some v =>
      ok ← egg_buffer_add_uint32 (wrap32 (zlen v));
      if (ok : bool) then add_strings v else mret false
  end.

Section Strings.
Context (DEFAULT_ALLOCATOR : EggBufferAllocator).

(** The allocator a string is copied with: the one passed, else the
    buffer's own, else the default one. *)
Definition string_allocator (allocator : option EggBufferAllocator) (b : EggBuffer)
    : EggBufferAllocator :=
  match allocator with
  | Some a => a
  | None => default DEFAULT_ALLOCATOR (eb_allocator b)
  end.

(** Returns [str_ret] ([None] for a null pointer) and [next_offset].  The
    object allocated holds the string and its terminating zero. *)
Definition egg_buffer_get_string (offset : Z) (allocator : option EggBufferAllocator)
    : ST EggBuffer (option (option block * Z)) :=
  b ← get_st;
  let allocator := string_allocator allocator b in
  r ← egg_buffer_get_uint32 offset;
  match r with
  | None => mret None
  | Some (len, offset) =>
      if len =? 4294967295 then mret (Some (None, offset))
      else if 2147483647 <=? len then mret None
      else
        b ← get_st;
        if out_of_range b len offset then mret None else
        bs ← lift_res (mem_read (bmem b) offset len);
        (* Make sure no null characters in string *)
        if bool_decide (0 ∈ bs) then mret None else
        match al_realloc allocator None (wrap64 (len + 1)) with
        | None => mret None
        | Some m =>
            m ← lift_res (mem_write m 0 bs);
            m ← lift_res (mem_write m len [0]);
            mret (Some (Some m, wrap64 (offset + len)))
        end
  end.

(** The loop of [egg_buffer_get_stringv]: [strv] is the array of pointers,
    [i] the index of the next one, [n] how many are still to come. *)
Fixpoint get_strings (n : nat) (i : nat) (allocator : EggBufferAllocator)
    (strv : list (option block)) (offset : Z)
    : ST EggBuffer (option (list (option block) * Z)) :=
  match n with
  | O => mret (Some (strv, offset))
  | S n =>
      r ← egg_buffer_get_string offset (Some allocator);
      match r with
      | None => mret None
      | Some (str, offset) =>
          if (i <? length strv)%nat
          then get_strings n (S i) allocator (<[i := str]> strv) offset
          else crash OutOfBounds
      end
  end.

(** The size of the pointer array is computed in [uint32_t] before it is
    scaled: [(n + 1) * sizeof (char * )]. *)
Definition egg_buffer_get_stringv (offset : Z) (allocator : option EggBufferAllocator)
    : ST EggBuffer (option (list (option block) * Z)) :=
  b ← get_st;
  let allocator := string_allocator allocator b in
  r ← egg_buffer_get_uint32 offset;
  match r with
  | None => mret None
  | Some (n, offset) =>
      let len := wrap32 (n + 1) * 8 in
      match al_realloc allocator None len with
      | None => mret None
      | Some _ =>
          get_strings (Z.to_nat n) 0 allocator
            (replicate (Z.to_nat (len `div` 8)) None) offset
      end
  end.
End Strings.

(** ** What the allocator promises

    [realloc] either fails or returns an object of the wanted size that starts
    with the old bytes; it never hands out more than [PTRDIFF_MAX] bytes. *)
Class AllocatorOk (al : EggBufferAllocator) : Prop := {
  al_size p n q : al_realloc al p n = Some q -> 0 < n -> zlen q = n /\ n <= PTRDIFF_MAX;
  al_keep p n q : al_realloc al (Some p) n = Some q -> zlen p <= n ->
    take (length p) q = p;
  al_bytes p n q : al_realloc al p n = Some q -> bytes (default [] p) -> bytes q;
}.

(** A [realloc] that fails above a limit and fills new memory with zeros:
    the concrete allocator of the examples. *)
Definition zero_allocator (limit : Z) : EggBufferAllocator :=
  mkAllocator 1 (fun p n =>
    if (n <=? limit) && (limit <=? PTRDIFF_MAX) then
      Some (take (Z.to_nat n) (default [] p)
            ++ replicate (Z.to_nat (n - zlen (default [] p))) 0)
    else None).

#[export] Instance zero_allocator_ok limit : AllocatorOk (zero_allocator limit).
Proof.
  split; unfold zero_allocator; simpl; intros p n q; destruct (_ && _) eqn:E; try done;
    apply andb_true_iff in E as [En%Z.leb_le El%Z.leb_le]; intros [= <-].
  - intros. split; [|lia].
    rewrite zlen_app, zlen_replicate. unfold zlen. rewrite length_take. lia.
  - intros Hn. simpl. rewrite (firstn_all2 p) by (unfold zlen in Hn; lia). apply take_app_length.
  - intros. apply Forall_app; split; [by apply Forall_take|].
    apply Forall_replicate. simpl. lia.
Qed.

(** ** Well-formed buffers *)

Record buffer_ok (b : EggBuffer) : Prop := {
  bo_size : zlen (bmem b) = eb_allocated_len b;
  bo_len : 0 <= eb_len b <= eb_allocated_len b;
  bo_max : 0 < eb_allocated_len b <= PTRDIFF_MAX;
  bo_bytes : bytes (bmem b);
  bo_failures : 0 <= eb_failures b;
  bo_alloc : forall al, eb_allocator b = Some al -> AllocatorOk al;
}.

(** The bytes a buffer holds: the abstract value of the data structure. *)
Definition contents (b : EggBuffer) : list Z := take (Z.to_nat (eb_len b)) (bmem b).

Lemma contents_len b : buffer_ok b -> zlen (contents b) = eb_len b.
Proof. intros []. apply zlen_take. lia. Qed.

Lemma contents_bytes b : buffer_ok b -> bytes (contents b).
Proof. intros []. by apply Forall_take. Qed.

Lemma contents_slice b off n :
  buffer_ok b -> 0 <= off -> 0 <= n -> off + n <= eb_len b ->
  mem_read (bmem b) off n = Ok (slice (contents b) off n).
Proof.
  intros [] ???. rewrite mem_read_ok by lia. unfold contents. by rewrite slice_take.
Qed.

Lemma out_of_range_spec b n off :
  out_of_range b n off = false <-> off + n <= eb_len b /\ n <= eb_len b.
Proof. unfold out_of_range. rewrite orb_false_iff, !Z.ltb_ge. lia. Qed.

Lemma out_of_range_true b n off :
  out_of_range b n off = true <-> eb_len b < off + n \/ eb_len b < n.
Proof. unfold out_of_range. rewrite orb_true_iff, !Z.ltb_lt. lia. Qed.

(** ** Specifications of the writers

    Callers test the return value of some writers and only the error count at
    the end of others, so a writer of [enc] is specified both ways: [latched]
    says that if the error count has not moved, all of [enc] was appended, and
    that it does not move as long as there is room. *)

(** [al] gives the memory the longest message takes. *)
Definition gives_memory (al : EggBufferAllocator) : Prop :=
  forall p n, 0 < n <= 8589934592 -> is_Some (al_realloc al p n).

(** Memory is found for [n] more bytes, which are no more than a byte array may have. *)
Definition room_for (b : EggBuffer) (n : Z) : Prop :=
  (exists al, eb_allocator b = Some al /\ gives_memory al) /\ zlen (contents b) + n <= 2147483647.

Lemma room_for_less b n n' : n' <= n -> room_for b n -> room_for b n'.
Proof. intros Hn [? ?]. split; [done|lia]. Qed.

Record latched (enc : list Z) (b b' : EggBuffer) : Prop := {
  lt_ok : buffer_ok b';
  lt_alloc : eb_allocator b' = eb_allocator b;
  lt_prefix : contents b `prefix_of` contents b';
  lt_failures : eb_failures b <= eb_failures b';
  lt_done : eb_failures b' = eb_failures b -> contents b' = contents b ++ enc;
  lt_room : room_for b (zlen enc) -> eb_failures b' = eb_failures b;
}.

(** A writer that also reports in its return value whether it failed, and
    counts one failure when it did. *)
Definition wrote (enc : list Z) (b : EggBuffer) (r : bool) (b' : EggBuffer) : Prop :=
  latched enc b b' /\ eb_failures b' = eb_failures b + (if r then 0 else 1).

Lemma wrote_latched enc b r b' :
  wrote enc b r b' -> latched enc b b' /\ (r = true <-> eb_failures b' = eb_failures b).
Proof. intros [Hl Hf]. split; [done|]. destruct r; split; intros; (done || lia). Qed.

Lemma latched_refl b : buffer_ok b -> latched [] b b.
Proof. intros. split; [done|done|done|lia| |done]. intros. by rewrite app_nil_r. Qed.

Lemma latched_trans e1 e2 b b1 b2 :
  latched e1 b b1 -> latched e2 b1 b2 -> latched (e1 ++ e2) b b2.
Proof.
  intros [? Ha1 ? ? Hd1 Hr1] [? ? ? ? Hd2 Hr2]. split; [done|congruence|by etrans|lia|..].
  - intros. rewrite Hd2, Hd1, app_assoc by lia. done.
  - rewrite zlen_app. pose proof (zlen_nonneg e2). intros Hr.
    assert (eb_failures b1 = eb_failures b) as Hf1 by (apply Hr1; eapply room_for_less; [|exact Hr]; lia).
    rewrite <- Hf1. apply Hr2. destruct Hr as [Hal Hl]. split; [by rewrite Ha1|].
    rewrite Hd1, zlen_app by done. lia.
Qed.

Lemma fail_buffer_ok b : buffer_ok b -> buffer_ok (fail_buffer b).
Proof. intros []. by split; simpl; try lia. Qed.

Lemma fail_wrote enc b :
  buffer_ok b -> ~ room_for b (zlen enc) -> wrote enc b false (fail_buffer b).
Proof.
  intros Hb Hr. split; [split|]; simpl; try done; try lia. by apply fail_buffer_ok.
Qed.

Lemma wrote_false_latched enc enc' b b' :
  zlen enc <= zlen enc' -> wrote enc b false b' -> latched enc' b b'.
Proof.
  intros Hz [[] Hr]. split; try done; [intros; lia|].
  intros Hroom%(room_for_less _ _ (zlen enc)); [auto|done].
Qed.

Lemma wrote_true enc b b' :
  wrote enc b true b' -> eb_failures b' = eb_failures b /\ contents b' = contents b ++ enc.
Proof. intros [[] Hr]. assert (eb_failures b' = eb_failures b) by lia. auto. Qed.

(** The new length is computed without wrap-around and is large enough. *)
Lemma grown_length a n :
  0 < a <= PTRDIFF_MAX -> 0 <= n -> a <= n <= a + 1152921504606846976 ->
  let newlen := wrap64 (a * 2) in
  let newlen := if newlen <? n then wrap64 (newlen + n) else newlen in
  n <= newlen /\ a <= newlen.
Proof.
  intros Ha Hn Hr. rewrite (wrap64_id (a * 2)) by lia. cbv zeta.
  destruct (_ <? n) eqn:E.
  - apply Z.ltb_lt in E. rewrite wrap64_id; lia.
  - apply Z.ltb_ge in E. lia.
Qed.

(** Growing: on success there is room for the length asked for, and the bytes
    held are untouched; on failure only the error count moves. *)
Lemma egg_buffer_reserve_wp n b :
  buffer_ok b -> 0 <= n <= eb_len b + 1152921504606846976 ->
  wp (egg_buffer_reserve n) (fun r b' =>
    buffer_ok b' /\ contents b' = contents b /\ eb_len b' = eb_len b
    /\ eb_allocator b' = eb_allocator b
    /\ if r then n <= eb_allocated_len b' /\ eb_failures b' = eb_failures b
       else b' = fail_buffer b) b.
Proof.
  intros Hb Hroom. pose proof Hb as [Hs Hl Hm Hby Hf Ha].
  unfold egg_buffer_reserve, wp. destruct (n <? _) eqn:E; [split_and!; auto; lia|].
  apply Z.ltb_ge in E.
  destruct (grown_length (eb_allocated_len b) n) as [Hk Hk']; [lia..|].
  cbv zeta in *. set (k := if _ <? n then _ else _) in *. clearbody k.
  destruct (eb_allocator b) as [al|] eqn:Eal; [|split_and!; auto using fail_buffer_ok].
  destruct (al_realloc al (eb_buf b) k) as [q|] eqn:Eq;
    [|split_and!; auto using fail_buffer_ok].
  specialize (Ha al eq_refl). destruct (al_size _ _ _ Eq) as [Hq Hqm]; [lia|].
  pose proof (al_bytes _ _ _ Eq Hby) as Hqb.
  assert (take (length (bmem b)) q = bmem b) as Hkeep.
  { unfold bmem in *. destruct (eb_buf b) as [m|] eqn:Em; simpl in *; [|done].
    apply (al_keep _ _ _ Eq). lia. }
  split_and!; try done; try lia.
  - split; simpl; try done; try lia. naive_solver.
  - unfold contents; simpl. rewrite <- Hkeep, take_take. f_equal.
    unfold zlen in *. lia.
Qed.

(** Where memory is given, growing does not fail. *)
Lemma egg_buffer_reserve_gives n b :
  buffer_ok b -> 0 <= n <= 4294967296 ->
  wp (egg_buffer_reserve n) (fun r _ =>
    (exists al, eb_allocator b = Some al /\ gives_memory al) -> r = true) b.
Proof.
  intros Hb Hn. unfold egg_buffer_reserve, wp.
  destruct (Z.ltb_spec n (eb_allocated_len b)) as [|Hge]; [done|].
  pose proof Hb as [_ _ Hm _ _ _]. cbv zeta. rewrite (wrap64_id (eb_allocated_len b * 2)) by lia.
  set (k := if _ <? n then _ else _). assert (0 < k <= 8589934592) as Hk.
  { unfold k. destruct (Z.ltb_spec (eb_allocated_len b * 2) n); [rewrite wrap64_id by lia|]; lia. }
  destruct (eb_allocator b) as [al|].
  - destruct (al_realloc al (eb_buf b) k) eqn:E; [done|]. intros (? & [= <-] & Hg).
    destruct (Hg (eb_buf b) k Hk) as [q Hq]. congruence.
  - by intros (? & ? & _).
Qed.

(** Storing in memory already reserved. *)
Lemma store_wp off bs b :
  0 <= off -> off + zlen bs <= zlen (bmem b) -> bytes (bmem b) -> bytes bs ->
  wp (store off bs) (fun _ b' => exists m, b' = set_buf (Some m) b
    /\ zlen m = zlen (bmem b) /\ bytes m
    /\ take (Z.to_nat (off + zlen bs)) m = take (Z.to_nat off) (bmem b) ++ bs) b.
Proof.
  intros Ho Hroom Hb Hbs. destruct (mem_write_ok (bmem b) off bs) as (m & Hw & ? & ? & ?);
    [lia..|]. unfold store, wp. unfold mbind, res_bind. rewrite Hw. eauto 10.
Qed.

(** Growing keeps all the memory there was, also beyond the bytes held. *)
Lemma egg_buffer_reserve_keeps n b :
  buffer_ok b -> 0 <= n <= eb_len b + 1152921504606846976 ->
  wp (egg_buffer_reserve n) (fun r b' =>
    r = true -> take (length (bmem b)) (bmem b') = bmem b) b.
Proof.
  intros Hb Hroom. pose proof Hb as [Hs Hl Hm Hby Hf Ha].
  unfold egg_buffer_reserve, wp. destruct (n <? _) eqn:E; [by rewrite take_ge|].
  apply Z.ltb_ge in E.
  destruct (grown_length (eb_allocated_len b) n) as [Hk Hk']; [lia..|].
  cbv zeta in *. set (k := if _ <? n then _ else _) in *. clearbody k.
  destruct (eb_allocator b) as [al|]; [|done].
  destruct (al_realloc al (eb_buf b) k) as [q|] eqn:Eq; [|done].
  specialize (Ha al eq_refl). intros _. unfold bmem in *.
  destruct (eb_buf b) as [m|]; simpl in *; [|done]. apply (al_keep _ _ _ Eq). lia.
Qed.

(** What the part of a writer after a successful [egg_buffer_reserve] does. *)
Definition appended (enc : list Z) (b b' : EggBuffer) : Prop :=
  buffer_ok b' /\ contents b' = contents b ++ enc
  /\ eb_failures b' = eb_failures b /\ eb_allocator b' = eb_allocator b.

(** Storing at the end and then moving the length over it, or the other way
    round, appends. *)
Lemma appended_intro bs m b :
  buffer_ok b -> eb_len b + zlen bs <= eb_allocated_len b ->
  zlen m = zlen (bmem b) -> bytes m ->
  take (Z.to_nat (eb_len b + zlen bs)) m = contents b ++ bs ->
  appended bs b (set_len (wrap64 (eb_len b + zlen bs)) (set_buf (Some m) b)).
Proof.
  intros [Hs Hl Hm Hby Hf Ha] Hroom Hz Hmb Hc. pose proof (zlen_nonneg bs).
  rewrite wrap64_id by lia. split_and!; try done.
  split; unfold bmem; simpl; try done; try lia.
Qed.

(** The shape all writers share. *)
Lemma reserve_then_wp enc n (k : ST EggBuffer bool) b :
  buffer_ok b -> n = zlen enc -> n <= 1152921504606846976 ->
  (forall b1, buffer_ok b1 -> eb_len b1 = eb_len b -> eb_len b1 + n <= eb_allocated_len b1 ->
     wp k (fun r b' => r = true /\ appended enc b1 b') b1) ->
  wp (ok ← egg_buffer_reserve (wrap64 (eb_len b + n)); if (ok : bool) then k else mret false)
     (wrote enc b) b.
Proof.
  intros Hb Hz Hn Hk. pose proof Hb as [Hs Hl Hm Hby Hf Ha]. pose proof (zlen_nonneg enc).
  rewrite wrap64_id by lia.
  assert (wp (egg_buffer_reserve (eb_len b + n)) (fun r _ => room_for b n -> r = true) b) as Hg.
  { destruct (Z.le_gt_cases (eb_len b + n) 2147483647) as [Hle|Hgt].
    - eapply wp_mono; [apply (egg_buffer_reserve_gives (eb_len b + n) b Hb); lia|].
      intros r b1 H1 [Hal _]. by apply H1.
    - eapply wp_mono; [apply (egg_buffer_reserve_wp (eb_len b + n) b Hb); lia|].
      intros r b1 _ [_ Hle]. rewrite contents_len in Hle by done. lia. }
  eapply wp_call; [apply wp_and; [exact Hg|apply egg_buffer_reserve_wp; [done|lia]]|].
  intros [|] b1 (Hg1 & Hb1 & Hc1 & Hl1 & Ha1 & Hr).
  - destruct Hr as [Hroom Hf1]. eapply wp_mono; [apply Hk; [done|done|lia]|].
    intros r b2 (-> & Hb2 & Hc2 & Hf2 & Ha2). split; [split|]; try done; try congruence.
    + rewrite Hc2, Hc1. apply prefix_app_r. done.
    + lia.
    + lia.
  - subst b1 n. apply wp_ret. apply fail_wrote; [done|]. intros Hroom. by specialize (Hg1 Hroom).
Qed.

Lemma egg_buffer_append_wp val n b :
  buffer_ok b -> bytes val -> 0 <= n <= zlen val -> n <= 1152921504606846976 ->
  wp (egg_buffer_append val n) (wrote (slice val 0 n) b) b.
Proof.
  intros Hb Hv Hn Hmax. unfold egg_buffer_append. apply wp_bind, wp_gets.
  apply reserve_then_wp; [done|by rewrite zlen_slice by lia|lia|]. intros b1 Hb1 Hl1 Hroom.
  pose proof Hb1 as [Hs Hl Hm Hby Hf Ha].
  apply wp_bind. eapply wp_lift_res; [apply mem_read_ok; lia|].
  assert (zlen (slice val 0 n) = n) as Hz by (apply zlen_slice; lia).
  rewrite <- Hl1. eapply wp_call; [apply store_wp; auto using slice_bytes; lia|].
  intros _ b2 (m & -> & Hmz & Hmb & Hmc). apply wp_bind, wp_modify, wp_ret. split; [done|].
  rewrite Hz in Hmc. simpl. pose proof (appended_intro (slice val 0 n) m b1) as HA.
  rewrite Hz in HA. apply HA; auto.
Qed.

Lemma egg_buffer_add_byte_wp v b :
  buffer_ok b -> is_u8 v -> wp (egg_buffer_add_byte v) (wrote [v] b) b.
Proof.
  intros Hb Hv. unfold egg_buffer_add_byte. apply wp_bind, wp_gets.
  apply reserve_then_wp; [done|done|lia|]. intros b1 Hb1 Hl1 Hroom.
  pose proof Hb1 as [Hs Hl Hm Hby Hf Ha]. rewrite <- Hl1.
  eapply wp_call; [apply store_wp; auto with proxy; rewrite ?zlen_cons, ?zlen_nil; lia|].
  intros _ b2 (m & -> & Hmz & Hmb & Hmc). apply wp_bind, wp_modify, wp_ret. split; [done|].
  by apply (appended_intro [v] m b1).
Qed.

(** Storing at the end of memory whose length already counts the new bytes:
    the [egg_buffer_set_] functions as the [egg_buffer_add_] functions use them. *)
Lemma set_after_grow_wp bs n b :
  buffer_ok b -> bytes bs -> zlen bs = n -> 0 <= n -> eb_len b + n <= eb_allocated_len b ->
  wp (modify (fun b => set_len (wrap64 (eb_len b + n)) b);;
      pos' ← gets (fun b => wrap64 (eb_len b - n));
      _ ← ((fun b => if out_of_range b n pos' then buffer_fail false b
                     else (store pos' bs;; mret true) b) : ST EggBuffer bool);
      mret true)
     (fun r b' => r = true /\ appended bs b b') b.
Proof.
  intros Hb Hbs Hn Hpos Hroom. pose proof Hb as [Hs Hl Hm Hby Hf Ha].
  apply wp_bind, wp_modify, wp_bind, wp_gets. simpl.
  rewrite (wrap64_id (_ + n)) by lia. rewrite wrap64_id by lia.
  replace (eb_len b + n - n) with (eb_len b) by lia.
  apply wp_bind. unfold wp at 1.
  rewrite (proj2 (out_of_range_spec _ _ _)) by (simpl; lia).
  assert (wp (store (eb_len b) bs) (fun _ b' => exists m,
      b' = set_buf (Some m) (set_len (eb_len b + n) b)
      /\ zlen m = zlen (bmem b) /\ bytes m
      /\ take (Z.to_nat (eb_len b + zlen bs)) m = contents b ++ bs)
    (set_len (eb_len b + n) b)) as Hst
    by (apply (store_wp (eb_len b) bs (set_len (eb_len b + n) b)); unfold bmem in *; simpl; auto; lia).
  apply wp_inv in Hst as (? & b' & Hrun & m & -> & Hmz & Hmb & Hmc).
  unfold mbind at 1, ST_bind at 1. rewrite Hrun. simpl. split; [done|].
  subst n. pose proof (appended_intro bs m b) as HA. rewrite wrap64_id in HA by lia.
  by apply HA.
Qed.

(** ** Byte order *)

Ltac solve_div_mod := Z.div_mod_to_equations; lia.

Lemma encode_uint32_div v :
  egg_buffer_encode_uint32 v =
    [(v / 16777216) mod 256; (v / 65536) mod 256; (v / 256) mod 256; v mod 256].
Proof.
  unfold egg_buffer_encode_uint32. rewrite !land_255, !Z.shiftr_div_pow2 by lia.
  by rewrite Z.pow_0_r, Z.div_1_r.
Qed.

Lemma encode_uint16_div v :
  egg_buffer_encode_uint16 v = [(v / 256) mod 256; v mod 256].
Proof.
  unfold egg_buffer_encode_uint16. rewrite !land_255, !Z.shiftr_div_pow2 by lia.
  by rewrite Z.pow_0_r, Z.div_1_r.
Qed.

Lemma decode_uint32_sum a b c d :
  is_u8 a -> is_u8 b -> is_u8 c -> is_u8 d ->
  egg_buffer_decode_uint32 [a; b; c; d] = a * 16777216 + b * 65536 + c * 256 + d.
Proof.
  intros. unfold egg_buffer_decode_uint32, nth_byte. simpl nth.
  rewrite <- !Z.lor_assoc, (lor_shiftl_add c d 8) by lia.
  rewrite (lor_shiftl_add b _ 16) by lia. rewrite (lor_shiftl_add a _ 24) by lia.
  rewrite wrap32_id by lia. lia.
Qed.

Lemma decode_uint16_sum a b :
  is_u8 a -> is_u8 b -> egg_buffer_decode_uint16 [a; b] = a * 256 + b.
Proof.
  intros. unfold egg_buffer_decode_uint16, nth_byte. simpl nth.
  rewrite (lor_shiftl_add a b 8) by lia. rewrite wrap16_id; lia.
Qed.

Lemma encode_uint32_bytes v : bytes (egg_buffer_encode_uint32 v).
Proof. rewrite encode_uint32_div. repeat constructor; simpl; solve_div_mod. Qed.
Lemma encode_uint16_bytes v : bytes (egg_buffer_encode_uint16 v).
Proof. rewrite encode_uint16_div. repeat constructor; simpl; solve_div_mod. Qed.
Lemma zlen_encode_uint32 v : zlen (egg_buffer_encode_uint32 v) = 4.
Proof. done. Qed.
Lemma zlen_encode_uint16 v : zlen (egg_buffer_encode_uint16 v) = 2.
Proof. done. Qed.
#[export] Hint Resolve encode_uint32_bytes encode_uint16_bytes : proxy.
#[export] Hint Rewrite zlen_encode_uint32 zlen_encode_uint16 : zlen.

Lemma decode_encode_uint32 v :
  is_u32 v -> egg_buffer_decode_uint32 (egg_buffer_encode_uint32 v) = v.
Proof.
  intros. rewrite encode_uint32_div, decode_uint32_sum by solve_div_mod. solve_div_mod.
Qed.

Lemma encode_decode_uint32 bs :
  bytes bs -> zlen bs = 4 -> egg_buffer_encode_uint32 (egg_buffer_decode_uint32 bs) = bs.
Proof.
  intros Hb Hz. unfold zlen in Hz.
  destruct bs as [|a [|b [|c [|d [|]]]]]; simpl in Hz; try lia. clear Hz.
  rewrite !Forall_cons in Hb. simpl in Hb.
  rewrite decode_uint32_sum, encode_uint32_div by lia.
  f_equal; [|f_equal; [|f_equal; [|f_equal]]]; solve_div_mod.
Qed.

Lemma decode_encode_uint16 v :
  is_u16 v -> egg_buffer_decode_uint16 (egg_buffer_encode_uint16 v) = v.
Proof.
  intros. rewrite encode_uint16_div, decode_uint16_sum by solve_div_mod. solve_div_mod.
Qed.

Lemma decode_uint32_range bs : is_u32 (egg_buffer_decode_uint32 bs).
Proof. apply wrap32_range. Qed.

(** The encodings the writers append. *)
Definition enc_uint32 (v : Z) : list Z := egg_buffer_encode_uint32 (wrap32 v).
Definition enc_uint64 (v : Z) : list Z :=
  egg_buffer_encode_uint32 (wrap32 (Z.shiftr v 32)) ++ egg_buffer_encode_uint32 (wrap32 v).
Definition enc_byte_array (v : option block) : list Z :=
  match v with
  | None => enc_uint32 4294967295
  | Some bs => enc_uint32 (zlen bs) ++ bs
  end.

#[global] Arguments egg_buffer_encode_uint16 : simpl never.
#[global] Arguments egg_buffer_encode_uint32 : simpl never.
#[global] Arguments egg_buffer_decode_uint32 : simpl never.
#[global] Arguments enc_uint32 : simpl never.
#[global] Arguments enc_uint64 : simpl never.

Lemma enc_uint32_bytes v : bytes (enc_uint32 v).
Proof. apply encode_uint32_bytes. Qed.
Lemma enc_uint64_bytes v : bytes (enc_uint64 v).
Proof. apply Forall_app_2; apply encode_uint32_bytes. Qed.
Lemma zlen_enc_uint32 v : zlen (enc_uint32 v) = 4.
Proof. done. Qed.
Lemma zlen_enc_uint64 v : zlen (enc_uint64 v) = 8.
Proof. done. Qed.
#[export] Hint Resolve enc_uint32_bytes enc_uint64_bytes : proxy.
#[export] Hint Rewrite zlen_enc_uint32 zlen_enc_uint64 : zlen.

(** ** Integers and byte arrays: specifications *)

Lemma egg_buffer_add_uint32_wp v b :
  buffer_ok b -> wp (egg_buffer_add_uint32 v) (wrote (enc_uint32 v) b) b.
Proof.
  intros Hb. unfold egg_buffer_add_uint32. apply wp_bind, wp_gets.
  apply reserve_then_wp; [done|done|lia|]. intros b1 Hb1 _ Hroom.
  by apply set_after_grow_wp; auto with proxy.
Qed.

Lemma egg_buffer_add_uint16_wp v b :
  buffer_ok b -> wp (egg_buffer_add_uint16 v) (wrote (egg_buffer_encode_uint16 v) b) b.
Proof.
  intros Hb. unfold egg_buffer_add_uint16. apply wp_bind, wp_gets.
  apply reserve_then_wp; [done|done|lia|]. intros b1 Hb1 _ Hroom.
  by apply set_after_grow_wp; auto with proxy.
Qed.

(** Two writers one after the other, the second only if the first succeeded. *)
Lemma wrote_seq e1 e2 (m1 m2 : ST EggBuffer bool) b :
  wp m1 (wrote e1 b) b ->
  (forall b1, buffer_ok b1 -> wp m2 (wrote e2 b1) b1) ->
  wp (ok ← m1; if (ok : bool) then m2 else mret false) (wrote (e1 ++ e2) b) b.
Proof.
  intros H1 H2. eapply wp_call; [exact H1|]. intros [|] b1 [Hl1 Hr1].
  - eapply wp_mono; [apply H2, Hl1|]. intros r b2 [Hl2 Hr2]. split.
    + by eapply latched_trans.
    + lia.
  - apply wp_ret. split.
    + eapply wrote_false_latched; [|by split]. rewrite zlen_app. pose proof (zlen_nonneg e2). lia.
    + done.
Qed.

Lemma egg_buffer_add_uint64_wp v b :
  buffer_ok b -> wp (egg_buffer_add_uint64 v) (wrote (enc_uint64 v) b) b.
Proof.
  intros Hb. unfold egg_buffer_add_uint64, enc_uint64. rewrite !land_u32.
  apply wrote_seq; [|intros b1 Hb1].
  - eapply wp_mono; [by apply egg_buffer_add_uint32_wp|]. intros r b' Hw.
    unfold enc_uint32, wrap32 in *. by rewrite Zmod_mod in Hw.
  - eapply wp_mono; [by apply egg_buffer_add_uint32_wp|]. intros r b' Hw.
    unfold enc_uint32, wrap32 in *. by rewrite Zmod_mod in Hw.
Qed.

(** A byte array of at least 2{^31} - 1 bytes is refused; otherwise the first
    [n] bytes of the object are written behind their count. *)
Lemma egg_buffer_add_byte_array_wp val n b :
  buffer_ok b ->
  (forall bs, val = Some bs -> bytes bs /\ 0 <= n <= zlen bs) ->
  wp (egg_buffer_add_byte_array val n)
     (wrote (enc_byte_array ((fun bs => slice bs 0 n) <$> val)) b) b.
Proof.
  intros Hb Hv. unfold egg_buffer_add_byte_array, enc_byte_array.
  destruct val as [bs|]; cbn [fmap option_fmap option_map];
    [|by apply egg_buffer_add_uint32_wp].
  destruct (Hv _ eq_refl) as (Hbs & Hn & Hlen). destruct (_ <=? n) eqn:E.
  - apply Z.leb_le in E. apply wp_bind, wp_modify, wp_ret, fail_wrote; [done|].
    intros [_ Hr]. rewrite zlen_app, zlen_enc_uint32, zlen_slice in Hr by lia.
    pose proof (zlen_nonneg (contents b)). lia.
  - apply Z.leb_gt in E. rewrite zlen_slice by lia.
    apply wrote_seq; [by apply egg_buffer_add_uint32_wp|].
    intros b1 Hb1. apply egg_buffer_append_wp; auto; lia.
Qed.

(** ** Specifications of the readers

    A reader does not change what is held; it fails exactly when the bytes it
    needs are not there, and then counts one failure. *)

Definition read_result {A} (need : bool) (v : A) (next : Z) (b : EggBuffer)
    (r : option (A * Z)) (b' : EggBuffer) : Prop :=
  if need then r = Some (v, next) /\ b' = b else r = None /\ b' = fail_buffer b.

Lemma read_at_wp {A} n (decode : list Z -> A) off b :
  buffer_ok b -> 0 <= off -> 0 <= n < 18446744073709551616 ->
  wp (read_at n decode off)
     (read_result (off + n <=? eb_len b) (decode (slice (contents b) off n)) (off + n) b) b.
Proof.
  intros Hb Ho Hn. unfold read_at, wp, read_result.
  destruct (out_of_range b n off) eqn:E.
  - apply out_of_range_true in E.
    replace (off + n <=? eb_len b) with false by (symmetry; apply Z.leb_gt; lia). done.
  - apply out_of_range_spec in E as [E _]. unfold mbind, res_bind.
    rewrite contents_slice by (done || lia). rewrite wrap64_id by (destruct Hb; lia).
    replace (off + n <=? eb_len b) with true by (symmetry; apply Z.leb_le; lia). done.
Qed.

(** The bytes still to be read from an offset on. *)
Definition rest_at (b : EggBuffer) (off : Z) : list Z := drop (Z.to_nat off) (contents b).

Lemma rest_at_app b off enc rest :
  buffer_ok b -> 0 <= off <= eb_len b -> rest_at b off = enc ++ rest ->
  off + zlen enc <= eb_len b /\ slice (contents b) off (zlen enc) = enc
  /\ rest_at b (off + zlen enc) = rest.
Proof.
  intros Hb Ho Hr. unfold rest_at in *. pose proof (contents_len b Hb) as Hc.
  assert (off + zlen enc <= zlen (contents b)) as Hle.
  { pose proof (f_equal length Hr) as Hl. rewrite length_drop, length_app in Hl.
    unfold zlen in *. lia. }
  split_and!; [lia| |].
  - unfold slice. rewrite Hr. apply take_app_length'. unfold zlen. lia.
  - rewrite Z2Nat.inj_add by (try apply zlen_nonneg; lia).
    rewrite <- drop_drop, Hr. apply drop_app_length'. unfold zlen. lia.
Qed.

(** A reader of the encoding it is given returns the value encoded. *)
Definition reads {A} (m : Z -> ST EggBuffer (option (A * Z))) (enc : list Z) (v : A) : Prop :=
  forall b off rest, buffer_ok b -> 0 <= off <= eb_len b ->
    rest_at b off = enc ++ rest ->
    m off b = Ok (Some (v, off + zlen enc), b) /\ rest_at b (off + zlen enc) = rest.

Lemma read_at_reads {A} n (decode : list Z -> A) enc :
  zlen enc = n -> 0 < n < 18446744073709551616 -> reads (read_at n decode) enc (decode enc).
Proof.
  intros Hz Hn b off rest Hb Ho Hr.
  destruct (rest_at_app b off enc rest) as (Hle & Hs & Hrest); [done..|].
  split; [|done].
  destruct (wp_inv _ _ _ (read_at_wp n decode off b Hb ltac:(lia) ltac:(lia))) as (r & b' & -> & Hres).
  unfold read_result in Hres. rewrite (proj2 (Z.leb_le _ _)) in Hres by lia.
  destruct Hres as [-> ->]. rewrite <- Hz, Hs. done.
Qed.

Lemma get_byte_reads v : reads egg_buffer_get_byte [v] v.
Proof. by apply (read_at_reads 1 (fun ptr => nth_byte ptr 0) [v]). Qed.

Lemma get_uint32_reads v :
  is_u32 v -> reads egg_buffer_get_uint32 (enc_uint32 v) v.
Proof.
  intros Hv. rewrite <- (decode_encode_uint32 v Hv) at 2.
  unfold enc_uint32. rewrite wrap32_id by done. by apply read_at_reads.
Qed.

Lemma get_uint16_reads v :
  is_u16 v -> reads egg_buffer_get_uint16 (egg_buffer_encode_uint16 v) v.
Proof.
  intros Hv. rewrite <- (decode_encode_uint16 v Hv) at 2. by apply read_at_reads.
Qed.

(** On any buffer whatever, a reader returns: with a value ([P]) and a next
    offset that is still within the bytes held, or with failure counted once. *)
Definition read_total {A} (P : A -> Prop) (m : Z -> ST EggBuffer (option (A * Z))) : Prop :=
  forall b off, buffer_ok b -> 0 <= off <= eb_len b ->
    wp (m off) (fun r b' =>
      match r with
      | Some (v, next) => P v /\ off <= next <= eb_len b /\ b' = b
      | None => b' = fail_buffer b
      end) b.

Lemma read_at_total {A} n (decode : list Z -> A) (P : A -> Prop) :
  0 <= n < 18446744073709551616 ->
  (forall bs, bytes bs -> zlen bs = n -> P (decode bs)) -> read_total P (read_at n decode).
Proof.
  intros Hn HP b off Hb Ho. eapply wp_mono; [apply read_at_wp; (done || lia)|].
  intros r b' Hr. unfold read_result in Hr. destruct (_ <=? _) eqn:E; destruct Hr as [-> ->];
    [|done]. apply Z.leb_le in E. split; [|split; [lia|done]].
  apply HP; [by apply slice_bytes, contents_bytes|]. apply zlen_slice; try lia.
  by rewrite contents_len.
Qed.

Lemma get_byte_total : read_total (fun v => is_u8 v) egg_buffer_get_byte.
Proof.
  apply read_at_total; [lia|]. intros bs Hb Hz. unfold zlen in Hz.
  destruct bs as [|v [|]]; simpl in Hz; try lia. unfold nth_byte; simpl.
  by inversion Hb.
Qed.

Lemma get_uint32_total : read_total (fun v => is_u32 v) egg_buffer_get_uint32.
Proof. apply read_at_total; [lia|]. intros. apply decode_uint32_range. Qed.

(** Reading one thing after another. *)
Lemma read_total_bind {A B} (P : A -> Prop) (Q : B -> Prop)
    (m : Z -> ST EggBuffer (option (A * Z))) (k : A -> Z -> ST EggBuffer (option (B * Z))) :
  read_total P m -> (forall a, P a -> read_total Q (k a)) ->
  read_total Q (fun off => r ← m off;
                  match r with None => mret None | Some (a, off) => k a off end).
Proof.
  intros Hm Hk b off Hb Ho. eapply wp_call; [by apply Hm|].
  intros [[a off']|] b'; [|intros ->; by apply wp_ret].
  intros (Ha & Hoff & ->). eapply wp_mono; [apply Hk; auto; lia|].
  intros [[v next]|] b'; [|done]. intros (? & ? & ->). split_and!; auto; lia.
Qed.

Lemma read_total_fail {A} (P : A -> Prop) :
  read_total P (fun _ => buffer_fail None).
Proof. intros b off Hb Ho. unfold buffer_fail. by apply wp_bind, wp_modify, wp_ret. Qed.

Lemma get_uint64_total : read_total (fun v => is_u64 v) egg_buffer_get_uint64.
Proof.
  unfold egg_buffer_get_uint64.
  apply (read_total_bind (fun v => is_u32 v)); [apply get_uint32_total|]. intros a Ha.
  apply (read_total_bind (fun v => is_u32 v)); [apply get_uint32_total|]. intros c Hc.
  intros b off Hb Ho. apply wp_ret. split; [apply wrap64_range|split; [lia|done]].
Qed.

(** Reading something and then something else that is encoded behind it. *)
Lemma reads_bind {A B} (m : Z -> ST EggBuffer (option (A * Z))) e a
    (k : A -> Z -> ST EggBuffer (option (B * Z))) e' v :
  reads m e a -> reads (k a) e' v ->
  reads (fun off => r ← m off; match r with None => mret None | Some (a, off) => k a off end)
    (e ++ e') v.
Proof.
  intros Hm Hk b off rest Hb Ho Hr. rewrite <- app_assoc in Hr.
  destruct (Hm b off (e' ++ rest) Hb Ho Hr) as [Hm1 Hr1].
  destruct (rest_at_app b off e (e' ++ rest)) as (Hle & _); [done..|].
  pose proof (zlen_nonneg e).
  destruct (Hk b (off + zlen e) rest Hb ltac:(lia) Hr1) as [Hk1 Hr2].
  rewrite zlen_app, Z.add_assoc. split; [|done].
  unfold mbind, ST_bind. by rewrite Hm1.
Qed.

Lemma reads_ret {A} (v : A) : reads (fun off => mret (Some (v, off))) [] v.
Proof. intros b off rest Hb Ho Hr. rewrite zlen_nil, Z.add_0_r. done. Qed.

Lemma uint64_split v :
  is_u64 v -> wrap64 (Z.lor (Z.shiftl (wrap32 (Z.shiftr v 32)) 32) (wrap32 v)) = v.
Proof.
  intros. pose proof (wrap32_range v). rewrite lor_shiftl_add by lia.
  rewrite Z.shiftr_div_pow2 by lia. unfold wrap32, wrap64 in *.
  rewrite (Z.mod_small (v / 2 ^ 32)) by solve_div_mod.
  rewrite Z.mod_small by solve_div_mod. solve_div_mod.
Qed.

Lemma get_uint64_reads v :
  is_u64 v -> reads egg_buffer_get_uint64 (enc_uint64 v) v.
Proof.
  intros Hv. unfold enc_uint64, egg_buffer_get_uint64.
  rewrite <- (uint64_split v Hv) at 3.
  eapply reads_bind.
  - pose proof (get_uint32_reads (wrap32 (Z.shiftr v 32)) (wrap32_range _)) as H.
    unfold enc_uint32 in H. rewrite wrap32_id in H by apply wrap32_range. exact H.
  - rewrite <- (app_nil_r (egg_buffer_encode_uint32 (wrap32 v))).
    eapply (reads_bind _ _ (wrap32 v)); [|apply reads_ret].
    pose proof (get_uint32_reads (wrap32 v) (wrap32_range _)) as H.
    unfold enc_uint32 in H. rewrite wrap32_id in H by apply wrap32_range. exact H.
Qed.

(** What a byte array read back is: the pointer and the count. *)
Definition byte_array_value (v : option block) : option block * Z :=
  (v, match v with None => 0 | Some bs => zlen bs end).

Lemma get_byte_array_reads v :
  (forall bs, v = Some bs -> zlen bs < 2147483647) ->
  reads egg_buffer_get_byte_array (enc_byte_array v) (byte_array_value v).
Proof.
  intros Hv. unfold egg_buffer_get_byte_array, enc_byte_array, byte_array_value.
  destruct v as [bs|].
  - specialize (Hv _ eq_refl). pose proof (zlen_nonneg bs).
    apply (reads_bind _ _ (zlen bs) (fun len offset =>
      if len =? 4294967295 then mret (Some ((None, 0), offset))
      else if 2147483647 <=? len then buffer_fail None
      else b ← get_st;
        if out_of_range b len offset then buffer_fail None else
        bs ← lift_res (mem_read (bmem b) offset len);
        mret (Some ((Some bs, len), wrap64 (offset + len)))));
      [apply get_uint32_reads; lia|].
    intros b off rest Hb Ho Hr.
    rewrite (proj2 (Z.eqb_neq _ _)), (proj2 (Z.leb_gt _ _)) by lia.
    destruct (rest_at_app b off bs rest) as (Hle & Hs & Hrest); [done..|].
    split; [|done]. unfold mbind, ST_bind, get_st. 
    rewrite (proj2 (out_of_range_spec _ _ _)) by lia.
    rewrite contents_slice by (done || lia). unfold lift_res. rewrite Hs.
    rewrite wrap64_id by (destruct Hb; lia). done.
  - rewrite <- (app_nil_r (enc_uint32 _)).
    eapply (reads_bind _ _ 4294967295); [by apply get_uint32_reads|]. apply reads_ret.
Qed.

Definition byte_array_ok (v : option block * Z) : Prop :=
  match v.1 with
  | None => v.2 = 0
  | Some bs => v.2 = zlen bs /\ bytes bs /\ v.2 < 2147483647
  end.

Lemma get_byte_array_total : read_total byte_array_ok egg_buffer_get_byte_array.
Proof.
  unfold egg_buffer_get_byte_array.
  apply (read_total_bind (fun v => is_u32 v)); [apply get_uint32_total|].
  intros n Hn b off Hb Ho.
  destruct (_ =? _) eqn:E1; [apply wp_ret; split; [done|split; [lia|done]]|].
  destruct (_ <=? _) eqn:E2; [by apply read_total_fail|]. apply Z.leb_gt in E2.
  apply wp_bind, wp_get. destruct (out_of_range b n off) eqn:E3; [by apply read_total_fail|].
  apply out_of_range_spec in E3 as [E3 _].
  apply wp_bind. eapply wp_lift_res; [apply contents_slice; (done || lia)|]. apply wp_ret.
  rewrite wrap64_id by (destruct Hb; lia). split; [|split; [lia|done]].
  unfold byte_array_ok; simpl.
  rewrite zlen_slice by (rewrite ?contents_len; done || lia).
  auto using slice_bytes, contents_bytes.
Qed.

Lemma egg_buffer_reset_wp b :
  buffer_ok b ->
  wp egg_buffer_reset (fun _ b' => buffer_ok b' /\ contents b' = [] /\ eb_len b' = 0
    /\ eb_failures b' = 0 /\ eb_allocator b' = eb_allocator b
    /\ eb_allocated_len b' = eb_allocated_len b
    /\ bmem b' = replicate (Z.to_nat (eb_allocated_len b)) 0) b.
Proof.
  intros Hb. pose proof Hb as [Hs Hl Hm Hby Hf Ha]. unfold egg_buffer_reset, wp.
  assert (mem_write (bmem b) 0 (replicate (Z.to_nat (eb_allocated_len b)) 0)
          = Ok (replicate (Z.to_nat (eb_allocated_len b)) 0)) as Hw.
  { unfold mem_write. rewrite zlen_replicate, Z2Nat.id by lia.
    rewrite bool_decide_true by lia. simpl. f_equal.
    rewrite drop_ge by (unfold zlen in Hs; lia). apply app_nil_r. }
  unfold mbind, res_bind. rewrite Hw. split_and!; try done.
  split; unfold bmem; simpl; try done; try lia.
  - rewrite zlen_replicate. lia.
  - apply Forall_replicate. simpl. lia.
Qed.

Lemma egg_buffer_init_full_ok dflt reserve al b :
  AllocatorOk (default dflt al) -> 0 <= reserve ->
  egg_buffer_init_full dflt reserve al = (true, b) ->
  buffer_ok b /\ contents b = [] /\ eb_failures b = 0
  /\ eb_allocator b = Some (default dflt al).
Proof.
  intros Hal Hr. unfold egg_buffer_init_full.
  set (n := if reserve =? 0 then 64 else reserve).
  assert (0 < n) as Hn by (unfold n; destruct (Z.eqb_spec reserve 0); lia). clearbody n.
  destruct (al_realloc _ None n) as [m|] eqn:Em; [|done]. intros [= <-].
  destruct (al_size _ _ _ Em Hn) as [Hz Hmax].
  pose proof (al_bytes _ _ _ Em (Forall_nil_2 _)) as Hby.
  split_and!; try done. split; unfold bmem; simpl; try done; try lia. naive_solver.
Qed.

(** ** Strings *)

Lemma egg_buffer_add_string_wp str b :
  buffer_ok b -> (forall s, str = Some s -> bytes s /\ zlen s < 2147483647) ->
  wp (egg_buffer_add_string str) (wrote (enc_byte_array str) b) b.
Proof.
  intros Hb Hs. unfold egg_buffer_add_string, enc_byte_array.
  destruct str as [s|]; [|by apply egg_buffer_add_uint32_wp].
  destruct (Hs _ eq_refl) as [Hby Hlen]. pose proof (zlen_nonneg s).
  rewrite (proj2 (Z.leb_gt _ _)) by lia. rewrite <- (slice_full s) at 3.
  apply wrote_seq; [by apply egg_buffer_add_uint32_wp|].
  intros b1 Hb1. apply egg_buffer_append_wp; auto; lia.
Qed.

(** The object a decoded string is returned in: the string and its zero. *)
Definition c_string (s : block) : block := s ++ [0].

Definition never_fails (al : EggBufferAllocator) : Prop :=
  forall n, 0 <= n <= 4294967296 * 8 -> is_Some (al_realloc al None n).

Lemma copy_string m (s : block) :
  zlen m = zlen s + 1 ->
  exists m1, mem_write m 0 s = Ok m1 /\ mem_write m1 (zlen s) [0] = Ok (c_string s).
Proof.
  intros Hz. pose proof (zlen_nonneg s). unfold mem_write.
  rewrite bool_decide_true by lia. eexists; split; [done|].
  rewrite bool_decide_true.
  - change (Z.to_nat 0) with O. simpl. f_equal. unfold c_string.
    assert (length m = length s + 1)%nat by (unfold zlen in *; lia).
    rewrite take_app_length' by (unfold zlen; lia). do 2 f_equal.
    apply drop_ge. rewrite length_app, length_drop. unfold zlen. simpl. lia.
  - change (Z.to_nat 0) with O. simpl.
    unfold zlen in *. rewrite length_app, length_drop. simpl. lia.
Qed.

(** A string written by [egg_buffer_add_string] is read back by
    [egg_buffer_get_string] into memory the allocator provides. *)
Lemma get_string_reads dflt al str :
  AllocatorOk al -> never_fails al ->
  (forall s, str = Some s -> bytes s /\ (0 ∉ s) /\ zlen s < 2147483647) ->
  reads (fun off => egg_buffer_get_string dflt off (Some al))
    (enc_byte_array str) (c_string <$> str).
Proof.
  intros Hal Hnf Hs. unfold egg_buffer_get_string, enc_byte_array. cbn [string_allocator].
  intros b off rest Hb Ho Hr. unfold mbind at 1, ST_bind at 1, get_st at 1. cbv zeta.
  revert b off rest Hb Ho Hr. destruct str as [s|]; cbn [fmap option_fmap option_map].
  - destruct (Hs _ eq_refl) as (Hby & Hnz & Hlen). pose proof (zlen_nonneg s).
    eapply reads_bind; [apply get_uint32_reads; lia|].
    intros b off rest Hb Ho Hr.
    rewrite (proj2 (Z.eqb_neq _ _)), (proj2 (Z.leb_gt _ _)) by lia.
    destruct (rest_at_app b off s rest) as (Hle & Hsl & Hrest); [done..|]. split; [|done].
    unfold mbind, ST_bind, get_st.
    rewrite (proj2 (out_of_range_spec _ _ _)) by lia.
    rewrite contents_slice by (done || lia). unfold lift_res. rewrite Hsl.
    rewrite bool_decide_false by done. rewrite (wrap64_id (zlen s + 1)) by lia.
    destruct (Hnf (zlen s + 1)) as [m Hm]; [lia|]. rewrite Hm.
    destruct (al_size _ _ _ Hm) as [Hz _]; [lia|].
    destruct (copy_string m s Hz) as (m1 & -> & ->).
    rewrite wrap64_id by (destruct Hb; lia). done.
  - rewrite <- (app_nil_r (enc_uint32 _)).
    eapply (reads_bind _ _ 4294967295); [by apply get_uint32_reads|]. apply reads_ret.
Qed.

(** The encoding of an array of strings: their number, then each of them. *)
Definition enc_stringv (v : list block) : list Z :=
  enc_uint32 (zlen v) ++ concat (map (fun s => enc_byte_array (Some s)) v).

Definition strings_ok (v : list block) : Prop :=
  Forall (fun s => bytes s /\ (0 ∉ s) /\ zlen s < 2147483647) v.

Lemma add_strings_wp v b :
  buffer_ok b -> strings_ok v ->
  wp (add_strings v) (wrote (concat (map (fun s => enc_byte_array (Some s)) v)) b) b.
Proof.
  intros Hb Hv. revert b Hb. induction Hv as [|s v (Hby & _ & Hlen) _ IH]; intros b Hb.
  - apply wp_ret. split; [by apply latched_refl|lia].
  - apply wrote_seq; [|auto]. apply egg_buffer_add_string_wp; [done|]. naive_solver.
Qed.

Lemma egg_buffer_add_stringv_wp v b :
  buffer_ok b -> strings_ok v ->
  wp (egg_buffer_add_stringv (Some v)) (wrote (enc_stringv v) b) b.
Proof.
  intros Hb Hv. apply wrote_seq; [|intros; by apply add_strings_wp].
  eapply wp_mono; [by apply egg_buffer_add_uint32_wp|]. intros r b'.
  unfold enc_uint32, wrap32. by rewrite Zmod_mod.
Qed.

(** The loop fills the array from index [i] on. *)
Lemma get_strings_reads dflt al v pre n :
  AllocatorOk al -> never_fails al -> strings_ok v ->
  reads (get_strings dflt (length v) (length pre) al (pre ++ replicate (length v + n) None))
    (concat (map (fun s => enc_byte_array (Some s)) v))
    (pre ++ map (fun s => Some (c_string s)) v ++ replicate n None).
Proof.
  intros Hal Hnf Hv. revert pre. induction Hv as [|s v Hs _ IH]; intros pre.
  - simpl. apply reads_ret.
  - simpl concat. cbn [length get_strings map].
    eapply (reads_bind _ (enc_byte_array (Some s)) (Some (c_string s))).
    { apply (get_string_reads dflt al (Some s)); auto. naive_solver. }
    intros b off rest Hb Ho Hr.
    rewrite (proj2 (Nat.ltb_lt _ _)) by (rewrite length_app, length_replicate; lia).
    rewrite insert_app_r_alt, Nat.sub_diag by lia. cbn [Nat.add replicate list_insert].
    specialize (IH (pre ++ [Some (c_string s)])).
    rewrite length_app, <- !(assoc_L app) in IH. simpl in IH.
    rewrite Nat.add_1_r in IH. by apply IH.
Qed.

Lemma get_stringv_reads dflt al v :
  AllocatorOk al -> never_fails al -> strings_ok v -> zlen v < 4294967295 ->
  reads (fun off => egg_buffer_get_stringv dflt off (Some al))
    (enc_stringv v) (map (fun s => Some (c_string s)) v ++ [None]).
Proof.
  intros Hal Hnf Hv Hlen. unfold egg_buffer_get_stringv, enc_stringv.
  cbn [string_allocator]. pose proof (zlen_nonneg v).
  intros b off rest Hb Ho Hr. unfold mbind at 1, ST_bind at 1, get_st at 1. cbv zeta.
  revert b off rest Hb Ho Hr.
  eapply reads_bind; [apply get_uint32_reads; lia|].
  rewrite wrap32_id by lia. destruct (Hnf ((zlen v + 1) * 8)) as [m ->]; [lia|].
  rewrite Z.div_mul by lia. unfold zlen at 1. rewrite Nat2Z.id.
  replace (Z.to_nat (zlen v + 1)) with (length v + 1)%nat by (unfold zlen; lia).
  by apply (get_strings_reads dflt al v [] 1).
Qed.

(** * Properties *)

Lemma has_error_false b : buffer_ok b -> egg_buffer_has_error b = false <-> eb_failures b = 0.
Proof. intros []. unfold egg_buffer_has_error. rewrite Z.ltb_ge. lia. Qed.

(** Filling an empty buffer from outside: bytes stored where there is room, then
    the length adjusted behind them, unless memory runs out. *)
Lemma store_first_wp data b :
  buffer_ok b -> zlen data <= eb_allocated_len b -> bytes data ->
  wp (store 0 data) (fun _ b' => buffer_ok b' /\ eb_len b' = eb_len b
    /\ take (length data) (bmem b') = data /\ eb_allocator b' = eb_allocator b) b.
Proof.
  intros Hb Hroom Hby. pose proof (zlen_nonneg data). pose proof Hb as [Hs Hl Hm Hbm Hf Ha].
  eapply wp_mono; [apply (store_wp 0 data); (done || lia)|]. intros [] b1 (m & -> & Hzm & Hbm1 & Ht).
  split; [split; cbn; try done; lia|]. split; [done|]. split; [|done].
  replace (length data) with (Z.to_nat (0 + zlen data)) by (unfold zlen; lia). exact Ht.
Qed.

Lemma add_empty_wp data b :
  buffer_ok b -> eb_len b = 0 -> take (length data) (bmem b) = data ->
  zlen data <= 1152921504606846976 ->
  wp (egg_buffer_add_empty (zlen data)) (fun _ b' => buffer_ok b'
    /\ (contents b' = data \/ contents b' = []) /\ eb_allocator b' = eb_allocator b) b.
Proof.
  intros Hb Hl0 Ht Hmax. pose proof (zlen_nonneg data). apply wp_bind, wp_gets.
  rewrite Hl0, Z.add_0_l, wrap64_id by lia. apply wp_bind.
  eapply wp_mono; [apply wp_and; [apply egg_buffer_reserve_wp|apply egg_buffer_reserve_keeps];
    (done || lia)|].
  intros [|] b2 [(Hb2 & Hc2 & Hl2 & Ha2 & Hr) Hk].
  - apply wp_bind, wp_modify, wp_ret. destruct Hr as [Hr Hf2]. specialize (Hk eq_refl).
    rewrite Hl2, Hl0, Z.add_0_l, wrap64_id by lia. pose proof Hb2 as [Hs2 _ Hm2 Hbm2 Hf3 Ha3].
    split; [split; cbn; (done || lia)|]. split; [|done]. left. unfold contents. cbn.
    rewrite <- Ht at 2. rewrite <- Hk, take_take. f_equal.
    apply (f_equal length) in Ht. rewrite length_take in Ht. unfold zlen in *. lia.
  - subst b2. apply wp_ret. split; [done|]. split; [|done]. right.
    unfold contents. cbn. by rewrite Hl0.
Qed.

(** Room for a message that is received always is found. *)
Lemma reserve_gives al n b :
  gives_memory al -> buffer_ok b -> eb_allocator b = Some al -> eb_len b = 0 -> is_u32 n ->
  wp (egg_buffer_reserve n) (fun r b' => r = true /\ buffer_ok b' /\ eb_len b' = 0
    /\ contents b' = [] /\ eb_allocator b' = Some al /\ eb_failures b' = eb_failures b
    /\ n <= eb_allocated_len b') b.
Proof.
  intros Hal Hb Ha Hl Hn.
  assert (wp (egg_buffer_reserve n) (fun r _ => r = true) b) as Htrue.
  { eapply wp_mono; [apply (egg_buffer_reserve_gives n b Hb); lia|]. intros r b1 H. by eauto. }
  eapply wp_mono; [apply wp_and; [exact Htrue|apply (egg_buffer_reserve_wp n b Hb)]; lia|].
  intros r b' [-> (Hb' & Hc & Hl' & Ha' & Hr & Hf)]. split_and!; try done; try congruence.
  rewrite Hc. unfold contents. by rewrite Hl.
Qed.

(** What is received is stored, and then the buffer is as long. *)
Lemma store_received data b :
  buffer_ok b -> zlen data <= eb_allocated_len b -> bytes data ->
  wp (store 0 data) (fun _ b' => buffer_ok b' /\ eb_len b' = eb_len b
    /\ eb_allocator b' = eb_allocator b /\ eb_failures b' = eb_failures b
    /\ take (length data) (bmem b') = data) b.
Proof.
  intros Hb Hl Hd. pose proof Hb as [Hs _ _ Hby _ _].
  eapply wp_mono; [apply wp_and; [by apply store_first_wp|apply store_wp; [done|lia|done..]]|].
  intros [] b' [(? & ? & ? & ?) (m & -> & _)]. by split_and!.
Qed.

Lemma add_empty_gives al data b :
  gives_memory al -> buffer_ok b -> eb_allocator b = Some al -> eb_len b = 0 ->
  take (length data) (bmem b) = data -> is_u32 (zlen data) ->
  wp (egg_buffer_add_empty (zlen data)) (fun _ b' => buffer_ok b' /\ contents b' = data
    /\ eb_allocator b' = Some al /\ eb_failures b' = eb_failures b) b.
Proof.
  intros Hal Hb Ha Hl Ht Hn. pose proof (zlen_nonneg data).
  assert (wp (egg_buffer_add_empty (zlen data))
    (fun _ b' => eb_len b' = zlen data /\ eb_failures b' = eb_failures b) b) as Hlen.
  { apply wp_bind, wp_gets. rewrite Hl, Z.add_0_l, wrap64_id by lia.
    eapply wp_call; [by apply (reserve_gives al)|]. intros r b1 (-> & _ & Hl1 & _ & _ & Hf & _).
    apply wp_bind, wp_modify, wp_ret. cbn. by rewrite Hl1, Z.add_0_l, wrap64_id by lia. }
  eapply wp_mono; [apply wp_and; [exact Hlen|apply add_empty_wp; (done || lia)]|].
  intros r b' [[Hl' Hf] (Hb' & Hc & Ha')]. split; [done|]. split; [|split; [congruence|done]].
  destruct Hc as [|Hc]; [done|]. pose proof (contents_len b' Hb') as Hz. rewrite Hc, zlen_nil in Hz.
  rewrite Hc. destruct data as [|z l]; [done|]. rewrite zlen_cons in Hl'. pose proof (zlen_nonneg l). lia.
Qed.

(** ** Round trips *)

Lemma wrote_then_reads {A} (m : Z -> ST EggBuffer (option (A * Z))) enc v b b' :
  buffer_ok b -> wrote enc b true b' -> reads m enc v ->
  m (eb_len b) b' = Ok (Some (v, eb_len b'), b').
Proof.
  intros Hb Hw Hm. destruct (wrote_true _ _ _ Hw) as [_ Hc].
  pose proof (lt_ok _ _ _ (proj1 Hw)) as Hb'.
  pose proof (f_equal zlen Hc) as Hl. rewrite zlen_app, !contents_len in Hl by done.
  pose proof (zlen_nonneg enc). pose proof Hb as [_ ? _ _ _ _].
  destruct (Hm b' (eb_len b) []) as [Hrun _]; [done|lia| |].
  - unfold rest_at. rewrite Hc, app_nil_r. apply drop_app_length'.
    pose proof (contents_len b Hb). unfold zlen in *. lia.
  - rewrite Hrun. do 4 f_equal. lia.
Qed.

(** C22: what [egg_buffer_add_byte_array] stores, [egg_buffer_get_byte_array]
    finds: the same bytes, the same null pointer, the same count, and the offset
    of whatever comes next. *)
Theorem byte_array_roundtrip v n b b' :
  buffer_ok b -> (forall bs, v = Some bs -> bytes bs /\ 0 <= n <= zlen bs) ->
  egg_buffer_add_byte_array v n b = Ok (true, b') ->
  egg_buffer_get_byte_array (eb_len b) b' =
    Ok (Some (byte_array_value ((fun bs => slice bs 0 n) <$> v), eb_len b'), b').
Proof.
  intros Hb Hv Hrun.
  assert (wp (egg_buffer_add_byte_array v n)
    (wrote (enc_byte_array ((fun bs => slice bs 0 n) <$> v)) b) b) as Hw.
  { apply egg_buffer_add_byte_array_wp; [done|]. naive_solver. }
  unfold wp in Hw. rewrite Hrun in Hw. eapply wrote_then_reads; [done|exact Hw|].
  apply get_byte_array_reads. intros bs. destruct v as [vs|]; [|done].
  intros [= <-]. destruct (Hv _ eq_refl) as [Hby Hn].
  rewrite zlen_slice by lia.
  unfold egg_buffer_add_byte_array in Hrun. destruct (_ <=? n) eqn:E; [done|].
  apply Z.leb_gt in E. done.
Qed.

Lemma after_ok {A} (m : ST EggBuffer A) b :
  buffer_ok b -> wp m (fun _ => buffer_ok) b -> buffer_ok (after m b).
Proof. unfold after, wp. by destruct (m b) as [[a b']|]. Qed.

Definition sample_buffer : EggBuffer :=
  (egg_buffer_init_full (zero_allocator 100000) 64 None).2.

Lemma sample_buffer_ok : buffer_ok sample_buffer.
Proof.
  apply (egg_buffer_init_full_ok (zero_allocator 100000) 64 None); [apply _|lia|done].
Qed.

Lemma byte_array_roundtrip_witness :
  let b' := after (egg_buffer_add_byte_array (Some [7; 8; 9]) 2) sample_buffer in
  contents b' = [0; 0; 0; 2; 7; 8]
  /\ egg_buffer_get_byte_array (eb_len sample_buffer) b' =
       Ok (Some ((Some [7; 8], 2), eb_len b'), b').
Proof.
  split; [vm_compute; reflexivity|].
  apply (byte_array_roundtrip (Some [7; 8; 9]) 2 sample_buffer).
  - apply sample_buffer_ok.
  - intros bs [= <-]. split; [repeat constructor; simpl; lia|unfold zlen; simpl; lia].
  - apply after_run. vm_compute. reflexivity.
Defined.

(** C40: an array of strings survives [egg_buffer_add_stringv] followed by
    [egg_buffer_get_stringv], the latter copying each string, with its
    terminating zero, into memory of its own and ending the array with a null
    pointer. *)
Theorem stringv_roundtrip dflt al v b b' :
  AllocatorOk al -> never_fails al -> buffer_ok b -> strings_ok v -> zlen v < 4294967295 ->
  egg_buffer_add_stringv (Some v) b = Ok (true, b') ->
  egg_buffer_get_stringv dflt (eb_len b) (Some al) b' =
    Ok (Some (map (fun s => Some (s ++ [0])) v ++ [None], eb_len b'), b').
Proof.
  intros Hal Hnf Hb Hv Hlen Hrun.
  pose proof (egg_buffer_add_stringv_wp v b Hb Hv) as Hw.
  unfold wp in Hw. rewrite Hrun in Hw.
  apply (wrote_then_reads _ _ _ _ _ Hb Hw (get_stringv_reads dflt al v Hal Hnf Hv Hlen)).
Qed.

Lemma zero_allocator_never_fails : never_fails (zero_allocator 68719476736).
Proof.
  intros n Hn. unfold zero_allocator; simpl. rewrite (proj2 (Z.leb_le _ _)) by lia.
  simpl. eauto.
Qed.

Lemma stringv_roundtrip_witness :
  let b' := after (egg_buffer_add_stringv (Some [[97]; []; [98; 99]])) sample_buffer in
  zlen (contents b') = 19
  /\ egg_buffer_get_stringv (zero_allocator 0) (eb_len sample_buffer)
         (Some (zero_allocator 68719476736)) b' =
       Ok (Some ([Some [97; 0]; Some [0]; Some [98; 99; 0]; None], eb_len b'), b').
Proof.
  split; [vm_compute; reflexivity|].
  apply (stringv_roundtrip (zero_allocator 0) (zero_allocator 68719476736)
           [[97]; []; [98; 99]] sample_buffer).
  - apply _.
  - apply zero_allocator_never_fails.
  - apply sample_buffer_ok.
  - repeat constructor; simpl; try lia; apply (bool_decide_unpack _); vm_compute; done.
  - unfold zlen; simpl; lia.
  - apply after_run. vm_compute. reflexivity.
Defined.

(** ** Hostile input *)

(** C23: [egg_buffer_get_byte_array] is total on any bytes whatever: on every
    well-formed buffer and at every offset, within what is held or beyond it, it
    counts one failure and changes nothing else, or returns a null pointer, or
    returns a pointer to exactly the bytes that lie at the offset behind the
    count, all of them within the part of the buffer that is held.  It fails only
    if the count is not there, is too large and not the one of a null pointer, or
    announces bytes that are not there. *)
Theorem get_byte_array_in_bounds b off :
  buffer_ok b -> 0 <= off ->
  let count := egg_buffer_decode_uint32 (slice (contents b) off 4) in
  exists r b', egg_buffer_get_byte_array off b = Ok (r, b') /\
    match r with
    | None => b' = fail_buffer b /\
        (eb_len b < off + 4 \/ 2147483647 <= count < 4294967295 \/ eb_len b < off + 4 + count)
    | Some ((v, n), next) =>
        b' = b /\ off + 4 <= next <= eb_len b /\
        match v with
        | None => count = 4294967295 /\ n = 0 /\ next = off + 4
        | Some bs => n = count /\ n = zlen bs /\ next = off + 4 + n /\ n < 2147483647
            /\ bs = slice (contents b) (off + 4) n
        end
    end.
Proof.
  intros Hb Ho count. unfold egg_buffer_get_byte_array, mbind, ST_bind.
  destruct (wp_inv _ _ _ (read_at_wp 4 egg_buffer_decode_uint32 off b Hb
    ltac:(lia) ltac:(lia))) as (r & b1 & Hrun & Hres).
  unfold egg_buffer_get_uint32. rewrite Hrun. unfold read_result in Hres. fold count in Hres.
  pose proof (decode_uint32_range (slice (contents b) off 4)) as Hn. fold count in Hn.
  clearbody count. destruct (Z.leb_spec (off + 4) (eb_len b)) as [E4|E4]; destruct Hres as [-> ->];
    [|eexists _, _; split; [done|]; split; [done|lia]].
  destruct (Z.eqb_spec count 4294967295) as [E1|E1];
    [eexists _, _; split; [done|]; split_and!; (done || lia)|].
  destruct (Z.leb_spec 2147483647 count) as [E2|E2];
    [eexists _, _; split; [done|]; split; [done|lia]|].
  unfold get_st. destruct (out_of_range b count (off + 4)) eqn:E3.
  { apply out_of_range_true in E3. eexists _, _; split; [done|]. split; [done|lia]. }
  apply out_of_range_spec in E3 as [E3 _]. unfold lift_res.
  rewrite contents_slice by (done || lia).
  rewrite wrap64_id by (destruct Hb; lia).
  eexists _, _; split; [done|]. cbn beta iota.
  assert (zlen (slice (contents b) (off + 4) count) = count) as Hz
    by (apply zlen_slice; rewrite ?contents_len; done || lia).
  split_and!; (done || lia).
Qed.

Definition sample_array : EggBuffer :=
  after (egg_buffer_add_byte_array (Some [7; 8]) 2) sample_buffer.

Lemma sample_array_ok : buffer_ok sample_array.
Proof.
  apply after_ok; [apply sample_buffer_ok|].
  eapply wp_mono; [apply egg_buffer_add_byte_array_wp; [apply sample_buffer_ok|]|].
  - intros bs [= <-]. split; [repeat constructor; simpl; lia|unfold zlen; simpl; lia].
  - by intros r b' [[] _].
Qed.

(** Of the bytes [0; 0; 0; 2; 7; 8] the array is read at 0; at 100 there is none. *)
Lemma get_byte_array_in_bounds_witness :
  (exists b', egg_buffer_get_byte_array 0 sample_array = Ok (Some ((Some [7; 8], 2), 6), b')
     /\ b' = sample_array /\ [7; 8] = slice (contents sample_array) (0 + 4) 2)
  /\ (exists b', egg_buffer_get_byte_array 100 sample_array = Ok (None, b')
     /\ b' = fail_buffer sample_array).
Proof.
  split.
  - destruct (get_byte_array_in_bounds sample_array 0) as (r & b' & Hrun & Hr);
      [apply sample_array_ok|lia|].
    assert (match egg_buffer_get_byte_array 0 sample_array with Ok (r, _) => r | Crash _ => None end
      = Some ((Some [7; 8], 2), 6)) as Hv by (vm_compute; reflexivity).
    rewrite Hrun in Hv. subst r. exists b'. destruct Hr as (Hb' & _ & _ & _ & _ & _ & Hs). by split_and!.
  - destruct (get_byte_array_in_bounds sample_array 100) as (r & b' & Hrun & Hr);
      [apply sample_array_ok|lia|].
    assert (match egg_buffer_get_byte_array 100 sample_array with
            | Ok (r, _) => r | Crash _ => Some ((None, 0), 0) end = None) as Hv
      by (vm_compute; reflexivity).
    rewrite Hrun in Hv. subst r. exists b'. by destruct Hr.
Defined.

(** [egg_buffer_get_stringv] computes the size of its array of pointers in
    32 bits: announced 2{^32} - 1 strings, it asks the allocator for 0 bytes
    and, once the first string has been read, stores its pointer outside what
    the allocator returned. *)
Theorem get_stringv_count_overflow dflt al b off m rest :
  buffer_ok b -> 0 <= off <= eb_len b -> al_realloc al None 0 = Some m ->
  rest_at b off = enc_uint32 4294967295 ++ enc_byte_array None ++ rest ->
  egg_buffer_get_stringv dflt off (Some al) b = Crash OutOfBounds.
Proof.
  intros Hb Ho Hal Hr. unfold egg_buffer_get_stringv, mbind, ST_bind, get_st.
  destruct (get_uint32_reads 4294967295 ltac:(lia) b off _ Hb Ho Hr) as [-> Hr1].
  destruct (rest_at_app _ _ _ _ Hb Ho Hr) as [Hle _].
  rewrite zlen_enc_uint32 in *. cbv zeta. cbn [string_allocator].
  change (wrap32 (4294967295 + 1) * 8) with 0. rewrite Hal.
  destruct (Z.to_nat 4294967295) as [|n] eqn:En; [lia|]. cbn [get_strings].
  unfold mbind, ST_bind, egg_buffer_get_string. cbv zeta.
  unfold mbind, ST_bind, get_st. cbn [enc_byte_array] in Hr1.
  destruct (get_uint32_reads 4294967295 ltac:(lia) b (off + 4) _ Hb ltac:(lia) Hr1) as [-> _].
  done.
Qed.

Definition many_strings : EggBuffer :=
  after (_ ← egg_buffer_add_uint32 4294967295; egg_buffer_add_uint32 4294967295)
    sample_buffer.

Lemma many_strings_ok : buffer_ok many_strings.
Proof.
  apply after_ok; [apply sample_buffer_ok|].
  eapply wp_call; [apply egg_buffer_add_uint32_wp, sample_buffer_ok|].
  intros r b [[] _]. eapply wp_mono; [by apply egg_buffer_add_uint32_wp|].
  by intros r' b' [[] _].
Qed.

Lemma get_stringv_count_overflow_witness :
  contents many_strings = [255; 255; 255; 255; 255; 255; 255; 255] /\
  egg_buffer_get_stringv (zero_allocator 0) 0 (Some (zero_allocator 64)) many_strings
    = Crash OutOfBounds.
Proof.
  split; [vm_compute; reflexivity|].
  apply (get_stringv_count_overflow _ _ _ _ [] []).
  - apply many_strings_ok.
  - assert (eb_len many_strings = 8) as -> by (vm_compute; reflexivity). lia.
  - vm_compute. reflexivity.
  - vm_compute. reflexivity.
Defined.
