(* ===== verification/BufferOps.v ===== *)
(** The data buffer as its clients see it: an abstract machine whose state is
    the bytes held, or the fact that an operation failed since the last reset,
    and the proof that every operation of EggBuffer.v follows it. *)
From S2P Require Import Prelude EggBuffer.

(** ** Operations and answers *)

(** A call of egg-buffer.c on a buffer that has been initialised.
    [egg_buffer_get_stringv] is not among them: on hostile bytes it writes out
    of bounds (see [get_stringv_count_overflow]). *)
Inductive buffer_op :=
| OpReset
| OpSetAllocator (al : option EggBufferAllocator)
| OpReserve (n : Z)
| OpResize (n : Z)
| OpAddEmpty (n : Z)
| OpAppend (v : block) (n : Z)
| OpAddByte (v : Z)
| OpGetByte (off : Z)
| OpAddUint16 (v : Z)
| OpSetUint16 (off v : Z)
| OpGetUint16 (off : Z)
| OpAddUint32 (v : Z)
| OpSetUint32 (off v : Z)
| OpGetUint32 (off : Z)
| OpAddUint64 (v : Z)
| OpGetUint64 (off : Z)
| OpAddByteArray (v : option block) (n : Z)
| OpAddByteArrayEmpty (n : Z)
| OpGetByteArray (off : Z)
| OpAddString (s : option block)
| OpGetString (off : Z) (al : option EggBufferAllocator)
| OpAddStringv (v : option (list block)).

(** What the caller gets back: nothing, a truth value, the place of an added
    gap, or what a reader returned together with the next offset. *)
Inductive reply :=
| Done
| Flag (r : bool)
| Place (r : option Z)
| Number (r : option (Z * Z))
| Array (r : option ((option block * Z) * Z))
| Str (r : option (option block * Z)).

Definition answer {A} (f : A -> reply) (m : ST EggBuffer A) : ST EggBuffer reply :=
  r ← m; mret (f r).

Section Ops.
Context (dflt : EggBufferAllocator).

Definition run_op (op : buffer_op) : ST EggBuffer reply :=
  match op with
  | OpReset => egg_buffer_reset;; mret Done
  | OpSetAllocator al => answer Flag (egg_buffer_set_allocator dflt al)
  | OpReserve n => answer Flag (egg_buffer_reserve n)
  | OpResize n => answer Flag (egg_buffer_resize n)
  | OpAddEmpty n => answer Place (egg_buffer_add_empty n)
  | OpAppend v n => answer Flag (egg_buffer_append v n)
  | OpAddByte v => answer Flag (egg_buffer_add_byte v)
  | OpGetByte off => answer Number (egg_buffer_get_byte off)
  | OpAddUint16 v => answer Flag (egg_buffer_add_uint16 v)
  | OpSetUint16 off v => answer Flag (egg_buffer_set_uint16 off v)
  | OpGetUint16 off => answer Number (egg_buffer_get_uint16 off)
  | OpAddUint32 v => answer Flag (egg_buffer_add_uint32 v)
  | OpSetUint32 off v => answer Flag (egg_buffer_set_uint32 off v)
  | OpGetUint32 off => answer Number (egg_buffer_get_uint32 off)
  | OpAddUint64 v => answer Flag (egg_buffer_add_uint64 v)
  | OpGetUint64 off => answer Number (egg_buffer_get_uint64 off)
  | OpAddByteArray v n => answer Flag (egg_buffer_add_byte_array v n)
  | OpAddByteArrayEmpty n => answer Place (egg_buffer_add_byte_array_empty n)
  | OpGetByteArray off => answer Array (egg_buffer_get_byte_array off)
  | OpAddString s => answer Flag (egg_buffer_add_string s)
  | OpGetString off al => answer Str (egg_buffer_get_string dflt off al)
  | OpAddStringv v => answer Flag (egg_buffer_add_stringv v)
  end.

(** The calls one after the other, with their answers. *)
Fixpoint run_ops (ops : list buffer_op) : ST EggBuffer (list reply) :=
  match ops with
  | [] => mret []
  | op :: ops => rep ← run_op op; reps ← run_ops ops; mret (rep :: reps)
  end.

(** The arguments a caller may pass: values of their C types, pointers to at
    least as many bytes as the count says, and sizes up to 2{^60}. *)
Definition op_ok (op : buffer_op) : Prop :=
  match op with
  | OpSetAllocator al => AllocatorOk (default dflt al)
  | OpReserve n | OpResize n | OpAddEmpty n => 0 <= n <= 1152921504606846976
  | OpAppend v n => bytes v /\ 0 <= n <= zlen v /\ n <= 1152921504606846976
  | OpAddByte v => is_u8 v
  | OpGetByte off | OpGetUint16 off | OpGetUint32 off | OpGetUint64 off
  | OpGetByteArray off | OpSetUint16 off _ | OpSetUint32 off _ => 0 <= off
  | OpAddByteArray (Some bs) n => bytes bs /\ 0 <= n <= zlen bs
  | OpAddByteArrayEmpty n => 0 <= n
  | OpAddString (Some s) => bytes s
  | OpGetString off al => 0 <= off /\ AllocatorOk dflt /\ (forall a, al = Some a -> AllocatorOk a)
  | OpAddStringv (Some v) => Forall (fun s => bytes s) v
  | _ => True
  end.
End Ops.

(** ** The abstract machine *)

(** A number of [n] bytes at [off] of the bytes held. *)
Definition number_at (n : Z) (decode : list Z -> Z) (held : list Z) (off : Z)
    : option (Z * Z) :=
  if zlen held <? off + n then None else Some (decode (slice held off n), off + n).

Definition uint64_at (held : list Z) (off : Z) : option (Z * Z) :=
  if zlen held <? off + 8 then None else
  Some (egg_buffer_decode_uint32 (slice held off 4) * 4294967296
        + egg_buffer_decode_uint32 (slice held (off + 4) 4), off + 8).

(** A byte array at [off]: its count, then its bytes; the count of all ones
    stands for a null pointer. *)
Definition array_at (held : list Z) (off : Z) : option ((option block * Z) * Z) :=
  match number_at 4 egg_buffer_decode_uint32 held off with
  | None => None
  | Some (n, off) =>
      if n =? 4294967295 then Some ((None, 0), off)
      else if 2147483647 <=? n then None
      else if zlen held <? off + n then None
      else Some ((Some (slice held off n), n), off + n)
  end.

(** A string is a byte array without a zero, handed out with one at its end. *)
Definition string_at (held : list Z) (off : Z) : option (option block * Z) :=
  match array_at held off with
  | Some ((Some s, _), next) => if bool_decide (0 ∈ s) then None else Some (Some (c_string s), next)
  | Some ((None, _), next) => Some (None, next)
  | None => None
  end.

Definition overwrite (held : list Z) (off : Z) (bs : list Z) : list Z :=
  take (Z.to_nat off) held ++ bs ++ drop (Z.to_nat (off + zlen bs)) held.

Definition short (s : block) : bool := zlen s <? 2147483647.

(** The strings before the first that is too long. *)
Fixpoint shorts (v : list block) : list block :=
  match v with
  | [] => []
  | s :: v => if short s then s :: shorts v else []
  end.

(** What an operation answers, and what is held after it, when it does not
    fail: where the code leaves the bytes of a gap as the allocator gave them,
    they may be any. *)
Definition succeeds (held : list Z) (op : buffer_op) (rep : reply) (held' : list Z) : Prop :=
  match op with
  | OpReset => False
  | OpSetAllocator _ => (exists r, rep = Flag r) /\ held' = held
  | OpReserve _ => rep = Flag true /\ held' = held
  | OpResize n => rep = Flag true /\ zlen held' = n
      /\ take (Z.to_nat n) held `prefix_of` held'
  | OpAddEmpty n => rep = Place (Some (zlen held)) /\ exists gap, zlen gap = n /\ held' = held ++ gap
  | OpAppend v n => rep = Flag true /\ held' = held ++ slice v 0 n
  | OpAddByte v => rep = Flag true /\ held' = held ++ [v]
  | OpAddUint16 v => rep = Flag true /\ held' = held ++ egg_buffer_encode_uint16 v
  | OpAddUint32 v => rep = Flag true /\ held' = held ++ enc_uint32 v
  | OpAddUint64 v => rep = Flag true /\ held' = held ++ enc_uint64 v
  | OpGetByte off => held' = held
      /\ exists x, number_at 1 (fun bs => nth_byte bs 0) held off = Some x /\ rep = Number (Some x)
  | OpGetUint16 off => held' = held
      /\ exists x, number_at 2 egg_buffer_decode_uint16 held off = Some x /\ rep = Number (Some x)
  | OpGetUint32 off => held' = held
      /\ exists x, number_at 4 egg_buffer_decode_uint32 held off = Some x /\ rep = Number (Some x)
  | OpGetUint64 off => held' = held
      /\ exists x, uint64_at held off = Some x /\ rep = Number (Some x)
  | OpSetUint16 off v => rep = Flag true /\ off + 2 <= zlen held
      /\ held' = overwrite held off (egg_buffer_encode_uint16 v)
  | OpSetUint32 off v => rep = Flag true /\ off + 4 <= zlen held
      /\ held' = overwrite held off (egg_buffer_encode_uint32 v)
  | OpAddByteArray v n => rep = Flag true
      /\ held' = held ++ enc_byte_array ((fun bs => slice bs 0 n) <$> v)
  | OpAddByteArrayEmpty n => rep = Place (Some (zlen held + 4))
      /\ exists gap, zlen gap = n /\ held' = held ++ enc_uint32 n ++ gap
  | OpGetByteArray off => held' = held
      /\ exists x, array_at held off = Some x /\ rep = Array (Some x)
  | OpAddString s =>
      match s with
      | Some s => if short s then rep = Flag true /\ held' = held ++ enc_byte_array (Some s)
                  else rep = Flag false /\ held' = held
      | None => rep = Flag true /\ held' = held ++ enc_byte_array None
      end
  | OpGetString off _ => held' = held /\ off + 4 <= zlen held
      /\ (rep = Str None \/ exists x, string_at held off = Some x /\ rep = Str (Some x))
  | OpAddStringv None => rep = Flag false /\ held' = held
  | OpAddStringv (Some v) =>
      rep = Flag (forallb short v)
      /\ held' = held ++ enc_uint32 (zlen v)
                   ++ concat (map (fun s => enc_byte_array (Some s)) (shorts v))
  end.

(** When an operation may fail, and what it then answers.  A writer may always
    fail, for want of memory; a reader does when its bytes are not there. *)
Definition may_fail (held : list Z) (op : buffer_op) : Prop :=
  match op with
  | OpReset | OpSetAllocator _ | OpAddStringv None => False
  | OpGetByte off => zlen held < off + 1
  | OpGetUint16 off | OpSetUint16 off _ => zlen held < off + 2
  | OpGetUint32 off | OpSetUint32 off _ | OpGetString off _ => zlen held < off + 4
  | OpGetUint64 off => zlen held < off + 8
  | OpGetByteArray off => array_at held off = None
  | OpAddString (Some s) => short s = true
  | _ => True
  end.

Definition failure_of (op : buffer_op) : reply :=
  match op with
  | OpReset => Done
  | OpAddEmpty _ | OpAddByteArrayEmpty _ => Place None
  | OpGetByte _ | OpGetUint16 _ | OpGetUint32 _ | OpGetUint64 _ => Number None
  | OpGetByteArray _ => Array None
  | OpGetString _ _ => Str None
  | _ => Flag false
  end.

(** The state: the bytes held, or [None] once an operation has failed. *)
Inductive spec_step : option (list Z) -> buffer_op -> reply -> option (list Z) -> Prop :=
| spec_reset st : spec_step st OpReset Done (Some [])
| spec_succeeds held op rep held' :
    succeeds held op rep held' -> spec_step (Some held) op rep (Some held')
| spec_fails held op :
    may_fail held op -> spec_step (Some held) op (failure_of op) None
| spec_failed op rep : op <> OpReset -> spec_step None op rep None.

Inductive spec_steps : option (list Z) -> list buffer_op -> list reply -> option (list Z) -> Prop :=
| spec_nil st : spec_steps st [] [] st
| spec_cons st op rep st1 ops reps st' :
    spec_step st op rep st1 -> spec_steps st1 ops reps st' ->
    spec_steps st (op :: ops) (rep :: reps) st'.

(** The abstract state of a buffer. *)
Definition abstract (b : EggBuffer) : option (list Z) :=
  if egg_buffer_has_error b then None else Some (contents b).

(** How many failures may have been counted: one for each operation since the
    last reset. *)
Definition failures_bound (n : Z) (ops : list buffer_op) : Z :=
  foldl (fun n op => match op with OpReset => 0 | _ => n + 1 end) n ops.

(** What is found at an offset is what is encoded there. *)
Lemma uint32_at_encoded held off v next :
  bytes held -> 0 <= off -> number_at 4 egg_buffer_decode_uint32 held off = Some (v, next) ->
  is_u32 v /\ next = off + 4 /\ next <= zlen held
  /\ drop (Z.to_nat off) held = enc_uint32 v ++ drop (Z.to_nat next) held.
Proof.
  intros Hb Ho. unfold number_at. destruct (Z.ltb_spec (zlen held) (off + 4)); [done|].
  intros [= <- <-]. pose proof (decode_uint32_range (slice held off 4)). split_and!; try lia.
  unfold enc_uint32. rewrite wrap32_id by done.
  rewrite encode_decode_uint32 by (apply slice_bytes || apply zlen_slice; (done || lia)).
  unfold slice. rewrite Z2Nat.inj_add by lia. rewrite <- drop_drop. by rewrite take_drop.
Qed.

Lemma array_at_encoded held off v n next :
  bytes held -> 0 <= off -> array_at held off = Some ((v, n), next) ->
  n = zlen (default [] v) /\ 0 <= next <= zlen held
  /\ drop (Z.to_nat off) held = enc_byte_array v ++ drop (Z.to_nat next) held.
Proof.
  intros Hb Ho. unfold array_at. destruct (number_at _ _ _ _) as [[k off1]|] eqn:E; [|done].
  apply uint32_at_encoded in E as (Hk & -> & Hle & Hd); [|done..].
  destruct (Z.eqb_spec k 4294967295) as [->|_]; [intros [= <- <- <-]; split_and!; (done || lia)|].
  destruct (Z.leb_spec 2147483647 k); [done|].
  destruct (Z.ltb_spec (zlen held) (off + 4 + k)); [done|]. intros [= <- <- <-].
  cbn [from_option id]. rewrite zlen_slice by lia. split_and!; try lia. rewrite Hd. cbn [enc_byte_array].
  rewrite zlen_slice, <- app_assoc by lia. f_equal. unfold slice.
  rewrite (Z2Nat.inj_add (off + 4)) by lia. rewrite <- drop_drop. by rewrite take_drop.
Qed.

(** ** Each operation follows the machine *)

(** What a well-formed buffer [b] comes to by an operation other than a reset. *)
Definition outcome (op : buffer_op) (b : EggBuffer) (rep : reply) (b' : EggBuffer) : Prop :=
  buffer_ok b'
  /\ ((eb_failures b' = eb_failures b /\ succeeds (contents b) op rep (contents b'))
      \/ (eb_failures b' = eb_failures b + 1 /\ may_fail (contents b) op /\ rep = failure_of op)).

Lemma wp_answer {A} (f : A -> reply) (m : ST EggBuffer A) Q b :
  wp m (fun r => Q (f r)) b -> wp (answer f m) Q b.
Proof. intros H. eapply wp_call; [exact H|]. intros r b' Hq. by apply wp_ret. Qed.

Lemma outcome_same op rep b :
  buffer_ok b -> succeeds (contents b) op rep (contents b) -> outcome op b rep b.
Proof. intros. split; [done|]. by left. Qed.

Lemma outcome_fails op rep b :
  buffer_ok b -> may_fail (contents b) op -> rep = failure_of op -> outcome op b rep (fail_buffer b).
Proof. intros. split; [by apply fail_buffer_ok|]. by right. Qed.

Lemma wrote_outcome op enc r b b' :
  wrote enc b r b' -> succeeds (contents b) op (Flag true) (contents b ++ enc) ->
  may_fail (contents b) op -> failure_of op = Flag false -> outcome op b (Flag r) b'.
Proof.
  intros [Hl Hf] Hs Hm He. split; [apply Hl|]. destruct r.
  - left. split; [lia|]. by rewrite (lt_done _ _ _ Hl) by lia.
  - right. by rewrite Hf.
Qed.

(** Reading [n] bytes. *)
Lemma read_at_outcome op n decode off b :
  buffer_ok b -> 0 <= off -> 0 <= n < 18446744073709551616 ->
  (forall x, number_at n decode (contents b) off = Some x ->
    succeeds (contents b) op (Number (Some x)) (contents b)) ->
  (number_at n decode (contents b) off = None -> may_fail (contents b) op) ->
  failure_of op = Number None ->
  wp (answer Number (read_at n decode off)) (outcome op b) b.
Proof.
  intros Hb Ho Hn Hs Hm Hf. apply wp_answer. eapply wp_mono; [by apply read_at_wp|].
  unfold read_result. intros r b' Hr. unfold number_at in *. rewrite contents_len in * by done.
  destruct (Z.leb_spec (off + n) (eb_len b)); destruct Hr as [-> ->].
  - rewrite (proj2 (Z.ltb_ge _ _)) in * by lia. apply outcome_same; [done|]. by apply Hs.
  - rewrite (proj2 (Z.ltb_lt _ _)) in * by lia. apply outcome_fails; auto.
Qed.

Lemma get_uint32_at off b :
  buffer_ok b -> 0 <= off ->
  wp (egg_buffer_get_uint32 off) (fun r b' =>
    r = number_at 4 egg_buffer_decode_uint32 (contents b) off
    /\ b' = match r with Some _ => b | None => fail_buffer b end) b.
Proof.
  intros Hb Ho. eapply wp_mono; [by apply read_at_wp|].
  unfold read_result, number_at. intros r b'. rewrite contents_len by done.
  destruct (Z.leb_spec (off + 4) (eb_len b)); intros [-> ->].
  - by rewrite (proj2 (Z.ltb_ge _ _)) by lia.
  - by rewrite (proj2 (Z.ltb_lt _ _)) by lia.
Qed.

Lemma number_at_next n decode held off v next :
  number_at n decode held off = Some (v, next) ->
  v = decode (slice held off n) /\ next = off + n /\ off + n <= zlen held.
Proof. unfold number_at. destruct (Z.ltb_spec (zlen held) (off + n)); [done|]. by intros [= <- <-]. Qed.

(** The fixed numbers are combined without wrap-around. *)
Lemma get_uint64_at off b :
  buffer_ok b -> 0 <= off ->
  wp (egg_buffer_get_uint64 off) (fun r b' =>
    r = uint64_at (contents b) off
    /\ b' = match r with Some _ => b | None => fail_buffer b end) b.
Proof.
  intros Hb Ho. unfold egg_buffer_get_uint64, uint64_at.
  eapply wp_call; [by apply get_uint32_at|]. intros r b1 [Hr ->].
  destruct r as [[a next]|]; symmetry in Hr.
  2:{ unfold number_at in Hr. destruct (Z.ltb_spec (zlen (contents b)) (off + 4)); [|done].
      apply wp_ret. by rewrite (proj2 (Z.ltb_lt _ _)) by lia. }
  apply number_at_next in Hr as (-> & -> & Hle).
  eapply wp_call; [apply get_uint32_at; [done|lia]|]. intros r b1 [Hr ->].
  destruct r as [[c next]|]; symmetry in Hr.
  2:{ unfold number_at in Hr. destruct (Z.ltb_spec (zlen (contents b)) (off + 4 + 4)); [|done].
      apply wp_ret. by rewrite (proj2 (Z.ltb_lt _ _)) by lia. }
  apply number_at_next in Hr as (-> & -> & Hle'). apply wp_ret. split; [|done].
  rewrite (proj2 (Z.ltb_ge _ _)) by lia.
  pose proof (decode_uint32_range (slice (contents b) off 4)) as H1.
  pose proof (decode_uint32_range (slice (contents b) (off + 4) 4)) as H2.
  rewrite lor_shiftl_add by lia. rewrite wrap64_id by lia. do 2 f_equal. lia.
Qed.

Lemma get_byte_array_at off b :
  buffer_ok b -> 0 <= off ->
  wp (egg_buffer_get_byte_array off) (fun r b' =>
    r = array_at (contents b) off
    /\ b' = match r with Some _ => b | None => fail_buffer b end) b.
Proof.
  intros Hb Ho. unfold egg_buffer_get_byte_array, array_at.
  eapply wp_call; [by apply get_uint32_at|]. intros r b1 [Hr ->].
  destruct r as [[n next]|]; symmetry in Hr; rewrite Hr; [|by apply wp_ret].
  apply number_at_next in Hr as (-> & -> & Hle).
  pose proof (decode_uint32_range (slice (contents b) off 4)) as Hn.
  set (n := egg_buffer_decode_uint32 _) in *. clearbody n.
  destruct (n =? _); [by apply wp_ret|].
  destruct (Z.leb_spec 2147483647 n); [by apply wp_bind, wp_modify, wp_ret|].
  rewrite contents_len in * by done.
  apply wp_bind, wp_get. destruct (out_of_range b n (off + 4)) eqn:E.
  - apply out_of_range_true in E. apply wp_bind, wp_modify, wp_ret.
    by rewrite (proj2 (Z.ltb_lt _ _)) by lia.
  - apply out_of_range_spec in E as [E _]. rewrite (proj2 (Z.ltb_ge _ _)) by lia.
    apply wp_bind. eapply wp_lift_res; [apply contents_slice; (done || lia)|]. apply wp_ret.
    rewrite wrap64_id by (destruct Hb; lia). done.
Qed.

(** A gap at the end. *)
Lemma egg_buffer_add_empty_wp n b :
  buffer_ok b -> 0 <= n <= 1152921504606846976 ->
  wp (egg_buffer_add_empty n) (fun r b' => buffer_ok b' /\
    match r with
    | Some pos => pos = eb_len b /\ eb_failures b' = eb_failures b
        /\ exists gap, zlen gap = n /\ contents b' = contents b ++ gap
    | None => eb_failures b' = eb_failures b + 1
    end) b.
Proof.
  intros Hb Hn. pose proof Hb as [_ Hl Hm _ _ _]. apply wp_bind, wp_gets.
  rewrite wrap64_id by lia. eapply wp_call; [apply egg_buffer_reserve_wp; (done || lia)|].
  intros r b1 (Hb1 & Hc1 & Hl1 & _ & Hr). destruct r.
  2:{ subst b1. apply wp_ret. by split. }
  destruct Hr as [Hroom Hf]. apply wp_bind, wp_modify, wp_ret.
  pose proof Hb1 as [Hs1 _ Hm1 Hby1 Hf1 Ha1]. rewrite Hl1, wrap64_id by lia.
  split; [split; cbn; (done || lia)|]. split_and!; [done|done|].
  exists (slice (bmem b1) (eb_len b) n). rewrite zlen_slice by lia. split; [done|].
  unfold contents at 1. cbn. rewrite <- Hc1. unfold contents. rewrite Hl1. unfold slice.
  rewrite Z2Nat.inj_add by lia. by rewrite take_take_drop.
Qed.

Lemma egg_buffer_resize_wp n b :
  buffer_ok b -> 0 <= n <= 1152921504606846976 ->
  wp (egg_buffer_resize n) (fun r b' => buffer_ok b' /\
    if (r : bool) then eb_failures b' = eb_failures b /\ zlen (contents b') = n
       /\ take (Z.to_nat n) (contents b) `prefix_of` contents b'
    else eb_failures b' = eb_failures b + 1) b.
Proof.
  intros Hb Hn. pose proof Hb as [_ Hl Hm _ _ _]. unfold egg_buffer_resize.
  eapply wp_call; [apply egg_buffer_reserve_wp; (done || lia)|].
  intros r b1 (Hb1 & Hc1 & Hl1 & _ & Hr). destruct r.
  2:{ subst b1. apply wp_ret. by split. }
  destruct Hr as [Hroom Hf]. apply wp_bind, wp_modify, wp_ret.
  pose proof Hb1 as [Hs1 _ Hm1 Hby1 Hf1 Ha1].
  split; [split; cbn; (done || lia)|]. split_and!; [done| |].
  - unfold contents. cbn. apply zlen_take. unfold bmem in Hs1. cbn in Hs1. lia.
  - rewrite <- Hc1. unfold contents. cbn. rewrite take_take.
    replace (take (_ `min` _) _) with
      (take (Z.to_nat n `min` Z.to_nat (eb_len b1)) (take (Z.to_nat n) (bmem b1)))
      by (rewrite take_take; f_equal; lia).
    eexists. symmetry. apply take_drop.
Qed.

(** Storing over bytes that are held. *)
Lemma store_overwrites off bs b :
  buffer_ok b -> 0 <= off -> off + zlen bs <= eb_len b -> bytes bs ->
  wp (store off bs) (fun _ b' => buffer_ok b' /\ eb_failures b' = eb_failures b
    /\ contents b' = overwrite (contents b) off bs) b.
Proof.
  intros Hb Ho Hle Hbs. pose proof Hb as [Hs Hl Hm Hby Hf Ha]. pose proof (zlen_nonneg bs).
  unfold store, wp, mbind, res_bind, mem_write. rewrite bool_decide_true by lia.
  assert (zlen (take (Z.to_nat off) (bmem b) ++ bs ++ drop (Z.to_nat (off + zlen bs)) (bmem b))
          = eb_allocated_len b) as Hz.
  { rewrite !zlen_app, zlen_take, zlen_drop by lia. unfold zlen in *. lia. }
  split; [|split; [done|]].
  - split; cbn; try done. unfold bmem; cbn.
    apply Forall_app; split; [by apply Forall_take|]. apply Forall_app; split; [done|by apply Forall_drop].
  - unfold contents, overwrite. cbn. unfold bmem at 1; cbn.
    assert (length bs = Z.to_nat (zlen bs)) as Hlb by (unfold zlen; lia).
    assert (length (bmem b) = Z.to_nat (eb_allocated_len b)) as Hlm by (unfold zlen in Hs; lia).
    rewrite take_app, length_take, (take_ge (take _ _)) by (rewrite length_take; lia).
    rewrite take_app, (take_ge bs) by lia. rewrite take_take. f_equal; [f_equal; lia|].
    f_equal. rewrite skipn_firstn_comm. f_equal. unfold bmem in Hlm. lia.
Qed.

(** [egg_buffer_set_uint16], [egg_buffer_set_uint32]. *)
Lemma set_outcome op n bs off b :
  buffer_ok b -> 0 <= off -> bytes bs -> zlen bs = n ->
  (off + n <= zlen (contents b) ->
    succeeds (contents b) op (Flag true) (overwrite (contents b) off bs)) ->
  (zlen (contents b) < off + n -> may_fail (contents b) op) ->
  failure_of op = Flag false ->
  wp (answer Flag (fun b => if out_of_range b n off then buffer_fail false b
                            else (store off bs;; mret true) b)) (outcome op b) b.
Proof.
  intros Hb Ho Hbs Hn Hs Hm He. pose proof (zlen_nonneg bs). apply wp_answer. unfold wp.
  rewrite contents_len in * by done. destruct (out_of_range b n off) eqn:E.
  - apply out_of_range_true in E. pose proof (bo_len _ Hb).
    assert (outcome op b (Flag false) (fail_buffer b)) by (apply outcome_fails; (done || apply Hm; lia)).
    done.
  - apply out_of_range_spec in E as [E _].
    assert (wp (store off bs;; mret true) (fun r => outcome op b (Flag r)) b) as H'; [|exact H'].
    eapply wp_call; [apply store_overwrites; (done || lia)|]. intros _ b' (Hb' & Hf & Hc).
    apply wp_ret. split; [done|]. left. split; [done|]. rewrite Hc. by apply Hs.
Qed.

(** A writer that may also stop, counting nothing. *)
Definition wrote_until (enc : list Z) (all : bool) (b : EggBuffer) (r : bool) (b' : EggBuffer) : Prop :=
  latched enc b b'
  /\ (eb_failures b' = eb_failures b /\ r = all \/ eb_failures b' = eb_failures b + 1 /\ r = false).

Lemma wrote_until_outcome op enc all r b b' :
  wrote_until enc all b r b' -> succeeds (contents b) op (Flag all) (contents b ++ enc) ->
  may_fail (contents b) op -> failure_of op = Flag false -> outcome op b (Flag r) b'.
Proof.
  intros [Hl Hr] Hs Hm He. split; [apply Hl|]. destruct Hr as [[Hf ->]|[Hf ->]].
  - left. by rewrite (lt_done _ _ _ Hl) by lia.
  - right. by rewrite He.
Qed.

(** A writer that stops without a failure ends with the error count unmoved
    only if the first failed too. *)
Lemma wrote_then_until e1 e2 all (m1 m2 : ST EggBuffer bool) b :
  wp m1 (wrote e1 b) b -> (forall b1, buffer_ok b1 -> wp m2 (wrote_until e2 all b1) b1) ->
  wp (ok ← m1; if (ok : bool) then m2 else mret false) (wrote_until (e1 ++ e2) all b) b.
Proof.
  intros H1 H2. eapply wp_call; [exact H1|]. intros [|] b1 [Hl1 Hr1].
  - eapply wp_mono; [apply H2, Hl1|]. intros r b2 [Hl2 Hr2]. split; [by eapply latched_trans|].
    rewrite Z.add_0_r in Hr1. by rewrite <- Hr1.
  - apply wp_ret. split; [|by right].
    eapply wrote_false_latched; [|by split]. rewrite zlen_app. pose proof (zlen_nonneg e2). lia.
Qed.

Lemma add_strings_until v b :
  buffer_ok b -> Forall (fun s => bytes s) v ->
  wp (add_strings v)
    (wrote_until (concat (map (fun s => enc_byte_array (Some s)) (shorts v))) (forallb short v) b) b.
Proof.
  intros Hb Hv. revert b Hb. induction Hv as [|s v Hs _ IH]; intros b Hb.
  - apply wp_ret. split; [by apply latched_refl|by left].
  - cbn [shorts forallb add_strings]. destruct (short s) eqn:E.
    + cbn [map concat andb]. apply wrote_then_until; [|by apply IH].
      apply Z.ltb_lt in E. apply egg_buffer_add_string_wp; [done|]. by intros ? [= <-].
    + apply Z.ltb_ge in E. unfold egg_buffer_add_string. rewrite (proj2 (Z.leb_le _ _)) by lia.
      apply wp_bind, wp_ret, wp_ret. split; [by apply latched_refl|by left].
Qed.

Lemma egg_buffer_add_stringv_until v b :
  buffer_ok b -> Forall (fun s => bytes s) v ->
  wp (egg_buffer_add_stringv (Some v))
    (wrote_until (enc_uint32 (zlen v)
       ++ concat (map (fun s => enc_byte_array (Some s)) (shorts v))) (forallb short v) b) b.
Proof.
  intros Hb Hv. apply wrote_then_until; [|intros; by apply add_strings_until].
  eapply wp_mono; [by apply egg_buffer_add_uint32_wp|]. intros r b'.
  unfold enc_uint32, wrap32. by rewrite Zmod_mod.
Qed.

(** The copy into the memory of another allocator. *)
Lemma egg_buffer_set_allocator_wp dflt al b :
  buffer_ok b -> AllocatorOk (default dflt al) ->
  wp (egg_buffer_set_allocator dflt al) (fun _ b' => buffer_ok b'
    /\ eb_failures b' = eb_failures b /\ contents b' = contents b) b.
Proof.
  intros Hb Hal. pose proof Hb as [Hs Hl Hm Hby Hf Ha]. unfold egg_buffer_set_allocator, wp.
  destruct (match eb_allocator b with Some _ => _ | None => _ end); [done|].
  rewrite (proj2 (Z.eqb_neq _ _)) by lia. cbv zeta.
  destruct (al_realloc (default dflt al) None _) as [m|] eqn:Em; [|done].
  destruct (al_size _ _ _ Em) as [Hz Hmax]; [lia|].
  unfold mbind, res_bind. rewrite mem_read_ok by lia.
  assert (slice (bmem b) 0 (eb_allocated_len b) = bmem b) as -> by (rewrite <- Hs; apply slice_full).
  unfold mem_write. rewrite bool_decide_true by lia.
  rewrite Z.add_0_l, Hs, drop_ge by (unfold zlen in Hz; lia). cbn [take Z.to_nat]. rewrite app_nil_r.
  split; [|by split]. split; unfold bmem; cbn; try done. by intros ? [= <-].
Qed.

(** A string is copied, with a zero behind it, if it is there and memory is found. *)
Lemma get_string_at dflt off al b :
  buffer_ok b -> 0 <= off -> AllocatorOk (string_allocator dflt al b) ->
  wp (egg_buffer_get_string dflt off al) (fun r b' =>
    if zlen (contents b) <? off + 4 then r = None /\ b' = fail_buffer b
    else b' = b /\ (r = None \/ r = string_at (contents b) off)) b.
Proof.
  intros Hb Ho Hal. unfold egg_buffer_get_string, string_at, array_at.
  apply wp_bind, wp_get. cbv zeta. eapply wp_call; [by apply get_uint32_at|]. intros r b1 [-> ->].
  destruct (number_at _ _ _ _) as [[n next]|] eqn:Hr.
  2:{ apply wp_ret. unfold number_at in Hr. by destruct (_ <? _). }
  apply number_at_next in Hr as (-> & -> & Hle). rewrite (proj2 (Z.ltb_ge _ _)) by lia.
  pose proof (decode_uint32_range (slice (contents b) off 4)) as Hn.
  set (n := egg_buffer_decode_uint32 _) in *. clearbody n.
  destruct (n =? _); [apply wp_ret; auto|]. destruct (Z.leb_spec 2147483647 n); [apply wp_ret; auto|].
  rewrite contents_len in * by done.
  apply wp_bind, wp_get. destruct (out_of_range b n (off + 4)) eqn:E; [apply wp_ret; auto|].
  apply out_of_range_spec in E as [E _]. rewrite (proj2 (Z.ltb_ge _ _)) by lia.
  apply wp_bind. eapply wp_lift_res; [apply contents_slice; (done || lia)|].
  destruct (bool_decide _); [apply wp_ret; auto|]. rewrite (wrap64_id (n + 1)) by lia.
  destruct (al_realloc _ None _) as [m|] eqn:Em; [|apply wp_ret; auto].
  destruct (al_size _ _ _ Em) as [Hz _]; [lia|].
  assert (zlen (slice (contents b) (off + 4) n) = n) as Hsl
    by (apply zlen_slice; rewrite ?contents_len; done || lia).
  destruct (copy_string m (slice (contents b) (off + 4) n)) as (m1 & H1 & H2); [lia|].
  apply wp_bind. eapply wp_lift_res; [exact H1|]. apply wp_bind.
  eapply wp_lift_res; [by rewrite Hsl in H2|]. apply wp_ret.
  rewrite wrap64_id by (destruct Hb; lia). auto.
Qed.

Lemma writer_outcome op enc (m : ST EggBuffer bool) b :
  buffer_ok b -> wp m (wrote enc b) b ->
  succeeds (contents b) op (Flag true) (contents b ++ enc) ->
  may_fail (contents b) op -> failure_of op = Flag false ->
  wp (answer Flag m) (outcome op b) b.
Proof.
  intros Hb Hm Hs Hf He. apply wp_answer. eapply wp_mono; [exact Hm|].
  intros r b' Hw. by eapply wrote_outcome.
Qed.

(** A reader whose value is the pure function [at_] of the bytes held. *)
Lemma reader_outcome {A} op (f : option A -> reply) (m : ST EggBuffer (option A))
    (at_ : option A) b :
  buffer_ok b ->
  wp m (fun r b' => r = at_ /\ b' = match r with Some _ => b | None => fail_buffer b end) b ->
  (forall x, at_ = Some x -> succeeds (contents b) op (f (Some x)) (contents b)) ->
  (at_ = None -> may_fail (contents b) op) -> failure_of op = f None ->
  wp (answer f m) (outcome op b) b.
Proof.
  intros Hb Hm Hs Hf He. apply wp_answer. eapply wp_mono; [exact Hm|].
  intros [x|] b' [<- ->]; [apply outcome_same; auto|apply outcome_fails; auto].
Qed.

Lemma array_empty_outcome n b :
  buffer_ok b -> 0 <= n ->
  wp (answer Place (egg_buffer_add_byte_array_empty n)) (outcome (OpAddByteArrayEmpty n) b) b.
Proof.
  intros Hb Hn. apply wp_answer. unfold egg_buffer_add_byte_array_empty.
  destruct (Z.leb_spec 2147483647 n) as [|Hlt].
  { apply wp_bind, wp_modify, wp_ret. by apply outcome_fails. }
  eapply wp_call; [by apply egg_buffer_add_uint32_wp|]. intros [|] b1 [Hl Hf].
  2:{ apply wp_ret. split; [apply Hl|]. by right. }
  assert (contents b1 = contents b ++ enc_uint32 n) as Hc by (apply (lt_done _ _ _ Hl); lia).
  eapply wp_mono; [apply egg_buffer_add_empty_wp; [apply Hl|lia]|].
  intros [pos|] b2 [Hb2 H2]; split; [done| |done|right; split; [lia|done]].
  destruct H2 as (-> & Hf2 & gap & Hg & Hc2). left. split; [lia|].
  pose proof (lt_ok _ _ _ Hl) as Hb1. cbn [succeeds].
  rewrite <- contents_len, Hc, zlen_app, zlen_enc_uint32 by done. split; [done|].
  exists gap. rewrite Hc2, Hc. by rewrite <- app_assoc.
Qed.

Lemma get_string_outcome dflt off al b :
  buffer_ok b -> 0 <= off -> AllocatorOk (string_allocator dflt al b) ->
  wp (answer Str (egg_buffer_get_string dflt off al)) (outcome (OpGetString off al) b) b.
Proof.
  intros Hb Ho Hal. apply wp_answer. eapply wp_mono; [by apply get_string_at|].
  intros r b'. destruct (Z.ltb_spec (zlen (contents b)) (off + 4)).
  - intros [-> ->]. by apply outcome_fails.
  - intros [-> Hr]. apply outcome_same; [done|]. cbn [succeeds]. split_and!; [done|done|].
    destruct Hr as [->| ->]; [by left|]. destruct (string_at _ _); [right|left]; eauto.
Qed.

(** Growing. *)
Lemma grow_outcome dflt op b :
  match op with OpReserve _ | OpResize _ | OpAddEmpty _ => True | _ => False end ->
  op_ok dflt op -> buffer_ok b -> wp (run_op dflt op) (outcome op b) b.
Proof.
  intros Hop Ho Hb. pose proof (bo_len _ Hb). destruct op; try done; cbn [run_op op_ok] in *;
    apply wp_answer.
  - eapply wp_mono; [apply egg_buffer_reserve_wp; (done || lia)|].
    intros [|] b' (Hb' & Hc & _ & _ & Hr); [|subst b'; by apply outcome_fails].
    split; [done|]. left. by destruct Hr as [_ ->].
  - eapply wp_mono; [by apply egg_buffer_resize_wp|].
    intros [|] b' [Hb' Hr]; (split; [done|]); [left|by right].
    destruct Hr as (-> & Hz & Hp). by split_and!.
  - eapply wp_mono; [by apply egg_buffer_add_empty_wp|].
    intros [pos|] b' [Hb' Hr]; (split; [done|]); [left|by right].
    destruct Hr as (-> & -> & Hg). cbn. by rewrite contents_len.
Qed.

Lemma string_outcome s b :
  buffer_ok b -> (forall t, s = Some t -> bytes t) ->
  wp (answer Flag (egg_buffer_add_string s)) (outcome (OpAddString s) b) b.
Proof.
  intros Hb Hs. destruct s as [s|]; [|by eapply writer_outcome; [done|apply egg_buffer_add_string_wp|..]].
  destruct (short s) eqn:E.
  - eapply (writer_outcome _ (enc_byte_array (Some s))); [done| |cbn; by rewrite E..|done].
    apply Z.ltb_lt in E. apply egg_buffer_add_string_wp; [done|]. intros ? [= <-]. auto.
  - apply wp_answer. unfold egg_buffer_add_string. pose proof E as Hlong.
    apply Z.ltb_ge in Hlong. rewrite (proj2 (Z.leb_le _ _)) by lia.
    apply wp_ret, outcome_same; [done|]. cbn. by rewrite E.
Qed.

Lemma run_op_outcome dflt op b :
  op_ok dflt op -> op <> OpReset -> buffer_ok b -> wp (run_op dflt op) (outcome op b) b.
Proof.
  intros Ho Hne Hb. destruct op as [|al|n|n|n|v n|v|off|v|off v|off|v|off v|off|v|off|v n|n|off|s|off al|[v|]];
    cbn [run_op op_ok] in *; try done.
  - apply wp_answer. eapply wp_mono; [by apply egg_buffer_set_allocator_wp|].
    intros r b' (Hb' & Hf & Hc). split; [done|]. left. rewrite Hc. split; [done|]. cbn. eauto.
  - by apply (grow_outcome dflt (OpReserve n)).
  - by apply (grow_outcome dflt (OpResize n)).
  - by apply (grow_outcome dflt (OpAddEmpty n)).
  - eapply writer_outcome; [done|apply egg_buffer_append_wp; (done || apply Ho)|done..].
  - by eapply writer_outcome; [done|apply egg_buffer_add_byte_wp|..].
  - apply read_at_outcome; [done..|cbn; eauto| |done]. unfold number_at. cbn.
    by destruct (Z.ltb_spec (zlen (contents b)) (off + 1)).
  - by eapply writer_outcome; [done|apply egg_buffer_add_uint16_wp|..].
  - apply set_outcome; auto with proxy. by intros Hl; cbn.
  - apply read_at_outcome; [done..|cbn; eauto| |done]. unfold number_at. cbn.
    by destruct (Z.ltb_spec (zlen (contents b)) (off + 2)).
  - by eapply writer_outcome; [done|apply egg_buffer_add_uint32_wp|..].
  - apply set_outcome; auto with proxy. by intros Hl; cbn.
  - apply read_at_outcome; [done..|cbn; eauto| |done]. unfold number_at. cbn.
    by destruct (Z.ltb_spec (zlen (contents b)) (off + 4)).
  - by eapply writer_outcome; [done|apply egg_buffer_add_uint64_wp|..].
  - eapply reader_outcome; [done|by apply get_uint64_at|cbn; eauto| |done]. unfold uint64_at. cbn.
    by destruct (Z.ltb_spec (zlen (contents b)) (off + 8)).
  - eapply writer_outcome; [done|apply egg_buffer_add_byte_array_wp; [done|]|done..].
    intros bs ->. done.
  - by apply array_empty_outcome.
  - eapply reader_outcome; [done|by apply get_byte_array_at|cbn; eauto|done|done].
  - apply string_outcome; [done|]. by intros t ->.
  - destruct Ho as (Ho & Hd & Ha). apply get_string_outcome; [done|done|].
    unfold string_allocator. destruct al as [a|]; [by apply Ha|].
    destruct (eb_allocator b) as [a|] eqn:E; [by apply (bo_alloc _ Hb)|done].
  - apply wp_answer. eapply wp_mono; [by apply egg_buffer_add_stringv_until|].
    intros r b' Hw. by eapply wrote_until_outcome.
  - apply wp_answer, wp_ret. by apply outcome_same.
Qed.

Lemma outcome_step op b rep b' :
  buffer_ok b -> op <> OpReset -> outcome op b rep b' ->
  spec_step (abstract b) op rep (abstract b').
Proof.
  intros Hb Hne [Hb' Ho]. unfold abstract. pose proof (bo_failures _ Hb) as Hf.
  destruct (egg_buffer_has_error b) eqn:E; unfold egg_buffer_has_error in *.
  - apply Z.ltb_lt in E. rewrite (proj2 (Z.ltb_lt _ _)) by (destruct Ho as [[-> _]|[-> _]]; lia).
    by constructor.
  - apply Z.ltb_ge in E. destruct Ho as [[-> Hs]|(-> & Hm & ->)].
    + rewrite (proj2 (Z.ltb_ge _ _)) by lia. by constructor.
    + rewrite (proj2 (Z.ltb_lt _ _)) by lia. by constructor.
Qed.

Lemma run_op_step dflt op n b :
  op_ok dflt op -> buffer_ok b -> eb_failures b <= n ->
  wp (run_op dflt op) (fun rep b' => buffer_ok b' /\ spec_step (abstract b) op rep (abstract b')
    /\ eb_failures b' <= failures_bound n [op]) b.
Proof.
  intros Ho Hb Hn. assert (op = OpReset \/ op <> OpReset) as [->|Hne] by (destruct op; auto).
  - eapply wp_call; [by apply egg_buffer_reset_wp|].
    intros _ b' (Hb' & Hc & _ & Hf & _). apply wp_ret. split; [done|]. split; [|cbn; lia].
    unfold abstract at 2, egg_buffer_has_error. rewrite Hf, Hc. constructor.
  - eapply wp_mono; [by apply run_op_outcome|]. intros rep b' Hout.
    split; [apply Hout|]. split; [by apply outcome_step|].
    assert (failures_bound n [op] = n + 1) as -> by (by destruct op).
    destruct Hout as [_ [[-> _]|[-> _]]]; lia.
Qed.

Lemma run_ops_steps dflt ops n b :
  Forall (op_ok dflt) ops -> buffer_ok b -> eb_failures b <= n ->
  wp (run_ops dflt ops) (fun reps b' => buffer_ok b'
    /\ spec_steps (abstract b) ops reps (abstract b') /\ eb_failures b' <= failures_bound n ops) b.
Proof.
  intros Hops. revert b n. induction Hops as [|op ops Ho _ IH]; intros b n Hb Hn.
  - apply wp_ret. split_and!; [done|constructor|done].
  - eapply wp_call; [by apply (run_op_step dflt op n)|]. intros rep b1 (Hb1 & Hs & Hf).
    eapply wp_call; [by apply (IH b1 (failures_bound n [op]))|].
    intros reps b' (Hb' & Hs' & Hf'). apply wp_ret. split_and!; [done|by econstructor|exact Hf'].
Qed.


(** Every kind of call, with a gap filled in, a number overwritten, and two
    reads. *)
Definition sample_ops : list buffer_op :=
  [OpAddByte 5; OpGetByte 1; OpReset; OpAddUint16 258; OpAddByteArray (Some [7; 8; 9]) 2;
   OpAddString None; OpGetByteArray 2; OpAddStringv (Some [[97]; []]); OpSetUint16 0 772;
   OpSetAllocator (Some (zero_allocator 5000)); OpResize 8; OpAddByteArrayEmpty 1;
   OpGetString 2 None; OpGetUint64 0].

Definition sample_replies : list reply :=
  [Flag true; Number None; Done; Flag true; Flag true; Flag true; Array (Some ((Some [7; 8], 2), 8));
   Flag true; Flag true; Flag true; Flag true; Place (Some 12); Str (Some (Some [7; 8; 0], 8));
   Number (Some (217298682020759304, 8))].

