(* ===== verification/Pkcs11.v ===== *)
(** The part of pkcs11.h the proxy uses: return values, attribute and
    mechanism types, the structures that cross the wire and the table of
    functions a PKCS#11 module offers. *)
From S2P Require Import Prelude.

(** ** Sizes on the LP64 platforms the development models *)

Definition sizeof_CK_ULONG : Z := 8.
Definition sizeof_uint64_t : Z := 8.
Definition sizeof_CK_ATTRIBUTE : Z := 24.
Definition CK_ULONG_MINUS_1 : Z := 18446744073709551615.

(** [NULL], [CK_INVALID_HANDLE] *)
Definition CK_INVALID_HANDLE : Z := 0.
Definition CKF_OS_LOCKING_OK : Z := 2.

(** ** Return values *)

Definition CKR_OK : Z := 0.
Definition CKR_HOST_MEMORY : Z := 2.
Definition CKR_SLOT_ID_INVALID : Z := 3.
Definition CKR_GENERAL_ERROR : Z := 5.
Definition CKR_ARGUMENTS_BAD : Z := 7.
Definition CKR_CANT_LOCK : Z := 10.
Definition CKR_ATTRIBUTE_SENSITIVE : Z := 17.
Definition CKR_ATTRIBUTE_TYPE_INVALID : Z := 18.
Definition CKR_DEVICE_ERROR : Z := 48.
Definition CKR_DEVICE_MEMORY : Z := 49.
Definition CKR_DEVICE_REMOVED : Z := 50.
Definition CKR_FUNCTION_NOT_SUPPORTED : Z := 84.
Definition CKR_MECHANISM_INVALID : Z := 112.
Definition CKR_SESSION_CLOSED : Z := 176.
Definition CKR_SESSION_COUNT : Z := 177.
Definition CKR_SESSION_HANDLE_INVALID : Z := 179.
Definition CKR_BUFFER_TOO_SMALL : Z := 336.
Definition CKR_CRYPTOKI_NOT_INITIALIZED : Z := 400.
Definition CKR_CRYPTOKI_ALREADY_INITIALIZED : Z := 401.

(** ** Attribute types *)

Definition CKA_CLASS : Z := 0.
Definition CKA_KEY_TYPE : Z := 256.
Definition CKA_CERTIFICATE_TYPE : Z := 128.
Definition CKA_HW_FEATURE_TYPE : Z := 768.
Definition CKA_MODULUS_BITS : Z := 289.

(** ** Mechanism types *)

Definition CKM_RSA_PKCS_OAEP : Z := 9.
Definition CKM_RSA_PKCS_PSS : Z := 13.
Definition CKM_AES_CBC_PAD : Z := 4229.
Definition CKM_RSA_PKCS_KEY_PAIR_GEN : Z := 0.
Definition CKM_RSA_X9_31_KEY_PAIR_GEN : Z := 10.
Definition CKM_RSA_PKCS : Z := 1.
Definition CKM_RSA_9796 : Z := 2.
Definition CKM_RSA_X_509 : Z := 3.
Definition CKM_RSA_X9_31 : Z := 11.
Definition CKM_MD2_RSA_PKCS : Z := 4.
Definition CKM_MD5_RSA_PKCS : Z := 5.
Definition CKM_SHA1_RSA_PKCS : Z := 6.
Definition CKM_SHA256_RSA_PKCS : Z := 64.
Definition CKM_SHA384_RSA_PKCS : Z := 65.
Definition CKM_SHA512_RSA_PKCS : Z := 66.
Definition CKM_RIPEMD128_RSA_PKCS : Z := 7.
Definition CKM_RIPEMD160_RSA_PKCS : Z := 8.
Definition CKM_SHA1_RSA_X9_31 : Z := 12.
Definition CKM_DSA_KEY_PAIR_GEN : Z := 16.
Definition CKM_DSA_PARAMETER_GEN : Z := 8192.
Definition CKM_DSA : Z := 17.
Definition CKM_DSA_SHA1 : Z := 18.
Definition CKM_FORTEZZA_TIMESTAMP : Z := 4128.
Definition CKM_EC_KEY_PAIR_GEN : Z := 4160.
Definition CKM_ECDSA : Z := 4161.
Definition CKM_ECDSA_SHA1 : Z := 4162.
Definition CKM_DH_PKCS_KEY_PAIR_GEN : Z := 32.
Definition CKM_DH_PKCS_PARAMETER_GEN : Z := 8193.
Definition CKM_X9_42_DH_KEY_PAIR_GEN : Z := 48.
Definition CKM_X9_42_DH_PARAMETER_GEN : Z := 8194.
Definition CKM_KEA_KEY_PAIR_GEN : Z := 4112.
Definition CKM_GENERIC_SECRET_KEY_GEN : Z := 848.
Definition CKM_RC2_KEY_GEN : Z := 256.
Definition CKM_RC4_KEY_GEN : Z := 272.
Definition CKM_RC4 : Z := 273.
Definition CKM_RC5_KEY_GEN : Z := 816.
Definition CKM_AES_KEY_GEN : Z := 4224.
Definition CKM_AES_ECB : Z := 4225.
Definition CKM_AES_MAC : Z := 4227.
Definition CKM_DES_KEY_GEN : Z := 288.
Definition CKM_DES2_KEY_GEN : Z := 304.
Definition CKM_DES3_KEY_GEN : Z := 305.
Definition CKM_CDMF_KEY_GEN : Z := 320.
Definition CKM_CAST_KEY_GEN : Z := 768.
Definition CKM_CAST3_KEY_GEN : Z := 784.
Definition CKM_CAST128_KEY_GEN : Z := 800.
Definition CKM_IDEA_KEY_GEN : Z := 832.
Definition CKM_SSL3_PRE_MASTER_KEY_GEN : Z := 880.
Definition CKM_TLS_PRE_MASTER_KEY_GEN : Z := 884.
Definition CKM_SKIPJACK_KEY_GEN : Z := 4096.
Definition CKM_BATON_KEY_GEN : Z := 4144.
Definition CKM_JUNIPER_KEY_GEN : Z := 4192.
Definition CKM_RC2_ECB : Z := 257.
Definition CKM_DES_ECB : Z := 289.
Definition CKM_DES3_ECB : Z := 306.
Definition CKM_CDMF_ECB : Z := 321.
Definition CKM_CAST_ECB : Z := 769.
Definition CKM_CAST3_ECB : Z := 785.
Definition CKM_CAST128_ECB : Z := 801.
Definition CKM_RC5_ECB : Z := 817.
Definition CKM_IDEA_ECB : Z := 833.
Definition CKM_RC2_MAC : Z := 259.
Definition CKM_DES_MAC : Z := 291.
Definition CKM_DES3_MAC : Z := 308.
Definition CKM_CDMF_MAC : Z := 323.
Definition CKM_CAST_MAC : Z := 771.
Definition CKM_CAST3_MAC : Z := 787.
Definition CKM_RC5_MAC : Z := 819.
Definition CKM_IDEA_MAC : Z := 835.
Definition CKM_SSL3_MD5_MAC : Z := 896.
Definition CKM_SSL3_SHA1_MAC : Z := 897.
Definition CKM_SKIPJACK_WRAP : Z := 4104.
Definition CKM_BATON_WRAP : Z := 4150.
Definition CKM_JUNIPER_WRAP : Z := 4197.
Definition CKM_MD2 : Z := 512.
Definition CKM_MD2_HMAC : Z := 513.
Definition CKM_MD5 : Z := 528.
Definition CKM_MD5_HMAC : Z := 529.
Definition CKM_SHA_1 : Z := 544.
Definition CKM_SHA_1_HMAC : Z := 545.
Definition CKM_SHA256 : Z := 592.
Definition CKM_SHA256_HMAC : Z := 593.
Definition CKM_SHA384 : Z := 608.
Definition CKM_SHA384_HMAC : Z := 609.
Definition CKM_SHA512 : Z := 624.
Definition CKM_SHA512_HMAC : Z := 625.
Definition CKM_FASTHASH : Z := 4208.
Definition CKM_RIPEMD128 : Z := 560.
Definition CKM_RIPEMD128_HMAC : Z := 561.
Definition CKM_RIPEMD160 : Z := 576.
Definition CKM_RIPEMD160_HMAC : Z := 577.
Definition CKM_KEY_WRAP_LYNKS : Z := 1024.

(** ** Structures

    Integers are the values of their C types; a text field is the bytes of its
    array; a pointer to bytes is [None] when null, else the bytes of the object
    it points to. *)

Record CK_VERSION := mkVersion { major : Z; minor : Z }.

Record CK_INFO := mkInfo {
  i_cryptokiVersion : CK_VERSION;
  i_manufacturerID : block;
  i_flags : Z;
  i_libraryDescription : block;
  i_libraryVersion : CK_VERSION;
}.

Record CK_SLOT_INFO := mkSlotInfo {
  s_slotDescription : block;
  s_manufacturerID : block;
  s_flags : Z;
  s_hardwareVersion : CK_VERSION;
  s_firmwareVersion : CK_VERSION;
}.

Record CK_TOKEN_INFO := mkTokenInfo {
  t_label : block;
  t_manufacturerID : block;
  t_model : block;
  t_serialNumber : block;
  t_flags : Z;
  t_ulMaxSessionCount : Z;
  t_ulSessionCount : Z;
  t_ulMaxRwSessionCount : Z;
  t_ulRwSessionCount : Z;
  t_ulMaxPinLen : Z;
  t_ulMinPinLen : Z;
  t_ulTotalPublicMemory : Z;
  t_ulFreePublicMemory : Z;
  t_ulTotalPrivateMemory : Z;
  t_ulFreePrivateMemory : Z;
  t_hardwareVersion : CK_VERSION;
  t_firmwareVersion : CK_VERSION;
  t_utcTime : block;
}.

Record CK_SESSION_INFO := mkSessionInfo {
  ss_slotID : Z;
  ss_state : Z;
  ss_flags : Z;
  ss_ulDeviceError : Z;
}.

Record CK_ATTRIBUTE := mkAttribute {
  attr_type : Z;
  pValue : option block;
  ulValueLen : Z;
}.

Record CK_MECHANISM := mkMechanism {
  mechanism : Z;
  pParameter : option block;
  ulParameterLen : Z;
}.

Record CK_MECHANISM_INFO := mkMechanismInfo {
  ulMinKeySize : Z;
  ulMaxKeySize : Z;
  mi_flags : Z;
}.

(** ** The table of functions of a PKCS#11 module

    The module is not part of the program: its functions are parameters, over a
    state [W] of its own.  A function takes its arguments and returns its
    [CK_RV] together with what it leaves in the objects its out arguments point
    to; a null function pointer is [None]. *)

Definition mfun (W A : Type) : Type := W -> (Z * A) * W.

Record CK_FUNCTION_LIST (W : Type) := mkFunctionList {
  C_GetInfo : option (mfun W CK_INFO);
  C_GetSlotList : option (Z -> option (list Z) -> Z -> mfun W (option (list Z) * Z));
  C_GetSlotInfo : option (Z -> mfun W CK_SLOT_INFO);
  C_GetTokenInfo : option (Z -> mfun W CK_TOKEN_INFO);
  C_GetMechanismList : option (Z -> option (list Z) -> Z -> mfun W (option (list Z) * Z));
  C_GetMechanismInfo : option (Z -> Z -> mfun W CK_MECHANISM_INFO);
  C_InitToken : option (Z -> option block -> Z -> option block -> mfun W unit);
  C_WaitForSlotEvent : option (Z -> mfun W Z);
  C_OpenSession : option (Z -> Z -> mfun W Z);
  C_CloseSession : option (Z -> mfun W unit);
  C_CloseAllSessions : option (Z -> mfun W unit);
  C_GetFunctionStatus : option (Z -> mfun W unit);
  C_CancelFunction : option (Z -> mfun W unit);
  C_GetSessionInfo : option (Z -> mfun W CK_SESSION_INFO);
  C_InitPIN : option (Z -> option block -> Z -> mfun W unit);
  C_SetPIN : option (Z -> option block -> Z -> option block -> Z -> mfun W unit);
  C_GetOperationState : option (Z -> option block -> option Z -> mfun W (option block * option Z));
  C_SetOperationState : option (Z -> option block -> Z -> Z -> Z -> mfun W unit);
  C_Login : option (Z -> Z -> option block -> Z -> mfun W unit);
  C_Logout : option (Z -> mfun W unit);
  C_CreateObject : option (Z -> option (list CK_ATTRIBUTE) -> Z -> mfun W Z);
  C_CopyObject : option (Z -> Z -> option (list CK_ATTRIBUTE) -> Z -> mfun W Z);
  C_DestroyObject : option (Z -> Z -> mfun W unit);
  C_GetObjectSize : option (Z -> Z -> mfun W Z);
  C_GetAttributeValue : option (Z -> Z -> option (list CK_ATTRIBUTE) -> Z -> mfun W (option (list CK_ATTRIBUTE)));
  C_SetAttributeValue : option (Z -> Z -> option (list CK_ATTRIBUTE) -> Z -> mfun W unit);
  C_FindObjectsInit : option (Z -> option (list CK_ATTRIBUTE) -> Z -> mfun W unit);
  C_FindObjects : option (Z -> option (list Z) -> Z -> mfun W (option (list Z) * Z));
  C_FindObjectsFinal : option (Z -> mfun W unit);
  C_EncryptInit : option (Z -> CK_MECHANISM -> Z -> mfun W unit);
  C_Encrypt : option (Z -> option block -> Z -> option block -> option Z -> mfun W (option block * option Z));
  C_EncryptUpdate : option (Z -> option block -> Z -> option block -> option Z -> mfun W (option block * option Z));
  C_EncryptFinal : option (Z -> option block -> option Z -> mfun W (option block * option Z));
  C_DecryptInit : option (Z -> CK_MECHANISM -> Z -> mfun W unit);
  C_Decrypt : option (Z -> option block -> Z -> option block -> option Z -> mfun W (option block * option Z));
  C_DecryptUpdate : option (Z -> option block -> Z -> option block -> option Z -> mfun W (option block * option Z));
  C_DecryptFinal : option (Z -> option block -> option Z -> mfun W (option block * option Z));
  C_DigestInit : option (Z -> CK_MECHANISM -> mfun W unit);
  C_Digest : option (Z -> option block -> Z -> option block -> option Z -> mfun W (option block * option Z));
  C_DigestUpdate : option (Z -> option block -> Z -> mfun W unit);
  C_DigestKey : option (Z -> Z -> mfun W unit);
  C_DigestFinal : option (Z -> option block -> option Z -> mfun W (option block * option Z));
  C_SignInit : option (Z -> CK_MECHANISM -> Z -> mfun W unit);
  C_Sign : option (Z -> option block -> Z -> option block -> option Z -> mfun W (option block * option Z));
  C_SignUpdate : option (Z -> option block -> Z -> mfun W unit);
  C_SignFinal : option (Z -> option block -> option Z -> mfun W (option block * option Z));
  C_SignRecoverInit : option (Z -> CK_MECHANISM -> Z -> mfun W unit);
  C_SignRecover : option (Z -> option block -> Z -> option block -> option Z -> mfun W (option block * option Z));
  C_VerifyInit : option (Z -> CK_MECHANISM -> Z -> mfun W unit);
  C_Verify : option (Z -> option block -> Z -> option block -> Z -> mfun W unit);
  C_VerifyUpdate : option (Z -> option block -> Z -> mfun W unit);
  C_VerifyFinal : option (Z -> option block -> Z -> mfun W unit);
  C_VerifyRecoverInit : option (Z -> CK_MECHANISM -> Z -> mfun W unit);
  C_VerifyRecover : option (Z -> option block -> Z -> option block -> option Z -> mfun W (option block * option Z));
  C_DigestEncryptUpdate : option (Z -> option block -> Z -> option block -> option Z -> mfun W (option block * option Z));
  C_DecryptDigestUpdate : option (Z -> option block -> Z -> option block -> option Z -> mfun W (option block * option Z));
  C_SignEncryptUpdate : option (Z -> option block -> Z -> option block -> option Z -> mfun W (option block * option Z));
  C_DecryptVerifyUpdate : option (Z -> option block -> Z -> option block -> option Z -> mfun W (option block * option Z));
  C_GenerateKey : option (Z -> CK_MECHANISM -> option (list CK_ATTRIBUTE) -> Z -> mfun W Z);
  C_GenerateKeyPair : option (Z -> CK_MECHANISM -> option (list CK_ATTRIBUTE) -> Z -> option (list CK_ATTRIBUTE) -> Z -> mfun W (Z * Z));
  C_WrapKey : option (Z -> CK_MECHANISM -> Z -> Z -> option block -> option Z -> mfun W (option block * option Z));
  C_UnwrapKey : option (Z -> CK_MECHANISM -> Z -> option block -> Z -> option (list CK_ATTRIBUTE) -> Z -> mfun W Z);
  C_DeriveKey : option (Z -> CK_MECHANISM -> Z -> option (list CK_ATTRIBUTE) -> Z -> mfun W Z);
  C_SeedRandom : option (Z -> option block -> Z -> mfun W unit);
  C_GenerateRandom : option (Z -> option block -> Z -> mfun W (option block));
}.
Arguments C_GetInfo {W} _.
Arguments C_GetSlotList {W} _.
Arguments C_GetSlotInfo {W} _.
Arguments C_GetTokenInfo {W} _.
Arguments C_GetMechanismList {W} _.
Arguments C_GetMechanismInfo {W} _.
Arguments C_InitToken {W} _.
Arguments C_WaitForSlotEvent {W} _.
Arguments C_OpenSession {W} _.
Arguments C_CloseSession {W} _.
Arguments C_CloseAllSessions {W} _.
Arguments C_GetFunctionStatus {W} _.
Arguments C_CancelFunction {W} _.
Arguments C_GetSessionInfo {W} _.
Arguments C_InitPIN {W} _.
Arguments C_SetPIN {W} _.
Arguments C_GetOperationState {W} _.
Arguments C_SetOperationState {W} _.
Arguments C_Login {W} _.
Arguments C_Logout {W} _.
Arguments C_CreateObject {W} _.
Arguments C_CopyObject {W} _.
Arguments C_DestroyObject {W} _.
Arguments C_GetObjectSize {W} _.
Arguments C_GetAttributeValue {W} _.
Arguments C_SetAttributeValue {W} _.
Arguments C_FindObjectsInit {W} _.
Arguments C_FindObjects {W} _.
Arguments C_FindObjectsFinal {W} _.
Arguments C_EncryptInit {W} _.
Arguments C_Encrypt {W} _.
Arguments C_EncryptUpdate {W} _.
Arguments C_EncryptFinal {W} _.
Arguments C_DecryptInit {W} _.
Arguments C_Decrypt {W} _.
Arguments C_DecryptUpdate {W} _.
Arguments C_DecryptFinal {W} _.
Arguments C_DigestInit {W} _.
Arguments C_Digest {W} _.
Arguments C_DigestUpdate {W} _.
Arguments C_DigestKey {W} _.
Arguments C_DigestFinal {W} _.
Arguments C_SignInit {W} _.
Arguments C_Sign {W} _.
Arguments C_SignUpdate {W} _.
Arguments C_SignFinal {W} _.
Arguments C_SignRecoverInit {W} _.
Arguments C_SignRecover {W} _.
Arguments C_VerifyInit {W} _.
Arguments C_Verify {W} _.
Arguments C_VerifyUpdate {W} _.
Arguments C_VerifyFinal {W} _.
Arguments C_VerifyRecoverInit {W} _.
Arguments C_VerifyRecover {W} _.
Arguments C_DigestEncryptUpdate {W} _.
Arguments C_DecryptDigestUpdate {W} _.
Arguments C_SignEncryptUpdate {W} _.
Arguments C_DecryptVerifyUpdate {W} _.
Arguments C_GenerateKey {W} _.
Arguments C_GenerateKeyPair {W} _.
Arguments C_WrapKey {W} _.
Arguments C_UnwrapKey {W} _.
Arguments C_DeriveKey {W} _.
Arguments C_SeedRandom {W} _.
Arguments C_GenerateRandom {W} _.
