(* ===== verification/RpcUtil.v ===== *)
(** gck-rpc-util.c: the filters on mechanisms and attributes both sides of the
    wire apply, and the parser of [host:port]. *)
From Stdlib Require Import Ascii.
From S2P Require Import Prelude Pkcs11.

(** ** Mechanisms *)

Definition gck_rpc_mechanism_has_sane_parameters (type : Z) : bool :=
  one_of type [CKM_RSA_PKCS_OAEP; CKM_RSA_PKCS_PSS; CKM_AES_CBC_PAD].

Definition gck_rpc_mechanism_has_no_parameters (mech : Z) : bool :=
  one_of mech [
    CKM_RSA_PKCS_KEY_PAIR_GEN; CKM_RSA_X9_31_KEY_PAIR_GEN; CKM_RSA_PKCS;
    CKM_RSA_9796; CKM_RSA_X_509; CKM_RSA_X9_31; CKM_MD2_RSA_PKCS; CKM_MD5_RSA_PKCS;
    CKM_SHA1_RSA_PKCS; CKM_SHA256_RSA_PKCS; CKM_SHA384_RSA_PKCS;
    CKM_SHA512_RSA_PKCS; CKM_RIPEMD128_RSA_PKCS; CKM_RIPEMD160_RSA_PKCS;
    CKM_SHA1_RSA_X9_31; CKM_DSA_KEY_PAIR_GEN; CKM_DSA_PARAMETER_GEN; CKM_DSA;
    CKM_DSA_SHA1; CKM_FORTEZZA_TIMESTAMP; CKM_EC_KEY_PAIR_GEN; CKM_ECDSA;
    CKM_ECDSA_SHA1; CKM_DH_PKCS_KEY_PAIR_GEN; CKM_DH_PKCS_PARAMETER_GEN;
    CKM_X9_42_DH_KEY_PAIR_GEN; CKM_X9_42_DH_PARAMETER_GEN; CKM_KEA_KEY_PAIR_GEN;
    CKM_GENERIC_SECRET_KEY_GEN; CKM_RC2_KEY_GEN; CKM_RC4_KEY_GEN; CKM_RC4;
    CKM_RC5_KEY_GEN; CKM_AES_KEY_GEN; CKM_AES_ECB; CKM_AES_MAC; CKM_DES_KEY_GEN;
    CKM_DES2_KEY_GEN; CKM_DES3_KEY_GEN; CKM_CDMF_KEY_GEN; CKM_CAST_KEY_GEN;
    CKM_CAST3_KEY_GEN; CKM_CAST128_KEY_GEN; CKM_IDEA_KEY_GEN;
    CKM_SSL3_PRE_MASTER_KEY_GEN; CKM_TLS_PRE_MASTER_KEY_GEN; CKM_SKIPJACK_KEY_GEN;
    CKM_BATON_KEY_GEN; CKM_JUNIPER_KEY_GEN; CKM_RC2_ECB; CKM_DES_ECB; CKM_DES3_ECB;
    CKM_CDMF_ECB; CKM_CAST_ECB; CKM_CAST3_ECB; CKM_CAST128_ECB; CKM_RC5_ECB;
    CKM_IDEA_ECB; CKM_RC2_MAC; CKM_DES_MAC; CKM_DES3_MAC; CKM_CDMF_MAC;
    CKM_CAST_MAC; CKM_CAST3_MAC; CKM_RC5_MAC; CKM_IDEA_MAC; CKM_SSL3_MD5_MAC;
    CKM_SSL3_SHA1_MAC; CKM_SKIPJACK_WRAP; CKM_BATON_WRAP; CKM_JUNIPER_WRAP; CKM_MD2;
    CKM_MD2_HMAC; CKM_MD5; CKM_MD5_HMAC; CKM_SHA_1; CKM_SHA_1_HMAC; CKM_SHA256;
    CKM_SHA256_HMAC; CKM_SHA384; CKM_SHA384_HMAC; CKM_SHA512; CKM_SHA512_HMAC;
    CKM_FASTHASH; CKM_RIPEMD128; CKM_RIPEMD128_HMAC; CKM_RIPEMD160;
    CKM_RIPEMD160_HMAC; CKM_KEY_WRAP_LYNKS].

Definition gck_rpc_mechanism_is_supported (mech : Z) : bool :=
  gck_rpc_mechanism_has_no_parameters mech
  || gck_rpc_mechanism_has_sane_parameters mech.

(** [(int) n] *)
Definition to_int (n : Z) : Z :=
  let m := wrap32 n in if m <? 2147483648 then m else m - 4294967296.

(** The loop of [gck_rpc_mechanism_list_purge].  [mechs] is the whole array the
    pointer points into, [n_mechs] the count, [i] the index.  Every iteration
    advances [i] or decrements the count: the count is enough fuel. *)
Fixpoint purge_loop (fuel : nat) (i : Z) (mechs : list Z) (n_mechs : Z)
    : res (list Z * Z) :=
  if i <? to_int n_mechs then
    match fuel with
    | O => Ok (mechs, n_mechs)
    | S fuel =>
        m ← mem_read mechs i 1;
        if negb (gck_rpc_mechanism_has_no_parameters (nth 0 m 0))
           && negb (gck_rpc_mechanism_has_sane_parameters (nth 0 m 0))
        then
          (* Remove the mechanism from the list *)
          rest ← mem_read mechs (i + 1) (wrap64 (n_mechs - i));
          mechs ← mem_write mechs i rest;
          purge_loop fuel i mechs (wrap64 (n_mechs - 1))
        else purge_loop fuel (i + 1) mechs n_mechs
    end
  else Ok (mechs, n_mechs).

Definition gck_rpc_mechanism_list_purge (mechs : list Z) (n_mechs : Z)
    : res (list Z * Z) :=
  purge_loop (Z.to_nat n_mechs) 0 mechs n_mechs.

(** ** Attributes that hold a [CK_ULONG] *)

Definition gck_rpc_has_ulong_parameter (type : Z) : bool :=
  one_of type [CKA_CLASS; CKA_KEY_TYPE; CKA_CERTIFICATE_TYPE; CKA_HW_FEATURE_TYPE;
    CKA_MODULUS_BITS].

Definition gck_rpc_has_bad_sized_ulong_parameter (attr : CK_ATTRIBUTE) : bool :=
  match pValue attr with
  | None => false
  | Some _ =>
      if negb (sizeof_uint64_t =? ulValueLen attr) then false else
      if sizeof_CK_ULONG =? ulValueLen attr then false else
      gck_rpc_has_ulong_parameter (attr_type attr)
  end.

(** ** Host and port *)

(** [strchr (s, c)], as the string before the character and the one behind it. *)
Fixpoint strchr (c : Ascii.ascii) (s : string) : option (string * string) :=
  match s with
  | EmptyString => None
  | String a s =>
      if Ascii.eqb a c then Some (EmptyString, s)
      else match strchr c s with
           | Some (before, behind) => Some (String a before, behind)
           | None => None
           end
  end.

(** Returns the result, [*host] and [*port].  [strdup_ok]: the C library found
    memory for the copy. *)
Definition gck_rpc_parse_host_port (strdup_ok : bool) (prefix : string)
    : bool * option string * option string :=
  let (is_ipv6, host) :=
    match prefix with
    | String "["%char rest => (true, rest)
    | _ => (false, prefix)
    end in
  if negb strdup_ok then (false, None, None) else
  match strchr (if is_ipv6 then "]" else ":")%char host with
  | None => (true, Some host, None)
  | Some (before, behind) =>
      (* remember if separator was ']' *)
      let port := match behind with
                  | String ":"%char rest => if is_ipv6 then rest else behind
                  | _ => behind
                  end in
      (true, Some before, Some port)
  end.

(** * Properties *)

(** ** Purging *)

Lemma to_int_id n : 0 <= n < 2147483648 -> to_int n = n.
Proof.
  intros. unfold to_int. rewrite wrap32_id by lia.
  by rewrite (proj2 (Z.ltb_lt _ _)) by lia.
Qed.

Lemma supported_spec mech :
  negb (gck_rpc_mechanism_has_no_parameters mech)
  && negb (gck_rpc_mechanism_has_sane_parameters mech)
  = negb (gck_rpc_mechanism_is_supported mech).
Proof. unfold gck_rpc_mechanism_is_supported. by rewrite negb_orb. Qed.

Definition supported (mech : Z) : Prop := gck_rpc_mechanism_is_supported mech = true.
#[export] Instance supported_dec mech : Decision (supported mech).
Proof. unfold supported. apply _. Defined.

Lemma slice_one (pre : list Z) x post : slice (pre ++ x :: post) (zlen pre) 1 = [x].
Proof. apply (slice_app pre [x] post). Qed.

(** One removal: everything behind the mechanism moves down by one. *)
Lemma purge_move pre x rest y slack :
  mem_read (pre ++ x :: rest ++ y :: slack) (zlen pre + 1) (zlen rest + 1)
    = Ok (rest ++ [y]) /\
  mem_write (pre ++ x :: rest ++ y :: slack) (zlen pre) (rest ++ [y])
    = Ok (pre ++ rest ++ y :: y :: slack).
Proof.
  pose proof (zlen_nonneg pre). pose proof (zlen_nonneg rest). pose proof (zlen_nonneg slack).
  split.
  - rewrite mem_read_ok by (autorewrite with zlen; lia). f_equal.
    pose proof (slice_app (pre ++ [x]) (rest ++ [y]) slack) as Hs.
    rewrite <- !(assoc_L app) in Hs. autorewrite with zlen in Hs.
    rewrite !Z.add_0_r in Hs. exact Hs.
  - unfold mem_write. rewrite bool_decide_true by (autorewrite with zlen; lia). f_equal.
    unfold zlen at 1. rewrite Nat2Z.id, take_app_length. f_equal.
    rewrite <- (assoc_L app). f_equal. simpl. f_equal.
    replace (pre ++ x :: rest ++ y :: slack) with ((pre ++ x :: rest) ++ y :: slack)
      by (by rewrite <- (assoc_L app)).
    apply drop_app_length'. unfold zlen. rewrite !length_app. simpl. lia.
Qed.

Lemma purge_loop_spec rest pre slack fuel :
  zlen (pre ++ rest) < 2147483648 -> slack <> [] -> (length rest <= fuel)%nat ->
  exists slack',
    purge_loop fuel (zlen pre) (pre ++ rest ++ slack) (zlen (pre ++ rest))
    = Ok (pre ++ filter supported rest ++ slack', zlen (pre ++ filter supported rest))
    /\ zlen (filter supported rest ++ slack') = zlen (rest ++ slack).
Proof.
  revert pre slack fuel. induction rest as [|x rest IH]; intros pre slack fuel Hn Hs Hf.
  - exists slack. split; [|done]. rewrite app_nil_r in *. simpl.
    rewrite app_nil_r. pose proof (zlen_nonneg pre).
    destruct fuel; cbn [purge_loop]; by rewrite to_int_id, Z.ltb_irrefl by lia.
  - destruct fuel as [|fuel]; [simpl in Hf; lia|]. cbn [purge_loop].
    pose proof (zlen_nonneg pre). pose proof (zlen_nonneg rest).
    autorewrite with zlen in Hn. rewrite to_int_id by (autorewrite with zlen; lia).
    rewrite (proj2 (Z.ltb_lt _ _)) by (autorewrite with zlen; lia).
    unfold mbind, res_bind. pose proof (zlen_nonneg slack).
    rewrite mem_read_ok by (autorewrite with zlen; lia).
    simpl app. rewrite slice_one. cbn [nth]. rewrite supported_spec, filter_cons.
    destruct (decide (supported x)) as [E|E]; unfold supported in E.
    + rewrite E. cbn [negb]. destruct (IH (pre ++ [x]) slack fuel) as (s' & Hrun & Hlen);
        [autorewrite with zlen; lia|done|simpl in Hf; lia|].
      exists s'. rewrite <- !(assoc_L app) in Hrun. autorewrite with zlen in *.
      simpl app in *. rewrite !Z.add_0_r in Hrun. rewrite Hrun. split; [done|lia].
    + apply not_true_is_false in E. rewrite E. cbn [negb].
      destruct slack as [|y slack]; [done|].
      rewrite wrap64_id by (autorewrite with zlen; lia).
      replace (zlen (pre ++ x :: rest) - zlen pre) with (zlen rest + 1)
        by (autorewrite with zlen; lia).
      destruct (purge_move pre x rest y slack) as [-> ->].
      rewrite wrap64_id by (autorewrite with zlen; lia).
      destruct (IH pre (y :: y :: slack) fuel) as (s' & Hrun & Hlen);
        [autorewrite with zlen; lia|done|simpl in Hf; lia|].
      replace (zlen (pre ++ x :: rest) - 1) with (zlen (pre ++ rest))
        by (autorewrite with zlen; lia).
      exists s'. split; [exact Hrun|]. autorewrite with zlen in *. lia.
Qed.

(** With room for one more the list is purged inside the object. *)
Lemma purge_in_room l n :
  0 <= n < zlen l -> n < 2147483648 ->
  exists l' n', gck_rpc_mechanism_list_purge l n = Ok (l', n').
Proof.
  intros Hn Hsmall. unfold gck_rpc_mechanism_list_purge.
  rewrite <- (take_drop (Z.to_nat n) l). pose proof (zlen_take l n ltac:(lia)) as Ht.
  destruct (purge_loop_spec (take (Z.to_nat n) l) [] (drop (Z.to_nat n) l) (Z.to_nat n))
    as (slack' & Hrun & _).
  - cbn [app]. lia.
  - intros Hd. pose proof (zlen_drop l n ltac:(lia)) as Hz. rewrite Hd, zlen_nil in Hz. lia.
  - unfold zlen in Ht. lia.
  - cbn [app] in Hrun. rewrite Ht in Hrun. change (zlen []) with 0 in Hrun. rewrite Hrun. by do 2 eexists.
Qed.

(** C33: whatever list of mechanisms the daemon returned,
    [gck_rpc_mechanism_list_purge] returns and leaves exactly the supported
    ones, in their order, at the front of the array, and their number in the
    count, provided the array has room for one element more than it lists. *)
Theorem mechanism_list_purge_filters mechs slack :
  zlen mechs < 2147483648 -> slack <> [] ->
  exists slack',
    gck_rpc_mechanism_list_purge (mechs ++ slack) (zlen mechs)
    = Ok (filter supported mechs ++ slack', zlen (filter supported mechs))
    /\ zlen (filter supported mechs ++ slack') = zlen (mechs ++ slack).
Proof.
  intros Hn Hs. unfold gck_rpc_mechanism_list_purge. 
  replace (Z.to_nat (zlen mechs)) with (length mechs) by (unfold zlen; lia).
  by apply (purge_loop_spec mechs [] slack).
Qed.

Lemma mechanism_list_purge_filters_witness :
  exists slack', gck_rpc_mechanism_list_purge [CKM_RSA_PKCS; 12345; CKM_AES_CBC_PAD; 7777; 0] 4
    = Ok ([CKM_RSA_PKCS; CKM_AES_CBC_PAD] ++ slack', 2).
Proof.
  destruct (mechanism_list_purge_filters [CKM_RSA_PKCS; 12345; CKM_AES_CBC_PAD; 7777] [0])
    as (s & H & _); [vm_compute; reflexivity|discriminate|]. exists s. exact H.
Defined.

(** Without that room, the first mechanism that has to go makes the
    [memmove] read one element past the end of the array. *)
Theorem mechanism_list_purge_overread good bad rest :
  Forall supported good -> ~ supported bad -> zlen (good ++ bad :: rest) < 2147483648 ->
  gck_rpc_mechanism_list_purge (good ++ bad :: rest) (zlen (good ++ bad :: rest))
  = Crash OutOfBounds.
Proof.
  intros Hg Hb Hn. unfold gck_rpc_mechanism_list_purge. 
  replace (Z.to_nat (zlen (good ++ bad :: rest))) with (length (good ++ bad :: rest))
    by (unfold zlen; lia).
  assert (forall pre fuel, (length (good ++ bad :: rest) <= fuel)%nat ->
    zlen (pre ++ good ++ bad :: rest) < 2147483648 ->
    purge_loop fuel (zlen pre) (pre ++ good ++ bad :: rest)
      (zlen (pre ++ good ++ bad :: rest)) = Crash OutOfBounds) as Hloop.
  { clear Hn. induction Hg as [|x good Hx _ IH]; intros pre fuel Hf Hn;
      (destruct fuel as [|fuel]; [simpl in Hf; lia|]); cbn [purge_loop app];
      pose proof (zlen_nonneg pre); pose proof (zlen_nonneg rest);
      try pose proof (zlen_nonneg good); autorewrite with zlen in Hn;
      rewrite to_int_id by (autorewrite with zlen; lia);
      rewrite (proj2 (Z.ltb_lt _ _)) by (autorewrite with zlen; lia);
      unfold mbind, res_bind; rewrite mem_read_ok by (autorewrite with zlen; lia);
      rewrite slice_one; cbn [nth]; rewrite supported_spec.
    - apply not_true_is_false in Hb. rewrite Hb. cbn [negb].
      rewrite wrap64_id by (autorewrite with zlen; lia).
      unfold mem_read. rewrite bool_decide_false; [done|]. autorewrite with zlen. lia.
    - rewrite Hx. cbn [negb]. specialize (IH (pre ++ [x]) fuel).
      rewrite <- !(assoc_L app) in IH. autorewrite with zlen in *. simpl app in *.
      rewrite !Z.add_0_r in IH. apply IH; [simpl in Hf; lia|lia]. }
  apply (Hloop []); [lia|done].
Qed.

Lemma mechanism_list_purge_overread_witness :
  gck_rpc_mechanism_list_purge [CKM_RSA_PKCS; 12345] 2 = Crash OutOfBounds.
Proof.
  apply (mechanism_list_purge_overread [CKM_RSA_PKCS] 12345 []).
  - repeat constructor.
  - intros H. vm_compute in H. discriminate.
  - vm_compute. reflexivity.
Defined.

(** ** Host and port *)

Definition lacks (c : ascii) (s : string) : Prop :=
  Forall (fun a => a <> c) (String.list_ascii_of_string s).

Lemma strchr_none c s : lacks c s -> strchr c s = None.
Proof.
  induction s as [|a s IH]; [done|]. unfold lacks.
  cbn [strchr String.list_ascii_of_string]. rewrite Forall_cons.
  intros [Ha Hs]. rewrite (proj2 (Ascii.eqb_neq _ _) Ha). by rewrite IH.
Qed.

Lemma strchr_first c s t : lacks c s -> strchr c (s +:+ String c t) = Some (s, t).
Proof.
  induction s as [|a s IH]; [intros _|].
  - change (String.append "" (String c t)) with (String c t). unfold strchr. by rewrite Ascii.eqb_refl.
  - unfold lacks. cbn [String.list_ascii_of_string]. rewrite Forall_cons. intros [Ha Hs].
    change (String.append (String a s) (String c t)) with (String a (s +:+ String c t)).
    cbn [strchr]. rewrite (proj2 (Ascii.eqb_neq _ _) Ha). by rewrite IH.
Qed.

Definition unbracketed (s : string) : Prop :=
  match s with String "["%char _ => False | _ => True end.

Lemma unbracketed_match s :
  unbracketed s ->
  match s with String "["%char rest => (true, rest) | _ => (false, s) end = (false, s).
Proof. destruct s as [|[[] [] [] [] [] [] [] []] s]; done. Qed.

(** C34: [gck_rpc_parse_host_port] splits every form of address its comment
    lists: a name or IPv4 address with and without a port, and a bracketed IPv6
    address, which may itself hold colons, with and without a port.  Where no
    port is given the port is the null pointer as the comment says, except behind
    brackets: there it is the empty string.  Without memory it fails. *)
Theorem parse_host_port_splits host port :
  (unbracketed host -> lacks ":"%char host ->
     gck_rpc_parse_host_port true (host +:+ ":" +:+ port) = (true, Some host, Some port)
     /\ gck_rpc_parse_host_port true host = (true, Some host, None))
  /\ (lacks "]"%char host ->
     gck_rpc_parse_host_port true ("[" +:+ host +:+ "]:" +:+ port)
       = (true, Some host, Some port)
     /\ gck_rpc_parse_host_port true ("[" +:+ host +:+ "]") = (true, Some host, Some ""))
  /\ gck_rpc_parse_host_port false host = (false, None, None).
Proof.
  split; [|split].
  - intros Hu Hl. split; unfold gck_rpc_parse_host_port.
    + rewrite unbracketed_match by (destruct host; done). cbn [negb].
      change (":" +:+ port) with (String ":"%char port). rewrite strchr_first by done.
      destruct port as [|[[] [] [] [] [] [] [] []] ?]; done.
    + rewrite unbracketed_match by done. cbn [negb]. by rewrite strchr_none.
  - intros Hl. split.
    + change ("]:" +:+ port) with (String "]"%char (String ":"%char port)).
      change (gck_rpc_parse_host_port true (String "["%char (host +:+ String "]" (String ":" port)))
              = (true, Some host, Some port)).
      unfold gck_rpc_parse_host_port. cbn [negb]. rewrite strchr_first by done. done.
    + change (gck_rpc_parse_host_port true (String "["%char (host +:+ String "]" ""))
              = (true, Some host, Some "")).
      unfold gck_rpc_parse_host_port. cbn [negb]. rewrite strchr_first by done. done.
  - unfold gck_rpc_parse_host_port. destruct host as [|[[] [] [] [] [] [] [] []] ?]; done.
Qed.

Lemma parse_host_port_splits_witness :
  gck_rpc_parse_host_port true "localhost:2345" = (true, Some "localhost", Some "2345")
  /\ gck_rpc_parse_host_port true "0.0.0.0" = (true, Some "0.0.0.0", None)
  /\ gck_rpc_parse_host_port true "[::1]:2345" = (true, Some "::1", Some "2345")
  /\ gck_rpc_parse_host_port true "[::]" = (true, Some "::", Some "").
Proof.
  split; [|split; [|split]].
  - apply (proj1 (parse_host_port_splits "localhost" "2345")); repeat constructor; discriminate.
  - apply (proj1 (parse_host_port_splits "0.0.0.0" "")); repeat constructor; discriminate.
  - apply (proj1 (proj2 (parse_host_port_splits "::1" "2345"))). repeat constructor; discriminate.
  - apply (proj1 (proj2 (parse_host_port_splits "::" "2345"))). repeat constructor; discriminate.
Defined.
