(* ===== verification/Calls.v ===== *)
(** gck-rpc-private.h: the numbers, names and signatures of the calls, and the
    message structure. *)
From S2P Require Import Prelude EggBuffer.

(** ** The calls, must be in sync with the table below *)

Definition GCK_RPC_CALL_ERROR : Z := 0.
Definition GCK_RPC_CALL_C_Initialize : Z := 1.
Definition GCK_RPC_CALL_C_Finalize : Z := 2.
Definition GCK_RPC_CALL_C_GetInfo : Z := 3.
Definition GCK_RPC_CALL_C_GetSlotList : Z := 4.
Definition GCK_RPC_CALL_C_GetSlotInfo : Z := 5.
Definition GCK_RPC_CALL_C_GetTokenInfo : Z := 6.
Definition GCK_RPC_CALL_C_GetMechanismList : Z := 7.
Definition GCK_RPC_CALL_C_GetMechanismInfo : Z := 8.
Definition GCK_RPC_CALL_C_InitToken : Z := 9.
Definition GCK_RPC_CALL_C_WaitForSlotEvent : Z := 10.
Definition GCK_RPC_CALL_C_OpenSession : Z := 11.
Definition GCK_RPC_CALL_C_CloseSession : Z := 12.
Definition GCK_RPC_CALL_C_CloseAllSessions : Z := 13.
Definition GCK_RPC_CALL_C_GetFunctionStatus : Z := 14.
Definition GCK_RPC_CALL_C_CancelFunction : Z := 15.
Definition GCK_RPC_CALL_C_GetSessionInfo : Z := 16.
Definition GCK_RPC_CALL_C_InitPIN : Z := 17.
Definition GCK_RPC_CALL_C_SetPIN : Z := 18.
Definition GCK_RPC_CALL_C_GetOperationState : Z := 19.
Definition GCK_RPC_CALL_C_SetOperationState : Z := 20.
Definition GCK_RPC_CALL_C_Login : Z := 21.
Definition GCK_RPC_CALL_C_Logout : Z := 22.
Definition GCK_RPC_CALL_C_CreateObject : Z := 23.
Definition GCK_RPC_CALL_C_CopyObject : Z := 24.
Definition GCK_RPC_CALL_C_DestroyObject : Z := 25.
Definition GCK_RPC_CALL_C_GetObjectSize : Z := 26.
Definition GCK_RPC_CALL_C_GetAttributeValue : Z := 27.
Definition GCK_RPC_CALL_C_SetAttributeValue : Z := 28.
Definition GCK_RPC_CALL_C_FindObjectsInit : Z := 29.
Definition GCK_RPC_CALL_C_FindObjects : Z := 30.
Definition GCK_RPC_CALL_C_FindObjectsFinal : Z := 31.
Definition GCK_RPC_CALL_C_EncryptInit : Z := 32.
Definition GCK_RPC_CALL_C_Encrypt : Z := 33.
Definition GCK_RPC_CALL_C_EncryptUpdate : Z := 34.
Definition GCK_RPC_CALL_C_EncryptFinal : Z := 35.
Definition GCK_RPC_CALL_C_DecryptInit : Z := 36.
Definition GCK_RPC_CALL_C_Decrypt : Z := 37.
Definition GCK_RPC_CALL_C_DecryptUpdate : Z := 38.
Definition GCK_RPC_CALL_C_DecryptFinal : Z := 39.
Definition GCK_RPC_CALL_C_DigestInit : Z := 40.
Definition GCK_RPC_CALL_C_Digest : Z := 41.
Definition GCK_RPC_CALL_C_DigestUpdate : Z := 42.
Definition GCK_RPC_CALL_C_DigestKey : Z := 43.
Definition GCK_RPC_CALL_C_DigestFinal : Z := 44.
Definition GCK_RPC_CALL_C_SignInit : Z := 45.
Definition GCK_RPC_CALL_C_Sign : Z := 46.
Definition GCK_RPC_CALL_C_SignUpdate : Z := 47.
Definition GCK_RPC_CALL_C_SignFinal : Z := 48.
Definition GCK_RPC_CALL_C_SignRecoverInit : Z := 49.
Definition GCK_RPC_CALL_C_SignRecover : Z := 50.
Definition GCK_RPC_CALL_C_VerifyInit : Z := 51.
Definition GCK_RPC_CALL_C_Verify : Z := 52.
Definition GCK_RPC_CALL_C_VerifyUpdate : Z := 53.
Definition GCK_RPC_CALL_C_VerifyFinal : Z := 54.
Definition GCK_RPC_CALL_C_VerifyRecoverInit : Z := 55.
Definition GCK_RPC_CALL_C_VerifyRecover : Z := 56.
Definition GCK_RPC_CALL_C_DigestEncryptUpdate : Z := 57.
Definition GCK_RPC_CALL_C_DecryptDigestUpdate : Z := 58.
Definition GCK_RPC_CALL_C_SignEncryptUpdate : Z := 59.
Definition GCK_RPC_CALL_C_DecryptVerifyUpdate : Z := 60.
Definition GCK_RPC_CALL_C_GenerateKey : Z := 61.
Definition GCK_RPC_CALL_C_GenerateKeyPair : Z := 62.
Definition GCK_RPC_CALL_C_WrapKey : Z := 63.
Definition GCK_RPC_CALL_C_UnwrapKey : Z := 64.
Definition GCK_RPC_CALL_C_DeriveKey : Z := 65.
Definition GCK_RPC_CALL_C_SeedRandom : Z := 66.
Definition GCK_RPC_CALL_C_GenerateRandom : Z := 67.
Definition GCK_RPC_CALL_MAX : Z := 68.

(** ** The table of signatures

    - a_ = prefix denotes array of _
    - A  = CK_ATTRIBUTE
    - f_ = prefix denotes buffer for _
    - M  = CK_MECHANISM
    - u  = CK_ULONG
    - s  = space padded string
    - v  = CK_VERSION
    - y  = CK_BYTE *)

Record GckRpcCall := mkCall {
  c_call_id : Z;
  c_name : string;
  c_request : option string;
  c_response : option string;
}.

Definition gck_rpc_calls : list GckRpcCall := [
  mkCall GCK_RPC_CALL_ERROR "ERROR" None None;
  mkCall GCK_RPC_CALL_C_Initialize "C_Initialize" (Some "ay") (Some "");
  mkCall GCK_RPC_CALL_C_Finalize "C_Finalize" (Some "") (Some "");
  mkCall GCK_RPC_CALL_C_GetInfo "C_GetInfo" (Some "") (Some "vsusv");
  mkCall GCK_RPC_CALL_C_GetSlotList "C_GetSlotList" (Some "yfu") (Some "au");
  mkCall GCK_RPC_CALL_C_GetSlotInfo "C_GetSlotInfo" (Some "u") (Some "ssuvv");
  mkCall GCK_RPC_CALL_C_GetTokenInfo "C_GetTokenInfo"
    (Some "u") (Some "ssssuuuuuuuuuuuvvs");
  mkCall GCK_RPC_CALL_C_GetMechanismList "C_GetMechanismList" (Some "ufu") (Some "au");
  mkCall GCK_RPC_CALL_C_GetMechanismInfo "C_GetMechanismInfo" (Some "uu") (Some "uuu");
  mkCall GCK_RPC_CALL_C_InitToken "C_InitToken" (Some "uays") (Some "");
  mkCall GCK_RPC_CALL_C_WaitForSlotEvent "C_WaitForSlotEvent" (Some "u") (Some "u");
  mkCall GCK_RPC_CALL_C_OpenSession "C_OpenSession" (Some "uu") (Some "u");
  mkCall GCK_RPC_CALL_C_CloseSession "C_CloseSession" (Some "u") (Some "");
  mkCall GCK_RPC_CALL_C_CloseAllSessions "C_CloseAllSessions" (Some "u") (Some "");
  mkCall GCK_RPC_CALL_C_GetFunctionStatus "C_GetFunctionStatus" (Some "u") (Some "");
  mkCall GCK_RPC_CALL_C_CancelFunction "C_CancelFunction" (Some "u") (Some "");
  mkCall GCK_RPC_CALL_C_GetSessionInfo "C_GetSessionInfo" (Some "u") (Some "uuuu");
  mkCall GCK_RPC_CALL_C_InitPIN "C_InitPIN" (Some "uay") (Some "");
  mkCall GCK_RPC_CALL_C_SetPIN "C_SetPIN" (Some "uayay") (Some "");
  mkCall GCK_RPC_CALL_C_GetOperationState "C_GetOperationState" (Some "ufy") (Some "ay");
  mkCall GCK_RPC_CALL_C_SetOperationState "C_SetOperationState" (Some "uayuu") (Some "");
  mkCall GCK_RPC_CALL_C_Login "C_Login" (Some "uuay") (Some "");
  mkCall GCK_RPC_CALL_C_Logout "C_Logout" (Some "u") (Some "");
  mkCall GCK_RPC_CALL_C_CreateObject "C_CreateObject" (Some "uaA") (Some "u");
  mkCall GCK_RPC_CALL_C_CopyObject "C_CopyObject" (Some "uuaA") (Some "u");
  mkCall GCK_RPC_CALL_C_DestroyObject "C_DestroyObject" (Some "uu") (Some "");
  mkCall GCK_RPC_CALL_C_GetObjectSize "C_GetObjectSize" (Some "uu") (Some "u");
  mkCall GCK_RPC_CALL_C_GetAttributeValue "C_GetAttributeValue"
    (Some "uufA") (Some "aAu");
  mkCall GCK_RPC_CALL_C_SetAttributeValue "C_SetAttributeValue" (Some "uuaA") (Some "");
  mkCall GCK_RPC_CALL_C_FindObjectsInit "C_FindObjectsInit" (Some "uaA") (Some "");
  mkCall GCK_RPC_CALL_C_FindObjects "C_FindObjects" (Some "ufu") (Some "au");
  mkCall GCK_RPC_CALL_C_FindObjectsFinal "C_FindObjectsFinal" (Some "u") (Some "");
  mkCall GCK_RPC_CALL_C_EncryptInit "C_EncryptInit" (Some "uMu") (Some "");
  mkCall GCK_RPC_CALL_C_Encrypt "C_Encrypt" (Some "uayfy") (Some "ay");
  mkCall GCK_RPC_CALL_C_EncryptUpdate "C_EncryptUpdate" (Some "uayfy") (Some "ay");
  mkCall GCK_RPC_CALL_C_EncryptFinal "C_EncryptFinal" (Some "ufy") (Some "ay");
  mkCall GCK_RPC_CALL_C_DecryptInit "C_DecryptInit" (Some "uMu") (Some "");
  mkCall GCK_RPC_CALL_C_Decrypt "C_Decrypt" (Some "uayfy") (Some "ay");
  mkCall GCK_RPC_CALL_C_DecryptUpdate "C_DecryptUpdate" (Some "uayfy") (Some "ay");
  mkCall GCK_RPC_CALL_C_DecryptFinal "C_DecryptFinal" (Some "ufy") (Some "ay");
  mkCall GCK_RPC_CALL_C_DigestInit "C_DigestInit" (Some "uM") (Some "");
  mkCall GCK_RPC_CALL_C_Digest "C_Digest" (Some "uayfy") (Some "ay");
  mkCall GCK_RPC_CALL_C_DigestUpdate "C_DigestUpdate" (Some "uay") (Some "");
  mkCall GCK_RPC_CALL_C_DigestKey "C_DigestKey" (Some "uu") (Some "");
  mkCall GCK_RPC_CALL_C_DigestFinal "C_DigestFinal" (Some "ufy") (Some "ay");
  mkCall GCK_RPC_CALL_C_SignInit "C_SignInit" (Some "uMu") (Some "");
  mkCall GCK_RPC_CALL_C_Sign "C_Sign" (Some "uayfy") (Some "ay");
  mkCall GCK_RPC_CALL_C_SignUpdate "C_SignUpdate" (Some "uay") (Some "");
  mkCall GCK_RPC_CALL_C_SignFinal "C_SignFinal" (Some "ufy") (Some "ay");
  mkCall GCK_RPC_CALL_C_SignRecoverInit "C_SignRecoverInit" (Some "uMu") (Some "");
  mkCall GCK_RPC_CALL_C_SignRecover "C_SignRecover" (Some "uayfy") (Some "ay");
  mkCall GCK_RPC_CALL_C_VerifyInit "C_VerifyInit" (Some "uMu") (Some "");
  mkCall GCK_RPC_CALL_C_Verify "C_Verify" (Some "uayay") (Some "");
  mkCall GCK_RPC_CALL_C_VerifyUpdate "C_VerifyUpdate" (Some "uay") (Some "");
  mkCall GCK_RPC_CALL_C_VerifyFinal "C_VerifyFinal" (Some "uay") (Some "");
  mkCall GCK_RPC_CALL_C_VerifyRecoverInit "C_VerifyRecoverInit" (Some "uMu") (Some "");
  mkCall GCK_RPC_CALL_C_VerifyRecover "C_VerifyRecover" (Some "uayfy") (Some "ay");
  mkCall GCK_RPC_CALL_C_DigestEncryptUpdate "C_DigestEncryptUpdate"
    (Some "uayfy") (Some "ay");
  mkCall GCK_RPC_CALL_C_DecryptDigestUpdate "C_DecryptDigestUpdate"
    (Some "uayfy") (Some "ay");
  mkCall GCK_RPC_CALL_C_SignEncryptUpdate "C_SignEncryptUpdate"
    (Some "uayfy") (Some "ay");
  mkCall GCK_RPC_CALL_C_DecryptVerifyUpdate "C_DecryptVerifyUpdate"
    (Some "uayfy") (Some "ay");
  mkCall GCK_RPC_CALL_C_GenerateKey "C_GenerateKey" (Some "uMaA") (Some "u");
  mkCall GCK_RPC_CALL_C_GenerateKeyPair "C_GenerateKeyPair" (Some "uMaAaA") (Some "uu");
  mkCall GCK_RPC_CALL_C_WrapKey "C_WrapKey" (Some "uMuufy") (Some "ay");
  mkCall GCK_RPC_CALL_C_UnwrapKey "C_UnwrapKey" (Some "uMuayaA") (Some "u");
  mkCall GCK_RPC_CALL_C_DeriveKey "C_DeriveKey" (Some "uMuaA") (Some "u");
  mkCall GCK_RPC_CALL_C_SeedRandom "C_SeedRandom" (Some "uay") (Some "");
  mkCall GCK_RPC_CALL_C_GenerateRandom "C_GenerateRandom" (Some "ufy") (Some "ay")
].

(** [gck_rpc_calls[call_id]] *)
Definition gck_rpc_call (call_id : Z) : res GckRpcCall :=
  if call_id <? 0 then Crash OutOfBounds else
  match gck_rpc_calls !! Z.to_nat call_id with
  | Some c => Ok c
  | None => Crash OutOfBounds
  end.

(** [GCK_RPC_CHECK_CALLS] *)
Definition GCK_RPC_CHECK_CALLS : bool :=
  forallb (fun i => match gck_rpc_call (Z.of_nat i) with
                    | Ok c => c_call_id c =? Z.of_nat i
                    | Crash _ => false
                    end) (seq 0 (Z.to_nat GCK_RPC_CALL_MAX)).

Example calls_checked : GCK_RPC_CHECK_CALLS = true.
Proof. vm_compute. reflexivity. Qed.

(** ** Messages *)

Definition GCK_RPC_HANDSHAKE : string := "PRIVATE-GNOME-KEYRING-PKCS11-PROTOCOL-V-3".
Definition GCK_RPC_HANDSHAKE_LEN : Z := strlen GCK_RPC_HANDSHAKE.

Inductive GckRpcMessageType := GCK_RPC_REQUEST | GCK_RPC_RESPONSE.

#[export] Instance GckRpcMessageType_eq_dec : EqDecision GckRpcMessageType.
Proof. solve_decision. Defined.

(** [call_type] is 0, here [None], in a message that was reset; [sigverify]
    points to what of the signature has not been read or written yet. *)
Record GckRpcMessage := mkMessage {
  call_id : Z;
  call_type : option GckRpcMessageType;
  signature : option string;
  buffer : EggBuffer;
  parsed : Z;
  sigverify : option string;
}.

Definition GCK_RPC_BYTE_BUFFER_NULL_DATA : Z := 1.
Definition GCK_RPC_BYTE_BUFFER_NULL_COUNT : Z := 2.

Definition gck_rpc_message_is_verified (msg : GckRpcMessage) : bool :=
  match sigverify msg with
  | None | Some EmptyString => true
  | Some _ => false
  end.

Definition gck_rpc_message_buffer_error (msg : GckRpcMessage) : bool :=
  egg_buffer_has_error (buffer msg).
