(* ===== verification/Message.v ===== *)
(** gck-rpc-message.c: marshalled messages.  A message is a buffer, a position
    in it, and what is left of the signature its parts must follow; every
    [gck_rpc_message_write_] and [gck_rpc_message_read_] function first checks that
    its part is next in the signature. *)
From S2P Require Import Prelude EggBuffer BufferOps Pkcs11 RpcUtil Calls.

(** ** Updating fields *)

Definition set_buffer (b : EggBuffer) (m : GckRpcMessage) : GckRpcMessage :=
  mkMessage (call_id m) (call_type m) (signature m) b (parsed m) (sigverify m).
Definition set_parsed (n : Z) (m : GckRpcMessage) : GckRpcMessage :=
  mkMessage (call_id m) (call_type m) (signature m) (buffer m) n (sigverify m).
Definition set_sigverify (s : option string) (m : GckRpcMessage) : GckRpcMessage :=
  mkMessage (call_id m) (call_type m) (signature m) (buffer m) (parsed m) s.
Definition set_signature (s : option string) (m : GckRpcMessage) : GckRpcMessage :=
  mkMessage (call_id m) (call_type m) s (buffer m) (parsed m) (sigverify m).
Definition set_call (id : Z) (ty : option GckRpcMessageType) (m : GckRpcMessage)
    : GckRpcMessage :=
  mkMessage id ty (signature m) (buffer m) (parsed m) (sigverify m).

(** A buffer operation on [&msg->buffer]. *)
Definition on_buffer {A} (op : ST EggBuffer A) : ST GckRpcMessage A :=
  zoom buffer set_buffer op.

(** A reader called as [get (&msg->buffer, msg->parsed, &msg->parsed, &v)]: the
    position moves when it succeeds. *)
Definition msg_get {A} (get : Z -> ST EggBuffer (option (A * Z)))
    : ST GckRpcMessage (option A) :=
  pos ← gets parsed;
  r ← on_buffer (get pos);
  match r with
  | None => mret None
  | Some (v, next) => modify (set_parsed next);; mret (Some v)
  end.

(** [return !egg_buffer_has_error (&msg->buffer);] *)
Definition no_error : ST GckRpcMessage bool :=
  gets (fun m => negb (egg_buffer_has_error (buffer m))).

(** ** Life cycle *)

Definition sizeof_GckRpcMessage : Z := 72.

Definition gck_rpc_message_reset : ST GckRpcMessage unit :=
  modify (fun m => mkMessage 0 None None (buffer m) 0 None);;
  on_buffer egg_buffer_reset.

(** A failing [egg_buffer_init_full] gives the structure back. *)
Definition gck_rpc_message_new (dflt : EggBufferAllocator)
    (allocator : option EggBufferAllocator) : res (option GckRpcMessage) :=
  match allocator with
  | None => Crash AssertionFailed
  | Some al =>
      match al_realloc al None sizeof_GckRpcMessage with
      | None => Ok None
      | Some _ =>
          match egg_buffer_init_full dflt 64 (Some al) with
          | (false, _) => Ok None
          | (true, b) =>
              '(_, msg) ← gck_rpc_message_reset (mkMessage 0 None None b 0 None);
              Ok (Some msg)
          end
      end
  end.

Definition gck_rpc_message_free (msg : option GckRpcMessage) : res unit :=
  match msg with
  | None => Ok tt
  | Some m => if nonnull (eb_allocator (buffer m)) then Ok tt else Crash AssertionFailed
  end.

(** The signature of a call in one direction. *)
Definition call_signature (c : GckRpcCall) (type : GckRpcMessageType) : option string :=
  match type with
  | GCK_RPC_REQUEST => c_request c
  | GCK_RPC_RESPONSE => c_response c
  end.

Definition gck_rpc_message_prep (id : Z) (type : GckRpcMessageType)
    : ST GckRpcMessage bool :=
  assert_ (GCK_RPC_CALL_ERROR <=? id);;
  assert_ (id <? GCK_RPC_CALL_MAX);;
  gck_rpc_message_reset;;
  (if negb (id =? GCK_RPC_CALL_ERROR) then
     (* The call id and signature *)
     c ← lift_res (gck_rpc_call id);
     modify (set_signature (call_signature c type));;
     assert_ (nonnull (call_signature c type));;
     modify (set_sigverify (call_signature c type))
   else mret tt);;
  modify (set_call id (Some type));;
  (* Encode the two of them *)
  _ ← on_buffer (egg_buffer_add_uint32 id);
  sig ← gets signature;
  (match sig with
   | Some s =>
       _ ← on_buffer (egg_buffer_add_byte_array (Some (string_bytes s)) (strlen s));
       mret tt
   | None => mret tt
   end);;
  modify (set_parsed 0);;
  no_error.

Definition gck_rpc_message_parse (type : GckRpcMessageType) : ST GckRpcMessage bool :=
  modify (set_parsed 0);;
  (* Pull out the call identifier *)
  r ← msg_get egg_buffer_get_uint32;
  match r with
  | None => mret false
  | Some id =>
      modify (fun m => set_signature None (set_sigverify None m));;
      (* If it's an error code then no more processing *)
      if id =? GCK_RPC_CALL_ERROR then
        mret (negb (bool_decide (type = GCK_RPC_REQUEST)))
      (* The call id and signature *)
      else if (id <=? 0) || (GCK_RPC_CALL_MAX <=? id) then mret false
      else
        c ← lift_res (gck_rpc_call id);
        let sig := call_signature c type in
        modify (fun m => set_sigverify sig (set_call id (Some type) (set_signature sig m)));;
        (* Verify the incoming signature *)
        r ← msg_get egg_buffer_get_byte_array;
        match r with
        | None => mret false
        | Some (val, len) =>
            match sig with
            | None => crash NullDereference (* strlen (msg->signature) *)
            | Some s =>
                if negb (strlen s =? len) then mret false else
                match val with
                | None => if len =? 0 then mret true else crash NullDereference
                | Some bs =>
                    mret (bool_decide (bs = string_bytes s))
                end
            end
        end
  end.

Definition gck_rpc_message_equals (m1 m2 : GckRpcMessage) : res bool :=
  (* Any errors and messages are never equal *)
  if egg_buffer_has_error (buffer m1) || egg_buffer_has_error (buffer m2) then Ok false else
  (* Calls and signatures must be identical *)
  if negb (call_id m1 =? call_id m2) then Ok false else
  if negb (bool_decide (call_type m1 = call_type m2)) then Ok false else
  if negb (bool_decide (signature m1 = signature m2)) then Ok false else
  (* Data in buffer must be identical *)
  egg_buffer_equal (buffer m1) (buffer m2).

Definition gck_rpc_message_verify_part (part : string) : ST GckRpcMessage bool :=
  sv ← gets sigverify;
  match sv with
  | None => mret true
  | Some s =>
      match string_strip part s with
      | Some rest => modify (set_sigverify (Some rest));; mret true
      | None => mret false
      end
  end.

(** [assert (!msg->signature || gck_rpc_message_verify_part (msg, part));] *)
Definition check_part (part : string) : ST GckRpcMessage unit :=
  sig ← gets signature;
  match sig with
  | None => mret tt
  | Some _ => ok ← gck_rpc_message_verify_part part; assert_ ok
  end.

(** ** Writing *)

Definition gck_rpc_message_write_byte (val : Z) : ST GckRpcMessage bool :=
  check_part "y";;
  on_buffer (egg_buffer_add_byte val).

Definition gck_rpc_message_write_ulong (val : Z) : ST GckRpcMessage bool :=
  check_part "u";;
  on_buffer (egg_buffer_add_uint64 val).

(** Only whether [arr] and [count_ptr] are null, and the count, are sent. *)
Definition gck_rpc_message_write_byte_buffer (arr : option block) (count_ptr : option Z)
    : ST GckRpcMessage bool :=
  check_part "fy";;
  let flags := Z.lor (match arr with None => GCK_RPC_BYTE_BUFFER_NULL_DATA | _ => 0 end)
                     (match count_ptr with None => GCK_RPC_BYTE_BUFFER_NULL_COUNT | _ => 0 end) in
  _ ← on_buffer (egg_buffer_add_byte flags);
  _ ← on_buffer (egg_buffer_add_uint32 (default 0 count_ptr));
  no_error.

Definition gck_rpc_message_write_byte_array (arr : option block) (num : Z)
    : ST GckRpcMessage bool :=
  check_part "ay";;
  (match arr with
   | None =>
       (* No array, no data, just length *)
       _ ← on_buffer (egg_buffer_add_byte 0);
       _ ← on_buffer (egg_buffer_add_uint32 num); mret tt
   | Some _ =>
       _ ← on_buffer (egg_buffer_add_byte 1);
       _ ← on_buffer (egg_buffer_add_byte_array arr num); mret tt
   end);;
  no_error.

Definition gck_rpc_message_write_ulong_buffer (count : Z) : ST GckRpcMessage bool :=
  check_part "fu";;
  on_buffer (egg_buffer_add_uint32 count).

(** The loop over the elements [array[0..n)]: [n] is what is left of the count,
    [l] what is left of the object. *)
Fixpoint write_elements {A} (write : A -> ST GckRpcMessage unit) (n : nat) (l : list A)
    : ST GckRpcMessage unit :=
  match n, l with
  | O, _ => mret tt
  | S n, a :: l => write a;; write_elements write n l
  | S _, [] => crash OutOfBounds
  end.

Definition gck_rpc_message_write_ulong_array (array : option (list Z)) (n_array : Z)
    : ST GckRpcMessage bool :=
  check_part "au";;
  (* We send a byte which determines whether there's actual data present or not *)
  _ ← on_buffer (egg_buffer_add_byte (if nonnull array then 1 else 0));
  _ ← on_buffer (egg_buffer_add_uint32 n_array);
  (* Now send the data if valid *)
  (match array with
   | Some l =>
       write_elements (fun v => _ ← on_buffer (egg_buffer_add_uint64 v); mret tt)
         (Z.to_nat n_array) l
   | None => mret tt
   end);;
  no_error.

Definition gck_rpc_message_write_version (version : CK_VERSION) : ST GckRpcMessage bool :=
  check_part "v";;
  _ ← on_buffer (egg_buffer_add_byte (major version));
  _ ← on_buffer (egg_buffer_add_byte (minor version));
  no_error.

Definition gck_rpc_message_write_space_string (buf : block) (length : Z)
    : ST GckRpcMessage bool :=
  assert_ (negb (length =? 0));;
  check_part "s";;
  on_buffer (egg_buffer_add_byte_array (Some buf) length).

(** One iteration of the loop of [gck_rpc_message_write_attribute_buffer]. *)
Definition write_attribute_size (attr : CK_ATTRIBUTE) : ST GckRpcMessage unit :=
  (* The attribute type *)
  _ ← on_buffer (egg_buffer_add_uint32 (attr_type attr));
  (* And the attribute buffer length *)
  _ ← on_buffer (egg_buffer_add_uint32 (if nonnull (pValue attr) then ulValueLen attr else 0));
  mret tt.

(** An array of attributes is [None] for a null pointer. *)
Definition gck_rpc_message_write_attribute_buffer (arr : option (list CK_ATTRIBUTE))
    (num : Z) : ST GckRpcMessage bool :=
  assert_ ((num =? 0) || nonnull arr);;
  (* Make sure this is in the rigth order *)
  check_part "fA";;
  (* Write the number of items *)
  _ ← on_buffer (egg_buffer_add_uint32 num);
  write_elements write_attribute_size (Z.to_nat num) (default [] arr);;
  no_error.

(** One iteration of the loop of [gck_rpc_message_write_attribute_array].  A
    [CK_ULONG] narrower than 64 bits is widened (little endian). *)
Definition write_attribute (attr : CK_ATTRIBUTE) : ST GckRpcMessage unit :=
  (* The attribute type *)
  _ ← on_buffer (egg_buffer_add_uint32 (attr_type attr));
  (* Write out the attribute validity *)
  let validity := if ulValueLen attr =? CK_ULONG_MINUS_1 then 0 else 1 in
  _ ← on_buffer (egg_buffer_add_byte validity);
  (* The attribute length and value *)
  if validity =? 1 then
    _ ← on_buffer (egg_buffer_add_uint32 (ulValueLen attr));
    if gck_rpc_has_bad_sized_ulong_parameter attr then
      val ← lift_res (mem_read (default [] (pValue attr)) 0 sizeof_CK_ULONG);
      _ ← on_buffer (egg_buffer_add_byte_array
            (Some (val ++ replicate (Z.to_nat (sizeof_uint64_t - sizeof_CK_ULONG)) 0))
            sizeof_uint64_t);
      mret tt
    else
      _ ← on_buffer (egg_buffer_add_byte_array (pValue attr) (ulValueLen attr));
      mret tt
  else mret tt.

Definition gck_rpc_message_write_attribute_array (arr : option (list CK_ATTRIBUTE))
    (num : Z) : ST GckRpcMessage bool :=
  assert_ ((num =? 0) || nonnull arr);;
  (* Make sure this is in the rigth order *)
  check_part "aA";;
  (* Write the number of items *)
  _ ← on_buffer (egg_buffer_add_uint32 num);
  write_elements write_attribute (Z.to_nat num) (default [] arr);;
  no_error.

(** ** Reading *)

Definition gck_rpc_message_read_byte : ST GckRpcMessage (option Z) :=
  check_part "y";;
  msg_get egg_buffer_get_byte.

Definition gck_rpc_message_read_ulong : ST GckRpcMessage (option Z) :=
  check_part "u";;
  msg_get egg_buffer_get_uint64.

Definition gck_rpc_message_read_version : ST GckRpcMessage (option CK_VERSION) :=
  check_part "v";;
  a ← msg_get egg_buffer_get_byte;
  match a with
  | None => mret None
  | Some a =>
      b ← msg_get egg_buffer_get_byte;
      match b with
      | None => mret None
      | Some b => mret (Some (mkVersion a b))
      end
  end.

(** Returns what is copied into the caller's array of [length] bytes. *)
Definition gck_rpc_message_read_space_string (length : Z)
    : ST GckRpcMessage (option block) :=
  assert_ (negb (length =? 0));;
  check_part "s";;
  r ← msg_get egg_buffer_get_byte_array;
  match r with
  | None => mret None
  | Some (data, n_data) =>
      if negb (n_data =? length) then mret None else
      match data with
      | None => crash NullDereference
      | Some bs => mret (Some bs)
      end
  end.

(** * Specifications

    What a message says is a sequence of parts: each has a piece of signature
    and an encoding.  Functions that write are specified by the part they append,
    functions that read by the part they recover. *)

Inductive part :=
| PByte (v : Z)
| PUlong (v : Z)
| PByteBuffer (flags len : Z)
| PByteArray (arr : option block) (n : Z)
| PUlongBuffer (n : Z)
| PUlongArray (arr : option (list Z)) (n : Z)
| PVersion (a b : Z)
| PSpaceString (s : block)
| PAttrBuffer (l : list (Z * Z))
| PAttrArray (l : list (Z * option (Z * option block)))
| PMechanism (type : Z) (data : option block).

Definition sig_of (p : part) : string :=
  match p with
  | PByte _ => "y"
  | PUlong _ => "u"
  | PByteBuffer _ _ => "fy"
  | PByteArray _ _ => "ay"
  | PUlongBuffer _ => "fu"
  | PUlongArray _ _ => "au"
  | PVersion _ _ => "v"
  | PSpaceString _ => "s"
  | PAttrBuffer _ => "fA"
  | PAttrArray _ => "aA"
  | PMechanism _ _ => "M"
  end.

Definition enc_size (a : Z * Z) : list Z := enc_uint32 a.1 ++ enc_uint32 a.2.

Definition enc_attr (a : Z * option (Z * option block)) : list Z :=
  enc_uint32 a.1 ++
  match a.2 with
  | None => [0]
  | Some (len, v) => [1] ++ enc_uint32 len ++ enc_byte_array v
  end.

Definition enc_part (p : part) : list Z :=
  match p with
  | PByte v => [v]
  | PUlong v => enc_uint64 v
  | PByteBuffer flags len => [flags] ++ enc_uint32 len
  | PByteArray None n => [0] ++ enc_uint32 n
  | PByteArray (Some bs) _ => [1] ++ enc_byte_array (Some bs)
  | PUlongBuffer n => enc_uint32 n
  | PUlongArray arr n =>
      [if nonnull arr then 1 else 0] ++ enc_uint32 n
      ++ concat (map enc_uint64 (default [] arr))
  | PVersion a b => [a] ++ [b]
  | PSpaceString s => enc_byte_array (Some s)
  | PAttrBuffer l => enc_uint32 (zlen l) ++ concat (map enc_size l)
  | PAttrArray l => enc_uint32 (zlen l) ++ concat (map enc_attr l)
  | PMechanism type data => enc_uint32 type ++ enc_byte_array data
  end.

Definition enc_parts (ps : list part) : list Z := concat (map enc_part ps).

(** ** Well-formed messages *)

Definition msg_ok (m : GckRpcMessage) : Prop :=
  buffer_ok (buffer m) /\ 0 <= parsed m <= eb_len (buffer m).

(** Nothing went wrong writing the message so far. *)
Definition clean (m : GckRpcMessage) : Prop :=
  buffer_ok (buffer m) /\ eb_failures (buffer m) = 0.

(** The bytes still to be read. *)
Definition unread (m : GckRpcMessage) : list Z := rest_at (buffer m) (parsed m).

(** [part] may come next, and leaves [q] of the signature. *)
Definition takes (m : GckRpcMessage) (part : string) (q : option string) : Prop :=
  check_part part m = Ok (tt, set_sigverify q m).

(** The message has a signature, of which [s] is to come. *)
Definition signed (m : GckRpcMessage) (s : string) : Prop :=
  is_Some (signature m) /\ sigverify m = Some s.

Lemma takes_signed m part s rest :
  signed m s -> string_strip part s = Some rest -> takes m part (Some rest).
Proof.
  intros [[t Ht] Hs] Hp. unfold takes, check_part, gck_rpc_message_verify_part.
  unfold mbind, ST_bind, gets. by rewrite Ht, Hs, Hp.
Qed.

Lemma takes_unsigned m part : signature m = None -> takes m part (sigverify m).
Proof.
  intros Hs. unfold takes, check_part, mbind, ST_bind, gets. rewrite Hs. by destruct m.
Qed.

(** ** Writers *)

(** [m'] is [m] with [enc] appended, unless the error count has moved. *)
Definition put (enc : list Z) (m m' : GckRpcMessage) : Prop :=
  exists b, m' = set_buffer b m /\ latched enc (buffer m) b.

(** [k] appends [enc] and returns what satisfies [R]. *)
Definition writes {A} (enc : list Z) (k : ST GckRpcMessage A)
    (R : GckRpcMessage -> A -> GckRpcMessage -> Prop) : Prop :=
  forall m, buffer_ok (buffer m) -> wp k (fun r m' => put enc m m' /\ R m r m') m.

Definition any_result {A} (m : GckRpcMessage) (r : A) (m' : GckRpcMessage) : Prop := True.

(** [!egg_buffer_has_error] at the end. *)
Definition no_failures (m : GckRpcMessage) (r : bool) (m' : GckRpcMessage) : Prop :=
  r = true <-> eb_failures (buffer m') = 0.

(** The return value of a single buffer operation. *)
Definition same_failures (m : GckRpcMessage) (r : bool) (m' : GckRpcMessage) : Prop :=
  r = true <-> eb_failures (buffer m') = eb_failures (buffer m).

Lemma put_ok enc m m' : put enc m m' -> buffer_ok (buffer m').
Proof. intros (b & -> & []). done. Qed.

Lemma put_refl m : buffer_ok (buffer m) -> put [] m m.
Proof. intros. exists (buffer m). split; [by destruct m|by apply latched_refl]. Qed.

Lemma put_trans e1 e2 m m1 m2 : put e1 m m1 -> put e2 m1 m2 -> put (e1 ++ e2) m m2.
Proof.
  intros (b1 & -> & H1) (b2 & -> & H2). exists b2. split; [done|].
  by eapply latched_trans.
Qed.

Lemma writes_ret {A} (a : A) (R : GckRpcMessage -> A -> GckRpcMessage -> Prop) :
  (forall m, R m a m) -> writes [] (mret a) R.
Proof. intros HR m Hm. apply wp_ret. split; [by apply put_refl|done]. Qed.

Lemma writes_no_error : writes [] no_error no_failures.
Proof.
  intros m Hm. apply wp_gets. split; [by apply put_refl|]. unfold no_failures.
  rewrite negb_true_iff. by apply has_error_false.
Qed.

Lemma writes_op enc (op : ST EggBuffer bool) :
  (forall b, buffer_ok b -> wp op (wrote enc b) b) -> writes enc (on_buffer op) same_failures.
Proof.
  intros Hop m Hm. apply wp_zoom. eapply wp_mono; [by apply Hop|].
  intros r b' [Hl Hr]%wrote_latched. split; [by exists b'|done].
Qed.

Lemma writes_weaken {A} enc (k : ST GckRpcMessage A) R :
  writes enc k R -> writes enc k any_result.
Proof. intros Hk m Hm. eapply wp_mono; [by apply Hk|]. by intros r m' [? _]. Qed.

(** What follows may rely on nothing of what came before, so [R] only speaks
    of the last state. *)
Lemma writes_bind {A B} e1 e2 (k1 : ST GckRpcMessage A) (k2 : A -> ST GckRpcMessage B) R1 R :
  writes e1 k1 R1 -> (forall a, writes e2 (k2 a) (fun _ => R)) ->
  writes (e1 ++ e2) (a ← k1; k2 a) (fun _ => R).
Proof.
  intros H1 H2 m Hm. eapply wp_call; [by apply H1|]. intros a m1 [Hp1 _].
  eapply wp_mono; [eapply H2; by eapply put_ok|]. intros b m2 [Hp2 HR].
  split; [by eapply put_trans|done].
Qed.

Lemma writes_elements {A} (enc : A -> list Z) (k : A -> ST GckRpcMessage unit)
    (P : A -> Prop) n l :
  (forall a, P a -> writes (enc a) (k a) any_result) ->
  Forall P (take n l) -> (n <= length l)%nat ->
  writes (concat (map enc (take n l))) (write_elements k n l) any_result.
Proof.
  intros Hk. revert l. induction n as [|n IH]; intros l HP Hn.
  - destruct l; by apply writes_ret.
  - destruct l as [|a l]; [simpl in Hn; lia|]. simpl in *.
    inversion HP; subst. apply (writes_bind _ _ _ (fun _ => write_elements k n l) any_result).
    + by apply Hk.
    + intros _. apply IH; [done|lia].
Qed.

(** A [gck_rpc_message_write_] function: allowed to write [p], it appends its
    encoding and takes its piece off the signature. *)
Definition sent (p : part) (q : option string) (m : GckRpcMessage) (r : bool)
    (m' : GckRpcMessage) : Prop :=
  put (enc_part p) (set_sigverify q m) m' /\ (r = true <-> eb_failures (buffer m') = 0).

Definition sends (p : part) (k : ST GckRpcMessage bool) : Prop :=
  forall m q, clean m -> takes m (sig_of p) q -> wp k (sent p q m) m.

Lemma sends_intro p (k : ST GckRpcMessage bool) R :
  writes (enc_part p) k R ->
  (forall m r m', clean m -> R m r m' -> r = true <-> eb_failures (buffer m') = 0) ->
  sends p (check_part (sig_of p);; k).
Proof.
  intros Hk HR m q [Hb Hf] Ht. apply wp_bind. eapply wp_intro; [exact Ht|].
  eapply wp_mono; [by apply (Hk (set_sigverify q m))|]. intros r m' [Hp Hr].
  split; [done|]. by apply (HR (set_sigverify q m)).
Qed.

Lemma sends_no_error p k :
  writes (enc_part p) k (fun _ r m' => r = true <-> eb_failures (buffer m') = 0) ->
  sends p (check_part (sig_of p);; k).
Proof. intros Hk. by eapply sends_intro. Qed.

Lemma sends_op p op :
  (forall b, buffer_ok b -> wp op (wrote (enc_part p) b) b) ->
  sends p (check_part (sig_of p);; on_buffer op).
Proof.
  intros Hop. eapply sends_intro; [by apply writes_op|].
  intros m r m' [_ Hf]. unfold same_failures. by rewrite Hf.
Qed.

(** One buffer operation, then the rest. *)
Lemma writes_then {B} e1 e2 op (k : ST GckRpcMessage B) R :
  (forall b, buffer_ok b -> wp op (wrote e1 b) b) -> writes e2 k (fun _ => R) ->
  writes (e1 ++ e2) (_ ← on_buffer op; k) (fun _ => R).
Proof. intros Hop Hk. eapply writes_bind; [by apply writes_op|]. done. Qed.

(** One buffer operation at the end of a block. *)
Lemma writes_last enc op :
  (forall b, buffer_ok b -> wp op (wrote enc b) b) ->
  writes enc (_ ← on_buffer op; mret tt) (fun _ _ _ => True).
Proof.
  intros Hop. rewrite <- (app_nil_r enc). apply writes_then; [done|]. by apply writes_ret.
Qed.

Lemma writes_finish e (k : ST GckRpcMessage unit) :
  writes e k any_result -> writes e (k;; no_error) (fun _ r m' => r = true <-> eb_failures (buffer m') = 0).
Proof.
  intros Hk. rewrite <- (app_nil_r e). eapply writes_bind; [done|].
  intros _. apply writes_no_error.
Qed.

Lemma write_byte_sends v : is_u8 v -> sends (PByte v) (gck_rpc_message_write_byte v).
Proof. intros. apply (sends_op (PByte v)). intros. by apply egg_buffer_add_byte_wp. Qed.

Lemma write_ulong_sends v : sends (PUlong v) (gck_rpc_message_write_ulong v).
Proof. apply (sends_op (PUlong v)). intros. by apply egg_buffer_add_uint64_wp. Qed.

Lemma write_ulong_buffer_sends n :
  sends (PUlongBuffer n) (gck_rpc_message_write_ulong_buffer n).
Proof. apply (sends_op (PUlongBuffer n)). intros. by apply egg_buffer_add_uint32_wp. Qed.

(** The flags byte of a buffer argument. *)
Definition buffer_flags (arr : option block) (count_ptr : option Z) : Z :=
  Z.lor (match arr with None => GCK_RPC_BYTE_BUFFER_NULL_DATA | _ => 0 end)
        (match count_ptr with None => GCK_RPC_BYTE_BUFFER_NULL_COUNT | _ => 0 end).

Lemma write_byte_buffer_sends arr count :
  sends (PByteBuffer (buffer_flags arr count) (default 0 count))
    (gck_rpc_message_write_byte_buffer arr count).
Proof.
  apply (sends_no_error (PByteBuffer _ _)). cbn [enc_part]. apply writes_then.
  - intros. apply egg_buffer_add_byte_wp; [done|]. destruct arr, count; vm_compute; done.
  - rewrite <- (app_nil_r (enc_uint32 _)). apply writes_then; [|apply writes_no_error].
    intros. by apply egg_buffer_add_uint32_wp.
Qed.

(** An array argument points to as many elements as its count says. *)
Definition array_arg (arr : option block) (n : Z) : Prop :=
  forall bs, arr = Some bs -> bytes bs /\ 0 <= n <= zlen bs.

Definition PBytes (arr : option block) (n : Z) : part :=
  PByteArray ((fun bs => slice bs 0 n) <$> arr) n.

Lemma write_byte_array_sends arr n :
  array_arg arr n -> sends (PBytes arr n) (gck_rpc_message_write_byte_array arr n).
Proof.
  intros Ha. apply (sends_no_error (PBytes arr n)). apply writes_finish.
  unfold PBytes. destruct arr as [bs|]; cbn [enc_part fmap option_fmap option_map].
  - apply writes_then; [intros; by apply egg_buffer_add_byte_wp|]. apply writes_last.
    intros. pose proof (egg_buffer_add_byte_array_wp (Some bs) n b) as Hw. by apply Hw.
  - apply writes_then; [intros; by apply egg_buffer_add_byte_wp|]. apply writes_last.
    intros. by apply egg_buffer_add_uint32_wp.
Qed.

Lemma write_version_sends v :
  is_u8 (major v) -> is_u8 (minor v) ->
  sends (PVersion (major v) (minor v)) (gck_rpc_message_write_version v).
Proof.
  intros. apply (sends_no_error (PVersion _ _)). cbn [enc_part]. apply writes_then.
  - intros. by apply egg_buffer_add_byte_wp.
  - rewrite <- (app_nil_r [minor v]). apply writes_then; [|apply writes_no_error].
    intros. by apply egg_buffer_add_byte_wp.
Qed.

Lemma write_space_string_sends s n :
  bytes s -> zlen s = n -> 0 < n < 2147483647 ->
  sends (PSpaceString s) (gck_rpc_message_write_space_string s n).
Proof.
  intros Hs Hz Hn m q Hm Ht. unfold gck_rpc_message_write_space_string.
  apply wp_bind, wp_assert; [by rewrite (proj2 (Z.eqb_neq _ _)) by lia|].
  revert m q Hm Ht. apply (sends_op (PSpaceString s)). intros b Hb.
  pose proof (egg_buffer_add_byte_array_wp (Some s) n b Hb) as Hw.
  cbn [fmap option_fmap option_map] in Hw.
  assert (slice s 0 n = s) as Hsl by (rewrite <- Hz; apply slice_full).
  rewrite Hsl in Hw.
  apply Hw. intros ? [= <-]. split; [done|]. lia.
Qed.

Lemma write_ulong_array_sends arr n :
  0 <= n -> (forall l, arr = Some l -> n <= zlen l) ->
  sends (PUlongArray (take (Z.to_nat n) <$> arr) n) (gck_rpc_message_write_ulong_array arr n).
Proof.
  intros Hn Ha. apply (sends_no_error (PUlongArray _ _)). cbn [enc_part].
  destruct arr as [l|]; cbn [fmap option_fmap option_map default nonnull].
  - apply writes_then; [intros; by apply egg_buffer_add_byte_wp|].
    apply writes_then; [intros; by apply egg_buffer_add_uint32_wp|]. apply writes_finish.
    apply (writes_elements enc_uint64 _ (fun _ => True)).
    + intros v _. apply writes_last. intros. by apply egg_buffer_add_uint64_wp.
    + by apply Forall_true.
    + specialize (Ha _ eq_refl). unfold zlen in Ha. lia.
  - cbn [map concat]. apply writes_then; [intros; by apply egg_buffer_add_byte_wp|].
    apply writes_then; [intros; by apply egg_buffer_add_uint32_wp|].
    intros m Hm. apply wp_bind, wp_ret. by apply writes_no_error.
Qed.

(** What is sent of an attribute whose value is wanted, and of one whose value
    is given. *)
Definition attr_size (a : CK_ATTRIBUTE) : Z * Z :=
  (attr_type a, if nonnull (pValue a) then ulValueLen a else 0).

Definition attr_value (a : CK_ATTRIBUTE) : Z * option (Z * option block) :=
  (attr_type a,
   if ulValueLen a =? CK_ULONG_MINUS_1 then None
   else Some (ulValueLen a, (fun bs => slice bs 0 (ulValueLen a)) <$> pValue a)).

(** The value of an attribute that is sent can be read. *)
Definition attr_arg (a : CK_ATTRIBUTE) : Prop :=
  ulValueLen a <> CK_ULONG_MINUS_1 -> array_arg (pValue a) (ulValueLen a).

(** An attribute that can be read again. *)
Definition value_ok (a : Z * option (Z * option block)) : Prop :=
  is_u32 a.1 /\ forall len v, a.2 = Some (len, v) ->
    is_u32 len /\ (forall bs, v = Some bs -> len = zlen bs /\ len < 2147483647).

(** On LP64 no attribute has a badly sized [CK_ULONG]. *)
Lemma no_bad_sized_ulong a : gck_rpc_has_bad_sized_ulong_parameter a = false.
Proof.
  unfold gck_rpc_has_bad_sized_ulong_parameter, sizeof_uint64_t, sizeof_CK_ULONG.
  destruct (pValue a); [|done]. by destruct (8 =? ulValueLen a).
Qed.

Lemma write_attribute_writes a :
  attr_arg a -> writes (enc_attr (attr_value a)) (write_attribute a) any_result.
Proof.
  intros Ha. unfold write_attribute, attr_value, enc_attr. cbn [fst snd].
  rewrite no_bad_sized_ulong. apply writes_then; [intros; by apply egg_buffer_add_uint32_wp|].
  destruct (_ =? _) eqn:E; cbn [Z.eqb].
  - apply writes_last. intros. by apply egg_buffer_add_byte_wp.
  - apply Z.eqb_neq in E. apply writes_then; [intros; by apply egg_buffer_add_byte_wp|].
    apply writes_then; [intros; by apply egg_buffer_add_uint32_wp|].
    apply writes_last. intros. apply egg_buffer_add_byte_array_wp; [done|]. by apply Ha.
Qed.

Lemma write_attribute_size_writes a :
  writes (enc_size (attr_size a)) (write_attribute_size a) any_result.
Proof.
  unfold write_attribute_size, enc_size, attr_size. cbn [fst snd].
  apply writes_then; [intros; by apply egg_buffer_add_uint32_wp|].
  apply writes_last. intros. by apply egg_buffer_add_uint32_wp.
Qed.

Lemma assert_arr (num : Z) {A} (arr : option (list A)) :
  num <= zlen (default [] arr) -> 0 <= num -> (num =? 0) || nonnull arr = true.
Proof.
  intros Hn Hp. destruct arr; [by rewrite orb_true_r|]. unfold zlen in Hn. simpl in *.
  by rewrite (proj2 (Z.eqb_eq num 0)) by lia.
Qed.

Lemma zlen_map_take {A B} (f : A -> B) n l :
  0 <= n <= zlen l -> zlen (map f (take (Z.to_nat n) l)) = n.
Proof. intros. unfold zlen in *. rewrite length_map, length_take. lia. Qed.

Lemma write_attribute_buffer_sends arr n :
  0 <= n <= zlen (default [] arr) ->
  sends (PAttrBuffer (map attr_size (take (Z.to_nat n) (default [] arr))))
    (gck_rpc_message_write_attribute_buffer arr n).
Proof.
  intros Hn m q Hm Ht. apply wp_bind, wp_assert; [apply assert_arr; lia|].
  revert m q Hm Ht. apply (sends_no_error (PAttrBuffer _)). cbn [enc_part].
  rewrite map_map, zlen_map_take by done.
  apply writes_then; [intros; by apply egg_buffer_add_uint32_wp|]. apply writes_finish.
  apply (writes_elements _ _ (fun _ => True)).
  - intros a _. apply write_attribute_size_writes.
  - by apply Forall_true.
  - unfold zlen in Hn. lia.
Qed.

Lemma write_attribute_array_sends arr n :
  0 <= n <= zlen (default [] arr) -> Forall attr_arg (take (Z.to_nat n) (default [] arr)) ->
  sends (PAttrArray (map attr_value (take (Z.to_nat n) (default [] arr))))
    (gck_rpc_message_write_attribute_array arr n).
Proof.
  intros Hn Ha m q Hm Ht. apply wp_bind, wp_assert; [apply assert_arr; lia|].
  revert m q Hm Ht. apply (sends_no_error (PAttrArray _)). cbn [enc_part].
  rewrite map_map, zlen_map_take by done.
  apply writes_then; [intros; by apply egg_buffer_add_uint32_wp|]. apply writes_finish.
  apply (writes_elements _ _ attr_arg); [|done|unfold zlen in Hn; lia].
  intros a Ha'. by apply write_attribute_writes.
Qed.

(** ** Several parts *)

(** Writers run one after the other, until one fails. *)
Fixpoint write_all (ks : list (ST GckRpcMessage bool)) : ST GckRpcMessage bool :=
  match ks with
  | [] => mret true
  | k :: ks => ok ← k; if (ok : bool) then write_all ks else mret false
  end.

Fixpoint sigs_of (ps : list part) : string :=
  match ps with
  | [] => EmptyString
  | p :: ps => sig_of p +:+ sigs_of ps
  end.

Lemma sigs_of_app ps1 ps2 : sigs_of (ps1 ++ ps2) = sigs_of ps1 +:+ sigs_of ps2.
Proof.
  induction ps1 as [|p ps1 IH]; [done|]. simpl app. cbn [sigs_of]. rewrite IH.
  apply string_append_assoc.
Qed.

Lemma enc_parts_app ps1 ps2 : enc_parts (ps1 ++ ps2) = enc_parts ps1 ++ enc_parts ps2.
Proof. unfold enc_parts. by rewrite map_app, concat_app. Qed.

(** [k] writes the parts [ps] to a signed message; if it reports success they
    are all there and their pieces are gone from the signature. *)
(** The message still has a well-formed buffer, grown by the same allocator. *)
Definition kept (m m' : GckRpcMessage) : Prop :=
  buffer_ok (buffer m') /\ eb_allocator (buffer m') = eb_allocator (buffer m).

Lemma kept_refl m : buffer_ok (buffer m) -> kept m m.
Proof. by split. Qed.
Lemma kept_trans m m1 m2 : kept m m1 -> kept m1 m2 -> kept m m2.
Proof. intros [_ H1] [? H2]. split; congruence. Qed.

Definition sends_parts (ps : list part) (k : ST GckRpcMessage bool) : Prop :=
  forall m r r', clean m -> signed m r -> string_strip (sigs_of ps) r = Some r' ->
    wp k (fun ok m' => kept m m'
      /\ call_id m' = call_id m /\ call_type m' = call_type m /\ signature m' = signature m
      /\ (ok = true -> clean m' /\ signed m' r'
          /\ contents (buffer m') = contents (buffer m) ++ enc_parts ps)
      /\ (room_for (buffer m) (zlen (enc_parts ps)) -> ok = true)) m.

Lemma sends_parts_one p k : sends p k -> sends_parts [p] k.
Proof.
  intros Hk m r r' [Hb Hf] Hs Hr. cbn [sigs_of] in Hr. rewrite string_append_nil in Hr.
  eapply wp_mono; [apply (Hk m (Some r')); [done|by eapply takes_signed]|].
  intros ok m' [(b & -> & [Hb' ? ? ? Hd Hroom]) Hok]. split; [by split|].
  unfold enc_parts. cbn [map concat]. rewrite app_nil_r. split_and!; try done.
  - intros ->. assert (eb_failures b = 0) as Hf' by (by apply Hok). split; [done|].
    split; [by destruct Hs|]. apply Hd. cbn. lia.
  - intros Hg. apply Hok. cbn in *. by rewrite Hroom.
Qed.

Lemma sends_parts_all ps ks : Forall2 sends ps ks -> sends_parts ps (write_all ks).
Proof.
  induction 1 as [|p k ps ks Hk _ IH]; intros m r r' Hm Hs Hr.
  - apply wp_ret. destruct Hm. injection Hr as <-. unfold enc_parts. cbn.
    rewrite app_nil_r. split; [by apply kept_refl|done].
  - assert (enc_parts (p :: ps) = enc_parts [p] ++ enc_parts ps) as He by apply (enc_parts_app [p]).
    cbn [sigs_of write_all] in *. apply string_strip_app2 in Hr as (t & Ht & Hr).
    eapply wp_call.
    { apply (sends_parts_one p k Hk m r t Hm Hs). cbn [sigs_of]. by rewrite string_append_nil. }
    intros ok m1 (Hk1 & ? & ? & ? & Hok & Hroom). rewrite He, zlen_app.
    pose proof (zlen_nonneg (enc_parts ps)). destruct ok.
    2: { apply wp_ret. split_and!; try done. intros Hg. apply Hroom.
         eapply room_for_less; [|exact Hg]. lia. }
    destruct (Hok eq_refl) as (Hm1 & Hs1 & Hc1).
    eapply wp_mono; [by apply (IH m1 t r')|]. intros ok m2 (? & ? & ? & ? & Hok2 & Hroom2).
    split_and!; try done; try congruence; [by eapply kept_trans| |].
    + intros ->. destruct (Hok2 eq_refl) as (? & ? & ->).
      split_and!; try done. by rewrite Hc1, <- app_assoc.
    + intros [Hal Hl]. apply Hroom2. split; [by rewrite (proj2 Hk1)|]. rewrite Hc1, zlen_app. lia.
Qed.

(** ** Preparing a message *)

(** Every call the protocol knows has its row, both signatures included. *)
Lemma gck_rpc_call_ok id :
  0 <= id < GCK_RPC_CALL_MAX ->
  exists c, gck_rpc_call id = Ok c /\ c_call_id c = id
    /\ (0 < id -> is_Some (c_request c) /\ is_Some (c_response c)).
Proof.
  intros Hid.
  assert (forallb (fun i => match gck_rpc_call (Z.of_nat i) with
            | Ok c => (c_call_id c =? Z.of_nat i)
                      && ((Nat.eqb i 0) || (nonnull (c_request c) && nonnull (c_response c)))
            | Crash _ => false end) (seq 0 68) = true) as H by (vm_compute; reflexivity).
  rewrite forallb_forall in H. specialize (H (Z.to_nat id)).
  rewrite Z2Nat.id in H by lia. unfold GCK_RPC_CALL_MAX in Hid.
  specialize (H ltac:(apply in_seq; lia)). destruct (gck_rpc_call id) as [c|]; [|done].
  apply andb_true_iff in H as [Hc%Z.eqb_eq Hs]. exists c. split_and!; try done.
  intros Hpos. apply orb_true_iff in Hs as [Hs%Nat.eqb_eq|Hs]; [lia|].
  unfold nonnull in Hs. destruct (c_request c), (c_response c); try done.
Qed.

(** The call id and the signature every message starts with. *)
Definition header (id : Z) (sig : option string) : list Z :=
  enc_uint32 id ++ match sig with
                   | Some s => enc_byte_array (Some (string_bytes s))
                   | None => []
                   end.

(** A message prepared for a call, with no part in it yet. *)
Record prepared (id : Z) (type : GckRpcMessageType) (sig : option string)
    (m : GckRpcMessage) : Prop := {
  pr_id : call_id m = id;
  pr_type : call_type m = Some type;
  pr_signature : signature m = sig;
  pr_sigverify : sigverify m = sig;
  pr_parsed : parsed m = 0;
  pr_buffer : buffer_ok (buffer m);
  pr_contents : eb_failures (buffer m) = 0 -> contents (buffer m) = header id sig;
}.

Lemma reset_wp m :
  buffer_ok (buffer m) ->
  wp gck_rpc_message_reset (fun _ m' => exists b,
    m' = mkMessage 0 None None b 0 None /\ buffer_ok b /\ contents b = []
    /\ eb_len b = 0 /\ eb_failures b = 0 /\ eb_allocator b = eb_allocator (buffer m)) m.
Proof.
  intros Hb. apply wp_bind, wp_modify, wp_zoom. eapply wp_mono; [by apply egg_buffer_reset_wp|].
  intros _ b (? & ? & ? & ? & ? & _). by exists b.
Qed.

(** A new message is empty, and its memory is the allocator's. *)
Lemma gck_rpc_message_new_spec al :
  AllocatorOk al ->
  match gck_rpc_message_new al (Some al) with
  | Ok (Some m) => buffer_ok (buffer m) /\ eb_allocator (buffer m) = Some al
  | Ok None => True
  | Crash _ => False
  end.
Proof.
  intros Hal. unfold gck_rpc_message_new. destruct (al_realloc al None _); [|done].
  destruct (egg_buffer_init_full al 64 (Some al)) as [[|] b] eqn:E; [|done].
  destruct (egg_buffer_init_full_ok al 64 (Some al) b Hal ltac:(lia) E) as (Hb & _ & _ & Ha).
  pose proof (reset_wp (mkMessage 0 None None b 0 None) Hb) as Hr.
  apply wp_inv in Hr as ([] & m & Hrun & b' & -> & Hb' & _ & _ & _ & Ha').
  unfold mbind, res_bind. rewrite Hrun. split; [done|]. cbn in *. by rewrite Ha', Ha.
Qed.

(** Memory for a new message is found. *)
Lemma new_message_gives al :
  AllocatorOk al -> gives_memory al ->
  exists m, gck_rpc_message_new al (Some al) = Ok (Some m)
    /\ buffer_ok (buffer m) /\ eb_allocator (buffer m) = Some al.
Proof.
  intros Hok Hal. pose proof (gck_rpc_message_new_spec al Hok) as Hs.
  assert (gck_rpc_message_new al (Some al) <> Ok None) as Hne.
  { unfold gck_rpc_message_new. destruct (Hal None sizeof_GckRpcMessage) as [q ->]; [done|].
    destruct (Hal None 64) as [q2 Hq2]; [done|].
    assert (egg_buffer_init_full al 64 (Some al) = (true, mkEggBuffer (Some q2) 0 64 0 (Some al))) as ->
      by (unfold egg_buffer_init_full; cbn; by rewrite Hq2).
    unfold mbind, res_bind. by destruct (gck_rpc_message_reset _) as [[]|]. }
  destruct (gck_rpc_message_new al (Some al)) as [[m|]|]; [by exists m|done|done].
Qed.

(** The part of [prep] behind the signature. *)
Lemma prep_tail_writes id sig :
  (forall s, sig = Some s -> strlen s < 2147483647) ->
  forall m, buffer_ok (buffer m) -> signature m = sig ->
  wp (_ ← on_buffer (egg_buffer_add_uint32 id);
      sig ← gets signature;
      (match sig with
       | Some s =>
           _ ← on_buffer (egg_buffer_add_byte_array (Some (string_bytes s)) (strlen s));
           mret tt
       | None => mret tt
       end);;
      modify (set_parsed 0);;
      no_error)
    (fun r m' => exists b, m' = set_parsed 0 (set_buffer b m)
       /\ latched (header id sig) (buffer m) b /\ (r = true <-> eb_failures b = 0)) m.
Proof.
  intros Hs m Hb Hsig. pose proof (writes_op (enc_uint32 id) (egg_buffer_add_uint32 id)) as Hw1.
  eapply wp_call; [apply Hw1; [intros; by apply egg_buffer_add_uint32_wp|done]|].
  intros r1 m1 [(b1 & -> & Hl1) _]. apply wp_bind, wp_gets. cbn [signature set_buffer].
  rewrite Hsig. unfold header.
  assert (forall b2, buffer_ok b2 -> forall enc, latched enc b1 b2 ->
    wp (modify (set_parsed 0);; no_error)
      (fun r m' => exists b, m' = set_parsed 0 (set_buffer b m)
         /\ latched (enc_uint32 id ++ enc) (buffer m) b /\ (r = true <-> eb_failures b = 0))
      (set_buffer b2 m)) as Hend.
  { intros b2 Hb2 enc Hl2. apply wp_bind, wp_modify, wp_gets. exists b2. split; [done|].
    split; [by eapply latched_trans|]. rewrite negb_true_iff. by apply has_error_false. }
  destruct Hl1 as [Hb1 ? ? ? ?]. destruct sig as [s|].
  - specialize (Hs _ eq_refl).
    assert (slice (string_bytes s) 0 (strlen s) = string_bytes s) as Hsl
      by (rewrite <- zlen_string_bytes; apply slice_full).
    apply wp_bind, wp_bind, wp_zoom. eapply wp_mono; [apply egg_buffer_add_byte_array_wp; [done|]|].
    + intros ? [= <-]. split; [apply string_bytes_bytes|]. rewrite zlen_string_bytes.
      unfold strlen. lia.
    + intros r2 b2 [Hl2 _]. cbn [fmap option_fmap option_map] in Hl2. rewrite Hsl in Hl2.
      apply wp_ret. apply Hend; [apply Hl2|done].
  - apply wp_bind, wp_ret. apply Hend; [done|by apply latched_refl].
Qed.

Lemma signature_short id c type s :
  gck_rpc_call id = Ok c -> call_signature c type = Some s -> strlen s < 100.
Proof.
  intros Hc Hs.
  assert (forallb (fun c => forallb (fun o => match o with None => true | Some s => strlen s <? 100 end)
    [c_request c; c_response c]) gck_rpc_calls = true) as H by (vm_compute; reflexivity).
  rewrite forallb_forall in H. unfold gck_rpc_call in Hc.
  destruct (id <? 0); [done|]. destruct (gck_rpc_calls !! Z.to_nat id) eqn:E; [|done].
  injection Hc as ->. apply list_elem_of_lookup_2, list_elem_of_In in E. specialize (H _ E).
  cbn in H. rewrite !andb_true_iff in H. destruct H as (H1 & H2 & _).
  destruct type; cbn in Hs; rewrite Hs in *; by apply Z.ltb_lt.
Qed.

Lemma call_signature_some id c type :
  gck_rpc_call id = Ok c -> 0 < id < GCK_RPC_CALL_MAX -> is_Some (call_signature c type).
Proof.
  intros Hc Hid. destruct (gck_rpc_call_ok id) as (c' & Hc' & _ & Hs); [lia|].
  rewrite Hc in Hc'. injection Hc' as <-. destruct (Hs ltac:(lia)), type; done.
Qed.

(** Memory is found for what is written into a message. *)
Definition gives_room (m : GckRpcMessage) : Prop :=
  exists al, eb_allocator (buffer m) = Some al /\ gives_memory al.

(** A header is short. *)
Lemma header_short id sig :
  (forall s, sig = Some s -> strlen s < 100) -> zlen (header id sig) <= 108.
Proof.
  intros Hs. unfold header. rewrite zlen_app, zlen_enc_uint32. destruct sig as [s|]; [|done].
  unfold enc_byte_array. rewrite zlen_app, zlen_enc_uint32, zlen_string_bytes.
  specialize (Hs s eq_refl). lia.
Qed.

Lemma header_room b id sig :
  (exists al, eb_allocator b = Some al /\ gives_memory al) -> contents b = [] ->
  (forall s, sig = Some s -> strlen s < 100) -> room_for b (zlen (header id sig)).
Proof. intros Hal Hc Hs. split; [done|]. rewrite Hc, zlen_nil. pose proof (header_short id sig Hs). lia. Qed.

Lemma prep_call_wp id type c m :
  buffer_ok (buffer m) -> 0 < id < GCK_RPC_CALL_MAX -> gck_rpc_call id = Ok c ->
  wp (gck_rpc_message_prep id type) (fun r m' =>
    prepared id type (call_signature c type) m'
    /\ (r = true <-> eb_failures (buffer m') = 0)
    /\ eb_allocator (buffer m') = eb_allocator (buffer m)
    /\ (gives_room m -> r = true)) m.
Proof.
  intros Hb Hid Hc. unfold gck_rpc_message_prep.
  apply wp_bind, wp_assert; [apply Z.leb_le; unfold GCK_RPC_CALL_ERROR; lia|].
  apply wp_bind, wp_assert; [apply Z.ltb_lt; lia|].
  eapply wp_call; [by apply reset_wp|]. intros _ m1 (b1 & -> & Hb1 & Hc1 & Hl1 & Hf1 & Ha1).
  rewrite (proj2 (Z.eqb_neq _ _)) by (unfold GCK_RPC_CALL_ERROR; lia). cbn [negb].
  destruct (call_signature_some id c type Hc Hid) as [s Hs].
  apply wp_bind, wp_bind. eapply wp_lift_res; [exact Hc|].
  apply wp_bind, wp_modify, wp_bind, wp_assert; [by rewrite Hs|]. apply wp_modify.
  apply wp_bind, wp_modify. eapply wp_mono.
  { apply (prep_tail_writes id (call_signature c type)); [|exact Hb1|done].
    intros t Ht. pose proof (signature_short id c type t Hc Ht). lia. }
  intros r m' (b & -> & [? ? ? ? Hd Hroom] & Hr).
  split; [|split; [done|split; [cbn in *; congruence|]]].
  - split; try done. intros Hf. cbn in *. rewrite Hd, Hc1 by lia. done.
  - intros Hg. apply Hr. cbn in *. rewrite Hroom; [done|]. apply header_room; [by rewrite Ha1|done|].
    intros t Ht. by apply (signature_short id c type).
Qed.

Lemma prep_error_wp type m :
  buffer_ok (buffer m) ->
  wp (gck_rpc_message_prep GCK_RPC_CALL_ERROR type) (fun r m' =>
    prepared GCK_RPC_CALL_ERROR type None m'
    /\ (r = true <-> eb_failures (buffer m') = 0)
    /\ eb_allocator (buffer m') = eb_allocator (buffer m)
    /\ (gives_room m -> r = true)) m.
Proof.
  intros Hb. unfold gck_rpc_message_prep.
  apply wp_bind, wp_assert; [done|]. apply wp_bind, wp_assert; [done|].
  eapply wp_call; [by apply reset_wp|]. intros _ m1 (b1 & -> & Hb1 & Hc1 & Hl1 & Hf1 & Ha1).
  apply wp_bind, wp_ret. apply wp_bind, wp_modify. eapply wp_mono.
  { by apply (prep_tail_writes GCK_RPC_CALL_ERROR None). }
  intros r m' (b & -> & [? ? ? ? Hd Hroom] & Hr).
  split; [|split; [done|split; [cbn in *; congruence|]]].
  - split; try done. intros Hf. cbn in *. rewrite Hd, Hc1 by lia. done.
  - intros Hg. apply Hr. cbn in *. rewrite Hroom; [done|]. by apply header_room; [rewrite Ha1| |].
Qed.

Lemma prepared_clean id type sig m :
  prepared id type sig m -> eb_failures (buffer m) = 0 -> clean m.
Proof. intros []. by split. Qed.

Lemma prepared_signed id type s m : prepared id type (Some s) m -> signed m s.
Proof. intros []. split; [|done]. rewrite pr_signature0. eauto. Qed.

(** ** Readers *)

(** Only the position and the error count of a message change while it is
    read; everything else is [m]'s. *)
Definition reading (m m' : GckRpcMessage) : Prop :=
  exists b n, m' = set_parsed n (set_buffer b m) /\ buffer_ok b
    /\ eb_len b = eb_len (buffer m) /\ contents b = contents (buffer m)
    /\ eb_allocator b = eb_allocator (buffer m)
    /\ eb_failures (buffer m) <= eb_failures b
    /\ parsed m <= n <= eb_len b.

Lemma reading_refl m : msg_ok m -> reading m m.
Proof.
  intros [? ?]. exists (buffer m), (parsed m). split; [by destruct m|]. split_and!; (done || lia).
Qed.

Lemma reading_trans m m1 m2 : reading m m1 -> reading m1 m2 -> reading m m2.
Proof.
  intros (b1 & n1 & -> & ? & ? & ? & ? & ? & ?) (b2 & n2 & -> & ? & ? & ? & ? & ? & ?). cbn in *.
  exists b2, n2. split_and!; try done; try congruence; lia.
Qed.

Lemma reading_ok m m' : msg_ok m -> reading m m' -> msg_ok m'.
Proof. intros [? ?] (b & n & -> & ? & ? & ? & ? & ? & ?). split; cbn; [done|lia]. Qed.

(** Reading on any input whatever. *)
Definition msg_total {A} (P : A -> Prop) (rd : ST GckRpcMessage (option A)) : Prop :=
  forall m, msg_ok m -> wp rd (fun r m' => reading m m'
    /\ forall v, r = Some v -> P v) m.

Lemma msg_get_total {A} (P : A -> Prop) get :
  read_total P get -> msg_total P (msg_get get).
Proof.
  intros Hg m [Hb Hp]. unfold msg_get. apply wp_bind, wp_gets, wp_bind, wp_zoom.
  eapply wp_mono; [by apply Hg|]. intros [[v next]|] b'.
  - intros (Hv & Hn & ->). apply wp_bind, wp_modify, wp_ret. split; [|by intros ? [= <-]].
    exists (buffer m), next. split_and!; (done || lia).
  - intros ->. apply wp_ret. split; [|done]. exists (fail_buffer (buffer m)), (parsed m).
    split; [by destruct m|]. split; [by apply fail_buffer_ok|]. simpl. split_and!; (done || lia).
Qed.

(** Reading what was written. *)
Definition msg_reads {A} (rd : ST GckRpcMessage (option A)) (enc : list Z) (v : A) : Prop :=
  forall m rest, msg_ok m -> unread m = enc ++ rest ->
    let m' := set_parsed (parsed m + zlen enc) m in
    rd m = Ok (Some v, m') /\ msg_ok m' /\ unread m' = rest.

Lemma msg_get_reads {A} get enc (v : A) : reads get enc v -> msg_reads (msg_get get) enc v.
Proof.
  intros Hg m rest [Hb Hp] Hr. destruct (Hg _ _ _ Hb Hp Hr) as [Hrun Hrest].
  destruct (rest_at_app _ _ _ _ Hb Hp Hr) as (Hle & _).
  unfold msg_get, on_buffer, zoom, mbind, ST_bind, gets. rewrite Hrun. cbn.
  split; [by destruct m|]. split; [|done]. split; [done|]. cbn. pose proof (zlen_nonneg enc). lia.
Qed.

(** A reader that takes its piece off the signature first. *)
Definition received {A} (p : part) (rd : ST GckRpcMessage (option A)) (v : A) : Prop :=
  forall m q rest, msg_ok m -> takes m (sig_of p) q -> unread m = enc_part p ++ rest ->
    let m' := set_parsed (parsed m + zlen (enc_part p)) (set_sigverify q m) in
    rd m = Ok (Some v, m') /\ msg_ok m' /\ unread m' = rest.

Definition receives {A} (s : string) (P : A -> Prop) (rd : ST GckRpcMessage (option A)) : Prop :=
  forall m q, msg_ok m -> takes m s q ->
    wp rd (fun r m' => reading (set_sigverify q m) m' /\ forall v, r = Some v -> P v) m.

Lemma received_intro {A} p (rd : ST GckRpcMessage (option A)) v :
  msg_reads rd (enc_part p) v -> received p (check_part (sig_of p);; rd) v.
Proof.
  intros Hr m q rest Hm Ht Hu. unfold mbind, ST_bind. rewrite Ht.
  by apply (Hr (set_sigverify q m)).
Qed.

Lemma receives_intro {A} s (P : A -> Prop) (rd : ST GckRpcMessage (option A)) :
  msg_total P rd -> receives s P (check_part s;; rd).
Proof.
  intros Hr m q Hm Ht. apply wp_bind. eapply wp_intro; [exact Ht|].
  by apply (Hr (set_sigverify q m)).
Qed.

Lemma msg_reads_bind {A B} (rd : ST GckRpcMessage (option A)) e a
    (k : A -> ST GckRpcMessage (option B)) e' v :
  msg_reads rd e a -> msg_reads (k a) e' v ->
  msg_reads (r ← rd; match r with None => mret None | Some a => k a end) (e ++ e') v.
Proof.
  intros Hr Hk m rest Hm Hu. rewrite <- app_assoc in Hu.
  destruct (Hr m _ Hm Hu) as (Hrun & Hm1 & Hu1). destruct (Hk _ _ Hm1 Hu1) as (Hrun2 & Hm2 & Hu2).
  unfold mbind, ST_bind. rewrite Hrun, Hrun2.
  assert (set_parsed (parsed (set_parsed (parsed m + zlen e) m) + zlen e')
            (set_parsed (parsed m + zlen e) m) = set_parsed (parsed m + zlen (e ++ e')) m) as Heq.
  { rewrite zlen_app, Z.add_assoc. done. }
  rewrite Heq in *. done.
Qed.

Lemma msg_reads_ret {A} (v : A) : msg_reads (mret (Some v)) [] v.
Proof. intros m rest Hm Hu. rewrite zlen_nil, Z.add_0_r. by destruct m. Qed.

Lemma msg_total_bind {A B} (P : A -> Prop) (Q : B -> Prop) (rd : ST GckRpcMessage (option A))
    (k : A -> ST GckRpcMessage (option B)) :
  msg_total P rd -> (forall a, P a -> msg_total Q (k a)) ->
  msg_total Q (r ← rd; match r with None => mret None | Some a => k a end).
Proof.
  intros Hr Hk m Hm. eapply wp_call; [by apply Hr|]. intros [a|] m1 [Hm1 Ha].
  - eapply wp_mono; [apply Hk; [by apply Ha|by eapply reading_ok]|].
    intros r m2 [Hm2 Hv]. split; [by eapply reading_trans|done].
  - by apply wp_ret.
Qed.

Lemma msg_total_ret {A} (P : A -> Prop) (r : option A) :
  (forall v, r = Some v -> P v) -> msg_total P (mret r).
Proof. intros HP m Hm. apply wp_ret. split; [by apply reading_refl|done]. Qed.

Lemma read_byte_received v : received (PByte v) gck_rpc_message_read_byte v.
Proof. apply (received_intro (PByte v)). apply msg_get_reads, get_byte_reads. Qed.

Lemma read_byte_receives : receives "y" (fun v => is_u8 v) gck_rpc_message_read_byte.
Proof. apply receives_intro, msg_get_total, get_byte_total. Qed.

Lemma read_ulong_received v : is_u64 v -> received (PUlong v) gck_rpc_message_read_ulong v.
Proof. intros. apply (received_intro (PUlong v)). by apply msg_get_reads, get_uint64_reads. Qed.

Lemma read_ulong_receives : receives "u" (fun v => is_u64 v) gck_rpc_message_read_ulong.
Proof. apply receives_intro, msg_get_total, get_uint64_total. Qed.

Definition version_ok (v : CK_VERSION) : Prop := is_u8 (major v) /\ is_u8 (minor v).

Lemma read_version_received v :
  received (PVersion (major v) (minor v)) gck_rpc_message_read_version v.
Proof.
  apply (received_intro (PVersion _ _)). cbn [enc_part]. destruct v as [a b]. cbn.
  eapply (msg_reads_bind _ [a] a); [apply msg_get_reads, get_byte_reads|].
  rewrite <- (app_nil_r [b]).
  eapply (msg_reads_bind _ [b] b); [apply msg_get_reads, get_byte_reads|]. apply msg_reads_ret.
Qed.

Lemma read_version_receives : receives "v" version_ok gck_rpc_message_read_version.
Proof.
  apply receives_intro.
  eapply msg_total_bind; [apply msg_get_total, get_byte_total|]. intros a Ha.
  eapply msg_total_bind; [apply msg_get_total, get_byte_total|]. intros b Hb.
  apply msg_total_ret. by intros ? [= <-].
Qed.

Lemma read_space_string_received s :
  0 < zlen s < 2147483647 ->
  received (PSpaceString s) (gck_rpc_message_read_space_string (zlen s)) s.
Proof.
  intros Hz m q rest Hm Ht Hu. unfold gck_rpc_message_read_space_string.
  rewrite bind_assert by (by rewrite (proj2 (Z.eqb_neq _ _)) by lia).
  revert m q rest Hm Ht Hu.
  apply (received_intro (PSpaceString s)). cbn [enc_part].
  rewrite <- (app_nil_r (enc_byte_array _)).
  eapply (msg_reads_bind _ _ (Some s, zlen s) (fun '(data, n_data) =>
     if negb (n_data =? zlen s) then mret None
     else match data with None => crash NullDereference | Some bs => mret (Some bs) end)).
  - apply msg_get_reads. apply (get_byte_array_reads (Some s)). intros ? [= <-]. lia.
  - cbn. rewrite Z.eqb_refl. apply msg_reads_ret.
Qed.

Lemma read_space_string_receives n :
  0 < n -> receives "s" (fun s => bytes s /\ zlen s = n) (gck_rpc_message_read_space_string n).
Proof.
  intros Hn m q Hm Ht. apply wp_bind, wp_assert; [by rewrite (proj2 (Z.eqb_neq _ _)) by lia|].
  revert m q Hm Ht. apply receives_intro.
  eapply (msg_total_bind byte_array_ok _ _ (fun '(data, n_data) =>
     if negb (n_data =? n) then mret None
     else match data with None => crash NullDereference | Some bs => mret (Some bs) end)).
  { apply msg_get_total, get_byte_array_total. }
  intros [[bs|] k] Ha; cbn; destruct (Z.eqb_spec k n) as [->|]; cbn [negb];
    try by apply msg_total_ret.
  - destruct Ha as (? & ? & _). apply msg_total_ret. by intros ? [= <-].
  - unfold byte_array_ok in Ha. cbn in Ha. lia.
Qed.

(** ** Parsing a message *)

(** A request or response accepted by [gck_rpc_message_parse]: it names a call
    and its parts are still to come. *)
Record accepted (type : GckRpcMessageType) (m : GckRpcMessage) : Prop := {
  ac_ok : msg_ok m;
  ac_id : 0 < call_id m < GCK_RPC_CALL_MAX;
  ac_type : call_type m = Some type;
  ac_signature : exists c s, gck_rpc_call (call_id m) = Ok c
    /\ call_signature c type = Some s /\ signature m = Some s /\ sigverify m = Some s;
}.

Lemma msg_ok_start m : buffer_ok (buffer m) -> msg_ok (set_parsed 0 m).
Proof. intros Hb. split; [done|]. cbn. destruct Hb. lia. Qed.

Lemma strlen_nonneg s : 0 <= strlen s.
Proof. unfold strlen. lia. Qed.

(** The comparison of the signature received with the one expected. *)
Lemma signature_check_wp (s : string) v n (Q : bool -> GckRpcMessage -> Prop) m :
  byte_array_ok (v, n) -> (forall r, Q r m) ->
  wp (if negb (strlen s =? n) then mret false else
      match v with
      | None => if n =? 0 then mret true else crash NullDereference
      | Some bs => mret (bool_decide (bs = string_bytes s))
      end) Q m.
Proof.
  intros Hv HQ. destruct (negb _); [by apply wp_ret|].
  destruct v as [bs|]; [by apply wp_ret|]. unfold byte_array_ok in Hv. cbn in Hv. subst n.
  by apply wp_ret.
Qed.

(** The call identifier is the first four bytes. *)
Definition first_id (bs : list Z) : Z := egg_buffer_decode_uint32 (take 4 bs).

Lemma first_id_wp m :
  buffer_ok (buffer m) ->
  wp (msg_get egg_buffer_get_uint32) (fun r m' => reading (set_parsed 0 m) m'
    /\ forall id, r = Some id -> is_u32 id /\ id = first_id (contents (buffer m))) (set_parsed 0 m).
Proof.
  intros Hb. pose proof (msg_ok_start m Hb) as Hm0.
  assert (wp (msg_get egg_buffer_get_uint32)
    (fun r _ => forall v, r = Some v -> v = first_id (contents (buffer m))) (set_parsed 0 m)) as Hid.
  { apply wp_bind, wp_gets, wp_bind, wp_zoom.
    apply (wp_mono _ (fun r _ => forall v n, r = Some (v, n) -> v = first_id (contents (buffer m)))).
    - cbn [buffer set_parsed parsed]. unfold egg_buffer_get_uint32, read_at, wp, buffer_fail, modify.
      destruct (out_of_range _ 4 0) eqn:E; [done|]. apply out_of_range_spec in E.
      rewrite contents_slice by (lia || done). by intros v n [= <- _].
    - intros [[v n]|] b Hv; [|by apply wp_ret].
      apply wp_bind, wp_modify, wp_ret. intros w [= <-]. by eapply Hv. }
  eapply wp_mono; [apply wp_and; [apply (msg_get_total _ _ get_uint32_total _ Hm0)|exact Hid]|].
  intros r m' [[Hr Hv] Hw]. split; [done|]. intros id E. split; [by apply Hv|by apply Hw].
Qed.

Lemma parse_wp type m :
  buffer_ok (buffer m) ->
  wp (gck_rpc_message_parse type) (fun r m' => msg_ok m'
    /\ eb_allocator (buffer m') = eb_allocator (buffer m)
    /\ (r = true -> type = GCK_RPC_REQUEST ->
       accepted type m' /\ call_id m' = first_id (contents (buffer m)))) m.
Proof.
  intros Hb. unfold gck_rpc_message_parse. apply wp_bind, wp_modify.
  pose proof (msg_ok_start m Hb) as Hm0.
  eapply wp_call; [by apply first_id_wp|].
  intros [id|] m1 [Hr1 Hid]; pose proof (reading_ok _ _ Hm0 Hr1) as Hm1;
    destruct Hr1 as (b1 & n1 & -> & ? & ? & ? & Hal & ? & ?);
    [|by apply wp_ret; split_and!].
  destruct (Hid _ eq_refl) as [Hid32 Hfirst]. apply wp_bind, wp_modify.
  destruct (Z.eqb_spec id GCK_RPC_CALL_ERROR) as [|Hne].
  { apply wp_ret. split; [done|]. split; [done|].
    intros Hr ->. by rewrite bool_decide_true in Hr. }
  destruct (_ || _) eqn:Erange.
  { apply wp_ret. done. }
  apply orb_false_iff in Erange as [E1%Z.leb_gt E2%Z.leb_gt].
  destruct (gck_rpc_call_ok id) as (c & Hc & _); [lia|].
  apply wp_bind. eapply wp_lift_res; [exact Hc|]. cbv zeta.
  destruct (call_signature_some id c type Hc ltac:(lia)) as [s Hs]. rewrite Hs.
  apply wp_bind, wp_modify. set (m2 := set_sigverify _ _).
  assert (msg_ok m2) as Hm2 by done.
  eapply wp_call; [apply (msg_get_total _ _ get_byte_array_total m2 Hm2)|].
  intros [[v n]|] m3 [Hr3 Hv]; pose proof (reading_ok _ _ Hm2 Hr3) as Hm3;
    destruct Hr3 as (b3 & n3 & -> & ? & ? & ? & Hal3 & ? & ?);
    [|apply wp_ret; split_and!; try done; cbn in *; congruence].
  apply signature_check_wp; [by apply (Hv (v, n))|]. intros r.
  split; [done|]. split; [cbn in *; congruence|]. intros _ _. split; [|done].
  split; [done|cbn; lia|done|by exists c, s].
Qed.

(** The signature as it may come: its bytes, or, for an empty one, the null
    pointer, which the comparison of lengths lets pass. *)
Definition carries (s : string) (v : option block) : Prop :=
  v = Some (string_bytes s) \/ s = EmptyString /\ v = None.

(** Bytes that name a call of the table and carry its signature, with [rest]
    behind them. *)
Definition names_call (type : GckRpcMessageType) (bs : list Z) (id : Z) (s : string)
    (rest : list Z) : Prop :=
  0 < id < GCK_RPC_CALL_MAX
  /\ (exists c, gck_rpc_call id = Ok c /\ call_signature c type = Some s)
  /\ exists v, carries s v /\ bs = enc_uint32 id ++ enc_byte_array v ++ rest.

(** Such bytes are accepted, with [rest] still to be read. *)
Lemma parse_names_call id type s m rest :
  buffer_ok (buffer m) -> names_call type (contents (buffer m)) id s rest ->
  exists m', gck_rpc_message_parse type m = Ok (true, m')
    /\ accepted type m' /\ call_id m' = id /\ signed m' s
    /\ unread m' = rest /\ buffer m' = buffer m.
Proof.
  intros Hb (Hid & (c & Hc & Hs) & v & Hv & Hcon). unfold gck_rpc_message_parse.
  pose proof (msg_ok_start m Hb) as Hm0.
  assert (unread (set_parsed 0 m) = enc_uint32 id ++ enc_byte_array v ++ rest)
    as Hu by (unfold unread, rest_at; cbn -[enc_byte_array]; by rewrite Hcon).
  destruct (msg_get_reads _ _ _ (get_uint32_reads id ltac:(unfold GCK_RPC_CALL_MAX in Hid; lia))
    _ _ Hm0 Hu) as (Hrun & Hm1 & Hu1).
  unfold mbind, ST_bind, modify. rewrite Hrun.
  rewrite (proj2 (Z.eqb_neq id GCK_RPC_CALL_ERROR)) by (unfold GCK_RPC_CALL_ERROR; lia).
  rewrite (proj2 (Z.leb_gt id 0)), (proj2 (Z.leb_gt GCK_RPC_CALL_MAX id)) by lia. cbn [orb].
  unfold lift_res. rewrite Hc. cbv zeta. rewrite Hs.
  pose proof (signature_short id c type s Hc Hs). 
  set (m2 := set_sigverify (Some s) _).
  assert (msg_ok m2) as Hm2 by exact Hm1.
  destruct (msg_get_reads _ _ _ (get_byte_array_reads v
    ltac:(intros bs ->; destruct Hv as [[= ->]|[_ ?]]; [rewrite zlen_string_bytes; lia|done]))
    m2 _ Hm2 Hu1) as (Hrun2 & Hm3 & Hu3).
  rewrite Hrun2. unfold byte_array_value.
  assert (exists m', m' = set_parsed (parsed m2 + zlen (enc_byte_array v)) m2
    /\ accepted type m' /\ call_id m' = id /\ signed m' s
    /\ unread m' = rest /\ buffer m' = buffer m) as (m' & -> & Hm').
  { eexists; split; [done|]. split_and!; try done. split; [done|cbn; lia|done|by exists c, s]. }
  eexists; split; [|exact Hm']. destruct Hv as [->|[-> ->]].
  - rewrite zlen_string_bytes, Z.eqb_refl. cbn [negb]. by rewrite bool_decide_true.
  - done.
Qed.

(** Bytes that start with the header of a call are accepted, with what is
    behind it still to be read. *)
Lemma parse_header id c type s m payload :
  buffer_ok (buffer m) -> 0 < id < GCK_RPC_CALL_MAX -> gck_rpc_call id = Ok c ->
  call_signature c type = Some s ->
  contents (buffer m) = header id (Some s) ++ payload ->
  exists m', gck_rpc_message_parse type m = Ok (true, m')
    /\ accepted type m' /\ call_id m' = id /\ signed m' s
    /\ unread m' = payload /\ buffer m' = buffer m.
Proof.
  intros Hb Hid Hc Hs Hcon. apply (parse_names_call id type s m payload Hb).
  split; [done|]. split; [by exists c|]. exists (Some (string_bytes s)). split; [by left|].
  rewrite Hcon. unfold header. by rewrite <- app_assoc.
Qed.

(** What [msg_get] makes of a reader whose value is known. *)
Lemma msg_get_at {A} get (at_ : option (A * Z)) m :
  wp (get (parsed m)) (fun r b' => r = at_
    /\ b' = match r with Some _ => buffer m | None => fail_buffer (buffer m) end) (buffer m) ->
  wp (msg_get get) (fun r m' =>
    match at_ with
    | Some (v, next) => r = Some v /\ m' = set_parsed next m
    | None => r = None /\ m' = set_buffer (fail_buffer (buffer m)) m
    end) m.
Proof.
  intros Hg. unfold msg_get. apply wp_bind, wp_gets, wp_bind, wp_zoom.
  eapply wp_mono; [exact Hg|]. intros [[v next]|] b' [<- ->].
  - apply wp_bind, wp_modify, wp_ret. split; [done|]. by destruct m.
  - by apply wp_ret.
Qed.

(** A request is accepted only if its bytes name a call and carry its signature. *)
Lemma parse_accepts m :
  buffer_ok (buffer m) ->
  wp (gck_rpc_message_parse GCK_RPC_REQUEST) (fun r m' => r = true ->
    exists s, names_call GCK_RPC_REQUEST (contents (buffer m)) (call_id m') s (unread m')
      /\ sigverify m' = Some s /\ buffer m' = buffer m) m.
Proof.
  intros Hb. pose proof (contents_bytes _ Hb) as Hby. unfold gck_rpc_message_parse.
  apply wp_bind, wp_modify.
  eapply wp_call; [apply (msg_get_at egg_buffer_get_uint32), get_uint32_at; [done|cbn; lia]|].
  cbn [buffer set_parsed parsed]. intros r m1.
  destruct (number_at _ _ _ _) as [[id next]|] eqn:E; intros [-> ->]; [|by apply wp_ret].
  apply uint32_at_encoded in E as (Hid & -> & Hle & Hd); [|done..].
  apply wp_bind, wp_modify. destruct (id =? GCK_RPC_CALL_ERROR); [by apply wp_ret|].
  destruct (_ || _) eqn:Er; [by apply wp_ret|].
  apply orb_false_iff in Er as [E1%Z.leb_gt E2%Z.leb_gt].
  destruct (gck_rpc_call_ok id) as (c & Hc & _); [lia|].
  apply wp_bind. eapply wp_lift_res; [exact Hc|]. cbv zeta.
  destruct (call_signature_some id c GCK_RPC_REQUEST Hc ltac:(lia)) as [s Hs]. rewrite Hs.
  apply wp_bind, wp_modify. set (m2 := set_sigverify _ _).
  eapply wp_call; [apply (msg_get_at _ (array_at (contents (buffer m2)) (parsed m2)) m2),
    get_byte_array_at; [done|cbn; lia]|].
  intros r m3. change (buffer m2) with (buffer m). change (parsed m2) with (0 + 4).
  destruct (array_at _ _) as [[[v n] next]|] eqn:E; intros [-> ->]; [|by apply wp_ret].
  apply array_at_encoded in E as (-> & Hn & Hd'); [|done|lia].
  assert (carries s v -> exists s0, names_call GCK_RPC_REQUEST (contents (buffer m))
      (call_id (set_parsed next m2)) s0 (unread (set_parsed next m2))
    /\ sigverify (set_parsed next m2) = Some s0 /\ buffer (set_parsed next m2) = buffer m) as Hgoal.
  { intros Hv. exists s. split; [|done]. split; [cbn; lia|]. split; [by exists c|].
    exists v. split; [done|]. unfold unread, rest_at. cbn [buffer parsed set_parsed call_id].
    change (buffer m2) with (buffer m). change (call_id m2) with id. by rewrite <- Hd', <- Hd. }
  destruct (Z.eqb_spec (strlen s) (zlen (default [] v))) as [Hlen|]; cbn [negb]; [|by apply wp_ret].
  destruct v as [bs|]; cbn in Hlen.
  - apply wp_ret. intros Hbs%bool_decide_eq_true. apply Hgoal. left. by rewrite Hbs.
  - apply wp_ret. intros _. apply Hgoal. right. split; [|done]. unfold strlen, zlen in Hlen. by destruct s.
Qed.

(** * Properties *)

(** ** Marshalling *)

(** What a reader of gck-rpc-message.c is called for. *)
Inductive kind :=
| KByte
| KUlong
| KVersion
| KSpaceString (length : Z).

Definition read_kind (k : kind) : ST GckRpcMessage (option part) :=
  match k with
  | KByte => r ← gck_rpc_message_read_byte; mret (PByte <$> r)
  | KUlong => r ← gck_rpc_message_read_ulong; mret (PUlong <$> r)
  | KVersion =>
      r ← gck_rpc_message_read_version; mret ((fun v => PVersion (major v) (minor v)) <$> r)
  | KSpaceString n => r ← gck_rpc_message_read_space_string n; mret (PSpaceString <$> r)
  end.

(** Readers called one after the other, until one fails. *)
Fixpoint read_kinds (ks : list kind) : ST GckRpcMessage (option (list part)) :=
  match ks with
  | [] => mret (Some [])
  | k :: ks =>
      r ← read_kind k;
      match r with
      | None => mret None
      | Some p => rs ← read_kinds ks; mret (cons p <$> rs)
      end
  end.

(** The reader for a part, where gck-rpc-message.c has one, and the range of its
    value. *)
Definition read_as (p : part) (k : kind) : Prop :=
  match p, k with
  | PByte v, KByte => is_u8 v
  | PUlong v, KUlong => is_u64 v
  | PVersion a b, KVersion => is_u8 a /\ is_u8 b
  | PSpaceString s, KSpaceString n => n = zlen s /\ 0 < n < 2147483647
  | _, _ => False
  end.

Lemma received_then {A B} p (rd : ST GckRpcMessage (option A)) v (f : A -> B) :
  received p rd v -> received p (r ← rd; mret (f <$> r)) (f v).
Proof.
  intros Hr m q rest Hm Ht Hu. destruct (Hr m q rest Hm Ht Hu) as (Hrun & ?).
  split; [|done]. unfold mbind, ST_bind. by rewrite Hrun.
Qed.

Lemma read_kind_received p k : read_as p k -> received p (read_kind k) p.
Proof.
  destruct p, k; cbn; try done; intros Hp.
  - apply (received_then _ _ v PByte), read_byte_received.
  - by apply (received_then _ _ v PUlong), read_ulong_received.
  - apply (received_then _ _ (mkVersion a b) (fun v => PVersion (major v) (minor v))).
    apply (read_version_received (mkVersion a b)).
  - destruct Hp as [-> Hz]. by apply (received_then _ _ s PSpaceString), read_space_string_received.
Qed.

Lemma read_kinds_received ps ks m :
  Forall2 read_as ps ks -> msg_ok m -> signed m (sigs_of ps) -> unread m = enc_parts ps ->
  exists m', read_kinds ks m = Ok (Some ps, m') /\ unread m' = []
    /\ gck_rpc_message_is_verified m' = true.
Proof.
  intros Hps. revert m. induction Hps as [|p k ps ks Hp _ IH]; intros m Hm Hs Hu.
  - exists m. destruct Hs as [_ Hv]. unfold gck_rpc_message_is_verified. by rewrite Hv.
  - cbn [sigs_of read_kinds] in *. destruct (read_kind_received p k Hp m (Some (sigs_of ps)) (enc_parts ps))
      as (Hrun & Hm1 & Hu1); [done|eapply takes_signed; [done|apply string_strip_app]|exact Hu|].
    destruct (IH _ Hm1) as (m' & Hrun' & ?); [by destruct Hs|done|].
    exists m'. split; [|done]. unfold mbind, ST_bind. by rewrite Hrun, Hrun'.
Qed.


Definition sample_message : GckRpcMessage := mkMessage 0 None None sample_buffer 0 None.

Lemma after_msg_ok {A} (k : ST GckRpcMessage A) Q m :
  buffer_ok (buffer m) -> wp k Q m -> (forall a m', Q a m' -> buffer_ok (buffer m')) ->
  buffer_ok (buffer (after k m)).
Proof. unfold after, wp. destruct (k m) as [[a m']|]; [|done]. naive_solver. Qed.

Definition sample_call : GckRpcCall :=
  mkCall GCK_RPC_CALL_C_SeedRandom "C_SeedRandom" (Some "uay") (Some "").
Definition sample_parts : list part := [PUlong 5; PBytes (Some [1; 2; 3]) 3].
Definition sample_writers : list (ST GckRpcMessage bool) :=
  [gck_rpc_message_write_ulong 5; gck_rpc_message_write_byte_array (Some [1; 2; 3]) 3].
Definition sample_prepared : GckRpcMessage :=
  after (gck_rpc_message_prep GCK_RPC_CALL_C_SeedRandom GCK_RPC_REQUEST) sample_message.
Definition sample_request : GckRpcMessage := after (write_all sample_writers) sample_prepared.

Lemma sample_writers_send : Forall2 sends sample_parts sample_writers.
Proof.
  constructor; [apply write_ulong_sends|]. constructor; [|constructor].
  apply write_byte_array_sends. intros bs [= <-]. split; [repeat constructor; simpl; lia|].
  unfold zlen; simpl; lia.
Qed.

Lemma sample_prepared_ok :
  prepared GCK_RPC_CALL_C_SeedRandom GCK_RPC_REQUEST (Some "uay") sample_prepared
  /\ eb_failures (buffer sample_prepared) = 0.
Proof.
  pose proof (prep_call_wp GCK_RPC_CALL_C_SeedRandom GCK_RPC_REQUEST sample_call sample_message
    sample_buffer_ok ltac:(vm_compute; done) ltac:(reflexivity)) as H.
  split; [|vm_compute; reflexivity]. unfold wp in H.
  rewrite (after_run (gck_rpc_message_prep GCK_RPC_CALL_C_SeedRandom GCK_RPC_REQUEST)
    sample_message) in H by (vm_compute; reflexivity). apply H.
Qed.

Lemma sample_request_ok : buffer_ok (buffer sample_request).
Proof.
  destruct sample_prepared_ok as [Hp Hf]. eapply after_msg_ok; [apply Hp| |].
  - eapply (sends_parts_all _ _ sample_writers_send); [by eapply prepared_clean| |].
    + eapply prepared_signed, Hp.
    + reflexivity.
  - by intros a m' [[? _] _].
Qed.

(** The answer to [C_GetInfo]: versions, padded strings and the flags. *)
Definition sample_info : list part :=
  [PVersion 2 20; PSpaceString (replicate 32 65); PUlong 18446744073709551615;
   PSpaceString (replicate 32 66); PVersion 1 255].
Definition sample_info_writers : list (ST GckRpcMessage bool) :=
  [gck_rpc_message_write_version (mkVersion 2 20);
   gck_rpc_message_write_space_string (replicate 32 65) 32;
   gck_rpc_message_write_ulong 18446744073709551615;
   gck_rpc_message_write_space_string (replicate 32 66) 32;
   gck_rpc_message_write_version (mkVersion 1 255)].
Definition sample_info_kinds : list kind :=
  [KVersion; KSpaceString 32; KUlong; KSpaceString 32; KVersion].
Definition sample_info_call : GckRpcCall :=
  mkCall GCK_RPC_CALL_C_GetInfo "C_GetInfo" (Some "") (Some "vsusv").
Definition sample_info_prepared : GckRpcMessage :=
  after (gck_rpc_message_prep GCK_RPC_CALL_C_GetInfo GCK_RPC_RESPONSE) sample_message.
Definition sample_response : GckRpcMessage :=
  after (write_all sample_info_writers) sample_info_prepared.

Lemma sample_info_writers_send : Forall2 sends sample_info sample_info_writers.
Proof.
  constructor; [apply (write_version_sends (mkVersion 2 20)); cbn; lia|].
  constructor; [apply write_space_string_sends; [repeat constructor; simpl; lia|done|lia]|].
  constructor; [apply write_ulong_sends|].
  constructor; [apply write_space_string_sends; [repeat constructor; simpl; lia|done|lia]|].
  constructor; [apply (write_version_sends (mkVersion 1 255)); cbn; lia|constructor].
Qed.

Lemma sample_response_ok : buffer_ok (buffer sample_response).
Proof.
  pose proof (prep_call_wp GCK_RPC_CALL_C_GetInfo GCK_RPC_RESPONSE sample_info_call sample_message
    sample_buffer_ok ltac:(vm_compute; done) ltac:(reflexivity)) as H. unfold wp in H.
  rewrite (after_run (gck_rpc_message_prep GCK_RPC_CALL_C_GetInfo GCK_RPC_RESPONSE)
    sample_message) in H by (vm_compute; reflexivity). fold sample_info_prepared in H.
  destruct H as [Hp Hf]. assert (eb_failures (buffer sample_info_prepared) = 0) as Hf0
    by (vm_compute; reflexivity). eapply after_msg_ok; [apply Hp| |].
  - eapply (sends_parts_all _ _ sample_info_writers_send); [by eapply prepared_clean| |].
    + eapply prepared_signed, Hp.
    + reflexivity.
  - by intros a m' [[? _] _].
Qed.


(** C18: [gck_rpc_message_parse] is total on any bytes and exact: it returns,
    its position is within the bytes held, and it accepts a request if and only
    if the bytes are the number of a call of the table, then that call's own
    signature (an empty one may also come as a null pointer), then whatever else.
    An accepted request is for the call the bytes name, with that signature still
    to be consumed, and what follows the signature is what is left to read; so
    [dispatch_call] may rely on all of it. *)
Theorem parse_request_total m :
  buffer_ok (buffer m) ->
  exists r m', gck_rpc_message_parse GCK_RPC_REQUEST m = Ok (r, m') /\ msg_ok m'
    /\ (r = true <-> exists id s rest, names_call GCK_RPC_REQUEST (contents (buffer m)) id s rest)
    /\ (r = true -> accepted GCK_RPC_REQUEST m' /\ buffer m' = buffer m
         /\ call_id m' = first_id (contents (buffer m))
         /\ exists s, sigverify m' = Some s
              /\ names_call GCK_RPC_REQUEST (contents (buffer m)) (call_id m') s (unread m')).
Proof.
  intros Hb. pose proof (wp_and _ _ _ _ (parse_wp GCK_RPC_REQUEST m Hb) (parse_accepts m Hb)) as Hw.
  apply wp_inv in Hw as (r & m' & Hrun & (Hm' & _ & Ha) & Hs).
  exists r, m'. split; [done|]. split; [done|]. split; [split|].
  - intros Hr. destruct (Hs Hr) as (s & Hc & _). eauto.
  - intros (id & s & rest & Hc). destruct (parse_names_call _ _ _ _ _ Hb Hc) as (m1 & Hrun1 & _).
    congruence.
  - intros Hr. destruct (Ha Hr eq_refl) as [Hacc Hid]. destruct (Hs Hr) as (s & Hc & Hv & Hbuf).
    split_and!; try done. by exists s.
Qed.

(** The bytes of [sample_request] are accepted, eight bytes of ones are not. *)
Lemma parse_request_total_witness :
  (exists m', gck_rpc_message_parse GCK_RPC_REQUEST sample_request = Ok (true, m')
     /\ names_call GCK_RPC_REQUEST (contents (buffer sample_request)) (call_id m') "uay" (unread m'))
  /\ ~ exists id s rest, names_call GCK_RPC_REQUEST (contents many_strings) id s rest.
Proof.
  split.
  - destruct (parse_request_total sample_request sample_request_ok) as (r & m' & Hrun & _ & _ & Ha).
    assert (match gck_rpc_message_parse GCK_RPC_REQUEST sample_request with
            | Ok (r, m') => (r, sigverify m') | Crash _ => (false, None) end = (true, Some "uay"%string))
      as Hv by (vm_compute; reflexivity).
    rewrite Hrun in Hv. injection Hv as -> Hs. exists m'. split; [done|].
    destruct (Ha eq_refl) as (_ & _ & _ & s & Hs' & Hc). rewrite Hs in Hs'. by injection Hs' as <-.
  - destruct (parse_request_total (set_buffer many_strings sample_message) many_strings_ok)
      as (r & m' & Hrun & _ & Hiff & _).
    assert (match gck_rpc_message_parse GCK_RPC_REQUEST (set_buffer many_strings sample_message) with
            | Ok (r, _) => r | Crash _ => true end = false) as Hv by (vm_compute; reflexivity).
    rewrite Hrun in Hv. subst r. intros Hc. by apply Hiff in Hc.
Defined.
