(* ===== verification/DispatchProto.v ===== *)
(** gck-rpc-dispatch.c, first part: the state of a dispatcher, the memory of a
    call, and the [proto_read_] and [proto_write_] functions with the macros the
    calls are written in. *)
From S2P Require Import Prelude EggBuffer Pkcs11 RpcUtil Calls Message.

(** ** State *)

Definition PKCS11PROXY_MAX_SESSION_COUNT : nat := 256.

(** The error returned on protocol failures *)
Definition PARSE_ERROR : Z := CKR_DEVICE_ERROR.
Definition PREP_ERROR : Z := CKR_DEVICE_MEMORY.

Record SessionState := mkSessionState { session_id : Z; session_slot : Z }.

(** [struct _CallState] of the connection served, less its transport.
    [allocated] is the sizes of the blocks on the chain, the latest first. *)
Record CallState := mkCallState {
  cs_req : GckRpcMessage;
  cs_resp : GckRpcMessage;
  cs_allocated : list Z;
  cs_appid : Z;
  cs_sock : Z;
  cs_sessions : list SessionState;
}.

(** What a dispatcher sees of the others on the list of dispatchers.  [od_req]
    is [None] until the other one has set up its buffers. *)
Record OtherDispatcher := mkOther {
  od_appid : Z;
  od_sock : Z;
  od_req : option GckRpcMessage;
}.

(** The state of the process as one dispatcher works on it: its own call
    state, the state of the PKCS#11 module, and the other dispatchers. *)
Record Proc (W : Type) := mkProc {
  p_cs : CallState;
  p_module : W;
  p_dispatchers : list OtherDispatcher;
}.
Arguments mkProc {W} _ _ _.
Arguments p_cs {W} _.
Arguments p_module {W} _.
Arguments p_dispatchers {W} _.

Section State.
Context {W : Type}.

Definition set_cs (c : CallState) (s : Proc W) : Proc W :=
  mkProc c (p_module s) (p_dispatchers s).
Definition set_module (w : W) (s : Proc W) : Proc W :=
  mkProc (p_cs s) w (p_dispatchers s).
Definition set_dispatchers (l : list OtherDispatcher) (s : Proc W) : Proc W :=
  mkProc (p_cs s) (p_module s) l.

Definition req (s : Proc W) : GckRpcMessage := cs_req (p_cs s).
Definition resp (s : Proc W) : GckRpcMessage := cs_resp (p_cs s).
Definition allocated (s : Proc W) : list Z := cs_allocated (p_cs s).
Definition sessions (s : Proc W) : list SessionState := cs_sessions (p_cs s).

Definition set_req (m : GckRpcMessage) (s : Proc W) : Proc W :=
  let c := p_cs s in
  set_cs (mkCallState m (cs_resp c) (cs_allocated c) (cs_appid c) (cs_sock c)
            (cs_sessions c)) s.
Definition set_resp (m : GckRpcMessage) (s : Proc W) : Proc W :=
  let c := p_cs s in
  set_cs (mkCallState (cs_req c) m (cs_allocated c) (cs_appid c) (cs_sock c)
            (cs_sessions c)) s.
Definition set_allocated (l : list Z) (s : Proc W) : Proc W :=
  let c := p_cs s in
  set_cs (mkCallState (cs_req c) (cs_resp c) l (cs_appid c) (cs_sock c)
            (cs_sessions c)) s.
Definition set_sessions (l : list SessionState) (s : Proc W) : Proc W :=
  let c := p_cs s in
  set_cs (mkCallState (cs_req c) (cs_resp c) (cs_allocated c) (cs_appid c) (cs_sock c) l) s.

Definition on_req {A} (m : ST GckRpcMessage A) : ST (Proc W) A := zoom req set_req m.
Definition on_resp {A} (m : ST GckRpcMessage A) : ST (Proc W) A := zoom resp set_resp m.
End State.

(** ** Code with early exits

    [inr rv] is [{ _ret = rv; goto _cleanup; }] or [return rv;], [inl a] goes on. *)
Definition Call (S A : Type) : Type := ST S (A + Z).

#[export] Instance Call_ret S : MRet (Call S) := fun A a s => Ok (inl a, s).
#[export] Instance Call_bind S : MBind (Call S) := fun A B k m s =>
  match m s with
  | Ok (inl a, s') => k a s'
  | Ok (inr rv, s') => Ok (inr rv, s')
  | Crash f => Crash f
  end.

Definition exit {S A} (rv : Z) : Call S A := fun s => Ok (inr rv, s).
Definition call {S A} (m : ST S A) : Call S A := fun s =>
  match m s with Ok (a, s') => Ok (inl a, s') | Crash f => Crash f end.
(** [if (!cond) return rv;] *)
Definition or_exit {S A} (rv : Z) (m : ST S (option A)) : Call S A := fun s =>
  match m s with
  | Ok (Some a, s') => Ok (inl a, s')
  | Ok (None, s') => Ok (inr rv, s')
  | Crash f => Crash f
  end.

Section Proto.
Context {W : Type}.
(** Whether [malloc] finds memory for a block, given those the call has. *)
Context (malloc_ok : list Z -> Z -> bool).

Abbreviation Serve A := (Call (Proc W) A).

(** ** Memory of a call *)

(** Whether the pointer is not null; the block is filled with 0xff. *)
Definition call_alloc (length : Z) : ST (Proc W) bool :=
  if 2147483647 <? length then mret false else
  s ← get_st;
  if malloc_ok (allocated s) (8 + length)
  then modify (set_allocated (length :: allocated s));; mret true
  else mret false.

Definition call_reset : ST (Proc W) unit :=
  modify (set_allocated []);;
  on_req gck_rpc_message_reset;;
  on_resp gck_rpc_message_reset.

Definition alloc_or_exit (length : Z) : Serve unit :=
  ok ← call (call_alloc length);
  if (ok : bool) then mret tt else exit CKR_DEVICE_MEMORY.

(** [egg_buffer_get_x (&msg->buffer, msg->parsed, &msg->parsed, &v)] on the
    request, or [return PARSE_ERROR]. *)
Definition get_or_exit {A} (get : Z -> ST EggBuffer (option (A * Z))) : Serve A :=
  or_exit PARSE_ERROR (on_req (msg_get get)).

(** ** Reading arguments *)

Definition proto_read_byte_buffer : Serve (option block * option Z) :=
  call (on_req (check_part "fy"));;
  flags ← get_or_exit egg_buffer_get_byte;
  (* The number of bytes there's room for on the other end *)
  length ← get_or_exit egg_buffer_get_uint32;
  let n_buffer := if Z.land flags GCK_RPC_BYTE_BUFFER_NULL_COUNT =? 0
                  then Some length else None in
  if Z.land flags GCK_RPC_BYTE_BUFFER_NULL_DATA =? 0 then
    alloc_or_exit length;;
    mret (Some (replicate (Z.to_nat length) 255), n_buffer)
  else mret (None, n_buffer).

Definition proto_read_byte_array : Serve (option block * Z) :=
  call (on_req (check_part "ay"));;
  (* Read out the byte which says whether data is present or not *)
  valid ← get_or_exit egg_buffer_get_byte;
  if valid =? 0 then
    (* No array, no data, just length *)
    n_size ← get_or_exit egg_buffer_get_uint32;
    mret (None, n_size)
  else
    (* Point our arguments into the buffer *)
    get_or_exit egg_buffer_get_byte_array.

Definition proto_read_ulong_buffer : Serve (option (list Z) * Z) :=
  call (on_req (check_part "fu"));;
  (* The number of ulongs there's room for on the other end *)
  length ← get_or_exit egg_buffer_get_uint32;
  (* If set to zero, then they just want the length *)
  if length =? 0 then mret (None, length) else
  alloc_or_exit (length * sizeof_CK_ULONG);;
  mret (Some (replicate (Z.to_nat length) CK_ULONG_MINUS_1), length).

(** One iteration of the loop of [proto_read_attribute_buffer]. *)
Definition read_attribute_size : Serve CK_ATTRIBUTE :=
  (* The attribute type *)
  type ← get_or_exit egg_buffer_get_uint32;
  (* The number of bytes to allocate *)
  value ← get_or_exit egg_buffer_get_uint32;
  if value =? 0 then mret (mkAttribute type None 0)
  else
    alloc_or_exit value;;
    mret (mkAttribute type (Some (replicate (Z.to_nat value) 255)) value).

(** One iteration of the loop of [proto_read_attribute_array].  Where a
    [CK_ULONG] is narrower than 64 bits its value is narrowed in place, which
    (little endian) leaves the bytes as they are and shortens the length. *)
Definition read_attribute : Serve CK_ATTRIBUTE :=
  (* The attribute type *)
  type ← get_or_exit egg_buffer_get_uint32;
  (* Whether this one is valid or not *)
  valid ← get_or_exit egg_buffer_get_byte;
  if valid =? 0 then mret (mkAttribute type None CK_ULONG_MINUS_1) else
  value ← get_or_exit egg_buffer_get_uint32;
  '(data, n_data) ← get_or_exit egg_buffer_get_byte_array;
  if nonnull data && negb (n_data =? value) then exit PARSE_ERROR else
  if (value =? sizeof_uint64_t) && negb (value =? sizeof_CK_ULONG)
     && gck_rpc_has_ulong_parameter type
  then
    if nonnull data then mret (mkAttribute type data sizeof_CK_ULONG)
    else call (crash NullDereference)
  else mret (mkAttribute type data value).

(** [for (i = 0; i < n; ++i) attrs[i] = ...;] *)
Fixpoint read_elements {A} (read : Serve A) (n : nat) : Serve (list A) :=
  match n with
  | O => mret []
  | S n => a ← read; l ← read_elements read n; mret (a :: l)
  end.

Definition proto_read_attribute_buffer : Serve (option (list CK_ATTRIBUTE) * Z) :=
  (* Make sure this is in the rigth order *)
  call (on_req (check_part "fA"));;
  (* Read the number of attributes *)
  n_attrs ← get_or_exit egg_buffer_get_uint32;
  (* Allocate memory for the attribute structures *)
  alloc_or_exit (n_attrs * sizeof_CK_ATTRIBUTE);;
  (* Now go through and fill in each one *)
  attrs ← read_elements read_attribute_size (Z.to_nat n_attrs);
  mret (Some attrs, n_attrs).

Definition proto_read_attribute_array : Serve (option (list CK_ATTRIBUTE) * Z) :=
  (* Make sure this is in the right order *)
  call (on_req (check_part "aA"));;
  (* Read the number of attributes *)
  n_attrs ← get_or_exit egg_buffer_get_uint32;
  if n_attrs =? 0 then mret (None, n_attrs) else
  (* Allocate memory for the attribute structures *)
  alloc_or_exit (n_attrs * sizeof_CK_ATTRIBUTE);;
  (* Now go through and fill in each one *)
  attrs ← read_elements read_attribute (Z.to_nat n_attrs);
  mret (Some attrs, n_attrs).

(** The block is as long as what was received: [length] is not looked at. *)
Definition proto_read_space_string (length : Z) : Serve (option block) :=
  call (on_req (check_part "s"));;
  '(data, n_data) ← get_or_exit egg_buffer_get_byte_array;
  (* Allocate a block of memory for it. *)
  alloc_or_exit n_data;;
  bs ← call (lift_res (mem_read (default [] data) 0 n_data));
  mret (Some bs).

Definition proto_read_mechanism : Serve CK_MECHANISM :=
  (* Make sure this is in the right order *)
  call (on_req (check_part "M"));;
  (* The mechanism type *)
  value ← get_or_exit egg_buffer_get_uint32;
  (* The mechanism data *)
  '(data, n_data) ← get_or_exit egg_buffer_get_byte_array;
  mret (mkMechanism value data n_data).

(** ** Writing results

    All of these return the new value of [_ret]. *)

Abbreviation Reply := (ST (Proc W) Z).

Definition prepared_or (ret : Z) (m : ST GckRpcMessage bool) : Reply :=
  ok ← on_resp m; mret (if (ok : bool) then ret else PREP_ERROR).

(** When returning an array, in many cases we need to pass an invalid array
    along with a length, which signifies [CKR_BUFFER_TOO_SMALL]. *)
Definition proto_write_byte_array (array : option block) (len : option Z) (ret : Z)
    : Reply :=
  if ret =? CKR_BUFFER_TOO_SMALL then
    prepared_or CKR_OK (gck_rpc_message_write_byte_array None (default 0 len))
  else if ret =? CKR_OK then
    prepared_or CKR_OK (gck_rpc_message_write_byte_array array (default 0 len))
  else mret ret.

Definition proto_write_ulong_array (array : option (list Z)) (len : Z) (ret : Z) : Reply :=
  if ret =? CKR_BUFFER_TOO_SMALL then
    prepared_or CKR_OK (gck_rpc_message_write_ulong_array None len)
  else if ret =? CKR_OK then
    prepared_or CKR_OK (gck_rpc_message_write_ulong_array array len)
  else mret ret.

(** Certain errors aren't actually real errors, these are passed through to
    the other side along with the attribute array. *)
Definition proto_write_attribute_array (array : option (list CK_ATTRIBUTE)) (len ret : Z)
    : Reply :=
  if one_of ret [CKR_ATTRIBUTE_SENSITIVE; CKR_ATTRIBUTE_TYPE_INVALID;
                 CKR_BUFFER_TOO_SMALL; CKR_OK]
  then
    prepared_or CKR_OK (write_all [gck_rpc_message_write_attribute_array array len;
                                   gck_rpc_message_write_ulong ret])
  else mret ret.

Definition proto_write_info (info : CK_INFO) : Reply :=
  prepared_or CKR_OK (write_all [
    gck_rpc_message_write_version (i_cryptokiVersion info);
    gck_rpc_message_write_space_string (i_manufacturerID info) 32;
    gck_rpc_message_write_ulong (i_flags info);
    gck_rpc_message_write_space_string (i_libraryDescription info) 32;
    gck_rpc_message_write_version (i_libraryVersion info)]).

Definition proto_write_slot_info (info : CK_SLOT_INFO) : Reply :=
  prepared_or CKR_OK (write_all [
    gck_rpc_message_write_space_string (s_slotDescription info) 64;
    gck_rpc_message_write_space_string (s_manufacturerID info) 32;
    gck_rpc_message_write_ulong (s_flags info);
    gck_rpc_message_write_version (s_hardwareVersion info);
    gck_rpc_message_write_version (s_firmwareVersion info)]).

Definition proto_write_token_info (info : CK_TOKEN_INFO) : Reply :=
  prepared_or CKR_OK (write_all [
    gck_rpc_message_write_space_string (t_label info) 32;
    gck_rpc_message_write_space_string (t_manufacturerID info) 32;
    gck_rpc_message_write_space_string (t_model info) 16;
    gck_rpc_message_write_space_string (t_serialNumber info) 16;
    gck_rpc_message_write_ulong (t_flags info);
    gck_rpc_message_write_ulong (t_ulMaxSessionCount info);
    gck_rpc_message_write_ulong (t_ulSessionCount info);
    gck_rpc_message_write_ulong (t_ulMaxRwSessionCount info);
    gck_rpc_message_write_ulong (t_ulRwSessionCount info);
    gck_rpc_message_write_ulong (t_ulMaxPinLen info);
    gck_rpc_message_write_ulong (t_ulMinPinLen info);
    gck_rpc_message_write_ulong (t_ulTotalPublicMemory info);
    gck_rpc_message_write_ulong (t_ulFreePublicMemory info);
    gck_rpc_message_write_ulong (t_ulTotalPrivateMemory info);
    gck_rpc_message_write_ulong (t_ulFreePrivateMemory info);
    gck_rpc_message_write_version (t_hardwareVersion info);
    gck_rpc_message_write_version (t_firmwareVersion info);
    gck_rpc_message_write_space_string (t_utcTime info) 16]).

Definition proto_write_mechanism_info (info : CK_MECHANISM_INFO) : Reply :=
  prepared_or CKR_OK (write_all [
    gck_rpc_message_write_ulong (ulMinKeySize info);
    gck_rpc_message_write_ulong (ulMaxKeySize info);
    gck_rpc_message_write_ulong (mi_flags info)]).

Definition proto_write_session_info (info : CK_SESSION_INFO) : Reply :=
  prepared_or CKR_OK (write_all [
    gck_rpc_message_write_ulong (ss_slotID info);
    gck_rpc_message_write_ulong (ss_state info);
    gck_rpc_message_write_ulong (ss_flags info);
    gck_rpc_message_write_ulong (ss_ulDeviceError info)]).

(** ** Call macros *)

Definition BEGIN_CALL {F} (func : option F) : Serve F :=
  match func with
  | Some f => mret f
  | None => exit CKR_GENERAL_ERROR
  end.

Definition run_module {A} (m : mfun W A) : ST (Proc W) (Z * A) := fun s =>
  let (r, w) := m (p_module s) in Ok (r, set_module w s).

Definition PROCESS_CALL {A} (m : mfun W A) : Serve (Z * A) :=
  s ← call get_st;
  call (assert_ (gck_rpc_message_is_verified (req s)));;
  call (run_module m).

Definition END_CALL (body : Serve Z) : Reply :=
  r ← (body : ST (Proc W) (Z + Z));
  mret (match r with inl ret => ret | inr ret => ret end).

Definition IN_BYTE : Serve Z := or_exit PARSE_ERROR (on_req gck_rpc_message_read_byte).
Definition IN_ULONG : Serve Z := or_exit PARSE_ERROR (on_req gck_rpc_message_read_ulong).

Definition IN_SPACE_STRING (len : Z) : Serve (option block) := proto_read_space_string len.
Definition IN_BYTE_BUFFER : Serve (option block * option Z) := proto_read_byte_buffer.
Definition IN_BYTE_ARRAY : Serve (option block * Z) := proto_read_byte_array.
Definition IN_ULONG_BUFFER : Serve (option (list Z) * Z) := proto_read_ulong_buffer.
Definition IN_ATTRIBUTE_BUFFER : Serve (option (list CK_ATTRIBUTE) * Z) :=
  proto_read_attribute_buffer.
Definition IN_ATTRIBUTE_ARRAY : Serve (option (list CK_ATTRIBUTE) * Z) :=
  proto_read_attribute_array.
Definition IN_MECHANISM : Serve CK_MECHANISM := proto_read_mechanism.

Definition OUT_ULONG (val : Z) (ret : Z) : Serve Z :=
  if ret =? CKR_OK then call (prepared_or ret (gck_rpc_message_write_ulong val))
  else mret ret.

Definition OUT_BYTE_ARRAY array len (ret : Z) : Serve Z :=
  call (proto_write_byte_array array len ret).
Definition OUT_ULONG_ARRAY array len (ret : Z) : Serve Z :=
  call (proto_write_ulong_array array len ret).
Definition OUT_ATTRIBUTE_ARRAY array len (ret : Z) : Serve Z :=
  call (proto_write_attribute_array array len ret).

(** [if (_ret == CKR_OK) _ret = proto_write_x (cs, &val);] *)
Definition out_if_ok (write : Reply) (ret : Z) : Serve Z :=
  if ret =? CKR_OK then call write else mret ret.
Definition OUT_INFO val (ret : Z) : Serve Z := out_if_ok (proto_write_info val) ret.
Definition OUT_SLOT_INFO val (ret : Z) : Serve Z := out_if_ok (proto_write_slot_info val) ret.
Definition OUT_TOKEN_INFO val (ret : Z) : Serve Z :=
  out_if_ok (proto_write_token_info val) ret.
Definition OUT_MECHANISM_INFO val (ret : Z) : Serve Z :=
  out_if_ok (proto_write_mechanism_info val) ret.
Definition OUT_SESSION_INFO val (ret : Z) : Serve Z :=
  out_if_ok (proto_write_session_info val) ret.
End Proto.

(** * Specifications *)

(** ** Code with early exits *)

(** [m] does not crash; where it goes on, [Q] holds; where it exits, with [rv],
    [E rv] does. *)
Definition safe {S A} (E : Z -> S -> Prop) (m : Call S A) (Q : A -> S -> Prop) (s : S) : Prop :=
  wp (m : ST S (A + Z)) (fun r s' => match r with
                         | inl a => Q a s'
                         | inr rv => E rv s'
                         end) s.

(** The exits of the calls: with an error, in a state that satisfies [F]. *)
Definition failing {S} (F : S -> Prop) (rv : Z) (s : S) : Prop := rv <> CKR_OK /\ F s.

Section Safe.
Context {S : Type} (E : Z -> S -> Prop).

Lemma safe_ret {A} (a : A) (Q : A -> S -> Prop) s : Q a s -> safe E (mret a) Q s.
Proof. done. Qed.

Lemma safe_call {A} (m : ST S A) (Q : A -> S -> Prop) s : wp m Q s -> safe E (call m) Q s.
Proof. unfold safe, wp, call. by destruct (m s) as [[a s']|]. Qed.

Lemma safe_bind {A B} (m : Call S A) (k : A -> Call S B) Q s :
  safe E m (fun a s' => safe E (k a) Q s') s -> safe E (m ≫= k) Q s.
Proof. unfold safe, wp, mbind, Call_bind. by destruct (m s) as [[[a|rv] s']|]. Qed.

Lemma safe_mono {A} (m : Call S A) (P Q : A -> S -> Prop) s :
  safe E m P s -> (forall a s', P a s' -> Q a s') -> safe E m Q s.
Proof. unfold safe, wp. destruct (m s) as [[[a|rv] s']|]; naive_solver. Qed.

(** The specification of a call, then what is left of the caller. *)
Lemma safe_then {A B} (m : Call S A) (k : A -> Call S B) P Q s :
  safe E m P s -> (forall a s', P a s' -> safe E (k a) Q s') -> safe E (m ≫= k) Q s.
Proof. intros Hm Hk. apply safe_bind. eapply safe_mono; [exact Hm|exact Hk]. Qed.

Lemma safe_or_exit_with {A} rv (m : ST S (option A)) (Q : A -> S -> Prop) s :
  wp m (fun r s' => match r with Some a => Q a s' | None => E rv s' end) s ->
  safe E (or_exit rv m) Q s.
Proof. unfold safe, wp, or_exit. destruct (m s) as [[[a|] s']|]; auto. Qed.

End Safe.

Section Failing.
Context {S : Type} (F : S -> Prop).

Lemma safe_exit {A} rv (Q : A -> S -> Prop) s :
  rv <> CKR_OK -> F s -> safe (failing F) (exit rv) Q s.
Proof. done. Qed.

Lemma safe_or_exit {A} rv (m : ST S (option A)) (Q : A -> S -> Prop) s :
  rv <> CKR_OK ->
  wp m (fun r s' => match r with Some a => Q a s' | None => F s' end) s ->
  safe (failing F) (or_exit rv m) Q s.
Proof.
  intros Hrv. unfold safe, wp, or_exit. destruct (m s) as [[[a|] s']|]; auto.
  intros ?. by split.
Qed.
End Failing.

(** ** The state while a request is served *)

Section Serving.
Context {W : Type}.
(** The call served and the signature of its response. *)
Context (id : Z) (sg : string).

(** What holds at any time, after an error too. *)
Record base (s : Proc W) : Prop := {
  ba_req : buffer_ok (buffer (req s));
  ba_req_id : call_id (req s) = id;
  ba_resp : buffer_ok (buffer (resp s));
  ba_sessions : length (sessions s) = PKCS11PROXY_MAX_SESSION_COUNT;
  ba_sock : 0 <= cs_sock (p_cs s);
  ba_req_alloc : is_Some (eb_allocator (buffer (req s)));
  ba_resp_alloc : is_Some (eb_allocator (buffer (resp s)));
}.

(** No error so far: [q] is what is left of the request's signature, [ps] the
    parts the response has, [r] what is left of its signature. *)
Record serving (q : string) (ps : list part) (r : string) (s : Proc W) : Prop := {
  sv_base : base s;
  sv_req : msg_ok (req s);
  sv_req_sig : signed (req s) q;
  sv_resp : clean (resp s);
  sv_resp_sig : signed (resp s) r;
  sv_resp_id : call_id (resp s) = id;
  sv_resp_type : call_type (resp s) = Some GCK_RPC_RESPONSE;
  sv_resp_signature : signature (resp s) = Some sg;
  sv_contents : contents (buffer (resp s)) = header id (Some sg) ++ enc_parts ps;
  sv_strip : string_strip (sigs_of ps) sg = Some r;
}.

(** What reading arguments and writing results leave alone. *)
Definition unchanged (s s' : Proc W) : Prop :=
  p_module s' = p_module s /\ sessions s' = sessions s
  /\ p_dispatchers s' = p_dispatchers s
  /\ cs_appid (p_cs s') = cs_appid (p_cs s) /\ cs_sock (p_cs s') = cs_sock (p_cs s)
  /\ eb_allocator (buffer (req s')) = eb_allocator (buffer (req s))
  /\ eb_allocator (buffer (resp s')) = eb_allocator (buffer (resp s)).

Lemma unchanged_refl s : unchanged s s.
Proof. done. Qed.

Lemma unchanged_trans s s1 s2 : unchanged s s1 -> unchanged s1 s2 -> unchanged s s2.
Proof. unfold unchanged. intuition congruence. Qed.

Lemma serving_takes q ps r s part q' :
  serving q ps r s -> string_strip part q = Some q' -> takes (req s) part (Some q').
Proof. intros [] ?. by eapply takes_signed. Qed.

(** The request is read further, up to [q']. *)
Lemma serving_read q ps r s q' m :
  serving q ps r s -> reading (set_sigverify (Some q') (req s)) m ->
  serving q' ps r (set_req m s).
Proof.
  intros [[] Hm [] ? ? ? ? ? ? ?] Hr.
  pose proof (reading_ok (set_sigverify (Some q') (req s)) m Hm Hr) as Hok.
  destruct Hr as (b & n & -> & _ & _ & _ & Ha & _). split; try done.
  split; try done; [apply Hok|cbn in *; by rewrite Ha].
Qed.

(** The same while one part is being read. *)
Lemma serving_reading q ps r s m :
  serving q ps r s -> reading (req s) m -> serving q ps r (set_req m s).
Proof.
  intros [[] Hm [] ? ? ? ? ? ? ?] Hr. pose proof (reading_ok _ _ Hm Hr) as Hok.
  destruct Hr as (b & n & -> & _ & _ & _ & Ha & _). split; try done.
  split; try done; [apply Hok|cbn in *; by rewrite Ha].
Qed.

Lemma set_req_unchanged m s :
  eb_allocator (buffer m) = eb_allocator (buffer (req s)) -> unchanged s (set_req m s).
Proof. intros. by split_and!. Qed.
Lemma set_resp_unchanged m s :
  eb_allocator (buffer m) = eb_allocator (buffer (resp s)) -> unchanged s (set_resp m s).
Proof. intros. by split_and!. Qed.
Lemma reading_unchanged q s m :
  reading (set_sigverify q (req s)) m -> unchanged s (set_req m s).
Proof. intros (b & n & -> & _ & _ & _ & Ha & _). by apply set_req_unchanged. Qed.
Lemma reading_on_unchanged s m : reading (req s) m -> unchanged s (set_req m s).
Proof. intros (b & n & -> & _ & _ & _ & Ha & _). by apply set_req_unchanged. Qed.

(** ** Reading the parts of a request *)

Abbreviation safe := (safe (failing base)).

(** A reader of one part, as the argument macros use it. *)
Lemma read_part_safe {A} part (P : A -> Prop) (rd : ST GckRpcMessage (option A)) q q' ps r s :
  receives part P rd -> serving q ps r s -> string_strip part q = Some q' ->
  safe (or_exit PARSE_ERROR (on_req rd))
    (fun v s' => P v /\ unchanged s s' /\ serving q' ps r s') s.
Proof.
  intros Hrd Hs Hq. apply safe_or_exit; [done|]. apply wp_zoom.
  eapply wp_mono; [apply (Hrd _ (Some q')); [apply Hs|by eapply serving_takes]|].
  intros [v|] m [Hr Hv]; pose proof (serving_read _ _ _ _ _ _ Hs Hr) as Hs'.
  - split; [by apply Hv|]. split; [by eapply reading_unchanged|done].
  - apply Hs'.
Qed.

Lemma IN_BYTE_safe q q' ps r s :
  serving q ps r s -> string_strip "y" q = Some q' ->
  safe IN_BYTE (fun v s' => is_u8 v /\ unchanged s s' /\ serving q' ps r s') s.
Proof. apply read_part_safe, read_byte_receives. Qed.

Lemma IN_ULONG_safe q q' ps r s :
  serving q ps r s -> string_strip "u" q = Some q' ->
  safe IN_ULONG (fun v s' => is_u64 v /\ unchanged s s' /\ serving q' ps r s') s.
Proof. apply read_part_safe, read_ulong_receives. Qed.

(** The first step of the [proto_read_] functions: the signature. *)
Lemma check_part_safe part q q' ps r s :
  serving q ps r s -> string_strip part q = Some q' ->
  safe (call (on_req (check_part part)))
    (fun _ s' => unchanged s s' /\ serving q' ps r s') s.
Proof.
  intros Hs Hq. apply safe_call, wp_zoom. eapply wp_intro; [by eapply serving_takes|].
  split; [done|]. eapply serving_read; [done|]. apply reading_refl. apply Hs.
Qed.

Lemma get_or_exit_safe {A} (P : A -> Prop) get q ps r s :
  read_total P get -> serving q ps r s ->
  safe (get_or_exit get) (fun v s' => P v /\ unchanged s s' /\ serving q ps r s') s.
Proof.
  intros Hg Hs. apply safe_or_exit; [done|]. apply wp_zoom.
  eapply wp_mono; [apply (msg_get_total _ _ Hg); apply Hs|].
  intros [v|] m [Hr Hv]; pose proof (serving_reading _ _ _ _ _ Hs Hr) as Hs'.
  - split; [by apply Hv|]. split; [by apply reading_on_unchanged|done].
  - apply Hs'.
Qed.
End Serving.

(** What the arguments the [proto_read_] functions hand to the module are. *)

(** Space for the module to write to is as large as the count says. *)
Definition byte_buffer_val (v : option block * option Z) : Prop :=
  (forall b, v.1 = Some b -> bytes b /\ forall n, v.2 = Some n -> zlen b = n)
  /\ (forall n, v.2 = Some n -> is_u32 n).

Definition byte_array_val (v : option block * Z) : Prop :=
  match v.1 with
  | None => is_u32 v.2
  | Some bs => v.2 = zlen bs /\ bytes bs /\ v.2 < 2147483647
  end.

Definition ulong_buffer_val (v : option (list Z) * Z) : Prop :=
  is_u32 v.2 /\ forall l, v.1 = Some l -> zlen l = v.2.

(** An attribute whose value is as long as its length says. *)
Definition attr_val (a : CK_ATTRIBUTE) : Prop :=
  is_u32 (attr_type a) /\ forall bs, pValue a = Some bs -> bytes bs /\ ulValueLen a = zlen bs.

Definition attrs_val (v : option (list CK_ATTRIBUTE) * Z) : Prop :=
  v.2 = zlen (default [] v.1) /\ Forall attr_val (default [] v.1).

Definition mechanism_val (m : CK_MECHANISM) : Prop :=
  is_u32 (mechanism m) /\ byte_array_ok (pParameter m, ulParameterLen m).

Section Reading.
Context {W : Type} (malloc_ok : list Z -> Z -> bool).
Context (id : Z) (sg : string).

Abbreviation safe := (safe (failing (@base W id))).
Abbreviation serving := (@serving W id sg).

(** [v] was read, and the request was read further. *)
Definition read_post {A} (P : A -> Prop) q ps r (s : Proc W) (v : A) (s' : Proc W) : Prop :=
  P v /\ unchanged s s' /\ serving q ps r s'.

Lemma read_post_trans {A} (P : A -> Prop) q ps r s s1 v s2 :
  unchanged s s1 -> read_post P q ps r s1 v s2 -> read_post P q ps r s v s2.
Proof. intros ? (? & ? & ?). split_and!; try done. by eapply unchanged_trans. Qed.

(** One step of a reader that goes on in the same call. *)
Lemma step_safe {A B} (P : A -> Prop) (Q : B -> Prop) (m : Call (Proc W) A)
    (k : A -> Call (Proc W) B) q1 q2 ps r s :
  safe m (read_post P q1 ps r s) s ->
  (forall v s1, P v -> serving q1 ps r s1 -> safe (k v) (read_post Q q2 ps r s1) s1) ->
  safe (m ≫= k) (read_post Q q2 ps r s) s.
Proof.
  intros Hm Hk. eapply safe_then; [exact Hm|]. intros v s1 (HP & Hu & Hs).
  eapply safe_mono; [by apply Hk|]. intros w s2 Hp. by eapply read_post_trans.
Qed.

Lemma start_safe {B} (Q : B -> Prop) part (k : unit -> Call (Proc W) B) q q' ps r s :
  serving q ps r s -> string_strip part q = Some q' ->
  (forall s1, serving q' ps r s1 -> safe (k tt) (read_post Q q' ps r s1) s1) ->
  safe (call (on_req (check_part part)) ≫= k) (read_post Q q' ps r s) s.
Proof.
  intros Hs Hq Hk. apply (step_safe (fun _ => True) Q _ _ q' q').
  - eapply safe_mono; [by eapply check_part_safe|]. intros [] s' [? ?]. done.
  - intros [] s1 _ Hs1. by apply Hk.
Qed.

Lemma done_safe {A} (P : A -> Prop) (v : A) q ps r s :
  P v -> serving q ps r s -> safe (mret v) (read_post P q ps r s) s.
Proof. intros. apply safe_ret. split_and!; try done. Qed.

Lemma get_safe {A} (P : A -> Prop) get q ps r s :
  read_total P get -> serving q ps r s -> safe (get_or_exit get) (read_post P q ps r s) s.
Proof. apply get_or_exit_safe. Qed.

Lemma set_allocated_serving l q ps r s : serving q ps r s -> serving q ps r (set_allocated l s).
Proof. intros [[] ? ? ? ? ? ? ? ? ?]. by split. Qed.

Lemma alloc_or_exit_safe n q ps r s :
  serving q ps r s ->
  safe (alloc_or_exit malloc_ok n) (read_post (fun _ => n <= 2147483647) q ps r s) s.
Proof.
  intros Hs. unfold alloc_or_exit, call_alloc. apply safe_bind, safe_call.
  destruct (_ <? n) eqn:E.
  - apply wp_ret, safe_exit; [done|apply Hs].
  - apply Z.ltb_ge in E. apply wp_bind, wp_get. destruct (malloc_ok _ _).
    + apply wp_bind, wp_modify, wp_ret, safe_ret. split_and!; try done.
      by apply set_allocated_serving.
    + apply wp_ret, safe_exit; [done|apply Hs].
Qed.

Lemma bytes_replicate n v : is_u8 v -> bytes (replicate n v).
Proof. intros. by apply Forall_replicate. Qed.

Lemma zlen_replicate_u32 {A} (v : A) n : is_u32 n -> zlen (replicate (Z.to_nat n) v) = n.
Proof. intros. rewrite zlen_replicate. lia. Qed.

Lemma proto_read_byte_buffer_safe q q' ps r s :
  serving q ps r s -> string_strip "fy" q = Some q' ->
  safe (proto_read_byte_buffer malloc_ok) (read_post byte_buffer_val q' ps r s) s.
Proof.
  intros Hs Hq. eapply start_safe; [done..|]. clear s Hs. intros s Hs.
  eapply step_safe; [apply get_safe; [apply get_byte_total|done]|].
  intros flags s1 _ Hs1.
  eapply step_safe; [apply get_safe; [apply get_uint32_total|done]|].
  intros n s2 Hn Hs2. cbv zeta. set (nb := if _ =? 0 then Some n else None).
  assert (forall k, nb = Some k -> k = n) as Hnb
    by (unfold nb; destruct (_ =? 0); intros; congruence).
  clearbody nb. destruct (_ =? 0).
  - eapply step_safe; [by apply alloc_or_exit_safe|]. intros [] s3 _ Hs3.
    apply done_safe; [|done]. split; cbn.
    + intros b [= <-]. split; [by apply bytes_replicate|]. intros k Hk.
      rewrite (Hnb _ Hk). by apply zlen_replicate_u32.
    + intros k Hk. by rewrite (Hnb _ Hk).
  - apply done_safe; [|done]. split; cbn; [done|]. intros k Hk. by rewrite (Hnb _ Hk).
Qed.

Lemma proto_read_byte_array_safe q q' ps r s :
  serving q ps r s -> string_strip "ay" q = Some q' ->
  safe proto_read_byte_array (read_post byte_array_val q' ps r s) s.
Proof.
  intros Hs Hq. eapply start_safe; [done..|]. clear s Hs. intros s Hs.
  eapply step_safe; [apply get_safe; [apply get_byte_total|done]|].
  intros valid s1 _ Hs1. destruct (_ =? 0).
  - eapply step_safe; [apply get_safe; [apply get_uint32_total|done]|].
    intros n s2 Hn Hs2. by apply done_safe.
  - eapply safe_mono; [apply get_safe; [apply get_byte_array_total|done]|].
    intros [[bs|] n] s2 (Hv & Hu & Hs2); split_and!; try done.
    unfold byte_array_val, byte_array_ok in *. cbn in *. by subst n.
Qed.

Lemma proto_read_ulong_buffer_safe q q' ps r s :
  serving q ps r s -> string_strip "fu" q = Some q' ->
  safe (proto_read_ulong_buffer malloc_ok) (read_post ulong_buffer_val q' ps r s) s.
Proof.
  intros Hs Hq. eapply start_safe; [done..|]. clear s Hs. intros s Hs.
  eapply step_safe; [apply get_safe; [apply get_uint32_total|done]|].
  intros n s1 Hn Hs1. destruct (n =? 0); [by apply done_safe|].
  eapply step_safe; [by apply alloc_or_exit_safe|]. intros [] s2 _ Hs2.
  apply done_safe; [|done]. split; [done|]. intros l [= <-]. by apply zlen_replicate_u32.
Qed.

Lemma proto_read_mechanism_safe q q' ps r s :
  serving q ps r s -> string_strip "M" q = Some q' ->
  safe proto_read_mechanism (read_post mechanism_val q' ps r s) s.
Proof.
  intros Hs Hq. eapply start_safe; [done..|]. clear s Hs. intros s Hs.
  eapply step_safe; [apply get_safe; [apply get_uint32_total|done]|].
  intros n s1 Hn Hs1.
  eapply step_safe; [apply get_safe; [apply get_byte_array_total|done]|].
  intros [data k] s2 Hd Hs2. by apply done_safe.
Qed.

Lemma proto_read_space_string_safe len q q' ps r s :
  serving q ps r s -> string_strip "s" q = Some q' ->
  safe (proto_read_space_string malloc_ok len)
    (read_post (fun v => exists bs, v = Some bs /\ bytes bs) q' ps r s) s.
Proof.
  intros Hs Hq. eapply start_safe; [done..|]. clear s Hs. intros s Hs.
  eapply step_safe; [apply get_safe; [apply get_byte_array_total|done]|].
  intros [data k] s1 Hd Hs1.
  eapply step_safe; [by apply alloc_or_exit_safe|]. intros [] s2 _ Hs2.
  apply safe_bind, safe_call. unfold byte_array_ok in Hd. cbn in Hd.
  assert (mem_read (default [] data) 0 k = Ok (default [] data) /\ bytes (default [] data))
    as [Hr Hb].
  { destruct data as [bs|]; cbn in *.
    - destruct Hd as (-> & ? & ?). rewrite mem_read_ok by (pose proof (zlen_nonneg bs); lia).
      by rewrite slice_full.
    - by subst k. }
  eapply wp_lift_res; [exact Hr|]. apply done_safe; [|done]. by exists (default [] data).
Qed.

(** ** Attributes *)

Lemma read_elements_safe {A} (P : A -> Prop) (rd : Call (Proc W) A) n q ps r s :
  (forall s, serving q ps r s -> safe rd (read_post P q ps r s) s) ->
  serving q ps r s ->
  safe (read_elements rd n)
    (read_post (fun l => length l = n /\ Forall P l) q ps r s) s.
Proof.
  intros Hrd. revert s. induction n as [|n IH]; intros s Hs.
  - by apply done_safe.
  - eapply step_safe; [by apply Hrd|]. intros a s1 Ha Hs1.
    eapply step_safe; [by apply IH|]. intros l s2 [Hl HP] Hs2.
    apply done_safe; [|done]. split; [simpl; by rewrite Hl|by constructor].
Qed.

Lemma read_attribute_size_safe q ps r s :
  serving q ps r s -> safe (read_attribute_size malloc_ok) (read_post attr_val q ps r s) s.
Proof.
  intros Hs. eapply step_safe; [apply get_safe; [apply get_uint32_total|done]|].
  intros t s1 Ht Hs1. eapply step_safe; [apply get_safe; [apply get_uint32_total|done]|].
  intros v s2 Hv Hs2. destruct (v =? 0); [by apply done_safe|].
  eapply step_safe; [by apply alloc_or_exit_safe|]. intros [] s3 _ Hs3.
  apply done_safe; [|done]. split; [done|]. cbn. intros bs [= <-].
  split; [by apply bytes_replicate|]. symmetry. by apply zlen_replicate_u32.
Qed.

Lemma read_attribute_safe q ps r s :
  serving q ps r s -> safe read_attribute (read_post attr_val q ps r s) s.
Proof.
  intros Hs. eapply step_safe; [apply get_safe; [apply get_uint32_total|done]|].
  intros t s1 Ht Hs1. eapply step_safe; [apply get_safe; [apply get_byte_total|done]|].
  intros valid s2 _ Hs2. destruct (_ =? 0); [by apply done_safe|].
  eapply step_safe; [apply get_safe; [apply get_uint32_total|done]|].
  intros v s3 Hv Hs3.
  eapply step_safe; [apply get_safe; [apply get_byte_array_total|done]|].
  intros [data n] s4 Hd Hs4. destruct (_ && _) eqn:E.
  { apply safe_exit; [done|apply Hs4]. }
  unfold sizeof_uint64_t, sizeof_CK_ULONG. destruct (v =? 8); cbn [andb negb];
    (apply done_safe; [|done]; split; [done|]; cbn; intros bs ->;
     unfold byte_array_ok in Hd; cbn in *; destruct Hd as (-> & ? & ?);
     apply negb_false_iff, Z.eqb_eq in E; by subst v).
Qed.

Lemma proto_read_attribute_buffer_safe q q' ps r s :
  serving q ps r s -> string_strip "fA" q = Some q' ->
  safe (proto_read_attribute_buffer malloc_ok)
    (read_post (fun v => is_Some v.1 /\ attrs_val v) q' ps r s) s.
Proof.
  intros Hs Hq. eapply start_safe; [done..|]. clear s Hs. intros s Hs.
  eapply step_safe; [apply get_safe; [apply get_uint32_total|done]|].
  intros n s1 Hn Hs1.
  eapply step_safe; [by apply alloc_or_exit_safe|]. intros [] s2 _ Hs2.
  eapply step_safe; [apply read_elements_safe; [|done]; intros; by apply read_attribute_size_safe|].
  intros l s3 [Hl HP] Hs3. apply done_safe; [|done]. split; [done|].
  split; [cbn in *; unfold zlen; rewrite Hl; lia|done].
Qed.

Lemma proto_read_attribute_array_safe q q' ps r s :
  serving q ps r s -> string_strip "aA" q = Some q' ->
  safe (proto_read_attribute_array malloc_ok) (read_post attrs_val q' ps r s) s.
Proof.
  intros Hs Hq. eapply start_safe; [done..|]. clear s Hs. intros s Hs.
  eapply step_safe; [apply get_safe; [apply get_uint32_total|done]|].
  intros n s1 Hn Hs1. destruct (Z.eqb_spec n 0) as [->|]; [by apply done_safe|].
  eapply step_safe; [by apply alloc_or_exit_safe|]. intros [] s2 _ Hs2.
  eapply step_safe; [apply read_elements_safe; [|done]; intros; by apply read_attribute_safe|].
  intros l s3 [Hl HP] Hs3. apply done_safe; [|done].
  split; [cbn in *; unfold zlen; rewrite Hl; lia|done].
Qed.
End Reading.

(** ** Writing the parts of a response *)

(** What the module leaves in its out arguments when it reports success. *)
Definition bytes_out (ret : Z) (v : option block * option Z) : Prop :=
  ret = CKR_OK -> array_arg v.1 (default 0 v.2).

Definition ulongs_out (ret : Z) (v : option (list Z) * Z) : Prop :=
  0 <= v.2 /\ (ret = CKR_OK -> forall l, v.1 = Some l -> v.2 <= zlen l).

(** The errors that come with an attribute array all the same. *)
Definition attribute_errors : list Z :=
  [CKR_ATTRIBUTE_SENSITIVE; CKR_ATTRIBUTE_TYPE_INVALID; CKR_BUFFER_TOO_SMALL; CKR_OK].

Definition attrs_out (n ret : Z) (l : option (list CK_ATTRIBUTE)) : Prop :=
  one_of ret attribute_errors = true ->
  n <= zlen (default [] l) /\ Forall attr_arg (take (Z.to_nat n) (default [] l)).

Definition text_ok (n : Z) (s : block) : Prop := bytes s /\ zlen s = n.

Record info_ok (i : CK_INFO) : Prop := {
  io_version : version_ok (i_cryptokiVersion i);
  io_manufacturer : text_ok 32 (i_manufacturerID i);
  io_description : text_ok 32 (i_libraryDescription i);
  io_library : version_ok (i_libraryVersion i);
}.

Record slot_info_ok (i : CK_SLOT_INFO) : Prop := {
  so_description : text_ok 64 (s_slotDescription i);
  so_manufacturer : text_ok 32 (s_manufacturerID i);
  so_hardware : version_ok (s_hardwareVersion i);
  so_firmware : version_ok (s_firmwareVersion i);
}.

Record token_info_ok (i : CK_TOKEN_INFO) : Prop := {
  to_label : text_ok 32 (t_label i);
  to_manufacturer : text_ok 32 (t_manufacturerID i);
  to_model : text_ok 16 (t_model i);
  to_serial : text_ok 16 (t_serialNumber i);
  to_hardware : version_ok (t_hardwareVersion i);
  to_firmware : version_ok (t_firmwareVersion i);
  to_time : text_ok 16 (t_utcTime i);
}.

(** The parts the structures are sent as. *)
Definition version_part (v : CK_VERSION) : part := PVersion (major v) (minor v).

Definition info_parts (i : CK_INFO) : list part :=
  [version_part (i_cryptokiVersion i); PSpaceString (i_manufacturerID i); PUlong (i_flags i);
   PSpaceString (i_libraryDescription i); version_part (i_libraryVersion i)].

Definition slot_info_parts (i : CK_SLOT_INFO) : list part :=
  [PSpaceString (s_slotDescription i); PSpaceString (s_manufacturerID i); PUlong (s_flags i);
   version_part (s_hardwareVersion i); version_part (s_firmwareVersion i)].

Definition token_info_parts (i : CK_TOKEN_INFO) : list part :=
  [PSpaceString (t_label i); PSpaceString (t_manufacturerID i); PSpaceString (t_model i);
   PSpaceString (t_serialNumber i); PUlong (t_flags i); PUlong (t_ulMaxSessionCount i);
   PUlong (t_ulSessionCount i); PUlong (t_ulMaxRwSessionCount i); PUlong (t_ulRwSessionCount i);
   PUlong (t_ulMaxPinLen i); PUlong (t_ulMinPinLen i); PUlong (t_ulTotalPublicMemory i);
   PUlong (t_ulFreePublicMemory i); PUlong (t_ulTotalPrivateMemory i);
   PUlong (t_ulFreePrivateMemory i); version_part (t_hardwareVersion i);
   version_part (t_firmwareVersion i); PSpaceString (t_utcTime i)].

Definition mechanism_info_parts (i : CK_MECHANISM_INFO) : list part :=
  [PUlong (ulMinKeySize i); PUlong (ulMaxKeySize i); PUlong (mi_flags i)].

Definition session_info_parts (i : CK_SESSION_INFO) : list part :=
  [PUlong (ss_slotID i); PUlong (ss_state i); PUlong (ss_flags i); PUlong (ss_ulDeviceError i)].

Lemma text_sends n s :
  text_ok n s -> 0 < n < 2147483647 ->
  sends (PSpaceString s) (gck_rpc_message_write_space_string s n).
Proof. intros [? ?] ?. by apply write_space_string_sends. Qed.

Lemma version_sends v : version_ok v -> sends (version_part v) (gck_rpc_message_write_version v).
Proof. intros [? ?]. by apply write_version_sends. Qed.

(** Proves that a list of writers sends a list of parts. *)
Ltac prove_sends :=
  apply sends_parts_all;
  repeat first [ apply Forall2_nil_2 | apply Forall2_cons_2 ];
  first [ apply write_ulong_sends
        | apply text_sends; [assumption|lia]
        | apply version_sends; assumption ].

Section Writing.
Context {W : Type}.
Context (id : Z) (sg : string).

(** Writing and calling the module never exits. *)
Context (E : Z -> Proc W -> Prop).
Abbreviation safe := (safe E).
Abbreviation serving := (@serving W id sg).

(** The return value is [ret]; if it is [CKR_OK], all went well so far. *)
Definition pending (ret : Z) (q : string) (ps : list part) (r : string) (s : Proc W) : Prop :=
  base id s /\ (ret = CKR_OK -> serving q ps r s).

Lemma serving_pending q ps r s ret : serving q ps r s -> pending ret q ps r s.
Proof. intros Hs. split; [apply Hs|done]. Qed.

(** Writing [ps'] instead of reporting [ret]: either [ret'] is [ret] and they
    are there, or there was no memory for them. *)
Definition write_post (ret : Z) (ps' : list part) q ps r' (s : Proc W) (ret' : Z)
    (s' : Proc W) : Prop :=
  unchanged s s' /\ base id s' /\
  ((ret' = ret /\ serving q (ps ++ ps') r' s') \/ ret' = PREP_ERROR).

Lemma prepared_or_wp ret ps' k q ps r r' s :
  sends_parts ps' k -> serving q ps r s -> string_strip (sigs_of ps') r = Some r' ->
  wp (prepared_or ret k) (write_post ret ps' q ps r' s) s.
Proof.
  intros Hk Hs Hr. unfold prepared_or. pose proof Hs as [[] ? ? ? ? ? ? ? Hc Hst].
  apply wp_bind, wp_zoom. eapply wp_mono; [by apply (Hk _ r r')|].
  intros ok m ([Hb Ha] & Hi & Ht & Hsg & Hok & _). apply wp_ret.
  split; [by apply set_resp_unchanged|].
  split; [split; try done; cbn; by rewrite Ha|]. destruct ok; [left|by right]. split; [done|].
  destruct (Hok eq_refl) as (Hcl & Hsr & Hcon).
  split; try done; cbn; try congruence; [split; try done; cbn; by rewrite Ha|..].
  - rewrite Hcon, Hc, enc_parts_app. by rewrite app_assoc.
  - rewrite sigs_of_app. apply string_strip_app2. by exists r.
Qed.

Lemma write_pending ret ps' q ps r' s ret' s' :
  write_post ret ps' q ps r' s ret' s' -> pending ret' q (ps ++ ps') r' s'.
Proof. intros (_ & Hb & [[_ Hs]| ->]); [by apply serving_pending|by split]. Qed.

(** A macro that writes [ps'] if [ret] is [CKR_OK] and else passes it on. *)
Definition out_post (ret : Z) (ps' : list part) q ps r' (s : Proc W) (ret' : Z)
    (s' : Proc W) : Prop :=
  unchanged s s' /\ pending ret' q (ps ++ ps') r' s'
  /\ (ret <> CKR_OK -> ret' = ret) /\ (ret' = ret \/ ret' = PREP_ERROR).

Lemma out_if_ok_safe ps' k ret q ps r r' s :
  (ret = CKR_OK -> sends_parts ps' k) -> pending ret q ps r s ->
  string_strip (sigs_of ps') r = Some r' ->
  safe (out_if_ok (prepared_or CKR_OK k) ret) (out_post ret ps' q ps r' s) s.
Proof.
  intros Hk [Hb Hp] Hr. unfold out_if_ok. destruct (Z.eqb_spec ret CKR_OK) as [->|Hne].
  - apply safe_call. eapply wp_mono; [eapply prepared_or_wp; [by apply Hk|by apply Hp|done]|].
    intros ret' s' Hw. pose proof Hw as (Hu & _ & Hc). split; [done|].
    split; [by eapply write_pending|]. split; [done|]. destruct Hc as [[? _]|?]; auto.
  - apply safe_ret. split_and!; try done; try (by left); by split.
Qed.

Lemma OUT_ULONG_safe v ret q ps r r' s :
  pending ret q ps r s -> string_strip "u" r = Some r' ->
  safe (OUT_ULONG v ret) (out_post ret [PUlong v] q ps r' s) s.
Proof.
  intros [Hb Hp] Hr. unfold OUT_ULONG. destruct (Z.eqb_spec ret CKR_OK) as [->|Hne].
  - apply safe_call. eapply wp_mono.
    { eapply (prepared_or_wp _ [PUlong v]); [|by apply Hp|done].
      apply sends_parts_one, write_ulong_sends. }
    intros ret' s' Hw. pose proof Hw as (Hu & _ & Hc). split; [done|].
    split; [by eapply write_pending|]. split; [done|]. destruct Hc as [[? _]|?]; auto.
  - apply safe_ret. split_and!; try done; try (by left); by split.
Qed.

Lemma OUT_INFO_safe i ret q ps r r' s :
  (ret = CKR_OK -> info_ok i) -> pending ret q ps r s ->
  string_strip (sigs_of (info_parts i)) r = Some r' ->
  safe (OUT_INFO i ret) (out_post ret (info_parts i) q ps r' s) s.
Proof.
  intros Hi Hp Hr. apply (out_if_ok_safe _ _ _ _ _ r); [|done..]. intros H. destruct (Hi H). prove_sends.
Qed.

Lemma OUT_SLOT_INFO_safe i ret q ps r r' s :
  (ret = CKR_OK -> slot_info_ok i) -> pending ret q ps r s ->
  string_strip (sigs_of (slot_info_parts i)) r = Some r' ->
  safe (OUT_SLOT_INFO i ret) (out_post ret (slot_info_parts i) q ps r' s) s.
Proof.
  intros Hi Hp Hr. apply (out_if_ok_safe _ _ _ _ _ r); [|done..]. intros H. destruct (Hi H). prove_sends.
Qed.

Lemma OUT_TOKEN_INFO_safe i ret q ps r r' s :
  (ret = CKR_OK -> token_info_ok i) -> pending ret q ps r s ->
  string_strip (sigs_of (token_info_parts i)) r = Some r' ->
  safe (OUT_TOKEN_INFO i ret) (out_post ret (token_info_parts i) q ps r' s) s.
Proof.
  intros Hi Hp Hr. apply (out_if_ok_safe _ _ _ _ _ r); [|done..]. intros H. destruct (Hi H). prove_sends.
Qed.

Lemma OUT_MECHANISM_INFO_safe i ret q ps r r' s :
  pending ret q ps r s -> string_strip (sigs_of (mechanism_info_parts i)) r = Some r' ->
  safe (OUT_MECHANISM_INFO i ret) (out_post ret (mechanism_info_parts i) q ps r' s) s.
Proof. intros Hp Hr. apply (out_if_ok_safe _ _ _ _ _ r); [|done..]. intros _. prove_sends. Qed.

Lemma OUT_SESSION_INFO_safe i ret q ps r r' s :
  pending ret q ps r s -> string_strip (sigs_of (session_info_parts i)) r = Some r' ->
  safe (OUT_SESSION_INFO i ret) (out_post ret (session_info_parts i) q ps r' s) s.
Proof. intros Hp Hr. apply (out_if_ok_safe _ _ _ _ _ r); [|done..]. intros _. prove_sends. Qed.

(** The array macros also turn [CKR_BUFFER_TOO_SMALL] into a length on its own. *)
Definition array_post (ret : Z) (p too_small : part) q ps r' (s : Proc W) (ret' : Z)
    (s' : Proc W) : Prop :=
  unchanged s s' /\ base id s' /\
  ((ret = CKR_OK /\ ret' = CKR_OK /\ serving q (ps ++ [p]) r' s')
   \/ (ret = CKR_BUFFER_TOO_SMALL /\ ret' = CKR_OK /\ serving q (ps ++ [too_small]) r' s')
   \/ (ret' <> CKR_OK /\ (ret' = ret \/ ret' = PREP_ERROR))).

Lemma OUT_BYTE_ARRAY_safe arr n ret q ps r r' s :
  bytes_out ret (arr, n) -> serving q ps r s -> string_strip "ay" r = Some r' ->
  safe (OUT_BYTE_ARRAY arr n ret)
    (array_post ret (PBytes arr (default 0 n)) (PByteArray None (default 0 n)) q ps r' s) s.
Proof.
  intros Ho Hs Hr. unfold OUT_BYTE_ARRAY, proto_write_byte_array. apply safe_call.
  destruct (Z.eqb_spec ret CKR_BUFFER_TOO_SMALL) as [->|];
    [|destruct (Z.eqb_spec ret CKR_OK) as [->|]].
  - eapply wp_mono; [eapply (prepared_or_wp _ [PByteArray None (default 0 n)]); [|done..]|].
    { apply sends_parts_one. by apply (write_byte_array_sends None). }
    intros ret' s' (Hu & Hb & [[-> Hs']| ->]); split_and!; auto 10.
  - eapply wp_mono; [eapply (prepared_or_wp _ [PBytes arr (default 0 n)]); [|done..]|].
    { apply sends_parts_one, write_byte_array_sends. by apply Ho. }
    intros ret' s' (Hu & Hb & [[-> Hs']| ->]); split_and!; auto 10.
  - apply wp_ret. split; [done|]. split; [apply Hs|]. right; right. auto.
Qed.

Definition ulongs_part (l : option (list Z)) (n : Z) : part :=
  PUlongArray (take (Z.to_nat n) <$> l) n.

Lemma OUT_ULONG_ARRAY_safe arr n ret q ps r r' s :
  ulongs_out ret (arr, n) -> serving q ps r s -> string_strip "au" r = Some r' ->
  safe (OUT_ULONG_ARRAY arr n ret)
    (array_post ret (ulongs_part arr n) (ulongs_part None n) q ps r' s) s.
Proof.
  intros [Hn Ho] Hs Hr. unfold OUT_ULONG_ARRAY, proto_write_ulong_array. apply safe_call.
  cbn in Hn, Ho.
  destruct (Z.eqb_spec ret CKR_BUFFER_TOO_SMALL) as [->|];
    [|destruct (Z.eqb_spec ret CKR_OK) as [->|]].
  - eapply wp_mono; [eapply (prepared_or_wp _ [ulongs_part None n]); [|done..]|].
    { apply sends_parts_one. by apply (write_ulong_array_sends None). }
    intros ret' s' (Hu & Hb & [[-> Hs']| ->]); split_and!; auto 10.
  - eapply wp_mono; [eapply (prepared_or_wp _ [ulongs_part arr n]); [|done..]|].
    { apply sends_parts_one. apply write_ulong_array_sends; [done|]. by apply Ho. }
    intros ret' s' (Hu & Hb & [[-> Hs']| ->]); split_and!; auto 10.
  - apply wp_ret. split; [done|]. split; [apply Hs|]. right; right. auto.
Qed.

Definition attrs_part (l : option (list CK_ATTRIBUTE)) (n : Z) : part :=
  PAttrArray (map attr_value (take (Z.to_nat n) (default [] l))).

Lemma OUT_ATTRIBUTE_ARRAY_safe arr n ret q ps r r' s :
  attrs_out n ret arr -> 0 <= n -> serving q ps r s -> string_strip "aAu" r = Some r' ->
  safe (OUT_ATTRIBUTE_ARRAY arr n ret) (fun ret' s' =>
    unchanged s s' /\ base id s' /\
    ((one_of ret attribute_errors = true /\ ret' = CKR_OK
      /\ serving q (ps ++ [attrs_part arr n; PUlong ret]) r' s')
     \/ (ret' <> CKR_OK /\ (ret' = ret \/ ret' = PREP_ERROR)))) s.
Proof.
  intros Ho Hn Hs Hr. unfold OUT_ATTRIBUTE_ARRAY, proto_write_attribute_array.
  apply safe_call. fold attribute_errors. destruct (one_of ret attribute_errors) eqn:Err.
  - eapply wp_mono; [eapply (prepared_or_wp _ [attrs_part arr n; PUlong ret]); [|done..]|].
    { destruct (Ho Err). apply sends_parts_all. constructor; [|constructor; [|constructor]].
      - by apply write_attribute_array_sends.
      - apply write_ulong_sends. }
    intros ret' s' (Hu & Hb & [[-> Hs']| ->]); split_and!; auto 10.
  - apply wp_ret. split; [done|]. split; [apply Hs|]. right. split; [|by left].
    intros ->. vm_compute in Err. done.
Qed.

(** ** Calling the module *)

Lemma PROCESS_CALL_safe {A} (m : mfun W A) ps r s :
  serving "" ps r s ->
  safe (PROCESS_CALL m) (fun x s' => exists w, m (p_module s) = (x, w)
    /\ s' = set_module w s /\ serving "" ps r s') s.
Proof.
  intros Hs. unfold PROCESS_CALL. apply safe_bind, safe_call, wp_get.
  apply safe_bind, safe_call, wp_assert.
  { destruct Hs as [? ? [_ Hsv] ? ? ? ? ? ? ?]. unfold gck_rpc_message_is_verified. by rewrite Hsv. }
  apply safe_call. unfold run_module, wp. destruct (m (p_module s)) as [x w].
  exists w. split_and!; try done. destruct Hs as [[] ? ? ? ? ? ? ? ? ?]. by split.
Qed.

Lemma BEGIN_CALL_safe {F} (f : option F) (Q : F -> Proc W -> Prop) s :
  base id s -> (forall g, f = Some g -> Q g s) ->
  DispatchProto.safe (failing (@base W id)) (BEGIN_CALL f) Q s.
Proof.
  intros Hb HQ. unfold BEGIN_CALL. destruct f as [g|]; [by apply safe_ret, HQ|].
  by apply safe_exit.
Qed.

(** ** The end of a call *)

(** A call that reports success has filled in its whole response. *)
Definition replied (ret : Z) (s : Proc W) : Prop :=
  base id s /\ (ret = CKR_OK -> exists q ps, serving q ps EmptyString s).

Lemma END_CALL_wp (body : Call (Proc W) Z) s :
  DispatchProto.safe (failing (@base W id)) body replied s -> wp (END_CALL body) replied s.
Proof.
  intros Hb. unfold END_CALL. apply wp_bind. unfold DispatchProto.safe in Hb.
  eapply wp_mono; [exact Hb|]. intros [ret|ret] s'; [done|].
  intros [? ?]. apply wp_ret. by split.
Qed.

Lemma pending_replied ret q ps s : pending ret q ps EmptyString s -> replied ret s.
Proof. intros [Hb Hs]. split; [done|]. intros H. exists q, ps. by apply Hs. Qed.

Lemma array_replied ret p p' q ps s ret' s' :
  array_post ret p p' q ps EmptyString s ret' s' -> replied ret' s'.
Proof.
  intros (_ & Hb & H). split; [done|]. intros ->.
  destruct H as [(_ & _ & ?)|[(_ & _ & ?)|[? _]]]; [eauto..|done].
Qed.
End Writing.
