(* ===== verification/Dispatch.v ===== *)
(** gck-rpc-dispatch.c, second part: the calls.  One definition per [rpc_]
    function, written with the macros of DispatchProto, and [dispatch_call]. *)
From S2P Require Import Prelude EggBuffer Pkcs11 RpcUtil Calls Message DispatchProto.

(** pkcs11i.h: get an actual slot id from a virtual slot *)
Definition CK_GNOME_APPARTMENT_SLOT (virt : Z) : Z := Z.land virt 1023.

(** Calling through a function pointer. *)
Definition deref {F} (f : option F) : res F :=
  match f with Some f => Ok f | None => Crash NullDereference end.

Section Calls.
Context {W : Type}.
(** The module the calls are dispatched to. *)
Context (pkcs11_module : CK_FUNCTION_LIST W).
Context (malloc_ok : list Z -> Z -> bool).
(** Whether [shutdown] of a socket succeeds. *)
Context (shutdown_ok : Z -> bool).

Abbreviation Reply := (ST (Proc W) Z).

Definition rpc_C_Initialize : Reply :=
  r ← (proto_read_byte_array : ST (Proc W) _);
  match r with
  | inl (handshake, n_handshake) =>
      (* Check to make sure the header matches *)
      let ret :=
        if negb (n_handshake =? GCK_RPC_HANDSHAKE_LEN) then CKR_GENERAL_ERROR else
        match handshake with
        | None => CKR_GENERAL_ERROR
        | Some bs => if bool_decide (bs = string_bytes GCK_RPC_HANDSHAKE)
                     then CKR_OK else CKR_GENERAL_ERROR
        end in
      s ← get_st;
      assert_ (gck_rpc_message_is_verified (req s));;
      mret ret
  | inr ret => mret ret
  end.

(** [cs->sessions[i].id = 0;] *)
Definition clear_session (i : nat) : ST (Proc W) unit :=
  modify (fun s => set_sessions
    (alter (fun st => mkSessionState 0 (session_slot st)) i (sessions s)) s).

(** [cs->sessions[i]] *)
Definition session_at (i : nat) : ST (Proc W) SessionState := fun s =>
  match sessions s !! i with
  | Some st => Ok (st, s)
  | None => Crash OutOfBounds
  end.

(** The first loop of [rpc_C_Finalize], from index [i] on, [n] to go. *)
Fixpoint finalize_sessions (n i : nat) (ret : Z) : Reply :=
  match n with
  | O => mret ret
  | S n =>
      st ← session_at i;
      if session_id st =? 0 then finalize_sessions n (S i) ret else
      f ← lift_res (deref (C_CloseSession pkcs11_module));
      '(ret, _) ← run_module (f (session_id st));
      if negb (ret =? CKR_OK) then mret ret else
      clear_session i;;
      finalize_sessions n (S i) ret
  end.

(** Make the [C_WaitForSlotEvent] call of another dispatcher return. *)
Definition interrupt (cs : CallState) (c : OtherDispatcher) : OtherDispatcher :=
  if negb (od_appid c =? cs_appid cs) then c else
  if od_sock c =? cs_sock cs then c else
  match od_req c with
  | Some m =>
      if (call_id m =? GCK_RPC_CALL_C_WaitForSlotEvent) && negb (od_sock c =? -1)
         && shutdown_ok (od_sock c)
      then mkOther (od_appid c) (-1) (od_req c) else c
  | None => c
  end.

Definition rpc_C_Finalize : Reply :=
  (* Close all sessions that have been opened by this thread, regardless of slot *)
  ret ← finalize_sessions PKCS11PROXY_MAX_SESSION_COUNT 0 CKR_OK;
  (* Make all C_WaitForSlotEvent calls return *)
  modify (fun s => set_dispatchers (map (interrupt (p_cs s)) (p_dispatchers s)) s);;
  mret ret.

Definition rpc_C_GetInfo : Reply := END_CALL (
  _func ← BEGIN_CALL (C_GetInfo pkcs11_module);
  '(_ret, info) ← PROCESS_CALL _func;
  _ret ← OUT_INFO info _ret;
  mret _ret).

Definition rpc_C_GetSlotList : Reply := END_CALL (
  _func ← BEGIN_CALL (C_GetSlotList pkcs11_module);
  token_present ← IN_BYTE;
  '(slot_list, count) ← IN_ULONG_BUFFER malloc_ok;
  '(_ret, (slot_list, count)) ← PROCESS_CALL (_func token_present slot_list count);
  _ret ← OUT_ULONG_ARRAY slot_list count _ret;
  mret _ret).

Definition rpc_C_GetSlotInfo : Reply := END_CALL (
  _func ← BEGIN_CALL (C_GetSlotInfo pkcs11_module);
  slot_id ← IN_ULONG;
  '(_ret, info) ← PROCESS_CALL (_func slot_id);
  _ret ← OUT_SLOT_INFO info _ret;
  mret _ret).

Definition rpc_C_GetTokenInfo : Reply := END_CALL (
  _func ← BEGIN_CALL (C_GetTokenInfo pkcs11_module);
  slot_id ← IN_ULONG;
  '(_ret, info) ← PROCESS_CALL (_func slot_id);
  _ret ← OUT_TOKEN_INFO info _ret;
  mret _ret).

Definition rpc_C_GetMechanismList : Reply := END_CALL (
  _func ← BEGIN_CALL (C_GetMechanismList pkcs11_module);
  slot_id ← IN_ULONG;
  '(mechanism_list, count) ← IN_ULONG_BUFFER malloc_ok;
  '(_ret, (mechanism_list, count)) ←
    PROCESS_CALL (_func slot_id mechanism_list count);
  _ret ← OUT_ULONG_ARRAY mechanism_list count _ret;
  mret _ret).

Definition rpc_C_GetMechanismInfo : Reply := END_CALL (
  _func ← BEGIN_CALL (C_GetMechanismInfo pkcs11_module);
  slot_id ← IN_ULONG;
  type ← IN_ULONG;
  '(_ret, info) ← PROCESS_CALL (_func slot_id type);
  _ret ← OUT_MECHANISM_INFO info _ret;
  mret _ret).

Definition rpc_C_InitToken : Reply := END_CALL (
  _func ← BEGIN_CALL (C_InitToken pkcs11_module);
  slot_id ← IN_ULONG;
  '(pin, pin_len) ← IN_BYTE_ARRAY;
  label ← IN_SPACE_STRING malloc_ok 32;
  '(_ret, _) ← PROCESS_CALL (_func slot_id pin pin_len label);
  mret _ret).

Definition rpc_C_WaitForSlotEvent : Reply := END_CALL (
  _func ← BEGIN_CALL (C_WaitForSlotEvent pkcs11_module);
  flags ← IN_ULONG;
  '(_ret, slot_id) ← PROCESS_CALL (_func flags);
  let slot_id := CK_GNOME_APPARTMENT_SLOT slot_id in
  _ret ← OUT_ULONG slot_id _ret;
  mret _ret).

(** Remember this thread opened this session: the loop over the table, [None]
    when no position is free. *)
Fixpoint store_session (session slot_id : Z) (l : list SessionState)
    : option (list SessionState) :=
  match l with
  | [] => None
  | st :: l =>
      if session_id st =? 0 then Some (mkSessionState session slot_id :: l)
      else cons st <$> store_session session slot_id l
  end.

Definition rpc_C_OpenSession : Reply := END_CALL (
  _func ← BEGIN_CALL (C_OpenSession pkcs11_module);
  slot_id ← IN_ULONG;
  flags ← IN_ULONG;
  '(_ret, session) ← PROCESS_CALL (_func slot_id flags);
  (if _ret =? CKR_OK then
     s ← call get_st;
     match store_session session slot_id (sessions s) with
     | Some l => call (modify (set_sessions l))
     | None => exit CKR_SESSION_COUNT
     end
   else mret tt);;
  _ret ← OUT_ULONG session _ret;
  mret _ret).

(** Remove this session from this threads list; an unknown one is ignored. *)
Fixpoint remove_session (session : Z) (l : list SessionState) : list SessionState :=
  match l with
  | [] => []
  | st :: l =>
      if session_id st =? session then mkSessionState 0 (session_slot st) :: l
      else st :: remove_session session l
  end.

Definition rpc_C_CloseSession : Reply := END_CALL (
  _func ← BEGIN_CALL (C_CloseSession pkcs11_module);
  session ← IN_ULONG;
  '(_ret, _) ← PROCESS_CALL (_func session);
  (if _ret =? CKR_OK then
     call (modify (fun s => set_sessions (remove_session session (sessions s)) s))
   else mret tt);;
  mret _ret).

(** The loop of [rpc_C_CloseAllSessions], from index [i] on, [n] to go. *)
Fixpoint close_sessions (slot_id : Z) (n i : nat) (ret : Z) : Call (Proc W) Z :=
  match n with
  | O => mret ret
  | S n =>
      st ← call (session_at i);
      if negb (session_id st =? 0) && (session_slot st =? slot_id) then
        f ← call (lift_res (deref (C_CloseSession pkcs11_module)));
        '(_ret, _) ← call (run_module (f (session_id st)));
        (if one_of _ret [CKR_OK; CKR_SESSION_CLOSED; CKR_SESSION_HANDLE_INVALID]
         then call (clear_session i) else mret tt);;
        if negb (_ret =? CKR_OK) then exit _ret
        else close_sessions slot_id n (S i) _ret
      else close_sessions slot_id n (S i) ret
  end.

Definition rpc_C_CloseAllSessions : Reply := END_CALL (
  _func ← BEGIN_CALL (C_CloseAllSessions pkcs11_module);
  slot_id ← IN_ULONG;
  (* To emulate real C_CloseAllSessions we check if slot_id is valid. *)
  f ← call (lift_res (deref (C_GetSlotInfo pkcs11_module)));
  '(_ret, _) ← call (run_module (f slot_id));
  if negb (_ret =? CKR_OK) then exit _ret else
  close_sessions slot_id PKCS11PROXY_MAX_SESSION_COUNT 0 _ret).

Definition rpc_C_GetFunctionStatus : Reply := END_CALL (
  _func ← BEGIN_CALL (C_GetFunctionStatus pkcs11_module);
  session ← IN_ULONG;
  '(_ret, _) ← PROCESS_CALL (_func session);
  mret _ret).

Definition rpc_C_CancelFunction : Reply := END_CALL (
  _func ← BEGIN_CALL (C_CancelFunction pkcs11_module);
  session ← IN_ULONG;
  '(_ret, _) ← PROCESS_CALL (_func session);
  mret _ret).

Definition rpc_C_GetSessionInfo : Reply := END_CALL (
  _func ← BEGIN_CALL (C_GetSessionInfo pkcs11_module);
  session ← IN_ULONG;
  '(_ret, info) ← PROCESS_CALL (_func session);
  let info := mkSessionInfo (CK_GNOME_APPARTMENT_SLOT (ss_slotID info)) (ss_state info)
                (ss_flags info) (ss_ulDeviceError info) in
  _ret ← OUT_SESSION_INFO info _ret;
  mret _ret).

Definition rpc_C_InitPIN : Reply := END_CALL (
  _func ← BEGIN_CALL (C_InitPIN pkcs11_module);
  session ← IN_ULONG;
  '(pin, pin_len) ← IN_BYTE_ARRAY;
  '(_ret, _) ← PROCESS_CALL (_func session pin pin_len);
  mret _ret).

Definition rpc_C_SetPIN : Reply := END_CALL (
  _func ← BEGIN_CALL (C_SetPIN pkcs11_module);
  session ← IN_ULONG;
  '(old_pin, old_len) ← IN_BYTE_ARRAY;
  '(new_pin, new_len) ← IN_BYTE_ARRAY;
  '(_ret, _) ← PROCESS_CALL (_func session old_pin old_len new_pin new_len);
  mret _ret).

Definition rpc_C_GetOperationState : Reply := END_CALL (
  _func ← BEGIN_CALL (C_GetOperationState pkcs11_module);
  session ← IN_ULONG;
  '(operation_state, operation_state_len) ← IN_BYTE_BUFFER malloc_ok;
  '(_ret, (operation_state, operation_state_len)) ←
    PROCESS_CALL (_func session operation_state operation_state_len);
  _ret ← OUT_BYTE_ARRAY operation_state operation_state_len _ret;
  mret _ret).

Definition rpc_C_SetOperationState : Reply := END_CALL (
  _func ← BEGIN_CALL (C_SetOperationState pkcs11_module);
  session ← IN_ULONG;
  '(operation_state, operation_state_len) ← IN_BYTE_ARRAY;
  encryption_key ← IN_ULONG;
  authentication_key ← IN_ULONG;
  '(_ret, _) ←
    PROCESS_CALL (_func session operation_state operation_state_len encryption_key authentication_key);
  mret _ret).

Definition rpc_C_Login : Reply := END_CALL (
  _func ← BEGIN_CALL (C_Login pkcs11_module);
  session ← IN_ULONG;
  user_type ← IN_ULONG;
  '(pin, pin_len) ← IN_BYTE_ARRAY;
  '(_ret, _) ← PROCESS_CALL (_func session user_type pin pin_len);
  mret _ret).

Definition rpc_C_Logout : Reply := END_CALL (
  _func ← BEGIN_CALL (C_Logout pkcs11_module);
  session ← IN_ULONG;
  '(_ret, _) ← PROCESS_CALL (_func session);
  mret _ret).

Definition rpc_C_CreateObject : Reply := END_CALL (
  _func ← BEGIN_CALL (C_CreateObject pkcs11_module);
  session ← IN_ULONG;
  '(template, count) ← IN_ATTRIBUTE_ARRAY malloc_ok;
  '(_ret, new_object) ← PROCESS_CALL (_func session template count);
  _ret ← OUT_ULONG new_object _ret;
  mret _ret).

Definition rpc_C_CopyObject : Reply := END_CALL (
  _func ← BEGIN_CALL (C_CopyObject pkcs11_module);
  session ← IN_ULONG;
  object ← IN_ULONG;
  '(template, count) ← IN_ATTRIBUTE_ARRAY malloc_ok;
  '(_ret, new_object) ← PROCESS_CALL (_func session object template count);
  _ret ← OUT_ULONG new_object _ret;
  mret _ret).

Definition rpc_C_DestroyObject : Reply := END_CALL (
  _func ← BEGIN_CALL (C_DestroyObject pkcs11_module);
  session ← IN_ULONG;
  object ← IN_ULONG;
  '(_ret, _) ← PROCESS_CALL (_func session object);
  mret _ret).

Definition rpc_C_GetObjectSize : Reply := END_CALL (
  _func ← BEGIN_CALL (C_GetObjectSize pkcs11_module);
  session ← IN_ULONG;
  object ← IN_ULONG;
  '(_ret, size) ← PROCESS_CALL (_func session object);
  _ret ← OUT_ULONG size _ret;
  mret _ret).

Definition rpc_C_GetAttributeValue : Reply := END_CALL (
  _func ← BEGIN_CALL (C_GetAttributeValue pkcs11_module);
  session ← IN_ULONG;
  object ← IN_ULONG;
  '(template, count) ← IN_ATTRIBUTE_BUFFER malloc_ok;
  '(_ret, template) ← PROCESS_CALL (_func session object template count);
  _ret ← OUT_ATTRIBUTE_ARRAY template count _ret;
  mret _ret).

Definition rpc_C_SetAttributeValue : Reply := END_CALL (
  _func ← BEGIN_CALL (C_SetAttributeValue pkcs11_module);
  session ← IN_ULONG;
  object ← IN_ULONG;
  '(template, count) ← IN_ATTRIBUTE_ARRAY malloc_ok;
  '(_ret, _) ← PROCESS_CALL (_func session object template count);
  mret _ret).

Definition rpc_C_FindObjectsInit : Reply := END_CALL (
  _func ← BEGIN_CALL (C_FindObjectsInit pkcs11_module);
  session ← IN_ULONG;
  '(template, count) ← IN_ATTRIBUTE_ARRAY malloc_ok;
  '(_ret, _) ← PROCESS_CALL (_func session template count);
  mret _ret).

Definition rpc_C_FindObjects : Reply := END_CALL (
  _func ← BEGIN_CALL (C_FindObjects pkcs11_module);
  session ← IN_ULONG;
  '(objects, max_object_count) ← IN_ULONG_BUFFER malloc_ok;
  '(_ret, (objects, object_count)) ←
    PROCESS_CALL (_func session objects max_object_count);
  _ret ← OUT_ULONG_ARRAY objects object_count _ret;
  mret _ret).

Definition rpc_C_FindObjectsFinal : Reply := END_CALL (
  _func ← BEGIN_CALL (C_FindObjectsFinal pkcs11_module);
  session ← IN_ULONG;
  '(_ret, _) ← PROCESS_CALL (_func session);
  mret _ret).

Definition rpc_C_EncryptInit : Reply := END_CALL (
  _func ← BEGIN_CALL (C_EncryptInit pkcs11_module);
  session ← IN_ULONG;
  mechanism ← IN_MECHANISM;
  key ← IN_ULONG;
  '(_ret, _) ← PROCESS_CALL (_func session mechanism key);
  mret _ret).

Definition rpc_C_Encrypt : Reply := END_CALL (
  _func ← BEGIN_CALL (C_Encrypt pkcs11_module);
  session ← IN_ULONG;
  '(data, data_len) ← IN_BYTE_ARRAY;
  '(encrypted_data, encrypted_data_len) ← IN_BYTE_BUFFER malloc_ok;
  '(_ret, (encrypted_data, encrypted_data_len)) ←
    PROCESS_CALL (_func session data data_len encrypted_data encrypted_data_len);
  _ret ← OUT_BYTE_ARRAY encrypted_data encrypted_data_len _ret;
  mret _ret).

Definition rpc_C_EncryptUpdate : Reply := END_CALL (
  _func ← BEGIN_CALL (C_EncryptUpdate pkcs11_module);
  session ← IN_ULONG;
  '(part, part_len) ← IN_BYTE_ARRAY;
  '(encrypted_part, encrypted_part_len) ← IN_BYTE_BUFFER malloc_ok;
  '(_ret, (encrypted_part, encrypted_part_len)) ←
    PROCESS_CALL (_func session part part_len encrypted_part encrypted_part_len);
  _ret ← OUT_BYTE_ARRAY encrypted_part encrypted_part_len _ret;
  mret _ret).

Definition rpc_C_EncryptFinal : Reply := END_CALL (
  _func ← BEGIN_CALL (C_EncryptFinal pkcs11_module);
  session ← IN_ULONG;
  '(last_encrypted_part, last_encrypted_part_len) ← IN_BYTE_BUFFER malloc_ok;
  '(_ret, (last_encrypted_part, last_encrypted_part_len)) ←
    PROCESS_CALL (_func session last_encrypted_part last_encrypted_part_len);
  _ret ← OUT_BYTE_ARRAY last_encrypted_part last_encrypted_part_len _ret;
  mret _ret).

Definition rpc_C_DecryptInit : Reply := END_CALL (
  _func ← BEGIN_CALL (C_DecryptInit pkcs11_module);
  session ← IN_ULONG;
  mechanism ← IN_MECHANISM;
  key ← IN_ULONG;
  '(_ret, _) ← PROCESS_CALL (_func session mechanism key);
  mret _ret).

Definition rpc_C_Decrypt : Reply := END_CALL (
  _func ← BEGIN_CALL (C_Decrypt pkcs11_module);
  session ← IN_ULONG;
  '(encrypted_data, encrypted_data_len) ← IN_BYTE_ARRAY;
  '(data, data_len) ← IN_BYTE_BUFFER malloc_ok;
  '(_ret, (data, data_len)) ←
    PROCESS_CALL (_func session encrypted_data encrypted_data_len data data_len);
  _ret ← OUT_BYTE_ARRAY data data_len _ret;
  mret _ret).

Definition rpc_C_DecryptUpdate : Reply := END_CALL (
  _func ← BEGIN_CALL (C_DecryptUpdate pkcs11_module);
  session ← IN_ULONG;
  '(encrypted_part, encrypted_part_len) ← IN_BYTE_ARRAY;
  '(part, part_len) ← IN_BYTE_BUFFER malloc_ok;
  '(_ret, (part, part_len)) ←
    PROCESS_CALL (_func session encrypted_part encrypted_part_len part part_len);
  _ret ← OUT_BYTE_ARRAY part part_len _ret;
  mret _ret).

Definition rpc_C_DecryptFinal : Reply := END_CALL (
  _func ← BEGIN_CALL (C_DecryptFinal pkcs11_module);
  session ← IN_ULONG;
  '(last_part, last_part_len) ← IN_BYTE_BUFFER malloc_ok;
  '(_ret, (last_part, last_part_len)) ←
    PROCESS_CALL (_func session last_part last_part_len);
  _ret ← OUT_BYTE_ARRAY last_part last_part_len _ret;
  mret _ret).

Definition rpc_C_DigestInit : Reply := END_CALL (
  _func ← BEGIN_CALL (C_DigestInit pkcs11_module);
  session ← IN_ULONG;
  mechanism ← IN_MECHANISM;
  '(_ret, _) ← PROCESS_CALL (_func session mechanism);
  mret _ret).

Definition rpc_C_Digest : Reply := END_CALL (
  _func ← BEGIN_CALL (C_Digest pkcs11_module);
  session ← IN_ULONG;
  '(data, data_len) ← IN_BYTE_ARRAY;
  '(digest, digest_len) ← IN_BYTE_BUFFER malloc_ok;
  '(_ret, (digest, digest_len)) ←
    PROCESS_CALL (_func session data data_len digest digest_len);
  _ret ← OUT_BYTE_ARRAY digest digest_len _ret;
  mret _ret).

Definition rpc_C_DigestUpdate : Reply := END_CALL (
  _func ← BEGIN_CALL (C_DigestUpdate pkcs11_module);
  session ← IN_ULONG;
  '(part, part_len) ← IN_BYTE_ARRAY;
  '(_ret, _) ← PROCESS_CALL (_func session part part_len);
  mret _ret).

Definition rpc_C_DigestKey : Reply := END_CALL (
  _func ← BEGIN_CALL (C_DigestKey pkcs11_module);
  session ← IN_ULONG;
  key ← IN_ULONG;
  '(_ret, _) ← PROCESS_CALL (_func session key);
  mret _ret).

Definition rpc_C_DigestFinal : Reply := END_CALL (
  _func ← BEGIN_CALL (C_DigestFinal pkcs11_module);
  session ← IN_ULONG;
  '(digest, digest_len) ← IN_BYTE_BUFFER malloc_ok;
  '(_ret, (digest, digest_len)) ← PROCESS_CALL (_func session digest digest_len);
  _ret ← OUT_BYTE_ARRAY digest digest_len _ret;
  mret _ret).

Definition rpc_C_SignInit : Reply := END_CALL (
  _func ← BEGIN_CALL (C_SignInit pkcs11_module);
  session ← IN_ULONG;
  mechanism ← IN_MECHANISM;
  key ← IN_ULONG;
  '(_ret, _) ← PROCESS_CALL (_func session mechanism key);
  mret _ret).

Definition rpc_C_Sign : Reply := END_CALL (
  _func ← BEGIN_CALL (C_Sign pkcs11_module);
  session ← IN_ULONG;
  '(part, part_len) ← IN_BYTE_ARRAY;
  '(signature, signature_len) ← IN_BYTE_BUFFER malloc_ok;
  '(_ret, (signature, signature_len)) ←
    PROCESS_CALL (_func session part part_len signature signature_len);
  _ret ← OUT_BYTE_ARRAY signature signature_len _ret;
  mret _ret).

Definition rpc_C_SignUpdate : Reply := END_CALL (
  _func ← BEGIN_CALL (C_SignUpdate pkcs11_module);
  session ← IN_ULONG;
  '(part, part_len) ← IN_BYTE_ARRAY;
  '(_ret, _) ← PROCESS_CALL (_func session part part_len);
  mret _ret).

Definition rpc_C_SignFinal : Reply := END_CALL (
  _func ← BEGIN_CALL (C_SignFinal pkcs11_module);
  session ← IN_ULONG;
  '(signature, signature_len) ← IN_BYTE_BUFFER malloc_ok;
  '(_ret, (signature, signature_len)) ←
    PROCESS_CALL (_func session signature signature_len);
  _ret ← OUT_BYTE_ARRAY signature signature_len _ret;
  mret _ret).

Definition rpc_C_SignRecoverInit : Reply := END_CALL (
  _func ← BEGIN_CALL (C_SignRecoverInit pkcs11_module);
  session ← IN_ULONG;
  mechanism ← IN_MECHANISM;
  key ← IN_ULONG;
  '(_ret, _) ← PROCESS_CALL (_func session mechanism key);
  mret _ret).

Definition rpc_C_SignRecover : Reply := END_CALL (
  _func ← BEGIN_CALL (C_SignRecover pkcs11_module);
  session ← IN_ULONG;
  '(data, data_len) ← IN_BYTE_ARRAY;
  '(signature, signature_len) ← IN_BYTE_BUFFER malloc_ok;
  '(_ret, (signature, signature_len)) ←
    PROCESS_CALL (_func session data data_len signature signature_len);
  _ret ← OUT_BYTE_ARRAY signature signature_len _ret;
  mret _ret).

Definition rpc_C_VerifyInit : Reply := END_CALL (
  _func ← BEGIN_CALL (C_VerifyInit pkcs11_module);
  session ← IN_ULONG;
  mechanism ← IN_MECHANISM;
  key ← IN_ULONG;
  '(_ret, _) ← PROCESS_CALL (_func session mechanism key);
  mret _ret).

Definition rpc_C_Verify : Reply := END_CALL (
  _func ← BEGIN_CALL (C_Verify pkcs11_module);
  session ← IN_ULONG;
  '(data, data_len) ← IN_BYTE_ARRAY;
  '(signature, signature_len) ← IN_BYTE_ARRAY;
  '(_ret, _) ← PROCESS_CALL (_func session data data_len signature signature_len);
  mret _ret).

Definition rpc_C_VerifyUpdate : Reply := END_CALL (
  _func ← BEGIN_CALL (C_VerifyUpdate pkcs11_module);
  session ← IN_ULONG;
  '(part, part_len) ← IN_BYTE_ARRAY;
  '(_ret, _) ← PROCESS_CALL (_func session part part_len);
  mret _ret).

Definition rpc_C_VerifyFinal : Reply := END_CALL (
  _func ← BEGIN_CALL (C_VerifyFinal pkcs11_module);
  session ← IN_ULONG;
  '(signature, signature_len) ← IN_BYTE_ARRAY;
  '(_ret, _) ← PROCESS_CALL (_func session signature signature_len);
  mret _ret).

Definition rpc_C_VerifyRecoverInit : Reply := END_CALL (
  _func ← BEGIN_CALL (C_VerifyRecoverInit pkcs11_module);
  session ← IN_ULONG;
  mechanism ← IN_MECHANISM;
  key ← IN_ULONG;
  '(_ret, _) ← PROCESS_CALL (_func session mechanism key);
  mret _ret).

Definition rpc_C_VerifyRecover : Reply := END_CALL (
  _func ← BEGIN_CALL (C_VerifyRecover pkcs11_module);
  session ← IN_ULONG;
  '(signature, signature_len) ← IN_BYTE_ARRAY;
  '(data, data_len) ← IN_BYTE_BUFFER malloc_ok;
  '(_ret, (data, data_len)) ←
    PROCESS_CALL (_func session signature signature_len data data_len);
  _ret ← OUT_BYTE_ARRAY data data_len _ret;
  mret _ret).

Definition rpc_C_DigestEncryptUpdate : Reply := END_CALL (
  _func ← BEGIN_CALL (C_DigestEncryptUpdate pkcs11_module);
  session ← IN_ULONG;
  '(part, part_len) ← IN_BYTE_ARRAY;
  '(encrypted_part, encrypted_part_len) ← IN_BYTE_BUFFER malloc_ok;
  '(_ret, (encrypted_part, encrypted_part_len)) ←
    PROCESS_CALL (_func session part part_len encrypted_part encrypted_part_len);
  _ret ← OUT_BYTE_ARRAY encrypted_part encrypted_part_len _ret;
  mret _ret).

Definition rpc_C_DecryptDigestUpdate : Reply := END_CALL (
  _func ← BEGIN_CALL (C_DecryptDigestUpdate pkcs11_module);
  session ← IN_ULONG;
  '(encrypted_part, encrypted_part_len) ← IN_BYTE_ARRAY;
  '(part, part_len) ← IN_BYTE_BUFFER malloc_ok;
  '(_ret, (part, part_len)) ←
    PROCESS_CALL (_func session encrypted_part encrypted_part_len part part_len);
  _ret ← OUT_BYTE_ARRAY part part_len _ret;
  mret _ret).

Definition rpc_C_SignEncryptUpdate : Reply := END_CALL (
  _func ← BEGIN_CALL (C_SignEncryptUpdate pkcs11_module);
  session ← IN_ULONG;
  '(part, part_len) ← IN_BYTE_ARRAY;
  '(encrypted_part, encrypted_part_len) ← IN_BYTE_BUFFER malloc_ok;
  '(_ret, (encrypted_part, encrypted_part_len)) ←
    PROCESS_CALL (_func session part part_len encrypted_part encrypted_part_len);
  _ret ← OUT_BYTE_ARRAY encrypted_part encrypted_part_len _ret;
  mret _ret).

Definition rpc_C_DecryptVerifyUpdate : Reply := END_CALL (
  _func ← BEGIN_CALL (C_DecryptVerifyUpdate pkcs11_module);
  session ← IN_ULONG;
  '(encrypted_part, encrypted_part_len) ← IN_BYTE_ARRAY;
  '(part, part_len) ← IN_BYTE_BUFFER malloc_ok;
  '(_ret, (part, part_len)) ←
    PROCESS_CALL (_func session encrypted_part encrypted_part_len part part_len);
  _ret ← OUT_BYTE_ARRAY part part_len _ret;
  mret _ret).

Definition rpc_C_GenerateKey : Reply := END_CALL (
  _func ← BEGIN_CALL (C_GenerateKey pkcs11_module);
  session ← IN_ULONG;
  mechanism ← IN_MECHANISM;
  '(template, count) ← IN_ATTRIBUTE_ARRAY malloc_ok;
  '(_ret, key) ← PROCESS_CALL (_func session mechanism template count);
  _ret ← OUT_ULONG key _ret;
  mret _ret).

Definition rpc_C_GenerateKeyPair : Reply := END_CALL (
  _func ← BEGIN_CALL (C_GenerateKeyPair pkcs11_module);
  session ← IN_ULONG;
  mechanism ← IN_MECHANISM;
  '(public_key_template, public_key_attribute_count) ← IN_ATTRIBUTE_ARRAY malloc_ok;
  '(private_key_template, private_key_attribute_count) ← IN_ATTRIBUTE_ARRAY malloc_ok;
  '(_ret, (public_key, private_key)) ←
    PROCESS_CALL (_func session mechanism public_key_template public_key_attribute_count private_key_template private_key_attribute_count);
  _ret ← OUT_ULONG public_key _ret;
  _ret ← OUT_ULONG private_key _ret;
  mret _ret).

Definition rpc_C_WrapKey : Reply := END_CALL (
  _func ← BEGIN_CALL (C_WrapKey pkcs11_module);
  session ← IN_ULONG;
  mechanism ← IN_MECHANISM;
  wrapping_key ← IN_ULONG;
  key ← IN_ULONG;
  '(wrapped_key, wrapped_key_len) ← IN_BYTE_BUFFER malloc_ok;
  '(_ret, (wrapped_key, wrapped_key_len)) ←
    PROCESS_CALL (_func session mechanism wrapping_key key wrapped_key wrapped_key_len);
  _ret ← OUT_BYTE_ARRAY wrapped_key wrapped_key_len _ret;
  mret _ret).

Definition rpc_C_UnwrapKey : Reply := END_CALL (
  _func ← BEGIN_CALL (C_UnwrapKey pkcs11_module);
  session ← IN_ULONG;
  mechanism ← IN_MECHANISM;
  unwrapping_key ← IN_ULONG;
  '(wrapped_key, wrapped_key_len) ← IN_BYTE_ARRAY;
  '(template, attribute_count) ← IN_ATTRIBUTE_ARRAY malloc_ok;
  '(_ret, key) ←
    PROCESS_CALL (_func session mechanism unwrapping_key wrapped_key wrapped_key_len template attribute_count);
  _ret ← OUT_ULONG key _ret;
  mret _ret).

Definition rpc_C_DeriveKey : Reply := END_CALL (
  _func ← BEGIN_CALL (C_DeriveKey pkcs11_module);
  session ← IN_ULONG;
  mechanism ← IN_MECHANISM;
  base_key ← IN_ULONG;
  '(template, attribute_count) ← IN_ATTRIBUTE_ARRAY malloc_ok;
  '(_ret, key) ←
    PROCESS_CALL (_func session mechanism base_key template attribute_count);
  _ret ← OUT_ULONG key _ret;
  mret _ret).

Definition rpc_C_SeedRandom : Reply := END_CALL (
  _func ← BEGIN_CALL (C_SeedRandom pkcs11_module);
  session ← IN_ULONG;
  '(seed, seed_len) ← IN_BYTE_ARRAY;
  '(_ret, _) ← PROCESS_CALL (_func session seed seed_len);
  mret _ret).

Definition rpc_C_GenerateRandom : Reply := END_CALL (
  _func ← BEGIN_CALL (C_GenerateRandom pkcs11_module);
  session ← IN_ULONG;
  '(random_data, random_len) ← IN_BYTE_BUFFER malloc_ok;
  match random_len with
  | None => exit PARSE_ERROR
  | Some n =>
      '(_ret, random_data) ← PROCESS_CALL (_func session random_data n);
      _ret ← OUT_BYTE_ARRAY random_data random_len _ret;
      mret _ret
  end).

(** ** [dispatch_call] *)

(** The cases of the switch on the call id. *)
Definition call_table : list (Z * Reply) := [
  (GCK_RPC_CALL_C_Initialize, rpc_C_Initialize);
  (GCK_RPC_CALL_C_Finalize, rpc_C_Finalize);
  (GCK_RPC_CALL_C_GetInfo, rpc_C_GetInfo);
  (GCK_RPC_CALL_C_GetSlotList, rpc_C_GetSlotList);
  (GCK_RPC_CALL_C_GetSlotInfo, rpc_C_GetSlotInfo);
  (GCK_RPC_CALL_C_GetTokenInfo, rpc_C_GetTokenInfo);
  (GCK_RPC_CALL_C_GetMechanismList, rpc_C_GetMechanismList);
  (GCK_RPC_CALL_C_GetMechanismInfo, rpc_C_GetMechanismInfo);
  (GCK_RPC_CALL_C_InitToken, rpc_C_InitToken);
  (GCK_RPC_CALL_C_WaitForSlotEvent, rpc_C_WaitForSlotEvent);
  (GCK_RPC_CALL_C_OpenSession, rpc_C_OpenSession);
  (GCK_RPC_CALL_C_CloseSession, rpc_C_CloseSession);
  (GCK_RPC_CALL_C_CloseAllSessions, rpc_C_CloseAllSessions);
  (GCK_RPC_CALL_C_GetFunctionStatus, rpc_C_GetFunctionStatus);
  (GCK_RPC_CALL_C_CancelFunction, rpc_C_CancelFunction);
  (GCK_RPC_CALL_C_GetSessionInfo, rpc_C_GetSessionInfo);
  (GCK_RPC_CALL_C_InitPIN, rpc_C_InitPIN);
  (GCK_RPC_CALL_C_SetPIN, rpc_C_SetPIN);
  (GCK_RPC_CALL_C_GetOperationState, rpc_C_GetOperationState);
  (GCK_RPC_CALL_C_SetOperationState, rpc_C_SetOperationState);
  (GCK_RPC_CALL_C_Login, rpc_C_Login);
  (GCK_RPC_CALL_C_Logout, rpc_C_Logout);
  (GCK_RPC_CALL_C_CreateObject, rpc_C_CreateObject);
  (GCK_RPC_CALL_C_CopyObject, rpc_C_CopyObject);
  (GCK_RPC_CALL_C_DestroyObject, rpc_C_DestroyObject);
  (GCK_RPC_CALL_C_GetObjectSize, rpc_C_GetObjectSize);
  (GCK_RPC_CALL_C_GetAttributeValue, rpc_C_GetAttributeValue);
  (GCK_RPC_CALL_C_SetAttributeValue, rpc_C_SetAttributeValue);
  (GCK_RPC_CALL_C_FindObjectsInit, rpc_C_FindObjectsInit);
  (GCK_RPC_CALL_C_FindObjects, rpc_C_FindObjects);
  (GCK_RPC_CALL_C_FindObjectsFinal, rpc_C_FindObjectsFinal);
  (GCK_RPC_CALL_C_EncryptInit, rpc_C_EncryptInit);
  (GCK_RPC_CALL_C_Encrypt, rpc_C_Encrypt);
  (GCK_RPC_CALL_C_EncryptUpdate, rpc_C_EncryptUpdate);
  (GCK_RPC_CALL_C_EncryptFinal, rpc_C_EncryptFinal);
  (GCK_RPC_CALL_C_DecryptInit, rpc_C_DecryptInit);
  (GCK_RPC_CALL_C_Decrypt, rpc_C_Decrypt);
  (GCK_RPC_CALL_C_DecryptUpdate, rpc_C_DecryptUpdate);
  (GCK_RPC_CALL_C_DecryptFinal, rpc_C_DecryptFinal);
  (GCK_RPC_CALL_C_DigestInit, rpc_C_DigestInit);
  (GCK_RPC_CALL_C_Digest, rpc_C_Digest);
  (GCK_RPC_CALL_C_DigestUpdate, rpc_C_DigestUpdate);
  (GCK_RPC_CALL_C_DigestKey, rpc_C_DigestKey);
  (GCK_RPC_CALL_C_DigestFinal, rpc_C_DigestFinal);
  (GCK_RPC_CALL_C_SignInit, rpc_C_SignInit);
  (GCK_RPC_CALL_C_Sign, rpc_C_Sign);
  (GCK_RPC_CALL_C_SignUpdate, rpc_C_SignUpdate);
  (GCK_RPC_CALL_C_SignFinal, rpc_C_SignFinal);
  (GCK_RPC_CALL_C_SignRecoverInit, rpc_C_SignRecoverInit);
  (GCK_RPC_CALL_C_SignRecover, rpc_C_SignRecover);
  (GCK_RPC_CALL_C_VerifyInit, rpc_C_VerifyInit);
  (GCK_RPC_CALL_C_Verify, rpc_C_Verify);
  (GCK_RPC_CALL_C_VerifyUpdate, rpc_C_VerifyUpdate);
  (GCK_RPC_CALL_C_VerifyFinal, rpc_C_VerifyFinal);
  (GCK_RPC_CALL_C_VerifyRecoverInit, rpc_C_VerifyRecoverInit);
  (GCK_RPC_CALL_C_VerifyRecover, rpc_C_VerifyRecover);
  (GCK_RPC_CALL_C_DigestEncryptUpdate, rpc_C_DigestEncryptUpdate);
  (GCK_RPC_CALL_C_DecryptDigestUpdate, rpc_C_DecryptDigestUpdate);
  (GCK_RPC_CALL_C_SignEncryptUpdate, rpc_C_SignEncryptUpdate);
  (GCK_RPC_CALL_C_DecryptVerifyUpdate, rpc_C_DecryptVerifyUpdate);
  (GCK_RPC_CALL_C_GenerateKey, rpc_C_GenerateKey);
  (GCK_RPC_CALL_C_GenerateKeyPair, rpc_C_GenerateKeyPair);
  (GCK_RPC_CALL_C_WrapKey, rpc_C_WrapKey);
  (GCK_RPC_CALL_C_UnwrapKey, rpc_C_UnwrapKey);
  (GCK_RPC_CALL_C_DeriveKey, rpc_C_DeriveKey);
  (GCK_RPC_CALL_C_SeedRandom, rpc_C_SeedRandom);
  (GCK_RPC_CALL_C_GenerateRandom, rpc_C_GenerateRandom)
].

Definition call_handler (id : Z) : Reply := switch id call_table (crash AssertionFailed).

(** [gck_rpc_message_prep (resp, GCK_RPC_CALL_ERROR, GCK_RPC_RESPONSE) &&
    gck_rpc_message_write_ulong (resp, (uint32_t) ret)] *)
Definition write_error (ret : Z) : ST GckRpcMessage bool :=
  write_all [gck_rpc_message_prep GCK_RPC_CALL_ERROR GCK_RPC_RESPONSE;
             gck_rpc_message_write_ulong (wrap32 ret)].

Definition dispatch_call : ST (Proc W) bool :=
  s ← get_st;
  let id := call_id (req s) in
  (* This should have been checked by the parsing code *)
  assert_ (GCK_RPC_CALL_ERROR <? id);;
  assert_ (id <? GCK_RPC_CALL_MAX);;
  (* Prepare a response for the function to fill in *)
  ok ← on_resp (gck_rpc_message_prep id GCK_RPC_RESPONSE);
  if negb ok then mret false else
  ret ← call_handler id;
  s ← get_st;
  let ret :=
    if ret =? CKR_OK then
      (* Parsing errors? Out of memory errors? *)
      if gck_rpc_message_buffer_error (resp s) then PREP_ERROR
      else if gck_rpc_message_buffer_error (req s) then PARSE_ERROR
      else ret
    else ret in
  (* A filled in response *)
  if ret =? CKR_OK then
    assert_ (gck_rpc_message_is_verified (resp s));;
    assert_ (bool_decide (call_type (resp s) = Some GCK_RPC_RESPONSE));;
    assert_ (call_id (resp s) =? call_id (req s));;
    c ← lift_res (gck_rpc_call (call_id (resp s)));
    assert_ (nonnull (c_response c));;
    sig ← lift_res (deref (signature (resp s)));
    assert_ (bool_decide (c_response c = Some sig));;
    mret true
  (* Fill in an error respnose *)
  else
    ok ← on_resp (write_error ret);
    s ← get_st;
    mret (ok && negb (gck_rpc_message_buffer_error (resp s))).
End Calls.

(** * Specifications *)

(** ** What the PKCS#11 module promises

    The functions that return a result through a caller's array or structure,
    grouped by their type. *)

Definition one_shot {W} (M : CK_FUNCTION_LIST W) :=
  [C_Encrypt M; C_EncryptUpdate M; C_Decrypt M; C_DecryptUpdate M; C_Digest M; C_Sign M;
   C_SignRecover M; C_VerifyRecover M; C_DigestEncryptUpdate M; C_DecryptDigestUpdate M;
   C_SignEncryptUpdate M; C_DecryptVerifyUpdate M].

Definition final {W} (M : CK_FUNCTION_LIST W) :=
  [C_GetOperationState M; C_EncryptFinal M; C_DecryptFinal M; C_DigestFinal M; C_SignFinal M].

Definition id_list {W} (M : CK_FUNCTION_LIST W) := [C_GetMechanismList M; C_FindObjects M].

(** PKCS#11 2.20, section 11: given space of the size it is told, a function
    that reports success has left that much or less in it and set the count to
    what it left there; the texts of the information structures have their fixed
    lengths; every function of the list exists (the two that other calls use
    are the ones that matter). *)
Record module_ok {W} (M : CK_FUNCTION_LIST W) : Prop := {
  mo_C_CloseSession : is_Some (C_CloseSession M);
  mo_C_GetSlotInfo : is_Some (C_GetSlotInfo M);
  mo_info f w : C_GetInfo M = Some f -> (f w).1.1 = CKR_OK -> info_ok (f w).1.2;
  mo_slot_info f slot w :
    C_GetSlotInfo M = Some f -> (f slot w).1.1 = CKR_OK -> slot_info_ok (f slot w).1.2;
  mo_token_info f slot w :
    C_GetTokenInfo M = Some f -> (f slot w).1.1 = CKR_OK -> token_info_ok (f slot w).1.2;
  mo_one_shot g f session data n buf k w :
    In g (one_shot M) -> g = Some f -> byte_array_val (data, n) -> byte_buffer_val (buf, k) ->
    bytes_out (f session data n buf k w).1.1 (f session data n buf k w).1.2;
  mo_final g f session buf k w :
    In g (final M) -> g = Some f -> byte_buffer_val (buf, k) ->
    bytes_out (f session buf k w).1.1 (f session buf k w).1.2;
  mo_C_WrapKey f session m wrapping key buf k w :
    C_WrapKey M = Some f -> byte_buffer_val (buf, k) ->
    bytes_out (f session m wrapping key buf k w).1.1 (f session m wrapping key buf k w).1.2;
  mo_C_GenerateRandom f session buf n w :
    C_GenerateRandom M = Some f -> byte_buffer_val (buf, Some n) ->
    bytes_out (f session buf n w).1.1 ((f session buf n w).1.2, Some n);
  mo_C_GetSlotList f present l n w :
    C_GetSlotList M = Some f -> ulong_buffer_val (l, n) ->
    ulongs_out (f present l n w).1.1 (f present l n w).1.2;
  mo_id_list g f id l n w :
    In g (id_list M) -> g = Some f -> ulong_buffer_val (l, n) ->
    ulongs_out (f id l n w).1.1 (f id l n w).1.2;
  mo_C_GetAttributeValue f session object l n w :
    C_GetAttributeValue M = Some f -> attrs_val (l, n) ->
    attrs_out n (f session object l n w).1.1 (f session object l n w).1.2;
}.

(** ** Every call is served without a fault *)

(** Symbolic execution of one macro of a call. *)
Ltac serve_in lem :=
  eapply safe_then;
  [ eapply lem; [eassumption|reflexivity]
  | let v := fresh "v" in let s := fresh "s" in let Hv := fresh "Hv" in let Hs := fresh "Hs" in
    intros v s (Hv & _ & Hs);
    repeat match goal with H : DispatchProto.serving _ _ _ _ _ ?t |- _ =>
      lazymatch t with s => fail | _ => clear H end end;
    try (destruct v as [? ?]); cbn beta iota ].

Ltac serve_begin :=
  apply END_CALL_wp; apply safe_bind; apply BEGIN_CALL_safe;
  [ eapply sv_base; eassumption
  | let f := fresh "f" in let Hf := fresh "Hf" in intros f Hf ].

Ltac serve_process :=
  eapply safe_then;
  [ eapply PROCESS_CALL_safe; eassumption
  | let x := fresh "x" in let s := fresh "s" in let w := fresh "w" in
    let Hx := fresh "Hx" in let Hs := fresh "Hs" in
    intros x s (w & Hx & _ & Hs);
    repeat match goal with H : DispatchProto.serving _ _ _ _ _ ?t |- _ =>
      lazymatch t with s => fail | _ => clear H end end;
    destruct x as [? ?]; cbn beta iota ].

Ltac serve_step :=
  cbv zeta;
  lazymatch goal with
  | |- DispatchProto.safe _ (IN_ULONG ≫= _) _ _ => serve_in IN_ULONG_safe
  | |- DispatchProto.safe _ (IN_BYTE ≫= _) _ _ => serve_in IN_BYTE_safe
  | |- DispatchProto.safe _ (IN_BYTE_ARRAY ≫= _) _ _ => serve_in proto_read_byte_array_safe
  | |- DispatchProto.safe _ (IN_BYTE_BUFFER _ ≫= _) _ _ => serve_in proto_read_byte_buffer_safe
  | |- DispatchProto.safe _ (IN_ULONG_BUFFER _ ≫= _) _ _ => serve_in proto_read_ulong_buffer_safe
  | |- DispatchProto.safe _ (IN_MECHANISM ≫= _) _ _ => serve_in proto_read_mechanism_safe
  | |- DispatchProto.safe _ (IN_SPACE_STRING _ _ ≫= _) _ _ => serve_in proto_read_space_string_safe
  | |- DispatchProto.safe _ (IN_ATTRIBUTE_BUFFER _ ≫= _) _ _ =>
      serve_in proto_read_attribute_buffer_safe
  | |- DispatchProto.safe _ (IN_ATTRIBUTE_ARRAY _ ≫= _) _ _ =>
      serve_in proto_read_attribute_array_safe
  | |- DispatchProto.safe _ (PROCESS_CALL _ ≫= _) _ _ => serve_process
  end.

Section Served.
Context {W : Type} (M : CK_FUNCTION_LIST W) (HM : module_ok M).
Context (malloc_ok : list Z -> Z -> bool) (shutdown_ok : Z -> bool).

(** [h] serves the call [id], given its two signatures. *)
Definition serves (id : Z) (h : ST (Proc W) Z) : Prop :=
  forall c q sg s, gck_rpc_call id = Ok c -> c_request c = Some q -> c_response c = Some sg ->
    serving id sg q [] sg s -> wp h (replied id sg) s.

Lemma serves_intro id h q sg :
  match gck_rpc_call id with
  | Ok c => c_request c = Some q /\ c_response c = Some sg
  | Crash _ => False
  end ->
  (forall s, serving id sg q [] sg s -> wp h (replied id sg) s) -> serves id h.
Proof.
  intros Ht Hh c q' sg' s Hc Hq Hr. rewrite Hc in Ht. destruct Ht as [Hq' Hr'].
  rewrite Hq in Hq'. rewrite Hr in Hr'. injection Hq' as ->. injection Hr' as ->. apply Hh.
Qed.

(** The ends of the calls: nothing to write, or one result of each kind. *)
Lemma end_nothing id sg ret q ps s :
  serving id sg q ps EmptyString s ->
  safe (failing (base id)) (mret ret : Call (Proc W) Z) (replied id sg) s.
Proof. intros Hs. apply safe_ret. eapply pending_replied, serving_pending, Hs. Qed.

Lemma end_out id sg (m : Call (Proc W) Z) ret ps' q ps s :
  safe (failing (base id)) m (out_post id sg ret ps' q ps EmptyString s) s ->
  safe (failing (base id)) (_ret ← m; mret _ret) (replied id sg) s.
Proof.
  intros Hm. eapply safe_then; [exact Hm|]. intros ret' s' (_ & Hp & _).
  apply safe_ret. by eapply pending_replied.
Qed.

Lemma end_array id sg (m : Call (Proc W) Z) ret p p' q ps s :
  safe (failing (base id)) m (array_post id sg ret p p' q ps EmptyString s) s ->
  safe (failing (base id)) (_ret ← m; mret _ret) (replied id sg) s.
Proof.
  intros Hm. eapply safe_then; [exact Hm|]. intros ret' s' Hp.
  apply safe_ret. by eapply array_replied.
Qed.
End Served.

(** The module's promise about a call of it that was made: [P] of what it
    returned. *)
Ltac promised P :=
  match goal with
  | Hx : ?call = (?ret, ?out, _) |- _ =>
      let H := fresh "H" in
      assert (P call.1.1 call.1.2) as H; [|rewrite Hx in H; exact H]
  end.

(** Finishes a call whose arguments have been read and whose module function
    has returned.  [HM] is the module's promise. *)
Ltac serve_end HM :=
  lazymatch goal with
  | |- DispatchProto.safe _ (mret _) _ _ => eapply end_nothing; eassumption
  | |- DispatchProto.safe _ (OUT_ULONG _ _ ≫= fun ret => mret ret) _ _ =>
      eapply end_out; eapply OUT_ULONG_safe; [eapply serving_pending; eassumption|reflexivity]
  | |- DispatchProto.safe _ (OUT_MECHANISM_INFO _ _ ≫= _) _ _ =>
      eapply end_out; eapply OUT_MECHANISM_INFO_safe;
      [eapply serving_pending; eassumption|reflexivity]
  | |- DispatchProto.safe _ (OUT_SESSION_INFO _ _ ≫= _) _ _ =>
      eapply end_out; eapply OUT_SESSION_INFO_safe;
      [eapply serving_pending; eassumption|reflexivity]
  | |- DispatchProto.safe _ (OUT_INFO _ _ ≫= _) _ _ =>
      eapply end_out; eapply OUT_INFO_safe;
      [promised (fun ret i => ret = CKR_OK -> info_ok i);
       by apply (mo_info _ HM)
      |eapply serving_pending; eassumption|reflexivity]
  | |- DispatchProto.safe _ (OUT_SLOT_INFO _ _ ≫= _) _ _ =>
      eapply end_out; eapply OUT_SLOT_INFO_safe;
      [promised (fun ret i => ret = CKR_OK -> slot_info_ok i);
       by apply (mo_slot_info _ HM)
      |eapply serving_pending; eassumption|reflexivity]
  | |- DispatchProto.safe _ (OUT_TOKEN_INFO _ _ ≫= _) _ _ =>
      eapply end_out; eapply OUT_TOKEN_INFO_safe;
      [promised (fun ret i => ret = CKR_OK -> token_info_ok i);
       by apply (mo_token_info _ HM)
      |eapply serving_pending; eassumption|reflexivity]
  | |- DispatchProto.safe _ (let '(_, _) := ?v in OUT_BYTE_ARRAY _ _ _ ≫= _) _ _ =>
      destruct v as [? ?]; eapply end_array; eapply OUT_BYTE_ARRAY_safe;
      [promised bytes_out;
       first [ eapply (mo_one_shot _ HM); [|eassumption..]; simpl; tauto
             | eapply (mo_final _ HM); [|eassumption..]; simpl; tauto
             | eapply (mo_C_WrapKey _ HM); eassumption ]
      |eassumption|reflexivity]
  | |- DispatchProto.safe _ (let '(_, _) := ?v in OUT_ULONG_ARRAY _ _ _ ≫= _) _ _ =>
      destruct v as [? ?]; eapply end_array; eapply OUT_ULONG_ARRAY_safe;
      [promised ulongs_out;
       first [ eapply (mo_C_GetSlotList _ HM); eassumption
             | eapply (mo_id_list _ HM); [|eassumption..]; simpl; tauto ]
      |eassumption|reflexivity]
  end.

Ltac serve HM := serve_begin; repeat serve_step; serve_end HM.

Section Calls_served.
Context {W : Type} (M : CK_FUNCTION_LIST W) (HM : module_ok M).
Context (malloc_ok : list Z -> Z -> bool) (shutdown_ok : Z -> bool).

Ltac serve_call HM :=
  eapply serves_intro; [vm_compute; split; reflexivity|];
  let s := fresh "s" in let Hs := fresh "Hs" in intros s Hs; serve HM.

Lemma rpc_C_GetInfo_serves :
  serves GCK_RPC_CALL_C_GetInfo (rpc_C_GetInfo M).
Proof. serve_call HM. Qed.
Lemma rpc_C_GetSlotList_serves :
  serves GCK_RPC_CALL_C_GetSlotList (rpc_C_GetSlotList M malloc_ok).
Proof. serve_call HM. Qed.
Lemma rpc_C_GetSlotInfo_serves :
  serves GCK_RPC_CALL_C_GetSlotInfo (rpc_C_GetSlotInfo M).
Proof. serve_call HM. Qed.
Lemma rpc_C_GetTokenInfo_serves :
  serves GCK_RPC_CALL_C_GetTokenInfo (rpc_C_GetTokenInfo M).
Proof. serve_call HM. Qed.
Lemma rpc_C_GetMechanismList_serves :
  serves GCK_RPC_CALL_C_GetMechanismList (rpc_C_GetMechanismList M malloc_ok).
Proof. serve_call HM. Qed.
Lemma rpc_C_GetMechanismInfo_serves :
  serves GCK_RPC_CALL_C_GetMechanismInfo (rpc_C_GetMechanismInfo M).
Proof. serve_call HM. Qed.
Lemma rpc_C_InitToken_serves :
  serves GCK_RPC_CALL_C_InitToken (rpc_C_InitToken M malloc_ok).
Proof. serve_call HM. Qed.
Lemma rpc_C_GetFunctionStatus_serves :
  serves GCK_RPC_CALL_C_GetFunctionStatus (rpc_C_GetFunctionStatus M).
Proof. serve_call HM. Qed.
Lemma rpc_C_CancelFunction_serves :
  serves GCK_RPC_CALL_C_CancelFunction (rpc_C_CancelFunction M).
Proof. serve_call HM. Qed.
Lemma rpc_C_InitPIN_serves :
  serves GCK_RPC_CALL_C_InitPIN (rpc_C_InitPIN M).
Proof. serve_call HM. Qed.
Lemma rpc_C_SetPIN_serves :
  serves GCK_RPC_CALL_C_SetPIN (rpc_C_SetPIN M).
Proof. serve_call HM. Qed.
Lemma rpc_C_GetOperationState_serves :
  serves GCK_RPC_CALL_C_GetOperationState (rpc_C_GetOperationState M malloc_ok).
Proof. serve_call HM. Qed.
Lemma rpc_C_SetOperationState_serves :
  serves GCK_RPC_CALL_C_SetOperationState (rpc_C_SetOperationState M).
Proof. serve_call HM. Qed.
Lemma rpc_C_Login_serves :
  serves GCK_RPC_CALL_C_Login (rpc_C_Login M).
Proof. serve_call HM. Qed.
Lemma rpc_C_Logout_serves :
  serves GCK_RPC_CALL_C_Logout (rpc_C_Logout M).
Proof. serve_call HM. Qed.
Lemma rpc_C_CreateObject_serves :
  serves GCK_RPC_CALL_C_CreateObject (rpc_C_CreateObject M malloc_ok).
Proof. serve_call HM. Qed.
Lemma rpc_C_CopyObject_serves :
  serves GCK_RPC_CALL_C_CopyObject (rpc_C_CopyObject M malloc_ok).
Proof. serve_call HM. Qed.
Lemma rpc_C_DestroyObject_serves :
  serves GCK_RPC_CALL_C_DestroyObject (rpc_C_DestroyObject M).
Proof. serve_call HM. Qed.
Lemma rpc_C_GetObjectSize_serves :
  serves GCK_RPC_CALL_C_GetObjectSize (rpc_C_GetObjectSize M).
Proof. serve_call HM. Qed.
Lemma rpc_C_SetAttributeValue_serves :
  serves GCK_RPC_CALL_C_SetAttributeValue (rpc_C_SetAttributeValue M malloc_ok).
Proof. serve_call HM. Qed.
Lemma rpc_C_FindObjectsInit_serves :
  serves GCK_RPC_CALL_C_FindObjectsInit (rpc_C_FindObjectsInit M malloc_ok).
Proof. serve_call HM. Qed.
Lemma rpc_C_FindObjects_serves :
  serves GCK_RPC_CALL_C_FindObjects (rpc_C_FindObjects M malloc_ok).
Proof. serve_call HM. Qed.
Lemma rpc_C_FindObjectsFinal_serves :
  serves GCK_RPC_CALL_C_FindObjectsFinal (rpc_C_FindObjectsFinal M).
Proof. serve_call HM. Qed.
Lemma rpc_C_EncryptInit_serves :
  serves GCK_RPC_CALL_C_EncryptInit (rpc_C_EncryptInit M).
Proof. serve_call HM. Qed.
Lemma rpc_C_Encrypt_serves :
  serves GCK_RPC_CALL_C_Encrypt (rpc_C_Encrypt M malloc_ok).
Proof. serve_call HM. Qed.
Lemma rpc_C_EncryptUpdate_serves :
  serves GCK_RPC_CALL_C_EncryptUpdate (rpc_C_EncryptUpdate M malloc_ok).
Proof. serve_call HM. Qed.
Lemma rpc_C_EncryptFinal_serves :
  serves GCK_RPC_CALL_C_EncryptFinal (rpc_C_EncryptFinal M malloc_ok).
Proof. serve_call HM. Qed.
Lemma rpc_C_DecryptInit_serves :
  serves GCK_RPC_CALL_C_DecryptInit (rpc_C_DecryptInit M).
Proof. serve_call HM. Qed.
Lemma rpc_C_Decrypt_serves :
  serves GCK_RPC_CALL_C_Decrypt (rpc_C_Decrypt M malloc_ok).
Proof. serve_call HM. Qed.
Lemma rpc_C_DecryptUpdate_serves :
  serves GCK_RPC_CALL_C_DecryptUpdate (rpc_C_DecryptUpdate M malloc_ok).
Proof. serve_call HM. Qed.
Lemma rpc_C_DecryptFinal_serves :
  serves GCK_RPC_CALL_C_DecryptFinal (rpc_C_DecryptFinal M malloc_ok).
Proof. serve_call HM. Qed.
Lemma rpc_C_DigestInit_serves :
  serves GCK_RPC_CALL_C_DigestInit (rpc_C_DigestInit M).
Proof. serve_call HM. Qed.
Lemma rpc_C_Digest_serves :
  serves GCK_RPC_CALL_C_Digest (rpc_C_Digest M malloc_ok).
Proof. serve_call HM. Qed.
Lemma rpc_C_DigestUpdate_serves :
  serves GCK_RPC_CALL_C_DigestUpdate (rpc_C_DigestUpdate M).
Proof. serve_call HM. Qed.
Lemma rpc_C_DigestKey_serves :
  serves GCK_RPC_CALL_C_DigestKey (rpc_C_DigestKey M).
Proof. serve_call HM. Qed.
Lemma rpc_C_DigestFinal_serves :
  serves GCK_RPC_CALL_C_DigestFinal (rpc_C_DigestFinal M malloc_ok).
Proof. serve_call HM. Qed.
Lemma rpc_C_SignInit_serves :
  serves GCK_RPC_CALL_C_SignInit (rpc_C_SignInit M).
Proof. serve_call HM. Qed.
Lemma rpc_C_Sign_serves :
  serves GCK_RPC_CALL_C_Sign (rpc_C_Sign M malloc_ok).
Proof. serve_call HM. Qed.
Lemma rpc_C_SignUpdate_serves :
  serves GCK_RPC_CALL_C_SignUpdate (rpc_C_SignUpdate M).
Proof. serve_call HM. Qed.
Lemma rpc_C_SignFinal_serves :
  serves GCK_RPC_CALL_C_SignFinal (rpc_C_SignFinal M malloc_ok).
Proof. serve_call HM. Qed.
Lemma rpc_C_SignRecoverInit_serves :
  serves GCK_RPC_CALL_C_SignRecoverInit (rpc_C_SignRecoverInit M).
Proof. serve_call HM. Qed.
Lemma rpc_C_SignRecover_serves :
  serves GCK_RPC_CALL_C_SignRecover (rpc_C_SignRecover M malloc_ok).
Proof. serve_call HM. Qed.
Lemma rpc_C_VerifyInit_serves :
  serves GCK_RPC_CALL_C_VerifyInit (rpc_C_VerifyInit M).
Proof. serve_call HM. Qed.
Lemma rpc_C_Verify_serves :
  serves GCK_RPC_CALL_C_Verify (rpc_C_Verify M).
Proof. serve_call HM. Qed.
Lemma rpc_C_VerifyUpdate_serves :
  serves GCK_RPC_CALL_C_VerifyUpdate (rpc_C_VerifyUpdate M).
Proof. serve_call HM. Qed.
Lemma rpc_C_VerifyFinal_serves :
  serves GCK_RPC_CALL_C_VerifyFinal (rpc_C_VerifyFinal M).
Proof. serve_call HM. Qed.
Lemma rpc_C_VerifyRecoverInit_serves :
  serves GCK_RPC_CALL_C_VerifyRecoverInit (rpc_C_VerifyRecoverInit M).
Proof. serve_call HM. Qed.
Lemma rpc_C_VerifyRecover_serves :
  serves GCK_RPC_CALL_C_VerifyRecover (rpc_C_VerifyRecover M malloc_ok).
Proof. serve_call HM. Qed.
Lemma rpc_C_DigestEncryptUpdate_serves :
  serves GCK_RPC_CALL_C_DigestEncryptUpdate (rpc_C_DigestEncryptUpdate M malloc_ok).
Proof. serve_call HM. Qed.
Lemma rpc_C_DecryptDigestUpdate_serves :
  serves GCK_RPC_CALL_C_DecryptDigestUpdate (rpc_C_DecryptDigestUpdate M malloc_ok).
Proof. serve_call HM. Qed.
Lemma rpc_C_SignEncryptUpdate_serves :
  serves GCK_RPC_CALL_C_SignEncryptUpdate (rpc_C_SignEncryptUpdate M malloc_ok).
Proof. serve_call HM. Qed.
Lemma rpc_C_DecryptVerifyUpdate_serves :
  serves GCK_RPC_CALL_C_DecryptVerifyUpdate (rpc_C_DecryptVerifyUpdate M malloc_ok).
Proof. serve_call HM. Qed.
Lemma rpc_C_GenerateKey_serves :
  serves GCK_RPC_CALL_C_GenerateKey (rpc_C_GenerateKey M malloc_ok).
Proof. serve_call HM. Qed.
Lemma rpc_C_WrapKey_serves :
  serves GCK_RPC_CALL_C_WrapKey (rpc_C_WrapKey M malloc_ok).
Proof. serve_call HM. Qed.
Lemma rpc_C_UnwrapKey_serves :
  serves GCK_RPC_CALL_C_UnwrapKey (rpc_C_UnwrapKey M malloc_ok).
Proof. serve_call HM. Qed.
Lemma rpc_C_DeriveKey_serves :
  serves GCK_RPC_CALL_C_DeriveKey (rpc_C_DeriveKey M malloc_ok).
Proof. serve_call HM. Qed.
Lemma rpc_C_SeedRandom_serves :
  serves GCK_RPC_CALL_C_SeedRandom (rpc_C_SeedRandom M).
Proof. serve_call HM. Qed.

Lemma rpc_C_GetSessionInfo_serves : serves GCK_RPC_CALL_C_GetSessionInfo (rpc_C_GetSessionInfo M).
Proof. serve_call HM. Qed.
Lemma rpc_C_WaitForSlotEvent_serves :
  serves GCK_RPC_CALL_C_WaitForSlotEvent (rpc_C_WaitForSlotEvent M).
Proof. serve_call HM. Qed.

Lemma rpc_C_GetAttributeValue_serves :
  serves GCK_RPC_CALL_C_GetAttributeValue (rpc_C_GetAttributeValue M malloc_ok).
Proof.
  eapply serves_intro; [vm_compute; split; reflexivity|]. intros s Hs.
  serve_begin. serve_step. serve_step.
  eapply safe_then; [eapply proto_read_attribute_buffer_safe; [eassumption|reflexivity]|].
  intros [l n] s2 ([_ Hl] & _ & Hs2). serve_process.
  eapply safe_then; [eapply OUT_ATTRIBUTE_ARRAY_safe; [| |eassumption|reflexivity]|].
  - promised (attrs_out n). by eapply (mo_C_GetAttributeValue _ HM).
  - destruct Hl as [Hn _]. cbn in Hn. rewrite Hn. apply zlen_nonneg.
  - intros ret' s' (_ & Hb & H). apply safe_ret. split; [done|]. intros ->.
    destruct H as [(_ & _ & ?)|[? _]]; [eauto|done].
Qed.

Lemma rpc_C_GenerateKeyPair_serves :
  serves GCK_RPC_CALL_C_GenerateKeyPair (rpc_C_GenerateKeyPair M malloc_ok).
Proof.
  eapply serves_intro; [vm_compute; split; reflexivity|]. intros s Hs.
  serve_begin. repeat serve_step. destruct p as [public private].
  eapply safe_then; [eapply OUT_ULONG_safe; [by apply serving_pending|reflexivity]|].
  intros ret s' (_ & Hp & _). eapply end_out, OUT_ULONG_safe; [exact Hp|reflexivity].
Qed.
End Calls_served.

(** ** Calls that keep the table of sessions *)

Section Session_calls.
Context {W : Type} (M : CK_FUNCTION_LIST W) (HM : module_ok M).
Context (malloc_ok : list Z -> Z -> bool) (shutdown_ok : Z -> bool).

Lemma set_sessions_serving l id sg q ps r (s : Proc W) :
  length l = PKCS11PROXY_MAX_SESSION_COUNT -> serving id sg q ps r s ->
  serving id sg q ps r (set_sessions l s).
Proof. intros Hl [[] ? ? ? ? ? ? ? ? ?]. by split. Qed.

Lemma set_dispatchers_serving l id sg q ps r (s : Proc W) :
  serving id sg q ps r s -> serving id sg q ps r (set_dispatchers l s).
Proof. intros [[] ? ? ? ? ? ? ? ? ?]. by split. Qed.

Lemma set_module_serving w id sg q ps r (s : Proc W) :
  serving id sg q ps r s -> serving id sg q ps r (set_module w s).
Proof. intros [[] ? ? ? ? ? ? ? ? ?]. by split. Qed.

Lemma length_sessions id sg q ps r (s : Proc W) :
  serving id sg q ps r s -> length (sessions s) = PKCS11PROXY_MAX_SESSION_COUNT.
Proof. intros [[] ? ? ? ? ? ? ? ? ?]. done. Qed.

Lemma length_store_session session slot_id l l' :
  store_session session slot_id l = Some l' -> length l' = length l.
Proof.
  revert l'. induction l as [|st l IH]; intros l'; cbn [store_session]; [done|].
  destruct (_ =? 0); [by intros [= <-]|].
  destruct (store_session session slot_id l) as [k|]; [|done].
  intros [= <-]. simpl. by rewrite (IH k).
Qed.

Lemma length_remove_session session l : length (remove_session session l) = length l.
Proof.
  induction l as [|st l IH]; [done|]. cbn [remove_session].
  destruct (_ =? session); simpl; by rewrite ?IH.
Qed.

Lemma rpc_C_OpenSession_serves : serves GCK_RPC_CALL_C_OpenSession (rpc_C_OpenSession M).
Proof.
  eapply serves_intro; [vm_compute; split; reflexivity|]. intros s Hs.
  serve_begin. repeat serve_step.
  eapply (safe_then _ _ _ (fun _ s' => serving GCK_RPC_CALL_C_OpenSession "u" "" [] "u" s')).
  - destruct (_ =? CKR_OK); [|by apply safe_ret].
    apply safe_bind, safe_call, wp_get.
    destruct (store_session _ _ _) as [l|] eqn:El.
    + apply safe_call, wp_modify, set_sessions_serving; [|done].
      rewrite (length_store_session _ _ _ _ El). by eapply length_sessions.
    + apply safe_exit; [done|]. by eapply sv_base.
  - intros [] s3 Hs3. eapply end_out, OUT_ULONG_safe; [by apply serving_pending|reflexivity].
Qed.

Lemma rpc_C_CloseSession_serves : serves GCK_RPC_CALL_C_CloseSession (rpc_C_CloseSession M).
Proof.
  eapply serves_intro; [vm_compute; split; reflexivity|]. intros s Hs.
  serve_begin. repeat serve_step.
  eapply (safe_then _ _ _ (fun _ s' => serving GCK_RPC_CALL_C_CloseSession "" "" [] "" s')).
  - destruct (_ =? CKR_OK); [|by apply safe_ret].
    apply safe_call, wp_modify, set_sessions_serving; [|done].
    rewrite length_remove_session. by eapply length_sessions.
  - intros [] s3 Hs3. by eapply end_nothing.
Qed.

Lemma session_at_wp i (s : Proc W) (Q : SessionState -> Proc W -> Prop) :
  (i < length (sessions s))%nat -> (forall st, sessions s !! i = Some st -> Q st s) ->
  wp (session_at i) Q s.
Proof.
  intros Hi HQ. unfold session_at, wp.
  destruct (lookup_lt_is_Some_2 _ _ Hi) as [st E]. rewrite E. by apply HQ.
Qed.

Lemma clear_session_wp i id sg q ps r (s : Proc W) :
  serving id sg q ps r s ->
  wp (clear_session i) (fun _ s' => serving id sg q ps r s') s.
Proof.
  intros Hs. apply wp_modify, set_sessions_serving; [|done].
  rewrite length_alter. by eapply length_sessions.
Qed.

Lemma close_sessions_safe id sg ps r slot n i ret s :
  (i + n = PKCS11PROXY_MAX_SESSION_COUNT)%nat -> serving id sg "" ps r s ->
  safe (failing (base id)) (close_sessions M slot n i ret)
    (fun _ s' => serving id sg "" ps r s') s.
Proof.
  revert i ret s. induction n as [|n IH]; intros i ret s Hn Hs; [by apply safe_ret|].
  cbn [close_sessions]. apply safe_bind, safe_call.
  apply session_at_wp; [rewrite (length_sessions _ _ _ _ _ _ Hs); lia|]. intros st _.
  destruct (_ && _); [|apply IH; [lia|done]].
  destruct (mo_C_CloseSession _ HM) as [f Hf]. rewrite Hf. cbn [deref].
  apply safe_bind, safe_call. eapply wp_lift_res; [reflexivity|].
  apply safe_bind, safe_call. unfold run_module, wp.
  destruct (f (session_id st) (p_module s)) as [[ret' []] w].
  pose proof (set_module_serving w _ _ _ _ _ _ Hs) as Hs1.
  eapply (safe_then _ _ _ (fun _ s' => serving id sg "" ps r s')).
  - destruct (one_of _ _); [apply safe_call; by apply clear_session_wp|by apply safe_ret].
  - intros [] s2 Hs2. destruct (Z.eqb_spec ret' CKR_OK) as [->|]; cbn [negb].
    + apply IH; [lia|done].
    + apply safe_exit; [done|]. by eapply sv_base.
Qed.

Lemma rpc_C_CloseAllSessions_serves :
  serves GCK_RPC_CALL_C_CloseAllSessions (rpc_C_CloseAllSessions M).
Proof.
  eapply serves_intro; [vm_compute; split; reflexivity|]. intros s Hs.
  serve_begin. serve_step. destruct (mo_C_GetSlotInfo _ HM) as [g Hg]. rewrite Hg. cbn [deref].
  apply safe_bind, safe_call. eapply wp_lift_res; [reflexivity|].
  apply safe_bind, safe_call. unfold run_module, wp.
  destruct (g v (p_module s0)) as [[ret info] w].
  pose proof (set_module_serving w _ _ _ _ _ _ Hs0) as Hs1.
  destruct (Z.eqb_spec ret CKR_OK) as [->|]; cbn [negb];
    [|apply safe_exit; [done|]; by eapply sv_base].
  eapply safe_mono; [by apply close_sessions_safe|].
  intros ret s2 Hs2. eapply pending_replied, serving_pending, Hs2.
Qed.

Lemma finalize_sessions_wp id sg q ps r n i ret s :
  (i + n = PKCS11PROXY_MAX_SESSION_COUNT)%nat -> serving id sg q ps r s ->
  wp (finalize_sessions M n i ret) (fun _ s' => serving id sg q ps r s') s.
Proof.
  revert i ret s. induction n as [|n IH]; intros i ret s Hn Hs; [by apply wp_ret|].
  cbn [finalize_sessions]. apply wp_bind.
  apply session_at_wp; [rewrite (length_sessions _ _ _ _ _ _ Hs); lia|]. intros st _.
  destruct (_ =? 0); [apply IH; [lia|done]|].
  destruct (mo_C_CloseSession _ HM) as [f Hf]. rewrite Hf. cbn [deref].
  apply wp_bind. eapply wp_lift_res; [reflexivity|].
  apply wp_bind. unfold run_module, wp at 1.
  destruct (f (session_id st) (p_module s)) as [[ret' []] w].
  pose proof (set_module_serving w _ _ _ _ _ _ Hs) as Hs1.
  destruct (negb _); [by apply wp_ret|].
  eapply wp_call; [by apply clear_session_wp|]. intros [] s2 Hs2. apply IH; [lia|done].
Qed.

Lemma rpc_C_Finalize_serves : serves GCK_RPC_CALL_C_Finalize (rpc_C_Finalize M shutdown_ok).
Proof.
  eapply serves_intro; [vm_compute; split; reflexivity|]. intros s Hs.
  unfold rpc_C_Finalize. eapply wp_call; [by eapply finalize_sessions_wp|].
  intros ret s1 Hs1. apply wp_bind, wp_modify, wp_ret.
  eapply pending_replied, serving_pending, set_dispatchers_serving, Hs1.
Qed.

Lemma rpc_C_Initialize_serves : serves GCK_RPC_CALL_C_Initialize (@rpc_C_Initialize W).
Proof.
  eapply serves_intro; [vm_compute; split; reflexivity|]. intros s Hs.
  unfold rpc_C_Initialize. apply wp_bind.
  pose proof (proto_read_byte_array_safe GCK_RPC_CALL_C_Initialize "" "ay" "" [] "" s Hs
    ltac:(reflexivity)) as Hr. unfold safe in Hr.
  eapply wp_mono; [exact Hr|]. intros [[v n]|ret] s1.
  - intros (_ & _ & Hs1). cbv zeta. apply wp_bind, wp_get, wp_bind, wp_assert.
    { destruct Hs1 as [? ? [_ Hsv] ? ? ? ? ? ? ?]. unfold gck_rpc_message_is_verified.
      by rewrite Hsv. }
    apply wp_ret. eapply pending_replied, serving_pending, Hs1.
  - intros [Hne Hb]. apply wp_ret. by split.
Qed.

Lemma rpc_C_GenerateRandom_serves :
  serves GCK_RPC_CALL_C_GenerateRandom (rpc_C_GenerateRandom M malloc_ok).
Proof.
  eapply serves_intro; [vm_compute; split; reflexivity|]. intros s Hs.
  serve_begin. repeat serve_step. destruct o0 as [n|].
  - serve_process. eapply end_array, OUT_BYTE_ARRAY_safe; [|eassumption|reflexivity].
    promised (fun ret v => bytes_out ret (v, Some n)). by apply (mo_C_GenerateRandom _ HM).
  - apply safe_exit; [done|]. by eapply sv_base.
Qed.
End Session_calls.

(** ** [dispatch_call] *)

Lemma switch_spec {A} (P : Z -> A -> Prop) v cases d :
  Forall (fun '(k, a) => P k a) cases -> one_of v (map fst cases) = true ->
  P v (switch v cases d).
Proof.
  induction 1 as [|[k a] cases Hk _ IH]; cbn [map fst one_of existsb switch]; [done|].
  destruct (Z.eqb_spec v k) as [->|]; [done|]. exact IH.
Qed.

Section Dispatch_call.
Context {W : Type} (M : CK_FUNCTION_LIST W) (HM : module_ok M).
Context (malloc_ok : list Z -> Z -> bool) (shutdown_ok : Z -> bool).

Lemma call_table_serves : Forall (fun '(id, h) => serves id h) (call_table M malloc_ok shutdown_ok).
Proof.
  unfold call_table.
  apply Forall_cons_2; [by apply rpc_C_Initialize_serves|].
  apply Forall_cons_2; [by apply rpc_C_Finalize_serves|].
  apply Forall_cons_2; [by apply rpc_C_GetInfo_serves|].
  apply Forall_cons_2; [by apply rpc_C_GetSlotList_serves|].
  apply Forall_cons_2; [by apply rpc_C_GetSlotInfo_serves|].
  apply Forall_cons_2; [by apply rpc_C_GetTokenInfo_serves|].
  apply Forall_cons_2; [by apply rpc_C_GetMechanismList_serves|].
  apply Forall_cons_2; [by apply rpc_C_GetMechanismInfo_serves|].
  apply Forall_cons_2; [by apply rpc_C_InitToken_serves|].
  apply Forall_cons_2; [by apply rpc_C_WaitForSlotEvent_serves|].
  apply Forall_cons_2; [by apply rpc_C_OpenSession_serves|].
  apply Forall_cons_2; [by apply rpc_C_CloseSession_serves|].
  apply Forall_cons_2; [by apply rpc_C_CloseAllSessions_serves|].
  apply Forall_cons_2; [by apply rpc_C_GetFunctionStatus_serves|].
  apply Forall_cons_2; [by apply rpc_C_CancelFunction_serves|].
  apply Forall_cons_2; [by apply rpc_C_GetSessionInfo_serves|].
  apply Forall_cons_2; [by apply rpc_C_InitPIN_serves|].
  apply Forall_cons_2; [by apply rpc_C_SetPIN_serves|].
  apply Forall_cons_2; [by apply rpc_C_GetOperationState_serves|].
  apply Forall_cons_2; [by apply rpc_C_SetOperationState_serves|].
  apply Forall_cons_2; [by apply rpc_C_Login_serves|].
  apply Forall_cons_2; [by apply rpc_C_Logout_serves|].
  apply Forall_cons_2; [by apply rpc_C_CreateObject_serves|].
  apply Forall_cons_2; [by apply rpc_C_CopyObject_serves|].
  apply Forall_cons_2; [by apply rpc_C_DestroyObject_serves|].
  apply Forall_cons_2; [by apply rpc_C_GetObjectSize_serves|].
  apply Forall_cons_2; [by apply rpc_C_GetAttributeValue_serves|].
  apply Forall_cons_2; [by apply rpc_C_SetAttributeValue_serves|].
  apply Forall_cons_2; [by apply rpc_C_FindObjectsInit_serves|].
  apply Forall_cons_2; [by apply rpc_C_FindObjects_serves|].
  apply Forall_cons_2; [by apply rpc_C_FindObjectsFinal_serves|].
  apply Forall_cons_2; [by apply rpc_C_EncryptInit_serves|].
  apply Forall_cons_2; [by apply rpc_C_Encrypt_serves|].
  apply Forall_cons_2; [by apply rpc_C_EncryptUpdate_serves|].
  apply Forall_cons_2; [by apply rpc_C_EncryptFinal_serves|].
  apply Forall_cons_2; [by apply rpc_C_DecryptInit_serves|].
  apply Forall_cons_2; [by apply rpc_C_Decrypt_serves|].
  apply Forall_cons_2; [by apply rpc_C_DecryptUpdate_serves|].
  apply Forall_cons_2; [by apply rpc_C_DecryptFinal_serves|].
  apply Forall_cons_2; [by apply rpc_C_DigestInit_serves|].
  apply Forall_cons_2; [by apply rpc_C_Digest_serves|].
  apply Forall_cons_2; [by apply rpc_C_DigestUpdate_serves|].
  apply Forall_cons_2; [by apply rpc_C_DigestKey_serves|].
  apply Forall_cons_2; [by apply rpc_C_DigestFinal_serves|].
  apply Forall_cons_2; [by apply rpc_C_SignInit_serves|].
  apply Forall_cons_2; [by apply rpc_C_Sign_serves|].
  apply Forall_cons_2; [by apply rpc_C_SignUpdate_serves|].
  apply Forall_cons_2; [by apply rpc_C_SignFinal_serves|].
  apply Forall_cons_2; [by apply rpc_C_SignRecoverInit_serves|].
  apply Forall_cons_2; [by apply rpc_C_SignRecover_serves|].
  apply Forall_cons_2; [by apply rpc_C_VerifyInit_serves|].
  apply Forall_cons_2; [by apply rpc_C_Verify_serves|].
  apply Forall_cons_2; [by apply rpc_C_VerifyUpdate_serves|].
  apply Forall_cons_2; [by apply rpc_C_VerifyFinal_serves|].
  apply Forall_cons_2; [by apply rpc_C_VerifyRecoverInit_serves|].
  apply Forall_cons_2; [by apply rpc_C_VerifyRecover_serves|].
  apply Forall_cons_2; [by apply rpc_C_DigestEncryptUpdate_serves|].
  apply Forall_cons_2; [by apply rpc_C_DecryptDigestUpdate_serves|].
  apply Forall_cons_2; [by apply rpc_C_SignEncryptUpdate_serves|].
  apply Forall_cons_2; [by apply rpc_C_DecryptVerifyUpdate_serves|].
  apply Forall_cons_2; [by apply rpc_C_GenerateKey_serves|].
  apply Forall_cons_2; [by apply rpc_C_GenerateKeyPair_serves|].
  apply Forall_cons_2; [by apply rpc_C_WrapKey_serves|].
  apply Forall_cons_2; [by apply rpc_C_UnwrapKey_serves|].
  apply Forall_cons_2; [by apply rpc_C_DeriveKey_serves|].
  apply Forall_cons_2; [by apply rpc_C_SeedRandom_serves|].
  apply Forall_cons_2; [by apply rpc_C_GenerateRandom_serves|].
  apply Forall_nil_2.
Qed.

Lemma call_ids_complete id :
  0 < id < GCK_RPC_CALL_MAX -> one_of id (map fst (call_table M malloc_ok shutdown_ok)) = true.
Proof.
  intros Hid. unfold GCK_RPC_CALL_MAX in Hid.
  assert (forallb (fun i => one_of (Z.of_nat i) (map fst (call_table M malloc_ok shutdown_ok)))
            (seq 1 67) = true) as H by (vm_compute; reflexivity).
  rewrite forallb_forall in H. specialize (H (Z.to_nat id) ltac:(apply in_seq; lia)).
  by rewrite Z2Nat.id in H by lia.
Qed.

Lemma call_handler_serves id :
  0 < id < GCK_RPC_CALL_MAX -> serves id (call_handler M malloc_ok shutdown_ok id).
Proof.
  intros. apply (switch_spec serves); [apply call_table_serves|by apply call_ids_complete].
Qed.

(** Before and after a request is dispatched. *)
Record dispatcher_ok (s : Proc W) : Prop := {
  do_req : buffer_ok (buffer (req s));
  do_resp : buffer_ok (buffer (resp s));
  do_sessions : length (sessions s) = PKCS11PROXY_MAX_SESSION_COUNT;
  do_sock : 0 <= cs_sock (p_cs s);
  do_req_alloc : is_Some (eb_allocator (buffer (req s)));
  do_resp_alloc : is_Some (eb_allocator (buffer (resp s)));
}.

(** What is sent back: the call id, signature and results of the call, or the
    error id and the return value. *)
Definition good_response (id : Z) (m : GckRpcMessage) : Prop :=
  (exists c ps, gck_rpc_call id = Ok c /\ c_response c = Some (sigs_of ps)
     /\ contents (buffer m) = header id (Some (sigs_of ps)) ++ enc_parts ps)
  \/ (exists rv, rv <> CKR_OK
     /\ contents (buffer m) = header GCK_RPC_CALL_ERROR None ++ enc_uint64 (wrap32 rv)).

Lemma write_error_wp ret m :
  buffer_ok (buffer m) ->
  wp (write_error ret) (fun ok m' => kept m m'
    /\ (ok = true -> contents (buffer m') = header GCK_RPC_CALL_ERROR None ++ enc_uint64 (wrap32 ret))
    /\ (gives_room m -> ok = true /\ eb_failures (buffer m') = 0)) m.
Proof.
  intros Hb. unfold write_error. cbn [write_all].
  eapply wp_call; [by apply prep_error_wp|]. intros [|] m1 (Hp & Hf & Ha1 & Hroom1).
  2: { apply wp_ret. split; [by destruct Hp|]. split; [done|]. intros Hg. by specialize (Hroom1 Hg). }
  assert (eb_failures (buffer m1) = 0) as Hf0 by (by apply Hf).
  eapply wp_call.
  { apply (write_ulong_sends (wrap32 ret) m1 None); [by eapply prepared_clean|].
    rewrite <- (pr_sigverify _ _ _ _ Hp). apply takes_unsigned, Hp. }
  intros ok m2 [(b & -> & [Hb2 Ha2 ? ? Hd Hroom2]) Hok].
  assert (kept m (set_buffer b (set_sigverify None m1))) as Hk by (split; [done|exact (eq_trans Ha2 Ha1)]).
  assert (gives_room m -> ok = true /\ eb_failures b = 0) as Hg.
  { intros Hg. assert (eb_failures b = 0) as Hb0; [|split; [by apply Hok|done]].
    cbn in *. rewrite Hroom2; [done|]. split; [by rewrite Ha1|].
    rewrite (pr_contents _ _ _ _ Hp Hf0).
    pose proof (header_short GCK_RPC_CALL_ERROR None ltac:(done)). rewrite zlen_enc_uint64. lia. }
  destruct ok; [|by apply wp_ret]. apply wp_ret. split; [done|]. split; [|done]. intros _. cbn in *.
  assert (eb_failures b = 0) by (by apply Hok).
  rewrite Hd by lia. by rewrite (pr_contents _ _ _ _ Hp Hf0).
Qed.

Lemma prepared_serving id c q sg s m :
  dispatcher_ok s -> accepted GCK_RPC_REQUEST (req s) -> call_id (req s) = id ->
  gck_rpc_call id = Ok c -> c_request c = Some q -> c_response c = Some sg ->
  prepared id GCK_RPC_RESPONSE (Some sg) m -> eb_failures (buffer m) = 0 ->
  is_Some (eb_allocator (buffer m)) ->
  serving id sg q [] sg (set_resp m s).
Proof.
  intros [Hq Hr Hss Hsk Hqa Hra] [Hok Hid Hty (c' & q' & Hc' & Hq' & Hsig & Hsv)] <- Hc Hcq Hcr Hp Hf Hal.
  rewrite Hc in Hc'. injection Hc' as <-. cbn in Hq'. rewrite Hcq in Hq'. injection Hq' as <-.
  pose proof Hp as [? ? ? ? ? ? Hcon].
  split; try done; cbn; try congruence.
  rewrite Hcon by done. unfold enc_parts. cbn. by rewrite app_nil_r.
Qed.

(** The end of [dispatch_call]: the checks on a filled in response, or the
    error response. *)
Lemma respond_wp id sg c ret s1 :
  gck_rpc_call id = Ok c -> c_response c = Some sg -> replied id sg ret s1 ->
  wp (s ← get_st;
      let ret :=
        if ret =? CKR_OK then
          if gck_rpc_message_buffer_error (resp s) then PREP_ERROR
          else if gck_rpc_message_buffer_error (req s) then PARSE_ERROR
          else ret
        else ret in
      if ret =? CKR_OK then
        assert_ (gck_rpc_message_is_verified (resp s));;
        assert_ (bool_decide (call_type (resp s) = Some GCK_RPC_RESPONSE));;
        assert_ (call_id (resp s) =? call_id (req s));;
        c ← lift_res (gck_rpc_call (call_id (resp s)));
        assert_ (nonnull (c_response c));;
        sig ← lift_res (deref (signature (resp s)));
        assert_ (bool_decide (c_response c = Some sig));;
        mret true
      else
        ok ← on_resp (write_error ret);
        s ← get_st;
        mret (ok && negb (gck_rpc_message_buffer_error (resp s))))
    (fun r s' => dispatcher_ok s' /\ (r = true -> good_response id (resp s'))
       /\ (gives_room (resp s1) -> r = true)) s1.
Proof.
  intros Hc Hcr [[Hq Hid Hr Hss Hsk Hqa Hra] Hok]. apply wp_bind, wp_get. cbv zeta.
  set (rv := if ret =? CKR_OK then _ else ret).
  assert (rv = CKR_OK -> ret = CKR_OK) as Hrv
    by (unfold rv; destruct (Z.eqb_spec ret CKR_OK); done).
  clearbody rv. destruct (Z.eqb_spec rv CKR_OK) as [E|E].
  - destruct (Hok (Hrv E)) as (q & ps & [[] ? ? ? [? Hsv] Hi Ht Hsg Hcon Hst]).
    apply string_strip_all in Hst. subst sg.
    apply wp_bind, wp_assert; [unfold gck_rpc_message_is_verified; by rewrite Hsv|].
    apply wp_bind, wp_assert; [by rewrite bool_decide_true|].
    apply wp_bind, wp_assert; [by rewrite Hi, Hid, Z.eqb_refl|].
    apply wp_bind. eapply wp_lift_res; [rewrite Hi; exact Hc|].
    apply wp_bind, wp_assert; [by rewrite Hcr|].
    apply wp_bind. eapply wp_lift_res; [rewrite Hsg; reflexivity|].
    apply wp_bind, wp_assert; [by rewrite bool_decide_true|]. apply wp_ret.
    split; [by split|]. split; [|done]. intros _. left. by exists c, ps.
  - apply wp_bind, wp_zoom. eapply wp_mono; [by apply write_error_wp|].
      intros ok m ([Hb Ha] & Hm & Hg). apply wp_bind, wp_get, wp_ret.
    split; [split; try done; cbn; by rewrite Ha|]. split.
    + intros [Hokt _]%andb_true_iff. right. exists rv. split; [done|]. by apply Hm.
    + intros [-> Hf]%Hg. cbn [andb]. apply negb_true_iff. by apply has_error_false.
Qed.

Lemma dispatch_call_wp s :
  dispatcher_ok s -> accepted GCK_RPC_REQUEST (req s) ->
  wp (dispatch_call M malloc_ok shutdown_ok) (fun r s' =>
    dispatcher_ok s' /\ (r = true -> good_response (call_id (req s)) (resp s'))) s.
Proof.
  intros Hd Ha. pose proof Hd as [Hq Hr Hss Hsk Hqa Hra].
  pose proof Ha as [Hok Hid Hty (c & q & Hc & Hcq & Hsig & Hsv)].
  destruct (call_signature_some _ _ GCK_RPC_RESPONSE Hc Hid) as [sg Hsg]. cbn in Hsg, Hcq.
  unfold dispatch_call. apply wp_bind, wp_get. cbv zeta.
  apply wp_bind, wp_assert; [apply Z.ltb_lt; apply Hid|].
  apply wp_bind, wp_assert; [apply Z.ltb_lt; apply Hid|].
  apply wp_bind, wp_zoom.
  eapply wp_mono; [by apply (prep_call_wp _ GCK_RPC_RESPONSE c)|].
  cbn [call_signature]. rewrite Hsg. intros ok m (Hp & Hf & Ham & _).
  assert (is_Some (eb_allocator (buffer m))) as Hal by (by rewrite Ham).
  destruct ok; cbn [negb]; [|apply wp_ret; destruct Hp; by split].
  assert (eb_failures (buffer m) = 0) as Hf0 by (by apply Hf).
  pose proof (prepared_serving _ _ _ _ _ _ Hd Ha eq_refl Hc Hcq Hsg Hp Hf0 Hal) as Hs.
  eapply wp_call; [by eapply (call_handler_serves _ Hid)|].
  intros ret s1 Hrep. eapply wp_mono; [by eapply respond_wp|]. by intros r s2 (? & ? & _).
Qed.
End Dispatch_call.
