(* ===== verification/Allocators.v ===== *)
(** The dispatcher never changes which allocator a message grows by: whatever
    a call reads, computes and writes, the buffers of its two messages keep the
    allocator they were made with.  So memory that is found for one response is
    found for all of them. *)
From S2P Require Import Prelude EggBuffer Pkcs11 RpcUtil Calls Message DispatchProto Dispatch.

(** ** Code that leaves a part of the state alone *)

(** Where [m] returns, [f] of the state is as before. *)
Definition keeps {S A B} (f : S -> B) (m : ST S A) : Prop :=
  forall s a s', m s = Ok (a, s') -> f s' = f s.

Lemma keeps_wp {S A B} (f : S -> B) (m : ST S A) Q s :
  keeps f m -> wp m Q s -> wp m (fun a s' => Q a s' /\ f s' = f s) s.
Proof.
  intros Hk Hw. destruct (wp_inv _ _ _ Hw) as (a & s' & Hrun & Hq).
  eapply wp_intro; [exact Hrun|]. split; [done|]. by eapply Hk.
Qed.

Section Keeps.
Context {S B : Type} (f : S -> B).

Lemma keeps_ret {A} (a : A) : keeps f (mret a : ST S A).
Proof. by intros s ? s' [= _ <-]. Qed.
Lemma keeps_crash {A} e : keeps f (crash e : ST S A).
Proof. by intros s ? s' [=]. Qed.
Lemma keeps_get : keeps f get_st.
Proof. by intros s ? s' [= _ <-]. Qed.
Lemma keeps_gets {A} (g : S -> A) : keeps f (gets g).
Proof. by intros s ? s' [= _ <-]. Qed.
Lemma keeps_lift_res {A} (r : res A) : keeps f (lift_res r).
Proof. intros s ? s'. unfold lift_res. destruct r; [|done]. by intros [= _ <-]. Qed.
Lemma keeps_assert e : keeps f (assert_ e).
Proof. intros s ? s'. unfold assert_. destruct e; [|done]. by intros [= _ <-]. Qed.
Lemma keeps_modify (g : S -> S) : (forall s, f (g s) = f s) -> keeps f (modify g).
Proof. intros Hg s ? s' [= _ <-]. apply Hg. Qed.
Lemma keeps_bind {A C} (m : ST S A) (k : A -> ST S C) :
  keeps f m -> (forall a, keeps f (k a)) -> keeps f (m ≫= k).
Proof.
  intros Hm Hk s c s'. unfold mbind, ST_bind. destruct (m s) as [[a s1]|] eqn:E; [|done].
  intros H. rewrite (Hk a s1 c s' H). by eapply Hm.
Qed.

(** A part of the state may be changed as long as [f] does not see it. *)
Lemma keeps_zoom {T A B'} (f' : T -> B') (get : S -> T) (set : T -> S -> S) (m : ST T A) :
  keeps f' m -> (forall t s, f' t = f' (get s) -> f (set t s) = f s) -> keeps f (zoom get set m).
Proof.
  intros Hm Hset s a s'. unfold zoom. destruct (m (get s)) as [[b t]|] eqn:E; [|done].
  intros [= _ <-]. apply Hset. by eapply Hm.
Qed.

(** Code with early exits. *)
Lemma keeps_call_ret {A} (a : A) : keeps f (mret a : Call S A).
Proof. by intros s ? s' [= _ <-]. Qed.
Lemma keeps_exit {A} rv : keeps f (exit rv : Call S A).
Proof. by intros s ? s' [= _ <-]. Qed.
Lemma keeps_call {A} (m : ST S A) : keeps f m -> keeps f (call m).
Proof.
  intros Hm s r s'. unfold call. destruct (m s) as [[a s1]|] eqn:E; [|done].
  intros [= _ <-]. by eapply Hm.
Qed.
Lemma keeps_or_exit {A} rv (m : ST S (option A)) : keeps f m -> keeps f (or_exit rv m).
Proof.
  intros Hm s r s'. unfold or_exit. destruct (m s) as [[[a|] s1]|] eqn:E; [..|done];
    intros [= _ <-]; by eapply Hm.
Qed.
Lemma keeps_call_bind {A C} (m : Call S A) (k : A -> Call S C) :
  keeps f m -> (forall a, keeps f (k a)) -> keeps f (m ≫= k).
Proof.
  intros Hm Hk s c s'. unfold mbind, Call_bind. destruct (m s) as [[[a|rv] s1]|] eqn:E; [..|done].
  - intros H. rewrite (Hk a s1 c s' H). by eapply Hm.
  - intros [= _ <-]. by eapply Hm.
Qed.
End Keeps.

Create HintDb keeps.
#[export] Hint Resolve keeps_ret keeps_crash keeps_get keeps_gets keeps_lift_res keeps_assert
  keeps_call_ret keeps_exit : keeps.

(** Walks through code, branch by branch. *)
Ltac keeps_step :=
  first
    [ solve [auto with keeps nocore]
    | lazymatch goal with
      | |- keeps _ (@mbind _ (Call_bind _) _ _ _ _) => apply keeps_call_bind; [|intros ?]
      | |- keeps _ (@mbind _ (ST_bind _) _ _ _ _) => apply keeps_bind; [|intros ?]
      end
    | apply keeps_call
    | apply keeps_or_exit
    | progress cbv zeta
    | apply keeps_modify; done
    | match goal with
      | |- keeps _ (match ?x with _ => _ end) => destruct x
      end ].
Ltac keeps := repeat keeps_step.

(** ** Buffers *)

Lemma reserve_keeps n : keeps eb_allocator (egg_buffer_reserve n).
Proof.
  intros b r b'. unfold egg_buffer_reserve, buffer_fail. destruct (_ <? _); [by intros [= _ <-]|].
  cbv zeta. destruct (eb_allocator b) as [al|] eqn:E; [|intros [= _ <-]; done].
  destruct (al_realloc _ _ _); intros [= _ <-]; done.
Qed.
Lemma store_keeps off bs : keeps eb_allocator (store off bs).
Proof.
  intros b r b'. unfold store, mbind, res_bind. destruct (mem_write _ _ _); [|done]. by intros [= _ <-].
Qed.
Lemma buffer_fail_keeps {A} (r : A) : keeps eb_allocator (buffer_fail r).
Proof. unfold buffer_fail. keeps. Qed.
#[export] Hint Resolve reserve_keeps store_keeps buffer_fail_keeps : keeps.

Lemma reset_keeps : keeps eb_allocator egg_buffer_reset.
Proof.
  intros b r b'. unfold egg_buffer_reset, mbind, res_bind. destruct (mem_write _ _ _); [|done].
  by intros [= _ <-].
Qed.
Lemma read_at_keeps {A} n (d : list Z -> A) off : keeps eb_allocator (read_at n d off).
Proof.
  intros b r b'. unfold read_at. destruct (out_of_range _ _ _); [apply buffer_fail_keeps|].
  unfold mbind, res_bind. destruct (mem_read _ _ _); [|done]. by intros [= _ <-].
Qed.
#[export] Hint Resolve reset_keeps read_at_keeps : keeps.

Lemma get_byte_keeps off : keeps eb_allocator (egg_buffer_get_byte off).
Proof. apply read_at_keeps. Qed.
Lemma get_uint32_keeps off : keeps eb_allocator (egg_buffer_get_uint32 off).
Proof. apply read_at_keeps. Qed.
#[export] Hint Resolve get_byte_keeps get_uint32_keeps : keeps.
Lemma get_uint64_keeps off : keeps eb_allocator (egg_buffer_get_uint64 off).
Proof. unfold egg_buffer_get_uint64. keeps. Qed.
Lemma get_byte_array_keeps off : keeps eb_allocator (egg_buffer_get_byte_array off).
Proof. unfold egg_buffer_get_byte_array. keeps. Qed.
Lemma set_uint32_keeps off v : keeps eb_allocator (egg_buffer_set_uint32 off v).
Proof.
  intros b r b'. unfold egg_buffer_set_uint32. destruct (out_of_range _ _ _); [apply buffer_fail_keeps|].
  assert (keeps eb_allocator (store off (egg_buffer_encode_uint32 v);; mret true)) as H by keeps.
  apply H.
Qed.
#[export] Hint Resolve get_uint64_keeps get_byte_array_keeps set_uint32_keeps : keeps.

Lemma append_keeps v n : keeps eb_allocator (egg_buffer_append v n).
Proof. unfold egg_buffer_append. keeps. Qed.
Lemma add_empty_keeps n : keeps eb_allocator (egg_buffer_add_empty n).
Proof. unfold egg_buffer_add_empty. keeps. Qed.
Lemma add_byte_keeps v : keeps eb_allocator (egg_buffer_add_byte v).
Proof. unfold egg_buffer_add_byte. keeps. Qed.
Lemma add_uint32_keeps v : keeps eb_allocator (egg_buffer_add_uint32 v).
Proof. unfold egg_buffer_add_uint32. keeps. Qed.
#[export] Hint Resolve append_keeps add_empty_keeps add_byte_keeps add_uint32_keeps : keeps.
Lemma add_uint64_keeps v : keeps eb_allocator (egg_buffer_add_uint64 v).
Proof. unfold egg_buffer_add_uint64. keeps. Qed.
Lemma add_byte_array_keeps v n : keeps eb_allocator (egg_buffer_add_byte_array v n).
Proof. unfold egg_buffer_add_byte_array. keeps. Qed.
#[export] Hint Resolve add_uint64_keeps add_byte_array_keeps : keeps.

(** ** Messages *)

Definition msg_allocator (m : GckRpcMessage) : option EggBufferAllocator := eb_allocator (buffer m).

Lemma on_buffer_keeps {A} (op : ST EggBuffer A) :
  keeps eb_allocator op -> keeps msg_allocator (on_buffer op).
Proof. intros H. by apply (keeps_zoom _ eb_allocator). Qed.
Lemma msg_get_keeps {A} (get : Z -> ST EggBuffer (option (A * Z))) :
  (forall off, keeps eb_allocator (get off)) -> keeps msg_allocator (msg_get get).
Proof.
  intros Hg. unfold msg_get. apply keeps_bind; [apply keeps_gets|intros pos].
  apply keeps_bind; [by apply on_buffer_keeps|intros r]. keeps.
Qed.

Ltac keeps_msg := repeat first [apply on_buffer_keeps | apply msg_get_keeps; intros ? | keeps_step].

Lemma check_part_keeps p : keeps msg_allocator (check_part p).
Proof. unfold check_part, gck_rpc_message_verify_part. keeps_msg. Qed.
Lemma no_error_keeps : keeps msg_allocator no_error.
Proof. apply keeps_gets. Qed.
#[export] Hint Resolve check_part_keeps no_error_keeps : keeps.

Lemma message_reset_keeps : keeps msg_allocator gck_rpc_message_reset.
Proof. unfold gck_rpc_message_reset. keeps_msg. Qed.
#[export] Hint Resolve message_reset_keeps : keeps.
Lemma prep_keeps id type : keeps msg_allocator (gck_rpc_message_prep id type).
Proof. unfold gck_rpc_message_prep. keeps_msg. Qed.
Lemma parse_keeps type : keeps msg_allocator (gck_rpc_message_parse type).
Proof. unfold gck_rpc_message_parse. keeps_msg. Qed.
#[export] Hint Resolve prep_keeps parse_keeps : keeps.

Lemma write_elements_keeps {A} (k : A -> ST GckRpcMessage unit) n l :
  (forall a, keeps msg_allocator (k a)) -> keeps msg_allocator (write_elements k n l).
Proof. intros Hk. revert l. induction n as [|n IH]; intros l; destruct l; cbn [write_elements]; keeps. Qed.
Lemma write_all_keeps ks :
  Forall (keeps msg_allocator) ks -> keeps msg_allocator (write_all ks).
Proof. induction 1 as [|k ks Hk _ IH]; cbn [write_all]; [keeps|]. apply keeps_bind; [done|]. intros []; [done|keeps]. Qed.

Lemma write_byte_keeps v : keeps msg_allocator (gck_rpc_message_write_byte v).
Proof. unfold gck_rpc_message_write_byte. keeps_msg. Qed.
Lemma write_ulong_keeps v : keeps msg_allocator (gck_rpc_message_write_ulong v).
Proof. unfold gck_rpc_message_write_ulong. keeps_msg. Qed.
Lemma write_version_keeps v : keeps msg_allocator (gck_rpc_message_write_version v).
Proof. unfold gck_rpc_message_write_version. keeps_msg. Qed.
Lemma write_space_string_keeps s n : keeps msg_allocator (gck_rpc_message_write_space_string s n).
Proof. unfold gck_rpc_message_write_space_string. keeps_msg. Qed.
Lemma write_byte_array_keeps a n : keeps msg_allocator (gck_rpc_message_write_byte_array a n).
Proof. unfold gck_rpc_message_write_byte_array. keeps_msg. Qed.
Lemma write_ulong_array_keeps a n : keeps msg_allocator (gck_rpc_message_write_ulong_array a n).
Proof.
  unfold gck_rpc_message_write_ulong_array.
  repeat first [apply write_elements_keeps; intros ? | apply on_buffer_keeps | keeps_step].
Qed.
Lemma write_attribute_array_keeps a n : keeps msg_allocator (gck_rpc_message_write_attribute_array a n).
Proof.
  unfold gck_rpc_message_write_attribute_array, write_attribute.
  repeat first [apply write_elements_keeps; intros ? | apply on_buffer_keeps | keeps_step].
Qed.
#[export] Hint Resolve write_byte_keeps write_ulong_keeps write_version_keeps write_space_string_keeps
  write_byte_array_keeps write_ulong_array_keeps write_attribute_array_keeps : keeps.

Lemma read_byte_keeps : keeps msg_allocator gck_rpc_message_read_byte.
Proof. unfold gck_rpc_message_read_byte. keeps_msg. Qed.
Lemma read_ulong_keeps : keeps msg_allocator gck_rpc_message_read_ulong.
Proof. unfold gck_rpc_message_read_ulong. keeps_msg. Qed.
#[export] Hint Resolve read_byte_keeps read_ulong_keeps : keeps.

(** ** The calls *)

Section Calls.
Context {W : Type} (M : CK_FUNCTION_LIST W).
Context (malloc_ok : list Z -> Z -> bool) (shutdown_ok : Z -> bool).

(** The allocators of the request's and the response's buffer. *)
Definition allocators (s : Proc W) : option EggBufferAllocator * option EggBufferAllocator :=
  (msg_allocator (req s), msg_allocator (resp s)).

Lemma on_req_keeps {A} (m : ST GckRpcMessage A) : keeps msg_allocator m -> keeps allocators (on_req m).
Proof.
  intros H. apply (keeps_zoom _ msg_allocator); [done|]. intros t s Ht. unfold allocators.
  change (msg_allocator (req (set_req t s))) with (msg_allocator t). by rewrite Ht.
Qed.
Lemma on_resp_keeps {A} (m : ST GckRpcMessage A) : keeps msg_allocator m -> keeps allocators (on_resp m).
Proof.
  intros H. apply (keeps_zoom _ msg_allocator); [done|]. intros t s Ht. unfold allocators.
  change (msg_allocator (resp (set_resp t s))) with (msg_allocator t). by rewrite Ht.
Qed.
Lemma run_module_keeps {A} (m : mfun W A) : keeps allocators (run_module m).
Proof. intros s r s'. unfold run_module. destruct (m _) as [a w]. by intros [= _ <-]. Qed.
Lemma session_at_keeps i : keeps allocators (session_at i).
Proof. intros s r s'. unfold session_at. destruct (_ !! _); [|done]. by intros [= _ <-]. Qed.
Lemma clear_session_keeps i : keeps allocators (clear_session i).
Proof. by apply keeps_modify. Qed.
Hint Resolve run_module_keeps session_at_keeps clear_session_keeps : keeps.

Lemma get_or_exit_keeps {A} (get : Z -> ST EggBuffer (option (A * Z))) :
  (forall off, keeps eb_allocator (get off)) -> keeps allocators (get_or_exit get).
Proof. intros H. by apply keeps_or_exit, on_req_keeps, msg_get_keeps. Qed.
Lemma alloc_or_exit_keeps n : keeps allocators (alloc_or_exit malloc_ok n).
Proof. unfold alloc_or_exit, call_alloc. keeps. Qed.
Hint Resolve alloc_or_exit_keeps : keeps.

(** The code of the calls, to its last bind. *)
Ltac keeps_calls := repeat
  first
    [ apply on_req_keeps | apply on_resp_keeps | apply get_or_exit_keeps; intros ? | keeps_step ].

Lemma read_byte_array_keeps : keeps allocators proto_read_byte_array.
Proof. unfold proto_read_byte_array. keeps_calls. Qed.
Lemma read_byte_buffer_keeps : keeps allocators (proto_read_byte_buffer malloc_ok).
Proof. unfold proto_read_byte_buffer. keeps_calls. Qed.
Lemma read_ulong_buffer_keeps : keeps allocators (proto_read_ulong_buffer malloc_ok).
Proof. unfold proto_read_ulong_buffer. keeps_calls. Qed.
Lemma read_space_string_keeps n : keeps allocators (proto_read_space_string malloc_ok n).
Proof. unfold proto_read_space_string. keeps_calls. Qed.
Lemma read_mechanism_keeps : keeps allocators proto_read_mechanism.
Proof. unfold proto_read_mechanism. keeps_calls. Qed.
Lemma read_elements_keeps {A} (rd : Call (Proc W) A) n :
  keeps allocators rd -> keeps allocators (read_elements rd n).
Proof. intros H. induction n; cbn [read_elements]; keeps_calls. Qed.
Lemma read_attribute_buffer_keeps : keeps allocators (proto_read_attribute_buffer malloc_ok).
Proof.
  unfold proto_read_attribute_buffer, read_attribute_size.
  repeat first [apply read_elements_keeps | keeps_calls; fail | progress keeps_calls].
Qed.
Lemma read_attribute_array_keeps : keeps allocators (proto_read_attribute_array malloc_ok).
Proof.
  unfold proto_read_attribute_array, read_attribute.
  repeat first [apply read_elements_keeps | keeps_calls; fail | progress keeps_calls].
Qed.
Lemma prepared_or_keeps ret m : keeps msg_allocator m -> keeps allocators (prepared_or ret m).
Proof. intros H. unfold prepared_or. keeps_calls. Qed.
Hint Resolve read_byte_array_keeps read_byte_buffer_keeps read_ulong_buffer_keeps
  read_space_string_keeps read_mechanism_keeps read_attribute_buffer_keeps
  read_attribute_array_keeps : keeps.

Lemma proto_write_byte_array_keeps a n ret : keeps allocators (proto_write_byte_array a n ret : ST (Proc W) Z).
Proof. unfold proto_write_byte_array. repeat first [apply prepared_or_keeps | keeps_step]. Qed.
Lemma proto_write_ulong_array_keeps a n ret : keeps allocators (proto_write_ulong_array a n ret : ST (Proc W) Z).
Proof. unfold proto_write_ulong_array. repeat first [apply prepared_or_keeps | keeps_step]. Qed.
Lemma proto_write_attribute_array_keeps a n ret :
  keeps allocators (proto_write_attribute_array a n ret : ST (Proc W) Z).
Proof.
  unfold proto_write_attribute_array. destruct (one_of _ _); [|keeps].
  apply prepared_or_keeps, write_all_keeps. repeat constructor; auto with keeps.
Qed.
Lemma write_parts_keeps ret ks : Forall (keeps msg_allocator) ks ->
  keeps allocators (prepared_or ret (write_all ks) : ST (Proc W) Z).
Proof. intros H. by apply prepared_or_keeps, write_all_keeps. Qed.
Hint Resolve proto_write_byte_array_keeps proto_write_ulong_array_keeps
  proto_write_attribute_array_keeps : keeps.

Lemma PROCESS_CALL_keeps {A} (m : mfun W A) : keeps allocators (PROCESS_CALL m).
Proof. unfold PROCESS_CALL. keeps_calls. Qed.
Lemma END_CALL_keeps (body : Call (Proc W) Z) : keeps allocators body -> keeps allocators (END_CALL body).
Proof. intros H. unfold END_CALL. apply keeps_bind; [exact H|]. intros []; keeps. Qed.
Lemma BEGIN_CALL_keeps {F} (func : option F) : keeps allocators (BEGIN_CALL func : Call (Proc W) F).
Proof. unfold BEGIN_CALL. keeps. Qed.
Lemma IN_BYTE_keeps : keeps allocators (IN_BYTE : Call (Proc W) Z).
Proof. unfold IN_BYTE. keeps_calls. Qed.
Lemma IN_ULONG_keeps : keeps allocators (IN_ULONG : Call (Proc W) Z).
Proof. unfold IN_ULONG. keeps_calls. Qed.
Lemma OUT_ULONG_keeps v ret : keeps allocators (OUT_ULONG v ret : Call (Proc W) Z).
Proof. unfold OUT_ULONG. repeat first [apply prepared_or_keeps | keeps_step]. Qed.
Lemma out_if_ok_keeps write ret :
  keeps allocators write -> keeps allocators (out_if_ok write ret : Call (Proc W) Z).
Proof. intros H. unfold out_if_ok. keeps. Qed.
Hint Resolve PROCESS_CALL_keeps BEGIN_CALL_keeps IN_BYTE_keeps IN_ULONG_keeps OUT_ULONG_keeps : keeps.

Ltac head_of t := lazymatch t with ?f _ => head_of f | _ => t end.
Ltac keeps_handler :=
  apply END_CALL_keeps;
  unfold IN_SPACE_STRING, IN_BYTE_BUFFER, IN_BYTE_ARRAY, IN_ULONG_BUFFER, IN_ATTRIBUTE_BUFFER,
    IN_ATTRIBUTE_ARRAY, IN_MECHANISM, OUT_BYTE_ARRAY, OUT_ULONG_ARRAY, OUT_ATTRIBUTE_ARRAY,
    OUT_INFO, OUT_SLOT_INFO, OUT_TOKEN_INFO, OUT_MECHANISM_INFO, OUT_SESSION_INFO;
  repeat first
    [ apply out_if_ok_keeps, write_parts_keeps;
      repeat first [apply Forall_nil_2 | apply Forall_cons_2; [auto with keeps nocore; fail|]]
    | keeps_step ].

Lemma finalize_sessions_keeps n i ret : keeps allocators (finalize_sessions M n i ret).
Proof. revert i ret. induction n as [|n IH]; intros i ret; cbn [finalize_sessions]; keeps. Qed.
Lemma close_sessions_keeps slot n i ret : keeps allocators (close_sessions M slot n i ret).
Proof. revert i ret. induction n as [|n IH]; intros i ret; cbn [close_sessions]; keeps. Qed.
Hint Resolve finalize_sessions_keeps close_sessions_keeps : keeps.

Lemma rpc_C_Finalize_keeps : keeps allocators (rpc_C_Finalize M shutdown_ok).
Proof. unfold rpc_C_Finalize. keeps. Qed.
Lemma rpc_C_Initialize_keeps : keeps allocators (rpc_C_Initialize : ST (Proc W) Z).
Proof. unfold rpc_C_Initialize. keeps. Qed.

Lemma call_table_keeps :
  Forall (fun '(_, h) => keeps allocators h) (call_table M malloc_ok shutdown_ok).
Proof.
  unfold call_table.
  repeat first [apply Forall_nil_2
    | apply Forall_cons_2; [first [apply rpc_C_Initialize_keeps | apply rpc_C_Finalize_keeps
        | match goal with |- keeps _ ?h => let f := head_of h in unfold f end; keeps_handler; fail]|]].
Qed.

Lemma switch_keeps (id : Z) (table : list (Z * ST (Proc W) Z)) d :
  Forall (fun '(_, h) => keeps allocators h) table -> keeps allocators d ->
  keeps allocators (switch id table d).
Proof.
  intros Ht Hd. induction Ht as [|[k h] table Hh _ IH]; cbn [switch]; [done|]. by destruct (id =? k).
Qed.

Lemma call_handler_keeps id : keeps allocators (call_handler M malloc_ok shutdown_ok id).
Proof. unfold call_handler. apply switch_keeps; [apply call_table_keeps|]. keeps. Qed.

Lemma write_error_keeps ret : keeps msg_allocator (write_error ret).
Proof. apply write_all_keeps. repeat constructor; auto with keeps. Qed.
Hint Resolve call_handler_keeps write_error_keeps : keeps.

Lemma dispatch_call_keeps : keeps allocators (dispatch_call M malloc_ok shutdown_ok).
Proof. unfold dispatch_call. keeps_calls. Qed.

Lemma reset_messages_keeps : keeps allocators (call_reset : ST (Proc W) unit).
Proof. unfold call_reset. keeps_calls. Qed.

(** ** Every request that is accepted is answered

    when memory is found for the response. *)
Context (HM : module_ok M).

Lemma dispatch_call_answers s :
  dispatcher_ok s -> accepted GCK_RPC_REQUEST (req s) -> gives_room (resp s) ->
  wp (dispatch_call M malloc_ok shutdown_ok) (fun r _ => r = true) s.
Proof.
  intros Hd Ha Hg. pose proof Hd as [Hq Hr Hss Hsk Hqa Hra].
  pose proof Ha as [Hok Hid Hty (c & q & Hc & Hcq & Hsig & Hsv)].
  destruct (call_signature_some _ _ GCK_RPC_RESPONSE Hc Hid) as [sg Hsg]. cbn in Hsg, Hcq.
  unfold dispatch_call. apply wp_bind, wp_get. cbv zeta.
  apply wp_bind, wp_assert; [apply Z.ltb_lt; apply Hid|].
  apply wp_bind, wp_assert; [apply Z.ltb_lt; apply Hid|].
  apply wp_bind, wp_zoom.
  eapply wp_mono; [by apply (prep_call_wp _ GCK_RPC_RESPONSE c)|].
  cbn [call_signature]. rewrite Hsg. intros ok m (Hp & Hf & Ham & Hroom). rewrite (Hroom Hg) in *.
  assert (is_Some (eb_allocator (buffer m))) as Hal by (by rewrite Ham).
  assert (eb_failures (buffer m) = 0) as Hf0 by (by apply Hf). cbn [negb].
  pose proof (prepared_serving _ _ _ _ _ _ Hd Ha eq_refl Hc Hcq Hsg Hp Hf0 Hal) as Hs.
  pose proof (call_handler_serves M HM malloc_ok shutdown_ok _ Hid) as Hserves.
  eapply wp_call; [eapply keeps_wp; [apply call_handler_keeps|by eapply Hserves]|].
  intros ret s1 [Hrep Hk]. eapply wp_mono; [by eapply respond_wp|]. intros r s2 (_ & _ & Htrue).
  apply Htrue. injection Hk as _ Hk. unfold gives_room, msg_allocator in *. rewrite Hk.
  cbn. by rewrite Ham.
Qed.
End Calls.
