(* ===== verification/DispatchReads.v ===== *)
(** What the dispatcher of gck-rpc-dispatch.c reads from a request is what the
    module of gck-rpc-module.c put into it: the [proto_read_] functions recover
    every part, given the memory they ask for. *)
From S2P Require Import Prelude EggBuffer Pkcs11 RpcUtil Calls Message DispatchProto.

Section Reads.
Context {W : Type} (malloc_ok : list Z -> Z -> bool).
Context (id : Z) (sg : string).
(** The exits do not matter: they are not taken. *)
Context (E : Z -> Proc W -> Prop).

Abbreviation serving := (@serving W id sg).

(** All that happened is that the request was read further. *)
Definition same_call (s s' : Proc W) : Prop :=
  unchanged s s' /\ buffer (req s') = buffer (req s).

Lemma same_call_refl s : same_call s s.
Proof. done. Qed.
Lemma same_call_trans s s1 s2 : same_call s s1 -> same_call s1 s2 -> same_call s s2.
Proof. intros [? Hb] [? Hb1]. split; [by eapply unchanged_trans|congruence]. Qed.

(** [v] is read, the rest of the request is [rest]. *)
Definition got {A} (v : A) q ps r rest (s : Proc W) (v' : A) (s' : Proc W) : Prop :=
  v' = v /\ same_call s s' /\ serving q ps r s' /\ unread (req s') = rest.

Lemma got_then {A B} (m : Call (Proc W) A) (k : A -> Call (Proc W) B) v w q1 q2 ps r rest1 rest2 s :
  safe E m (got v q1 ps r rest1 s) s ->
  (forall s1, serving q1 ps r s1 -> unread (req s1) = rest1 ->
     safe E (k v) (got w q2 ps r rest2 s1) s1) ->
  safe E (m ≫= k) (got w q2 ps r rest2 s) s.
Proof.
  intros Hm Hk. eapply safe_then; [exact Hm|]. intros v' s1 (-> & Hu & Hs & Hr).
  eapply safe_mono; [by apply Hk|]. intros w' s2 (-> & ? & ? & ?).
  split_and!; try done. by eapply same_call_trans.
Qed.

Lemma got_ret {A} (v : A) q ps r rest s :
  serving q ps r s -> unread (req s) = rest -> safe E (mret v) (got v q ps r rest s) s.
Proof. intros. apply safe_ret. by split_and!. Qed.

(** A whole part read by a function of gck-rpc-message.c. *)
Lemma part_got {A} p (rd : ST GckRpcMessage (option A)) v q q' ps r rest s :
  received p rd v -> serving q ps r s -> string_strip (sig_of p) q = Some q' ->
  unread (req s) = enc_part p ++ rest ->
  safe E (or_exit PARSE_ERROR (on_req rd)) (got v q' ps r rest s) s.
Proof.
  intros Hrd Hs Hq Hr. pose proof Hs as [[] Hm [] ? ? ? ? ? ? ?].
  destruct (Hrd (req s) (Some q') rest Hm (serving_takes _ _ _ _ _ _ _ _ Hs Hq) Hr)
    as (Hrun & Hok & Hrest).
  apply safe_or_exit_with, wp_zoom. eapply wp_intro; [exact Hrun|].
  split_and!; try done; split; try done; by split.
Qed.

Lemma IN_BYTE_got v q q' ps r rest s :
  serving q ps r s -> string_strip "y" q = Some q' ->
  unread (req s) = enc_part (PByte v) ++ rest -> safe E IN_BYTE (got v q' ps r rest s) s.
Proof. apply (part_got (PByte v)), read_byte_received. Qed.

Lemma IN_ULONG_got v q q' ps r rest s :
  is_u64 v -> serving q ps r s -> string_strip "u" q = Some q' ->
  unread (req s) = enc_part (PUlong v) ++ rest -> safe E IN_ULONG (got v q' ps r rest s) s.
Proof. intros Hv. by apply (part_got (PUlong v)), read_ulong_received. Qed.

(** The steps of the functions of the dispatcher. *)
Lemma start_got {B} part (k : unit -> Call (Proc W) B) w q q' ps r rest s :
  serving q ps r s -> string_strip part q = Some q' ->
  (forall s1, serving q' ps r s1 -> unread (req s1) = unread (req s) ->
     safe E (k tt) (got w q' ps r rest s1) s1) ->
  safe E (call (on_req (check_part part)) ≫= k) (got w q' ps r rest s) s.
Proof.
  intros Hs Hq Hk. eapply (got_then _ _ tt w q' q' ps r (unread (req s))).
  - pose proof Hs as [[] Hm [] ? ? ? ? ? ? ?].
    apply safe_call, wp_zoom. eapply wp_intro; [by eapply serving_takes|].
    split_and!; try done; split; try done; by split.
  - intros s1 Hs1 Hu. by apply Hk.
Qed.

Lemma get_got {A} get enc (v : A) q ps r rest s :
  reads get enc v -> serving q ps r s -> unread (req s) = enc ++ rest ->
  safe E (get_or_exit get) (got v q ps r rest s) s.
Proof.
  intros Hg Hs Hr. pose proof Hs as [[] Hm [] ? ? ? ? ? ? ?].
  destruct (msg_get_reads get enc v Hg (req s) rest Hm Hr) as (Hrun & Hok & Hrest).
  apply safe_or_exit_with, wp_zoom. eapply wp_intro; [exact Hrun|].
  split_and!; try done; split; try done; by split.
Qed.

(** [malloc] finds the memory of the call. *)
Context (Hmalloc : forall l n, malloc_ok l n = true).

Lemma alloc_got n q ps r rest s :
  n <= 2147483647 -> serving q ps r s -> unread (req s) = rest ->
  safe E (alloc_or_exit malloc_ok n) (got tt q ps r rest s) s.
Proof.
  intros Hn Hs Hr. unfold alloc_or_exit, call_alloc. apply safe_bind, safe_call.
  rewrite (proj2 (Z.ltb_ge _ _)) by lia. apply wp_bind, wp_get. rewrite Hmalloc.
  apply wp_bind, wp_modify, wp_ret, safe_ret. split_and!; try done.
  destruct Hs as [[] ? ? ? ? ? ? ? ? ?]. by split.
Qed.

(** ** The parts *)

(** What the arguments of a part become: space is filled with 0xff. *)
Definition byte_buffer_of (flags len : Z) : option block * option Z :=
  (if Z.land flags GCK_RPC_BYTE_BUFFER_NULL_DATA =? 0
   then Some (replicate (Z.to_nat len) 255) else None,
   if Z.land flags GCK_RPC_BYTE_BUFFER_NULL_COUNT =? 0 then Some len else None).

Lemma IN_BYTE_BUFFER_got flags len q q' ps r rest s :
  is_u32 len -> len <= 2147483647 -> serving q ps r s -> string_strip "fy" q = Some q' ->
  unread (req s) = enc_part (PByteBuffer flags len) ++ rest ->
  safe E (IN_BYTE_BUFFER malloc_ok) (got (byte_buffer_of flags len) q' ps r rest s) s.
Proof.
  intros Hl Hmax Hs Hq Hr. eapply start_got; [done..|]. intros s1 Hs1 Hu1.
  cbn [enc_part] in Hr. rewrite <- app_assoc in Hr. rewrite Hr in Hu1. clear s Hs Hr.
  eapply got_then; [eapply get_got; [apply get_byte_reads|done|exact Hu1]|].
  intros s2 Hs2 Hu2.
  eapply got_then; [eapply get_got; [by apply get_uint32_reads|done|exact Hu2]|].
  intros s3 Hs3 Hu3. cbv zeta. unfold byte_buffer_of.
  destruct (Z.land flags GCK_RPC_BYTE_BUFFER_NULL_DATA =? 0); [|by apply got_ret].
  eapply got_then; [by apply alloc_got|]. intros s4 Hs4 Hu4. by apply got_ret.
Qed.

(** The count that goes with an array is the array's. *)
Definition byte_array_of (arr : option block) (n : Z) : option block * Z :=
  (arr, match arr with Some bs => zlen bs | None => n end).

Lemma IN_BYTE_ARRAY_got arr n q q' ps r rest s :
  (forall bs, arr = Some bs -> zlen bs < 2147483647) -> (arr = None -> is_u32 n) ->
  serving q ps r s -> string_strip "ay" q = Some q' ->
  unread (req s) = enc_part (PByteArray arr n) ++ rest ->
  safe E IN_BYTE_ARRAY (got (byte_array_of arr n) q' ps r rest s) s.
Proof.
  intros Hb Hn Hs Hq Hr. eapply start_got; [done..|]. intros s1 Hs1 Hu1.
  rewrite Hr in Hu1. clear s Hs Hr.
  destruct arr as [bs|]; cbn [enc_part] in Hu1; rewrite <- app_assoc in Hu1;
    (eapply got_then; [eapply get_got; [apply get_byte_reads|done|exact Hu1]|]);
    intros s2 Hs2 Hu2; cbn [Z.eqb].
  - eapply get_got; [by apply get_byte_array_reads|done|exact Hu2].
  - eapply got_then; [eapply get_got; [apply (get_uint32_reads n); auto|done|exact Hu2]|].
    intros s3 Hs3 Hu3. by apply got_ret.
Qed.

Definition ulong_buffer_of (n : Z) : option (list Z) * Z :=
  (if n =? 0 then None else Some (replicate (Z.to_nat n) CK_ULONG_MINUS_1), n).

Lemma IN_ULONG_BUFFER_got n q q' ps r rest s :
  0 <= n -> n * sizeof_CK_ULONG <= 2147483647 -> serving q ps r s ->
  string_strip "fu" q = Some q' -> unread (req s) = enc_part (PUlongBuffer n) ++ rest ->
  safe E (IN_ULONG_BUFFER malloc_ok) (got (ulong_buffer_of n) q' ps r rest s) s.
Proof.
  intros Hn Hmax Hs Hq Hr. eapply start_got; [done..|]. intros s1 Hs1 Hu1.
  rewrite Hr in Hu1. clear s Hs Hr. unfold sizeof_CK_ULONG in Hmax.
  eapply got_then; [eapply get_got; [apply (get_uint32_reads n); lia|done|exact Hu1]|].
  intros s2 Hs2 Hu2. unfold ulong_buffer_of. destruct (n =? 0); [by apply got_ret|].
  eapply got_then; [by apply alloc_got|]. intros s3 Hs3 Hu3. by apply got_ret.
Qed.

Lemma IN_MECHANISM_got type data q q' ps r rest s :
  is_u32 type -> (forall bs, data = Some bs -> zlen bs < 2147483647) ->
  serving q ps r s -> string_strip "M" q = Some q' ->
  unread (req s) = enc_part (PMechanism type data) ++ rest ->
  safe E IN_MECHANISM
    (got (mkMechanism type data (byte_array_value data).2) q' ps r rest s) s.
Proof.
  intros Ht Hd Hs Hq Hr. eapply start_got; [done..|]. intros s1 Hs1 Hu1.
  rewrite Hr in Hu1. cbn [enc_part] in Hu1. rewrite <- app_assoc in Hu1. clear s Hs Hr.
  eapply got_then; [eapply get_got; [by apply get_uint32_reads|done|exact Hu1]|].
  intros s2 Hs2 Hu2.
  eapply got_then; [eapply get_got; [by apply get_byte_array_reads|done|exact Hu2]|].
  intros s3 Hs3 Hu3. by apply got_ret.
Qed.

Lemma IN_SPACE_STRING_got bs len q q' ps r rest s :
  zlen bs < 2147483647 -> serving q ps r s -> string_strip "s" q = Some q' ->
  unread (req s) = enc_part (PSpaceString bs) ++ rest ->
  safe E (IN_SPACE_STRING malloc_ok len) (got (Some bs) q' ps r rest s) s.
Proof.
  intros Hz Hs Hq Hr. eapply start_got; [done..|]. intros s1 Hs1 Hu1.
  rewrite Hr in Hu1. clear s Hs Hr. pose proof (zlen_nonneg bs).
  eapply got_then.
  { eapply get_got; [apply (get_byte_array_reads (Some bs))|done|exact Hu1]. by intros ? [= <-]. }
  intros s2 Hs2 Hu2. cbn [byte_array_value].
  eapply got_then; [apply alloc_got; [lia|done..]|]. intros s3 Hs3 Hu3.
  eapply (got_then _ _ bs); [|intros s4 Hs4 Hu4; by apply got_ret].
  apply safe_call. eapply wp_lift_res; [|by split_and!].
  cbn. rewrite mem_read_ok by lia. by rewrite slice_full.
Qed.

(** ** Attributes *)

Lemma elements_got {A B} (enc : A -> list Z) (dec : A -> B) (P : A -> Prop)
    (rd : Call (Proc W) B) l q ps r rest s :
  (forall a s rest, P a -> serving q ps r s -> unread (req s) = enc a ++ rest ->
     safe E rd (got (dec a) q ps r rest s) s) ->
  Forall P l -> serving q ps r s -> unread (req s) = concat (map enc l) ++ rest ->
  safe E (read_elements rd (length l)) (got (map dec l) q ps r rest s) s.
Proof.
  intros Hrd Hl. revert s. induction Hl as [|a l Ha _ IH]; intros s Hs Hr.
  - by apply got_ret.
  - cbn [length read_elements map]. cbn [map concat] in Hr. rewrite <- app_assoc in Hr.
    eapply got_then; [by apply Hrd|]. intros s1 Hs1 Hu1.
    eapply got_then; [by apply IH|]. intros s2 Hs2 Hu2. by apply got_ret.
Qed.

(** Space for an attribute's value. *)
Definition attr_of_size (a : Z * Z) : CK_ATTRIBUTE :=
  if a.2 =? 0 then mkAttribute a.1 None 0
  else mkAttribute a.1 (Some (replicate (Z.to_nat a.2) 255)) a.2.

Definition size_ok (a : Z * Z) : Prop := is_u32 a.1 /\ 0 <= a.2 <= 2147483647.

Lemma read_attribute_size_got a q ps r rest s :
  size_ok a -> serving q ps r s -> unread (req s) = enc_size a ++ rest ->
  safe E (read_attribute_size malloc_ok) (got (attr_of_size a) q ps r rest s) s.
Proof.
  intros [Ht Hn] Hs Hr. unfold enc_size in Hr. rewrite <- app_assoc in Hr.
  eapply got_then; [eapply get_got; [by apply get_uint32_reads|done|exact Hr]|].
  intros s1 Hs1 Hu1.
  eapply got_then; [eapply get_got; [apply (get_uint32_reads a.2); lia|done|exact Hu1]|].
  intros s2 Hs2 Hu2. unfold attr_of_size. destruct (a.2 =? 0); [by apply got_ret|].
  eapply got_then; [apply alloc_got; [lia|done..]|]. intros s3 Hs3 Hu3. by apply got_ret.
Qed.

Lemma IN_ATTRIBUTE_BUFFER_got l q q' ps r rest s :
  zlen l * sizeof_CK_ATTRIBUTE <= 2147483647 -> Forall size_ok l ->
  serving q ps r s -> string_strip "fA" q = Some q' ->
  unread (req s) = enc_part (PAttrBuffer l) ++ rest ->
  safe E (IN_ATTRIBUTE_BUFFER malloc_ok)
    (got (Some (map attr_of_size l), zlen l) q' ps r rest s) s.
Proof.
  intros Hmax Hl Hs Hq Hr. eapply start_got; [done..|]. intros s1 Hs1 Hu1.
  rewrite Hr in Hu1. cbn [enc_part] in Hu1. rewrite <- app_assoc in Hu1. clear s Hs Hr.
  pose proof (zlen_nonneg l). unfold sizeof_CK_ATTRIBUTE in Hmax.
  eapply got_then; [eapply get_got; [apply (get_uint32_reads (zlen l)); lia|done|exact Hu1]|].
  intros s2 Hs2 Hu2. eapply got_then; [by apply alloc_got|]. intros s3 Hs3 Hu3.
  replace (Z.to_nat (zlen l)) with (length l) by (unfold zlen; lia).
  eapply got_then; [eapply elements_got; [|exact Hl|done|exact Hu3]|].
  - intros a s' rest' Ha Hs' Hu'. by apply read_attribute_size_got.
  - intros s4 Hs4 Hu4. by apply got_ret.
Qed.

(** An attribute that was sent, as the module gets it. *)
Definition attr_of_value (a : Z * option (Z * option block)) : CK_ATTRIBUTE :=
  match a.2 with
  | None => mkAttribute a.1 None CK_ULONG_MINUS_1
  | Some (len, v) => mkAttribute a.1 v len
  end.

Lemma read_attribute_got a q ps r rest s :
  value_ok a -> serving q ps r s -> unread (req s) = enc_attr a ++ rest ->
  safe E read_attribute (got (attr_of_value a) q ps r rest s) s.
Proof.
  intros [Ht Hv] Hs Hr. unfold enc_attr in Hr. rewrite <- app_assoc in Hr.
  eapply got_then; [eapply get_got; [by apply get_uint32_reads|done|exact Hr]|].
  intros s1 Hs1 Hu1. unfold attr_of_value. destruct (a.2) as [[len v]|].
  - destruct (Hv _ _ eq_refl) as [Hlen Hbs]. rewrite <- app_assoc in Hu1.
    eapply got_then; [eapply get_got; [apply get_byte_reads|done|exact Hu1]|].
    intros s2 Hs2 Hu2. cbn [Z.eqb]. rewrite <- app_assoc in Hu2.
    eapply got_then; [eapply get_got; [by apply get_uint32_reads|done|exact Hu2]|].
    intros s3 Hs3 Hu3. eapply got_then.
    { eapply get_got; [apply get_byte_array_reads|done|exact Hu3].
      intros bs ->. destruct (Hbs _ eq_refl) as [<- ?]. done. }
    intros s4 Hs4 Hu4. cbn [byte_array_value].
    assert (nonnull v && negb (match v with None => 0 | Some bs => zlen bs end =? len) = false)
      as Hd.
    { destruct v as [bs|]; [|done]. destruct (Hbs _ eq_refl) as [-> _]. by rewrite Z.eqb_refl. }
    rewrite Hd. unfold sizeof_uint64_t, sizeof_CK_ULONG.
    destruct (len =? 8); cbn [andb negb]; by apply got_ret.
  - eapply got_then; [eapply get_got; [apply get_byte_reads|done|exact Hu1]|].
    intros s2 Hs2 Hu2. by apply got_ret.
Qed.

Lemma IN_ATTRIBUTE_ARRAY_got l q q' ps r rest s :
  zlen l * sizeof_CK_ATTRIBUTE <= 2147483647 -> Forall value_ok l ->
  serving q ps r s -> string_strip "aA" q = Some q' ->
  unread (req s) = enc_part (PAttrArray l) ++ rest ->
  safe E (IN_ATTRIBUTE_ARRAY malloc_ok)
    (got (if zlen l =? 0 then None else Some (map attr_of_value l), zlen l) q' ps r rest s) s.
Proof.
  intros Hmax Hl Hs Hq Hr. eapply start_got; [done..|]. intros s1 Hs1 Hu1.
  rewrite Hr in Hu1. cbn [enc_part] in Hu1. rewrite <- app_assoc in Hu1. clear s Hs Hr.
  pose proof (zlen_nonneg l). unfold sizeof_CK_ATTRIBUTE in Hmax.
  eapply got_then; [eapply get_got; [apply (get_uint32_reads (zlen l)); lia|done|exact Hu1]|].
  intros s2 Hs2 Hu2. destruct (Z.eqb_spec (zlen l) 0) as [E0|].
  { apply got_ret; [done|]. rewrite Hu2. destruct l; [done|]. by rewrite zlen_cons in E0;
      pose proof (zlen_nonneg l); lia. }
  eapply got_then; [by apply alloc_got|]. intros s3 Hs3 Hu3.
  replace (Z.to_nat (zlen l)) with (length l) by (unfold zlen; lia).
  eapply got_then; [eapply elements_got; [|exact Hl|done|exact Hu3]|].
  - intros a s' rest' Ha Hs' Hu'. by apply read_attribute_got.
  - intros s4 Hs4 Hu4. by apply got_ret.
Qed.
End Reads.
