(* ===== verification/DispatchReplies.v ===== *)
(** gck-rpc-dispatch.c: what the dispatcher makes of a request whose arguments are
    known, where there is memory: the function of the module is called with these
    arguments, and what it returns is what the response holds. *)
From S2P Require Import Prelude EggBuffer Pkcs11 RpcUtil Calls Message DispatchProto Dispatch.
From S2P Require Import DispatchReads.

(** A response with these results can be written. *)
Definition fits (id : Z) (sg : string) (ps : list part) : Prop :=
  zlen (header id (Some sg) ++ enc_parts ps) <= 2147483647.

Section Replies.
Context {W : Type} (malloc_ok : list Z -> Z -> bool).
Context (Hmalloc : forall l n, malloc_ok l n = true).
Context (id : Z).

(** ** The arguments *)

(** The arguments are being read since [s0]: those of [ps] are still to come. *)
Record asking (s0 : Proc W) (sg : string) (ps : list part) (s : Proc W) : Prop := {
  as_same : same_call s0 s;
  as_serving : serving id sg (sigs_of ps) [] sg s;
  as_unread : unread (req s) = enc_parts ps;
}.

(** [m] reads [v] where the request has the part [p]. *)
Definition reads_arg {A} (p : part) (m : Call (Proc W) A) (v : A) : Prop :=
  forall E sg ps out r s, serving id sg (sigs_of (p :: ps)) out r s ->
    unread (req s) = enc_parts (p :: ps) ->
    safe E m (got id sg v (sigs_of ps) out r (enc_parts ps) s) s.

(** Reading goes on behind an argument. *)
Lemma arg_then {A B} p (m : Call (Proc W) A) v (k : A -> Call (Proc W) B) E Q sg ps s0 s :
  reads_arg p m v -> asking s0 sg (p :: ps) s ->
  (forall s1, asking s0 sg ps s1 -> safe E (k v) Q s1) -> safe E (m ≫= k) Q s.
Proof.
  intros Hm [Hu Hs Hr] Hk. eapply safe_then; [by apply (Hm E sg ps)|].
  intros v' s1 (-> & Hu1 & Hs1 & Hr1). apply Hk. split; try done. by eapply same_call_trans.
Qed.

Lemma sigs_next p ps : string_strip (sig_of p) (sigs_of (p :: ps)) = Some (sigs_of ps).
Proof. apply string_strip_app. Qed.

Lemma IN_BYTE_reads v : reads_arg (PByte v) IN_BYTE v.
Proof. intros E sg ps out r s Hs Hr. by eapply IN_BYTE_got; [done|apply (sigs_next (PByte v))|]. Qed.
Lemma IN_ULONG_reads v : is_u64 v -> reads_arg (PUlong v) IN_ULONG v.
Proof. intros Hv E sg ps out r s Hs Hr. by eapply IN_ULONG_got; [done|done|apply (sigs_next (PUlong v))|]. Qed.

(** The bytes of an array an argument points to. *)
Definition given (arr : option block) (n : Z) : option block := (fun bs => slice bs 0 n) <$> arr.

Definition short_array (arr : option block) (n : Z) : Prop :=
  array_arg arr n /\ is_u32 n /\ n < 2147483647.

Lemma given_length arr n bs : short_array arr n -> given arr n = Some bs -> zlen bs = n.
Proof.
  intros (Ha & Hn & _) Hg. destruct arr as [b|]; [|done]. injection Hg as <-.
  destruct (Ha b eq_refl) as [_ ?]. by rewrite zlen_slice by lia.
Qed.

Lemma IN_BYTE_ARRAY_reads arr n :
  short_array arr n -> reads_arg (PBytes arr n) IN_BYTE_ARRAY (given arr n, n).
Proof.
  intros Ha E sg ps out r s Hs Hr. pose proof Ha as (_ & Hn & Hl).
  assert (byte_array_of (given arr n) n = (given arr n, n)) as <-.
  { unfold byte_array_of. destruct (given arr n) as [bs|] eqn:G; [|done].
    by rewrite (given_length _ _ _ Ha G). }
  eapply IN_BYTE_ARRAY_got; [|done|exact Hs|apply (sigs_next (PBytes arr n))|exact Hr].
  intros bs G. fold (given arr n) in G. by rewrite (given_length _ _ _ Ha G).
Qed.

Definition short_buffer (len : option Z) : Prop := 0 <= default 0 len <= 2147483647.

(** The block the module may write to is the dispatcher's own. *)
Definition fresh_buffer (arr : option block) (len : option Z) : option block * option Z :=
  ((fun _ => replicate (Z.to_nat (default 0 len)) 255) <$> arr, len).

Lemma IN_BYTE_BUFFER_reads arr len :
  short_buffer len ->
  reads_arg (PByteBuffer (buffer_flags arr len) (default 0 len)) (IN_BYTE_BUFFER malloc_ok)
    (fresh_buffer arr len).
Proof.
  intros Hl E sg ps out r s Hs Hr. unfold short_buffer in Hl.
  assert (byte_buffer_of (buffer_flags arr len) (default 0 len) = fresh_buffer arr len) as <-
    by by destruct arr, len.
  eapply IN_BYTE_BUFFER_got; [done|lia|lia|exact Hs|apply (sigs_next (PByteBuffer _ _))|exact Hr].
Qed.

Lemma IN_SPACE_STRING_reads bs len :
  zlen bs < 2147483647 -> reads_arg (PSpaceString bs) (IN_SPACE_STRING malloc_ok len) (Some bs).
Proof.
  intros Hz E sg ps out r s Hs Hr. by eapply IN_SPACE_STRING_got; [done|done|done|apply (sigs_next (PSpaceString bs))|].
Qed.

(** A mechanism as the dispatcher gets it. *)
Definition mechanism_got (type : Z) (data : option block) : CK_MECHANISM :=
  mkMechanism type data (byte_array_value data).2.

Lemma IN_MECHANISM_reads type data :
  is_u32 type -> (forall bs, data = Some bs -> zlen bs < 2147483647) ->
  reads_arg (PMechanism type data) IN_MECHANISM (mechanism_got type data).
Proof. intros Ht Hd E sg ps out r s Hs Hr. by eapply IN_MECHANISM_got; [done|done|done|apply (sigs_next (PMechanism type data))|]. Qed.

(** A template as the dispatcher gets it. *)
Definition template_got (l : list CK_ATTRIBUTE) : option (list CK_ATTRIBUTE) :=
  if zlen l =? 0 then None else Some (map (fun a => attr_of_value (attr_value a)) l).

Definition template_ok (l : list CK_ATTRIBUTE) : Prop :=
  zlen l * sizeof_CK_ATTRIBUTE <= 2147483647 /\ Forall (fun a => value_ok (attr_value a)) l.

Lemma IN_ATTRIBUTE_ARRAY_reads l :
  template_ok l ->
  reads_arg (PAttrArray (map attr_value l)) (IN_ATTRIBUTE_ARRAY malloc_ok) (template_got l, zlen l).
Proof.
  intros [Hz Hl] E sg ps out r s Hs Hr.
  assert (zlen (map attr_value l) = zlen l) as Hm by (unfold zlen; by rewrite length_map).
  assert ((if zlen (map attr_value l) =? 0 then None else Some (map attr_of_value (map attr_value l)),
           zlen (map attr_value l)) = (template_got l, zlen l)) as <-
    by (unfold template_got; by rewrite Hm, map_map).
  eapply IN_ATTRIBUTE_ARRAY_got; [done|by rewrite Hm|by apply Forall_map|exact Hs|apply (sigs_next (PAttrArray _))|exact Hr].
Qed.

(** ** The results *)

(** What a call works on: the module, and the sessions of the connection. *)
Definition core (s : Proc W) : W * list SessionState := (p_module s, sessions s).
Definition set_core (c : W * list SessionState) (s : Proc W) : Proc W :=
  set_sessions c.2 (set_module c.1 s).

(** What a call does there, its code and the parts of its response. *)
Definition effect : Type := W * list SessionState -> (Z * list part) * (W * list SessionState).

(** A function of the module, which knows of no sessions but its own. *)
Definition on_module {A} (f : mfun W A) : mfun (W * list SessionState) A := fun c =>
  let '(r, w) := f c.1 in (r, (w, c.2)).

(** [f] is done; [out] is what goes into the response. *)
Definition effect_of {A} (f : mfun (W * list SessionState) A) (out : Z -> A -> Z * list part)
    : effect := fun c => let '((rv, a), c') := f c in (out rv a, c').

(** The handler ends with [code]; if that is [CKR_OK] the response has the parts
    [ps].  Everything else is as in [s0]. *)
Record replied_with (sg : string) (s0 : Proc W) (code : Z) (ps : list part) (ret : Z)
    (s' : Proc W) : Prop := {
  rw_code : ret = code;
  rw_same : same_call s0 s';
  rw_base : base id s';
  rw_serving : code = CKR_OK -> serving id sg EmptyString ps EmptyString s';
}.

(** Where a response can hold these results. *)
Definition answerable (sg : string) (code : Z) (out : list part) : Prop :=
  code = CKR_OK -> sigs_of out = sg /\ fits id sg out.

(** The other dispatchers are left alone, or told to stop waiting. *)
Definition notified (s : Proc W) (ds : list OtherDispatcher) : Prop :=
  ds = p_dispatchers s \/ exists shutdown_ok, ds = map (interrupt shutdown_ok (p_cs s)) (p_dispatchers s).

(** [h] answers a request with the parts [ps] by the effect [e]. *)
Definition answers (h : ST (Proc W) Z) (ps : list part) (e : effect) : Prop :=
  forall sg s code out c', serving id sg (sigs_of ps) [] sg s -> unread (req s) = enc_parts ps ->
    gives_room (resp s) -> e (core s) = ((code, out), c') -> answerable sg code out ->
    wp h (fun ret s' => exists ds, notified s ds
      /\ replied_with sg (set_dispatchers ds (set_core c' s)) code out ret s') s.

Lemma prepared_or_exact ret sg ps' k q ps r r' (s0 s : Proc W) :
  sends_parts ps' k -> serving id sg q ps r s -> string_strip (sigs_of ps') r = Some r' ->
  same_call s0 s -> gives_room (resp s0) -> fits id sg (ps ++ ps') ->
  wp (prepared_or ret k) (fun ret' s' => ret' = ret /\ same_call s0 s'
    /\ serving id sg q (ps ++ ps') r' s') s.
Proof.
  intros Hk Hs Hr Hu Hg Hf. unfold prepared_or. pose proof Hs as [[] ? ? ? ? ? ? ? Hc Hst].
  assert (gives_room (resp s)) as Hgs
    by (destruct Hu as [(_ & _ & _ & _ & _ & _ & Ha) _]; unfold gives_room; by rewrite Ha).
  apply wp_bind, wp_zoom. eapply wp_mono; [by apply (Hk _ r r')|].
  intros ok m ([Hb Ha] & Hi & Ht & Hsg & Hok & Hroom). apply wp_ret.
  assert (ok = true) as ->.
  { apply Hroom. split; [exact Hgs|]. rewrite Hc. unfold fits in Hf.
    rewrite enc_parts_app, (assoc_L app), zlen_app in Hf. lia. }
  split; [done|]. split; [eapply same_call_trans; [exact Hu|split; [by apply set_resp_unchanged|done]]|].
  destruct (Hok eq_refl) as (Hcl & Hsr & Hcon).
  split; try done; cbn; try congruence; [split; try done; cbn; by rewrite Ha|..].
  - rewrite Hcon, Hc, enc_parts_app. by rewrite app_assoc.
  - rewrite sigs_of_app. apply string_strip_app2. by exists r.
Qed.

Lemma set_core_resp m c s :
  eb_allocator (buffer m) = eb_allocator (buffer (resp s)) ->
  same_call (set_core c s) (set_core c (set_resp m s)).
Proof. intros Ha. by repeat split. Qed.

Lemma same_dispatchers ds (s s' : Proc W) :
  same_call s s' -> same_call (set_dispatchers ds s) (set_dispatchers ds s').
Proof. intros [(? & ? & ? & ? & ? & ? & ?) ?]. by repeat split. Qed.

(** The other dispatchers are left alone. *)
Lemma replied_alone sg c s0 code out ret s' :
  replied_with sg (set_core c s0) code out ret s' ->
  exists ds, notified s0 ds /\ replied_with sg (set_dispatchers ds (set_core c s0)) code out ret s'.
Proof. intros H. exists (p_dispatchers s0). split; [by left|by destruct s0]. Qed.

(** From [BEGIN_CALL] to [END_CALL]. *)
Lemma answers_intro {F} (f : option F) g (k : F -> Call (Proc W) Z) ps e :
  f = Some g ->
  (forall sg s code out c', asking s sg ps s -> gives_room (resp s) -> e (core s) = ((code, out), c') ->
     answerable sg code out ->
     safe (replied_with sg (set_core c' s) code out) (k g)
       (replied_with sg (set_core c' s) code out) s) ->
  answers (END_CALL (_func ← BEGIN_CALL f; k _func)) ps e.
Proof.
  intros -> Hk sg s code out c' Hs Hu Hg He Hfit. unfold END_CALL. apply wp_bind.
  eapply wp_mono; [eapply Hk; [by split|exact Hg|exact He|exact Hfit]|].
  intros [ret|ret] s' H; by apply replied_alone.
Qed.

(** The arguments are read: the module is called. *)
Lemma PROCESS_CALL_then {A B} (f : mfun W A) (k : Z * A -> Call (Proc W) B) E Q sg s0 s rv a w :
  asking s0 sg [] s -> f (p_module s0) = (rv, a, w) ->
  (forall s1, same_call (set_module w s0) s1 -> serving id sg EmptyString [] sg s1 ->
     safe E (k (rv, a)) Q s1) ->
  safe E (PROCESS_CALL f ≫= k) Q s.
Proof.
  intros [[(Hm & Hu) Hb] Hs _] Hf Hk. eapply safe_then; [by apply (PROCESS_CALL_safe id sg)|].
  intros x s1 (w' & Hx & -> & Hs1). rewrite Hm, Hf in Hx. injection Hx as <- <-.
  apply Hk; [|done]. by split.
Qed.

(** Setting the core to what it was but for the module. *)
Lemma same_call_core w s0 s :
  same_call (set_module w s0) s -> same_call (set_core (w, sessions s0) s0) s.
Proof. by destruct s0 as [[] ? ?]. Qed.

(** Ends of handlers: no results, *)
Lemma end_plain sg (s0 s : Proc W) rv :
  same_call s0 s -> serving id sg EmptyString [] sg s -> answerable sg rv [] ->
  replied_with sg s0 rv [] rv s.
Proof.
  intros Hu Hs Hsg. split; [done..|apply Hs|]. intros H. destruct (Hsg H) as [E _]. by subst sg.
Qed.

(** results written, *)
Lemma end_prepared sg (s0 s : Proc W) ps k :
  sends_parts ps k -> same_call s0 s -> serving id sg EmptyString [] sg s ->
  gives_room (resp s0) -> answerable sg CKR_OK ps ->
  wp (prepared_or CKR_OK k) (replied_with sg s0 CKR_OK ps) s.
Proof.
  intros Hk Hu Hs Hg Hfit. destruct (Hfit eq_refl) as [Hsg Hf].
  eapply wp_mono; [eapply (prepared_or_exact CKR_OK sg ps k EmptyString [] sg EmptyString s0);
    [exact Hk|done|rewrite Hsg; apply string_strip_self|exact Hu|exact Hg|exact Hf]|].
  intros ret s1 (-> & Hu1 & Hs1). split; [done..|apply Hs1|done].
Qed.

(** or not, after an error. *)
Lemma end_error sg (s0 s : Proc W) rv ps :
  rv <> CKR_OK -> same_call s0 s -> serving id sg EmptyString [] sg s ->
  replied_with sg s0 rv ps rv s.
Proof. intros Hne Hu Hs. split; [done..|apply Hs|done]. Qed.

Lemma end_written sg (s0 s : Proc W) rv ps k E :
  (rv = CKR_OK -> sends_parts ps k) -> same_call s0 s -> serving id sg EmptyString [] sg s ->
  gives_room (resp s0) -> answerable sg rv ps ->
  safe E (_ret ← out_if_ok (prepared_or CKR_OK k) rv; mret _ret) (replied_with sg s0 rv ps) s.
Proof.
  intros Hk Hu Hs Hg Hfit. unfold out_if_ok. destruct (Z.eqb_spec rv CKR_OK) as [->|Hne].
  - apply safe_bind, safe_call. eapply wp_mono; [by apply (end_prepared sg s0 s ps k (Hk eq_refl))|].
    intros ret s1 H. by apply safe_ret.
  - apply safe_bind, safe_ret, safe_ret. by apply end_error.
Qed.

Lemma end_ulong sg (s0 s : Proc W) rv v E :
  same_call s0 s -> serving id sg EmptyString [] sg s -> gives_room (resp s0) ->
  answerable sg rv [PUlong v] ->
  safe E (_ret ← OUT_ULONG v rv; mret _ret) (replied_with sg s0 rv [PUlong v]) s.
Proof.
  intros Hu Hs Hg Hfit.
  pose proof (end_written sg s0 s rv [PUlong v] (gck_rpc_message_write_ulong v) E) as H.
  unfold OUT_ULONG. unfold out_if_ok in H. destruct (Z.eqb_spec rv CKR_OK) as [->|];
    apply H; try done; intros; apply sends_parts_one, write_ulong_sends.
Qed.

(** An array of bytes: with [CKR_BUFFER_TOO_SMALL] its length goes into the response. *)
Definition bytes_outcome (rv : Z) (a : option block * option Z) : Z * list part :=
  if rv =? CKR_BUFFER_TOO_SMALL then (CKR_OK, [PByteArray None (default 0 a.2)])
  else (rv, [PBytes a.1 (default 0 a.2)]).

Lemma end_bytes sg (s0 s : Proc W) rv arr n code out E :
  bytes_out rv (arr, n) -> bytes_outcome rv (arr, n) = (code, out) ->
  same_call s0 s -> serving id sg EmptyString [] sg s -> gives_room (resp s0) ->
  answerable sg code out ->
  safe E (_ret ← OUT_BYTE_ARRAY arr n rv; mret _ret) (replied_with sg s0 code out) s.
Proof.
  intros Ho Hcode Hu Hs Hg Hfit. apply safe_bind, safe_call. unfold proto_write_byte_array.
  unfold bytes_outcome in Hcode. cbn [fst snd] in Hcode. destruct (rv =? CKR_BUFFER_TOO_SMALL).
  - injection Hcode as <- <-. eapply wp_mono; [by eapply end_prepared;
      [apply sends_parts_one; by apply (write_byte_array_sends None)|..]|].
    intros ret s1 H. by apply safe_ret.
  - injection Hcode as <- <-. destruct (Z.eqb_spec rv CKR_OK) as [->|Hne].
    + eapply wp_mono; [by eapply end_prepared;
        [apply sends_parts_one, write_byte_array_sends; by apply Ho|..]|].
      intros ret s1 H. by apply safe_ret.
    + apply wp_ret, safe_ret. by apply end_error.
Qed.
End Replies.

(** ** [dispatch_call] *)

(** The bytes of the response. *)
Definition reply_bytes (id : Z) (code : Z) (out : list part) : list Z :=
  if code =? CKR_OK then header id (Some (sigs_of out)) ++ enc_parts out
  else header GCK_RPC_CALL_ERROR None ++ enc_uint64 (wrap32 code).

Section Dispatch_exact.
Context {W : Type} (M : CK_FUNCTION_LIST W) (malloc_ok : list Z -> Z -> bool) (shutdown_ok : Z -> bool).
Context (id : Z) (row : GckRpcCall) (sg : string).
Context (Hrow : gck_rpc_call id = Ok row) (Hsg : c_response row = Some sg).

(** [dispatch_call] behind the call, which returned [ret]. *)
Definition respond (ret : Z) : ST (Proc W) bool :=
  s ← get_st;
  let ret :=
    if ret =? CKR_OK then
      if gck_rpc_message_buffer_error (resp s) then PREP_ERROR
      else if gck_rpc_message_buffer_error (req s) then PARSE_ERROR
      else ret
    else ret in
  if ret =? CKR_OK then
    assert_ (gck_rpc_message_is_verified (resp s));;
    assert_ (bool_decide (call_type (resp s) = Some GCK_RPC_RESPONSE));;
    assert_ (call_id (resp s) =? call_id (req s));;
    c ← lift_res (gck_rpc_call (call_id (resp s)));
    assert_ (nonnull (c_response c));;
    sig ← lift_res (deref (signature (resp s)));
    assert_ (bool_decide (c_response c = Some sig));;
    mret true
  else
    ok ← on_resp (write_error ret);
    s ← get_st;
    mret (ok && negb (gck_rpc_message_buffer_error (resp s))).

(** The request was answered as the effect of the call says. *)
Record answered (s0 : Proc W) (code : Z) (out : list part) (r : bool) (s' : Proc W) : Prop := {
  an_true : r = true;
  an_same : same_call s0 s';
  an_ok : dispatcher_ok s';
  an_contents : contents (buffer (resp s')) = reply_bytes id code out;
}.

Lemma respond_exact s0 code out ret s1 :
  replied_with id sg s0 code out ret s1 -> answerable id sg code out ->
  gives_room (resp s0) -> eb_failures (buffer (req s0)) = 0 ->
  wp (respond ret) (answered s0 code out) s1.
Proof.
  intros [-> [Hu Hb] [Hq Hid Hr Hss Hsk Hqa Hra] Hok] Hfit Hg Hf. apply wp_bind, wp_get.
  assert (dispatcher_ok s1) as Hd by done.
  assert (gck_rpc_message_buffer_error (req s1) = false) as Hreq
    by (unfold gck_rpc_message_buffer_error; apply has_error_false; [done|by rewrite Hb]).
  unfold reply_bytes. destruct (Z.eqb_spec code CKR_OK) as [->|Hne].
  - destruct (Hok eq_refl) as [_ _ _ [Hbr Hfr] [_ Hsv] Hi Ht Hsig Hcon Hst]. destruct (Hfit eq_refl) as [Hsgo _].
    assert (gck_rpc_message_buffer_error (resp s1) = false) as -> by (by apply has_error_false).
    rewrite Hreq. rewrite Z.eqb_refl.
    apply wp_bind, wp_assert; [unfold gck_rpc_message_is_verified; by rewrite Hsv|].
    apply wp_bind, wp_assert; [by rewrite bool_decide_true|].
    apply wp_bind, wp_assert; [by rewrite Hi, Hid, Z.eqb_refl|].
    apply wp_bind. eapply wp_lift_res; [rewrite Hi; exact Hrow|].
    apply wp_bind, wp_assert; [by rewrite Hsg|].
    apply wp_bind. eapply wp_lift_res; [rewrite Hsig; reflexivity|].
    apply wp_bind, wp_assert; [by rewrite bool_decide_true|]. apply wp_ret.
    split; [done..|]. unfold reply_bytes. by rewrite Z.eqb_refl, Hsgo.
  - rewrite (proj2 (Z.eqb_neq code CKR_OK)) by done.
    apply wp_bind, wp_zoom. eapply wp_mono; [by apply write_error_wp|].
    intros ok m ([Hbm Ham] & Hm & Hgr). apply wp_bind, wp_get, wp_ret.
    destruct Hgr as [-> Hf0].
    { destruct Hu as (_ & _ & _ & _ & _ & _ & Ha). unfold gives_room. by rewrite Ha. }
    split.
    + unfold gck_rpc_message_buffer_error. change (resp (set_resp m s1)) with m.
      by rewrite (proj2 (has_error_false _ Hbm) Hf0).
    + split; [|done]. eapply unchanged_trans; [exact Hu|by apply set_resp_unchanged].
    + split; try done; cbn; by rewrite Ham.
    + unfold reply_bytes. rewrite (proj2 (Z.eqb_neq code CKR_OK)) by done. by apply Hm.
Qed.

Lemma dispatch_call_exact s ps e code out c' :
  dispatcher_ok s -> accepted GCK_RPC_REQUEST (req s) -> call_id (req s) = id ->
  c_request row = Some (sigs_of ps) -> unread (req s) = enc_parts ps ->
  eb_failures (buffer (req s)) = 0 -> gives_room (resp s) ->
  answers id (call_handler M malloc_ok shutdown_ok id) ps e -> e (core s) = ((code, out), c') ->
  answerable id sg code out ->
  wp (dispatch_call M malloc_ok shutdown_ok)
    (fun r s' => exists ds, notified s ds
       /\ answered (set_dispatchers ds (set_core c' s)) code out r s') s.
Proof.
  intros Hd Ha Hid Hq Hu Hf Hg Hans He Hfit. pose proof Hd as [Hqb Hrb _ _ _ Hra].
  pose proof (ac_id _ _ Ha) as Hpos. rewrite Hid in Hpos.
  unfold dispatch_call. apply wp_bind, wp_get. rewrite Hid.
  apply wp_bind, wp_assert; [apply Z.ltb_lt; apply Hpos|].
  apply wp_bind, wp_assert; [apply Z.ltb_lt; apply Hpos|].
  apply wp_bind, wp_zoom.
  eapply wp_mono; [by apply (prep_call_wp _ GCK_RPC_RESPONSE row)|].
  cbn [call_signature]. rewrite Hsg. intros ok m (Hp & Hok & Ham & Hgr).
  rewrite (Hgr Hg) in *. cbn [negb].
  assert (eb_failures (buffer m) = 0) as Hf0 by (by apply Hok).
  assert (is_Some (eb_allocator (buffer m))) as Hal by (by rewrite Ham).
  pose proof (prepared_serving _ _ _ _ _ _ Hd Ha Hid Hrow Hq Hsg Hp Hf0 Hal) as Hs.
  assert (gives_room m) as Hgm by (unfold gives_room; by rewrite Ham).
  apply wp_bind. eapply wp_mono; [by apply (Hans sg (set_resp m s) code out c')|].
  intros ret s1 (ds & Hn & Hrep). eapply wp_mono; [by apply (respond_exact _ code out ret s1 Hrep)|].
  intros r s' [-> Hsame Hd' Hcon]. exists ds. split; [exact Hn|]. split; try done.
  eapply same_call_trans; [by apply same_dispatchers, (set_core_resp m c' s)|done].
Qed.
End Dispatch_exact.
