(* ===== verification/DispatchProps.v ===== *)
(** Properties of the dispatcher of gck-rpc-dispatch.c: every request is
    answered without a fault, and the table of sessions. *)
From S2P Require Import Prelude EggBuffer Pkcs11 RpcUtil Calls Message DispatchProto Dispatch.
From S2P Require Import DispatchReads.

(** ** A concrete module

    Sessions are numbered from 1; the state is the last number used and the
    numbers of the sessions closed, the latest first. *)

Definition not_supported {W A} (a : A) : mfun W A := fun w => ((CKR_FUNCTION_NOT_SUPPORTED, a), w).

Record toy_state := mkToy { toy_last : Z; toy_closed : list Z }.

Definition blank_version : CK_VERSION := mkVersion 2 20.
Definition blank_slot_info : CK_SLOT_INFO :=
  mkSlotInfo (replicate 64 32) (replicate 32 32) 1 blank_version blank_version.

Definition toy_module : CK_FUNCTION_LIST toy_state := {|
  C_GetInfo := None;
  C_GetSlotList := Some (fun _ l n w =>
    if nonnull l && (n <? 1) then ((CKR_BUFFER_TOO_SMALL, (l, 1)), w)
    else ((CKR_OK, (cons 7 ∘ drop 1 <$> l, 1)), w));
  C_GetSlotInfo := Some (fun _ w => ((CKR_OK, blank_slot_info), w));
  C_GetTokenInfo := None;
  C_GetMechanismList := None;
  C_GetMechanismInfo := None;
  C_InitToken := None;
  C_WaitForSlotEvent := None;
  C_OpenSession := Some (fun _ _ w =>
    ((CKR_OK, toy_last w + 1), mkToy (toy_last w + 1) (toy_closed w)));
  C_CloseSession := Some (fun h w => ((CKR_OK, tt), mkToy (toy_last w) (h :: toy_closed w)));
  C_CloseAllSessions := Some (fun _ w => ((CKR_OK, tt), w));
  C_GetFunctionStatus := None;
  C_CancelFunction := None;
  C_GetSessionInfo := None;
  C_InitPIN := None;
  C_SetPIN := None;
  C_GetOperationState := None;
  C_SetOperationState := None;
  C_Login := None;
  C_Logout := None;
  C_CreateObject := None;
  C_CopyObject := None;
  C_DestroyObject := None;
  C_GetObjectSize := None;
  C_GetAttributeValue := None;
  C_SetAttributeValue := None;
  C_FindObjectsInit := None;
  C_FindObjects := None;
  C_FindObjectsFinal := None;
  C_EncryptInit := None;
  C_Encrypt := None;
  C_EncryptUpdate := None;
  C_EncryptFinal := None;
  C_DecryptInit := None;
  C_Decrypt := None;
  C_DecryptUpdate := None;
  C_DecryptFinal := None;
  C_DigestInit := None;
  C_Digest := None;
  C_DigestUpdate := None;
  C_DigestKey := None;
  C_DigestFinal := None;
  C_SignInit := None;
  C_Sign := Some (fun _ data n buf k w =>
    match k with
    | None => ((CKR_ARGUMENTS_BAD, (buf, k)), w)
    | Some m =>
        if nonnull buf && (m <? 1) then ((CKR_BUFFER_TOO_SMALL, (buf, Some 1)), w)
        else ((CKR_OK, (cons (n mod 256) ∘ drop 1 <$> buf, Some 1)), w)
    end);
  C_SignUpdate := None;
  C_SignFinal := None;
  C_SignRecoverInit := None;
  C_SignRecover := None;
  C_VerifyInit := None;
  C_Verify := None;
  C_VerifyUpdate := None;
  C_VerifyFinal := None;
  C_VerifyRecoverInit := None;
  C_VerifyRecover := None;
  C_DigestEncryptUpdate := None;
  C_DecryptDigestUpdate := None;
  C_SignEncryptUpdate := None;
  C_DecryptVerifyUpdate := None;
  C_GenerateKey := None;
  C_GenerateKeyPair := None;
  C_WrapKey := None;
  C_UnwrapKey := None;
  C_DeriveKey := None;
  C_SeedRandom := Some (fun _ seed n w => ((CKR_OK, tt), w));
  C_GenerateRandom := Some (fun _ buf n w =>
    ((CKR_OK, (fun _ => replicate (Z.to_nat n) 5) <$> buf), w));
|}.

Lemma toy_module_ok : module_ok toy_module.
Proof.
  split; try done; try (by intros; exfalso; simpl in *; naive_solver).
  - intros f slot w [= <-] _. by repeat split; repeat constructor.
  - intros g f session data n buf k w Hg Hf Hd Hs. simpl in Hg.
    repeat (destruct Hg as [<-|Hg]; [try done|]); [|done]. injection Hf as <-.
    destruct k as [m|]; [|done]. destruct (_ && _) eqn:E; [done|]. intros _ bs Hbs.
    cbn in *. destruct buf as [b|]; [|done]. injection Hbs as <-. cbn in E.
    apply Z.ltb_ge in E. destruct Hs as [Hs _]. destruct (Hs _ eq_refl) as [Hb _]. split.
    + constructor; [apply Z.mod_pos_bound; lia|by apply Forall_drop].
    + rewrite zlen_cons. pose proof (zlen_nonneg (drop 1 b)). lia.
  - intros f session buf n w [= <-] Hs _ bs. cbn. destruct buf as [b|]; [|done].
    intros [= <-]. destruct Hs as [_ Hn]. specialize (Hn _ eq_refl). cbn in Hn. split.
    + by apply Forall_replicate.
    + rewrite zlen_replicate. lia.
  - intros f present l n w [= <-] Hl. destruct (_ && _) eqn:E; split; cbn; try done; try lia.
    intros _ k. destruct l as [l|]; [|done]. intros [= <-]. rewrite zlen_cons.
    pose proof (zlen_nonneg (drop 1 l)). lia.
Qed.

(** ** Every request is answered *)

(** C6: the dispatcher survives every request the parser accepts.  Whatever
    the arguments claim (null pointers, counts, attribute arrays, bytes that end
    early), whatever the allocators refuse and whatever a well-behaved PKCS#11
    module answers, [dispatch_call] returns: no assertion fails and no access
    leaves its object.  If it reports success the response is either that call's
    own, its signature written out to the end, or the error message with a return
    value other than [CKR_OK]. *)
Theorem dispatch_call_total {W} (M : CK_FUNCTION_LIST W) malloc_ok shutdown_ok s :
  module_ok M -> dispatcher_ok s -> accepted GCK_RPC_REQUEST (req s) ->
  exists r s', dispatch_call M malloc_ok shutdown_ok s = Ok (r, s')
    /\ dispatcher_ok s' /\ (r = true -> good_response (call_id (req s)) (resp s')).
Proof.
  intros HM Hd Ha.
  destruct (wp_inv _ _ _ (dispatch_call_wp M HM malloc_ok shutdown_ok s Hd Ha))
    as (r & s' & ? & ? & ?). by exists r, s'.
Qed.

Definition no_sessions : list SessionState :=
  replicate PKCS11PROXY_MAX_SESSION_COUNT (mkSessionState 0 0).

Definition toy_proc (m : GckRpcMessage) : Proc toy_state :=
  mkProc (mkCallState m sample_message [] 77 3 no_sessions) (mkToy 0 []) [].

Definition enough_memory : list Z -> Z -> bool := fun _ n => n <=? 1000000.
Definition shuts_down : Z -> bool := fun _ => true.

Definition parsed_request : GckRpcMessage :=
  after (gck_rpc_message_parse GCK_RPC_REQUEST) sample_request.

Lemma parsed_request_accepted : accepted GCK_RPC_REQUEST parsed_request.
Proof.
  pose proof (parse_wp GCK_RPC_REQUEST sample_request sample_request_ok) as H.
  apply after_wp in H as (r & Hrun & _ & _ & Ha). apply Ha; [|done].
  assert (returns_true (gck_rpc_message_parse GCK_RPC_REQUEST) sample_request = true) as Hr
    by (vm_compute; reflexivity).
  unfold returns_true in Hr. rewrite Hrun in Hr. done.
Qed.

Lemma dispatch_call_total_witness :
  returns_true (dispatch_call toy_module enough_memory shuts_down) (toy_proc parsed_request) = true
  /\ exists r s', dispatch_call toy_module enough_memory shuts_down (toy_proc parsed_request)
       = Ok (r, s') /\ (r = true -> good_response GCK_RPC_CALL_C_SeedRandom (resp s')).
Proof.
  split; [vm_compute; reflexivity|].
  destruct (dispatch_call_total toy_module enough_memory shuts_down (toy_proc parsed_request))
    as (r & s' & Hrun & _ & Hg).
  - apply toy_module_ok.
  - split; [apply parsed_request_accepted|apply sample_buffer_ok|reflexivity
      |apply (bool_decide_unpack (0 <= 77)); done|..];
      apply nonnull_is_Some; vm_compute; reflexivity.
  - apply parsed_request_accepted.
  - exists r, s'. split; [exact Hrun|exact Hg].
Defined.

(** ** The table of sessions *)

(** The first free position, and whether there is one. *)
Lemma store_session_spec h slot l :
  match store_session h slot l with
  | Some l' => exists i st, l !! i = Some st /\ session_id st = 0
      /\ (forall j st', (j < i)%nat -> l !! j = Some st' -> session_id st' <> 0)
      /\ l' = <[i := mkSessionState h slot]> l
  | None => Forall (fun st => session_id st <> 0) l
  end.
Proof.
  induction l as [|st l IH]; cbn [store_session]; [done|].
  destruct (Z.eqb_spec (session_id st) 0) as [E|E].
  - exists O, st. split_and!; try done. intros j st' Hj. lia.
  - destruct (store_session h slot l) as [l'|]; cbn [fmap option_fmap option_map].
    + destruct IH as (i & st0 & Hi & H0 & Hlt & ->). exists (S i), st0. split_and!; try done.
      intros [|j] st' Hj Hl; [by injection Hl as <-|]. apply (Hlt j); [lia|done].
    + by constructor.
Qed.

Lemma enc_parts_cons p ps : enc_parts (p :: ps) = enc_part p ++ enc_parts ps.
Proof. done. Qed.

(** Reads the next argument of a request whose parts are known. *)
Ltac get_arg lem :=
  eapply safe_then;
  [ eapply lem; [..|eassumption|reflexivity|rewrite ?enc_parts_cons in *; eassumption]; auto
  | let s := fresh "s" in let Hun := fresh "Hun" in let Hs := fresh "Hs" in let Hr := fresh "Hr" in
    intros ? s (-> & Hun & Hs & Hr); cbn beta iota ].

(** What [rpc_C_OpenSession] leaves when the module has answered [rv] and [h]. *)
Definition session_opened {W} (rv h slot : Z) (w : W) (s : Proc W) (ret : Z) (s' : Proc W) : Prop :=
  p_module s' = w /\
  ((rv <> CKR_OK /\ ret = rv /\ sessions s' = sessions s)
   \/ (rv = CKR_OK /\ (ret = CKR_OK \/ ret = PREP_ERROR) /\ exists i st,
       sessions s !! i = Some st /\ session_id st = 0
       /\ (forall j st', (j < i)%nat -> sessions s !! j = Some st' -> session_id st' <> 0)
       /\ sessions s' = <[i := mkSessionState h slot]> (sessions s))
   \/ (rv = CKR_OK /\ ret = CKR_SESSION_COUNT /\ sessions s' = sessions s
       /\ Forall (fun st => session_id st <> 0) (sessions s))).

Lemma END_CALL_post {W} (body : Call (Proc W) Z) (P : Z -> Proc W -> Prop) s :
  safe P body P s -> wp (END_CALL body) P s.
Proof.
  intros Hb. apply wp_bind. eapply wp_mono; [exact Hb|]. by intros [ret|ret] s' ?; apply wp_ret.
Qed.

(** C19: a session the module opened is remembered in the first free position of
    the connection's table, for the slot it was opened on, and its handle is
    returned; with the table full, the call fails with [CKR_SESSION_COUNT] and the
    table stays as it is, although the module now has the session open. *)
Theorem open_session_recorded {W} (M : CK_FUNCTION_LIST W) f slot flags rv h w s :
  C_OpenSession M = Some f -> is_u64 slot -> is_u64 flags ->
  serving GCK_RPC_CALL_C_OpenSession "u" "uu" [] "u" s ->
  unread (req s) = enc_parts [PUlong slot; PUlong flags] ->
  f slot flags (p_module s) = ((rv, h), w) ->
  exists ret s', rpc_C_OpenSession M s = Ok (ret, s') /\ session_opened rv h slot w s ret s'.
Proof.
  intros Hf Hslot Hflags Hs Hu Hcall.
  apply wp_inv, END_CALL_post. rewrite Hf. apply safe_bind, safe_ret.
  get_arg @IN_ULONG_got. get_arg @IN_ULONG_got.
  destruct (same_call_trans _ _ _ Hun Hun0) as ((Hmod & Hses & _) & _).
  eapply safe_then; [by eapply PROCESS_CALL_safe|].
  intros [rv' h'] s2 (w' & Hcall' & -> & Hs2). rewrite Hmod, Hcall in Hcall'.
  injection Hcall' as <- <- <-.
  destruct (Z.eqb_spec rv CKR_OK) as [->|Hne].
  - apply safe_bind, safe_bind, safe_call, wp_get.
    change (sessions (set_module w s1)) with (sessions s1). rewrite Hses.
    pose proof (store_session_spec h slot (sessions s)) as Hst.
    destruct (store_session _ _ _) as [l|].
    + destruct Hst as (i & st & Hi & H0 & Hlt & ->). apply safe_call, wp_modify.
      eapply safe_then; [eapply OUT_ULONG_safe;
        [eapply serving_pending, set_sessions_serving; [|exact Hs2]|reflexivity]|].
      { rewrite length_insert. by eapply (length_sessions _ _ _ _ _ s). }
      intros ret s3 ((Hm & Hss & _) & _ & _ & Hret). apply safe_ret.
      split; [done|]. right; left.
      split; [done|]. split; [done|]. by exists i, st.
    + split; [done|]. right; right. by split_and!.
  - apply safe_bind, safe_ret.
    eapply safe_then; [eapply OUT_ULONG_safe; [by eapply serving_pending|reflexivity]|].
    intros ret s3 ((Hm & Hss & _) & _ & Hret & _). apply safe_ret.
    split; [done|]. left. split; [done|]. split; [by apply Hret|]. by rewrite Hss.
Qed.

(** ** Concrete requests *)

Definition toy_sent (id : Z) (ks : list (ST GckRpcMessage bool)) : GckRpcMessage :=
  after (write_all ks) (after (gck_rpc_message_prep id GCK_RPC_REQUEST) sample_message).
Definition toy_start (id : Z) (ks : list (ST GckRpcMessage bool)) (l : list SessionState)
    : Proc toy_state :=
  mkProc (mkCallState (after (gck_rpc_message_parse GCK_RPC_REQUEST) (toy_sent id ks))
            (after (gck_rpc_message_prep id GCK_RPC_RESPONSE) sample_message) [] 77 3 l)
    (mkToy 0 []) [].

Lemma sample_prepared_call id type c s :
  0 < id < GCK_RPC_CALL_MAX -> gck_rpc_call id = Ok c -> call_signature c type = Some s ->
  returns_true (gck_rpc_message_prep id type) sample_message = true ->
  prepared id type (Some s) (after (gck_rpc_message_prep id type) sample_message)
  /\ eb_failures (buffer (after (gck_rpc_message_prep id type) sample_message)) = 0
  /\ is_Some (eb_allocator (buffer (after (gck_rpc_message_prep id type) sample_message))).
Proof.
  intros Hid Hc Hs Hrun.
  pose proof (prep_call_wp id type c sample_message sample_buffer_ok Hid Hc) as H.
  unfold wp in H. rewrite (after_run _ _ Hrun), Hs in H. destruct H as (Hp & Hf & -> & _).
  split; [done|]. split; [by apply Hf|]. apply nonnull_is_Some. vm_compute. reflexivity.
Qed.

Lemma toy_start_serving id c ps ks sg l :
  0 < id < GCK_RPC_CALL_MAX -> gck_rpc_call id = Ok c -> c_request c = Some (sigs_of ps) ->
  c_response c = Some sg -> Forall2 sends ps ks -> length l = PKCS11PROXY_MAX_SESSION_COUNT ->
  returns_true (gck_rpc_message_prep id GCK_RPC_REQUEST) sample_message = true ->
  returns_true (write_all ks) (after (gck_rpc_message_prep id GCK_RPC_REQUEST) sample_message) = true ->
  returns_true (gck_rpc_message_prep id GCK_RPC_RESPONSE) sample_message = true ->
  serving id sg (sigs_of ps) [] sg (toy_start id ks l)
  /\ unread (req (toy_start id ks l)) = enc_parts ps.
Proof.
  intros Hid Hc Hq Hr Hks Hl H1 H2 H3.
  destruct (sample_prepared_call id GCK_RPC_REQUEST c _ Hid Hc Hq H1) as (Hp & Hf & Hal).
  destruct (sample_prepared_call id GCK_RPC_RESPONSE c _ Hid Hc Hr H3) as (Hp' & Hf' & Hal').
  pose proof (sends_parts_all ps ks Hks _ _ _ (prepared_clean _ _ _ _ Hp Hf)
    (prepared_signed _ _ _ _ Hp) (string_strip_self _)) as Hw.
  unfold wp in Hw. rewrite (after_run _ _ H2) in Hw. fold (toy_sent id ks) in Hw.
  destruct Hw as ([Hb Hba] & _ & _ & _ & Hend & _). destruct (Hend eq_refl) as (_ & _ & Hcon).
  rewrite (pr_contents _ _ _ _ Hp Hf) in Hcon.
  destruct (parse_header id c GCK_RPC_REQUEST (sigs_of ps) (toy_sent id ks) (enc_parts ps) Hb Hid
    Hc Hq Hcon) as (m & Hrun & Ha & Hi & Hs & Hu & Hbuf).
  unfold toy_start, after at 1 3. rewrite Hrun. split; [|done].
  pose proof Hp' as [? ? ? ? ? ? Hcon'].
  split; try done; cbn; try apply Ha.
  - split; try done; cbn; rewrite Hbuf; [done|by rewrite Hba].
  - rewrite Hcon' by done. unfold enc_parts. cbn. by rewrite app_nil_r.
Qed.

Definition full_table : list SessionState :=
  replicate PKCS11PROXY_MAX_SESSION_COUNT (mkSessionState 9 4).

Definition open_request : list (ST GckRpcMessage bool) :=
  [gck_rpc_message_write_ulong 4; gck_rpc_message_write_ulong 6].

Lemma open_request_serving l :
  length l = PKCS11PROXY_MAX_SESSION_COUNT ->
  serving GCK_RPC_CALL_C_OpenSession "u" "uu" [] "u"
    (toy_start GCK_RPC_CALL_C_OpenSession open_request l)
  /\ unread (req (toy_start GCK_RPC_CALL_C_OpenSession open_request l))
     = enc_parts [PUlong 4; PUlong 6].
Proof.
  intros Hl.
  apply (toy_start_serving GCK_RPC_CALL_C_OpenSession
    (mkCall GCK_RPC_CALL_C_OpenSession "C_OpenSession" (Some "uu") (Some "u"))
    [PUlong 4; PUlong 6]); [vm_compute; done|reflexivity|reflexivity|reflexivity| |exact Hl|..].
  - repeat constructor; apply write_ulong_sends.
  - vm_compute. reflexivity.
  - vm_compute. reflexivity.
  - vm_compute. reflexivity.
Qed.

(** With room in the table, and without. *)
Lemma open_session_recorded_witness :
  (exists s', rpc_C_OpenSession toy_module
     (toy_start GCK_RPC_CALL_C_OpenSession open_request no_sessions) = Ok (CKR_OK, s')
   /\ session_opened CKR_OK 1 4 (mkToy 1 [])
       (toy_start GCK_RPC_CALL_C_OpenSession open_request no_sessions) CKR_OK s')
  /\ (exists s', rpc_C_OpenSession toy_module
     (toy_start GCK_RPC_CALL_C_OpenSession open_request full_table) = Ok (CKR_SESSION_COUNT, s')
   /\ session_opened CKR_OK 1 4 (mkToy 1 [])
       (toy_start GCK_RPC_CALL_C_OpenSession open_request full_table) CKR_SESSION_COUNT s').
Proof.
  assert (forall l (ret : Z), length l = PKCS11PROXY_MAX_SESSION_COUNT ->
    match rpc_C_OpenSession toy_module (toy_start GCK_RPC_CALL_C_OpenSession open_request l)
    with Ok (r, _) => r =? ret | Crash _ => false end = true ->
    exists s', rpc_C_OpenSession toy_module
      (toy_start GCK_RPC_CALL_C_OpenSession open_request l) = Ok (ret, s')
    /\ session_opened CKR_OK 1 4 (mkToy 1 [])
       (toy_start GCK_RPC_CALL_C_OpenSession open_request l) ret s') as H.
  { intros l ret Hl Hret. destruct (open_request_serving l Hl) as [Hs Hu].
    assert (p_module (toy_start GCK_RPC_CALL_C_OpenSession open_request l) = mkToy 0 []) as Hm
      by reflexivity.
    destruct (open_session_recorded toy_module _ 4 6 CKR_OK 1 (mkToy 1 [])
      (toy_start GCK_RPC_CALL_C_OpenSession open_request l) eq_refl ltac:(lia) ltac:(lia) Hs Hu)
      as (r & s' & Hrun & Hpost); [rewrite Hm; reflexivity|].
    exists s'. rewrite Hrun in Hret. apply Z.eqb_eq in Hret. subst r. exact (conj Hrun Hpost). }
  split; apply H; vm_compute; reflexivity.
Defined.

(** ** Closing sessions *)

(** The positions of a table closed one after the other, those that [p] picks,
    until the module refuses: the return value, the table and the module's state
    that are left.  [gone] says which refusals free the position all the same. *)
Fixpoint close_each {W} (f : Z -> mfun W unit) (p : SessionState -> bool) (gone : Z -> bool)
    (l : list SessionState) (w : W) : Z * list SessionState * W :=
  match l with
  | [] => (CKR_OK, [], w)
  | st :: l =>
      if p st then
        let '((ret, _), w) := f (session_id st) w in
        if ret =? CKR_OK then
          let '(r, l', w) := close_each f p gone l w in
          (r, mkSessionState 0 (session_slot st) :: l', w)
        else (ret, (if gone ret then mkSessionState 0 (session_slot st) else st) :: l, w)
      else let '(r, l', w) := close_each f p gone l w in (r, st :: l', w)
  end.

Definition is_open (st : SessionState) : bool := negb (session_id st =? 0).

Lemma alter_middle {A} (g : A -> A) pre x post :
  alter g (length pre) (pre ++ x :: post) = pre ++ g x :: post.
Proof. induction pre as [|y pre IH]; [done|]. apply (f_equal (cons y) IH). Qed.

Lemma lookup_middle {A} pre (x : A) post : (pre ++ x :: post) !! length pre = Some x.
Proof. by apply list_lookup_middle. Qed.

Lemma finalize_sessions_spec {W} (M : CK_FUNCTION_LIST W) f l pre s :
  C_CloseSession M = Some f -> sessions s = pre ++ l ->
  finalize_sessions M (length l) (length pre) CKR_OK s =
    let '(r, l', w) := close_each f is_open (fun _ => false) l (p_module s) in
    Ok (r, set_module w (set_sessions (pre ++ l') s)).
Proof.
  intros Hf. revert pre s. induction l as [|st l IH]; intros pre s Hl.
  - cbn. rewrite app_nil_r in *. destruct s as [[] ? ?]. cbn in *. by subst.
  - cbn [length finalize_sessions close_each]. unfold mbind, ST_bind, session_at.
    rewrite Hl, lookup_middle. unfold is_open. destruct (Z.eqb_spec (session_id st) 0) as [E|E].
    + cbn [negb]. specialize (IH (pre ++ [st]) s). rewrite length_app, <- (assoc_L app) in IH.
      simpl in IH. rewrite Nat.add_1_r in IH. rewrite IH by done.
      destruct (close_each _ _ _ _ _) as [[r l'] w]. by rewrite <- (assoc_L app).
    + cbn [negb]. rewrite Hf. cbn [deref]. unfold lift_res, run_module.
      destruct (f (session_id st) (p_module s)) as [[ret []] w].
      destruct (Z.eqb_spec ret CKR_OK) as [->|Hne]; cbn [negb].
      * unfold clear_session, modify. cbn [sessions set_module p_cs].
        change (sessions (set_module w s)) with (sessions s). rewrite Hl, alter_middle.
        set (s1 := set_sessions _ _).
        specialize (IH (pre ++ [mkSessionState 0 (session_slot st)]) s1).
        rewrite length_app, <- (assoc_L app) in IH. simpl in IH. rewrite Nat.add_1_r in IH.
        rewrite IH by done. change (p_module s1) with w.
        destruct (close_each _ _ _ _ _) as [[r l'] w']. by rewrite <- (assoc_L app).
      * unfold mret, ST_ret. destruct s as [[] ? ?]. cbn in *. by subst.
Qed.

(** A dispatcher of the same application, on another connection, that is in
    [C_WaitForSlotEvent]. *)
Definition waits_elsewhere (cs : CallState) (o : OtherDispatcher) : Prop :=
  od_appid o = cs_appid cs /\ od_sock o <> cs_sock cs /\ od_sock o <> -1
  /\ exists m, od_req o = Some m /\ call_id m = GCK_RPC_CALL_C_WaitForSlotEvent.

Lemma interrupt_spec shutdown_ok cs o :
  (waits_elsewhere cs o /\ shutdown_ok (od_sock o) = true ->
     interrupt shutdown_ok cs o = mkOther (od_appid o) (-1) (od_req o))
  /\ (~ (waits_elsewhere cs o /\ shutdown_ok (od_sock o) = true) -> interrupt shutdown_ok cs o = o).
Proof.
  unfold interrupt. split.
  - intros [(Ha & Hs & Hn & m & Hm & Hc) Hd]. rewrite Ha, Z.eqb_refl. cbn [negb].
    rewrite (proj2 (Z.eqb_neq _ _) Hs), Hm, Hc, Z.eqb_refl, (proj2 (Z.eqb_neq _ _) Hn), Hd. done.
  - intros Hnot. destruct (Z.eqb_spec (od_appid o) (cs_appid cs)); cbn [negb]; [|done].
    destruct (Z.eqb_spec (od_sock o) (cs_sock cs)); [done|]. destruct (od_req o) as [m|] eqn:Em; [|done].
    destruct (Z.eqb_spec (call_id m) GCK_RPC_CALL_C_WaitForSlotEvent); [|done].
    destruct (Z.eqb_spec (od_sock o) (-1)); [done|]. destruct (shutdown_ok (od_sock o)) eqn:Ed; [|done].
    exfalso. apply Hnot. split; [|done]. by repeat (split || eexists).
Qed.

(** C20: [rpc_C_Finalize] closes exactly the sessions of its own connection, in
    the order of the table, and frees their positions; at the first one the module
    refuses to close it stops and returns that error, with the others still in the
    table.  Either way it then shuts down, as far as [shutdown] succeeds, the
    sockets of those dispatchers of the same application, on other connections,
    that are in [C_WaitForSlotEvent], and marks them closed; all other dispatchers
    are left alone. *)
Theorem finalize_closes_own_sessions {W} (M : CK_FUNCTION_LIST W) shutdown_ok f s :
  C_CloseSession M = Some f -> length (sessions s) = PKCS11PROXY_MAX_SESSION_COUNT ->
  exists os,
    rpc_C_Finalize M shutdown_ok s =
      (let '(r, l, w) := close_each f is_open (fun _ => false) (sessions s) (p_module s) in
       Ok (r, mkProc (p_cs (set_sessions l s)) w os))
    /\ Forall2 (fun o o' =>
         (waits_elsewhere (p_cs s) o /\ shutdown_ok (od_sock o) = true ->
            o' = mkOther (od_appid o) (-1) (od_req o))
         /\ (~ (waits_elsewhere (p_cs s) o /\ shutdown_ok (od_sock o) = true) -> o' = o))
       (p_dispatchers s) os.
Proof.
  intros Hf Hl. exists (map (interrupt shutdown_ok (p_cs s)) (p_dispatchers s)). split.
  - unfold rpc_C_Finalize, mbind, ST_bind. rewrite <- Hl.
    pose proof (finalize_sessions_spec M f (sessions s) [] s Hf eq_refl) as H.
    cbn [length app] in H. rewrite H.
    destruct (close_each _ _ _ _ _) as [[r l'] w]. cbn. unfold set_dispatchers, mret, ST_ret. cbn.
    do 4 f_equal.
  - apply Forall2_fmap_r, Forall_Forall2_diag, Forall_forall. intros o _. apply interrupt_spec.
Qed.

Definition two_sessions : list SessionState :=
  [mkSessionState 11 4; mkSessionState 0 4; mkSessionState 12 5] ++ replicate 253 (mkSessionState 0 0).

(** Another connection of the application waits for a slot event, a third is in
    another call, and another application waits too. *)
Definition waiting : GckRpcMessage :=
  set_call GCK_RPC_CALL_C_WaitForSlotEvent (Some GCK_RPC_REQUEST) sample_message.
Definition three_dispatchers : list OtherDispatcher :=
  [mkOther 77 8 (Some waiting); mkOther 77 9 (Some sample_message); mkOther 78 10 (Some waiting)].

Lemma finalize_closes_own_sessions_witness :
  match rpc_C_Finalize toy_module shuts_down
    (mkProc (mkCallState sample_message sample_message [] 77 3 two_sessions) (mkToy 12 [])
       three_dispatchers) with
  | Ok (r, s') => r = CKR_OK /\ toy_closed (p_module s') = [12; 11]
      /\ forallb (fun st => session_id st =? 0) (sessions s') = true
      /\ map od_sock (p_dispatchers s') = [-1; 9; 10]
  | Crash _ => False
  end.
Proof.
  destruct (finalize_closes_own_sessions toy_module shuts_down
    (fun h w => ((CKR_OK, tt), mkToy (toy_last w) (h :: toy_closed w)))
    (mkProc (mkCallState sample_message sample_message [] 77 3 two_sessions) (mkToy 12 [])
       three_dispatchers)) as (os & Hrun & Hos); [reflexivity|reflexivity|].
  rewrite Hrun. clear Hrun.
  inversion Hos as [|? o1 ? ? [H1 _] Hos1]; subst.
  inversion Hos1 as [|? o2 ? ? [_ H2] Hos2]; subst.
  inversion Hos2 as [|? o3 ? ? [_ H3] Hos3]; subst. inversion Hos3; subst.
  rewrite H1, H2, H3; [vm_compute; repeat split; reflexivity|..].
  - intros [(Ha & _) _]. discriminate Ha.
  - intros [(_ & _ & _ & m & [= <-] & Hc) _]. discriminate Hc.
  - split; [|reflexivity]. repeat split; try discriminate. by exists waiting.
Defined.

(** What closing does when the module refuses nothing. *)
Lemma close_each_all {W} (f : Z -> mfun W unit) p gone l w :
  (forall h w, (f h w).1.1 = CKR_OK) ->
  close_each f p gone l w =
    (CKR_OK, map (fun st => if p st then mkSessionState 0 (session_slot st) else st) l,
     foldl (fun w h => (f h w).2) w (map session_id (filter (fun st => p st = true) l))).
Proof.
  intros Hok. revert w. induction l as [|st l IH]; intros w; [done|].
  cbn [close_each map]. rewrite filter_cons. destruct (p st) eqn:E.
  - rewrite decide_True by done. cbn [map foldl]. pose proof (Hok (session_id st) w) as H.
    destruct (f (session_id st) w) as [[ret []] w']. cbn in H. subst ret. cbn [Z.eqb].
    rewrite IH. done.
  - rewrite decide_False by done. by rewrite IH.
Qed.

Lemma call_bind {S A B} (m : ST S A) (k : A -> Call S B) s :
  (call m ≫= k) s = match m s with Ok (a, s') => k a s' | Crash e => Crash e end.
Proof. unfold mbind, Call_bind, call. by destruct (m s) as [[a s']|]. Qed.

Lemma close_sessions_spec {W} (M : CK_FUNCTION_LIST W) f slot l pre s :
  C_CloseSession M = Some f -> sessions s = pre ++ l ->
  close_sessions M slot (length l) (length pre) CKR_OK s =
    let '(r, l', w) := close_each f (fun st => is_open st && (session_slot st =? slot))
      (fun ret => one_of ret [CKR_OK; CKR_SESSION_CLOSED; CKR_SESSION_HANDLE_INVALID])
      l (p_module s) in
    Ok (if r =? CKR_OK then inl CKR_OK else inr r, set_module w (set_sessions (pre ++ l') s)).
Proof.
  intros Hf. revert pre s. induction l as [|st l IH]; intros pre s Hl.
  - cbn. rewrite app_nil_r in *. destruct s as [[] ? ?]. cbn in *. by subst.
  - cbn [length close_sessions close_each]. rewrite call_bind. unfold session_at at 1.
    rewrite Hl, lookup_middle. unfold is_open. destruct (_ && _).
    + rewrite call_bind, Hf. cbn [deref]. unfold lift_res, mbind, Call_bind, call at 1, run_module at 1.
      destruct (f (session_id st) (p_module s)) as [[ret []] w].
      destruct (Z.eqb_spec ret CKR_OK) as [->|Hne]; cbn [negb].
      * cbn [one_of existsb]. change (CKR_OK =? CKR_OK) with true. cbn [orb].
        unfold call, clear_session at 1, modify.
        change (sessions (set_module w s)) with (sessions s). rewrite Hl, alter_middle.
        set (s1 := set_sessions _ _).
        specialize (IH (pre ++ [mkSessionState 0 (session_slot st)]) s1).
        rewrite length_app, <- (assoc_L app) in IH. simpl in IH. rewrite Nat.add_1_r in IH.
        rewrite IH by done. change (p_module s1) with w. fold (is_open).
        destruct (close_each _ _ _ _ _) as [[r l'] w']. by rewrite <- (assoc_L app).
      * rewrite (proj2 (Z.eqb_neq _ _)) by done. destruct (one_of _ _).
        -- unfold call, clear_session, modify.
           change (sessions (set_module w s)) with (sessions s). by rewrite Hl, alter_middle.
        -- destruct s as [[] ? ?]. cbn in *. by subst.
    + specialize (IH (pre ++ [st]) s). rewrite length_app, <- (assoc_L app) in IH.
      simpl in IH. rewrite Nat.add_1_r in IH. rewrite IH by done.
      destruct (close_each _ _ _ _ _) as [[r l'] w]. by rewrite <- (assoc_L app).
Qed.

(** The sessions that closing all sessions of a slot is about, and the refusals
    that say the session is gone already. *)
Definition on_slot (slot : Z) (st : SessionState) : bool := is_open st && (session_slot st =? slot).
Definition already_gone (ret : Z) : bool :=
  one_of ret [CKR_OK; CKR_SESSION_CLOSED; CKR_SESSION_HANDLE_INVALID].

(** C21: [C_CloseAllSessions] is never forwarded, which would close the sessions
    of every other client too: after asking the module whether the slot exists, the
    dispatcher closes, in the order of the table, the sessions this connection has
    on that slot and no others, and stops with the module's error at the first it
    refuses, freeing that position too if the module says the session is gone. *)
Theorem close_all_sessions_own {W} (M : CK_FUNCTION_LIST W) f g h slot rv info w s :
  C_CloseAllSessions M = Some h -> C_CloseSession M = Some f -> C_GetSlotInfo M = Some g ->
  is_u64 slot -> serving GCK_RPC_CALL_C_CloseAllSessions "" "u" [] "" s ->
  unread (req s) = enc_parts [PUlong slot] ->
  g slot (p_module s) = ((rv, info), w) ->
  exists s', rpc_C_CloseAllSessions M s =
      Ok (if rv =? CKR_OK
          then (close_each f (on_slot slot) already_gone (sessions s) w).1.1 else rv, s')
    /\ (sessions s', p_module s') =
      (if rv =? CKR_OK
       then ((close_each f (on_slot slot) already_gone (sessions s) w).1.2,
             (close_each f (on_slot slot) already_gone (sessions s) w).2)
       else (sessions s, w)).
Proof.
  intros Hh Hf Hg Hslot Hs Hu Hcall. set (sl := close_each f _ _ _ _).
  enough (wp (rpc_C_CloseAllSessions M) (fun ret s' =>
      ret = (if rv =? CKR_OK then sl.1.1 else rv) /\
      (sessions s', p_module s') = (if rv =? CKR_OK then (sl.1.2, sl.2) else (sessions s, w))) s)
    as H. { apply wp_inv in H as (r & s' & Hrun & -> & Hpost). by exists s'. }
  apply END_CALL_post. rewrite Hh. apply safe_bind, safe_ret. get_arg @IN_ULONG_got.
  destruct Hun as ((Hmod & Hses & _) & _). rewrite Hg. cbn [deref].
  apply safe_bind, safe_call. eapply wp_lift_res; [reflexivity|].
  apply safe_bind, safe_call. unfold run_module, wp. rewrite Hmod, Hcall.
  destruct (Z.eqb_spec rv CKR_OK) as [->|Hne]; cbn [negb].
  - pose proof (close_sessions_spec M f slot (sessions s) [] (set_module w s0) Hf Hses) as H.
    cbn [length app] in H. rewrite (ba_sessions _ _ (sv_base _ _ _ _ _ _ Hs)) in H.
    unfold safe, wp. rewrite H. change (p_module (set_module w s0)) with w.
    change (close_each f _ _ _ _) with sl.
    destruct sl as [[r l'] w']. destruct (Z.eqb_spec r CKR_OK) as [->|]; by split.
  - split; [done|]. cbn. by rewrite <- Hses.
Qed.

Definition mixed_table : list SessionState :=
  [mkSessionState 11 4; mkSessionState 0 4; mkSessionState 12 5; mkSessionState 13 4]
  ++ replicate 252 (mkSessionState 0 0).

Definition close_request : list (ST GckRpcMessage bool) := [gck_rpc_message_write_ulong 4].

Lemma close_all_sessions_own_witness :
  exists s', rpc_C_CloseAllSessions toy_module
      (toy_start GCK_RPC_CALL_C_CloseAllSessions close_request mixed_table) = Ok (CKR_OK, s')
    /\ take 4 (sessions s') =
      [mkSessionState 0 4; mkSessionState 0 4; mkSessionState 12 5; mkSessionState 0 4]
    /\ toy_closed (p_module s') = [13; 11].
Proof.
  destruct (toy_start_serving GCK_RPC_CALL_C_CloseAllSessions
    (mkCall GCK_RPC_CALL_C_CloseAllSessions "C_CloseAllSessions" (Some "u") (Some ""))
    [PUlong 4] close_request "" mixed_table) as [Hs Hu];
    [vm_compute; done|reflexivity|reflexivity|reflexivity
    |repeat constructor; apply write_ulong_sends|reflexivity
    |vm_compute; reflexivity|vm_compute; reflexivity|vm_compute; reflexivity|].
  assert (sessions (toy_start GCK_RPC_CALL_C_CloseAllSessions close_request mixed_table)
    = mixed_table) as Hl by reflexivity.
  assert (p_module (toy_start GCK_RPC_CALL_C_CloseAllSessions close_request mixed_table)
    = mkToy 0 []) as Hm by reflexivity.
  edestruct (close_all_sessions_own toy_module) as (s' & Hrun & Hpost);
    [reflexivity|reflexivity|reflexivity| |exact Hs|exact Hu|rewrite Hm; reflexivity|].
  - lia.
  - exists s'. rewrite Hl in Hrun, Hpost. injection Hpost as Hses Hmod.
    split; [exact Hrun|]. rewrite Hses, Hmod. vm_compute. split; reflexivity.
Defined.
