(* ===== verification/Transport.v ===== *)
(** The transport under both ends of the wire: what [recv], [send] and the TLS
    functions of gck-rpc-tls-psk.c report, and the loops that move a whole piece of
    data through them.  What the network will do is a script: the results of the
    next system calls, one after the other; where the script ends the call blocks. *)
From S2P Require Import Prelude EggBuffer.

(** ** System calls *)

Definition EINTR : Z := 4.
Definition EAGAIN : Z := 11.
Definition EPIPE : Z := 32.

(** What [recv] finds: bytes that have arrived (none: the peer closed the
    connection), or an error. *)
Inductive event := Arrived (bs : list Z) | Failed (errno : Z).

(** What [send] does: it takes at most so many bytes, or reports an error. *)
Inductive send_event := Accepted (n : Z) | Refused (errno : Z).

(** A result of [recv (sock, data, len, 0)]: [inl errno] for -1, else the bytes
    stored; and what stays in the socket. *)
Definition recv (len : Z) (e : event) : (Z + list Z) * list event :=
  match e with
  | Failed errno => (inl errno, [])
  | Arrived bs =>
      (inr (take (Z.to_nat len) bs),
       if len <? zlen bs then [Arrived (drop (Z.to_nat len) bs)] else [])
  end.

(** A result of [send (sock, data, len, ...)]: [inl errno] for -1, else how many
    bytes were taken. *)
Definition send (len : Z) (e : send_event) : Z + Z :=
  match e with
  | Accepted n => inr (Z.max 0 (Z.min n len))
  | Refused errno => inl errno
  end.

(** The TLS functions, over [SSL_read] and [SSL_write]: an error is reported as 0
    bytes. *)
Definition gck_rpc_tls_read_all (len : Z) (e : event) : (Z + list Z) * list event :=
  match recv len e with
  | (inl _, rest) => (inr [], rest)
  | r => r
  end.

Definition gck_rpc_tls_write_all (len : Z) (e : send_event) : Z + Z :=
  match send len e with
  | inl _ => inr 0
  | r => r
  end.

(** ** A connection *)

(** [Tls]: [cs->tls] is set.  [Inetd]: [cs->read] and [cs->write] are the
    functions of [gck_rpc_layer_inetd]. *)
Inductive transport := Socket | Tls | Inetd.

#[export] Instance transport_eq_dec : EqDecision transport.
Proof. solve_decision. Defined.

(** [cn_sent] is everything the peer has been sent so far. *)
Record Conn := mkConn {
  cn_transport : transport;
  cn_recv : list event;
  cn_send : list send_event;
  cn_sent : list Z;
}.

Definition set_recv (evs : list event) (c : Conn) : Conn :=
  mkConn (cn_transport c) evs (cn_send c) (cn_sent c).
Definition set_sent (evs : list send_event) (bs : list Z) (c : Conn) : Conn :=
  mkConn (cn_transport c) (cn_recv c) evs bs.

(** [if (cs->tls) r = gck_rpc_tls_read_all (...); else r = recv (...);] *)
Definition receive (t : transport) : Z -> event -> (Z + list Z) * list event :=
  match t with Tls => gck_rpc_tls_read_all | _ => recv end.
Definition transmit (t : transport) : Z -> send_event -> Z + Z :=
  match t with Tls => gck_rpc_tls_write_all | _ => send end.

(** [errno != EAGAIN && errno != EINTR] does not hold. *)
Definition try_again (errno : Z) : bool := (errno =? EAGAIN) || (errno =? EINTR).

(** ** Code that may block

    [None]: the process waits for the network, in the state returned. *)
Definition Net (S A : Type) : Type := ST S (option A).

#[export] Instance Net_ret S : MRet (Net S) := fun A a s => Ok (Some a, s).
#[export] Instance Net_bind S : MBind (Net S) := fun A B k m s =>
  match m s with
  | Ok (Some a, s') => k a s'
  | Ok (None, s') => Ok (None, s')
  | Crash f => Crash f
  end.

Definition waiting {S A} : Net S A := fun s => Ok (None, s).
(** Code that does not use the network. *)
Definition net {S A} (m : ST S A) : Net S A := fun s =>
  match m s with Ok (a, s') => Ok (Some a, s') | Crash f => Crash f end.

(** ** The loops of [read_all], [write_all], [call_read] and [call_write] *)

(** How a loop ends: all was moved, the connection is closed, another error. *)
Inductive io_end := Complete | Closed | Broken.

#[export] Instance io_end_eq_dec : EqDecision io_end.
Proof. solve_decision. Defined.

(** [while (len > 0) { r = ...; ... data += r; len -= r; }].  [got] is what was
    stored so far.  Something stays in the socket only when [len] bytes were
    received, which ends the loop. *)
Fixpoint read_loop (t : transport) (evs : list event) (len : Z) (got : list Z)
    : option io_end * list Z * list event :=
  if negb (0 <? len) then (Some Complete, got, evs) else
  match evs with
  | [] => (None, got, [])
  | e :: evs =>
      match receive t len e with
      | (inr [], rest) => (Some Closed, got, rest ++ evs)
      | (inr bs, []) => read_loop t evs (len - zlen bs) (got ++ bs)
      | (inr bs, rest) => (Some Complete, got ++ bs, rest ++ evs)
      | (inl errno, rest) =>
          if try_again errno then read_loop t evs len got
          else (Some Broken, got, rest ++ evs)
      end
  end.

(** The number of bytes a call of [send] takes is at most [len]: what is left of
    the data is [drop r data]. *)
Fixpoint write_loop (t : transport) (evs : list send_event) (data sent : list Z)
    : option io_end * list Z * list send_event :=
  match data with
  | [] => (Some Complete, sent, evs)
  | _ =>
      match evs with
      | [] => (None, sent, [])
      | e :: evs =>
          match transmit t (zlen data) e with
          | inl errno =>
              if errno =? EPIPE then (Some Closed, sent, evs)
              else if try_again errno then write_loop t evs data sent
              else (Some Broken, sent, evs)
          | inr r => write_loop t evs (drop (Z.to_nat r) data) (sent ++ take (Z.to_nat r) data)
          end
      end
  end.

(** Receiving into [data], whose [len] bytes are [old]: the loop's end and what
    [data] holds then. *)
Definition read_data (old : list Z) : Net Conn (io_end * list Z) := fun c =>
  match read_loop (cn_transport c) (cn_recv c) (zlen old) [] with
  | (r, got, evs) => Ok ((fun e => (e, got ++ drop (length got) old)) <$> r, set_recv evs c)
  end.

Definition write_data (data : list Z) : Net Conn io_end := fun c =>
  match write_loop (cn_transport c) (cn_send c) data (cn_sent c) with
  | (r, sent, evs) => Ok (r, set_sent evs sent c)
  end.

(** ** Messages on the wire *)

(** The bytes that [buffer->buf] has room for, [len] of them at its beginning. *)
Definition buffer_room (b : EggBuffer) (len : Z) : res (list Z) :=
  if nonnull (eb_buf b) then mem_read (bmem b) 0 len else Crash AssertionFailed.

(** * Specifications *)

(** The bytes the script delivers before it ends the connection or blocks for
    ever, however they are cut up. *)
Fixpoint stream (t : transport) (evs : list event) : list Z :=
  match evs with
  | [] => []
  | Arrived [] :: _ => []
  | Arrived bs :: evs => bs ++ stream t evs
  | Failed errno :: evs =>
      if negb (bool_decide (t = Tls)) && try_again errno then stream t evs else []
  end.

(** How it ends: blocked ([None]), closed by the peer, or broken. *)
Fixpoint stream_end (t : transport) (evs : list event) : option io_end :=
  match evs with
  | [] => None
  | Arrived [] :: _ => Some Closed
  | Arrived _ :: evs => stream_end t evs
  | Failed errno :: evs =>
      if bool_decide (t = Tls) then Some Closed
      else if try_again errno then stream_end t evs else Some Broken
  end.

Lemma zlen_zero {A} (l : list A) : zlen l = 0 -> l = [].
Proof. destruct l; [done|]. rewrite zlen_cons. pose proof (zlen_nonneg l). lia. Qed.

Lemma take_zlen_app {A} n (l k : list A) :
  zlen l <= n -> take (Z.to_nat n) (l ++ k) = l ++ take (Z.to_nat (n - zlen l)) k.
Proof.
  intros H. unfold zlen in *. rewrite take_app_ge by lia. do 2 f_equal. lia.
Qed.
Lemma drop_zlen_app {A} n (l k : list A) :
  zlen l <= n -> drop (Z.to_nat n) (l ++ k) = drop (Z.to_nat (n - zlen l)) k.
Proof.
  intros H. unfold zlen in *. rewrite drop_app_ge by lia. f_equal. lia.
Qed.

(** What one call of [recv] contributes. *)
Lemma receive_spec t len e evs :
  0 < len ->
  match receive t len e with
  | (inr [], rest) => rest = [] /\ stream t (e :: evs) = [] /\ stream_end t (e :: evs) = Some Closed
  | (inr bs, []) => zlen bs <= len /\ stream t (e :: evs) = bs ++ stream t evs
      /\ stream_end t (e :: evs) = stream_end t evs
  | (inr bs, rest) => zlen bs = len /\ stream t (e :: evs) = bs ++ stream t (rest ++ evs)
      /\ stream_end t (e :: evs) = stream_end t (rest ++ evs)
  | (inl errno, rest) => rest = []
      /\ stream t (e :: evs) = (if try_again errno then stream t evs else [])
      /\ stream_end t (e :: evs) = (if try_again errno then stream_end t evs else Some Broken)
  end.
Proof.
  intros Hlen. destruct e as [bs|errno].
  - assert (receive t len (Arrived bs) = recv len (Arrived bs)) as -> by (by destruct t).
    cbn [recv]. destruct (Z.ltb_spec len (zlen bs)) as [Hl|Hl].
    + assert (zlen (take (Z.to_nat len) bs) = len) as Ht by (apply zlen_take; lia).
      pose proof (zlen_drop bs len ltac:(lia)) as Hd. pose proof (take_drop (Z.to_nat len) bs) as E.
      destruct (take (Z.to_nat len) bs) as [|b l]; [rewrite zlen_nil in Ht; lia|].
      destruct (drop (Z.to_nat len) bs) as [|d k]; [rewrite zlen_nil in Hd; lia|].
      subst bs. cbn [app stream stream_end]. by rewrite <- (assoc_L app).
    + rewrite take_ge by (unfold zlen in Hl; lia). by destruct bs.
  - by destruct t.
Qed.

Lemma read_loop_spec t evs len got :
  0 <= len ->
  match read_loop t evs len got with
  | (Some Complete, got', evs') => len <= zlen (stream t evs)
      /\ got' = got ++ take (Z.to_nat len) (stream t evs)
      /\ stream t evs' = drop (Z.to_nat len) (stream t evs)
      /\ stream_end t evs' = stream_end t evs
  | (r, got', _) => zlen (stream t evs) < len /\ got' = got ++ stream t evs
      /\ r = stream_end t evs
  end.
Proof.
  revert len got. induction evs as [|e evs IH]; intros len got Hlen; cbn [read_loop];
    destruct (Z.ltb_spec 0 len) as [H|H]; cbn [negb].
  - cbn [stream]. rewrite zlen_nil, app_nil_r. by split.
  - assert (len = 0) as -> by lia. cbn. rewrite app_nil_r. by split_and!.
  - pose proof (receive_spec t len e evs H) as Hr.
    destruct (receive t len e) as [[errno|bs] rest].
    + destruct Hr as (-> & -> & ->). destruct (try_again errno); [by apply IH|].
      rewrite zlen_nil, app_nil_r. by split.
    + destruct bs as [|b bs].
      { destruct Hr as (-> & -> & ->). rewrite zlen_nil, app_nil_r. by split. }
      set (l := b :: bs) in *. destruct rest as [|x rest].
      * destruct Hr as (Hl & -> & ->). specialize (IH (len - zlen l) (got ++ l) ltac:(lia)).
        destruct (read_loop t evs _ _) as [[r got'] evs'].
        rewrite zlen_app, take_zlen_app, drop_zlen_app by lia.
        destruct r as [[]|]; [destruct IH as (? & -> & -> & ->)|destruct IH as (? & -> & ->)..];
          rewrite <- (assoc_L app); split_and?; try done; lia.
      * destruct Hr as (Hl & -> & ->). rewrite zlen_app, take_zlen_app, drop_zlen_app by lia.
        replace (Z.to_nat (len - zlen l)) with O by lia.
        pose proof (zlen_nonneg (stream t ((x :: rest) ++ evs))).
        cbn [take drop]. rewrite app_nil_r. split_and!; [lia|done..].
  - assert (len = 0) as -> by lia. cbn [Z.to_nat take drop]. rewrite app_nil_r.
    pose proof (zlen_nonneg (stream t (e :: evs))). by split_and!.
Qed.

(** What is still to come over a connection. *)
Definition incoming (c : Conn) : list Z := stream (cn_transport c) (cn_recv c).
Definition incoming_end (c : Conn) : option io_end := stream_end (cn_transport c) (cn_recv c).

(** What an object that held [old] holds when [new] was received into it. *)
Definition overwritten (old new : list Z) : list Z :=
  take (length old) new ++ drop (length new) old.

Lemma zlen_overwritten old new : zlen (overwritten old new) = zlen old.
Proof. unfold overwritten, zlen. rewrite length_app, length_take, length_drop. lia. Qed.
Lemma overwritten_bytes old new : bytes old -> bytes new -> bytes (overwritten old new).
Proof. intros. apply Forall_app. split; [by apply Forall_take|by apply Forall_drop]. Qed.
Lemma overwritten_all old new :
  zlen old <= zlen new -> overwritten old new = take (length old) new.
Proof.
  intros H. unfold overwritten, zlen in *. rewrite (drop_ge old) by lia. apply app_nil_r.
Qed.

Lemma read_data_wp old c :
  wp (read_data old) (fun r c' =>
    cn_transport c' = cn_transport c /\ cn_send c' = cn_send c /\ cn_sent c' = cn_sent c /\
    match r with
    | Some (e, bs) => bs = overwritten old (incoming c) /\
        if bool_decide (e = Complete)
        then zlen old <= zlen (incoming c) /\ incoming c' = drop (length old) (incoming c)
          /\ incoming_end c' = incoming_end c
        else zlen (incoming c) < zlen old /\ incoming_end c = Some e
    | None => zlen (incoming c) < zlen old /\ incoming_end c = None
    end) c.
Proof.
  unfold wp, read_data. pose proof (read_loop_spec (cn_transport c) (cn_recv c) (zlen old) []
    (zlen_nonneg old)) as H. fold (incoming c) (incoming_end c) in H.
  destruct (read_loop _ _ _ _) as [[r got] evs].
  replace (Z.to_nat (zlen old)) with (length old) in H by (unfold zlen; lia).
  split_and!; try done. unfold zlen in *.
  destruct r as [[]|]; cbn; [|destruct H as (Hl & -> & He)..]; [|split; [|by split]..|by split].
  - destruct H as (Hl & -> & Hs & He). cbn. split; [|by split_and!].
    unfold overwritten. rewrite length_take_le, !(drop_ge old) by lia. done.
  - unfold overwritten. cbn. by rewrite take_ge by lia.
  - unfold overwritten. cbn. by rewrite take_ge by lia.
Qed.

Lemma transmit_range t len e r : transmit t len e = inr r -> 0 <= len -> 0 <= r <= len.
Proof.
  destruct t, e; cbn; intros [= <-]; lia.
Qed.

(** The bytes [w] that went out when [data] was to be written. *)
Definition written (r : option io_end) (data w : list Z) : Prop :=
  match r with
  | Some Complete => w = data
  | _ => w `prefix_of` data
  end.

Lemma written_nil r data : r <> Some Complete -> written r data [].
Proof. destruct r as [[]|]; intros; try done; apply prefix_nil. Qed.

Lemma written_app r data n w :
  written r (drop n data) w -> written r data (take n data ++ w).
Proof.
  intros H. rewrite <- (take_drop n data) at 1.
  destruct r as [[]|]; cbn in *; [by subst|by apply prefix_app..].
Qed.

Lemma write_loop_spec t evs data sent :
  exists w, (write_loop t evs data sent).1.2 = sent ++ w
    /\ written (write_loop t evs data sent).1.1 data w.
Proof.
  revert data sent. induction evs as [|e evs IH]; intros [|b data] sent;
    cbn [write_loop fst snd]; try by (exists []; rewrite app_nil_r; split; [|by apply written_nil]).
  - exists []. by rewrite app_nil_r.
  - exists []. by rewrite app_nil_r.
  - set (l := b :: data). destruct (transmit t (zlen l) e) as [errno|r].
    + destruct (errno =? EPIPE);
        [exists []; rewrite app_nil_r; split; [done|by apply written_nil]|].
      destruct (try_again errno); [apply IH|].
      exists []. rewrite app_nil_r. split; [done|by apply written_nil].
    + destruct (IH (drop (Z.to_nat r) l) (sent ++ take (Z.to_nat r) l)) as (w & -> & Hw).
      exists (take (Z.to_nat r) l ++ w). rewrite (assoc_L app). split; [done|by apply written_app].
Qed.

Lemma write_data_wp data c :
  wp (write_data data) (fun r c' =>
    cn_transport c' = cn_transport c /\ cn_recv c' = cn_recv c /\
    exists w, cn_sent c' = cn_sent c ++ w /\ written r data w) c.
Proof.
  unfold wp, write_data. pose proof (write_loop_spec (cn_transport c) (cn_send c) data (cn_sent c)) as H.
  destruct (write_loop _ _ _ _) as [[r sent] evs]. done.
Qed.

(** Over TLS the loop never gives up: a failing [SSL_write] looks like one that
    took no bytes, and is tried again. *)
Lemma write_loop_tls_retries evs data sent :
  (write_loop Tls evs data sent).1.1 = Some Complete \/ (write_loop Tls evs data sent).1.1 = None.
Proof.
  revert data sent. induction evs as [|e evs IH]; intros [|b data] sent; cbn [write_loop fst snd];
    [by left|by right|by left|].
  destruct (transmit Tls _ e) as [errno|r] eqn:E; [by destruct e|apply IH].
Qed.

(** The next calls of [send] take something each, and there are enough of them for
    [n] bytes. *)
Definition willing (n : Z) (c : Conn) : Prop :=
  Forall (fun e => exists k, e = Accepted k /\ 0 < k) (cn_send c) /\ n <= zlen (cn_send c).

Lemma write_loop_willing t evs data sent :
  Forall (fun e => exists k, e = Accepted k /\ 0 < k) evs -> zlen data <= zlen evs ->
  match write_loop t evs data sent with
  | (r, _, evs') => r = Some Complete
      /\ Forall (fun e => exists k, e = Accepted k /\ 0 < k) evs'
      /\ zlen evs - zlen data <= zlen evs'
  end.
Proof.
  intros Hevs. revert data sent. induction Hevs as [|e evs (k & -> & Hk) Hevs IH]; intros data sent Hl.
  - destruct data; [done|]. rewrite zlen_cons, zlen_nil in Hl. pose proof (zlen_nonneg data). lia.
  - destruct data as [|b data]; cbn [write_loop].
    { split_and!; [done|by constructor; eauto|]. unfold zlen. simpl. lia. }
    pose proof (zlen_nonneg data). rewrite !zlen_cons in Hl |- *.
    assert (transmit t (1 + zlen data) (Accepted k) = inr (Z.min k (1 + zlen data))) as ->
      by (destruct t; cbn; f_equal; lia).
    set (l := b :: data). assert (zlen l = 1 + zlen data) as Hz by apply zlen_cons.
    assert (zlen (drop (Z.to_nat (Z.min k (1 + zlen data))) l)
      = 1 + zlen data - Z.min k (1 + zlen data)) as Hd by (rewrite zlen_drop; lia).
    specialize (IH (drop (Z.to_nat (Z.min k (1 + zlen data))) l)
      (sent ++ take (Z.to_nat (Z.min k (1 + zlen data))) l) ltac:(lia)).
    destruct (write_loop _ _ _ _) as [[r w] evs']. destruct IH as (-> & ? & ?). split_and!; [done..|lia].
Qed.

Lemma write_data_willing data n c :
  willing (zlen data + n) c -> 0 <= n ->
  wp (write_data data) (fun r c' => r = Some Complete /\ willing n c') c.
Proof.
  intros [Hf Hl] Hn. unfold wp, write_data.
  pose proof (write_loop_willing (cn_transport c) (cn_send c) data (cn_sent c) Hf ltac:(lia)) as H.
  destruct (write_loop _ _ _ _) as [[r sent] evs]. destruct H as (-> & ? & ?).
  split; [done|]. split; [done|cbn; lia].
Qed.

(** Every call of [send] to come takes something. *)
Definition accepting (c : Conn) : Prop :=
  Forall (fun e => exists k, e = Accepted k /\ 0 < k) (cn_send c).

Lemma write_loop_accepting t evs data sent :
  Forall (fun e => exists k, e = Accepted k /\ 0 < k) evs ->
  match write_loop t evs data sent with
  | (r, _, evs') => Forall (fun e => exists k, e = Accepted k /\ 0 < k) evs'
      /\ (r = Some Complete \/ r = None /\ evs' = [])
  end.
Proof.
  intros Hevs. revert data sent. induction Hevs as [|e evs (k & -> & Hk) Hevs IH]; intros [|b data] sent;
    cbn [write_loop]; [by auto|by auto|split; [by constructor; eauto|by auto]|].
  assert (exists r, transmit t (zlen (b :: data)) (Accepted k) = inr r) as [r ->]
    by (destruct t; by eexists).
  apply IH.
Qed.

(** Then everything is sent, unless there are no calls left. *)
Lemma write_data_accepting data c :
  accepting c ->
  wp (write_data data) (fun r c' => accepting c'
    /\ match r with Some e => e = Complete | None => cn_send c' = [] end) c.
Proof.
  intros Hc. unfold wp, write_data.
  pose proof (write_loop_accepting (cn_transport c) (cn_send c) data (cn_sent c) Hc) as H.
  destruct (write_loop _ _ _ _) as [[r sent] evs]. destruct H as [H [->|[-> ->]]]; by split.
Qed.

(** The bytes [bs] went out between [c] and [c'], for which as many events were used
    at most: a network that was willing to take more still is. *)
Definition sent_over (c : Conn) (bs : list Z) (c' : Conn) : Prop :=
  cn_sent c' = cn_sent c ++ bs /\ forall n, 0 <= n -> willing (zlen bs + n) c -> willing n c'.

Lemma sent_over_nothing c c' : cn_sent c' = cn_sent c -> cn_send c' = cn_send c -> sent_over c [] c'.
Proof.
  intros Hs He. split; [by rewrite app_nil_r|]. intros n _. rewrite zlen_nil, Z.add_0_l. unfold willing.
  by rewrite He.
Qed.

Lemma sent_over_app c c1 c2 bs1 bs2 :
  sent_over c bs1 c1 -> sent_over c1 bs2 c2 -> sent_over c (bs1 ++ bs2) c2.
Proof.
  intros [Hs1 Hw1] [Hs2 Hw2]. split; [by rewrite Hs2, Hs1, (assoc_L app)|]. intros n Hn Hw.
  apply Hw2; [done|]. pose proof (zlen_nonneg bs2). apply Hw1; [lia|].
  by rewrite zlen_app, <- Z.add_assoc in Hw.
Qed.

Lemma sent_over_then c c1 c2 bs :
  sent_over c bs c1 -> sent_over c1 [] c2 -> sent_over c bs c2.
Proof. intros H1 H2. rewrite <- (app_nil_r bs). by eapply sent_over_app. Qed.

Lemma write_data_sent data c :
  wp (write_data data) (fun r c' => r = Some Complete -> sent_over c data c') c.
Proof.
  destruct (wp_inv _ _ _ (write_data_wp data c)) as (r & c' & Hrun & _ & _ & w & Hsent & Hw).
  eapply wp_intro; [exact Hrun|]. intros ->. cbn in Hw. subst w. split; [done|]. intros n Hn Hwill.
  pose proof (write_data_willing data n c Hwill Hn) as H. unfold wp in H. rewrite Hrun in H. by destruct H.
Qed.

(** ** Code that may block *)

(** [m] does not crash; what it returns satisfies [Q], and where it blocks [B]
    holds. *)
Definition runs {S A} (B : S -> Prop) (m : Net S A) (Q : A -> S -> Prop) : S -> Prop :=
  wp m (fun r s => match r with Some a => Q a s | None => B s end).

Section Runs.
Context {S : Type} (B : S -> Prop).

Lemma runs_ret {A} (a : A) (Q : A -> S -> Prop) s : Q a s -> runs B (mret a) Q s.
Proof. done. Qed.
Lemma runs_net {A} (m : ST S A) (Q : A -> S -> Prop) s : wp m Q s -> runs B (net m) Q s.
Proof. unfold runs, net, wp. by destruct (m s) as [[a s']|]. Qed.
Lemma runs_bind {A C} (m : Net S A) (k : A -> Net S C) Q s :
  runs B m (fun a s' => runs B (k a) Q s') s -> runs B (m ≫= k) Q s.
Proof. unfold runs, wp, mbind, Net_bind. by destruct (m s) as [[[a|] s']|]. Qed.
Lemma runs_then {A C} (m : Net S A) (k : A -> Net S C) P Q s :
  runs B m P s -> (forall a s', P a s' -> runs B (k a) Q s') -> runs B (m ≫= k) Q s.
Proof.
  intros Hm Hk. apply runs_bind. eapply wp_mono; [exact Hm|]. intros [a|] s'; [apply Hk|done].
Qed.
Lemma runs_assert {A} (e : bool) (k : unit -> Net S A) Q s :
  e = true -> runs B (k tt) Q s -> runs B (net (assert_ e) ≫= k) Q s.
Proof. by intros ->. Qed.
Lemma runs_get {A} (k : S -> Net S A) Q s : runs B (k s) Q s -> runs B (net get_st ≫= k) Q s.
Proof. done. Qed.
Lemma runs_modify {A} f (k : unit -> Net S A) Q s :
  runs B (k tt) Q (f s) -> runs B (net (modify f) ≫= k) Q s.
Proof. done. Qed.
Lemma runs_lift_res {A C} (r : res C) (k : C -> Net S A) Q s a :
  r = Ok a -> runs B (k a) Q s -> runs B (net (lift_res r) ≫= k) Q s.
Proof. by intros ->. Qed.
(** A function on some other object, which returns what becomes of it. *)
Lemma runs_lift_wp {T A C} (m : ST T C) (k : C * T -> Net S A) P Q t s :
  wp m P t -> (forall c t', P c t' -> runs B (k (c, t')) Q s) ->
  runs B (net (lift_res (m t)) ≫= k) Q s.
Proof. intros (c & t' & -> & Hc)%wp_inv Hk. by apply Hk. Qed.
Lemma runs_waiting {A} (Q : A -> S -> Prop) s : B s -> runs B waiting Q s.
Proof. done. Qed.
End Runs.

(** A step that returns, and one that crashes. *)
Lemma net_step {S A C} (m : Net S A) (k : A -> Net S C) s a s' :
  m s = Ok (Some a, s') -> (m ≫= k) s = k a s'.
Proof. unfold mbind, Net_bind. by intros ->. Qed.
Lemma net_crash {S A C} (m : Net S A) (k : A -> Net S C) s f :
  m s = Crash f -> (m ≫= k) s = Crash f.
Proof. unfold mbind, Net_bind. by intros ->. Qed.

Lemma runs_mono {S A} (B B' : S -> Prop) (m : Net S A) (P Q : A -> S -> Prop) s :
  runs B m P s -> (forall s', B s' -> B' s') -> (forall a s', P a s' -> Q a s') -> runs B' m Q s.
Proof. intros Hm HB HQ. eapply wp_mono; [exact Hm|]. intros [a|] s'; auto. Qed.

(** Everything but what is received, or sent, stays. *)
Definition receiving (c c' : Conn) : Prop :=
  cn_transport c' = cn_transport c /\ cn_send c' = cn_send c /\ cn_sent c' = cn_sent c.
Definition sending (c c' : Conn) : Prop :=
  cn_transport c' = cn_transport c /\ cn_recv c' = cn_recv c.

Lemma receiving_trans c c1 c2 : receiving c c1 -> receiving c1 c2 -> receiving c c2.
Proof. intros (?&?&?) (?&?&?). split_and!; congruence. Qed.

(** ** Messages on the wire *)

(** A message on the wire: its length, and its bytes. *)
Definition frame (bs : list Z) : list Z := egg_buffer_encode_uint32 (wrap32 (zlen bs)) ++ bs.

Lemma zlen_frame bs : zlen (frame bs) = 4 + zlen bs.
Proof. unfold frame. by rewrite zlen_app, zlen_encode_uint32. Qed.

(** The length that announces [n] bytes, if they are fewer than the limit. *)
Lemma frame_split inc n rest :
  bytes inc -> 4 <= zlen inc -> n = egg_buffer_decode_uint32 (take 4 inc) ->
  n <= zlen (drop 4 inc) -> rest = drop (Z.to_nat n) (drop 4 inc) ->
  inc = frame (take (Z.to_nat n) (drop 4 inc)) ++ rest.
Proof.
  intros Hb Hl -> Hn ->. pose proof (decode_uint32_range (take 4 inc)) as Hr. unfold frame.
  rewrite zlen_take by lia. rewrite wrap32_id by lia.
  rewrite encode_decode_uint32; [|by apply Forall_take|apply (zlen_take inc 4); lia].
  by rewrite <- (assoc_L app), !take_drop.
Qed.

Lemma buffer_room_ok b n :
  buffer_ok b -> 0 <= n <= eb_allocated_len b -> buffer_room b n = Ok (slice (bmem b) 0 n).
Proof.
  intros [Hs _ Hm _ _ _] Hn. unfold buffer_room.
  assert (nonnull (eb_buf b) = true) as ->; [|apply mem_read_ok; lia].
  unfold bmem in Hs. destruct (eb_buf b); [done|]. cbn in Hs. rewrite zlen_nil in Hs. lia.
Qed.
