(* ===== verification/Server.v ===== *)
(** gck-rpc-dispatch.c, last part: the loop that serves one connection, from the
    bytes of the client's requests to those of the responses. *)
From S2P Require Import Prelude EggBuffer Pkcs11 RpcUtil Calls Message DispatchProto Dispatch.
From S2P Require Import Allocators DispatchProps Transport.

(** ** Reading and writing whole pieces of data *)

(** [read_all]: receives into [data]; whether it succeeded, and what [data] holds. *)
Definition read_all (sock : Z) (data : list Z) : Net Conn (bool * list Z) :=
  net (assert_ (0 <=? sock));;
  net (assert_ (0 <? zlen data));;
  '(e, data) ← read_data data;
  mret (bool_decide (e = Complete), data).

Definition write_all (sock : Z) (data : list Z) : Net Conn bool :=
  net (assert_ (0 <=? sock));;
  net (assert_ (0 <? zlen data));;
  e ← write_data data;
  mret (bool_decide (e = Complete)).

(** One call of [read] or [write], whose result is returned as it is: the callers
    take the -1 of an error for success, and a short count too. *)
Definition _inetd_read (sock : Z) (data : list Z) : Net Conn (bool * list Z) :=
  net (assert_ (0 <=? sock));;
  if zlen data =? 0 then mret (false, data) else
  c ← net get_st;
  match cn_recv c with
  | [] => waiting
  | e :: evs =>
      let '(r, rest) := recv (zlen data) e in
      net (put_st (set_recv (rest ++ evs) c));;
      mret (match r with
            | inl _ => (true, data)
            | inr bs => (negb (zlen bs =? 0), bs ++ drop (length bs) data)
            end)
  end.

Definition _inetd_write (sock : Z) (data : list Z) : Net Conn bool :=
  net (assert_ (0 <=? sock));;
  c ← net get_st;
  match cn_send c with
  | [] => waiting
  | e :: evs =>
      let r := send (zlen data) e in
      let n := match r with inl _ => 0 | inr n => n end in
      net (put_st (set_sent evs (cn_sent c ++ take (Z.to_nat n) data) c));;
      mret (match r with inl _ => true | inr n => negb (n =? 0) end)
  end.

(** [cs->read], [cs->write] *)
Definition cs_read (sock : Z) (data : list Z) : Net Conn (bool * list Z) := fun c =>
  match cn_transport c with
  | Inetd => _inetd_read sock data c
  | _ => read_all sock data c
  end.
Definition cs_write (sock : Z) (data : list Z) : Net Conn bool := fun c =>
  match cn_transport c with
  | Inetd => _inetd_write sock data c
  | _ => write_all sock data c
  end.

(** ** Serving *)

Record Server (W : Type) := mkServer {
  sv_proc : Proc W;
  sv_conn : Conn;
}.
Arguments mkServer {W} _ _.
Arguments sv_proc {W} _.
Arguments sv_conn {W} _.

Section Loop.
Context {W : Type} (pkcs11_module : CK_FUNCTION_LIST W).
Context (malloc_ok : list Z -> Z -> bool) (shutdown_ok : Z -> bool).
(** The C library's [realloc]. *)
Context (realloc : EggBufferAllocator).

Abbreviation Serve A := (Net (Server W) A).

(** Code of the dispatcher, and code on the connection. *)
Definition on_proc {A} (m : ST (Proc W) A) : Serve A :=
  net (zoom sv_proc (fun p s => mkServer p (sv_conn s)) m).
Definition on_conn {A} (m : Net Conn A) : Serve A :=
  zoom sv_conn (fun c s => mkServer (sv_proc s) c) m.

(** The two messages, or [None] when there is no memory for them. *)
Definition call_init : res (option (GckRpcMessage * GckRpcMessage)) :=
  req ← gck_rpc_message_new realloc (Some realloc);
  resp ← gck_rpc_message_new realloc (Some realloc);
  match req, resp with
  | Some req, Some resp => mret (Some (req, resp))
  | _, _ =>
      gck_rpc_message_free req;;
      gck_rpc_message_free resp;;
      mret None
  end.

Definition call_uninit : ST (Proc W) unit :=
  (* Close any open sessions *)
  _ ← rpc_C_Finalize pkcs11_module shutdown_ok;
  call_reset;;
  s ← get_st;
  lift_res (gck_rpc_message_free (Some (req s)));;
  lift_res (gck_rpc_message_free (Some (resp s))).

(** .. send back response length, and then response data *)
Definition send_response (sock : Z) : Serve (bool * list Z) :=
  p ← net (gets sv_proc);
  let b := buffer (resp p) in
  let buf := egg_buffer_encode_uint32 (wrap32 (eb_len b)) in
  ok ← on_conn (cs_write sock buf);
  if negb ok then mret (false, buf) else
  data ← net (lift_res (buffer_room b (eb_len b)));
  ok ← on_conn (cs_write sock data);
  mret (ok, buf).

(** The first half of the loop: a message is read into the request's buffer.
    [buf] is the array of four bytes on the stack; [false] is [break]. *)
Definition receive_request (sock : Z) (buf : list Z) : Serve (bool * list Z) :=
  (* Read the number of bytes ... *)
  '(ok, buf) ← on_conn (cs_read sock buf);
  if negb ok then mret (false, buf) else
  (* Calculate the number of bytes *)
  let len := egg_buffer_decode_uint32 buf in
  if 268435455 <=? len then mret (false, buf) else
  (* Allocate memory *)
  on_proc (on_req (on_buffer (n ← gets eb_len; _ ← egg_buffer_reserve (wrap64 (n + len)); mret tt)));;
  p ← net (gets sv_proc);
  if egg_buffer_has_error (buffer (req p)) then mret (false, buf) else
  (* ... and read/parse in the actual message *)
  room ← net (lift_res (buffer_room (buffer (req p)) len));
  '(ok, data) ← on_conn (cs_read sock room);
  on_proc (on_req (on_buffer (store 0 data)));;
  if negb ok then mret (false, buf) else
  on_proc (on_req (on_buffer (_ ← egg_buffer_add_empty len; mret tt)));;
  mret (true, buf).

(** One turn of the loop, in three parts.  The next message is read and parsed, *)
Definition take_request (buf : list Z) : Serve (bool * list Z) :=
  on_proc call_reset;;
  sock ← net (gets (fun s => cs_sock (p_cs (sv_proc s))));
  '(ok, buf) ← receive_request sock buf;
  if negb ok then mret (false, buf) else
  ok ← on_proc (on_req (gck_rpc_message_parse GCK_RPC_REQUEST));
  mret (ok, buf).

(** ... send for processing ... *)
Definition process_request (buf : list Z) : Serve (bool * list Z) :=
  ok ← on_proc (dispatch_call pkcs11_module malloc_ok shutdown_ok);
  mret (ok, buf).

(** and the response is sent. *)
Definition answer_request : Serve (bool * list Z) :=
  sock ← net (gets (fun s => cs_sock (p_cs (sv_proc s))));
  send_response sock.

Definition serve_request (buf : list Z) : Serve (bool * list Z) :=
  '(ok, buf) ← take_request buf;
  if negb ok then mret (false, buf) else
  '(ok, buf) ← process_request buf;
  if negb ok then mret (false, buf) else
  answer_request.

(** The main thread loop: [false] only if [fuel] turns are not enough. *)
Fixpoint serve_loop (fuel : nat) (buf : list Z) : Serve bool :=
  match fuel with
  | O => mret false
  | S fuel =>
      '(ok, buf) ← serve_request buf;
      if (ok : bool) then serve_loop fuel buf else mret true
  end.

(** What a turn takes from the connection: every read that succeeds, at least one
    byte or one event. *)
Definition event_size (e : event) : nat :=
  match e with Arrived bs => S (length bs) | Failed _ => 1 end.
Definition serve_fuel (c : Conn) : nat := S (sum_list_with event_size (cn_recv c)).

(** [uint64_t] read as it lies in memory (little endian). *)
Definition decode_appid (bs : list Z) : Z :=
  foldr (fun b n => b + 256 * n) 0 bs.

(** How [run_dispatch_loop] ends, with what is left of the connection: without
    having served, or with the loop left and everything given back. *)
Inductive ending := Unserved (c : Conn) | Served (s : Server W) | Blocked (s : Server W)
  | BlockedEarly (c : Conn) | OutOfFuel.

(** [run_dispatch_loop] up to its loop.  [cs] is as [gck_rpc_layer_accept] or
    [gck_rpc_layer_inetd] made it: zeros but for the socket and the transport.
    [start_tls]: the TLS handshake succeeds. *)
Definition enter_loop (sock : Z) (start_tls : bool) (w : W) (others : list OtherDispatcher)
    (c : Conn) : res (ending + Server W) :=
  if sock =? -1 then Crash AssertionFailed else
  (* Enable TLS for this socket *)
  if bool_decide (cn_transport c = Tls) && negb start_tls then Ok (inl (Unserved c)) else
  (* The client application *)
  '(r, c) ← cs_read sock (replicate 8 0) c;
  match r with
  | None => Ok (inl (BlockedEarly c))
  | Some (false, _) => Ok (inl (Unserved c))
  | Some (true, appid) =>
      (* Setup our buffers *)
      messages ← call_init;
      match messages with
      | None => Ok (inl (Unserved c))
      | Some (req, resp) =>
          let cs := mkCallState req resp [] (decode_appid appid) sock
            (replicate PKCS11PROXY_MAX_SESSION_COUNT (mkSessionState 0 0)) in
          Ok (inr (mkServer (mkProc cs w others) c))
      end
  end.

(** [stack] is what the array [buf] holds at first. *)
Definition run_dispatch_loop (sock : Z) (start_tls : bool) (stack : list Z)
    (w : W) (others : list OtherDispatcher) (c : Conn) : res ending :=
  e ← enter_loop sock start_tls w others c;
  match e with
  | inl r => Ok r
  | inr s =>
      '(r, s) ← serve_loop (serve_fuel (sv_conn s)) stack s;
      match r with
      | None => Ok (Blocked s)
      | Some false => Ok OutOfFuel
      | Some true =>
          '(_, p) ← call_uninit (sv_proc s);
          Ok (Served (mkServer p (sv_conn s)))
      end
  end.

(** The thread, and the socket's number at the end; [filter] is what
    [_install_dispatch_syscall_filter] returns. *)
Definition run_dispatch_thread (filter : Z) (sock : Z) (start_tls : bool) (stack : list Z)
    (w : W) (others : list OtherDispatcher) (c : Conn) : res (ending * Z) :=
  if sock =? -1 then Crash AssertionFailed else
  if negb (filter =? 0) then Ok (Unserved c, sock) else
  r ← run_dispatch_loop sock start_tls stack w others c;
  match r with
  | Unserved _ | Served _ =>
      (* The thread closes the socket and marks as done *)
      Ok (r, -1)
  | _ => Ok (r, sock)
  end.

Definition STDIN_FILENO : Z := 0.

(** The one connection of inetd mode, over the standard input; its end is not looked at. *)
Definition gck_rpc_layer_inetd (filter : Z) (stack : list Z) (w : W)
    (evs : list event) (sends : list send_event) : res (ending * Z) :=
  run_dispatch_thread filter STDIN_FILENO false stack w [] (mkConn Inetd evs sends []).
End Loop.

(** * Specifications *)

(** A read in the middle of serving. *)
Lemma cs_read_runs sock old c :
  cn_transport c <> Inetd -> 0 <= sock -> 0 < zlen old ->
  runs (fun c' => receiving c c' /\ zlen (incoming c) < zlen old /\ incoming_end c = None)
    (cs_read sock old) (fun r c' => receiving c c' /\ r.2 = overwritten old (incoming c) /\
      if r.1 then zlen old <= zlen (incoming c)
        /\ incoming c' = drop (length old) (incoming c) /\ incoming_end c' = incoming_end c
      else zlen (incoming c) < zlen old /\ is_Some (incoming_end c)) c.
Proof.
  intros Ht Hs Hl.
  assert (cs_read sock old c = read_all sock old c) as E by (unfold cs_read; by destruct (cn_transport c)).
  unfold runs, wp. rewrite E. unfold read_all.
  change (runs (fun c' => receiving c c' /\ zlen (incoming c) < zlen old /\ incoming_end c = None)
    (read_all sock old) (fun r c' => receiving c c' /\ r.2 = overwritten old (incoming c) /\
      if r.1 then zlen old <= zlen (incoming c)
        /\ incoming c' = drop (length old) (incoming c) /\ incoming_end c' = incoming_end c
      else zlen (incoming c) < zlen old /\ is_Some (incoming_end c)) c).
  apply runs_bind, runs_net, wp_assert; [by apply Z.leb_le|].
  apply runs_bind, runs_net, wp_assert; [by apply Z.ltb_lt|].
  apply runs_bind. eapply wp_mono; [apply read_data_wp|].
  intros [[e bs]|] c' (H1 & H2 & H3 & H4); [|by split].
  destruct H4 as [-> H4]. apply runs_ret. cbn. split; [done|]. split; [done|].
  destruct (bool_decide _); [done|]. destruct H4 as [? ->]. by eauto.
Qed.

Lemma cs_write_runs sock data c :
  cn_transport c <> Inetd -> 0 <= sock -> 0 < zlen data ->
  runs (fun c' => sending c c' /\ (exists w, cn_sent c' = cn_sent c ++ w /\ w `prefix_of` data)
      /\ (accepting c -> cn_send c' = []))
    (cs_write sock data) (fun ok c' => sending c c' /\ (accepting c -> ok = true /\ accepting c') /\
      if (ok : bool) then cn_sent c' = cn_sent c ++ data
      else exists w, cn_sent c' = cn_sent c ++ w /\ w `prefix_of` data) c.
Proof.
  intros Ht Hs Hl.
  assert (cs_write sock data c = write_all sock data c) as E by (unfold cs_write; by destruct (cn_transport c)).
  unfold runs, wp. rewrite E.
  change (runs (fun c' => sending c c' /\ (exists w, cn_sent c' = cn_sent c ++ w /\ w `prefix_of` data)
      /\ (accepting c -> cn_send c' = []))
    (write_all sock data) (fun ok c' => sending c c' /\ (accepting c -> ok = true /\ accepting c') /\
      if (ok : bool) then cn_sent c' = cn_sent c ++ data
      else exists w, cn_sent c' = cn_sent c ++ w /\ w `prefix_of` data) c).
  apply runs_bind, runs_net, wp_assert; [by apply Z.leb_le|].
  apply runs_bind, runs_net, wp_assert; [by apply Z.ltb_lt|].
  apply runs_bind. destruct (wp_inv _ _ _ (write_data_wp data c)) as (r & c' & Hrun & H1 & H2 & w & Hw & H3).
  assert (accepting c -> accepting c' /\ match r with Some e => e = Complete | None => cn_send c' = [] end)
    as Hacc by (intros Hc; pose proof (write_data_accepting data c Hc) as H; unfold wp in H; by rewrite Hrun in H).
  eapply wp_intro; [exact Hrun|]. destruct r as [e|].
  2: { split; [by split|]. split; [by eauto|]. intros Hc. by apply Hacc. }
  apply runs_ret. split; [by split|]. destruct e; cbn in H3.
  - rewrite bool_decide_true by done. subst. split; [|done]. intros Hc. split; [done|]. by apply Hacc.
  - rewrite bool_decide_false by done. split; [|by eauto]. intros Hc. by destruct (Hacc Hc).
  - rewrite bool_decide_false by done. split; [|by eauto]. intros Hc. by destruct (Hacc Hc).
Qed.

(** ** One request *)

(** [reply] answers the request [rq]: it is the response of the call that the
    request names, or the error response. *)
Definition reply_to (rq reply : list Z) : Prop :=
  0 < first_id rq < GCK_RPC_CALL_MAX /\
  exists m, contents (buffer m) = reply /\ good_response (first_id rq) m.

(** The bytes [w] of an answer that could not be sent to the end. *)
Definition begun (inc w : list Z) : Prop :=
  w = [] \/ exists rq reply rest,
    inc = frame rq ++ rest /\ reply_to rq reply /\ w `prefix_of` frame reply.

(** A message that is a request: it names a call and carries its signature. *)
Definition well_formed (rq : list Z) : Prop :=
  exists id s rest, names_call GCK_RPC_REQUEST rq id s rest.

(** What comes next is no request: not a whole message, one too long, or bytes
    that no call is named by. *)
Definition no_request (inc : list Z) : Prop :=
  ~ exists rq rest, 0 < zlen rq < 268435455 /\ well_formed rq /\ inc = frame rq ++ rest.

Lemma frame_header rq rest :
  0 <= zlen rq < 4294967296 ->
  egg_buffer_decode_uint32 (take 4 (frame rq ++ rest)) = zlen rq
  /\ drop (Z.to_nat (zlen rq)) (drop 4 (frame rq ++ rest)) = rest.
Proof.
  intros Hl. unfold frame. rewrite <- !(assoc_L app). split.
  - change (take 4 _) with (egg_buffer_encode_uint32 (wrap32 (zlen rq))).
    rewrite wrap32_id by lia. by apply decode_encode_uint32.
  - change (drop 4 _) with (rq ++ rest). apply drop_app_length'. unfold zlen. lia.
Qed.

(** Too few bytes, for the length or for the message, or a length too large. *)
Lemma no_request_short inc :
  (4 <= zlen inc -> egg_buffer_decode_uint32 (take 4 inc) < 268435455 ->
     zlen inc < 4 + egg_buffer_decode_uint32 (take 4 inc)) ->
  no_request inc.
Proof.
  intros H (rq & rest & Hl & _ & ->). destruct (frame_header rq rest) as [Hh _]; [lia|].
  rewrite Hh, zlen_app, zlen_frame in H. pose proof (zlen_nonneg rest). lia.
Qed.

(** A whole message that is not well-formed. *)
Lemma no_request_malformed rq rest :
  0 < zlen rq < 268435455 -> ~ well_formed rq -> no_request (frame rq ++ rest).
Proof.
  intros Hl Hw (rq' & rest' & Hl' & Hw' & E).
  destruct (frame_header rq rest) as [Hh _]; [lia|]. destruct (frame_header rq' rest') as [Hh' _]; [lia|].
  rewrite E, Hh' in Hh. assert (rq = rq') as ->; [|done].
  apply (f_equal (drop 4)) in E. unfold frame in E. rewrite <- !(assoc_L app) in E.
  change (rq ++ rest = rq' ++ rest') in E. apply (f_equal (take (length rq))) in E.
  rewrite take_app_length, take_app_length' in E by (unfold zlen in Hh; lia). done.
Qed.

(** The next message is not announced to be empty. *)
Definition not_empty_frame (inc : list Z) : Prop :=
  4 <= zlen inc -> egg_buffer_decode_uint32 (take 4 inc) <> 0.

Record server_ok {W} (s : Server W) : Prop := {
  so_proc : dispatcher_ok (sv_proc s);
  so_transport : cn_transport (sv_conn s) <> Inetd;
  so_bytes : bytes (incoming (sv_conn s));
}.

(** Memory is found for messages, and every call of [send] takes something. *)
Record able {W} (s : Server W) : Prop := {
  ab_req : gives_room (req (sv_proc s));
  ab_resp : gives_room (resp (sv_proc s));
  ab_send : accepting (sv_conn s);
}.

(** What being able depends on. *)
Definition means {W} (s : Server W) := (allocators (sv_proc s), cn_send (sv_conn s)).

Lemma able_means {W} (s s' : Server W) : means s' = means s -> able s -> able s'.
Proof.
  unfold means, allocators, msg_allocator. intros E [Hgq Hgr Ha]. injection E as Eq Er Es.
  split; unfold gives_room, accepting in *; [by rewrite Eq|by rewrite Er|by rewrite Es].
Qed.

Section Serve_request.
Context {W : Type} (M : CK_FUNCTION_LIST W) (HM : module_ok M).
Context (malloc_ok : list Z -> Z -> bool) (shutdown_ok : Z -> bool).

Lemma runs_on_proc {A} B (m : ST (Proc W) A) Q (s : Server W) :
  wp m (fun a p => Q a (mkServer p (sv_conn s))) (sv_proc s) -> runs B (on_proc m) Q s.
Proof. intros H. by apply runs_net, wp_zoom. Qed.

Lemma runs_on_conn {A} B B' (m : Net Conn A) P Q (s : Server W) :
  runs B' m P (sv_conn s) -> (forall c, B' c -> B (mkServer (sv_proc s) c)) ->
  (forall a c, P a c -> Q a (mkServer (sv_proc s) c)) -> runs B (on_conn m) Q s.
Proof.
  intros Hm HB HQ. unfold runs, on_conn. apply wp_zoom. eapply wp_mono; [exact Hm|].
  intros [a|] c; [apply HQ|apply HB].
Qed.

Lemma call_reset_wp (p : Proc W) :
  dispatcher_ok p ->
  wp call_reset (fun _ p' => dispatcher_ok p' /\ cs_sock (p_cs p') = cs_sock (p_cs p)
    /\ sessions p' = sessions p /\ p_module p' = p_module p
    /\ eb_allocator (buffer (req p')) = eb_allocator (buffer (req p))
    /\ eb_allocator (buffer (resp p')) = eb_allocator (buffer (resp p))
    /\ eb_len (buffer (req p')) = 0 /\ allocated p' = []
    /\ eb_failures (buffer (req p')) = 0) p.
Proof.
  intros [Hq Hr Hs Hk Hqa Hra]. unfold call_reset. apply wp_bind, wp_modify. apply wp_bind, wp_zoom.
  eapply wp_mono; [by apply reset_wp|]. intros _ m (b & -> & Hb & _ & Hl & Hf & Ha).
  apply wp_zoom. eapply wp_mono; [by apply reset_wp|]. intros _ m (b2 & -> & Hb2 & _ & _ & _ & Ha2).
  split; [split; try done; cbn; by rewrite ?Ha, ?Ha2|]. cbn in *. by split_and!.
Qed.

(** What a thread is to others: its application and its socket. *)
Definition same_thread (p p' : Proc W) : Prop :=
  cs_appid (p_cs p') = cs_appid (p_cs p) /\ cs_sock (p_cs p') = cs_sock (p_cs p).

Lemma call_reset_keeps (p : Proc W) :
  dispatcher_ok p ->
  wp call_reset (fun _ p' => same_thread p p' /\ p_dispatchers p' = p_dispatchers p) p.
Proof.
  intros [Hq Hr _ _ _ _]. unfold call_reset. apply wp_bind, wp_modify. apply wp_bind, wp_zoom.
  eapply wp_mono; [by apply reset_wp|]. intros _ m _. apply wp_zoom.
  eapply wp_mono; [by apply reset_wp|]. done.
Qed.

Lemma zlen_header id sig rest : 4 <= zlen (header id sig ++ rest).
Proof.
  unfold header. rewrite !zlen_app. change (zlen (enc_uint32 id)) with 4.
  pose proof (zlen_nonneg rest).
  pose proof (zlen_nonneg (match sig with Some s => enc_byte_array (Some (string_bytes s)) | None => [] end)).
  lia.
Qed.

Lemma resp_frame id (m : GckRpcMessage) :
  buffer_ok (buffer m) -> good_response id m ->
  buffer_room (buffer m) (eb_len (buffer m)) = Ok (contents (buffer m))
  /\ egg_buffer_encode_uint32 (wrap32 (eb_len (buffer m))) ++ contents (buffer m)
     = frame (contents (buffer m))
  /\ 0 < zlen (contents (buffer m)).
Proof.
  intros Hb Hg. pose proof (contents_len _ Hb) as Hl. pose proof Hb as [Hs ? ? ? _ _].
  split; [|split].
  - by rewrite buffer_room_ok by (lia || done).
  - unfold frame. by rewrite Hl.
  - destruct Hg as [(c & ps & _ & _ & ->)|(rv & _ & ->)]; (eapply Z.lt_le_trans; [|apply zlen_header]; lia).
Qed.

(** Where a request is served: what may have happened when the connection is
    given up, or when it blocks. *)
Definition given_up (s s' : Server W) : Prop :=
  dispatcher_ok (sv_proc s') /\ exists w, cn_sent (sv_conn s') = cn_sent (sv_conn s) ++ w
    /\ begun (incoming (sv_conn s)) w
    /\ (able s -> w = [] /\ no_request (incoming (sv_conn s))).

Definition blocked (s s' : Server W) : Prop :=
  dispatcher_ok (sv_proc s') /\ exists w, cn_sent (sv_conn s') = cn_sent (sv_conn s) ++ w
    /\ begun (incoming (sv_conn s)) w
    /\ (able s -> w = [] /\ no_request (incoming (sv_conn s)) \/ cn_send (sv_conn s') = []).

Lemma given_up_blocked s s' : given_up s s' -> blocked s s'.
Proof. intros (Hd & w & Hw & Hb & Ha). split; [done|]. exists w. split_and!; auto. Qed.

Definition served (s : Server W) (r : bool * list Z) (s' : Server W) : Prop :=
  zlen r.2 = 4 /\ bytes r.2 /\
  if r.1 then server_ok s' /\ exists rq reply, 0 < zlen rq < 268435455
      /\ incoming (sv_conn s) = frame rq ++ incoming (sv_conn s')
      /\ incoming_end (sv_conn s') = incoming_end (sv_conn s)
      /\ well_formed rq /\ reply_to rq reply
      /\ cn_sent (sv_conn s') = cn_sent (sv_conn s) ++ frame reply
      /\ (able s -> able s')
  else given_up s s'.

Lemma given_up_nothing s s' :
  dispatcher_ok (sv_proc s') -> cn_sent (sv_conn s') = cn_sent (sv_conn s) ->
  (able s -> no_request (incoming (sv_conn s))) -> given_up s s'.
Proof.
  intros Hs Hsent Ha. split; [done|]. exists []. rewrite app_nil_r.
  split; [done|]. split; [by left|]. auto.
Qed.

(** The answer to [rq], once it is in the response's buffer. *)
Lemma send_response_runs sock rq s (s1 : Server W) :
  0 <= sock -> server_ok s1 -> cn_sent (sv_conn s1) = cn_sent (sv_conn s) ->
  incoming (sv_conn s) = frame rq ++ incoming (sv_conn s1) ->
  incoming_end (sv_conn s1) = incoming_end (sv_conn s) -> 0 < zlen rq < 268435455 ->
  0 < first_id rq < GCK_RPC_CALL_MAX -> well_formed rq -> (able s -> able s1) ->
  good_response (first_id rq) (resp (sv_proc s1)) ->
  runs (blocked s) (send_response sock) (served s) s1.
Proof.
  intros Hsock Hs Hsent Hinc Hend Hlen Hid Hwf Hable Hg. pose proof Hs as [Hd Ht Hby].
  pose proof (do_resp _ Hd) as Hr.
  destruct (resp_frame _ _ Hr Hg) as (Hroom & Hframe & Hpos).
  set (m := resp (sv_proc s1)) in *. set (data := contents (buffer m)) in *.
  set (buf := egg_buffer_encode_uint32 (wrap32 (eb_len (buffer m)))) in *.
  assert (reply_to rq data) as Hreply by (split; [done|by exists m]).
  assert (forall c w (P : Prop), sending (sv_conn s1) c -> cn_sent c = cn_sent (sv_conn s1) ++ w ->
    w `prefix_of` frame data -> (able s -> P) ->
    dispatcher_ok (sv_proc (mkServer (sv_proc s1) c)) /\ exists w,
      cn_sent c = cn_sent (sv_conn s) ++ w /\ begun (incoming (sv_conn s)) w /\ (able s -> P)) as Hup.
  { intros c w P [Hct Hcr] Hcs Hw HP. split; [done|].
    exists w. cbn. rewrite Hcs, Hsent. split; [done|]. split; [|done]. right.
    exists rq, data, (incoming (sv_conn s1)). by split. }
  assert (able s -> accepting (sv_conn s1)) as Hacc0 by (intros [_ _ ?]%Hable; done).
  apply runs_bind, runs_net, wp_gets. cbv zeta. fold m. fold buf.
  apply runs_bind. eapply runs_on_conn; [apply (cs_write_runs _ buf); [done|done|done]|..].
  - intros c (Hc & (w & Hcw & Hp) & Hstop).
    destruct (Hup c w (cn_send c = [])) as (? & w' & ? & ? & ?); [done|done| |auto|].
    + rewrite <- Hframe. by apply prefix_app_r.
    + split; [done|]. exists w'. split_and!; auto.
  - intros [|] c (Hc & Hacc & Hcw); cbn [negb].
    2: { destruct Hcw as (w & Hcw & Hp). apply runs_ret. split; [done|]. split; [by apply encode_uint32_bytes|].
         destruct (Hup c w False) as (? & w' & ? & ? & Hno); [done|done| | |].
         - rewrite <- Hframe. by apply prefix_app_r.
         - intros Ha. by destruct (Hacc (Hacc0 Ha)).
         - split; [done|]. exists w'. split_and!; [done|done|]. by intros ?%Hno. }
    apply runs_bind, runs_net. eapply wp_lift_res; [exact Hroom|].
    apply runs_bind. eapply runs_on_conn; [apply (cs_write_runs _ data)|..].
    + destruct Hc as [Hct _]. cbn. by rewrite Hct.
    + done.
    + done.
    + intros c2 (Hc2 & (w & Hcw2 & Hp) & Hstop).
      destruct (Hup c2 (buf ++ w) (cn_send c2 = [])) as (? & w' & ? & ? & ?).
      * destruct Hc, Hc2. split; cbn in *; congruence.
      * cbn in Hcw2. by rewrite Hcw2, Hcw, (assoc_L app).
      * rewrite <- Hframe. by apply prefix_app.
      * intros Ha. apply Hstop. by apply Hacc, Hacc0.
      * split; [done|]. exists w'. split_and!; auto.
    + intros ok c2 (Hc2 & Hacc2 & Hcw2). apply runs_ret. split; [done|]. split; [by apply encode_uint32_bytes|].
      assert (sending (sv_conn s1) c2) as Hc12 by (destruct Hc, Hc2; split; cbn in *; congruence).
      destruct ok.
      * assert (server_ok (mkServer (sv_proc s1) c2)) as Hs2.
        { destruct Hc12 as [Hct Hcr]. split; cbn; unfold incoming; rewrite ?Hct, ?Hcr; done. }
        split; [done|]. exists rq, data. destruct Hc12 as [Hct Hcr].
        cbn in *. unfold incoming, incoming_end in *. rewrite Hct, Hcr.
        split_and!; try done; try lia; [by rewrite Hcw2, Hcw, Hsent, <- Hframe, (assoc_L app)|].
        intros Ha. destruct (Hable Ha). split; [done|done|]. by apply Hacc2, Hacc, Hacc0.
      * destruct Hcw2 as (w & Hcw2 & Hp).
        destruct (Hup c2 (buf ++ w) False) as (? & w' & ? & ? & Hno); [done| | | |].
        -- cbn in Hcw2. by rewrite Hcw2, Hcw, (assoc_L app).
        -- rewrite <- Hframe. by apply prefix_app.
        -- intros Ha. destruct (Hacc (Hacc0 Ha)) as [_ Ha2]. by destruct (Hacc2 Ha2).
        -- split; [done|]. exists w'. split_and!; [done|done|]. by intros ?%Hno.
Qed.

(** The request's buffer holds the next message, or nothing for want of memory. *)
Definition received_request (s : Server W) (r : bool * list Z) (s' : Server W) : Prop :=
  zlen r.2 = 4 /\ bytes r.2 /\
  if r.1 then server_ok s' /\ cn_sent (sv_conn s') = cn_sent (sv_conn s)
    /\ incoming_end (sv_conn s') = incoming_end (sv_conn s)
    /\ exists rq, 0 < zlen rq < 268435455
      /\ incoming (sv_conn s) = frame rq ++ incoming (sv_conn s')
      /\ (contents (buffer (req (sv_proc s'))) = rq \/ contents (buffer (req (sv_proc s'))) = [])
      /\ (able s -> contents (buffer (req (sv_proc s'))) = rq)
  else given_up s s'.

Lemma received_request_stop (s : Server W) c p b :
  receiving (sv_conn s) c -> dispatcher_ok p -> zlen b = 4 -> bytes b ->
  (able s -> no_request (incoming (sv_conn s))) ->
  received_request s (false, b) (mkServer p c).
Proof. intros (_ & _ & Hc) ????. split; [done|split; [done|]]. by apply given_up_nothing. Qed.

(** The bytes of the message become the contents of the buffer. *)
Lemma message_stored_wp data b :
  buffer_ok b -> zlen data <= eb_allocated_len b -> bytes data -> eb_len b = 0 ->
  is_u32 (zlen data) ->
  wp (store 0 data) (fun _ b3 => buffer_ok b3 /\ eb_allocator b3 = eb_allocator b
    /\ wp (_ ← egg_buffer_add_empty (zlen data); mret tt) (fun _ b4 => buffer_ok b4
      /\ (contents b4 = data \/ contents b4 = []) /\ eb_allocator b4 = eb_allocator b
      /\ ((exists al, eb_allocator b = Some al /\ gives_memory al) -> contents b4 = data)) b3) b.
Proof.
  intros Hb Hl Hd Hl0 Hz. eapply wp_mono; [by apply store_first_wp|].
  intros [] b3 (Hb3 & Hl3 & Ht3 & Ha3). split; [done|]. split; [done|].
  destruct (wp_inv _ _ _ (add_empty_wp data b3 Hb3 ltac:(lia) Ht3 ltac:(lia)))
    as (r & b4 & Hrun & Hb4 & Hc4 & Ha4).
  apply wp_bind. eapply wp_intro; [exact Hrun|]. apply wp_ret. split_and!; try done; [congruence|].
  intros (al & Hal & Hg).
  pose proof (add_empty_gives al data b3 Hg Hb3 ltac:(congruence) ltac:(lia) Ht3 Hz) as H.
  unfold wp in H. rewrite Hrun in H. apply H.
Qed.

(** The message behind its length [hdr]. *)
Lemma receive_message_runs sock hdr n b2 p2 c1 (s : Server W) :
  0 <= sock -> dispatcher_ok p2 -> buffer (req p2) = b2 -> eb_len b2 = 0 ->
  cn_transport (sv_conn s) <> Inetd -> bytes (incoming (sv_conn s)) ->
  receiving (sv_conn s) c1 -> incoming c1 = drop 4 (incoming (sv_conn s)) ->
  incoming_end c1 = incoming_end (sv_conn s) ->
  hdr = take 4 (incoming (sv_conn s)) -> zlen hdr = 4 -> n = egg_buffer_decode_uint32 hdr ->
  0 < n < 268435455 -> n <= eb_allocated_len b2 ->
  (able s -> exists al, eb_allocator b2 = Some al /\ gives_memory al) ->
  runs (blocked s) (room ← net (lift_res (buffer_room b2 n));
      '(ok, data) ← on_conn (cs_read sock room);
      on_proc (on_req (on_buffer (store 0 data)));;
      if negb ok then mret (false, hdr) else
      on_proc (on_req (on_buffer (_ ← egg_buffer_add_empty n; mret tt)));;
      mret (true, hdr)) (received_request s) (mkServer p2 c1).
Proof.
  intros Hsock Hd2 Hb Hl0 Ht Hby Hc1 Hinc1 Hend1 Hhdr Hzh Hn Hrange Hroom Hgives.
  pose proof Hd2 as [Hb2 Hr2 Hss2 Hsk2 Hqa2 Hra2]. rewrite Hb in Hb2.
  assert (bytes hdr) as Hbh by (rewrite Hhdr; by apply Forall_take).
  apply runs_bind, runs_net. eapply wp_lift_res; [apply (buffer_room_ok b2 n Hb2); lia|].
  pose proof Hb2 as [Hs2 _ _ Hbm2 _ _].
  set (room := slice _ 0 n). assert (zlen room = n) as Hzr by (apply zlen_slice; lia).
  assert (4 <= zlen (incoming (sv_conn s))) as Hl4
    by (rewrite Hhdr in Hzh; unfold zlen in *; rewrite length_take in Hzh; lia).
  assert (zlen (incoming c1) < n -> no_request (incoming (sv_conn s))) as Hshort.
  { intros Hl. apply no_request_short. intros _ _. rewrite <- Hhdr, <- Hn. rewrite Hinc1 in Hl.
    rewrite (zlen_drop _ 4) in Hl by lia. lia. }
  apply runs_bind. eapply runs_on_conn; [apply (cs_read_runs _ room)|..]; cbn [sv_conn];
    [by rewrite (proj1 Hc1)|done|lia| |].
  { intros c2 (Hc2 & Hl & _). pose proof (receiving_trans _ _ _ Hc1 Hc2) as (_ & _ & Hs).
    apply given_up_blocked, given_up_nothing; [done|done|]. intros _. apply Hshort. lia. }
  intros [ok data] c2 (Hc2 & Hdata & Hok). cbn in Hdata, Hok.
  change (receiving c1 c2) in Hc2. pose proof (receiving_trans _ _ _ Hc1 Hc2) as Hc02.
  assert (zlen data = n) as Hzd by (by rewrite Hdata, zlen_overwritten).
  assert (bytes data) as Hbd.
  { rewrite Hdata. apply overwritten_bytes; [by apply slice_bytes|]. rewrite Hinc1. by apply Forall_drop. }
  apply runs_bind, runs_on_proc, wp_zoom, wp_zoom. cbn [sv_proc sv_conn]. rewrite Hb.
  eapply wp_mono; [apply message_stored_wp; (done || lia)|].
  intros [] b3 (Hb3 & Ha3 & Hnext). set (p3 := set_req _ p2).
  assert (dispatcher_ok p3) as Hd3 by (split; try done; cbn; by rewrite Ha3, <- Hb).
  destruct ok; cbn [negb].
  2: { apply runs_ret, received_request_stop; try done. intros _. apply Hshort. rewrite <- Hzr. apply Hok. }
  destruct Hok as (Hlen2 & Hinc2 & Hend2).
  apply runs_bind, runs_on_proc, wp_zoom, wp_zoom. cbn [sv_proc sv_conn].
  change (buffer (req p3)) with b3. rewrite <- Hzd. eapply wp_mono; [exact Hnext|].
  intros _ b4 (Hb4 & Hc4 & Ha4 & Hg4). apply runs_ret. split; [done|]. split; [done|].
  assert (length room = Z.to_nat n) as Hlr by (unfold zlen in Hzr; lia).
  rewrite overwritten_all in Hdata by done. rewrite Hlr, Hinc1 in Hdata, Hinc2.
  split; [|split; [apply Hc02|split; [exact (eq_trans Hend2 Hend1)|]]].
  - split; [split; try done; cbn; by rewrite Ha4, <- Hb|cbn; by rewrite (proj1 Hc02)|cbn].
    rewrite Hinc2. by apply Forall_drop, Forall_drop.
  - exists data. split; [lia|]. split; [|split; [done|by intros ?%Hgives%Hg4]].
    cbn. rewrite Hdata. apply (frame_split _ n); try done.
    + by rewrite Hn, Hhdr.
    + rewrite Hinc1 in Hlen2. lia.
Qed.

Lemma receive_request_runs buf sock (s s0 : Server W) :
  0 <= sock -> server_ok s -> eb_len (buffer (req (sv_proc s))) = 0 ->
  eb_failures (buffer (req (sv_proc s))) = 0 -> sv_conn s0 = sv_conn s -> (able s0 -> able s) ->
  zlen buf = 4 -> bytes buf -> not_empty_frame (incoming (sv_conn s)) ->
  runs (blocked s0) (receive_request sock buf) (received_request s0) s.
Proof.
  intros Hsock Hs Hl0 Hf0 Hc0 Hable Hbuf Hbb Hne. pose proof Hs as [Hd Ht Hby]. unfold receive_request.
  rewrite <- Hc0 in Hne, Ht, Hby.
  assert (zlen (incoming (sv_conn s0)) < 4 -> no_request (incoming (sv_conn s0))) as Hshort
    by (intros ?; apply no_request_short; lia).
  apply runs_bind. eapply runs_on_conn; [rewrite <- Hc0; apply (cs_read_runs _ buf); (done || lia)|..].
  { intros c ((_ & _ & Hc) & Hl & _). apply given_up_blocked, given_up_nothing; [done|done|].
    intros _. apply Hshort. lia. }
  intros [ok b] c1 (Hc1 & Hb & Hok). cbn in Hb, Hok.
  assert (zlen b = 4) as Hzb by (by rewrite Hb, zlen_overwritten).
  assert (bytes b) as Hbb1 by (rewrite Hb; by apply overwritten_bytes).
  destruct ok; cbn [negb].
  2: { apply runs_ret, received_request_stop; try done. intros _. apply Hshort. rewrite <- Hbuf. apply Hok. }
  destruct Hok as (Hlen & Hinc1 & Hend1). rewrite overwritten_all in Hb by done.
  replace (length buf) with 4%nat in Hb, Hinc1 by (unfold zlen in Hbuf; lia).
  specialize (Hne ltac:(lia)). rewrite <- Hb in Hne.
  pose proof (decode_uint32_range b) as Hrange.
  destruct (Z.leb_spec 268435455 (egg_buffer_decode_uint32 b)) as [|Hn].
  { apply runs_ret, received_request_stop; try done. intros _. apply no_request_short. rewrite <- Hb. lia. }
  apply runs_bind, runs_on_proc, wp_zoom, wp_zoom, wp_bind, wp_gets, wp_bind.
  cbn [sv_proc sv_conn]. rewrite Hl0, Z.add_0_l, wrap64_id by lia.
  pose proof Hd as [Hq Hr Hss Hsk Hqa Hra].
  eapply wp_mono; [eapply wp_and; [apply (egg_buffer_reserve_gives _ _ Hq)|apply (egg_buffer_reserve_wp _ _ Hq)];
    lia|].
  intros r b2 (Hgive & Hb2 & _ & Hl2 & Ha2 & Hr2). apply wp_ret.
  set (p2 := set_req _ _). assert (dispatcher_ok p2) as Hd2 by (split; try done; cbn; by rewrite Ha2).
  apply runs_bind, runs_net, wp_gets. cbn [sv_proc].
  change (buffer (req p2)) with b2. destruct (egg_buffer_has_error b2) eqn:Herr.
  { apply runs_ret, received_request_stop; try done. intros Ha. destruct (ab_req _ (Hable Ha)) as (al & Hal).
    rewrite (Hgive (ex_intro _ al Hal)) in Hr2. unfold egg_buffer_has_error in Herr.
    rewrite (proj2 Hr2), Hf0 in Herr. done. }
  apply has_error_false in Herr; [|done].
  apply receive_message_runs; try done; [congruence|lia| |].
  - destruct r; [lia|subst b2; cbn in Herr; destruct Hq; lia].
  - intros Ha. rewrite Ha2. apply (ab_req _ (Hable Ha)).
Qed.

(** The request is parsed. *)
Definition taken_request (s : Server W) (r : bool * list Z) (s' : Server W) : Prop :=
  zlen r.2 = 4 /\ bytes r.2 /\
  if r.1 then server_ok s' /\ cn_sent (sv_conn s') = cn_sent (sv_conn s)
    /\ incoming_end (sv_conn s') = incoming_end (sv_conn s)
    /\ exists rq, 0 < zlen rq < 268435455 /\ incoming (sv_conn s) = frame rq ++ incoming (sv_conn s')
      /\ well_formed rq
      /\ accepted GCK_RPC_REQUEST (req (sv_proc s')) /\ call_id (req (sv_proc s')) = first_id rq
  else given_up s s'.

Lemma take_request_runs buf s :
  server_ok s -> zlen buf = 4 -> bytes buf -> not_empty_frame (incoming (sv_conn s)) ->
  runs (blocked s) (take_request buf) (taken_request s) s.
Proof.
  intros Hs Hbuf Hbb Hne. pose proof Hs as [Hd Ht Hby]. unfold take_request.
  apply runs_bind, runs_on_proc. eapply wp_mono; [by apply call_reset_wp|].
  intros [] p1 (Hd1 & _ & _ & _ & Hqa1 & Hra1 & Hl1 & _ & Hf1). pose proof (do_sock _ Hd1) as Hsock.
  apply runs_bind, runs_net, wp_gets. cbn [sv_proc].
  apply runs_bind. eapply runs_mono; [apply (receive_request_runs _ _ (mkServer p1 (sv_conn s)) s); try done|done|].
  { intros Ha. apply (able_means s); [|done]. unfold means, allocators, msg_allocator. cbn. by rewrite Hqa1, Hra1. }
  intros [ok b] [p2 c2] (Hzb & Hbb2 & Hrq). cbn in Hzb, Hbb2, Hrq.
  destruct ok; cbn [negb]; [|by apply runs_ret].
  destruct Hrq as ([Hd2 Ht2 Hby2] & Hsent & Hend & rq & Hlen & Hframe & Hcon & Hfull). cbn in *.
  apply runs_bind, runs_on_proc, wp_zoom. cbn [sv_proc sv_conn].
  pose proof Hd2 as [Hq2 Hr2 Hss2 Hsk2 Hqa2 Hra2].
  destruct (wp_inv _ _ _ (parse_wp GCK_RPC_REQUEST _ Hq2)) as (ok & m & Hrun & [Hbm _] & Hal & Hacc).
  pose proof (parse_accepts _ Hq2) as Hpa. unfold wp in Hpa. rewrite Hrun in Hpa.
  eapply wp_intro; [exact Hrun|]. set (p3 := set_req m p2).
  assert (dispatcher_ok p3) as Hd3 by (split; try done; cbn; by rewrite Hal).
  apply runs_ret. split; [done|]. split; [done|].
  destruct ok.
  - destruct (Hacc eq_refl eq_refl) as [Hacc3 Hid]. pose proof (ac_id _ _ Hacc3) as Hpos.
    destruct (Hpa eq_refl) as (sg & Hnames & _).
    destruct Hcon as [Hcon|Hcon]; rewrite Hcon in Hid, Hnames; [|rewrite Hid in Hpos; by destruct Hpos].
    split; [by split|]. split; [done|]. split; [done|]. exists rq.
    split; [exact Hlen|]. split; [done|]. split; [by eexists _, _, _|done].
  - apply given_up_nothing; [done|done|]. intros Ha. rewrite Hframe. apply no_request_malformed; [done|].
    intros (id & sg & rest & Hn). rewrite <- (Hfull Ha) in Hn.
    destruct (parse_names_call _ _ _ _ _ Hq2 Hn) as (m1 & Hrun1 & _). congruence.
Qed.

(** Taking and processing a request leave what the next one needs. *)
Lemma net_keeps {S A B} (f : S -> B) (m : ST S A) : keeps f m -> keeps f (net m).
Proof.
  intros Hm s r s'. unfold net. destruct (m s) as [[a s1]|] eqn:E; [|done].
  intros [= _ <-]. by eapply Hm.
Qed.
Lemma net_bind_keeps {S A C B} (f : S -> B) (m : Net S A) (k : A -> Net S C) :
  keeps f m -> (forall a, keeps f (k a)) -> keeps f (m ≫= k).
Proof.
  intros Hm Hk s c s'. unfold mbind, Net_bind. destruct (m s) as [[[a|] s1]|] eqn:E; [..|done].
  - intros H. rewrite (Hk a s1 c s' H). by eapply Hm.
  - intros [= _ <-]. by eapply Hm.
Qed.
Lemma net_ret_keeps {S A B} (f : S -> B) (a : A) : keeps f (mret a : Net S A).
Proof. by intros s r s' [= _ <-]. Qed.

Lemma on_proc_keeps {A} (m : ST (Proc W) A) : keeps allocators m -> keeps means (on_proc m).
Proof.
  intros Hm. apply net_keeps, (keeps_zoom _ allocators); [done|]. intros p s Hp. unfold means. cbn. by rewrite Hp.
Qed.
Lemma cs_read_keeps sock old : keeps cn_send (cs_read sock old).
Proof.
  intros c r c'. unfold cs_read, read_all, _inetd_read. destruct (cn_transport c).
  1,2: assert (keeps cn_send (read_all sock old)) as H; [|apply H];
    repeat first [apply net_ret_keeps | apply net_bind_keeps; [|intros ?] | apply net_keeps, keeps_assert];
    [|match goal with |- keeps _ (match ?x with _ => _ end) => destruct x end; apply net_ret_keeps];
    intros c0 r0 c1; unfold read_data; destruct (read_loop _ _ _ _) as [[? ?] ?]; by intros [= _ <-].
  assert (keeps cn_send (_inetd_read sock old)) as H; [|apply H]. unfold _inetd_read.
  apply net_bind_keeps; [apply net_keeps, keeps_assert|intros []].
  destruct (_ =? 0); [apply net_ret_keeps|]. intros c0 r0 c1.
  unfold mbind, Net_bind, net, get_st, waiting. destruct (cn_recv c0) as [|e evs]; [by intros [= _ <-]|].
  destruct (recv _ _) as [x rest]. cbn. by intros [= _ <-].
Qed.
Lemma on_conn_read_keeps sock old : keeps means (on_conn (W := W) (cs_read sock old)).
Proof.
  apply (keeps_zoom _ cn_send); [apply cs_read_keeps|]. intros c s Hc. unfold means. cbn. by rewrite Hc.
Qed.

Ltac keeps_serve := repeat first
  [ apply net_ret_keeps | apply net_bind_keeps; [|intros ?] | apply on_conn_read_keeps
  | apply on_proc_keeps; first [apply reset_messages_keeps | apply on_req_keeps, parse_keeps
      | apply on_req_keeps, on_buffer_keeps; keeps; fail]
  | apply net_keeps, keeps_gets | apply net_keeps, keeps_lift_res | progress cbv zeta
  | match goal with |- keeps _ (match ?x with _ => _ end) => destruct x end ].

Lemma take_request_keeps buf : keeps means (take_request (W := W) buf).
Proof.
  unfold take_request, receive_request. keeps_serve.
Qed.
Lemma process_request_keeps buf : keeps means (process_request M malloc_ok shutdown_ok buf).
Proof.
  unfold process_request. apply net_bind_keeps; [apply on_proc_keeps, dispatch_call_keeps|intros ?].
  apply net_ret_keeps.
Qed.

Lemma runs_keeps {A C} (f : Server W -> C) B (m : Net (Server W) A) Q s :
  keeps f m -> runs B m Q s -> runs B m (fun a s' => Q a s' /\ f s' = f s) s.
Proof.
  intros Hk Hw. eapply wp_mono; [by apply (keeps_wp f)|]. intros [a|] s' [? ?]; done.
Qed.

Lemma process_request_runs buf s :
  server_ok s -> accepted GCK_RPC_REQUEST (req (sv_proc s)) ->
  runs (fun _ => False) (process_request M malloc_ok shutdown_ok buf) (fun r s' => r.2 = buf
    /\ server_ok s' /\ sv_conn s' = sv_conn s
    /\ (r.1 = true -> good_response (call_id (req (sv_proc s))) (resp (sv_proc s')))
    /\ (able s -> r.1 = true)) s.
Proof.
  intros [Hd Ht Hby] Hacc. apply runs_bind, runs_on_proc.
  destruct (wp_inv _ _ _ (dispatch_call_wp M HM malloc_ok shutdown_ok _ Hd Hacc)) as (ok & p & Hrun & Hd' & Hgood).
  eapply wp_intro; [exact Hrun|]. apply runs_ret. split_and!; try done. intros [_ Hg _].
  pose proof (dispatch_call_answers M malloc_ok shutdown_ok HM _ Hd Hacc Hg) as H.
  unfold wp in H. by rewrite Hrun in H.
Qed.

Lemma serve_request_runs buf s :
  server_ok s -> zlen buf = 4 -> bytes buf -> not_empty_frame (incoming (sv_conn s)) ->
  runs (blocked s) (serve_request M malloc_ok shutdown_ok buf) (served s) s.
Proof.
  intros Hs Hbuf Hbb Hne. unfold serve_request. apply runs_bind.
  eapply runs_mono; [apply (runs_keeps means); [apply take_request_keeps|by apply take_request_runs]|done|].
  intros [[|] b] s2 [(Hzb & Hbb2 & Hrq) Hm2]; cbn in Hzb, Hbb2, Hrq; cbn [negb]; [|by apply runs_ret].
  destruct Hrq as (Hs2 & Hsent & Hend & rq & Hlen & Hframe & Hwf & Hacc & Hid).
  apply runs_bind.
  eapply runs_mono; [apply (runs_keeps means); [apply process_request_keeps|by apply process_request_runs]|done|].
  intros [[|] b3] s3 [(Hb3 & Hs3 & Hc3 & Hgood & Hans) Hm3]; cbn [negb fst snd] in *; subst b3.
  2: { apply runs_ret. split; [done|]. split; [done|]. apply given_up_nothing; [apply Hs3|by rewrite Hc3|].
       intros Ha. by discriminate (Hans (able_means _ _ Hm2 Ha)). }
  specialize (Hgood eq_refl). rewrite Hid in Hgood. pose proof (ac_id _ _ Hacc) as Hpos. rewrite Hid in Hpos.
  apply runs_bind, runs_net, wp_gets.
  apply (send_response_runs _ rq); rewrite ?Hc3; try done; [apply (do_sock _ (so_proc _ Hs3))|].
  intros Ha. by eapply able_means, able_means, Ha.
Qed.
End Serve_request.

(** ** The connection from its first to its last byte *)

(** The check every message's length passes: none is announced to be empty. *)
Fixpoint frames_ok (fuel : nat) (inc : list Z) : bool :=
  if zlen inc <? 4 then true else
  let n := egg_buffer_decode_uint32 (take 4 inc) in
  if n =? 0 then false else
  if 268435455 <=? n then true else
  match fuel with
  | O => true
  | S fuel => frames_ok fuel (drop (Z.to_nat n) (drop 4 inc))
  end.
Definition no_empty_frames (inc : list Z) : Prop := frames_ok (length inc) inc = true.

Lemma frames_ok_less fuel fuel' inc :
  (fuel' <= fuel)%nat -> frames_ok fuel inc = true -> frames_ok fuel' inc = true.
Proof.
  revert fuel' inc. induction fuel as [|fuel IH]; intros [|fuel'] inc Hf; [done|lia|..];
    cbn [frames_ok]; destruct (_ <? 4); try done; destruct (_ =? 0); try done;
    destruct (_ <=? _); try done.
  apply IH. lia.
Qed.

Lemma no_empty_frames_first inc : no_empty_frames inc -> not_empty_frame inc.
Proof.
  intros H Hl. unfold no_empty_frames in H. destruct (length inc); cbn [frames_ok] in H;
    rewrite (proj2 (Z.ltb_ge _ _) Hl) in H; by destruct (Z.eqb_spec (egg_buffer_decode_uint32 (take 4 inc)) 0).
Qed.

Lemma no_empty_frames_next rq rest :
  0 < zlen rq < 268435455 -> no_empty_frames (frame rq ++ rest) -> no_empty_frames rest.
Proof.
  intros Hl H. destruct (frame_header rq rest) as [Hh Hd]; [lia|]. unfold no_empty_frames in H.
  assert (length (frame rq ++ rest) = S (3 + length rq + length rest)) as E
    by (rewrite length_app; unfold frame; rewrite length_app; done).
  rewrite E in H. cbn [frames_ok] in H. rewrite Hh, Hd in H.
  rewrite (proj2 (Z.ltb_ge _ _)) in H
    by (rewrite zlen_app, zlen_frame; pose proof (zlen_nonneg rest); lia).
  rewrite (proj2 (Z.eqb_neq _ _)), (proj2 (Z.leb_gt _ _)) in H by lia.
  eapply frames_ok_less; [|exact H]. lia.
Qed.

(** The abstract specification of a connection: what the client sent, and what it
    was sent in return.  Every message is answered before the next one, by the
    response of the call it names or by the error response, until something makes
    the daemon stop; the last answer may have been cut off. *)
Inductive conversation : list Z -> list Z -> Prop :=
| conv_next rq reply inc w :
    0 < zlen rq < 268435455 -> well_formed rq -> reply_to rq reply -> conversation inc w ->
    conversation (frame rq ++ inc) (frame reply ++ w)
| conv_stop inc w : begun inc w -> conversation inc w.

(** A client served to its end: every well-formed request has its answer, in
    order, up to the first bytes that are no request, and nothing else is sent. *)
Inductive answered : list Z -> list Z -> Prop :=
| ans_next rq reply inc w :
    0 < zlen rq < 268435455 -> well_formed rq -> reply_to rq reply -> answered inc w ->
    answered (frame rq ++ inc) (frame reply ++ w)
| ans_end inc : no_request inc -> answered inc [].

Section Connection.
Context {W : Type} (M : CK_FUNCTION_LIST W) (HM : module_ok M).
Context (malloc_ok : list Z -> Z -> bool) (shutdown_ok : Z -> bool).

(** The part of a connection that was served, when the loop is left, and when it
    waits: with memory and a client that takes what it is sent, it is left at the
    client's last request only, and waits only for more bytes or to send more. *)
Definition conversed (s s' : Server W) : Prop :=
  dispatcher_ok (sv_proc s') /\ exists w, cn_sent (sv_conn s') = cn_sent (sv_conn s) ++ w
    /\ conversation (incoming (sv_conn s)) w /\ (able s -> answered (incoming (sv_conn s)) w).

Definition waits (s s' : Server W) : Prop :=
  dispatcher_ok (sv_proc s') /\ exists w, cn_sent (sv_conn s') = cn_sent (sv_conn s) ++ w
    /\ conversation (incoming (sv_conn s)) w
    /\ (able s -> answered (incoming (sv_conn s)) w \/ cn_send (sv_conn s') = []).

(** A turn of the loop before what follows. *)
Lemma turn_before (s s1 : Server W) rq reply w :
  0 < zlen rq < 268435455 -> well_formed rq -> reply_to rq reply ->
  incoming (sv_conn s) = frame rq ++ incoming (sv_conn s1) ->
  cn_sent (sv_conn s1) = cn_sent (sv_conn s) ++ frame reply ->
  forall c, cn_sent c = cn_sent (sv_conn s1) ++ w -> conversation (incoming (sv_conn s1)) w ->
  cn_sent c = cn_sent (sv_conn s) ++ frame reply ++ w
  /\ conversation (incoming (sv_conn s)) (frame reply ++ w).
Proof.
  intros Hlen Hwf Hreply Hinc Hsent c Hw Hc. rewrite Hw, Hsent, (assoc_L app), Hinc.
  split; [done|by apply conv_next].
Qed.

Lemma serve_loop_runs fuel buf s :
  server_ok s -> zlen buf = 4 -> bytes buf -> no_empty_frames (incoming (sv_conn s)) ->
  (length (incoming (sv_conn s)) < fuel)%nat ->
  runs (waits s) (serve_loop M malloc_ok shutdown_ok fuel buf)
    (fun r s' => r = true /\ conversed s s') s.
Proof.
  revert buf s. induction fuel as [|fuel IH]; intros buf s Hs Hzb Hbb Hf Hfuel; [lia|].
  cbn [serve_loop].
  apply runs_bind. eapply runs_mono; [apply serve_request_runs; try done; by apply no_empty_frames_first|..].
  { intros s' (Hd & w & Hw & Hb & Ha). split; [done|]. exists w. split; [done|].
    split; [by apply conv_stop|]. intros [[-> ?]|?]%Ha; [left; by apply ans_end|by right]. }
  intros [[|] b] s1 (Hzb1 & Hbb1 & Hserved); cbn in Hzb1, Hbb1, Hserved.
  2: { apply runs_ret. split; [done|]. destruct Hserved as (Hd & w & Hw & Hb & Ha). split; [done|].
       exists w. split; [done|]. split; [by apply conv_stop|]. intros [-> ?]%Ha. by apply ans_end. }
  destruct Hserved as (Hs1 & rq & reply & Hlen & Hinc & _ & Hwf & Hreply & Hsent & Hable).
  eapply runs_mono; [apply IH; try done|..].
  - rewrite Hinc in Hf. by eapply no_empty_frames_next.
  - apply (f_equal length) in Hinc. rewrite length_app in Hinc.
    pose proof (zlen_frame rq) as Hz. unfold zlen in *. lia.
  - intros s' (Hd & w & Hw & Hc & Ha). split; [done|]. exists (frame reply ++ w).
    destruct (turn_before s s1 rq reply w Hlen Hwf Hreply Hinc Hsent _ Hw Hc).
    split_and!; [done|done|]. intros Hs0. rewrite Hinc.
    destruct (Ha (Hable Hs0)); [left; by apply ans_next|by right].
  - intros r s' [-> (Hd & w & Hw & Hc & Ha)]. split; [done|]. split; [done|]. exists (frame reply ++ w).
    destruct (turn_before s s1 rq reply w Hlen Hwf Hreply Hinc Hsent _ Hw Hc).
    split_and!; [done|done|]. intros Hs0. rewrite Hinc. apply ans_next; auto.
Qed.

Lemma stream_size t evs : (length (stream t evs) <= sum_list_with event_size evs)%nat.
Proof.
  induction evs as [|[bs|errno] evs IH]; cbn [stream sum_list_with event_size]; [done| |].
  - destruct bs as [|b bs]; [cbn; lia|]. rewrite length_app. lia.
  - destruct (_ && _); [lia|cbn; lia].
Qed.

(** The state the loop is left in, or waits in. *)
Definition loop_ended (s : Server W) (r : option bool) (s' : Server W) : Prop :=
  match r with
  | Some true => conversed s s'
  | Some false => False
  | None => waits s s'
  end.

Lemma serve_loop_total stack s :
  server_ok s -> zlen stack = 4 -> bytes stack -> no_empty_frames (incoming (sv_conn s)) ->
  exists r s', serve_loop M malloc_ok shutdown_ok (serve_fuel (sv_conn s)) stack s = Ok (r, s')
    /\ loop_ended s r s'.
Proof.
  intros Hs Hzs Hbs Hf. pose proof (stream_size (cn_transport (sv_conn s)) (cn_recv (sv_conn s))) as Hsz.
  destruct (wp_inv _ _ _ (serve_loop_runs (serve_fuel (sv_conn s)) stack s Hs Hzs Hbs Hf
    ltac:(unfold serve_fuel, incoming; lia))) as (r & s' & Hrun & Hr).
  exists r, s'. split; [done|]. destruct r as [[]|]; [by destruct Hr..|done].
Qed.

(** ** Setting up and giving back *)

Context (realloc : EggBufferAllocator) (Hal : AllocatorOk realloc).

Lemma call_init_spec :
  match call_init realloc with
  | Ok (Some (rq, rp)) => buffer_ok (buffer rq) /\ buffer_ok (buffer rp)
      /\ is_Some (eb_allocator (buffer rq)) /\ is_Some (eb_allocator (buffer rp))
  | Ok None => True
  | Crash _ => False
  end.
Proof.
  unfold call_init. pose proof (gck_rpc_message_new_spec realloc Hal) as H. unfold mbind, res_bind.
  destruct (gck_rpc_message_new realloc (Some realloc)) as [[m|]|]; [|done|done].
  destruct H as [Hb Ha]. cbn. by rewrite Ha.
Qed.

Lemma call_init_gives :
  gives_memory realloc ->
  exists rq rp, call_init realloc = Ok (Some (rq, rp)) /\ gives_room rq /\ gives_room rp.
Proof.
  intros Hmem. destruct (new_message_gives realloc Hal Hmem) as (m & Hm & _ & Ha).
  exists m, m. unfold call_init. rewrite !Hm, !res_bind_ok.
  split; [done|]. split; by exists realloc.
Qed.

Lemma length_close_each (f : Z -> mfun W unit) p gone l w :
  length (close_each f p gone l w).1.2 = length l.
Proof.
  revert w. induction l as [|st l IH]; intros w; [done|]. cbn [close_each]. destruct (p st).
  - destruct (f (session_id st) w) as [[ret []] w']. destruct (ret =? CKR_OK); [|done].
    specialize (IH w'). destruct (close_each f p gone l w') as [[r l'] w2]. cbn in *. by f_equal.
  - specialize (IH w). destruct (close_each f p gone l w) as [[r l'] w2]. cbn in *. by f_equal.
Qed.

Lemma call_uninit_spec f s :
  C_CloseSession M = Some f -> dispatcher_ok s ->
  wp (call_uninit M shutdown_ok) (fun _ s' =>
    allocated s' = [] /\
    sessions s' = (close_each f is_open (fun _ => false) (sessions s) (p_module s)).1.2 /\
    p_module s' = (close_each f is_open (fun _ => false) (sessions s) (p_module s)).2 /\
    same_thread s s' /\ p_dispatchers s' = map (interrupt shutdown_ok (p_cs s)) (p_dispatchers s)) s.
Proof.
  intros Hf Hd. unfold call_uninit, rpc_C_Finalize. apply wp_bind, wp_bind.
  pose proof (finalize_sessions_spec M f (sessions s) [] s Hf eq_refl) as H.
  pose proof (length_close_each f is_open (fun _ => false) (sessions s) (p_module s)) as Hlen.
  cbn [length app] in H. rewrite (do_sessions _ Hd) in H, Hlen.
  destruct (close_each _ _ _ _ _) as [[r l] w].
  eapply wp_intro; [exact H|]. apply wp_bind, wp_modify, wp_ret.
  set (s1 := set_dispatchers _ _).
  assert (dispatcher_ok s1) as Hd1 by (destruct Hd; by split).
  eapply wp_call; [by apply (wp_and _ _ _ _ (call_reset_wp _ Hd1) (call_reset_keeps _ Hd1))|].
  intros [] s2 [(Hd2 & _ & Hs2 & Hm2 & _ & _ & _ & Ha2 & _) [Ht2 Hn2]]. apply wp_bind, wp_get.
  assert (forall m, is_Some (eb_allocator (buffer m)) -> gck_rpc_message_free (Some m) = Ok tt) as Hfree
    by (by intros m [al E]; cbn; rewrite E).
  apply wp_bind. eapply wp_lift_res; [by apply Hfree, Hd2|].
  eapply wp_lift_res; [by apply Hfree, Hd2|].
  rewrite Hs2, Hm2, Hn2. by split_and!.
Qed.
End Connection.
