(* ===== verification/ServerProps.v ===== *)
(** Properties of the loop that serves a connection: what the client sees of it,
    and the two ways in which it can bring the whole daemon down. *)
From S2P Require Import Prelude EggBuffer Pkcs11 RpcUtil Calls Message DispatchProto Dispatch.
From S2P Require Import DispatchProps Transport Server.

(** ** What a client is answered *)

(** What is known of a connection that has not crashed. *)
Definition well_served {W} (inc sent : list Z) (r : @ending W) : Prop :=
  match r with
  | Served s | Blocked s => exists w, cn_sent (sv_conn s) = sent ++ w
      /\ conversation (drop 8 inc) w
  | Unserved c | BlockedEarly c => cn_sent c = sent
  | OutOfFuel => False
  end.

(** A client that is served to its end: it is not let in only if the TLS
    handshake failed or its number did not come, and then every request it sends
    is answered, unless the thread waits in a call of [send]. *)
Definition fully_served {W} (start_tls : bool) (c : Conn) (r : @ending W) : Prop :=
  match r with
  | Served s => exists w, cn_sent (sv_conn s) = cn_sent c ++ w
      /\ answered (drop 8 (incoming c)) w
  | Blocked s => exists w, cn_sent (sv_conn s) = cn_sent c ++ w
      /\ (answered (drop 8 (incoming c)) w \/ cn_send (sv_conn s) = [])
  | Unserved _ => cn_transport c = Tls /\ start_tls = false \/ zlen (incoming c) < 8
  | BlockedEarly _ => zlen (incoming c) < 8
  | OutOfFuel => False
  end.

(** The way to the loop. *)
Lemma enter_loop_runs {W} realloc sock start_tls (w : W) others c :
  AllocatorOk realloc -> 0 <= sock -> cn_transport c <> Inetd -> bytes (incoming c) ->
  exists e, enter_loop realloc sock start_tls w others c = Ok e /\
    match e with
    | inl r => well_served (incoming c) (cn_sent c) r
        /\ (gives_memory realloc -> fully_served start_tls c r)
        /\ (forall s, r <> Served s)
    | inr s => server_ok s /\ incoming (sv_conn s) = drop 8 (incoming c)
        /\ cn_sent (sv_conn s) = cn_sent c
        /\ (gives_memory realloc -> accepting c -> able s)
    end.
Proof.
  intros Hal Hsock Ht Hby. unfold enter_loop. rewrite (proj2 (Z.eqb_neq _ _)) by lia.
  destruct (bool_decide_reflect (cn_transport c = Tls)) as [Etls|]; cbn [andb].
  1: destruct start_tls; cbn [negb]; [|eexists; split; [done|split_and!; [done|intros _; by left|done]]].
  all: pose proof (cs_read_runs sock (replicate 8 0) c Ht Hsock ltac:(done)) as Hread;
    apply wp_inv in Hread as (r & c1 & Hrun & Hr); unfold mbind, res_bind; rewrite Hrun;
    (destruct r as [[ok appid]|];
      [|destruct Hr as ((_ & _ & Hc) & Hl & _); eexists; (split; [done|]); by split_and!]);
    destruct Hr as ((Hc1t & Hc1s & Hc1) & _ & Hok); cbn in Hok; destruct ok;
    [|eexists; split; [done|split; [done|split; [intros _; right; apply Hok|done]]]];
    destruct Hok as (_ & Hinc & _); pose proof (call_init_spec realloc Hal) as Hi;
    pose proof (call_init_gives realloc Hal) as Hg;
    (destruct (call_init realloc) as [[[rq rp]|]|];
      [|eexists; split; [done|split; [done|split; [by intros (? & ? & [=] & _)%Hg|done]]]|done]);
    destruct Hi as (Hrq & Hrp & Hrqa & Hrpa); eexists; (split; [done|]);
    (split; [split; [by split|cbn; by rewrite Hc1t|cbn; rewrite Hinc; by apply Forall_drop]|]);
    (split; [done|]); (split; [done|]); intros Hmem Hacc;
    destruct (Hg Hmem) as (m1 & m2 & [= <- <-] & Hg1 & Hg2); split; cbn; [done|done|];
    unfold accepting; by rewrite Hc1s.
Qed.

(** [run_dispatch_loop] when no empty message is announced: it is over, and what
    it leaves is what [call_uninit] makes of the dispatcher the loop left. *)
Lemma run_dispatch_loop_runs {W} (M : CK_FUNCTION_LIST W) malloc_ok shutdown_ok realloc
    sock start_tls stack w others c :
  module_ok M -> AllocatorOk realloc ->
  0 <= sock -> cn_transport c <> Inetd -> zlen stack = 4 -> bytes stack ->
  bytes (incoming c) -> no_empty_frames (drop 8 (incoming c)) ->
  exists r, run_dispatch_loop M malloc_ok shutdown_ok realloc sock start_tls stack w others c = Ok r
    /\ well_served (incoming c) (cn_sent c) r
    /\ (gives_memory realloc -> accepting c -> fully_served start_tls c r)
    /\ match r with
       | Served s => exists s0 s1, enter_loop realloc sock start_tls w others c = Ok (inr s0)
           /\ serve_loop M malloc_ok shutdown_ok (serve_fuel (sv_conn s0)) stack s0 = Ok (Some true, s1)
           /\ dispatcher_ok (sv_proc s1)
           /\ call_uninit M shutdown_ok (sv_proc s1) = Ok (tt, sv_proc s) /\ sv_conn s = sv_conn s1
       | _ => True
       end.
Proof.
  intros HM Hal Hsock Ht Hzs Hbs Hby Hf. unfold run_dispatch_loop.
  destruct (enter_loop_runs realloc sock start_tls w others c Hal Hsock Ht Hby) as (e & Henter & He).
  rewrite Henter, res_bind_ok. destruct e as [r|s].
  { destruct He as (Hw & Hfu & Hno). exists r. split; [done|]. split; [done|]. split; [by auto|].
    destruct r; try done. by destruct (Hno s). }
  destruct He as (Hs & Hinc & Hsent & Hable).
  destruct (serve_loop_total M HM malloc_ok shutdown_ok stack s Hs Hzs Hbs) as (r & s' & Hloop & Hr);
    [by rewrite Hinc|]. rewrite Hloop, res_bind_ok.
  destruct r as [[|]|]; [|done|].
  - destruct Hr as (Hd & v & Hv & Hconv & Hans). rewrite Hinc in Hconv, Hans. rewrite Hsent in Hv.
    destruct (mo_C_CloseSession _ HM) as [f Hclose].
    destruct (wp_inv _ _ _ (call_uninit_spec M shutdown_ok f _ Hclose Hd)) as ([] & p & E & _).
    rewrite E, res_bind_ok. eexists. split; [done|]. split; [by exists v|].
    split; [intros; exists v; auto|]. by exists s, s'.
  - destruct Hr as (Hd & v & Hv & Hconv & Hans). rewrite Hinc in Hconv, Hans. rewrite Hsent in Hv.
    eexists. split; [done|]. split; [by exists v|]. split; [|done]. intros; exists v; auto.
Qed.

(** C4: a connection is served to its end whatever bytes the client sends, as long
    as it announces no empty message: the loop terminates or waits for the network,
    no assertion fails and no access leaves its object, and what was sent back is a
    conversation: each request answered in turn by the response of its own call or
    by the error response, the last answer perhaps cut off.  If memory is found and
    the client takes what it is sent, nothing is cut off and nothing left out: the
    client is let in once its number has come (and TLS is set up), and every
    well-formed request is answered, up to the first bytes that are none; only
    calls of [send] that do not return can keep an answer back. *)
Theorem run_dispatch_loop_total {W} (M : CK_FUNCTION_LIST W) malloc_ok shutdown_ok realloc
    sock start_tls stack w others c :
  module_ok M -> AllocatorOk realloc ->
  0 <= sock -> cn_transport c <> Inetd -> zlen stack = 4 -> bytes stack ->
  bytes (incoming c) -> no_empty_frames (drop 8 (incoming c)) ->
  exists r, run_dispatch_loop M malloc_ok shutdown_ok realloc sock start_tls stack w others c = Ok r
    /\ well_served (incoming c) (cn_sent c) r
    /\ (gives_memory realloc -> accepting c -> fully_served start_tls c r).
Proof.
  intros HM Hal Hsock Ht Hzs Hbs Hby Hf.
  destruct (run_dispatch_loop_runs M malloc_ok shutdown_ok realloc sock start_tls stack w others c
    HM Hal Hsock Ht Hzs Hbs Hby Hf) as (r & Hrun & Hr & Hfu & _). by exists r.
Qed.

Definition sample_frame : list Z := frame (contents (buffer sample_request)).

(** A client's number, a request in pieces, the beginning of another, the end. *)
Definition sample_conn : Conn :=
  mkConn Socket
    [Arrived [1; 0; 0]; Failed EINTR; Arrived ([0; 0; 0; 0; 0] ++ take 2 sample_frame);
     Arrived (drop 2 sample_frame ++ take 9 sample_frame); Arrived []]
    (replicate 10 (Accepted 3)) [].

Definition sent_of {W} (r : res (@ending W)) : option (list Z) :=
  match r with Ok (Served s) => Some (cn_sent (sv_conn s)) | _ => None end.

Definition ample_allocator : EggBufferAllocator := zero_allocator 8589934592.

Lemma ample_allocator_gives : gives_memory ample_allocator.
Proof.
  intros p n Hn. unfold ample_allocator, zero_allocator; cbn [al_realloc].
  rewrite (proj2 (Z.leb_le n _)) by lia. by eexists.
Qed.

Definition sample_run : res (@ending toy_state) :=
  run_dispatch_loop toy_module enough_memory shuts_down ample_allocator 5 true [9; 9; 9; 9]
    (mkToy 0 []) [] sample_conn.

Lemma run_dispatch_loop_total_witness :
  sent_of sample_run = Some [0; 0; 0; 8; 0; 0; 0; 66; 0; 0; 0; 0] /\
  exists r, sample_run = Ok r /\ well_served (incoming sample_conn) [] r
    /\ fully_served true sample_conn r.
Proof.
  split; [vm_compute; reflexivity|].
  destruct (run_dispatch_loop_total toy_module enough_memory shuts_down ample_allocator 5 true
    [9; 9; 9; 9] (mkToy 0 []) [] sample_conn) as (r & Hrun & Hr & Hfu).
  - apply toy_module_ok.
  - apply _.
  - lia.
  - discriminate.
  - reflexivity.
  - repeat constructor; simpl; lia.
  - apply (bool_decide_unpack _). vm_compute. done.
  - vm_compute. reflexivity.
  - exists r. split; [exact Hrun|]. split; [exact Hr|]. apply Hfu; [exact ample_allocator_gives|].
    apply Forall_replicate. exists 3. split; [reflexivity|lia].
Defined.

(** ** Two ways to lose the daemon *)

Lemma empty_frame_crashes {W} (M : CK_FUNCTION_LIST W) malloc_ok shutdown_ok buf rest s :
  dispatcher_ok (sv_proc s) -> cn_transport (sv_conn s) <> Inetd -> zlen buf = 4 ->
  incoming (sv_conn s) = [0; 0; 0; 0] ++ rest ->
  serve_request M malloc_ok shutdown_ok buf s = Crash AssertionFailed.
Proof.
  intros Hd Ht Hzb Hinc. unfold serve_request. apply net_crash. unfold take_request.
  destruct (wp_inv _ _ _ (call_reset_wp _ Hd)) as ([] & p & Hrun & Hd1 & _ & _ & _ & _ & _ & Hl & _ & Hf).
  rewrite (net_step _ _ _ tt (mkServer p (sv_conn s))); [|by unfold on_proc, net, zoom; rewrite Hrun].
  rewrite (net_step _ _ _ (cs_sock (p_cs p)) (mkServer p (sv_conn s))) by done.
  apply net_crash. unfold receive_request. pose proof (do_sock _ Hd1) as Hsock.
  pose proof (cs_read_runs (cs_sock (p_cs p)) buf (sv_conn s) Ht Hsock ltac:(lia)) as Hread.
  apply wp_inv in Hread as ([[ok b]|] & c & Hread & Hr).
  2: { destruct Hr as (_ & Hl4 & _). rewrite Hinc, zlen_app, Hzb in Hl4.
       pose proof (zlen_nonneg rest). change (zlen [0; 0; 0; 0]) with 4 in Hl4. lia. }
  destruct Hr as ((Hct & _) & Hb & Hok). cbn in Hb, Hok.
  rewrite (net_step _ _ _ (ok, b) (mkServer p c)); [|by unfold on_conn, zoom; cbn; rewrite Hread].
  destruct ok; cbn [negb].
  2: { destruct Hok as (Hl4 & _). rewrite Hinc, zlen_app, Hzb in Hl4.
       pose proof (zlen_nonneg rest). change (zlen [0; 0; 0; 0]) with 4 in Hl4. lia. }
  rewrite overwritten_all in Hb by apply Hok.
  replace (length buf) with 4%nat in Hb by (unfold zlen in Hzb; lia). rewrite Hinc in Hb. subst b.
  change (egg_buffer_decode_uint32 _) with 0. change (268435455 <=? 0) with false. cbn iota.
  pose proof (do_req _ Hd1) as [Hs _ Hm _ _ _].
  rewrite (net_step _ _ _ tt (mkServer p c)).
  2: { unfold on_proc, net, zoom. cbn [sv_proc]. unfold on_req, on_buffer, zoom, mbind, ST_bind, gets.
       rewrite Hl. unfold egg_buffer_reserve. change (wrap64 (0 + 0)) with 0.
       rewrite (proj2 (Z.ltb_lt _ _)) by lia. cbn. by destruct p as [[[] ?] ? ?]. }
  rewrite (net_step _ _ _ p (mkServer p c)) by done.
  unfold egg_buffer_has_error. rewrite Hf. change (0 <? 0) with false. cbn iota.
  rewrite (net_step _ _ _ [] (mkServer p c)).
  2: { unfold net, lift_res. by rewrite buffer_room_ok by (lia || apply Hd1). }
  apply net_crash. unfold on_conn, zoom, cs_read. cbn [sv_conn].
  assert (read_all (cs_sock (p_cs p)) [] c = Crash AssertionFailed) as Hcrash.
  { unfold read_all. rewrite (net_step _ _ _ tt c); [done|].
    by rewrite (proj2 (Z.leb_le _ _)) by done. }
  destruct (cn_transport c) eqn:E; [by rewrite Hcrash..|]. congruence.
Qed.

(** C30: a client that announces a message of no bytes stops the daemon and with it
    every other client: reading the message asserts that its length is positive. *)
Theorem empty_frame_aborts {W} (M : CK_FUNCTION_LIST W) malloc_ok shutdown_ok realloc
    sock start_tls stack w others c appid rest messages :
  AllocatorOk realloc -> call_init realloc = Ok (Some messages) ->
  0 <= sock -> cn_transport c <> Inetd -> (cn_transport c = Tls -> start_tls = true) ->
  zlen stack = 4 -> length appid = 8%nat -> incoming c = appid ++ [0; 0; 0; 0] ++ rest ->
  run_dispatch_loop M malloc_ok shutdown_ok realloc sock start_tls stack w others c
    = Crash AssertionFailed.
Proof.
  intros Hal Hinit Hsock Ht Htls Hzs Happ Hinc. unfold run_dispatch_loop, enter_loop.
  rewrite (proj2 (Z.eqb_neq _ _)) by lia.
  assert (bool_decide (cn_transport c = Tls) && negb start_tls = false) as ->.
  { destruct (bool_decide_reflect (cn_transport c = Tls)); [by rewrite Htls|done]. }
  pose proof (cs_read_runs sock (replicate 8 0) c Ht Hsock ltac:(done)) as Hread.
  apply wp_inv in Hread as (r & c1 & Hrun & Hr). rewrite Hrun, res_bind_ok.
  assert (8 <= zlen (incoming c)) as Hl8.
  { rewrite Hinc, zlen_app. pose proof (zlen_nonneg ([0; 0; 0; 0] ++ rest)). unfold zlen at 1. lia. }
  destruct r as [[[|] id]|]; [|destruct Hr as (_ & _ & Hl & _); cbn in Hl; change (zlen _) with 8 in Hl at 2; lia
    |destruct Hr as (_ & Hl & _); change (zlen _) with 8 in Hl at 2; lia].
  destruct Hr as ((Hct & _) & _ & _ & Hinc1 & _). cbn in Hinc1. rewrite Hinit.
  pose proof (call_init_spec realloc Hal) as Hi. rewrite Hinit in Hi. destruct messages as [rq rp].
  destruct Hi as (Hrq & Hrp & Hrqa & Hrpa). rewrite !res_bind_ok. unfold serve_fuel. cbn [serve_loop].
  erewrite net_crash; [done|].
  apply (empty_frame_crashes _ _ _ _ rest); cbn; [by split|by rewrite Hct|done|].
  rewrite Hinc1, Hinc. by destruct appid as [|? [|? [|? [|? [|? [|? [|? [|? [|]]]]]]]]].
Qed.

Definition hostile_conn : Conn := mkConn Socket [Arrived (replicate 12 0)] [] [].

Lemma empty_frame_aborts_witness :
  run_dispatch_loop toy_module enough_memory shuts_down (zero_allocator 100000) 5 true [9; 9; 9; 9]
    (mkToy 0 []) [] hostile_conn = Crash AssertionFailed.
Proof.
  destruct (call_init (zero_allocator 100000)) as [[messages|]|] eqn:Hinit;
    [|vm_compute in Hinit; discriminate Hinit..].
  apply (empty_frame_aborts toy_module enough_memory shuts_down (zero_allocator 100000) 5 true
    [9; 9; 9; 9] (mkToy 0 []) [] hostile_conn (replicate 8 0) [] messages).
  - apply _.
  - exact Hinit.
  - lia.
  - discriminate.
  - discriminate.
  - reflexivity.
  - reflexivity.
  - reflexivity.
Defined.

(** C31: [C_Finalize] of one connection marks the socket of another one of the same
    application as closed while that one waits in [C_WaitForSlotEvent]; when the
    wait is over, sending its response asserts that the socket is open, and the
    daemon is lost. *)
Theorem interrupted_dispatcher_aborts {W} shutdown_ok cs o m (s : Server W) :
  od_appid o = cs_appid cs -> od_sock o <> cs_sock cs -> od_sock o <> -1 ->
  od_req o = Some m -> call_id m = GCK_RPC_CALL_C_WaitForSlotEvent ->
  shutdown_ok (od_sock o) = true ->
  od_sock (interrupt shutdown_ok cs o) = -1 /\
  send_response (od_sock (interrupt shutdown_ok cs o)) s = Crash AssertionFailed.
Proof.
  intros Ha Hs Hn Hr Hid Hsh.
  assert (od_sock (interrupt shutdown_ok cs o) = -1) as ->.
  { unfold interrupt. rewrite Ha, Z.eqb_refl, (proj2 (Z.eqb_neq _ _) Hs), Hr, Hid, Z.eqb_refl,
      (proj2 (Z.eqb_neq _ _) Hn), Hsh. done. }
  split; [done|]. unfold send_response. rewrite (net_step _ _ _ (sv_proc s) s) by done.
  apply net_crash. unfold on_conn, zoom, cs_write. by destruct (cn_transport (sv_conn s)).
Qed.

Definition waiting_message : GckRpcMessage :=
  set_call GCK_RPC_CALL_C_WaitForSlotEvent (Some GCK_RPC_REQUEST) sample_message.

Lemma interrupted_dispatcher_aborts_witness :
  let cs := p_cs (toy_proc sample_message) in
  let o := mkOther 77 8 (Some waiting_message) in
  od_sock (interrupt shuts_down cs o) = -1 /\
  send_response (od_sock (interrupt shuts_down cs o)) (mkServer (toy_proc sample_message) hostile_conn)
    = Crash AssertionFailed.
Proof.
  apply (interrupted_dispatcher_aborts shuts_down _ _ waiting_message);
    (reflexivity || discriminate).
Defined.

(** ** The network may cut the bytes up as it likes

    Two connections that differ only in how the bytes to come are cut up. *)

Definition same_bytes (c1 c2 : Conn) : Prop :=
  cn_transport c1 = cn_transport c2 /\ cn_send c1 = cn_send c2 /\ cn_sent c1 = cn_sent c2
  /\ incoming c1 = incoming c2 /\ incoming_end c1 = incoming_end c2.

Lemma cs_read_same sock old c1 c2 :
  cn_transport c1 <> Inetd -> same_bytes c1 c2 ->
  match cs_read sock old c1, cs_read sock old c2 with
  | Ok (r1, c1'), Ok (r2, c2') => r1 = r2 /\ cn_sent c1' = cn_sent c2'
      /\ (option_map fst r1 = Some true -> same_bytes c1' c2' /\ cn_transport c1' <> Inetd)
  | Crash f1, Crash f2 => f1 = f2
  | _, _ => False
  end.
Proof.
  intros Ht (Htr & Hse & Hst & Hin & Hen).
  assert (forall c, cn_transport c <> Inetd -> cs_read sock old c = read_all sock old c) as E
    by (intros c Hc; unfold cs_read; by destruct (cn_transport c)).
  rewrite !E by congruence. unfold read_all, mbind, Net_bind, net, assert_.
  destruct (0 <=? sock); [|done]. destruct (0 <? zlen old); [|done]. cbn.
  destruct (wp_inv _ _ _ (read_data_wp old c1)) as (r1 & c1' & -> & H11 & H12 & H13 & H1).
  destruct (wp_inv _ _ _ (read_data_wp old c2)) as (r2 & c2' & -> & H21 & H22 & H23 & H2).
  rewrite Hin in H1. rewrite Hen in H1.
  destruct r1 as [[e1 bs1]|], r2 as [[e2 bs2]|].
  - destruct H1 as [-> H1], H2 as [-> H2].
    destruct (decide (e1 = Complete)) as [->|Hn1], (decide (e2 = Complete)) as [->|Hn2];
      rewrite ?bool_decide_true, ?bool_decide_false in H1 by done;
      rewrite ?bool_decide_true, ?bool_decide_false in H2 by done;
      try (by exfalso; destruct H1 as (? & ?), H2 as (? & ?); lia).
    + destruct H1 as (_ & Hi1 & He1), H2 as (_ & Hi2 & He2). rewrite bool_decide_true by done.
      split; [done|]. split; [cbn; congruence|]. intros _. split; [|congruence]. unfold same_bytes.
      split_and!; congruence.
    + destruct H1 as [_ He1], H2 as [_ He2]. assert (e1 = e2) as -> by congruence.
      cbn. rewrite bool_decide_false by done. split; [done|]. split; [congruence|done].
  - exfalso. destruct H1 as [_ H1]. destruct (decide (e1 = Complete));
      [rewrite bool_decide_true in H1 by done|rewrite bool_decide_false in H1 by done];
      destruct H1, H2; (lia || congruence).
  - exfalso. destruct H2 as [_ H2]. destruct (decide (e2 = Complete));
      [rewrite bool_decide_true in H2 by done|rewrite bool_decide_false in H2 by done];
      destruct H1, H2; (lia || congruence).
  - cbn. split; [done|]. split; [congruence|done].
Qed.

Lemma cs_write_same sock data c1 c2 :
  cn_transport c1 <> Inetd -> same_bytes c1 c2 ->
  match cs_write sock data c1, cs_write sock data c2 with
  | Ok (r1, c1'), Ok (r2, c2') => r1 = r2 /\ same_bytes c1' c2' /\ cn_transport c1' <> Inetd
  | Crash f1, Crash f2 => f1 = f2
  | _, _ => False
  end.
Proof.
  intros Ht (Htr & Hse & Hst & Hin & Hen).
  assert (forall c, cn_transport c <> Inetd -> cs_write sock data c = write_all sock data c) as E
    by (intros c Hc; unfold cs_write; by destruct (cn_transport c)).
  rewrite !E by congruence. unfold write_all, mbind, Net_bind, net, assert_.
  destruct (0 <=? sock); [|done]. destruct (0 <? zlen data); [|done]. cbn. unfold write_data.
  rewrite Htr, Hse, Hst. destruct (write_loop _ _ _ _) as [[r sent] evs].
  assert (same_bytes (set_sent evs sent c1) (set_sent evs sent c2)
    /\ cn_transport (set_sent evs sent c1) <> Inetd) as [H1 H2]
    by (split; [by split_and!|done]).
  by destruct r.
Qed.

Section Together.
Context {W : Type} (M : CK_FUNCTION_LIST W) (malloc_ok : list Z -> Z -> bool) (shutdown_ok : Z -> bool).

(** The same dispatcher on two such connections, and when it is done with them. *)
Definition agree (s1 s2 : Server W) : Prop :=
  sv_proc s1 = sv_proc s2 /\ same_bytes (sv_conn s1) (sv_conn s2)
  /\ cn_transport (sv_conn s1) <> Inetd.
Definition ended (s1 s2 : Server W) : Prop :=
  sv_proc s1 = sv_proc s2 /\ cn_sent (sv_conn s1) = cn_sent (sv_conn s2).

Lemma agree_ended s1 s2 : agree s1 s2 -> ended s1 s2.
Proof. intros (? & (_ & _ & ? & _) & _). by split. Qed.

(** [m] does the same in both. *)
Definition together {A} (m : Net (Server W) A) (Q : A -> Server W -> Server W -> Prop)
    (s1 s2 : Server W) : Prop :=
  match m s1, m s2 with
  | Ok (r1, t1), Ok (r2, t2) =>
      r1 = r2 /\ match r1 with Some a => Q a t1 t2 | None => ended t1 t2 end
  | Crash f1, Crash f2 => f1 = f2
  | _, _ => False
  end.

Lemma together_ret {A} (a : A) (Q : A -> Server W -> Server W -> Prop) s1 s2 :
  Q a s1 s2 -> together (mret a) Q s1 s2.
Proof. by split. Qed.

Lemma together_bind {A C} (m : Net (Server W) A) (k : A -> Net (Server W) C) P Q s1 s2 :
  together m P s1 s2 -> (forall a t1 t2, P a t1 t2 -> together (k a) Q t1 t2) ->
  together (m ≫= k) Q s1 s2.
Proof.
  unfold together, mbind, Net_bind. intros Hm Hk.
  destruct (m s1) as [[[a|] t1]|], (m s2) as [[r2 t2]|]; try done;
    [destruct Hm as [<- Hm]; by apply Hk|by destruct Hm as [<- Hm]].
Qed.

Lemma together_proc {A} (m : ST (Proc W) A) s1 s2 :
  agree s1 s2 -> together (on_proc m) (fun _ => agree) s1 s2.
Proof.
  intros (Hp & Hc & Ht). unfold together, on_proc, net, zoom. rewrite Hp.
  destruct (m (sv_proc s2)) as [[a p]|]; by split.
Qed.
Lemma together_proc_ended {A} (m : ST (Proc W) A) s1 s2 :
  ended s1 s2 -> together (on_proc m) (fun _ => ended) s1 s2.
Proof.
  intros (Hp & Hc). unfold together, on_proc, net, zoom. rewrite Hp.
  destruct (m (sv_proc s2)) as [[a p]|]; by split.
Qed.
Lemma together_gets {A} (f : Proc W -> A) s1 s2 :
  agree s1 s2 -> together (net (gets (fun s => f (sv_proc s))))
    (fun a t1 t2 => agree t1 t2 /\ a = f (sv_proc s2)) s1 s2.
Proof. intros Ha. pose proof Ha as (Hp & _). unfold together. cbn. rewrite Hp. by split. Qed.
Lemma together_lift {A} (r : res A) s1 s2 :
  agree s1 s2 -> together (net (lift_res r)) (fun _ => agree) s1 s2.
Proof. intros Ha. unfold together, net, lift_res. by destruct r. Qed.

Lemma together_read sock old s1 s2 :
  agree s1 s2 -> together (on_conn (cs_read sock old))
    (fun r => if (r.1 : bool) then agree else ended) s1 s2.
Proof.
  intros (Hp & Hc & Ht). unfold together, on_conn, zoom.
  pose proof (cs_read_same sock old _ _ Ht Hc) as H.
  destruct (cs_read sock old (sv_conn s1)) as [[r1 c1]|],
    (cs_read sock old (sv_conn s2)) as [[r2 c2]|]; try done.
  destruct H as (<- & Hs & Hn). split; [done|]. destruct r1 as [[[|] b]|]; cbn in *.
  - destruct (Hn eq_refl). by split_and!.
  - by split.
  - by split.
Qed.
Lemma together_write sock data s1 s2 :
  agree s1 s2 -> together (on_conn (cs_write sock data)) (fun _ => agree) s1 s2.
Proof.
  intros (Hp & Hc & Ht). unfold together, on_conn, zoom.
  pose proof (cs_write_same sock data _ _ Ht Hc) as H.
  destruct (cs_write sock data (sv_conn s1)) as [[r1 c1]|],
    (cs_write sock data (sv_conn s2)) as [[r2 c2]|]; try done.
  destruct H as (<- & Hs & Hn). split; [done|].
  destruct r1; [by split_and!|]. by apply agree_ended.
Qed.

(** A turn goes on only while the connections still agree. *)
Definition turn (r : bool * list Z) : Server W -> Server W -> Prop :=
  if r.1 then agree else ended.

Lemma turn_stop b s1 s2 : agree s1 s2 -> together (mret (false, b)) turn s1 s2.
Proof. intros. by apply together_ret, agree_ended. Qed.

Lemma receive_request_together sock buf s1 s2 :
  agree s1 s2 -> together (receive_request sock buf) turn s1 s2.
Proof.
  intros Ha. unfold receive_request.
  eapply together_bind; [by apply together_read|]. intros [[|] b] t1 t2 H1; cbn [fst negb] in H1 |- *;
    [|by apply together_ret].
  destruct (_ <=? _); [by apply turn_stop|].
  eapply together_bind; [by apply together_proc|]. intros [] t3 t4 H2.
  eapply together_bind; [by apply (together_gets (fun p => p))|]. intros p t5 t6 [H3 _].
  destruct (egg_buffer_has_error _); [by apply turn_stop|].
  eapply together_bind; [by apply together_lift|]. intros room t7 t8 H4.
  eapply together_bind; [by apply together_read|]. intros [[|] data] t9 t10 H5; cbn [fst negb] in H5 |- *.
  - eapply together_bind; [by apply together_proc|]. intros [] t11 t12 H6.
    eapply together_bind; [by apply together_proc|]. intros [] t13 t14 H7. by apply together_ret.
  - eapply together_bind; [by apply together_proc_ended|]. intros [] t11 t12 H6. by apply together_ret.
Qed.

Lemma take_request_together buf s1 s2 :
  agree s1 s2 -> together (take_request buf) turn s1 s2.
Proof.
  intros Ha. unfold take_request.
  eapply together_bind; [by apply together_proc|]. intros [] t1 t2 H1.
  eapply together_bind; [by apply (together_gets (fun p => cs_sock (p_cs p)))|].
  intros sock t3 t4 [H2 _].
  eapply together_bind; [by apply receive_request_together|]. intros [[|] b] t5 t6 H3; cbn [fst negb] in H3 |- *;
    [|by apply together_ret].
  eapply together_bind; [by apply together_proc|].
  intros [|] t7 t8 H4; [by apply together_ret|by apply turn_stop].
Qed.

Lemma serve_request_together buf s1 s2 :
  agree s1 s2 -> together (serve_request M malloc_ok shutdown_ok buf) turn s1 s2.
Proof.
  intros Ha. unfold serve_request.
  eapply together_bind; [by apply take_request_together|]. intros [[|] b] t1 t2 H1; cbn [fst negb] in H1 |- *;
    [|by apply together_ret].
  eapply (together_bind _ _ turn).
  { eapply together_bind; [by apply together_proc|].
    intros [|] t3 t4 H2; [by apply together_ret|by apply turn_stop]. }
  intros [[|] b2] t3 t4 H2; cbn [fst negb] in H2 |- *; [|by apply together_ret].
  unfold answer_request, send_response.
  eapply together_bind; [by apply (together_gets (fun p => cs_sock (p_cs p)))|]. intros sock t5 t6 [H3 _].
  eapply together_bind; [by apply (together_gets (fun p => p))|]. intros p t11 t12 [H6 _].
  eapply together_bind; [by apply together_write|]. intros [|] t13 t14 H7; cbn [negb]; [|by apply turn_stop].
  eapply together_bind; [by apply together_lift|]. intros data t15 t16 H8.
  eapply together_bind; [by apply together_write|]. intros [|] t17 t18 H9; [by apply together_ret|by apply turn_stop].
Qed.

Lemma serve_loop_together fuel buf s1 s2 :
  agree s1 s2 -> together (serve_loop M malloc_ok shutdown_ok fuel buf) (fun _ => ended) s1 s2.
Proof.
  revert buf s1 s2. induction fuel as [|fuel IH]; intros buf s1 s2 Ha; cbn [serve_loop];
    [by apply together_ret, agree_ended|].
  eapply together_bind; [by apply serve_request_together|].
  intros [[|] b] t1 t2 H; cbn [fst negb] in H |- *; [by apply IH|by apply together_ret].
Qed.

(** More fuel changes nothing once there was enough. *)
Lemma serve_loop_more fuel fuel' buf s r s' :
  (fuel <= fuel')%nat -> serve_loop M malloc_ok shutdown_ok fuel buf s = Ok (r, s') -> r <> Some false ->
  serve_loop M malloc_ok shutdown_ok fuel' buf s = Ok (r, s').
Proof.
  revert fuel' buf s. induction fuel as [|fuel IH]; intros fuel' buf s Hf Hrun Hr;
    [by injection Hrun as <- <-|].
  destruct fuel' as [|fuel']; [lia|]. cbn [serve_loop] in *. unfold mbind, Net_bind in *.
  destruct (serve_request _ _ _ _ s) as [[[[[|] b]|] t]|]; try done. apply IH; [lia|done..].
Qed.
End Together.

Definition same_ending {W} (r1 r2 : @ending W) : Prop :=
  match r1, r2 with
  | Served s1, Served s2 | Blocked s1, Blocked s2 => ended s1 s2
  | Unserved c1, Unserved c2 | BlockedEarly c1, BlockedEarly c2 => cn_sent c1 = cn_sent c2
  | _, _ => False
  end.

(** C12: how the network cuts the client's bytes up, and how often the system calls
    are interrupted, makes no difference: two connections that deliver the same
    bytes in different pieces end the same way, with the same responses sent, the
    same sessions and the PKCS#11 module in the same state. *)
Theorem pieces_do_not_matter {W} (M : CK_FUNCTION_LIST W) malloc_ok shutdown_ok realloc
    sock start_tls stack w others c1 c2 :
  module_ok M -> AllocatorOk realloc ->
  0 <= sock -> cn_transport c1 <> Inetd -> zlen stack = 4 -> bytes stack ->
  bytes (incoming c1) -> no_empty_frames (drop 8 (incoming c1)) -> same_bytes c1 c2 ->
  exists r1 r2,
    run_dispatch_loop M malloc_ok shutdown_ok realloc sock start_tls stack w others c1 = Ok r1
    /\ run_dispatch_loop M malloc_ok shutdown_ok realloc sock start_tls stack w others c2 = Ok r2
    /\ same_ending r1 r2.
Proof.
  intros HM Hal Hsock Ht Hzs Hbs Hby Hf Hc. unfold run_dispatch_loop, enter_loop.
  rewrite (proj2 (Z.eqb_neq _ _)) by lia. rewrite <- (proj1 Hc).
  destruct (_ && _); [do 2 eexists; split_and!; try done; apply Hc|].
  pose proof (cs_read_same sock (replicate 8 0) c1 c2 Ht Hc) as Hsame.
  pose proof (cs_read_runs sock (replicate 8 0) c1 Ht Hsock ltac:(done)) as Hread.
  apply wp_inv in Hread as (r & d1 & Hrun & Hr). rewrite Hrun in Hsame. rewrite Hrun.
  destruct (cs_read sock (replicate 8 0) c2) as [[r2 d2]|]; [|done].
  destruct Hsame as (<- & Hsent & Hagree). unfold mbind, res_bind.
  destruct r as [[[|] appid]|]; [|by do 2 eexists..].
  destruct (Hagree eq_refl) as [Hd Hdt]. destruct Hr as (_ & _ & _ & Hinc & _).
  pose proof (call_init_spec realloc Hal) as Hi.
  destruct (call_init realloc) as [[[rq rp]|]|]; [|by do 2 eexists|done].
  destruct Hi as (Hrq & Hrp & Hrqa & Hrpa). set (s1 := mkServer _ d1). set (s2 := mkServer _ d2).
  assert (agree s1 s2) as Ha by (by split_and!).
  assert (incoming d1 = drop 8 (incoming c1)) as Hi1 by done.
  assert (incoming d2 = incoming d1) as Hi2 by (symmetry; apply Hd).
  assert (server_ok s1) as Hs1 by (split; [by split|done|cbn; rewrite Hi1; by apply Forall_drop]).
  assert (server_ok s2) as Hs2.
  { split; [by split|cbn; by rewrite <- (proj1 Hd)|cbn; rewrite Hi2, Hi1; by apply Forall_drop]. }
  destruct (serve_loop_total M HM malloc_ok shutdown_ok stack s1 Hs1 Hzs Hbs)
    as (r1 & t1 & Hl1 & Hr1); [cbn; by rewrite Hi1|].
  destruct (serve_loop_total M HM malloc_ok shutdown_ok stack s2 Hs2 Hzs Hbs)
    as (r2 & t2 & Hl2 & Hr2); [cbn; by rewrite Hi2, Hi1|].
  rewrite Hl1, Hl2. cbn [sv_conn s1 s2] in Hl1, Hl2.
  set (f := (serve_fuel d1 + serve_fuel d2)%nat).
  apply (serve_loop_more M malloc_ok shutdown_ok _ f) in Hl1; [|lia|by intros ->].
  apply (serve_loop_more M malloc_ok shutdown_ok _ f) in Hl2; [|lia|by intros ->].
  pose proof (serve_loop_together M malloc_ok shutdown_ok f stack s1 s2 Ha) as Htog.
  unfold together in Htog. rewrite Hl1, Hl2 in Htog. destruct Htog as [<- Hend].
  destruct r1 as [[|]|]; [|done|by do 2 eexists].
  destruct Hend as [Hp Hse]. rewrite Hp. destruct Hr2 as [Hd2 _].
  destruct (mo_C_CloseSession _ HM) as [g Hclose].
  destruct (wp_inv _ _ _ (call_uninit_spec M shutdown_ok g _ Hclose Hd2)) as ([] & p & -> & _).
  do 2 eexists. by split_and!.
Qed.

Definition whole_conn : Conn :=
  mkConn Socket [Arrived (incoming sample_conn); Arrived []] (replicate 10 (Accepted 3)) [].

Lemma pieces_do_not_matter_witness :
  exists r1 r2, sample_run = Ok r1
    /\ run_dispatch_loop toy_module enough_memory shuts_down ample_allocator 5 true
         [9; 9; 9; 9] (mkToy 0 []) [] whole_conn = Ok r2
    /\ same_ending r1 r2.
Proof.
  apply (pieces_do_not_matter toy_module enough_memory shuts_down ample_allocator).
  - apply toy_module_ok.
  - apply _.
  - lia.
  - discriminate.
  - reflexivity.
  - repeat constructor; simpl; lia.
  - apply (bool_decide_unpack _). vm_compute. done.
  - vm_compute. reflexivity.
  - repeat split; vm_compute; reflexivity.
Defined.

(** ** What a connection leaves behind *)

(** The sessions the client has open. *)
Definition open_ids {W} (p : Proc W) : list Z :=
  map session_id (filter (fun st => is_open st = true) (sessions p)).

Lemma call_uninit_closes {W} (M : CK_FUNCTION_LIST W) shutdown_ok f p p' :
  C_CloseSession M = Some f -> (forall h w, (f h w).1.1 = CKR_OK) -> dispatcher_ok p ->
  call_uninit M shutdown_ok p = Ok (tt, p') ->
  allocated p' = [] /\ Forall (fun st => is_open st = false) (sessions p')
  /\ p_module p' = foldl (fun w h => (f h w).2) (p_module p) (open_ids p).
Proof.
  intros Hclose Hall Hd Hrun.
  destruct (wp_inv _ _ _ (call_uninit_spec M shutdown_ok f p Hclose Hd)) as ([] & q & E & Ha & Hs & Hm & _).
  assert (q = p') as <- by congruence.
  rewrite close_each_all in Hs, Hm by exact Hall.
  split; [exact Ha|]. split; [|exact Hm].
  rewrite Hs. apply Forall_map, Forall_forall. intros st _.
  destruct (is_open st) eqn:E2; [reflexivity|exact E2].
Qed.

(** C17: when the loop of a connection is left, for whatever reason, every session
    that the client still had open is closed in the module, in the order of the
    table and after everything the loop did, none is left in the table, and
    everything allocated for its calls is given back, if the module does not refuse
    to close a session. *)
Theorem connection_leaves_no_session {W} (M : CK_FUNCTION_LIST W) malloc_ok shutdown_ok realloc
    sock start_tls stack w others c f :
  module_ok M -> AllocatorOk realloc ->
  0 <= sock -> cn_transport c <> Inetd -> zlen stack = 4 -> bytes stack ->
  bytes (incoming c) -> no_empty_frames (drop 8 (incoming c)) ->
  C_CloseSession M = Some f -> (forall h w, (f h w).1.1 = CKR_OK) ->
  exists r, run_dispatch_loop M malloc_ok shutdown_ok realloc sock start_tls stack w others c = Ok r
    /\ match r with
       | Served s => allocated (sv_proc s) = []
           /\ Forall (fun st => is_open st = false) (sessions (sv_proc s))
           /\ exists s0 s1, enter_loop realloc sock start_tls w others c = Ok (inr s0)
             /\ serve_loop M malloc_ok shutdown_ok (serve_fuel (sv_conn s0)) stack s0
                  = Ok (Some true, s1)
             /\ p_module (sv_proc s)
                  = foldl (fun w h => (f h w).2) (p_module (sv_proc s1)) (open_ids (sv_proc s1))
       | _ => True
       end.
Proof.
  intros HM Hal Hsock Ht Hzs Hbs Hby Hf Hclose Hall.
  destruct (run_dispatch_loop_runs M malloc_ok shutdown_ok realloc sock start_tls stack w others c
    HM Hal Hsock Ht Hzs Hbs Hby Hf) as (r & Hrun & _ & _ & Hr). exists r. split; [done|].
  destruct r as [|s| | |]; try exact I. destruct Hr as (s0 & s1 & He & Hl & Hd & Hun & _).
  destruct (call_uninit_closes M shutdown_ok f _ _ Hclose Hall Hd Hun) as (Ha & Hs & Hm).
  split; [exact Ha|]. split; [exact Hs|]. by exists s0, s1.
Qed.

(** A client that opens two sessions, closes neither and is gone. *)
Definition open_session_frame : list Z :=
  frame (header GCK_RPC_CALL_C_OpenSession (Some "uu"%string) ++ enc_uint64 4 ++ enc_uint64 6).

Definition leaving_conn : Conn :=
  mkConn Socket [Arrived (replicate 8 1 ++ open_session_frame ++ open_session_frame); Arrived []]
    (replicate 20 (Accepted 30)) [].

Definition leaving_run : res (@ending toy_state) :=
  run_dispatch_loop toy_module enough_memory shuts_down ample_allocator 5 true [9; 9; 9; 9]
    (mkToy 0 []) [] leaving_conn.

Definition closed_in {W} (f : W -> list Z) (r : res (@ending W)) : option (list Z) :=
  match r with Ok (Served s) => Some (f (p_module (sv_proc s))) | _ => None end.

Lemma connection_leaves_no_session_witness :
  closed_in toy_closed leaving_run = Some [2; 1] /\
  exists r, leaving_run = Ok r
    /\ match r with
       | Served s => allocated (sv_proc s) = []
           /\ Forall (fun st => is_open st = false) (sessions (sv_proc s))
       | _ => True
       end.
Proof.
  split; [vm_compute; reflexivity|].
  destruct (connection_leaves_no_session toy_module enough_memory shuts_down ample_allocator
    5 true [9; 9; 9; 9] (mkToy 0 []) [] leaving_conn
    (fun h w => ((CKR_OK, tt), mkToy (toy_last w) (h :: toy_closed w)))) as (r & Hrun & Hr).
  - apply toy_module_ok.
  - apply _.
  - lia.
  - discriminate.
  - reflexivity.
  - repeat constructor; simpl; lia.
  - apply (bool_decide_unpack _). vm_compute. done.
  - vm_compute. reflexivity.
  - reflexivity.
  - reflexivity.
  - exists r. split; [exact Hrun|]. destruct r as [|s| | |]; try exact I.
    exact (conj (proj1 Hr) (proj1 (proj2 Hr))).
Defined.

(** ** Errors of a TLS connection *)

(** C32: an error of a TLS connection is never noticed by the code that sends: every
    failure of [SSL_write], whatever it is, is taken for a write of no bytes and
    tried again, so that once the client is gone the thread never leaves the loop;
    over a plain socket the same failure ends the write. *)
Theorem tls_write_never_fails sock data errnos c :
  0 <= sock -> data <> [] -> cn_send c = map Refused errnos ->
  (cn_transport c = Tls -> cs_write sock data c = Ok (None, set_sent [] (cn_sent c) c)) /\
  (forall e rest, cn_transport c = Socket -> errnos = e :: rest -> try_again e = false ->
     cs_write sock data c = Ok (Some false, set_sent (map Refused rest) (cn_sent c) c)).
Proof.
  intros Hsock Hd Hs.
  assert (0 < zlen data) as Hl by (destruct data; [done|rewrite zlen_cons; pose proof (zlen_nonneg data); lia]).
  assert (write_all sock data c = (r ← write_data data; mret (bool_decide (r = Complete))) c) as E.
  { unfold write_all, mbind, Net_bind, net, assert_.
    by rewrite (proj2 (Z.leb_le _ _)), (proj2 (Z.ltb_lt _ _)) by lia. }
  unfold cs_write. split.
  - intros Ht. rewrite Ht, E. unfold mbind, Net_bind, write_data. rewrite Ht, Hs. clear E Hs.
    assert (write_loop Tls (map Refused errnos) data (cn_sent c) = (None, cn_sent c, [])) as ->; [|done].
    destruct data as [|b data]; [done|]. induction errnos as [|e l IH]; [done|].
    cbn. by rewrite app_nil_r.
  - intros e rest Ht -> Hno. rewrite Ht, E. unfold mbind, Net_bind, write_data. rewrite Ht, Hs.
    destruct data as [|b data]; [done|]. cbn. rewrite Hno. by destruct (e =? EPIPE).
Qed.

Lemma tls_write_never_fails_witness :
  cs_write 5 [1; 2] (mkConn Tls [] [Refused EPIPE; Refused 104] [])
    = Ok (None, mkConn Tls [] [] []).
Proof.
  apply (tls_write_never_fails 5 [1; 2] [EPIPE; 104] (mkConn Tls [] [Refused EPIPE; Refused 104] []));
    (lia || discriminate || reflexivity).
Defined.
