(* ===== verification/ServeExact.v ===== *)
(** gck-rpc-dispatch.c, one turn of the loop that serves a connection, exactly: where
    there is memory, and the network carries the request and the reply, the daemon
    answers a request by the effect of its call and nothing else. *)
From S2P Require Import Prelude EggBuffer Pkcs11 RpcUtil Calls Message DispatchProto Dispatch.
From S2P Require Import DispatchReads DispatchReplies Transport Server.

(** ** Reading and writing over a network that carries everything *)

Lemma cs_read_exact sock old c :
  cn_transport c <> Inetd -> 0 <= sock -> 0 < zlen old -> zlen old <= zlen (incoming c) ->
  runs (fun _ => False) (cs_read sock old) (fun r c' => receiving c c'
    /\ r = (true, take (length old) (incoming c)) /\ incoming c' = drop (length old) (incoming c)) c.
Proof.
  intros Ht Hs Hl Hle. eapply runs_mono; [by apply cs_read_runs|intros c' (_ & ? & _); lia|].
  intros [ok bs] c' (Hc & Hbs & Hok). cbn [fst snd] in *. rewrite overwritten_all in Hbs by done. subst bs.
  destruct ok; [by destruct Hok as (_ & ? & _)|]. destruct Hok; lia.
Qed.

Lemma cs_write_exact sock data n c :
  cn_transport c <> Inetd -> 0 <= sock -> 0 < zlen data -> willing (zlen data + n) c -> 0 <= n ->
  runs (fun _ => False) (cs_write sock data) (fun ok c' => ok = true /\ sending c c'
    /\ cn_sent c' = cn_sent c ++ data /\ willing n c') c.
Proof.
  intros Ht Hs Hl Hw Hn.
  assert (cs_write sock data c = write_all sock data c) as Eq by (unfold cs_write; by destruct (cn_transport c)).
  unfold runs, wp. rewrite Eq. unfold write_all.
  rewrite (net_step _ _ _ tt c) by (by rewrite (proj2 (Z.leb_le _ _))).
  rewrite (net_step _ _ _ tt c) by (by rewrite (proj2 (Z.ltb_lt _ _))).
  destruct (wp_inv _ _ _ (wp_and _ _ _ _ (write_data_wp data c) (write_data_willing data n c Hw Hn)))
    as (r & c' & Hrun & (Ht' & Hr' & w & Hsent & Hwr) & -> & Hw').
  rewrite (net_step _ _ _ Complete c') by exact Hrun. cbn in Hwr. subst w. done.
Qed.

Section Serve_exact.
Context {W : Type} (M : CK_FUNCTION_LIST W) (malloc_ok : list Z -> Z -> bool) (shutdown_ok : Z -> bool).

(** A server in order, whose buffers can grow. *)
Record ready_server (s : Server W) : Prop := {
  rs_ok : server_ok s;
  rs_req : gives_room (req (sv_proc s));
  rs_resp : gives_room (resp (sv_proc s));
}.

(** All that happened is that the message [rq] came in. *)
Definition took (rq rest : list Z) (s : Server W) (r : bool * list Z) (s' : Server W) : Prop :=
  r.1 = true /\ zlen r.2 = 4 /\ bytes r.2 /\ receiving (sv_conn s) (sv_conn s')
  /\ incoming (sv_conn s') = rest /\ exists b,
    sv_proc s' = set_req (set_buffer b (req (sv_proc s))) (sv_proc s)
    /\ buffer_ok b /\ contents b = rq /\ eb_failures b = 0
    /\ eb_allocator b = eb_allocator (buffer (req (sv_proc s))).

Lemma receive_request_exact buf sock rq rest (s : Server W) :
  0 <= sock -> server_ok s -> gives_room (req (sv_proc s)) ->
  eb_len (buffer (req (sv_proc s))) = 0 -> eb_failures (buffer (req (sv_proc s))) = 0 ->
  zlen buf = 4 -> 0 < zlen rq < 268435455 -> incoming (sv_conn s) = frame rq ++ rest ->
  runs (fun _ => False) (receive_request sock buf) (took rq rest s) s.
Proof.
  intros Hsock [Hd Ht Hby] (al & Ha & Hal) Hl0 Hf0 Hzb Hrq Hinc. unfold receive_request.
  destruct (frame_header rq rest ltac:(lia)) as [Hhdr _].
  assert (zlen (incoming (sv_conn s)) = 4 + zlen rq + zlen rest) as Hzi by (by rewrite Hinc, zlen_app, zlen_frame).
  pose proof (zlen_nonneg rest). pose proof (do_req _ Hd) as Hq.
  apply runs_bind. eapply runs_on_conn; [by apply (cs_read_exact _ buf); (done || lia)|done|].
  intros [ok b] c1 (Hc1 & [= -> ->] & Hinc1). cbn [negb].
  replace (length buf) with 4%nat in * by (unfold zlen in Hzb; lia).
  set (hdr := take 4 _). assert (egg_buffer_decode_uint32 hdr = zlen rq) as Hdec by (unfold hdr; by rewrite Hinc).
  assert (zlen hdr = 4) as Hzh by (apply (zlen_take _ 4); lia).
  assert (bytes hdr) as Hbh by (by apply Forall_take).
  assert (incoming c1 = rq ++ rest) as Hinc1' by (rewrite Hinc1, Hinc; done).
  rewrite Hdec, (proj2 (Z.leb_gt _ _)) by lia.
  apply runs_bind, runs_on_proc, wp_zoom, wp_zoom, wp_bind, wp_gets, wp_bind. cbn [sv_proc sv_conn].
  rewrite Hl0, Z.add_0_l, wrap64_id by lia.
  eapply wp_mono; [by apply (reserve_gives al); [..|lia]|].
  intros r b2 (_ & Hb2 & Hl2 & _ & Ha2 & Hf2 & Hroom2). apply wp_ret.
  apply runs_bind, runs_net, wp_gets. cbn [sv_proc].
  change (buffer (req (set_req _ _))) with b2.
  rewrite (proj2 (has_error_false b2 Hb2)) by congruence.
  apply runs_bind, runs_net. eapply wp_lift_res; [apply (buffer_room_ok b2 _ Hb2); lia|].
  pose proof Hb2 as [Hs2 _ _ Hbm2 _ _].
  set (room := slice _ 0 _). assert (zlen room = zlen rq) as Hzr by (apply zlen_slice; lia).
  apply runs_bind. eapply runs_on_conn; [apply (cs_read_exact _ room)|done|]; cbn [sv_conn];
    [by rewrite (proj1 Hc1)|done|lia|rewrite Hinc1', zlen_app; lia|].
  intros [ok data] c2 (Hc2 & [= -> ->] & Hinc2).
  assert (length room = length rq) as Hlr by (unfold zlen in Hzr; lia).
  rewrite Hinc1', Hlr, drop_app_length in Hinc2. rewrite Hinc1', Hlr, take_app_length.
  assert (bytes rq) as Hbq by (rewrite Hinc in Hby; apply Forall_app in Hby as [[_ Hx]%Forall_app _]; exact Hx).
  apply runs_bind, runs_on_proc, wp_zoom, wp_zoom. cbn [sv_proc sv_conn].
  eapply wp_mono; [apply (store_received rq b2); (done || lia)|].
  intros [] b3 (Hb3 & Hl3 & Ha3 & Hf3 & Ht3). cbn [negb].
  apply runs_bind, runs_on_proc, wp_zoom, wp_zoom, wp_bind. cbn [sv_proc sv_conn].
  eapply wp_mono; [apply (add_empty_gives al rq b3); (done || congruence || lia)|].
  intros _ b4 (Hb4 & Hc4 & Ha4 & Hf4). apply wp_ret, runs_ret.
  split; [done|]. split; [done|]. split; [done|].
  split; [by eapply receiving_trans|]. split; [done|].
  exists b4. split; [reflexivity|]. split_and!; congruence.
Qed.

(** The reply is sent. *)
Lemma send_response_exact sock reply n (s : Server W) :
  0 <= sock -> server_ok s -> contents (buffer (resp (sv_proc s))) = reply ->
  0 < zlen reply < 4294967296 -> willing (4 + zlen reply + n) (sv_conn s) -> 0 <= n ->
  runs (fun _ => False) (send_response sock) (fun r s' => r.1 = true /\ zlen r.2 = 4 /\ bytes r.2
    /\ sv_proc s' = sv_proc s /\ sending (sv_conn s) (sv_conn s')
    /\ cn_sent (sv_conn s') = cn_sent (sv_conn s) ++ frame reply /\ willing n (sv_conn s')) s.
Proof.
  intros Hsock [Hd Ht _] Hcon Hz Hw Hn. pose proof (do_resp _ Hd) as Hb.
  pose proof (contents_len _ Hb) as Hl. rewrite Hcon in Hl.
  apply runs_bind, runs_net, wp_gets. cbv zeta. rewrite <- Hl.
  set (buf := egg_buffer_encode_uint32 _). assert (zlen buf = 4) as Hzb by apply zlen_encode_uint32.
  apply runs_bind. eapply runs_on_conn; [apply (cs_write_exact _ buf (zlen reply + n)); (done || lia) || idtac|done|].
  { by rewrite Hzb, Z.add_assoc. }
  intros ok c1 (-> & Hc1 & Hs1 & Hw1). cbn [negb].
  apply runs_bind, runs_net. eapply wp_lift_res; [rewrite Hl; apply (buffer_room_ok _ _ Hb)|].
  { destruct Hb. lia. }
  fold (contents (buffer (resp (sv_proc s)))).
  assert (slice (bmem (buffer (resp (sv_proc s)))) 0 (eb_len (buffer (resp (sv_proc s)))) = reply) as -> by exact Hcon.
  apply runs_bind. eapply runs_on_conn; [apply (cs_write_exact _ reply n); try done|done|].
  { destruct Hc1 as [Hct _]. cbn. by rewrite Hct. }
  { lia. }
  intros ok c2 (-> & Hc2 & Hs2 & Hw2). apply runs_ret.
  split; [done|]. split; [done|]. split; [by apply encode_uint32_bytes|]. split; [done|].
  split; [destruct Hc1, Hc2; split; cbn in *; congruence|]. split; [|done].
  cbn in *. rewrite Hs2, Hs1. unfold frame, buf. by rewrite (assoc_L app).
Qed.

(** *** The three parts of a turn *)

(** The request with the arguments [ps]. *)
Definition call_bytes (id : Z) (ps : list part) : list Z := header id (Some (sigs_of ps)) ++ enc_parts ps.

(** It can be sent. *)
Definition asks (id : Z) (ps : list part) : Prop :=
  0 < id < GCK_RPC_CALL_MAX /\ zlen (call_bytes id ps) < 268435455
  /\ exists row, gck_rpc_call id = Ok row /\ c_request row = Some (sigs_of ps).

(** It is in the request's message, parsed. *)
Record parsed (id : Z) (ps : list part) (p : Proc W) : Prop := {
  pa_accepted : accepted GCK_RPC_REQUEST (req p);
  pa_id : call_id (req p) = id;
  pa_unread : unread (req p) = enc_parts ps;
  pa_failures : eb_failures (buffer (req p)) = 0;
}.

Record taken (id : Z) (ps : list part) (rest : list Z) (s : Server W) (r : bool * list Z)
    (s' : Server W) : Prop := {
  ta_goes_on : r.1 = true;
  ta_buf : zlen r.2 = 4;
  ta_ready : ready_server s';
  ta_parsed : parsed id ps (sv_proc s');
  ta_core : core (sv_proc s') = core (sv_proc s);
  ta_thread : same_thread (sv_proc s) (sv_proc s');
  ta_dispatchers : p_dispatchers (sv_proc s') = p_dispatchers (sv_proc s);
  ta_receiving : receiving (sv_conn s) (sv_conn s');
  ta_incoming : incoming (sv_conn s') = rest;
}.

Record processed (c' : W * list SessionState) (reply buf : list Z) (s : Server W) (r : bool * list Z)
    (s' : Server W) : Prop := {
  pr_goes_on : r = (true, buf);
  pr_ready : ready_server s';
  pr_core : core (sv_proc s') = c';
  pr_reply : contents (buffer (resp (sv_proc s'))) = reply;
  pr_fits : 0 < zlen reply < 4294967296;
  pr_thread : same_thread (sv_proc s) (sv_proc s');
  pr_notified : notified (sv_proc s) (p_dispatchers (sv_proc s'));
  pr_conn : sv_conn s' = sv_conn s;
}.

Lemma take_request_exact id ps buf rest s :
  asks id ps -> ready_server s -> zlen buf = 4 ->
  incoming (sv_conn s) = frame (call_bytes id ps) ++ rest ->
  runs (fun _ => False) (take_request buf) (taken id ps rest s) s.
Proof.
  intros (Hid & Hzq & row & Hrow & Hq) [[Hd Ht Hby] Hgq Hgr] Hzb Hinc.
  unfold take_request. apply runs_bind, runs_on_proc.
  eapply wp_mono; [by apply (wp_and _ _ _ _ (call_reset_wp _ Hd) (call_reset_keeps _ Hd))|].
  intros [] p1 [(Hd1 & _ & Hss1 & Hm1 & Haq1 & Har1 & Hl1 & _ & Hf1) [Hth1 Hds1]].
  apply runs_bind, runs_net, wp_gets. cbn [sv_proc]. pose proof (do_sock _ Hd1) as Hsock.
  pose proof (zlen_header id (Some (sigs_of ps)) (enc_parts ps)) as Hz4. fold (call_bytes id ps) in Hz4.
  assert (gives_room (req p1)) as Hgq1 by (unfold gives_room; by rewrite Haq1).
  apply runs_bind. eapply runs_mono; [apply (receive_request_exact buf _ (call_bytes id ps) rest);
    (done || lia)|done|].
  intros [ok b] [p2 c2] (Hok & Hzb2 & Hbb2 & Hc2 & Hinc2 & b2 & Hp2 & Hb2 & Hcon2 & Hf2 & Ha2).
  cbn [fst snd sv_proc sv_conn] in *. subst ok p2. cbn [negb].
  destruct (parse_header id row GCK_RPC_REQUEST (sigs_of ps) (set_buffer b2 (req p1)) (enc_parts ps))
    as (m3 & Hrun & Hacc & Hid3 & Hsig3 & Hu3 & Hb3); try done.
  apply runs_bind, runs_on_proc, wp_zoom. eapply wp_intro; [exact Hrun|]. cbn [sv_proc sv_conn].
  apply runs_ret. set (p3 := set_req m3 _). assert (dispatcher_ok p3) as Hd3.
  { destruct Hd1. split; try done; cbn; rewrite Hb3; cbn; [done|by rewrite Ha2]. }
  split; try done.
  - split; [split; [done|cbn; by rewrite (proj1 Hc2)|cbn; rewrite Hinc2]|..].
    + rewrite Hinc in Hby. by apply Forall_app in Hby as [_ ?].
    + change (gives_room m3). unfold gives_room. rewrite Hb3. cbn. by rewrite Ha2.
    + change (gives_room (resp p1)). unfold gives_room. by rewrite Har1.
  - split; try done. cbn. by rewrite Hb3.
  - unfold core. cbn. by rewrite <- Hss1, <- Hm1.
Qed.

Lemma process_request_exact id row sg ps e code out c' buf s :
  gck_rpc_call id = Ok row -> c_request row = Some (sigs_of ps) -> c_response row = Some sg ->
  answers id (call_handler M malloc_ok shutdown_ok id) ps e ->
  e (core (sv_proc s)) = ((code, out), c') -> answerable id sg code out ->
  ready_server s -> parsed id ps (sv_proc s) ->
  runs (fun _ => False) (process_request M malloc_ok shutdown_ok buf)
    (processed c' (reply_bytes id code out) buf s) s.
Proof.
  intros Hrow Hq Hsg Hans He Hfit [[Hd Ht Hby] Hgq Hgr] [Hacc Hid Hu Hf].
  apply runs_bind, runs_on_proc.
  eapply wp_mono; [by apply (dispatch_call_exact M malloc_ok shutdown_ok id row sg Hrow Hsg _ ps e code out c')|].
  intros ok p4 (ds & Hn & [-> Hsame Hd4 Hcon4]). apply runs_ret.
  destruct Hsame as [(Hm4 & Hss4 & Hds4 & Happ4 & Hk4 & Haq4 & Har4) _].
  split; try done.
  - split; [by split|..]; cbn [sv_proc]; unfold gives_room; [by rewrite Haq4|by rewrite Har4].
  - unfold core. cbn. rewrite Hm4, Hss4. by destruct c'.
  - unfold reply_bytes. destruct (Z.eqb_spec code CKR_OK) as [Hc|].
    + destruct (Hfit Hc) as [-> Hfits]. unfold fits in Hfits. pose proof (zlen_header id (Some sg) (enc_parts out)). lia.
    + unfold header. rewrite app_nil_r, zlen_app, zlen_enc_uint32, zlen_enc_uint64. lia.
  - cbn. by rewrite Hds4.
Qed.

Lemma answer_request_exact reply n s :
  ready_server s -> contents (buffer (resp (sv_proc s))) = reply -> 0 < zlen reply < 4294967296 ->
  willing (4 + zlen reply + n) (sv_conn s) -> 0 <= n ->
  runs (fun _ => False) answer_request (fun r s' => r.1 = true /\ zlen r.2 = 4 /\ bytes r.2
    /\ sv_proc s' = sv_proc s /\ ready_server s' /\ sending (sv_conn s) (sv_conn s')
    /\ cn_sent (sv_conn s') = cn_sent (sv_conn s) ++ frame reply /\ willing n (sv_conn s')) s.
Proof.
  intros [Hs Hgq Hgr] Hcon Hz Hw Hn. apply runs_bind, runs_net, wp_gets.
  eapply runs_mono; [by apply (send_response_exact _ reply n); first [done|apply (do_sock _ (so_proc _ Hs))]|done|].
  intros r s' (Hr & Hzr & Hbr & Hp & [Hct Hcr] & Hsent & Hw'). split_and!; try done.
  destruct Hs as [Hd Ht Hby]. split; [split|..]; rewrite ?Hp; try done; [by rewrite Hct|].
  unfold incoming. by rewrite Hct, Hcr.
Qed.

(** One turn of the loop: [request] is answered, by the effect [e]. *)
Record turned (s : Server W) (c' : W * list SessionState) (reply rest : list Z) (n : Z)
    (r : bool * list Z) (s' : Server W) : Prop := {
  tu_goes_on : r.1 = true;
  tu_buf : zlen r.2 = 4 /\ bytes r.2;
  tu_core : core (sv_proc s') = c';
  tu_ready : ready_server s';
  tu_incoming : incoming (sv_conn s') = rest;
  tu_sent : cn_sent (sv_conn s') = cn_sent (sv_conn s) ++ frame reply;
  tu_willing : willing n (sv_conn s');
}.

(** What the parsed request with the arguments [ps] does to the module and the sessions,
    and what is answered. *)
Definition processes (id : Z) (ps : list part) (reply : list Z) (st st' : W * list SessionState) : Prop :=
  forall buf s, ready_server s -> parsed id ps (sv_proc s) -> core (sv_proc s) = st ->
    runs (fun _ => False) (process_request M malloc_ok shutdown_ok buf) (processed st' reply buf s) s.

Lemma serve_request_exact id ps reply st st' buf rest n s :
  asks id ps -> processes id ps reply st st' ->
  ready_server s -> core (sv_proc s) = st -> zlen buf = 4 ->
  incoming (sv_conn s) = frame (call_bytes id ps) ++ rest ->
  willing (4 + zlen reply + n) (sv_conn s) -> 0 <= n ->
  runs (fun _ => False) (serve_request M malloc_ok shutdown_ok buf) (turned s st' reply rest n) s.
Proof.
  intros Hasks Hproc Hs Hst Hzb Hinc Hw Hn. unfold serve_request.
  apply runs_bind. eapply runs_mono; [by apply (take_request_exact id ps buf rest)|done|].
  intros [ok b] s1 [Hok Hb1 Hs1 Hp1 Hc1 _ _ Hr1 Hinc1]. cbn in Hok, Hb1. subst ok. cbn [negb].
  apply runs_bind. eapply runs_mono; [apply (Hproc b s1 Hs1 Hp1); congruence|done|].
  intros r s2 [-> Hs2 Hc2 Hrep Hfit _ _ Hconn]. cbn [negb].
  eapply runs_mono; [apply (answer_request_exact reply n s2 Hs2 Hrep Hfit); [|done]|done|].
  { rewrite Hconn. destruct Hr1 as (_ & Hsn & _), Hw as [? ?]. split; by rewrite Hsn. }
  intros r s3 (Hr & Hzr & Hbr & Hp3 & Hs3 & [Hct Hcr] & Hsent & Hw').
  destruct Hr1 as (Hct1 & Hsn1 & Hse1). split; try done.
  - by rewrite Hp3.
  - unfold incoming. rewrite Hct, Hcr, Hconn. exact Hinc1.
  - by rewrite Hsent, Hconn, Hse1.
Qed.

(** The server when nothing more comes in: it has kept all it had. *)
Definition over (s s' : Server W) : Prop :=
  dispatcher_ok (sv_proc s') /\ core (sv_proc s') = core (sv_proc s)
  /\ cn_sent (sv_conn s') = cn_sent (sv_conn s)
  /\ same_thread (sv_proc s) (sv_proc s') /\ p_dispatchers (sv_proc s') = p_dispatchers (sv_proc s).

Lemma take_request_over buf s :
  server_ok s -> zlen buf = 4 -> incoming (sv_conn s) = [] ->
  runs (over s) (take_request buf) (fun r s' => r.1 = false /\ over s s') s.
Proof.
  intros [Hd Ht _] Hzb Hinc. unfold take_request. apply runs_bind, runs_on_proc.
  eapply wp_mono; [by apply (wp_and _ _ _ _ (call_reset_wp _ Hd) (call_reset_keeps _ Hd))|].
  intros [] p1 [(Hd1 & _ & Hss1 & Hm1 & _) [Hth1 Hds1]]. pose proof (do_sock _ Hd1) as Hsock.
  assert (core p1 = core (sv_proc s)) as Hc1 by (unfold core; by rewrite Hss1, Hm1).
  apply runs_bind, runs_net, wp_gets. cbn [sv_proc].
  apply runs_bind. eapply (runs_mono _ _ _ (fun r s' => r.1 = false /\ over s s')); [|done|].
  2: { intros [ok b] s' [Hok Ho]. cbn in Hok. subst ok. by apply runs_ret. }
  unfold receive_request. apply runs_bind.
  eapply runs_on_conn; [apply (cs_read_runs _ buf); (done || lia)|..]; cbn [sv_proc sv_conn].
  - intros c ((_ & _ & Hs) & _). by split.
  - intros [ok b] c ((_ & _ & Hs) & _ & Hok). destruct ok; cbn [fst] in Hok.
    + destruct Hok as [Hlen _]. rewrite Hinc, Hzb in Hlen. by destruct Hlen.
    + by apply runs_ret.
Qed.

Lemma serve_loop_over k buf s :
  server_ok s -> zlen buf = 4 -> incoming (sv_conn s) = [] ->
  runs (over s) (serve_loop M malloc_ok shutdown_ok (S k) buf) (fun r s' => r = true /\ over s s') s.
Proof.
  intros Hs Hzb Hinc. cbn [serve_loop]. apply runs_bind. unfold serve_request. apply runs_bind.
  eapply runs_mono; [by apply take_request_over|done|].
  intros [ok b] s' [Hok Ho]. cbn in Hok. subst ok. cbn [negb]. by apply runs_ret, runs_ret.
Qed.
End Serve_exact.
