(* ===== verification/CString.v ===== *)
(** Strings of C, in the memory they lie in: reading them, one byte at a time, and
    writing.  What ends a string is in the memory too, or it is not a string. *)
From S2P Require Import Prelude.

(** ** Strings in memory *)

(** The bytes of a string of C, and the string that bytes make. *)
Definition of_bytes (bs : list Z) : string :=
  String.string_of_list_ascii (map (fun b => Ascii.ascii_of_N (Z.to_N b)) bs).

Fixpoint until_nul (mem : block) : option (list Z) :=
  match mem with
  | [] => None
  | b :: mem => if b =? 0 then Some [] else cons b <$> until_nul mem
  end.

(** The string at [p]. *)
Definition cstring (mem : block) (p : nat) : res (list Z) :=
  match until_nul (drop p mem) with Some s => Ok s | None => Crash OutOfBounds end.

Definition load (mem : block) (p : nat) : res Z :=
  match mem !! p with Some b => Ok b | None => Crash OutOfBounds end.
Definition poke (mem : block) (p : nat) (b : Z) : res block :=
  if bool_decide (p < length mem)%nat then Ok (<[p := b]> mem) else Crash OutOfBounds.

Definition MAXPATHLEN : nat := 4096.

(** [snprintf (buf, sizeof (buf), "%s", s)] into an array of [MAXPATHLEN]. *)
Definition snprintf_s (s : list Z) : string := of_bytes (take (MAXPATHLEN - 1) s).

(** [strchr (s, c)]: the place of the first [c]. *)
Fixpoint strchr (s : list Z) (c : Z) : option nat :=
  match s with
  | [] => None
  | b :: s => if b =? c then Some O else S <$> strchr s c
  end.

(** ** Lemmas *)

Lemma until_nul_app w rest : Forall (fun b => b <> 0) w -> until_nul (w ++ 0 :: rest) = Some w.
Proof.
  induction 1 as [|b w Hb _ IH]; [done|]. cbn. by rewrite (proj2 (Z.eqb_neq _ _) Hb), IH.
Qed.

Lemma poke_middle pre x post b : poke (pre ++ x :: post) (length pre) b = Ok (pre ++ b :: post).
Proof.
  unfold poke. rewrite bool_decide_true by (rewrite length_app; simpl; lia).
  f_equal. rewrite <- (Nat.add_0_r (length pre)). by rewrite insert_app_r.
Qed.

Lemma load_middle pre x post : load (pre ++ x :: post) (length pre) = Ok x.
Proof. unfold load. by rewrite list_lookup_middle. Qed.

Lemma of_string_bytes s : of_bytes (string_bytes s) = s.
Proof.
  induction s as [|a s IH]; [done|]. unfold of_bytes, string_bytes in *. cbn. f_equal; [|exact IH].
  by rewrite N2Z.id, Ascii.ascii_N_embedding.
Qed.
