(* ===== verification/TlsPsk.v ===== *)
(** gck-rpc-tls-psk.c: the keys of TLS with pre-shared keys.  OpenSSL asks for the key
    of an identity by calling back; it is looked up in a file of lines
    [identity:hex-key].  Set-up and shutdown of OpenSSL's objects is here too; what
    OpenSSL answers is a parameter.  The reading and writing of a connection are in
    Transport. *)
From S2P Require Import Prelude CString.

(** ** Decoding a key *)

(** A single hex character, -1 for anything else. *)
Definition _tls_psk_to_hex (val : Z) : Z :=
  if (48 <=? val) && (val <=? 57) then val - 48
  else if (97 <=? val) && (val <=? 102) then val - 97 + 10
  else if (65 <=? val) && (val <=? 70) then val - 65 + 10
  else -1.

(** The loop; [hexkey] is what is left of the string, its end is the terminating 0. *)
Fixpoint decode_loop (hexkey : list Z) (psk : block) (psk_len max_psk_len : Z)
    : res (Z * block) :=
  match hexkey with
  | [] => Ok (psk_len, psk)
  | c :: hexkey =>
      if negb (psk_len <? max_psk_len) then (* too long *) Ok (0, psk) else
      (* decode first half of byte, check for errors *)
      let i := _tls_psk_to_hex c in
      if i <? 0 then Ok (0, psk) else
      psk ← poke psk (Z.to_nat psk_len) (wrap8 (Z.shiftl i 4));
      (* decode second half of byte, check for errors *)
      match hexkey with
      | [] => Ok (0, psk)
      | c :: hexkey =>
          let i := _tls_psk_to_hex c in
          if i <? 0 then Ok (0, psk) else
          b ← load psk (Z.to_nat psk_len);
          psk ← poke psk (Z.to_nat psk_len) (wrap8 (Z.lor b i));
          decode_loop hexkey psk (psk_len + 1) max_psk_len
      end
  end.

(** The number of bytes of the key, 0 on failure, and the memory at [psk]. *)
Definition _tls_psk_decode_key (hexkey : list Z) (psk : block) (max_psk_len : Z)
    : res (Z * block) :=
  (* check that length of the key is even *)
  if negb (zlen hexkey mod 2 =? 0) then Ok (0, psk) else
  psk ← mem_write psk 0 (replicate (Z.to_nat max_psk_len) 0);
  decode_loop hexkey psk 0 max_psk_len.

(** ** Reading lines *)

(** A file that is open: what the next calls of [read (fd, buf, 1)] find, a byte each,
    or [None] for an error; at the end nothing. *)
Abbreviation File := (list (option Z)).

(** The loop of [_fgets], with [len] bytes left from [p] on: what is left then, where
    the next byte would go, how many were read. *)
Fixpoint fgets_loop (len p : nat) (n : Z) (buf : block) (fd : File)
    : res (nat * nat * Z * block * File) :=
  match len, fd with
  | O, _ | _, [] => Ok (len, p, n, buf, fd)
  | S _, None :: fd => Ok (len, p, n, buf, fd)
  | S len, Some b :: fd =>
      buf ← poke buf p b;
      if b =? 10 then Ok (len, S p, n + 1, buf, fd) else fgets_loop len (S p) (n + 1) buf fd
  end.

Definition _fgets (buf : block) (len : nat) (fd : File) : res (Z * block * File) :=
  '(len, p, n, buf, fd) ← fgets_loop len 0 0 buf fd;
  match len with
  | O => (* ran out of space *) Ok (-1, buf, fd)
  | S _ => buf ← poke buf p 0; Ok (n, buf, fd)
  end.

(** ** Looking for a key *)

Definition newline (b : Z) : bool := (b =? 10) || (b =? 13).

(** The newlines at the end of the string at [hexkey] are removed, from its character [i]
    down, but not its first character. *)
Fixpoint remove_newlines (line : block) (hexkey i : nat) : res block :=
  match i with
  | O => Ok line
  | S i' =>
      b ← load line (hexkey + i);
      if newline b then line ← poke line (hexkey + i) 0; remove_newlines line hexkey i'
      else Ok line
  end.

(** [sizeof (line)] *)
Definition sizeof_line : nat := 1024.

(** The lines of the file one after the other: [None] if [fuel] is not enough for them.
    [identity]: [None] for a null pointer. *)
Fixpoint find_key_loop (fuel : nat) (identity : option (list Z)) (line : block) (fd : File)
    (psk : block) (max_psk_len : Z) : res (option (Z * block)) :=
  match fuel with
  | O => Ok None
  | S fuel =>
      '(n, line, fd) ← _fgets line (sizeof_line - 1) fd;
      if negb (0 <? n) then Ok (Some (0, psk)) else
      (* Find first colon and replace it with NULL *)
      s ← cstring line 0;
      match strchr s 58 with
      | None => find_key_loop fuel identity line fd psk max_psk_len
      | Some colon =>
          line ← poke line colon 0;
          let hexkey := S colon in
          (* Remove newline(s) at the end.  Of an empty string the code looks at the
             byte before it, which is the 0 just stored. *)
          s ← cstring line hexkey;
          line ← remove_newlines line hexkey (length s - 1);
          name ← cstring line 0;
          (* If the line starts with identity: or identity is not provided, parse this line. *)
          if match identity with None | Some [] => true | Some w => bool_decide (name = w) end
          then
            s ← cstring line hexkey;
            r ← _tls_psk_decode_key s psk max_psk_len;
            Ok (Some r)
          else find_key_loop fuel identity line fd psk max_psk_len
      end
  end.

(** [line]: the array on the stack.  [keyfile]: what the file holds, if it can be
    opened. *)
Definition _tls_psk_server_cb (line : block) (keyfile : option File)
    (identity : option (list Z)) (psk : block) (max_psk_len : Z) : res (option (Z * block)) :=
  match keyfile with
  | None => Ok (Some (0, psk))
  | Some fd => find_key_loop (S (length fd)) identity line fd psk max_psk_len
  end.

(** [snprintf (buf, size, "%s", s)] *)
Definition snprintf_to (size : nat) (old s : list Z) : list Z :=
  if bool_decide (size = 0%nat) then old else take (size - 1) s.

(** The client tells which identity it uses; the hint of the server is discarded.
    [identity]: what OpenSSL's array for it holds. *)
Definition _tls_psk_client_cb (tls_psk_identity : list Z) (line : block) (keyfile : option File)
    (identity : list Z) (max_identity_len : nat) (psk : block) (max_psk_len : Z)
    : res (list Z * option (Z * block)) :=
  let identity := snprintf_to max_identity_len identity tls_psk_identity in
  r ← _tls_psk_server_cb line keyfile (Some identity) psk max_psk_len;
  Ok (identity, r).

(** ** OpenSSL's objects *)

Inductive gck_rpc_tls_psk_caller := GCK_RPC_TLS_PSK_CLIENT | GCK_RPC_TLS_PSK_SERVER.

(** Pointers to OpenSSL's objects are numbers of them; [None] is a null pointer. *)
Record GckRpcTlsPskState := mkTlsState {
  initialized : bool;
  ssl_ctx : option Z;
  bio : option Z;
  ssl : option Z;
  type : gck_rpc_tls_psk_caller;
}.

(** With the static variables of the file, and the objects of type SSL there are. *)
Record TlsPsk := mkTlsPsk {
  tls_state : GckRpcTlsPskState;
  tls_psk_identity : list Z;
  tls_psk_key_filename : list Z;
  live_ssl : list Z;
}.
Definition set_tls_state (f : GckRpcTlsPskState -> GckRpcTlsPskState) (s : TlsPsk) : TlsPsk :=
  mkTlsPsk (f (tls_state s)) (tls_psk_identity s) (tls_psk_key_filename s) (live_ssl s).
Definition set_live_ssl (l : list Z) (s : TlsPsk) : TlsPsk :=
  mkTlsPsk (tls_state s) (tls_psk_identity s) (tls_psk_key_filename s) l.
Definition set_ssl_ctx (p : option Z) (t : GckRpcTlsPskState) : GckRpcTlsPskState :=
  mkTlsState (initialized t) p (bio t) (ssl t) (type t).
Definition set_bio (p : option Z) (t : GckRpcTlsPskState) : GckRpcTlsPskState :=
  mkTlsState (initialized t) (ssl_ctx t) p (ssl t) (type t).
Definition set_ssl (p : option Z) (t : GckRpcTlsPskState) : GckRpcTlsPskState :=
  mkTlsState (initialized t) (ssl_ctx t) (bio t) p (type t).

Definition sizeof_identity : nat := 128.

(** [ctx]: what [SSL_CTX_new] returns; [versions_ok]: the versions of the protocol can be
    set.  0 on failure, 1 on success. *)
Definition gck_rpc_init_tls_psk (ctx : option Z) (versions_ok : bool) (key_filename : list Z)
    (identity : option (list Z)) (caller : gck_rpc_tls_psk_caller) (s : TlsPsk) : Z * TlsPsk :=
  if initialized (tls_state s) then (0, s) else
  let s := set_tls_state (set_ssl_ctx ctx) s in
  if negb (nonnull ctx) || negb versions_ok then (0, s) else
  (1, mkTlsPsk (mkTlsState true ctx (bio (tls_state s)) (ssl (tls_state s)) caller)
        (snprintf_to sizeof_identity (tls_psk_identity s) (default [] identity))
        (snprintf_to MAXPATHLEN (tls_psk_key_filename s) key_filename) (live_ssl s)).

(** Set up SSL for a new socket.  [SSL_new] and [BIO_new_socket] give the objects named,
    if they can; [handshake]: what [SSL_connect] or [SSL_accept] returns. *)
Definition gck_rpc_start_tls (new_ssl new_bio : option Z) (handshake : gck_rpc_tls_psk_caller -> Z)
    (s : TlsPsk) : Z * TlsPsk :=
  let s := set_tls_state (set_ssl new_ssl) s in
  match new_ssl with
  | None => (0, s)
  | Some p =>
      let s := set_tls_state (set_bio new_bio) (set_live_ssl (p :: live_ssl s) s) in
      if negb (nonnull new_bio) then (0, s) else
      if negb (handshake (type (tls_state s)) =? 1) then (0, s) else (1, s)
  end.

(** Un-initialize everything SSL related. *)
Definition gck_rpc_close_tls (s : TlsPsk) : TlsPsk :=
  let s := set_tls_state (set_ssl_ctx None) s in
  match ssl (tls_state s) with
  | None => s
  | Some p => set_tls_state (set_ssl None) (set_live_ssl (filter (fun q => q <> p) (live_ssl s)) s)
  end.

(** * Specifications *)

(** ** Keys *)

(** Two characters are a byte. *)
Fixpoint hex_decode (s : list Z) : option (list Z) :=
  match s with
  | [] => Some []
  | [_] => None
  | a :: b :: s =>
      let x := _tls_psk_to_hex a in
      let y := _tls_psk_to_hex b in
      if (x <? 0) || (y <? 0) then None else cons (16 * x + y) <$> hex_decode s
  end.

(** What is at [psk] when a key has been stored there. *)
Definition key_stored (key : list Z) (psk : block) (max_psk_len : Z) : block :=
  key ++ replicate (Z.to_nat max_psk_len - length key) 0 ++ drop (Z.to_nat max_psk_len) psk.

(** [r] is the result of decoding: the key, if it is one and there is room for it. *)
Definition decoded (key : option (list Z)) (psk : block) (max_psk_len : Z) (r : Z * block) : Prop :=
  length r.2 = length psk /\
  match key with
  | Some key => if zlen key <=? max_psk_len then r = (zlen key, key_stored key psk max_psk_len) else r.1 = 0
  | None => r.1 = 0
  end.

Lemma to_hex_range c : -1 <= _tls_psk_to_hex c < 16.
Proof.
  unfold _tls_psk_to_hex.
  repeat match goal with |- context [?a <=? ?b] => destruct (Z.leb_spec a b); cbn [andb] end; lia.
Qed.

Lemma halves_byte x y : 0 <= x < 16 -> 0 <= y < 16 ->
  wrap8 (Z.lor (wrap8 (Z.shiftl x 4)) y) = 16 * x + y.
Proof.
  intros Hx Hy. rewrite Z.shiftl_mul_pow2 by lia. rewrite (wrap8_id (x * 2 ^ 4)) by lia.
  replace (x * 2 ^ 4) with (Z.shiftl x 4) by (rewrite Z.shiftl_mul_pow2; lia).
  rewrite lor_shiftl_add by lia. rewrite wrap8_id; lia.
Qed.

(** The loop stores byte after byte: [done_] are stored, [room] is left. *)
Lemma decode_loop_spec hexkey : forall done_ room rest max_psk_len,
  zlen done_ + zlen room = max_psk_len ->
  exists r, decode_loop hexkey (done_ ++ room ++ rest) (zlen done_) max_psk_len = Ok r
    /\ length r.2 = length (done_ ++ room ++ rest)
    /\ match hex_decode hexkey with
       | Some key => if zlen done_ + zlen key <=? max_psk_len
                     then r = (zlen done_ + zlen key, done_ ++ key ++ drop (length key) room ++ rest)
                     else r.1 = 0
       | None => r.1 = 0
       end.
Proof.
  induction hexkey as [hexkey IH] using (induction_ltof1 _ length); unfold ltof in IH.
  intros done_ room rest max Hmax. pose proof (zlen_nonneg room).
  destruct hexkey as [|a [|b hexkey]].
  - exists (zlen done_, done_ ++ room ++ rest). split; [done|]. split; [done|]. cbn [hex_decode].
    rewrite zlen_nil, Z.add_0_r, (proj2 (Z.leb_le _ _)) by lia. done.
  - cbn [decode_loop hex_decode]. destruct (Z.ltb_spec (zlen done_) max); [|by eexists]. cbn [negb].
    destruct (_tls_psk_to_hex a <? 0); [by eexists|].
    destruct room as [|x room]; [rewrite zlen_nil in *; lia|].
    replace (Z.to_nat (zlen done_)) with (length done_) by (unfold zlen; lia).
    cbn [app]. rewrite poke_middle. eexists. split; [done|]. cbn [fst snd]. by rewrite !length_app.
  - cbn [decode_loop hex_decode]. pose proof (to_hex_range a). pose proof (to_hex_range b).
    destruct (Z.ltb_spec (zlen done_) max); cbn [negb].
    2: { eexists. split; [done|]. split; [done|]. destruct (_ || _); [done|].
         destruct (hex_decode hexkey) as [key|]; [|done]. cbn. rewrite zlen_cons.
         pose proof (zlen_nonneg key). rewrite (proj2 (Z.leb_gt _ _)); [done|lia]. }
    destruct (Z.ltb_spec (_tls_psk_to_hex a) 0); [by eexists|]. cbn [orb].
    destruct room as [|x room]; [rewrite zlen_nil in *; lia|].
    replace (Z.to_nat (zlen done_)) with (length done_) by (unfold zlen; lia).
    cbn [app]. rewrite poke_middle. unfold mbind at 1, res_bind.
    destruct (Z.ltb_spec (_tls_psk_to_hex b) 0).
    { eexists. split; [done|]. cbn [fst snd]. by rewrite !length_app. }
    rewrite load_middle. unfold mbind at 1, res_bind. rewrite poke_middle. unfold mbind at 1, res_bind.
    rewrite halves_byte by lia. set (x' := 16 * _ + _).
    destruct (IH hexkey ltac:(cbn; lia) (done_ ++ [x']) room rest max) as (r & Hr & Hl & Hd).
    { rewrite zlen_app, zlen_cons, zlen_nil. rewrite zlen_cons in Hmax. lia. }
    rewrite zlen_app in Hr, Hd. change (zlen [x']) with 1 in *. rewrite <- !(assoc_L app) in *. cbn [app] in *.
    exists r. split; [done|]. split; [by rewrite Hl, !length_app|].
    destruct (hex_decode hexkey) as [key|]; [|done]. cbn. rewrite zlen_cons, Z.add_assoc. by rewrite <- (assoc_L app) in Hd.
Qed.

Lemma hex_decode_odd s : zlen s mod 2 <> 0 -> hex_decode s = None.
Proof.
  induction s as [s IH] using (induction_ltof1 _ length); unfold ltof in IH.
  destruct s as [|a [|b s]]; [done..|]. intros Hs. cbn [hex_decode]. destruct (_ || _); [done|].
  rewrite IH; [done|cbn; lia|]. rewrite !zlen_cons in Hs. intros E. apply Hs.
  replace (1 + (1 + zlen s)) with (zlen s + 1 * 2) by lia. by rewrite Z.mod_add.
Qed.

Lemma decode_key_spec hexkey psk max_psk_len :
  0 <= max_psk_len <= zlen psk ->
  exists r, _tls_psk_decode_key hexkey psk max_psk_len = Ok r
    /\ decoded (hex_decode hexkey) psk max_psk_len r.
Proof.
  intros Hmax. unfold _tls_psk_decode_key. destruct (Z.eqb_spec (zlen hexkey mod 2) 0) as [_|Hodd]; cbn [negb].
  2: { exists (0, psk). split; [done|]. split; [done|]. by rewrite hex_decode_odd. }
  unfold mem_write. rewrite zlen_replicate, Z2Nat.id, bool_decide_true by lia. unfold mbind, res_bind.
  change (Z.to_nat 0) with 0%nat. cbn [take app]. rewrite Z.add_0_l.
  destruct (decode_loop_spec hexkey [] (replicate (Z.to_nat max_psk_len) 0) (drop (Z.to_nat max_psk_len) psk)
    max_psk_len) as (r & Hr & Hl & Hd); [rewrite zlen_nil, zlen_replicate; lia|].
  exists r. split; [done|]. split.
  - rewrite Hl. cbn [app]. rewrite length_app, length_replicate, length_drop. unfold zlen in Hmax. lia.
  - destruct (hex_decode hexkey) as [key|]; [|done]. rewrite zlen_nil, Z.add_0_l in Hd.
    destruct (_ <=? _); [|done]. rewrite Hd. cbn [app]. unfold key_stored. by rewrite drop_replicate.
Qed.

(** ** Lines *)

(** The next line, with the newline that ends it. *)
Fixpoint read_line (fd : File) : list Z * File :=
  match fd with
  | [] => ([], [])
  | None :: fd => ([], fd)
  | Some b :: fd => if b =? 10 then ([b], fd) else (b :: (read_line fd).1, (read_line fd).2)
  end.

Lemma fgets_loop_spec fd : forall len pre rest n,
  (len <= length rest)%nat ->
  let l := (read_line fd).1 in
  if bool_decide (length l < len)%nat then
    fgets_loop len (length pre) n (pre ++ rest) fd
      = Ok ((len - length l)%nat, length (pre ++ l), n + zlen l, pre ++ l ++ drop (length l) rest,
            (read_line fd).2)
  else exists p n' buf fd', fgets_loop len (length pre) n (pre ++ rest) fd = Ok (O, p, n', buf, fd')
    /\ length buf = length (pre ++ rest).
Proof.
  induction fd as [|[b|] fd IH]; intros len pre rest n Hlen; cbv zeta.
  - cbn [read_line fst snd length]. destruct len as [|len].
    + rewrite bool_decide_false by lia. by eexists _, _, _, _.
    + rewrite bool_decide_true by lia. cbn [fgets_loop]. rewrite zlen_nil, Z.add_0_r, app_nil_r. done.
  - destruct len as [|len].
    { rewrite bool_decide_false by lia. by eexists _, _, _, _. }
    cbn [read_line fgets_loop]. destruct rest as [|x rest]; [cbn in Hlen; lia|].
    rewrite poke_middle. unfold mbind, res_bind. destruct (b =? 10).
    + cbn [fst snd length]. change (zlen [b]) with 1. destruct len as [|len].
      * rewrite bool_decide_false by lia. eexists _, _, _, _. split; [done|]. by rewrite !length_app.
      * rewrite bool_decide_true by lia. rewrite length_app, Nat.add_comm. done.
    + specialize (IH len (pre ++ [b]) rest (n + 1) ltac:(cbn in Hlen; lia)). cbv zeta in IH.
      rewrite <- !(assoc_L app) in IH. cbn [app] in IH.
      replace (S (length pre)) with (length (pre ++ [b])) by (rewrite length_app; cbn; lia).
      cbn [fst snd length]. rewrite zlen_cons, Z.add_assoc.
      destruct (decide (length (read_line fd).1 < len)%nat).
      * rewrite bool_decide_true in IH by done. rewrite bool_decide_true by lia. rewrite IH.
        by f_equal.
      * rewrite bool_decide_false in IH by done. rewrite bool_decide_false by lia.
        destruct IH as (p & n' & buf & fd' & -> & Hb). eexists _, _, _, _. split; [done|].
        rewrite Hb, !length_app. cbn. lia.
  - destruct len as [|len].
    { rewrite bool_decide_false by lia. by eexists _, _, _, _. }
    cbn [read_line fst snd length fgets_loop]. rewrite bool_decide_true by lia.
    rewrite zlen_nil, Z.add_0_r, app_nil_r. done.
Qed.

Lemma fgets_spec line fd :
  length line = sizeof_line -> let l := (read_line fd).1 in
  if bool_decide (length l < sizeof_line - 1)%nat then
    _fgets line (sizeof_line - 1) fd
      = Ok (zlen l, l ++ 0 :: drop (S (length l)) line, (read_line fd).2)
  else exists line' fd', _fgets line (sizeof_line - 1) fd = Ok (-1, line', fd').
Proof.
  intros Hline l. pose proof (fgets_loop_spec fd (sizeof_line - 1) [] line 0 ltac:(lia)) as H.
  cbv zeta in H. fold l in H. cbn [app length] in H. unfold _fgets, mbind, res_bind.
  destruct (decide (length l < sizeof_line - 1)%nat) as [Hl|Hl].
  - rewrite bool_decide_true in * by done. rewrite H. clear H.
    destruct (sizeof_line - 1 - length l)%nat eqn:E; [lia|].
    destruct (drop (length l) line) as [|x rest] eqn:Ed.
    { apply (f_equal length) in Ed. rewrite length_drop in Ed. cbn in Ed. lia. }
    rewrite poke_middle, Z.add_0_l. do 4 f_equal.
    rewrite <- Nat.add_1_r, <- drop_drop, Ed. done.
  - rewrite bool_decide_false in * by done. destruct H as (p & n & buf & fd' & -> & _). by eauto.
Qed.

(** ** The entry on a line *)

(** The string in an array that holds [l] and a 0. *)
Fixpoint c_string (l : list Z) : list Z :=
  match l with
  | [] => []
  | b :: l => if b =? 0 then [] else b :: c_string l
  end.

(** The newlines at the end of a string are taken away. *)
Fixpoint chomp (s : list Z) : list Z :=
  match s with
  | [] => []
  | b :: s => match chomp s with [] => if newline b then [] else [b] | s => b :: s end
  end.

(** Identity and key of a line; the first character of the key is never taken for a
    newline. *)
Definition entry (l : list Z) : option (list Z * list Z) :=
  let s := c_string l in
  match strchr s 58 with
  | None => None
  | Some colon =>
      Some (take colon s, match drop (S colon) s with [] => [] | b :: key => b :: chomp key end)
  end.

Definition wanted (identity : option (list Z)) (name : list Z) : bool :=
  match identity with None | Some [] => true | Some w => bool_decide (name = w) end.

(** The reference definition of the search: the first line of the right identity, if no
    line before it is too long. *)
Fixpoint key_in (identity : option (list Z)) (lines : list (list Z)) : option (list Z) :=
  match lines with
  | [] => None
  | l :: lines =>
      if bool_decide (l = []) || bool_decide (sizeof_line - 1 <= length l)%nat then None else
      match entry l with
      | Some (name, key) => if wanted identity name then Some key else key_in identity lines
      | None => key_in identity lines
      end
  end.

(** The lines of a file; behind the last one, empty ones. *)
Fixpoint lines (n : nat) (fd : File) : list (list Z) :=
  match n with
  | O => []
  | S n => (read_line fd).1 :: lines n (read_line fd).2
  end.
Definition lines_of (fd : File) : list (list Z) := lines (S (length fd)) fd.

Lemma until_nul_c_string l rest : until_nul (l ++ 0 :: rest) = Some (c_string l).
Proof. induction l as [|b l IH]; [done|]. cbn. destruct (b =? 0); [done|]. by rewrite IH. Qed.

Lemma cstring_first l rest : cstring (l ++ 0 :: rest) 0 = Ok (c_string l).
Proof. unfold cstring. by rewrite drop_0, until_nul_c_string. Qed.

Lemma c_string_split l rest : exists rest', l ++ 0 :: rest = c_string l ++ 0 :: rest'.
Proof.
  induction l as [|b l [rest' IH]]; [by eexists|]. cbn. destruct (Z.eqb_spec b 0) as [->|]; [by eexists|].
  exists rest'. cbn. by rewrite IH.
Qed.

Lemma c_string_nonzero l : Forall (fun b => b <> 0) (c_string l).
Proof. induction l as [|b l IH]; [done|]. cbn. destruct (Z.eqb_spec b 0); [done|]. by constructor. Qed.

Lemma strchr_split s c k : strchr s c = Some k -> s = take k s ++ c :: drop (S k) s /\ length (take k s) = k.
Proof.
  revert k. induction s as [|b s IH]; intros k; [done|]. cbn. destruct (Z.eqb_spec b c) as [->|].
  - by intros [= <-].
  - destruct (strchr s c) as [k'|]; [|done]. intros [= <-]. destruct (IH k' eq_refl) as [Hs Hl].
    cbn. rewrite Hl. split; [by f_equal|done].
Qed.

Lemma chomp_last s b : chomp (s ++ [b]) = if newline b then chomp s else s ++ [b].
Proof.
  induction s as [|c s IH]; [done|]. cbn [app chomp]. rewrite IH. destruct (newline b); [done|].
  by destruct s.
Qed.

Lemma length_chomp s : (length (chomp s) <= length s)%nat.
Proof. induction s as [|b s IH]; [done|]. cbn. destruct (chomp s); [destruct (newline b)|]; cbn in *; lia. Qed.

Lemma remove_newlines_spec pre c s : forall rest,
  exists rest', remove_newlines (pre ++ c :: s ++ 0 :: rest) (length pre) (length s)
    = Ok (pre ++ c :: chomp s ++ 0 :: rest')
    /\ length rest' = (length s - length (chomp s) + length rest)%nat.
Proof.
  induction s as [|b s IH] using rev_ind; intros rest; [by exists rest|].
  rewrite length_app. change (length [b]) with 1%nat. rewrite Nat.add_1_r. cbn [remove_newlines].
  replace (pre ++ c :: (s ++ [b]) ++ 0 :: rest) with ((pre ++ c :: s) ++ b :: 0 :: rest)
    by (by rewrite <- !(assoc_L app)).
  replace (length pre + S (length s))%nat with (length (pre ++ c :: s)) by (rewrite length_app; done).
  rewrite load_middle. unfold mbind at 1, res_bind. rewrite chomp_last.
  destruct (newline b).
  - rewrite poke_middle. unfold mbind, res_bind. rewrite <- (assoc_L app). cbn [app].
    destruct (IH (0 :: rest)) as (rest' & -> & Hl). exists rest'. split; [done|].
    rewrite Hl. cbn. pose proof (length_chomp s). lia.
  - exists rest. rewrite <- !(assoc_L app). split; [done|]. rewrite length_app. cbn. lia.
Qed.

Lemma read_line_less fd : (read_line fd).1 <> [] -> (length (read_line fd).2 < length fd)%nat.
Proof.
  induction fd as [|[b|] fd IH]; [done| |done]. cbn. destruct (b =? 10); cbn; [lia|]. intros _.
  destruct (read_line fd).1 eqn:E; [|specialize (IH ltac:(done)); lia].
  assert (length (read_line fd).2 <= length fd)%nat; [|lia]. clear -E.
  destruct fd as [|[c|] fd]; cbn in *; [lia| |lia]. destruct (c =? 10); done.
Qed.

(** What the code makes of the array that holds the line [l]. *)
Lemma entry_in_line l rest name hexkey :
  entry l = Some (name, hexkey) ->
  exists colon line2 s line3 rest3, strchr (c_string l) 58 = Some colon
    /\ poke (l ++ 0 :: rest) colon 0 = Ok line2 /\ cstring line2 (S colon) = Ok s
    /\ remove_newlines line2 (S colon) (length s - 1) = Ok line3
    /\ cstring line3 0 = Ok name /\ cstring line3 (S colon) = Ok hexkey
    /\ line3 = name ++ 0 :: hexkey ++ 0 :: rest3 /\ length line3 = length (l ++ 0 :: rest).
Proof.
  unfold entry. destruct (strchr _ 58) as [colon|] eqn:Ec; [|done]. intros [= <- <-].
  destruct (strchr_split _ _ _ Ec) as [Es El]. pose proof (c_string_nonzero l) as Hnz.
  destruct (c_string_split l rest) as [rest' Hrest].
  set (s := c_string l) in *. set (name := take colon s) in *. set (key := drop (S colon) s) in *.
  assert (Forall (fun b => b <> 0) name) as Hn by (by apply Forall_take).
  assert (Forall (fun b => b <> 0) key) as Hk by (by apply Forall_drop).
  assert (l ++ 0 :: rest = name ++ 58 :: key ++ 0 :: rest') as Hl
    by (rewrite Hrest, Es at 1; by rewrite <- (assoc_L app)).
  exists colon, (name ++ 0 :: key ++ 0 :: rest'), key. rewrite Hl, <- El.
  assert (forall k r, cstring (name ++ 0 :: k ++ 0 :: r) 0 = Ok name) as Hname
    by (intros k r; unfold cstring; rewrite drop_0; by rewrite until_nul_app).
  assert (forall k r, Forall (fun b => b <> 0) k -> cstring (name ++ 0 :: k ++ 0 :: r) (S (length name)) = Ok k)
    as Hkey.
  { intros k r Hkz. unfold cstring. rewrite drop_app_ge, Nat.sub_succ_l, Nat.sub_diag by lia.
    rewrite skipn_cons, drop_0. by rewrite until_nul_app. }
  destruct key as [|b key].
  - exists (name ++ 0 :: 0 :: rest'), rest'. split_and!; try done.
    + by rewrite poke_middle.
    + by apply (Hkey []).
    + by apply (Hname []).
    + by apply (Hkey []).
    + by rewrite !length_app.
  - destruct (remove_newlines_spec (name ++ [0]) b key rest') as (rest3 & Hr & Hlen).
    rewrite <- !(assoc_L app), length_app in Hr. change (length [0]) with 1%nat in Hr.
    rewrite Nat.add_1_r in Hr. cbn [app] in Hr |- *.
    assert (Forall (fun b => b <> 0) (b :: chomp key)) as Hc.
    { apply Forall_cons in Hk as [Hb Hk]. constructor; [done|]. clear -Hk.
      induction Hk as [|c key Hc _ IH]; [done|]. cbn. destruct (chomp key); [|by constructor].
      destruct (newline c); [done|by constructor]. }
    exists (name ++ 0 :: b :: chomp key ++ 0 :: rest3), rest3.
    split_and!; try done.
    + by rewrite poke_middle.
    + by apply (Hkey (b :: key)).
    + cbn [length]. by rewrite Nat.sub_succ, Nat.sub_0_r.
    + by apply (Hname (b :: chomp key)).
    + by apply (Hkey (b :: chomp key)).
    + rewrite !length_app. cbn [length]. rewrite !length_app. cbn [length]. rewrite Hlen.
      assert (length (chomp key) <= length key)%nat by apply length_chomp. lia.
Qed.

Section Search.
Context (identity : option (list Z)) (psk : block) (max_psk_len : Z).

Lemma find_key_loop_spec fuel : forall line fd,
  (length fd < fuel)%nat -> length line = sizeof_line ->
  find_key_loop fuel identity line fd psk max_psk_len
  = match key_in identity (lines fuel fd) with
    | None => Ok (Some (0, psk))
    | Some hexkey => r ← _tls_psk_decode_key hexkey psk max_psk_len; Ok (Some r)
    end.
Proof.
  induction fuel as [|fuel IH]; intros line fd Hfuel Hline; [lia|].
  cbn [find_key_loop lines key_in]. pose proof (fgets_spec line fd Hline) as Hf. cbv zeta in Hf.
  pose proof (read_line_less fd) as Hless. set (l := (read_line fd).1) in *.
  destruct (decide (length l < sizeof_line - 1)%nat) as [Hl|Hl].
  2: { rewrite bool_decide_false in Hf by done. destruct Hf as (line' & fd' & ->).
       rewrite (bool_decide_true (_ <= _)%nat) by lia. by rewrite orb_true_r. }
  rewrite bool_decide_true in Hf by done. rewrite Hf. unfold mbind at 1, res_bind.
  rewrite (bool_decide_false (_ <= _)%nat) by lia. rewrite orb_false_r.
  destruct (decide (l = [])) as [Hnil|Hne].
  { rewrite bool_decide_true by done. by rewrite Hnil. }
  rewrite bool_decide_false by done. specialize (Hless Hne).
  assert (0 < zlen l) by (destruct l; [done|rewrite zlen_cons; pose proof (zlen_nonneg l); lia]).
  rewrite (proj2 (Z.ltb_lt _ _)) by done. cbn [negb].
  set (rest := drop (S (length l)) line).
  assert (length (l ++ 0 :: rest) = sizeof_line) as Hlen
    by (rewrite length_app; cbn [length]; unfold rest; rewrite length_drop; lia).
  rewrite cstring_first. unfold mbind at 1, res_bind.
  destruct (entry l) as [[name hexkey]|] eqn:He.
  - destruct (entry_in_line l rest name hexkey He) as
      (colon & line2 & s & line3 & rest3 & -> & Hp & Hs & Hr & Hn & Hk & _ & Hl3).
    rewrite Hp. unfold mbind at 1, res_bind. rewrite Hs. unfold mbind at 1, res_bind.
    rewrite Hr. unfold mbind at 1, res_bind. rewrite Hn. unfold mbind at 1, res_bind.
    change (match identity with None | Some [] => true | Some w => bool_decide (name = w) end)
      with (wanted identity name).
    destruct (wanted identity name); [by rewrite Hk|]. apply IH; [lia|congruence].
  - unfold entry in He. destruct (strchr _ 58); [done|]. apply IH; [lia|done].
Qed.
End Search.

Lemma server_cb_spec line fd identity psk max_psk_len :
  length line = sizeof_line -> 0 <= max_psk_len <= zlen psk ->
  exists r, _tls_psk_server_cb line (Some fd) identity psk max_psk_len = Ok (Some r)
    /\ decoded (key_in identity (lines_of fd) ≫= hex_decode) psk max_psk_len r.
Proof.
  intros Hline Hmax. unfold _tls_psk_server_cb. rewrite find_key_loop_spec by (done || lia).
  fold (lines_of fd). destruct (key_in identity (lines_of fd)) as [hexkey|].
  - destruct (decode_key_spec hexkey psk max_psk_len Hmax) as (r & -> & Hr). by exists r.
  - by exists (0, psk).
Qed.

(** ** Files of keys *)

Definition hex_digit (n : Z) : Z := if n <? 10 then 48 + n else 87 + n.
Definition hex_encode (key : list Z) : list Z :=
  concat (map (fun b => [hex_digit (b / 16); hex_digit (b mod 16)]) key).

(** Identity, key. *)
Definition key_line (e : list Z * list Z) : list Z := e.1 ++ 58 :: hex_encode e.2 ++ [10].
Definition key_file (entries : list (list Z * list Z)) : File :=
  map Some (concat (map key_line entries)).

Definition identity_char (b : Z) : Prop := b <> 0 /\ b <> 10 /\ b <> 58.
Record entry_ok (e : list Z * list Z) : Prop := {
  eo_identity : Forall identity_char e.1;
  eo_key : bytes e.2 /\ e.2 <> [];
  eo_short : (length (key_line e) < sizeof_line - 1)%nat;
}.

Lemma to_hex_digit n : 0 <= n < 16 -> _tls_psk_to_hex (hex_digit n) = n.
Proof.
  intros Hn. unfold hex_digit, _tls_psk_to_hex.
  destruct (Z.ltb_spec n 10);
    repeat match goal with |- context [?a <=? ?b] => destruct (Z.leb_spec a b); cbn [andb] end; lia.
Qed.

Lemma hex_encode_cons b key :
  hex_encode (b :: key) = hex_digit (b / 16) :: hex_digit (b mod 16) :: hex_encode key.
Proof. done. Qed.

Lemma hex_decode_encode key : bytes key -> hex_decode (hex_encode key) = Some key.
Proof.
  induction 1 as [|b key Hb _ IH]; [done|]. rewrite hex_encode_cons. cbn [hex_decode].
  unfold is_byte in Hb. pose proof (Z.mod_pos_bound b 16). pose proof (Z.div_mod b 16).
  assert (0 <= b / 16 < 16) by (split; [apply Z.div_pos; lia|apply Z.div_lt_upper_bound; lia]).
  rewrite !to_hex_digit by lia. rewrite !(proj2 (Z.ltb_ge _ _)) by lia. cbn [orb].
  rewrite IH. cbn. do 2 f_equal. lia.
Qed.

(** A hex digit is no character that means something. *)
Lemma hex_encode_chars key : bytes key -> Forall (fun b => b <> 0 /\ newline b = false) (hex_encode key).
Proof.
  assert (forall n, 0 <= n -> hex_digit n <> 0 /\ newline (hex_digit n) = false) as Hd.
  { intros n Hn. unfold hex_digit, newline. destruct (Z.ltb_spec n 10); split; try lia;
      by rewrite (proj2 (Z.eqb_neq _ 10)), (proj2 (Z.eqb_neq _ 13)) by lia. }
  induction 1 as [|b key Hb _ IH]; [done|]. rewrite hex_encode_cons. unfold is_byte in Hb.
  repeat constructor; try apply Hd; try done; try (apply Z.div_pos; lia).
  all: pose proof (Z.mod_pos_bound b 16); lia.
Qed.

Lemma read_line_map l fd :
  Forall (fun b => b <> 10) l -> read_line (map Some (l ++ [10]) ++ fd) = (l ++ [10], fd).
Proof.
  induction 1 as [|b l Hb _ IH]; [done|]. cbn. rewrite (proj2 (Z.eqb_neq _ _) Hb).
  by rewrite IH.
Qed.

Lemma c_string_id l : Forall (fun b => b <> 0) l -> c_string l = l.
Proof. induction 1 as [|b l Hb _ IH]; [done|]. cbn. by rewrite (proj2 (Z.eqb_neq _ _) Hb), IH. Qed.

Lemma chomp_id s : Forall (fun b => newline b = false) s -> chomp s = s.
Proof. induction 1 as [|b s Hb _ IH]; [done|]. cbn. rewrite IH. by destruct s; [rewrite Hb|]. Qed.

Lemma strchr_app s c rest : Forall (fun b => b <> c) s -> strchr (s ++ c :: rest) c = Some (length s).
Proof.
  induction 1 as [|b s Hb _ IH]; cbn; [by rewrite Z.eqb_refl|].
  by rewrite (proj2 (Z.eqb_neq _ _) Hb), IH.
Qed.

Lemma entry_key_line e : entry_ok e -> entry (key_line e) = Some (e.1, hex_encode e.2).
Proof.
  intros [Hi [Hk Hne] _]. destruct e as [name key]. cbn [fst snd] in *. unfold entry.
  pose proof (hex_encode_chars key Hk) as Hh.
  rewrite c_string_id.
  - unfold key_line. cbn [fst snd]. rewrite strchr_app.
    2: { eapply Forall_impl; [exact Hi|]. by intros b (_ & _ & ?). }
    rewrite take_app_length, drop_app_ge, Nat.sub_succ_l, Nat.sub_diag, skipn_cons, drop_0 by lia.
    destruct key as [|b key]; [done|]. rewrite hex_encode_cons in *. cbn [app].
    apply Forall_cons in Hh as [_ Hh]. set (c := hex_digit (b mod 16)) in *.
    change (c :: hex_encode key ++ [10]) with ((c :: hex_encode key) ++ [10]).
    rewrite chomp_last. change (newline 10) with true. cbn iota. rewrite chomp_id; [done|].
    eapply Forall_impl; [exact Hh|]. by intros ? [? ?].
  - unfold key_line. cbn [fst snd]. apply Forall_app. split.
    + eapply Forall_impl; [exact Hi|]. by intros b (? & _).
    + constructor; [done|]. apply Forall_app. split; [|by repeat constructor].
      eapply Forall_impl; [exact Hh|]. by intros ? [? ?].
Qed.

Lemma key_line_chars e : entry_ok e -> exists l, key_line e = l ++ [10] /\ Forall (fun b => b <> 10) l.
Proof.
  intros [Hi [Hk _] _]. exists (e.1 ++ 58 :: hex_encode e.2). split; [by rewrite <- (assoc_L app)|].
  apply Forall_app. split; [eapply Forall_impl; [exact Hi|]; by intros b (_ & ? & _)|].
  constructor; [done|]. eapply Forall_impl; [by apply hex_encode_chars|].
  intros b [_ Hb] ->. done.
Qed.

(** The search finds the first entry of the identity. *)
Definition key_of (identity : list Z) (entries : list (list Z * list Z)) : option (list Z) :=
  snd <$> head (filter (fun e => e.1 = identity) entries).

Lemma key_in_file identity entries n :
  identity <> [] -> Forall entry_ok entries -> (length entries < n)%nat ->
  key_in (Some identity) (lines n (key_file entries)) = hex_encode <$> key_of identity entries.
Proof.
  intros Hne Hok. revert n. induction Hok as [|e entries He _ IH]; intros [|n] Hn; try done; [cbn in Hn; lia|].
  destruct (key_line_chars e He) as (l & El & Hl).
  assert (key_file (e :: entries) = map Some (l ++ [10]) ++ key_file entries) as ->
    by (unfold key_file; cbn [map concat]; by rewrite map_app, El).
  cbn [lines]. rewrite read_line_map by done. cbn [fst snd]. rewrite <- El. cbn [key_in].
  rewrite (bool_decide_false (key_line e = [])) by (rewrite El; by destruct l).
  pose proof (eo_short e He). rewrite bool_decide_false by lia. cbn [orb].
  rewrite entry_key_line by done. unfold wanted, key_of. destruct identity as [|c identity]; [done|].
  rewrite filter_cons. destruct (decide (e.1 = c :: identity)) as [E|E].
  - by rewrite bool_decide_true.
  - rewrite bool_decide_false by done. apply IH. cbn in Hn. lia.
Qed.

Lemma length_key_file entries : (length entries <= length (key_file entries))%nat.
Proof.
  unfold key_file. rewrite length_map. induction entries as [|e entries IH]; [done|].
  cbn [map concat]. unfold key_line at 1. rewrite !length_app. cbn. lia.
Qed.

(** * Properties *)

(** C15: the key that OpenSSL is given is the one the file holds for the identity, and
    nothing else.  Whatever the file is - lines without a colon, bytes that are 0, errors
    in the middle - the callback returns after at most as many lines as there are reads,
    stays within its array and within the array for the key, and its result is that of
    the reference definition: the hexadecimal key on the first line of the identity
    (or on the first line with a colon, if there is no identity), if it has an even
    number of digits and there is room for it; otherwise 0.  A line of 1023 bytes and
    more hides all lines behind it. *)
Theorem psk_key_of_file line fd identity psk max_psk_len :
  length line = sizeof_line -> 0 <= max_psk_len <= zlen psk ->
  exists r, _tls_psk_server_cb line (Some fd) identity psk max_psk_len = Ok (Some r)
    /\ decoded (key_in identity (lines_of fd) ≫= hex_decode) psk max_psk_len r.
Proof. apply server_cb_spec. Qed.

Lemma psk_key_of_file_witness :
  exists r, _tls_psk_server_cb (replicate 1024 9) (Some [Some 97; Some 58; Some 49; Some 102; None; Some 7])
      (Some [97]) [5; 5; 5] 2 = Ok (Some r)
    /\ decoded (Some [31]) [5; 5; 5] 2 r.
Proof.
  apply (psk_key_of_file (replicate 1024 9) [Some 97; Some 58; Some 49; Some 102; None; Some 7] (Some [97])).
  - reflexivity.
  - vm_compute. split; discriminate.
Defined.

(** C14: both ends find the same key.  A file is written with one line for each of
    [entries], identities and keys; a client set up with an identity and a server that is
    told this identity both give OpenSSL the key of the first entry of it, byte for byte,
    or, if there is none, no key. *)
Theorem psk_file_roundtrip entries identity line_c line_s old max_identity_len psk_c psk_s max_psk_len :
  Forall entry_ok entries -> identity <> [] -> (length identity < max_identity_len)%nat ->
  length line_c = sizeof_line -> length line_s = sizeof_line ->
  Forall (fun e => zlen e.2 <= max_psk_len) entries ->
  0 <= max_psk_len -> zlen psk_c = max_psk_len -> zlen psk_s = max_psk_len ->
  let key_at psk r := length r.2 = length psk /\ r = match key_of identity entries with
    | Some key => (zlen key, key ++ replicate (Z.to_nat max_psk_len - length key) 0)
    | None => (0, r.2)
    end in
  (exists r, _tls_psk_client_cb identity line_c (Some (key_file entries)) old max_identity_len psk_c
       max_psk_len = Ok (identity, Some r) /\ key_at psk_c r) /\
  (exists r, _tls_psk_server_cb line_s (Some (key_file entries)) (Some identity) psk_s max_psk_len
       = Ok (Some r) /\ key_at psk_s r).
Proof.
  intros Hok Hne Hid Hlc Hls Hfit Hmax Hc Hs key_at.
  assert (forall line psk, length line = sizeof_line -> zlen psk = max_psk_len -> exists r,
    _tls_psk_server_cb line (Some (key_file entries)) (Some identity) psk max_psk_len = Ok (Some r)
    /\ key_at psk r) as Hcb.
  { intros line psk Hline Hpsk.
    destruct (server_cb_spec line (key_file entries) (Some identity) psk max_psk_len Hline)
      as (r & Hr & Hlen & Hd); [lia|].
    exists r. split; [done|]. split; [done|]. unfold lines_of in Hd. pose proof (length_key_file entries).
    rewrite key_in_file in Hd by (done || lia). unfold key_of in *.
    destruct (filter _ entries) as [|e l] eqn:Ef; cbn in Hd |- *; [by rewrite <- Hd; destruct r|].
    assert (e ∈ entries) as He.
    { assert (e ∈ filter (fun e => e.1 = identity) entries) as He by (rewrite Ef; left).
      by apply list_elem_of_filter in He as [_ ?]. }
    rewrite Forall_forall in Hok, Hfit. pose proof (eo_key _ (Hok e He)) as [Hb _].
    rewrite hex_decode_encode, (proj2 (Z.leb_le _ _)) in Hd by (done || by apply Hfit).
    rewrite Hd. unfold key_stored. rewrite (drop_ge psk), app_nil_r; [done|]. unfold zlen in Hpsk. lia. }
  split; [|by apply Hcb]. unfold _tls_psk_client_cb, snprintf_to.
  rewrite bool_decide_false by lia. rewrite take_ge by lia.
  destruct (Hcb line_c psk_c Hlc Hc) as (r & -> & Hr). by exists r.
Qed.

(** Two keys, and a second one of the same identity. *)
Definition sample_keys : list (list Z * list Z) :=
  [([97], [1; 171]); ([98; 99], [255]); ([97], [7])].

Lemma psk_file_roundtrip_witness :
  (exists r, _tls_psk_client_cb [97] (replicate 1024 1) (Some (key_file sample_keys)) [] 128 [9; 9; 9] 3
     = Ok ([97], Some r) /\ length r.2 = 3%nat /\ r = (2, [1; 171; 0])) /\
  (exists r, _tls_psk_server_cb (replicate 1024 2) (Some (key_file sample_keys)) (Some [97]) [8; 8; 8] 3
     = Ok (Some r) /\ length r.2 = 3%nat /\ r = (2, [1; 171; 0])).
Proof.
  apply (psk_file_roundtrip sample_keys [97] (replicate 1024 1) (replicate 1024 2) [] 128
    [9; 9; 9] [8; 8; 8] 3); try reflexivity; try lia; try discriminate.
  - unfold sample_keys. repeat constructor; (discriminate || lia || (cbn; lia)).
  - cbn. lia.
  - unfold sample_keys. repeat constructor; discriminate.
Defined.

(** A line that is too long hides the entries behind it. *)
Example long_line_hides :
  _tls_psk_server_cb (replicate 1024 0) (Some (map Some (replicate 1023 120 ++ [10; 97; 58; 49; 49; 10])))
    (Some [97]) [0; 0] 2 = Ok (Some (0, [0; 0])).
Proof. by vm_compute. Qed.

(** Every connection's SSL object replaces the one before, which nobody frees: only the
    last one is there to be freed at the end. *)
Lemma start_tls_leaks p q bio1 bio2 h s :
  p <> q -> p ∈ live_ssl (gck_rpc_close_tls (gck_rpc_start_tls (Some q) bio2 h
    (gck_rpc_start_tls (Some p) bio1 h s).2).2).
Proof.
  intros Hpq.
  assert (forall s r bio, (gck_rpc_start_tls (Some r) bio h s).2
    = set_tls_state (set_bio bio) (set_live_ssl (r :: live_ssl s) (set_tls_state (set_ssl (Some r)) s))) as E.
  { intros s' r b. unfold gck_rpc_start_tls. destruct (nonnull b); cbn [negb]; [|done]. by destruct (_ =? 1). }
  rewrite !E. unfold gck_rpc_close_tls.
  apply (list_elem_of_filter (fun r => r <> q)). split; [done|]. right. left.
Qed.
