(* ===== verification/ModuleArgs.v ===== *)
(** gck-rpc-module.c: the argument string of the client library, which is taken
    apart in a copy of it.  The copy is modelled as the memory it is, with the
    places [src], [at] and [arg] in it. *)
From S2P Require Import Prelude CString.

(** [strcspn (s, ":=")] *)
Definition is_separator (b : Z) : bool := (b =? 58) || (b =? 61).
Fixpoint strcspn (s : list Z) : nat :=
  match s with
  | [] => O
  | b :: s => if is_separator b then O else S (strcspn s)
  end.

Definition isspace (b : Z) : bool := (b =? 32) || ((9 <=? b) && (b <=? 13)).

(** ** The arguments *)

(** The two variables that arguments set. *)
Record Settings := mkSettings {
  st_socket_path : string;
  st_tls_psk_key_filename : string;
}.

(** A null [value] is passed to [snprintf] all the same. *)
Definition parse_argument (arg : nat) (s : block * Settings) : res (block * Settings) :=
  let (mem, st) := s in
  str ← cstring mem arg;
  let n := strcspn str in
  '(mem, value) ← match drop n str with
                  | [] => Ok (mem, None)
                  | _ :: value => mem ← poke mem (arg + n) 0; Ok (mem, Some value)
                  end;
  (* Setup the socket path from the arguments *)
  let name := of_bytes (take n str) in
  let set f := match value with Some v => Ok (mem, f (snprintf_s v)) | None => Crash NullDereference end in
  if bool_decide (name = "socket"%string)
  then set (fun v => mkSettings v (st_tls_psk_key_filename st))
  else if bool_decide (name = "tls_psk_file"%string)
  then set (fun v => mkSettings (st_socket_path st) v)
  else Ok (mem, st).

Definition quote_char (b : Z) : bool := (b =? 39) || (b =? 34).
Definition BACKSLASH : Z := 92.

(** [*at++ = b;] *)
Definition append (b : Z) (at_ : nat) (mem : block) : res (block * nat) :=
  mem ← poke mem at_ b; Ok (mem, S at_).

(** The loop, and what follows it: [fuel] bounds the number of bytes to look at,
    0 for [quote] is none.  [goto done] returns. *)
Fixpoint parse_loop (fuel src at_ arg : nat) (quote : Z) (s : block * Settings)
    : res (block * Settings) :=
  let (mem, st) := s in
  match fuel with
  | O => Crash OutOfBounds
  | S fuel =>
      c ← load mem src;
      if c =? 0 then if negb (at_ =? arg)%nat then parse_argument arg s else Ok s else
      (* Matching quote *)
      if quote =? c then parse_loop fuel (S src) at_ arg 0 s else
      (* Inside of quotes *)
      if negb (quote =? 0) then
        if c =? BACKSLASH then
          '(mem, at_) ← append c at_ mem;
          c ← load mem (S src);
          if c =? 0 then Ok (mem, st) else
          '(mem, at_) ← (if negb (c =? quote) then append BACKSLASH at_ mem else Ok (mem, at_));
          c ← load mem (S src);
          '(mem, at_) ← append c at_ mem;
          parse_loop fuel (S (S src)) at_ arg quote (mem, st)
        else
          '(mem, at_) ← append c at_ mem;
          parse_loop fuel (S src) at_ arg quote (mem, st)
      (* Space, not inside of quotes *)
      else if isspace c then
        mem ← poke mem at_ 0;
        s ← parse_argument arg (mem, st);
        parse_loop fuel (S src) at_ at_ quote s
      (* Other character outside of quotes *)
      else if quote_char c then parse_loop fuel (S src) at_ arg c s
      else if c =? BACKSLASH then
        '(mem, at_) ← append c at_ mem;
        c ← load mem (S src);
        if c =? 0 then Ok (mem, st) else
        '(mem, at_) ← append c at_ mem;
        parse_loop fuel (S (S src)) at_ arg quote (mem, st)
      else
        '(mem, at_) ← append c at_ mem;
        parse_loop fuel (S src) at_ arg quote (mem, st)
  end.

(** [strdup_ok]: the C library finds memory for the copy. *)
Definition parse_arguments (strdup_ok : bool) (arguments : option string) (st : Settings)
    : res Settings :=
  match arguments with
  | None => Ok st
  | Some s =>
      if negb strdup_ok then Ok st else
      let dup := string_bytes s ++ [0] in
      '(_, st) ← parse_loop (S (length dup)) 0 0 0 0 (dup, st);
      Ok st
  end.

(** * Properties *)

(** What one argument means. *)
Definition set_argument (w : list Z) (st : Settings) : res Settings :=
  let n := strcspn w in
  let name := of_bytes (take n w) in
  match drop n w with
  | [] => if bool_decide (name = "socket"%string) || bool_decide (name = "tls_psk_file"%string)
          then Crash NullDereference else Ok st
  | _ :: v =>
      if bool_decide (name = "socket"%string)
      then Ok (mkSettings (snprintf_s v) (st_tls_psk_key_filename st))
      else if bool_decide (name = "tls_psk_file"%string)
      then Ok (mkSettings (st_socket_path st) (snprintf_s v))
      else Ok st
  end.

Fixpoint set_arguments (ws : list (list Z)) (st : Settings) : res Settings :=
  match ws with
  | [] => Ok st
  | w :: ws => st ← set_argument w st; set_arguments ws st
  end.

(** Neither a space, a quote, a backslash nor the end. *)
Definition plain (b : Z) : bool :=
  negb (b =? 0) && negb (isspace b) && negb (quote_char b) && negb (b =? BACKSLASH).
Definition plain_word (w : list Z) : Prop := Forall (fun b => plain b = true) w.

Lemma plain_nonzero w : plain_word w -> Forall (fun b => b <> 0) w.
Proof.
  intros Hw. eapply Forall_impl; [exact Hw|]. intros b. cbn beta. unfold plain.
  by destruct (Z.eqb_spec b 0).
Qed.

(** The argument is cut in two in the memory. *)
Definition cut (w : list Z) : list Z :=
  match drop (strcspn w) w with
  | [] => w
  | _ :: v => take (strcspn w) w ++ 0 :: v
  end.

Lemma length_cut w : length (cut w) = length w.
Proof.
  unfold cut. destruct (drop (strcspn w) w) as [|b v] eqn:E; [done|].
  rewrite <- (take_drop (strcspn w) w) at 3. rewrite E, !length_app. done.
Qed.

Lemma length_take_strcspn w : length (take (strcspn w) w) = strcspn w.
Proof.
  induction w as [|b w IH]; [done|]. cbn. destruct (is_separator b); [done|]. simpl. by rewrite IH.
Qed.

Lemma parse_argument_spec pre w rest st :
  Forall (fun b => b <> 0) w ->
  parse_argument (length pre) (pre ++ w ++ 0 :: rest, st)
    = (st' ← set_argument w st; Ok (pre ++ cut w ++ 0 :: rest, st')).
Proof.
  intros Hw. unfold parse_argument, cstring. rewrite drop_app_length, until_nul_app by done.
  unfold mbind, res_bind. unfold set_argument, cut.
  pose proof (length_take_strcspn w) as Hl. set (n := strcspn w) in *.
  destruct (drop n w) as [|b v] eqn:E.
  - by repeat case_bool_decide.
  - assert (pre ++ w ++ 0 :: rest = (pre ++ take n w) ++ b :: v ++ 0 :: rest) as ->
      by (rewrite <- (take_drop n w) at 1; rewrite E, <- !(assoc_L app); done).
    replace (length pre + n)%nat with (length (pre ++ take n w)) by (rewrite length_app; lia).
    rewrite poke_middle. rewrite <- !(assoc_L app).
    by repeat case_bool_decide.
Qed.

(** A plain character moves down to where the argument is put together. *)
Lemma parse_plain fuel pre gap c post arg st :
  plain c = true ->
  parse_loop (S fuel) (length (pre ++ gap)) (length pre) arg 0 (pre ++ gap ++ c :: post, st)
  = parse_loop fuel (length ((pre ++ [c]) ++ tail (gap ++ [c]))) (length (pre ++ [c])) arg 0
      ((pre ++ [c]) ++ tail (gap ++ [c]) ++ post, st).
Proof.
  intros Hc. unfold plain in Hc. rewrite !andb_true_iff, !negb_true_iff in Hc.
  destruct Hc as [[[Hz Hs] Hq] Hb].
  assert (load (pre ++ gap ++ c :: post) (length (pre ++ gap)) = Ok c) as Hl
    by (rewrite (assoc_L app); apply load_middle).
  cbn [parse_loop]. unfold mbind, res_bind. rewrite Hl, Hz, (Z.eqb_sym 0 c), Hz.
  cbn [negb Z.eqb]. rewrite Hs, Hq, Hb. unfold append, mbind, res_bind.
  assert (S (length (pre ++ gap)) = length ((pre ++ [c]) ++ tail (gap ++ [c]))) as ->
    by (destruct gap; rewrite !length_app; simpl; rewrite ?length_app; simpl; lia).
  assert (S (length pre) = length (pre ++ [c])) as -> by (rewrite length_app; simpl; lia).
  destruct gap as [|g gap]; simpl app; rewrite poke_middle; do 2 f_equal;
    simpl; by rewrite <- !(assoc_L app).
Qed.

Lemma parse_word fuel pre gap w post arg st :
  plain_word w ->
  parse_loop (length w + fuel) (length (pre ++ gap)) (length pre) arg 0 (pre ++ gap ++ w ++ post, st)
  = let gap' := drop (length w) (gap ++ w) in
    parse_loop fuel (length ((pre ++ w) ++ gap')) (length (pre ++ w)) arg 0
      ((pre ++ w) ++ gap' ++ post, st).
Proof.
  intros Hw. revert pre gap. induction Hw as [|c w Hc _ IH]; intros pre gap; cbv zeta.
  - cbn [length drop app Nat.add]. by rewrite !app_nil_r.
  - cbn [length Nat.add]. change ((c :: w) ++ post) with (c :: (w ++ post)).
    rewrite parse_plain by done. rewrite IH. cbv zeta.
    assert (drop (length w) (tail (gap ++ [c]) ++ w) = drop (S (length w)) (gap ++ c :: w)) as ->.
    { replace (gap ++ c :: w) with ((gap ++ [c]) ++ w) by (by rewrite <- (assoc_L app)).
      destruct (gap ++ [c]) eqn:E; [by destruct gap|]. done. }
    by rewrite <- (assoc_L app) with (x := pre).
Qed.

(** Words with a space behind each. *)
Definition spaced (ws : list (list Z)) : list Z := concat (map (fun w => w ++ [32]) ws).

(** The end of the string: the last argument has no end of its own, what is left of
    the original behind it belongs to it. *)
Lemma parse_end fuel pre gap w st :
  plain_word w -> (length gap <= length w)%nat \/ w = [] ->
  exists mem,
    parse_loop (length w + S fuel) (length (pre ++ gap)) (length pre) (length pre) 0
      (pre ++ gap ++ w ++ [0], st)
    = (st' ← if bool_decide (w = []) then Ok st
             else set_argument (w ++ drop (length w - length gap) w) st;
       Ok (mem, st')).
Proof.
  intros Hw Hlen. rewrite parse_word by done. cbv zeta.
  assert (length (drop (length w) (gap ++ w)) = length gap) as Hg
    by (rewrite length_drop, length_app; lia).
  cbn [parse_loop]. unfold mbind, res_bind.
  rewrite (assoc_L app (pre ++ w)), load_middle. cbn [Z.eqb].
  destruct w as [|c w].
  { rewrite bool_decide_true by done. rewrite app_nil_r, Nat.eqb_refl. by eexists. }
  rewrite bool_decide_false by done.
  rewrite (proj2 (Nat.eqb_neq (length (pre ++ c :: w)) (length pre))) by (rewrite length_app; simpl; lia).
  cbn [negb]. destruct Hlen as [Hlen|]; [|done].
  rewrite drop_app_ge by done. set (gap' := drop _ (c :: w)).
  assert (((pre ++ c :: w) ++ gap') ++ [0] = pre ++ ((c :: w) ++ gap') ++ [0]) as ->
    by (by rewrite <- !(assoc_L app)).
  rewrite parse_argument_spec.
  - unfold mbind, res_bind. destruct (set_argument _ st); [by eexists|]. by exists [].
  - apply plain_nonzero in Hw. apply Forall_app. split; [done|]. by apply Forall_drop.
Qed.

Lemma parse_space fuel pre gap w post st :
  plain_word w ->
  let gap2 := 0 :: tail (drop (length w) (gap ++ w) ++ [32]) in
  parse_loop (length w + S fuel) (length (pre ++ gap)) (length pre) (length pre) 0
    (pre ++ gap ++ w ++ 32 :: post, st)
  = (st' ← set_argument w st;
     parse_loop fuel (length ((pre ++ cut w) ++ gap2)) (length (pre ++ cut w))
       (length (pre ++ cut w)) 0 ((pre ++ cut w) ++ gap2 ++ post, st')).
Proof.
  intros Hw gap2. rewrite parse_word by done. cbv zeta. unfold gap2.
  set (gap1 := drop (length w) (gap ++ w)). cbn [parse_loop]. unfold mbind, res_bind.
  rewrite (assoc_L app (pre ++ w)), load_middle. cbn [Z.eqb negb].
  change (isspace 32) with true. cbn iota.
  assert (poke (((pre ++ w) ++ gap1) ++ 32 :: post) (length (pre ++ w)) 0
    = Ok (pre ++ w ++ 0 :: tail (gap1 ++ [32]) ++ post)) as ->.
  { destruct gap1 as [|g gap1]; rewrite <- (assoc_L app (pre ++ w)); simpl app;
      rewrite poke_middle; rewrite <- !(assoc_L app); done. }
  rewrite parse_argument_spec by (by apply plain_nonzero). unfold mbind, res_bind.
  destruct (set_argument w st) as [st'|]; [|done].
  assert (S (length ((pre ++ w) ++ gap1)) = length ((pre ++ cut w) ++ 0 :: tail (gap1 ++ [32]))) as ->.
  { rewrite !length_app, length_cut. destruct gap1; simpl; rewrite ?length_app; simpl; lia. }
  assert (length (pre ++ w) = length (pre ++ cut w)) as -> by (by rewrite !length_app, length_cut).
  do 2 f_equal. by rewrite <- !(assoc_L app).
Qed.

Lemma parse_words fuel pre gap ws w st :
  Forall plain_word ws -> plain_word w -> (length gap + length ws <= length w)%nat \/ w = [] ->
  exists mem,
    parse_loop (length (spaced ws ++ w) + S fuel) (length (pre ++ gap)) (length pre) (length pre) 0
      (pre ++ gap ++ spaced ws ++ w ++ [0], st)
    = (st' ← set_arguments ws st;
       st' ← if bool_decide (w = []) then Ok st'
             else set_argument (w ++ drop (length w - (length gap + length ws)) w) st';
       Ok (mem, st')).
Proof.
  intros Hws Hw. revert pre gap st. induction Hws as [|w0 ws Hw0 _ IH]; intros pre gap st Hlen.
  - cbn [length] in *. rewrite Nat.add_0_r in *. cbn [spaced map concat app set_arguments].
    by apply parse_end.
  - assert (spaced (w0 :: ws) = w0 ++ 32 :: spaced ws) as ->
      by (unfold spaced; simpl; by rewrite <- (assoc_L app)).
    assert (length ((w0 ++ 32%Z :: spaced ws) ++ w) + S fuel
      = length w0 + S (length (spaced ws ++ w) + S fuel))%nat as ->
      by (rewrite !length_app; simpl; lia).
    rewrite <- (assoc_L app w0), <- app_comm_cons.
    pose proof (parse_space (length (spaced ws ++ w) + S fuel) pre gap w0 (spaced ws ++ w ++ [0]) st Hw0) as Hs.
    cbv zeta in Hs. rewrite Hs. cbn [set_arguments]. unfold mbind at 1 3, res_bind at 1 3.
    destruct (set_argument w0 st) as [st'|]; [|by exists []].
    set (gap2 := 0 :: _).
    assert (length gap2 = S (length gap)) as Hg.
    { unfold gap2. cbn [length]. f_equal.
      assert (length (drop (length w0) (gap ++ w0)) = length gap) as Hd
        by (rewrite length_drop, length_app; lia).
      destruct (drop _ _); simpl in *; rewrite ?length_app; simpl; lia. }
    destruct (IH (pre ++ cut w0) gap2 st') as [mem Hm]; [cbn [length] in Hlen; destruct Hlen; [left; lia|by right]|].
    exists mem. rewrite Hm. cbn [length]. by rewrite Hg, Nat.add_succ_comm.
Qed.

(** Arguments of plain characters with a space behind each are applied one
    after the other; but the last one, when it has no space behind it, is read with
    its own last characters repeated, one for every argument before it, as the
    string is not ended where the argument ends. *)
Theorem parse_arguments_repeats_the_end s ws w st :
  string_bytes s = spaced ws ++ w -> Forall plain_word ws -> plain_word w ->
  (length ws <= length w)%nat \/ w = [] ->
  parse_arguments true (Some s) st
    = (st' ← set_arguments ws st;
       if bool_decide (w = []) then Ok st'
       else set_argument (w ++ drop (length w - length ws) w) st').
Proof.
  intros Hs Hws Hw Hlen. unfold parse_arguments. cbn [negb]. rewrite Hs.
  rewrite <- (assoc_L app).
  assert (S (length (spaced ws ++ w ++ [0%Z])) = length (spaced ws ++ w) + 1 + 1)%nat as ->
    by (rewrite !length_app; simpl; lia).
  destruct (parse_words 1 [] [] ws w st Hws Hw Hlen) as [mem' Hm']. cbn [app length Nat.add] in Hm'.
  rewrite <- Nat.add_assoc. cbn [Nat.add]. rewrite Hm'. unfold mbind, res_bind.
  destruct (set_arguments ws st) as [st'|]; [|done].
  destruct (if bool_decide (w = []) then _ else _); done.
Qed.

Definition no_settings : Settings := mkSettings "" "".
Definition two_arguments : string := "tls_psk_file=f socket=tls://h:5".

Lemma parse_arguments_repeats_the_end_witness :
  parse_arguments true (Some two_arguments) no_settings = Ok (mkSettings "tls://h:55" "f").
Proof.
  rewrite (parse_arguments_repeats_the_end two_arguments [string_bytes "tls_psk_file=f"]
    (string_bytes "socket=tls://h:5")).
  - vm_compute. reflexivity.
  - vm_compute. reflexivity.
  - repeat constructor; vm_compute; reflexivity.
  - repeat constructor; vm_compute; reflexivity.
  - left. vm_compute. lia.
Defined.

(** Inside of quotes every backslash is doubled in place, so that what is
    written overtakes what is read, and after a few of them runs out of the copy. *)
Theorem parse_arguments_overflow st :
  parse_arguments true (Some "'\a\b\c\d'"%string) st = Crash OutOfBounds.
Proof. destruct st. vm_compute. reflexivity. Qed.
