(* ===== verification/Client.v ===== *)
(** gck-rpc-module.c, first part: the state of the client library, the pool of
    connections to the daemon, and the course of a call on one of them. *)
From S2P Require Import Prelude EggBuffer Pkcs11 RpcUtil Calls Message Transport.

(** ** State *)

Inductive CallStatus := CALL_INVALID | CALL_READY | CALL_PREP | CALL_TRANSIT | CALL_PARSE.

#[export] Instance CallStatus_eq_dec : EqDecision CallStatus.
Proof. solve_decision. Defined.

(** [struct _CallState]: [conn] is what lies behind [socket] and [tls]; the
    pointer to the next one is that of the list the state is in. *)
Record CallState := mkCall {
  socket : Z;
  conn : Conn;
  req : option GckRpcMessage;
  resp : option GckRpcMessage;
  call_status : CallStatus;
}.

Definition set_socket (n : Z) (cs : CallState) : CallState :=
  mkCall n (conn cs) (req cs) (resp cs) (call_status cs).
Definition set_conn (c : Conn) (cs : CallState) : CallState :=
  mkCall (socket cs) c (req cs) (resp cs) (call_status cs).
Definition set_req (m : option GckRpcMessage) (cs : CallState) : CallState :=
  mkCall (socket cs) (conn cs) m (resp cs) (call_status cs).
Definition set_resp (m : option GckRpcMessage) (cs : CallState) : CallState :=
  mkCall (socket cs) (conn cs) (req cs) m (call_status cs).
Definition set_status (st : CallStatus) (cs : CallState) : CallState :=
  mkCall (socket cs) (conn cs) (req cs) (resp cs) st.

(** Where a connection goes, and what an attempt to make one meets: whether the
    C library finds memory, the connected socket if there is one, whether TLS can be
    set up, and what the network will do on the connection. *)
Inductive address := Unix (path : string) | Inet (host port : option string).

Record dialled := mkDialled {
  d_calloc : bool;
  d_strdup : bool;
  d_socket : address -> option Z;
  d_tls_calloc : bool;
  d_init_tls_psk : bool;
  d_start_tls : bool;
  d_recv : list event;
  d_send : list send_event;
}.

(** The variables of the library.  [dials] is what the next attempts to connect
    meet. *)
Record Client := mkClient {
  pkcs11_initialized : bool;
  pkcs11_initialized_pid : Z;
  pkcs11_app_id : Z;
  pkcs11_socket_path : string;
  tls_psk_key_filename : string;
  call_state_pool : list CallState;
  n_call_state_pool : Z;
  dials : list dialled;
}.

Definition set_pool (pool : list CallState) (n : Z) (c : Client) : Client :=
  mkClient (pkcs11_initialized c) (pkcs11_initialized_pid c) (pkcs11_app_id c)
    (pkcs11_socket_path c) (tls_psk_key_filename c) pool n (dials c).
Definition set_dials (ds : list dialled) (c : Client) : Client :=
  mkClient (pkcs11_initialized c) (pkcs11_initialized_pid c) (pkcs11_app_id c)
    (pkcs11_socket_path c) (tls_psk_key_filename c) (call_state_pool c) (n_call_state_pool c) ds.

(** Maximum number of idle calls *)
Definition MAX_CALL_STATE_POOL : Z := 8.

(** ** The connection *)

Definition on_connection {A} (m : Net Conn A) : Net CallState A := zoom conn set_conn m.

Definition call_disconnect : ST CallState unit := modify (set_socket (-1)).

(** Write all data to session socket.  The socket is looked at before every
    [send], and nothing closes it in between. *)
Definition call_write (data : list Z) : Net CallState Z :=
  net (assert_ (0 <? zlen data));;
  cs ← net get_st;
  if socket cs =? -1 then mret CKR_DEVICE_ERROR else
  e ← on_connection (write_data data);
  match e with
  | Complete => mret CKR_OK
  | Closed => net call_disconnect;; mret CKR_DEVICE_ERROR
  | Broken => mret CKR_DEVICE_ERROR
  end.

(** Read a certain amount of data from session socket: the result, and what
    [data] holds. *)
Definition call_read (data : list Z) : Net CallState (Z * list Z) :=
  net (assert_ (0 <? zlen data));;
  cs ← net get_st;
  if socket cs =? -1 then mret (CKR_DEVICE_ERROR, data) else
  '(e, data) ← on_connection (read_data data);
  match e with
  | Complete => mret (CKR_OK, data)
  | Closed => net call_disconnect;; mret (CKR_DEVICE_ERROR, data)
  | Broken => mret (CKR_DEVICE_ERROR, data)
  end.

Section Client.
(** The C library's [realloc]. *)
Context (realloc : EggBufferAllocator).

(** Allocator for call session buffers *)
Definition call_allocator : EggBufferAllocator := realloc.

(** [pkcs11_app_id] as it lies in memory (little endian). *)
Definition encode_appid (id : Z) : list Z :=
  map (fun i => Z.land (Z.shiftr id (8 * Z.of_nat i)) 255) (seq 0 8).

(** "tcp://" and "tls://": whether it is TLS, and what follows. *)
Definition remote_path (path : string) : option (bool * string) :=
  match string_strip "tcp://" path with
  | Some rest => Some (false, rest)
  | None => pair true <$> string_strip "tls://" path
  end.

Definition call_connect (path : string) (app_id : Z) (d : dialled) : Net CallState Z :=
  cs ← net get_st;
  net (assert_ (socket cs =? -1));;
  net (assert_ (bool_decide (call_status cs = CALL_INVALID)));;
  net (assert_ (negb (bool_decide (path = ""%string))));;
  let connected sock t :=
    net (put_st (mkCall sock (mkConn t (d_recv d) (d_send d) []) (req cs) (resp cs) CALL_READY));;
    call_write (encode_appid app_id) in
  match remote_path path with
  | Some (tls, rest) =>
      let '(ok, host, port) := gck_rpc_parse_host_port (d_strdup d) rest in
      if negb ok then mret CKR_DEVICE_ERROR else
      match d_socket d (Inet host port) with
      | None => mret CKR_DEVICE_ERROR
      | Some sock =>
          if negb tls then connected sock Socket else
          if negb (d_tls_calloc d) then mret CKR_HOST_MEMORY else
          if negb (d_init_tls_psk d) then mret CKR_DEVICE_ERROR else
          if negb (d_start_tls d) then mret CKR_DEVICE_ERROR else
          connected sock Tls
      end
  | None =>
      match d_socket d (Unix path) with
      | None => mret CKR_DEVICE_ERROR
      | Some sock => connected sock Socket
      end
  end.

Definition call_destroy (cs : CallState) : res unit :=
  gck_rpc_message_free (req cs);;
  gck_rpc_message_free (resp cs).

(** What the library does on one of its connections: if it blocks there, so does
    the caller. *)
Definition with_call {A} (m : Net CallState A) (cs : CallState) : Net Client (A * CallState) :=
  fun c => match m cs with
           | Ok (Some a, cs) => Ok (Some (a, cs), c)
           | Ok (None, _) => Ok (None, c)
           | Crash f => Crash f
           end.

Definition new_call : CallState :=
  mkCall (-1) (mkConn Socket [] [] []) None None CALL_INVALID.

(** [call_lookup (&cs)]: [inr rv] when it fails. *)
Definition call_lookup : Net Client (CallState + Z) :=
  c ← net get_st;
  r ← match call_state_pool c with
      | cs :: pool =>
          (* Pop one from the pool if possible *)
          net (assert_ (0 <? n_call_state_pool c));;
          net (modify (set_pool pool (wrap32 (n_call_state_pool c - 1))));;
          mret (inl cs)
      | [] =>
          match dials c with
          | [] => waiting
          | d :: ds =>
              net (modify (set_dials ds));;
              if negb (d_calloc d) then mret (inr CKR_HOST_MEMORY) else
              (* Try to connect the call *)
              '(rv, cs) ← with_call (call_connect (pkcs11_socket_path c) (pkcs11_app_id c) d) new_call;
              mret (if rv =? CKR_OK then inl cs else inr rv)
          end
      end;
  match r with
  | inr rv => mret (inr rv)
  | inl cs =>
      net (assert_ (bool_decide (call_status cs = CALL_READY)));;
      net (assert_ (negb (socket cs =? -1)));;
      mret (inl cs)
  end.

(** ** A call *)

(** [cs->req] or [cs->resp] passed to a function on messages. *)
Definition on_req {A} (m : ST GckRpcMessage A) : ST CallState A := fun cs =>
  match req cs with
  | None => Crash NullDereference
  | Some r => match m r with
              | Ok (a, r) => Ok (a, set_req (Some r) cs)
              | Crash f => Crash f
              end
  end.
Definition on_resp {A} (m : ST GckRpcMessage A) : ST CallState A := fun cs =>
  match resp cs with
  | None => Crash NullDereference
  | Some r => match m r with
              | Ok (a, r) => Ok (a, set_resp (Some r) cs)
              | Crash f => Crash f
              end
  end.

(** Perform the initial setup for a new call. *)
Definition call_prepare (call_id : Z) : Net CallState Z :=
  cs ← net get_st;
  net (assert_ (bool_decide (call_status cs = CALL_READY)));;
  (* Allocate a new request if we've lost the old one *)
  m ← net (lift_res (match req cs with
                     | Some m => Ok (Some m)
                     | None => gck_rpc_message_new realloc (Some call_allocator)
                     end));
  net (modify (set_req m));;
  match m with
  | None => mret CKR_HOST_MEMORY
  | Some _ =>
      (* Put in the Call ID and signature *)
      net (on_req gck_rpc_message_reset);;
      ok ← net (on_req (gck_rpc_message_prep call_id GCK_RPC_REQUEST));
      if negb ok then mret CKR_HOST_MEMORY else
      (* Ready to fill in arguments *)
      net (modify (set_status CALL_PREP));;
      mret CKR_OK
  end.

(** The part of [call_send_recv] in which the two messages belong to it alone,
    up to the label [cleanup]: the result, and the response. *)
Definition dialog (req resp : GckRpcMessage) : Net CallState (Z * GckRpcMessage) :=
  (* Send the number of bytes, and then the data *)
  let len := eb_len (buffer req) in
  let buf := egg_buffer_encode_uint32 (wrap32 len) in
  ret ← call_write buf;
  if negb (ret =? CKR_OK) then mret (ret, resp) else
  data ← net (lift_res (buffer_room (buffer req) len));
  ret ← call_write data;
  if negb (ret =? CKR_OK) then mret (ret, resp) else
  (* Now read out the number of bytes, and then the data *)
  '(ret, buf) ← call_read buf;
  if negb (ret =? CKR_OK) then mret (ret, resp) else
  let len := egg_buffer_decode_uint32 buf in
  '(ok, resp) ← net (lift_res
     (on_buffer (egg_buffer_reserve (wrap64 (len + eb_len (buffer resp)))) resp));
  if negb ok then mret (CKR_HOST_MEMORY, resp) else
  room ← net (lift_res (buffer_room (buffer resp) len));
  '(ret, data) ← call_read room;
  '(_, resp) ← net (lift_res (on_buffer (store 0 data) resp));
  if negb (ret =? CKR_OK) then mret (ret, resp) else
  '(_, resp) ← net (lift_res (on_buffer (egg_buffer_add_empty len) resp));
  (* a response that does not parse leaves [ret] as it is *)
  '(_, resp) ← net (lift_res (gck_rpc_message_parse GCK_RPC_RESPONSE resp));
  mret (ret, resp).

(** Used by [call_run] to actually send the message to the daemon. *)
Definition call_send_recv : Net CallState Z :=
  cs ← net get_st;
  net (assert_ (nonnull (req cs)));;
  net (assert_ (bool_decide (call_status cs = CALL_PREP)));;
  net (modify (set_status CALL_TRANSIT));;
  (* Setup the response buffer properly *)
  m ← net (lift_res (match resp cs with
                     | Some m => Ok (Some m)
                     | None => gck_rpc_message_new realloc (Some call_allocator)
                     end));
  net (modify (set_resp m));;
  match req cs, m with
  | Some q, Some r =>
      '(_, r) ← net (lift_res (gck_rpc_message_reset r));
      (* .. we remove the request and response from the session during the action *)
      net (modify (fun cs => set_req None (set_resp None cs)));;
      '(ret, r) ← dialog q r;
      (* Make sure nobody else used this thread while unlocked *)
      cs ← net get_st;
      net (assert_ (bool_decide (call_status cs = CALL_TRANSIT)));;
      net (assert_ (negb (nonnull (resp cs))));;
      net (modify (set_resp (Some r)));;
      net (assert_ (negb (nonnull (req cs))));;
      net (modify (set_req (Some q)));;
      mret ret
  | _, _ => mret CKR_HOST_MEMORY
  end.

(** At this point the request is ready. So we validate it, and we send it to the
    daemon for a response. *)
Definition call_run : Net CallState Z :=
  cs ← net get_st;
  net (assert_ (nonnull (req cs)));;
  net (assert_ (bool_decide (call_status cs = CALL_PREP)));;
  net (assert_ (negb (socket cs =? -1)));;
  (* Did building the call fail? *)
  failed ← net (on_req (gets gck_rpc_message_buffer_error));
  if (failed : bool) then mret CKR_HOST_MEMORY else
  (* Make sure that the signature is valid *)
  ok ← net (on_req (gets gck_rpc_message_is_verified));
  net (assert_ ok);;
  (* Do the dialog with daemon *)
  ret ← call_send_recv;
  net (modify (set_status CALL_PARSE));;
  if negb (ret =? CKR_OK) then mret ret else
  (* If it's an error code then return it *)
  resp_id ← net (on_resp (gets call_id));
  if resp_id =? GCK_RPC_CALL_ERROR then
    r ← net (on_resp gck_rpc_message_read_ulong);
    match r with
    | None => mret CKR_DEVICE_ERROR
    | Some ckerr => mret (if ckerr <=? CKR_OK then CKR_DEVICE_ERROR else ckerr)
    end
  else
  (* Make sure daemon answered the right call *)
  req_id ← net (on_req (gets call_id));
  if negb (req_id =? resp_id) then mret CKR_DEVICE_ERROR else
  bad ← net (on_resp (gets gck_rpc_message_buffer_error));
  net (assert_ (negb bad));;
  mret CKR_OK.

(** The checks of [call_done] on the response. *)
Definition call_checked (cs : CallState) (ret : Z) : res Z :=
  match req cs, resp cs with
  | Some _, Some r =>
      if bool_decide (call_status cs = CALL_PARSE) && (ret =? CKR_OK) then
        (* Check for parsing errors that were not caught elsewhere *)
        if gck_rpc_message_buffer_error r then Ok CKR_GENERAL_ERROR
        (* Double check that the signature matched our decoding *)
        else if gck_rpc_message_is_verified r then Ok ret else Crash AssertionFailed
      else Ok ret
  | _, _ => Ok ret
  end.

Definition call_done (cs : CallState) (ret : Z) : Net Client Z :=
  net (assert_ (negb (bool_decide (call_status cs = CALL_INVALID))));;
  ret ← net (lift_res (call_checked cs ret));
  c ← net get_st;
  (* Certain error codes cause us to discard the conenction *)
  if negb (ret =? CKR_DEVICE_ERROR) && negb (ret =? CKR_DEVICE_REMOVED)
     && negb (socket cs =? -1) && (n_call_state_pool c <? MAX_CALL_STATE_POOL)
  then
    (* Try and stash it away for later use *)
    net (modify (set_pool (set_status CALL_READY cs :: call_state_pool c)
                   (wrap32 (n_call_state_pool c + 1))));;
    mret ret
  else
    net (lift_res (call_destroy cs));;
    mret ret.
End Client.
