(* ===== verification/ClientProto.v ===== *)
(** gck-rpc-module.c, second part: the [proto_] functions of the client library
    and the macros its calls are written in. *)
From S2P Require Import Prelude EggBuffer Pkcs11 RpcUtil Calls Message Transport Client.

(** The error used by us when parsing of rpc message fails *)
Definition PARSE_ERROR : Z := CKR_DEVICE_ERROR.

(** ** Reading results

    The functions store into objects of the caller: they return what these hold
    then. A [return] in the middle leaves what was stored before it. *)

(** [egg_buffer_get_x (&msg->buffer, msg->parsed, &msg->parsed, &v)]: what the
    variable holds then. *)
Definition get_into {A} (v : A) (get : Z -> ST EggBuffer (option (A * Z)))
    : ST GckRpcMessage (bool * A) :=
  r ← msg_get get;
  mret (match r with Some v => (true, v) | None => (false, v) end).

(** What becomes of one of the caller's attributes: [validity], the length
    [attrlen] and the value [attrval] were received. *)
Definition store_attribute (attr : CK_ATTRIBUTE) (validity attrlen : Z) (attrval : option block)
    (ret : Z) : res (CK_ATTRIBUTE * Z) :=
  let with_len n := mkAttribute (attr_type attr) (pValue attr) n in
  (* Not a valid attribute *)
  if validity =? 0 then Ok (with_len CK_ULONG_MINUS_1, ret) else
  match pValue attr with
  (* Just requesting the attribute size *)
  | None => Ok (with_len attrlen, ret)
  | Some value =>
      (* Wants attribute data, but too small *)
      if ulValueLen attr <? attrlen then Ok (with_len attrlen, CKR_BUFFER_TOO_SMALL) else
      match attrval with
      (* Wants attribute data, value is null *)
      | None => Ok (with_len 0, ret)
      (* Wants attribute data, enough space; a [CK_ULONG] from a platform where
         it is wider is narrowed (little endian) *)
      | Some bs =>
          let n := if (attrlen =? sizeof_uint64_t) && negb (sizeof_CK_ULONG =? sizeof_uint64_t)
                      && gck_rpc_has_ulong_parameter (attr_type attr)
                   then sizeof_CK_ULONG else attrlen in
          src ← mem_read bs 0 n;
          value ← mem_write value 0 src;
          Ok (mkAttribute (attr_type attr) (Some value) n, ret)
      end
  end.

Section Reading.
(** What an uninitialised variable holds. *)
Context (garbage : Z).

(** The loop of [proto_read_attribute_array]: [n] attributes to go, from index
    [i] on.  [inr] is a [return] in the middle; [break] leaves the loop. *)
Fixpoint read_attributes (n i : nat) (arr : option (list CK_ATTRIBUTE)) (type validity ret : Z)
    : ST GckRpcMessage ((Z * option (list CK_ATTRIBUTE)) + Z * option (list CK_ATTRIBUTE)) :=
  match n with
  | O => mret (inl (ret, arr))
  | S n =>
      (* The attribute type *)
      '(_, type) ← get_into type egg_buffer_get_uint32;
      (* Attribute validity *)
      '(_, validity) ← get_into validity egg_buffer_get_byte;
      (* And the data itself *)
      data ← (if validity =? 0 then mret (Some (0, None)) else
              value ← msg_get egg_buffer_get_uint32;
              match value with
              | None => mret None
              | Some value =>
                  r ← msg_get egg_buffer_get_byte_array;
                  match r with
                  | None => mret None
                  | Some (attrval, attrlen) =>
                      mret (if nonnull attrval && negb (value =? attrlen) then None
                            else Some (value, attrval))
                  end
              end);
      match data with
      | None => mret (inr (PARSE_ERROR, arr))
      | Some (attrlen, attrval) =>
          (* Don't act on this data unless no errors *)
          ok ← no_error;
          if negb ok then mret (inl (ret, arr)) else
          (* Try and stuff it in the output data *)
          match arr with
          | None => read_attributes n (S i) arr type validity ret
          | Some l =>
              attr ← lift_res (match l !! i with Some a => Ok a | None => Crash OutOfBounds end);
              if negb (attr_type attr =? type) then mret (inr (PARSE_ERROR, arr)) else
              '(attr, ret) ← lift_res (store_attribute attr validity attrlen attrval ret);
              read_attributes n (S i) (Some (<[i := attr]> l)) type validity ret
          end
      end
  end.

Definition proto_read_attribute_array (arr : option (list CK_ATTRIBUTE)) (len : Z)
    : ST GckRpcMessage (Z * option (list CK_ATTRIBUTE)) :=
  (* Make sure this is in the right order *)
  check_part "aA";;
  (* Get the number of items. We need this value to be correct *)
  num ← msg_get egg_buffer_get_uint32;
  match num with
  | None => mret (PARSE_ERROR, arr)
  | Some num =>
      if negb (len =? num) then mret (PARSE_ERROR, arr) else
      (* We need to go ahead and read everything in all cases *)
      r ← read_attributes (Z.to_nat num) 0 arr garbage garbage CKR_OK;
      match r with
      | inr r => mret r
      | inl (ret, arr) =>
          ok ← no_error;
          if negb ok then mret (PARSE_ERROR, arr) else
          (* Read in the code that goes along with these attributes *)
          r ← gck_rpc_message_read_ulong;
          match r with
          | None => mret (PARSE_ERROR, arr)
          | Some ret => mret (ret, arr)
          end
      end
  end.

(** [len] is not null; [max] is what it points to. *)
Definition proto_read_byte_array (arr : option block) (len max : Z)
    : ST GckRpcMessage (Z * (option block * Z)) :=
  (* Make sure this is in the right order *)
  check_part "ay";;
  (* A single byte which determines whether valid or not *)
  valid ← msg_get egg_buffer_get_byte;
  match valid with
  | None => mret (PARSE_ERROR, (arr, len))
  | Some valid =>
      (* If not valid, then just the length is encoded, this can signify CKR_BUFFER_TOO_SMALL *)
      if valid =? 0 then
        t_len ← msg_get egg_buffer_get_uint32;
        match t_len with
        | None => mret (PARSE_ERROR, (arr, len))
        | Some t_len => mret (if nonnull arr then CKR_BUFFER_TOO_SMALL else CKR_OK, (arr, t_len))
        end
      else
        (* Get the actual bytes *)
        r ← msg_get egg_buffer_get_byte_array;
        match r with
        | None => mret (PARSE_ERROR, (arr, len))
        | Some (val, vlen) =>
            match arr with
            (* Just asking us for size *)
            | None => mret (CKR_OK, (arr, vlen))
            | Some bs =>
                if max <? vlen then mret (CKR_BUFFER_TOO_SMALL, (arr, vlen)) else
                (* Enough space, yay *)
                src ← lift_res (mem_read (default [] val) 0 vlen);
                bs ← lift_res (mem_write bs 0 src);
                mret (CKR_OK, (Some bs, vlen))
            end
        end
  end.

(** [for (i = 0; i < num; ++i)]: a value that cannot be read is that of the one
    before. *)
Fixpoint read_ulongs (n i : nat) (arr : option (list Z)) (val : Z)
    : ST GckRpcMessage (option (list Z)) :=
  match n with
  | O => mret arr
  | S n =>
      '(_, val) ← get_into val egg_buffer_get_uint64;
      arr ← (match arr with
             | None => mret None
             | Some l => if bool_decide (i < length l)%nat then mret (Some (<[i := val]> l))
                         else crash OutOfBounds
             end);
      read_ulongs n (S i) arr val
  end.

Definition proto_read_ulong_array (arr : option (list Z)) (len max : Z)
    : ST GckRpcMessage (Z * (option (list Z) * Z)) :=
  (* Make sure this is in the right order *)
  check_part "au";;
  (* A single byte which determines whether valid or not *)
  valid ← msg_get egg_buffer_get_byte;
  match valid with
  | None => mret (PARSE_ERROR, (arr, len))
  | Some valid =>
      (* Get the number of items. *)
      num ← msg_get egg_buffer_get_uint32;
      match num with
      | None => mret (PARSE_ERROR, (arr, len))
      | Some num =>
          (* If not valid, then just the length is encoded, this can signify CKR_BUFFER_TOO_SMALL *)
          if valid =? 0 then
            mret (if nonnull arr then CKR_BUFFER_TOO_SMALL else CKR_OK, (arr, num))
          else if max <? num then mret (CKR_BUFFER_TOO_SMALL, (arr, num)) else
          (* We need to go ahead and read everything in all cases *)
          arr ← read_ulongs (Z.to_nat num) 0 arr garbage;
          ok ← no_error;
          mret (if (ok : bool) then CKR_OK else PARSE_ERROR, (arr, num))
      end
  end.
End Reading.

(** The mechanism's type and parameters, for the mechanisms that are supported. *)
Definition proto_write_mechanism (mech : CK_MECHANISM) : ST GckRpcMessage Z :=
  (* Make sure this is in the right order *)
  check_part "M";;
  (* The mechanism type *)
  _ ← on_buffer (egg_buffer_add_uint32 (mechanism mech));
  if gck_rpc_mechanism_has_no_parameters (mechanism mech) then
    _ ← on_buffer (egg_buffer_add_byte_array None 0);
    ok ← no_error;
    mret (if (ok : bool) then CKR_OK else CKR_HOST_MEMORY)
  else if gck_rpc_mechanism_has_sane_parameters (mechanism mech) then
    _ ← on_buffer (egg_buffer_add_byte_array (pParameter mech) (ulParameterLen mech));
    ok ← no_error;
    mret (if (ok : bool) then CKR_OK else CKR_HOST_MEMORY)
  else mret CKR_MECHANISM_INVALID.

(** ** Reading structures *)

(** One field of the caller's structure. *)
Definition field {R A} (read : ST GckRpcMessage (option A)) (set : A -> R -> R) (info : R)
    : ST GckRpcMessage (option R) :=
  r ← read; mret ((fun v => set v info) <$> r).

(** [if (!read || !read || ...) return PARSE_ERROR; return CKR_OK;] *)
Fixpoint read_fields {R} (fields : list (R -> ST GckRpcMessage (option R))) (info : R)
    : ST GckRpcMessage (Z * R) :=
  match fields with
  | [] => mret (CKR_OK, info)
  | f :: fields =>
      r ← f info;
      match r with
      | None => mret (PARSE_ERROR, info)
      | Some info => read_fields fields info
      end
  end.

Definition proto_read_info (info : CK_INFO) : ST GckRpcMessage (Z * CK_INFO) :=
  read_fields [
    field gck_rpc_message_read_version
      (fun v '(mkInfo _ b c d e) => mkInfo v b c d e);
    field (gck_rpc_message_read_space_string 32)
      (fun v '(mkInfo a _ c d e) => mkInfo a v c d e);
    field gck_rpc_message_read_ulong
      (fun v '(mkInfo a b _ d e) => mkInfo a b v d e);
    field (gck_rpc_message_read_space_string 32)
      (fun v '(mkInfo a b c _ e) => mkInfo a b c v e);
    field gck_rpc_message_read_version
      (fun v '(mkInfo a b c d _) => mkInfo a b c d v)] info.

Definition proto_read_slot_info (info : CK_SLOT_INFO) : ST GckRpcMessage (Z * CK_SLOT_INFO) :=
  read_fields [
    field (gck_rpc_message_read_space_string 64)
      (fun v '(mkSlotInfo _ b c d e) => mkSlotInfo v b c d e);
    field (gck_rpc_message_read_space_string 32)
      (fun v '(mkSlotInfo a _ c d e) => mkSlotInfo a v c d e);
    field gck_rpc_message_read_ulong
      (fun v '(mkSlotInfo a b _ d e) => mkSlotInfo a b v d e);
    field gck_rpc_message_read_version
      (fun v '(mkSlotInfo a b c _ e) => mkSlotInfo a b c v e);
    field gck_rpc_message_read_version
      (fun v '(mkSlotInfo a b c d _) => mkSlotInfo a b c d v)] info.

Definition proto_read_token_info (info : CK_TOKEN_INFO) : ST GckRpcMessage (Z * CK_TOKEN_INFO) :=
  read_fields [
    field (gck_rpc_message_read_space_string 32)
      (fun v '(mkTokenInfo _ b c d e f g h i j k l m n o p q r) => mkTokenInfo v b c d e f g h i j k l m n o p q r);
    field (gck_rpc_message_read_space_string 32)
      (fun v '(mkTokenInfo a _ c d e f g h i j k l m n o p q r) => mkTokenInfo a v c d e f g h i j k l m n o p q r);
    field (gck_rpc_message_read_space_string 16)
      (fun v '(mkTokenInfo a b _ d e f g h i j k l m n o p q r) => mkTokenInfo a b v d e f g h i j k l m n o p q r);
    field (gck_rpc_message_read_space_string 16)
      (fun v '(mkTokenInfo a b c _ e f g h i j k l m n o p q r) => mkTokenInfo a b c v e f g h i j k l m n o p q r);
    field gck_rpc_message_read_ulong
      (fun v '(mkTokenInfo a b c d _ f g h i j k l m n o p q r) => mkTokenInfo a b c d v f g h i j k l m n o p q r);
    field gck_rpc_message_read_ulong
      (fun v '(mkTokenInfo a b c d e _ g h i j k l m n o p q r) => mkTokenInfo a b c d e v g h i j k l m n o p q r);
    field gck_rpc_message_read_ulong
      (fun v '(mkTokenInfo a b c d e f _ h i j k l m n o p q r) => mkTokenInfo a b c d e f v h i j k l m n o p q r);
    field gck_rpc_message_read_ulong
      (fun v '(mkTokenInfo a b c d e f g _ i j k l m n o p q r) => mkTokenInfo a b c d e f g v i j k l m n o p q r);
    field gck_rpc_message_read_ulong
      (fun v '(mkTokenInfo a b c d e f g h _ j k l m n o p q r) => mkTokenInfo a b c d e f g h v j k l m n o p q r);
    field gck_rpc_message_read_ulong
      (fun v '(mkTokenInfo a b c d e f g h i _ k l m n o p q r) => mkTokenInfo a b c d e f g h i v k l m n o p q r);
    field gck_rpc_message_read_ulong
      (fun v '(mkTokenInfo a b c d e f g h i j _ l m n o p q r) => mkTokenInfo a b c d e f g h i j v l m n o p q r);
    field gck_rpc_message_read_ulong
      (fun v '(mkTokenInfo a b c d e f g h i j k _ m n o p q r) => mkTokenInfo a b c d e f g h i j k v m n o p q r);
    field gck_rpc_message_read_ulong
      (fun v '(mkTokenInfo a b c d e f g h i j k l _ n o p q r) => mkTokenInfo a b c d e f g h i j k l v n o p q r);
    field gck_rpc_message_read_ulong
      (fun v '(mkTokenInfo a b c d e f g h i j k l m _ o p q r) => mkTokenInfo a b c d e f g h i j k l m v o p q r);
    field gck_rpc_message_read_ulong
      (fun v '(mkTokenInfo a b c d e f g h i j k l m n _ p q r) => mkTokenInfo a b c d e f g h i j k l m n v p q r);
    field gck_rpc_message_read_version
      (fun v '(mkTokenInfo a b c d e f g h i j k l m n o _ q r) => mkTokenInfo a b c d e f g h i j k l m n o v q r);
    field gck_rpc_message_read_version
      (fun v '(mkTokenInfo a b c d e f g h i j k l m n o p _ r) => mkTokenInfo a b c d e f g h i j k l m n o p v r);
    field (gck_rpc_message_read_space_string 16)
      (fun v '(mkTokenInfo a b c d e f g h i j k l m n o p q _) => mkTokenInfo a b c d e f g h i j k l m n o p q v)] info.

Definition proto_read_mechanism_info (info : CK_MECHANISM_INFO) : ST GckRpcMessage (Z * CK_MECHANISM_INFO) :=
  read_fields [
    field gck_rpc_message_read_ulong
      (fun v '(mkMechanismInfo _ b c) => mkMechanismInfo v b c);
    field gck_rpc_message_read_ulong
      (fun v '(mkMechanismInfo a _ c) => mkMechanismInfo a v c);
    field gck_rpc_message_read_ulong
      (fun v '(mkMechanismInfo a b _) => mkMechanismInfo a b v)] info.

Definition proto_read_sesssion_info (info : CK_SESSION_INFO) : ST GckRpcMessage (Z * CK_SESSION_INFO) :=
  read_fields [
    field gck_rpc_message_read_ulong
      (fun v '(mkSessionInfo _ b c d) => mkSessionInfo v b c d);
    field gck_rpc_message_read_ulong
      (fun v '(mkSessionInfo a _ c d) => mkSessionInfo a v c d);
    field gck_rpc_message_read_ulong
      (fun v '(mkSessionInfo a b _ d) => mkSessionInfo a b v d);
    field gck_rpc_message_read_ulong
      (fun v '(mkSessionInfo a b c _) => mkSessionInfo a b c v)] info.

(** ** Call macros

    [Rpc A]: code on the connection of a call that may exit with an error. *)

Definition Rpc (A : Type) : Type := Net CallState (A + Z).

#[export] Instance Rpc_ret : MRet Rpc := fun A a s => Ok (Some (inl a), s).
#[export] Instance Rpc_bind : MBind Rpc := fun A B k m s =>
  match m s with
  | Ok (Some (inl a), s') => k a s'
  | Ok (Some (inr rv), s') => Ok (Some (inr rv), s')
  | Ok (None, s') => Ok (None, s')
  | Crash f => Crash f
  end.

(** [{ _ret = rv; goto _cleanup; }], and code that goes on. *)
Definition leave {A} (rv : Z) : Rpc A := fun s => Ok (Some (inr rv), s).
Definition rpc {A} (m : ST CallState A) : Rpc A := fun s =>
  match m s with Ok (a, s') => Ok (Some (inl a), s') | Crash f => Crash f end.

(** [if (!cond) { _ret = rv; goto _cleanup; }] *)
Definition check (cond : bool) (rv : Z) : Rpc unit :=
  if cond then mret tt else leave rv.

(** [if (!gck_rpc_message_write_x (_cs->req, ...)) { _ret = CKR_HOST_MEMORY; ... }] *)
Definition written_or_leave (write : ST GckRpcMessage bool) : Rpc unit :=
  ok ← rpc (on_req write); check ok CKR_HOST_MEMORY.

Definition IN_BYTE (val : Z) : Rpc unit := written_or_leave (gck_rpc_message_write_byte val).
Definition IN_ULONG (val : Z) : Rpc unit := written_or_leave (gck_rpc_message_write_ulong val).
Definition IN_SPACE_STRING (val : option block) (len : Z) : Rpc unit :=
  match val with
  | None => rpc (crash AssertionFailed)
  | Some val => written_or_leave (gck_rpc_message_write_space_string val len)
  end.
Definition IN_BYTE_BUFFER (arr : option block) (len : option Z) : Rpc unit :=
  written_or_leave (gck_rpc_message_write_byte_buffer arr len).
Definition IN_BYTE_ARRAY (arr : option block) (len : Z) : Rpc unit :=
  check ((len =? 0) || nonnull arr) CKR_ARGUMENTS_BAD;;
  written_or_leave (gck_rpc_message_write_byte_array arr len).
Definition IN_ULONG_BUFFER2 (arr : option (list Z)) (len : Z) : Rpc unit :=
  written_or_leave (gck_rpc_message_write_ulong_buffer (if nonnull arr then len else 0)).
Definition IN_ULONG_BUFFER (arr : option (list Z)) (len : option Z) : Rpc unit :=
  check (nonnull len) CKR_ARGUMENTS_BAD;;
  IN_ULONG_BUFFER2 arr (default 0 len).
Definition IN_ATTRIBUTE_BUFFER (arr : option (list CK_ATTRIBUTE)) (num : Z) : Rpc unit :=
  check ((num =? 0) || nonnull arr) CKR_ARGUMENTS_BAD;;
  written_or_leave (gck_rpc_message_write_attribute_buffer arr num).
Definition IN_ATTRIBUTE_ARRAY (arr : option (list CK_ATTRIBUTE)) (num : Z) : Rpc unit :=
  check ((num =? 0) || nonnull arr) CKR_ARGUMENTS_BAD;;
  written_or_leave (gck_rpc_message_write_attribute_array arr num).
Definition IN_MECHANISM_TYPE (val : Z) : Rpc unit :=
  check (gck_rpc_mechanism_is_supported val) CKR_MECHANISM_INVALID;;
  written_or_leave (gck_rpc_message_write_ulong val).
Definition IN_MECHANISM (val : option CK_MECHANISM) : Rpc unit :=
  match val with
  | None => leave CKR_ARGUMENTS_BAD
  | Some mech =>
      ret ← rpc (on_req (proto_write_mechanism mech));
      check (ret =? CKR_OK) ret
  end.

(** The results.  A macro takes [_ret] and what the caller's objects hold, and
    returns what they are then; a null pointer is [None]. *)
Definition OUT_ULONG (val : option Z) (ret : Z) : Rpc (Z * option Z) :=
  match val with
  | None => mret (CKR_ARGUMENTS_BAD, val)
  | Some _ =>
      if negb (ret =? CKR_OK) then mret (ret, val) else
      r ← rpc (on_resp gck_rpc_message_read_ulong);
      mret (match r with Some v => (ret, Some v) | None => (PARSE_ERROR, val) end)
  end.

Definition OUT_BYTE_ARRAY2 (arr : option block) (len : Z) (ret : Z) : Rpc (Z * (option block * Z)) :=
  if ret =? CKR_OK then rpc (on_resp (proto_read_byte_array arr len len))
  else mret (ret, (arr, len)).

Definition OUT_BYTE_ARRAY (arr : option block) (len : option Z) (ret : Z)
    : Rpc (Z * (option block * option Z)) :=
  match len with
  | None => mret (CKR_ARGUMENTS_BAD, (arr, len))
  | Some n =>
      '(ret, (arr, n)) ← OUT_BYTE_ARRAY2 arr n ret;
      mret (ret, (arr, Some n))
  end.

(** A structure that is filled in. *)
Definition OUT_STRUCT {R} (read : R -> ST GckRpcMessage (Z * R)) (info : option R) (ret : Z)
    : Rpc (Z * option R) :=
  match info with
  | None => mret (CKR_ARGUMENTS_BAD, info)
  | Some i =>
      if ret =? CKR_OK then
        '(ret, i) ← rpc (on_resp (read i));
        mret (ret, Some i)
      else mret (ret, info)
  end.
Definition OUT_INFO := OUT_STRUCT proto_read_info.
Definition OUT_SLOT_INFO := OUT_STRUCT proto_read_slot_info.
Definition OUT_TOKEN_INFO := OUT_STRUCT proto_read_token_info.
Definition OUT_SESSION_INFO := OUT_STRUCT proto_read_sesssion_info.
Definition OUT_MECHANISM_INFO := OUT_STRUCT proto_read_mechanism_info.

Section Out.
Context (garbage : Z).

Definition OUT_ULONG_ARRAY (arr : option (list Z)) (len : option Z) (ret : Z)
    : Rpc (Z * (option (list Z) * option Z)) :=
  match len with
  | None => mret (CKR_ARGUMENTS_BAD, (arr, len))
  | Some n =>
      if ret =? CKR_OK then
        '(ret, (arr, n)) ← rpc (on_resp (proto_read_ulong_array garbage arr n n));
        mret (ret, (arr, Some n))
      else mret (ret, (arr, len))
  end.

Definition OUT_MECHANISM_TYPE_ARRAY (arr : option (list Z)) (len : option Z) (ret : Z)
    : Rpc (Z * (option (list Z) * option Z)) :=
  '(ret, (arr, len)) ← OUT_ULONG_ARRAY arr len ret;
  match arr, len with
  | Some l, Some n =>
      if ret =? CKR_OK then
        '(l, n) ← rpc (lift_res (gck_rpc_mechanism_list_purge l n));
        mret (ret, (Some l, Some n))
      else mret (ret, (arr, len))
  | _, _ => mret (ret, (arr, len))
  end.

Definition OUT_ATTRIBUTE_ARRAY (arr : option (list CK_ATTRIBUTE)) (num : Z) (ret : Z)
    : Rpc (Z * option (list CK_ATTRIBUTE)) :=
  if ret =? CKR_OK then rpc (on_resp (proto_read_attribute_array garbage arr num))
  else mret (ret, arr).
End Out.

Section Call.
Context (realloc : EggBufferAllocator).

Definition PROCESS_CALL : Rpc Z := fun s =>
  (ret ← call_run realloc; mret (if ret =? CKR_OK then inl ret else inr ret) : Net CallState _) s.

(** From [BEGIN_CALL] to [END_CALL]: what the function returns, and what the
    caller's objects hold then, [args] at first. *)
Definition CALL {A} (call_id : Z) (args : A) (body : Rpc (Z * A)) : Net Client (Z * A) :=
  c ← net get_st;
  if negb (pkcs11_initialized c) then mret (CKR_CRYPTOKI_NOT_INITIALIZED, args) else
  r ← call_lookup;
  match r with
  | inr rv => mret (rv, args)
  | inl cs =>
      '(r, cs) ← with_call (ret ← call_prepare realloc call_id;
                            if negb (ret =? CKR_OK) then mret (inr ret) else body) cs;
      let '(ret, args) := match r with inl r => r | inr rv => (rv, args) end in
      ret ← call_done cs ret;
      mret (ret, args)
  end.

(** [return_val_if_fail (x, v);] *)
Definition return_val_if_fail {A} (x : bool) (v : Z) (args : A) (k : Net Client (Z * A))
    : Net Client (Z * A) :=
  if x then k else mret (v, args).
Definition initialized_or_return {A} (args : A) (k : Net Client (Z * A)) : Net Client (Z * A) :=
  c ← net get_st;
  return_val_if_fail (pkcs11_initialized c) CKR_CRYPTOKI_NOT_INITIALIZED args k.
End Call.
