(* ===== verification/ClientCalls.v ===== *)
(** gck-rpc-module.c, third part: the functions of the client library, one
    definition per [rpc_] function, written with the macros of ClientProto.
    An argument that is a null pointer is [None]; arguments that are not looked at
    are left out.  The result is the return value and what the caller's objects
    hold then. *)
From S2P Require Import Prelude EggBuffer Pkcs11 RpcUtil Calls Message Transport Client.
From S2P Require Import ClientProto CString ModuleArgs.

Definition CKF_OS_LOCKING_OK : Z := 2.

(** [CK_C_INITIALIZE_ARGS]: whether the function pointers are null, and the
    string behind [pReserved]. *)
Record CK_C_INITIALIZE_ARGS := mkInitArgs {
  CreateMutex : bool;
  DestroyMutex : bool;
  LockMutex : bool;
  UnlockMutex : bool;
  ia_flags : Z;
  pReserved : option string;
}.

(** What the process is told by the system: its id, the environment, two random
    numbers, whether there is memory for the copy of the arguments. *)
Record Process := mkProcess {
  getpid : Z;
  getenv : string -> option string;
  rand1 : Z;
  rand2 : Z;
  strdup_ok : bool;
}.

Section Calls.
(** The C library's [realloc], and what an uninitialised variable holds. *)
Context (realloc : EggBufferAllocator) (garbage : Z).

Definition set_settings (st : Settings) (c : Client) : Client :=
  mkClient (pkcs11_initialized c) (pkcs11_initialized_pid c) (pkcs11_app_id c)
    (st_socket_path st) (st_tls_psk_key_filename st) (call_state_pool c) (n_call_state_pool c)
    (dials c).
Definition settings (c : Client) : Settings :=
  mkSettings (pkcs11_socket_path c) (tls_psk_key_filename c).
Definition set_app_id (id : Z) (c : Client) : Client :=
  mkClient (pkcs11_initialized c) (pkcs11_initialized_pid c) id
    (pkcs11_socket_path c) (tls_psk_key_filename c) (call_state_pool c) (n_call_state_pool c)
    (dials c).
(** Marks the library as initialized by [pid], or as not initialized. *)
Definition set_initialized (pid : option Z) (c : Client) : Client :=
  mkClient (nonnull pid) (default 0 pid) (pkcs11_app_id c)
    (if nonnull pid then pkcs11_socket_path c else ""%string) (tls_psk_key_filename c)
    (call_state_pool c) (n_call_state_pool c) (dials c).

(** [path && path[0]] *)
Definition nonempty (path : option string) : option string :=
  match path with Some EmptyString => None | _ => path end.

(** The checks of the arguments: [inr rv] is [{ ret = rv; goto done; }]. *)
Definition initialize_args (p : Process) (init_args : option CK_C_INITIALIZE_ARGS) (st : Settings)
    : res (Settings + Z) :=
  match init_args with
  | None => Ok (inl st)
  | Some args =>
      (* ALL supplied function pointers need to have the value either NULL or non-NULL. *)
      let supplied_ok :=
        (negb (CreateMutex args) && negb (DestroyMutex args) && negb (LockMutex args)
         && negb (UnlockMutex args))
        || (CreateMutex args && DestroyMutex args && LockMutex args && UnlockMutex args) in
      if negb supplied_ok then Ok (inr CKR_ARGUMENTS_BAD) else
      (* When the CKF_OS_LOCKING_OK flag isn't set return an error. *)
      if Z.land (ia_flags args) CKF_OS_LOCKING_OK =? 0 then Ok (inr CKR_CANT_LOCK) else
      st ← parse_arguments (strdup_ok p) (pReserved args) st;
      Ok (inl st)
  end.

(** Lookup the socket path, append '.pkcs11' if it is a domain socket; if it
    indicates TLS, make sure [tls_psk_key_filename] is populated. *)
Definition initialize_paths (p : Process) (st : Settings) : Settings + Z :=
  let found :=
    if bool_decide (st_socket_path st = ""%string) then
      match nonempty (getenv p "PKCS11_PROXY_SOCKET") with
      | None => inr CKR_FUNCTION_NOT_SUPPORTED
      | Some path =>
          let path' := match remote_path path with
                       | Some _ => path
                       | None => String.append path ".pkcs11"
                       end in
          inl (mkSettings (snprintf_s (string_bytes path')) (st_tls_psk_key_filename st))
      end
    else inl st in
  match found with
  | inr rv => inr rv
  | inl st =>
      if negb (nonnull (string_strip "tls://" (st_socket_path st))) then inl st else
      let key :=
        if bool_decide (st_tls_psk_key_filename st = ""%string) then
          match nonempty (getenv p "PKCS11_PROXY_TLS_PSK_FILE") with
          | None => ""%string
          | Some path => snprintf_s (string_bytes path)
          end
        else st_tls_psk_key_filename st in
      let st := mkSettings (st_socket_path st) key in
      if bool_decide (key = ""%string) then inr CKR_FUNCTION_NOT_SUPPORTED else inl st
  end.

(** The calls that are not written with the macros: the call is made, and its
    end is not asked for the result.  First what is done on the connection. *)
Definition plain_job (call_id : Z) (write : ST GckRpcMessage bool) : Net CallState Z :=
  ret ← call_prepare realloc call_id;
  if negb (ret =? CKR_OK) then mret ret else
  ok ← net (on_req write);
  if negb ok then mret CKR_HOST_MEMORY else
  call_run realloc.
Definition plain_call (call_id : Z) (write : ST GckRpcMessage bool) : Net Client Z :=
  r ← call_lookup;
  match r with
  | inr rv => mret rv
  | inl cs =>
      '(ret, cs) ← with_call (plain_job call_id write) cs;
      _ ← call_done cs ret;
      mret ret
  end.

Definition rpc_C_Initialize (p : Process) (init_args : option CK_C_INITIALIZE_ARGS)
    : Net Client Z :=
  c ← net get_st;
  args ← net (lift_res (initialize_args p init_args (settings c)));
  ret ← match args with
        | inr rv => mret rv
        | inl st =>
            net (modify (set_settings st));;
            (* This process has called C_Initialize already *)
            if pkcs11_initialized c && (getpid p =? pkcs11_initialized_pid c)
            then mret CKR_CRYPTOKI_ALREADY_INITIALIZED else
            match initialize_paths p st with
            | inr rv => mret rv
            | inl st =>
                net (modify (set_settings st));;
                net (modify (set_app_id (wrap64 (Z.lor (Z.shiftl (rand1 p) 32) (rand2 p)))));;
                (* Call through and initialize the daemon *)
                plain_call GCK_RPC_CALL_C_Initialize
                  (gck_rpc_message_write_byte_array (Some (string_bytes GCK_RPC_HANDSHAKE))
                     GCK_RPC_HANDSHAKE_LEN)
            end
        end;
  (* Mark us as officially initialized *)
  (if ret =? CKR_OK then net (modify (set_initialized (Some (getpid p))))
   else if negb (ret =? CKR_CRYPTOKI_ALREADY_INITIALIZED)
   then net (modify (set_initialized None)) else mret tt);;
  mret ret.

(** [reserved]: the argument is not null. *)
Definition rpc_C_Finalize (reserved : bool) : Net Client Z :=
  c ← net get_st;
  if reserved then mret CKR_ARGUMENTS_BAD else
  if negb (pkcs11_initialized c) then mret CKR_CRYPTOKI_NOT_INITIALIZED else
  _ ← plain_call GCK_RPC_CALL_C_Finalize (mret true);
  (* This should stop all other calls in *)
  net (modify (set_initialized None));;
  mret CKR_OK.

Definition rpc_C_GetInfo (info : option CK_INFO) : Net Client (Z * option CK_INFO) :=
  initialized_or_return info (
  return_val_if_fail (nonnull info) CKR_ARGUMENTS_BAD info (
  CALL realloc GCK_RPC_CALL_C_GetInfo info (
    _ret ← PROCESS_CALL realloc;
    '(_ret, info) ← OUT_INFO info _ret;
    mret (_ret, info)))).

Definition rpc_C_GetSlotList (token_present : Z) (slot_list : option (list Z)) (count : option Z)
    : Net Client (Z * (option (list Z) * option Z)) :=
  initialized_or_return (slot_list, count) (
  return_val_if_fail (nonnull count) CKR_ARGUMENTS_BAD (slot_list, count) (
  CALL realloc GCK_RPC_CALL_C_GetSlotList (slot_list, count) (
    IN_BYTE token_present;;
    IN_ULONG_BUFFER slot_list count;;
    _ret ← PROCESS_CALL realloc;
    '(_ret, (slot_list, count)) ← OUT_ULONG_ARRAY garbage slot_list count _ret;
    mret (_ret, (slot_list, count))))).

Definition rpc_C_GetSlotInfo (id : Z) (info : option CK_SLOT_INFO)
    : Net Client (Z * option CK_SLOT_INFO) :=
  initialized_or_return info (
  return_val_if_fail (nonnull info) CKR_ARGUMENTS_BAD info (
  CALL realloc GCK_RPC_CALL_C_GetSlotInfo info (
    IN_ULONG id;;
    _ret ← PROCESS_CALL realloc;
    '(_ret, info) ← OUT_SLOT_INFO info _ret;
    mret (_ret, info)))).

Definition rpc_C_GetTokenInfo (id : Z) (info : option CK_TOKEN_INFO)
    : Net Client (Z * option CK_TOKEN_INFO) :=
  initialized_or_return info (
  return_val_if_fail (nonnull info) CKR_ARGUMENTS_BAD info (
  CALL realloc GCK_RPC_CALL_C_GetTokenInfo info (
    IN_ULONG id;;
    _ret ← PROCESS_CALL realloc;
    '(_ret, info) ← OUT_TOKEN_INFO info _ret;
    mret (_ret, info)))).

Definition rpc_C_GetMechanismList (id : Z) (mechanism_list : option (list Z)) (count : option Z)
    : Net Client (Z * (option (list Z) * option Z)) :=
  initialized_or_return (mechanism_list, count) (
  return_val_if_fail (nonnull count) CKR_ARGUMENTS_BAD (mechanism_list, count) (
  CALL realloc GCK_RPC_CALL_C_GetMechanismList (mechanism_list, count) (
    IN_ULONG id;;
    IN_ULONG_BUFFER mechanism_list count;;
    _ret ← PROCESS_CALL realloc;
    '(_ret, (mechanism_list, count)) ← OUT_MECHANISM_TYPE_ARRAY garbage mechanism_list count _ret;
    mret (_ret, (mechanism_list, count))))).

Definition rpc_C_GetMechanismInfo (id type : Z) (info : option CK_MECHANISM_INFO)
    : Net Client (Z * option CK_MECHANISM_INFO) :=
  initialized_or_return info (
  return_val_if_fail (nonnull info) CKR_ARGUMENTS_BAD info (
  CALL realloc GCK_RPC_CALL_C_GetMechanismInfo info (
    IN_ULONG id;;
    IN_MECHANISM_TYPE type;;
    _ret ← PROCESS_CALL realloc;
    '(_ret, info) ← OUT_MECHANISM_INFO info _ret;
    mret (_ret, info)))).

Definition rpc_C_InitToken (id : Z) (pin : option block) (pin_len : Z) (label : option block)
    : Net Client (Z * unit) :=
  initialized_or_return tt (
  CALL realloc GCK_RPC_CALL_C_InitToken tt (
    IN_ULONG id;;
    IN_BYTE_ARRAY pin pin_len;;
    IN_SPACE_STRING label 32;;
    _ret ← PROCESS_CALL realloc;
    mret (_ret, tt))).

Definition rpc_C_WaitForSlotEvent (flags : Z) (slot : option Z) : Net Client (Z * option Z) :=
  return_val_if_fail (nonnull slot) CKR_ARGUMENTS_BAD slot (
  CALL realloc GCK_RPC_CALL_C_WaitForSlotEvent slot (
    IN_ULONG flags;;
    _ret ← PROCESS_CALL realloc;
    '(_ret, slot) ← OUT_ULONG slot _ret;
    mret (_ret, slot))).

Definition rpc_C_OpenSession (id flags : Z) (session : option Z) : Net Client (Z * option Z) :=
  initialized_or_return session (
  CALL realloc GCK_RPC_CALL_C_OpenSession session (
    IN_ULONG id;;
    IN_ULONG flags;;
    _ret ← PROCESS_CALL realloc;
    '(_ret, session) ← OUT_ULONG session _ret;
    mret (_ret, session))).

Definition rpc_C_CloseSession (session : Z) : Net Client (Z * unit) :=
  initialized_or_return tt (
  CALL realloc GCK_RPC_CALL_C_CloseSession tt (
    IN_ULONG session;;
    _ret ← PROCESS_CALL realloc;
    mret (_ret, tt))).

Definition rpc_C_CloseAllSessions (id : Z) : Net Client (Z * unit) :=
  initialized_or_return tt (
  CALL realloc GCK_RPC_CALL_C_CloseAllSessions tt (
    IN_ULONG id;;
    _ret ← PROCESS_CALL realloc;
    mret (_ret, tt))).

Definition rpc_C_GetFunctionStatus (session : Z) : Net Client (Z * unit) :=
  initialized_or_return tt (
  CALL realloc GCK_RPC_CALL_C_GetFunctionStatus tt (
    IN_ULONG session;;
    _ret ← PROCESS_CALL realloc;
    mret (_ret, tt))).

Definition rpc_C_CancelFunction (session : Z) : Net Client (Z * unit) :=
  initialized_or_return tt (
  CALL realloc GCK_RPC_CALL_C_CancelFunction tt (
    IN_ULONG session;;
    _ret ← PROCESS_CALL realloc;
    mret (_ret, tt))).

Definition rpc_C_GetSessionInfo (session : Z) (info : option CK_SESSION_INFO)
    : Net Client (Z * option CK_SESSION_INFO) :=
  initialized_or_return info (
  return_val_if_fail (nonnull info) CKR_ARGUMENTS_BAD info (
  CALL realloc GCK_RPC_CALL_C_GetSessionInfo info (
    IN_ULONG session;;
    _ret ← PROCESS_CALL realloc;
    '(_ret, info) ← OUT_SESSION_INFO info _ret;
    mret (_ret, info)))).

Definition rpc_C_InitPIN (session : Z) (pin : option block) (pin_len : Z)
    : Net Client (Z * unit) :=
  initialized_or_return tt (
  CALL realloc GCK_RPC_CALL_C_InitPIN tt (
    IN_ULONG session;;
    IN_BYTE_ARRAY pin pin_len;;
    _ret ← PROCESS_CALL realloc;
    mret (_ret, tt))).

Definition rpc_C_SetPIN (session : Z) (old_pin : option block) (old_pin_len : Z)
    (new_pin : option block) (new_pin_len : Z)
    : Net Client (Z * unit) :=
  initialized_or_return tt (
  CALL realloc GCK_RPC_CALL_C_SetPIN tt (
    IN_ULONG session;;
    IN_BYTE_ARRAY old_pin old_pin_len;;
    IN_BYTE_ARRAY new_pin new_pin_len;;
    _ret ← PROCESS_CALL realloc;
    mret (_ret, tt))).

Definition rpc_C_GetOperationState (session : Z) (operation_state : option block)
    (operation_state_len : option Z)
    : Net Client (Z * (option block * option Z)) :=
  initialized_or_return (operation_state, operation_state_len) (
  CALL realloc GCK_RPC_CALL_C_GetOperationState (operation_state, operation_state_len) (
    IN_ULONG session;;
    IN_BYTE_BUFFER operation_state operation_state_len;;
    _ret ← PROCESS_CALL realloc;
    '(_ret, (operation_state, operation_state_len)) ←
      OUT_BYTE_ARRAY operation_state operation_state_len _ret;
    mret (_ret, (operation_state, operation_state_len)))).

Definition rpc_C_SetOperationState (session : Z) (operation_state : option block)
    (operation_state_len encryption_key authentication_key : Z)
    : Net Client (Z * unit) :=
  initialized_or_return tt (
  CALL realloc GCK_RPC_CALL_C_SetOperationState tt (
    IN_ULONG session;;
    IN_BYTE_ARRAY operation_state operation_state_len;;
    IN_ULONG encryption_key;;
    IN_ULONG authentication_key;;
    _ret ← PROCESS_CALL realloc;
    mret (_ret, tt))).

Definition rpc_C_Login (session user_type : Z) (pin : option block) (pin_len : Z)
    : Net Client (Z * unit) :=
  initialized_or_return tt (
  CALL realloc GCK_RPC_CALL_C_Login tt (
    IN_ULONG session;;
    IN_ULONG user_type;;
    IN_BYTE_ARRAY pin pin_len;;
    _ret ← PROCESS_CALL realloc;
    mret (_ret, tt))).

Definition rpc_C_Logout (session : Z) : Net Client (Z * unit) :=
  initialized_or_return tt (
  CALL realloc GCK_RPC_CALL_C_Logout tt (
    IN_ULONG session;;
    _ret ← PROCESS_CALL realloc;
    mret (_ret, tt))).

Definition rpc_C_CreateObject (session : Z) (template : option (list CK_ATTRIBUTE))
    (count : Z) (new_object : option Z)
    : Net Client (Z * option Z) :=
  initialized_or_return new_object (
  return_val_if_fail (negb (session =? CK_INVALID_HANDLE)) CKR_SESSION_HANDLE_INVALID new_object (
  return_val_if_fail (nonnull template) CKR_ARGUMENTS_BAD new_object (
  return_val_if_fail (nonnull new_object) CKR_ARGUMENTS_BAD new_object (
  CALL realloc GCK_RPC_CALL_C_CreateObject new_object (
    IN_ULONG session;;
    IN_ATTRIBUTE_ARRAY template count;;
    _ret ← PROCESS_CALL realloc;
    '(_ret, new_object) ← OUT_ULONG new_object _ret;
    mret (_ret, new_object)))))).

Definition rpc_C_CopyObject (session object : Z) (template : option (list CK_ATTRIBUTE))
    (count : Z) (new_object : option Z)
    : Net Client (Z * option Z) :=
  initialized_or_return new_object (
  return_val_if_fail (nonnull new_object) CKR_ARGUMENTS_BAD new_object (
  CALL realloc GCK_RPC_CALL_C_CopyObject new_object (
    IN_ULONG session;;
    IN_ULONG object;;
    IN_ATTRIBUTE_ARRAY template count;;
    _ret ← PROCESS_CALL realloc;
    '(_ret, new_object) ← OUT_ULONG new_object _ret;
    mret (_ret, new_object)))).

Definition rpc_C_DestroyObject (session object : Z) : Net Client (Z * unit) :=
  initialized_or_return tt (
  CALL realloc GCK_RPC_CALL_C_DestroyObject tt (
    IN_ULONG session;;
    IN_ULONG object;;
    _ret ← PROCESS_CALL realloc;
    mret (_ret, tt))).

Definition rpc_C_GetObjectSize (session object : Z) (size : option Z)
    : Net Client (Z * option Z) :=
  initialized_or_return size (
  return_val_if_fail (nonnull size) CKR_ARGUMENTS_BAD size (
  CALL realloc GCK_RPC_CALL_C_GetObjectSize size (
    IN_ULONG session;;
    IN_ULONG object;;
    _ret ← PROCESS_CALL realloc;
    '(_ret, size) ← OUT_ULONG size _ret;
    mret (_ret, size)))).

Definition rpc_C_GetAttributeValue (session object : Z) (template : option
    (list CK_ATTRIBUTE)) (count : Z)
    : Net Client (Z * (option (list CK_ATTRIBUTE))) :=
  initialized_or_return template (
  return_val_if_fail (nonnull template) CKR_ARGUMENTS_BAD template (
  CALL realloc GCK_RPC_CALL_C_GetAttributeValue template (
    IN_ULONG session;;
    IN_ULONG object;;
    IN_ATTRIBUTE_BUFFER template count;;
    _ret ← PROCESS_CALL realloc;
    '(_ret, template) ← OUT_ATTRIBUTE_ARRAY garbage template count _ret;
    mret (_ret, template)))).

Definition rpc_C_SetAttributeValue (session object : Z) (template : option
    (list CK_ATTRIBUTE)) (count : Z)
    : Net Client (Z * unit) :=
  initialized_or_return tt (
  CALL realloc GCK_RPC_CALL_C_SetAttributeValue tt (
    IN_ULONG session;;
    IN_ULONG object;;
    IN_ATTRIBUTE_ARRAY template count;;
    _ret ← PROCESS_CALL realloc;
    mret (_ret, tt))).

Definition rpc_C_FindObjectsInit (session : Z) (template : option (list CK_ATTRIBUTE)) (count : Z)
    : Net Client (Z * unit) :=
  initialized_or_return tt (
  CALL realloc GCK_RPC_CALL_C_FindObjectsInit tt (
    IN_ULONG session;;
    IN_ATTRIBUTE_ARRAY template count;;
    _ret ← PROCESS_CALL realloc;
    mret (_ret, tt))).

Definition rpc_C_FindObjects (session : Z) (objects : option (list Z)) (max_count : Z)
    (count : option Z)
    : Net Client (Z * (option (list Z) * option Z)) :=
  initialized_or_return (objects, count) (
  return_val_if_fail (nonnull count) CKR_ARGUMENTS_BAD (objects, count) (
  CALL realloc GCK_RPC_CALL_C_FindObjects (objects, count) (
    IN_ULONG session;;
    IN_ULONG_BUFFER2 objects max_count;;
    _ret ← PROCESS_CALL realloc;
    let count := Some max_count in
    '(_ret, (objects, count)) ← OUT_ULONG_ARRAY garbage objects count _ret;
    mret (_ret, (objects, count))))).

Definition rpc_C_FindObjectsFinal (session : Z) : Net Client (Z * unit) :=
  initialized_or_return tt (
  CALL realloc GCK_RPC_CALL_C_FindObjectsFinal tt (
    IN_ULONG session;;
    _ret ← PROCESS_CALL realloc;
    mret (_ret, tt))).

Definition rpc_C_EncryptInit (session : Z) (mechanism : option CK_MECHANISM) (key : Z)
    : Net Client (Z * unit) :=
  initialized_or_return tt (
  CALL realloc GCK_RPC_CALL_C_EncryptInit tt (
    IN_ULONG session;;
    IN_MECHANISM mechanism;;
    IN_ULONG key;;
    _ret ← PROCESS_CALL realloc;
    mret (_ret, tt))).

Definition rpc_C_Encrypt (session : Z) (data : option block) (data_len : Z)
    (encrypted_data : option block) (encrypted_data_len : option Z)
    : Net Client (Z * (option block * option Z)) :=
  initialized_or_return (encrypted_data, encrypted_data_len) (
  CALL realloc GCK_RPC_CALL_C_Encrypt (encrypted_data, encrypted_data_len) (
    IN_ULONG session;;
    IN_BYTE_ARRAY data data_len;;
    IN_BYTE_BUFFER encrypted_data encrypted_data_len;;
    _ret ← PROCESS_CALL realloc;
    '(_ret, (encrypted_data, encrypted_data_len)) ←
      OUT_BYTE_ARRAY encrypted_data encrypted_data_len _ret;
    mret (_ret, (encrypted_data, encrypted_data_len)))).

Definition rpc_C_EncryptUpdate (session : Z) (part : option block) (part_len : Z)
    (encrypted_part : option block) (encrypted_part_len : option Z)
    : Net Client (Z * (option block * option Z)) :=
  initialized_or_return (encrypted_part, encrypted_part_len) (
  CALL realloc GCK_RPC_CALL_C_EncryptUpdate (encrypted_part, encrypted_part_len) (
    IN_ULONG session;;
    IN_BYTE_ARRAY part part_len;;
    IN_BYTE_BUFFER encrypted_part encrypted_part_len;;
    _ret ← PROCESS_CALL realloc;
    '(_ret, (encrypted_part, encrypted_part_len)) ←
      OUT_BYTE_ARRAY encrypted_part encrypted_part_len _ret;
    mret (_ret, (encrypted_part, encrypted_part_len)))).

Definition rpc_C_EncryptFinal (session : Z) (last_part : option block) (last_part_len : option Z)
    : Net Client (Z * (option block * option Z)) :=
  initialized_or_return (last_part, last_part_len) (
  CALL realloc GCK_RPC_CALL_C_EncryptFinal (last_part, last_part_len) (
    IN_ULONG session;;
    IN_BYTE_BUFFER last_part last_part_len;;
    _ret ← PROCESS_CALL realloc;
    '(_ret, (last_part, last_part_len)) ← OUT_BYTE_ARRAY last_part last_part_len _ret;
    mret (_ret, (last_part, last_part_len)))).

Definition rpc_C_DecryptInit (session : Z) (mechanism : option CK_MECHANISM) (key : Z)
    : Net Client (Z * unit) :=
  initialized_or_return tt (
  CALL realloc GCK_RPC_CALL_C_DecryptInit tt (
    IN_ULONG session;;
    IN_MECHANISM mechanism;;
    IN_ULONG key;;
    _ret ← PROCESS_CALL realloc;
    mret (_ret, tt))).

Definition rpc_C_Decrypt (session : Z) (enc_data : option block) (enc_data_len : Z)
    (data : option block) (data_len : option Z)
    : Net Client (Z * (option block * option Z)) :=
  initialized_or_return (data, data_len) (
  CALL realloc GCK_RPC_CALL_C_Decrypt (data, data_len) (
    IN_ULONG session;;
    IN_BYTE_ARRAY enc_data enc_data_len;;
    IN_BYTE_BUFFER data data_len;;
    _ret ← PROCESS_CALL realloc;
    '(_ret, (data, data_len)) ← OUT_BYTE_ARRAY data data_len _ret;
    mret (_ret, (data, data_len)))).

Definition rpc_C_DecryptUpdate (session : Z) (enc_part : option block) (enc_part_len : Z)
    (part : option block) (part_len : option Z)
    : Net Client (Z * (option block * option Z)) :=
  initialized_or_return (part, part_len) (
  CALL realloc GCK_RPC_CALL_C_DecryptUpdate (part, part_len) (
    IN_ULONG session;;
    IN_BYTE_ARRAY enc_part enc_part_len;;
    IN_BYTE_BUFFER part part_len;;
    _ret ← PROCESS_CALL realloc;
    '(_ret, (part, part_len)) ← OUT_BYTE_ARRAY part part_len _ret;
    mret (_ret, (part, part_len)))).

Definition rpc_C_DecryptFinal (session : Z) (last_part : option block) (last_part_len : option Z)
    : Net Client (Z * (option block * option Z)) :=
  initialized_or_return (last_part, last_part_len) (
  CALL realloc GCK_RPC_CALL_C_DecryptFinal (last_part, last_part_len) (
    IN_ULONG session;;
    IN_BYTE_BUFFER last_part last_part_len;;
    _ret ← PROCESS_CALL realloc;
    '(_ret, (last_part, last_part_len)) ← OUT_BYTE_ARRAY last_part last_part_len _ret;
    mret (_ret, (last_part, last_part_len)))).

Definition rpc_C_DigestInit (session : Z) (mechanism : option CK_MECHANISM)
    : Net Client (Z * unit) :=
  initialized_or_return tt (
  CALL realloc GCK_RPC_CALL_C_DigestInit tt (
    IN_ULONG session;;
    IN_MECHANISM mechanism;;
    _ret ← PROCESS_CALL realloc;
    mret (_ret, tt))).

Definition rpc_C_Digest (session : Z) (data : option block) (data_len : Z)
    (digest : option block) (digest_len : option Z)
    : Net Client (Z * (option block * option Z)) :=
  initialized_or_return (digest, digest_len) (
  CALL realloc GCK_RPC_CALL_C_Digest (digest, digest_len) (
    IN_ULONG session;;
    IN_BYTE_ARRAY data data_len;;
    IN_BYTE_BUFFER digest digest_len;;
    _ret ← PROCESS_CALL realloc;
    '(_ret, (digest, digest_len)) ← OUT_BYTE_ARRAY digest digest_len _ret;
    mret (_ret, (digest, digest_len)))).

Definition rpc_C_DigestUpdate (session : Z) (part : option block) (part_len : Z)
    : Net Client (Z * unit) :=
  initialized_or_return tt (
  CALL realloc GCK_RPC_CALL_C_DigestUpdate tt (
    IN_ULONG session;;
    IN_BYTE_ARRAY part part_len;;
    _ret ← PROCESS_CALL realloc;
    mret (_ret, tt))).

Definition rpc_C_DigestKey (session key : Z) : Net Client (Z * unit) :=
  initialized_or_return tt (
  CALL realloc GCK_RPC_CALL_C_DigestKey tt (
    IN_ULONG session;;
    IN_ULONG key;;
    _ret ← PROCESS_CALL realloc;
    mret (_ret, tt))).

Definition rpc_C_DigestFinal (session : Z) (digest : option block) (digest_len : option Z)
    : Net Client (Z * (option block * option Z)) :=
  initialized_or_return (digest, digest_len) (
  CALL realloc GCK_RPC_CALL_C_DigestFinal (digest, digest_len) (
    IN_ULONG session;;
    IN_BYTE_BUFFER digest digest_len;;
    _ret ← PROCESS_CALL realloc;
    '(_ret, (digest, digest_len)) ← OUT_BYTE_ARRAY digest digest_len _ret;
    mret (_ret, (digest, digest_len)))).

Definition rpc_C_SignInit (session : Z) (mechanism : option CK_MECHANISM) (key : Z)
    : Net Client (Z * unit) :=
  initialized_or_return tt (
  CALL realloc GCK_RPC_CALL_C_SignInit tt (
    IN_ULONG session;;
    IN_MECHANISM mechanism;;
    IN_ULONG key;;
    _ret ← PROCESS_CALL realloc;
    mret (_ret, tt))).

Definition rpc_C_Sign (session : Z) (data : option block) (data_len : Z)
    (signature : option block) (signature_len : option Z)
    : Net Client (Z * (option block * option Z)) :=
  initialized_or_return (signature, signature_len) (
  CALL realloc GCK_RPC_CALL_C_Sign (signature, signature_len) (
    IN_ULONG session;;
    IN_BYTE_ARRAY data data_len;;
    IN_BYTE_BUFFER signature signature_len;;
    _ret ← PROCESS_CALL realloc;
    '(_ret, (signature, signature_len)) ← OUT_BYTE_ARRAY signature signature_len _ret;
    mret (_ret, (signature, signature_len)))).

Definition rpc_C_SignUpdate (session : Z) (part : option block) (part_len : Z)
    : Net Client (Z * unit) :=
  initialized_or_return tt (
  return_val_if_fail (negb (part_len =? 0)) CKR_ARGUMENTS_BAD tt (
  CALL realloc GCK_RPC_CALL_C_SignUpdate tt (
    IN_ULONG session;;
    IN_BYTE_ARRAY part part_len;;
    _ret ← PROCESS_CALL realloc;
    mret (_ret, tt)))).

Definition rpc_C_SignFinal (session : Z) (signature : option block) (signature_len : option Z)
    : Net Client (Z * (option block * option Z)) :=
  initialized_or_return (signature, signature_len) (
  CALL realloc GCK_RPC_CALL_C_SignFinal (signature, signature_len) (
    IN_ULONG session;;
    IN_BYTE_BUFFER signature signature_len;;
    _ret ← PROCESS_CALL realloc;
    '(_ret, (signature, signature_len)) ← OUT_BYTE_ARRAY signature signature_len _ret;
    mret (_ret, (signature, signature_len)))).

Definition rpc_C_SignRecoverInit (session : Z) (mechanism : option CK_MECHANISM) (key : Z)
    : Net Client (Z * unit) :=
  initialized_or_return tt (
  CALL realloc GCK_RPC_CALL_C_SignRecoverInit tt (
    IN_ULONG session;;
    IN_MECHANISM mechanism;;
    IN_ULONG key;;
    _ret ← PROCESS_CALL realloc;
    mret (_ret, tt))).

Definition rpc_C_SignRecover (session : Z) (data : option block) (data_len : Z)
    (signature : option block) (signature_len : option Z)
    : Net Client (Z * (option block * option Z)) :=
  initialized_or_return (signature, signature_len) (
  CALL realloc GCK_RPC_CALL_C_SignRecover (signature, signature_len) (
    IN_ULONG session;;
    IN_BYTE_ARRAY data data_len;;
    IN_BYTE_BUFFER signature signature_len;;
    _ret ← PROCESS_CALL realloc;
    '(_ret, (signature, signature_len)) ← OUT_BYTE_ARRAY signature signature_len _ret;
    mret (_ret, (signature, signature_len)))).

Definition rpc_C_VerifyInit (session : Z) (mechanism : option CK_MECHANISM) (key : Z)
    : Net Client (Z * unit) :=
  initialized_or_return tt (
  CALL realloc GCK_RPC_CALL_C_VerifyInit tt (
    IN_ULONG session;;
    IN_MECHANISM mechanism;;
    IN_ULONG key;;
    _ret ← PROCESS_CALL realloc;
    mret (_ret, tt))).

Definition rpc_C_Verify (session : Z) (data : option block) (data_len : Z)
    (signature : option block) (signature_len : Z)
    : Net Client (Z * unit) :=
  initialized_or_return tt (
  CALL realloc GCK_RPC_CALL_C_Verify tt (
    IN_ULONG session;;
    IN_BYTE_ARRAY data data_len;;
    IN_BYTE_ARRAY signature signature_len;;
    _ret ← PROCESS_CALL realloc;
    mret (_ret, tt))).

Definition rpc_C_VerifyUpdate (session : Z) (part : option block) (part_len : Z)
    : Net Client (Z * unit) :=
  initialized_or_return tt (
  CALL realloc GCK_RPC_CALL_C_VerifyUpdate tt (
    IN_ULONG session;;
    IN_BYTE_ARRAY part part_len;;
    _ret ← PROCESS_CALL realloc;
    mret (_ret, tt))).

Definition rpc_C_VerifyFinal (session : Z) (signature : option block) (signature_len : Z)
    : Net Client (Z * unit) :=
  initialized_or_return tt (
  CALL realloc GCK_RPC_CALL_C_VerifyFinal tt (
    IN_ULONG session;;
    IN_BYTE_ARRAY signature signature_len;;
    _ret ← PROCESS_CALL realloc;
    mret (_ret, tt))).

Definition rpc_C_VerifyRecoverInit (session : Z) (mechanism : option CK_MECHANISM) (key : Z)
    : Net Client (Z * unit) :=
  initialized_or_return tt (
  CALL realloc GCK_RPC_CALL_C_VerifyRecoverInit tt (
    IN_ULONG session;;
    IN_MECHANISM mechanism;;
    IN_ULONG key;;
    _ret ← PROCESS_CALL realloc;
    mret (_ret, tt))).

Definition rpc_C_VerifyRecover (session : Z) (signature : option block) (signature_len : Z)
    (data : option block) (data_len : option Z)
    : Net Client (Z * (option block * option Z)) :=
  initialized_or_return (data, data_len) (
  CALL realloc GCK_RPC_CALL_C_VerifyRecover (data, data_len) (
    IN_ULONG session;;
    IN_BYTE_ARRAY signature signature_len;;
    IN_BYTE_BUFFER data data_len;;
    _ret ← PROCESS_CALL realloc;
    '(_ret, (data, data_len)) ← OUT_BYTE_ARRAY data data_len _ret;
    mret (_ret, (data, data_len)))).

Definition rpc_C_DigestEncryptUpdate (session : Z) (part : option block) (part_len : Z)
    (enc_part : option block) (enc_part_len : option Z)
    : Net Client (Z * (option block * option Z)) :=
  initialized_or_return (enc_part, enc_part_len) (
  CALL realloc GCK_RPC_CALL_C_DigestEncryptUpdate (enc_part, enc_part_len) (
    IN_ULONG session;;
    IN_BYTE_ARRAY part part_len;;
    IN_BYTE_BUFFER enc_part enc_part_len;;
    _ret ← PROCESS_CALL realloc;
    '(_ret, (enc_part, enc_part_len)) ← OUT_BYTE_ARRAY enc_part enc_part_len _ret;
    mret (_ret, (enc_part, enc_part_len)))).

Definition rpc_C_DecryptDigestUpdate (session : Z) (enc_part : option block)
    (enc_part_len : Z) (part : option block) (part_len : option Z)
    : Net Client (Z * (option block * option Z)) :=
  initialized_or_return (part, part_len) (
  CALL realloc GCK_RPC_CALL_C_DecryptDigestUpdate (part, part_len) (
    IN_ULONG session;;
    IN_BYTE_ARRAY enc_part enc_part_len;;
    IN_BYTE_BUFFER part part_len;;
    _ret ← PROCESS_CALL realloc;
    '(_ret, (part, part_len)) ← OUT_BYTE_ARRAY part part_len _ret;
    mret (_ret, (part, part_len)))).

Definition rpc_C_SignEncryptUpdate (session : Z) (part : option block) (part_len : Z)
    (enc_part : option block) (enc_part_len : option Z)
    : Net Client (Z * (option block * option Z)) :=
  initialized_or_return (enc_part, enc_part_len) (
  CALL realloc GCK_RPC_CALL_C_SignEncryptUpdate (enc_part, enc_part_len) (
    IN_ULONG session;;
    IN_BYTE_ARRAY part part_len;;
    IN_BYTE_BUFFER enc_part enc_part_len;;
    _ret ← PROCESS_CALL realloc;
    '(_ret, (enc_part, enc_part_len)) ← OUT_BYTE_ARRAY enc_part enc_part_len _ret;
    mret (_ret, (enc_part, enc_part_len)))).

Definition rpc_C_DecryptVerifyUpdate (session : Z) (enc_part : option block)
    (enc_part_len : Z) (part : option block) (part_len : option Z)
    : Net Client (Z * (option block * option Z)) :=
  initialized_or_return (part, part_len) (
  CALL realloc GCK_RPC_CALL_C_DecryptVerifyUpdate (part, part_len) (
    IN_ULONG session;;
    IN_BYTE_ARRAY enc_part enc_part_len;;
    IN_BYTE_BUFFER part part_len;;
    _ret ← PROCESS_CALL realloc;
    '(_ret, (part, part_len)) ← OUT_BYTE_ARRAY part part_len _ret;
    mret (_ret, (part, part_len)))).

Definition rpc_C_GenerateKey (session : Z) (mechanism : option CK_MECHANISM)
    (template : option (list CK_ATTRIBUTE)) (count : Z) (key : option Z)
    : Net Client (Z * option Z) :=
  initialized_or_return key (
  CALL realloc GCK_RPC_CALL_C_GenerateKey key (
    IN_ULONG session;;
    IN_MECHANISM mechanism;;
    IN_ATTRIBUTE_ARRAY template count;;
    _ret ← PROCESS_CALL realloc;
    '(_ret, key) ← OUT_ULONG key _ret;
    mret (_ret, key))).

Definition rpc_C_GenerateKeyPair (session : Z) (mechanism : option CK_MECHANISM)
    (pub_template : option (list CK_ATTRIBUTE)) (pub_count : Z)
    (priv_template : option (list CK_ATTRIBUTE)) (priv_count : Z) (pub_key priv_key : option Z)
    : Net Client (Z * (option Z * option Z)) :=
  initialized_or_return (pub_key, priv_key) (
  return_val_if_fail (negb (session =? CK_INVALID_HANDLE)) CKR_SESSION_HANDLE_INVALID
    (pub_key, priv_key) (
  return_val_if_fail (nonnull mechanism) CKR_ARGUMENTS_BAD (pub_key, priv_key) (
  return_val_if_fail (nonnull pub_template) CKR_ARGUMENTS_BAD (pub_key, priv_key) (
  return_val_if_fail (nonnull priv_template) CKR_ARGUMENTS_BAD (pub_key, priv_key) (
  return_val_if_fail (nonnull pub_key) CKR_ARGUMENTS_BAD (pub_key, priv_key) (
  return_val_if_fail (nonnull priv_key) CKR_ARGUMENTS_BAD (pub_key, priv_key) (
  CALL realloc GCK_RPC_CALL_C_GenerateKeyPair (pub_key, priv_key) (
    IN_ULONG session;;
    IN_MECHANISM mechanism;;
    IN_ATTRIBUTE_ARRAY pub_template pub_count;;
    IN_ATTRIBUTE_ARRAY priv_template priv_count;;
    _ret ← PROCESS_CALL realloc;
    '(_ret, pub_key) ← OUT_ULONG pub_key _ret;
    '(_ret, priv_key) ← OUT_ULONG priv_key _ret;
    mret (_ret, (pub_key, priv_key)))))))))).

Definition rpc_C_WrapKey (session : Z) (mechanism : option CK_MECHANISM)
    (wrapping_key key : Z) (wrapped_key : option block) (wrapped_key_len : option Z)
    : Net Client (Z * (option block * option Z)) :=
  initialized_or_return (wrapped_key, wrapped_key_len) (
  CALL realloc GCK_RPC_CALL_C_WrapKey (wrapped_key, wrapped_key_len) (
    IN_ULONG session;;
    IN_MECHANISM mechanism;;
    IN_ULONG wrapping_key;;
    IN_ULONG key;;
    IN_BYTE_BUFFER wrapped_key wrapped_key_len;;
    _ret ← PROCESS_CALL realloc;
    '(_ret, (wrapped_key, wrapped_key_len)) ← OUT_BYTE_ARRAY wrapped_key wrapped_key_len _ret;
    mret (_ret, (wrapped_key, wrapped_key_len)))).

Definition rpc_C_UnwrapKey (session : Z) (mechanism : option CK_MECHANISM)
    (unwrapping_key : Z) (wrapped_key : option block) (wrapped_key_len : Z)
    (template : option (list CK_ATTRIBUTE)) (count : Z) (key : option Z)
    : Net Client (Z * option Z) :=
  initialized_or_return key (
  CALL realloc GCK_RPC_CALL_C_UnwrapKey key (
    IN_ULONG session;;
    IN_MECHANISM mechanism;;
    IN_ULONG unwrapping_key;;
    IN_BYTE_ARRAY wrapped_key wrapped_key_len;;
    IN_ATTRIBUTE_ARRAY template count;;
    _ret ← PROCESS_CALL realloc;
    '(_ret, key) ← OUT_ULONG key _ret;
    mret (_ret, key))).

Definition rpc_C_DeriveKey (session : Z) (mechanism : option CK_MECHANISM) (base_key : Z)
    (template : option (list CK_ATTRIBUTE)) (count : Z) (key : option Z)
    : Net Client (Z * option Z) :=
  initialized_or_return key (
  CALL realloc GCK_RPC_CALL_C_DeriveKey key (
    IN_ULONG session;;
    IN_MECHANISM mechanism;;
    IN_ULONG base_key;;
    IN_ATTRIBUTE_ARRAY template count;;
    _ret ← PROCESS_CALL realloc;
    '(_ret, key) ← OUT_ULONG key _ret;
    mret (_ret, key))).

Definition rpc_C_SeedRandom (session : Z) (seed : option block) (seed_len : Z)
    : Net Client (Z * unit) :=
  initialized_or_return tt (
  CALL realloc GCK_RPC_CALL_C_SeedRandom tt (
    IN_ULONG session;;
    IN_BYTE_ARRAY seed seed_len;;
    _ret ← PROCESS_CALL realloc;
    mret (_ret, tt))).

Definition rpc_C_GenerateRandom (session : Z) (random_data : option block) (random_len : Z)
    : Net Client (Z * option block) :=
  initialized_or_return random_data (
  return_val_if_fail (nonnull random_data) CKR_ARGUMENTS_BAD random_data (
  CALL realloc GCK_RPC_CALL_C_GenerateRandom random_data (
    IN_ULONG session;;
    IN_BYTE_BUFFER random_data (Some random_len);;
    _ret ← PROCESS_CALL realloc;
    '(_ret, (random_data, _)) ← OUT_BYTE_ARRAY2 random_data random_len _ret;
    mret (_ret, random_data)))).
End Calls.
