(* ===== verification/ClientSpecs.v ===== *)
(** gck-rpc-module.c, what holds of a call on its way: the request that is put
    together, the dialog with the daemon, and the response that is taken apart. *)
From S2P Require Import Prelude EggBuffer Pkcs11 RpcUtil Calls Message Transport Client.
From S2P Require Import ClientProto.

(** ** What the daemon may send *)

(** A response the library gets along with: it is not empty, and when it is that
    of a call it has a signature, whichever. *)
Definition sane (r : list Z) : Prop :=
  r <> [] /\
  (0 < first_id r < GCK_RPC_CALL_MAX ->
   exists v rest, drop 4 r = enc_byte_array v ++ rest
     /\ forall bs, v = Some bs -> zlen bs < 2147483647).

(** Every message in the bytes to come is such a response; behind the last one there
    may be anything that is not a whole message. *)
Definition sane_stream (inc : list Z) : Prop :=
  forall rs rest, Forall (fun r => is_u32 (zlen r)) rs -> inc = concat (map frame rs) ++ rest ->
    Forall sane rs.

Lemma sane_stream_frame r rest :
  is_u32 (zlen r) -> sane_stream (frame r ++ rest) -> sane r /\ sane_stream rest.
Proof.
  intros Hr H. split.
  - specialize (H [r] rest ltac:(by constructor)). cbn [map concat] in H. rewrite app_nil_r in H.
    by apply Forall_cons in H as [? _].
  - intros rs rest' Hrs ->. specialize (H (r :: rs) rest' ltac:(by constructor)). cbn [map concat] in H.
    rewrite (assoc_L app) in H. by apply Forall_cons in H as [_ ?].
Qed.

(** The length of a message, and the message, can be told from the bytes. *)
Lemma frame_inj r r' rest rest' :
  is_u32 (zlen r) -> is_u32 (zlen r') -> frame r ++ rest = frame r' ++ rest' ->
  r = r' /\ rest = rest'.
Proof.
  intros Hr Hr'. unfold frame. rewrite !wrap32_id by done. rewrite <- !(assoc_L app).
  intros [Hlen H]%app_inj_1; [|done].
  apply (f_equal egg_buffer_decode_uint32) in Hlen. rewrite !decode_encode_uint32 in Hlen by done.
  apply app_inj_1 in H; [done|]. unfold zlen in Hlen. lia.
Qed.

Lemma sane_frames rs tail :
  Forall (fun r => sane r /\ is_u32 (zlen r)) rs -> zlen tail < 4 ->
  sane_stream (concat (map frame rs) ++ tail).
Proof.
  intros Hrs Ht. induction Hrs as [|r rs [Hr Hz] _ IH]; intros [|r' rs'] rest Hz' Heq; try done;
    apply Forall_cons in Hz' as [Hz' Hzs']; cbn [map concat app] in Heq.
  - apply (f_equal zlen) in Heq. rewrite !zlen_app, zlen_frame in Heq.
    pose proof (zlen_nonneg r'). pose proof (zlen_nonneg (concat (map frame rs'))).
    pose proof (zlen_nonneg rest). lia.
  - rewrite <- !(assoc_L app) in Heq. apply frame_inj in Heq as [<- Heq]; [|done..].
    constructor; [done|]. by apply (IH rs' rest).
Qed.

(** What the daemon sends is sane. *)
Lemma sane_header id sig payload :
  is_u32 id -> (id = GCK_RPC_CALL_ERROR \/ exists s, sig = Some s /\ strlen s < 2147483647) ->
  sane (header id sig ++ payload).
Proof.
  intros Hid Hsig. unfold header. rewrite <- (assoc_L app).
  pose proof (zlen_enc_uint32 id) as Hz. assert (length (enc_uint32 id) = 4%nat) as Hl by (unfold zlen in Hz; lia).
  split.
  - intros H. apply (f_equal length) in H. rewrite length_app, Hl in H. done.
  - unfold first_id. rewrite take_app_length', drop_app_length' by done.
    unfold enc_uint32. rewrite decode_encode_uint32, wrap32_id by (done || apply wrap32_range).
    destruct Hsig as [->|(s & -> & Hs)]; [unfold GCK_RPC_CALL_ERROR; lia|].
    intros _. exists (Some (string_bytes s)), payload. split; [done|].
    intros bs [= <-]. by rewrite zlen_string_bytes.
Qed.

(** The next message, if it is whole, is not empty. *)
Definition not_empty_next (inc : list Z) : Prop := forall rest, inc <> frame [] ++ rest.

Lemma sane_not_empty inc : sane_stream inc -> not_empty_next inc.
Proof. intros H rest ->. by destruct (sane_stream_frame [] rest ltac:(done) H) as [[? _] _]. Qed.

(** ** Parsing a response *)

Section Parsing.
Context (realloc : EggBufferAllocator).

Definition message_ok (m : GckRpcMessage) : Prop :=
  buffer_ok (buffer m) /\ eb_allocator (buffer m) = Some realloc.

(** A response that was parsed is taken for an error, whose code has no signature,
    or is that of a call, with the signature the table has for it. *)
Definition parsed_response (m : GckRpcMessage) : Prop :=
  msg_ok m /\ eb_allocator (buffer m) = Some realloc /\
  (call_id m = GCK_RPC_CALL_ERROR /\ signature m = None \/
   0 < call_id m < GCK_RPC_CALL_MAX /\ eb_failures (buffer m) = 0 /\
   exists c s, gck_rpc_call (call_id m) = Ok c /\ c_response c = Some s /\ signed m s).

(** The call id of fewer than four bytes cannot be read. *)
Lemma short_id_wp m :
  buffer_ok (buffer m) -> eb_len (buffer m) < 4 ->
  wp (msg_get egg_buffer_get_uint32)
    (fun r m' => r = None /\ reading (set_parsed 0 m) m') (set_parsed 0 m).
Proof.
  intros Hb Hl.
  assert (wp (msg_get egg_buffer_get_uint32) (fun r _ => r = None) (set_parsed 0 m)) as Hnone.
  { apply wp_bind, wp_gets, wp_bind, wp_zoom.
    eapply wp_mono; [apply (read_at_wp 4 egg_buffer_decode_uint32 0 (buffer m)); [done|lia..]|].
    intros r b Hr. unfold read_result in Hr. rewrite (proj2 (Z.leb_gt _ _)) in Hr by lia.
    destruct Hr as [-> _]. by apply wp_ret. }
  eapply wp_mono; [apply wp_and; [exact Hnone|by apply first_id_wp]|].
  by intros r m' [-> [Hm _]].
Qed.

(** The call id of four bytes or more. *)
Lemma long_id m :
  buffer_ok (buffer m) -> 4 <= eb_len (buffer m) ->
  let m' := set_parsed 4 m in
  msg_get egg_buffer_get_uint32 (set_parsed 0 m) = Ok (Some (first_id (contents (buffer m))), m')
  /\ msg_ok m' /\ unread m' = drop 4 (contents (buffer m)).
Proof.
  intros Hb Hl. pose proof (contents_len _ Hb) as Hlen. pose proof (contents_bytes _ Hb) as Hbytes.
  assert (is_u32 (first_id (contents (buffer m)))) as Hid by apply decode_uint32_range.
  destruct (msg_get_reads _ _ _ (get_uint32_reads _ Hid) (set_parsed 0 m) (drop 4 (contents (buffer m))))
    as (Hrun & Hm & Hu).
  - by apply msg_ok_start.
  - unfold unread, rest_at, enc_uint32, first_id. cbn [buffer parsed set_parsed].
    change (Z.to_nat 0) with O. rewrite drop_0, wrap32_id by apply Hid.
    rewrite encode_decode_uint32; [by rewrite take_drop|by apply Forall_take|].
    apply (zlen_take _ 4). lia.
  - rewrite zlen_enc_uint32 in *. done.
Qed.

(** The state messages are in before they are parsed. *)
Definition blank (m : GckRpcMessage) : Prop :=
  call_id m = 0 /\ signature m = None /\ sigverify m = None /\ eb_failures (buffer m) = 0.

Lemma parse_response_wp m :
  message_ok m -> blank m -> sane (contents (buffer m)) ->
  wp (gck_rpc_message_parse GCK_RPC_RESPONSE) (fun _ m' => parsed_response m') m.
Proof.
  intros [Hb Hal] (Hid & Hsig & Hsv & Hf) [_ Hsane]. unfold gck_rpc_message_parse.
  apply wp_bind, wp_modify. pose proof (msg_ok_start m Hb) as Hm0.
  destruct (Z.ltb_spec (eb_len (buffer m)) 4) as [Hl|Hl].
  { eapply wp_call; [by apply short_id_wp|]. intros r m1 [-> Hr]. apply wp_ret.
    pose proof (reading_ok _ _ Hm0 Hr) as Hm1. destruct Hr as (b & n & -> & _ & _ & _ & Ha & _).
    split; [done|]. split; [by cbn; rewrite Ha|]. by left. }
  destruct (long_id m Hb Hl) as (Hrun & Hm1 & Hu). apply wp_bind. eapply wp_intro; [exact Hrun|].
  apply wp_bind, wp_modify. set (id := first_id _) in *.
  destruct (Z.eqb_spec id GCK_RPC_CALL_ERROR) as [|Hne]; [by apply wp_ret; split_and!; auto|].
  destruct ((id <=? 0) || (GCK_RPC_CALL_MAX <=? id)) eqn:Erange; [by apply wp_ret; split_and!; auto|].
  apply orb_false_iff in Erange as [E1%Z.leb_gt E2%Z.leb_gt].
  destruct (gck_rpc_call_ok id) as (c & Hc & _ & Hcs); [lia|].
  destruct (Hcs E1) as [_ [s Hs]]. apply wp_bind. eapply wp_lift_res; [exact Hc|].
  cbv zeta. cbn [call_signature]. rewrite Hs. apply wp_bind, wp_modify. set (m2 := set_sigverify _ _).
  destruct (Hsane (conj E1 E2)) as (v & rest & Hv & Hsmall).
  assert (msg_ok m2) as Hm2 by exact Hm1. assert (unread m2 = enc_byte_array v ++ rest) as Hu2
    by (by transitivity (unread (set_parsed 4 m)); [|rewrite Hu]).
  destruct (msg_get_reads _ _ _ (get_byte_array_reads v Hsmall) m2 rest Hm2 Hu2) as (Hrun2 & Hm3 & _).
  apply wp_bind. eapply wp_intro; [exact Hrun2|].
  assert (byte_array_ok (byte_array_value v)) as Hv'.
  { destruct v as [bs|]; [|done]. split; [done|]. split; [|by apply Hsmall].
    assert (bytes (drop 4 (contents (buffer m)))) as Hby by (apply Forall_drop; by apply contents_bytes).
    rewrite Hv in Hby. by apply Forall_app in Hby as [[_ Hby]%Forall_app _]. }
  apply signature_check_wp; [by destruct v|]. intros r. split; [done|]. split; [done|]. right.
  split; [cbn; lia|]. split; [done|]. exists c, s. by split_and!.
Qed.
End Parsing.

(** ** The dialog with the daemon *)

Section Connection.
(** Whether the network is known to carry the whole dialog: then the library does
    not block in it. *)
Context (reliable : bool).

Abbreviation unreliable := (fun _ : CallState => reliable = false).

(** Only the connection was used. *)
Definition only_conn (cs cs' : CallState) : Prop :=
  req cs' = req cs /\ resp cs' = resp cs /\ call_status cs' = call_status cs
  /\ cn_transport (conn cs') = cn_transport (conn cs).

Lemma only_conn_trans cs cs1 cs2 : only_conn cs cs1 -> only_conn cs1 cs2 -> only_conn cs cs2.
Proof. unfold only_conn. intuition congruence. Qed.

Lemma runs_on_connection {A} (m : Net Conn A) (Q : A -> Conn -> Prop) cs :
  wp m (fun r c => match r with Some a => Q a c | None => reliable = false end) (conn cs) ->
  runs unreliable (on_connection m) (fun a cs' => cs' = set_conn (conn cs') cs /\ Q a (conn cs')) cs.
Proof.
  intros Hm. unfold runs, on_connection. apply wp_zoom. eapply wp_mono; [exact Hm|].
  by intros [a|] c H.
Qed.

(** The error that has [call_done] give the connection up. *)
Definition given_up (ret : Z) : Prop := ret = CKR_DEVICE_ERROR /\ reliable = false.

Lemma call_write_runs data n cs :
  0 < zlen data -> socket cs <> -1 -> 0 <= n ->
  (reliable = true -> willing (zlen data + n) (conn cs)) ->
  runs unreliable (call_write data) (fun ret cs' => only_conn cs cs' /\
    cn_recv (conn cs') = cn_recv (conn cs) /\
    (ret = CKR_OK /\ socket cs' = socket cs /\ sent_over (conn cs) data (conn cs')
       /\ (reliable = true -> willing n (conn cs'))
     \/ given_up ret)) cs.
Proof.
  intros Hd Hs Hn Hrel. unfold call_write. apply runs_assert; [by apply Z.ltb_lt|].
  apply runs_get. rewrite (proj2 (Z.eqb_neq _ _)) by done.
  eapply runs_then.
  { apply (runs_on_connection _ (fun e c => cn_transport c = cn_transport (conn cs)
      /\ cn_recv c = cn_recv (conn cs)
      /\ (e = Complete -> sent_over (conn cs) data c)
      /\ (reliable = true -> e = Complete /\ willing n c))).
    assert (wp (write_data data) (fun r c => reliable = true -> r = Some Complete /\ willing n c)
      (conn cs)) as Hw.
    { destruct reliable; [eapply wp_mono; [apply (write_data_willing data n); auto|auto]|].
      eapply wp_mono; [apply write_data_wp|done]. }
    eapply wp_mono; [apply wp_and; [apply write_data_wp|apply wp_and; [apply write_data_sent|exact Hw]]|].
    intros [e|] c [(Ht & Hr & _) [Hsent Hc]].
    - split_and!; try done; [by intros ->; apply Hsent|].
      intros Hre. by destruct (Hc Hre) as [[= ->] ?].
    - destruct reliable; [by destruct (Hc eq_refl)|done]. }
  intros e cs' [-> (Ht & Hr & Hw & Hc)]. cbn [conn set_conn] in *. destruct e.
  - apply runs_ret. split; [done|]. split; [done|]. left. split_and!; auto.
    intros Hre. by apply Hc.
  - apply runs_modify, runs_ret. split; [done|]. split; [done|]. right. split; [done|].
    destruct reliable; [by destruct (Hc eq_refl)|done].
  - apply runs_ret. split; [done|]. split; [done|]. right. split; [done|].
    destruct reliable; [by destruct (Hc eq_refl)|done].
Qed.

Lemma call_read_runs data cs :
  0 < zlen data -> socket cs <> -1 ->
  (reliable = true -> zlen data <= zlen (incoming (conn cs))) ->
  runs unreliable (call_read data) (fun r cs' => only_conn cs cs' /\
    sent_over (conn cs) [] (conn cs') /\
    (r.1 = CKR_OK /\ socket cs' = socket cs /\ zlen data <= zlen (incoming (conn cs))
       /\ r.2 = take (length data) (incoming (conn cs))
       /\ incoming (conn cs') = drop (length data) (incoming (conn cs))
     \/ given_up r.1 /\ r.2 = overwritten data (incoming (conn cs)))) cs.
Proof.
  intros Hd Hs Hrel. unfold call_read. apply runs_assert; [by apply Z.ltb_lt|].
  apply runs_get. rewrite (proj2 (Z.eqb_neq _ _)) by done.
  eapply runs_then.
  { apply (runs_on_connection _ (fun r c => cn_transport c = cn_transport (conn cs)
      /\ sent_over (conn cs) [] c /\ r.2 = overwritten data (incoming (conn cs))
      /\ (if bool_decide (r.1 = Complete) then zlen data <= zlen (incoming (conn cs))
            /\ incoming c = drop (length data) (incoming (conn cs))
          else reliable = false))).
    eapply wp_mono; [apply read_data_wp|]. intros [[e bs]|] c (Ht & Hsd & Hw & Hr).
    - pose proof (sent_over_nothing _ _ Hw Hsd).
      destruct Hr as [-> Hr]. split_and!; try done. cbn [fst].
      destruct (bool_decide (e = Complete)); [by destruct Hr as (? & ? & _)|].
      destruct reliable; [|done]. destruct Hr. specialize (Hrel eq_refl). lia.
    - destruct reliable; [|done]. destruct Hr. specialize (Hrel eq_refl). lia. }
  intros [e bs] cs' [-> (Ht & Hw & Hbs & Hc)]. cbn [fst snd conn set_conn] in *. subst bs.
  destruct e; [rewrite bool_decide_true in Hc by done|rewrite bool_decide_false in Hc by done..].
  - destruct Hc as [Hl Hi]. apply runs_ret. split; [done|]. split; [done|]. left. split_and!; try done.
    cbn. by apply overwritten_all.
  - apply runs_modify, runs_ret. split; [done|]. split; [done|]. by right.
  - apply runs_ret. split; [done|]. split; [done|]. by right.
Qed.
End Connection.

(** A function on the buffer of a message. *)
Lemma runs_lift_buffer {S A C} B (op : ST EggBuffer C) (k : C * GckRpcMessage -> Net S A) P Q m s :
  wp op P (buffer m) -> (forall c b, P c b -> runs B (k (c, set_buffer b m)) Q s) ->
  runs B (net (lift_res (on_buffer op m)) ≫= k) Q s.
Proof.
  intros Hop Hk. apply wp_inv in Hop as (c & b & Hrun & Hc). unfold on_buffer, zoom.
  rewrite Hrun. by apply Hk.
Qed.

Section Dialog.
Context (realloc : EggBufferAllocator) (Hmem : gives_memory realloc).
Context (reliable : bool).

Abbreviation unreliable := (fun _ : CallState => reliable = false).
Abbreviation given_up := (given_up reliable).

(** The whole of a message is to come. *)
Definition announced (inc : list Z) : Prop := exists r rest, is_u32 (zlen r) /\ inc = frame r ++ rest.

Abbreviation message_ok := (message_ok realloc).
Abbreviation parsed_response := (parsed_response realloc).

Lemma message_ok_set_buffer b m :
  buffer_ok b -> eb_allocator b = Some realloc -> message_ok (set_buffer b m).
Proof. done. Qed.

(** [r] is what the bytes [reply] are parsed to. *)
Definition response_of (reply : list Z) (r : GckRpcMessage) : Prop :=
  exists m ok, message_ok m /\ blank m /\ contents (buffer m) = reply
    /\ gck_rpc_message_parse GCK_RPC_RESPONSE m = Ok (ok, r).

Lemma response_parsed reply r : response_of reply r -> sane reply -> parsed_response r.
Proof.
  intros (m & ok & Hm & Hb & <- & Hrun) Hs. pose proof (parse_response_wp realloc m Hm Hb Hs) as Hw.
  unfold wp in Hw. by rewrite Hrun in Hw.
Qed.

(** The dialog: it gets a whole response, or fails with the error that makes
    [call_done] give the connection up. *)
Definition dialog_post (q : GckRpcMessage) (cs : CallState) (r : Z * GckRpcMessage)
    (cs' : CallState) : Prop :=
  only_conn cs cs' /\ message_ok r.2 /\
  (r.1 = CKR_OK /\ socket cs' = socket cs
     /\ sent_over (conn cs) (frame (contents (buffer q))) (conn cs')
     /\ (exists reply, is_u32 (zlen reply)
           /\ incoming (conn cs) = frame reply ++ incoming (conn cs') /\ response_of reply r.2)
   \/ given_up r.1).

Lemma dialog_failed q cs ret m cs' :
  only_conn cs cs' -> message_ok m -> given_up ret -> dialog_post q cs (ret, m) cs'.
Proof. intros. split; [done|]. split; [done|]. by right. Qed.

(** What [announced] means for the two reads. *)
Lemma announced_lengths inc :
  announced inc -> 4 <= zlen inc /\ egg_buffer_decode_uint32 (take 4 inc) <= zlen (drop 4 inc).
Proof.
  intros (r & rest & Hr & ->). unfold frame. rewrite wrap32_id by done.
  pose proof (zlen_encode_uint32 (zlen r)) as Hz. pose proof (zlen_nonneg rest).
  assert (length (egg_buffer_encode_uint32 (zlen r)) = 4%nat) as Hl
    by (revert Hz; generalize (egg_buffer_encode_uint32 (zlen r)); unfold zlen; lia).
  rewrite <- (assoc_L app), take_app_length', drop_app_length' by done.
  rewrite decode_encode_uint32 by done. rewrite !zlen_app.
  pose proof (zlen_nonneg r). lia.
Qed.

(** The second half, in which the response is received. *)
Lemma receive_response_runs q resp buf cs0 cs :
  message_ok resp -> blank resp -> eb_len (buffer resp) = 0 ->
  zlen buf = 4 -> socket cs <> -1 -> bytes (incoming (conn cs)) -> not_empty_next (incoming (conn cs)) ->
  only_conn cs0 cs -> incoming (conn cs0) = incoming (conn cs) -> socket cs = socket cs0 ->
  sent_over (conn cs0) (frame (contents (buffer q))) (conn cs) ->
  (reliable = true -> announced (incoming (conn cs))) ->
  runs unreliable
    ('(ret, buf) ← call_read buf;
     if negb (ret =? CKR_OK) then mret (ret, resp) else
     let len := egg_buffer_decode_uint32 buf in
     '(ok, resp) ← net (lift_res
        (on_buffer (egg_buffer_reserve (wrap64 (len + eb_len (buffer resp)))) resp));
     if negb ok then mret (CKR_HOST_MEMORY, resp) else
     room ← net (lift_res (buffer_room (buffer resp) len));
     '(ret, data) ← call_read room;
     '(_, resp) ← net (lift_res (on_buffer (store 0 data) resp));
     if negb (ret =? CKR_OK) then mret (ret, resp) else
     '(_, resp) ← net (lift_res (on_buffer (egg_buffer_add_empty len) resp));
     '(_, resp) ← net (lift_res (gck_rpc_message_parse GCK_RPC_RESPONSE resp));
     mret (ret, resp)) (dialog_post q cs0) cs.
Proof.
  intros [Hb Ha] (Hid & Hsig & Hsv & Hf) Hl Hzb Hs Hby Hsane Hoc Hinc Hs0 Hsent Hrel.
  eapply runs_then; [apply (call_read_runs reliable); [by rewrite Hzb|done|]|].
  { intros Hre. rewrite Hzb. apply announced_lengths. auto. }
  intros [ret buf1] cs1 (Hoc1 & Hsent1 & [(Hret & Hs1 & Hl4 & Hbuf & Hinc1)|[[Hret Hre] _]]);
    cbn [fst snd] in *; subst ret; cbn [Z.eqb negb CKR_OK CKR_DEVICE_ERROR];
    [|by apply runs_ret, dialog_failed; [eapply only_conn_trans| |]].
  pose proof (only_conn_trans _ _ _ Hoc Hoc1) as Hoc'.
  replace (length buf) with 4%nat in * by (unfold zlen in Hzb; lia). rewrite Hzb in Hl4.
  set (n := egg_buffer_decode_uint32 buf1). cbv zeta. subst buf1.
  pose proof (decode_uint32_range (take 4 (incoming (conn cs)))) as Hn. fold n in Hn.
  rewrite Hl, Z.add_0_r, wrap64_id by lia.
  eapply runs_lift_buffer; [by apply (reserve_gives realloc)|].
  intros ok b1 (-> & Hb1 & Hl1 & _ & Ha1 & Hf1 & Hn1). cbn [negb].
  eapply runs_lift_res; [by apply buffer_room_ok; [done|cbn; lia]|].
  set (room := slice _ 0 n).
  assert (zlen room = n) as Hroom by (apply zlen_slice; cbn; pose proof (bo_size _ Hb1); lia).
  assert (0 < n) as Hpos.
  { destruct (Z.lt_total 0 n) as [?|[He|?]]; [done| |lia]. exfalso.
    pose proof (frame_split (incoming (conn cs)) n (drop 4 (incoming (conn cs))) Hby Hl4 eq_refl) as Hsp.
    rewrite <- He in Hsp. specialize (Hsp (zlen_nonneg _) eq_refl). by eapply Hsane. }
  eapply runs_then; [apply (call_read_runs reliable); [by rewrite Hroom|by rewrite Hs1|]|].
  { intros Hre. rewrite Hroom, Hinc1. unfold n. apply announced_lengths. auto. }
  intros [ret data] cs2 (Hoc2 & Hsent2 & Hr). cbn [fst snd] in *. rewrite Hinc1 in Hr.
  assert (zlen data = n /\ bytes data) as [Hdata Hdby].
  { assert (bytes (drop 4 (incoming (conn cs)))) by by apply Forall_drop.
    destruct Hr as [(_ & _ & Hle & -> & _)|[_ ->]].
    - clear Hrel. rewrite Hroom in Hle. split; [|by apply Forall_take].
      transitivity (zlen (take (Z.to_nat n) (drop 4 (incoming (conn cs))))); [|by apply zlen_take; lia].
      do 2 f_equal. unfold zlen in Hroom. lia.
    - split; [by rewrite zlen_overwritten|]. apply overwritten_bytes; [|done].
      by apply slice_bytes, Hb1. }
  eapply runs_lift_buffer; [apply store_received; cbn; [done|lia|done]|].
  intros [] b2 (Hb2 & Hl2 & Ha2 & Hf2 & Ht2). cbn [buffer set_buffer] in *.
  assert (message_ok (set_buffer b2 (set_buffer b1 resp))) as Hm2 by (split; [done|cbn; congruence]).
  pose proof (only_conn_trans _ _ _ Hoc' Hoc2) as Hoc2'.
  destruct Hr as [(-> & Hs2 & Hle & Hdt & Hinc2)|[[-> Hre] _]]; cbn [Z.eqb negb CKR_OK CKR_DEVICE_ERROR];
    [|by apply runs_ret, dialog_failed].
  rewrite <- Hdata at 1. eapply runs_lift_buffer; [apply (add_empty_gives realloc); cbn; (done || congruence || lia)|].
  intros v b3 (Hb3 & Hc3 & Ha3 & Hf3). cbn [buffer set_buffer] in *.
  assert (length room = Z.to_nat n) as Hlr by (unfold zlen in Hroom; lia). rewrite Hlr in *.
  pose proof (frame_split (incoming (conn cs)) n _ Hby Hl4 eq_refl ltac:(lia) eq_refl) as Hsp.
  rewrite <- Hinc2, <- Hdt in Hsp.
  set (m := set_buffer b3 _).
  assert (message_ok m) as Hm by done.
  assert (blank m) as Hbl by (split_and!; cbn; (done || congruence)).
  destruct (wp_inv _ _ _ (parse_wp GCK_RPC_RESPONSE m (proj1 Hm))) as (v' & m3 & Hrun & [Hb4 _] & Ha4 & _).
  eapply runs_lift_res; [exact Hrun|].
  apply runs_ret. split; [done|]. split; [split; [done|cbn in *; congruence]|].
  left. split; [done|]. split; [congruence|].
  split; [by eapply sent_over_then; [eapply sent_over_then|]|]. exists data. split; [by rewrite Hdata|].
  split; [by rewrite Hinc|]. by exists m, v'.
Qed.

Lemma dialog_runs q resp cs :
  buffer_ok (buffer q) -> 0 < eb_len (buffer q) ->
  message_ok resp -> blank resp -> eb_len (buffer resp) = 0 ->
  socket cs <> -1 -> bytes (incoming (conn cs)) -> not_empty_next (incoming (conn cs)) ->
  (reliable = true -> willing (4 + eb_len (buffer q)) (conn cs) /\ announced (incoming (conn cs))) ->
  runs unreliable (dialog q resp) (dialog_post q cs) cs.
Proof.
  intros Hq Hpos Hm Hbl Hl Hs Hby Hsane Hrel. unfold dialog. cbv zeta.
  pose proof (zlen_encode_uint32 (wrap32 (eb_len (buffer q)))) as Hz.
  set (buf := egg_buffer_encode_uint32 _) in *.
  eapply runs_then; [apply (call_write_runs reliable buf (eb_len (buffer q))); [lia|done|lia|]|].
  { intros Hre. rewrite Hz. by apply Hrel. }
  intros ret cs1 (Hoc1 & Hr1 & [(-> & Hs1 & Hw1 & Hwl1)|[-> Hre]]);
    cbn [Z.eqb negb CKR_OK CKR_DEVICE_ERROR]; [|by apply runs_ret, dialog_failed].
  eapply runs_lift_res; [by apply buffer_room_ok; [|pose proof (bo_len _ Hq); lia]|].
  assert (slice (bmem (buffer q)) 0 (eb_len (buffer q)) = contents (buffer q)) as -> by done.
  pose proof (contents_len _ Hq) as Hcl.
  eapply runs_then; [apply (call_write_runs reliable (contents (buffer q)) 0); [lia|by rewrite Hs1|done|]|].
  { intros Hre. rewrite Hcl, Z.add_0_r. by apply Hwl1. }
  intros ret cs2 (Hoc2 & Hr2 & [(-> & Hs2 & Hw2 & _)|[-> Hre]]);
    cbn [Z.eqb negb CKR_OK CKR_DEVICE_ERROR];
    [|by apply runs_ret, dialog_failed; [eapply only_conn_trans| |]].
  assert (incoming (conn cs2) = incoming (conn cs)) as Hinc.
  { unfold incoming. destruct Hoc1 as (_ & _ & _ & Ht1), Hoc2 as (_ & _ & _ & Ht2). congruence. }
  apply (receive_response_runs q resp buf cs cs2); rewrite ?Hinc; try done.
  - congruence.
  - by eapply only_conn_trans.
  - congruence.
  - unfold frame. rewrite Hcl. by eapply sent_over_app.
  - intros Hre. by apply Hrel.
Qed.
End Dialog.
