(* ===== verification/ClientReads.v ===== *)
(** gck-rpc-module.c, what the [proto_read_] functions of the client library
    promise: whatever the response holds, they return, and store only inside the
    objects of the caller. *)
From S2P Require Import Prelude EggBuffer Pkcs11 RpcUtil Calls Message Transport Client.
From S2P Require Import ClientProto.

(** A reader of the piece [s] of the signature: it stays in the message, and if it
    returns [CKR_OK] it has read the piece, and the results satisfy [P]. *)
Definition reads_piece_as {A} (P : A -> Prop) (s : string) (m : ST GckRpcMessage (Z * A)) : Prop :=
  forall r q q', msg_ok r -> signed r q -> string_strip s q = Some q' ->
    wp m (fun v r' => buffer_ok (buffer r') /\ eb_allocator (buffer r') = eb_allocator (buffer r)
      /\ (v.1 = CKR_OK -> msg_ok r' /\ signed r' q' /\ P v.2)) r.

Definition any {A} (_ : A) : Prop := True.
Abbreviation reads_piece := (reads_piece_as any).

(** The reader of a single value. *)
Lemma msg_ok_alloc r r' :
  msg_ok r -> reading r r' ->
  msg_ok r' /\ buffer_ok (buffer r') /\ eb_allocator (buffer r') = eb_allocator (buffer r)
  /\ signature r' = signature r /\ sigverify r' = sigverify r.
Proof.
  intros Hr Hread. pose proof (reading_ok _ _ Hr Hread) as Hok.
  destruct Hread as (b & n & -> & Hb & _ & _ & Ha & _). by split_and!.
Qed.

(** ** Structures *)

(** One field: it is read off the response, and stored in the structure. *)
Definition field_of {R} (s : string) (f : R -> ST GckRpcMessage (option R)) : Prop :=
  forall info, receives s (fun _ => True) (f info).

Lemma field_receives {R A} s (P : A -> Prop) rd (set : A -> R -> R) :
  receives s P rd -> field_of s (field rd set).
Proof.
  intros Hrd info m q Hm Ht. unfold field. eapply wp_call; [by apply (Hrd m q)|].
  intros v m' [Hr _]. by apply wp_ret.
Qed.

Lemma read_fields_piece {R} sigs (fields : list (R -> ST GckRpcMessage (option R))) info :
  Forall2 field_of sigs fields ->
  reads_piece (foldr String.append EmptyString sigs) (read_fields fields info).
Proof.
  intros Hf. revert info. induction Hf as [|s f sigs fields Hf _ IH]; intros info r q q' Hr Hs Hq;
    cbn [foldr read_fields] in *.
  { apply wp_ret. pose proof Hr as [Hb Hp]. cbn in Hq. injection Hq as <-. by split_and!. }
  apply string_strip_app2 in Hq as (t & Ht & Hq).
  eapply wp_call; [apply (Hf info r (Some t) Hr); by eapply takes_signed|].
  intros o r1 [Hread _].
  destruct (msg_ok_alloc (set_sigverify (Some t) r) r1 Hr Hread) as (Hr1 & Hb1 & Ha1 & Hsig1 & Hsv1).
  destruct o as [info'|]; [|by apply wp_ret].
  assert (signed r1 t) as Hs1 by (split; [rewrite Hsig1; apply Hs|by rewrite Hsv1]).
  eapply wp_mono; [by apply (IH info' r1 t q')|]. intros v r' (? & Ha & ?). split_and!; try done.
  by rewrite Ha, Ha1.
Qed.

Ltac prove_fields :=
  repeat first
    [ apply Forall2_nil_2
    | apply Forall2_cons_2;
        [ first [ eapply field_receives, read_ulong_receives
                | eapply field_receives, read_version_receives
                | eapply field_receives, read_space_string_receives; done ] | ] ].

Lemma read_info_piece info : reads_piece "vsusv" (proto_read_info info).
Proof. apply (read_fields_piece ["v"; "s"; "u"; "s"; "v"]). prove_fields. Qed.
Lemma read_slot_info_piece info : reads_piece "ssuvv" (proto_read_slot_info info).
Proof. apply (read_fields_piece ["s"; "s"; "u"; "v"; "v"]). prove_fields. Qed.
Lemma read_token_info_piece info : reads_piece "ssssuuuuuuuuuuuvvs" (proto_read_token_info info).
Proof.
  apply (read_fields_piece ["s"; "s"; "s"; "s"; "u"; "u"; "u"; "u"; "u"; "u"; "u"; "u"; "u"; "u"; "u";
    "v"; "v"; "s"]). prove_fields.
Qed.
Lemma read_mechanism_info_piece info : reads_piece "uuu" (proto_read_mechanism_info info).
Proof. apply (read_fields_piece ["u"; "u"; "u"]). prove_fields. Qed.
Lemma read_session_info_piece info : reads_piece "uuuu" (proto_read_sesssion_info info).
Proof. apply (read_fields_piece ["u"; "u"; "u"; "u"]). prove_fields. Qed.

(** ** Arrays *)

(** [k] returns something that satisfies [P], whatever the bytes are. *)
Definition stays {A} (P : A -> Prop) (k : ST GckRpcMessage A) : Prop :=
  forall m, msg_ok m -> wp k (fun a m' => P a /\ reading m m') m.

Lemma stays_ret {A} (P : A -> Prop) a : P a -> stays P (mret a).
Proof. intros Ha m Hm. apply wp_ret. split; [done|by apply reading_refl]. Qed.
Lemma stays_bind {A C} (P : A -> Prop) (Q : C -> Prop) k1 (k2 : A -> ST GckRpcMessage C) :
  stays P k1 -> (forall a, P a -> stays Q (k2 a)) -> stays Q (k1 ≫= k2).
Proof.
  intros H1 H2 m Hm. eapply wp_call; [by apply H1|]. intros a m1 [Ha Hr1].
  eapply wp_mono; [apply (H2 a Ha); by eapply reading_ok|]. intros c m2 [Hc Hr2].
  split; [done|by eapply reading_trans].
Qed.
Lemma stays_get {A C} (P : A -> Prop) (Q : C -> Prop) get (k : option A -> ST GckRpcMessage C) :
  read_total P get -> stays Q (k None) -> (forall v, P v -> stays Q (k (Some v))) ->
  stays Q (msg_get get ≫= k).
Proof.
  intros Hget HN HS. eapply (stays_bind (fun r => forall v, r = Some v -> P v)).
  - intros m Hm. eapply wp_mono; [by apply (msg_get_total P)|]. by intros r m' [? ?].
  - intros [v|] Hv; [by apply HS, Hv|done].
Qed.
Lemma stays_get_into {A C} (P : A -> Prop) (Q : C -> Prop) v get (k : bool * A -> ST GckRpcMessage C) :
  read_total P get -> (forall r, stays Q (k r)) -> stays Q (get_into v get ≫= k).
Proof.
  intros Hget Hk. eapply (stays_bind any); [|intros; apply Hk]. unfold get_into.
  by apply (stays_get P); [done|apply stays_ret|intros; apply stays_ret].
Qed.
Lemma stays_no_error {C} (Q : C -> Prop) (k : bool -> ST GckRpcMessage C) :
  (forall b, stays Q (k b)) -> stays Q (no_error ≫= k).
Proof.
  intros Hk. apply (stays_bind any); [|intros; apply Hk]. intros m Hm. apply wp_gets.
  split; [done|by apply reading_refl].
Qed.
Lemma stays_lift {A C} (Q : C -> Prop) (r : res A) a (k : A -> ST GckRpcMessage C) :
  r = Ok a -> stays Q (k a) -> stays Q (lift_res r ≫= k).
Proof. by intros ->. Qed.

(** A reader behind the check of its piece. *)
Lemma stays_piece {A} (P : A -> Prop) s k :
  stays (fun v => v.1 = CKR_OK -> P v.2) k -> reads_piece_as P s (check_part s;; k).
Proof.
  intros Hk r q q' Hr Hs Hq. apply wp_bind. eapply wp_intro; [by eapply takes_signed|].
  eapply wp_mono; [by apply (Hk (set_sigverify (Some q') r))|]. intros v r' [Hv Hread].
  destruct (msg_ok_alloc (set_sigverify (Some q') r) r' Hr Hread) as (Hr1 & Hb1 & Ha1 & Hsig1 & Hsv1).
  split; [done|]. split; [done|]. intros Hret. split; [done|]. split; [|by apply Hv].
  split; [rewrite Hsig1; apply Hs|done].
Qed.

(** The caller's array has room for [max] elements. *)
Definition room {A} (arr : option (list A)) (max : Z) : Prop :=
  forall l, arr = Some l -> max <= zlen l.

Lemma read_byte_array_piece arr len max :
  room arr max -> reads_piece "ay" (proto_read_byte_array arr len max).
Proof.
  intros Hroom. apply (stays_piece any). apply (stays_get _ _ _ _ get_byte_total); [by apply stays_ret|].
  intros valid _. destruct (valid =? 0).
  { apply (stays_get _ _ _ _ get_uint32_total); [by apply stays_ret|]. intros n _. by apply stays_ret. }
  apply (stays_get _ _ _ _ get_byte_array_total); [by apply stays_ret|]. intros [val vlen] Hv.
  destruct arr as [bs|]; [|by apply stays_ret]. destruct (Z.ltb_spec max vlen) as [|Hle]; [by apply stays_ret|].
  assert (0 <= vlen /\ vlen <= zlen (default [] val)) as [Hv0 Hvl].
  { unfold byte_array_ok in Hv. cbn in Hv. destruct val as [b|]; cbn in *.
    - destruct Hv as [-> _]. pose proof (zlen_nonneg b). lia.
    - subst vlen. done. }
  eapply stays_lift; [apply mem_read_ok; lia|].
  specialize (Hroom bs eq_refl). pose proof (zlen_slice (default [] val) 0 vlen ltac:(done) Hv0 Hvl) as Hz.
  destruct (mem_write_ok bs 0 (slice (default [] val) 0 vlen)) as (m & Hw & _); [lia..|].
  eapply stays_lift; [exact Hw|]. by apply stays_ret.
Qed.

Lemma read_ulongs_stays n i l val :
  (i + n <= length l)%nat ->
  stays (fun a => exists l', a = Some l' /\ length l' = length l) (read_ulongs n i (Some l) val).
Proof.
  revert i l val. induction n as [|n IH]; intros i l val Hl; cbn [read_ulongs]; [apply stays_ret; eauto|].
  apply (stays_get_into _ _ _ _ _ get_uint64_total). intros [b v].
  rewrite bool_decide_true by lia.
  apply (stays_bind (fun a => exists l', a = Some l' /\ length l' = length l)).
  { apply stays_ret. eexists. split; [done|]. apply length_insert. }
  intros a (l' & -> & Hl'). rewrite <- Hl'. apply IH. lia.
Qed.

Lemma read_ulongs_none n i val : stays (fun a => a = None) (read_ulongs n i None val).
Proof.
  revert i val. induction n as [|n IH]; intros i val; cbn [read_ulongs]; [by apply stays_ret|].
  apply (stays_get_into _ _ _ _ _ get_uint64_total). intros [b v].
  apply (stays_bind (fun a => a = None)); [by apply stays_ret|]. by intros a ->.
Qed.

(** The array is as long as it was, and what it holds now is in it. *)
Definition filled {A} (arr : option (list A)) (max : Z) (v : option (list A) * Z) : Prop :=
  match arr, v.1 with
  | Some l, Some l' => zlen l' = zlen l /\ 0 <= v.2 <= max
  | None, None => True
  | _, _ => False
  end.

Lemma read_ulong_array_piece garbage arr len max :
  room arr max ->
  reads_piece_as (filled arr max) "au" (proto_read_ulong_array garbage arr len max).
Proof.
  intros Hroom. apply (stays_piece (filled arr max)).
  apply (stays_get _ _ _ _ get_byte_total); [by apply stays_ret|].
  intros valid _. apply (stays_get _ _ _ _ get_uint32_total); [by apply stays_ret|]. intros num Hnum.
  destruct (valid =? 0); [by apply stays_ret; destruct arr|].
  destruct (Z.ltb_spec max num) as [|Hle]; [by apply stays_ret|].
  apply (stays_bind (fun a => filled arr max (a, num))).
  { destruct arr as [l|].
    - intros m Hm. eapply wp_mono; [apply (read_ulongs_stays _ 0 l); [|done]|].
      + specialize (Hroom l eq_refl). unfold zlen in Hroom. lia.
      + intros a m' [(l' & -> & Hl') Hread]. split; [|done]. cbn. unfold zlen. rewrite Hl'. split; [done|lia].
    - intros m Hm. eapply wp_mono; [by apply read_ulongs_none|]. by intros a m' [-> ?]. }
  intros arr' Hf. apply stays_no_error. intros b. by apply stays_ret.
Qed.

(** An attribute of the caller's: its value has the length it says. *)
Definition value_room (a : CK_ATTRIBUTE) : Prop := room (pValue a) (ulValueLen a).

Lemma store_attribute_ok attr validity attrlen attrval ret :
  value_room attr -> 0 <= attrlen -> (forall bs, attrval = Some bs -> attrlen = zlen bs) ->
  exists attr' ret', store_attribute attr validity attrlen attrval ret = Ok (attr', ret').
Proof.
  intros Hroom Hlen Hval. unfold store_attribute. destruct (validity =? 0); [by do 2 eexists|].
  destruct (pValue attr) as [value|] eqn:Ev; [|by do 2 eexists].
  destruct (Z.ltb_spec (ulValueLen attr) attrlen); [by do 2 eexists|].
  destruct attrval as [bs|]; [|by do 2 eexists]. specialize (Hval bs eq_refl).
  change (negb (sizeof_CK_ULONG =? sizeof_uint64_t)) with false. rewrite andb_false_r. cbn [andb].
  specialize (Hroom value Ev). unfold mbind, res_bind. rewrite mem_read_ok by lia.
  pose proof (zlen_slice bs 0 attrlen ltac:(done) Hlen ltac:(lia)) as Hz.
  destruct (mem_write_ok value 0 (slice bs 0 attrlen)) as (m & -> & _); [lia..|]. by do 2 eexists.
Qed.

Lemma read_attributes_stays n i arr type validity ret :
  (forall l, arr = Some l -> (i + n <= length l)%nat /\ Forall value_room (drop i l)) ->
  stays (fun r => match r with inl _ => True | inr v => v.1 <> CKR_OK end)
    (read_attributes n i arr type validity ret).
Proof.
  revert i arr type validity ret. induction n as [|n IH]; intros i arr type validity ret Harr;
    cbn [read_attributes]; [by apply stays_ret|].
  apply (stays_get_into _ _ _ _ _ get_uint32_total). intros [_ t].
  apply (stays_get_into _ _ _ _ _ get_byte_total). intros [_ v].
  apply (stays_bind (fun data => forall attrlen attrval, data = Some (attrlen, attrval) ->
    0 <= attrlen /\ forall bs, attrval = Some bs -> attrlen = zlen bs)).
  { destruct (v =? 0); [apply stays_ret; intros ? ? [= <- <-]; by split|].
    apply (stays_get _ _ _ _ get_uint32_total); [by apply stays_ret|]. intros len Hlen.
    apply (stays_get _ _ _ _ get_byte_array_total); [by apply stays_ret|]. intros [val vlen] Hval.
    apply stays_ret. intros attrlen attrval. destruct (_ && _) eqn:E; [done|]. intros [= <- <-].
    split; [lia|]. intros bs ->. cbn in E. apply negb_false_iff, Z.eqb_eq in E.
    subst len. apply Hval. }
  intros [[attrlen attrval]|] Hdata; [|by apply stays_ret]. destruct (Hdata _ _ eq_refl) as [Hlen Hval].
  apply stays_no_error. intros [|]; cbn [negb]; [|by apply stays_ret].
  destruct arr as [l|]; [|by apply IH]. destruct (Harr l eq_refl) as [Hi Hl].
  destruct (lookup_lt_is_Some_2 l i) as [a Ha]; [lia|].
  eapply (stays_lift _ _ a); [by rewrite Ha|]. destruct (negb _); [by apply stays_ret|].
  assert (value_room a) as Hroom.
  { eapply Forall_lookup_1; [exact Hl|]. by rewrite (lookup_drop l i 0), Nat.add_0_r. }
  destruct (store_attribute_ok a v attrlen attrval ret Hroom Hlen Hval) as (a' & ret' & Hst).
  eapply stays_lift; [exact Hst|]. apply IH. intros l' [= <-]. rewrite length_insert. split; [lia|].
  rewrite drop_insert_lt by lia. replace (S i) with (i + 1)%nat by lia. rewrite <- drop_drop.
  by apply Forall_drop.
Qed.

(** The code behind the attributes is a piece of its own. *)
Lemma piece_check {A} s1 s2 (k : ST GckRpcMessage (Z * A)) :
  reads_piece s2 k -> reads_piece (String.append s1 s2) (check_part s1;; k).
Proof.
  intros Hk r q q' Hr Hs (t & Ht & Hq)%string_strip_app2. apply wp_bind.
  eapply wp_intro; [by eapply takes_signed|].
  apply (Hk (set_sigverify (Some t) r) t q'); [done| |done]. split; [apply Hs|done].
Qed.
Lemma piece_bind {A C} (P : A -> Prop) s k1 (k2 : A -> ST GckRpcMessage (Z * C)) :
  stays P k1 -> (forall a, P a -> reads_piece s (k2 a)) -> reads_piece s (k1 ≫= k2).
Proof.
  intros H1 H2 r q q' Hr Hs Hq. eapply wp_call; [by apply H1|]. intros a r1 [Ha Hread].
  destruct (msg_ok_alloc r r1 Hr Hread) as (Hr1 & Hb1 & Ha1 & Hsig1 & Hsv1).
  assert (signed r1 q) as Hs1 by (split; [rewrite Hsig1; apply Hs|rewrite Hsv1; apply Hs]).
  eapply wp_mono; [by apply (H2 a Ha r1 q q')|]. intros v r' (? & Ha' & ?).
  split; [done|]. split; [by rewrite Ha', Ha1|done].
Qed.
Lemma piece_failed {A} s (v : A) ret : ret <> CKR_OK -> reads_piece s (mret (ret, v)).
Proof. intros Hret r q q' Hr Hs Hq. apply wp_ret. split; [apply Hr|]. by split. Qed.

Lemma read_code_piece {A} (v : A) :
  reads_piece "u" (r ← gck_rpc_message_read_ulong;
                   match r with None => mret (PARSE_ERROR, v) | Some ret => mret (ret, v) end).
Proof.
  intros r q q' Hr Hs Hq. eapply wp_call;
    [apply (read_ulong_receives r (Some q') Hr); by eapply takes_signed|].
  intros o r1 [Hread _].
  destruct (msg_ok_alloc (set_sigverify (Some q') r) r1 Hr Hread) as (Hr1 & Hb1 & Ha1 & Hsig1 & Hsv1).
  destruct o as [ret|]; apply wp_ret; (split; [done|]; split; [done|]); [|done].
  intros _. split; [done|]. split; [split; [rewrite Hsig1; apply Hs|done]|done].
Qed.

Lemma read_attribute_array_piece garbage arr n :
  room arr n -> (forall l, arr = Some l -> Forall value_room l) ->
  reads_piece "aAu" (proto_read_attribute_array garbage arr n).
Proof.
  intros Hroom Hval. apply (piece_check "aA" "u").
  apply (piece_bind (fun r => forall v, r = Some v -> is_u32 v)).
  { intros m Hm. eapply wp_mono; [by apply (msg_get_total _ _ get_uint32_total)|]. by intros r m' [? ?]. }
  intros [num|] Hnum; [|by apply piece_failed]. specialize (Hnum num eq_refl).
  destruct (Z.eqb_spec n num) as [->|]; cbn [negb]; [|by apply piece_failed].
  eapply piece_bind.
  { apply read_attributes_stays. intros l ->. rewrite drop_0. split; [|by apply Hval].
    specialize (Hroom l eq_refl). unfold zlen in Hroom. lia. }
  intros [[ret arr']|[ret arr']] Hret; [|by apply piece_failed].
  apply (piece_bind any).
  { intros m Hm. apply wp_gets. split; [done|by apply reading_refl]. }
  intros [|] _; cbn [negb]; [apply read_code_piece|by apply piece_failed].
Qed.
