(* ===== verification/ClientRun.v ===== *)
(** gck-rpc-module.c, [call_send_recv] and [call_run]: a request that is ready is
    sent, and the bytes that come back decide what happens next. *)
From S2P Require Import Prelude EggBuffer Pkcs11 RpcUtil Calls Message Transport Client.
From S2P Require Import ClientProto ClientSpecs.

(** A connection that a call can use. *)
Definition link_ok (c : Conn) : Prop := bytes (incoming c) /\ sane_stream (incoming c).

Section Run.
Context (realloc : EggBufferAllocator).
Abbreviation message_ok := (message_ok realloc).

Definition messages_ok (cs : CallState) : Prop :=
  (forall m, req cs = Some m -> message_ok m) /\ (forall m, resp cs = Some m -> message_ok m).

(** A function on the request, or the response, there is. *)
Lemma runs_on_req {A C} B (m : ST GckRpcMessage A) (k : A -> Net CallState C) P Q cs r :
  req cs = Some r -> wp m P r ->
  (forall a r', P a r' -> runs B (k a) Q (set_req (Some r') cs)) ->
  runs B (net (on_req m) ≫= k) Q cs.
Proof.
  intros Hr (a & r' & Hrun & Ha)%wp_inv Hk. apply runs_bind, runs_net. unfold wp, on_req.
  rewrite Hr, Hrun. by apply Hk.
Qed.
Lemma runs_on_resp {A C} B (m : ST GckRpcMessage A) (k : A -> Net CallState C) P Q cs r :
  resp cs = Some r -> wp m P r ->
  (forall a r', P a r' -> runs B (k a) Q (set_resp (Some r') cs)) ->
  runs B (net (on_resp m) ≫= k) Q cs.
Proof.
  intros Hr (a & r' & Hrun & Ha)%wp_inv Hk. apply runs_bind, runs_net. unfold wp, on_resp.
  rewrite Hr, Hrun. by apply Hk.
Qed.

(** A request that is ready: its bytes are [q]. *)
Record sendable (id : Z) (q : list Z) (cs : CallState) : Prop := {
  sn_messages : messages_ok cs;
  sn_socket : socket cs <> -1;
  sn_status : call_status cs = CALL_PREP;
  sn_req : exists m, req cs = Some m /\ clean m /\ signed m EmptyString /\ call_id m = id
    /\ contents (buffer m) = q;
  sn_some : 0 < zlen q;
}.

(** The reply is what was next to come. *)
Definition exchanged (c0 : Conn) (q reply : list Z) (cs : CallState) : Prop :=
  is_u32 (zlen reply) /\ incoming c0 = frame reply ++ incoming (conn cs)
  /\ sent_over c0 (frame q) (conn cs).

(** The network is willing to carry the request, and the response is to come. *)
Definition carries (c0 : Conn) (q : list Z) : Prop :=
  willing (4 + zlen q) c0 /\ announced (incoming c0).

Context (Hok : AllocatorOk realloc) (Hmem : gives_memory realloc).
Context (reliable : bool).
Abbreviation unreliable := (fun _ : CallState => reliable = false).

Lemma lift_new_message B {A} (o : option GckRpcMessage) (k : option GckRpcMessage -> Net CallState A) Q cs :
  (forall m, o = Some m -> message_ok m) ->
  (forall m, message_ok m -> runs B (k (Some m)) Q cs) ->
  runs B (net (lift_res (match o with
                         | Some m => Ok (Some m)
                         | None => gck_rpc_message_new realloc (Some (call_allocator realloc))
                         end)) ≫= k) Q cs.
Proof.
  intros Ho Hk. destruct o as [m|].
  - eapply runs_lift_res; [done|]. by apply Hk, Ho.
  - destruct (new_message_gives realloc Hok Hmem) as (m & Hm & ? & ?).
    eapply runs_lift_res; [exact Hm|]. by apply Hk.
Qed.

Definition sent_and_received (id : Z) (c0 : Conn) (q : list Z) (ret : Z) (cs : CallState) : Prop :=
  messages_ok cs /\ call_status cs = CALL_TRANSIT /\
  (ret = CKR_OK /\ socket cs <> -1 /\ (exists m, req cs = Some m /\ call_id m = id)
     /\ (exists reply r, resp cs = Some r /\ response_of realloc reply r /\ exchanged c0 q reply cs)
   \/ given_up reliable ret).

Lemma call_send_recv_runs id q cs :
  sendable id q cs -> bytes (incoming (conn cs)) -> not_empty_next (incoming (conn cs)) ->
  (reliable = true -> carries (conn cs) q) ->
  runs unreliable (call_send_recv realloc) (sent_and_received id (conn cs) q) cs.
Proof.
  intros [[Hq Hp] Hs Hst (m & Hm & Hclean & _ & Hi & Hcon) Hpos] Hby Hne Hrel. unfold call_send_recv.
  apply runs_get. apply runs_assert; [by rewrite Hm|]. apply runs_assert; [by apply bool_decide_true|].
  apply runs_modify. cbn [resp set_status]. apply lift_new_message; [done|]. intros r [Hrb Hra].
  apply runs_modify. rewrite Hm.
  eapply runs_lift_wp; [by apply reset_wp|].
  intros [] r1 (b & -> & Hb & Hcb & Hlb & Hfb & Hab). apply runs_modify.
  set (cs1 := set_req None _). assert (conn cs1 = conn cs) as Hconn1 by done.
  pose proof (proj1 Hclean) as Hmb. pose proof (contents_len _ Hmb) as Hlen. rewrite Hcon in Hlen.
  eapply runs_then; [apply (dialog_runs realloc Hmem reliable); try done; [lia| |]|].
  { split; [done|]. cbn. congruence. }
  { intros Hre. rewrite <- Hlen, Hconn1. by apply Hrel. }
  intros [ret r2] cs2 ((Hrq & Hrp & Hst2 & _) & Hr2 & Hpost). cbn [fst snd] in *.
  apply runs_get. apply runs_assert; [by rewrite Hst2; apply bool_decide_true|].
  apply runs_assert; [by rewrite Hrp|]. apply runs_modify. apply runs_assert; [by rewrite Hrq|].
  apply runs_modify, runs_ret. split; [split; [by intros ? [= <-]; apply Hq|by intros ? [= <-]]|].
  split; [cbn; by rewrite Hst2|].
  destruct Hpost as [(-> & Hs2 & Hsent & reply & Hlr & Hinc & Hresp)|[-> Hre]]; [|by right].
  left. split; [done|]. split; [exact (fun E => Hs (eq_trans (eq_sym Hs2) E))|]. split; [by exists m|]. exists reply, r2. split; [done|]. split; [done|].
  rewrite Hconn1 in *. split; [done|]. split; [done|]. cbn. by rewrite <- Hcon.
Qed.

(** What [call_run] does when it is back from [call_send_recv]. *)
Definition call_run_tail (ret : Z) : Net CallState Z :=
  net (modify (set_status CALL_PARSE));;
  if negb (ret =? CKR_OK) then mret ret else
  resp_id ← net (on_resp (gets call_id));
  if resp_id =? GCK_RPC_CALL_ERROR then
    r ← net (on_resp gck_rpc_message_read_ulong);
    match r with
    | None => mret CKR_DEVICE_ERROR
    | Some ckerr => mret (if ckerr <=? CKR_OK then CKR_DEVICE_ERROR else ckerr)
    end
  else
  req_id ← net (on_req (gets call_id));
  if negb (req_id =? resp_id) then mret CKR_DEVICE_ERROR else
  bad ← net (on_resp (gets gck_rpc_message_buffer_error));
  net (assert_ (negb bad));;
  mret CKR_OK.

Lemma on_req_gets {A} (f : GckRpcMessage -> A) m cs :
  req cs = Some m -> on_req (gets f) cs = Ok (f m, cs).
Proof. unfold on_req, gets. intros H. rewrite H. by destruct cs; cbn in *; rewrite H. Qed.
Lemma on_resp_gets {A} (f : GckRpcMessage -> A) m cs :
  resp cs = Some m -> on_resp (gets f) cs = Ok (f m, cs).
Proof. unfold on_resp, gets. intros H. rewrite H. by destruct cs; cbn in *; rewrite H. Qed.

Lemma call_run_split id q cs :
  sendable id q cs -> call_run realloc cs = (ret ← call_send_recv realloc; call_run_tail ret) cs.
Proof.
  intros [_ Hs Hst (m & Hm & Hclean & Hsig & _ & _) _]. unfold call_run.
  rewrite (net_step _ _ _ cs cs) by done. rewrite (net_step _ _ _ tt cs) by (by rewrite Hm).
  rewrite (net_step _ _ _ tt cs) by (by rewrite bool_decide_true).
  rewrite (net_step _ _ _ tt cs) by (by rewrite (proj2 (Z.eqb_neq _ _))).
  rewrite (net_step _ _ _ false cs); [|unfold net; rewrite (on_req_gets _ m) by done].
  2: { unfold gck_rpc_message_buffer_error. by rewrite (proj2 (has_error_false _ (proj1 Hclean)) (proj2 Hclean)). }
  rewrite (net_step _ _ _ true cs); [|unfold net; rewrite (on_req_gets _ m) by done].
  2: { unfold gck_rpc_message_is_verified. by rewrite (proj2 Hsig). }
  by rewrite (net_step _ _ _ tt cs).
Qed.
End Run.
