(* ===== verification/ClientReplies.v ===== *)
(** gck-rpc-module.c, what becomes of a call for each kind of response: one of the
    call, an error, and the two the library does not survive. *)
From S2P Require Import Prelude EggBuffer Pkcs11 RpcUtil Calls Message Transport Client.
From S2P Require Import ClientProto ClientSpecs ClientRun.

Section Replies.
Context (realloc : EggBufferAllocator) (Hok : AllocatorOk realloc) (Hmem : gives_memory realloc).

(** ** Parsing *)

(** A response of a call, with any signature. *)
Lemma parse_any_signature id row sgp s payload m :
  message_ok realloc m -> blank m -> 0 < id < GCK_RPC_CALL_MAX -> gck_rpc_call id = Ok row ->
  c_response row = Some sgp -> strlen s < 2147483647 ->
  contents (buffer m) = header id (Some s) ++ payload ->
  exists ok r, gck_rpc_message_parse GCK_RPC_RESPONSE m = Ok (ok, r)
    /\ message_ok realloc r /\ msg_ok r /\ call_id r = id /\ signed r sgp
    /\ eb_failures (buffer r) = 0 /\ unread r = payload.
Proof.
  intros [Hb Ha] (_ & _ & _ & Hf) Hid Hrow Hsgp Hs Hcon. unfold gck_rpc_message_parse.
  pose proof (msg_ok_start m Hb) as Hm0.
  assert (unread (set_parsed 0 m) = enc_uint32 id ++ enc_byte_array (Some (string_bytes s)) ++ payload)
    as Hu by (unfold unread, rest_at; cbn -[enc_byte_array]; rewrite Hcon; unfold header;
              by rewrite <- (assoc_L app)).
  destruct (msg_get_reads _ _ _ (get_uint32_reads id ltac:(unfold GCK_RPC_CALL_MAX in Hid; lia))
    _ _ Hm0 Hu) as (Hrun & Hm1 & Hu1).
  unfold mbind, ST_bind, modify. rewrite Hrun.
  rewrite (proj2 (Z.eqb_neq id GCK_RPC_CALL_ERROR)) by (unfold GCK_RPC_CALL_ERROR; lia).
  rewrite (proj2 (Z.leb_gt id 0)), (proj2 (Z.leb_gt GCK_RPC_CALL_MAX id)) by lia. cbn [orb].
  unfold lift_res. rewrite Hrow. cbv zeta. cbn [call_signature]. rewrite Hsgp.
  set (m2 := set_sigverify (Some sgp) _). assert (msg_ok m2) as Hm2 by exact Hm1.
  destruct (msg_get_reads _ _ _ (get_byte_array_reads (Some (string_bytes s))
    ltac:(intros ? [= <-]; rewrite zlen_string_bytes; lia)) m2 _ Hm2 Hu1) as (Hrun2 & Hm3 & Hu3).
  rewrite Hrun2. cbn [byte_array_value]. set (r := set_parsed _ m2) in *.
  destruct (negb _); by do 2 eexists.
Qed.

(** An error, with its code. *)
Lemma parse_error_response code m :
  message_ok realloc m -> blank m -> is_u64 code ->
  contents (buffer m) = header GCK_RPC_CALL_ERROR None ++ enc_uint64 code ->
  exists ok r, gck_rpc_message_parse GCK_RPC_RESPONSE m = Ok (ok, r)
    /\ message_ok realloc r /\ msg_ok r /\ call_id r = GCK_RPC_CALL_ERROR
    /\ (exists r', gck_rpc_message_read_ulong r = Ok (Some code, r') /\ message_ok realloc r').
Proof.
  intros [Hb Ha] (Hid & _ & _ & Hf) Hcode Hcon. unfold gck_rpc_message_parse.
  pose proof (msg_ok_start m Hb) as Hm0.
  assert (unread (set_parsed 0 m) = enc_uint32 GCK_RPC_CALL_ERROR ++ enc_uint64 code) as Hu
    by (unfold unread, rest_at; cbn -[enc_uint64]; by rewrite Hcon).
  destruct (msg_get_reads _ _ _ (get_uint32_reads GCK_RPC_CALL_ERROR ltac:(done)) _ _ Hm0 Hu)
    as (Hrun & Hm1 & Hu1).
  unfold mbind, ST_bind, modify. rewrite Hrun. rewrite Z.eqb_refl.
  set (r := set_signature None _). exists (negb (bool_decide (GCK_RPC_RESPONSE = GCK_RPC_REQUEST))), r.
  split; [done|]. assert (msg_ok r) as Hr by exact Hm1. split_and!; try done.
  assert (unread r = enc_part (PUlong code) ++ []) as Hu2 by (rewrite app_nil_r; exact Hu1).
  destruct (read_ulong_received code Hcode r (sigverify r) [] Hr (takes_unsigned r "u" eq_refl) Hu2)
    as (Hrun2 & Hm2 & _).
  eexists. split; [exact Hrun2|]. split; [apply Hm2|done].
Qed.

(** The id of a call, and nothing behind it. *)
Lemma parse_id_alone id row sgp m :
  message_ok realloc m -> blank m -> 0 < id < GCK_RPC_CALL_MAX -> gck_rpc_call id = Ok row ->
  c_response row = Some sgp -> contents (buffer m) = enc_uint32 id ->
  exists r, gck_rpc_message_parse GCK_RPC_RESPONSE m = Ok (false, r)
    /\ call_id r = id /\ 0 < eb_failures (buffer r).
Proof.
  intros [Hb Ha] (_ & _ & _ & Hf) Hid Hrow Hsgp Hcon. unfold gck_rpc_message_parse.
  pose proof (msg_ok_start m Hb) as Hm0.
  assert (unread (set_parsed 0 m) = enc_uint32 id ++ []) as Hu
    by (unfold unread, rest_at; cbn; by rewrite Hcon, app_nil_r).
  destruct (msg_get_reads _ _ _ (get_uint32_reads id ltac:(unfold GCK_RPC_CALL_MAX in Hid; lia))
    _ _ Hm0 Hu) as (Hrun & Hm1 & Hu1).
  unfold mbind, ST_bind, modify. rewrite Hrun.
  rewrite (proj2 (Z.eqb_neq id GCK_RPC_CALL_ERROR)) by (unfold GCK_RPC_CALL_ERROR; lia).
  rewrite (proj2 (Z.leb_gt id 0)), (proj2 (Z.leb_gt GCK_RPC_CALL_MAX id)) by lia. cbn [orb].
  unfold lift_res. rewrite Hrow. cbv zeta. cbn [call_signature]. rewrite Hsgp.
  set (m2 := set_sigverify (Some sgp) _).
  assert (out_of_range (buffer m) 4 4 = true) as Hout.
  { apply out_of_range_true. left. pose proof (contents_len _ Hb) as Hl.
    rewrite Hcon, zlen_enc_uint32 in Hl. lia. }
  assert (msg_get egg_buffer_get_byte_array m2 = Ok (None, set_buffer (fail_buffer (buffer m)) m2)) as ->.
  { unfold msg_get, mbind, ST_bind, gets, on_buffer, zoom.
    assert (parsed m2 = 4) as -> by (cbn; by rewrite zlen_enc_uint32).
    assert (egg_buffer_get_byte_array 4 (buffer m2) = Ok (None, fail_buffer (buffer m))) as ->; [|done].
    change (buffer m2) with (buffer m).
    unfold egg_buffer_get_byte_array, egg_buffer_get_uint32, read_at, mbind, ST_bind. by rewrite Hout. }
  eexists. split; [done|]. split; [done|]. cbn. lia.
Qed.

(** ** The end of [call_run] *)

(** The run that ends with the response [reply], if the network carries it. *)
Lemma call_run_received id q cs reply rest :
  sendable realloc id q cs -> bytes (incoming (conn cs)) -> willing (4 + zlen q) (conn cs) ->
  incoming (conn cs) = frame reply ++ rest -> is_u32 (zlen reply) -> reply <> [] ->
  exists r cs1, response_of realloc reply r /\ messages_ok realloc cs1
    /\ call_status cs1 = CALL_TRANSIT
    /\ (exists m, req cs1 = Some m /\ call_id m = id) /\ resp cs1 = Some r
    /\ incoming (conn cs1) = rest /\ sent_over (conn cs) (frame q) (conn cs1)
    /\ socket cs1 <> -1
    /\ call_run realloc cs = call_run_tail CKR_OK cs1.
Proof.
  intros Hs Hby Hw Hinc Hlr Hne.
  assert (not_empty_next (incoming (conn cs))) as Hnext.
  { intros rest' H. rewrite Hinc in H. by apply frame_inj in H as [-> _]. }
  assert (true = true -> carries (conn cs) q) as Hrel by (split; [done|by exists reply, rest]).
  pose proof (call_send_recv_runs realloc Hok Hmem true id q cs Hs Hby Hnext Hrel) as Hrun.
  apply wp_inv in Hrun as ([ret|] & cs1 & Hrun & Hpost); [|done].
  destruct Hpost as (Hms & Hst & [(-> & Hsk & Hm & reply' & r & Hr & Hresp & Hlr' & Hinc' & Hsent)|[_ ?]]); [|done].
  rewrite Hinc in Hinc'. apply frame_inj in Hinc' as [<- Hrest]; [|done..].
  exists r, cs1. split_and!; try done. rewrite (call_run_split realloc id q cs Hs).
  by apply net_step.
Qed.

(** The response of the call. *)
Lemma call_run_reply id row sgp q cs s payload rest :
  sendable realloc id q cs -> 0 < id < GCK_RPC_CALL_MAX -> gck_rpc_call id = Ok row ->
  c_response row = Some sgp -> strlen s < 2147483647 ->
  bytes (incoming (conn cs)) -> willing (4 + zlen q) (conn cs) ->
  is_u32 (zlen (header id (Some s) ++ payload)) ->
  incoming (conn cs) = frame (header id (Some s) ++ payload) ++ rest ->
  exists cs' r, call_run realloc cs = Ok (Some CKR_OK, cs')
    /\ messages_ok realloc cs' /\ call_status cs' = CALL_PARSE
    /\ resp cs' = Some r /\ msg_ok r /\ signed r sgp /\ unread r = payload
    /\ incoming (conn cs') = rest /\ sent_over (conn cs) (frame q) (conn cs')
    /\ socket cs' <> -1 /\ eb_failures (buffer r) = 0.
Proof.
  intros Hs Hid Hrow Hsgp Hstr Hby Hw Hlr Hinc.
  assert (header id (Some s) ++ payload <> []) as Hne.
  { intros H%(f_equal zlen). unfold header in H. rewrite !zlen_app, zlen_enc_uint32, zlen_nil in H.
    pose proof (zlen_nonneg (enc_byte_array (Some (string_bytes s)))). pose proof (zlen_nonneg payload). lia. }
  destruct (call_run_received id q cs _ rest Hs Hby Hw Hinc Hlr Hne)
    as (r & cs1 & (m & ok & Hm & Hb & Hcon & Hparse) & Hms & Hst & (m1 & Hm1 & Hi1) & Hr & Hrest & Hsent & Hsk & Hrun).
  destruct (parse_any_signature id row sgp s payload m Hm Hb Hid Hrow Hsgp Hstr Hcon)
    as (ok' & r' & Hparse' & Hrok & Hmr & Hir & Hsig & Hf & Hu).
  rewrite Hparse in Hparse'. injection Hparse' as -> ->.
  exists (set_status CALL_PARSE cs1), r'. split; [|by split_and!].
  rewrite Hrun. unfold call_run_tail. rewrite (net_step _ _ _ tt (set_status CALL_PARSE cs1)) by done.
  change (negb (CKR_OK =? CKR_OK)) with false. cbn iota. set (cs2 := set_status CALL_PARSE cs1).
  rewrite (net_step _ _ _ id cs2) by (unfold net; by rewrite (on_resp_gets _ r'), Hir).
  rewrite (proj2 (Z.eqb_neq id GCK_RPC_CALL_ERROR)) by (unfold GCK_RPC_CALL_ERROR; lia).
  rewrite (net_step _ _ _ id cs2) by (unfold net; by rewrite (on_req_gets _ m1), Hi1).
  rewrite Z.eqb_refl. cbn [negb].
  rewrite (net_step _ _ _ false cs2); [by rewrite (net_step _ _ _ tt cs2)|].
  unfold net. rewrite (on_resp_gets _ r') by done. unfold gck_rpc_message_buffer_error.
  by rewrite (proj2 (has_error_false _ (proj1 Hmr)) Hf).
Qed.

(** An error. *)
Lemma call_run_error id q cs code rest :
  sendable realloc id q cs -> is_u64 code ->
  bytes (incoming (conn cs)) -> willing (4 + zlen q) (conn cs) ->
  incoming (conn cs) = frame (header GCK_RPC_CALL_ERROR None ++ enc_uint64 code) ++ rest ->
  exists cs', call_run realloc cs = Ok (Some (if code <=? CKR_OK then CKR_DEVICE_ERROR else code), cs')
    /\ messages_ok realloc cs' /\ call_status cs' = CALL_PARSE
    /\ incoming (conn cs') = rest /\ sent_over (conn cs) (frame q) (conn cs')
    /\ socket cs' <> -1.
Proof.
  intros Hs Hcode Hby Hw Hinc.
  assert (zlen (header GCK_RPC_CALL_ERROR None ++ enc_uint64 code) = 12) as Hz
    by (unfold header; by rewrite app_nil_r, zlen_app, zlen_enc_uint32, zlen_enc_uint64).
  destruct (call_run_received id q cs _ rest Hs Hby Hw Hinc ltac:(by rewrite Hz))
    as (r & cs1 & (m & ok & Hm & Hb & Hcon & Hparse) & [Hms1 Hms2] & Hst & (m1 & Hm1 & Hi1) & Hr & Hrest & Hsent & Hsk & Hrun).
  { intros H. by rewrite H in Hz. }
  destruct (parse_error_response code m Hm Hb Hcode Hcon)
    as (ok' & r' & Hparse' & Hrok & Hmr & Hir & r2 & Hread & Hr2).
  rewrite Hparse in Hparse'. injection Hparse' as -> ->.
  exists (set_resp (Some r2) (set_status CALL_PARSE cs1)).
  split; [|split; [split; [done|by intros ? [= <-]]|by split_and!]].
  rewrite Hrun. unfold call_run_tail. rewrite (net_step _ _ _ tt (set_status CALL_PARSE cs1)) by done.
  change (negb (CKR_OK =? CKR_OK)) with false. cbn iota. set (cs2 := set_status CALL_PARSE cs1).
  rewrite (net_step _ _ _ GCK_RPC_CALL_ERROR cs2) by (unfold net; by rewrite (on_resp_gets _ r'), Hir).
  rewrite Z.eqb_refl. rewrite (net_step _ _ _ (Some code) (set_resp (Some r2) cs2)); [done|].
  unfold net, on_resp. change (resp cs2) with (resp cs1). by rewrite Hr, Hread.
Qed.
End Replies.
