(* ===== verification/ClientMacros.v ===== *)
(** gck-rpc-module.c, what holds of a call at each of its macros: while the
    arguments are written, when it is run, and while the results are read. *)
From S2P Require Import Prelude EggBuffer Pkcs11 RpcUtil Calls Message Transport Client.
From S2P Require Import ClientProto ClientSpecs ClientReads ClientRun.

Section Calls.
Context (realloc : EggBufferAllocator).
Abbreviation message_ok := (message_ok realloc).
Abbreviation messages_ok := (messages_ok realloc).

(** A connection in the pool. *)
Record ready (cs : CallState) : Prop := {
  rd_messages : messages_ok cs;
  rd_link : link_ok (conn cs);
  rd_socket : socket cs <> -1;
  rd_status : call_status cs = CALL_READY;
}.

(** A call that ends with [rv]: unless that is the error for which the connection is
    given up, it can be used again. *)
Definition ending (rv : Z) (cs : CallState) : Prop :=
  messages_ok cs /\ call_status cs <> CALL_INVALID /\ (rv <> CKR_DEVICE_ERROR -> link_ok (conn cs)).

Lemma ready_ending rv cs : ready cs -> ending rv cs.
Proof. intros [? ? ? Hs]. split; [done|]. split; [by rewrite Hs|done]. Qed.

(** The response is being read: [q] is what is left of its signature. *)
Record answered (q : string) (cs : CallState) : Prop := {
  an_messages : messages_ok cs;
  an_status : call_status cs <> CALL_INVALID;
  an_link : link_ok (conn cs);
  an_resp : exists r, resp cs = Some r /\ msg_ok r /\ signed r q;
}.

(** [_ret] is [ret]: the results are read only as long as it is [CKR_OK]. *)
Definition progress (ret : Z) (q : string) (cs : CallState) : Prop :=
  (messages_ok cs /\ call_status cs <> CALL_INVALID /\ link_ok (conn cs))
  /\ (ret = CKR_OK -> answered q cs).

Lemma progress_ok q cs : answered q cs -> progress CKR_OK q cs.
Proof. by intros []. Qed.
Lemma progress_ending rv ret q cs : progress ret q cs -> ending rv cs.
Proof. by intros [(? & ? & ?) _]. Qed.
Lemma progress_failed rv ret q q' cs : rv <> CKR_OK -> progress ret q cs -> progress rv q' cs.
Proof. by intros ? [? _]. Qed.

Section OneCall.
(** The call, with its row in the table and the signatures there. *)
Context (id : Z) (row : GckRpcCall) (sgq sgp : string).
Context (Hid : 0 < id < GCK_RPC_CALL_MAX) (Hrow : gck_rpc_call id = Ok row).
Context (Hsgq : c_request row = Some sgq) (Hsgp : c_response row = Some sgp).
(** The connection at the beginning. *)
Context (c0 : Conn).

(** The arguments are being written: [ps] are the parts the request has, [q] is
    what is left of its signature. *)
Record composing (q : string) (ps : list part) (cs : CallState) : Prop := {
  co_messages : messages_ok cs;
  co_link : link_ok (conn cs);
  co_conn : conn cs = c0;
  co_socket : socket cs <> -1;
  co_status : call_status cs = CALL_PREP;
  co_req : exists m, req cs = Some m /\ clean m /\ signed m q /\ call_id m = id
    /\ contents (buffer m) = header id (Some sgq) ++ enc_parts ps;
}.

Lemma composing_ending rv q ps cs : composing q ps cs -> ending rv cs.
Proof. intros [? ? ? ? Hs ?]. split; [done|]. split; [by rewrite Hs|done]. Qed.

(** ** Preparing *)

Context (Hok : AllocatorOk realloc) (Hmem : gives_memory realloc).

Lemma call_prepare_runs B cs :
  ready cs -> conn cs = c0 ->
  runs B (call_prepare realloc id) (fun ret cs' => ret = CKR_OK /\ composing sgq [] cs') cs.
Proof.
  intros [[Hq Hp] Hl Hs Hst] Hc0. unfold call_prepare. apply runs_get.
  apply runs_assert; [by apply bool_decide_true|]. apply (lift_new_message realloc Hok Hmem); [done|].
  intros m [Hb Ha]. apply runs_modify.
  eapply runs_on_req; [done|by apply reset_wp|]. intros [] m1 (b & -> & Hb1 & _ & _ & _ & Ha1).
  eapply runs_on_req; [done|by apply (prep_call_wp id GCK_RPC_REQUEST row)|].
  intros ok m2 (Hprep & Hf & Ha2 & Hroom). cbn [call_signature] in Hprep. rewrite Hsgq in Hprep.
  assert (ok = true) as ->.
  { apply Hroom. exists realloc. split; [cbn in *; congruence|done]. }
  assert (message_ok m2) as Hm2 by (split; [by apply Hprep|cbn in *; congruence]).
  cbn [negb]. apply runs_modify, runs_ret. split; [done|]. pose proof (proj1 Hf eq_refl) as Hf0.
  split; try done; [split; [by intros ? [= <-]|done]|].
  exists m2. split; [done|]. split; [by eapply prepared_clean|].
  split; [by eapply prepared_signed|]. split; [apply Hprep|].
  cbn. rewrite app_nil_r. by apply Hprep.
Qed.

(** ** Code that may leave the call *)

Context (reliable : bool) (E : Z -> CallState -> Prop).
Abbreviation unreliable := (fun _ : CallState => reliable = false).

(** [m] does not crash; it goes on with [Q], or leaves with an error and [E]. *)
Definition rsafe {A} (m : Rpc A) (Q : A -> CallState -> Prop) : CallState -> Prop :=
  runs unreliable m (fun r cs => match r with inl a => Q a cs | inr rv => E rv cs end).

Lemma rsafe_ret {A} (a : A) (Q : A -> CallState -> Prop) cs : Q a cs -> rsafe (mret a) Q cs.
Proof. done. Qed.
Lemma rsafe_leave {A} rv (Q : A -> CallState -> Prop) cs : E rv cs -> rsafe (leave rv) Q cs.
Proof. done. Qed.
Lemma rsafe_then {A C} (m : Rpc A) (k : A -> Rpc C) P Q cs :
  rsafe m P cs -> (forall a cs', P a cs' -> rsafe (k a) Q cs') -> rsafe (m ≫= k) Q cs.
Proof.
  unfold rsafe, runs, wp, mbind, Rpc_bind. intros Hm Hk.
  destruct (m cs) as [[[[a|rv]|] cs']|]; try done. by apply Hk.
Qed.
Lemma rsafe_mono {A} (m : Rpc A) (P Q : A -> CallState -> Prop) cs :
  rsafe m P cs -> (forall a cs', P a cs' -> Q a cs') -> rsafe m Q cs.
Proof. intros Hm HQ. eapply runs_mono; [exact Hm|done|]. intros [a|rv] cs'; auto. Qed.
Lemma rsafe_req {A} (m : ST GckRpcMessage A) P (Q : A -> CallState -> Prop) cs r :
  req cs = Some r -> wp m P r -> (forall a r', P a r' -> Q a (set_req (Some r') cs)) ->
  rsafe (rpc (on_req m)) Q cs.
Proof.
  intros Hr (a & r' & Hrun & Ha)%wp_inv HQ. unfold rsafe, runs, wp, rpc, on_req.
  rewrite Hr, Hrun. by apply HQ.
Qed.
Lemma rsafe_resp {A} (m : ST GckRpcMessage A) P (Q : A -> CallState -> Prop) cs r :
  resp cs = Some r -> wp m P r -> (forall a r', P a r' -> Q a (set_resp (Some r') cs)) ->
  rsafe (rpc (on_resp m)) Q cs.
Proof.
  intros Hr (a & r' & Hrun & Ha)%wp_inv HQ. unfold rsafe, runs, wp, rpc, on_resp.
  rewrite Hr, Hrun. by apply HQ.
Qed.

Lemma rsafe_lift {A} (r : res A) (Q : A -> CallState -> Prop) cs a :
  r = Ok a -> Q a cs -> rsafe (rpc (lift_res r)) Q cs.
Proof. by intros ->. Qed.

(** ** Writing the arguments *)

Context (HE : forall rv cs, rv <> CKR_OK -> ending rv cs -> conn cs = c0 -> E rv cs).

(** What a macro that writes [p] does. *)
Definition writes_arg {A} (p : part) (m : Rpc A) : Prop :=
  forall q q' ps cs, composing q ps cs -> string_strip (sig_of p) q = Some q' ->
    rsafe m (fun _ => composing q' (ps ++ [p])) cs.

Lemma left_composing rv q ps cs : rv <> CKR_OK -> composing q ps cs -> E rv cs.
Proof. intros Hrv Hc. apply HE; [done|by eapply composing_ending|apply Hc]. Qed.

Lemma check_arg {A} p b rv (k : unit -> Rpc A) :
  rv <> CKR_OK -> (b = true -> writes_arg p (k tt)) -> writes_arg p (check b rv ≫= k).
Proof.
  intros Hrv Hk q q' ps cs Hc Hq. unfold check. destruct b.
  - exact (Hk eq_refl q q' ps cs Hc Hq).
  - by apply rsafe_leave, (left_composing _ q ps).
Qed.

(** A part was written into the request. *)
Lemma composing_put p q q' ps cs m m' :
  composing q ps cs -> req cs = Some m -> put (enc_part p) (set_sigverify (Some q') m) m' ->
  eb_failures (buffer m') = 0 -> composing q' (ps ++ [p]) (set_req (Some m') cs).
Proof.
  intros [[Hq Hp] Hl Hc0 Hs Hst (m0 & Hm & Hclean & [Hsig _] & Hi & Hcon)] Hm0 (b & -> & Hb) Hf.
  rewrite Hm in Hm0. injection Hm0 as ->. cbn in Hf. split; try done.
  - split; [|done]. intros ? [= <-]. split; [apply Hb|]. cbn.
    rewrite (lt_alloc _ _ _ Hb). exact (proj2 (Hq _ Hm)).
  - exists (set_buffer b (set_sigverify (Some q') m)). split; [done|].
    split; [split; [apply Hb|done]|]. split; [done|]. split; [done|].
    cbn [buffer set_buffer]. rewrite (lt_done _ _ _ Hb) by (destruct Hclean as [_ Hz]; cbn; by rewrite Hz).
    cbn [buffer set_sigverify]. rewrite Hcon, enc_parts_app.
    assert (enc_parts [p] = enc_part p) as -> by apply app_nil_r. by rewrite (assoc_L app).
Qed.

(** Something went wrong with it: the code is left. *)
Lemma composing_spoilt rv q ps cs m' :
  composing q ps cs -> message_ok m' -> rv <> CKR_OK -> E rv (set_req (Some m') cs).
Proof.
  intros [[Hq Hp] Hl Hc0 Hs Hst _] Hm' Hrv. apply HE; [done| |done].
  split; [split; [by intros ? [= <-]|done]|]. split; [cbn; by rewrite Hst|done].
Qed.

Lemma composing_takes p q q' ps cs m :
  composing q ps cs -> req cs = Some m -> string_strip (sig_of p) q = Some q' ->
  clean m /\ message_ok m /\ takes m (sig_of p) (Some q').
Proof.
  intros [[Hq Hp] Hl Hc0 Hs Hst (m0 & Hm & Hclean & Hsig & _)] Hm0 Hstrip.
  rewrite Hm in Hm0. injection Hm0 as ->. split; [done|]. split; [by apply Hq|].
  eapply takes_signed; [exact Hsig|exact Hstrip].
Qed.

Lemma written_arg p k : sends p k -> writes_arg p (written_or_leave k).
Proof.
  intros Hk q q' ps cs Hc Hq. destruct (co_req _ _ _ Hc) as (m & Hm & _).
  destruct (composing_takes p q q' ps cs m Hc Hm Hq) as (Hclean & [_ Ha] & Ht).
  eapply (rsafe_then _ _ (fun ok cs' => if ok : bool then composing q' (ps ++ [p]) cs'
                                        else E CKR_HOST_MEMORY cs')).
  - eapply rsafe_req; [exact Hm|by apply (Hk m (Some q'))|]. intros ok m' [Hp Hf]. destruct ok.
    + apply (composing_put p q q' ps cs m m' Hc Hm Hp). by apply Hf.
    + apply (composing_spoilt _ q ps); [done| |done]. destruct Hp as (b & -> & Hb).
      split; [apply Hb|]. cbn. by rewrite (lt_alloc _ _ _ Hb).
  - intros [|] cs' H; [by apply rsafe_ret|by apply rsafe_leave].
Qed.

Lemma IN_BYTE_arg v : is_u8 v -> writes_arg (PByte v) (IN_BYTE v).
Proof. intros. by apply written_arg, write_byte_sends. Qed.
Lemma IN_ULONG_arg v : writes_arg (PUlong v) (IN_ULONG v).
Proof. apply written_arg, write_ulong_sends. Qed.
Lemma IN_BYTE_BUFFER_arg arr len :
  writes_arg (PByteBuffer (buffer_flags arr len) (default 0 len)) (IN_BYTE_BUFFER arr len).
Proof. apply written_arg, write_byte_buffer_sends. Qed.
Lemma IN_BYTE_ARRAY_arg arr n : array_arg arr n -> writes_arg (PBytes arr n) (IN_BYTE_ARRAY arr n).
Proof. intros. apply check_arg; [done|]. intros _. by apply written_arg, write_byte_array_sends. Qed.
Lemma IN_SPACE_STRING_arg s n :
  bytes s -> zlen s = n -> 0 < n < 2147483647 ->
  writes_arg (PSpaceString s) (IN_SPACE_STRING (Some s) n).
Proof. intros. by apply written_arg, write_space_string_sends. Qed.
Lemma IN_ULONG_BUFFER2_arg arr n :
  writes_arg (PUlongBuffer (if nonnull arr then n else 0)) (IN_ULONG_BUFFER2 arr n).
Proof. apply written_arg, write_ulong_buffer_sends. Qed.
Lemma IN_ULONG_BUFFER_arg arr len :
  writes_arg (PUlongBuffer (if nonnull arr then default 0 len else 0)) (IN_ULONG_BUFFER arr len).
Proof. apply check_arg; [done|]. intros _. apply IN_ULONG_BUFFER2_arg. Qed.
Lemma IN_MECHANISM_TYPE_arg v : writes_arg (PUlong v) (IN_MECHANISM_TYPE v).
Proof. apply check_arg; [done|]. intros _. apply written_arg, write_ulong_sends. Qed.

(** The attributes a pointer points to: [n] of them at least. *)
Definition attrs_room (arr : option (list CK_ATTRIBUTE)) (n : Z) : Prop :=
  0 <= n /\ forall l, arr = Some l -> n <= zlen l.
Definition attrs_arg (arr : option (list CK_ATTRIBUTE)) (n : Z) : Prop :=
  attrs_room arr n /\ Forall attr_arg (take (Z.to_nat n) (default [] arr)).

Lemma attrs_room_checked arr n :
  attrs_room arr n -> (n =? 0) || nonnull arr = true -> 0 <= n <= zlen (default [] arr).
Proof.
  intros [Hn Hl] [Hz%Z.eqb_eq|H%nonnull_is_Some]%orb_true_iff.
  - subst n. split; [done|apply zlen_nonneg].
  - destruct H as [l ->]. split; [done|by apply Hl].
Qed.

Lemma IN_ATTRIBUTE_BUFFER_arg arr n :
  attrs_room arr n ->
  writes_arg (PAttrBuffer (map attr_size (take (Z.to_nat n) (default [] arr))))
    (IN_ATTRIBUTE_BUFFER arr n).
Proof.
  intros Hr. apply check_arg; [done|]. intros Hc.
  by apply written_arg, write_attribute_buffer_sends, attrs_room_checked.
Qed.
Lemma IN_ATTRIBUTE_ARRAY_arg arr n :
  attrs_arg arr n ->
  writes_arg (PAttrArray (map attr_value (take (Z.to_nat n) (default [] arr))))
    (IN_ATTRIBUTE_ARRAY arr n).
Proof.
  intros [Hr Ha]. apply check_arg; [done|]. intros Hc.
  by apply written_arg, write_attribute_array_sends; [apply attrs_room_checked|].
Qed.

(** A mechanism is written with its parameter, if it is one that has any. *)
Definition mechanism_part (mech : CK_MECHANISM) : part :=
  PMechanism (mechanism mech)
    (if gck_rpc_mechanism_has_no_parameters (mechanism mech) then None
     else (fun bs => slice bs 0 (ulParameterLen mech)) <$> pParameter mech).
Definition no_mechanism : CK_MECHANISM := mkMechanism 0 None 0.
Definition mechanism_arg (mech : CK_MECHANISM) : Prop :=
  array_arg (pParameter mech) (ulParameterLen mech).

Lemma writes_code : writes [] (ok ← no_error; mret (if (ok : bool) then CKR_OK else CKR_HOST_MEMORY))
  (fun _ ret m' => (ret = CKR_OK \/ ret = CKR_HOST_MEMORY) /\ (ret = CKR_OK <-> eb_failures (buffer m') = 0)).
Proof.
  intros m Hb. eapply wp_call; [by apply writes_no_error|]. intros ok m' [Hp Hr]. apply wp_ret.
  split; [done|]. unfold no_failures in Hr. rewrite <- Hr. by destruct ok; split; auto.
Qed.

(** The mechanisms the library sends. *)
Definition mechanism_sent (mech : CK_MECHANISM) : Prop :=
  gck_rpc_mechanism_has_no_parameters (mechanism mech) = true
  \/ gck_rpc_mechanism_has_sane_parameters (mechanism mech) = true.

Lemma write_mechanism_wp mech m q :
  mechanism_arg mech -> clean m -> takes m "M" q ->
  wp (proto_write_mechanism mech) (fun ret m' => message_ok m -> message_ok m' /\
    (ret = CKR_OK -> put (enc_part (mechanism_part mech)) (set_sigverify q m) m'
      /\ eb_failures (buffer m') = 0)
    /\ (mechanism_sent mech -> room_for (buffer m) (zlen (enc_part (mechanism_part mech))) ->
        ret = CKR_OK)) m.
Proof.
  intros Ha [Hb Hf] Ht. unfold proto_write_mechanism. apply wp_bind.
  eapply wp_intro; [exact Ht|].
  assert (forall val n, array_arg val n ->
    mechanism_part mech = PMechanism (mechanism mech) ((fun bs => slice bs 0 n) <$> val) ->
    wp (_ ← on_buffer (egg_buffer_add_uint32 (mechanism mech));
        _ ← on_buffer (egg_buffer_add_byte_array val n);
        ok ← no_error;
        mret (if (ok : bool) then CKR_OK else CKR_HOST_MEMORY))
      (fun ret m' => message_ok m -> message_ok m' /\
        (ret = CKR_OK -> put (enc_part (mechanism_part mech)) (set_sigverify q m) m'
          /\ eb_failures (buffer m') = 0)
        /\ (mechanism_sent mech -> room_for (buffer m) (zlen (enc_part (mechanism_part mech))) ->
            ret = CKR_OK)) (set_sigverify q m)) as Hw.
  { intros val n Hval ->. eapply wp_mono.
    - apply (writes_then (enc_uint32 (mechanism mech))
        (enc_byte_array ((fun bs => slice bs 0 n) <$> val) ++ []));
        [intros; by apply egg_buffer_add_uint32_wp| |exact Hb].
      apply writes_then; [intros; by apply egg_buffer_add_byte_array_wp|]. apply writes_code.
    - intros ret m' [Hp [_ Hr]] [_ Hma]. rewrite app_nil_r in Hp.
      split; [|split; [intros Hret; split; [exact Hp|by apply Hr]|]].
      + destruct Hp as (b & -> & Hb'). split; [apply Hb'|]. cbn. by rewrite (lt_alloc _ _ _ Hb').
      + intros _ Hroom. apply Hr. destruct Hp as (b & -> & Hb').
        pose proof (lt_room _ _ _ Hb' Hroom) as Heb. cbn in *. congruence. }
  destruct (gck_rpc_mechanism_has_no_parameters _) eqn:E1.
  { apply (Hw None 0); [done|]. unfold mechanism_part. by rewrite E1. }
  destruct (gck_rpc_mechanism_has_sane_parameters _) eqn:E2.
  { apply (Hw _ _ Ha). unfold mechanism_part. by rewrite E1. }
  apply wp_bind, wp_zoom. eapply wp_mono; [by apply egg_buffer_add_uint32_wp|].
  intros ok b [Hl _]. apply wp_ret. intros [_ Hma]. split; [|split; [done|]].
  - split; [apply Hl|]. cbn. by rewrite (lt_alloc _ _ _ Hl).
  - intros [Hs|Hs] _; congruence.
Qed.

Lemma IN_MECHANISM_arg mech :
  (forall m, mech = Some m -> mechanism_arg m) ->
  writes_arg (mechanism_part (default no_mechanism mech)) (IN_MECHANISM mech).
Proof.
  intros Ha q q' ps cs Hc Hq. destruct mech as [mech|]; [|by apply rsafe_leave, (left_composing _ q ps)].
  cbn [default] in *. destruct (co_req _ _ _ Hc) as (m & Hm & _).
  destruct (composing_takes _ q q' ps cs m Hc Hm Hq) as (Hclean & Hmok & Ht).
  eapply (rsafe_then _ _ (fun ret cs' => if ret =? CKR_OK then composing q' (ps ++ [mechanism_part mech]) cs'
                                         else E ret cs')).
  - eapply rsafe_req; [exact Hm|by apply (write_mechanism_wp mech m (Some q')); [apply Ha| |]|].
    intros ret m' H. destruct (H Hmok) as (Hm' & Hr & _). destruct (Z.eqb_spec ret CKR_OK) as [->|].
    + destruct (Hr eq_refl) as [Hp Hf]. by apply (composing_put _ q q' ps cs m m').
    + by apply (composing_spoilt _ q ps).
  - intros ret cs' H. unfold check. destruct (ret =? CKR_OK); [by apply rsafe_ret|by apply rsafe_leave].
Qed.

(** ** Running the call *)

(** What the request is when it is sent. *)
Definition request_bytes (ps : list part) : list Z := header id (Some sgq) ++ enc_parts ps.

Lemma composing_sendable ps cs :
  composing EmptyString ps cs -> sendable realloc id (request_bytes ps) cs.
Proof.
  intros [Hms Hl Hc0 Hs Hst Hreq]. by split.
Qed.

(** What the response [r] makes of the call. *)
Definition verdict (r : GckRpcMessage) (ret : Z) (cs : CallState) : Prop :=
  if call_id r =? GCK_RPC_CALL_ERROR then
    exists code, gck_rpc_message_read_ulong r = Ok code /\
      ret = match code.1 with
            | Some ckerr => if ckerr <=? CKR_OK then CKR_DEVICE_ERROR else ckerr
            | None => CKR_DEVICE_ERROR
            end
  else if call_id r =? id then ret = CKR_OK /\ resp cs = Some r /\ signed r sgp
  else ret = CKR_DEVICE_ERROR.

(** The call has been run: [ret] is its result. *)
Definition ran (ps : list part) (ret : Z) (cs : CallState) : Prop :=
  (if ret =? CKR_OK then answered sgp cs else ending ret cs) /\
  ((exists reply r, response_of realloc reply r /\ exchanged c0 (request_bytes ps) reply cs
      /\ verdict r ret cs)
   \/ given_up reliable ret).

Lemma call_run_tail_ran ps cs reply r :
  messages_ok cs -> call_status cs <> CALL_INVALID -> link_ok (conn cs) ->
  (exists m, req cs = Some m /\ call_id m = id) -> resp cs = Some r ->
  parsed_response realloc r -> response_of realloc reply r -> exchanged c0 (request_bytes ps) reply cs ->
  runs unreliable (call_run_tail CKR_OK) (ran ps) cs.
Proof.
  intros Hms1 Hst1 Hl1 (m1 & Hm1 & Hi1) Hr ([Hrb Hrp] & Hra & Hkind) Hresp Hex. unfold call_run_tail.
  apply runs_modify. set (cs2 := set_status CALL_PARSE cs). cbn [Z.eqb negb CKR_OK].
  assert (messages_ok cs2) as Hms2 by exact Hms1.
  eapply runs_on_resp; [exact Hr|apply (wp_gets _ (fun a r' => a = call_id r /\ r' = r)); done|].
  intros a r' [-> ->].
  destruct (Z.eqb_spec (call_id r) GCK_RPC_CALL_ERROR) as [He|Hne].
  - assert (signature r = None) as Hsn by (destruct Hkind as [[_ ?]|[? _]]; [done|unfold GCK_RPC_CALL_ERROR in *; lia]).
    destruct (wp_inv _ _ _ (read_ulong_receives r (sigverify r) (conj Hrb Hrp) (takes_unsigned r "u" Hsn)))
      as (code & r2 & Hrun & Hread & _).
    eapply runs_on_resp; [done|eapply (wp_intro _ (fun a r' => a = code /\ r' = r2)); [exact Hrun|done]|].
    intros a r' [-> ->].
    assert (message_ok r2) as Hr2.
    { destruct Hread as (b & n & -> & Hb & _ & _ & Ha & _). split; [done|]. cbn in *. by rewrite Ha. }
    set (cs3 := set_resp (Some r2) _).
    assert (forall rv, ending rv cs3) as Hend3.
    { intros rv. split; [split; [apply Hms1|by intros ? [= <-]]|]. by split. }
    set (ret := match code with
                | Some ckerr => if ckerr <=? CKR_OK then CKR_DEVICE_ERROR else ckerr
                | None => CKR_DEVICE_ERROR
                end).
    assert (ran ps ret cs3) as Hran.
    { split; [|left; exists reply, r; split_and!; try done; unfold verdict; rewrite He; by exists (code, r2)].
      rewrite (proj2 (Z.eqb_neq _ _)); [apply Hend3|]. unfold ret. destruct code as [v|]; [|done].
      destruct (Z.leb_spec v CKR_OK); [done|unfold CKR_OK in *; lia]. }
    destruct code as [v|]; by apply runs_ret.
  - destruct Hkind as [[? _]|(Hrid & Hf & c & s & Hc' & Hcs & Hsr)]; [done|].
    eapply runs_on_req; [exact Hm1|apply (wp_gets _ (fun a r => a = id /\ r = m1)); done|].
    intros a r' [-> ->]. set (cs3 := set_req (Some m1) _).
    assert (messages_ok cs3) as Hms3.
    { split; [intros ? [= <-]; exact (proj1 Hms1 _ Hm1)|intros ? [= <-]; done]. }
    destruct (Z.eqb_spec id (call_id r)) as [Hidr|Hidr]; cbn [negb].
    + rewrite <- Hidr, Hrow in Hc'. injection Hc' as <-. rewrite Hsgp in Hcs. injection Hcs as <-.
      eapply runs_on_resp; [done|apply (wp_gets _ (fun a r' => a = false /\ r' = r))|].
      { split; [|done]. by apply has_error_false. }
      intros a r' [-> ->]. apply runs_assert; [done|]. apply runs_ret.
      split; [split; try done; by exists r|].
      left. exists reply, r. split_and!; try done. unfold verdict.
      rewrite (proj2 (Z.eqb_neq _ _)) by done. by rewrite <- Hidr, Z.eqb_refl.
    + apply runs_ret. split; [done|].
      left. exists reply, r. split_and!; try done. unfold verdict.
      rewrite !(proj2 (Z.eqb_neq _ _)) by done. done.
Qed.

Lemma call_run_runs ps cs :
  composing EmptyString ps cs -> (reliable = true -> carries c0 (request_bytes ps)) ->
  runs unreliable (call_run realloc) (ran ps) cs.
Proof.
  intros Hc Hrel. pose proof Hc as [_ [Hby Hsane] Hc0 _ _ _].
  unfold runs, wp. rewrite (call_run_split realloc id (request_bytes ps)) by by apply composing_sendable.
  eapply runs_then; [apply (call_send_recv_runs realloc Hok Hmem reliable id (request_bytes ps))|];
    [by apply composing_sendable|done|by apply sane_not_empty|by rewrite Hc0|].
  rewrite Hc0 in *.
  intros ret cs1 (Hms1 & Hst1 & [(-> & _ & Hreq & reply & r & Hr & Hresp & Hex)|[-> Hre]]).
  - pose proof Hex as (Hlr & Hinc & _).
    rewrite Hinc in Hby, Hsane. apply Forall_app in Hby as [_ Hby].
    destruct (sane_stream_frame reply _ Hlr Hsane) as [Hsr Hsane'].
    eapply (call_run_tail_ran ps cs1 reply r); try done; [by rewrite Hst1|by eapply response_parsed].
  - apply runs_modify, runs_ret. split; [|by right]. split; [done|]. split; [done|]. done.
Qed.

Lemma PROCESS_CALL_arg ps cs :
  composing EmptyString ps cs -> (reliable = true -> carries c0 (request_bytes ps)) ->
  (forall rv cs', rv <> CKR_OK -> ran ps rv cs' -> E rv cs') ->
  rsafe (PROCESS_CALL realloc) (fun ret cs' => ret = CKR_OK /\ ran ps CKR_OK cs') cs.
Proof.
  intros Hc Hrel HE'. unfold rsafe, PROCESS_CALL.
  eapply (runs_then _ _ _ _ (fun r cs => match r with inl ret => ret = CKR_OK /\ ran ps CKR_OK cs
                                                    | inr rv => E rv cs end));
    [by apply call_run_runs|].
  intros ret cs' Hr. apply runs_ret. destruct (Z.eqb_spec ret CKR_OK) as [->|Hne]; [done|].
  by apply HE'.
Qed.

(** ** Reading the results *)

(** What a macro for the results does. *)
Definition reads_result {A} (s : string) (m : Z -> Rpc (Z * A)) : Prop :=
  forall ret q q' cs, progress ret q cs -> string_strip s q = Some q' ->
    rsafe (m ret) (fun r => progress r.1 q') cs.

Lemma reads_piece_rsafe {A} (P : A -> Prop) s (m : ST GckRpcMessage (Z * A)) q q' cs :
  reads_piece_as P s m -> answered q cs -> string_strip s q = Some q' ->
  rsafe (rpc (on_resp m)) (fun r cs' => progress r.1 q' cs' /\ (r.1 = CKR_OK -> P r.2)) cs.
Proof.
  intros Hm [[Hrq Hrp] Hst Hl (r & Hr & Hmr & Hsig)] Hq.
  eapply rsafe_resp; [exact Hr|by apply (Hm r q q')|].
  intros v r' (Hb & Ha & Hv). set (cs' := set_resp (Some r') cs).
  assert (messages_ok cs') as Hms.
  { split; [exact Hrq|]. intros ? [= <-]. split; [done|]. rewrite Ha. by apply Hrp. }
  split; [split; [done|]|]; intros E0; destruct (Hv E0) as (? & ? & ?); [|done].
  split; try done. by exists r'.
Qed.

(** The macros: they read when there was no error so far. *)
Lemma out_if_ok_result {A} s (m : ST GckRpcMessage (Z * A)) (d : A) :
  reads_piece s m ->
  reads_result s (fun ret => if ret =? CKR_OK then rpc (on_resp m) else mret (ret, d)).
Proof.
  intros Hm ret q q' cs Hp Hq. destruct (Z.eqb_spec ret CKR_OK) as [->|Hne].
  - eapply rsafe_mono; [by apply (reads_piece_rsafe any s m q q'); [|apply Hp|]|]. by intros r cs' [? _].
  - apply rsafe_ret. by eapply progress_failed.
Qed.

(** The same where the result is put together further. *)
Lemma result_map {A C} s (m : Z -> Rpc (Z * A)) (f : Z * A -> Z * C) :
  (forall v, (f v).1 = v.1) -> reads_result s m ->
  reads_result s (fun ret => v ← m ret; mret (f v)).
Proof.
  intros Hf Hm ret q q' cs Hp Hq. eapply rsafe_then; [by apply (Hm ret q q')|].
  intros v cs' Hv. apply rsafe_ret. by rewrite Hf.
Qed.

(** A null pointer where a result belongs. *)
Lemma bad_argument_result {A} s (d : A) : reads_result s (fun _ => mret (CKR_ARGUMENTS_BAD, d)).
Proof. intros ret q q' cs Hp _. by apply rsafe_ret, (progress_failed _ ret q). Qed.

Lemma OUT_ULONG_result val : reads_result "u" (OUT_ULONG val).
Proof.
  destruct val as [v0|]; [|apply bad_argument_result].
  intros ret q q' cs Hp Hq. unfold OUT_ULONG.
  destruct (Z.eqb_spec ret CKR_OK) as [->|Hne]; cbn [negb];
    [|by apply rsafe_ret; eapply progress_failed].
  destruct (proj2 Hp eq_refl) as [[Hrq Hrp] Hst Hl (r & Hr & Hmr & Hsig)].
  assert (takes r "u" (Some q')) as Ht by by eapply takes_signed.
  eapply (rsafe_then _ _ (fun _ => progress CKR_OK q'));
    [eapply rsafe_resp; [exact Hr|by apply (read_ulong_receives r (Some q'))|]|].
  { intros o r1 [Hread _].
    destruct (msg_ok_alloc (set_sigverify (Some q') r) r1 Hmr Hread) as (Hr1 & Hb1 & Ha1 & Hsig1 & Hsv1).
    apply progress_ok. split; try done.
    - split; [done|]. intros ? [= <-]. split; [done|]. rewrite Ha1. exact (proj2 (Hrp _ Hr)).
    - exists r1. split; [done|]. split; [done|]. split; [rewrite Hsig1; apply Hsig|done]. }
  intros o cs' Hp'. apply rsafe_ret. destruct o; [done|by eapply progress_failed].
Qed.

Lemma OUT_STRUCT_result {R} s (read : R -> ST GckRpcMessage (Z * R)) info :
  (forall i, reads_piece s (read i)) -> reads_result s (OUT_STRUCT read info).
Proof.
  intros Hread. destruct info as [i|]; [|apply bad_argument_result].
  intros ret q q' cs Hp Hq. unfold OUT_STRUCT. destruct (Z.eqb_spec ret CKR_OK) as [->|Hne];
    [|by apply rsafe_ret; eapply progress_failed].
  eapply rsafe_then; [by apply (reads_piece_rsafe any s (read i) q q'); [|apply Hp|]|].
  intros [ret i'] cs' [Hp' _]. by apply rsafe_ret.
Qed.

Lemma OUT_BYTE_ARRAY2_result arr len :
  room arr len -> reads_result "ay" (OUT_BYTE_ARRAY2 arr len).
Proof. intros Hr. by apply out_if_ok_result, read_byte_array_piece. Qed.

Lemma OUT_BYTE_ARRAY_result arr len :
  (forall n, len = Some n -> room arr n) -> reads_result "ay" (OUT_BYTE_ARRAY arr len).
Proof.
  intros Hr. destruct len as [n|]; [|apply bad_argument_result].
  intros ret q q' cs Hp Hq. unfold OUT_BYTE_ARRAY.
  eapply rsafe_then; [by apply (OUT_BYTE_ARRAY2_result arr n (Hr n eq_refl) ret q q')|].
  intros [ret' [arr' n']] cs' Hp'. by apply rsafe_ret.
Qed.

Lemma OUT_ULONG_ARRAY_filled garbage arr len ret q q' cs :
  (forall n, len = Some n -> room arr n) -> progress ret q cs -> string_strip "au" q = Some q' ->
  rsafe (OUT_ULONG_ARRAY garbage arr len ret) (fun r cs' => progress r.1 q' cs' /\
    (r.1 = CKR_OK -> exists n n', len = Some n /\ r.2.2 = Some n' /\ filled arr n (r.2.1, n'))) cs.
Proof.
  intros Hr Hp Hq. destruct len as [n|].
  2: { apply rsafe_ret. split; [|done]. by eapply progress_failed. }
  unfold OUT_ULONG_ARRAY. destruct (Z.eqb_spec ret CKR_OK) as [->|Hne].
  2: { apply rsafe_ret. split; [by eapply progress_failed|done]. }
  eapply rsafe_then; [by apply (reads_piece_rsafe (filled arr n) "au" _ q q'); [|apply Hp|]; auto using read_ulong_array_piece|].
  intros [ret [arr' n']] cs' [Hp' Hf]. apply rsafe_ret. split; [done|]. intros Hret.
  exists n, n'. split; [done|]. split; [done|]. by apply Hf.
Qed.

Lemma OUT_ULONG_ARRAY_result garbage arr len :
  (forall n, len = Some n -> room arr n) -> reads_result "au" (OUT_ULONG_ARRAY garbage arr len).
Proof.
  intros Hr ret q q' cs Hp Hq. eapply rsafe_mono; [by apply (OUT_ULONG_ARRAY_filled garbage arr len ret q q')|].
  by intros r cs' [? _].
Qed.

(** The list the mechanisms are purged in has room for one more. *)
Lemma OUT_MECHANISM_TYPE_ARRAY_result garbage arr len :
  (forall n l, len = Some n -> arr = Some l -> n < zlen l /\ n < 2147483648) ->
  reads_result "au" (OUT_MECHANISM_TYPE_ARRAY garbage arr len).
Proof.
  intros Hr ret q q' cs Hp Hq. unfold OUT_MECHANISM_TYPE_ARRAY.
  eapply rsafe_then; [apply (OUT_ULONG_ARRAY_filled garbage arr len ret q q'); [|done..]|].
  { intros n -> l ->. destruct (Hr n l eq_refl eq_refl). lia. }
  intros [ret' [arr' len']] cs' [Hp' Hf]. cbn [fst snd] in *.
  destruct arr' as [l'|], len' as [n'|]; try by apply rsafe_ret.
  destruct (Z.eqb_spec ret' CKR_OK) as [->|Hne]; [|by apply rsafe_ret].
  destruct (Hf eq_refl) as (n & ? & Hlen & [= <-] & Hfill). unfold filled in Hfill.
  destruct arr as [l|]; [|done]. destruct (Hr n l Hlen eq_refl) as [Hn Hsmall]. cbn [fst snd] in Hfill.
  destruct Hfill as [Hz Hn']. destruct (purge_in_room l' n') as (l2 & n2 & Hrun); [lia..|].
  eapply rsafe_then.
  - apply (rsafe_lift _ (fun _ => progress CKR_OK q') cs' _ Hrun Hp').
  - intros [l3 n3] cs2 Hp2. by apply rsafe_ret.
Qed.

Lemma OUT_ATTRIBUTE_ARRAY_result garbage arr n :
  room arr n -> (forall l, arr = Some l -> Forall value_room l) ->
  reads_result "aAu" (OUT_ATTRIBUTE_ARRAY garbage arr n).
Proof. intros Hr Hv. by apply out_if_ok_result, read_attribute_array_piece. Qed.
End OneCall.
End Calls.
