(* ===== verification/ClientPool.v ===== *)
(** gck-rpc-module.c, what holds of the pool of connections between calls, and of a
    whole call from [BEGIN_CALL] to [END_CALL]. *)
From S2P Require Import Prelude EggBuffer Pkcs11 RpcUtil Calls Message Transport Client.
From S2P Require Import ClientProto ClientCalls ClientSpecs ClientReads ClientRun ClientMacros.

Section Pool.
Context (realloc : EggBufferAllocator).

(** An attempt to connect finds a socket with a daemon behind it that sends
    responses the library gets along with. *)
Definition dial_ok (d : dialled) : Prop :=
  (forall a, d_socket d a <> Some (-1)) /\
  forall t, bytes (stream t (d_recv d)) /\ sane_stream (stream t (d_recv d)).

(** The library between calls: the pool holds connections ready for use, as many
    as the counter says, and at most [MAX_CALL_STATE_POOL]. *)
Record client_ok (c : Client) : Prop := {
  cl_pool : Forall (ready realloc) (call_state_pool c);
  cl_count : n_call_state_pool c = zlen (call_state_pool c);
  cl_max : n_call_state_pool c <= MAX_CALL_STATE_POOL;
  cl_dials : Forall dial_ok (dials c);
  cl_path : pkcs11_initialized c = true -> pkcs11_socket_path c <> EmptyString;
}.

(** A call leaves these variables alone. *)
Definition same_settings (c c' : Client) : Prop :=
  pkcs11_initialized c' = pkcs11_initialized c /\ pkcs11_socket_path c' = pkcs11_socket_path c.

(** The library cannot tell whether the network carries its calls. *)
Abbreviation unknown := (fun _ : CallState => false = false).

Lemma runs_with_call {A} (m : Net CallState A) cs c (Q : A * CallState -> Client -> Prop) :
  client_ok c -> runs unknown m (fun a cs' => Q (a, cs') c) cs ->
  runs client_ok (with_call m cs) Q c.
Proof.
  intros Hc Hm. unfold runs, wp, with_call in *. destruct (m cs) as [[[a|] cs']|]; done.
Qed.

(** ** Connecting *)

Lemma call_connect_runs path app_id d :
  dial_ok d -> path <> EmptyString ->
  runs unknown (call_connect path app_id d)
    (fun rv cs => rv = CKR_OK -> ready realloc cs) new_call.
Proof.
  intros [Hsock Hstream] Hpath. unfold call_connect. apply runs_get.
  apply runs_assert; [done|]. apply runs_assert; [done|].
  apply runs_assert; [by apply negb_true_iff, bool_decide_eq_false|].
  assert (forall a sock t, d_socket d a = Some sock ->
    runs unknown
      (net (put_st (mkCall sock (mkConn t (d_recv d) (d_send d) []) (req new_call) (resp new_call)
         CALL_READY));; call_write (encode_appid app_id))
      (fun rv cs => rv = CKR_OK -> ready realloc cs) new_call) as Hconnected.
  { intros a sock t Hd. apply runs_bind, runs_net, wp_put. set (cs := mkCall _ _ _ _ _).
    assert (socket cs <> -1) as Hs by (intros Hs; apply (Hsock a); by rewrite Hd, <- Hs).
    eapply runs_mono; [apply (call_write_runs false (encode_appid app_id) 0 cs); done|done|].
    intros rv cs' ((Hrq & Hrp & Hst & Ht) & Hr & Hrv) ->.
    destruct Hrv as [(_ & Hs' & _)|[? _]]; [|done].
    split; [split; [by rewrite Hrq|by rewrite Hrp]| |by rewrite Hs'|by rewrite Hst].
    unfold link_ok, incoming. rewrite Hr, Ht. apply Hstream. }
  destruct (remote_path path) as [[tls rest]|].
  - destruct (gck_rpc_parse_host_port _ rest) as [[ok host] port]. destruct ok; cbn [negb]; [|done].
    destruct (d_socket d (Inet host port)) as [sock|] eqn:Ed; [|done].
    destruct tls; cbn [negb]; [|by apply (Hconnected (Inet host port))].
    destruct (d_tls_calloc d), (d_init_tls_psk d), (d_start_tls d); cbn [negb]; try done.
    by apply (Hconnected (Inet host port)).
  - destruct (d_socket d (Unix path)) as [sock|] eqn:Ed; [|done]. by apply (Hconnected (Unix path)).
Qed.

Lemma zlen_pool_cons {A} (x : A) l : zlen (x :: l) - 1 = zlen l.
Proof. rewrite zlen_cons. lia. Qed.

Lemma call_lookup_runs c :
  client_ok c -> pkcs11_socket_path c <> EmptyString ->
  runs client_ok call_lookup (fun r c' => client_ok c'
    /\ same_settings c c' /\ forall cs, r = inl cs -> ready realloc cs) c.
Proof.
  intros Hc Hpath. pose proof Hc as [Hpool Hn Hmax Hdials Hp]. unfold call_lookup. apply runs_get.
  eapply (runs_then _ _ _ (fun r c' => client_ok c' /\ same_settings c c'
    /\ forall cs, r = inl cs -> ready realloc cs)).
  - destruct (call_state_pool c) as [|cs pool] eqn:Epool.
    + destruct (dials c) as [|d ds] eqn:Ed; [by apply runs_waiting|]. apply runs_modify.
      apply Forall_cons in Hdials as [Hd Hds].
      assert (client_ok (set_dials ds c)) as Hc' by (split; cbn; rewrite ?Epool; done).
      destruct (d_calloc d); cbn [negb]; [|by apply runs_ret].
      eapply runs_then.
      * apply (runs_with_call _ _ _ (fun r c' => c' = set_dials ds c /\ (r.1 = CKR_OK -> ready realloc r.2)));
          [done|]. eapply runs_mono; [by apply call_connect_runs|done|]. by intros rv cs Hrv.
      * intros [rv cs] c' [-> Hrv]. cbn [fst snd] in Hrv. apply runs_ret. split; [done|]. split; [done|].
        destruct (Z.eqb_spec rv CKR_OK); intros cs' [= <-]; auto.
    + rewrite zlen_cons in Hn. pose proof (zlen_nonneg pool). apply Forall_cons in Hpool as [Hcs Hpool].
      unfold MAX_CALL_STATE_POOL in Hmax.
      apply runs_assert; [apply Z.ltb_lt; lia|]. apply runs_modify, runs_ret.
      split; [|split; [done|by intros ? [= <-]]].
      split; cbn; try done; rewrite wrap32_id by lia; unfold MAX_CALL_STATE_POOL; lia.
  - intros [cs|rv] c' (Hc' & Hi & Hcs); [|by apply runs_ret]. destruct (Hcs cs eq_refl) as [? ? ? Hst].
    apply runs_assert; [by apply bool_decide_true|].
    apply runs_assert; [by rewrite (proj2 (Z.eqb_neq _ _))|]. by apply runs_ret.
Qed.

(** ** The end of a call *)

Lemma message_free_ok o :
  (forall m, o = Some m -> message_ok realloc m) -> gck_rpc_message_free o = Ok tt.
Proof.
  intros Ho. destruct o as [m|]; [|done]. destruct (Ho m eq_refl) as [_ Ha].
  unfold gck_rpc_message_free. by rewrite Ha.
Qed.

(** What [call_done] makes of a call that ends with [ret]. *)
Definition done_with (cs : CallState) (ret : Z) (c c' : Client) : Prop :=
  if negb (ret =? CKR_DEVICE_ERROR) && negb (ret =? CKR_DEVICE_REMOVED)
     && negb (socket cs =? -1) && (n_call_state_pool c <? MAX_CALL_STATE_POOL)
  then c' = set_pool (set_status CALL_READY cs :: call_state_pool c) (n_call_state_pool c + 1) c
  else c' = c.

Lemma call_checked_ok cs ret :
  ending realloc ret cs -> (ret = CKR_OK -> answered realloc EmptyString cs) ->
  exists ret', call_checked cs ret = Ok ret'
    /\ (ret' = ret \/ ret = CKR_OK /\ ret' = CKR_GENERAL_ERROR).
Proof.
  intros (Hms & Hst & Hl) Hok. unfold call_checked.
  destruct (req cs) as [q|]; [|by eauto]. destruct (resp cs) as [r|] eqn:Er; [|by eauto].
  destruct (bool_decide _ && (ret =? CKR_OK)) eqn:E; [|by eauto].
  apply andb_true_iff in E as [_ ->%Z.eqb_eq].
  destruct (gck_rpc_message_buffer_error r); [by eauto|].
  destruct (an_resp _ _ _ (Hok eq_refl)) as (r' & Hr' & _ & _ & Hs). rewrite Er in Hr'. injection Hr' as <-.
  unfold gck_rpc_message_is_verified. rewrite Hs. by eauto.
Qed.

Lemma call_done_runs cs ret c :
  client_ok c -> ending realloc ret cs -> (ret = CKR_OK -> answered realloc EmptyString cs) ->
  runs client_ok (call_done cs ret) (fun ret' c' => client_ok c' /\ done_with cs ret' c c'
    /\ (ret' = ret \/ ret = CKR_OK /\ ret' = CKR_GENERAL_ERROR)) c.
Proof.
  intros Hc Hend Hok. unfold call_done. pose proof Hend as (Hms & Hst & Hl).
  apply runs_assert; [by apply negb_true_iff, bool_decide_eq_false|].
  destruct (call_checked_ok cs ret Hend Hok) as (ret' & Hch & Hret'). eapply runs_lift_res; [exact Hch|].
  apply runs_get. unfold done_with. destruct (_ && _) eqn:E.
  - pose proof E as E0. rewrite !andb_true_iff in E0. destruct E0 as (((E1 & _) & E2) & E3%Z.ltb_lt).
    apply negb_true_iff, Z.eqb_neq in E1, E2.
    destruct Hc as [Hpool Hn Hmax Hdials Hp]. pose proof (zlen_nonneg (call_state_pool c)).
    assert (n_call_state_pool c < 8) as Hlt by exact E3.
    apply runs_modify, runs_ret. rewrite wrap32_id by lia. rewrite E.
    split; [|done]. split; cbn; try done.
    + constructor; [|done]. split; try done. cbn. destruct Hret' as [->|[-> _]]; [by apply Hl|].
      apply (an_link _ _ _ (Hok eq_refl)).
    + rewrite zlen_cons. lia.
    + unfold MAX_CALL_STATE_POOL. lia.
  - eapply runs_lift_res.
    { unfold call_destroy, mbind, res_bind. rewrite message_free_ok by apply Hms. apply message_free_ok, Hms. }
    apply runs_ret. by rewrite E.
Qed.

(** ** A whole call *)

Context (Hok : AllocatorOk realloc) (Hmem : gives_memory realloc).

(** The code of a call may be left with an error. *)
Definition leaving (rv : Z) (cs : CallState) : Prop := rv <> CKR_OK /\ ending realloc rv cs.

(** What the body of a call has to promise, from the arguments to the results. *)
Definition body_ok {A} (id : Z) (sgq : string) (body : Rpc (Z * A)) : Prop :=
  forall c0 cs, composing realloc id sgq c0 sgq [] cs ->
    rsafe false leaving body (fun r => progress realloc r.1 EmptyString) cs.

(** What a call does on its connection, and the code it comes to. *)
Definition code {A} (r : (Z * A) + Z) : Z := match r with inl r => r.1 | inr rv => rv end.
Definition on_call {A} (id : Z) (body : Rpc (Z * A)) : Net CallState ((Z * A) + Z) :=
  ret ← call_prepare realloc id;
  if negb (ret =? CKR_OK) then mret (inr ret) else body.

(** A call is over with the code [ret]. *)
Definition over_with (ret : Z) (cs : CallState) : Prop :=
  ending realloc ret cs /\ (ret = CKR_OK -> answered realloc EmptyString cs).

Lemma on_call_runs {A} id row sgq (body : Rpc (Z * A)) cs :
  0 < id < GCK_RPC_CALL_MAX -> gck_rpc_call id = Ok row -> c_request row = Some sgq ->
  body_ok id sgq body -> ready realloc cs ->
  runs unknown (on_call id body) (fun r => over_with (code r)) cs.
Proof.
  intros Hid Hrow Hsgq Hbody Hcs. eapply runs_then.
  - by apply (call_prepare_runs realloc id row sgq Hid Hrow Hsgq (conn cs) Hok Hmem).
  - intros ret cs' [-> Hco]. cbn [Z.eqb negb CKR_OK].
    eapply runs_mono; [by apply (Hbody (conn cs))|done|].
    intros [[ret args]|rv] cs2 H; [|by destruct H as [? ?]].
    split; [|by destruct H]. by apply (progress_ending _ ret ret EmptyString).
Qed.

Lemma CALL_runs {A} id (args : A) body c :
  (forall cs, ready realloc cs -> runs unknown (on_call id body) (fun r => over_with (code r)) cs) ->
  client_ok c -> runs client_ok (CALL realloc id args body) (fun _ => client_ok) c.
Proof.
  intros Hcall Hc. unfold CALL. apply runs_get.
  destruct (pkcs11_initialized c) eqn:Hi; cbn [negb]; [|by apply runs_ret].
  eapply runs_then; [by apply call_lookup_runs; [|apply Hc]|].
  intros [cs|rv] c1 (Hc1 & _ & Hcs); [|by apply runs_ret]. specialize (Hcs cs eq_refl).
  eapply runs_then.
  - apply (runs_with_call _ _ _ (fun v c' => c' = c1 /\ over_with (code v.1) v.2)); [done|].
    eapply runs_mono; [by apply Hcall|done|done].
  - intros [r cs'] c2 [-> [Hend Hans]]. cbn [fst snd] in *.
    assert (exists args', (match r with inl r => r | inr rv => (rv, args) end) = (code r, args')) as [args' ->]
      by (destruct r as [[]|]; eauto).
    eapply runs_then; [by apply call_done_runs|]. intros ret' c3 (Hc3 & _). by apply runs_ret.
Qed.

(** The same for the calls that are not written with the macros.  [write] puts the
    whole request together; the response has no results. *)
Definition whole_request (id : Z) (sgq : string) (ps : list part) (write : ST GckRpcMessage bool) : Prop :=
  forall c0 cs m, composing realloc id sgq c0 sgq [] cs -> req cs = Some m ->
    wp write (fun ok m' => message_ok realloc m'
      /\ (ok = true -> composing realloc id sgq c0 EmptyString ps (set_req (Some m') cs))) m.

Lemma plain_job_runs id row sgq ps write cs :
  0 < id < GCK_RPC_CALL_MAX -> gck_rpc_call id = Ok row -> c_request row = Some sgq ->
  c_response row = Some EmptyString -> whole_request id sgq ps write -> ready realloc cs ->
  runs unknown (plain_job realloc id write) over_with cs.
Proof.
  intros Hid Hrow Hsgq Hsgp Hwrite Hcs. unfold plain_job.
  eapply runs_then; [by apply (call_prepare_runs realloc id row sgq Hid Hrow Hsgq (conn cs) Hok Hmem)|].
  intros ret cs' [-> Hco]. cbn [Z.eqb negb CKR_OK].
  destruct (co_req _ _ _ _ _ _ _ Hco) as (m & Hm & _).
  eapply runs_on_req; [exact Hm|by apply (Hwrite (conn cs) cs' m)|].
  intros ok m' [Hm' Hco']. destruct ok; cbn [negb].
  - eapply runs_mono;
      [by apply (call_run_runs realloc id row sgq EmptyString Hrow Hsgp (conn cs) Hok Hmem false ps);
        [apply Hco'|]|done|].
    intros ret cs2 [Hr _]. destruct (Z.eqb_spec ret CKR_OK) as [->|]; [|done].
    by split; [destruct Hr|].
  - apply runs_ret. split; [|done].
    destruct Hco as [[Hq Hp] Hl ? ? Hst _]. split; [split; [by intros ? [= <-]|exact Hp]|].
    split; [cbn; by rewrite Hst|done].
Qed.

Lemma plain_call_runs id row sgq ps write c :
  0 < id < GCK_RPC_CALL_MAX -> gck_rpc_call id = Ok row -> c_request row = Some sgq ->
  c_response row = Some EmptyString -> client_ok c -> pkcs11_socket_path c <> EmptyString ->
  whole_request id sgq ps write ->
  runs client_ok (plain_call realloc id write) (fun _ c' => client_ok c' /\ same_settings c c') c.
Proof.
  intros Hid Hrow Hsgq Hsgp Hc Hpath Hwrite. unfold plain_call.
  eapply runs_then; [by apply call_lookup_runs|].
  intros [cs|rv] c1 (Hc1 & Hsame & Hcs); [|by apply runs_ret]. specialize (Hcs cs eq_refl).
  eapply runs_then.
  - apply (runs_with_call _ _ _ (fun v c' => c' = c1 /\ over_with v.1 v.2)); [done|].
    eapply runs_mono; [by apply (plain_job_runs id row sgq ps)|done|done].
  - intros [ret cs'] c2 [-> [Hend Hans]]. cbn [fst snd] in *.
    eapply runs_then; [by apply call_done_runs|]. intros ret' c3 (Hc3 & Hdone & _). apply runs_ret.
    split; [done|]. unfold done_with in Hdone. destruct (_ && _); subst c3; [|done].
    destruct Hsame. by split.
Qed.
End Pool.
