(* ===== verification/ClientExact.v ===== *)
(** gck-rpc-module.c: what a call sends and what it returns, exactly, when its
    arguments are as the standard asks for, memory is found, and the network carries
    the request and a response that is known. *)
From S2P Require Import Prelude EggBuffer Pkcs11 RpcUtil Calls Message Transport Client.
From S2P Require Import ClientProto ClientCalls ClientSpecs ClientReads ClientRun ClientReplies.
From S2P Require Import ClientMacros ClientPool.

(** ** Reading the parts of a response *)

(** [m] takes the parts [ps] off a message that was received without an error, and
    returns [v]. *)
Definition decodes {A} (ps : list part) (m : ST GckRpcMessage A) (v : A) : Prop :=
  forall r q q' rest, msg_ok r -> eb_failures (buffer r) = 0 -> signed r q ->
    string_strip (sigs_of ps) q = Some q' ->
    unread r = enc_parts ps ++ rest ->
    exists r', m r = Ok (v, r') /\ msg_ok r' /\ signed r' q' /\ unread r' = rest
      /\ buffer r' = buffer r.

Lemma decodes_received {A} p (rd : ST GckRpcMessage (option A)) v :
  received p rd v -> decodes [p] rd (Some v).
Proof.
  intros Hrd r q q' rest Hr _ Hs Hq Hu. cbn [sigs_of] in Hq. rewrite string_append_nil in Hq.
  assert (enc_parts [p] = enc_part p) as He by apply app_nil_r. rewrite He in Hu.
  destruct (Hrd r (Some q') rest Hr (takes_signed _ _ _ _ Hs Hq) Hu) as (Hrun & Hok & Hrest).
  eexists. split; [exact Hrun|]. split; [done|]. by destruct Hs.
Qed.

Lemma decodes_bind {A B} ps1 ps2 (m : ST GckRpcMessage A) a (k : A -> ST GckRpcMessage B) v :
  decodes ps1 m a -> decodes ps2 (k a) v -> decodes (ps1 ++ ps2) (m ≫= k) v.
Proof.
  intros Hm Hk r q q' rest Hr Hf Hs Hq Hu. rewrite sigs_of_app in Hq.
  apply string_strip_app2 in Hq as (t & Ht & Hq). rewrite enc_parts_app, <- (assoc_L app) in Hu.
  destruct (Hm r q t _ Hr Hf Hs Ht Hu) as (r1 & Hrun1 & Hr1 & Hs1 & Hu1 & Hb1).
  destruct (Hk r1 t q' rest Hr1 ltac:(by rewrite Hb1) Hs1 Hq Hu1) as (r2 & Hrun2 & Hr2 & Hs2 & Hu2 & Hb2).
  exists r2. unfold mbind, ST_bind. rewrite Hrun1. by split_and!; [..|congruence].
Qed.

Lemma decodes_ret {A} (v : A) : decodes [] (mret v) v.
Proof. intros r q q' rest Hr _ Hs [= <-] Hu. by exists r. Qed.

Lemma decodes_check {A} p (m : ST GckRpcMessage A) v :
  (forall r rest, msg_ok r -> eb_failures (buffer r) = 0 -> unread r = enc_part p ++ rest ->
     exists n, m r = Ok (v, set_parsed n r) /\ msg_ok (set_parsed n r)
       /\ unread (set_parsed n r) = rest) ->
  decodes [p] (check_part (sig_of p);; m) v.
Proof.
  intros Hm r q q' rest Hr Hf Hs Hq Hu. cbn [sigs_of] in Hq. rewrite string_append_nil in Hq.
  assert (enc_parts [p] = enc_part p) as He by apply app_nil_r. rewrite He in Hu.
  destruct (Hm (set_sigverify (Some q') r) rest Hr Hf Hu) as (n & Hrun & Hok & Hrest).
  eexists. unfold mbind, ST_bind. rewrite (takes_signed _ _ _ _ Hs Hq).
  split; [exact Hrun|]. split; [done|]. by destruct Hs.
Qed.

(** What a byte array from the response does to the caller's buffer. *)
Definition store_bytes (arr : option block) (max : Z) (p : option block) (n : Z)
    : Z * (option block * Z) :=
  match p with
  | None => (if nonnull arr then CKR_BUFFER_TOO_SMALL else CKR_OK, (arr, n))
  | Some bs =>
      match arr with
      | None => (CKR_OK, (None, zlen bs))
      | Some a => if max <? zlen bs then (CKR_BUFFER_TOO_SMALL, (Some a, zlen bs))
                  else (CKR_OK, (Some (bs ++ drop (length bs) a), zlen bs))
      end
  end.

Lemma read_byte_array_decodes arr max p n :
  room arr max -> (forall bs, p = Some bs -> zlen bs < 2147483647) -> (p = None -> is_u32 n) ->
  decodes [PByteArray p n] (proto_read_byte_array arr max max) (store_bytes arr max p n).
Proof.
  intros Hroom Hp Hn. apply (decodes_check (PByteArray p n)). intros r rest Hr _ Hu.
  destruct p as [bs|]; cbn [enc_part] in Hu; rewrite <- (assoc_L app) in Hu.
  - destruct (msg_get_reads _ _ _ (get_byte_reads 1) r _ Hr Hu) as (Hrun1 & Hr1 & Hu1).
    destruct (msg_get_reads _ _ _ (get_byte_array_reads (Some bs) ltac:(intros ? [= <-]; by apply Hp))
      _ _ Hr1 Hu1) as (Hrun2 & Hr2 & Hu2).
    eexists. unfold mbind, ST_bind. rewrite Hrun1. cbn [Z.eqb]. rewrite Hrun2.
    cbn [byte_array_value store_bytes]. split; [|split; [exact Hr2|exact Hu2]].
    destruct arr as [a|]; [|done]. destruct (Z.ltb_spec max (zlen bs)) as [|Hle]; [done|].
    specialize (Hroom a eq_refl). pose proof (zlen_nonneg bs). unfold lift_res.
    change (default [] (Some bs)) with bs. rewrite mem_read_ok by lia. rewrite slice_full. unfold mem_write.
    rewrite bool_decide_true by lia.
    assert (Z.to_nat (0 + zlen bs) = length bs) as -> by (unfold zlen; lia). done.
  - destruct (msg_get_reads _ _ _ (get_byte_reads 0) r _ Hr Hu) as (Hrun1 & Hr1 & Hu1).
    destruct (msg_get_reads _ _ _ (get_uint32_reads n (Hn eq_refl)) _ _ Hr1 Hu1) as (Hrun2 & Hr2 & Hu2).
    eexists. unfold mbind, ST_bind. rewrite Hrun1. cbn [Z.eqb]. rewrite Hrun2.
    split; [done|]. split; [exact Hr2|exact Hu2].
Qed.

Section Exact.
Context (realloc : EggBufferAllocator) (Hok : AllocatorOk realloc) (Hmem : gives_memory realloc).
Abbreviation message_ok := (message_ok realloc).
Abbreviation messages_ok := (messages_ok realloc).

(** [m] returns, and does not leave the call. *)
Abbreviation sure := (@rsafe true (fun _ _ => False)).

Section OneCall.
(** The call, its signatures, and the connection at the beginning. *)
Context (id : Z) (row : GckRpcCall) (sgq sgp : string).
Context (Hid : 0 < id < GCK_RPC_CALL_MAX) (Hrow : gck_rpc_call id = Ok row).
Context (Hsgq : c_request row = Some sgq) (Hsgp : c_response row = Some sgp).
Context (c0 : Conn).
Abbreviation composing := (composing realloc id sgq c0).

(** ** The arguments *)

(** A macro that writes [p]: where the request stays short it does not fail. *)
Definition composes {A} (p : part) (m : Rpc A) : Prop :=
  forall q q' ps cs, composing q ps cs -> string_strip (sig_of p) q = Some q' ->
    zlen (request_bytes id sgq (ps ++ [p])) <= 2147483647 ->
    sure m (fun _ => composing q' (ps ++ [p])) cs.

(** There is room for the part in the request. *)
Lemma composing_room p q ps cs m :
  composing q ps cs -> req cs = Some m ->
  zlen (request_bytes id sgq (ps ++ [p])) <= 2147483647 -> room_for (buffer m) (zlen (enc_part p)).
Proof.
  intros [[Hq _] _ _ _ _ (m0 & Hm & _ & _ & _ & Hcon)] Hm0 Hz. rewrite Hm in Hm0. injection Hm0 as ->.
  split; [exists realloc; split; [apply (Hq _ Hm)|done]|]. rewrite Hcon.
  unfold request_bytes in Hz. rewrite enc_parts_app, (assoc_L app), zlen_app in Hz.
  assert (enc_parts [p] = enc_part p) as <- by apply app_nil_r. lia.
Qed.

Lemma written_exact p k : sends p k -> composes p (written_or_leave k).
Proof.
  intros Hk q q' ps cs Hc Hq Hz. destruct (co_req _ _ _ _ _ _ _ Hc) as (m & Hm & _).
  destruct (composing_takes realloc id sgq c0 p q q' ps cs m Hc Hm Hq) as (Hclean & _ & Ht).
  pose proof (composing_room p q ps cs m Hc Hm Hz) as Hroom.
  eapply (rsafe_then _ _ _ _ (fun ok cs' => ok = true /\ composing q' (ps ++ [p]) cs')).
  - eapply rsafe_req; [exact Hm|by apply (Hk m (Some q'))|]. intros ok m' [Hp Hf].
    assert (eb_failures (buffer m') = 0) as Hf0.
    { destruct Hp as (b & -> & Hb). pose proof (lt_room _ _ _ Hb Hroom) as E. destruct Hclean. cbn in *. congruence. }
    split; [by apply Hf|]. by apply (composing_put realloc id sgq c0 p q q' ps cs m m').
  - intros ok cs' [-> H]. by apply rsafe_ret.
Qed.

Lemma check_exact {A} p b rv (k : unit -> Rpc A) :
  b = true -> composes p (k tt) -> composes p (check b rv ≫= k).
Proof. by intros ->. Qed.

Lemma IN_BYTE_composes v : is_u8 v -> composes (PByte v) (IN_BYTE v).
Proof. intros. by apply written_exact, write_byte_sends. Qed.
Lemma IN_ULONG_composes v : composes (PUlong v) (IN_ULONG v).
Proof. apply written_exact, write_ulong_sends. Qed.
Lemma IN_BYTE_BUFFER_composes arr len :
  composes (PByteBuffer (buffer_flags arr len) (default 0 len)) (IN_BYTE_BUFFER arr len).
Proof. apply written_exact, write_byte_buffer_sends. Qed.
Lemma IN_BYTE_ARRAY_composes arr n :
  array_arg arr n -> (arr = None -> n = 0) -> composes (PBytes arr n) (IN_BYTE_ARRAY arr n).
Proof.
  intros Ha Hn. apply check_exact; [|by apply written_exact, write_byte_array_sends].
  destruct arr; [by rewrite orb_true_r|]. by rewrite Hn.
Qed.
Lemma IN_SPACE_STRING_composes s n :
  bytes s -> zlen s = n -> 0 < n < 2147483647 ->
  composes (PSpaceString s) (IN_SPACE_STRING (Some s) n).
Proof. intros. by apply written_exact, write_space_string_sends. Qed.
Lemma IN_MECHANISM_TYPE_composes v :
  gck_rpc_mechanism_is_supported v = true -> composes (PUlong v) (IN_MECHANISM_TYPE v).
Proof. intros. apply check_exact; [done|]. apply written_exact, write_ulong_sends. Qed.
Lemma IN_ATTRIBUTE_ARRAY_composes arr n :
  attrs_arg arr n -> (arr = None -> n = 0) ->
  composes (PAttrArray (map attr_value (take (Z.to_nat n) (default [] arr)))) (IN_ATTRIBUTE_ARRAY arr n).
Proof.
  intros [Hr Ha] Hn.
  assert ((n =? 0) || nonnull arr = true) as Hc
    by (destruct arr; [by rewrite orb_true_r|by rewrite Hn]).
  apply check_exact; [done|]. by apply written_exact, write_attribute_array_sends; [apply attrs_room_checked|].
Qed.

Lemma IN_MECHANISM_composes mech :
  mechanism_arg mech -> mechanism_sent mech ->
  composes (mechanism_part mech) (IN_MECHANISM (Some mech)).
Proof.
  intros Ha Hsent q q' ps cs Hc Hq Hz. destruct (co_req _ _ _ _ _ _ _ Hc) as (m & Hm & _).
  destruct (composing_takes realloc id sgq c0 (mechanism_part mech) q q' ps cs m Hc Hm Hq)
    as (Hclean & Hmok & Ht).
  pose proof (composing_room _ q ps cs m Hc Hm Hz) as Hroom.
  eapply (rsafe_then _ _ _ _ (fun ret cs' => ret = CKR_OK
    /\ composing q' (ps ++ [mechanism_part mech]) cs')).
  - eapply rsafe_req; [exact Hm|by apply (write_mechanism_wp realloc mech m (Some q'))|].
    intros ret m' H. destruct (H Hmok) as (_ & Hr & Hret). specialize (Hret Hsent Hroom).
    destruct (Hr Hret) as [Hp Hf]. split; [done|]. by apply (composing_put realloc id sgq c0 _ q q' ps cs m m').
  - intros ret cs' [-> H]. by apply rsafe_ret.
Qed.

(** One argument, then the rest. *)
Lemma composes_then {A B} p rest all (m : Rpc A) (k : A -> Rpc B) Q ps cs :
  composes p m -> composing (sigs_of (p :: rest)) ps cs -> all = ps ++ p :: rest ->
  zlen (request_bytes id sgq all) <= 2147483647 ->
  (forall a cs', composing (sigs_of rest) (ps ++ [p]) cs' -> runs (fun _ => False) (k a) Q cs') ->
  runs (fun _ => False) (m ≫= k) Q cs.
Proof.
  intros Hm Hc -> Hz Hk.
  assert (zlen (request_bytes id sgq (ps ++ [p])) <= 2147483647) as Hz1.
  { unfold request_bytes in *. rewrite (cons_middle p ps rest), (assoc_L app), enc_parts_app, (assoc_L app), zlen_app in Hz.
    pose proof (zlen_nonneg (enc_parts rest)). lia. }
  pose proof (Hm _ (sigs_of rest) ps cs Hc (string_strip_app _ _) Hz1) as Hr.
  unfold rsafe, runs, wp, mbind, Rpc_bind in *. destruct (m cs) as [[[[a|rv]|] cs']|]; try done. by apply Hk.
Qed.

(** ** The exchange *)

(** The call has been answered: [q] was sent, and [rest] is still to come. *)
Record ended (q rest : list Z) (cs : CallState) : Prop := {
  en_messages : messages_ok cs;
  en_status : call_status cs = CALL_PARSE;
  en_socket : socket cs <> -1;
  en_link : link_ok (conn cs);
  en_incoming : incoming (conn cs) = rest;
  en_sent : sent_over c0 (frame q) (conn cs);
}.

(** Of the response the bytes [payload] are left, and [s] of its signature. *)
Record reply_at (q rest : list Z) (s : string) (payload : list Z) (cs : CallState) : Prop := {
  ra_ended : ended q rest cs;
  ra_resp : exists r, resp cs = Some r /\ msg_ok r /\ signed r s
    /\ eb_failures (buffer r) = 0 /\ unread r = payload;
}.

Lemma link_after c reply rest :
  link_ok c -> incoming c = frame reply ++ rest -> is_u32 (zlen reply) ->
  bytes rest /\ sane_stream rest.
Proof.
  intros [Hb Hs] Hinc Hz. rewrite Hinc in Hb, Hs. apply Forall_app in Hb as [_ Hb].
  by destruct (sane_stream_frame reply rest Hz Hs).
Qed.

Lemma PROCESS_CALL_reply ps cs payload rest :
  composing EmptyString ps cs -> willing (4 + zlen (request_bytes id sgq ps)) c0 ->
  is_u32 (zlen (header id (Some sgp) ++ payload)) ->
  incoming c0 = frame (header id (Some sgp) ++ payload) ++ rest ->
  runs (fun _ => False) (PROCESS_CALL realloc)
    (fun r cs' => r = inl CKR_OK /\ reply_at (request_bytes id sgq ps) rest sgp payload cs') cs.
Proof.
  intros Hc Hw Hz Hinc. pose proof Hc as [_ Hl Hc0 _ _ _]. rewrite <- Hc0 in Hw, Hinc.
  pose proof (signature_short id row GCK_RPC_RESPONSE sgp Hrow Hsgp) as Hstr.
  destruct (call_run_reply realloc Hok Hmem id row sgp (request_bytes id sgq ps) cs sgp payload rest)
    as (cs' & r & Hrun & Hms & Hst & Hr & Hmr & Hsig & Hu & Hrest & Hsent & Hsk & Hf);
    try done; [by apply composing_sendable with (c0 := c0)|lia|apply Hl|].
  unfold runs, wp, PROCESS_CALL, mbind, Net_bind. rewrite Hrun. split; [done|].
  split; [|by exists r]. split; try done; [|by rewrite <- Hc0].
  unfold link_ok. rewrite Hrest. by eapply link_after.
Qed.

(** What the code of an error response comes to. *)
Definition error_of (code : Z) : Z := if code <=? CKR_OK then CKR_DEVICE_ERROR else code.

Lemma PROCESS_CALL_error ps cs code rest :
  composing EmptyString ps cs -> willing (4 + zlen (request_bytes id sgq ps)) c0 -> is_u64 code ->
  incoming c0 = frame (header GCK_RPC_CALL_ERROR None ++ enc_uint64 code) ++ rest ->
  runs (fun _ => False) (PROCESS_CALL realloc)
    (fun r cs' => r = inr (error_of code) /\ ended (request_bytes id sgq ps) rest cs') cs.
Proof.
  intros Hc Hw Hcode Hinc. pose proof Hc as [_ Hl Hc0 _ _ _]. rewrite <- Hc0 in Hw, Hinc.
  destruct (call_run_error realloc Hok Hmem id (request_bytes id sgq ps) cs code rest)
    as (cs' & Hrun & Hms & Hst & Hrest & Hsent & Hsk);
    try done; [by apply composing_sendable with (c0 := c0)|apply Hl|].
  unfold runs, wp, PROCESS_CALL, mbind, Net_bind. rewrite Hrun. fold (error_of code).
  assert (error_of code <> CKR_OK) as Hne.
  { unfold error_of. destruct (Z.leb_spec code CKR_OK); [done|unfold CKR_OK in *; lia]. }
  rewrite (proj2 (Z.eqb_neq _ _)) by done. split; [done|].
  split; try done; [|by rewrite <- Hc0].
  unfold link_ok. rewrite Hrest. eapply link_after; [exact Hl|exact Hinc|].
  unfold header. by rewrite app_nil_r, zlen_app, zlen_enc_uint32, zlen_enc_uint64.
Qed.

(** ** The results *)

(** The macro [m] reads the parts [ps]; then the call goes on with [v]. *)
Definition yields {A} (ps : list part) (m : Z -> Rpc (Z * A)) (v : Z * A) : Prop :=
  forall q rest s s' payload cs, reply_at q rest s (enc_parts ps ++ payload) cs ->
    string_strip (sigs_of ps) s = Some s' ->
    runs (fun _ => False) (m CKR_OK) (fun r cs' => r = inl v /\ reply_at q rest s' payload cs') cs.

Lemma on_resp_exact {A} ps (m : ST GckRpcMessage A) v q rest s s' payload cs :
  decodes ps m v -> reply_at q rest s (enc_parts ps ++ payload) cs ->
  string_strip (sigs_of ps) s = Some s' ->
  runs (fun _ => False) (rpc (on_resp m)) (fun r cs' => r = inl v /\ reply_at q rest s' payload cs') cs.
Proof.
  intros Hm [[[Hq Hp] Hst Hsk Hl Hi Hs] (r & Hr & Hmr & Hsig & Hf & Hu)] Hstrip.
  destruct (Hm r s s' payload Hmr Hf Hsig Hstrip Hu) as (r' & Hrun & Hmr' & Hsig' & Hu' & Hb).
  unfold runs, wp, rpc, on_resp. rewrite Hr, Hrun. split; [done|].
  split; [split; try done; split; [done|]|].
  - intros ? [= <-]. destruct (Hp _ Hr). split; by rewrite Hb.
  - exists r'. split_and!; try done. by rewrite Hb.
Qed.

Lemma OUT_ULONG_yields v v0 : is_u64 v -> yields [PUlong v] (OUT_ULONG (Some v0)) (CKR_OK, Some v).
Proof.
  intros Hv q rest s s' payload cs Hra Hs. unfold OUT_ULONG. cbn [Z.eqb negb CKR_OK].
  pose proof (on_resp_exact [PUlong v] _ _ q rest s s' payload cs
    (decodes_received _ _ _ (read_ulong_received v Hv)) Hra Hs) as H.
  unfold runs, wp, mbind, Rpc_bind in *.
  destruct (rpc (on_resp gck_rpc_message_read_ulong) cs) as [[[[o|rv]|] cs']|]; try done.
  - by destruct H as [[= ->] ?].
  - by destruct H.
Qed.

Lemma OUT_BYTE_ARRAY_yields arr n p k :
  room arr n -> (forall bs, p = Some bs -> zlen bs < 2147483647) -> (p = None -> is_u32 k) ->
  yields [PByteArray p k] (OUT_BYTE_ARRAY arr (Some n))
    (let '(ret, (arr', n')) := store_bytes arr n p k in (ret, (arr', Some n'))).
Proof.
  intros Hroom Hp Hk q rest s s' payload cs Hra Hs. unfold OUT_BYTE_ARRAY, OUT_BYTE_ARRAY2.
  cbn [Z.eqb CKR_OK].
  pose proof (on_resp_exact [PByteArray p k] _ _ q rest s s' payload cs
    (read_byte_array_decodes arr n p k Hroom Hp Hk) Hra Hs) as H.
  unfold runs, wp, mbind, Rpc_bind in *.
  destruct (rpc (on_resp (proto_read_byte_array arr n n)) cs) as [[[[v|rv]|] cs']|]; try done.
  - destruct H as [[= ->] H2]. destruct (store_bytes arr n p k) as [ret [arr' n']]. by split.
  - by destruct H.
Qed.

(** ** The end of the call *)

(** The error codes for which a connection is given up. *)
Definition gives_up (ret : Z) : bool := (ret =? CKR_DEVICE_ERROR) || (ret =? CKR_DEVICE_REMOVED).

(** The library after a call over the first connection of the pool, where [pool] are
    the others: this one is back, or closed. *)
Definition returned (c : Client) (pool : list CallState) (q rest : list Z) (ret : Z) (c' : Client) : Prop :=
  if gives_up ret then c' = set_pool pool (n_call_state_pool c - 1) c
  else exists cs', c' = set_pool (cs' :: pool) (n_call_state_pool c) c /\ ready realloc cs'
    /\ incoming (conn cs') = rest /\ sent_over c0 (frame q) (conn cs').

Lemma call_done_exact q rest cs ret c pool :
  ended q rest cs -> (ret = CKR_OK -> exists payload, reply_at q rest EmptyString payload cs) ->
  n_call_state_pool c <= MAX_CALL_STATE_POOL -> 0 < n_call_state_pool c ->
  runs (fun _ => False) (call_done cs ret) (fun ret' c' => ret' = ret /\ returned c pool q rest ret c')
    (set_pool pool (n_call_state_pool c - 1) c).
Proof.
  intros He Hrep Hmax Hpos. pose proof He as [Hms Hst Hsk Hl Hi Hs]. unfold call_done.
  apply runs_assert; [by rewrite Hst|].
  assert (call_checked cs ret = Ok ret) as Hch.
  { unfold call_checked. destruct (req cs); [|done]. destruct (resp cs) as [r|] eqn:Er; [|done].
    destruct (bool_decide _ && _) eqn:E; [|done]. apply andb_true_iff in E as [_ E%Z.eqb_eq].
    destruct (Hrep E) as (payload & _ & r' & Hr' & Hmr & [_ Hsv] & Hf & _). rewrite Er in Hr'. injection Hr' as <-.
    unfold gck_rpc_message_buffer_error. rewrite (proj2 (has_error_false _ (proj1 Hmr)) Hf).
    unfold gck_rpc_message_is_verified. by rewrite Hsv. }
  eapply runs_lift_res; [exact Hch|]. apply runs_get. unfold returned, gives_up.
  cbn [n_call_state_pool call_state_pool set_pool]. unfold MAX_CALL_STATE_POOL in Hmax.
  rewrite (proj2 (Z.eqb_neq (socket cs) (-1))) by done.
  assert ((n_call_state_pool c - 1 <? MAX_CALL_STATE_POOL) = true) as -> by (apply Z.ltb_lt; unfold MAX_CALL_STATE_POOL; lia).
  cbn [negb]. rewrite !andb_true_r, <- negb_orb. destruct (_ || _); cbn [negb].
  - eapply runs_lift_res; [|by apply runs_ret].
    unfold call_destroy, mbind, res_bind. rewrite (message_free_ok realloc) by apply Hms.
    apply (message_free_ok realloc), Hms.
  - apply runs_modify, runs_ret. split; [done|]. exists (set_status CALL_READY cs). rewrite wrap32_id by lia.
    split; [|by split]. unfold set_pool. cbn. do 2 f_equal. lia.
Qed.

(** A call is made over the first connection of the pool. *)
Lemma lookup_pool c cs pool :
  client_ok realloc c -> call_state_pool c = cs :: pool ->
  call_lookup c = Ok (Some (inl cs), set_pool pool (n_call_state_pool c - 1) c).
Proof.
  intros [Hall Hn Hmax _ _] Hpool. rewrite Hpool in Hall, Hn. apply Forall_cons in Hall as [Hcs _].
  pose proof Hcs as [_ _ Hsk Hst]. rewrite zlen_cons in Hn. pose proof (zlen_nonneg pool).
  unfold MAX_CALL_STATE_POOL in Hmax. set (c1 := set_pool pool (n_call_state_pool c - 1) c).
  unfold call_lookup. rewrite (net_step _ _ _ c c) by done. rewrite (net_step _ _ _ (inl cs) c1).
  - rewrite (net_step _ _ _ tt c1) by (by rewrite Hst). rewrite (net_step _ _ _ tt c1); [done|].
    by rewrite (proj2 (Z.eqb_neq _ _)).
  - rewrite Hpool. rewrite (net_step _ _ _ tt c); [|by rewrite (proj2 (Z.ltb_lt _ _)) by lia].
    unfold c1. by rewrite (wrap32_id (n_call_state_pool c - 1)) by lia.
Qed.

(** A whole call, over the first connection of the pool. *)
Lemma CALL_exact {A} (args : A) body c cs pool q rest ret args' :
  client_ok realloc c -> pkcs11_initialized c = true -> call_state_pool c = cs :: pool ->
  conn cs = c0 ->
  (forall cs1, composing sgq [] cs1 -> runs (fun _ => False) body (fun r cs2 =>
     match r with inl r => r = (ret, args') | inr rv => (rv, args) = (ret, args') end
     /\ ended q rest cs2
     /\ (ret = CKR_OK -> exists payload, reply_at q rest EmptyString payload cs2)) cs1) ->
  runs (fun _ => False) (CALL realloc id args body)
    (fun r c' => r = (ret, args') /\ returned c pool q rest ret c') c.
Proof.
  intros Hc Hi Hpool Hc0 Hbody. pose proof Hc as [Hall Hn Hmax _ _]. unfold CALL. apply runs_get.
  rewrite Hi. cbn [negb]. rewrite Hpool in Hall, Hn. apply Forall_cons in Hall as [Hcs _].
  pose proof Hcs as [Hms Hl Hsk Hst]. rewrite zlen_cons in Hn. pose proof (zlen_nonneg pool).
  unfold MAX_CALL_STATE_POOL in Hmax. set (c1 := set_pool pool (n_call_state_pool c - 1) c).
  pose proof (lookup_pool c cs pool Hc Hpool) as Hlook. fold c1 in Hlook.
  unfold runs, wp. rewrite (net_step _ _ _ _ _ Hlook).
  pose proof (call_prepare_runs realloc id row sgq Hid Hrow Hsgq c0 Hok Hmem (fun _ => False) cs Hcs Hc0) as Hprep.
  assert (runs (fun _ => False) (ret ← call_prepare realloc id; if negb (ret =? CKR_OK) then mret (inr ret) else body)
    (fun r cs2 => match r with inl r => r = (ret, args') | inr rv => (rv, args) = (ret, args') end
     /\ ended q rest cs2
     /\ (ret = CKR_OK -> exists payload, reply_at q rest EmptyString payload cs2)) cs) as Hrun.
  { eapply runs_then; [exact Hprep|]. intros ret1 cs1 [-> Hco]. by apply Hbody. }
  destruct (wp_inv _ _ _ Hrun) as ([r|] & cs2 & Hr & Hpost); [|done].
  destruct Hpost as (Heq & Hend & Hrep).
  rewrite (net_step _ _ _ (r, cs2) c1) by (unfold with_call; by rewrite Hr).
  assert ((match r with inl r => r | inr rv => (rv, args) end) = (ret, args')) as -> by by destruct r.
  eapply runs_then; [apply (call_done_exact q rest cs2 ret c pool); try done; unfold MAX_CALL_STATE_POOL; lia|].
  intros ret2 c2 [-> Hret]. by apply runs_ret.
Qed.
End OneCall.
End Exact.
