(* ===== verification/ClientResults.v ===== *)
(** gck-rpc-module.c: what the macros that read results store, when a response is
    received as the daemon wrote it: structures, arrays of numbers, mechanisms, and
    attributes. *)
From S2P Require Import Prelude EggBuffer Pkcs11 RpcUtil Calls Message DispatchProto Transport Client.
From S2P Require Import ClientProto ClientSpecs ClientReads ClientRun ClientReplies.
From S2P Require Import ClientMacros ClientPool ClientExact.

(** ** Reading behind a piece of the signature *)

(** [m] reads the bytes [enc] and returns [v]. *)
Definition scans {A} (enc : list Z) (m : ST GckRpcMessage A) (v : A) : Prop :=
  forall r rest, msg_ok r -> eb_failures (buffer r) = 0 -> unread r = enc ++ rest ->
    exists n, m r = Ok (v, set_parsed n r) /\ msg_ok (set_parsed n r)
      /\ unread (set_parsed n r) = rest.

Lemma scans_ret {A} (v : A) : scans [] (mret v) v.
Proof. intros r rest Hr _ Hu. exists (parsed r). by destruct r. Qed.

Lemma scans_bind {A B} e1 e2 (m : ST GckRpcMessage A) a (k : A -> ST GckRpcMessage B) v :
  scans e1 m a -> scans e2 (k a) v -> scans (e1 ++ e2) (m ≫= k) v.
Proof.
  intros Hm Hk r rest Hr Hf Hu. rewrite <- (assoc_L app) in Hu.
  destruct (Hm r _ Hr Hf Hu) as (n1 & Hrun1 & Hr1 & Hu1).
  destruct (Hk _ rest Hr1 Hf Hu1) as (n2 & Hrun2 & Hr2 & Hu2).
  exists n2. unfold mbind, ST_bind. by rewrite Hrun1.
Qed.

Lemma scans_read {A} enc get (a : A) : reads get enc a -> scans enc (msg_get get) (Some a).
Proof.
  intros Hg r rest Hr _ Hu. destruct (msg_get_reads _ _ _ Hg r rest Hr Hu) as (Hrun & Hok & Hrest).
  by eexists.
Qed.

Lemma scans_get {A B} enc e get (a : A) (k : option A -> ST GckRpcMessage B) v :
  reads get enc a -> scans e (k (Some a)) v -> scans (enc ++ e) (msg_get get ≫= k) v.
Proof.
  intros Hg Hk. by apply (scans_bind enc e _ (Some a)); [apply scans_read|].
Qed.

Lemma scans_get_into {A B} enc e get (a a0 : A) (k : bool * A -> ST GckRpcMessage B) v :
  reads get enc a -> scans e (k (true, a)) v -> scans (enc ++ e) (get_into a0 get ≫= k) v.
Proof.
  intros Hg Hk. eapply scans_bind; [|exact Hk]. unfold get_into. rewrite <- (app_nil_r enc).
  eapply scans_get; [exact Hg|apply scans_ret].
Qed.

Lemma scans_sound : scans [] no_error true.
Proof.
  intros r rest Hr Hf Hu. exists (parsed r). unfold no_error, gets.
  rewrite (proj2 (has_error_false _ (proj1 Hr)) Hf). by destruct r.
Qed.

Lemma scans_no_error {B} e (k : bool -> ST GckRpcMessage B) v :
  scans e (k true) v -> scans e (no_error ≫= k) v.
Proof.
  intros Hk. by apply (scans_bind [] e _ true); [apply scans_sound|].
Qed.

Lemma scans_lift {A B} e (x : res A) a (k : A -> ST GckRpcMessage B) v :
  x = Ok a -> scans e (k a) v -> scans e (lift_res x ≫= k) v.
Proof. by intros ->. Qed.

Lemma decodes_scans {A} p (m : ST GckRpcMessage A) v :
  scans (enc_part p) m v -> decodes [p] (check_part (sig_of p);; m) v.
Proof. intros Hm. by apply decodes_check. Qed.

(** ** Structures *)

Lemma decodes_nil {R} (info : R) : decodes [] (read_fields [] info) (CKR_OK, info).
Proof. apply decodes_ret. Qed.

Lemma decodes_field {R A} p ps (rd : ST GckRpcMessage (option A)) v set fields (info info' : R) :
  received p rd v -> decodes ps (read_fields fields (set v info)) (CKR_OK, info') ->
  decodes (p :: ps) (read_fields (field rd set :: fields) info) (CKR_OK, info').
Proof.
  intros Hrd Hk. cbn [read_fields]. change (p :: ps) with ([p] ++ ps).
  apply (decodes_bind _ _ _ (Some (set v info))); [|done]. unfold field.
  change [p] with ([p] ++ []). apply (decodes_bind _ _ _ (Some v)); [by apply decodes_received|].
  apply decodes_ret.
Qed.

(** A number that is sent is one of 64 bits. *)
Definition word_ok (p : part) : Prop := match p with PUlong v => is_u64 v | _ => True end.

Lemma text_received n s :
  zlen s = n -> 0 < n < 2147483647 ->
  received (PSpaceString s) (gck_rpc_message_read_space_string n) s.
Proof. intros <-. apply read_space_string_received. Qed.

Lemma text_field {R} n s ps set fields (info info' : R) :
  text_ok n s -> 0 < n < 2147483647 -> decodes ps (read_fields fields (set s info)) (CKR_OK, info') ->
  decodes (PSpaceString s :: ps)
    (read_fields (field (gck_rpc_message_read_space_string n) set :: fields) info) (CKR_OK, info').
Proof. intros [_ Hs] Hn. by apply decodes_field, text_received. Qed.

Lemma version_field {R} v ps set fields (info info' : R) :
  decodes ps (read_fields fields (set v info)) (CKR_OK, info') ->
  decodes (version_part v :: ps)
    (read_fields (field gck_rpc_message_read_version set :: fields) info) (CKR_OK, info').
Proof. by apply (decodes_field (version_part v)), read_version_received. Qed.

Lemma ulong_field {R} v ps set fields (info info' : R) :
  is_u64 v -> decodes ps (read_fields fields (set v info)) (CKR_OK, info') ->
  decodes (PUlong v :: ps)
    (read_fields (field gck_rpc_message_read_ulong set :: fields) info) (CKR_OK, info').
Proof. intros Hv. by apply decodes_field, read_ulong_received. Qed.

(** Reads a structure field by field. *)
Ltac read_structure :=
  unfold proto_read_info, proto_read_slot_info, proto_read_token_info,
    proto_read_mechanism_info, proto_read_sesssion_info;
  repeat match goal with H : Forall word_ok (_ :: _) |- _ => apply Forall_cons in H as [? H] end;
  repeat first
    [ apply decodes_nil
    | apply text_field; [assumption|lia|]
    | apply version_field
    | apply ulong_field; [assumption|] ].

Lemma read_info_decodes i info :
  info_ok i -> Forall word_ok (info_parts i) -> decodes (info_parts i) (proto_read_info info) (CKR_OK, i).
Proof. intros [] Hw. destruct i, info. unfold info_parts in *. read_structure. Qed.

Lemma read_slot_info_decodes i info :
  slot_info_ok i -> Forall word_ok (slot_info_parts i) ->
  decodes (slot_info_parts i) (proto_read_slot_info info) (CKR_OK, i).
Proof. intros [] Hw. destruct i, info. unfold slot_info_parts in *. read_structure. Qed.

Lemma read_token_info_decodes i info :
  token_info_ok i -> Forall word_ok (token_info_parts i) ->
  decodes (token_info_parts i) (proto_read_token_info info) (CKR_OK, i).
Proof. intros [] Hw. destruct i, info. unfold token_info_parts in *. read_structure. Qed.

Lemma read_mechanism_info_decodes i info :
  Forall word_ok (mechanism_info_parts i) ->
  decodes (mechanism_info_parts i) (proto_read_mechanism_info info) (CKR_OK, i).
Proof. intros Hw. destruct i, info. unfold mechanism_info_parts in *. read_structure. Qed.

Lemma read_session_info_decodes i info :
  Forall word_ok (session_info_parts i) ->
  decodes (session_info_parts i) (proto_read_sesssion_info info) (CKR_OK, i).
Proof. intros Hw. destruct i, info. unfold session_info_parts in *. read_structure. Qed.

(** ** Arrays of numbers *)

(** The elements of an array that is written over from the beginning. *)
Definition overwrite {A} (l old : list A) : list A := l ++ drop (length l) old.

Lemma read_ulongs_scans l pre old val :
  Forall (fun v => is_u64 v) l -> (length l <= length old)%nat ->
  scans (concat (map enc_uint64 l)) (read_ulongs (length l) (length pre) (Some (pre ++ old)) val)
    (Some (pre ++ overwrite l old)).
Proof.
  intros Hl. revert pre old val. induction Hl as [|v l Hv _ IH]; intros pre old val Hlen.
  { unfold overwrite. cbn [length app read_ulongs map concat]. rewrite drop_0. apply scans_ret. }
  destruct old as [|o old]; [cbn in Hlen; lia|]. cbn [length read_ulongs map concat].
  apply scans_get_into with (a := v); [by apply get_uint64_reads|].
  rewrite bool_decide_true by (rewrite length_app; cbn; lia).
  rewrite <- (app_nil_l (concat _)). apply (scans_bind [] _ _ (Some ((pre ++ [v]) ++ old))).
  - rewrite insert_app_r_alt, Nat.sub_diag, <- (assoc_L app) by done. apply scans_ret.
  - replace (S (length pre)) with (length (pre ++ [v])) by (rewrite length_app; cbn; lia).
    assert (pre ++ overwrite (v :: l) (o :: old) = (pre ++ [v]) ++ overwrite l old) as ->
      by (unfold overwrite; by rewrite <- (assoc_L app)).
    apply IH. cbn in Hlen. lia.
Qed.

Lemma read_ulongs_none_scans l i val :
  Forall (fun v => is_u64 v) l ->
  scans (concat (map enc_uint64 l)) (read_ulongs (length l) i None val) None.
Proof.
  intros Hl. revert i val. induction Hl as [|v l Hv _ IH]; intros i val; [apply scans_ret|].
  cbn [length read_ulongs map concat]. apply scans_get_into with (a := v); [by apply get_uint64_reads|].
  rewrite <- (app_nil_l (concat _)). apply (scans_bind [] _ _ None); [apply scans_ret|apply IH].
Qed.

(** What an array of numbers from the response does to the caller's array, where it has
    room for it: without elements there is only their number. *)
Definition store_ulongs (arr : option (list Z)) (p : option (list Z)) (n : Z)
    : Z * (option (list Z) * Z) :=
  match p with
  | None => (if nonnull arr then CKR_BUFFER_TOO_SMALL else CKR_OK, (arr, n))
  | Some l => (CKR_OK, (overwrite l <$> arr, n))
  end.

(** An array that can be sent, and stored. *)
Definition ulongs_sent (max : Z) (p : option (list Z)) (n : Z) : Prop :=
  is_u32 n /\ forall l, p = Some l -> zlen l = n /\ n <= max /\ Forall (fun v => is_u64 v) l.

Lemma read_ulong_array_decodes garbage arr max p n :
  room arr max -> ulongs_sent max p n ->
  decodes [PUlongArray p n] (proto_read_ulong_array garbage arr max max) (store_ulongs arr p n).
Proof.
  intros Hroom [Hn Hp]. apply (decodes_scans (PUlongArray p n)). cbn [enc_part].
  apply scans_get with (a := if nonnull p then 1 else 0); [apply get_byte_reads|].
  apply scans_get with (a := n); [by apply get_uint32_reads|].
  destruct p as [l|]; cbn [nonnull Z.eqb default map concat store_ulongs]; [|apply scans_ret].
  destruct (Hp l eq_refl) as (Hz & Hle & Hl). rewrite (proj2 (Z.ltb_ge _ _)) by done.
  replace (Z.to_nat n) with (length l) by (unfold zlen in Hz; lia).
  rewrite <- (app_nil_r (concat _)). apply (scans_bind _ [] _ (overwrite l <$> arr)).
  - destruct arr as [old|]; [|by apply read_ulongs_none_scans].
    apply (read_ulongs_scans l []); [done|]. specialize (Hroom old eq_refl). unfold zlen in *. lia.
  - apply scans_no_error, scans_ret.
Qed.

(** ** Attributes *)

(** What one attribute from the response does to the caller's, which has the same
    type. *)
Definition stored (attr : CK_ATTRIBUTE) (v : option (Z * option block)) : CK_ATTRIBUTE :=
  let with_len n := mkAttribute (attr_type attr) (pValue attr) n in
  match v with
  | None => with_len CK_ULONG_MINUS_1
  | Some (len, bs) =>
      match pValue attr with
      | None => with_len len
      | Some value =>
          if ulValueLen attr <? len then with_len len else
          match bs with
          | None => with_len 0
          | Some bs => mkAttribute (attr_type attr) (Some (overwrite bs value)) len
          end
      end
  end.

(** The validity that is sent, the length and the value. *)
Definition validity_of (v : option (Z * option block)) : Z := if v is Some _ then 1 else 0.
Definition data_of (v : option (Z * option block)) : Z * option block := default (0, None) v.

Lemma store_attribute_stored attr t v ret :
  value_room attr -> value_ok (t, v) ->
  exists ret', store_attribute attr (validity_of v) (data_of v).1 (data_of v).2 ret
    = Ok (stored attr v, ret').
Proof.
  intros Hroom [_ Hv]. unfold store_attribute, stored. cbn [fst snd] in Hv.
  destruct v as [[len bs]|]; [|by exists ret]. cbn [validity_of data_of default id fst snd Z.eqb].
  destruct (pValue attr) as [value|] eqn:Ev; [|by exists ret].
  destruct (Z.ltb_spec (ulValueLen attr) len); [by eexists|]. destruct bs as [b|]; [|by exists ret].
  destruct (Hv len (Some b) eq_refl) as [_ Hlen]. destruct (Hlen b eq_refl) as [-> _].
  specialize (Hroom value Ev). pose proof (zlen_nonneg b).
  change (negb (sizeof_CK_ULONG =? sizeof_uint64_t)) with false. rewrite andb_false_r. cbn [andb].
  unfold mbind, res_bind. rewrite mem_read_ok by lia. rewrite slice_full. unfold mem_write.
  rewrite bool_decide_true by lia. exists ret.
  assert (Z.to_nat (0 + zlen b) = length b) as -> by (unfold zlen; lia). done.
Qed.

Definition enc_data (v : option (Z * option block)) : list Z :=
  match v with None => [] | Some (len, bs) => enc_uint32 len ++ enc_byte_array bs end.

Lemma enc_attr_data a : enc_attr a = enc_uint32 a.1 ++ [validity_of a.2] ++ enc_data a.2.
Proof. unfold enc_attr, enc_data. by destruct (a.2) as [[len bs]|]. Qed.

Lemma attribute_data_scans t v :
  value_ok (t, v) ->
  scans (enc_data v)
    (if validity_of v =? 0 then mret (Some (0, None)) else
     value ← msg_get egg_buffer_get_uint32;
     match value with
     | None => mret None
     | Some value =>
         r ← msg_get egg_buffer_get_byte_array;
         match r with
         | None => mret None
         | Some (attrval, attrlen) =>
             mret (if nonnull attrval && negb (value =? attrlen) then None
                   else Some (value, attrval))
         end
     end) (Some (data_of v)).
Proof.
  intros [_ Hv]. destruct v as [[len bs]|]; [|apply scans_ret].
  destruct (Hv len bs eq_refl) as [Hlen Hbs]. cbn [validity_of Z.eqb enc_data data_of default id].
  apply scans_get with (a := len); [by apply get_uint32_reads|].
  rewrite <- (app_nil_r (enc_byte_array _)).
  eapply scans_get; [apply get_byte_array_reads; intros b Hb; destruct (Hbs b Hb); lia|].
  unfold byte_array_value. destruct bs as [b|]; [|apply scans_ret].
  destruct (Hbs b eq_refl) as [-> _]. rewrite Z.eqb_refl. apply scans_ret.
Qed.

(** The caller's attribute goes with one from the response. *)
Definition goes_with (attr : CK_ATTRIBUTE) (v : Z * option (Z * option block)) : Prop :=
  attr_type attr = v.1 /\ value_room attr /\ value_ok v.

Lemma read_attributes_scans vs attrs pre post type validity ret :
  Forall2 goes_with attrs vs ->
  exists ret', scans (concat (map enc_attr vs))
    (read_attributes (length vs) (length pre) (Some (pre ++ attrs ++ post)) type validity ret)
    (inl (ret', Some (pre ++ zip_with stored attrs (map snd vs) ++ post))).
Proof.
  intros Hall. revert pre type validity ret.
  induction Hall as [|attr [t v] attrs vs (Ht & Hroom & Hv) _ IH]; intros pre type validity ret.
  { exists ret. apply scans_ret. }
  destruct (store_attribute_stored attr t v ret Hroom Hv) as (ret1 & Hst).
  destruct (IH (pre ++ [stored attr v]) t (validity_of v) ret1) as (ret' & Hrest).
  exists ret'. cbn [length read_attributes map concat]. rewrite enc_attr_data, <- !(assoc_L app).
  apply scans_get_into with (a := t); [apply get_uint32_reads, Hv|].
  apply scans_get_into with (a := validity_of v); [apply get_byte_reads|].
  eapply scans_bind; [by apply (attribute_data_scans t)|].
  destruct (data_of v) as [attrlen attrval] eqn:Ed. apply scans_no_error. cbn [negb fst snd].
  eapply scans_lift.
  { rewrite lookup_app_r, Nat.sub_diag by done. cbn [app lookup list_lookup]. reflexivity. }
  cbn [fst] in Ht. rewrite Ht, Z.eqb_refl. cbn [negb]. eapply scans_lift; [exact Hst|].
  cbv beta iota. rewrite insert_app_r_alt, Nat.sub_diag by done.
  change (<[0%nat:=stored attr v]> ((attr :: attrs) ++ post)) with ([stored attr v] ++ attrs ++ post).
  replace (S (length pre)) with (length (pre ++ [stored attr v])) by (rewrite length_app; cbn; lia).
  cbn [zip_with map fst snd app]. rewrite <- !(assoc_L app) in Hrest. exact Hrest.
Qed.

(** [m] reads the bytes [e], and the parts [ps] behind them. *)
Definition goes_on {A} (e : list Z) (ps : list part) (m : ST GckRpcMessage A) (v : A) : Prop :=
  forall r q q' rest, msg_ok r -> eb_failures (buffer r) = 0 -> signed r q ->
    string_strip (sigs_of ps) q = Some q' -> unread r = e ++ enc_parts ps ++ rest ->
    exists r', m r = Ok (v, r') /\ msg_ok r' /\ signed r' q' /\ unread r' = rest
      /\ buffer r' = buffer r.

Lemma goes_on_part {A} p ps (m : ST GckRpcMessage A) v :
  goes_on (enc_part p) ps m v -> decodes (p :: ps) (check_part (sig_of p);; m) v.
Proof.
  intros Hm r q q' rest Hr Hf Hs Hq Hu. cbn [sigs_of] in Hq.
  apply string_strip_app2 in Hq as (t & Ht & Hq).
  assert (enc_parts (p :: ps) = enc_part p ++ enc_parts ps) as He by done.
  rewrite He, <- (assoc_L app) in Hu.
  destruct (Hm (set_sigverify (Some t) r) t q' rest Hr Hf ltac:(by destruct Hs) Hq Hu) as (r' & Hrun & Hok).
  exists r'. split; [|done]. unfold mbind, ST_bind. by rewrite (takes_signed _ _ _ _ Hs Ht).
Qed.

Lemma goes_on_bind {A B} e1 e2 ps (m : ST GckRpcMessage A) a (k : A -> ST GckRpcMessage B) v :
  scans e1 m a -> goes_on e2 ps (k a) v -> goes_on (e1 ++ e2) ps (m ≫= k) v.
Proof.
  intros Hm Hk r q q' rest Hr Hf Hs Hq Hu. rewrite <- (assoc_L app) in Hu.
  destruct (Hm r _ Hr Hf Hu) as (n & Hrun & Hr1 & Hu1).
  destruct (Hk (set_parsed n r) q q' rest Hr1 Hf Hs Hq Hu1) as (r' & Hrun2 & Hok).
  exists r'. split; [|done]. unfold mbind, ST_bind. by rewrite Hrun.
Qed.

Lemma goes_on_decodes {A} ps (m : ST GckRpcMessage A) v : decodes ps m v -> goes_on [] ps m v.
Proof. done. Qed.

Lemma read_attribute_array_decodes garbage attrs post n vs code :
  Forall2 goes_with attrs vs -> zlen vs = n -> is_u32 n -> is_u64 code ->
  decodes [PAttrArray vs; PUlong code]
    (proto_read_attribute_array garbage (Some (attrs ++ post)) n)
    (code, Some (zip_with stored attrs (map snd vs) ++ post)).
Proof.
  intros Hall Hz Hn Hcode. apply (goes_on_part (PAttrArray vs)). cbn [enc_part]. rewrite Hz.
  apply goes_on_bind with (a := Some n).
  { by apply scans_read, get_uint32_reads. }
  rewrite Z.eqb_refl. cbn [negb].
  replace (Z.to_nat n) with (length vs) by (unfold zlen in Hz; lia).
  destruct (read_attributes_scans vs attrs [] post garbage garbage CKR_OK Hall) as (ret' & Hscan).
  rewrite <- (app_nil_r (concat _)). apply goes_on_bind with (a := inl (ret', Some (zip_with stored attrs (map snd vs) ++ post))).
  { exact Hscan. }
  change (@nil Z) with (@nil Z ++ []).
  apply goes_on_bind with (a := true).
  { apply scans_sound. }
  cbn [negb]. apply goes_on_decodes. change [PUlong code] with ([PUlong code] ++ []).
  eapply decodes_bind; [by apply decodes_received, read_ulong_received|]. apply decodes_ret.
Qed.

(** ** The macros *)

Section Macros.
Context (realloc : EggBufferAllocator) (c0 : Conn).
Abbreviation yields := (yields realloc c0).

Lemma yields_bind {A B} ps (m : Z -> Rpc (Z * A)) v (k : Z * A -> Rpc (Z * B)) w :
  yields ps m v -> k v = mret w -> yields ps (fun ret => m ret ≫= k) w.
Proof.
  intros Hm Hk q rest s s' payload cs Hra Hs. specialize (Hm q rest s s' payload cs Hra Hs).
  unfold runs, wp, mbind, Rpc_bind in *. destruct (m CKR_OK cs) as [[[[a|rv]|] cs']|]; try done.
  - destruct Hm as [[= ->] Hra']. by rewrite Hk.
  - by destruct Hm.
Qed.

Lemma yields_app {A B} ps1 ps2 (m : Z -> Rpc (Z * A)) a (k : Z * A -> Rpc (Z * B)) w :
  yields ps1 m (CKR_OK, a) -> yields ps2 (fun ret => k (ret, a)) w ->
  yields (ps1 ++ ps2) (fun ret => m ret ≫= k) w.
Proof.
  intros Hm Hk q rest s s' payload cs Hra Hs. rewrite sigs_of_app in Hs.
  apply string_strip_app2 in Hs as (t & Ht & Hs). rewrite enc_parts_app, <- (assoc_L app) in Hra.
  specialize (Hm q rest s t _ cs Hra Ht). unfold runs, wp, mbind, Rpc_bind in *.
  destruct (m CKR_OK cs) as [[[[v|rv]|] cs']|]; try done.
  - destruct Hm as [[= ->] Hra']. by apply (Hk q rest t s' payload cs').
  - by destruct Hm.
Qed.

Lemma yields_read {A} ps (d : ST GckRpcMessage (Z * A)) v (m : Z -> Rpc (Z * A)) :
  decodes ps d v -> m CKR_OK = rpc (on_resp d) -> yields ps m v.
Proof. intros Hd Hm q rest s s' payload cs Hra Hs. rewrite Hm. by eapply on_resp_exact. Qed.

(** A macro that does nothing after an error. *)
Lemma yields_if_ok {A B} ps (d : ST GckRpcMessage (Z * A)) v (k : Z * A -> Rpc (Z * B)) els w :
  decodes ps d v -> k v = mret w ->
  yields ps (fun ret => if ret =? CKR_OK then rpc (on_resp d) ≫= k else els ret) w.
Proof.
  intros Hd Hk. pose proof (yields_bind ps (fun _ => rpc (on_resp d)) v k w) as H.
  by apply H; [apply (yields_read ps d)|].
Qed.

Lemma OUT_STRUCT_yields {R} ps (read : R -> ST GckRpcMessage (Z * R)) i v :
  decodes ps (read i) (CKR_OK, v) -> yields ps (OUT_STRUCT read (Some i)) (CKR_OK, Some v).
Proof. intros Hd. by eapply yields_if_ok. Qed.

Lemma OUT_ULONG_ARRAY_yields garbage arr max p n :
  room arr max -> ulongs_sent max p n ->
  yields [PUlongArray p n] (OUT_ULONG_ARRAY garbage arr (Some max))
    (let '(ret, (arr', n')) := store_ulongs arr p n in (ret, (arr', Some n'))).
Proof.
  intros Hroom Hp. eapply yields_if_ok; [by apply read_ulong_array_decodes|].
  by destruct (store_ulongs arr p n) as [ret [arr' n']].
Qed.

(** Mechanisms that are not supported are taken out of the list. *)
Definition purged (v : Z * (option (list Z) * option Z)) : Z * (option (list Z) * option Z) :=
  match v with
  | (ret, (Some l, Some n)) =>
      if ret =? CKR_OK then
        match gck_rpc_mechanism_list_purge l n with
        | Ok (l, n) => (ret, (Some l, Some n))
        | Crash _ => v
        end
      else v
  | _ => v
  end.

Lemma OUT_MECHANISM_TYPE_ARRAY_yields garbage arr max p n :
  (forall l, arr = Some l -> max < zlen l /\ max < 2147483648) -> 0 <= max -> ulongs_sent max p n ->
  yields [PUlongArray p n] (OUT_MECHANISM_TYPE_ARRAY garbage arr (Some max))
    (purged (let '(ret, (arr', n')) := store_ulongs arr p n in (ret, (arr', Some n')))).
Proof.
  intros Hroom Hmax Hp. eapply yields_bind.
  - apply OUT_ULONG_ARRAY_yields; [|exact Hp]. intros l Hl. destruct (Hroom l Hl). lia.
  - destruct Hp as [Hn Hp]. unfold store_ulongs. destruct p as [l|]; cbn [purged fmap option_fmap option_map].
    + destruct arr as [old|]; [|done]. cbn [purged fmap option_fmap option_map Z.eqb CKR_OK].
      destruct (Hp l eq_refl) as (Hz & Hle & _), (Hroom old eq_refl) as [Hlt Hsmall].
      destruct (purge_in_room (overwrite l old) n) as (l' & n' & ->); [|lia|done].
      unfold overwrite. rewrite zlen_app. pose proof (zlen_drop old n ltac:(lia)) as Hd.
      replace (length l) with (Z.to_nat n) by (unfold zlen in Hz; lia). lia.
    + destruct arr; [|done]. done.
Qed.

Lemma OUT_ATTRIBUTE_ARRAY_yields garbage attrs post n vs code :
  Forall2 goes_with attrs vs -> zlen vs = n -> is_u32 n -> is_u64 code ->
  yields [PAttrArray vs; PUlong code] (OUT_ATTRIBUTE_ARRAY garbage (Some (attrs ++ post)) n)
    (code, Some (zip_with stored attrs (map snd vs) ++ post)).
Proof.
  intros. apply (yields_read _ (proto_read_attribute_array garbage (Some (attrs ++ post)) n)); [|done].
  by apply read_attribute_array_decodes.
Qed.

Lemma OUT_BYTE_ARRAY2_yields arr n p k :
  room arr n -> (forall bs, p = Some bs -> zlen bs < 2147483647) -> (p = None -> is_u32 k) ->
  yields [PByteArray p k] (OUT_BYTE_ARRAY2 arr n) (store_bytes arr n p k).
Proof.
  intros. apply (yields_read _ (proto_read_byte_array arr n n)); [|done].
  by apply read_byte_array_decodes.
Qed.
End Macros.
