(* ===== verification/ClientProps.v ===== *)
(** The client library as its user sees it: the functions of the API, what their
    arguments have to be, and what holds of every sequence of calls. *)
From S2P Require Import Prelude EggBuffer Pkcs11 RpcUtil Calls Message Transport CString ModuleArgs.
From S2P Require Import Client ClientProto ClientCalls ClientSpecs ClientReads ClientRun ClientMacros.
From S2P Require Import ClientPool.

(** ** The API *)

Module Api.
(** A call of the API, with its arguments. *)
Inductive ApiCall :=
| C_Initialize (p : Process) (init_args : option CK_C_INITIALIZE_ARGS)
| C_Finalize (reserved : bool)
| C_GetInfo (info : option CK_INFO)
| C_GetSlotList (token_present : Z) (slot_list : option (list Z)) (count : option Z)
| C_GetSlotInfo (id : Z) (info : option CK_SLOT_INFO)
| C_GetTokenInfo (id : Z) (info : option CK_TOKEN_INFO)
| C_GetMechanismList (id : Z) (mechanism_list : option (list Z)) (count : option Z)
| C_GetMechanismInfo (id type : Z) (info : option CK_MECHANISM_INFO)
| C_InitToken (id : Z) (pin : option block) (pin_len : Z) (label : option block)
| C_WaitForSlotEvent (flags : Z) (slot : option Z)
| C_OpenSession (id flags : Z) (session : option Z)
| C_CloseSession (session : Z)
| C_CloseAllSessions (id : Z)
| C_GetFunctionStatus (session : Z)
| C_CancelFunction (session : Z)
| C_GetSessionInfo (session : Z) (info : option CK_SESSION_INFO)
| C_InitPIN (session : Z) (pin : option block) (pin_len : Z)
| C_SetPIN (session : Z) (old_pin : option block) (old_pin_len : Z) (new_pin : option block)
    (new_pin_len : Z)
| C_GetOperationState (session : Z) (operation_state : option block) (operation_state_len :
    option Z)
| C_SetOperationState (session : Z) (operation_state : option block) (operation_state_len
    encryption_key authentication_key : Z)
| C_Login (session user_type : Z) (pin : option block) (pin_len : Z)
| C_Logout (session : Z)
| C_CreateObject (session : Z) (template : option (list CK_ATTRIBUTE)) (count : Z) (new_object :
    option Z)
| C_CopyObject (session object : Z) (template : option (list CK_ATTRIBUTE)) (count : Z)
    (new_object : option Z)
| C_DestroyObject (session object : Z)
| C_GetObjectSize (session object : Z) (size : option Z)
| C_GetAttributeValue (session object : Z) (template : option (list CK_ATTRIBUTE)) (count : Z)
| C_SetAttributeValue (session object : Z) (template : option (list CK_ATTRIBUTE)) (count : Z)
| C_FindObjectsInit (session : Z) (template : option (list CK_ATTRIBUTE)) (count : Z)
| C_FindObjects (session : Z) (objects : option (list Z)) (max_count : Z) (count : option Z)
| C_FindObjectsFinal (session : Z)
| C_EncryptInit (session : Z) (mechanism : option CK_MECHANISM) (key : Z)
| C_Encrypt (session : Z) (data : option block) (data_len : Z) (encrypted_data : option block)
    (encrypted_data_len : option Z)
| C_EncryptUpdate (session : Z) (part : option block) (part_len : Z) (encrypted_part : option
    block) (encrypted_part_len : option Z)
| C_EncryptFinal (session : Z) (last_part : option block) (last_part_len : option Z)
| C_DecryptInit (session : Z) (mechanism : option CK_MECHANISM) (key : Z)
| C_Decrypt (session : Z) (enc_data : option block) (enc_data_len : Z) (data : option block)
    (data_len : option Z)
| C_DecryptUpdate (session : Z) (enc_part : option block) (enc_part_len : Z) (part : option
    block) (part_len : option Z)
| C_DecryptFinal (session : Z) (last_part : option block) (last_part_len : option Z)
| C_DigestInit (session : Z) (mechanism : option CK_MECHANISM)
| C_Digest (session : Z) (data : option block) (data_len : Z) (digest : option block)
    (digest_len : option Z)
| C_DigestUpdate (session : Z) (part : option block) (part_len : Z)
| C_DigestKey (session key : Z)
| C_DigestFinal (session : Z) (digest : option block) (digest_len : option Z)
| C_SignInit (session : Z) (mechanism : option CK_MECHANISM) (key : Z)
| C_Sign (session : Z) (data : option block) (data_len : Z) (signature : option block)
    (signature_len : option Z)
| C_SignUpdate (session : Z) (part : option block) (part_len : Z)
| C_SignFinal (session : Z) (signature : option block) (signature_len : option Z)
| C_SignRecoverInit (session : Z) (mechanism : option CK_MECHANISM) (key : Z)
| C_SignRecover (session : Z) (data : option block) (data_len : Z) (signature : option block)
    (signature_len : option Z)
| C_VerifyInit (session : Z) (mechanism : option CK_MECHANISM) (key : Z)
| C_Verify (session : Z) (data : option block) (data_len : Z) (signature : option block)
    (signature_len : Z)
| C_VerifyUpdate (session : Z) (part : option block) (part_len : Z)
| C_VerifyFinal (session : Z) (signature : option block) (signature_len : Z)
| C_VerifyRecoverInit (session : Z) (mechanism : option CK_MECHANISM) (key : Z)
| C_VerifyRecover (session : Z) (signature : option block) (signature_len : Z) (data : option
    block) (data_len : option Z)
| C_DigestEncryptUpdate (session : Z) (part : option block) (part_len : Z) (enc_part : option
    block) (enc_part_len : option Z)
| C_DecryptDigestUpdate (session : Z) (enc_part : option block) (enc_part_len : Z) (part :
    option block) (part_len : option Z)
| C_SignEncryptUpdate (session : Z) (part : option block) (part_len : Z) (enc_part : option
    block) (enc_part_len : option Z)
| C_DecryptVerifyUpdate (session : Z) (enc_part : option block) (enc_part_len : Z) (part :
    option block) (part_len : option Z)
| C_GenerateKey (session : Z) (mechanism : option CK_MECHANISM) (template : option (list
    CK_ATTRIBUTE)) (count : Z) (key : option Z)
| C_GenerateKeyPair (session : Z) (mechanism : option CK_MECHANISM) (pub_template : option (list
    CK_ATTRIBUTE)) (pub_count : Z) (priv_template : option (list CK_ATTRIBUTE)) (priv_count : Z)
    (pub_key priv_key : option Z)
| C_WrapKey (session : Z) (mechanism : option CK_MECHANISM) (wrapping_key key : Z) (wrapped_key
    : option block) (wrapped_key_len : option Z)
| C_UnwrapKey (session : Z) (mechanism : option CK_MECHANISM) (unwrapping_key : Z) (wrapped_key
    : option block) (wrapped_key_len : Z) (template : option (list CK_ATTRIBUTE)) (count : Z)
    (key : option Z)
| C_DeriveKey (session : Z) (mechanism : option CK_MECHANISM) (base_key : Z) (template : option
    (list CK_ATTRIBUTE)) (count : Z) (key : option Z)
| C_SeedRandom (session : Z) (seed : option block) (seed_len : Z)
| C_GenerateRandom (session : Z) (random_data : option block) (random_len : Z).

Section Api.
Context (realloc : EggBufferAllocator) (garbage : Z).

Definition result {A} (m : Net Client (Z * A)) : Net Client Z := '(ret, _) ← m; mret ret.

(** The functions of the list that is handed out by [C_GetFunctionList]; what they
    store is left out. *)
Definition perform (call : ApiCall) : Net Client Z :=
  match call with
  | C_Initialize p init_args => rpc_C_Initialize realloc p init_args
  | C_Finalize reserved => rpc_C_Finalize realloc reserved
  | C_GetInfo info => result (rpc_C_GetInfo realloc info)
  | C_GetSlotList token_present slot_list count => result (rpc_C_GetSlotList realloc garbage
      token_present slot_list count)
  | C_GetSlotInfo id info => result (rpc_C_GetSlotInfo realloc id info)
  | C_GetTokenInfo id info => result (rpc_C_GetTokenInfo realloc id info)
  | C_GetMechanismList id mechanism_list count => result (rpc_C_GetMechanismList realloc garbage
      id mechanism_list count)
  | C_GetMechanismInfo id type info => result (rpc_C_GetMechanismInfo realloc id type info)
  | C_InitToken id pin pin_len label => result (rpc_C_InitToken realloc id pin pin_len label)
  | C_WaitForSlotEvent flags slot => result (rpc_C_WaitForSlotEvent realloc flags slot)
  | C_OpenSession id flags session => result (rpc_C_OpenSession realloc id flags session)
  | C_CloseSession session => result (rpc_C_CloseSession realloc session)
  | C_CloseAllSessions id => result (rpc_C_CloseAllSessions realloc id)
  | C_GetFunctionStatus session => result (rpc_C_GetFunctionStatus realloc session)
  | C_CancelFunction session => result (rpc_C_CancelFunction realloc session)
  | C_GetSessionInfo session info => result (rpc_C_GetSessionInfo realloc session info)
  | C_InitPIN session pin pin_len => result (rpc_C_InitPIN realloc session pin pin_len)
  | C_SetPIN session old_pin old_pin_len new_pin new_pin_len => result (rpc_C_SetPIN realloc
      session old_pin old_pin_len new_pin new_pin_len)
  | C_GetOperationState session operation_state operation_state_len => result
      (rpc_C_GetOperationState realloc session operation_state operation_state_len)
  | C_SetOperationState session operation_state operation_state_len encryption_key
      authentication_key => result (rpc_C_SetOperationState realloc session operation_state
      operation_state_len encryption_key authentication_key)
  | C_Login session user_type pin pin_len => result (rpc_C_Login realloc session user_type pin
      pin_len)
  | C_Logout session => result (rpc_C_Logout realloc session)
  | C_CreateObject session template count new_object => result (rpc_C_CreateObject realloc
      session template count new_object)
  | C_CopyObject session object template count new_object => result (rpc_C_CopyObject realloc
      session object template count new_object)
  | C_DestroyObject session object => result (rpc_C_DestroyObject realloc session object)
  | C_GetObjectSize session object size => result (rpc_C_GetObjectSize realloc session object
      size)
  | C_GetAttributeValue session object template count => result (rpc_C_GetAttributeValue realloc
      garbage session object template count)
  | C_SetAttributeValue session object template count => result (rpc_C_SetAttributeValue realloc
      session object template count)
  | C_FindObjectsInit session template count => result (rpc_C_FindObjectsInit realloc session
      template count)
  | C_FindObjects session objects max_count count => result (rpc_C_FindObjects realloc garbage
      session objects max_count count)
  | C_FindObjectsFinal session => result (rpc_C_FindObjectsFinal realloc session)
  | C_EncryptInit session mechanism key => result (rpc_C_EncryptInit realloc session mechanism
      key)
  | C_Encrypt session data data_len encrypted_data encrypted_data_len => result (rpc_C_Encrypt
      realloc session data data_len encrypted_data encrypted_data_len)
  | C_EncryptUpdate session part part_len encrypted_part encrypted_part_len => result
      (rpc_C_EncryptUpdate realloc session part part_len encrypted_part encrypted_part_len)
  | C_EncryptFinal session last_part last_part_len => result (rpc_C_EncryptFinal realloc session
      last_part last_part_len)
  | C_DecryptInit session mechanism key => result (rpc_C_DecryptInit realloc session mechanism
      key)
  | C_Decrypt session enc_data enc_data_len data data_len => result (rpc_C_Decrypt realloc
      session enc_data enc_data_len data data_len)
  | C_DecryptUpdate session enc_part enc_part_len part part_len => result (rpc_C_DecryptUpdate
      realloc session enc_part enc_part_len part part_len)
  | C_DecryptFinal session last_part last_part_len => result (rpc_C_DecryptFinal realloc session
      last_part last_part_len)
  | C_DigestInit session mechanism => result (rpc_C_DigestInit realloc session mechanism)
  | C_Digest session data data_len digest digest_len => result (rpc_C_Digest realloc session
      data data_len digest digest_len)
  | C_DigestUpdate session part part_len => result (rpc_C_DigestUpdate realloc session part
      part_len)
  | C_DigestKey session key => result (rpc_C_DigestKey realloc session key)
  | C_DigestFinal session digest digest_len => result (rpc_C_DigestFinal realloc session digest
      digest_len)
  | C_SignInit session mechanism key => result (rpc_C_SignInit realloc session mechanism key)
  | C_Sign session data data_len signature signature_len => result (rpc_C_Sign realloc session
      data data_len signature signature_len)
  | C_SignUpdate session part part_len => result (rpc_C_SignUpdate realloc session part
      part_len)
  | C_SignFinal session signature signature_len => result (rpc_C_SignFinal realloc session
      signature signature_len)
  | C_SignRecoverInit session mechanism key => result (rpc_C_SignRecoverInit realloc session
      mechanism key)
  | C_SignRecover session data data_len signature signature_len => result (rpc_C_SignRecover
      realloc session data data_len signature signature_len)
  | C_VerifyInit session mechanism key => result (rpc_C_VerifyInit realloc session mechanism
      key)
  | C_Verify session data data_len signature signature_len => result (rpc_C_Verify realloc
      session data data_len signature signature_len)
  | C_VerifyUpdate session part part_len => result (rpc_C_VerifyUpdate realloc session part
      part_len)
  | C_VerifyFinal session signature signature_len => result (rpc_C_VerifyFinal realloc session
      signature signature_len)
  | C_VerifyRecoverInit session mechanism key => result (rpc_C_VerifyRecoverInit realloc session
      mechanism key)
  | C_VerifyRecover session signature signature_len data data_len => result (rpc_C_VerifyRecover
      realloc session signature signature_len data data_len)
  | C_DigestEncryptUpdate session part part_len enc_part enc_part_len => result
      (rpc_C_DigestEncryptUpdate realloc session part part_len enc_part enc_part_len)
  | C_DecryptDigestUpdate session enc_part enc_part_len part part_len => result
      (rpc_C_DecryptDigestUpdate realloc session enc_part enc_part_len part part_len)
  | C_SignEncryptUpdate session part part_len enc_part enc_part_len => result
      (rpc_C_SignEncryptUpdate realloc session part part_len enc_part enc_part_len)
  | C_DecryptVerifyUpdate session enc_part enc_part_len part part_len => result
      (rpc_C_DecryptVerifyUpdate realloc session enc_part enc_part_len part part_len)
  | C_GenerateKey session mechanism template count key => result (rpc_C_GenerateKey realloc
      session mechanism template count key)
  | C_GenerateKeyPair session mechanism pub_template pub_count priv_template priv_count pub_key
      priv_key => result (rpc_C_GenerateKeyPair realloc session mechanism pub_template pub_count
      priv_template priv_count pub_key priv_key)
  | C_WrapKey session mechanism wrapping_key key wrapped_key wrapped_key_len => result
      (rpc_C_WrapKey realloc session mechanism wrapping_key key wrapped_key wrapped_key_len)
  | C_UnwrapKey session mechanism unwrapping_key wrapped_key wrapped_key_len template count key
      => result (rpc_C_UnwrapKey realloc session mechanism unwrapping_key wrapped_key
      wrapped_key_len template count key)
  | C_DeriveKey session mechanism base_key template count key => result (rpc_C_DeriveKey realloc
      session mechanism base_key template count key)
  | C_SeedRandom session seed seed_len => result (rpc_C_SeedRandom realloc session seed
      seed_len)
  | C_GenerateRandom session random_data random_len => result (rpc_C_GenerateRandom realloc
      session random_data random_len)
  end.

Fixpoint perform_all (calls : list ApiCall) : Net Client (list Z) :=
  match calls with
  | [] => mret []
  | call :: calls =>
      ret ← perform call;
      rets ← perform_all calls;
      mret (ret :: rets)
  end.
End Api.

(** Objects results are stored in. *)
Definition out_arg {A} (arr : option (list A)) (len : option Z) : Prop :=
  forall n, len = Some n -> room arr n.
Definition purge_arg {A} (arr : option (list A)) (len : option Z) : Prop :=
  forall n l, len = Some n -> arr = Some l -> n < zlen l /\ n < 2147483648.
Definition template_arg (arr : option (list CK_ATTRIBUTE)) (n : Z) : Prop :=
  room arr n /\ forall l, arr = Some l -> Forall value_room l.
Definition space_arg (s : option block) (n : Z) : Prop :=
  exists bs, s = Some bs /\ bytes bs /\ zlen bs = n.
Definition mech_arg (mech : option CK_MECHANISM) : Prop :=
  forall m, mech = Some m -> mechanism_arg m.

(** The argument string can be taken apart, and does not take the path away. *)
Definition init_arg (p : Process) (init_args : option CK_C_INITIALIZE_ARGS) : Prop :=
  forall args st, init_args = Some args ->
    exists st', parse_arguments (strdup_ok p) (pReserved args) st = Ok st'
      /\ (st_socket_path st <> EmptyString -> st_socket_path st' <> EmptyString).

(** What the standard asks of the arguments: a length is that of the object the
    pointer beside it points to, unless it is null. *)
Definition args_ok (call : ApiCall) : Prop :=
  match call with
  | C_Initialize p init_args => init_arg p init_args
  | C_GetSlotList token_present slot_list count => is_u8 token_present /\ out_arg slot_list
      count
  | C_GetMechanismList _ mechanism_list count => purge_arg mechanism_list count
  | C_InitToken _ pin pin_len label => array_arg pin pin_len /\ space_arg label 32
  | C_InitPIN _ pin pin_len => array_arg pin pin_len
  | C_SetPIN _ old_pin old_pin_len new_pin new_pin_len => array_arg old_pin old_pin_len /\
      array_arg new_pin new_pin_len
  | C_GetOperationState _ operation_state operation_state_len => out_arg operation_state
      operation_state_len
  | C_SetOperationState _ operation_state operation_state_len _ _ => array_arg operation_state
      operation_state_len
  | C_Login _ _ pin pin_len => array_arg pin pin_len
  | C_CreateObject _ template count _ => attrs_arg template count
  | C_CopyObject _ _ template count _ => attrs_arg template count
  | C_GetAttributeValue _ _ template count => attrs_room template count /\ template_arg template
      count
  | C_SetAttributeValue _ _ template count => attrs_arg template count
  | C_FindObjectsInit _ template count => attrs_arg template count
  | C_FindObjects _ objects max_count _ => room objects max_count
  | C_EncryptInit _ mechanism _ => mech_arg mechanism
  | C_Encrypt _ data data_len encrypted_data encrypted_data_len => array_arg data data_len /\
      out_arg encrypted_data encrypted_data_len
  | C_EncryptUpdate _ part part_len encrypted_part encrypted_part_len => array_arg part part_len
      /\ out_arg encrypted_part encrypted_part_len
  | C_EncryptFinal _ last_part last_part_len => out_arg last_part last_part_len
  | C_DecryptInit _ mechanism _ => mech_arg mechanism
  | C_Decrypt _ enc_data enc_data_len data data_len => array_arg enc_data enc_data_len /\
      out_arg data data_len
  | C_DecryptUpdate _ enc_part enc_part_len part part_len => array_arg enc_part enc_part_len /\
      out_arg part part_len
  | C_DecryptFinal _ last_part last_part_len => out_arg last_part last_part_len
  | C_DigestInit _ mechanism => mech_arg mechanism
  | C_Digest _ data data_len digest digest_len => array_arg data data_len /\ out_arg digest
      digest_len
  | C_DigestUpdate _ part part_len => array_arg part part_len
  | C_DigestFinal _ digest digest_len => out_arg digest digest_len
  | C_SignInit _ mechanism _ => mech_arg mechanism
  | C_Sign _ data data_len signature signature_len => array_arg data data_len /\ out_arg
      signature signature_len
  | C_SignUpdate _ part part_len => array_arg part part_len
  | C_SignFinal _ signature signature_len => out_arg signature signature_len
  | C_SignRecoverInit _ mechanism _ => mech_arg mechanism
  | C_SignRecover _ data data_len signature signature_len => array_arg data data_len /\ out_arg
      signature signature_len
  | C_VerifyInit _ mechanism _ => mech_arg mechanism
  | C_Verify _ data data_len signature signature_len => array_arg data data_len /\ array_arg
      signature signature_len
  | C_VerifyUpdate _ part part_len => array_arg part part_len
  | C_VerifyFinal _ signature signature_len => array_arg signature signature_len
  | C_VerifyRecoverInit _ mechanism _ => mech_arg mechanism
  | C_VerifyRecover _ signature signature_len data data_len => array_arg signature signature_len
      /\ out_arg data data_len
  | C_DigestEncryptUpdate _ part part_len enc_part enc_part_len => array_arg part part_len /\
      out_arg enc_part enc_part_len
  | C_DecryptDigestUpdate _ enc_part enc_part_len part part_len => array_arg enc_part
      enc_part_len /\ out_arg part part_len
  | C_SignEncryptUpdate _ part part_len enc_part enc_part_len => array_arg part part_len /\
      out_arg enc_part enc_part_len
  | C_DecryptVerifyUpdate _ enc_part enc_part_len part part_len => array_arg enc_part
      enc_part_len /\ out_arg part part_len
  | C_GenerateKey _ mechanism template count _ => mech_arg mechanism /\ attrs_arg template count
  | C_GenerateKeyPair _ mechanism pub_template pub_count priv_template priv_count _ _ =>
      mech_arg mechanism /\ attrs_arg pub_template pub_count /\ attrs_arg priv_template
      priv_count
  | C_WrapKey _ mechanism _ _ wrapped_key wrapped_key_len => mech_arg mechanism /\ out_arg
      wrapped_key wrapped_key_len
  | C_UnwrapKey _ mechanism _ wrapped_key wrapped_key_len template count _ => mech_arg mechanism
      /\ array_arg wrapped_key wrapped_key_len /\ attrs_arg template count
  | C_DeriveKey _ mechanism _ template count _ => mech_arg mechanism /\ attrs_arg template count
  | C_SeedRandom _ seed seed_len => array_arg seed seed_len
  | C_GenerateRandom _ random_data random_len => room random_data random_len
  | _ => True
  end.
End Api.

(** ** Every call keeps the library in order *)

Create HintDb client_calls.

Section Bodies.
Context (realloc : EggBufferAllocator) (Hok : AllocatorOk realloc) (Hmem : gives_memory realloc).
Context (garbage : Z).

Lemma leave_composing c0 rv cs :
  rv <> CKR_OK -> ending realloc rv cs -> conn cs = c0 -> leaving realloc rv cs.
Proof. done. Qed.

(** One macro for an argument, and what follows. *)
Lemma client_arg_then {C} id sgq c0 p (m : Rpc unit) (k : unit -> Rpc C) q q' ps Q cs :
  writes_arg realloc id sgq c0 false (leaving realloc) p m ->
  composing realloc id sgq c0 q ps cs -> string_strip (sig_of p) q = Some q' ->
  (forall cs', composing realloc id sgq c0 q' (ps ++ [p]) cs' -> rsafe false (leaving realloc) (k tt) Q cs') ->
  rsafe false (leaving realloc) (m ≫= k) Q cs.
Proof.
  intros Hm Hc Hq Hk. eapply rsafe_then; [by apply (Hm q q' ps cs)|]. intros [] cs'. apply Hk.
Qed.

Lemma process_then {C} id row sgq sgp c0 (k : Z -> Rpc C) ps Q cs :
  composing realloc id sgq c0 EmptyString ps cs ->
  gck_rpc_call id = Ok row -> c_response row = Some sgp ->
  (forall cs', progress realloc CKR_OK sgp cs' -> rsafe false (leaving realloc) (k CKR_OK) Q cs') ->
  rsafe false (leaving realloc) (PROCESS_CALL realloc ≫= k) Q cs.
Proof.
  intros Hc Hrow Hsgp Hk. eapply rsafe_then.
  - apply (PROCESS_CALL_arg realloc id row sgq sgp Hrow Hsgp c0 Hok Hmem false _ ps); [done|done|].
    intros rv cs' Hrv [Hr _]. rewrite (proj2 (Z.eqb_neq _ _)) in Hr by done. done.
  - intros ret cs' [-> [Hr _]]. by apply Hk, progress_ok.
Qed.

Lemma out_then {A C} s (m : Z -> Rpc (Z * A)) (k : Z * A -> Rpc C) ret q q' Q cs :
  reads_result realloc false (leaving realloc) s m ->
  progress realloc ret q cs -> string_strip s q = Some q' ->
  (forall v cs', progress realloc v.1 q' cs' -> rsafe false (leaving realloc) (k v) Q cs') ->
  rsafe false (leaving realloc) (m ret ≫= k) Q cs.
Proof. intros Hm Hp Hq Hk. eapply rsafe_then; [by apply (Hm ret q q')|]. apply Hk. Qed.

(** What a function of the API promises. *)
Definition keeps {A} (m : Net Client A) : Prop :=
  forall c, client_ok realloc c -> runs (client_ok realloc) m (fun _ => client_ok realloc) c.

(** The function is one call, which does [job] on its connection, behind guards. *)
Inductive made_of {A} : Net Client (Z * A) -> Net CallState Z -> Prop :=
| made_call id args body :
    made_of (CALL realloc id args body) (r ← on_call realloc id body; mret (code r))
| made_guard x v args k job : made_of k job -> made_of (return_val_if_fail x v args k) job
| made_initialized args k job : made_of k job -> made_of (initialized_or_return args k) job.

(** Such a job, on a connection that is ready for it. *)
Definition job_ok (job : Net CallState Z) : Prop :=
  forall cs, ready realloc cs -> runs (fun _ => false = false) job (over_with realloc) cs.

Definition one_call {A} (m : Net Client (Z * A)) : Prop := exists job, made_of m job /\ job_ok job.

Lemma one_call_CALL {A} id row sgq (args : A) body :
  0 < id < GCK_RPC_CALL_MAX -> gck_rpc_call id = Ok row -> c_request row = Some sgq ->
  body_ok realloc id sgq body -> one_call (CALL realloc id args body).
Proof.
  intros. eexists. split; [apply made_call|]. intros cs Hcs.
  eapply runs_then; [by apply (on_call_runs realloc Hok Hmem id row sgq)|]. intros r cs' Hr. by apply runs_ret.
Qed.
Lemma one_call_guard {A} x v (args : A) k : one_call k -> one_call (return_val_if_fail x v args k).
Proof. intros (job & Hm & Hj). exists job. by split; [apply made_guard|]. Qed.
Lemma one_call_initialized {A} (args : A) k : one_call k -> one_call (initialized_or_return args k).
Proof. intros (job & Hm & Hj). exists job. by split; [apply made_initialized|]. Qed.

Lemma keeps_if_fail {A} x v (args : A) k : keeps k -> keeps (return_val_if_fail x v args k).
Proof. intros Hk c Hc. unfold return_val_if_fail. destruct x; [by apply Hk|by apply runs_ret]. Qed.
Lemma keeps_initialized {A} (args : A) k : keeps k -> keeps (initialized_or_return args k).
Proof. intros Hk c Hc. apply runs_get. by apply keeps_if_fail. Qed.
Lemma one_call_keeps {A} (m : Net Client (Z * A)) : one_call m -> keeps m.
Proof.
  intros (job & Hm & Hj). induction Hm as [id args body|x v args k job _ IH|args k job _ IH].
  - intros c Hc. apply CALL_runs; [|done]. intros cs Hcs. specialize (Hj cs Hcs).
    unfold runs, wp in *. unfold mbind, Net_bind in Hj. by destruct (on_call realloc id body cs) as [[[r|] cs']|].
  - by apply keeps_if_fail, IH.
  - by apply keeps_initialized, IH.
Qed.
Lemma keeps_result {A} (m : Net Client (Z * A)) : keeps m -> keeps (Api.result m).
Proof.
  intros Hm c Hc. eapply runs_then; [by apply Hm|]. intros [ret a] c' Hc'. by apply runs_ret.
Qed.
End Bodies.

#[export] Hint Resolve leave_composing IN_BYTE_arg IN_ULONG_arg IN_BYTE_BUFFER_arg IN_BYTE_ARRAY_arg
  IN_ULONG_BUFFER_arg IN_ULONG_BUFFER2_arg IN_MECHANISM_TYPE_arg IN_ATTRIBUTE_BUFFER_arg
  IN_ATTRIBUTE_ARRAY_arg IN_MECHANISM_arg OUT_ULONG_result OUT_BYTE_ARRAY_result
  OUT_BYTE_ARRAY2_result OUT_ULONG_ARRAY_result OUT_MECHANISM_TYPE_ARRAY_result
  OUT_ATTRIBUTE_ARRAY_result : client_calls.

(** A body, macro by macro. *)
Ltac body_step :=
  first
    [ eapply client_arg_then; [solve [eauto 3 with client_calls]|eassumption|reflexivity|intros ? ?]
    | eapply process_then; [eassumption|eassumption|eassumption|reflexivity|reflexivity|intros ? ?]
    | eapply out_then; [solve [eauto 3 with client_calls]|eassumption|reflexivity|intros [? ?] ? ?]
    | match goal with |- rsafe _ _ (match ?v with _ => _ end) _ _ => destruct v end
    | apply rsafe_ret; eassumption ].

(** A function written with the macros. *)
Ltac head_of t := lazymatch t with ?f _ => head_of f | _ => t end.
Ltac prove_one_call :=
  eexists _, _; split; [reflexivity|];
  lazymatch goal with |- one_call _ ?f => let h := head_of f in unfold h end;
  repeat first [apply one_call_initialized | apply one_call_guard];
  eapply one_call_CALL; [eassumption|eassumption|by vm_compute|reflexivity|reflexivity|intros ? ? ?; repeat body_step].

Section Keeps.
Context (realloc : EggBufferAllocator) (Hok : AllocatorOk realloc) (Hmem : gives_memory realloc).
Context (garbage : Z).

Lemma OUT_INFO_result E info : reads_result realloc false E "vsusv" (OUT_INFO info).
Proof. apply OUT_STRUCT_result, read_info_piece. Qed.
Lemma OUT_SLOT_INFO_result E info : reads_result realloc false E "ssuvv" (OUT_SLOT_INFO info).
Proof. apply OUT_STRUCT_result, read_slot_info_piece. Qed.
Lemma OUT_TOKEN_INFO_result E info :
  reads_result realloc false E "ssssuuuuuuuuuuuvvs" (OUT_TOKEN_INFO info).
Proof. apply OUT_STRUCT_result, read_token_info_piece. Qed.
Lemma OUT_SESSION_INFO_result E info : reads_result realloc false E "uuuu" (OUT_SESSION_INFO info).
Proof. apply OUT_STRUCT_result, read_session_info_piece. Qed.
Lemma OUT_MECHANISM_INFO_result E info :
  reads_result realloc false E "uuu" (OUT_MECHANISM_INFO info).
Proof. apply OUT_STRUCT_result, read_mechanism_info_piece. Qed.

#[local] Hint Resolve OUT_INFO_result OUT_SLOT_INFO_result OUT_TOKEN_INFO_result
  OUT_SESSION_INFO_result OUT_MECHANISM_INFO_result : client_calls.

Lemma IN_SPACE_STRING_label id sgq c0 label :
  Api.space_arg label 32 ->
  writes_arg realloc id sgq c0 false (leaving realloc) (PSpaceString (default [] label))
    (IN_SPACE_STRING label 32).
Proof.
  intros (bs & -> & Hb & Hz). apply IN_SPACE_STRING_arg; [apply leave_composing|done|done|done].
Qed.
Lemma OUT_ATTRIBUTE_ARRAY_template E arr n :
  Api.template_arg arr n -> reads_result realloc false E "aAu" (OUT_ATTRIBUTE_ARRAY garbage arr n).
Proof. intros [? ?]. by apply OUT_ATTRIBUTE_ARRAY_result. Qed.
Lemma OUT_ULONG_ARRAY_max E arr n :
  room arr n -> reads_result realloc false E "au" (OUT_ULONG_ARRAY garbage arr (Some n)).
Proof. intros. apply OUT_ULONG_ARRAY_result. by intros ? [= <-]. Qed.

#[local] Hint Resolve IN_SPACE_STRING_label OUT_ATTRIBUTE_ARRAY_template OUT_ULONG_ARRAY_max
  : client_calls.

(** Every function but the two that are not written with the macros. *)
Definition with_macros (call : Api.ApiCall) : Prop :=
  match call with Api.C_Initialize _ _ | Api.C_Finalize _ => False | _ => True end.

Lemma perform_one_call call :
  Api.args_ok call -> with_macros call ->
  exists A (m : Net Client (Z * A)), Api.perform realloc garbage call = Api.result m /\ one_call realloc m.
Proof.
  intros Hargs Hw. destruct call; try destruct Hw; cbn [Api.perform Api.args_ok] in *;
    repeat match goal with H : ?P /\ _ |- _ => lazymatch P with _ <= _ => fail | _ => destruct H end end;
    prove_one_call.
Qed.

Lemma perform_keeps call :
  Api.args_ok call -> with_macros call -> keeps realloc (Api.perform realloc garbage call).
Proof.
  intros Hargs Hw. destruct (perform_one_call call Hargs Hw) as (A & m & -> & Hm).
  by apply keeps_result, one_call_keeps.
Qed.

(** ** [rpc_C_Initialize] and [rpc_C_Finalize] *)

Lemma client_ok_settings st c :
  client_ok realloc c -> (pkcs11_initialized c = true -> st_socket_path st <> EmptyString) ->
  client_ok realloc (set_settings st c).
Proof. by intros [] ?. Qed.
Lemma client_ok_initialized pid c :
  client_ok realloc c -> (nonnull pid = true -> pkcs11_socket_path c <> EmptyString) ->
  client_ok realloc (set_initialized pid c).
Proof.
  intros [] Hp. split; try done. intros Hi. cbn in *. rewrite Hi. by apply Hp.
Qed.

Lemma snprintf_nonempty s : s <> EmptyString -> snprintf_s (string_bytes s) <> EmptyString.
Proof. by destruct s. Qed.

Lemma initialize_paths_nonempty p st st' :
  initialize_paths p st = inl st' -> st_socket_path st' <> EmptyString.
Proof.
  unfold initialize_paths. cbv zeta. set (found := if bool_decide (st_socket_path st = _) then _ else _).
  assert (forall st1, found = inl st1 -> st_socket_path st1 <> EmptyString) as Hfound.
  { unfold found. intros st1. case_bool_decide; [|by intros [= <-]].
    destruct (getenv p _) as [[|a path]|]; [done| |done]. cbn [nonempty]. intros [= <-].
    apply snprintf_nonempty. by destruct (remote_path _). }
  destruct found as [st1|rv]; [|done]. specialize (Hfound st1 eq_refl).
  destruct (negb _); [by intros [= <-]|]. case_bool_decide; [done|by intros [= <-]].
Qed.
Lemma initialize_paths_error p st rv : initialize_paths p st = inr rv -> rv <> CKR_OK.
Proof.
  unfold initialize_paths. cbv zeta. set (found := if bool_decide (st_socket_path st = _) then _ else _).
  assert (forall rv, found = inr rv -> rv <> CKR_OK) as Hfound.
  { unfold found. intros rv'. case_bool_decide; [|done].
    destruct (nonempty _); [done|by intros [= <-]]. }
  destruct found as [st1|rv']; [|by apply Hfound].
  destruct (negb _); [done|]. case_bool_decide; [by intros [= <-]|done].
Qed.

(** The requests of the two. *)
Lemma handshake_request :
  whole_request realloc GCK_RPC_CALL_C_Initialize "ay"
    [PBytes (Some (string_bytes GCK_RPC_HANDSHAKE)) GCK_RPC_HANDSHAKE_LEN]
    (gck_rpc_message_write_byte_array (Some (string_bytes GCK_RPC_HANDSHAKE)) GCK_RPC_HANDSHAKE_LEN).
Proof.
  intros c0 cs m Hc Hm. set (p := PBytes _ _).
  destruct (composing_takes realloc _ "ay" c0 p "ay" EmptyString [] cs m Hc Hm eq_refl)
    as (Hclean & [_ Ha] & Ht).
  assert (array_arg (Some (string_bytes GCK_RPC_HANDSHAKE)) GCK_RPC_HANDSHAKE_LEN) as Harg.
  { intros bs [= <-]. split; [apply string_bytes_bytes|]. by vm_compute. }
  eapply wp_mono; [by apply (write_byte_array_sends _ _ Harg m (Some EmptyString))|].
  intros ok m' [Hp Hf]. split.
  - destruct Hp as (b & -> & Hb). split; [apply Hb|]. cbn. by rewrite (lt_alloc _ _ _ Hb).
  - intros ->. apply (composing_put realloc _ "ay" c0 p "ay" EmptyString [] cs m m' Hc Hm Hp).
    by apply Hf.
Qed.
Lemma empty_request : whole_request realloc GCK_RPC_CALL_C_Finalize EmptyString [] (mret true).
Proof.
  intros c0 cs m Hcs Hm. apply wp_ret. pose proof Hcs as [[Hq Hp] ? ? ? ? (m0 & Hm0 & Hreq)].
  split; [by apply Hq|]. intros _. rewrite Hm in Hm0. injection Hm0 as <-.
  split; try done; [split; [by intros ? [= <-]; apply Hq|done]|]. by exists m.
Qed.

Lemma initialize_keeps p init_args :
  Api.init_arg p init_args -> keeps realloc (rpc_C_Initialize realloc p init_args).
Proof.
  intros Harg c Hc. unfold rpc_C_Initialize. apply runs_get.
  assert (exists r, initialize_args p init_args (settings c) = Ok r /\ match r with
    | inl st => pkcs11_initialized c = true -> st_socket_path st <> EmptyString
    | inr rv => rv <> CKR_OK
    end) as (r & Hr & Hst).
  { unfold initialize_args. destruct init_args as [args|]; [|eexists; split; [done|exact (cl_path _ _ Hc)]].
    destruct (negb _); [by eexists|]. destruct (_ =? 0); [by eexists|].
    destruct (Harg args (settings c) eq_refl) as (st' & Hparse & Hp). unfold mbind, res_bind.
    rewrite Hparse. eexists. split; [done|]. intros Hi. apply Hp. exact (cl_path _ _ Hc Hi). }
  eapply runs_lift_res; [exact Hr|].
  eapply (runs_then _ _ _ (fun ret c' => client_ok realloc c' /\
    (ret = CKR_OK -> pkcs11_socket_path c' <> EmptyString))).
  - destruct r as [st|rv]; [|by apply runs_ret]. apply runs_modify.
    pose proof (client_ok_settings st c Hc Hst) as Hc1.
    destruct (_ && _); [by apply runs_ret|].
    destruct (initialize_paths p st) as [st'|rv] eqn:Epaths;
      [|apply runs_ret; split; [done|intros ->; by apply initialize_paths_error in Epaths]].
    pose proof (initialize_paths_nonempty p st st' Epaths) as Hp.
    apply runs_modify, runs_modify. set (c2 := set_app_id _ _).
    assert (client_ok realloc c2) as Hc2 by (by destruct Hc).
    eapply runs_mono; [|done|].
    + eapply (plain_call_runs realloc Hok Hmem GCK_RPC_CALL_C_Initialize); try reflexivity; try done.
      apply handshake_request.
    + intros ret c3 [Hc3 [_ Hp3]]. split; [done|]. by rewrite Hp3.
  - intros ret c1 [Hc1 Hp1].
    destruct (Z.eqb_spec ret CKR_OK) as [->|].
    + apply runs_modify, runs_ret. apply client_ok_initialized; auto.
    + destruct (negb _).
      * apply runs_modify, runs_ret. by apply client_ok_initialized.
      * apply runs_bind, runs_ret. by apply runs_ret.
Qed.

Lemma finalize_keeps reserved : keeps realloc (rpc_C_Finalize realloc reserved).
Proof.
  intros c Hc. unfold rpc_C_Finalize. apply runs_get. destruct reserved; [by apply runs_ret|].
  destruct (pkcs11_initialized c) eqn:Hi; cbn [negb]; [|by apply runs_ret].
  eapply runs_then.
  - eapply (plain_call_runs realloc Hok Hmem GCK_RPC_CALL_C_Finalize _ EmptyString []);
      [done|reflexivity..|done|by apply Hc|apply empty_request].
  - intros ret c1 [Hc1 _]. apply runs_modify, runs_ret. by apply client_ok_initialized.
Qed.
End Keeps.

(** * Properties *)

Lemma calls_keep realloc garbage calls c :
  AllocatorOk realloc -> gives_memory realloc -> Forall Api.args_ok calls -> client_ok realloc c ->
  runs (client_ok realloc) (Api.perform_all realloc garbage calls)
    (fun rets c' => client_ok realloc c' /\ length rets = length calls) c.
Proof.
  intros Hok Hmem Hargs. revert c. induction Hargs as [|call calls Ha _ IH]; intros c Hc; [by apply runs_ret|].
  cbn [Api.perform_all]. eapply (runs_then _ _ _ (fun _ => client_ok realloc)).
  - pose proof (perform_keeps realloc Hok Hmem garbage call Ha) as Hk.
    destruct call; try exact (Hk I c Hc); [by apply initialize_keeps|by apply finalize_keeps].
  - intros ret c1 Hc1. eapply runs_then; [by apply IH|]. intros rets c2 [Hc2 Hl].
    apply runs_ret. split; [done|cbn; by rewrite Hl].
Qed.

(** C5: with a daemon that keeps to the protocol and with memory, any sequence of calls
    of the API runs through: each returns, or waits for the network; nothing aborts, no
    memory is touched that is not the library's or the caller's, and afterwards the pool
    holds at most eight connections, all ready for the next call.  The network may cut
    the bytes up, interrupt, refuse and end them anywhere.  What is asked for: every
    whole message the daemon sends is not empty, and one that is the response of a call
    has a signature, whichever; memory is found for messages ([gives_memory]); lengths
    are those of the caller's objects; the argument string of C_Initialize is one that
    [parse_arguments] can take apart and that leaves a path; and the list given to
    C_GetMechanismList has an element to spare.  Without these the code can abort or
    leave its memory. *)
Theorem client_calls_keep_pool realloc garbage calls c :
  AllocatorOk realloc -> gives_memory realloc -> Forall Api.args_ok calls -> client_ok realloc c ->
  exists rets c', Api.perform_all realloc garbage calls c = Ok (rets, c') /\ client_ok realloc c'
    /\ forall l, rets = Some l -> length l = length calls.
Proof.
  intros Hok Hmem Hargs Hc.
  destruct (wp_inv _ _ _ (calls_keep realloc garbage calls c Hok Hmem Hargs Hc)) as (rets & c' & Hrun & Hr).
  exists rets, c'. split; [done|]. destruct rets as [l|]; [|done]. destruct Hr.
  split; [done|]. by intros ? [= <-].
Qed.

(** A daemon that answers two calls, in three pieces. *)
Definition sample_reply (id : Z) (sg : string) (ps : list part) : list Z :=
  header id (Some sg) ++ enc_parts ps.
Definition sample_replies : list (list Z) :=
  [sample_reply GCK_RPC_CALL_C_Initialize "" [];
   sample_reply GCK_RPC_CALL_C_GenerateRandom "ay" [PByteArray (Some [7; 8]) 2]].
Definition sample_incoming : list Z := concat (map frame sample_replies).
Definition sample_dial : dialled :=
  mkDialled true true (fun _ => Some 3) true true true
    [Arrived (take 5 sample_incoming); Arrived (take 20 (drop 5 sample_incoming));
     Arrived (drop 25 sample_incoming)] (replicate 300 (Accepted 1)).
Definition sample_client : Client := mkClient false 0 0 "" "" [] 0 [sample_dial].
Definition sample_process : Process :=
  mkProcess 100 (fun name => if bool_decide (name = "PKCS11_PROXY_SOCKET"%string)
                             then Some "tcp://127.0.0.1:2345"%string else None) 1 2 true.
Definition sample_calls : list Api.ApiCall :=
  [Api.C_Initialize sample_process None; Api.C_GenerateRandom 1 (Some [0; 0]) 2;
   Api.C_WaitForSlotEvent 0 None].
Definition sample_realloc : EggBufferAllocator := zero_allocator 8589934592.

Lemma sample_realloc_gives : gives_memory sample_realloc.
Proof.
  intros p n Hn. unfold sample_realloc, zero_allocator. cbn [al_realloc].
  rewrite (proj2 (Z.leb_le _ _)) by lia. by eexists.
Qed.

Lemma sample_client_ok : client_ok sample_realloc sample_client.
Proof.
  split; try done. constructor; [|done]. split; [done|]. intros t.
  assert (stream t (d_recv sample_dial) = sample_incoming) as -> by by vm_compute.
  split; [apply (bool_decide_eq_true_1 (bytes sample_incoming)); by vm_compute|].
  rewrite <- (app_nil_r sample_incoming). apply sane_frames; [|done].
  apply Forall_cons. split; [|apply Forall_cons; split; [|done]].
  - split; [|by vm_compute]. apply sane_header; [done|]. right. by eexists.
  - split; [|by vm_compute]. apply sane_header; [done|]. right. by eexists.
Qed.

Lemma client_calls_keep_pool_witness :
  exists rets c', Api.perform_all sample_realloc 0 sample_calls sample_client = Ok (rets, c')
    /\ client_ok sample_realloc c' /\ forall l, rets = Some l -> length l = 3%nat.
Proof.
  apply (client_calls_keep_pool sample_realloc 0 sample_calls sample_client).
  - apply _.
  - apply sample_realloc_gives.
  - repeat constructor.
    + intros args st. discriminate.
    + intros l [= <-]. vm_compute. discriminate.
  - apply sample_client_ok.
Defined.

(** What the calls return there. *)
Example sample_calls_run :
  (match Api.perform_all sample_realloc 0 sample_calls sample_client with
   | Ok (Some rets, c') => (rets, n_call_state_pool c')
   | _ => ([], 0)
   end) = ([CKR_OK; CKR_OK; CKR_ARGUMENTS_BAD], 1).
Proof. vm_compute. reflexivity. Qed.
