(* ===== verification/ClientErrors.v ===== *)
(** The client library when something is wrong: responses it does not survive, or
    takes for what they are not, memory that is short, and a pool that is full. *)
From S2P Require Import Prelude EggBuffer Pkcs11 RpcUtil Calls Message Transport ModuleArgs.
From S2P Require Import Client ClientProto ClientCalls ClientSpecs ClientReads ClientRun ClientReplies.
From S2P Require Import ClientMacros ClientPool ClientProps.

(** A message of no bytes announced in the middle of the dialog. *)
Lemma dialog_empty q resp cs rest :
  buffer_ok (buffer q) -> 0 < eb_len (buffer q) -> buffer_ok (buffer resp) -> eb_len (buffer resp) = 0 ->
  socket cs <> -1 -> willing (4 + eb_len (buffer q)) (conn cs) ->
  incoming (conn cs) = frame [] ++ rest -> dialog q resp cs = Crash AssertionFailed.
Proof.
  intros Hq Hpos Hr Hl Hs Hw Hinc. unfold dialog. cbv zeta.
  pose proof (zlen_encode_uint32 (wrap32 (eb_len (buffer q)))) as Hz.
  set (buf := egg_buffer_encode_uint32 _) in *. pose proof (contents_len _ Hq) as Hcl.
  pose proof (call_write_runs true buf (eb_len (buffer q)) cs ltac:(lia) Hs ltac:(lia)
    ltac:(intros _; by rewrite Hz)) as H1.
  apply wp_inv in H1 as ([ret|] & cs1 & H1 & Hp1); [|done].
  destruct Hp1 as ((_ & _ & _ & Ht1) & Hr1 & [(-> & Hs1 & _ & Hw1)|[_ ?]]); [|done].
  rewrite (net_step _ _ _ _ _ H1). change (negb (CKR_OK =? CKR_OK)) with false. cbn iota.
  rewrite (net_step _ _ _ (contents (buffer q)) cs1).
  2: { unfold net, lift_res. by rewrite buffer_room_ok by (done || pose proof (bo_len _ Hq); lia). }
  pose proof (call_write_runs true (contents (buffer q)) 0 cs1 ltac:(lia) ltac:(by rewrite Hs1) ltac:(done)
    ltac:(intros _; rewrite Hcl, Z.add_0_r; by apply Hw1)) as H2.
  apply wp_inv in H2 as ([ret|] & cs2 & H2 & Hp2); [|done].
  destruct Hp2 as ((_ & _ & _ & Ht2) & Hr2 & [(-> & Hs2 & _ & _)|[_ ?]]); [|done].
  rewrite (net_step _ _ _ _ _ H2). change (negb (CKR_OK =? CKR_OK)) with false. cbn iota.
  assert (incoming (conn cs2) = [0; 0; 0; 0] ++ rest) as Hinc2
    by (transitivity (incoming (conn cs)); [unfold incoming; congruence|by rewrite Hinc]).
  pose proof (call_read_runs true buf cs2 ltac:(lia) ltac:(congruence)
    ltac:(intros _; rewrite Hinc2, zlen_app, Hz; pose proof (zlen_nonneg rest); change (zlen [0; 0; 0; 0]) with 4; lia)) as H3.
  apply wp_inv in H3 as ([[ret b]|] & cs3 & H3 & Hp3); [|done].
  destruct Hp3 as (_ & _ & [(E1 & Hs3 & _ & Hb & _)|[[_ ?] _]]); [|done]. cbn in E1, Hb. subst ret.
  rewrite (net_step _ _ _ _ _ H3). change (negb (CKR_OK =? CKR_OK)) with false. cbn iota.
  replace (length buf) with 4%nat in Hb by (unfold zlen in Hz; lia). rewrite Hinc2 in Hb. subst b.
  change (egg_buffer_decode_uint32 _) with 0. rewrite Hl. change (wrap64 (0 + 0)) with 0.
  rewrite (net_step _ _ _ (true, resp) cs3).
  2: { unfold net, lift_res, on_buffer, zoom, egg_buffer_reserve. pose proof (bo_max _ Hr).
       rewrite (proj2 (Z.ltb_lt _ _)) by lia. by destruct resp. }
  cbn [negb]. rewrite (net_step _ _ _ [] cs3).
  2: { unfold net, lift_res. pose proof (bo_max _ Hr). by rewrite buffer_room_ok by (done || lia). }
  apply net_crash. done.
Qed.

(** A response that is announced with no bytes stops the application: reading
    it asserts that its length is positive. *)
Theorem empty_response_aborts realloc id q cs rest :
  AllocatorOk realloc -> gives_memory realloc ->
  sendable realloc id q cs -> willing (4 + zlen q) (conn cs) ->
  incoming (conn cs) = [0; 0; 0; 0] ++ rest ->
  call_run realloc cs = Crash AssertionFailed.
Proof.
  intros Hok Hmem Hs Hw Hinc. rewrite (call_run_split realloc id q cs Hs). apply net_crash.
  destruct Hs as [[Hq Hp] Hsock Hst (m & Hm & [Hmb _] & _ & _ & Hcon) Hpos].
  unfold call_send_recv. rewrite (net_step _ _ _ cs cs) by done.
  rewrite (net_step _ _ _ tt cs) by (by rewrite Hm).
  rewrite (net_step _ _ _ tt cs) by (by rewrite bool_decide_true).
  rewrite (net_step _ _ _ tt (set_status CALL_TRANSIT cs)) by done.
  assert (exists r, (match resp cs with
                     | Some m => Ok (Some m)
                     | None => gck_rpc_message_new realloc (Some (call_allocator realloc))
                     end) = Ok (Some r) /\ message_ok realloc r) as (r & Hr & Hrb & _).
  { destruct (resp cs) as [r|] eqn:E; [by exists r; split; [|apply Hp]|].
    by apply new_message_gives. }
  rewrite (net_step _ _ _ (Some r) (set_status CALL_TRANSIT cs)) by (unfold net, lift_res; by rewrite Hr).
  rewrite (net_step _ _ _ tt (set_resp (Some r) (set_status CALL_TRANSIT cs))) by done. rewrite Hm.
  destruct (wp_inv _ _ _ (reset_wp r Hrb)) as ([] & r1 & Hrun & b & -> & Hb & _ & Hlb & _).
  rewrite (net_step _ _ _ (tt, mkMessage 0 None None b 0 None) (set_resp (Some r) (set_status CALL_TRANSIT cs)))
    by (unfold net, lift_res; by rewrite Hrun).
  rewrite (net_step _ _ _ tt (set_req None (set_resp None (set_resp (Some r) (set_status CALL_TRANSIT cs)))))
    by done.
  pose proof (contents_len _ Hmb) as Hlen. rewrite Hcon in Hlen.
  apply net_crash, (dialog_empty _ _ _ rest); cbn; try done; [lia|by rewrite <- Hlen].
Qed.

(** A request of C_Finalize on a connection that will deliver [inc]. *)
Definition sample_link (inc : list Z) : Conn :=
  mkConn Socket [Arrived inc] (replicate 20 (Accepted 1)) [].
Definition sample_call_state : CallState := mkCall 3 (sample_link []) None None CALL_READY.
Definition sample_request_bytes : list Z := header GCK_RPC_CALL_C_Finalize (Some ""%string).
Definition sample_sending (inc : list Z) : CallState :=
  match call_prepare sample_realloc GCK_RPC_CALL_C_Finalize sample_call_state with
  | Ok (_, cs) => set_conn (sample_link inc) cs
  | Crash _ => sample_call_state
  end.

Lemma sample_sendable inc :
  sendable sample_realloc GCK_RPC_CALL_C_Finalize sample_request_bytes (sample_sending inc).
Proof.
  assert (ready sample_realloc sample_call_state) as Hr.
  { split; try done. split; [done|]. apply (sane_frames [] []); done. }
  pose proof (call_prepare_runs sample_realloc GCK_RPC_CALL_C_Finalize _ "" ltac:(done) eq_refl eq_refl
    (sample_link []) _ sample_realloc_gives (fun _ => False) sample_call_state Hr eq_refl) as Hrun.
  apply wp_inv in Hrun as ([ret|] & cs & Hrun & Hc); [|done].
  unfold sample_sending. rewrite Hrun.
  destruct Hc as [_ Hc]. destruct (composing_sendable _ _ _ _ _ _ Hc) as [? ? ? ? ?]. split; try done.
Qed.

Lemma empty_response_aborts_witness :
  call_run sample_realloc (sample_sending [0; 0; 0; 0]) = Crash AssertionFailed.
Proof.
  apply (empty_response_aborts sample_realloc GCK_RPC_CALL_C_Finalize sample_request_bytes _ []).
  - apply _.
  - apply sample_realloc_gives.
  - apply sample_sendable.
  - split; [|vm_compute; discriminate]. apply Forall_replicate. by exists 1.
  - vm_compute. reflexivity.
Defined.

(** So does a response that is the id of the call and nothing else: that its
    signature could not be read is asserted not to be the case. *)
Theorem truncated_response_aborts realloc id row q cs rest :
  AllocatorOk realloc -> gives_memory realloc -> 0 < id < GCK_RPC_CALL_MAX ->
  gck_rpc_call id = Ok row -> is_Some (c_response row) ->
  sendable realloc id q cs -> bytes (incoming (conn cs)) -> willing (4 + zlen q) (conn cs) ->
  incoming (conn cs) = frame (enc_uint32 id) ++ rest ->
  call_run realloc cs = Crash AssertionFailed.
Proof.
  intros Hok Hmem Hid Hrow [sgp Hsgp] Hs Hby Hw Hinc. pose proof (zlen_enc_uint32 id) as Hz.
  destruct (call_run_received realloc Hok Hmem id q cs _ rest Hs Hby Hw Hinc ltac:(by rewrite Hz))
    as (r & cs1 & (m & ok & Hm & Hb & Hcon & Hparse) & Hms & Hst & (m1 & Hm1 & Hi1) & Hr & _ & _ & _ & Hrun).
  { intros H. by rewrite H in Hz. }
  destruct (parse_id_alone realloc id row sgp m Hm Hb Hid Hrow Hsgp Hcon) as (r' & Hparse' & Hir & Hf).
  rewrite Hparse in Hparse'. injection Hparse' as -> ->.
  rewrite Hrun. unfold call_run_tail. rewrite (net_step _ _ _ tt (set_status CALL_PARSE cs1)) by done.
  change (negb (CKR_OK =? CKR_OK)) with false. cbn iota. set (cs2 := set_status CALL_PARSE cs1).
  rewrite (net_step _ _ _ id cs2) by (unfold net; by rewrite (on_resp_gets _ r'), Hir).
  rewrite (proj2 (Z.eqb_neq id GCK_RPC_CALL_ERROR)) by (unfold GCK_RPC_CALL_ERROR; lia).
  rewrite (net_step _ _ _ id cs2) by (unfold net; by rewrite (on_req_gets _ m1), Hi1).
  rewrite Z.eqb_refl. cbn [negb].
  rewrite (net_step _ _ _ true cs2); [done|].
  unfold net. rewrite (on_resp_gets _ r') by done.
  unfold gck_rpc_message_buffer_error, egg_buffer_has_error. by rewrite (proj2 (Z.ltb_lt _ _)).
Qed.

Lemma truncated_response_aborts_witness :
  call_run sample_realloc (sample_sending [0; 0; 0; 4; 0; 0; 0; 2]) = Crash AssertionFailed.
Proof.
  eapply (truncated_response_aborts sample_realloc GCK_RPC_CALL_C_Finalize _ sample_request_bytes _ []).
  - apply _.
  - apply sample_realloc_gives.
  - done.
  - reflexivity.
  - by eexists.
  - apply sample_sendable.
  - apply (bool_decide_eq_true_1 (bytes _)). vm_compute. reflexivity.
  - split; [|vm_compute; discriminate]. apply Forall_replicate. by exists 1.
  - vm_compute. reflexivity.
Defined.

(** C35: the signature a response carries makes no difference: gck_rpc_message_parse
    fails when it is not that of the call, but the error is forgotten, and the
    values behind it are read as if they were the results of the call. *)
Theorem response_signature_ignored realloc id row sgp q cs s payload rest :
  AllocatorOk realloc -> gives_memory realloc -> 0 < id < GCK_RPC_CALL_MAX ->
  gck_rpc_call id = Ok row -> c_response row = Some sgp -> strlen s < 2147483647 ->
  sendable realloc id q cs -> bytes (incoming (conn cs)) -> willing (4 + zlen q) (conn cs) ->
  is_u32 (zlen (header id (Some s) ++ payload)) ->
  incoming (conn cs) = frame (header id (Some s) ++ payload) ++ rest ->
  exists cs' r, call_run realloc cs = Ok (Some CKR_OK, cs') /\ resp cs' = Some r
    /\ signed r sgp /\ unread r = payload.
Proof.
  intros Hok Hmem Hid Hrow Hsgp Hstr Hs Hby Hw Hlr Hinc.
  destruct (call_run_reply realloc Hok Hmem id row sgp q cs s payload rest Hs Hid Hrow Hsgp Hstr Hby Hw Hlr Hinc)
    as (cs' & r & Hrun & _ & _ & Hr & _ & Hsig & Hu & _).
  by exists cs', r.
Qed.

Definition foreign_reply : list Z := header GCK_RPC_CALL_C_Finalize (Some "u"%string) ++ [1; 2; 3].

Lemma response_signature_ignored_witness :
  exists cs' r, call_run sample_realloc (sample_sending (frame foreign_reply)) = Ok (Some CKR_OK, cs')
    /\ resp cs' = Some r /\ signed r EmptyString /\ unread r = [1; 2; 3].
Proof.
  eapply (response_signature_ignored sample_realloc GCK_RPC_CALL_C_Finalize _ "" sample_request_bytes _
    "u" [1; 2; 3] []).
  - apply _.
  - apply sample_realloc_gives.
  - done.
  - reflexivity.
  - reflexivity.
  - done.
  - apply sample_sendable.
  - apply (bool_decide_eq_true_1 (bytes _)). vm_compute. reflexivity.
  - split; [|vm_compute; discriminate]. apply Forall_replicate. by exists 1.
  - vm_compute. split; [discriminate|reflexivity].
  - vm_compute. reflexivity.
Defined.

(** ** The pool *)

(** C36: when a call is done its connection goes to the front of the pool, where the
    next call takes it from; but it is closed when the call failed with one of two
    errors, when its socket is, and when eight are in the pool already: then the
    daemon closes the sessions that were opened over it. *)
Theorem call_done_then_lookup realloc cs ret c :
  client_ok realloc c -> pkcs11_socket_path c <> EmptyString -> ending realloc ret cs ->
  (ret = CKR_OK -> answered realloc EmptyString cs) ->
  exists ret' c1, call_done cs ret c = Ok (Some ret', c1) /\
    if negb (ret' =? CKR_DEVICE_ERROR) && negb (ret' =? CKR_DEVICE_REMOVED)
       && negb (socket cs =? -1) && (n_call_state_pool c <? MAX_CALL_STATE_POOL)
    then call_lookup c1 = Ok (Some (inl (set_status CALL_READY cs)), c)
    else c1 = c.
Proof.
  intros Hc Hpath Hend Hok.
  destruct (wp_inv _ _ _ (call_done_runs realloc cs ret c Hc Hend Hok)) as ([ret'|] & c1 & Hrun & Hpost).
  2: { exfalso. revert Hrun. unfold call_done.
       destruct (call_checked_ok realloc cs ret Hend Hok) as (r & Hch & _).
       destruct Hend as (_ & Hst & _).
       rewrite (net_step _ _ _ tt c) by (by rewrite (bool_decide_false (call_status cs = CALL_INVALID))).
       rewrite (net_step _ _ _ r c) by (unfold net, lift_res; by rewrite Hch).
       rewrite (net_step _ _ _ c c) by done. destruct (_ && _); [done|].
       unfold mbind at 1, Net_bind at 1, net, lift_res. by destruct (call_destroy cs). }
  destruct Hpost as (Hc1 & Hdone & _). exists ret', c1. split; [done|]. unfold done_with in Hdone.
  destruct (_ && _) eqn:E; [|done]. rewrite !andb_true_iff in E.
  destruct E as ((_ & Hs) & Hn%Z.ltb_lt). apply negb_true_iff, Z.eqb_neq in Hs.
  unfold MAX_CALL_STATE_POOL in Hn. pose proof (cl_count _ _ Hc) as Hz.
  pose proof (zlen_nonneg (call_state_pool c)).
  subst c1. unfold call_lookup. set (c1 := set_pool _ _ c).
  rewrite (net_step _ _ _ c1 c1) by done.
  assert ((net (assert_ (0 <? n_call_state_pool c1));;
    net (modify (set_pool (call_state_pool c) (wrap32 (n_call_state_pool c1 - 1))));;
    mret (inl (set_status CALL_READY cs)) : Net Client (CallState + Z)) c1
    = Ok (Some (inl (set_status CALL_READY cs)), c)) as Hpop.
  { rewrite (net_step _ _ _ tt c1); [|unfold c1; cbn [n_call_state_pool set_pool]; by rewrite (proj2 (Z.ltb_lt _ _)) by lia].
    rewrite (net_step _ _ _ tt c); [done|]. unfold c1; cbn [n_call_state_pool set_pool].
    unfold net, modify. rewrite Z.add_simpl_r, wrap32_id by lia. by destruct c. }
  change (call_state_pool c1) with (set_status CALL_READY cs :: call_state_pool c). cbn iota.
  rewrite (net_step _ _ _ _ _ Hpop). cbn iota.
  rewrite (net_step _ _ _ tt c) by done.
  rewrite (net_step _ _ _ tt c) by (cbn; by rewrite (proj2 (Z.eqb_neq _ _))). done.
Qed.

Definition initialized_client : Client := mkClient true 100 1 "/tmp/p.pkcs11" "" [] 0 [].

Lemma call_done_then_lookup_witness :
  exists ret' c1, call_done sample_call_state CKR_HOST_MEMORY initialized_client = Ok (Some ret', c1) /\
    if negb (ret' =? CKR_DEVICE_ERROR) && negb (ret' =? CKR_DEVICE_REMOVED) && true && true
    then call_lookup c1 = Ok (Some (inl sample_call_state), initialized_client)
    else c1 = initialized_client.
Proof.
  apply (call_done_then_lookup sample_realloc sample_call_state CKR_HOST_MEMORY initialized_client).
  - by split.
  - discriminate.
  - apply ready_ending. split; try done. split; [done|]. by apply (sane_frames [] []).
  - discriminate.
Defined.

(** With eight connections in the pool the ninth is closed. *)
Example ninth_connection_closed :
  let full := set_pool (replicate 8 sample_call_state) 8 initialized_client in
  call_done sample_call_state CKR_OK full = Ok (Some CKR_OK, full).
Proof. vm_compute. reflexivity. Qed.

(** ** Memory that is short *)

(** The daemon answers [C_Initialize], and then a request for 200 random bytes. *)
Definition long_reply : list Z :=
  sample_reply GCK_RPC_CALL_C_GenerateRandom "ay" [PByteArray (Some (replicate 200 7)) 200].
Definition short_dial : dialled :=
  mkDialled true true (fun _ => Some 3) true true true
    [Arrived (frame (sample_reply GCK_RPC_CALL_C_Initialize "" []) ++ frame long_reply)]
    (replicate 300 (Accepted 1)).
Definition short_client : Client := mkClient false 0 0 "" "" [] 0 [short_dial].
Definition short_calls : list Api.ApiCall :=
  [Api.C_Initialize sample_process None; Api.C_GenerateRandom 1 (Some (replicate 200 0)) 200].

(** When there is no memory for a response the call fails with CKR_HOST_MEMORY,
    and its connection goes back into the pool with the response still to be read:
    the next call will read it from the middle on. *)
Theorem unread_response_pooled :
  exists c cs, Api.perform_all (zero_allocator 150) 0 short_calls short_client
      = Ok (Some [CKR_OK; CKR_HOST_MEMORY], c)
    /\ call_state_pool c = [cs] /\ call_status cs = CALL_READY
    /\ incoming (conn cs) = long_reply.
Proof.
  set (run := Api.perform_all _ _ _ _).
  assert (match run with
          | Ok (Some rets, c) =>
              (rets, map call_status (call_state_pool c), map (fun cs => incoming (conn cs)) (call_state_pool c))
          | _ => ([], [], [])
          end = ([CKR_OK; CKR_HOST_MEMORY], [CALL_READY], [long_reply])) as H by (vm_compute; reflexivity).
  destruct run as [[[rets|] c]|]; try discriminate. injection H as -> Hst Hinc.
  destruct (call_state_pool c) as [|cs [|]] eqn:E; try discriminate.
  injection Hst as Hst. injection Hinc as Hinc. by exists c, cs.
Qed.

(** ** A second [C_Initialize] *)

Lemma initialize_args_error p init_args st rv :
  initialize_args p init_args st = Ok (inr rv) -> rv = CKR_ARGUMENTS_BAD \/ rv = CKR_CANT_LOCK.
Proof.
  unfold initialize_args. destruct init_args as [args|]; [|done].
  destruct (negb _); [by intros [= <-]; left|]. destruct (_ =? 0); [by intros [= <-]; right|].
  unfold mbind, res_bind. by destruct (parse_arguments _ _ _).
Qed.

(** A library that is initialized already says so, but takes over the path and
    the key file of the new arguments; and arguments it does not accept make it
    forget that it was initialized, and its path. *)
Theorem initialize_again realloc p init_args c r :
  pkcs11_initialized c = true -> pkcs11_initialized_pid c = getpid p ->
  initialize_args p init_args (settings c) = Ok r ->
  rpc_C_Initialize realloc p init_args c =
    match r with
    | inl st => Ok (Some CKR_CRYPTOKI_ALREADY_INITIALIZED, set_settings st c)
    | inr rv => Ok (Some rv, set_initialized None c)
    end.
Proof.
  intros Hi Hpid Hr. unfold rpc_C_Initialize. rewrite (net_step _ _ _ c c) by done.
  rewrite (net_step _ _ _ r c) by (unfold net, lift_res; by rewrite Hr).
  destruct r as [st|rv].
  - unfold mbind at 1, Net_bind at 1. rewrite (net_step _ _ _ tt (set_settings st c)) by done.
    rewrite Hi, Hpid, Z.eqb_refl. done.
  - rewrite (net_step _ _ _ rv c) by done.
    destruct (initialize_args_error _ _ _ _ Hr) as [->| ->]; done.
Qed.

Definition second_args : CK_C_INITIALIZE_ARGS :=
  mkInitArgs false false false false CKF_OS_LOCKING_OK (Some "socket=tcp://h:9"%string).

Lemma initialize_again_witness :
  rpc_C_Initialize sample_realloc sample_process (Some second_args) initialized_client
    = Ok (Some CKR_CRYPTOKI_ALREADY_INITIALIZED, set_settings (mkSettings "tcp://h:9" "") initialized_client).
Proof.
  apply (initialize_again sample_realloc sample_process (Some second_args) initialized_client
    (inl (mkSettings "tcp://h:9" ""))).
  - reflexivity.
  - reflexivity.
  - vm_compute. reflexivity.
Defined.
