(* ===== verification/ClientThreads.v ===== *)
(** gck-rpc-module.c, called by several threads of an application at once: the pool of
    connections is a list in memory that they share, under a mutex.  The model is a step
    relation like that of the daemon's threads: a thread makes one access to the shared
    variables at a time, and what it does on its own connection, which nobody else can
    see, is one step.  The library is initialized and stays so. *)
From stdpp Require Import gmap relations.
From S2P Require Import Prelude EggBuffer Pkcs11 RpcUtil Calls Message Transport.
From S2P Require Import Client ClientProto ClientCalls ClientSpecs ClientReads ClientRun ClientMacros ClientPool ClientProps.

(** ** The state *)

(** A [CallState] in memory; [next] is for pooling of completed sockets. *)
Record Cell := mkCell { cell : CallState; next : option nat }.

(** Where a thread is: outside of the library, with what the last call returned; in
    [call_lookup], [call_run] and so on, and [call_done], with the call state [i] it has
    in hand, the [job] that it will do on the connection, and the code [ret].  Places
    between [Head] and [Unlock] have the mutex. *)
Inductive place :=
| Outside (last : option Z)
| LookupLock (job : Net CallState Z) | LookupHead (job : Net CallState Z)
| LookupTake (job : Net CallState Z) (i : nat) | LookupCount (job : Net CallState Z) (i : nat)
| LookupUnlock (job : Net CallState Z) (cs : option nat)
| Connecting (job : Net CallState Z) | Looked (job : Net CallState Z) (i : nat)
| Working (job : Net CallState Z) (i : nat) | DoneCheck (i : nat) (ret : Z)
| DoneLock (i : nat) (ret : Z) | DoneHead (i : nat) (ret : Z) | DoneLink (i : nat) (ret : Z)
| DoneStore (i : nat) (ret : Z) | DoneCount (ret : Z) | DoneUnlock (cs : option nat) (ret : Z)
| Destroying (i : nat) (ret : Z).

(** An assertion that fails, another fault, or a use of freed memory ends the process. *)
Inductive process := Running | Died (f : fault) | UsedFreedState.

(** The call states that are allocated, and the variables of the library. *)
Record Lib := mkLib {
  heap : gmap nat Cell;
  call_state_pool : option nat;
  n_call_state_pool : Z;
  call_state_mutex : option nat;
  threads : gmap nat place;
  status : process;
}.

Definition put (i : nat) (c : Cell) (s : Lib) : Lib :=
  mkLib (<[i := c]> (heap s)) (call_state_pool s) (n_call_state_pool s) (call_state_mutex s) (threads s) (status s).
Definition release (i : nat) (s : Lib) : Lib :=
  mkLib (delete i (heap s)) (call_state_pool s) (n_call_state_pool s) (call_state_mutex s) (threads s) (status s).
Definition set_pool (p : option nat) (s : Lib) : Lib :=
  mkLib (heap s) p (n_call_state_pool s) (call_state_mutex s) (threads s) (status s).
Definition set_n (n : Z) (s : Lib) : Lib :=
  mkLib (heap s) (call_state_pool s) n (call_state_mutex s) (threads s) (status s).
Definition set_mutex (m : option nat) (s : Lib) : Lib :=
  mkLib (heap s) (call_state_pool s) (n_call_state_pool s) m (threads s) (status s).
Definition go (t : nat) (p : place) (s : Lib) : Lib :=
  mkLib (heap s) (call_state_pool s) (n_call_state_pool s) (call_state_mutex s) (<[t := p]> (threads s)) (status s).
Definition die (st : process) (s : Lib) : Lib :=
  mkLib (heap s) (call_state_pool s) (n_call_state_pool s) (call_state_mutex s) (threads s) st.

(** The call state whose members a thread looks at next. *)
Definition touches (p : place) : option nat :=
  match p with
  | LookupTake _ i | Looked _ i | Working _ i | DoneCheck i _ | DoneHead i _ | DoneLink i _
  | Destroying i _ => Some i
  | _ => None
  end.

(** ** The steps *)

Section Steps.
(** The settings of the library, what an attempt to connect may meet, and what calls do
    on their connections. *)
Context (path : string) (app_id : Z) (dials : dialled -> Prop) (jobs : Net CallState Z -> Prop).

Inductive lookup_step (t : nat) (s : Lib) : Lib -> Prop :=
| lookup_enter last job :
    threads s !! t = Some (Outside last) -> jobs job -> lookup_step t s (go t (LookupLock job) s)
| lookup_lock job :
    threads s !! t = Some (LookupLock job) -> call_state_mutex s = None ->
    lookup_step t s (go t (LookupHead job) (set_mutex (Some t) s))
(* Pop one from the pool if possible *)
| lookup_none job :
    threads s !! t = Some (LookupHead job) -> call_state_pool s = None ->
    lookup_step t s (go t (LookupUnlock job None) s)
| lookup_head job i :
    threads s !! t = Some (LookupHead job) -> call_state_pool s = Some i ->
    lookup_step t s (go t (LookupTake job i) s)
| lookup_take job i c :
    threads s !! t = Some (LookupTake job i) -> heap s !! i = Some c ->
    lookup_step t s (go t (LookupCount job i) (put i (mkCell (cell c) None) (set_pool (next c) s)))
| lookup_count job i :
    threads s !! t = Some (LookupCount job i) -> 0 < n_call_state_pool s ->
    lookup_step t s (go t (LookupUnlock job (Some i)) (set_n (wrap32 (n_call_state_pool s - 1)) s))
| lookup_count_fails job i :
    threads s !! t = Some (LookupCount job i) -> n_call_state_pool s <= 0 ->
    lookup_step t s (die (Died AssertionFailed) s)
| lookup_unlock job o :
    threads s !! t = Some (LookupUnlock job o) ->
    lookup_step t s (go t (match o with Some i => Looked job i | None => Connecting job end)
      (set_mutex None s))
(* Try to connect the call *)
| lookup_no_memory job d :
    threads s !! t = Some (Connecting job) -> dials d -> d_calloc d = false ->
    lookup_step t s (go t (Outside (Some CKR_HOST_MEMORY)) s)
| lookup_connected job d i cs :
    threads s !! t = Some (Connecting job) -> dials d -> d_calloc d = true -> heap s !! i = None ->
    call_connect path app_id d new_call = Ok (Some CKR_OK, cs) ->
    lookup_step t s (go t (Looked job i) (put i (mkCell cs None) s))
| lookup_not_connected job d rv cs :
    threads s !! t = Some (Connecting job) -> dials d -> d_calloc d = true -> rv <> CKR_OK ->
    call_connect path app_id d new_call = Ok (Some rv, cs) ->
    lookup_step t s (go t (Outside (Some rv)) s)
| lookup_connect_dies job d f :
    threads s !! t = Some (Connecting job) -> dials d -> d_calloc d = true ->
    call_connect path app_id d new_call = Crash f -> lookup_step t s (die (Died f) s)
(* What [call_lookup] asserts at its end *)
| lookup_ready job i c :
    threads s !! t = Some (Looked job i) -> heap s !! i = Some c ->
    call_status (cell c) = CALL_READY /\ socket (cell c) <> -1 /\ next c = None ->
    lookup_step t s (go t (Working job i) s)
| lookup_not_ready job i c :
    threads s !! t = Some (Looked job i) -> heap s !! i = Some c ->
    ~ (call_status (cell c) = CALL_READY /\ socket (cell c) <> -1 /\ next c = None) ->
    lookup_step t s (die (Died AssertionFailed) s).

Inductive work_step (t : nat) (s : Lib) : Lib -> Prop :=
| work_ends job i c ret cs :
    threads s !! t = Some (Working job i) -> heap s !! i = Some c -> job (cell c) = Ok (Some ret, cs) ->
    work_step t s (go t (DoneCheck i ret) (put i (mkCell cs (next c)) s))
| work_dies job i c f :
    threads s !! t = Some (Working job i) -> heap s !! i = Some c -> job (cell c) = Crash f ->
    work_step t s (die (Died f) s).

(** What [call_done] makes of the code before it comes to the mutex. *)
Definition done_checked (cs : CallState) (ret : Z) : res Z :=
  if bool_decide (call_status cs = CALL_INVALID) then Crash AssertionFailed else call_checked cs ret.
Definition worth_keeping (cs : CallState) (ret : Z) : bool :=
  negb (ret =? CKR_DEVICE_ERROR) && negb (ret =? CKR_DEVICE_REMOVED) && negb (socket cs =? -1).

Inductive done_step (t : nat) (s : Lib) : Lib -> Prop :=
| done_check i ret c ret' :
    threads s !! t = Some (DoneCheck i ret) -> heap s !! i = Some c ->
    done_checked (cell c) ret = Ok ret' ->
    done_step t s (go t (if worth_keeping (cell c) ret' then DoneLock i ret' else Destroying i ret') s)
| done_check_dies i ret c f :
    threads s !! t = Some (DoneCheck i ret) -> heap s !! i = Some c ->
    done_checked (cell c) ret = Crash f -> done_step t s (die (Died f) s)
(* Try and stash it away for later use *)
| done_lock i ret :
    threads s !! t = Some (DoneLock i ret) -> call_state_mutex s = None ->
    done_step t s (go t (DoneHead i ret) (set_mutex (Some t) s))
| done_full i ret :
    threads s !! t = Some (DoneHead i ret) -> MAX_CALL_STATE_POOL <= n_call_state_pool s ->
    done_step t s (go t (DoneUnlock (Some i) ret) s)
| done_room i ret c :
    threads s !! t = Some (DoneHead i ret) -> n_call_state_pool s < MAX_CALL_STATE_POOL ->
    heap s !! i = Some c ->
    done_step t s (go t (DoneLink i ret) (put i (mkCell (set_status CALL_READY (cell c)) (next c)) s))
| done_link i ret c :
    threads s !! t = Some (DoneLink i ret) -> heap s !! i = Some c -> next c = None ->
    done_step t s (go t (DoneStore i ret) (put i (mkCell (cell c) (call_state_pool s)) s))
| done_link_fails i ret c :
    threads s !! t = Some (DoneLink i ret) -> heap s !! i = Some c -> next c <> None ->
    done_step t s (die (Died AssertionFailed) s)
| done_store i ret :
    threads s !! t = Some (DoneStore i ret) -> done_step t s (go t (DoneCount ret) (set_pool (Some i) s))
| done_count ret :
    threads s !! t = Some (DoneCount ret) ->
    done_step t s (go t (DoneUnlock None ret) (set_n (wrap32 (n_call_state_pool s + 1)) s))
| done_unlock o ret :
    threads s !! t = Some (DoneUnlock o ret) ->
    done_step t s (go t (match o with Some i => Destroying i ret | None => Outside (Some ret) end)
      (set_mutex None s))
| done_destroy i ret c :
    threads s !! t = Some (Destroying i ret) -> heap s !! i = Some c -> call_destroy (cell c) = Ok tt ->
    done_step t s (go t (Outside (Some ret)) (release i s))
| done_destroy_dies i ret c f :
    threads s !! t = Some (Destroying i ret) -> heap s !! i = Some c -> call_destroy (cell c) = Crash f ->
    done_step t s (die (Died f) s).

(** A step of the thread [t], while the process lives. *)
Inductive thread_step (t : nat) (s s' : Lib) : Prop :=
| step_lookup : status s = Running -> lookup_step t s s' -> thread_step t s s'
| step_work : status s = Running -> work_step t s s' -> thread_step t s s'
| step_done : status s = Running -> done_step t s s' -> thread_step t s s'
| step_gone p i :
    status s = Running -> threads s !! t = Some p -> touches p = Some i -> heap s !! i = None ->
    s' = die UsedFreedState s -> thread_step t s s'.

Definition step (s s' : Lib) : Prop := exists t, thread_step t s s'.
End Steps.

(** The library just loaded, in a process with some threads. *)
Definition loaded (s : Lib) : Prop :=
  heap s = ∅ /\ call_state_pool s = None /\ n_call_state_pool s = 0 /\ call_state_mutex s = None
  /\ (forall t p, threads s !! t = Some p -> p = Outside None) /\ status s = Running.

(** A process with two threads. *)
Definition two_threads : Lib := mkLib ∅ None 0 None {[1%nat := Outside None; 2%nat := Outside None]} Running.

(** ** What is whose *)

(** The call state that only this thread has. *)
Definition owned (p : place) : option nat :=
  match p with
  | LookupCount _ i | Looked _ i | Working _ i | DoneCheck i _ | DoneLock i _ | DoneHead i _
  | DoneLink i _ | DoneStore i _ | Destroying i _ => Some i
  | LookupUnlock _ o | DoneUnlock o _ => o
  | _ => None
  end.

Definition has_mutex (p : place) : bool :=
  match p with
  | LookupHead _ | LookupTake _ _ | LookupCount _ _ | LookupUnlock _ _
  | DoneHead _ _ | DoneLink _ _ | DoneStore _ _ | DoneCount _ | DoneUnlock _ _ => true
  | _ => false
  end.

(** The list that starts at [p]. *)
Fixpoint chain (h : gmap nat Cell) (p : option nat) (l : list nat) : Prop :=
  match l with
  | [] => p = None
  | i :: l => p = Some i /\ exists c, h !! i = Some c /\ chain h (next c) l
  end.

Lemma chain_ext h h' l : forall p, (forall i, i ∈ l -> h' !! i = h !! i) -> chain h p l -> chain h' p l.
Proof.
  induction l as [|i l IH]; intros p Hh; [done|]. intros [-> (c & Hc & Hl)]. split; [done|].
  exists c. rewrite Hh by set_solver. split; [done|]. apply IH; [set_solver|done].
Qed.
