(* ===== verification/ThreadsShare.v ===== *)
(** What holds while the threads of an application share the connections of the client
    library: an invariant of the steps of ClientThreads, and what follows from it. *)
From stdpp Require Import gmap relations.
From S2P Require Import Prelude EggBuffer Pkcs11 RpcUtil Calls Message Transport.
From S2P Require Import Client ClientProto ClientCalls ClientSpecs ClientReads ClientRun ClientMacros ClientPool ClientProps ClientThreads.

(** * The invariant *)

Section Invariant.
Context (realloc : EggBufferAllocator).

(** What holds of the call state of a thread at each place. *)
Definition fit (p : place) (c : Cell) : Prop :=
  match p with
  | LookupCount _ _ | LookupUnlock _ (Some _) | Looked _ _ | Working _ _ | DoneLink _ _ =>
      ready realloc (cell c) /\ next c = None
  | DoneCheck _ ret => over_with realloc ret (cell c) /\ next c = None
  | DoneLock _ _ | DoneHead _ _ => ready realloc (set_status CALL_READY (cell c)) /\ next c = None
  | DoneStore _ _ => ready realloc (cell c)
  | DoneUnlock (Some _) _ | Destroying _ _ => messages_ok realloc (cell c)
  | _ => True
  end.

(** No two threads have the same call state in hand. *)
Definition one_owner (ths : gmap nat place) : Prop :=
  forall t t' p p' i, ths !! t = Some p -> ths !! t' = Some p' ->
    owned p = Some i -> owned p' = Some i -> t = t'.

Lemma one_owner_insert ths t p' :
  one_owner ths ->
  (forall t1 p1 i, t1 <> t -> ths !! t1 = Some p1 -> owned p1 = Some i -> owned p' <> Some i) ->
  one_owner (<[t := p']> ths).
Proof.
  intros Ho Hp t1 t2 p1 p2 i [[<- <-]|[? H1]]%lookup_insert_Some [[<- <-]|[? H2]]%lookup_insert_Some Hi1 Hi2;
    [done|exfalso; by apply (Hp t2 p2 i)|exfalso; by apply (Hp t1 p1 i)|by apply (Ho t1 t2 p1 p2 i)].
Qed.

(** [l] are the call states in the pool; every other one belongs to one thread. *)
Record owns (h : gmap nat Cell) (pool : option nat) (l : list nat) (ths : gmap nat place) : Prop := {
  ow_chain : chain h pool l;
  ow_nodup : NoDup l;
  ow_ready : forall i, i ∈ l -> exists c, h !! i = Some c /\ ready realloc (cell c);
  ow_held : forall t p i, ths !! t = Some p -> owned p = Some i ->
    (i ∉ l) /\ exists c, h !! i = Some c /\ fit p c;
  ow_one : one_owner ths;
  ow_all : forall i, is_Some (h !! i) -> i ∈ l \/ exists t p, ths !! t = Some p /\ owned p = Some i;
}.

(** All but what thread [t] has in hand stays where it is. *)
Lemma all_owned_insert (l l' : list nat) (ths : gmap nat place) t p p' i :
  (i ∈ l \/ exists t p, ths !! t = Some p /\ owned p = Some i) -> ths !! t = Some p ->
  (i ∈ l -> i ∈ l' \/ owned p' = Some i) -> (owned p = Some i -> i ∈ l' \/ owned p' = Some i) ->
  i ∈ l' \/ exists t1 p1, <[t := p']> ths !! t1 = Some p1 /\ owned p1 = Some i.
Proof.
  assert (i ∈ l' \/ owned p' = Some i ->
    i ∈ l' \/ exists t1 p1, <[t := p']> ths !! t1 = Some p1 /\ owned p1 = Some i) as Hself.
  { intros [?|?]; [by left|]. right. exists t, p'. by rewrite lookup_insert_eq. }
  intros [Hi|(t1 & p1 & H1 & Hi)] Ht Hl Hp; [auto|].
  destruct (decide (t1 = t)) as [->|]; [apply Hself, Hp; congruence|].
  right. exists t1, p1. by rewrite lookup_insert_ne.
Qed.

(** A thread moves on and keeps what it has. *)
Lemma owns_move h pool l ths t p p' :
  owns h pool l ths -> ths !! t = Some p -> owned p' = owned p ->
  (forall i c, owned p = Some i -> h !! i = Some c -> fit p c -> fit p' c) ->
  owns h pool l (<[t := p']> ths).
Proof.
  intros [Hc Hn Hr Hh Ho Ha] Ht Heq Hfit. split; try done.
  - intros t1 p1 i [[<- <-]|[Hne H1]]%lookup_insert_Some Hi; [|by apply (Hh t1)].
    rewrite Heq in Hi. destruct (Hh t p i Ht Hi) as (? & c & ? & ?). split; [done|]. exists c. eauto.
  - apply one_owner_insert; [done|]. intros t1 p1 i Hne H1 Hi1 Hi. apply Hne, (Ho t1 t p1 p i); congruence.
  - intros i Hi. apply (all_owned_insert l l ths t p); [by apply Ha|done|by left|rewrite Heq; by right].
Qed.

(** Work on the call state in hand. *)
Lemma owns_put h pool l ths t p p' i c :
  owns h pool l ths -> ths !! t = Some p -> owned p = Some i -> owned p' = Some i -> fit p' c ->
  owns (<[i := c]> h) pool l (<[t := p']> ths).
Proof.
  intros [Hc Hn Hr Hh Ho Ha] Ht Hi Hi' Hfit. destruct (Hh t p i Ht Hi) as (Hil & c0 & Hc0 & _).
  split; try done.
  - eapply chain_ext; [|exact Hc]. intros j Hj. apply lookup_insert_ne. by intros ->.
  - intros j Hj. rewrite lookup_insert_ne by (by intros ->). auto.
  - intros t1 p1 j [[<- <-]|[Hne H1]]%lookup_insert_Some Hj.
    + rewrite Hi' in Hj. injection Hj as <-. split; [done|]. exists c. by rewrite lookup_insert_eq.
    + rewrite lookup_insert_ne; [by apply (Hh t1)|]. intros ->. apply Hne. by apply (Ho t t1 p p1 j).
  - apply one_owner_insert; [done|]. intros t1 p1 j Hne H1 Hj1 Hj. apply Hne, (Ho t1 t p1 p j); congruence.
  - intros j Hj. destruct (decide (j = i)) as [->|]; [right; exists t, p'; by rewrite lookup_insert_eq|].
    rewrite lookup_insert_ne in Hj by done.
    apply (all_owned_insert l l ths t p); [by apply Ha|done|by left|intros; by right; congruence].
Qed.

(** The first of the pool is taken. *)
Lemma owns_take h pool i l ths t p p' c :
  owns h pool (i :: l) ths -> ths !! t = Some p -> owned p = None -> owned p' = Some i ->
  h !! i = Some c -> fit p' (mkCell (cell c) None) ->
  owns (<[i := mkCell (cell c) None]> h) (next c) l (<[t := p']> ths).
Proof.
  intros [Hc Hn Hr Hh Ho Ha] Ht Hi Hi' Hci Hfit.
  apply NoDup_cons in Hn as [Hil Hn]. destruct Hc as [_ (c0 & Hc0 & Hc)]. rewrite Hci in Hc0. injection Hc0 as <-.
  split; try done.
  - eapply chain_ext; [|exact Hc]. intros j Hj. apply lookup_insert_ne. by intros ->.
  - intros j Hj. rewrite lookup_insert_ne by (by intros ->). apply Hr. by right.
  - intros t1 p1 j [[<- <-]|[Hne H1]]%lookup_insert_Some Hj.
    + rewrite Hi' in Hj. injection Hj as <-. split; [done|]. eexists. by rewrite lookup_insert_eq.
    + destruct (Hh t1 p1 j H1 Hj) as [Hjl ?]. apply not_elem_of_cons in Hjl as [? ?].
      by rewrite lookup_insert_ne.
  - apply one_owner_insert; [done|]. intros t1 p1 j Hne H1 Hj1 Hj. destruct (Hh t1 p1 j H1 Hj1) as [Hjl _].
    apply Hjl. rewrite Hi' in Hj. injection Hj as ->. by left.
  - intros j Hj. apply (all_owned_insert (i :: l) l ths t p); [|done| |congruence].
    + apply Ha. destruct (decide (j = i)) as [->|]; [by exists c|by rewrite lookup_insert_ne in Hj].
    + intros [->|?]%elem_of_cons; [by right|by left].
Qed.

(** A new call state. *)
Lemma owns_new h pool l ths t p p' i c :
  owns h pool l ths -> ths !! t = Some p -> owned p = None -> owned p' = Some i -> h !! i = None ->
  fit p' c -> owns (<[i := c]> h) pool l (<[t := p']> ths).
Proof.
  intros [Hc Hn Hr Hh Ho Ha] Ht Hi Hi' Hci Hfit.
  assert (forall j, is_Some (h !! j) -> j <> i) as Hne0 by (intros j [? Hj] ->; congruence).
  assert (forall j, j ∈ l -> j <> i) as Hne1 by (intros j Hj; apply Hne0; destruct (Hr j Hj) as (? & -> & _); done).
  assert (forall t1 p1, ths !! t1 = Some p1 -> owned p1 = Some i -> False) as Hfree.
  { intros t1 p1 H1 H2. destruct (Hh t1 p1 i H1 H2) as (_ & ? & ? & _). congruence. }
  split; try done.
  - eapply chain_ext; [|exact Hc]. intros j Hj. apply lookup_insert_ne. by apply not_eq_sym, Hne1.
  - intros j Hj. rewrite lookup_insert_ne by (by apply not_eq_sym, Hne1). auto.
  - intros t1 p1 j [[<- <-]|[Hne H1]]%lookup_insert_Some Hj.
    + rewrite Hi' in Hj. injection Hj as <-. split; [by intros Hj%Hne1|]. eexists. by rewrite lookup_insert_eq.
    + rewrite lookup_insert_ne; [by apply (Hh t1)|]. intros ->. by apply (Hfree t1 p1).
  - apply one_owner_insert; [done|]. intros t1 p1 j Hne H1 Hj1 Hj. apply (Hfree t1 p1); [done|congruence].
  - intros j Hj. destruct (decide (j = i)) as [->|]; [right; exists t, p'; by rewrite lookup_insert_eq|].
    rewrite lookup_insert_ne in Hj by done.
    apply (all_owned_insert l l ths t p); [by apply Ha|done|by left|congruence].
Qed.

(** The call state in hand is put in front of the pool. *)
Lemma owns_push h pool l ths t p p' i c :
  owns h pool l ths -> ths !! t = Some p -> owned p = Some i -> owned p' = None ->
  h !! i = Some c -> ready realloc (cell c) -> next c = pool ->
  owns h (Some i) (i :: l) (<[t := p']> ths).
Proof.
  intros [Hc Hn Hr Hh Ho Ha] Ht Hi Hi' Hci Hready Hnext. destruct (Hh t p i Ht Hi) as (Hil & _).
  split.
  - split; [done|]. exists c. by rewrite Hnext.
  - by apply NoDup_cons.
  - intros j [->|Hj]%elem_of_cons; [by exists c|auto].
  - intros t1 p1 j [[<- <-]|[Hne H1]]%lookup_insert_Some Hj; [congruence|].
    destruct (Hh t1 p1 j H1 Hj) as [Hjl ?]. split; [|done].
    intros [->|?]%elem_of_cons; [|done]. apply Hne. by apply (Ho t t1 p p1 i).
  - apply one_owner_insert; [done|congruence].
  - intros j Hj. apply (all_owned_insert l (i :: l) ths t p); [by apply Ha|done|by left; right|].
    intros. assert (j = i) as -> by congruence. by left; left.
Qed.

(** The call state in hand is freed. *)
Lemma owns_release h pool l ths t p p' i :
  owns h pool l ths -> ths !! t = Some p -> owned p = Some i -> owned p' = None ->
  owns (delete i h) pool l (<[t := p']> ths).
Proof.
  intros [Hc Hn Hr Hh Ho Ha] Ht Hi Hi'. destruct (Hh t p i Ht Hi) as (Hil & _).
  split; try done.
  - eapply chain_ext; [|exact Hc]. intros j Hj. apply lookup_delete_ne. by intros ->.
  - intros j Hj. rewrite lookup_delete_ne by (by intros ->). auto.
  - intros t1 p1 j [[<- <-]|[Hne H1]]%lookup_insert_Some Hj; [congruence|].
    rewrite lookup_delete_ne; [by apply (Hh t1)|]. intros ->. apply Hne. by apply (Ho t t1 p p1 j).
  - apply one_owner_insert; [done|congruence].
  - intros j [c Hj]. apply lookup_delete_Some in Hj as [Hne Hj].
    apply (all_owned_insert l l ths t p); [apply Ha; by exists c|done|by left|congruence].
Qed.

(** The mutex is held by the thread that is at a place that has it. *)
Definition mutex_ok (m : option nat) (ths : gmap nat place) : Prop :=
  (forall t p, ths !! t = Some p -> has_mutex p = true -> m = Some t)
  /\ (forall t, m = Some t -> exists p, ths !! t = Some p /\ has_mutex p = true).

Lemma mutex_kept m ths t p p' :
  mutex_ok m ths -> ths !! t = Some p -> has_mutex p' = has_mutex p -> mutex_ok m (<[t := p']> ths).
Proof.
  intros [H1 H2] Ht Hp. split.
  - intros t1 p1 [[<- <-]|[_ Ht1]]%lookup_insert_Some Hm; [|by apply (H1 t1 p1)].
    apply (H1 t p); congruence.
  - intros t1 Hm. destruct (H2 t1 Hm) as (p1 & Hp1 & Hm1). destruct (decide (t1 = t)) as [->|].
    + exists p'. rewrite lookup_insert_eq. split; congruence.
    + exists p1. by rewrite lookup_insert_ne.
Qed.

Lemma mutex_locked ths t p' :
  mutex_ok None ths -> has_mutex p' = true -> mutex_ok (Some t) (<[t := p']> ths).
Proof.
  intros [H1 _] Hp. split.
  - intros t1 p1 [[<- <-]|[_ Ht1]]%lookup_insert_Some Hm; [done|]. by discriminate (H1 t1 p1 Ht1 Hm).
  - intros t1 [= <-]. exists p'. by rewrite lookup_insert_eq.
Qed.

Lemma mutex_unlocked m ths t p p' :
  mutex_ok m ths -> ths !! t = Some p -> has_mutex p = true -> has_mutex p' = false ->
  mutex_ok None (<[t := p']> ths).
Proof.
  intros [H1 _] Ht Hp Hp'. split; [|done].
  intros t1 p1 [[<- <-]|[Hne Ht1]]%lookup_insert_Some Hm; [congruence|].
  destruct Hne. pose proof (H1 t1 p1 Ht1 Hm). pose proof (H1 t p Ht Hp). congruence.
Qed.

(** The counter, when the thread with the mutex is at this place. *)
Definition counted (p : place) (h : gmap nat Cell) (pool : option nat) (n : Z) (l : list nat) : Prop :=
  match p with
  | LookupTake _ i => pool = Some i /\ n = zlen l
  | LookupCount _ _ => n = zlen l + 1
  | DoneLink _ _ => n = zlen l /\ n < MAX_CALL_STATE_POOL
  | DoneStore i _ => n = zlen l /\ n < MAX_CALL_STATE_POOL /\ exists c, h !! i = Some c /\ next c = pool
  | DoneCount _ => n + 1 = zlen l
  | _ => n = zlen l
  end.

Lemma counted_ext p h h' pool n l :
  (forall i, owned p = Some i -> h' !! i = h !! i) -> counted p h pool n l -> counted p h' pool n l.
Proof. intros Hh. destruct p; try done. cbn. by rewrite Hh. Qed.

Definition job_of (p : place) : option (Net CallState Z) :=
  match p with
  | LookupLock job | LookupHead job | LookupTake job _ | LookupCount job _ | LookupUnlock job _
  | Connecting job | Looked job _ | Working job _ => Some job
  | _ => None
  end.

(** [l] are the call states in the pool. *)
Record lib_ok (s : Lib) (l : list nat) : Prop := {
  lo_running : status s = Running;
  lo_owns : owns (heap s) (call_state_pool s) l (threads s);
  lo_mutex : mutex_ok (call_state_mutex s) (threads s);
  lo_max : zlen l <= MAX_CALL_STATE_POOL;
  lo_n : n_call_state_pool s <= MAX_CALL_STATE_POOL;
  lo_free : call_state_mutex s = None -> n_call_state_pool s = zlen l;
  lo_counted : forall t p, call_state_mutex s = Some t -> threads s !! t = Some p ->
    counted p (heap s) (call_state_pool s) (n_call_state_pool s) l;
  lo_jobs : forall t p job, threads s !! t = Some p -> job_of p = Some job -> job_ok realloc job;
}.

(** [s'] is [s] with thread [t] at another place, and everybody's property in order. *)
Record moved (s : Lib) (t : nat) (p' : place) (s' : Lib) (l' : list nat) : Prop := {
  mv_running : status s' = Running;
  mv_threads : threads s' = <[t := p']> (threads s);
  mv_owns : owns (heap s') (call_state_pool s') l' (threads s');
  mv_max : zlen l' <= MAX_CALL_STATE_POOL;
  mv_n : n_call_state_pool s' <= MAX_CALL_STATE_POOL;
  mv_job : forall job, job_of p' = Some job -> job_ok realloc job;
}.

Lemma moved_jobs s t p' s' l l' :
  lib_ok s l -> moved s t p' s' l' ->
  forall t1 p job, threads s' !! t1 = Some p -> job_of p = Some job -> job_ok realloc job.
Proof.
  intros Hs Hmv t1 p job. rewrite (mv_threads _ _ _ _ _ Hmv).
  intros [[<- <-]|[_ H1]]%lookup_insert_Some Hj; [by apply (mv_job _ _ _ _ _ Hmv)|by apply (lo_jobs _ _ Hs t1 p)].
Qed.

(** A step outside of the critical sections. *)
Lemma moved_outside s t p p' s' l :
  lib_ok s l -> threads s !! t = Some p -> has_mutex p = false -> has_mutex p' = false ->
  moved s t p' s' l ->
  call_state_mutex s' = call_state_mutex s -> call_state_pool s' = call_state_pool s ->
  n_call_state_pool s' = n_call_state_pool s ->
  (forall t1 p1 i, t1 <> t -> threads s !! t1 = Some p1 -> owned p1 = Some i -> heap s' !! i = heap s !! i) ->
  lib_ok s' l.
Proof.
  intros Hs Ht Hp Hp' Hmv Hm Hpool Hn Hh. pose proof Hs as [Hr Ho Hmu Hx Hx' Hf Hc Hj].
  pose proof (moved_jobs _ _ _ _ _ _ Hs Hmv). destruct Hmv as [? Hths ? ? ? ?].
  split; try done; rewrite ?Hm, ?Hn, ?Hpool; try done.
  - rewrite Hths. apply (mutex_kept _ _ _ p); congruence.
  - intros t1 p1 Hm1. rewrite Hths. intros [[<- <-]|[Hne H1]]%lookup_insert_Some.
    + destruct (proj2 Hmu t Hm1) as (? & ? & ?). congruence.
    + eapply counted_ext; [|by apply (Hc t1)]. intros i Hi. by apply (Hh t1 p1).
Qed.

(** One inside. *)
Lemma moved_inside s t p p' s' l l' :
  lib_ok s l -> threads s !! t = Some p -> has_mutex p = true -> has_mutex p' = true ->
  moved s t p' s' l' -> call_state_mutex s' = call_state_mutex s ->
  counted p' (heap s') (call_state_pool s') (n_call_state_pool s') l' -> lib_ok s' l'.
Proof.
  intros Hs Ht Hp Hp' Hmv Hm Hcount. pose proof Hs as [Hr Ho Hmu Hx Hx' Hf Hc Hj].
  pose proof (moved_jobs _ _ _ _ _ _ Hs Hmv). destruct Hmv as [? Hths ? ? ? ?].
  pose proof (proj1 Hmu t p Ht Hp) as Hown. rewrite Hown in Hm.
  split; try done; rewrite ?Hm; try done.
  - rewrite Hths, <- Hown. apply (mutex_kept _ _ _ p); congruence.
  - intros t1 p1 [= <-]. rewrite Hths, lookup_insert_eq. by intros [= <-].
Qed.

Lemma moved_lock s t p p' s' l :
  lib_ok s l -> threads s !! t = Some p -> has_mutex p' = true -> moved s t p' s' l ->
  call_state_mutex s = None -> call_state_mutex s' = Some t ->
  (n_call_state_pool s = zlen l ->
   counted p' (heap s') (call_state_pool s') (n_call_state_pool s') l) -> lib_ok s' l.
Proof.
  intros Hs Ht Hp' Hmv Hm Hm' Hcount. pose proof Hs as [Hr Ho Hmu Hx Hx' Hf Hc Hj].
  pose proof (moved_jobs _ _ _ _ _ _ Hs Hmv). destruct Hmv as [? Hths ? ? ? ?].
  split; try done; rewrite ?Hm'; try done.
  - rewrite Hths. apply mutex_locked; [by rewrite <- Hm|done].
  - intros t1 p1 [= <-]. rewrite Hths, lookup_insert_eq. intros [= <-]. auto.
Qed.

Lemma moved_unlock s t p p' s' l :
  lib_ok s l -> threads s !! t = Some p -> has_mutex p = true -> has_mutex p' = false ->
  moved s t p' s' l -> call_state_mutex s' = None -> n_call_state_pool s' = zlen l -> lib_ok s' l.
Proof.
  intros Hs Ht Hp Hp' Hmv Hm' Hn. pose proof Hs as [Hr Ho Hmu Hx Hx' Hf Hc Hj].
  pose proof (moved_jobs _ _ _ _ _ _ Hs Hmv). destruct Hmv as [? Hths ? ? ? ?].
  split; try done; rewrite ?Hm'; try done.
  rewrite Hths. by apply (mutex_unlocked (call_state_mutex s) _ _ p).
Qed.
End Invariant.

Section Preserved.
Context (realloc : EggBufferAllocator) (path : string) (app_id : Z).
Context (dials : dialled -> Prop) (jobs : Net CallState Z -> Prop).
Context (Hpath : path <> EmptyString) (Hdials : forall d, dials d -> dial_ok d).
Context (Hjobs : forall job, jobs job -> job_ok realloc job).

Lemma simply_moved s l t p p' s' :
  lib_ok realloc s l -> threads s !! t = Some p -> owned p' = owned p ->
  (forall c, fit realloc p c -> fit realloc p' c) ->
  (forall job, job_of p' = Some job -> job_of p = Some job \/ jobs job) ->
  status s' = status s -> threads s' = <[t := p']> (threads s) -> heap s' = heap s ->
  call_state_pool s' = call_state_pool s -> n_call_state_pool s' <= MAX_CALL_STATE_POOL ->
  moved realloc s t p' s' l.
Proof.
  intros Hs Ht How Hfit Hjob Hst Hth Hh Hp Hn. pose proof Hs as [Hr Ho Hmu Hx Hx' Hf Hc Hj].
  split; try done; try congruence.
  - rewrite Hh, Hp, Hth. eapply owns_move; eauto.
  - intros job Hj'. destruct (Hjob job Hj') as [?|?]; [by apply (Hj t p)|by apply Hjobs].
Qed.

(** A step that changes nothing but the place of the thread. *)
Lemma moved_only s l t p p' :
  lib_ok realloc s l -> threads s !! t = Some p -> has_mutex p = false -> has_mutex p' = false ->
  owned p' = owned p -> (forall c, fit realloc p c -> fit realloc p' c) ->
  (forall job, job_of p' = Some job -> job_of p = Some job \/ jobs job) ->
  lib_ok realloc (go t p' s) l.
Proof.
  intros Hs Ht ? ? ? ? ?. apply (moved_outside realloc s t p p'); try done.
  apply (simply_moved s l t p); try done. apply Hs.
Qed.

(** One that works on the call state in hand. *)
Lemma moved_put s l t p p' i c :
  lib_ok realloc s l -> threads s !! t = Some p -> owned p = Some i -> owned p' = Some i ->
  fit realloc p' c -> (forall job, job_of p' = Some job -> job_of p = Some job) ->
  moved realloc s t p' (go t p' (put i c s)) l.
Proof.
  intros Hs Ht Hi Hi' Hfit Hjob. pose proof Hs as [Hr Ho Hmu Hx Hx' Hf Hc Hj]. split; try done.
  - by apply (owns_put realloc _ _ _ _ t p).
  - intros job ?%Hjob. by apply (Hj t p).
Qed.

(** What the others have in hand is elsewhere. *)
Lemma elsewhere s l t p i t1 p1 j :
  lib_ok realloc s l -> threads s !! t = Some p -> owned p = Some i -> t1 <> t ->
  threads s !! t1 = Some p1 -> owned p1 = Some j -> j <> i.
Proof. intros Hs Ht Hi Hne H1 Hj ->. by apply Hne, (ow_one _ _ _ _ _ (lo_owns _ _ _ Hs) t1 t p1 p i). Qed.

Lemma in_hand s l t p i :
  lib_ok realloc s l -> threads s !! t = Some p -> owned p = Some i ->
  exists c, heap s !! i = Some c /\ fit realloc p c.
Proof. intros Hs Ht Hi. by apply (ow_held _ _ _ _ _ (lo_owns _ _ _ Hs) t p i). Qed.

Lemma at_place s l t p :
  lib_ok realloc s l -> threads s !! t = Some p -> has_mutex p = true ->
  counted p (heap s) (call_state_pool s) (n_call_state_pool s) l.
Proof. intros Hs Ht Hp. by apply (lo_counted _ _ _ Hs t p); [apply (proj1 (lo_mutex _ _ _ Hs) t p)|]. Qed.

Lemma new_ready d cs :
  dials d -> call_connect path app_id d new_call = Ok (Some CKR_OK, cs) -> ready realloc cs.
Proof.
  intros Hd Hrun. pose proof (call_connect_runs realloc path app_id d (Hdials d Hd) Hpath) as H.
  unfold runs, wp in H. rewrite Hrun in H. by apply H.
Qed.

Lemma lookup_step_ok t s s' l :
  lib_ok realloc s l -> lookup_step path app_id dials jobs t s s' -> exists l', lib_ok realloc s' l'.
Proof.
  intros Hs Hstep. pose proof Hs as [Hr Ho Hmu Hx Hx' Hf Hc Hj]. pose proof (zlen_nonneg l) as Hl.
  unfold MAX_CALL_STATE_POOL in *.
  destruct Hstep as [last job Ht ?|job Ht Hm|job Ht Hp|job i Ht Hp|job i c Ht Hi|job i Ht Hn|job i Ht Hn
    |job o Ht|job d Ht Hd Hd'|job d i cs Ht Hd Hd' Hi Hrun|job d rv cs Ht Hd Hd' Hrv Hrun|job d f Ht Hd Hd' Hrun
    |job i c Ht Hi Hall|job i c Ht Hi Hall].
  - exists l. apply (moved_only _ _ _ _ _ Hs Ht); try done. intros ? [= <-]. by right.
  - exists l. apply (moved_lock realloc s t _ (LookupHead job) _ l Hs Ht); try done.
    apply (simply_moved s l t _ _ _ Hs Ht); try done. by left.
  - exists l. apply (moved_inside realloc s t _ (LookupUnlock job None) _ l l Hs Ht); try done.
    + apply (simply_moved s l t _ _ _ Hs Ht); try done. by left.
    + apply (at_place s l t _ Hs Ht eq_refl).
  - exists l. apply (moved_inside realloc s t _ (LookupTake job i) _ l l Hs Ht); try done.
    + apply (simply_moved s l t _ _ _ Hs Ht); try done. by left.
    + split; [done|]. apply (at_place s l t _ Hs Ht eq_refl).
  - destruct (at_place s l t _ Hs Ht eq_refl) as [Hp Hn]. cbn in Hp, Hn.
    pose proof (ow_chain _ _ _ _ _ Ho) as Hch. rewrite Hp in Hch. destruct l as [|j l]; [done|].
    assert (j = i) as -> by (destruct Hch; congruence).
    destruct (ow_ready _ _ _ _ _ Ho i) as (c' & Hc' & Hready); [by left|].
    assert (c' = c) as -> by congruence. rewrite zlen_cons in *. pose proof (zlen_nonneg l).
    exists l. apply (moved_inside realloc s t _ (LookupCount job i) _ (i :: l) l Hs Ht); try done; [|cbn; lia].
    split; try done; [|unfold MAX_CALL_STATE_POOL; lia|intros ? [= <-]; by apply (Hj t _ job Ht)].
    by apply (owns_take realloc _ _ _ _ _ t (LookupTake job i) (LookupCount job i) c Ho Ht).
  - pose proof (at_place s l t _ Hs Ht eq_refl) as Hn'. cbn in Hn'.
    exists l. apply (moved_inside realloc s t _ (LookupUnlock job (Some i)) _ l l Hs Ht); try done.
    + apply (simply_moved s l t _ _ _ Hs Ht); try done; [by left|].
      cbn. rewrite wrap32_id by lia. unfold MAX_CALL_STATE_POOL. lia.
    + cbn. rewrite wrap32_id by lia. lia.
  - pose proof (at_place s l t _ Hs Ht eq_refl) as Hn'. cbn in Hn'. lia.
  - pose proof (at_place s l t _ Hs Ht eq_refl) as Hn'. cbn in Hn'. exists l.
    destruct o as [i|].
    + apply (moved_unlock realloc s t _ (Looked job i) _ l Hs Ht); try done.
      apply (simply_moved s l t _ _ _ Hs Ht); try done. by left.
    + apply (moved_unlock realloc s t _ (Connecting job) _ l Hs Ht); try done.
      apply (simply_moved s l t _ _ _ Hs Ht); try done. by left.
  - exists l. by apply (moved_only _ _ _ _ _ Hs Ht).
  - exists l. pose proof (new_ready d cs Hd Hrun) as Hready.
    apply (moved_outside realloc s t _ (Looked job i) _ l Hs Ht); try done.
    + split; try done; [|intros ? [= <-]; by apply (Hj t _ job Ht)].
      by apply (owns_new realloc _ _ _ _ t (Connecting job)).
    + intros t1 p1 j _ H1 Hj1. apply lookup_insert_ne. intros ->.
      destruct (in_hand _ _ _ _ _ Hs H1 Hj1) as (? & ? & _). congruence.
  - exists l. by apply (moved_only _ _ _ _ _ Hs Ht).
  - pose proof (call_connect_runs realloc path app_id d (Hdials d Hd) Hpath) as H.
    unfold runs, wp in H. by rewrite Hrun in H.
  - exists l. apply (moved_only _ _ _ _ _ Hs Ht); try done. by left.
  - destruct Hall. destruct (in_hand _ _ _ _ _ Hs Ht eq_refl) as (c' & Hc' & [[_ _ ? ?] ?]).
    assert (c' = c) as -> by congruence. done.
Qed.

Lemma work_step_ok t s s' l :
  lib_ok realloc s l -> work_step t s s' -> exists l', lib_ok realloc s' l'.
Proof.
  intros Hs Hstep. destruct Hstep as [job i c ret cs Ht Hi Hrun|job i c f Ht Hi Hrun];
    destruct (in_hand _ _ _ _ _ Hs Ht eq_refl) as (c' & Hc' & [Hready Hnext]);
    assert (c' = c) as -> by congruence;
    pose proof (lo_jobs _ _ _ Hs t _ job Ht eq_refl _ Hready) as Hjob; unfold runs, wp in Hjob; rewrite Hrun in Hjob;
    [|done].
  exists l. apply (moved_outside realloc s t _ (DoneCheck i ret) _ l Hs Ht); try done.
  - by apply (moved_put s l t _ _ i _ Hs Ht).
  - intros t1 p1 j Hne H1 Hj1. apply lookup_insert_ne. apply not_eq_sym.
    by apply (elsewhere s l t _ i t1 p1 j Hs Ht).
Qed.

(** What [call_done] finds before it comes to the mutex. *)
Lemma done_checked_ok cs ret :
  over_with realloc ret cs -> exists ret', done_checked cs ret = Ok ret'
    /\ messages_ok realloc cs /\ (worth_keeping cs ret' = true -> ready realloc (set_status CALL_READY cs)).
Proof.
  intros [Hend Hans]. pose proof Hend as (Hms & Hst & Hl). unfold done_checked.
  rewrite bool_decide_false by done. destruct (call_checked_ok realloc cs ret Hend Hans) as (ret' & -> & Hret).
  exists ret'. split; [done|]. split; [done|]. unfold worth_keeping. intros Hw.
  rewrite !andb_true_iff, !negb_true_iff, !Z.eqb_neq in Hw. destruct Hw as [[Hd _] Hs].
  split; try done. destruct Hret as [->|[-> _]]; [by apply Hl|]. by apply Hl.
Qed.

Lemma destroy_ok cs : messages_ok realloc cs -> call_destroy cs = Ok tt.
Proof.
  intros [Hq Hp]. unfold call_destroy, mbind, res_bind.
  rewrite (message_free_ok realloc (req cs)) by done. by apply (message_free_ok realloc).
Qed.

Lemma done_step_ok t s s' l :
  lib_ok realloc s l -> done_step t s s' -> exists l', lib_ok realloc s' l'.
Proof.
  intros Hs Hstep. pose proof Hs as [Hr Ho Hmu Hx Hx' Hf Hc Hj]. pose proof (zlen_nonneg l) as Hl.
  unfold MAX_CALL_STATE_POOL in *.
  destruct Hstep as [i ret c ret' Ht Hi Hrun|i ret c f Ht Hi Hrun|i ret Ht Hm|i ret Ht Hn|i ret c Ht Hn Hi
    |i ret c Ht Hi Hnx|i ret c Ht Hi Hnx|i ret Ht|ret Ht|o ret Ht|i ret c Ht Hi Hrun|i ret c f Ht Hi Hrun];
    try (destruct (in_hand _ _ _ _ _ Hs Ht eq_refl) as (c' & Hc' & Hfit); cbn in Hfit;
         try (assert (c' = c) as -> by congruence)).
  - destruct Hfit as [Hover Hnx]. destruct (done_checked_ok _ _ Hover) as (r & Hr' & Hms & Hready).
    assert (r = ret') as -> by congruence. exists l.
    destruct (worth_keeping (cell c) ret').
    + apply (moved_outside realloc s t _ (DoneLock i ret') _ l Hs Ht); try done.
      split; try done. cbn. rewrite <- (insert_id (heap s) i c) by done.
      by apply (owns_put realloc _ _ _ _ t (DoneCheck i ret)); [done|done|done|done|split; [apply Hready|]].
    + apply (moved_outside realloc s t _ (Destroying i ret') _ l Hs Ht); try done.
      split; try done. cbn. rewrite <- (insert_id (heap s) i c) by done.
      by apply (owns_put realloc _ _ _ _ t (DoneCheck i ret)).
  - destruct Hfit as [Hover Hnx]. destruct (done_checked_ok _ _ Hover) as (r & Hr' & _). congruence.
  - exists l. apply (moved_lock realloc s t _ (DoneHead i ret) _ l Hs Ht); try done.
    apply (simply_moved s l t _ _ _ Hs Ht); done.
  - exists l. apply (moved_inside realloc s t _ (DoneUnlock (Some i) ret) _ l l Hs Ht); try done.
    + apply (simply_moved s l t _ _ _ Hs Ht); try done. by intros c [[? ? ? ?] _].
    + apply (at_place s l t _ Hs Ht eq_refl).
  - exists l. apply (moved_inside realloc s t _ (DoneLink i ret) _ l l Hs Ht); try done.
    + by apply (moved_put s l t _ _ i _ Hs Ht).
    + split; [apply (at_place s l t _ Hs Ht eq_refl)|done].
  - destruct Hfit as [Hready _]. exists l.
    apply (moved_inside realloc s t _ (DoneStore i ret) _ l l Hs Ht); try done.
    + by apply (moved_put s l t _ _ i _ Hs Ht).
    + destruct (at_place s l t _ Hs Ht eq_refl) as [Hn Hlt]. split; [done|]. split; [done|].
      eexists. cbn. by rewrite lookup_insert_eq.
  - by destruct Hfit.
  - destruct (at_place s l t _ Hs Ht eq_refl) as (Hn & Hlt & c & Hi & Hnx).
    assert (c' = c) as -> by congruence. unfold MAX_CALL_STATE_POOL in *.
    exists (i :: l). apply (moved_inside realloc s t _ (DoneCount ret) _ l (i :: l) Hs Ht); try done;
      [|cbn; rewrite zlen_cons; lia].
    split; try done; [|rewrite zlen_cons; unfold MAX_CALL_STATE_POOL; lia].
    by apply (owns_push realloc _ _ _ _ t _ (DoneCount ret) i c Ho Ht).
  - pose proof (at_place s l t _ Hs Ht eq_refl) as Hn. cbn in Hn. exists l.
    apply (moved_inside realloc s t _ (DoneUnlock None ret) _ l l Hs Ht); try done.
    + apply (simply_moved s l t _ _ _ Hs Ht); try done. cbn. rewrite wrap32_id by lia.
      unfold MAX_CALL_STATE_POOL. lia.
    + cbn. rewrite wrap32_id by lia. lia.
  - pose proof (at_place s l t _ Hs Ht eq_refl) as Hn. cbn in Hn. exists l. destruct o as [i|].
    + apply (moved_unlock realloc s t _ (Destroying i ret) _ l Hs Ht); try done.
      by apply (simply_moved s l t _ _ _ Hs Ht).
    + apply (moved_unlock realloc s t _ (Outside (Some ret)) _ l Hs Ht); try done.
      by apply (simply_moved s l t _ _ _ Hs Ht).
  - exists l. apply (moved_outside realloc s t _ (Outside (Some ret)) _ l Hs Ht); try done.
    + split; try done. by apply (owns_release realloc _ _ _ _ t _ (Outside (Some ret)) i Ho Ht).
    + intros t1 p1 j Hne H1 Hj1. apply lookup_delete_ne. apply not_eq_sym.
      by apply (elsewhere s l t _ i t1 p1 j Hs Ht).
  - rewrite (destroy_ok _ Hfit) in Hrun. done.
Qed.

(** What a thread looks at is allocated. *)
Lemma touched_allocated s l t p i :
  lib_ok realloc s l -> threads s !! t = Some p -> touches p = Some i -> is_Some (heap s !! i).
Proof.
  intros Hs Ht Hi. assert (owned p = Some i \/ exists job, p = LookupTake job i) as [Hown|[job ->]]
    by (destruct p; cbn in *; try done; injection Hi as ->; eauto).
  - destruct (in_hand _ _ _ _ _ Hs Ht Hown) as (c & Hc & _). by exists c.
  - destruct (at_place s l t _ Hs Ht eq_refl) as [Hp _].
    pose proof (ow_chain _ _ _ _ _ (lo_owns _ _ _ Hs)) as Hch. rewrite Hp in Hch.
    destruct l as [|j l]; [done|]. destruct Hch as [[= ->] (c & Hc & _)]. by exists c.
Qed.

Lemma thread_step_ok t s s' l :
  lib_ok realloc s l -> thread_step path app_id dials jobs t s s' -> exists l', lib_ok realloc s' l'.
Proof.
  intros Hs [_ H|_ H|_ H|p i _ Ht Hi Hn _]; [by eapply lookup_step_ok|by eapply work_step_ok|by eapply done_step_ok|].
  destruct (touched_allocated s l t p i Hs Ht Hi). congruence.
Qed.

Lemma loaded_ok s : loaded s -> lib_ok realloc s [].
Proof.
  intros (Hh & Hp & Hn & Hm & Ht & Hr). split; rewrite ?Hh, ?Hp, ?Hn, ?Hm; try done.
  - split; try done; [constructor|by intros i []%elem_of_nil| | |].
    + by intros t p i ->%Ht.
    + by intros t t' p p' i ->%Ht.
    + by intros i [? ?].
  - split; [|done]. by intros t p ->%Ht.
  - by intros t p job ->%Ht.
Qed.

Lemma reachable_ok s s' :
  loaded s -> rtc (step path app_id dials jobs) s s' -> exists l, lib_ok realloc s' l.
Proof.
  intros Hs%loaded_ok Hrtc. assert (exists l, lib_ok realloc s l) as [l0 H0] by eauto. clear Hs.
  revert l0 H0. induction Hrtc as [|s1 s2 s3 [t Hstep] _ IH]; intros l0 H0; [eauto|].
  destruct (thread_step_ok t s1 s2 l0 H0 Hstep) as [l1 H1]. by apply (IH l1).
Qed.

(** How many steps a thread with the mutex is away from giving it back. *)
Definition steps_left (p : place) : nat :=
  match p with
  | DoneHead _ _ => 5
  | LookupHead _ | DoneLink _ _ => 4
  | LookupTake _ _ | DoneStore _ _ => 3
  | LookupCount _ _ | DoneCount _ => 2
  | LookupUnlock _ _ | DoneUnlock _ _ => 1
  | _ => 0
  end.

(** It never has to wait. *)
Lemma inside_goes_on s l t p :
  lib_ok realloc s l -> threads s !! t = Some p -> has_mutex p = true ->
  exists s' p', thread_step path app_id dials jobs t s s' /\ threads s' !! t = Some p'
    /\ (steps_left p' < steps_left p)%nat
    /\ if has_mutex p' then call_state_mutex s' = call_state_mutex s else call_state_mutex s' = None.
Proof.
  intros Hs Ht Hp. pose proof (lo_running _ _ _ Hs) as Hr. pose proof (at_place s l t p Hs Ht Hp) as Hc.
  assert (forall i, owned p = Some i -> exists c, heap s !! i = Some c /\ fit realloc p c) as Hh
    by (intros i; by apply (in_hand s l t)).
  destruct p as [| |job|job i|job i|job o| | | | | |i ret|i ret|i ret|ret|o ret|]; try done; cbn in Hc, Hh.
  - destruct (call_state_pool s) as [i|] eqn:Epool.
    + exists (go t (LookupTake job i) s), (LookupTake job i). split; [by apply step_lookup, lookup_head|].
      cbn. rewrite lookup_insert_eq. split_and!; [done|lia|done].
    + exists (go t (LookupUnlock job None) s), (LookupUnlock job None). split; [by apply step_lookup, lookup_none|].
      cbn. rewrite lookup_insert_eq. split_and!; [done|lia|done].
  - destruct (touched_allocated s l t _ i Hs Ht eq_refl) as [c Hi]. eexists _, (LookupCount job i).
    split; [by eapply step_lookup, lookup_take|]. cbn. rewrite lookup_insert_eq. split_and!; [done|lia|done].
  - pose proof (zlen_nonneg l). eexists _, (LookupUnlock job (Some i)).
    split; [apply step_lookup, lookup_count; [done|done|lia]|]. cbn. rewrite lookup_insert_eq.
    split_and!; [done|lia|done].
  - eexists _, (match o with Some i => Looked job i | None => Connecting job end).
    split; [by apply step_lookup, lookup_unlock|]. cbn. rewrite lookup_insert_eq.
    destruct o; split_and!; done || (cbn; lia).
  - destruct (Hh i eq_refl) as (c & Hi & _).
    destruct (Z.ltb_spec (n_call_state_pool s) MAX_CALL_STATE_POOL).
    + eexists _, (DoneLink i ret). split; [by eapply step_done, done_room|]. cbn. rewrite lookup_insert_eq.
      split_and!; [done|lia|done].
    + eexists _, (DoneUnlock (Some i) ret). split; [by eapply step_done, done_full|]. cbn. rewrite lookup_insert_eq.
      split_and!; [done|lia|done].
  - destruct (Hh i eq_refl) as (c & Hi & _ & Hnx). eexists _, (DoneStore i ret).
    split; [by eapply step_done, done_link|]. cbn. rewrite lookup_insert_eq. split_and!; [done|lia|done].
  - eexists _, (DoneCount ret). split; [by eapply step_done, done_store|]. cbn. rewrite lookup_insert_eq.
    split_and!; [done|lia|done].
  - eexists _, (DoneUnlock None ret). split; [by eapply step_done, done_count|]. cbn. rewrite lookup_insert_eq.
    split_and!; [done|lia|done].
  - eexists _, (match o with Some i => Destroying i ret | None => Outside (Some ret) end).
    split; [by eapply step_done, done_unlock|]. cbn. rewrite lookup_insert_eq.
    destruct o; split_and!; done || (cbn; lia).
Qed.

Lemma critical_section_ends k s l t p :
  lib_ok realloc s l -> threads s !! t = Some p -> has_mutex p = true -> (steps_left p <= k)%nat ->
  exists s', rtc (thread_step path app_id dials jobs t) s s' /\ call_state_mutex s' = None.
Proof.
  revert s l p. induction k as [|k IH]; intros s l p Hs Ht Hp Hk;
    destruct (inside_goes_on s l t p Hs Ht Hp) as (s1 & p1 & Hstep & H1 & Hlt & Hm); [lia|].
  destruct (thread_step_ok t s s1 l Hs Hstep) as [l1 Hs1].
  destruct (has_mutex p1) eqn:E1.
  - destruct (IH s1 l1 p1 Hs1 H1 E1) as (s2 & Hs2 & Hfree); [lia|]. exists s2. split; [by eapply rtc_l|done].
  - exists s1. split; [by eapply rtc_once|done].
Qed.
End Preserved.

(** * Properties *)

(** [job] is what the call of the API does on its connection. *)
Definition api_job (realloc : EggBufferAllocator) (garbage : Z) (call : Api.ApiCall) (job : Net CallState Z) : Prop :=
  exists A (m : Net Client (Z * A)), Api.perform realloc garbage call = Api.result m
    /\ made_of realloc m job /\ job_ok realloc job.
Definition api_jobs (realloc : EggBufferAllocator) (garbage : Z) (job : Net CallState Z) : Prop :=
  exists call, Api.args_ok call /\ with_macros call /\ api_job realloc garbage call job.

(** C8: threads of an application share the connections.  However the steps of threads
    that make calls of the API are interleaved, and whatever the network does: nothing
    asserts, touches memory that was freed, or faults in another way; only one thread is in
    a critical section; no two threads have the same connection in hand; those in the
    pool, at most eight, all different and all ready, are in no one's hand; there is no
    other one, so none is lost; the counter says how many they are when nobody has the
    mutex; and whoever has it gives it back without having to wait.  Every call of the API
    is such a job, but for the two that are not written with the macros. *)
Theorem threads_share_pool realloc garbage path app_id dials s s' :
  AllocatorOk realloc -> gives_memory realloc -> path <> EmptyString -> (forall d, dials d -> dial_ok d) ->
  loaded s -> rtc (step path app_id dials (api_jobs realloc garbage)) s s' ->
  (forall call, Api.args_ok call -> with_macros call -> exists job, api_job realloc garbage call job)
  /\ status s' = Running
  /\ (forall t t' p p', threads s' !! t = Some p -> threads s' !! t' = Some p' ->
        has_mutex p = true -> has_mutex p' = true -> t = t')
  /\ one_owner (threads s')
  /\ (exists l, chain (heap s') (call_state_pool s') l /\ NoDup l /\ zlen l <= MAX_CALL_STATE_POOL
        /\ (call_state_mutex s' = None -> n_call_state_pool s' = zlen l)
        /\ (forall i, i ∈ l -> (exists c, heap s' !! i = Some c /\ ready realloc (cell c))
              /\ forall t p, threads s' !! t = Some p -> owned p <> Some i)
        /\ (forall i, is_Some (heap s' !! i) ->
              i ∈ l \/ exists t p, threads s' !! t = Some p /\ owned p = Some i))
  /\ (forall t, call_state_mutex s' = Some t -> exists s'',
        rtc (thread_step path app_id dials (api_jobs realloc garbage) t) s' s'' /\ call_state_mutex s'' = None).
Proof.
  intros Hok Hmem Hpath Hdials Hs Hsteps.
  assert (forall job, api_jobs realloc garbage job -> job_ok realloc job) as Hjobs
    by (by intros job (call & _ & _ & A & m & _ & _ & ?)).
  destruct (reachable_ok realloc path app_id dials (api_jobs realloc garbage) Hpath Hdials Hjobs s s' Hs Hsteps)
    as [l Hl]. pose proof Hl as [Hr Ho [Hm1 Hm2] Hx Hx' Hf Hc Hj].
  split.
  { intros call Ha Hw. destruct (perform_one_call realloc Hok Hmem garbage call Ha Hw) as (A & m & Hp & job & Hm & Hjb).
    by exists job, A, m. }
  split; [done|]. split.
  { intros t t' p p' H1 H2 E1 E2. pose proof (Hm1 t p H1 E1). pose proof (Hm1 t' p' H2 E2). congruence. }
  split; [apply Ho|]. split.
  - exists l. destruct Ho as [Hch Hnd Hready Hheld Hone Hall]. split_and!; try done.
    intros i Hi. split; [by apply Hready|]. intros t p Ht Hp. by destruct (Hheld t p i Ht Hp).
  - intros t Ht. destruct (Hm2 t Ht) as (p & Hp & Hin).
    by apply (critical_section_ends realloc path app_id dials _ Hpath Hdials Hjobs (steps_left p) s' l t p).
Qed.

(** The first thread has entered a call and has the mutex, the second waits for it. *)
Lemma threads_share_pool_witness :
  exists job s', rtc (step "tcp://host" 7 dial_ok (api_jobs sample_realloc 0)) two_threads s'
    /\ threads s' !! 1%nat = Some (LookupHead job) /\ threads s' !! 2%nat = Some (LookupLock job)
    /\ status s' = Running /\ exists s'', call_state_mutex s'' = None
         /\ rtc (thread_step "tcp://host" 7 dial_ok (api_jobs sample_realloc 0) 1) s' s''.
Proof.
  assert (exists job, api_jobs sample_realloc 0 job) as [job Hjob].
  { destruct (perform_one_call sample_realloc _ sample_realloc_gives 0 (Api.C_GetFunctionStatus 1) I I)
      as (A & m & Hp & job & Hm & Hj).
    exists job, (Api.C_GetFunctionStatus 1). split; [exact I|]. split; [exact I|]. by exists A, m. }
  set (s' := go 1 (LookupHead job) (set_mutex (Some 1%nat) (go 2 (LookupLock job) (go 1 (LookupLock job) two_threads)))).
  assert (rtc (step "tcp://host" 7 dial_ok (api_jobs sample_realloc 0)) two_threads s') as Hrun.
  { eapply rtc_l; [exists 1%nat; apply step_lookup; [done|by apply (lookup_enter _ _ _ _ _ _ None)]|].
    eapply rtc_l; [exists 2%nat; apply step_lookup; [done|by apply (lookup_enter _ _ _ _ _ _ None)]|].
    apply rtc_once. exists 1%nat. by apply step_lookup; [|apply lookup_lock]. }
  destruct (threads_share_pool sample_realloc 0 "tcp://host" 7 dial_ok two_threads s') as (_ & Hr & _ & _ & _ & Hfree).
  - apply _.
  - apply sample_realloc_gives.
  - done.
  - done.
  - split_and!; try done. intros t p. cbn.
    intros [[_ <-]|[_ [_ <-]%lookup_singleton_Some]]%lookup_insert_Some; done.
  - exact Hrun.
  - exists job, s'. destruct (Hfree 1%nat eq_refl) as (s'' & ? & ?). split_and!; try done. by exists s''.
Defined.
