(* ===== verification/ThreadsAlone.v ===== *)
(** A call of the client library as ClientProto has it, in one piece, is a run of the
    steps of ClientThreads. *)
From stdpp Require Import gmap relations.
From S2P Require Import Prelude EggBuffer Pkcs11 RpcUtil Calls Message Transport.
From S2P Require Import Client ClientProto ClientCalls ClientSpecs ClientReads ClientRun ClientMacros ClientPool ClientProps ClientThreads.

(** ** One thread alone *)

Section Alone.
Context (realloc : EggBufferAllocator) (path : string) (app_id : Z).
Context (dials : dialled -> Prop) (jobs : Net CallState Z -> Prop).
Abbreviation steps t := (rtc (thread_step path app_id dials jobs t)).

(** The thread is at [p], nobody has the mutex, and the pool is the list [l] of call
    states, which hold what the pool of [c] does. *)
Record stands (s : Lib) (t : nat) (p : place) (l : list nat) (c : Client) : Prop := {
  st_running : status s = Running;
  st_place : threads s !! t = Some p;
  st_mutex : call_state_mutex s = None;
  st_chain : chain (heap s) (call_state_pool s) l;
  st_nodup : NoDup l;
  st_cells : Forall2 (fun i cs => exists x, heap s !! i = Some x /\ cell x = cs) l (Client.call_state_pool c);
  st_n : n_call_state_pool s = Client.n_call_state_pool c;
}.

(** The settings in force, and the attempts to connect that may come. *)
Definition settled (c : Client) : Prop :=
  pkcs11_socket_path c = path /\ pkcs11_app_id c = app_id /\ Forall dials (Client.dials c).

Lemma cells_ext (h h' : gmap nat Cell) l pool :
  (forall i, i ∈ l -> h' !! i = h !! i) ->
  Forall2 (fun i cs => exists x, h !! i = Some x /\ cell x = cs) l pool ->
  Forall2 (fun i cs => exists x, h' !! i = Some x /\ cell x = cs) l pool.
Proof.
  intros Hh H. induction H as [|i cs l pool (x & Hx & He) _ IH]; constructor.
  - exists x. by rewrite Hh by (by left).
  - apply IH. intros j Hj. apply Hh. by right.
Qed.

Lemma chain_allocated h p l i : chain h p l -> i ∈ l -> is_Some (h !! i).
Proof.
  revert p. induction l as [|j l IH]; intros p; [by intros _ []%elem_of_nil|].
  intros [_ (c & Hc & Hl)] [->|Hi]%elem_of_cons; [by exists c|by apply (IH (next c))].
Qed.

(** What a run of [call_lookup] that returns was like. *)
Lemma net_inv {S A B} (m : Net S A) (k : A -> Net S B) s b s' :
  (m ≫= k) s = Ok (Some b, s') -> exists a s1, m s = Ok (Some a, s1) /\ k a s1 = Ok (Some b, s').
Proof. unfold mbind, Net_bind. destruct (m s) as [[[a|] s1]|]; [by eauto|done..]. Qed.
Lemma assert_inv {S} (x : bool) (s s' : S) u : net (assert_ x) s = Ok (Some u, s') -> x = true /\ s' = s.
Proof. unfold net, assert_. destruct x; [by intros [= _ <-]|done]. Qed.

Definition ready_now (cs : CallState) : Prop := call_status cs = CALL_READY /\ socket cs <> -1.

Lemma lookup_checks_inv (cs : CallState) (c c1 : Client) r :
  (net (assert_ (bool_decide (call_status cs = CALL_READY)));;
   net (assert_ (negb (socket cs =? -1)));; mret (inl cs) : Net Client (CallState + Z)) c = Ok (Some r, c1) ->
  ready_now cs /\ r = inl cs /\ c1 = c.
Proof.
  intros ([] & ? & [E1 ->]%assert_inv & ([] & ? & [E2 ->]%assert_inv & [= <- <-])%net_inv)%net_inv.
  apply bool_decide_eq_true in E1. apply negb_true_iff, Z.eqb_neq in E2. done.
Qed.

Lemma call_lookup_inv c r c1 :
  call_lookup c = Ok (Some r, c1) ->
  (exists cs pool, Client.call_state_pool c = cs :: pool /\ 0 < Client.n_call_state_pool c /\ ready_now cs
     /\ r = inl cs /\ c1 = Client.set_pool pool (wrap32 (Client.n_call_state_pool c - 1)) c)
  \/ exists d ds, Client.call_state_pool c = [] /\ Client.dials c = d :: ds /\ c1 = set_dials ds c
     /\ if d_calloc d
        then exists rv cs, call_connect (pkcs11_socket_path c) (pkcs11_app_id c) d new_call = Ok (Some rv, cs)
          /\ if rv =? CKR_OK then ready_now cs /\ r = inl cs else r = inr rv
        else r = inr CKR_HOST_MEMORY.
Proof.
  unfold call_lookup. intros (c0 & s0 & [= <- <-] & (r0 & s1 & Hr0 & Hr)%net_inv)%net_inv.
  destruct (Client.call_state_pool c) as [|cs pool] eqn:Epool.
  - right. destruct (Client.dials c) as [|d ds] eqn:Ed; [done|]. exists d, ds.
    apply net_inv in Hr0 as (u & s2 & [= _ <-] & Hr0). destruct (d_calloc d); cbn [negb] in Hr0.
    + apply net_inv in Hr0 as ([rv cs] & s3 & Hw & [= <- <-]). unfold with_call in Hw.
      destruct (call_connect _ _ d new_call) as [[[rv'|] cs']|]; [|done..]. injection Hw as -> -> <-.
      destruct (Z.eqb_spec rv CKR_OK) as [->|Hne].
      * apply lookup_checks_inv in Hr as (? & -> & ->). split_and!; try done. by exists CKR_OK, cs.
      * injection Hr as <- <-. split_and!; try done. exists rv, cs. split; [done|].
        by rewrite (proj2 (Z.eqb_neq _ _) Hne).
    + injection Hr0 as <- <-. by injection Hr as <- <-.
  - left. exists cs, pool. apply net_inv in Hr0 as ([] & s2 & [Hn ->]%assert_inv & Hr0).
    apply net_inv in Hr0 as (u & s3 & [= _ <-] & [= <- <-]).
    apply lookup_checks_inv in Hr as (? & -> & ->). by rewrite Z.ltb_lt in Hn.
Qed.

(** The next step of the thread. *)
Ltac one_step kind rule :=
  eapply rtc_l; [apply kind; [done|eapply rule; cbn; rewrite ?lookup_insert_eq; try done]|].

(** In [call_lookup] a thread takes its steps only. *)
Definition looking (t : nat) (s s' : Lib) : Prop := status s = Running /\ lookup_step path app_id dials jobs t s s'.
Lemma looking_steps t s s' : rtc (looking t) s s' -> steps t s s'.
Proof. apply rtc_subrel. intros ? ? [? ?]. by apply step_lookup. Qed.

Lemma lookup_runs s t job l c r c1 :
  stands s t (LookupLock job) l c -> settled c -> call_lookup c = Ok (Some r, c1) ->
  exists s1, rtc (looking t) s s1 /\ settled c1 /\ match r with
    | inl cs => exists i l1, stands s1 t (Working job i) l1 c1 /\ (i ∉ l1)
        /\ heap s1 !! i = Some (mkCell cs None)
    | inr rv => stands s1 t (Outside (Some rv)) l c1
    end.
Proof.
  intros [Hr Ht Hm Hch Hnd Hce Hn] (Hp & Ha & Hd) [(cs & pool & Epool & Hpos & Hcs & -> & ->)
    |(d & ds & Epool & Ed & -> & Hcon)]%call_lookup_inv; rewrite Epool in Hce.
  - destruct l as [|i l]; [by inversion Hce|]. apply Forall2_cons in Hce as [(x & Hx & He) Hce].
    destruct Hch as [Hpool (x' & Hx' & Hch)]. assert (x' = x) as -> by congruence.
    apply NoDup_cons in Hnd as [Hi Hnd]. eexists. split; [|split; [by split_and!|]].
    + one_step conj lookup_lock. one_step conj lookup_head. one_step conj lookup_take.
      one_step conj lookup_count; [cbn; lia|]. one_step conj lookup_unlock. cbn.
      one_step conj lookup_ready; [destruct Hcs as [? ?]; cbn; by rewrite He|]. apply rtc_refl.
    + exists i, l. split; [split; cbn; try done|].
      * by rewrite lookup_insert_eq.
      * eapply chain_ext; [|exact Hch]. intros j Hj. apply lookup_insert_ne. by intros ->.
      * eapply cells_ext; [|exact Hce]. intros j Hj. apply lookup_insert_ne. by intros ->.
      * by rewrite Hn.
      * split; [done|]. cbn. by rewrite lookup_insert_eq, He.
  - apply Forall2_nil_inv_r in Hce as ->. rewrite Ed in Hd. apply Forall_cons in Hd as [Hdd Hd].
    destruct (d_calloc d) eqn:Ecalloc.
    + destruct Hcon as (rv & cs & Hrun & Hrv). rewrite Hp, Ha in Hrun.
      destruct (Z.eqb_spec rv CKR_OK) as [->|Hne].
      * destruct Hrv as [Hcs ->]. set (i := fresh (dom (heap s))).
        assert (heap s !! i = None) as Hi by (apply not_elem_of_dom, is_fresh).
        eexists. split; [|split; [by split_and!|]].
        -- one_step conj lookup_lock. one_step conj lookup_none. one_step conj lookup_unlock.
           cbn. eapply rtc_l.
           { split; [done|]. eapply (lookup_connected _ _ _ _ _ _ job d i); cbn; try done.
             by rewrite lookup_insert_eq. }
           one_step conj lookup_ready; [destruct Hcs; cbn; done|]. apply rtc_refl.
        -- exists i, []. split; [|split; [by intros ?%elem_of_nil|cbn; by rewrite lookup_insert_eq]].
           split; cbn; try done; [by rewrite lookup_insert_eq|rewrite Epool; constructor].
      * subst r. eexists. split; [|split; [by split_and!|]].
        -- one_step conj lookup_lock. one_step conj lookup_none. one_step conj lookup_unlock.
           cbn. eapply rtc_l; [|apply rtc_refl].
           split; [done|]. eapply (lookup_not_connected _ _ _ _ _ _ job d rv cs); cbn; try done.
           by rewrite lookup_insert_eq.
        -- split; cbn; try done; [by rewrite lookup_insert_eq|rewrite Epool; constructor].
    + subst r. eexists. split; [|split; [by split_and!|]].
      * one_step conj lookup_lock. one_step conj lookup_none. one_step conj lookup_unlock.
        cbn. eapply rtc_l; [|apply rtc_refl].
        split; [done|]. eapply (lookup_no_memory _ _ _ _ _ _ job d); cbn; try done.
        by rewrite lookup_insert_eq.
      * split; cbn; try done; [by rewrite lookup_insert_eq|rewrite Epool; constructor].
Qed.

Lemma lift_inv {S A} (r : res A) (s s' : S) a : net (lift_res r) s = Ok (Some a, s') -> r = Ok a /\ s' = s.
Proof. unfold net, lift_res. destruct r; [by intros [= -> ->]|done]. Qed.

(** What a run of [call_done] was like. *)
Lemma call_done_inv cs ret (c c' : Client) ret' :
  call_done cs ret c = Ok (Some ret', c') ->
  done_checked cs ret = Ok ret' /\
  if worth_keeping cs ret' && (Client.n_call_state_pool c <? MAX_CALL_STATE_POOL)
  then c' = Client.set_pool (set_status CALL_READY cs :: Client.call_state_pool c)
              (wrap32 (Client.n_call_state_pool c + 1)) c
  else call_destroy cs = Ok tt /\ c' = c.
Proof.
  unfold call_done, done_checked. intros ([] & ? & [Hst ->]%assert_inv & H)%net_inv.
  apply negb_true_iff in Hst as ->. apply net_inv in H as (r & ? & [-> ->]%lift_inv & H).
  apply net_inv in H as (c0 & c1 & [= <- <-] & H). fold (worth_keeping cs r) in H.
  destruct (worth_keeping cs r && (Client.n_call_state_pool c <? MAX_CALL_STATE_POOL)) eqn:E.
  - apply net_inv in H as (u & c1 & [= _ <-] & [= <- <-]). by rewrite E.
  - apply net_inv in H as ([] & c1 & [Hd ->]%lift_inv & [= <- <-]). by rewrite E.
Qed.

Lemma done_runs s t i ret l c ret' c' cs :
  stands s t (DoneCheck i ret) l c -> i ∉ l -> heap s !! i = Some (mkCell cs None) ->
  call_done cs ret c = Ok (Some ret', c') ->
  exists s' l', steps t s s' /\ stands s' t (Outside (Some ret')) l' c'.
Proof.
  intros [Hr Ht Hm Hch Hnd Hce Hn] Hi Hci [Hchk Hrun]%call_done_inv.
  destruct (worth_keeping cs ret') eqn:Ew; cbn [andb] in Hrun.
  - destruct (Z.ltb_spec (Client.n_call_state_pool c) MAX_CALL_STATE_POOL) as [Hlt|Hge].
    + subst c'. eexists _, (i :: l). split.
      * one_step step_done done_check; [done..|]. cbn. rewrite Ew.
        one_step step_done done_lock. one_step step_done done_room; [cbn; by rewrite Hn|].
        one_step step_done done_link; [done..|]. one_step step_done done_store. one_step step_done done_count.
        one_step step_done done_unlock. apply rtc_refl.
      * split; cbn; try done.
        -- by rewrite lookup_insert_eq.
        -- split; [done|]. eexists. rewrite lookup_insert_eq. split; [done|]. cbn.
           eapply chain_ext; [|exact Hch]. intros j Hj. by rewrite !lookup_insert_ne by (by intros ->).
        -- by apply NoDup_cons.
        -- constructor; [eexists; by rewrite lookup_insert_eq|].
           eapply cells_ext; [|exact Hce]. intros j Hj. by rewrite !lookup_insert_ne by (by intros ->).
        -- by rewrite Hn.
    + destruct Hrun as [Hd ->]. eexists _, l. split.
      * one_step step_done done_check; [done..|]. cbn. rewrite Ew.
        one_step step_done done_lock. one_step step_done done_full; [cbn; lia|]. one_step step_done done_unlock.
        one_step step_done done_destroy; [done..|]. apply rtc_refl.
      * split; cbn; try done; [by rewrite lookup_insert_eq| |].
        -- eapply chain_ext; [|exact Hch]. intros j Hj. apply lookup_delete_ne. by intros ->.
        -- eapply cells_ext; [|exact Hce]. intros j Hj. apply lookup_delete_ne. by intros ->.
  - destruct Hrun as [Hd ->]. eexists _, l. split.
    + one_step step_done done_check; [done..|]. cbn. rewrite Ew.
      one_step step_done done_destroy; [done..|]. apply rtc_refl.
    + split; cbn; try done; [by rewrite lookup_insert_eq| |].
      * eapply chain_ext; [|exact Hch]. intros j Hj. apply lookup_delete_ne. by intros ->.
      * eapply cells_ext; [|exact Hce]. intros j Hj. apply lookup_delete_ne. by intros ->.
Qed.

(** The work in between is one step. *)
Lemma work_runs s t job i l c cs ret cs' :
  stands s t (Working job i) l c -> i ∉ l -> heap s !! i = Some (mkCell cs None) ->
  job cs = Ok (Some ret, cs') ->
  exists s', thread_step path app_id dials jobs t s s' /\ stands s' t (DoneCheck i ret) l c
    /\ heap s' !! i = Some (mkCell cs' None).
Proof.
  intros [Hr Ht Hm Hch Hnd Hce Hn] Hi Hci Hrun. eexists. split; [|split].
  - apply step_work; [done|]. by eapply work_ends.
  - split; cbn; try done; [by rewrite lookup_insert_eq| |].
    + eapply chain_ext; [|exact Hch]. intros j Hj. apply lookup_insert_ne. by intros ->.
    + eapply cells_ext; [|exact Hce]. intros j Hj. apply lookup_insert_ne. by intros ->.
  - cbn. by rewrite lookup_insert_eq.
Qed.

Lemma CALL_inv {A} id (args : A) body c ret args' c' :
  CALL realloc id args body c = Ok (Some (ret, args'), c') -> pkcs11_initialized c = true ->
  exists r c1, call_lookup c = Ok (Some r, c1) /\
    match r with
    | inr rv => ret = rv /\ c' = c1
    | inl cs => exists code cs', (r ← on_call realloc id body; mret (ClientPool.code r)) cs = Ok (Some code, cs')
        /\ call_done cs' code c1 = Ok (Some ret, c')
    end.
Proof.
  unfold CALL. intros (c0 & ? & [= <- <-] & H)%net_inv Hi. rewrite Hi in H. cbn [negb] in H.
  apply net_inv in H as (r & c1 & Hl & H). exists r, c1. split; [done|].
  destruct r as [cs|rv]; [|by injection H as <- _ <-].
  apply net_inv in H as ([r cs'] & c2 & Hw & H). unfold with_call in Hw. fold (on_call realloc id body) in Hw.
  destruct (on_call realloc id body cs) as [[[r'|] cs2]|] eqn:Ecall; [|done..]. injection Hw as -> -> <-.
  exists (ClientPool.code r), cs'. split; [unfold mbind, Net_bind; by rewrite Ecall|].
  destruct r as [[code a]|rv]; by apply net_inv in H as (rv' & c3 & Hd & [= <- _ <-]).
Qed.
End Alone.

(** * Properties *)

(** The model of one thread is that of all: a run of a call from [BEGIN_CALL] to
    [END_CALL], as the other theorems about the client library describe it, is a run of
    the steps of a thread which no other comes between, and leaves the same pool, with
    the same connections in the same order, and the same code.  [c] holds by value what
    [s] has in memory. *)
Theorem call_runs_as_steps {A} realloc path app_id dials jobs s t l last c id (args : A) body ret args' c' :
  stands s t (Outside last) l c -> settled path app_id dials c -> pkcs11_initialized c = true ->
  jobs (r ← on_call realloc id body; mret (code r)) ->
  CALL realloc id args body c = Ok (Some (ret, args'), c') ->
  exists s' l', rtc (thread_step path app_id dials jobs t) s s' /\ stands s' t (Outside (Some ret)) l' c'.
Proof.
  intros Hs Hset Hi Hjob Hrun. pose proof Hs as [Hr Ht Hm Hch Hnd Hce Hn].
  set (job := r ← on_call realloc id body; mret (code r)) in *.
  set (s0 := go t (LookupLock job) s).
  assert (stands s0 t (LookupLock job) l c) as Hs0 by (split; cbn; try done; by rewrite lookup_insert_eq).
  assert (thread_step path app_id dials jobs t s s0) as Hstep0 by (by eapply step_lookup, lookup_enter).
  destruct (CALL_inv realloc id args body c ret args' c' Hrun Hi) as (r & c1 & Hl & Hrest).
  destruct (lookup_runs path app_id dials jobs s0 t job l c r c1 Hs0 Hset Hl) as (s1 & Hsteps1%looking_steps & _ & Hs1).
  destruct r as [cs|rv].
  - destruct Hs1 as (i & l1 & Hs1 & Hil & Hci). destruct Hrest as (ret0 & cs' & Hwork & Hdone).
    destruct (work_runs path app_id dials jobs s1 t job i l1 c1 cs ret0 cs' Hs1 Hil Hci Hwork) as (s2 & Hsteps2 & Hs2 & Hci2).
    destruct (done_runs path app_id dials jobs s2 t i ret0 l1 c1 ret c' cs' Hs2 Hil Hci2 Hdone) as (s3 & l3 & Hsteps3 & Hs3).
    exists s3, l3. split; [|done]. eapply rtc_l; [done|]. etrans; [done|]. by eapply rtc_l.
  - destruct Hrest as [-> ->]. exists s1, l. split; [|done]. by eapply rtc_l.
Qed.

(** A thread whose call finds no daemon. *)
Definition no_daemon : dialled := mkDialled true true (fun _ => None) true true true [] [].
Definition lonely : Client := mkClient true 5 7 "tcp://host" "" [] 0 [no_daemon].

Lemma call_runs_as_steps_witness :
  exists s' l', rtc (thread_step "tcp://host" 7 (eq no_daemon) (fun _ => True) 1) two_threads s'
    /\ stands s' 1 (Outside (Some CKR_DEVICE_ERROR)) l' (set_dials [] lonely).
Proof.
  apply (call_runs_as_steps sample_realloc "tcp://host" 7 (eq no_daemon) (fun _ => True) two_threads 1 [] None
    lonely GCK_RPC_CALL_C_GetFunctionStatus tt (mret (0, tt)) CKR_DEVICE_ERROR tt).
  - by split; try constructor.
  - by repeat constructor.
  - done.
  - done.
  - reflexivity.
Defined.
