(* ===== verification/ClientInit.v ===== *)
(** gck-rpc-module.c, C_Initialize and C_Finalize called by several threads of an
    application: the variables that say whether the library is initialized, and
    [init_mutex], on top of the connections that the threads share in ClientThreads.  The
    abstract specification is a machine of two states, initialized or not. *)
From stdpp Require Import gmap relations.
From S2P Require Import Prelude EggBuffer Pkcs11 RpcUtil Calls Message Transport.
From S2P Require Import Client ClientProto CString ModuleArgs ClientCalls ClientSpecs ClientReads ClientRun ClientMacros ClientPool ClientProps ClientThreads ThreadsShare ThreadsAlone.

(** ** The state *)

(** Where a thread is in the two functions; [Free] is outside of them, and what it does on
    a connection then is a call of another function.  In [InitCall ret] and [FinCall] it
    makes a call on a connection; [ret] is the code the dialog with the daemon came to.
    Places between [InitArgs] and [InitUnlock], [FinCall] and [FinUnlock] have the mutex. *)
Inductive caller :=
| Free
| InitLock (init_args : option CK_C_INITIALIZE_ARGS) | InitArgs (init_args : option CK_C_INITIALIZE_ARGS)
| InitPaths | InitCall (ret : option Z) | InitMark (ret : Z) | InitUnlock (ret : Z)
| FinLock | FinCall | FinMark | FinUnlock.

(** Of [client] the settings and the marks are in use; the pool is that of [lib]. *)
Record App := mkApp {
  client : Client;
  lib : Lib;
  init_mutex : option nat;
  callers : gmap nat caller;
}.

Definition set_client (c : Client) (a : App) : App := mkApp c (lib a) (init_mutex a) (callers a).
Definition set_lib (s : Lib) (a : App) : App := mkApp (client a) s (init_mutex a) (callers a).
Definition set_init_mutex (m : option nat) (a : App) : App := mkApp (client a) (lib a) m (callers a).
Definition goes (t : nat) (c : caller) (a : App) : App :=
  mkApp (client a) (lib a) (init_mutex a) (<[t := c]> (callers a)).

(** The thread returns [rv] to the application; it begins a call on a connection. *)
Definition returns (t : nat) (rv : Z) (a : App) : App :=
  goes t Free (set_lib (go t (Outside (Some rv)) (lib a)) a).
Definition calls (t : nat) (c : caller) (job : Net CallState Z) (a : App) : App :=
  goes t c (set_lib (go t (LookupLock job) (lib a)) a).

(** What the others can tell about a call: whether it found the library initialized, or
    what C_Initialize and C_Finalize came to. *)
Inductive event := CallAccepted | CallRefused | Initialized (rv : Z) | Finalized | FinalizeRefused.

(** [call_done] has the last word on the code of other calls, C_Initialize goes by that of
    the dialog. *)
Definition noted (c : caller) (p : option place) : caller :=
  match c, p with
  | InitCall None, Some (DoneCheck _ ret) => InitCall (Some ret)
  | _, _ => c
  end.
(** What C_Initialize leaves at the end. *)
Definition marked (pid ret : Z) (c : Client) : Client :=
  if ret =? CKR_OK then set_initialized (Some pid) c
  else if negb (ret =? CKR_CRYPTOKI_ALREADY_INITIALIZED) then set_initialized None c else c.
Definition dialog_code (ret : option Z) (last : Z) : Z := default last ret.

(** ** The steps *)

Section Steps.
Context (realloc : EggBufferAllocator).
(** What the system tells the process, [pid]; what the threads give C_Initialize, what an
    attempt to connect may meet, and what the other calls do on their connections. *)
Context (processes : Process -> Prop) (pid : Z) (init_args_of : option CK_C_INITIALIZE_ARGS -> Prop).
Context (dials : dialled -> Prop) (jobs : Net CallState Z -> Prop).
(** Whether the threads keep to the standard: C_Finalize is not called while other threads
    make calls, and they make none until it returns. *)
Context (by_the_book : bool).

Definition at_rest (a : App) (t : nat) : Prop :=
  forall c p, callers a !! t = Some c -> threads (lib a) !! t = Some p -> c = Free /\ exists last, p = Outside last.
Definition finalizing (c : caller) : bool :=
  match c with FinLock | FinCall | FinMark | FinUnlock => true | _ => false end.

Definition may_finalize (a : App) (t : nat) : Prop := by_the_book = true -> forall t', t' <> t -> at_rest a t'.
Definition may_call (a : App) : Prop :=
  by_the_book = true -> forall t c, callers a !! t = Some c -> finalizing c = false.

Definition initialize_job : Net CallState Z :=
  plain_job realloc GCK_RPC_CALL_C_Initialize
    (gck_rpc_message_write_byte_array (Some (string_bytes GCK_RPC_HANDSHAKE)) GCK_RPC_HANDSHAKE_LEN).
Definition finalize_job : Net CallState Z := plain_job realloc GCK_RPC_CALL_C_Finalize (mret true).

(** A call of another function. *)
Inductive call_step (t : nat) (a : App) : list event -> App -> Prop :=
| call_accepted last job :
    callers a !! t = Some Free -> threads (lib a) !! t = Some (Outside last) -> may_call a ->
    pkcs11_initialized (client a) = true -> jobs job ->
    call_step t a [CallAccepted] (calls t Free job a)
| call_refused last :
    callers a !! t = Some Free -> threads (lib a) !! t = Some (Outside last) -> may_call a ->
    pkcs11_initialized (client a) = false ->
    call_step t a [CallRefused] (returns t CKR_CRYPTOKI_NOT_INITIALIZED a)
(* on the connection, in whatever function *)
| call_goes_on c s' :
    callers a !! t = Some c ->
    thread_step (pkcs11_socket_path (client a)) (pkcs11_app_id (client a)) dials (fun _ => False) t (lib a) s' ->
    call_step t a [] (goes t (noted c (threads s' !! t)) (set_lib s' a)).

Inductive initialize_step (t : nat) (a : App) : list event -> App -> Prop :=
| initialize_enter init_args last :
    callers a !! t = Some Free -> threads (lib a) !! t = Some (Outside last) -> may_call a ->
    init_args_of init_args -> initialize_step t a [] (goes t (InitLock init_args) a)
| initialize_lock init_args :
    callers a !! t = Some (InitLock init_args) -> init_mutex a = None ->
    initialize_step t a [] (goes t (InitArgs init_args) (set_init_mutex (Some t) a))
| initialize_refuses init_args p rv :
    callers a !! t = Some (InitArgs init_args) -> processes p ->
    initialize_args p init_args (settings (client a)) = Ok (inr rv) ->
    initialize_step t a [] (goes t (InitMark rv) a)
| initialize_takes init_args p st :
    callers a !! t = Some (InitArgs init_args) -> processes p ->
    initialize_args p init_args (settings (client a)) = Ok (inl st) ->
    initialize_step t a []
      (goes t (if pkcs11_initialized (client a) && (pid =? pkcs11_initialized_pid (client a))
               then InitMark CKR_CRYPTOKI_ALREADY_INITIALIZED else InitPaths)
         (set_client (set_settings st (client a)) a))
| initialize_dies init_args p f :
    callers a !! t = Some (InitArgs init_args) -> processes p ->
    initialize_args p init_args (settings (client a)) = Crash f ->
    initialize_step t a [] (set_lib (die (Died f) (lib a)) a)
| initialize_no_path p rv :
    callers a !! t = Some InitPaths -> processes p -> initialize_paths p (settings (client a)) = inr rv ->
    initialize_step t a [] (goes t (InitMark rv) a)
(* Call through and initialize the daemon *)
| initialize_calls p st last :
    callers a !! t = Some InitPaths -> threads (lib a) !! t = Some (Outside last) -> processes p ->
    initialize_paths p (settings (client a)) = inl st ->
    initialize_step t a [] (calls t (InitCall None) initialize_job
      (set_client (set_app_id (wrap64 (Z.lor (Z.shiftl (rand1 p) 32) (rand2 p))) (set_settings st (client a))) a))
| initialize_called ret last :
    callers a !! t = Some (InitCall ret) -> threads (lib a) !! t = Some (Outside (Some last)) ->
    initialize_step t a [] (goes t (InitMark (dialog_code ret last)) a)
(* Mark us as officially initialized *)
| initialize_mark ret :
    callers a !! t = Some (InitMark ret) ->
    initialize_step t a [Initialized ret]
      (goes t (InitUnlock ret)
         (set_client (marked pid ret (client a)) a))
| initialize_unlock ret :
    callers a !! t = Some (InitUnlock ret) ->
    initialize_step t a [] (returns t ret (set_init_mutex None a)).

(** [reserved] is null. *)
Inductive finalize_step (t : nat) (a : App) : list event -> App -> Prop :=
| finalize_refused last :
    callers a !! t = Some Free -> threads (lib a) !! t = Some (Outside last) -> may_call a ->
    pkcs11_initialized (client a) = false ->
    finalize_step t a [FinalizeRefused] (returns t CKR_CRYPTOKI_NOT_INITIALIZED a)
| finalize_enter last :
    callers a !! t = Some Free -> threads (lib a) !! t = Some (Outside last) -> may_call a ->
    may_finalize a t -> pkcs11_initialized (client a) = true ->
    finalize_step t a [] (goes t FinLock a)
| finalize_lock last :
    callers a !! t = Some FinLock -> threads (lib a) !! t = Some (Outside last) -> init_mutex a = None ->
    finalize_step t a [] (calls t FinCall finalize_job (set_init_mutex (Some t) a))
| finalize_called last :
    callers a !! t = Some FinCall -> threads (lib a) !! t = Some (Outside (Some last)) ->
    finalize_step t a [] (goes t FinMark a)
(* This should stop all other calls in *)
| finalize_mark :
    callers a !! t = Some FinMark ->
    finalize_step t a [Finalized] (goes t FinUnlock (set_client (set_initialized None (client a)) a))
| finalize_unlock :
    callers a !! t = Some FinUnlock -> finalize_step t a [] (returns t CKR_OK (set_init_mutex None a)).

Inductive app_step (t : nat) (a : App) (e : list event) (a' : App) : Prop :=
| app_call : status (lib a) = Running -> call_step t a e a' -> app_step t a e a'
| app_initialize : status (lib a) = Running -> initialize_step t a e a' -> app_step t a e a'
| app_finalize : status (lib a) = Running -> finalize_step t a e a' -> app_step t a e a'.

(** Steps of any threads, one after the other, and what can be told of them. *)
Inductive app_runs (a : App) : list event -> App -> Prop :=
| app_here : app_runs a [] a
| app_then es a1 t e a2 : app_runs a es a1 -> app_step t a1 e a2 -> app_runs a (es ++ e) a2.
End Steps.

(** The library just loaded, in a process with some threads. *)
Definition loaded_app (a : App) : Prop :=
  loaded (lib a) /\ init_mutex a = None /\ pkcs11_initialized (client a) = false
  /\ (forall t c, callers a !! t = Some c -> c = Free /\ is_Some (threads (lib a) !! t)).

(** ** The specification *)

(** The library is initialized or not; [None] is what must not happen. *)
Definition life (initialized : bool) (e : event) : option bool :=
  match e with
  | CallAccepted => if initialized then Some true else None
  | CallRefused | FinalizeRefused => if initialized then None else Some false
  | Initialized rv =>
      if initialized then if rv =? CKR_CRYPTOKI_ALREADY_INITIALIZED then Some true else None
      else Some (rv =? CKR_OK)
  | Finalized => if initialized then Some false else None
  end.
Fixpoint lives (initialized : bool) (es : list event) : option bool :=
  match es with
  | [] => Some initialized
  | e :: es => life initialized e ≫= fun i => lives i es
  end.

Lemma lives_app es es' i : lives i (es ++ es') = lives i es ≫= fun i => lives i es'.
Proof.
  revert i. induction es as [|e es IH]; intros i; [done|]. cbn. destruct (life i e); [apply IH|done].
Qed.

(** Arguments that C_Initialize has nothing against and that change no setting. *)
Definition harmless (init_args : option CK_C_INITIALIZE_ARGS) : Prop :=
  forall p st, initialize_args p init_args st = Ok (inl st).

(** Null is, and so is the flag for locking without mutex functions of the application
    and without settings. *)
Lemma null_harmless : harmless None.
Proof. done. Qed.
Lemma locking_harmless : harmless (Some (mkInitArgs false false false false CKF_OS_LOCKING_OK None)).
Proof. done. Qed.

(** ** What holds *)

Definition has_init_mutex (c : caller) : bool :=
  match c with
  | InitArgs _ | InitPaths | InitCall _ | InitMark _ | InitUnlock _ | FinCall | FinMark | FinUnlock => true
  | _ => false
  end.

(** Threads are on a connection with a path to connect to. *)
Definition claim (c : caller) (p : place) (cl : Client) : Prop :=
  match c with
  | Free => (exists last, p = Outside last) \/ pkcs11_initialized cl = true
  | InitLock _ | InitArgs _ | InitUnlock _ | FinUnlock => exists last, p = Outside last
  | InitPaths => (exists last, p = Outside last) /\ pkcs11_initialized cl = false
  | InitCall _ => pkcs11_initialized cl = false /\ pkcs11_socket_path cl <> EmptyString
  | InitMark ret => (exists last, p = Outside last)
      /\ (pkcs11_initialized cl = true -> ret = CKR_CRYPTOKI_ALREADY_INITIALIZED)
      /\ (ret = CKR_OK -> pkcs11_socket_path cl <> EmptyString)
  | FinLock | FinMark => (exists last, p = Outside last) /\ pkcs11_initialized cl = true
  | FinCall => pkcs11_initialized cl = true
  end.

(** One who does not have the mutex looks at the mark alone. *)
Lemma claim_others c p cl cl' :
  has_init_mutex c = false -> claim c p cl -> pkcs11_initialized cl' = pkcs11_initialized cl -> claim c p cl'.
Proof. intros Hc H Hi. destruct c; try done; cbn in *; by rewrite Hi. Qed.

Record app_ok (realloc : EggBufferAllocator) (pid : Z) (a : App) (es : list event) : Prop := {
  ao_lib : exists l, lib_ok realloc (lib a) l;
  ao_threads : forall t c, callers a !! t = Some c -> is_Some (threads (lib a) !! t);
  ao_claims : forall t c p, callers a !! t = Some c -> threads (lib a) !! t = Some p -> claim c p (client a);
  ao_mutex : forall t c, callers a !! t = Some c -> has_init_mutex c = true -> init_mutex a = Some t;
  ao_alone : forall t c t', callers a !! t = Some c -> finalizing c = true -> t' <> t -> at_rest a t';
  ao_path : pkcs11_initialized (client a) = true ->
    pkcs11_socket_path (client a) <> EmptyString /\ pkcs11_initialized_pid (client a) = pid;
  ao_life : lives false es = Some (pkcs11_initialized (client a));
}.

(** ** It is kept *)

(** How the mutex changes hands with a step of [t] from [c] to [c']. *)
Definition mutex_moves (t : nat) (c c' : caller) (m m' : option nat) : Prop :=
  if has_init_mutex c then m' = if has_init_mutex c' then m else None
  else if has_init_mutex c' then m = None /\ m' = Some t else m' = m.

Section Kept.
Context (realloc : EggBufferAllocator) (pid : Z).

(** Only [t] has moved. *)
Record app_moved (a : App) (t : nat) (c' : caller) (p' : place) (a' : App) : Prop := {
  am_callers : callers a' = <[t := c']> (callers a);
  am_place : threads (lib a') !! t = Some p';
  am_others : forall t1, t1 <> t -> threads (lib a') !! t1 = threads (lib a) !! t1;
}.

Lemma app_moves a es t c p c' p' a' e :
  app_ok realloc pid a es -> callers a !! t = Some c -> threads (lib a) !! t = Some p ->
  app_moved a t c' p' a' -> (exists l, lib_ok realloc (lib a') l) -> claim c' p' (client a') ->
  (forall t1 c1 p1, t1 <> t -> callers a !! t1 = Some c1 -> threads (lib a) !! t1 = Some p1 ->
     claim c1 p1 (client a) -> claim c1 p1 (client a')) ->
  mutex_moves t c c' (init_mutex a) (init_mutex a') ->
  (finalizing c' = true -> finalizing c = true \/ forall t1, t1 <> t -> at_rest a t1) ->
  (forall last, c = Free -> p = Outside last -> forall t1 c1, callers a !! t1 = Some c1 -> finalizing c1 = false) ->
  (pkcs11_initialized (client a') = true ->
     pkcs11_socket_path (client a') <> EmptyString /\ pkcs11_initialized_pid (client a') = pid) ->
  (lives false (es ++ e) = Some (pkcs11_initialized (client a'))) ->
  app_ok realloc pid a' (es ++ e).
Proof.
  intros [Hlib Hth Hcl Hmu Hal _ _] Hc Hp [Hcs' Hp' Hoth] Hlib' Hclaim Hothers Hm Hfin Hfree Hpath Hlife.
  assert (forall t1 c1, t1 <> t -> callers a !! t1 = Some c1 -> finalizing c1 = true ->
    at_rest a t -> False) as Hquiet.
  { intros t1 c1 Hne H1 Hf1 Hrest. destruct (Hrest c p Hc Hp) as [-> [last ->]].
    rewrite (Hfree last eq_refl eq_refl t1 c1 H1) in Hf1. done. }
  assert (forall t1, t1 <> t -> at_rest a t1 -> at_rest a' t1) as Hrest'.
  { intros t1 Hne Hrest c1 p1. rewrite Hcs', lookup_insert_ne, Hoth by done. apply Hrest. }
  split; try done.
  - intros t1 c1. rewrite Hcs'. intros [[<- <-]|[Hne H1]]%lookup_insert_Some; [by eexists|].
    rewrite Hoth by done. by apply (Hth t1 c1).
  - intros t1 c1 p1. rewrite Hcs'. intros [[<- <-]|[Hne H1]]%lookup_insert_Some; [by rewrite Hp'; intros [= <-]|].
    rewrite Hoth by done. intros Hp1. by apply (Hothers t1), (Hcl t1).
  - intros t1 c1. rewrite Hcs'. unfold mutex_moves in Hm. pose proof (Hmu t c Hc) as Ht.
    intros [[<- <-]|[Hne H1]]%lookup_insert_Some Hh.
    + rewrite Hh in Hm. destruct (has_init_mutex c); [rewrite Hm; auto|by destruct Hm].
    + pose proof (Hmu t1 c1 H1 Hh). destruct (has_init_mutex c); [rewrite Ht in * by done; congruence|].
      destruct (has_init_mutex c'); [destruct Hm|]; congruence.
  - intros t1 c1 t2. rewrite Hcs'. intros [[<- <-]|[Hne H1]]%lookup_insert_Some Hf Hne2.
    + apply Hrest'; [done|]. destruct (Hfin Hf) as [Hf0|Hr]; [by apply (Hal t c)|by apply Hr].
    + destruct (decide (t2 = t)) as [->|]; [|apply Hrest'; [done|by apply (Hal t1 c1)]].
      exfalso. apply (Hquiet t1 c1 (not_eq_sym Hne) H1 Hf). by apply (Hal t1 c1).
Qed.

(** One that does not change the variables of the library, of a thread with a claim. *)
Lemma app_moves_on a es t c p c' p' a' e :
  app_ok realloc pid a es -> callers a !! t = Some c -> threads (lib a) !! t = Some p ->
  app_moved a t c' p' a' -> (exists l, lib_ok realloc (lib a') l) -> client a' = client a ->
  claim c' p' (client a) -> mutex_moves t c c' (init_mutex a) (init_mutex a') ->
  (finalizing c' = true -> finalizing c = true \/ forall t1, t1 <> t -> at_rest a t1) ->
  (forall last, c = Free -> p = Outside last -> forall t1 c1, callers a !! t1 = Some c1 -> finalizing c1 = false) ->
  lives (pkcs11_initialized (client a)) e = Some (pkcs11_initialized (client a)) ->
  app_ok realloc pid a' (es ++ e).
Proof.
  intros Ha Hc Hp Hmv Hlib Hcl Hclaim Hm Hfin Hfree He. pose proof Ha as [_ _ _ _ _ Hpath Hlife].
  apply (app_moves a es t c p c' p'); rewrite ?Hcl; try done. by rewrite lives_app, Hlife.
Qed.

(** A step on a connection concerns one thread, which is not outside of the library. *)
Lemma thread_step_place path app_id dials t s s' :
  thread_step path app_id dials (fun _ => False) t s s' ->
  (exists p, threads s !! t = Some p /\ forall last, p <> Outside last)
  /\ is_Some (threads s' !! t) /\ forall t1, t1 <> t -> threads s' !! t1 = threads s !! t1.
Proof.
  assert (forall p p' s1, threads s !! t = Some p -> (forall last, p <> Outside last) ->
    threads s1 = <[t := p']> (threads s) \/ threads s1 = threads s ->
    (exists p, threads s !! t = Some p /\ forall last, p <> Outside last)
    /\ is_Some (threads s1 !! t) /\ forall t1, t1 <> t -> threads s1 !! t1 = threads s !! t1) as Hgo.
  { intros p p' s1 Hp Hin [->| ->]; (split; [by exists p|]).
    - rewrite lookup_insert_eq. split; [by eexists|]. intros t1 Hne. by rewrite lookup_insert_ne.
    - split; [by eexists|done]. }
  intros [_ H|_ H|_ H|p i _ Ht Hi Hn ->]; [destruct H; try done|destruct H|destruct H|];
    try first [by eapply Hgo; [eassumption|done|left] | by eapply (Hgo _ (Outside None)); [eassumption|done|right]].
  apply (Hgo p p); [done| |by right]. by intros last ->.
Qed.

Lemma goes_moved t c' p a : threads (lib a) !! t = Some p -> app_moved a t c' p (goes t c' a).
Proof. by split. Qed.
Lemma place_moved t c' p' a cl m :
  app_moved a t c' p' (mkApp cl (go t p' (lib a)) m (<[t := c']> (callers a))).
Proof.
  split; cbn; [done|by rewrite lookup_insert_eq|]. intros t1 Hne. by rewrite lookup_insert_ne.
Qed.

(** A thread begins a call on a connection, or returns. *)
Lemma enter_ok l s t last job :
  lib_ok realloc s l -> threads s !! t = Some (Outside last) -> job_ok realloc job ->
  exists l, lib_ok realloc (go t (LookupLock job) s) l.
Proof.
  intros Hs Ht Hj. exists l. apply (moved_only realloc (eq job)) with (p := Outside last); try done.
  - by intros ? <-.
  - intros ? [= <-]. by right.
Qed.
Lemma return_ok l s t last rv :
  lib_ok realloc s l -> threads s !! t = Some (Outside last) ->
  exists l, lib_ok realloc (go t (Outside (Some rv)) s) l.
Proof.
  intros Hs Ht. exists l. by apply (moved_only realloc (fun _ => False)) with (p := Outside last).
Qed.

Lemma noted_keeps c o :
  has_init_mutex (noted c o) = has_init_mutex c /\ finalizing (noted c o) = finalizing c.
Proof. destruct c as [| | | |[]| | | | | |]; try done. by destruct o as [[]|]. Qed.
(** Who is on a connection. *)
Lemma claim_inside c p cl :
  claim c p cl -> (forall last, p <> Outside last) ->
  match c with
  | Free | FinCall => pkcs11_initialized cl = true
  | InitCall _ => pkcs11_initialized cl = false /\ pkcs11_socket_path cl <> EmptyString
  | _ => False
  end.
Proof. intros Hc Hp. destruct c; cbn in Hc; naive_solver. Qed.
Lemma claim_noted c p p' o cl :
  claim c p cl -> (forall last, p <> Outside last) -> claim (noted c o) p' cl.
Proof.
  intros Hc Hp. pose proof (claim_inside c p cl Hc Hp) as H.
  destruct c as [| | | |[ret|]| | | | | |]; try done; [by right|]. by destruct o as [[]|].
Qed.
Lemma path_inside a es t c p :
  app_ok realloc pid a es -> callers a !! t = Some c -> threads (lib a) !! t = Some p ->
  (forall last, p <> Outside last) -> pkcs11_socket_path (client a) <> EmptyString.
Proof.
  intros [_ _ Hcl _ _ Hpath _] Hc Hp Hin. pose proof (claim_inside c p _ (Hcl t c p Hc Hp) Hin) as H.
  destruct c; try done; [by apply Hpath|by apply H|by apply Hpath].
Qed.

Context (dials : dialled -> Prop) (jobs : Net CallState Z -> Prop).
Context (Hdials : forall d, dials d -> dial_ok d) (Hjobs : forall job, jobs job -> job_ok realloc job).

Lemma call_step_ok t a es e a' :
  app_ok realloc pid a es -> call_step dials jobs true t a e a' -> app_ok realloc pid a' (es ++ e).
Proof.
  intros Ha [last job Hc Hp Hmay Hi Hj|last Hc Hp Hmay Hi|c s' Hc Hstep]; pose proof (ao_lib _ _ _ _ Ha) as [l Hl].
  - eapply app_moves_on; [exact Ha|exact Hc|exact Hp|apply (place_moved t _ _ a)|by eapply enter_ok; eauto| | | | | |];
      try done; [by right|by intros _ _ _; apply Hmay|by rewrite Hi].
  - eapply app_moves_on; [exact Ha|exact Hc|exact Hp|apply (place_moved t _ _ a)|by eapply return_ok| | | | | |];
      try done; [by left; eexists|by intros _ _ _; apply Hmay|by rewrite Hi].
  - destruct (thread_step_place _ _ _ _ _ _ Hstep) as ((p & Hp & Hin) & [p' Hp'] & Hoth).
    destruct (noted_keeps c (threads s' !! t)) as [Hm Hf].
    eapply app_moves_on; [exact Ha|exact Hc|exact Hp|split; [done|exact Hp'|exact Hoth]| | | | | | |]; try done.
    + eapply (thread_step_ok realloc _ _ dials (fun _ => False)); [|exact Hdials|done|exact Hl|exact Hstep].
      by eapply path_inside.
    + apply (claim_noted c p); [|done]. by apply (ao_claims _ _ _ _ Ha t).
    + unfold mutex_moves. rewrite Hm. by destruct (has_init_mutex c).
    + rewrite Hf. by left.
    + intros last _ ->. by destruct (Hin last).
Qed.

Lemma others_without a es t c t1 c1 :
  app_ok realloc pid a es -> callers a !! t = Some c -> has_init_mutex c = true -> t1 <> t ->
  callers a !! t1 = Some c1 -> has_init_mutex c1 = false.
Proof.
  intros [_ _ _ Hmu _ _ _] Hc Hm Hne H1. destruct (has_init_mutex c1) eqn:E; [|done].
  pose proof (Hmu t c Hc Hm). pose proof (Hmu t1 c1 H1 E). congruence.
Qed.

(** One that marks the library; [t] has the mutex. *)
Lemma app_marks a es t c p c' cl e :
  app_ok realloc pid a es -> callers a !! t = Some c -> threads (lib a) !! t = Some p ->
  has_init_mutex c = true -> has_init_mutex c' = true -> c <> Free -> claim c' p cl ->
  (forall t1 c1 p1, t1 <> t -> callers a !! t1 = Some c1 -> threads (lib a) !! t1 = Some p1 ->
     has_init_mutex c1 = false -> claim c1 p1 (client a) -> claim c1 p1 cl) ->
  (finalizing c' = true -> finalizing c = true) ->
  (pkcs11_initialized cl = true -> pkcs11_socket_path cl <> EmptyString /\ pkcs11_initialized_pid cl = pid) ->
  lives (pkcs11_initialized (client a)) e = Some (pkcs11_initialized cl) ->
  app_ok realloc pid (goes t c' (set_client cl a)) (es ++ e).
Proof.
  intros Ha Hc Hp Hm Hm' Hfree Hclaim Hothers Hfin Hpath He.
  eapply app_moves; [exact Ha|exact Hc|exact Hp|by split|apply (ao_lib _ _ _ _ Ha)|done| | | | |done|].
  - intros t1 c1 p1 Hne H1 Hp1. apply (Hothers t1); try done. by apply (others_without a es t c t1).
  - unfold mutex_moves. by rewrite Hm, Hm'.
  - auto.
  - by intros last ->.
  - by rewrite lives_app, (ao_life _ _ _ _ Ha).
Qed.

(** Only those see the mark set that have not come to it yet. *)
Lemma claim_initialized c p cl cl' :
  has_init_mutex c = false -> claim c p cl -> pkcs11_initialized cl = false ->
  pkcs11_initialized cl' = true -> claim c p cl'.
Proof. intros Hc H Hi Hi'. destruct c; try done; cbn in *; naive_solver. Qed.

Lemma initialize_mark_ok t a es ret :
  app_ok realloc pid a es -> callers a !! t = Some (InitMark ret) ->
  app_ok realloc pid
    (goes t (InitUnlock ret) (set_client (marked pid ret (client a)) a)) (es ++ [Initialized ret]).
Proof.
  intros Ha Hc. destruct (ao_threads _ _ _ _ Ha t _ Hc) as [p Hp].
  destruct (ao_claims _ _ _ _ Ha t _ p Hc Hp) as (Hout & Hagain & Hpath).
  unfold marked. apply (app_marks a es t (InitMark ret) p); try done.
  - intros t1 c1 p1 Hne H1 Hp1 Hm Hcl.
    destruct (Z.eqb_spec ret CKR_OK) as [->|Hok].
    + apply (claim_initialized c1 p1 (client a)); try done.
      destruct (pkcs11_initialized (client a)) eqn:E; [by specialize (Hagain eq_refl)|done].
    + destruct (Z.eqb_spec ret CKR_CRYPTOKI_ALREADY_INITIALIZED) as [->|Hal]; cbn [negb]; [done|].
      apply (claim_others c1 p1 (client a)); try done. cbn.
      destruct (pkcs11_initialized (client a)) eqn:E; [by specialize (Hagain eq_refl)|done].
  - destruct (Z.eqb_spec ret CKR_OK) as [->|Hok]; [cbn; auto|].
    destruct (negb _); [done|]. apply (ao_path _ _ _ _ Ha).
  - cbn. destruct (pkcs11_initialized (client a)) eqn:Ei.
    + rewrite Hagain by done. cbn. by rewrite Ei.
    + destruct (Z.eqb_spec ret CKR_OK) as [->|Hok]; [done|]. by destruct (negb _); cbn; rewrite ?Ei.
Qed.

Context (Hok : AllocatorOk realloc) (Hmem : gives_memory realloc).
Context (processes : Process -> Prop) (init_args_of : option CK_C_INITIALIZE_ARGS -> Prop).
Context (Hharmless : forall init_args, init_args_of init_args -> harmless init_args).

Lemma initialize_job_ok : job_ok realloc (initialize_job realloc).
Proof.
  intros cs. eapply (plain_job_runs realloc Hok Hmem GCK_RPC_CALL_C_Initialize); try reflexivity; [done|].
  apply handshake_request.
Qed.
Lemma finalize_job_ok : job_ok realloc (finalize_job realloc).
Proof.
  intros cs. eapply (plain_job_runs realloc Hok Hmem GCK_RPC_CALL_C_Finalize); try reflexivity; [done|].
  apply empty_request.
Qed.

(** What C_Initialize was given comes from the application. *)
Definition given (c : caller) : Prop :=
  match c with InitLock init_args | InitArgs init_args => init_args_of init_args | _ => True end.

Lemma settings_kept c : set_settings (settings c) c = c.
Proof. by destruct c. Qed.

Lemma initialize_step_ok t a es e a' :
  app_ok realloc pid a es -> (forall c, callers a !! t = Some c -> given c) ->
  initialize_step realloc processes pid init_args_of true t a e a' -> app_ok realloc pid a' (es ++ e).
Proof.
  intros Ha Hgiven Hstep. pose proof (ao_lib _ _ _ _ Ha) as [l Hl].
  assert (forall c, callers a !! t = Some c -> exists p, threads (lib a) !! t = Some p /\ claim c p (client a)) as Hplace.
  { intros c Hc. destruct (ao_threads _ _ _ _ Ha t c Hc) as [p Hp]. exists p. by split; [|apply (ao_claims _ _ _ _ Ha t)]. }
  destruct Hstep as [ia last Hc Hp Hmay _|ia Hc Hm|ia p rv Hc _ Hrv|ia p st Hc _ Hst|ia p f Hc _ Hf|p rv Hc _ Hrv
    |p st last Hc Hp _ Hst|ret last Hc Hp|ret Hc|ret Hc]; pose proof (Hplace _ Hc) as (pl & Hpl & Hcl);
    try (rewrite Hp in Hpl; injection Hpl as <-).
  - eapply app_moves_on; [exact Ha|exact Hc|exact Hp|by apply goes_moved|by exists l| | | | | |]; try done.
    + by eexists.
    + by intros _ _ _; apply Hmay.
  - eapply app_moves_on; [exact Ha|exact Hc|exact Hpl|by split|by exists l| | | | | |]; done.
  - rewrite (Hharmless _ (Hgiven _ Hc)) in Hrv. done.
  - rewrite (Hharmless _ (Hgiven _ Hc)) in Hst. injection Hst as <-. rewrite settings_kept.
    destruct (pkcs11_initialized (client a)) eqn:Ei; cbn [andb].
    + destruct (ao_path _ _ _ _ Ha Ei) as [Hpath ->]. rewrite Z.eqb_refl.
      eapply app_moves_on; [exact Ha|exact Hc|exact Hpl|by split|by exists l| | | | | |]; done.
    + eapply app_moves_on; [exact Ha|exact Hc|exact Hpl|by split|by exists l| | | | | |]; done.
  - rewrite (Hharmless _ (Hgiven _ Hc)) in Hf. done.
  - destruct Hcl as [Hout Hi].
    eapply app_moves_on; [exact Ha|exact Hc|exact Hpl|by split|by exists l| | | | | |]; try done.
    split; [done|]. split; [by rewrite Hi|]. by intros ->; apply initialize_paths_error in Hrv.
  - destruct Hcl as [Hout Hi]. pose proof (initialize_paths_nonempty p _ st Hst) as Hpath.
    eapply app_moves; [exact Ha|exact Hc|exact Hp|apply (place_moved t _ _ a)| | | | | | | |]; try done.
    + eapply enter_ok; [exact Hl|exact Hp|apply initialize_job_ok].
    + intros t1 c1 p1 Hne H1 _ Hcl1. apply (claim_others c1 p1 (client a)); try done.
      by apply (others_without a es t InitPaths t1).
    + cbn. by rewrite Hi.
    + rewrite lives_app, (ao_life _ _ _ _ Ha). done.
  - destruct Hcl as [Hi Hpath].
    eapply app_moves_on; [exact Ha|exact Hc|exact Hp|by split|by exists l| | | | | |]; try done.
    split; [by eexists|]. by rewrite Hi.
  - by apply initialize_mark_ok.
  - destruct Hcl as [last ->].
    eapply app_moves_on; [exact Ha|exact Hc|exact Hpl|apply (place_moved t _ _ a)|by eapply return_ok| | | | | |]; try done.
    by left; eexists.
Qed.

Lemma finalize_step_ok t a es e a' :
  app_ok realloc pid a es -> finalize_step realloc true t a e a' -> app_ok realloc pid a' (es ++ e).
Proof.
  intros Ha Hstep. pose proof (ao_lib _ _ _ _ Ha) as [l Hl].
  assert (forall c, callers a !! t = Some c -> exists p, threads (lib a) !! t = Some p /\ claim c p (client a)) as Hplace.
  { intros c Hc. destruct (ao_threads _ _ _ _ Ha t c Hc) as [p Hp]. exists p. by split; [|apply (ao_claims _ _ _ _ Ha t)]. }
  destruct Hstep as [last Hc Hp Hmay Hi|last Hc Hp Hmay Halone Hi|last Hc Hp Hm|last Hc Hp|Hc|Hc];
    pose proof (Hplace _ Hc) as (pl & Hpl & Hcl);
    try (rewrite Hp in Hpl; injection Hpl as <-).
  - eapply app_moves_on; [exact Ha|exact Hc|exact Hp|apply (place_moved t _ _ a)|by eapply return_ok| | | | | |];
      try done; [by left; eexists|by intros _ _ _; apply Hmay|by rewrite Hi].
  - eapply app_moves_on; [exact Ha|exact Hc|exact Hp|by split|by exists l| | | | | |]; try done.
    + split; [by eexists|done].
    + intros _. right. by apply Halone.
    + by intros _ _ _; apply Hmay.
  - destruct Hcl as [_ Hi].
    eapply app_moves_on; [exact Ha|exact Hc|exact Hp|apply (place_moved t _ _ a)| | | | | | |]; try done.
    + eapply enter_ok; [exact Hl|exact Hp|apply finalize_job_ok].
    + by left.
  - eapply app_moves_on; [exact Ha|exact Hc|exact Hp|by split|by exists l| | | | | |]; try done.
    + split; [by eexists|done].
    + by left.
  - destruct Hcl as [Hout Hi]. apply (app_marks a es t FinMark pl); try done.
    + intros t1 c1 p1 Hne H1 Hp1 _ _. destruct (ao_alone _ _ _ _ Ha t FinMark t1 Hc eq_refl Hne c1 p1 H1 Hp1) as [-> ?].
      by left.
    + by rewrite Hi.
  - destruct Hcl as [last ->].
    eapply app_moves_on; [exact Ha|exact Hc|exact Hpl|apply (place_moved t _ _ a)|by eapply return_ok| | | | | |]; try done.
    by left; eexists.
Qed.

Lemma noted_given c o : given c -> given (noted c o).
Proof. destruct c as [| | | |[]| | | | | |]; try done. by destruct o as [[]|]. Qed.
Lemma given_kept t a e a' :
  app_step realloc processes pid init_args_of dials jobs true t a e a' ->
  (forall t1 c, callers a !! t1 = Some c -> given c) -> forall t1 c, callers a' !! t1 = Some c -> given c.
Proof.
  intros Hstep Hg.
  assert (forall c', given c' -> forall t1 c, <[t := c']> (callers a) !! t1 = Some c -> given c) as Hput.
  { intros c' Hc' t1 c [[<- <-]|[_ H1]]%lookup_insert_Some; [done|by apply (Hg t1)]. }
  destruct Hstep as [_ []|_ []|_ []]; try (by apply Hput); try done; apply Hput.
  - apply noted_given. by eapply Hg.
  - by apply (Hg t (InitLock init_args)).
  - by destruct (_ && _).
Qed.

Lemma app_step_ok t a es e a' :
  app_ok realloc pid a es -> (forall t1 c, callers a !! t1 = Some c -> given c) ->
  app_step realloc processes pid init_args_of dials jobs true t a e a' -> app_ok realloc pid a' (es ++ e).
Proof.
  intros Ha Hg [_ H|_ H|_ H]; [by eapply call_step_ok|by eapply initialize_step_ok; eauto|by eapply finalize_step_ok].
Qed.

Lemma loaded_app_ok a : loaded_app a -> app_ok realloc pid a [] /\ forall t c, callers a !! t = Some c -> given c.
Proof.
  intros (Hl & Hm & Hi & Hc). split; [|by intros t c [-> _]%Hc]. split; rewrite ?Hi; try done.
  - exists []. by apply loaded_ok.
  - by intros t c [_ ?]%Hc.
  - intros t c p [-> _]%Hc Hp. left. destruct Hl as (_ & _ & _ & _ & Ht & _). exists None. by apply (Ht t).
  - by intros t c [-> _]%Hc.
  - by intros t c t' [-> _]%Hc.
Qed.

Lemma app_reachable_ok a es a' :
  loaded_app a -> app_runs realloc processes pid init_args_of dials jobs true a es a' ->
  app_ok realloc pid a' es /\ forall t c, callers a' !! t = Some c -> given c.
Proof.
  intros Ha Hruns. induction Hruns as [|es a1 t e a2 _ [IH Hg] Hstep]; [by apply loaded_app_ok|].
  split; [by eapply app_step_ok|by eapply given_kept].
Qed.
End Kept.

(** ** One thread alone *)

Section Alone.
Context (realloc : EggBufferAllocator) (processes : Process -> Prop) (pid : Z).
Context (init_args_of : option CK_C_INITIALIZE_ARGS -> Prop) (dials : dialled -> Prop).
Context (jobs : Net CallState Z -> Prop) (by_the_book : bool).
Abbreviation runs_app := (app_runs realloc processes pid init_args_of dials jobs by_the_book).
Abbreviation step_app := (app_step realloc processes pid init_args_of dials jobs by_the_book).

Lemma app_runs_app a es a1 es' a2 : runs_app a es a1 -> runs_app a1 es' a2 -> runs_app a (es ++ es') a2.
Proof.
  intros H1 H2. induction H2 as [|es' a2 t e a3 _ IH Hstep]; [by rewrite app_nil_r|].
  rewrite (assoc_L app). by eapply app_then.
Qed.
Lemma app_once a t e a' : step_app t a e a' -> runs_app a e a'.
Proof. intros H. apply (app_then _ _ _ _ _ _ _ a [] a t e a'); [apply app_here|done]. Qed.
Lemma app_next a t e a1 es a2 : step_app t a e a1 -> runs_app a1 es a2 -> runs_app a (e ++ es) a2.
Proof. intros H1%app_once H2. by eapply app_runs_app. Qed.

(** The settings and marks are those of [c], which has the pool as well. *)
Definition same_vars (x c : Client) : Prop :=
  pkcs11_initialized x = pkcs11_initialized c /\ pkcs11_initialized_pid x = pkcs11_initialized_pid c
  /\ pkcs11_app_id x = pkcs11_app_id c /\ settings x = settings c.

(** The steps of a call on a connection, as steps of the application. *)
Lemma callers_same a t c : callers a !! t = Some c -> goes t c a = a.
Proof. intros H. destruct a. cbn in *. unfold goes. cbn. by rewrite insert_id. Qed.
Lemma goes_goes t c c' a s : goes t c' (set_lib s (goes t c a)) = goes t c' (set_lib s a).
Proof. unfold goes, set_lib. cbn. by rewrite insert_insert_eq. Qed.

Lemma steps_in_app (R : Lib -> Lib -> Prop) path app_id t c s s' :
  rtc R s s' ->
  (forall s s', R s s' -> thread_step path app_id dials (fun _ => False) t s s' /\ noted c (threads s' !! t) = c) ->
  forall a, lib a = s -> callers a !! t = Some c -> path = pkcs11_socket_path (client a) ->
    app_id = pkcs11_app_id (client a) -> runs_app a [] (goes t c (set_lib s' a)).
Proof.
  intros Hsteps HR. induction Hsteps as [s|s1 s2 s3 Hstep _ IH]; intros a <- Hc -> ->.
  - assert (set_lib (lib a) a = a) as -> by by destruct a. rewrite callers_same by done. apply app_here.
  - destruct (HR _ _ Hstep) as [Hstep' Hn]. eapply (app_next a t []).
    + apply app_call; [by destruct Hstep'|]. by apply call_goes_on.
    + rewrite Hn. change (set_lib s3 a) with (set_lib s3 (set_lib s2 a)). rewrite <- (goes_goes t c c (set_lib s2 a) s3).
      apply IH; try done. cbn. by rewrite lookup_insert_eq.
Qed.

(** [call_lookup] of C_Initialize comes before there is a code. *)
Lemma looking_in_app t s s' path app_id c :
  looking path app_id dials (fun _ => False) t s s' ->
  thread_step path app_id dials (fun _ => False) t s s' /\ noted c (threads s' !! t) = c.
Proof.
  intros [Hr Hstep]. split; [by apply step_lookup|]. destruct c as [| | | |[]| | | | | |]; try done.
  destruct Hstep; cbn; rewrite ?lookup_insert_eq; try done; by destruct o || by (cbn; repeat case_match; congruence).
Qed.

Lemma plain_call_inv id write c ret c' :
  plain_call realloc id write c = Ok (Some ret, c') ->
  exists r c1, call_lookup c = Ok (Some r, c1) /\ match r with
    | inr rv => ret = rv /\ c' = c1
    | inl cs => exists cs' ret', plain_job realloc id write cs = Ok (Some ret, cs')
        /\ call_done cs' ret c1 = Ok (Some ret', c')
    end.
Proof.
  unfold plain_call. intros (r & c1 & Hl & H)%net_inv. exists r, c1. split; [done|].
  destruct r as [cs|rv]; [|by injection H as <- <-].
  apply net_inv in H as ([r cs'] & c2 & Hw & H). unfold with_call in Hw.
  destruct (plain_job realloc id write cs) as [[[r'|] cs2]|] eqn:E; [|done..]. injection Hw as -> -> <-.
  apply net_inv in H as (rv & c3 & Hd & [= <- <-]). by exists cs', rv.
Qed.

Lemma call_lookup_vars c r c1 : call_lookup c = Ok (Some r, c1) -> same_vars c c1 /\ (Forall dials (Client.dials c) -> Forall dials (Client.dials c1)).
Proof.
  intros [(cs & pool & _ & _ & _ & _ & ->)|(d & ds & _ & Ed & -> & _)]%call_lookup_inv; [done|].
  split; [done|]. rewrite Ed. by intros [_ ?]%Forall_cons.
Qed.
Lemma call_done_vars cs ret c ret' c1 : call_done cs ret c = Ok (Some ret', c1) -> same_vars c c1.
Proof. intros [_ H]%call_done_inv. destruct (_ && _); [by subst|by destruct H as [_ ->]]. Qed.
Lemma same_vars_trans x y z : same_vars x y -> same_vars y z -> same_vars x z.
Proof. intros (E1 & E2 & E3 & E4) (F1 & F2 & F3 & F4). split_and!; congruence. Qed.

(** The thread [t] is at [cl], and at [p] with its connection; nobody has a mutex but
    maybe [t] that of the two functions. *)
Record solo (a : App) (t : nat) (cl : caller) (p : place) (l : list nat) (c : Client) : Prop := {
  so_lib : stands (lib a) t p l c;
  so_caller : callers a !! t = Some cl;
  so_vars : same_vars (client a) c;
  so_dials : Forall dials (Client.dials c);
}.

(** Steps that others in [t]'s function are told by: the code goes with the dialog. *)
Lemma goes_on_in_app a t cl s1 s2 :
  callers a !! t = Some cl ->
  thread_step (pkcs11_socket_path (client a)) (pkcs11_app_id (client a)) dials (fun _ => False) t s1 s2 ->
  runs_app (goes t cl (set_lib s1 a)) [] (goes t (noted cl (threads s2 !! t)) (set_lib s2 a)).
Proof.
  intros Hc Hstep. change (set_lib s2 a) with (set_lib s2 (set_lib s1 a)).
  rewrite <- (goes_goes t cl _ (set_lib s1 a) s2). eapply app_once, app_call; [by destruct Hstep|].
  apply call_goes_on; [cbn; by rewrite lookup_insert_eq|done].
Qed.

(** The end of a call, once the code is known. *)
Lemma done_in_app a t cl cl' i ret l c ret' c' cs s :
  stands s t (DoneCheck i ret) l c -> i ∉ l -> heap s !! i = Some (mkCell cs None) ->
  call_done cs ret c = Ok (Some ret', c') -> callers a !! t = Some cl -> (forall o, noted cl' o = cl') ->
  exists s' l', runs_app (goes t cl' (set_lib s a)) [] (goes t cl' (set_lib s' a))
    /\ stands s' t (Outside (Some ret')) l' c'.
Proof.
  intros Hs Hi Hci Hdone Hc Hn.
  destruct (done_runs (pkcs11_socket_path (client a)) (pkcs11_app_id (client a)) dials (fun _ => False)
    s t i ret l c ret' c' cs Hs Hi Hci Hdone) as (s' & l' & Hsteps & Hs').
  exists s', l'. split; [|done]. change (set_lib s' a) with (set_lib s' (set_lib s a)).
  rewrite <- (goes_goes t cl' cl' (set_lib s a) s').
  eapply steps_in_app; [exact Hsteps|intros x y Hxy; split; [exact Hxy|apply Hn]|done|cbn; by rewrite lookup_insert_eq|done|done].
Qed.

(** A call on a connection as steps: [ret] is the code of the dialog. *)
Lemma plain_call_as_steps id write a t cl l c ret c' :
  solo a t cl (LookupLock (plain_job realloc id write)) l c -> cl = InitCall None \/ cl = FinCall ->
  plain_call realloc id write c = Ok (Some ret, c') ->
  exists s' l' cl' last, runs_app a [] (goes t cl' (set_lib s' a))
    /\ stands s' t (Outside (Some last)) l' c' /\ same_vars c c'
    /\ (cl = FinCall -> cl' = FinCall)
    /\ (cl = InitCall None -> exists r, cl' = InitCall r /\ dialog_code r last = ret).
Proof.
  intros [Hs Hc Hv Hd] Hcl (r & c1 & Hl & Hrest)%plain_call_inv.
  destruct Hv as (Hi & Hpid & Hid & Hset). injection Hset as Hpath _.
  set (job := plain_job realloc id write) in *.
  destruct (lookup_runs (pkcs11_socket_path (client a)) (pkcs11_app_id (client a)) dials (fun _ => False) (lib a) t job l c r c1 Hs)
    as (s1 & Hsteps1 & _ & Hs1); [by split_and!|done|].
  destruct (call_lookup_vars c r c1 Hl) as [Hv1 _].
  assert (runs_app a [] (goes t cl (set_lib s1 a))) as Hrun1.
  { eapply steps_in_app; [exact Hsteps1|by intros x y Hxy; by apply looking_in_app|done..]. }
  destruct r as [cs|rv].
  - destruct Hs1 as (i & l1 & Hs1 & Hil & Hci). destruct Hrest as (cs' & last & Hwork & Hdone).
    destruct (work_runs (pkcs11_socket_path (client a)) (pkcs11_app_id (client a)) dials (fun _ => False)
      s1 t job i l1 c1 cs ret cs' Hs1 Hil Hci Hwork) as (s2 & Hstep2 & Hs2 & Hci2).
    pose proof (goes_on_in_app a t cl s1 s2 Hc Hstep2) as Hrun2. rewrite (st_place _ _ _ _ _ Hs2) in Hrun2.
    set (cl2 := noted cl (Some (DoneCheck i ret))) in *.
    destruct (done_in_app a t cl cl2 i ret l1 c1 last c' cs' s2 Hs2 Hil Hci2 Hdone Hc) as (s3 & l3 & Hrun3 & Hs3);
      [by intros o; unfold cl2; destruct Hcl as [-> | ->]|].
    exists s3, l3, cl2, last. split; [|split; [done|split; [|split]]].
    + by eapply (app_runs_app _ [] _ []); [exact Hrun1|]; eapply (app_runs_app _ [] _ []).
    + eapply same_vars_trans; [exact Hv1|by eapply call_done_vars].
    + unfold cl2. by intros ->.
    + unfold cl2. intros ->. by exists (Some ret).
  - destruct Hrest as [-> ->]. exists s1, l, cl, rv. split_and!; try done. intros ->. by exists None.
Qed.

Lemma rpc_C_Initialize_inv p init_args c ret c' :
  rpc_C_Initialize realloc p init_args c = Ok (Some ret, c') ->
  exists args c1, initialize_args p init_args (settings c) = Ok args /\ c' = marked (getpid p) ret c1 /\
    match args with
    | inr rv => ret = rv /\ c1 = c
    | inl st =>
        if pkcs11_initialized c && (getpid p =? pkcs11_initialized_pid c)
        then ret = CKR_CRYPTOKI_ALREADY_INITIALIZED /\ c1 = set_settings st c else
        match initialize_paths p st with
        | inr rv => ret = rv /\ c1 = set_settings st c
        | inl st' => plain_call realloc GCK_RPC_CALL_C_Initialize
              (gck_rpc_message_write_byte_array (Some (string_bytes GCK_RPC_HANDSHAKE)) GCK_RPC_HANDSHAKE_LEN)
              (set_app_id (wrap64 (Z.lor (Z.shiftl (rand1 p) 32) (rand2 p))) (set_settings st' (set_settings st c)))
            = Ok (Some ret, c1)
        end
    end.
Proof.
  unfold rpc_C_Initialize. intros (c0 & ? & [= <- <-] & (args & ? & [Ha ->]%lift_inv & H)%net_inv)%net_inv.
  apply net_inv in H as (ret1 & c1 & Hret & H). exists args, c1. split; [done|].
  assert (ret1 = ret /\ c' = marked (getpid p) ret c1) as [-> ->].
  { apply net_inv in H as (u & c2 & Hm & [= -> ->]). split; [done|]. unfold marked.
    destruct (ret =? CKR_OK); [by injection Hm|]. destruct (negb _); by injection Hm. }
  split; [done|]. clear H. destruct args as [st|rv]; [|by injection Hret as <- <-].
  apply net_inv in Hret as (u & c2 & [= _ <-] & Hret).
  change (pkcs11_initialized (set_settings st c)) with (pkcs11_initialized c) in *.
  destruct (_ && _); [by injection Hret as <- <-|].
  destruct (initialize_paths p st) as [st'|rv]; [|by injection Hret as <- <-].
  apply net_inv in Hret as (u1 & c3 & [= _ <-] & Hret). by apply net_inv in Hret as (u2 & c4 & [= _ <-] & Hret).
Qed.

Lemma solo_moves a t c p l x cl' :
  solo a t c p l x -> solo (goes t cl' a) t cl' p l x.
Proof. intros [? ? ? ?]. split; cbn; rewrite ?lookup_insert_eq; done. Qed.

Lemma marked_vars ret x c : same_vars x c -> same_vars (marked pid ret x) (marked pid ret c).
Proof.
  intros (E1 & E2 & E3 & E4). injection E4 as E4 E5. unfold marked.
  repeat case_match; split_and!; cbn; try congruence; unfold settings; cbn; congruence.
Qed.

(** The mark, and the mutex given back. *)
Lemma initialize_ends a t ret last l c :
  solo a t (InitMark ret) (Outside last) l c ->
  exists a', runs_app a [Initialized ret] a' /\ init_mutex a' = None
    /\ solo a' t Free (Outside (Some ret)) l (marked pid ret c).
Proof.
  intros [[Hr Ht Hm Hch Hnd Hce Hn] Hc Hv Hd].
  eexists. split; [|split].
  - eapply (app_next a t [Initialized ret] _ []).
    + apply app_initialize; [done|]. by apply initialize_mark.
    + apply app_once with (t := t), app_initialize; [done|]. apply (initialize_unlock _ _ _ _ _ t _ ret). cbn. by rewrite lookup_insert_eq.
  - done.
  - split; cbn; rewrite ?lookup_insert_eq; [|done|by apply marked_vars|unfold marked; by repeat case_match].
    split; cbn; rewrite ?lookup_insert_eq; try done; unfold marked; by repeat case_match.
Qed.

Lemma stands_go a t p l c p' x :
  stands (lib a) t p l c -> Client.call_state_pool x = Client.call_state_pool c ->
  Client.n_call_state_pool x = Client.n_call_state_pool c -> stands (go t p' (lib a)) t p' l x.
Proof.
  intros [] Hpool Hn. split; cbn; rewrite ?lookup_insert_eq, ?Hpool, ?Hn; done.
Qed.

Lemma at_rest_may_call a t last l c :
  solo a t Free (Outside last) l c -> (forall t', t' <> t -> at_rest a t') ->
  (forall t' x, callers a !! t' = Some x -> is_Some (threads (lib a) !! t')) -> may_call by_the_book a.
Proof.
  intros Hs Hrest Hth _ t' x Hx. destruct (decide (t' = t)) as [->|Hne].
  - rewrite (so_caller _ _ _ _ _ _ Hs) in Hx. by injection Hx as <-.
  - destruct (Hth t' x Hx) as [p Hp]. by destruct (Hrest t' Hne x p Hx Hp) as [-> _].
Qed.

Lemma plain_call_dials id write c ret c' :
  plain_call realloc id write c = Ok (Some ret, c') -> Forall dials (Client.dials c) -> Forall dials (Client.dials c').
Proof.
  intros (r & c1 & Hl & Hrest)%plain_call_inv Hd. destruct (call_lookup_vars _ _ _ Hl) as [_ Hd1].
  specialize (Hd1 Hd). destruct r as [cs|rv]; [|by destruct Hrest as [_ ->]].
  destruct Hrest as (cs' & ret' & _ & Hdone). apply call_done_inv in Hdone as [_ Hdone].
  destruct (_ && _); [by subst|by destruct Hdone as [_ ->]].
Qed.

(** From the settings to the end of the dialog. *)
Lemma initialize_call_as_steps a t last l c p st ret c' :
  solo a t InitPaths (Outside last) l c -> processes p -> initialize_paths p (settings c) = inl st ->
  plain_call realloc GCK_RPC_CALL_C_Initialize
    (gck_rpc_message_write_byte_array (Some (string_bytes GCK_RPC_HANDSHAKE)) GCK_RPC_HANDSHAKE_LEN)
    (set_app_id (wrap64 (Z.lor (Z.shiftl (rand1 p) 32) (rand2 p))) (set_settings st c)) = Ok (Some ret, c') ->
  exists a' l' last', runs_app a [] a' /\ solo a' t (InitMark ret) (Outside last') l' c'.
Proof.
  intros [Hst Hc Hv Hd] Hp Hpaths Hrun. pose proof Hv as (E1 & E2 & E3 & E4). rewrite <- E4 in Hpaths.
  set (app_id := wrap64 _) in *. set (x := set_app_id app_id (set_settings st c)) in *.
  set (a1 := calls t (InitCall None) (initialize_job realloc) (set_client (set_app_id app_id (set_settings st (client a))) a)).
  assert (step_app t a [] a1) as Hstep1.
  { apply app_initialize; [apply Hst|]. by eapply initialize_calls; [done|apply Hst|exact Hp|]. }
  assert (solo a1 t (InitCall None) (LookupLock (initialize_job realloc)) l x) as Hs1.
  { split; cbn; rewrite ?lookup_insert_eq; try done. by apply (stands_go a t (Outside last) l c). }
  destruct (plain_call_as_steps _ _ a1 t (InitCall None) l x ret c' Hs1 (or_introl eq_refl) Hrun)
    as (s' & l' & cl' & last' & Hrun2 & Hs' & Hv' & _ & Hcl'). destruct (Hcl' eq_refl) as (r & -> & Hr).
  exists (goes t (InitMark ret) (goes t (InitCall r) (set_lib s' a1))), l', (Some last'). split.
  - eapply (app_next _ t [] _ []); [exact Hstep1|]. eapply (app_runs_app _ [] _ []); [exact Hrun2|].
    eapply app_once, app_initialize; [apply Hs'|]. rewrite <- Hr.
    apply initialize_called; [cbn; by rewrite lookup_insert_eq|apply Hs'].
  - split; cbn; rewrite ?lookup_insert_eq; [exact Hs'|done|by apply (same_vars_trans _ x)|].
    by eapply plain_call_dials.
Qed.

(** From the arguments on. *)
Lemma initialize_args_as_steps a t last l c p init_args args c1 ret :
  solo a t (InitArgs init_args) (Outside last) l c -> processes p -> getpid p = pid ->
  initialize_args p init_args (settings c) = Ok args ->
  match args with
  | inr rv => ret = rv /\ c1 = c
  | inl st =>
      if pkcs11_initialized c && (getpid p =? pkcs11_initialized_pid c)
      then ret = CKR_CRYPTOKI_ALREADY_INITIALIZED /\ c1 = set_settings st c else
      match initialize_paths p st with
      | inr rv => ret = rv /\ c1 = set_settings st c
      | inl st' => plain_call realloc GCK_RPC_CALL_C_Initialize
            (gck_rpc_message_write_byte_array (Some (string_bytes GCK_RPC_HANDSHAKE)) GCK_RPC_HANDSHAKE_LEN)
            (set_app_id (wrap64 (Z.lor (Z.shiftl (rand1 p) 32) (rand2 p))) (set_settings st' (set_settings st c)))
          = Ok (Some ret, c1)
      end
  end ->
  exists a' l' last', runs_app a [] a' /\ solo a' t (InitMark ret) (Outside last') l' c1.
Proof.
  intros Hs Hp Hpid Hargs Hrest. pose proof Hs as [Hst Hc Hv Hd]. pose proof Hv as (E1 & E2 & E3 & E4).
  rewrite <- E4 in Hargs. pose proof (st_running _ _ _ _ _ Hst) as Hr. destruct args as [st|rv].
  - rewrite Hpid, <- E1, <- E2 in Hrest.
    set (k := if pkcs11_initialized (client a) && (pid =? pkcs11_initialized_pid (client a))
               then InitMark CKR_CRYPTOKI_ALREADY_INITIALIZED else InitPaths).
    set (a1 := goes t k (set_client (set_settings st (client a)) a)).
    assert (step_app t a [] a1) as Hstep1 by (apply app_initialize; [done|]; by eapply initialize_takes).
    assert (solo a1 t k (Outside last) l (set_settings st c)) as Hs1.
    { split; cbn; rewrite ?lookup_insert_eq; try done. by split; destruct Hst. }
    unfold k in *. destruct (_ && _).
    + destruct Hrest as [-> ->]. exists a1, l, last. split; [by eapply app_once|done].
    + destruct (initialize_paths p st) as [st'|rv] eqn:Ep.
      * destruct (initialize_call_as_steps a1 t last l (set_settings st c) p st' ret c1) as (a2 & l2 & last2 & Hrun2 & Hs2);
          [done|done|by destruct st|done|].
        exists a2, l2, last2. split; [|done]. by eapply (app_next _ t [] _ []).
      * destruct Hrest as [-> ->]. exists (goes t (InitMark rv) a1), l, last. split; [|by eapply solo_moves].
        eapply (app_next _ t [] _ []); [done|]. eapply app_once, app_initialize; [done|].
        eapply initialize_no_path; [cbn; by rewrite lookup_insert_eq|done|by destruct st].
  - destruct Hrest as [-> ->]. exists (goes t (InitMark rv) a), l, last. split; [|by eapply solo_moves].
    eapply app_once, app_initialize; [done|]. by eapply initialize_refuses.
Qed.

(** C_Initialize of the sequential model as steps. *)
Lemma initialize_as_steps a t last l c p init_args ret c' :
  solo a t Free (Outside last) l c -> may_call by_the_book a -> init_mutex a = None ->
  processes p -> getpid p = pid -> init_args_of init_args ->
  rpc_C_Initialize realloc p init_args c = Ok (Some ret, c') ->
  exists a' l', runs_app a [Initialized ret] a' /\ init_mutex a' = None
    /\ solo a' t Free (Outside (Some ret)) l' c'.
Proof.
  intros Hs Hmay Hm Hp Hpid Hargs (args & c1 & Hia & -> & Hrest)%rpc_C_Initialize_inv.
  pose proof Hs as [Hst Hc Hv Hd]. pose proof (st_running _ _ _ _ _ Hst) as Hr.
  set (a1 := goes t (InitArgs init_args) (set_init_mutex (Some t) (goes t (InitLock init_args) a))).
  assert (runs_app a [] a1) as Hrun1.
  { eapply (app_next a t [] _ []).
    - apply app_initialize; [done|]. by eapply initialize_enter; [|apply Hst|..].
    - eapply app_once, app_initialize; [done|]. apply initialize_lock; [|done]. cbn. by rewrite lookup_insert_eq. }
  assert (solo a1 t (InitArgs init_args) (Outside last) l c) as Hs1
    by (split; cbn; rewrite ?lookup_insert_eq; done).
  destruct (initialize_args_as_steps a1 t last l c p init_args args c1 ret Hs1 Hp Hpid Hia Hrest)
    as (a2 & l2 & last2 & Hrun2 & Hs2).
  destruct (initialize_ends a2 t ret last2 l2 c1 Hs2) as (a3 & Hrun3 & Hm3 & Hs3).
  exists a3, l2. rewrite Hpid. split; [|done]. eapply (app_runs_app _ [] _ [Initialized ret]); [exact Hrun1|].
  by eapply (app_runs_app _ [] _ [Initialized ret]).
Qed.

(** C_Finalize of an initialized library as steps. *)
Lemma finalize_as_steps a t last l c ret c' :
  solo a t Free (Outside last) l c -> may_call by_the_book a -> may_finalize by_the_book a t ->
  init_mutex a = None -> pkcs11_initialized c = true ->
  rpc_C_Finalize realloc false c = Ok (Some ret, c') ->
  exists a' l', runs_app a [Finalized] a' /\ init_mutex a' = None
    /\ solo a' t Free (Outside (Some ret)) l' c'.
Proof.
  intros [Hst Hc Hv Hd] Hmay Halone Hm Hi Hrun. pose proof Hv as (E1 & E2 & E3 & E4).
  pose proof (st_running _ _ _ _ _ Hst) as Hr. pose proof (st_place _ _ _ _ _ Hst) as Hpl.
  unfold rpc_C_Finalize in Hrun. apply net_inv in Hrun as (c0 & ? & [= <- <-] & Hrun). rewrite Hi in Hrun.
  apply net_inv in Hrun as (code & c1 & Hcall & Hrun). apply net_inv in Hrun as (u & c2 & [= _ <-] & [= <- <-]).
  set (a1 := goes t FinLock a).
  set (a2 := calls t FinCall (finalize_job realloc) (set_init_mutex (Some t) a1)).
  assert (solo a2 t FinCall (LookupLock (finalize_job realloc)) l c) as Hs2.
  { split; cbn; rewrite ?lookup_insert_eq; try done. by apply (stands_go a t (Outside last) l c). }
  destruct (plain_call_as_steps _ _ a2 t FinCall l c code c1 Hs2 (or_intror eq_refl) Hcall)
    as (s' & l' & cl' & last' & Hrun2 & Hs' & Hv' & Hcl' & _). rewrite (Hcl' eq_refl) in Hrun2.
  set (a3 := goes t FinCall (set_lib s' a2)) in *.
  assert (runs_app a [] a3) as Hrun3.
  { eapply (app_next _ t [] _ []); [apply app_finalize; [done|]; eapply finalize_enter; try done; by rewrite E1|].
    eapply (app_next _ t [] _ []); [|exact Hrun2]. apply app_finalize; [done|].
    eapply finalize_lock; [cbn; by rewrite lookup_insert_eq|exact Hpl|done]. }
  set (a4 := goes t FinUnlock (set_client (set_initialized None (client a)) (goes t FinMark a3))).
  exists (returns t CKR_OK (set_init_mutex None a4)), l'. split; [|split; [done|]].
  - eapply (app_runs_app _ [] _ [Finalized]); [exact Hrun3|].
    eapply (app_next _ t [] _ [Finalized]); [apply app_finalize; [apply Hs'|]; eapply finalize_called; [|apply Hs']|].
    { cbn. by rewrite lookup_insert_eq. }
    eapply (app_next _ t [Finalized] a4 []).
    + apply app_finalize; [apply Hs'|]. apply finalize_mark. cbn. by rewrite lookup_insert_eq.
    + eapply app_once, app_finalize; [apply Hs'|]. apply finalize_unlock. cbn. by rewrite lookup_insert_eq.
  - split; cbn; rewrite ?lookup_insert_eq; [|done| |by eapply plain_call_dials].
    + destruct Hs'. by split; cbn; rewrite ?lookup_insert_eq.
    + destruct Hv' as (F1 & F2 & F3 & F4). injection F4 as F4 F5. injection E4 as E4 E5.
      split_and!; cbn; try congruence. unfold settings. cbn. congruence.
Qed.
End Alone.

(** ** C_Finalize against the standard *)

(** The library initialized, with an empty pool; two threads. *)
Definition ready_app : App := mkApp lonely two_threads None {[1%nat := Free; 2%nat := Free]}.

Lemma lookup_no_daemon t s job app_id :
  threads s !! t = Some (Connecting job) ->
  lookup_step "tcp://host" app_id (eq no_daemon) (fun _ => False) t s (go t (Outside (Some CKR_DEVICE_ERROR)) s).
Proof.
  intros Ht. eapply (lookup_not_connected _ _ _ _ t s job no_daemon CKR_DEVICE_ERROR new_call);
    [done|done|done|discriminate|by vm_compute].
Qed.

Ltac app_next_step t kind rule :=
  eapply (app_next _ _ _ _ _ _ _ _ t);
    [apply kind; [reflexivity|]; eapply rule; first [reflexivity|eassumption|done|(intros ?; discriminate)]|].
Ltac app_look_step t rule :=
  eapply (app_next _ _ _ _ _ _ _ _ t);
    [apply app_call; [reflexivity|]; eapply call_goes_on;
      [reflexivity|apply step_lookup; [reflexivity|]; eapply rule; first [reflexivity|done]]|].

(** * Properties *)

(** Between two that initialize the library there is one that finalizes it. *)
Lemma lives_once es1 es2 i : lives i (es1 ++ Initialized CKR_OK :: es2) <> None ->
  forall es3 es4, es2 = es3 ++ Initialized CKR_OK :: es4 -> Finalized ∈ es3.
Proof.
  rewrite lives_app. destruct (lives i es1) as [j|]; [|done]. cbn [lives mbind option_bind].
  destruct j; [done|]. cbn [life Z.eqb CKR_OK mbind option_bind]. clear es1 i.
  intros Hl es3 es4 ->. induction es3 as [|e es3 IH]; [done|].
  destruct e as [| |rv| |]; cbn in Hl; try done; [right; by apply IH| |by left].
  destruct (rv =? CKR_CRYPTOKI_ALREADY_INITIALIZED); [|done]. right. by apply IH.
Qed.

(** C9: C_Initialize and the other calls by threads of an application at once, and
    C_Finalize by a thread that is alone in the library, as the standard asks for: it is
    called when no other thread is in a call, and none begins one until it returns.  (With
    C_Finalize in the middle of other calls the theorem does not hold, see
    [finalize_aborts_other_call].)  However the steps of the threads are interleaved and
    whatever the network does: nothing asserts or faults; one thread at a time is in the
    two functions behind the lock; a thread that connects has a path to connect to.  Seen
    from outside the library is a machine of two states: calls are refused until a
    C_Initialize comes to CKR_OK, and made from then on; any further C_Initialize says
    that there was one already, and connects nothing, until C_Finalize.  So between two
    that come to CKR_OK there is one C_Finalize at least.  C_Initialize gets arguments
    that it has nothing against. *)
Theorem threads_initialize_once realloc garbage processes pid init_args_of dials a es a' :
  AllocatorOk realloc -> gives_memory realloc -> (forall d, dials d -> dial_ok d) ->
  (forall init_args, init_args_of init_args -> harmless init_args) -> loaded_app a ->
  app_runs realloc processes pid init_args_of dials (api_jobs realloc garbage) true a es a' ->
  status (lib a') = Running
  /\ (exists l, lib_ok realloc (lib a') l)
  /\ (forall t t' c c', callers a' !! t = Some c -> callers a' !! t' = Some c' ->
        has_init_mutex c = true -> has_init_mutex c' = true -> t = t')
  /\ (forall t c job, callers a' !! t = Some c -> threads (lib a') !! t = Some (Connecting job) ->
        pkcs11_socket_path (client a') <> EmptyString)
  /\ lives false es = Some (pkcs11_initialized (client a'))
  /\ (forall es1 es2 es3, es = es1 ++ Initialized CKR_OK :: es2 ++ Initialized CKR_OK :: es3 -> Finalized ∈ es2).
Proof.
  intros Hok Hmem Hdials Hargs Ha Hruns.
  assert (forall job, api_jobs realloc garbage job -> job_ok realloc job) as Hjobs
    by (by intros job (call & _ & _ & A & m & _ & _ & ?)).
  destruct (app_reachable_ok realloc pid dials (api_jobs realloc garbage) Hdials Hjobs Hok Hmem processes
    init_args_of Hargs a es a' Ha Hruns) as [Ha' _]. pose proof Ha' as [[l Hl] Hth Hcl Hmu Hal Hpath Hlife].
  split; [apply Hl|]. split; [by exists l|]. split_and!; try done.
  - intros t t' c c' H1 H2 E1 E2. pose proof (Hmu t c H1 E1). pose proof (Hmu t' c' H2 E2). congruence.
  - intros t c job H1 H2. by eapply path_inside.
  - intros es1 es2 es3 ->. eapply (lives_once es1 _ false); [|done]. by rewrite Hlife.
Qed.

(** The second thread has a call refused and waits to initialize the library as well; the
    first one gets through to the daemon. *)
Definition loaded_two : App := mkApp sample_client two_threads None {[1%nat := Free; 2%nat := Free]}.

Lemma threads_initialize_once_witness :
  exists a', status (lib a') = Running
    /\ app_runs sample_realloc (eq sample_process) 100 (eq None) (eq sample_dial) (api_jobs sample_realloc 0) true
         loaded_two [CallRefused; Initialized CKR_OK] a'
    /\ lives false [CallRefused; Initialized CKR_OK] = Some (pkcs11_initialized (client a')).
Proof.
  assert (match rpc_C_Initialize sample_realloc sample_process None sample_client with
          | Ok (Some ret, _) => ret | _ => -1 end = CKR_OK) as H by (vm_compute; reflexivity).
  destruct (rpc_C_Initialize sample_realloc sample_process None sample_client) as [[[ret|] c']|] eqn:E;
    [subst ret|discriminate H..].
  set (a1 := goes 2 (InitLock None) (returns 2 CKR_CRYPTOKI_NOT_INITIALIZED loaded_two)).
  assert (forall t c, callers loaded_two !! t = Some c -> c = Free /\ is_Some (threads (lib loaded_two) !! t)) as Hfree.
  { intros t c. cbn. intros [[<- <-]|[_ [<- <-]%lookup_singleton_Some]]%lookup_insert_Some; split; done. }
  assert (forall t c, callers a1 !! t = Some c -> finalizing c = false) as Hnone.
  { intros t c. cbn. intros [[_ <-]|[_ [[_ <-]|[_ [-> _]%Hfree]]%lookup_insert_Some]]%lookup_insert_Some; done. }
  assert (app_runs sample_realloc (eq sample_process) 100 (eq None) (eq sample_dial) (api_jobs sample_realloc 0) true
    loaded_two [CallRefused] a1) as Hrun1.
  { eapply (app_next _ _ _ _ _ _ _ _ 2%nat [CallRefused] _ []).
    - apply app_call; [done|]. eapply call_refused; [done|done|by intros _ t c [-> _]%Hfree|done].
    - eapply app_once, app_initialize; [done|]. eapply initialize_enter; [done|done| |done].
      intros _ t c. cbn. intros [[_ <-]|[_ [-> _]%Hfree]]%lookup_insert_Some; done. }
  destruct (initialize_as_steps sample_realloc (eq sample_process) 100 (eq None) (eq sample_dial)
    (api_jobs sample_realloc 0) true a1 1 None [] sample_client sample_process None CKR_OK c')
    as (a2 & l & Hrun2 & _ & _);
    [|intros _; exact Hnone|reflexivity|reflexivity|reflexivity|reflexivity|exact E|].
  { split; [|reflexivity|by split_and!|by constructor].
    split; [done|reflexivity|done|done|constructor|constructor|done]. }
  clear E.
  assert (app_runs sample_realloc (eq sample_process) 100 (eq None) (eq sample_dial) (api_jobs sample_realloc 0) true
    loaded_two [CallRefused; Initialized CKR_OK] a2) as Hrun by by eapply (app_runs_app _ _ _ _ _ _ _ _ [CallRefused]).
  exists a2. destruct (threads_initialize_once sample_realloc 0 (eq sample_process) 100 (eq None) (eq sample_dial)
    loaded_two [CallRefused; Initialized CKR_OK] a2) as (Hr & _ & _ & _ & Hl & _).
  - apply _.
  - apply sample_realloc_gives.
  - intros d <-. pose proof (cl_dials _ _ sample_client_ok) as Hd. by apply Forall_cons in Hd as [Hd _].
  - by intros ? <-.
  - split; [|by split_and!]. split_and!; try done. intros t p. cbn.
    intros [[_ <-]|[_ [_ <-]%lookup_singleton_Some]]%lookup_insert_Some; done.
  - exact Hrun.
  - split; [exact Hr|]. split; [exact Hrun|exact Hl].
Defined.

(** C39: "This should stop all other calls in", says the comment where C_Finalize marks the
    library as not initialized, but it does not: a thread that has passed the check whether
    the library is initialized, and is about to connect, is aborted with the application
    when another thread finalizes, because there is no path any more and [call_connect]
    asserts. *)
Theorem finalize_aborts_other_call realloc jobs job :
  jobs job -> exists es a', status (lib a') = Died AssertionFailed /\
    app_runs realloc (fun _ => False) 5 (fun _ => False) (eq no_daemon) jobs false ready_app es a'.
Proof.
  intros Hjob. eexists _, _. split; cycle 1.
  - app_next_step 1%nat app_call call_accepted.
    app_look_step 1%nat lookup_lock. app_look_step 1%nat lookup_none. app_look_step 1%nat lookup_unlock.
    app_next_step 2%nat app_finalize finalize_enter.
    app_next_step 2%nat app_finalize finalize_lock.
    app_look_step 2%nat lookup_lock. app_look_step 2%nat lookup_none. app_look_step 2%nat lookup_unlock.
    app_look_step 2%nat lookup_no_daemon.
    app_next_step 2%nat app_finalize finalize_called.
    app_next_step 2%nat app_finalize finalize_mark.
    app_look_step 1%nat lookup_connect_dies.
    apply app_here.
  - reflexivity.
Qed.

Lemma finalize_aborts_other_call_witness :
  exists es a', status (lib a') = Died AssertionFailed /\
    app_runs sample_realloc (fun _ => False) 5 (fun _ => False) (eq no_daemon)
      (eq (finalize_job sample_realloc)) false ready_app es a'.
Proof.
  apply (finalize_aborts_other_call sample_realloc (eq (finalize_job sample_realloc))
    (finalize_job sample_realloc)).
  reflexivity.
Defined.
