(* ===== verification/Remote.v ===== *)
(** Between gck-rpc-module.c and gck-rpc-dispatch.c: which function of the PKCS#11
    module a call of the client library stands for, what it is given there, and what
    becomes of its result.  The calls are in three tables, by what they return. *)
From S2P Require Import Prelude EggBuffer Pkcs11 RpcUtil Calls Message DispatchProto Dispatch.
From S2P Require Import DispatchReads DispatchReplies Transport Client ClientProto ClientCalls.
From S2P Require Import ClientReads ClientMacros ClientExact ClientProps.

(** ** The arguments *)

(** Bytes for the module. *)
Definition bytes_arg (arr : option block) (n : Z) : Prop := short_array arr n /\ (arr = None -> n = 0).

(** Space for bytes from the module: the part that stands for it, and the block the
    module finds in the daemon instead. *)
Definition buffer_arg (arr : option block) (n : Z) : Prop := 0 <= n <= 2147483000 /\ room arr n.
Definition buffer_part (arr : option block) (n : Z) : part := PByteBuffer (buffer_flags arr (Some n)) n.
Definition space (arr : option block) (n : Z) : option block := (fresh_buffer arr (Some n)).1.

(** A template. *)
Definition template_sent (arr : option (list CK_ATTRIBUTE)) (n : Z) : list CK_ATTRIBUTE :=
  take (Z.to_nat n) (default [] arr).
Definition template_part (arr : option (list CK_ATTRIBUTE)) (n : Z) : part :=
  PAttrArray (map attr_value (template_sent arr n)).
Definition template_arg (arr : option (list CK_ATTRIBUTE)) (n : Z) : Prop :=
  attrs_arg arr n /\ (arr = None -> n = 0) /\ template_ok (template_sent arr n).

(** A mechanism: its parameters are sent only if the library knows them to be bytes. *)
Definition mechanism_data (m : CK_MECHANISM) : option block :=
  if gck_rpc_mechanism_has_no_parameters (mechanism m) then None
  else (fun bs => slice bs 0 (ulParameterLen m)) <$> pParameter m.
Definition mechanism_ok (m : CK_MECHANISM) : Prop :=
  mechanism_arg m /\ mechanism_sent m /\ is_u32 (mechanism m) /\ ulParameterLen m < 2147483647.
Definition dispatched (m : CK_MECHANISM) : CK_MECHANISM :=
  mechanism_got (mechanism m) (mechanism_data m).

(** ** What becomes of the results *)

Definition plain_out (rv : Z) (_ : unit) : Z * list part := (rv, []).
Definition handle_out (rv h : Z) : Z * list part := (rv, [PUlong h]).

(** The handle is stored where the caller wants it, if the call succeeded. *)
Definition handle_result (v : option Z) (rv h : Z) : Z * option Z :=
  (rv, if rv =? CKR_OK then Some h else v).

(** The bytes are stored at the beginning of the caller's space; with
    [CKR_BUFFER_TOO_SMALL] the caller learns how many there are. *)
Definition bytes_result (v : option block * option Z) (rv : Z) (a : option block * option Z)
    : Z * (option block * option Z) :=
  let n := default 0 a.2 in
  if rv =? CKR_BUFFER_TOO_SMALL then
    (if nonnull v.1 then CKR_BUFFER_TOO_SMALL else CKR_OK, (v.1, Some n))
  else if rv =? CKR_OK then
    (CKR_OK, (match v.1, a.1 with
              | Some old, Some new => Some (slice new 0 n ++ drop (Z.to_nat n) old)
              | old, _ => old
              end, Some n))
  else (rv, v).

(** A module keeps to the space it was given, and tells how much of it it used. *)
Definition bytes_honest (v : option block * option Z) (rv : Z) (a : option block * option Z) : Prop :=
  is_u32 (default 0 a.2) /\
  (rv = CKR_OK -> nonnull a.1 = nonnull v.1 /\ (is_Some v.1 -> default 0 a.2 <= default 0 v.2)).

(** ** The calls *)

Section Tables.
Context {W : Type}.

(** The functions that open and close a session, with the table of the connection. *)
Definition open_session (f : Z -> Z -> mfun W Z) (slot flags : Z)
    : mfun (W * list SessionState) Z := fun c =>
  let '((rv, h), w) := f slot flags c.1 in
  if rv =? CKR_OK then
    match store_session h slot c.2 with
    | Some l => ((CKR_OK, h), (w, l))
    | None => ((CKR_SESSION_COUNT, h), (w, c.2))
    end
  else ((rv, h), (w, c.2)).
Definition close_session (f : Z -> mfun W unit) (session : Z)
    : mfun (W * list SessionState) unit := fun c =>
  let '((rv, _), w) := f session c.1 in
  ((rv, tt), (w, if rv =? CKR_OK then remove_session session c.2 else c.2)).
Definition appartment_slot (f : mfun W Z) : mfun W Z := fun w =>
  let '((rv, slot), w) := f w in ((rv, CK_GNOME_APPARTMENT_SLOT slot), w).

(** A call of the client library: its id and the parts of its request; when its
    arguments are in order; the caller's objects; the function of the library, and
    that of the module, where it has one. *)
Record Forward (R A : Type) := mkForward {
  fw_id : Z;
  fw_parts : list part;
  fw_ok : Prop;
  fw_args : R;
  fw_perform : EggBufferAllocator -> Net Client (Z * R);
  fw_local : CK_FUNCTION_LIST W -> option (mfun (W * list SessionState) A);
}.
Arguments fw_id {R A} _.
Arguments fw_parts {R A} _.
Arguments fw_ok {R A} _.
Arguments fw_args {R A} _.
Arguments fw_perform {R A} _ _.
Arguments fw_local {R A} _ _.

(** The calls that return a code and nothing else. *)
Definition plain_call (c : Api.ApiCall) : option (Forward unit unit) :=
  match c with
  | Api.C_InitToken id pin pin_len (Some label) => Some {|
      fw_id := GCK_RPC_CALL_C_InitToken;
      fw_parts := [PUlong id; PBytes pin pin_len; PSpaceString label];
      fw_ok := is_u64 id /\ bytes_arg pin pin_len /\ text_ok 32 label;
      fw_args := tt;
      fw_perform := fun al => rpc_C_InitToken al id pin pin_len (Some label);
      fw_local := fun M => (fun f => on_module (f id (given pin pin_len) pin_len (Some label)))
        <$> Pkcs11.C_InitToken M |}
  | Api.C_CloseSession session => Some {|
      fw_id := GCK_RPC_CALL_C_CloseSession;
      fw_parts := [PUlong session];
      fw_ok := is_u64 session;
      fw_args := tt;
      fw_perform := fun al => rpc_C_CloseSession al session;
      fw_local := fun M => (fun f => close_session f session) <$> Pkcs11.C_CloseSession M |}
  | Api.C_GetFunctionStatus session => Some {|
      fw_id := GCK_RPC_CALL_C_GetFunctionStatus;
      fw_parts := [PUlong session];
      fw_ok := is_u64 session;
      fw_args := tt;
      fw_perform := fun al => rpc_C_GetFunctionStatus al session;
      fw_local := fun M => (fun f => on_module (f session)) <$> Pkcs11.C_GetFunctionStatus M |}
  | Api.C_CancelFunction session => Some {|
      fw_id := GCK_RPC_CALL_C_CancelFunction;
      fw_parts := [PUlong session];
      fw_ok := is_u64 session;
      fw_args := tt;
      fw_perform := fun al => rpc_C_CancelFunction al session;
      fw_local := fun M => (fun f => on_module (f session)) <$> Pkcs11.C_CancelFunction M |}
  | Api.C_InitPIN session pin pin_len => Some {|
      fw_id := GCK_RPC_CALL_C_InitPIN;
      fw_parts := [PUlong session; PBytes pin pin_len];
      fw_ok := is_u64 session /\ bytes_arg pin pin_len;
      fw_args := tt;
      fw_perform := fun al => rpc_C_InitPIN al session pin pin_len;
      fw_local := fun M => (fun f => on_module (f session (given pin pin_len) pin_len)) <$>
        Pkcs11.C_InitPIN M |}
  | Api.C_SetPIN session old_pin old_pin_len new_pin new_pin_len => Some {|
      fw_id := GCK_RPC_CALL_C_SetPIN;
      fw_parts := [PUlong session; PBytes old_pin old_pin_len; PBytes new_pin new_pin_len];
      fw_ok := is_u64 session /\ bytes_arg old_pin old_pin_len /\ bytes_arg new_pin new_pin_len;
      fw_args := tt;
      fw_perform := fun al => rpc_C_SetPIN al session old_pin old_pin_len new_pin new_pin_len;
      fw_local := fun M => (fun f => on_module (f session (given old_pin old_pin_len) old_pin_len
        (given new_pin new_pin_len) new_pin_len)) <$> Pkcs11.C_SetPIN M |}
  | Api.C_SetOperationState session operation_state operation_state_len encryption_key authentication_key => Some {|
      fw_id := GCK_RPC_CALL_C_SetOperationState;
      fw_parts := [PUlong session; PBytes operation_state operation_state_len; PUlong
        encryption_key; PUlong authentication_key];
      fw_ok := is_u64 session /\ bytes_arg operation_state operation_state_len /\ is_u64
        encryption_key /\ is_u64 authentication_key;
      fw_args := tt;
      fw_perform := fun al => rpc_C_SetOperationState al session operation_state
        operation_state_len encryption_key authentication_key;
      fw_local := fun M => (fun f => on_module (f session (given operation_state
        operation_state_len) operation_state_len encryption_key authentication_key)) <$>
        Pkcs11.C_SetOperationState M |}
  | Api.C_Login session user_type pin pin_len => Some {|
      fw_id := GCK_RPC_CALL_C_Login;
      fw_parts := [PUlong session; PUlong user_type; PBytes pin pin_len];
      fw_ok := is_u64 session /\ is_u64 user_type /\ bytes_arg pin pin_len;
      fw_args := tt;
      fw_perform := fun al => rpc_C_Login al session user_type pin pin_len;
      fw_local := fun M => (fun f => on_module (f session user_type (given pin pin_len) pin_len))
        <$> Pkcs11.C_Login M |}
  | Api.C_Logout session => Some {|
      fw_id := GCK_RPC_CALL_C_Logout;
      fw_parts := [PUlong session];
      fw_ok := is_u64 session;
      fw_args := tt;
      fw_perform := fun al => rpc_C_Logout al session;
      fw_local := fun M => (fun f => on_module (f session)) <$> Pkcs11.C_Logout M |}
  | Api.C_DestroyObject session object => Some {|
      fw_id := GCK_RPC_CALL_C_DestroyObject;
      fw_parts := [PUlong session; PUlong object];
      fw_ok := is_u64 session /\ is_u64 object;
      fw_args := tt;
      fw_perform := fun al => rpc_C_DestroyObject al session object;
      fw_local := fun M => (fun f => on_module (f session object)) <$> Pkcs11.C_DestroyObject M
        |}
  | Api.C_SetAttributeValue session object template count => Some {|
      fw_id := GCK_RPC_CALL_C_SetAttributeValue;
      fw_parts := [PUlong session; PUlong object; template_part template count];
      fw_ok := is_u64 session /\ is_u64 object /\ template_arg template count;
      fw_args := tt;
      fw_perform := fun al => rpc_C_SetAttributeValue al session object template count;
      fw_local := fun M => (fun f => on_module (f session object (template_got (template_sent
        template count)) (zlen (template_sent template count)))) <$> Pkcs11.C_SetAttributeValue M
        |}
  | Api.C_FindObjectsInit session template count => Some {|
      fw_id := GCK_RPC_CALL_C_FindObjectsInit;
      fw_parts := [PUlong session; template_part template count];
      fw_ok := is_u64 session /\ template_arg template count;
      fw_args := tt;
      fw_perform := fun al => rpc_C_FindObjectsInit al session template count;
      fw_local := fun M => (fun f => on_module (f session (template_got (template_sent template
        count)) (zlen (template_sent template count)))) <$> Pkcs11.C_FindObjectsInit M |}
  | Api.C_FindObjectsFinal session => Some {|
      fw_id := GCK_RPC_CALL_C_FindObjectsFinal;
      fw_parts := [PUlong session];
      fw_ok := is_u64 session;
      fw_args := tt;
      fw_perform := fun al => rpc_C_FindObjectsFinal al session;
      fw_local := fun M => (fun f => on_module (f session)) <$> Pkcs11.C_FindObjectsFinal M |}
  | Api.C_EncryptInit session (Some mechanism) key => Some {|
      fw_id := GCK_RPC_CALL_C_EncryptInit;
      fw_parts := [PUlong session; mechanism_part mechanism; PUlong key];
      fw_ok := is_u64 session /\ mechanism_ok mechanism /\ is_u64 key;
      fw_args := tt;
      fw_perform := fun al => rpc_C_EncryptInit al session (Some mechanism) key;
      fw_local := fun M => (fun f => on_module (f session (dispatched mechanism) key)) <$>
        Pkcs11.C_EncryptInit M |}
  | Api.C_DecryptInit session (Some mechanism) key => Some {|
      fw_id := GCK_RPC_CALL_C_DecryptInit;
      fw_parts := [PUlong session; mechanism_part mechanism; PUlong key];
      fw_ok := is_u64 session /\ mechanism_ok mechanism /\ is_u64 key;
      fw_args := tt;
      fw_perform := fun al => rpc_C_DecryptInit al session (Some mechanism) key;
      fw_local := fun M => (fun f => on_module (f session (dispatched mechanism) key)) <$>
        Pkcs11.C_DecryptInit M |}
  | Api.C_DigestInit session (Some mechanism) => Some {|
      fw_id := GCK_RPC_CALL_C_DigestInit;
      fw_parts := [PUlong session; mechanism_part mechanism];
      fw_ok := is_u64 session /\ mechanism_ok mechanism;
      fw_args := tt;
      fw_perform := fun al => rpc_C_DigestInit al session (Some mechanism);
      fw_local := fun M => (fun f => on_module (f session (dispatched mechanism))) <$>
        Pkcs11.C_DigestInit M |}
  | Api.C_DigestUpdate session part part_len => Some {|
      fw_id := GCK_RPC_CALL_C_DigestUpdate;
      fw_parts := [PUlong session; PBytes part part_len];
      fw_ok := is_u64 session /\ bytes_arg part part_len;
      fw_args := tt;
      fw_perform := fun al => rpc_C_DigestUpdate al session part part_len;
      fw_local := fun M => (fun f => on_module (f session (given part part_len) part_len)) <$>
        Pkcs11.C_DigestUpdate M |}
  | Api.C_DigestKey session key => Some {|
      fw_id := GCK_RPC_CALL_C_DigestKey;
      fw_parts := [PUlong session; PUlong key];
      fw_ok := is_u64 session /\ is_u64 key;
      fw_args := tt;
      fw_perform := fun al => rpc_C_DigestKey al session key;
      fw_local := fun M => (fun f => on_module (f session key)) <$> Pkcs11.C_DigestKey M |}
  | Api.C_SignInit session (Some mechanism) key => Some {|
      fw_id := GCK_RPC_CALL_C_SignInit;
      fw_parts := [PUlong session; mechanism_part mechanism; PUlong key];
      fw_ok := is_u64 session /\ mechanism_ok mechanism /\ is_u64 key;
      fw_args := tt;
      fw_perform := fun al => rpc_C_SignInit al session (Some mechanism) key;
      fw_local := fun M => (fun f => on_module (f session (dispatched mechanism) key)) <$>
        Pkcs11.C_SignInit M |}
  | Api.C_SignUpdate session part part_len => Some {|
      fw_id := GCK_RPC_CALL_C_SignUpdate;
      fw_parts := [PUlong session; PBytes part part_len];
      fw_ok := negb (part_len =? 0) = true /\ is_u64 session /\ bytes_arg part part_len;
      fw_args := tt;
      fw_perform := fun al => rpc_C_SignUpdate al session part part_len;
      fw_local := fun M => (fun f => on_module (f session (given part part_len) part_len)) <$>
        Pkcs11.C_SignUpdate M |}
  | Api.C_SignRecoverInit session (Some mechanism) key => Some {|
      fw_id := GCK_RPC_CALL_C_SignRecoverInit;
      fw_parts := [PUlong session; mechanism_part mechanism; PUlong key];
      fw_ok := is_u64 session /\ mechanism_ok mechanism /\ is_u64 key;
      fw_args := tt;
      fw_perform := fun al => rpc_C_SignRecoverInit al session (Some mechanism) key;
      fw_local := fun M => (fun f => on_module (f session (dispatched mechanism) key)) <$>
        Pkcs11.C_SignRecoverInit M |}
  | Api.C_VerifyInit session (Some mechanism) key => Some {|
      fw_id := GCK_RPC_CALL_C_VerifyInit;
      fw_parts := [PUlong session; mechanism_part mechanism; PUlong key];
      fw_ok := is_u64 session /\ mechanism_ok mechanism /\ is_u64 key;
      fw_args := tt;
      fw_perform := fun al => rpc_C_VerifyInit al session (Some mechanism) key;
      fw_local := fun M => (fun f => on_module (f session (dispatched mechanism) key)) <$>
        Pkcs11.C_VerifyInit M |}
  | Api.C_Verify session data data_len signature signature_len => Some {|
      fw_id := GCK_RPC_CALL_C_Verify;
      fw_parts := [PUlong session; PBytes data data_len; PBytes signature signature_len];
      fw_ok := is_u64 session /\ bytes_arg data data_len /\ bytes_arg signature signature_len;
      fw_args := tt;
      fw_perform := fun al => rpc_C_Verify al session data data_len signature signature_len;
      fw_local := fun M => (fun f => on_module (f session (given data data_len) data_len (given
        signature signature_len) signature_len)) <$> Pkcs11.C_Verify M |}
  | Api.C_VerifyUpdate session part part_len => Some {|
      fw_id := GCK_RPC_CALL_C_VerifyUpdate;
      fw_parts := [PUlong session; PBytes part part_len];
      fw_ok := is_u64 session /\ bytes_arg part part_len;
      fw_args := tt;
      fw_perform := fun al => rpc_C_VerifyUpdate al session part part_len;
      fw_local := fun M => (fun f => on_module (f session (given part part_len) part_len)) <$>
        Pkcs11.C_VerifyUpdate M |}
  | Api.C_VerifyFinal session signature signature_len => Some {|
      fw_id := GCK_RPC_CALL_C_VerifyFinal;
      fw_parts := [PUlong session; PBytes signature signature_len];
      fw_ok := is_u64 session /\ bytes_arg signature signature_len;
      fw_args := tt;
      fw_perform := fun al => rpc_C_VerifyFinal al session signature signature_len;
      fw_local := fun M => (fun f => on_module (f session (given signature signature_len)
        signature_len)) <$> Pkcs11.C_VerifyFinal M |}
  | Api.C_VerifyRecoverInit session (Some mechanism) key => Some {|
      fw_id := GCK_RPC_CALL_C_VerifyRecoverInit;
      fw_parts := [PUlong session; mechanism_part mechanism; PUlong key];
      fw_ok := is_u64 session /\ mechanism_ok mechanism /\ is_u64 key;
      fw_args := tt;
      fw_perform := fun al => rpc_C_VerifyRecoverInit al session (Some mechanism) key;
      fw_local := fun M => (fun f => on_module (f session (dispatched mechanism) key)) <$>
        Pkcs11.C_VerifyRecoverInit M |}
  | Api.C_SeedRandom session seed seed_len => Some {|
      fw_id := GCK_RPC_CALL_C_SeedRandom;
      fw_parts := [PUlong session; PBytes seed seed_len];
      fw_ok := is_u64 session /\ bytes_arg seed seed_len;
      fw_args := tt;
      fw_perform := fun al => rpc_C_SeedRandom al session seed seed_len;
      fw_local := fun M => (fun f => on_module (f session (given seed seed_len) seed_len)) <$>
        Pkcs11.C_SeedRandom M |}
  | _ => None
  end.

(** The calls that return a number: a handle, a slot, a size. *)
Definition handle_call (c : Api.ApiCall) : option (Forward (option Z) Z) :=
  match c with
  | Api.C_WaitForSlotEvent flags (Some slot) => Some {|
      fw_id := GCK_RPC_CALL_C_WaitForSlotEvent;
      fw_parts := [PUlong flags];
      fw_ok := is_u64 flags;
      fw_args := Some slot;
      fw_perform := fun al => rpc_C_WaitForSlotEvent al flags (Some slot);
      fw_local := fun M => (fun f => on_module (appartment_slot (f flags))) <$>
        Pkcs11.C_WaitForSlotEvent M |}
  | Api.C_OpenSession id flags (Some session) => Some {|
      fw_id := GCK_RPC_CALL_C_OpenSession;
      fw_parts := [PUlong id; PUlong flags];
      fw_ok := is_u64 id /\ is_u64 flags;
      fw_args := Some session;
      fw_perform := fun al => rpc_C_OpenSession al id flags (Some session);
      fw_local := fun M => (fun f => open_session f id flags) <$> Pkcs11.C_OpenSession M |}
  | Api.C_CreateObject session template count (Some new_object) => Some {|
      fw_id := GCK_RPC_CALL_C_CreateObject;
      fw_parts := [PUlong session; template_part template count];
      fw_ok := negb (session =? CK_INVALID_HANDLE) = true /\ nonnull template = true /\ is_u64
        session /\ template_arg template count;
      fw_args := Some new_object;
      fw_perform := fun al => rpc_C_CreateObject al session template count (Some new_object);
      fw_local := fun M => (fun f => on_module (f session (template_got (template_sent template
        count)) (zlen (template_sent template count)))) <$> Pkcs11.C_CreateObject M |}
  | Api.C_CopyObject session object template count (Some new_object) => Some {|
      fw_id := GCK_RPC_CALL_C_CopyObject;
      fw_parts := [PUlong session; PUlong object; template_part template count];
      fw_ok := is_u64 session /\ is_u64 object /\ template_arg template count;
      fw_args := Some new_object;
      fw_perform := fun al => rpc_C_CopyObject al session object template count (Some
        new_object);
      fw_local := fun M => (fun f => on_module (f session object (template_got (template_sent
        template count)) (zlen (template_sent template count)))) <$> Pkcs11.C_CopyObject M |}
  | Api.C_GetObjectSize session object (Some size) => Some {|
      fw_id := GCK_RPC_CALL_C_GetObjectSize;
      fw_parts := [PUlong session; PUlong object];
      fw_ok := is_u64 session /\ is_u64 object;
      fw_args := Some size;
      fw_perform := fun al => rpc_C_GetObjectSize al session object (Some size);
      fw_local := fun M => (fun f => on_module (f session object)) <$> Pkcs11.C_GetObjectSize M
        |}
  | Api.C_GenerateKey session (Some mechanism) template count (Some key) => Some {|
      fw_id := GCK_RPC_CALL_C_GenerateKey;
      fw_parts := [PUlong session; mechanism_part mechanism; template_part template count];
      fw_ok := is_u64 session /\ mechanism_ok mechanism /\ template_arg template count;
      fw_args := Some key;
      fw_perform := fun al => rpc_C_GenerateKey al session (Some mechanism) template count (Some
        key);
      fw_local := fun M => (fun f => on_module (f session (dispatched mechanism) (template_got
        (template_sent template count)) (zlen (template_sent template count)))) <$>
        Pkcs11.C_GenerateKey M |}
  | Api.C_UnwrapKey session (Some mechanism) unwrapping_key wrapped_key wrapped_key_len template count (Some key) => Some {|
      fw_id := GCK_RPC_CALL_C_UnwrapKey;
      fw_parts := [PUlong session; mechanism_part mechanism; PUlong unwrapping_key; PBytes
        wrapped_key wrapped_key_len; template_part template count];
      fw_ok := is_u64 session /\ mechanism_ok mechanism /\ is_u64 unwrapping_key /\ bytes_arg
        wrapped_key wrapped_key_len /\ template_arg template count;
      fw_args := Some key;
      fw_perform := fun al => rpc_C_UnwrapKey al session (Some mechanism) unwrapping_key
        wrapped_key wrapped_key_len template count (Some key);
      fw_local := fun M => (fun f => on_module (f session (dispatched mechanism) unwrapping_key
        (given wrapped_key wrapped_key_len) wrapped_key_len (template_got (template_sent template
        count)) (zlen (template_sent template count)))) <$> Pkcs11.C_UnwrapKey M |}
  | Api.C_DeriveKey session (Some mechanism) base_key template count (Some key) => Some {|
      fw_id := GCK_RPC_CALL_C_DeriveKey;
      fw_parts := [PUlong session; mechanism_part mechanism; PUlong base_key; template_part
        template count];
      fw_ok := is_u64 session /\ mechanism_ok mechanism /\ is_u64 base_key /\ template_arg
        template count;
      fw_args := Some key;
      fw_perform := fun al => rpc_C_DeriveKey al session (Some mechanism) base_key template count
        (Some key);
      fw_local := fun M => (fun f => on_module (f session (dispatched mechanism) base_key
        (template_got (template_sent template count)) (zlen (template_sent template count)))) <$>
        Pkcs11.C_DeriveKey M |}
  | _ => None
  end.

(** The calls that return bytes into the space of the caller. *)
Definition bytes_call (c : Api.ApiCall) : option (Forward (option block * option Z) (option block * option Z)) :=
  match c with
  | Api.C_GetOperationState session operation_state (Some operation_state_len) => Some {|
      fw_id := GCK_RPC_CALL_C_GetOperationState;
      fw_parts := [PUlong session; buffer_part operation_state operation_state_len];
      fw_ok := is_u64 session /\ buffer_arg operation_state operation_state_len;
      fw_args := (operation_state, Some operation_state_len);
      fw_perform := fun al => rpc_C_GetOperationState al session operation_state (Some
        operation_state_len);
      fw_local := fun M => (fun f => on_module (f session (space operation_state
        operation_state_len) (Some operation_state_len))) <$> Pkcs11.C_GetOperationState M |}
  | Api.C_Encrypt session data data_len encrypted_data (Some encrypted_data_len) => Some {|
      fw_id := GCK_RPC_CALL_C_Encrypt;
      fw_parts := [PUlong session; PBytes data data_len; buffer_part encrypted_data
        encrypted_data_len];
      fw_ok := is_u64 session /\ bytes_arg data data_len /\ buffer_arg encrypted_data
        encrypted_data_len;
      fw_args := (encrypted_data, Some encrypted_data_len);
      fw_perform := fun al => rpc_C_Encrypt al session data data_len encrypted_data (Some
        encrypted_data_len);
      fw_local := fun M => (fun f => on_module (f session (given data data_len) data_len (space
        encrypted_data encrypted_data_len) (Some encrypted_data_len))) <$> Pkcs11.C_Encrypt M |}
  | Api.C_EncryptUpdate session part part_len encrypted_part (Some encrypted_part_len) => Some {|
      fw_id := GCK_RPC_CALL_C_EncryptUpdate;
      fw_parts := [PUlong session; PBytes part part_len; buffer_part encrypted_part
        encrypted_part_len];
      fw_ok := is_u64 session /\ bytes_arg part part_len /\ buffer_arg encrypted_part
        encrypted_part_len;
      fw_args := (encrypted_part, Some encrypted_part_len);
      fw_perform := fun al => rpc_C_EncryptUpdate al session part part_len encrypted_part (Some
        encrypted_part_len);
      fw_local := fun M => (fun f => on_module (f session (given part part_len) part_len (space
        encrypted_part encrypted_part_len) (Some encrypted_part_len))) <$> Pkcs11.C_EncryptUpdate
        M |}
  | Api.C_EncryptFinal session last_part (Some last_part_len) => Some {|
      fw_id := GCK_RPC_CALL_C_EncryptFinal;
      fw_parts := [PUlong session; buffer_part last_part last_part_len];
      fw_ok := is_u64 session /\ buffer_arg last_part last_part_len;
      fw_args := (last_part, Some last_part_len);
      fw_perform := fun al => rpc_C_EncryptFinal al session last_part (Some last_part_len);
      fw_local := fun M => (fun f => on_module (f session (space last_part last_part_len) (Some
        last_part_len))) <$> Pkcs11.C_EncryptFinal M |}
  | Api.C_Decrypt session enc_data enc_data_len data (Some data_len) => Some {|
      fw_id := GCK_RPC_CALL_C_Decrypt;
      fw_parts := [PUlong session; PBytes enc_data enc_data_len; buffer_part data data_len];
      fw_ok := is_u64 session /\ bytes_arg enc_data enc_data_len /\ buffer_arg data data_len;
      fw_args := (data, Some data_len);
      fw_perform := fun al => rpc_C_Decrypt al session enc_data enc_data_len data (Some
        data_len);
      fw_local := fun M => (fun f => on_module (f session (given enc_data enc_data_len)
        enc_data_len (space data data_len) (Some data_len))) <$> Pkcs11.C_Decrypt M |}
  | Api.C_DecryptUpdate session enc_part enc_part_len part (Some part_len) => Some {|
      fw_id := GCK_RPC_CALL_C_DecryptUpdate;
      fw_parts := [PUlong session; PBytes enc_part enc_part_len; buffer_part part part_len];
      fw_ok := is_u64 session /\ bytes_arg enc_part enc_part_len /\ buffer_arg part part_len;
      fw_args := (part, Some part_len);
      fw_perform := fun al => rpc_C_DecryptUpdate al session enc_part enc_part_len part (Some
        part_len);
      fw_local := fun M => (fun f => on_module (f session (given enc_part enc_part_len)
        enc_part_len (space part part_len) (Some part_len))) <$> Pkcs11.C_DecryptUpdate M |}
  | Api.C_DecryptFinal session last_part (Some last_part_len) => Some {|
      fw_id := GCK_RPC_CALL_C_DecryptFinal;
      fw_parts := [PUlong session; buffer_part last_part last_part_len];
      fw_ok := is_u64 session /\ buffer_arg last_part last_part_len;
      fw_args := (last_part, Some last_part_len);
      fw_perform := fun al => rpc_C_DecryptFinal al session last_part (Some last_part_len);
      fw_local := fun M => (fun f => on_module (f session (space last_part last_part_len) (Some
        last_part_len))) <$> Pkcs11.C_DecryptFinal M |}
  | Api.C_Digest session data data_len digest (Some digest_len) => Some {|
      fw_id := GCK_RPC_CALL_C_Digest;
      fw_parts := [PUlong session; PBytes data data_len; buffer_part digest digest_len];
      fw_ok := is_u64 session /\ bytes_arg data data_len /\ buffer_arg digest digest_len;
      fw_args := (digest, Some digest_len);
      fw_perform := fun al => rpc_C_Digest al session data data_len digest (Some digest_len);
      fw_local := fun M => (fun f => on_module (f session (given data data_len) data_len (space
        digest digest_len) (Some digest_len))) <$> Pkcs11.C_Digest M |}
  | Api.C_DigestFinal session digest (Some digest_len) => Some {|
      fw_id := GCK_RPC_CALL_C_DigestFinal;
      fw_parts := [PUlong session; buffer_part digest digest_len];
      fw_ok := is_u64 session /\ buffer_arg digest digest_len;
      fw_args := (digest, Some digest_len);
      fw_perform := fun al => rpc_C_DigestFinal al session digest (Some digest_len);
      fw_local := fun M => (fun f => on_module (f session (space digest digest_len) (Some
        digest_len))) <$> Pkcs11.C_DigestFinal M |}
  | Api.C_Sign session data data_len signature (Some signature_len) => Some {|
      fw_id := GCK_RPC_CALL_C_Sign;
      fw_parts := [PUlong session; PBytes data data_len; buffer_part signature signature_len];
      fw_ok := is_u64 session /\ bytes_arg data data_len /\ buffer_arg signature signature_len;
      fw_args := (signature, Some signature_len);
      fw_perform := fun al => rpc_C_Sign al session data data_len signature (Some signature_len);
      fw_local := fun M => (fun f => on_module (f session (given data data_len) data_len (space
        signature signature_len) (Some signature_len))) <$> Pkcs11.C_Sign M |}
  | Api.C_SignFinal session signature (Some signature_len) => Some {|
      fw_id := GCK_RPC_CALL_C_SignFinal;
      fw_parts := [PUlong session; buffer_part signature signature_len];
      fw_ok := is_u64 session /\ buffer_arg signature signature_len;
      fw_args := (signature, Some signature_len);
      fw_perform := fun al => rpc_C_SignFinal al session signature (Some signature_len);
      fw_local := fun M => (fun f => on_module (f session (space signature signature_len) (Some
        signature_len))) <$> Pkcs11.C_SignFinal M |}
  | Api.C_SignRecover session data data_len signature (Some signature_len) => Some {|
      fw_id := GCK_RPC_CALL_C_SignRecover;
      fw_parts := [PUlong session; PBytes data data_len; buffer_part signature signature_len];
      fw_ok := is_u64 session /\ bytes_arg data data_len /\ buffer_arg signature signature_len;
      fw_args := (signature, Some signature_len);
      fw_perform := fun al => rpc_C_SignRecover al session data data_len signature (Some
        signature_len);
      fw_local := fun M => (fun f => on_module (f session (given data data_len) data_len (space
        signature signature_len) (Some signature_len))) <$> Pkcs11.C_SignRecover M |}
  | Api.C_VerifyRecover session signature signature_len data (Some data_len) => Some {|
      fw_id := GCK_RPC_CALL_C_VerifyRecover;
      fw_parts := [PUlong session; PBytes signature signature_len; buffer_part data data_len];
      fw_ok := is_u64 session /\ bytes_arg signature signature_len /\ buffer_arg data data_len;
      fw_args := (data, Some data_len);
      fw_perform := fun al => rpc_C_VerifyRecover al session signature signature_len data (Some
        data_len);
      fw_local := fun M => (fun f => on_module (f session (given signature signature_len)
        signature_len (space data data_len) (Some data_len))) <$> Pkcs11.C_VerifyRecover M |}
  | Api.C_DigestEncryptUpdate session part part_len enc_part (Some enc_part_len) => Some {|
      fw_id := GCK_RPC_CALL_C_DigestEncryptUpdate;
      fw_parts := [PUlong session; PBytes part part_len; buffer_part enc_part enc_part_len];
      fw_ok := is_u64 session /\ bytes_arg part part_len /\ buffer_arg enc_part enc_part_len;
      fw_args := (enc_part, Some enc_part_len);
      fw_perform := fun al => rpc_C_DigestEncryptUpdate al session part part_len enc_part (Some
        enc_part_len);
      fw_local := fun M => (fun f => on_module (f session (given part part_len) part_len (space
        enc_part enc_part_len) (Some enc_part_len))) <$> Pkcs11.C_DigestEncryptUpdate M |}
  | Api.C_DecryptDigestUpdate session enc_part enc_part_len part (Some part_len) => Some {|
      fw_id := GCK_RPC_CALL_C_DecryptDigestUpdate;
      fw_parts := [PUlong session; PBytes enc_part enc_part_len; buffer_part part part_len];
      fw_ok := is_u64 session /\ bytes_arg enc_part enc_part_len /\ buffer_arg part part_len;
      fw_args := (part, Some part_len);
      fw_perform := fun al => rpc_C_DecryptDigestUpdate al session enc_part enc_part_len part
        (Some part_len);
      fw_local := fun M => (fun f => on_module (f session (given enc_part enc_part_len)
        enc_part_len (space part part_len) (Some part_len))) <$> Pkcs11.C_DecryptDigestUpdate M
        |}
  | Api.C_SignEncryptUpdate session part part_len enc_part (Some enc_part_len) => Some {|
      fw_id := GCK_RPC_CALL_C_SignEncryptUpdate;
      fw_parts := [PUlong session; PBytes part part_len; buffer_part enc_part enc_part_len];
      fw_ok := is_u64 session /\ bytes_arg part part_len /\ buffer_arg enc_part enc_part_len;
      fw_args := (enc_part, Some enc_part_len);
      fw_perform := fun al => rpc_C_SignEncryptUpdate al session part part_len enc_part (Some
        enc_part_len);
      fw_local := fun M => (fun f => on_module (f session (given part part_len) part_len (space
        enc_part enc_part_len) (Some enc_part_len))) <$> Pkcs11.C_SignEncryptUpdate M |}
  | Api.C_DecryptVerifyUpdate session enc_part enc_part_len part (Some part_len) => Some {|
      fw_id := GCK_RPC_CALL_C_DecryptVerifyUpdate;
      fw_parts := [PUlong session; PBytes enc_part enc_part_len; buffer_part part part_len];
      fw_ok := is_u64 session /\ bytes_arg enc_part enc_part_len /\ buffer_arg part part_len;
      fw_args := (part, Some part_len);
      fw_perform := fun al => rpc_C_DecryptVerifyUpdate al session enc_part enc_part_len part
        (Some part_len);
      fw_local := fun M => (fun f => on_module (f session (given enc_part enc_part_len)
        enc_part_len (space part part_len) (Some part_len))) <$> Pkcs11.C_DecryptVerifyUpdate M
        |}
  | Api.C_WrapKey session (Some mechanism) wrapping_key key wrapped_key (Some wrapped_key_len) => Some {|
      fw_id := GCK_RPC_CALL_C_WrapKey;
      fw_parts := [PUlong session; mechanism_part mechanism; PUlong wrapping_key; PUlong key;
        buffer_part wrapped_key wrapped_key_len];
      fw_ok := is_u64 session /\ mechanism_ok mechanism /\ is_u64 wrapping_key /\ is_u64 key /\
        buffer_arg wrapped_key wrapped_key_len;
      fw_args := (wrapped_key, Some wrapped_key_len);
      fw_perform := fun al => rpc_C_WrapKey al session (Some mechanism) wrapping_key key
        wrapped_key (Some wrapped_key_len);
      fw_local := fun M => (fun f => on_module (f session (dispatched mechanism) wrapping_key key
        (space wrapped_key wrapped_key_len) (Some wrapped_key_len))) <$> Pkcs11.C_WrapKey M |}
  | _ => None
  end.

End Tables.
Arguments Forward W R A : clear implicits.
Arguments fw_id {W R A} _.
Arguments fw_parts {W R A} _.
Arguments fw_ok {W R A} _.
Arguments fw_args {W R A} _.
Arguments fw_perform {W R A} _ _.
Arguments fw_local {W R A} _ _.

(** The bytes of the request. *)
Definition request_of {W R A} (fw : Forward W R A) : list Z :=
  header (fw_id fw) (Some (sigs_of (fw_parts fw))) ++ enc_parts (fw_parts fw).

(** The call is known, with the signatures of its parts and of its results. *)
Definition known_call {W R A} (fw : Forward W R A) (sgp : string) : Prop :=
  0 < fw_id fw < GCK_RPC_CALL_MAX /\ exists row, gck_rpc_call (fw_id fw) = Ok row
    /\ c_request row = Some (sigs_of (fw_parts fw)) /\ c_response row = Some sgp.

(** Takes a table apart. *)
Ltac call_of_table Hc :=
  repeat match type of Hc with
         | context [match ?o with Some _ => _ | None => _ end] => destruct o; [|discriminate Hc]
         end;
  injection Hc as <-.

Ltac prove_known Hc :=
  call_of_table Hc; (split; [by vm_compute|]); eexists; (split; [reflexivity|]); by split.

Lemma plain_call_known {W} call (fw : Forward W unit unit) :
  plain_call call = Some fw -> known_call fw "".
Proof. intros Hc. destruct call; try discriminate Hc; cbn [plain_call] in Hc; prove_known Hc. Qed.
Lemma handle_call_known {W} call (fw : Forward W (option Z) Z) :
  handle_call call = Some fw -> known_call fw "u".
Proof. intros Hc. destruct call; try discriminate Hc; cbn [handle_call] in Hc; prove_known Hc. Qed.
Lemma bytes_call_known {W} call (fw : Forward W (option block * option Z) (option block * option Z)) :
  bytes_call call = Some fw -> known_call fw "ay".
Proof. intros Hc. destruct call; try discriminate Hc; cbn [bytes_call] in Hc; prove_known Hc. Qed.

(** The caller's space. *)
Lemma bytes_call_space {W} call (fw : Forward W (option block * option Z) (option block * option Z)) :
  bytes_call call = Some fw -> fw_ok fw ->
  exists arr n, fw_args fw = (arr, Some n) /\ buffer_arg arr n.
Proof.
  intros Hc Hok. destruct call; try discriminate Hc; cbn [bytes_call] in Hc; call_of_table Hc;
    cbn [fw_args fw_ok] in *; do 2 eexists; (split; [reflexivity|]);
    repeat match type of Hok with _ /\ _ => destruct Hok as [? Hok] end; (done || by split).
Qed.
