(* ===== verification/RemoteServer.v ===== *)
(** The daemon's side of a call: the handlers of gck-rpc-dispatch.c do what the tables
    of Remote.v say, given a request with the parts they say. *)
From S2P Require Import Prelude EggBuffer Pkcs11 RpcUtil Calls Message DispatchProto Dispatch.
From S2P Require Import DispatchReads DispatchReplies Remote.

Create HintDb server_args.

Section Server.
Context {W : Type} (M : CK_FUNCTION_LIST W) (malloc_ok : list Z -> Z -> bool) (shutdown_ok : Z -> bool).
Context (Hmalloc : forall l n, malloc_ok l n = true).
Context (id : Z).

(** ** The arguments *)

Lemma bytes_arg_reads arr n :
  bytes_arg arr n -> reads_arg (W := W) id (PBytes arr n) IN_BYTE_ARRAY (given arr n, n).
Proof. intros [Ha _]. by apply IN_BYTE_ARRAY_reads. Qed.
Lemma buffer_arg_reads arr n :
  buffer_arg arr n ->
  reads_arg (W := W) id (buffer_part arr n) (IN_BYTE_BUFFER malloc_ok) (space arr n, Some n).
Proof.
  intros [Hn _]. apply (IN_BYTE_BUFFER_reads malloc_ok Hmalloc id arr (Some n)).
  unfold short_buffer. cbn. lia.
Qed.
Lemma text_reads s n :
  text_ok n s -> n < 2147483647 ->
  reads_arg (W := W) id (PSpaceString s) (IN_SPACE_STRING malloc_ok n) (Some s).
Proof. intros [_ <-] Hn. by apply IN_SPACE_STRING_reads. Qed.
Lemma mechanism_reads m :
  mechanism_ok m -> reads_arg (W := W) id (ClientMacros.mechanism_part m) IN_MECHANISM (dispatched m).
Proof.
  intros (Ha & _ & Ht & Hl). apply (IN_MECHANISM_reads id _ (mechanism_data m)); [done|].
  unfold mechanism_data. intros bs. destruct (gck_rpc_mechanism_has_no_parameters _); [done|].
  destruct (pParameter m) as [b|] eqn:Ep; [|done]. intros [= <-].
  destruct (Ha b Ep) as [_ ?]. rewrite zlen_slice by lia. lia.
Qed.
Lemma template_reads arr n :
  template_arg arr n ->
  reads_arg (W := W) id (template_part arr n) (IN_ATTRIBUTE_ARRAY malloc_ok)
    (template_got (template_sent arr n), zlen (template_sent arr n)).
Proof. intros (_ & _ & Ht). by apply IN_ATTRIBUTE_ARRAY_reads. Qed.

(** What a module of the standard promises of the space it is given. *)
Lemma bytes_arg_val arr n : bytes_arg arr n -> byte_array_val (given arr n, n).
Proof.
  intros [(Ha & Hn & Hl) _]. unfold byte_array_val, given. destruct arr as [bs|]; cbn [fmap option_fmap option_map fst snd]; [|done].
  destruct (Ha bs eq_refl) as [Hb ?]. split; [by rewrite zlen_slice by lia|]. split; [by apply slice_bytes|done].
Qed.
Lemma space_val arr n : buffer_arg arr n -> byte_buffer_val (space arr n, Some n).
Proof.
  intros [Hn _]. split; cbn [fst snd].
  - unfold space, fresh_buffer. destruct arr as [b|]; [|done]. intros ? [= <-].
    split; [by apply bytes_replicate|]. intros k [= <-]. rewrite zlen_replicate. cbn. lia.
  - intros k [= <-]. lia.
Qed.

(** ** The ends of the handlers *)

Lemma sessions_kept w (s0 s : Proc W) : same_call (set_module w s0) s -> sessions s = sessions s0.
Proof. by intros [(_ & Hs & _) _]. Qed.
Lemma same_call_sessions w l (s0 s : Proc W) :
  same_call (set_module w s0) s -> same_call (set_core (w, l) s0) (set_sessions l s).
Proof. intros [(? & ? & ? & ? & ? & ? & ?) ?]. by repeat split. Qed.
Lemma serving_sessions l sg q ps r (s : Proc W) :
  length l = length (sessions s) -> serving id sg q ps r s -> serving id sg q ps r (set_sessions l s).
Proof. intros Hl [[] ? ? ? ? ? ? ? ? ?]. split; try done. split; try done. cbn. congruence. Qed.

Lemma process_plain (f : mfun W unit) E sg s0 s code out c' :
  asking id s0 sg [] s -> effect_of (on_module f) plain_out (core s0) = ((code, out), c') ->
  answerable id sg code out ->
  safe E ('(_ret, _) ← PROCESS_CALL f; mret _ret) (replied_with id sg (set_core c' s0) code out) s.
Proof.
  intros Ha He Hfit. unfold effect_of, on_module in He. cbn [core fst] in He.
  destruct (f (p_module s0)) as [[rv []] w] eqn:Hf. injection He as <- <- <-.
  eapply PROCESS_CALL_then; [exact Ha|exact Hf|]. intros s1 Hs1%same_call_core Hsv.
  apply safe_ret. by apply end_plain.
Qed.

Lemma process_handle (f : mfun W Z) E sg s0 s code out c' :
  asking id s0 sg [] s -> gives_room (resp s0) ->
  effect_of (on_module f) handle_out (core s0) = ((code, out), c') -> answerable id sg code out ->
  safe E ('(_ret, h) ← PROCESS_CALL f; _ret ← OUT_ULONG h _ret; mret _ret)
    (replied_with id sg (set_core c' s0) code out) s.
Proof.
  intros Ha Hg He Hfit. unfold effect_of, on_module in He. cbn [core fst] in He.
  destruct (f (p_module s0)) as [[rv h] w] eqn:Hf. injection He as <- <- <-.
  eapply PROCESS_CALL_then; [exact Ha|exact Hf|]. intros s1 Hs1%same_call_core Hsv.
  by apply end_ulong.
Qed.

Lemma process_bytes (f : mfun W (option block * option Z)) E sg s0 s code out c' :
  (forall w, bytes_out (f w).1.1 (f w).1.2) ->
  asking id s0 sg [] s -> gives_room (resp s0) ->
  effect_of (on_module f) bytes_outcome (core s0) = ((code, out), c') -> answerable id sg code out ->
  safe E ('(_ret, (a, n)) ← PROCESS_CALL f; _ret ← OUT_BYTE_ARRAY a n _ret; mret _ret)
    (replied_with id sg (set_core c' s0) code out) s.
Proof.
  intros Ho Ha Hg He Hfit. unfold effect_of, on_module in He. cbn [core fst] in He.
  specialize (Ho (p_module s0)).
  destruct (f (p_module s0)) as [[rv [a n]] w] eqn:Hf. injection He as He <-.
  eapply PROCESS_CALL_then; [exact Ha|exact Hf|]. intros s1 Hs1%same_call_core Hsv.
  by eapply end_bytes.
Qed.

(** The three calls that do more than call the module. *)
Lemma process_close (f : Z -> mfun W unit) session E sg s0 s code out c' :
  asking id s0 sg [] s -> effect_of (close_session f session) plain_out (core s0) = ((code, out), c') ->
  answerable id sg code out ->
  safe E ('(_ret, _) ← PROCESS_CALL (f session);
    (if _ret =? CKR_OK then
       call (modify (fun s => set_sessions (remove_session session (sessions s)) s))
     else mret tt);;
    mret _ret) (replied_with id sg (set_core c' s0) code out) s.
Proof.
  intros Ha He Hfit. unfold effect_of, close_session in He. cbn [core fst snd] in He.
  destruct (f session (p_module s0)) as [[rv []] w] eqn:Hf. injection He as <- <- <-.
  eapply PROCESS_CALL_then; [exact Ha|exact Hf|]. intros s1 Hs1 Hsv.
  pose proof (sessions_kept _ _ _ Hs1) as Hss. destruct (rv =? CKR_OK).
  - apply safe_bind, safe_call, wp_modify, safe_ret. rewrite Hss.
    apply end_plain; [by apply same_call_sessions|by apply serving_sessions; [rewrite length_remove_session, Hss|]|done].
  - apply safe_bind, safe_ret, safe_ret. by apply end_plain; [apply same_call_core|..].
Qed.

Lemma process_open (f : Z -> Z -> mfun W Z) slot flags sg s0 s code out c' :
  asking id s0 sg [] s -> gives_room (resp s0) ->
  effect_of (open_session f slot flags) handle_out (core s0) = ((code, out), c') ->
  answerable id sg code out ->
  safe (replied_with id sg (set_core c' s0) code out) ('(_ret, session) ← PROCESS_CALL (f slot flags);
    (if _ret =? CKR_OK then
       s ← call get_st;
       match store_session session slot (sessions s) with
       | Some l => call (modify (set_sessions l))
       | None => exit CKR_SESSION_COUNT
       end
     else mret tt);;
    _ret ← OUT_ULONG session _ret;
    mret _ret) (replied_with id sg (set_core c' s0) code out) s.
Proof.
  intros Ha Hg He Hfit. unfold effect_of, open_session in He. cbn [core fst snd] in He.
  destruct (f slot flags (p_module s0)) as [[rv h] w] eqn:Hf.
  eapply PROCESS_CALL_then; [exact Ha|exact Hf|]. intros s1 Hs1 Hsv.
  pose proof (sessions_kept _ _ _ Hs1) as Hss. destruct (rv =? CKR_OK) eqn:Erv.
  - apply Z.eqb_eq in Erv as ->. apply safe_bind, safe_bind, safe_call, wp_get. rewrite Hss.
    destruct (store_session h slot (sessions s0)) as [l|] eqn:El; injection He as <- <- <-.
    + apply safe_call, wp_modify. apply end_ulong; [by apply same_call_sessions| |done..].
      apply serving_sessions; [|done]. by rewrite (length_store_session _ _ _ _ El), Hss.
    + by apply end_error; [|apply same_call_core|].
  - injection He as <- <- <-. apply safe_bind, safe_ret. by apply end_ulong; [apply same_call_core|..].
Qed.

Lemma process_slot (f : mfun W Z) E sg s0 s code out c' :
  asking id s0 sg [] s -> gives_room (resp s0) ->
  effect_of (on_module (appartment_slot f)) handle_out (core s0) = ((code, out), c') ->
  answerable id sg code out ->
  safe E ('(_ret, slot_id) ← PROCESS_CALL f;
    let slot_id := CK_GNOME_APPARTMENT_SLOT slot_id in
    _ret ← OUT_ULONG slot_id _ret; mret _ret) (replied_with id sg (set_core c' s0) code out) s.
Proof.
  intros Ha Hg He Hfit. unfold effect_of, on_module, appartment_slot in He. cbn [core fst] in He.
  destruct (f (p_module s0)) as [[rv h] w] eqn:Hf. injection He as <- <- <-.
  eapply PROCESS_CALL_then; [exact Ha|exact Hf|]. intros s1 Hs1%same_call_core Hsv.
  by apply end_ulong.
Qed.

(** A handler of the table. *)
Lemma handler_answers {F} h (f : option F) g (k : F -> Call (Proc W) Z) ps e :
  h = END_CALL (_func ← BEGIN_CALL f; k _func) -> f = Some g ->
  (forall sg s code out c', asking id s sg ps s -> gives_room (resp s) -> e (core s) = ((code, out), c') ->
     answerable id sg code out ->
     safe (replied_with id sg (set_core c' s) code out) (k g)
       (replied_with id sg (set_core c' s) code out) s) ->
  answers id h ps e.
Proof. intros ->. apply answers_intro. Qed.
End Server.

#[export] Hint Resolve bytes_arg_reads buffer_arg_reads mechanism_reads template_reads : server_args.
#[export] Hint Extern 1 (reads_arg _ (PUlong _) _ _) => apply IN_ULONG_reads; lia : server_args.
#[export] Hint Extern 1 (reads_arg _ (PSpaceString _) _ _) =>
  apply text_reads; [assumption|assumption|lia] : server_args.

(** The next argument of a handler. *)
Ltac serve_arg :=
  eapply arg_then; [|eassumption|]; [solve [eauto with server_args]|intros ? ?; cbn beta iota].

(** The function of the module that a table names. *)
Ltac local_of_table Hf Eg :=
  match type of Hf with (_ <$> ?o) = Some _ =>
    let g := fresh "g" in destruct o as [g|] eqn:Eg; [|discriminate Hf]; injection Hf as <-
  end.

Ltac handler_of_table Hf :=
  cbn [fw_id fw_parts fw_local fw_ok] in *;
  let Eg := fresh "Eg" in local_of_table Hf Eg;
  eapply handler_answers; [reflexivity|exact Eg|intros ? ? ? ? ? ? ? ? ?];
  repeat match goal with H : _ /\ _ |- _ => destruct H end.

Section Tables.
Context {W : Type} (M : CK_FUNCTION_LIST W) (malloc_ok : list Z -> Z -> bool) (shutdown_ok : Z -> bool).
Context (Hmalloc : forall l n, malloc_ok l n = true).

Lemma plain_call_answers call fw f :
  plain_call call = Some fw -> fw_ok fw -> fw_local fw M = Some f ->
  answers (fw_id fw) (call_handler M malloc_ok shutdown_ok (fw_id fw)) (fw_parts fw)
    (effect_of f plain_out).
Proof.
  intros Hc Hok Hf. destruct call; try discriminate Hc; cbn [plain_call] in Hc; call_of_table Hc;
    handler_of_table Hf; repeat serve_arg; first [eapply process_plain; eassumption|eapply process_close; eassumption].
Qed.

Lemma handle_call_answers call fw f :
  handle_call call = Some fw -> fw_ok fw -> fw_local fw M = Some f ->
  answers (fw_id fw) (call_handler M malloc_ok shutdown_ok (fw_id fw)) (fw_parts fw)
    (effect_of f handle_out).
Proof.
  intros Hc Hok Hf. destruct call; try discriminate Hc; cbn [handle_call] in Hc; call_of_table Hc;
    handler_of_table Hf; repeat serve_arg; lazymatch goal with
    | |- context [store_session] => eapply process_open
    | |- context [CK_GNOME_APPARTMENT_SLOT] => eapply process_slot
    | _ => eapply process_handle
    end; eassumption.
Qed.

Lemma module_one_shot f g session data n buf k w :
  module_ok M -> bytes_arg data n -> buffer_arg buf k -> In f (one_shot M) -> f = Some g ->
  bytes_out (g session (given data n) n (space buf k) (Some k) w).1.1
    (g session (given data n) n (space buf k) (Some k) w).1.2.
Proof. intros HM Hd Hb Hin Hf. eapply mo_one_shot; [done|exact Hin|exact Hf|by apply bytes_arg_val|by apply space_val]. Qed.
Lemma module_final f g session buf k w :
  module_ok M -> buffer_arg buf k -> In f (final M) -> f = Some g ->
  bytes_out (g session (space buf k) (Some k) w).1.1 (g session (space buf k) (Some k) w).1.2.
Proof. intros HM Hb Hin Hf. eapply mo_final; [done|exact Hin|exact Hf|by apply space_val]. Qed.

(** The functions that return bytes keep the promise of the standard. *)
Lemma bytes_call_out call fw f c :
  module_ok M -> bytes_call call = Some fw -> fw_ok fw -> fw_local fw M = Some f ->
  bytes_out (f c).1.1 (f c).1.2.
Proof.
  intros HM Hc Hok Hf.
  assert (exists g, f = on_module g /\ forall w, bytes_out (g w).1.1 (g w).1.2) as (g & -> & Hg).
  { destruct call; try discriminate Hc; cbn [bytes_call] in Hc; call_of_table Hc;
      cbn [fw_ok fw_local] in *; local_of_table Hf Eg; (eexists; split; [reflexivity|]); intros w;
      first [eapply module_one_shot; [..|exact Eg]|eapply module_final; [..|exact Eg]
            |eapply mo_C_WrapKey; [..|exact Eg|apply space_val]];
      first [tauto|by simpl; auto 20]. }
  unfold on_module. specialize (Hg c.1). by destruct (g c.1) as [[rv a] w].
Qed.

Lemma bytes_call_answers call fw f :
  module_ok M ->
  bytes_call call = Some fw -> fw_ok fw -> fw_local fw M = Some f ->
  answers (fw_id fw) (call_handler M malloc_ok shutdown_ok (fw_id fw)) (fw_parts fw)
    (effect_of f bytes_outcome).
Proof.
  intros HM Hc Hok Hf. pose proof (fun w => bytes_call_out call fw f (w, []) HM Hc Hok Hf) as Ho.
  destruct call; try discriminate Hc; cbn [bytes_call] in Hc; call_of_table Hc;
    handler_of_table Hf; repeat serve_arg; (eapply process_bytes; [|eassumption..]);
    intros w; specialize (Ho w); unfold on_module in Ho; cbn [fst] in Ho;
    match type of Ho with context [match ?x with _ => _ end] => by destruct x as [[? ?] ?] end.
Qed.
End Tables.
