(* ===== verification/RemoteClient.v ===== *)
(** The client's side of a call: the functions of gck-rpc-module.c send what the tables
    of Remote.v say, and return what the reply says, over a network that carries both. *)
From S2P Require Import Prelude EggBuffer Pkcs11 RpcUtil Calls Message DispatchReplies Transport Client.
From S2P Require Import ClientProto ClientCalls ClientSpecs ClientReads ClientRun ClientReplies.
From S2P Require Import ClientMacros ClientPool ClientExact ClientResults ClientProps Remote.

Create HintDb client_args.

Section Client.
Context (realloc : EggBufferAllocator) (Hok : AllocatorOk realloc) (Hmem : gives_memory realloc).

(** The client that sends [request] and is sent [reply] gets [r], and its connection
    is in the pool again, or closed. *)
Definition client_gets {R} (m : Net Client (Z * R)) (request reply : list Z) (r : Z * R) : Prop :=
  forall c cs pool rest, client_ok realloc c -> pkcs11_initialized c = true ->
    call_state_pool c = cs :: pool -> incoming (conn cs) = frame reply ++ rest ->
    willing (4 + zlen request) (conn cs) ->
    runs (fun _ => False) m
      (fun r' c' => r' = r /\ returned realloc (conn cs) c pool request rest r.1 c') c.

Lemma gets_initialized {R} (args : R) k request reply r :
  client_gets k request reply r -> client_gets (initialized_or_return args k) request reply r.
Proof.
  intros Hk c cs pool rest Hc Hi Hp Hinc Hw. apply runs_get. rewrite Hi. by apply (Hk c cs pool rest).
Qed.
Lemma gets_if_fail {R} (x : bool) v (args : R) k request reply r :
  x = true -> client_gets k request reply r ->
  client_gets (return_val_if_fail x v args k) request reply r.
Proof. by intros ->. Qed.

(** ** The end of a call *)

(** The part bytes are sent as. *)
Lemma outcome_bytes rv a code out :
  bytes_outcome rv a = (code, out) -> exists p k, out = [PByteArray p k] /\
    (is_u32 (default 0 a.2) -> is_u32 k).
Proof.
  unfold bytes_outcome. destruct (_ =? _); intros [= <- <-]; unfold PBytes; eauto.
Qed.

Section Ends.
Context (id : Z) (row : GckRpcCall) (ps : list part) (sgp : string).
Context (Hid : 0 < id < GCK_RPC_CALL_MAX) (Hrow : gck_rpc_call id = Ok row).
Context (Hsgq : c_request row = Some (sigs_of ps)) (Hsgp : c_response row = Some sgp).
Context (c0 : Conn) (rest : list Z).

Abbreviation request := (request_bytes id (sigs_of ps) ps).
Abbreviation composing := (composing realloc id (sigs_of ps) c0).
Abbreviation reply_at := (reply_at realloc c0 request rest).
Abbreviation ended := (ended realloc c0 request rest).

(** How a call ends that returns [ret] and leaves [args'] in the caller's objects. *)
Definition ends {R} (args : R) (ret : Z) (args' : R) (r : (Z * R) + Z) (cs : CallState) : Prop :=
  match r with inl r => r = (ret, args') | inr rv => (rv, args) = (ret, args') end
  /\ ended cs /\ (ret = CKR_OK -> exists payload, reply_at EmptyString payload cs).

Context (code : Z) (out : list part).
Context (Hcode : is_u32 code) (Hfit : answerable id sgp code out).
Context (Hw : willing (4 + zlen request) c0).
Context (Hinc : incoming c0 = frame (reply_bytes id code out) ++ rest).

Lemma gets_process {C} (k : Z -> Rpc C) Q cs :
  composing EmptyString ps cs ->
  (code = CKR_OK -> forall cs', reply_at (sigs_of out) (enc_parts out) cs' ->
     runs (fun _ => False) (k CKR_OK) Q cs') ->
  (code <> CKR_OK -> forall cs', ended cs' -> Q (inr code) cs') ->
  runs (fun _ => False) (PROCESS_CALL realloc ≫= k) Q cs.
Proof.
  intros Hc Hgood Hbad. unfold reply_bytes in Hinc. destruct (Z.eqb_spec code CKR_OK) as [E|E].
  - destruct (Hfit E) as [Hsg Hf]. rewrite Hsg in *. unfold fits in Hf.
    pose proof (PROCESS_CALL_reply realloc Hok Hmem id row (sigs_of ps) sgp Hid Hrow Hsgp c0 ps cs
      (enc_parts out) rest Hc Hw ltac:(split; [apply zlen_nonneg|lia]) Hinc) as H.
    unfold runs, wp, mbind, Rpc_bind in *.
    destruct (PROCESS_CALL realloc cs) as [[[[a|rv]|] cs']|]; try done; destruct H as [[= ->] H].
    by apply (Hgood E).
  - rewrite wrap32_id in Hinc by done.
    pose proof (PROCESS_CALL_error realloc Hok Hmem id (sigs_of ps) c0 ps cs code rest Hc Hw
      ltac:(lia) Hinc) as H.
    assert (error_of code = code) as He
      by (unfold error_of; unfold CKR_OK in *; by rewrite (proj2 (Z.leb_gt _ _)) by lia).
    unfold runs, wp, mbind, Rpc_bind in *.
    destruct (PROCESS_CALL realloc cs) as [[[[a|rv]|] cs']|]; try done; destruct H as [[= ->] H].
    rewrite He. by apply Hbad.
Qed.

(** The body of a call of each kind, behind its arguments. *)
Lemma ends_plain cs :
  out = [] -> composing EmptyString ps cs ->
  runs (fun _ => False) (_ret ← PROCESS_CALL realloc; mret (_ret, tt)) (ends tt code tt) cs.
Proof.
  intros Hout Hc. apply gets_process; [done|..].
  - intros -> cs' Hra. apply runs_ret. split; [done|]. split; [apply Hra|]. intros _. rewrite Hout in Hra.
    by exists [].
  - intros Hne cs' He. by split; [|split].
Qed.

(** A call that reads results. *)
Lemma ends_yields {R} (args : R) (read : Z -> Rpc (Z * R)) ret args' cs :
  composing EmptyString ps cs ->
  (code = CKR_OK -> yields realloc c0 out read (ret, args')) ->
  (code <> CKR_OK -> (ret, args') = (code, args)) ->
  runs (fun _ => False) (PROCESS_CALL realloc ≫= read) (ends args ret args') cs.
Proof.
  intros Hc Hgood Hbad. apply gets_process; [done|..].
  - intros Hok1 cs' Hra. specialize (Hgood Hok1). rewrite <- (app_nil_r (enc_parts out)) in Hra.
    specialize (Hgood _ _ _ EmptyString [] cs' Hra (string_strip_self _)).
    unfold runs, wp in *. destruct (read CKR_OK cs') as [[[[v|rv']|] cs2]|]; try done; destruct Hgood as [[= ->] H].
    split; [done|]. split; [apply H|]. intros _. by exists [].
  - intros Hne cs' He. injection (Hbad Hne) as -> ->. by split; [|split].
Qed.

Lemma ends_handle v h cs :
  out = [PUlong h] -> is_u64 h -> composing EmptyString ps cs ->
  runs (fun _ => False)
    (_ret ← PROCESS_CALL realloc; '(_ret, x) ← OUT_ULONG (Some v) _ret; mret (_ret, x))
    (ends (Some v) code (handle_result (Some v) code h).2) cs.
Proof.
  intros Hout Hh Hc. apply (ends_yields _ (fun ret => '(_ret, x) ← OUT_ULONG (Some v) ret; mret (_ret, x))); [done|..].
  - intros ->. rewrite Hout. eapply yields_bind; [by apply OUT_ULONG_yields|done].
  - intros Hne. unfold handle_result. by rewrite (proj2 (Z.eqb_neq _ _)) by done.
Qed.

(** What is stored for a result of a module that keeps to its space. *)
Lemma store_bytes_result arr n rv a p k :
  DispatchProto.bytes_out rv a -> bytes_honest (arr, Some n) rv a -> bytes_outcome rv a = (CKR_OK, [PByteArray p k]) ->
  bytes_result (arr, Some n) rv a
    = (let '(ret, (arr', n')) := store_bytes arr n p k in (ret, (arr', Some n'))).
Proof.
  intros Ho [Hn Hh] Hout. unfold bytes_outcome, bytes_result in *. cbn [fst snd] in *.
  destruct (rv =? CKR_BUFFER_TOO_SMALL); [injection Hout as <- <-; by destruct arr|].
  injection Hout as -> <- <-. destruct (Hh eq_refl) as [Hnull Hle]. rewrite Z.eqb_refl.
  specialize (Ho eq_refl). destruct a as [[b|] len], arr as [old|]; try done.
  destruct (Ho b eq_refl) as [_ Hr]. cbn [fst snd] in *. unfold store_bytes.
  assert (zlen (slice b 0 (default 0 len)) = default 0 len) as Hz by (rewrite zlen_slice; lia).
  cbn [fmap option_fmap option_map]. rewrite Hz. specialize (Hle (mk_is_Some _ _ eq_refl)). cbn in Hle.
  rewrite (proj2 (Z.ltb_ge _ _)) by done. do 4 f_equal. unfold zlen in Hz.
  by rewrite <- (Nat2Z.id (length _)), Hz.
Qed.

(** An array in a response is not too long for the buffer of the response. *)
Lemma reply_array_short p k :
  out = [PByteArray p k] -> code = CKR_OK -> forall bs, p = Some bs -> zlen bs < 2147483647.
Proof.
  intros Hp Hok1 bs ->. destruct (Hfit Hok1) as [_ Hf]. unfold fits, header in Hf. rewrite Hp in Hf.
  change (enc_parts [PByteArray (Some bs) k]) with (([1] ++ enc_uint32 (zlen bs) ++ bs) ++ []) in Hf.
  rewrite app_nil_r, !zlen_app, !zlen_enc_uint32 in Hf.
  pose proof (zlen_nonneg (enc_byte_array (Some (string_bytes sgp)))). change (zlen [1]) with 1 in Hf. lia.
Qed.

Lemma ends_bytes arr n rv a cs :
  room arr n -> DispatchProto.bytes_out rv a -> bytes_honest (arr, Some n) rv a ->
  bytes_outcome rv a = (code, out) -> composing EmptyString ps cs ->
  runs (fun _ => False)
    (_ret ← PROCESS_CALL realloc; '(_ret, (x, y)) ← OUT_BYTE_ARRAY arr (Some n) _ret; mret (_ret, (x, y)))
    (ends (arr, Some n) (bytes_result (arr, Some n) rv a).1 (bytes_result (arr, Some n) rv a).2) cs.
Proof.
  intros Hroom Ho Hh Hout Hc. destruct (outcome_bytes rv a code out Hout) as (p & k & Hp & Hk).
  apply (ends_yields _ (fun ret => '(_ret, (x, y)) ← OUT_BYTE_ARRAY arr (Some n) ret; mret (_ret, (x, y)))); [done|..].
  - intros Hok1. rewrite Hok1, Hp in Hout. rewrite Hp, <- surjective_pairing.
    rewrite (store_bytes_result arr n rv a p k Ho Hh Hout).
    eapply yields_bind; [apply (OUT_BYTE_ARRAY_yields realloc c0 arr n p k Hroom)|].
    + by apply reply_array_short with (k := k).
    + intros _. apply Hk, Hh.
    + by destruct (store_bytes arr n p k) as [ret [x y]].
  - intros Hne. unfold bytes_outcome, bytes_result in *. destruct (rv =? CKR_BUFFER_TOO_SMALL);
      [by injection Hout as <-|]. injection Hout as -> _.
    by rewrite (proj2 (Z.eqb_neq code CKR_OK)) by done.
Qed.
End Ends.

(** A whole call. *)
Lemma gets_call {R} id row ps (args : R) body reply ret args' :
  0 < id < GCK_RPC_CALL_MAX -> gck_rpc_call id = Ok row -> c_request row = Some (sigs_of ps) ->
  (forall c0 rest cs, willing (4 + zlen (request_bytes id (sigs_of ps) ps)) c0 ->
     incoming c0 = frame reply ++ rest -> composing realloc id (sigs_of ps) c0 (sigs_of ps) [] cs ->
     runs (fun _ => False) body (ends id ps c0 rest args ret args') cs) ->
  client_gets (CALL realloc id args body) (request_bytes id (sigs_of ps) ps) reply (ret, args').
Proof.
  intros Hid Hrow Hsgq Hbody c cs pool rest Hc Hi Hp Hinc Hw.
  apply (CALL_exact realloc Hok Hmem id row (sigs_of ps) Hid Hrow Hsgq (conn cs) args body c cs pool
    (request_bytes id (sigs_of ps) ps) rest ret args' Hc Hi Hp eq_refl).
  intros cs1 Hco. by apply Hbody.
Qed.

(** ** The arguments *)

Section Arguments.
Context (id : Z) (sgq : string) (c0 : Conn).
Abbreviation composes := (composes realloc id sgq c0).

Lemma bytes_arg_composes arr n :
  bytes_arg arr n -> composes (PBytes arr n) (IN_BYTE_ARRAY arr n).
Proof. intros [(Ha & _) Hn]. by apply IN_BYTE_ARRAY_composes. Qed.
Lemma buffer_part_composes arr n : composes (buffer_part arr n) (IN_BYTE_BUFFER arr (Some n)).
Proof. by apply (IN_BYTE_BUFFER_composes realloc Hmem id sgq c0 arr (Some n)). Qed.
Lemma text_composes s :
  DispatchProto.text_ok 32 s -> composes (PSpaceString s) (IN_SPACE_STRING (Some s) 32).
Proof. intros [Hb Hz]. by apply IN_SPACE_STRING_composes. Qed.
Lemma mechanism_composes m :
  mechanism_ok m -> composes (mechanism_part m) (IN_MECHANISM (Some m)).
Proof. intros (Ha & Hs & _). by apply IN_MECHANISM_composes. Qed.
Lemma template_composes arr n :
  template_arg arr n -> composes (template_part arr n) (IN_ATTRIBUTE_ARRAY arr n).
Proof. intros (Ha & Hn & _). by apply IN_ATTRIBUTE_ARRAY_composes. Qed.
End Arguments.
End Client.

#[export] Hint Resolve IN_ULONG_composes bytes_arg_composes buffer_part_composes text_composes
  mechanism_composes template_composes : client_args.

(** The next argument of a call. *)
Ltac send_arg :=
  eapply composes_then; [|eassumption| |eassumption|];
  [solve [eauto with client_args]|reflexivity|intros ? ? ?].

Ltac call_gets Hok Hmem Hargs :=
  repeat match type of Hargs with _ /\ _ => destruct Hargs as [? Hargs] end;
  lazymatch goal with |- client_gets _ ?f _ _ _ => let h := head_of f in unfold h end;
  repeat first [eapply gets_initialized | eapply gets_if_fail; [first [assumption|reflexivity]|]];
  eapply gets_call; [exact Hok|exact Hmem|eassumption..|intros ? ? ? ? ? ?].

Section Tables.
Context {W : Type} (realloc : EggBufferAllocator) (Hok : AllocatorOk realloc) (Hmem : gives_memory realloc).

Lemma plain_call_gets call (fw : Forward W unit unit) code :
  plain_call call = Some fw -> fw_ok fw -> zlen (request_of fw) <= 2147483647 ->
  is_u32 code -> answerable (fw_id fw) "" code [] ->
  client_gets realloc (fw_perform fw realloc) (request_of fw) (reply_bytes (fw_id fw) code []) (code, tt).
Proof.
  intros Hc Hargs Hz Hcode Hfit. destruct (plain_call_known call fw Hc) as (Hid & row & Hrow & Hq & Hp).
  unfold request_of in *.
  destruct call; try discriminate Hc; cbn [plain_call] in Hc; call_of_table Hc;
    cbn [fw_id fw_parts fw_perform fw_ok] in *; call_gets Hok Hmem Hargs; repeat send_arg;
    (eapply ends_plain; [eassumption..|reflexivity|eassumption]).
Qed.

Lemma handle_call_gets call (fw : Forward W (option Z) Z) code h :
  handle_call call = Some fw -> fw_ok fw -> zlen (request_of fw) <= 2147483647 ->
  is_u32 code -> is_u64 h -> answerable (fw_id fw) "u" code [PUlong h] ->
  client_gets realloc (fw_perform fw realloc) (request_of fw)
    (reply_bytes (fw_id fw) code [PUlong h]) (handle_result (fw_args fw) code h).
Proof.
  intros Hc Hargs Hz Hcode Hh Hfit. destruct (handle_call_known call fw Hc) as (Hid & row & Hrow & Hq & Hp).
  unfold request_of in *.
  destruct call; try discriminate Hc; cbn [handle_call] in Hc; call_of_table Hc;
    cbn [fw_id fw_parts fw_perform fw_ok fw_args] in *; call_gets Hok Hmem Hargs; repeat send_arg;
    (eapply ends_handle; [eassumption..|reflexivity|eassumption|eassumption]).
Qed.

Lemma bytes_call_gets call (fw : Forward W (option block * option Z) (option block * option Z)) rv a code out :
  bytes_call call = Some fw -> fw_ok fw -> zlen (request_of fw) <= 2147483647 ->
  is_u32 code -> DispatchProto.bytes_out rv a -> bytes_honest (fw_args fw) rv a ->
  bytes_outcome rv a = (code, out) -> answerable (fw_id fw) "ay" code out ->
  client_gets realloc (fw_perform fw realloc) (request_of fw)
    (reply_bytes (fw_id fw) code out) (bytes_result (fw_args fw) rv a).
Proof.
  intros Hc Hargs Hz Hcode Ho Hh Hout Hfit.
  destruct (bytes_call_known call fw Hc) as (Hid & row & Hrow & Hq & Hp). unfold request_of in *.
  rewrite (surjective_pairing (bytes_result _ _ _)).
  destruct call; try discriminate Hc; cbn [bytes_call] in Hc; call_of_table Hc;
    cbn [fw_id fw_parts fw_perform fw_ok fw_args] in *; call_gets Hok Hmem Hargs; repeat send_arg;
    (eapply ends_bytes; [eassumption..|by eapply proj2|eassumption|eassumption|eassumption|eassumption]).
Qed.
End Tables.
