(* ===== verification/RemoteResults.v ===== *)
(** Between gck-rpc-module.c and gck-rpc-dispatch.c, the calls whose results are neither
    a number nor bytes in the caller's space: structures, lists of numbers, attributes,
    two handles, random bytes; and [C_CloseAllSessions], which the daemon does itself.
    All the calls are here brought under one interface: what a call sends, what the
    daemon answers when the module has done it, and what the caller gets then. *)
From S2P Require Import Prelude EggBuffer Pkcs11 RpcUtil Calls Message DispatchProto Dispatch.
From S2P Require Import DispatchReads DispatchReplies Transport Client ClientProto ClientCalls.
From S2P Require Import ClientReads ClientMacros ClientExact ClientResults ClientProps Remote.

(** ** Arguments *)

(** Space for numbers from the module, or none. *)
Definition numbers_arg (arr : option (list Z)) (max : Z) : Prop :=
  0 <= max <= 268435400 /\ room arr max.
Definition numbers_wanted (arr : option (list Z)) (max : Z) : Z := if nonnull arr then max else 0.
Definition numbers_part (arr : option (list Z)) (max : Z) : part :=
  PUlongBuffer (numbers_wanted arr max).
Definition number_space (arr : option (list Z)) (max : Z) : option (list Z) :=
  (ulong_buffer_of (numbers_wanted arr max)).1.

(** Attributes of an object that the caller asks for. *)
Definition asked (template : list CK_ATTRIBUTE) (count : Z) : list CK_ATTRIBUTE :=
  take (Z.to_nat count) template.
Definition asked_part (template : list CK_ATTRIBUTE) (count : Z) : part :=
  PAttrBuffer (map attr_size (asked template count)).
Definition attribute_space (template : list CK_ATTRIBUTE) (count : Z) : option (list CK_ATTRIBUTE) :=
  Some (map attr_of_size (map attr_size (asked template count))).
Definition asked_ok (template : list CK_ATTRIBUTE) (count : Z) : Prop :=
  0 <= count <= zlen template /\ count * sizeof_CK_ATTRIBUTE <= 2147483647
  /\ Forall value_room (asked template count)
  /\ Forall (fun a => size_ok (attr_size a)) (asked template count).

(** ** Results *)

(** What the caller has in the end of a structure: it is filled in on success. *)
Definition struct_result {T} (v : option T) (rv : Z) (a : T) : Z * option T :=
  (rv, if rv =? CKR_OK then Some a else v).

(** A list of numbers: with [CKR_BUFFER_TOO_SMALL] their number goes into the response. *)
Definition ulongs_outcome (rv : Z) (a : option (list Z) * Z) : Z * list part :=
  if rv =? CKR_BUFFER_TOO_SMALL then (CKR_OK, [ulongs_part None a.2]) else (rv, [ulongs_part a.1 a.2]).
Definition ulongs_result (v : option (list Z) * option Z) (rv : Z) (a : option (list Z) * Z)
    : Z * (option (list Z) * option Z) :=
  if (rv =? CKR_BUFFER_TOO_SMALL) || (rv =? CKR_OK) then
    let p := if rv =? CKR_OK then take (Z.to_nat a.2) <$> a.1 else None in
    let '(ret, (arr, n)) := store_ulongs v.1 p a.2 in (ret, (arr, Some n))
  else (rv, v).
(** A module keeps to the space it was given, and its numbers have 64 bits. *)
Definition ulongs_honest (max rv : Z) (a : option (list Z) * Z) : Prop :=
  is_u32 a.2 /\ (rv = CKR_OK -> forall l, a.1 = Some l ->
    a.2 <= max /\ Forall (fun v => is_u64 v) (take (Z.to_nat a.2) l)).

(** Two handles. *)
Definition pair_out (rv : Z) (a : Z * Z) : Z * list part := (rv, [PUlong a.1; PUlong a.2]).
Definition pair_result (v : option Z * option Z) (rv : Z) (a : Z * Z) : Z * (option Z * option Z) :=
  (rv, if rv =? CKR_OK then (Some a.1, Some a.2) else v).

(** Random bytes in the caller's space, whose size the caller knows. *)
Definition random_result (v : option block) (n rv : Z) (a : option block * option Z)
    : Z * option block :=
  let '(ret, v) := bytes_result (v, Some n) rv a in (ret, v.1).

(** Attributes, which come with some errors too. *)
Definition attrs_outcome (n rv : Z) (l : option (list CK_ATTRIBUTE)) : Z * list part :=
  (if one_of rv attribute_errors then CKR_OK else rv, [attrs_part l n; PUlong rv]).
Definition attrs_result (template : list CK_ATTRIBUTE) (n rv : Z) (l : option (list CK_ATTRIBUTE))
    : Z * option (list CK_ATTRIBUTE) :=
  (rv, Some (if one_of rv attribute_errors then
               zip_with stored (asked template n)
                 (map snd (map attr_value (take (Z.to_nat n) (default [] l))))
               ++ drop (Z.to_nat n) template
             else template)).
(** A module fills in the attributes it was asked for. *)
Definition attrs_honest (template : list CK_ATTRIBUTE) (n rv : Z) (l : option (list CK_ATTRIBUTE)) : Prop :=
  one_of rv attribute_errors = true ->
    map attr_type (take (Z.to_nat n) (default [] l)) = map attr_type (asked template n)
    /\ Forall (fun a => value_ok (attr_value a)) (take (Z.to_nat n) (default [] l))
    /\ zlen (enc_part (attrs_part l n)) <= 2147483400.

(** ** The functions of the module *)

Section Functions.
Context {W : Type}.

(** What the function returns, changed. *)
Definition changed {A B} (g : A -> B) (f : mfun W A) : mfun W B := fun w =>
  let '((rv, a), w) := f w in ((rv, g a), w).

Definition appartment_info (info : CK_SESSION_INFO) : CK_SESSION_INFO :=
  mkSessionInfo (CK_GNOME_APPARTMENT_SLOT (ss_slotID info)) (ss_state info) (ss_flags info)
    (ss_ulDeviceError info).

(** The sessions of a slot in the table of the connection are closed one by one, up to
    the first that cannot be: [n] entries to go, from [i] on. *)
Fixpoint closing (close : Z -> mfun W unit) (slot : Z) (n i : nat) (ret : Z) (w : W)
    (l : list SessionState) : Z * (W * list SessionState) :=
  match n, l !! i with
  | S n, Some st =>
      if negb (session_id st =? 0) && (session_slot st =? slot) then
        let '((rv, _), w) := close (session_id st) w in
        let l := if one_of rv [CKR_OK; CKR_SESSION_CLOSED; CKR_SESSION_HANDLE_INVALID]
                 then alter (fun st => mkSessionState 0 (session_slot st)) i l else l in
        if rv =? CKR_OK then closing close slot n (S i) rv w l else (rv, (w, l))
      else closing close slot n (S i) ret w l
  | _, _ => (ret, (w, l))
  end.

(** [C_CloseAllSessions] of a connection: only its own sessions are closed. *)
Definition close_all_sessions (slot_info : Z -> mfun W CK_SLOT_INFO) (close : Z -> mfun W unit)
    (slot : Z) : mfun (W * list SessionState) unit := fun c =>
  let '((rv, _), w) := slot_info slot c.1 in
  if rv =? CKR_OK then
    let '(ret, c) := closing close slot PKCS11PROXY_MAX_SESSION_COUNT 0 rv w c.2 in ((ret, tt), c)
  else ((rv, tt), (w, c.2)).
End Functions.

(** ** The interface *)

(** A call that is forwarded: [fd_call] says what is sent, and which function of the
    module that stands for; [fd_sig] is the signature of the response.  When the function
    returns [rv] and leaves [a], the daemon answers with [fd_out], and the caller has
    [fd_back].  For that the module keeps to the standard, which is [fd_std], and is fair
    to the proxy. *)
Record Forwarded (W : Type) := mkForwarded {
  fd_R : Type;
  fd_A : Type;
  fd_call : Forward W fd_R fd_A;
  fd_sig : string;
  fd_out : Z -> fd_A -> Z * list part;
  fd_back : Z -> fd_A -> Z * fd_R;
  fd_std : Z -> fd_A -> Prop;
  fd_fair : Z -> fd_A -> Prop;
}.
Arguments mkForwarded {W R A} _ _ _ _ _ _ : rename.
Arguments fd_R {W} _.
Arguments fd_A {W} _.
Arguments fd_call {W} _.
Arguments fd_sig {W} _.
Arguments fd_out {W} _ _ _.
Arguments fd_back {W} _ _ _.
Arguments fd_std {W} _ _ _.
Arguments fd_fair {W} _ _ _.

Section Kinds.
Context {W : Type}.

Definition of_plain (fw : Forward W unit unit) : Forwarded W :=
  mkForwarded fw "" plain_out (fun rv a => (rv, a)) (fun _ _ => True) (fun _ _ => True).
Definition of_handle (fw : Forward W (option Z) Z) : Forwarded W :=
  mkForwarded fw "u" handle_out (handle_result (fw_args fw)) (fun _ _ => True) (fun _ h => is_u64 h).
Definition of_bytes (fw : Forward W (option block * option Z) (option block * option Z))
    : Forwarded W :=
  mkForwarded fw "ay" bytes_outcome (bytes_result (fw_args fw)) DispatchProto.bytes_out
    (bytes_honest (fw_args fw)).
(** A structure that is sent as [parts]. *)
Definition of_struct {T} (sg : string) (parts : T -> list part) (ok : T -> Prop) (fw : Forward W (option T) T)
    : Forwarded W :=
  mkForwarded fw sg (fun rv a => (rv, parts a)) (struct_result (fw_args fw))
    (fun rv a => rv = CKR_OK -> ok a) (fun rv a => rv = CKR_OK -> Forall word_ok (parts a)).
Definition of_ulongs (max : Z) (fw : Forward W (option (list Z) * option Z) (option (list Z) * Z))
    : Forwarded W :=
  mkForwarded fw "au" ulongs_outcome (ulongs_result (fw_args fw)) ulongs_out
    (ulongs_honest max).
Definition of_mechanisms (max : Z)
    (fw : Forward W (option (list Z) * option Z) (option (list Z) * Z)) : Forwarded W :=
  mkForwarded fw "au" ulongs_outcome (fun rv a => purged (ulongs_result (fw_args fw) rv a))
    ulongs_out (ulongs_honest max).
Definition of_pair (fw : Forward W (option Z * option Z) (Z * Z)) : Forwarded W :=
  mkForwarded fw "uu" pair_out (pair_result (fw_args fw)) (fun _ _ => True)
    (fun _ a => is_u64 a.1 /\ is_u64 a.2).
Definition of_random (n : Z) (fw : Forward W (option block) (option block * option Z))
    : Forwarded W :=
  mkForwarded fw "ay" bytes_outcome (random_result (fw_args fw) n)
    DispatchProto.bytes_out (bytes_honest (fw_args fw, Some n)).
Definition of_attrs (template : list CK_ATTRIBUTE) (n : Z)
    (fw : Forward W (option (list CK_ATTRIBUTE)) (option (list CK_ATTRIBUTE))) : Forwarded W :=
  mkForwarded fw "aAu" (attrs_outcome n) (attrs_result template n) (attrs_out n)
    (attrs_honest template n).

(** ** The other calls *)

Definition result_call (garbage : Z) (c : Api.ApiCall) : option (Forwarded W) :=
  match c with
  | Api.C_CloseAllSessions id => Some (of_plain {|
      fw_id := GCK_RPC_CALL_C_CloseAllSessions;
      fw_parts := [PUlong id];
      fw_ok := is_u64 id;
      fw_args := tt;
      fw_perform := fun al => rpc_C_CloseAllSessions al id;
      fw_local := fun M =>
        match Pkcs11.C_CloseAllSessions M, Pkcs11.C_GetSlotInfo M, Pkcs11.C_CloseSession M with
        | Some _, Some f, Some g => Some (close_all_sessions f g id)
        | _, _, _ => None
        end |})
  | Api.C_GetInfo (Some info) => Some (of_struct "vsusv" info_parts info_ok {|
      fw_id := GCK_RPC_CALL_C_GetInfo;
      fw_parts := [];
      fw_ok := True;
      fw_args := Some info;
      fw_perform := fun al => rpc_C_GetInfo al (Some info);
      fw_local := fun M => on_module <$> Pkcs11.C_GetInfo M |})
  | Api.C_GetSlotInfo id (Some info) => Some (of_struct "ssuvv" slot_info_parts slot_info_ok {|
      fw_id := GCK_RPC_CALL_C_GetSlotInfo;
      fw_parts := [PUlong id];
      fw_ok := is_u64 id;
      fw_args := Some info;
      fw_perform := fun al => rpc_C_GetSlotInfo al id (Some info);
      fw_local := fun M => (fun f => on_module (f id)) <$> Pkcs11.C_GetSlotInfo M |})
  | Api.C_GetTokenInfo id (Some info) => Some (of_struct "ssssuuuuuuuuuuuvvs" token_info_parts token_info_ok {|
      fw_id := GCK_RPC_CALL_C_GetTokenInfo;
      fw_parts := [PUlong id];
      fw_ok := is_u64 id;
      fw_args := Some info;
      fw_perform := fun al => rpc_C_GetTokenInfo al id (Some info);
      fw_local := fun M => (fun f => on_module (f id)) <$> Pkcs11.C_GetTokenInfo M |})
  | Api.C_GetMechanismInfo id type (Some info) => Some (of_struct "uuu" mechanism_info_parts (fun _ => True) {|
      fw_id := GCK_RPC_CALL_C_GetMechanismInfo;
      fw_parts := [PUlong id; PUlong type];
      fw_ok := is_u64 id /\ is_u64 type /\ gck_rpc_mechanism_is_supported type = true;
      fw_args := Some info;
      fw_perform := fun al => rpc_C_GetMechanismInfo al id type (Some info);
      fw_local := fun M => (fun f => on_module (f id type)) <$> Pkcs11.C_GetMechanismInfo M |})
  | Api.C_GetSessionInfo session (Some info) => Some (of_struct "uuuu" session_info_parts (fun _ => True) {|
      fw_id := GCK_RPC_CALL_C_GetSessionInfo;
      fw_parts := [PUlong session];
      fw_ok := is_u64 session;
      fw_args := Some info;
      fw_perform := fun al => rpc_C_GetSessionInfo al session (Some info);
      fw_local := fun M => (fun f => on_module (changed appartment_info (f session))) <$>
        Pkcs11.C_GetSessionInfo M |})
  | Api.C_GetSlotList token_present slot_list (Some count) => Some (of_ulongs count {|
      fw_id := GCK_RPC_CALL_C_GetSlotList;
      fw_parts := [PByte token_present; numbers_part slot_list count];
      fw_ok := is_u8 token_present /\ numbers_arg slot_list count;
      fw_args := (slot_list, Some count);
      fw_perform := fun al => rpc_C_GetSlotList al garbage token_present slot_list (Some count);
      fw_local := fun M =>
        (fun f => on_module (f token_present (number_space slot_list count)
          (numbers_wanted slot_list count))) <$> Pkcs11.C_GetSlotList M |})
  | Api.C_GetMechanismList id mechanism_list (Some count) => Some (of_mechanisms count {|
      fw_id := GCK_RPC_CALL_C_GetMechanismList;
      fw_parts := [PUlong id; numbers_part mechanism_list count];
      fw_ok := is_u64 id /\ numbers_arg mechanism_list count
        /\ forall l, mechanism_list = Some l -> count < zlen l;
      fw_args := (mechanism_list, Some count);
      fw_perform := fun al => rpc_C_GetMechanismList al garbage id mechanism_list (Some count);
      fw_local := fun M =>
        (fun f => on_module (f id (number_space mechanism_list count)
          (numbers_wanted mechanism_list count))) <$> Pkcs11.C_GetMechanismList M |})
  | Api.C_FindObjects session objects max_count (Some count) => Some (of_ulongs max_count {|
      fw_id := GCK_RPC_CALL_C_FindObjects;
      fw_parts := [PUlong session; numbers_part objects max_count];
      fw_ok := is_u64 session /\ numbers_arg objects max_count;
      fw_args := (objects, Some count);
      fw_perform := fun al => rpc_C_FindObjects al garbage session objects max_count (Some count);
      fw_local := fun M =>
        (fun f => on_module (f session (number_space objects max_count)
          (numbers_wanted objects max_count))) <$> Pkcs11.C_FindObjects M |})
  | Api.C_GetAttributeValue session object (Some template) count => Some (of_attrs template count {|
      fw_id := GCK_RPC_CALL_C_GetAttributeValue;
      fw_parts := [PUlong session; PUlong object; asked_part template count];
      fw_ok := is_u64 session /\ is_u64 object /\ asked_ok template count;
      fw_args := Some template;
      fw_perform := fun al => rpc_C_GetAttributeValue al garbage session object (Some template) count;
      fw_local := fun M =>
        (fun f => on_module (f session object (attribute_space template count) count)) <$>
        Pkcs11.C_GetAttributeValue M |})
  | Api.C_GenerateKeyPair session (Some mechanism) (Some pub_template) pub_count
      (Some priv_template) priv_count (Some pub_key) (Some priv_key) => Some (of_pair {|
      fw_id := GCK_RPC_CALL_C_GenerateKeyPair;
      fw_parts := [PUlong session; mechanism_part mechanism;
        template_part (Some pub_template) pub_count; template_part (Some priv_template) priv_count];
      fw_ok := negb (session =? CK_INVALID_HANDLE) = true /\ is_u64 session /\ mechanism_ok mechanism
        /\ template_arg (Some pub_template) pub_count /\ template_arg (Some priv_template) priv_count;
      fw_args := (Some pub_key, Some priv_key);
      fw_perform := fun al => rpc_C_GenerateKeyPair al session (Some mechanism) (Some pub_template)
        pub_count (Some priv_template) priv_count (Some pub_key) (Some priv_key);
      fw_local := fun M =>
        (fun f => on_module (f session (dispatched mechanism)
          (template_got (template_sent (Some pub_template) pub_count))
          (zlen (template_sent (Some pub_template) pub_count))
          (template_got (template_sent (Some priv_template) priv_count))
          (zlen (template_sent (Some priv_template) priv_count)))) <$> Pkcs11.C_GenerateKeyPair M |})
  | Api.C_GenerateRandom session (Some random_data) random_len => Some (of_random random_len {|
      fw_id := GCK_RPC_CALL_C_GenerateRandom;
      fw_parts := [PUlong session; buffer_part (Some random_data) random_len];
      fw_ok := is_u64 session /\ buffer_arg (Some random_data) random_len;
      fw_args := Some random_data;
      fw_perform := fun al => rpc_C_GenerateRandom al session (Some random_data) random_len;
      fw_local := fun M =>
        (fun f => on_module (changed (fun d => (d, Some random_len))
          (f session (space (Some random_data) random_len) random_len))) <$>
        Pkcs11.C_GenerateRandom M |})
  | _ => None
  end.

(** Every call that is forwarded to the module. *)
Definition forwarded (garbage : Z) (c : Api.ApiCall) : option (Forwarded W) :=
  match plain_call c with Some fw => Some (of_plain fw) | None =>
  match handle_call c with Some fw => Some (of_handle fw) | None =>
  match bytes_call c with Some fw => Some (of_bytes fw) | None =>
  result_call garbage c
  end end end.

Lemma result_call_known garbage c fd :
  result_call garbage c = Some fd -> known_call (fd_call fd) (fd_sig fd).
Proof. intros Hc. destruct c; try discriminate Hc; cbn [result_call] in Hc; prove_known Hc. Qed.
End Kinds.
