(* ===== verification/ResultsServer.v ===== *)
(** The daemon's side of the calls of RemoteResults.v: what their handlers in
    gck-rpc-dispatch.c answer, given a request with the parts the table says. *)
From S2P Require Import Prelude EggBuffer Pkcs11 RpcUtil Calls Message DispatchProto Dispatch.
From S2P Require Import DispatchReads DispatchReplies Client ClientExact ClientResults Remote RemoteServer RemoteResults.
From S2P Require Import DispatchProto Dispatch.

Section Server.
Context {W : Type} (M : CK_FUNCTION_LIST W) (malloc_ok : list Z -> Z -> bool) (shutdown_ok : Z -> bool).
Context (Hmalloc : forall l n, malloc_ok l n = true).
Context (id : Z).

(** ** The arguments *)

Lemma numbers_reads arr max :
  numbers_arg arr max ->
  reads_arg (W := W) id (numbers_part arr max) (IN_ULONG_BUFFER malloc_ok)
    (number_space arr max, numbers_wanted arr max).
Proof.
  change (number_space arr max, numbers_wanted arr max) with (ulong_buffer_of (numbers_wanted arr max)).
  intros [Hmax _] E sg ps out r s Hs Hr.
  assert (0 <= numbers_wanted arr max <= 268435400) as Hw by (unfold numbers_wanted; destruct arr; cbn; lia).
  eapply IN_ULONG_BUFFER_got; [done|lia|unfold sizeof_CK_ULONG; lia|exact Hs
    |apply (sigs_next (numbers_part arr max))|exact Hr].
Qed.

Lemma zlen_asked template n : 0 <= n <= zlen template -> zlen (asked template n) = n.
Proof. intros Hn. unfold asked. rewrite zlen_take; lia. Qed.

Lemma asked_reads template n :
  asked_ok template n ->
  reads_arg (W := W) id (asked_part template n) (IN_ATTRIBUTE_BUFFER malloc_ok)
    (attribute_space template n, n).
Proof.
  intros (Hn & Hs24 & _ & Hsize) E sg ps out r s Hs Hr.
  assert (zlen (map attr_size (asked template n)) = n) as Hz
    by (unfold zlen; rewrite length_map; by apply zlen_asked).
  assert ((attribute_space template n, n)
    = (Some (map attr_of_size (map attr_size (asked template n))), zlen (map attr_size (asked template n)))) as ->
    by (by rewrite Hz).
  eapply IN_ATTRIBUTE_BUFFER_got; [done|by rewrite Hz|by apply Forall_map|exact Hs
    |apply (sigs_next (asked_part template n))|exact Hr].
Qed.

(** ** The ends of the handlers *)

(** A handler that calls a function of the module, and then writes what it left. *)
Lemma process_results {A} (f : mfun W A) (k : Z * A -> Call (Proc W) Z) out E sg s0 s code ps c' :
  asking id s0 sg [] s -> effect_of (on_module f) out (core s0) = ((code, ps), c') ->
  (forall rv a s1, (f (p_module s0)).1 = (rv, a) -> out rv a = (code, ps) ->
     same_call (set_core c' s0) s1 -> serving id sg EmptyString [] sg s1 ->
     safe E (k (rv, a)) (replied_with id sg (set_core c' s0) code ps) s1) ->
  safe E (PROCESS_CALL f ≫= k) (replied_with id sg (set_core c' s0) code ps) s.
Proof.
  intros Ha He Hk. unfold effect_of, on_module in He. cbn [core fst] in He.
  destruct (f (p_module s0)) as [[rv a] w] eqn:Hf. injection He as Hout <-.
  eapply PROCESS_CALL_then; [exact Ha|exact Hf|]. intros s1 Hs1%same_call_core Hsv.
  by apply Hk.
Qed.

(** A structure. *)
Lemma process_struct {A} (f : mfun W A) (parts : A -> list part) (k : A -> ST GckRpcMessage bool)
    E sg s0 s code ps c' :
  (forall w, (f w).1.1 = CKR_OK -> sends_parts (parts (f w).1.2) (k (f w).1.2)) ->
  asking id s0 sg [] s -> gives_room (resp s0) ->
  effect_of (on_module f) (fun rv a => (rv, parts a)) (core s0) = ((code, ps), c') ->
  answerable id sg code ps ->
  safe E ('(_ret, a) ← PROCESS_CALL f; _ret ← out_if_ok (prepared_or CKR_OK (k a)) _ret; mret _ret)
    (replied_with id sg (set_core c' s0) code ps) s.
Proof.
  intros Hk Ha Hg He Hfit. eapply process_results; [exact Ha|exact He|].
  intros rv a s1 Hf [= -> <-] Hu Hs. specialize (Hk (p_module s0)). rewrite Hf in Hk.
  by apply end_written.
Qed.

(** Two handles, one after the other. *)
Lemma process_pair (f : mfun W (Z * Z)) E sg s0 s code ps c' :
  asking id s0 sg [] s -> gives_room (resp s0) ->
  effect_of (on_module f) pair_out (core s0) = ((code, ps), c') -> answerable id sg code ps ->
  safe E ('(_ret, (a, b)) ← PROCESS_CALL f; _ret ← OUT_ULONG a _ret; _ret ← OUT_ULONG b _ret; mret _ret)
    (replied_with id sg (set_core c' s0) code ps) s.
Proof.
  intros Ha Hg He Hfit. eapply process_results; [exact Ha|exact He|].
  intros rv [a b] s1 Hf [= -> <-] Hu Hs. destruct (Z.eqb_spec code CKR_OK) as [->|Hne].
  - destruct (Hfit eq_refl) as [<- Hf2]. apply safe_bind. unfold OUT_ULONG at 1. cbn [Z.eqb CKR_OK].
    apply safe_call. eapply wp_mono.
    { eapply (prepared_or_exact id CKR_OK _ [PUlong a] _ _ [] _ "u" (set_core c' s0));
        [apply sends_parts_one, write_ulong_sends|exact Hs|done|exact Hu|exact Hg|].
      unfold fits in *. cbn [fst snd app] in *. pose proof (enc_parts_app [PUlong a] [PUlong b]) as Happ.
      cbn [app] in Happ. rewrite Happ, (assoc_L app), zlen_app in Hf2. pose proof (zlen_nonneg (enc_parts [PUlong b])). lia. }
    intros ret s2 (-> & Hu2 & Hs2). apply safe_bind. unfold OUT_ULONG. cbn [Z.eqb CKR_OK].
    apply safe_call. eapply wp_mono.
    { by eapply (prepared_or_exact id CKR_OK _ [PUlong b] _ _ [PUlong a] _ EmptyString (set_core c' s0));
        [apply sends_parts_one, write_ulong_sends|exact Hs2|..]. }
    intros ret s3 (-> & Hu3 & Hs3). apply safe_ret. split; [done..|apply Hs3|done].
  - apply safe_bind. unfold OUT_ULONG at 1. rewrite (proj2 (Z.eqb_neq _ _)) by done. apply safe_ret.
    apply safe_bind. unfold OUT_ULONG. rewrite (proj2 (Z.eqb_neq _ _)) by done. apply safe_ret, safe_ret.
    by apply end_error.
Qed.

(** A list of numbers. *)
Lemma process_ulongs (f : mfun W (option (list Z) * Z)) E sg s0 s code ps c' :
  (forall w, ulongs_out (f w).1.1 (f w).1.2) ->
  asking id s0 sg [] s -> gives_room (resp s0) ->
  effect_of (on_module f) ulongs_outcome (core s0) = ((code, ps), c') -> answerable id sg code ps ->
  safe E ('(_ret, (a, n)) ← PROCESS_CALL f; _ret ← OUT_ULONG_ARRAY a n _ret; mret _ret)
    (replied_with id sg (set_core c' s0) code ps) s.
Proof.
  intros Ho Ha Hg He Hfit. eapply process_results; [exact Ha|exact He|].
  intros rv [a n] s1 Hf Hout Hu Hs. specialize (Ho (p_module s0)). rewrite Hf in Ho.
  destruct Ho as [Hn Ho]. cbn [fst snd] in Hn, Ho. apply safe_bind, safe_call.
  unfold proto_write_ulong_array. unfold ulongs_outcome in Hout. cbn [fst snd] in Hout.
  destruct (rv =? CKR_BUFFER_TOO_SMALL).
  - injection Hout as <- <-. eapply wp_mono; [by eapply end_prepared;
      [apply sends_parts_one; by apply (write_ulong_array_sends None)|..]|].
    intros ret s2 H. by apply safe_ret.
  - injection Hout as <- <-. destruct (Z.eqb_spec rv CKR_OK) as [->|Hne].
    + eapply wp_mono; [by eapply end_prepared;
        [apply sends_parts_one, write_ulong_array_sends; [done|by apply Ho]|..]|].
      intros ret s2 H. by apply safe_ret.
    + apply wp_ret, safe_ret. by apply end_error.
Qed.

(** Attributes. *)
Lemma process_attrs (f : mfun W (option (list CK_ATTRIBUTE))) n E sg s0 s code ps c' :
  (forall w, attrs_out n (f w).1.1 (f w).1.2) -> 0 <= n ->
  asking id s0 sg [] s -> gives_room (resp s0) ->
  effect_of (on_module f) (attrs_outcome n) (core s0) = ((code, ps), c') -> answerable id sg code ps ->
  safe E ('(_ret, l) ← PROCESS_CALL f; _ret ← OUT_ATTRIBUTE_ARRAY l n _ret; mret _ret)
    (replied_with id sg (set_core c' s0) code ps) s.
Proof.
  intros Ho Hn Ha Hg He Hfit. eapply process_results; [exact Ha|exact He|].
  intros rv l s1 Hf Hout Hu Hs. unfold attrs_outcome in Hout. specialize (Ho (p_module s0)). rewrite Hf in Ho. unfold attrs_out in Ho.
  cbn [fst snd] in Ho. apply safe_bind, safe_call. unfold proto_write_attribute_array. fold attribute_errors.
  destruct (one_of rv attribute_errors) eqn:Eo.
  - injection Hout as <- <-. destruct (Ho eq_refl) as [Hz Hl]. eapply wp_mono.
    { eapply end_prepared; [|exact Hu|exact Hs|exact Hg|exact Hfit]. apply sends_parts_all.
      constructor; [by apply write_attribute_array_sends|]. constructor; [apply write_ulong_sends|constructor]. }
    intros ret s2 H. by apply safe_ret.
  - injection Hout as <- <-. apply wp_ret, safe_ret. apply end_error; [|done..]. by intros ->.
Qed.

(** Random bytes. *)
Lemma process_random (f : mfun W (option block)) n E sg s0 s code ps c' :
  (forall w, bytes_out (f w).1.1 ((f w).1.2, Some n)) ->
  asking id s0 sg [] s -> gives_room (resp s0) ->
  effect_of (on_module (changed (fun d => (d, Some n)) f)) bytes_outcome (core s0) = ((code, ps), c') ->
  answerable id sg code ps ->
  safe E ('(_ret, d) ← PROCESS_CALL f; _ret ← OUT_BYTE_ARRAY d (Some n) _ret; mret _ret)
    (replied_with id sg (set_core c' s0) code ps) s.
Proof.
  intros Ho Ha Hg He Hfit.
  assert (effect_of (on_module f) (fun rv d => bytes_outcome rv (d, Some n)) (core s0) = ((code, ps), c')) as He2.
  { unfold effect_of, on_module, changed in *. by destruct (f (core s0).1) as [[rv d] w]. }
  eapply process_results; [exact Ha|exact He2|].
  intros rv d s1 Hf Hout Hu Hs. specialize (Ho (p_module s0)). rewrite Hf in Ho. by eapply end_bytes.
Qed.

(** The slot of a session is that of the token's apartment. *)
Lemma process_session_info (f : mfun W CK_SESSION_INFO) E sg s0 s code ps c' :
  asking id s0 sg [] s -> gives_room (resp s0) ->
  effect_of (on_module (changed appartment_info f)) (fun rv a => (rv, session_info_parts a)) (core s0)
    = ((code, ps), c') ->
  answerable id sg code ps ->
  safe E ('(_ret, info) ← PROCESS_CALL f;
    let info := mkSessionInfo (CK_GNOME_APPARTMENT_SLOT (ss_slotID info)) (ss_state info)
                  (ss_flags info) (ss_ulDeviceError info) in
    _ret ← OUT_SESSION_INFO info _ret; mret _ret)
    (replied_with id sg (set_core c' s0) code ps) s.
Proof.
  intros Ha Hg He Hfit.
  assert (effect_of (on_module f) (fun rv a => (rv, session_info_parts (appartment_info a))) (core s0)
    = ((code, ps), c')) as He2.
  { unfold effect_of, on_module, changed in *. by destruct (f (core s0).1) as [[rv d] w]. }
  eapply process_results; [exact Ha|exact He2|]. intros rv a s1 _ [= -> <-] Hu Hs.
  apply end_written; try done. intros _. prove_sends.
Qed.
(** ** [C_CloseAllSessions] *)

Lemma set_core_self (s : Proc W) : set_core (core s) s = s.
Proof. by destruct s as [[] ? ?]. Qed.

Lemma closing_length (close : Z -> mfun W unit) slot n i ret w l r :
  closing close slot n i ret w l = r -> length r.2.2 = length l.
Proof.
  intros <-. revert i ret w l. induction n as [|n IH]; intros i ret w l; cbn [closing]; [done|].
  destruct (l !! i) as [st|]; [|done]. destruct (_ && _); [|apply IH].
  destruct (close _ w) as [[rv []] w1]. destruct (one_of _ _), (rv =? CKR_OK); cbn [fst snd];
    by rewrite ?IH, ?length_alter.
Qed.

Lemma set_core_twice c1 c2 (s : Proc W) : set_core c2 (set_core c1 s) = set_core c2 s.
Proof. done. Qed.

Lemma close_sessions_exact g slot n i ret s r (Q : Z -> Proc W -> Prop) :
  C_CloseSession M = Some g -> (i + n <= length (sessions s))%nat ->
  closing g slot n i ret (p_module s) (sessions s) = r -> Q r.1 (set_core r.2 s) ->
  safe Q (close_sessions M slot n i ret) Q s.
Proof.
  intros Hg. revert i ret s. induction n as [|n IH]; intros i ret s Hlen Hr HQ.
  { subst r. apply safe_ret. cbn [closing fst snd] in HQ.
    change (p_module s, sessions s) with (core s) in HQ. by rewrite set_core_self in HQ. }
  cbn [close_sessions closing] in *. destruct (lookup_lt_is_Some_2 (sessions s) i) as [st Hst]; [lia|].
  rewrite Hst in Hr. apply safe_bind, safe_call. eapply wp_intro; [unfold session_at; by rewrite Hst|].
  destruct (_ && _); [|by apply IH; [lia|..]].
  apply safe_bind, safe_call. eapply wp_lift_res; [by rewrite Hg|]. apply safe_bind, safe_call.
  destruct (g (session_id st) (p_module s)) as [[rv []] w] eqn:Eg.
  eapply wp_intro; [unfold run_module; by rewrite Eg|]. apply safe_bind.
  set (l := if one_of _ _ then _ else _) in Hr.
  assert (safe Q (if one_of rv [CKR_OK; CKR_SESSION_CLOSED; CKR_SESSION_HANDLE_INVALID]
      then call (clear_session i) else mret tt) (fun _ s' => s' = set_core (w, l) s) (set_module w s)) as Hclear.
  { subst l. destruct (one_of _ _).
    - by apply safe_call, wp_modify.
    - apply safe_ret. by destruct s as [[] ? ?]. }
  eapply safe_mono; [exact Hclear|]. intros _ s1 ->. destruct (rv =? CKR_OK); cbn [negb].
  - apply IH; [|exact Hr|by rewrite set_core_twice].
    assert (length l = length (sessions s)) as Hl by (subst l; destruct (one_of _ _); by rewrite ?length_alter).
    cbn. lia.
  - by subst r.
Qed.

Lemma same_call_set_core c (s0 s : Proc W) : same_call s0 s -> same_call (set_core c s0) (set_core c s).
Proof. intros [(? & ? & ? & ? & ? & ? & ?) ?]. by repeat split. Qed.

Lemma process_close_all f g slot sg s0 s code ps c' :
  C_GetSlotInfo M = Some f -> C_CloseSession M = Some g ->
  asking id s0 sg [] s ->
  effect_of (close_all_sessions f g slot) plain_out (core s0) = ((code, ps), c') ->
  answerable id sg code ps ->
  safe (replied_with id sg (set_core c' s0) code ps)
    (f ← call (lift_res (deref (C_GetSlotInfo M)));
     '(_ret, _) ← call (run_module (f slot));
     if negb (_ret =? CKR_OK) then exit _ret else
     close_sessions M slot PKCS11PROXY_MAX_SESSION_COUNT 0 _ret)
    (replied_with id sg (set_core c' s0) code ps) s.
Proof.
  intros Hf Hg [Hu Hs _] He Hfit. unfold effect_of, close_all_sessions in He. cbn [core fst snd] in He.
  pose proof Hu as [(Hm & Hss & _) _].
  apply safe_bind, safe_call. eapply wp_lift_res; [by rewrite Hf|]. apply safe_bind, safe_call.
  destruct (f slot (p_module s0)) as [[rv info] w] eqn:Ef.
  eapply wp_intro; [unfold run_module; rewrite Hm, Ef; reflexivity|].
  assert (forall r, length r.2.2 = length (sessions s0) -> ((r.1, []), r.2) = ((code, ps), c') ->
    replied_with id sg (set_core c' s0) code ps r.1 (set_core r.2 (set_module w s))) as Hend.
  { intros [ret c] Hlen [= <- <- <-]. change (set_core (ret, c).2 (set_module w s)) with (set_core c s).
    cbn [fst snd] in *.
    apply end_plain; [by apply same_call_set_core| |done].
    assert (length c.2 = length (sessions s)) as Hl by congruence.
    destruct (serving_sessions id c.2 _ _ _ _ s Hl Hs) as [[] ? ? ? ? ? ? ? ? ?]. by split. }
  pose proof (ba_sessions _ _ (sv_base _ _ _ _ _ _ Hs)) as Hn.
  set (n := PKCS11PROXY_MAX_SESSION_COUNT) in *. clearbody n.
  cbn beta iota. destruct (rv =? CKR_OK) eqn:Erv; cbn [negb].
  - destruct (closing g slot _ 0 rv w (sessions s0)) as [ret c] eqn:Ec.
    apply (close_sessions_exact g slot n 0 rv _ (ret, c)); [exact Hg| | |].
    + change (sessions (set_module w s)) with (sessions s). rewrite Hn. apply Nat.le_refl.
    + change (sessions (set_module w s)) with (sessions s). by rewrite Hss.
    + apply Hend; [by rewrite (closing_length _ _ _ _ _ _ _ _ Ec)|done].
  - cbn [safe wp exit]. assert (set_core (w, sessions s) (set_module w s) = set_module w s) as <- by by destruct s as [[] ? ?].
    apply (Hend (rv, (w, sessions s))); [by cbn; rewrite Hss|]. cbn. by rewrite Hss.
Qed.
End Server.

#[export] Hint Resolve numbers_reads asked_reads : server_args.
#[export] Hint Extern 1 (reads_arg _ (PByte _) _ _) => apply IN_BYTE_reads : server_args.

Section Tables.
Context {W : Type} (M : CK_FUNCTION_LIST W) (malloc_ok : list Z -> Z -> bool) (shutdown_ok : Z -> bool).
Context (Hmalloc : forall l n, malloc_ok l n = true) (HM : module_ok M).

(** What the module is given is as the standard says. *)
Lemma number_space_val arr max :
  numbers_arg arr max -> ulong_buffer_val (number_space arr max, numbers_wanted arr max).
Proof.
  intros [Hmax _]. unfold number_space, ulong_buffer_of.
  assert (0 <= numbers_wanted arr max <= 268435400) as Hw by (unfold numbers_wanted; destruct arr; cbn; lia).
  split; cbn [fst snd]; [lia|]. destruct (_ =? 0); intros l [= <-]. rewrite zlen_replicate. lia.
Qed.

Lemma attr_of_size_val a : size_ok a -> attr_val (attr_of_size a).
Proof.
  intros [Ht Hn]. unfold attr_of_size. destruct (_ =? 0); (split; [done|]); intros bs [= <-].
  cbn [pValue ulValueLen]. split; [by apply bytes_replicate|]. rewrite zlen_replicate. lia.
Qed.

Lemma attribute_space_val template n : asked_ok template n -> attrs_val (attribute_space template n, n).
Proof.
  intros (Hn & _ & _ & Hsize). unfold attribute_space. split; cbn [fst snd default].
  - unfold zlen. cbn [default id]. rewrite !length_map. symmetry. by apply zlen_asked.
  - cbn [default id]. apply Forall_map, Forall_map. eapply Forall_impl; [exact Hsize|].
    intros a. apply attr_of_size_val.
Qed.

Lemma result_call_answers garbage call fd f :
  result_call garbage call = Some fd -> fw_ok (fd_call fd) -> fw_local (fd_call fd) M = Some f ->
  answers (fw_id (fd_call fd)) (call_handler M malloc_ok shutdown_ok (fw_id (fd_call fd)))
    (fw_parts (fd_call fd)) (effect_of f (fd_out fd)).
Proof.
  intros Hc Hok Hf. destruct call; try discriminate Hc; cbn [result_call] in Hc; call_of_table Hc;
    cbn [fd_call fd_out of_plain of_struct of_ulongs of_mechanisms of_pair of_random of_attrs] in *.
  7: { cbn [fw_local fw_id fw_parts fw_ok] in *. destruct (C_CloseAllSessions M) as [h|] eqn:Eh; [|discriminate Hf].
    destruct (C_GetSlotInfo M) as [i|] eqn:Ei; [|discriminate Hf].
    destruct (C_CloseSession M) as [g|] eqn:Eg; [|discriminate Hf]. injection Hf as <-.
    eapply handler_answers; [reflexivity|exact Eh|intros ? ? ? ? ? ? ? ? ?]. serve_arg.
    eapply process_close_all; [exact Ei|exact Eg|eassumption..]. }
  all: handler_of_table Hf; repeat serve_arg; cbn beta.
  all: first
    [ solve [eapply process_session_info; eassumption]
    | solve [eapply process_pair; eassumption]
    | solve [eapply process_attrs; [|lazymatch goal with H : asked_ok _ _ |- _ => apply H end|eassumption..];
        intros w; eapply mo_C_GetAttributeValue; [done|done|by apply attribute_space_val]]
    | solve [eapply process_random; [|eassumption..]; intros w; eapply mo_C_GenerateRandom;
        [done|done|by apply space_val]]
    | solve [eapply process_ulongs; [|eassumption..]; intros w;
        first [eapply mo_C_GetSlotList; [done|done|by apply number_space_val]
              |eapply mo_id_list; [done| |eassumption|by apply number_space_val]; simpl; auto]]
    | unfold OUT_INFO, OUT_SLOT_INFO, OUT_TOKEN_INFO, OUT_MECHANISM_INFO, proto_write_info,
        proto_write_slot_info, proto_write_token_info, proto_write_mechanism_info ].
  all: eapply process_struct; [|eassumption..]; intros w Hrv.
  - destruct (mo_info _ HM g w Eg Hrv). prove_sends.
  - destruct (mo_slot_info _ HM g id w Eg Hrv). prove_sends.
  - destruct (mo_token_info _ HM g id w Eg Hrv). prove_sends.
  - prove_sends.
Qed.

(** The functions keep the promise of the standard. *)
Lemma result_call_std garbage call fd f :
  result_call garbage call = Some fd -> fw_ok (fd_call fd) -> fw_local (fd_call fd) M = Some f ->
  forall c, fd_std fd (f c).1.1 (f c).1.2.
Proof.
  intros Hc Hok Hf. destruct call; try discriminate Hc; cbn [result_call] in Hc; call_of_table Hc;
    cbn [fd_call fd_std of_plain of_struct of_ulongs of_mechanisms of_pair of_random of_attrs fw_local fw_ok] in *;
    try done; local_of_table Hf Eg; repeat match goal with H : _ /\ _ |- _ => destruct H end;
    intros [w ?]; unfold on_module; cbn [fst].
  - pose proof (mo_info _ HM g w Eg) as Hr. by destruct (g w) as [[? ?] ?].
  - pose proof (mo_C_GetSlotList _ HM g token_present _ _ w Eg (number_space_val slot_list z ltac:(done))) as Hr.
    by destruct (g _ _ _ w) as [[? ?] ?].
  - pose proof (mo_slot_info _ HM g id w Eg) as Hr. by destruct (g id w) as [[? ?] ?].
  - pose proof (mo_token_info _ HM g id w Eg) as Hr. by destruct (g id w) as [[? ?] ?].
  - pose proof (mo_id_list _ HM (C_GetMechanismList M) g id _ _ w (or_introl eq_refl) Eg (number_space_val mechanism_list z ltac:(done))) as Hr.
    by destruct (g _ _ _ w) as [[? ?] ?].
  - pose proof (mo_C_GetAttributeValue _ HM g session object _ _ w Eg (attribute_space_val l count ltac:(done))) as Hr.
    by destruct (g _ _ _ _ w) as [[? ?] ?].
  - pose proof (mo_id_list _ HM (C_FindObjects M) g session _ _ w (or_intror (or_introl eq_refl)) Eg (number_space_val objects max_count ltac:(done))) as Hr.
    by destruct (g _ _ _ w) as [[? ?] ?].
  - pose proof (mo_C_GenerateRandom _ HM g session _ random_len w Eg (space_val (Some l) random_len ltac:(done))) as Hr.
    unfold changed. by destruct (g session _ _ w) as [[? ?] ?].
Qed.
End Tables.
