(* ===== verification/ResultsClient.v ===== *)
(** The client's side of the calls of RemoteResults.v: what the functions of
    gck-rpc-module.c send, and what they return for the reply of the daemon. *)
From S2P Require Import Prelude EggBuffer Pkcs11 RpcUtil Calls Message DispatchProto DispatchReads DispatchReplies.
From S2P Require Import Transport Client ClientProto ClientCalls ClientSpecs ClientReads ClientRun ClientReplies.
From S2P Require Import ClientMacros ClientPool ClientExact ClientResults ClientProps Remote RemoteClient RemoteResults.

(** The attributes the caller asked for go with those it gets. *)
Lemma goes_with_all attrs l :
  map attr_type l = map attr_type attrs -> Forall value_room attrs ->
  Forall (fun a => value_ok (attr_value a)) l -> Forall2 goes_with attrs (map attr_value l).
Proof.
  intros Ht Hroom. revert l Ht. induction Hroom as [|attr attrs Ha _ IH]; intros [|a l] Ht Hv; try done.
  cbn [map] in *. injection Ht as Ht Hts. apply Forall_cons in Hv as [Hva Hv].
  constructor; [by split_and!|by apply IH].
Qed.

Section Client.
Context (realloc : EggBufferAllocator) (Hok : AllocatorOk realloc) (Hmem : gives_memory realloc).

(** ** The arguments *)

Section Arguments.
Context (id : Z) (sgq : string) (c0 : Conn).
Abbreviation composes := (composes realloc id sgq c0).

Lemma numbers_composes2 arr max : composes (numbers_part arr max) (IN_ULONG_BUFFER2 arr max).
Proof. by apply (written_exact realloc Hmem), write_ulong_buffer_sends. Qed.
Lemma numbers_composes arr max : composes (numbers_part arr max) (IN_ULONG_BUFFER arr (Some max)).
Proof. apply check_exact; [done|apply numbers_composes2]. Qed.
Lemma asked_composes template n :
  asked_ok template n -> composes (asked_part template n) (IN_ATTRIBUTE_BUFFER (Some template) n).
Proof.
  intros (Hn & _). apply check_exact; [by rewrite orb_true_r|].
  by apply (written_exact realloc Hmem), (write_attribute_buffer_sends (Some template)).
Qed.
End Arguments.

(** ** The end of a call *)

Section Ends.
Context (id : Z) (row : GckRpcCall) (ps : list part) (sgp : string).
Context (Hid : 0 < id < GCK_RPC_CALL_MAX) (Hrow : gck_rpc_call id = Ok row).
Context (Hsgq : c_request row = Some (sigs_of ps)) (Hsgp : c_response row = Some sgp).
Context (c0 : Conn) (rest : list Z).
Context (code : Z) (out : list part).
Context (Hcode : is_u32 code) (Hfit : answerable id sgp code out).
Context (Hw : willing (4 + zlen (request_bytes id (sigs_of ps) ps)) c0).
Context (Hinc : incoming c0 = frame (reply_bytes id code out) ++ rest).

Abbreviation composing := (composing realloc id (sigs_of ps) c0).
Abbreviation ends := (ends realloc id ps c0 rest).
Abbreviation ends_yields := (ends_yields realloc Hok Hmem id row ps sgp Hid Hrow Hsgp c0 rest
  code out Hcode Hfit Hw Hinc).
Abbreviation runs := (runs (fun _ => False)).

Lemma ends_struct {T} (read : T -> ST GckRpcMessage (Z * T)) v a cs :
  (code = CKR_OK -> decodes out (read v) (CKR_OK, a)) -> composing EmptyString ps cs ->
  runs (_ret ← PROCESS_CALL realloc; '(_ret, x) ← OUT_STRUCT read (Some v) _ret; mret (_ret, x))
    (ends (Some v) code (struct_result (Some v) code a).2) cs.
Proof.
  intros Hd Hc. apply (ends_yields _ (fun ret => '(_ret, x) ← OUT_STRUCT read (Some v) ret; mret (_ret, x))); [done|..].
  - intros Hok1. rewrite Hok1. eapply yields_bind; [by apply OUT_STRUCT_yields, Hd|done].
  - intros Hne. unfold struct_result. by rewrite (proj2 (Z.eqb_neq _ _)) by done.
Qed.

Lemma ends_pair v1 v2 a b cs :
  out = [PUlong a; PUlong b] -> is_u64 a -> is_u64 b -> composing EmptyString ps cs ->
  runs (_ret ← PROCESS_CALL realloc;
        '(_ret, x) ← OUT_ULONG (Some v1) _ret; '(_ret, y) ← OUT_ULONG (Some v2) _ret; mret (_ret, (x, y)))
    (ends (Some v1, Some v2) code (pair_result (Some v1, Some v2) code (a, b)).2) cs.
Proof.
  intros Hout Ha Hb Hc. apply (ends_yields _ (fun ret => '(_ret, x) ← OUT_ULONG (Some v1) ret;
    '(_ret, y) ← OUT_ULONG (Some v2) _ret; mret (_ret, (x, y)))); [done|..].
  - intros Hok1. rewrite Hok1, Hout. apply (yields_app _ _ [PUlong a] [PUlong b] _ (Some a)).
    + by apply OUT_ULONG_yields.
    + by eapply yields_bind; [apply OUT_ULONG_yields|].
  - intros Hne. unfold pair_result. by rewrite (proj2 (Z.eqb_neq _ _)) by done.
Qed.

(** Numbers that are stored. *)
Lemma ulongs_outcome_ok arr cnt max rv a :
  ulongs_out rv a -> ulongs_honest max rv a -> ulongs_outcome rv a = (CKR_OK, out) ->
  exists p, out = [PUlongArray p a.2] /\ ulongs_sent max p a.2
    /\ ulongs_result (arr, cnt) rv a
       = (let '(ret, (arr', n)) := store_ulongs arr p a.2 in (ret, (arr', Some n))).
Proof.
  intros [Hn Ho] [Hu Hh] Hout. unfold ulongs_outcome, ulongs_result in *. cbn [fst snd].
  destruct (rv =? CKR_BUFFER_TOO_SMALL) eqn:Esmall.
  - injection Hout as <-. exists None. apply Z.eqb_eq in Esmall as ->. by split_and!.
  - injection Hout as -> <-. exists (take (Z.to_nat a.2) <$> a.1). split; [done|]. split; [|done].
    split; [done|]. intros l Hl. destruct a as [[l0|] n]; [|done]. injection Hl as <-.
    cbn [fst snd] in *. destruct (Hh eq_refl l0 eq_refl) as [Hle Hall].
    specialize (Ho eq_refl l0 eq_refl). rewrite zlen_take by lia. by split_and!.
Qed.

Lemma ulongs_outcome_error v rv a :
  ulongs_outcome rv a = (code, out) -> code <> CKR_OK -> ulongs_result v rv a = (code, v).
Proof.
  unfold ulongs_outcome, ulongs_result. destruct (rv =? CKR_BUFFER_TOO_SMALL); intros [= <- <-] Hne; [done|].
  by rewrite (proj2 (Z.eqb_neq _ _)) by done.
Qed.

Lemma ends_ulongs garbage arr cnt max rv a cs :
  room arr max -> ulongs_out rv a -> ulongs_honest max rv a -> ulongs_outcome rv a = (code, out) ->
  composing EmptyString ps cs ->
  runs (_ret ← PROCESS_CALL realloc;
        '(_ret, (x, y)) ← OUT_ULONG_ARRAY garbage arr (Some max) _ret; mret (_ret, (x, y)))
    (ends (arr, cnt) (ulongs_result (arr, cnt) rv a).1 (ulongs_result (arr, cnt) rv a).2) cs.
Proof.
  intros Hroom Ho Hh Hout Hc. apply (ends_yields _ (fun ret =>
    '(_ret, (x, y)) ← OUT_ULONG_ARRAY garbage arr (Some max) ret; mret (_ret, (x, y)))); [done|..].
  - intros Hok1. rewrite Hok1 in Hout. rewrite <- surjective_pairing.
    destruct (ulongs_outcome_ok arr cnt max rv a Ho Hh Hout) as (p & -> & Hp & ->).
    eapply yields_bind; [by apply OUT_ULONG_ARRAY_yields|].
    by destruct (store_ulongs arr p a.2) as [ret [arr' n]].
  - intros Hne. by rewrite (ulongs_outcome_error _ _ _ Hout Hne).
Qed.

Lemma ends_mechanisms garbage arr cnt max rv a cs :
  (forall l, arr = Some l -> max < zlen l /\ max < 2147483648) -> 0 <= max ->
  ulongs_out rv a -> ulongs_honest max rv a -> ulongs_outcome rv a = (code, out) ->
  composing EmptyString ps cs ->
  runs (_ret ← PROCESS_CALL realloc;
        '(_ret, (x, y)) ← OUT_MECHANISM_TYPE_ARRAY garbage arr (Some max) _ret; mret (_ret, (x, y)))
    (ends (arr, cnt) (purged (ulongs_result (arr, cnt) rv a)).1 (purged (ulongs_result (arr, cnt) rv a)).2) cs.
Proof.
  intros Hroom Hmax Ho Hh Hout Hc. apply (ends_yields _ (fun ret =>
    '(_ret, (x, y)) ← OUT_MECHANISM_TYPE_ARRAY garbage arr (Some max) ret; mret (_ret, (x, y)))); [done|..].
  - intros Hok1. rewrite Hok1 in Hout. rewrite <- surjective_pairing.
    destruct (ulongs_outcome_ok arr cnt max rv a Ho Hh Hout) as (p & -> & Hp & ->).
    eapply yields_bind; [by apply OUT_MECHANISM_TYPE_ARRAY_yields|].
    by destruct (purged _) as [ret [arr' n]].
  - intros Hne. rewrite (ulongs_outcome_error _ _ _ Hout Hne). unfold purged.
    rewrite (proj2 (Z.eqb_neq _ _)) by done. by destruct arr, cnt.
Qed.

Lemma ends_random arr n rv a cs :
  room (Some arr) n -> DispatchProto.bytes_out rv a -> bytes_honest (Some arr, Some n) rv a ->
  bytes_outcome rv a = (code, out) -> composing EmptyString ps cs ->
  runs (_ret ← PROCESS_CALL realloc;
        '(_ret, (x, _)) ← OUT_BYTE_ARRAY2 (Some arr) n _ret; mret (_ret, x))
    (ends (Some arr) (random_result (Some arr) n rv a).1 (random_result (Some arr) n rv a).2) cs.
Proof.
  intros Hroom Ho Hh Hout Hc. unfold random_result. destruct (bytes_result _ _ _) as [ret v] eqn:Er.
  destruct (outcome_bytes rv a code out Hout) as (p & k & Hp & Hk).
  apply (ends_yields _ (fun ret => '(_ret, (x, _)) ← OUT_BYTE_ARRAY2 (Some arr) n ret; mret (_ret, x))); [done|..].
  - intros Hok1. rewrite Hok1, Hp in Hout. rewrite Hp.
    rewrite (store_bytes_result (Some arr) n rv a p k Ho Hh Hout) in Er.
    eapply yields_bind; [apply (OUT_BYTE_ARRAY2_yields realloc c0 (Some arr) n p k Hroom)|].
    + by apply (reply_array_short id sgp code out Hfit) with (k := k).
    + intros _. apply Hk, Hh.
    + destruct (store_bytes (Some arr) n p k) as [ret' [x y]]. by injection Er as <- <-.
  - intros Hne. unfold bytes_outcome, bytes_result in *. destruct (rv =? CKR_BUFFER_TOO_SMALL);
      [by injection Hout as <-|]. injection Hout as -> _.
    rewrite (proj2 (Z.eqb_neq code CKR_OK)) in Er by done. by injection Er as <- <-.
Qed.

Lemma ends_attrs garbage template n rv l cs :
  asked_ok template n -> attrs_out n rv l -> attrs_honest template n rv l -> is_u32 rv ->
  attrs_outcome n rv l = (code, out) -> composing EmptyString ps cs ->
  runs (_ret ← PROCESS_CALL realloc;
        '(_ret, x) ← OUT_ATTRIBUTE_ARRAY garbage (Some template) n _ret; mret (_ret, x))
    (ends (Some template) (attrs_result template n rv l).1 (attrs_result template n rv l).2) cs.
Proof.
  intros (Hn & H24 & Hroom & Hsize) Ho Hh Hrv Hout Hc. apply (ends_yields _ (fun ret =>
    '(_ret, x) ← OUT_ATTRIBUTE_ARRAY garbage (Some template) n ret; mret (_ret, x))); [done|..].
  - intros Hok1. rewrite Hok1 in Hout. unfold attrs_outcome, attrs_result, attrs_honest, attrs_out in *.
    assert (one_of rv attribute_errors = true) as Eo.
    { destruct (one_of rv attribute_errors) eqn:Eo; [done|]. injection Hout as -> _. by vm_compute in Eo. }
    rewrite Eo in *. injection Hout as Hout. rewrite <- Hout. destruct (Ho eq_refl) as [Hz _], (Hh eq_refl) as (Ht & Hval & _).
    set (vs := map attr_value (take (Z.to_nat n) (default [] l))).
    apply (yields_bind _ _ _ _ (rv, Some (zip_with stored (asked template n) (map snd vs) ++ drop (Z.to_nat n) template)));
      [|done].
    rewrite <- (take_drop (Z.to_nat n) template) at 1. fold (asked template n).
    apply (OUT_ATTRIBUTE_ARRAY_yields realloc c0 garbage (asked template n) _ n vs rv).
    + by apply goes_with_all.
    + unfold vs, zlen. rewrite length_map. fold (zlen (take (Z.to_nat n) (default [] l))). rewrite zlen_take; lia.
    + unfold sizeof_CK_ATTRIBUTE in H24. lia.
    + lia.
  - intros Hne. unfold attrs_outcome, attrs_result in *. destruct (one_of _ _); injection Hout as Hcode' _; [done|by subst].
Qed.
End Ends.
End Client.

#[export] Hint Resolve numbers_composes numbers_composes2 asked_composes IN_BYTE_composes
  IN_MECHANISM_TYPE_composes : client_args.

Section Tables.
Context {W : Type} (realloc : EggBufferAllocator) (Hok : AllocatorOk realloc) (Hmem : gives_memory realloc).

Lemma result_call_gets garbage call (fd : Forwarded W) rv a code out :
  result_call garbage call = Some fd -> fw_ok (fd_call fd) ->
  zlen (request_of (fd_call fd)) <= 2147483647 -> is_u32 rv -> is_u32 code ->
  fd_std fd rv a -> fd_fair fd rv a -> fd_out fd rv a = (code, out) ->
  answerable (fw_id (fd_call fd)) (fd_sig fd) code out ->
  client_gets realloc (fw_perform (fd_call fd) realloc) (request_of (fd_call fd))
    (reply_bytes (fw_id (fd_call fd)) code out) (fd_back fd rv a).
Proof.
  intros Hc Hargs Hz Hrv Hcode Hstd Hfair Hout Hfit.
  destruct (result_call_known garbage call fd Hc) as (Hid & row & Hrow & Hq & Hp).
  unfold request_of in *. rewrite (surjective_pairing (fd_back fd rv a)).
  destruct call; try discriminate Hc; cbn [result_call] in Hc; call_of_table Hc;
    cbn [fd_call fd_out fd_back fd_std fd_fair fd_sig of_plain of_struct of_ulongs of_mechanisms of_pair of_random
      of_attrs fw_id fw_parts fw_perform fw_ok fw_args] in *.
  all: call_gets Hok Hmem Hargs; repeat send_arg.
  1,3,4,6,8: injection Hout as <- <-; (eapply ends_struct; [eassumption..| |eassumption]; intros E).
  - by apply read_info_decodes; [apply Hstd|apply Hfair].
  - by apply read_slot_info_decodes; [apply Hstd|apply Hfair].
  - by apply read_token_info_decodes; [apply Hstd|apply Hfair].
  - by apply read_mechanism_info_decodes, Hfair.
  - by apply read_session_info_decodes, Hfair.
  - eapply ends_ulongs; [eassumption..|by eapply proj2|eassumption|eassumption|eassumption|eassumption].
  - match goal with H : numbers_arg _ _ |- _ => destruct H as [Hmax Hroom] end. eapply ends_mechanisms; [eassumption..| |lia|eassumption|eassumption|eassumption|eassumption].
    intros l ->. split; [by apply Hargs|lia].
  - destruct a. injection Hout as <- <-. eapply ends_plain; [eassumption..|reflexivity|eassumption].
  - eapply ends_attrs; eassumption.
  - eapply ends_ulongs; [eassumption..|by eapply proj2|eassumption|eassumption|eassumption|eassumption].
  - destruct a as [k1 k2], Hfair as [Hk1 Hk2]. injection Hout as <- <-.
    eapply ends_pair; [eassumption..|reflexivity|exact Hk1|exact Hk2|eassumption].
  - eapply ends_random; [eassumption..|by eapply proj2|eassumption|eassumption|eassumption|eassumption].
Qed.
End Tables.
