(* ===== verification/Forwarding.v ===== *)
(** One call over the proxy: the function of the client library, the request, the
    daemon's handler with the PKCS#11 module, the reply, and what the caller gets.  For
    every call that is forwarded. *)
From S2P Require Import Prelude EggBuffer Pkcs11 RpcUtil Calls Message.
From S2P Require Import DispatchProto Dispatch DispatchReads DispatchReplies DispatchProps.
From S2P Require Import Transport Server ServeExact Client ClientSpecs ClientPool ClientExact ClientResults ClientProps.
From S2P Require Import Remote RemoteServer RemoteClient RemoteResults ResultsServer ResultsClient.

(** ** Both ends *)

(** The daemon answers [request] with [reply], and the call takes its module and the
    sessions of the connection from [st] to [st']: one turn of its loop. *)
Definition daemon_answers {W} (M : CK_FUNCTION_LIST W) malloc_ok shutdown_ok
    (request reply : list Z) (st st' : W * list SessionState) : Prop :=
  forall s buf rest n, ready_server s -> core (sv_proc s) = st -> zlen buf = 4 ->
    incoming (sv_conn s) = frame request ++ rest ->
    willing (4 + zlen reply + n) (sv_conn s) -> 0 <= n ->
    runs (fun _ => False) (serve_request M malloc_ok shutdown_ok buf) (turned s st' reply rest n) s.

(** There is a reply with which the daemon answers the request of the call, and with
    which the client returns [r]. *)
Definition carried {W R A} (M : CK_FUNCTION_LIST W) malloc_ok shutdown_ok realloc
    (fw : Forward W R A) (st st' : W * list SessionState) (r : Z * R) : Prop :=
  exists reply, daemon_answers M malloc_ok shutdown_ok (request_of fw) reply st st'
    /\ client_gets realloc (fw_perform fw realloc) (request_of fw) reply r.

(** A short response always fits. *)
Lemma answerable_short id row sg code out :
  gck_rpc_call id = Ok row -> c_response row = Some sg -> sigs_of out = sg ->
  zlen (enc_parts out) <= 2147483500 -> answerable id sg code out.
Proof.
  intros Hrow Hsg Hout Hz _. split; [done|]. unfold fits. rewrite zlen_app.
  pose proof (header_short id (Some sg)) as Hh.
  assert (strlen sg < 100) as Hs by (by apply (signature_short id row GCK_RPC_RESPONSE)).
  specialize (Hh ltac:(by intros ? [= <-])). lia.
Qed.

Section EndToEnd.
Context {W : Type} (M : CK_FUNCTION_LIST W) (malloc_ok : list Z -> Z -> bool) (shutdown_ok : Z -> bool).
Context (Hmalloc : forall l n, malloc_ok l n = true).
Context (realloc : EggBufferAllocator) (Hok : AllocatorOk realloc) (Hmem : gives_memory realloc).

(** A request of the daemon, from its three parts. *)
Lemma processes_daemon id ps reply st st' :
  asks id ps -> processes M malloc_ok shutdown_ok id ps reply st st' ->
  daemon_answers M malloc_ok shutdown_ok (call_bytes id ps) reply st st'.
Proof. intros Hasks Hp s buf rest n Hs Hst Hb Hinc Hw Hn. by eapply serve_request_exact. Qed.

Lemma known_asks {R A} (fw : Forward W R A) sgp :
  known_call fw sgp -> zlen (request_of fw) < 268435455 -> asks (fw_id fw) (fw_parts fw).
Proof. intros (Hid & row & Hrow & Hq & _) Hz. split; [done|]. split; [done|]. by exists row. Qed.

Lemma answers_processes {R A} (fw : Forward W R A) sgp e code out st st' :
  known_call fw sgp ->
  answers (fw_id fw) (call_handler M malloc_ok shutdown_ok (fw_id fw)) (fw_parts fw) e ->
  e st = ((code, out), st') -> answerable (fw_id fw) sgp code out ->
  processes M malloc_ok shutdown_ok (fw_id fw) (fw_parts fw) (reply_bytes (fw_id fw) code out) st st'.
Proof.
  intros (_ & row & Hrow & Hq & Hp) Hans He Hfit buf s Hs Hpa <-.
  by apply (process_request_exact M malloc_ok shutdown_ok (fw_id fw) row sgp (fw_parts fw) e code out st').
Qed.

(** There is a reply that is what comes of the call in the module, and with which the
    client returns [r]. *)
Definition carried_in_parts {R A} (fw : Forward W R A) (st st' : W * list SessionState) (r : Z * R) : Prop :=
  exists reply, processes M malloc_ok shutdown_ok (fw_id fw) (fw_parts fw) reply st st'
    /\ client_gets realloc (fw_perform fw realloc) (request_of fw) reply r.

Lemma carried_together {R A} (fw : Forward W R A) sgp st st' r :
  known_call fw sgp -> zlen (request_of fw) < 268435455 -> carried_in_parts fw st st' r ->
  carried M malloc_ok shutdown_ok realloc fw st st' r.
Proof.
  intros Hk Hz (reply & Hp & Hget). exists reply. split; [|done].
  apply processes_daemon; [by eapply known_asks|done].
Qed.

(** ** The interface holds of every call *)

Lemma forwarded_inv garbage call (fd : Forwarded W) :
  forwarded garbage call = Some fd ->
  (exists fw, plain_call call = Some fw /\ fd = of_plain fw)
  \/ (exists fw, handle_call call = Some fw /\ fd = of_handle fw)
  \/ (exists fw, bytes_call call = Some fw /\ fd = of_bytes fw)
  \/ result_call garbage call = Some fd.
Proof.
  unfold forwarded. destruct (plain_call call) as [fw|]; [intros [= <-]; left; by exists fw|].
  destruct (handle_call call) as [fw|]; [intros [= <-]; right; left; by exists fw|].
  destruct (bytes_call call) as [fw|]; [intros [= <-]; right; right; left; by exists fw|]. by auto.
Qed.

Ltac forwarded_cases Hc :=
  destruct (forwarded_inv _ _ _ Hc) as [(fw & Ht & ->)|[(fw & Ht & ->)|[(fw & Ht & ->)|Ht]]];
  cbn [fd_call fd_sig fd_out fd_back fd_std fd_fair of_plain of_handle of_bytes] in *.

Lemma forwarded_known garbage call (fd : Forwarded W) :
  forwarded garbage call = Some fd -> known_call (fd_call fd) (fd_sig fd).
Proof.
  intros Hc. forwarded_cases Hc; [by eapply plain_call_known|by eapply handle_call_known
    |by eapply bytes_call_known|by eapply result_call_known].
Qed.

Lemma forwarded_answers garbage call fd f :
  module_ok M -> forwarded garbage call = Some fd -> fw_ok (fd_call fd) ->
  fw_local (fd_call fd) M = Some f ->
  answers (fw_id (fd_call fd)) (call_handler M malloc_ok shutdown_ok (fw_id (fd_call fd)))
    (fw_parts (fd_call fd)) (effect_of f (fd_out fd)).
Proof.
  intros HM Hc Hargs Hf. forwarded_cases Hc; [by eapply plain_call_answers|by eapply handle_call_answers
    |by eapply bytes_call_answers|by eapply result_call_answers].
Qed.

Lemma forwarded_std garbage call fd f c :
  module_ok M -> forwarded garbage call = Some fd -> fw_ok (fd_call fd) ->
  fw_local (fd_call fd) M = Some f -> fd_std fd (f c).1.1 (f c).1.2.
Proof.
  intros HM Hc Hargs Hf. forwarded_cases Hc; [done|done|by eapply bytes_call_out|].
  by apply (result_call_std M HM garbage call fd f).
Qed.

(** The response to a call that returns bytes. *)
Lemma outcome_answerable id row rv arr n a code out :
  gck_rpc_call id = Ok row -> c_response row = Some "ay"%string -> buffer_arg arr n ->
  bytes_out rv a -> bytes_honest (arr, Some n) rv a -> bytes_outcome rv a = (code, out) ->
  answerable id "ay" code out.
Proof.
  intros Hrow Hp [Hn _] Ho [_ Hh] Hout Hcode. unfold bytes_outcome in Hout.
  assert (sigs_of out = "ay"%string /\ zlen (enc_parts out) <= 2147483500) as [Hs Hz];
    [|by apply (answerable_short id row "ay" code out)].
  destruct (rv =? CKR_BUFFER_TOO_SMALL); injection Hout as <- <-; [done|]. subst rv.
  destruct (Hh eq_refl) as [Hnull Hle]. cbn [fst snd] in *. split; [done|].
  unfold PBytes. destruct a as [[b|] len]; [|done]. cbn [fst snd fmap option_fmap option_map] in *.
  destruct arr as [old|]; [|done]. specialize (Hle (mk_is_Some _ _ eq_refl)). cbn in Hle.
  destruct (Ho eq_refl b eq_refl) as [_ Hr]. cbn in Hr.
  change (enc_parts [PByteArray (Some ?x) ?k]) with (([1] ++ enc_uint32 (zlen x) ++ x) ++ []).
  rewrite app_nil_r, !zlen_app, zlen_enc_uint32, zlen_slice by lia. change (zlen [1]) with 1. lia.
Qed.


(** Structures and handles are short. *)
Definition small_part (p : part) : Prop :=
  match p with PSpaceString s => zlen s <= 64 | PUlong _ | PVersion _ _ => True | _ => False end.

Lemma small_parts_short ps : Forall small_part ps -> zlen (enc_parts ps) <= 68 * zlen ps.
Proof.
  induction 1 as [|p ps Hp _ IH]; [done|]. change (enc_parts (p :: ps)) with (enc_part p ++ enc_parts ps).
  rewrite zlen_app, zlen_cons. assert (zlen (enc_part p) <= 68); [|lia].
  destruct p; try done; cbn [enc_part small_part] in *.
  unfold enc_byte_array. rewrite zlen_app, zlen_enc_uint32. lia.
Qed.

Lemma text_small n s : text_ok n s -> n <= 64 -> small_part (PSpaceString s).
Proof. intros [_ <-]. done. Qed.
Lemma small_parts_fit ps : zlen ps <= 100 -> Forall small_part ps -> zlen (enc_parts ps) <= 2147483500.
Proof. intros Hz Hps%small_parts_short. lia. Qed.

Ltac small_parts :=
  repeat first [apply Forall_nil_2 | apply Forall_cons_2];
  first [exact I | eapply text_small; [eassumption|lia]].

Lemma info_short i : info_ok i -> zlen (enc_parts (info_parts i)) <= 2147483500.
Proof. by intros []; apply small_parts_fit; [|small_parts]. Qed.
Lemma slot_info_short i : slot_info_ok i -> zlen (enc_parts (slot_info_parts i)) <= 2147483500.
Proof. by intros []; apply small_parts_fit; [|small_parts]. Qed.
Lemma token_info_short i : token_info_ok i -> zlen (enc_parts (token_info_parts i)) <= 2147483500.
Proof. by intros []; apply small_parts_fit; [|small_parts]. Qed.

Lemma zlen_words l : zlen (concat (map enc_uint64 l)) = 8 * zlen l.
Proof.
  induction l as [|v l IH]; [done|]. cbn [map concat]. rewrite zlen_app, zlen_cons, zlen_enc_uint64, IH. lia.
Qed.

(** A list of numbers is no longer than there is space. *)
Lemma ulongs_part_short max l n :
  0 <= n -> max <= 268435400 -> (forall x, l = Some x -> n <= max) ->
  zlen (enc_part (ulongs_part l n)) <= 2147483500.
Proof.
  intros Hn Hmax Hl. unfold ulongs_part. cbn [enc_part]. rewrite !zlen_app, zlen_enc_uint32.
  change (zlen [_]) with 1. destruct l as [l|]; cbn [fmap option_fmap option_map default id map concat]; [|by vm_compute].
  specialize (Hl l eq_refl). rewrite zlen_words.
  assert (zlen (take (Z.to_nat n) l) <= n); [|lia]. unfold zlen. rewrite length_take. lia.
Qed.

(** What a response holds is small, and its code is one of the module. *)
Definition fitting (sg : string) (code : Z) (out : list part) : Prop :=
  is_u32 code /\ (code = CKR_OK -> sigs_of out = sg /\ zlen (enc_parts out) <= 2147483500).

Lemma fitting_part p sg code :
  is_u32 code -> sig_of p = sg -> zlen (enc_part p) <= 2147483500 -> fitting sg code [p].
Proof.
  intros Hc <- Hz. split; [done|]. intros _. cbn [sigs_of]. split; [apply string_append_nil|].
  change (enc_parts [p]) with (enc_part p ++ []). by rewrite app_nil_r.
Qed.

Lemma ulongs_fitting arr max rv a code out :
  numbers_arg arr max -> is_u32 rv -> ulongs_out rv a -> ulongs_honest max rv a ->
  ulongs_outcome rv a = (code, out) -> fitting "au" code out.
Proof.
  intros [[_ Hmax] _] Hrv [Hn _] [_ Hh] Hout. unfold ulongs_outcome in Hout.
  destruct (rv =? CKR_BUFFER_TOO_SMALL); injection Hout as <- <-; [by apply fitting_part|].
  destruct (decide (rv = CKR_OK)) as [->|Hne]; [|by split].
  apply fitting_part; [done|done|]. apply (ulongs_part_short max); [done|done|].
  intros l Hl. by destruct (Hh eq_refl l Hl).
Qed.

Lemma attrs_fitting template n rv l code out :
  is_u32 rv -> attrs_honest template n rv l -> attrs_outcome n rv l = (code, out) ->
  fitting "aAu" code out.
Proof.
  intros Hrv Hh Hout. unfold attrs_outcome, attrs_honest in *. destruct (one_of rv attribute_errors) eqn:Eo;
    injection Hout as <- <-.
  - destruct (Hh eq_refl) as (_ & _ & Hz). split; [done|]. intros _. split; [done|].
    change (enc_parts [attrs_part l n; PUlong rv]) with (enc_part (attrs_part l n) ++ enc_uint64 rv ++ []).
    rewrite app_nil_r, zlen_app, zlen_enc_uint64. lia.
  - split; [done|]. intros ->. by vm_compute in Eo.
Qed.

Lemma result_call_fits garbage call (fd : Forwarded W) rv a code out :
  result_call garbage call = Some fd -> fw_ok (fd_call fd) -> is_u32 rv ->
  fd_std fd rv a -> fd_fair fd rv a -> fd_out fd rv a = (code, out) ->
  is_u32 code /\ answerable (fw_id (fd_call fd)) (fd_sig fd) code out.
Proof.
  intros Hc Hargs Hrv Hstd Hfair Hout.
  destruct (result_call_known garbage call fd Hc) as (_ & row & Hrow & _ & Hp).
  assert (fitting (fd_sig fd) code out -> is_u32 code /\ answerable (fw_id (fd_call fd)) (fd_sig fd) code out)
    as Hend.
  { intros [Hcode Hok1]. split; [done|]. intros E. destruct (Hok1 E) as [Hs Hz].
    by apply (answerable_short _ row _ code out). }
  destruct call; try discriminate Hc; cbn [result_call] in Hc; call_of_table Hc;
    cbn [fd_call fd_out fd_std fd_fair fd_sig of_plain of_struct of_ulongs of_mechanisms of_pair of_random
      of_attrs fw_id fw_ok fw_args] in *.
  1,3,4,6,7,8,11: apply Hend; injection Hout as <- <-; (split; [done|]); intros E; (split; [done|]).
  - by apply info_short, Hstd.
  - by apply slot_info_short, Hstd.
  - by apply token_info_short, Hstd.
  - done.
  - done.
  - done.
  - done.
  - apply Hend. by eapply ulongs_fitting; [eapply proj2|..].
  - apply Hend. by eapply ulongs_fitting; [apply (proj2 Hargs)|..].
  - apply Hend. by eapply attrs_fitting.
  - apply Hend. by eapply ulongs_fitting; [eapply proj2|..].
  - split.
    + unfold bytes_outcome in Hout. by destruct (_ =? _); injection Hout as <- _.
    + by eapply outcome_answerable; [exact Hrow|exact Hp|eapply proj2; exact Hargs|..].
Qed.

Lemma forwarded_fits garbage call (fd : Forwarded W) rv a code out :
  forwarded garbage call = Some fd -> fw_ok (fd_call fd) -> is_u32 rv ->
  fd_std fd rv a -> fd_fair fd rv a -> fd_out fd rv a = (code, out) ->
  is_u32 code /\ answerable (fw_id (fd_call fd)) (fd_sig fd) code out.
Proof.
  intros Hc Hargs Hrv Hstd Hfair Hout.
  destruct (forwarded_known garbage call fd Hc) as (_ & row & Hrow & _ & Hp).
  forwarded_cases Hc.
  - injection Hout as <- <-. split; [done|]. by apply (answerable_short _ row).
  - injection Hout as <- <-. split; [done|]. by apply (answerable_short _ row).
  - destruct (bytes_call_space call fw Ht Hargs) as (arr & n & Hfa & Hba). rewrite Hfa in Hfair.
    split; [|by apply (outcome_answerable _ row rv arr n a)].
    unfold bytes_outcome in Hout. by destruct (_ =? _); injection Hout as <- _.
  - by apply (result_call_fits garbage call fd rv a).
Qed.

Lemma forwarded_gets garbage call (fd : Forwarded W) rv a code out :
  forwarded garbage call = Some fd -> fw_ok (fd_call fd) ->
  zlen (request_of (fd_call fd)) <= 2147483647 -> is_u32 rv -> is_u32 code ->
  fd_std fd rv a -> fd_fair fd rv a -> fd_out fd rv a = (code, out) ->
  answerable (fw_id (fd_call fd)) (fd_sig fd) code out ->
  client_gets realloc (fw_perform (fd_call fd) realloc) (request_of (fd_call fd))
    (reply_bytes (fw_id (fd_call fd)) code out) (fd_back fd rv a).
Proof.
  intros Hc Hargs Hz Hrv Hcode Hstd Hfair Hout Hfit. forwarded_cases Hc.
  - destruct a. injection Hout as <- <-. by apply (plain_call_gets realloc Hok Hmem call).
  - injection Hout as <- <-. by apply (handle_call_gets realloc Hok Hmem call).
  - by apply (bytes_call_gets realloc Hok Hmem call).
  - by apply (result_call_gets realloc Hok Hmem garbage call).
Qed.

(** One call, from end to end. *)
Lemma forwarded_carried_in_parts garbage call fd f st st' rv a :
  module_ok M -> forwarded garbage call = Some fd -> fw_ok (fd_call fd) ->
  fw_local (fd_call fd) M = Some f -> zlen (request_of (fd_call fd)) < 268435455 ->
  f st = ((rv, a), st') -> is_u32 rv -> fd_fair fd rv a ->
  carried_in_parts (fd_call fd) st st' (fd_back fd rv a).
Proof.
  intros HM Hc Hargs Hf Hz Hrun Hrv Hfair.
  assert (fd_std fd rv a) as Hstd.
  { pose proof (forwarded_std garbage call fd f st HM Hc Hargs Hf) as H. by rewrite Hrun in H. }
  destruct (fd_out fd rv a) as [code out] eqn:Hout.
  destruct (forwarded_fits garbage call fd rv a code out Hc Hargs Hrv Hstd Hfair Hout) as [Hcode Hfit].
  exists (reply_bytes (fw_id (fd_call fd)) code out). split.
  - apply (answers_processes (fd_call fd) (fd_sig fd) (effect_of f (fd_out fd)));
      [by eapply forwarded_known|by eapply forwarded_answers| |done].
    unfold effect_of. by rewrite Hrun, Hout.
  - by apply (forwarded_gets garbage call fd rv a code out); [..|lia| | | | | |].
Qed.

Lemma forwarded_carried garbage call fd f st st' rv a :
  module_ok M -> forwarded garbage call = Some fd -> fw_ok (fd_call fd) ->
  fw_local (fd_call fd) M = Some f -> zlen (request_of (fd_call fd)) < 268435455 ->
  f st = ((rv, a), st') -> is_u32 rv -> fd_fair fd rv a ->
  carried M malloc_ok shutdown_ok realloc (fd_call fd) st st' (fd_back fd rv a).
Proof.
  intros HM Hc Hargs Hf Hz Hrun Hrv Hfair. eapply carried_together; [by eapply forwarded_known|done|].
  by apply (forwarded_carried_in_parts garbage call fd f).
Qed.

Lemma forwarded_performs garbage call (fd : Forwarded W) :
  forwarded garbage call = Some fd ->
  Api.perform realloc garbage call = Api.result (fw_perform (fd_call fd) realloc).
Proof.
  intros Hc. forwarded_cases Hc; destruct call; try discriminate Ht;
    cbn [plain_call handle_call bytes_call result_call] in Ht; by call_of_table Ht.
Qed.

(** The calls of two of the tables. *)
Lemma bytes_call_forwarded garbage call (fw : Forward W (option block * option Z) (option block * option Z)) :
  bytes_call call = Some fw -> forwarded garbage call = Some (of_bytes fw).
Proof.
  intros Ht. unfold forwarded. assert (plain_call (W := W) call = None) as -> by by destruct call.
  assert (handle_call (W := W) call = None) as -> by by destruct call. by rewrite Ht.
Qed.

Lemma handle_carried call fw f st st' rv h :
  handle_call call = Some fw -> fw_ok fw -> fw_local fw M = Some f ->
  zlen (request_of fw) < 268435455 -> f st = ((rv, h), st') -> is_u32 rv -> is_u64 h ->
  carried M malloc_ok shutdown_ok realloc fw st st' (handle_result (fw_args fw) rv h).
Proof.
  intros Hc Hargs Hf Hz Hrun Hrv Hh. pose proof (handle_call_known call fw Hc) as Hk.
  pose proof Hk as (_ & row & Hrow & _ & Hp).
  assert (answerable (fw_id fw) "u" rv [PUlong h]) as Hfit by (by apply (answerable_short _ row)).
  apply (carried_together fw "u"); [done|done|]. exists (reply_bytes (fw_id fw) rv [PUlong h]). split.
  - apply (answers_processes fw "u" (effect_of f handle_out)); try done; [by eapply handle_call_answers|].
    unfold effect_of. by rewrite Hrun.
  - by apply (handle_call_gets realloc Hok Hmem call); [..|lia| | |].
Qed.
End EndToEnd.
