(* ===== verification/EndToEnd.v ===== *)
(** The whole way of a call: from the function of the client library that an
    application calls, over the network, through the daemon to the PKCS#11 module, and
    back.  A call over the proxy returns what the module returns. *)
From S2P Require Import Prelude EggBuffer Pkcs11 RpcUtil Calls Message.
From S2P Require Import DispatchProto Dispatch DispatchReads DispatchReplies DispatchProps.
From S2P Require Import Transport Server ServeExact Client ClientSpecs ClientReads ClientPool ClientExact ClientProps ClientErrors.
From S2P Require Import Remote RemoteServer RemoteClient RemoteResults Forwarding.

(** ** Whole dialogs *)

Section Dialogs.
Context {W : Type} (M : CK_FUNCTION_LIST W) (malloc_ok : list Z -> Z -> bool) (shutdown_ok : Z -> bool).
Context (realloc : EggBufferAllocator) (garbage : Z).
Abbreviation state := (W * list SessionState)%type.

(** The abstract specification of a call: the function of the module is called where
    the application is.  [code] is what it returns. *)
Inductive locally : Api.ApiCall -> state -> Z -> state -> Prop :=
| local_call call fd f st st' rv a :
    forwarded garbage call = Some fd -> fw_ok (fd_call fd) -> fw_local (fd_call fd) M = Some f ->
    zlen (request_of (fd_call fd)) < 268435455 -> f st = ((rv, a), st') -> is_u32 rv ->
    fd_fair fd rv a ->
    locally call st (fd_back fd rv a).1 st'.

Lemma local_code call fd f st st' rv a code :
  forwarded garbage call = Some fd -> fw_ok (fd_call fd) -> fw_local (fd_call fd) M = Some f ->
  zlen (request_of (fd_call fd)) < 268435455 -> f st = ((rv, a), st') -> is_u32 rv ->
  fd_fair fd rv a -> (fd_back fd rv a).1 = code -> locally call st code st'.
Proof. intros ? ? ? ? ? ? ? <-. by eapply local_call. Qed.

(** Calls one after the other, none of which ends with an error that says the device
    is gone. *)
Inductive locally_all : list Api.ApiCall -> state -> list Z -> state -> Prop :=
| local_nil st : locally_all [] st [] st
| local_cons call calls st st1 st2 code codes :
    locally call st code st1 -> gives_up code = false -> locally_all calls st1 codes st2 ->
    locally_all (call :: calls) st (code :: codes) st2.

Definition frames (l : list (list Z)) : list Z := concat (map frame l).

Lemma frames_cons m l : frames (m :: l) = frame m ++ frames l.
Proof. done. Qed.

(** The daemon answers [requests], in the order they come, with [replies]. *)
Definition daemon_serves (requests replies : list (list Z)) (st st' : state) : Prop :=
  forall s buf rest n k, ready_server s -> core (sv_proc s) = st -> zlen buf = 4 ->
    incoming (sv_conn s) = frames requests ++ rest ->
    willing (zlen (frames replies) + n) (sv_conn s) -> 0 <= n ->
    exists buf' s', serve_loop M malloc_ok shutdown_ok (length requests + k) buf s
        = serve_loop M malloc_ok shutdown_ok k buf' s'
      /\ zlen buf' = 4 /\ ready_server s' /\ core (sv_proc s') = st'
      /\ incoming (sv_conn s') = rest
      /\ cn_sent (sv_conn s') = cn_sent (sv_conn s) ++ frames replies
      /\ willing n (sv_conn s').

(** The client that makes [calls] sends [requests], and is given [codes] if it is sent
    [replies]. *)
Definition client_makes (calls : list Api.ApiCall) (requests replies : list (list Z))
    (codes : list Z) : Prop :=
  forall c cs pool rest n, client_ok realloc c -> pkcs11_initialized c = true ->
    call_state_pool c = cs :: pool -> incoming (conn cs) = frames replies ++ rest ->
    willing (zlen (frames requests) + n) (conn cs) -> 0 <= n ->
    runs (fun _ => False) (Api.perform_all realloc garbage calls) (fun codes' c' =>
      codes' = codes /\ client_ok realloc c' /\ pkcs11_initialized c' = true
      /\ exists cs', call_state_pool c' = cs' :: pool /\ incoming (conn cs') = rest
        /\ sent_over (conn cs) (frames requests) (conn cs')) c.

Lemma daemon_serves_more request reply requests replies st st1 st2 :
  daemon_answers M malloc_ok shutdown_ok request reply st st1 ->
  daemon_serves requests replies st1 st2 ->
  daemon_serves (request :: requests) (reply :: replies) st st2.
Proof.
  intros Hone Hall s buf rest n k Hs Hst Hb Hinc Hw Hn. rewrite frames_cons, <- (assoc_L app) in Hinc.
  rewrite frames_cons, zlen_app, zlen_frame, <- Z.add_assoc in Hw.
  pose proof (zlen_nonneg (frames replies)).
  destruct (wp_inv _ _ _ (Hone s buf _ _ Hs Hst Hb Hinc Hw ltac:(lia))) as ([r|] & s1 & Hrun & Ht); [|done].
  destruct Ht as [Hr [Hb1 _] Hst1 Hs1 Hinc1 Hsent1 Hw1].
  destruct (Hall s1 r.2 rest n k Hs1 Hst1 Hb1 Hinc1 Hw1 Hn)
    as (buf' & s' & Hloop & Hb' & Hs' & Hst' & Hinc' & Hsent' & Hw').
  exists buf', s'. split.
  - cbn [length Nat.add serve_loop]. rewrite (net_step _ _ _ _ _ Hrun). destruct r as [[|] b]; [exact Hloop|done].
  - split_and!; try done. by rewrite Hsent', Hsent1, <- (assoc_L app).
Qed.

(** The connection of a call that went well is the first of the pool again. *)
Lemma returned_ok c0 c cs pool q rest ret c' :
  client_ok realloc c -> call_state_pool c = cs :: pool -> gives_up ret = false ->
  returned realloc c0 c pool q rest ret c' ->
  client_ok realloc c' /\ pkcs11_initialized c' = pkcs11_initialized c
  /\ exists cs', call_state_pool c' = cs' :: pool /\ incoming (conn cs') = rest
    /\ sent_over c0 (frame q) (conn cs').
Proof.
  intros [Hall Hn Hmax Hd Hp] Hpool Hg Hr. unfold returned in Hr. rewrite Hg in Hr.
  destruct Hr as (cs' & -> & Hready & Hinc & Hsent). rewrite Hpool in *.
  apply Forall_cons in Hall as [_ Hall]. split; [|split; [done|by exists cs']].
  split; try done; by constructor.
Qed.

Lemma client_makes_more {R A} call (fw : Forward W R A) reply calls requests replies r codes :
  Api.perform realloc garbage call = Api.result (fw_perform fw realloc) ->
  client_gets realloc (fw_perform fw realloc) (request_of fw) reply r -> gives_up r.1 = false ->
  client_makes calls requests replies codes ->
  client_makes (call :: calls) (request_of fw :: requests) (reply :: replies) (r.1 :: codes).
Proof.
  intros Hperf Hone Hg Hall c cs pool rest n Hc Hi Hp Hinc Hw Hn.
  rewrite frames_cons, <- (assoc_L app) in Hinc. rewrite frames_cons, zlen_app, zlen_frame, <- Z.add_assoc in Hw.
  pose proof (zlen_nonneg (frames requests)). pose proof (zlen_nonneg (request_of fw)).
  assert (willing (4 + zlen (request_of fw)) (conn cs)) as Hw1 by (destruct Hw; split; [done|lia]).
  cbn [Api.perform_all]. rewrite Hperf. apply runs_bind, runs_bind.
  eapply runs_mono; [by apply (Hone c cs pool _ Hc Hi Hp Hinc Hw1)|done|].
  intros [ret a] c1 [<- Hr]. cbn [fst] in *. apply runs_ret.
  destruct (returned_ok _ c cs pool _ _ ret c1 Hc Hp Hg Hr) as (Hc1 & Hi1 & cs1 & Hp1 & Hinc1 & Hsent1).
  rewrite Hi in Hi1. apply runs_bind.
  eapply runs_mono; [apply (Hall c1 cs1 pool rest n Hc1 Hi1 Hp1 Hinc1); [|done]|done|].
  { apply (proj2 Hsent1); [lia|]. by rewrite zlen_frame. }
  intros codes' c2 (-> & Hc2 & Hi2 & cs2 & Hp2 & Hinc2 & Hsent2). apply runs_ret. split; [done|].
  split; [done|]. split; [done|]. exists cs2. split_and!; try done. by eapply sent_over_app.
Qed.

Context (HM : module_ok M) (Hmalloc : forall l n, malloc_ok l n = true).
Context (Hok : AllocatorOk realloc) (Hmem : gives_memory realloc).

(** One more call in front of a dialog. *)
Lemma dialog_more call calls st st1 st2 code codes requests replies :
  locally call st code st1 -> gives_up code = false ->
  daemon_serves requests replies st1 st2 -> client_makes calls requests replies codes ->
  exists request reply, daemon_serves (request :: requests) (reply :: replies) st st2
    /\ client_makes (call :: calls) (request :: requests) (reply :: replies) (code :: codes).
Proof.
  intros Hl Hg Hd Hc. destruct Hl as [call fd f st st1 rv a Ht Hargs Hf Hz Hrun Hrv Hfair].
  destruct (forwarded_carried M malloc_ok shutdown_ok Hmalloc realloc Hok Hmem garbage call fd f st st1 rv a)
    as (reply & Ha & Hget); try done.
  exists (request_of (fd_call fd)), reply. split; [by eapply daemon_serves_more|].
  by apply (client_makes_more call (fd_call fd)); [eapply forwarded_performs|..].
Qed.

Lemma dialog_runs_locally calls st codes st' :
  locally_all calls st codes st' ->
  exists requests replies, length requests = length calls
    /\ daemon_serves requests replies st st' /\ client_makes calls requests replies codes.
Proof.
  induction 1 as [st|call calls st st1 st2 code codes Hl Hg _ (requests & replies & Hlen & Hd & Hc)].
  - exists [], []. split; [done|]. split.
    + intros s buf rest n k Hs Hst Hb Hinc Hw _. exists buf, s. split_and!; try done. by rewrite app_nil_r.
    + intros c cs pool rest n Hc Hi Hp Hinc _ _. apply runs_ret. split; [done|]. split; [done|]. split; [done|].
      exists cs. split_and!; try done. by apply sent_over_nothing.
  - destruct (dialog_more call calls st st1 st2 code codes requests replies Hl Hg Hd Hc)
      as (request & reply & Hd' & Hc').
    exists (request :: requests), (reply :: replies). split; [by cbn; rewrite Hlen|done].
Qed.
End Dialogs.

(** ** The thread of a connection *)

(** What becomes of a thread that has answered a dialog: the application is sent the
    [replies], and [st'] is left of the module and the sessions, either to go on with,
    when the network has not said that the application is gone, or to be finished. *)
Definition thread_answered {W} (M : CK_FUNCTION_LIST W) shutdown_ok (sent : list Z)
    (replies : list (list Z)) (st' : W * list SessionState) (r : @ending W) : Prop :=
  match r with
  | Blocked s => cn_sent (sv_conn s) = sent ++ frames replies /\ core (sv_proc s) = st'
  | Served s => cn_sent (sv_conn s) = sent ++ frames replies /\
      exists p, dispatcher_ok p /\ core p = st' /\ call_uninit M shutdown_ok p = Ok (tt, sv_proc s)
  | _ => False
  end.

(** The table of a connection before its first call. *)
Definition fresh_sessions : list SessionState :=
  replicate PKCS11PROXY_MAX_SESSION_COUNT (mkSessionState 0 0).

(** The loop has more turns than there are messages. *)
Lemma length_frames l : (length l <= length (frames l))%nat.
Proof.
  induction l as [|m l IH]; [done|]. rewrite frames_cons, length_app.
  pose proof (zlen_frame m) as Hz. pose proof (zlen_nonneg m). unfold zlen in *. cbn. lia.
Qed.

Section Thread.
Context {W : Type} (M : CK_FUNCTION_LIST W) (malloc_ok : list Z -> Z -> bool) (shutdown_ok : Z -> bool).
Context (realloc : EggBufferAllocator) (Hok : AllocatorOk realloc) (Hmem : gives_memory realloc).

Lemma serve_loop_dialog requests replies s st' stack :
  daemon_serves M malloc_ok shutdown_ok requests replies (core (sv_proc s)) st' ->
  ready_server s -> zlen stack = 4 -> incoming (sv_conn s) = frames requests ->
  willing (zlen (frames replies)) (sv_conn s) ->
  exists r s', serve_loop M malloc_ok shutdown_ok (serve_fuel (sv_conn s)) stack s = Ok (r, s')
    /\ r <> Some false /\ dispatcher_ok (sv_proc s') /\ core (sv_proc s') = st'
    /\ cn_sent (sv_conn s') = cn_sent (sv_conn s) ++ frames replies.
Proof.
  intros Hd Hs Hz Hinc Hw.
  pose proof (stream_size (cn_transport (sv_conn s)) (cn_recv (sv_conn s))) as Hsz.
  change (stream _ _) with (incoming (sv_conn s)) in Hsz. rewrite Hinc in Hsz.
  pose proof (length_frames requests) as Hl. unfold serve_fuel. set (f := sum_list_with _ _) in *.
  replace (S f) with (length requests + S (f - length requests))%nat by lia.
  destruct (Hd s stack [] 0 (S (f - length requests)) Hs eq_refl Hz) as
    (buf & s1 & -> & Hz1 & [Hs1 _ _] & Hc1 & Hinc1 & Hsent1 & _); [by rewrite app_nil_r|by rewrite Z.add_0_r|done|].
  destruct (wp_inv _ _ _ (serve_loop_over M malloc_ok shutdown_ok (f - length requests) buf s1 Hs1 Hz1 Hinc1))
    as (r & s2 & Hrun & Hr).
  exists r, s2. split; [exact Hrun|].
  assert (over s1 s2 /\ r <> Some false) as [(Hd2 & Hc2 & Hsent2 & _) Hne]
    by (destruct r; [by destruct Hr as [-> ?]|done]).
  split; [done|]. split; [done|]. split; congruence.
Qed.

(** The loop is entered. *)
Record entered (sock : Z) (w : W) (others : list OtherDispatcher) (c : Conn) (appid rest : list Z)
    (s : Server W) : Prop := {
  en_ready : ready_server s;
  en_core : core (sv_proc s) = (w, fresh_sessions);
  en_appid : cs_appid (p_cs (sv_proc s)) = decode_appid appid;
  en_sock : cs_sock (p_cs (sv_proc s)) = sock;
  en_others : p_dispatchers (sv_proc s) = others;
  en_receiving : receiving c (sv_conn s);
  en_incoming : incoming (sv_conn s) = rest;
}.

Lemma enter_loop_exact sock start_tls w others c appid rest :
  0 <= sock -> cn_transport c <> Inetd -> (cn_transport c = Tls -> start_tls = true) ->
  zlen appid = 8 -> bytes (incoming c) -> incoming c = appid ++ rest ->
  exists s, enter_loop realloc sock start_tls w others c = Ok (inr s)
    /\ entered sock w others c appid rest s.
Proof.
  intros Hsock Ht Htls Ha Hby Hinc. unfold enter_loop.
  rewrite (proj2 (Z.eqb_neq _ _)) by lia.
  assert (bool_decide (cn_transport c = Tls) && negb start_tls = false) as ->.
  { destruct (cn_transport c); try done. by rewrite Htls. }
  assert (zlen (incoming c) = 8 + zlen rest) as Hzi by (by rewrite Hinc, zlen_app, Ha).
  pose proof (zlen_nonneg rest). assert (length appid = 8%nat) as Hla by (unfold zlen in Ha; lia).
  destruct (wp_inv _ _ _ (cs_read_exact sock (replicate 8 0) c Ht Hsock ltac:(done)
    ltac:(change (zlen (replicate 8 0)) with 8; lia))) as ([r|] & c1 & Hrun & Hr); [|done].
  destruct Hr as (Hr1 & -> & Hinc1). rewrite Hrun, res_bind_ok.
  change (length (replicate 8 0)) with 8%nat in *.
  rewrite Hinc, take_app_length' by done. rewrite Hinc, drop_app_length' in Hinc1 by done.
  destruct (new_message_gives realloc Hok Hmem) as (m & Hm & Hb & Hal).
  unfold call_init. rewrite !Hm, !res_bind_ok. eexists. split; [reflexivity|].
  assert (gives_room m) as Hg by (by exists realloc). pose proof Hr1 as (Ht1 & _ & _).
  split; try done. split; [|done|done]. split; [|cbn; by rewrite Ht1|cbn; rewrite Hinc1].
  - split; try done; cbn; by rewrite ?Hal.
  - rewrite Hinc in Hby. by apply Forall_app in Hby as [_ ?].
Qed.

Lemma thread_serves_dialog sock start_tls stack w others c appid requests replies st' :
  module_ok M -> 0 <= sock -> cn_transport c <> Inetd -> (cn_transport c = Tls -> start_tls = true) ->
  zlen stack = 4 -> zlen appid = 8 -> bytes (incoming c) -> incoming c = appid ++ frames requests ->
  willing (zlen (frames replies)) c ->
  daemon_serves M malloc_ok shutdown_ok requests replies (w, fresh_sessions) st' ->
  exists r, run_dispatch_loop M malloc_ok shutdown_ok realloc sock start_tls stack w others c = Ok r
    /\ thread_answered M shutdown_ok (cn_sent c) replies st' r.
Proof.
  intros HM Hsock Ht Htls Hz Ha Hby Hinc Hw Hd. unfold run_dispatch_loop.
  destruct (enter_loop_exact sock start_tls w others c appid (frames requests)) as
    (s & -> & [Hs Hcore _ _ _ (_ & Hs1 & Hw1) Hinc1]); try done. rewrite res_bind_ok. rewrite <- Hcore in Hd.
  destruct (serve_loop_dialog requests replies s st' stack Hd Hs Hz Hinc1) as
    (r & s' & Hloop & Hne & Hd' & Hc' & Hsent').
  { destruct Hw as [? ?]. split; by rewrite Hs1. }
  rewrite Hloop, res_bind_ok. rewrite Hw1 in Hsent'.
  destruct r as [[|]|]; [|done|by eexists].
  destruct (mo_C_CloseSession _ HM) as [f Hclose].
  destruct (wp_inv _ _ _ (call_uninit_spec M shutdown_ok f _ Hclose Hd')) as ([] & p & E & _).
  rewrite E. eexists. split; [done|]. split; [done|by exists (sv_proc s')].
Qed.
End Thread.

(** * Properties *)

(** C3: an application that makes its calls over the proxy cannot tell it from the
    module.  Take calls that the module itself, called where the application is, answers
    with [codes]: then there are requests and replies such that the client library,
    given the replies, sends the requests and returns those codes, call by call; and
    the thread of the daemon, given the application's number and the requests, sends
    the replies, and leaves the module and the sessions of the connection as the calls
    made locally do.  None of the codes says that the device is gone, memory is found,
    and the network carries what is sent. *)
Theorem dialog_over_proxy {W} (M : CK_FUNCTION_LIST W) malloc_ok shutdown_ok
    client_realloc daemon_realloc garbage calls w codes st' :
  module_ok M -> (forall l n, malloc_ok l n = true) ->
  AllocatorOk client_realloc -> gives_memory client_realloc ->
  AllocatorOk daemon_realloc -> gives_memory daemon_realloc ->
  locally_all M garbage calls (w, fresh_sessions) codes st' ->
  exists requests replies, length requests = length calls
    /\ client_makes client_realloc garbage calls requests replies codes
    /\ forall sock start_tls stack others c appid,
         0 <= sock -> cn_transport c <> Inetd -> (cn_transport c = Tls -> start_tls = true) ->
         zlen stack = 4 -> zlen appid = 8 -> bytes (incoming c) ->
         incoming c = appid ++ frames requests -> willing (zlen (frames replies)) c ->
         exists r, run_dispatch_loop M malloc_ok shutdown_ok daemon_realloc sock start_tls stack
                     w others c = Ok r
           /\ thread_answered M shutdown_ok (cn_sent c) replies st' r.
Proof.
  intros HM Hmalloc Hok Hmem Hok2 Hmem2 Hall.
  destruct (dialog_runs_locally M malloc_ok shutdown_ok client_realloc garbage HM Hmalloc Hok Hmem
    calls _ codes st' Hall) as (requests & replies & Hlen & Hd & Hc).
  exists requests, replies. split; [done|]. split; [done|]. intros.
  by eapply (thread_serves_dialog M malloc_ok shutdown_ok daemon_realloc); eassumption.
Qed.

(** The slots are listed, a session is opened, something signed in it, random bytes are
    wanted, and all sessions of the slot are closed. *)
Definition sample_sign : Api.ApiCall := Api.C_Sign 1 (Some [9; 8; 7]) 3 (Some [0; 0]) (Some 2).
Definition sample_slots : Api.ApiCall := Api.C_GetSlotList 1 (Some [0; 0]) (Some 2).
Definition sample_dialog : list Api.ApiCall :=
  [sample_slots; Api.C_OpenSession 4 6 (Some 0); sample_sign;
   Api.C_SeedRandom 1 (Some [5]) 1; Api.C_GenerateRandom 1 (Some [0; 0; 0]) 3;
   Api.C_CloseAllSessions 4].

(** The sessions while that one is open, and after it. *)
Definition one_session : list SessionState := <[0%nat := mkSessionState 1 4]> fresh_sessions.
(** An entry that is free keeps its slot. *)
Definition session_gone : list SessionState := <[0%nat := mkSessionState 0 4]> fresh_sessions.

Lemma sample_sign_ok :
  is_u64 1 /\ bytes_arg (Some [9; 8; 7]) 3 /\ buffer_arg (Some [0; 0]) 2.
Proof.
  split; [done|]. split; [|split; [done|by intros ? [= <-]]].
  split; [|done]. split; [|done]. intros bs [= <-]. split; [by repeat constructor|done].
Qed.

(** What is asked of the arguments and of the results, for calls that are given. *)
Ltac sample_ok :=
  cbn [fd_call fd_fair of_plain of_handle of_bytes of_ulongs of_random fw_ok fw_args];
  unfold bytes_arg, buffer_arg, numbers_arg, short_array, array_arg, room, ulongs_honest, bytes_honest;
  repeat match goal with
    | |- _ /\ _ => split
    | |- forall _, _ => intro
    | H : _ = Some _ |- _ => vm_compute in H; injection H as <-
    end;
  solve [done | lia | cbn; lia | by repeat constructor].

Lemma sample_dialog_local :
  locally_all toy_module 0 sample_dialog (mkToy 0 [], fresh_sessions)
    (replicate 6 CKR_OK) (mkToy 1 [1], session_gone).
Proof.
  do 6 (eapply local_cons; [eapply local_code;
    [reflexivity| |reflexivity|reflexivity|reflexivity|done| |reflexivity]; sample_ok|done|]).
  apply local_nil.
Qed.

Lemma dialog_over_proxy_witness :
  exists requests replies, length requests = length sample_dialog
    /\ client_makes sample_realloc 0 sample_dialog requests replies (replicate 6 CKR_OK)
    /\ forall sock start_tls stack others c appid,
         0 <= sock -> cn_transport c <> Inetd -> (cn_transport c = Tls -> start_tls = true) ->
         zlen stack = 4 -> zlen appid = 8 -> bytes (incoming c) ->
         incoming c = appid ++ frames requests -> willing (zlen (frames replies)) c ->
         exists r, run_dispatch_loop toy_module (fun _ _ => true) shuts_down sample_realloc sock
                     start_tls stack (mkToy 0 []) others c = Ok r
           /\ thread_answered toy_module shuts_down (cn_sent c) replies (mkToy 1 [1], session_gone) r.
Proof.
  apply (dialog_over_proxy toy_module (fun _ _ => true) shuts_down sample_realloc sample_realloc 0
    sample_dialog (mkToy 0 [])).
  - apply toy_module_ok.
  - reflexivity.
  - apply _.
  - apply sample_realloc_gives.
  - apply _.
  - apply sample_realloc_gives.
  - apply sample_dialog_local.
Defined.

(** Calls that return bytes, over the proxy: for each of the eighteen calls of the
    table, and whatever its arguments, if the module called with them returns [rv] and
    leaves [a] in the space it is given, then the daemon answers the request of the call
    with a reply with which the client's function returns that: the bytes at the
    beginning of the caller's space and their number if [rv] is [CKR_OK]; the number
    alone if the space is too small, and [CKR_OK] then for a caller who only asked for
    it; the code alone for any other error.  The module and the sessions are left as a
    local call leaves them. *)
Theorem bytes_calls_forwarded {W} (M : CK_FUNCTION_LIST W) malloc_ok shutdown_ok realloc
    call fw f st st' rv a :
  (forall l n, malloc_ok l n = true) -> AllocatorOk realloc -> gives_memory realloc -> module_ok M ->
  bytes_call call = Some fw -> fw_ok fw -> fw_local fw M = Some f ->
  zlen (request_of fw) < 268435455 -> f st = ((rv, a), st') -> is_u32 rv ->
  bytes_honest (fw_args fw) rv a ->
  carried M malloc_ok shutdown_ok realloc fw st st' (bytes_result (fw_args fw) rv a).
Proof.
  intros Hmalloc Hok Hmem HM Hc Hargs Hf Hz Hrun Hrv Hh.
  by apply (forwarded_carried M malloc_ok shutdown_ok Hmalloc realloc Hok Hmem 0 call (of_bytes fw) f);
    [|apply bytes_call_forwarded|..].
Qed.

Lemma bytes_calls_forwarded_witness :
  exists fw, bytes_call sample_sign = Some fw /\ carried toy_module (fun _ _ => true) shuts_down
    sample_realloc fw (mkToy 1 [], one_session) (mkToy 1 [], one_session)
    (CKR_OK, (Some [3; 0], Some 1)).
Proof.
  eexists. split; [reflexivity|].
  eapply (bytes_calls_forwarded toy_module (fun _ _ => true) shuts_down sample_realloc sample_sign _
    _ (mkToy 1 [], one_session) (mkToy 1 [], one_session) CKR_OK (Some [3; 255], Some 1) (fun _ _ => eq_refl)
    _ sample_realloc_gives toy_module_ok eq_refl); try reflexivity; [|done|].
  - apply sample_sign_ok.
  - split; [done|]. intros _. split; [done|]. cbn. lia.
Defined.

(** Calls that return a number, over the proxy: a session opened, an object made,
    a key, the size of an object, a slot.  If the module called where the application is
    returns [rv] and [h], the daemon answers with a reply with which the client's function
    returns [rv] and, if it is [CKR_OK], stores [h].  For [C_OpenSession] the table of
    the connection may say otherwise: when it is full the session is not kept and the
    application gets [CKR_SESSION_COUNT]. *)
Theorem handle_calls_forwarded {W} (M : CK_FUNCTION_LIST W) malloc_ok shutdown_ok realloc
    call fw f st st' rv h :
  (forall l n, malloc_ok l n = true) -> AllocatorOk realloc -> gives_memory realloc ->
  handle_call call = Some fw -> fw_ok fw -> fw_local fw M = Some f ->
  zlen (request_of fw) < 268435455 -> f st = ((rv, h), st') -> is_u32 rv -> is_u64 h ->
  carried M malloc_ok shutdown_ok realloc fw st st' (handle_result (fw_args fw) rv h).
Proof. intros. by apply (handle_carried M malloc_ok shutdown_ok) with (call := call) (f := f). Qed.

Lemma handle_calls_forwarded_witness :
  exists fw, handle_call (Api.C_OpenSession 4 6 (Some 0)) = Some fw
    /\ carried toy_module (fun _ _ => true) shuts_down sample_realloc fw
         (mkToy 0 [], fresh_sessions) (mkToy 1 [], one_session) (CKR_OK, Some 1).
Proof.
  eexists. split; [reflexivity|].
  eapply (handle_calls_forwarded toy_module (fun _ _ => true) shuts_down sample_realloc
    (Api.C_OpenSession 4 6 (Some 0)) _ _ (mkToy 0 [], fresh_sessions) (mkToy 1 [], one_session)
    CKR_OK 1 (fun _ _ => eq_refl) _ sample_realloc_gives eq_refl);
    try reflexivity; vm_compute; intuition discriminate.
Defined.

(** C10: every call that is forwarded, over the proxy: sixty-five of the functions of the
    API, all but [C_Initialize] and [C_Finalize], whatever their arguments, as long as
    these are as the standard says and no pointer is null that may not be.  If the module
    called with the arguments returns [rv] and leaves [a], then the daemon answers the
    request of the call with a reply with which the client's function returns the code
    and leaves the objects that [fd_back] says: the structure, the numbers, the handles,
    the attributes, the bytes of the module at their place in the caller's objects.  The
    module and the sessions are left as a local call leaves them. *)
Theorem calls_forwarded {W} (M : CK_FUNCTION_LIST W) malloc_ok shutdown_ok realloc garbage
    call fd f st st' rv a :
  (forall l n, malloc_ok l n = true) -> AllocatorOk realloc -> gives_memory realloc -> module_ok M ->
  forwarded garbage call = Some fd -> fw_ok (fd_call fd) -> fw_local (fd_call fd) M = Some f ->
  zlen (request_of (fd_call fd)) < 268435455 -> f st = ((rv, a), st') -> is_u32 rv ->
  fd_fair fd rv a ->
  carried M malloc_ok shutdown_ok realloc (fd_call fd) st st' (fd_back fd rv a).
Proof. intros. by apply (forwarded_carried M malloc_ok shutdown_ok) with (garbage := garbage) (call := call) (f := f). Qed.

Lemma calls_forwarded_witness :
  exists fw, forwarded 0 sample_slots = Some (of_ulongs 2 fw)
    /\ carried toy_module (fun _ _ => true) shuts_down sample_realloc fw
         (mkToy 0 [], fresh_sessions) (mkToy 0 [], fresh_sessions) (CKR_OK, (Some [7; 0], Some 1)).
Proof.
  eexists. split; [reflexivity|].
  eapply (calls_forwarded toy_module (fun _ _ => true) shuts_down sample_realloc 0 sample_slots
    (of_ulongs 2 _) _ (mkToy 0 [], fresh_sessions) (mkToy 0 [], fresh_sessions) CKR_OK
    (Some [7; CK_ULONG_MINUS_1], 1) (fun _ _ => eq_refl) _ sample_realloc_gives toy_module_ok eq_refl).
  - sample_ok.
  - reflexivity.
  - reflexivity.
  - reflexivity.
  - done.
  - sample_ok.
Defined.
