(* ===== verification/Lifetime.v ===== *)
(** The life of an application that uses the proxy: [C_Initialize], which makes the
    connection, calls of the API, and [C_Finalize], against the thread of the daemon that
    serves the connection from its first byte to its last. *)
From S2P Require Import Prelude EggBuffer Pkcs11 RpcUtil Calls Message.
From S2P Require Import DispatchProto Dispatch DispatchReads DispatchReplies DispatchProps.
From S2P Require Import Transport Server ServeExact CString ModuleArgs.
From S2P Require Import Client ClientProto ClientCalls ClientSpecs ClientReads ClientRun ClientReplies ClientMacros ClientPool ClientExact ClientProps ClientErrors.
From S2P Require Import Remote RemoteServer RemoteClient RemoteResults Forwarding EndToEnd.

(** ** The daemon *)

(** What [C_Initialize] asks, and what is answered. *)
Definition handshake_part : part := PBytes (Some (string_bytes GCK_RPC_HANDSHAKE)) GCK_RPC_HANDSHAKE_LEN.
Definition initialize_request : list Z := header GCK_RPC_CALL_C_Initialize (Some "ay"%string) ++ enc_parts [handshake_part].
Definition finalize_request : list Z := header GCK_RPC_CALL_C_Finalize (Some ""%string).

Section Daemon.
Context {W : Type} (M : CK_FUNCTION_LIST W) (malloc_ok : list Z -> Z -> bool) (shutdown_ok : Z -> bool).
Abbreviation state := (W * list SessionState)%type.

(** The handshake is that of the client library, and nothing changes. *)
Lemma initialize_answers :
  answers GCK_RPC_CALL_C_Initialize (call_handler M malloc_ok shutdown_ok GCK_RPC_CALL_C_Initialize)
    [handshake_part] (fun st : state => ((CKR_OK, []), st)).
Proof.
  intros sg s code out c' Hs Hu Hg [= <- <- <-] Hfit.
  change (call_handler M malloc_ok shutdown_ok GCK_RPC_CALL_C_Initialize) with (@Dispatch.rpc_C_Initialize W).
  unfold Dispatch.rpc_C_Initialize. apply wp_bind.
  eapply wp_mono; [apply (IN_BYTE_ARRAY_reads GCK_RPC_CALL_C_Initialize (Some (string_bytes GCK_RPC_HANDSHAKE))
    GCK_RPC_HANDSHAKE_LEN) with (E := fun _ _ => False) (ps := []) (out := []) (sg := sg) (r := sg); try done|].
  - split; [intros bs [= <-]; split; [apply string_bytes_bytes|by vm_compute]|by vm_compute].
  - intros [[arr n]|rv] s1; [|done]. intros ([= -> ->] & Hsame & Hs1 & _).
    apply wp_bind, wp_get. destruct (Hfit eq_refl) as [<- _].
    apply wp_bind, wp_assert.
    + destruct (sv_req_sig _ _ _ _ _ _ Hs1) as [_ Hv]. unfold gck_rpc_message_is_verified. by rewrite Hv.
    + apply wp_ret, replied_alone. split; [by vm_compute| |by eapply sv_base|by intros _].
      by destruct s as [[] ? ?].
Qed.

(** The sessions of the connection are closed in the module. *)
Definition finalized (f : Z -> mfun W unit) (st : state) : Z * state :=
  let '(r, l, w) := close_each f is_open (fun _ => false) st.2 st.1 in (r, (w, l)).

Lemma finalize_answers f :
  C_CloseSession M = Some f ->
  answers GCK_RPC_CALL_C_Finalize (call_handler M malloc_ok shutdown_ok GCK_RPC_CALL_C_Finalize) []
    (fun st => let '(r, st') := finalized f st in ((r, []), st')).
Proof.
  intros Hf sg s code out c' Hs Hu Hg He Hfit.
  change (call_handler M malloc_ok shutdown_ok GCK_RPC_CALL_C_Finalize) with (Dispatch.rpc_C_Finalize M shutdown_ok).
  pose proof (finalize_sessions_spec M f (sessions s) [] s Hf eq_refl) as H.
  pose proof (length_close_each f is_open (fun _ => false) (sessions s) (p_module s)) as Hlen.
  unfold finalized in He. cbn [core fst snd length app] in *.
  destruct (close_each _ _ _ _ _) as [[r l] w]. injection He as <- <- <-. cbn [fst snd] in Hlen.
  rewrite (length_sessions _ _ _ _ _ _ Hs) in H, Hlen. unfold Dispatch.rpc_C_Finalize. apply wp_bind.
  eapply wp_intro; [exact H|]. apply wp_bind, wp_modify, wp_ret. cbn [app].
  set (s1 := set_dispatchers _ _). exists (p_dispatchers s1). split; [right; by exists shutdown_ok|].
  assert (serving GCK_RPC_CALL_C_Finalize sg EmptyString [] sg s1) as Hs1
    by (apply set_dispatchers_serving, set_module_serving, set_sessions_serving; done).
  split; [done|by destruct s as [[] ? ?]|by eapply sv_base|].
  intros Hr. destruct (Hfit Hr) as [<- _]. done.
Qed.

Definition initialize_reply : list Z := header GCK_RPC_CALL_C_Initialize (Some ""%string).

Lemma initialize_asks : asks GCK_RPC_CALL_C_Initialize [handshake_part].
Proof. split; [done|]. split; [by vm_compute|]. by eexists. Qed.
Lemma finalize_asks : asks GCK_RPC_CALL_C_Finalize [].
Proof. split; [done|]. split; [by vm_compute|]. by eexists. Qed.

Lemma initialize_request_bytes : initialize_request = call_bytes GCK_RPC_CALL_C_Initialize [handshake_part].
Proof.
  unfold initialize_request, call_bytes. by assert (sigs_of [handshake_part] = "ay"%string) as -> by done.
Qed.
Lemma finalize_request_bytes : finalize_request = call_bytes GCK_RPC_CALL_C_Finalize [].
Proof. symmetry. apply app_nil_r. Qed.

Lemma initialize_processes st :
  processes M malloc_ok shutdown_ok GCK_RPC_CALL_C_Initialize [handshake_part] initialize_reply st st.
Proof.
  intros buf s Hs Hp <-. unfold initialize_reply.
  rewrite <- (app_nil_r (header GCK_RPC_CALL_C_Initialize (Some ""%string))).
  change (header GCK_RPC_CALL_C_Initialize (Some ""%string) ++ [])
    with (reply_bytes GCK_RPC_CALL_C_Initialize CKR_OK []).
  eapply (process_request_exact M malloc_ok shutdown_ok GCK_RPC_CALL_C_Initialize _ "" [handshake_part] _ CKR_OK []);
    [reflexivity|reflexivity|reflexivity|apply initialize_answers|reflexivity| |done..].
  intros _. split; [done|]. by vm_compute.
Qed.

Lemma finalize_processes f st st' :
  C_CloseSession M = Some f -> finalized f st = (CKR_OK, st') ->
  processes M malloc_ok shutdown_ok GCK_RPC_CALL_C_Finalize [] finalize_request st st'.
Proof.
  intros Hf Hfin buf s Hs Hp Hst. pose proof (finalize_answers f Hf) as Ha.
  rewrite finalize_request_bytes.
  change (call_bytes GCK_RPC_CALL_C_Finalize []) with (reply_bytes GCK_RPC_CALL_C_Finalize CKR_OK []).
  eapply (process_request_exact M malloc_ok shutdown_ok GCK_RPC_CALL_C_Finalize _ "" [] _ CKR_OK [] st');
    [reflexivity|reflexivity|reflexivity|exact Ha| | |done..].
  - rewrite Hst. by rewrite Hfin.
  - intros _. split; [done|]. by vm_compute.
Qed.

Lemma daemon_initialize st :
  daemon_answers M malloc_ok shutdown_ok initialize_request initialize_reply st st.
Proof.
  rewrite initialize_request_bytes.
  apply (processes_daemon M malloc_ok shutdown_ok); [apply initialize_asks|apply initialize_processes].
Qed.

Lemma daemon_finalize f st st' :
  C_CloseSession M = Some f -> finalized f st = (CKR_OK, st') ->
  daemon_answers M malloc_ok shutdown_ok finalize_request finalize_request st st'.
Proof.
  intros Hf Hfin. rewrite finalize_request_bytes at 1. apply (processes_daemon M malloc_ok shutdown_ok); [apply finalize_asks|].
  by eapply finalize_processes.
Qed.

Lemma frames_app l1 l2 : frames (l1 ++ l2) = frames l1 ++ frames l2.
Proof. unfold frames. by rewrite map_app, concat_app. Qed.

Lemma daemon_serves_app requests1 requests2 replies1 replies2 st st1 st2 :
  daemon_serves M malloc_ok shutdown_ok requests1 replies1 st st1 ->
  daemon_serves M malloc_ok shutdown_ok requests2 replies2 st1 st2 ->
  daemon_serves M malloc_ok shutdown_ok (requests1 ++ requests2) (replies1 ++ replies2) st st2.
Proof.
  intros H1 H2 s buf rest n k Hs Hst Hb Hinc Hw Hn. rewrite frames_app, <- (assoc_L app) in Hinc.
  rewrite frames_app, zlen_app, <- Z.add_assoc in Hw. pose proof (zlen_nonneg (frames replies2)).
  destruct (H1 s buf _ _ (length requests2 + k)%nat Hs Hst Hb Hinc Hw ltac:(lia))
    as (buf1 & s1 & Hloop1 & Hb1 & Hs1 & Hst1 & Hinc1 & Hsent1 & Hw1).
  destruct (H2 s1 buf1 rest n k Hs1 Hst1 Hb1 Hinc1 Hw1 Hn)
    as (buf2 & s2 & Hloop2 & Hb2 & Hs2 & Hst2 & Hinc2 & Hsent2 & Hw2).
  exists buf2, s2. rewrite length_app, <- Nat.add_assoc, Hloop1, Hloop2. split_and!; try done.
  by rewrite Hsent2, Hsent1, frames_app, (assoc_L app).
Qed.

(** One call is a dialog. *)
Lemma daemon_serves_one request reply st st' :
  daemon_answers M malloc_ok shutdown_ok request reply st st' ->
  daemon_serves M malloc_ok shutdown_ok [request] [reply] st st'.
Proof.
  intros H. apply (daemon_serves_more M malloc_ok shutdown_ok request reply [] [] st st' st' H).
  intros s buf rest n k Hs Hst Hb Hinc Hw Hn. exists buf, s. split_and!; try done. by rewrite app_nil_r.
Qed.
End Daemon.

(** ** The client library *)

Section Client.
Context (realloc : EggBufferAllocator) (Hok : AllocatorOk realloc) (Hmem : gives_memory realloc).
Abbreviation sure := (runs (fun _ => False)).

(** The calls that are not written with the macros, over a connection [cs] that
    [call_lookup] gives. *)
Lemma plain_call_exact id row sgq ps write c c1 cs pool rest :
  0 < id < GCK_RPC_CALL_MAX -> gck_rpc_call id = Ok row -> c_request row = Some sgq ->
  c_response row = Some EmptyString ->
  call_lookup c = Ok (Some (inl cs), set_pool pool (n_call_state_pool c1 - 1) c1) ->
  ready realloc cs -> 0 < n_call_state_pool c1 <= MAX_CALL_STATE_POOL ->
  (forall cs' m, composing realloc id sgq (conn cs) sgq [] cs' -> req cs' = Some m ->
     wp write (fun ok m' => ok = true
       /\ composing realloc id sgq (conn cs) EmptyString ps (set_req (Some m') cs')) m) ->
  willing (4 + zlen (request_bytes id sgq ps)) (conn cs) ->
  incoming (conn cs) = frame (header id (Some EmptyString)) ++ rest ->
  sure (ClientCalls.plain_call realloc id write)
    (fun ret c' => ret = CKR_OK /\ returned realloc (conn cs) c1 pool (request_bytes id sgq ps) rest CKR_OK c') c.
Proof.
  intros Hid Hrow Hsgq Hsgp Hlook Hcs Hn Hwrite Hw Hinc. unfold ClientCalls.plain_call, plain_job, runs, wp.
  rewrite (net_step _ _ _ _ _ Hlook). set (c2 := set_pool pool _ c1).
  assert (sure (ret ← call_prepare realloc id; if negb (ret =? CKR_OK) then mret ret else
      ok ← net (on_req write); if negb ok then mret CKR_HOST_MEMORY else call_run realloc)
    (fun ret cs' => ret = CKR_OK
       /\ reply_at realloc (conn cs) (request_bytes id sgq ps) rest EmptyString [] cs') cs) as Hrun.
  { eapply runs_then; [by apply (call_prepare_runs realloc id row sgq Hid Hrow Hsgq (conn cs) Hok Hmem)|].
    intros ret cs1 [-> Hco]. change (negb (CKR_OK =? CKR_OK)) with false. cbn match.
    destruct (co_req _ _ _ _ _ _ _ Hco) as (m & Hm & _).
    eapply runs_on_req; [exact Hm|by apply Hwrite|]. intros ok m' [-> Hco']. cbn [negb].
    rewrite <- (app_nil_r (header id (Some EmptyString))) in Hinc.
    assert (is_u32 (zlen (header id (Some EmptyString) ++ []))) as Hz.
    { rewrite app_nil_r. unfold header. rewrite zlen_app, zlen_enc_uint32. by vm_compute. }
    pose proof (PROCESS_CALL_reply realloc Hok Hmem id row sgq EmptyString Hid Hrow Hsgp (conn cs) ps _ [] rest
      Hco' Hw Hz Hinc) as H.
    unfold runs, wp, PROCESS_CALL, mbind, Net_bind in H |- *.
    destruct (call_run realloc (set_req (Some m') cs1)) as [[[ret|] cs2]|]; try done.
    cbn in H. destruct H as [Hr Hra]. by destruct (Z.eqb_spec ret CKR_OK). }
  destruct (wp_inv _ _ _ Hrun) as ([ret|] & cs2 & Hr & Hpost); [|done]. destruct Hpost as [-> Hra].
  rewrite (net_step _ _ _ (CKR_OK, cs2) c2) by (unfold with_call; by rewrite Hr).
  eapply runs_then.
  - apply (call_done_exact realloc (conn cs) (request_bytes id sgq ps) rest cs2 CKR_OK c1 pool); [apply Hra| |lia|lia].
    intros _. by exists [].
  - intros ret c3 [-> Hret]. by apply runs_ret.
Qed.

Lemma write_handshake_exact c0 cs m :
  composing realloc GCK_RPC_CALL_C_Initialize "ay" c0 "ay" [] cs -> req cs = Some m ->
  wp (gck_rpc_message_write_byte_array (Some (string_bytes GCK_RPC_HANDSHAKE)) GCK_RPC_HANDSHAKE_LEN)
    (fun ok m' => ok = true /\
       composing realloc GCK_RPC_CALL_C_Initialize "ay" c0 EmptyString [handshake_part] (set_req (Some m') cs)) m.
Proof.
  intros Hc Hm.
  destruct (composing_takes realloc GCK_RPC_CALL_C_Initialize "ay" c0 handshake_part "ay" EmptyString [] cs m Hc Hm eq_refl)
    as (Hclean & _ & Ht).
  assert (array_arg (Some (string_bytes GCK_RPC_HANDSHAKE)) GCK_RPC_HANDSHAKE_LEN) as Harg.
  { intros bs [= <-]. split; [apply string_bytes_bytes|]. by vm_compute. }
  assert (room_for (buffer m) (zlen (enc_part handshake_part))) as Hroom.
  { apply (composing_room realloc Hmem GCK_RPC_CALL_C_Initialize "ay" c0 handshake_part "ay" [] cs m Hc Hm). by vm_compute. }
  eapply wp_mono; [by apply (write_byte_array_sends _ _ Harg m (Some EmptyString))|].
  intros ok m' [Hp Hf].
  assert (eb_failures (buffer m') = 0) as Hf0.
  { destruct Hp as (b & -> & Hb). pose proof (lt_room _ _ _ Hb Hroom) as E. destruct Hclean. cbn in *. congruence. }
  split; [by apply Hf|].
  by apply (composing_put realloc GCK_RPC_CALL_C_Initialize "ay" c0 handshake_part "ay" EmptyString [] cs m m').
Qed.

(** Where an attempt to connect leads: a socket, and TLS over it for a tls:// path. *)
Definition dial_works (d : dialled) (path : string) (t : transport) : Prop :=
  d_calloc d = true /\
  match remote_path path with
  | Some (tls, rest) =>
      let '(ok, host, port) := gck_rpc_parse_host_port (d_strdup d) rest in
      ok = true /\ is_Some (d_socket d (Inet host port)) /\ t = (if tls then Tls else Socket)
      /\ (tls = true -> d_tls_calloc d = true /\ d_init_tls_psk d = true /\ d_start_tls d = true)
  | None => is_Some (d_socket d (Unix path)) /\ t = Socket
  end.

(** The connection when it has just been made. *)
Definition fresh_conn (t : transport) (d : dialled) : Conn := mkConn t (d_recv d) (d_send d) [].

Lemma call_connect_exact path app_id d t n :
  dial_ok d -> dial_works d path t -> path <> EmptyString -> 0 <= n -> willing (8 + n) (fresh_conn t d) ->
  sure (call_connect path app_id d) (fun rv cs => rv = CKR_OK /\ ready realloc cs
    /\ incoming (conn cs) = stream t (d_recv d)
    /\ sent_over (fresh_conn t d) (encode_appid app_id) (conn cs)) new_call.
Proof.
  intros [Hsock Hstream] [_ Hd] Hpath Hn Hw. unfold call_connect. apply runs_get.
  apply runs_assert; [done|]. apply runs_assert; [done|].
  apply runs_assert; [by apply negb_true_iff, bool_decide_eq_false|].
  assert (forall sock a, d_socket d a = Some sock ->
    sure (net (put_st (mkCall sock (fresh_conn t d) (req new_call) (resp new_call) CALL_READY));;
          call_write (encode_appid app_id))
      (fun rv cs => rv = CKR_OK /\ ready realloc cs /\ incoming (conn cs) = stream t (d_recv d)
         /\ sent_over (fresh_conn t d) (encode_appid app_id) (conn cs)) new_call) as Hconnected.
  { intros sock a Ha. apply runs_bind, runs_net, wp_put. set (cs := mkCall _ _ _ _ _).
    assert (socket cs <> -1) as Hs by (intros Hs; apply (Hsock a); by rewrite Ha, <- Hs).
    eapply runs_mono; [apply (call_write_runs true (encode_appid app_id) n cs); done|done|].
    intros rv cs' ((Hrq & Hrp & Hst & Ht) & Hr & [(-> & Hs' & Hsent & _)|[_ ?]]); [|done].
    assert (incoming (conn cs') = stream t (d_recv d)) as Hinc by (unfold incoming; by rewrite Hr, Ht).
    split; [done|]. split; [|by split].
    split; [split; [by rewrite Hrq|by rewrite Hrp]| |by rewrite Hs'|by rewrite Hst].
    unfold link_ok. rewrite Hinc. apply Hstream. }
  destruct (remote_path path) as [[tls rest]|].
  - destruct (gck_rpc_parse_host_port _ rest) as [[ok host] port].
    destruct Hd as (-> & [sock Ha] & -> & Htls). rewrite Ha. destruct tls; cbn [negb].
    + destruct (Htls eq_refl) as (-> & -> & ->). by eapply Hconnected.
    + by eapply Hconnected.
  - destruct Hd as ([sock Ha] & ->). rewrite Ha. by eapply Hconnected.
Qed.

(** The pool is empty: the call is made over a new connection. *)
Lemma lookup_connects c d ds t n :
  client_ok realloc c -> call_state_pool c = [] -> dials c = d :: ds -> pkcs11_socket_path c <> EmptyString ->
  dial_works d (pkcs11_socket_path c) t -> 0 <= n -> willing (8 + n) (fresh_conn t d) ->
  exists cs, call_lookup c = Ok (Some (inl cs), set_dials ds c) /\ ready realloc cs
    /\ incoming (conn cs) = stream t (d_recv d)
    /\ sent_over (fresh_conn t d) (encode_appid (pkcs11_app_id c)) (conn cs).
Proof.
  intros Hc Hpool Hd Hpath Hdw Hn Hw. pose proof (cl_dials _ _ Hc) as Hds. rewrite Hd in Hds.
  apply Forall_cons in Hds as [Hdok _].
  destruct (wp_inv _ _ _ (call_connect_exact (pkcs11_socket_path c) (pkcs11_app_id c) d t n Hdok Hdw Hpath Hn Hw))
    as ([rv|] & cs & Hrun & Hpost); [|done].
  destruct Hpost as (-> & Hready & Hinc & Hsent). exists cs. split; [|done].
  unfold call_lookup. rewrite (net_step _ _ _ c c) by done. pose proof Hready as [_ _ Hsk Hst].
  rewrite (net_step _ _ _ (inl cs) (set_dials ds c)).
  - rewrite (net_step _ _ _ tt (set_dials ds c)) by (by rewrite Hst).
    rewrite (net_step _ _ _ tt (set_dials ds c)); [done|]. by rewrite (proj2 (Z.eqb_neq _ _)).
  - rewrite Hpool, Hd. rewrite (net_step _ _ _ tt (set_dials ds c)) by done.
    rewrite (proj1 Hdw). cbn [negb]. rewrite (net_step _ _ _ (CKR_OK, cs) (set_dials ds c)); [done|].
    unfold with_call. by rewrite Hrun.
Qed.

(** The number by which the daemon knows the application. *)
Definition application_id (p : Process) : Z := wrap64 (Z.lor (Z.shiftl (rand1 p) 32) (rand2 p)).

(** A library that was not initialized, with no connection: [C_Initialize] finds
    settings, and an attempt to connect that works. *)
Record may_start (p : Process) (init_args : option CK_C_INITIALIZE_ARGS) (c : Client) (t : transport)
    (d : dialled) : Prop := {
  ms_ok : client_ok realloc c;
  ms_not : pkcs11_initialized c = false;
  ms_pool : call_state_pool c = [];
  ms_dial : exists ds, dials c = d :: ds;
  ms_settings : exists st st', initialize_args p init_args (settings c) = Ok (inl st)
    /\ initialize_paths p st = inl st' /\ dial_works d (st_socket_path st') t;
}.

(** The library has one connection, over which [bytes] were sent since it was [c0] and
    [rest] is still to come. *)
Definition connected (init : bool) (c0 : Conn) (bytes rest : list Z) (c : Client) : Prop :=
  client_ok realloc c /\ pkcs11_initialized c = init /\ exists cs, call_state_pool c = [cs]
    /\ incoming (conn cs) = rest /\ sent_over c0 bytes (conn cs).

Lemma initialize_exact p init_args c t d n rest :
  may_start p init_args c t d -> 0 <= n -> willing (8 + (4 + zlen initialize_request) + n) (fresh_conn t d) ->
  stream t (d_recv d) = frame (header GCK_RPC_CALL_C_Initialize (Some ""%string)) ++ rest ->
  sure (rpc_C_Initialize realloc p init_args) (fun ret c' => ret = CKR_OK
    /\ connected true (fresh_conn t d) (encode_appid (application_id p) ++ frame initialize_request) rest c') c.
Proof.
  intros [Hc Hi Hpool [ds Hd] (st & st' & Hargs & Hpaths & Hdw)] Hn Hw Hstream.
  pose proof (zlen_nonneg initialize_request).
  unfold rpc_C_Initialize. apply runs_get. eapply runs_lift_res; [exact Hargs|]. rewrite Hi. cbn [andb].
  pose proof (initialize_paths_nonempty p st st' Hpaths) as Hpath.
  set (c2 := set_app_id (application_id p) (set_settings st' (set_settings st c))).
  assert (client_ok realloc c2) as Hc2.
  { pose proof Hc as []. by split. }
  destruct (lookup_connects c2 d ds t (4 + zlen initialize_request + n) Hc2 Hpool Hd Hpath Hdw ltac:(lia))
    as (cs & Hlook & Hready & Hinc & Hsent); [by rewrite Z.add_assoc|].
  set (c3 := set_pool [] 1 (set_dials ds c2)).
  assert (set_dials ds c2 = set_pool [] (n_call_state_pool c3 - 1) c3) as Ec3.
  { unfold c3, c2, set_pool, set_dials. cbn. f_equal; [done|].
    destruct Hc as [_ Hcount _ _ _]. by rewrite Hpool in Hcount. }
  rewrite Ec3 in Hlook.
  eapply (runs_then _ _ _ (fun ret c' => ret = CKR_OK /\ returned realloc (conn cs) c3 [] initialize_request rest CKR_OK c')).
  { apply runs_modify. rewrite Hpaths. apply runs_modify, runs_modify. fold (application_id p). fold c2.
    eapply (plain_call_exact GCK_RPC_CALL_C_Initialize _ "ay" [handshake_part] _ c2 c3 cs [] rest);
      [done|reflexivity|reflexivity|reflexivity|exact Hlook|exact Hready|by cbn| | |].
    - intros cs' m. by apply write_handshake_exact.
    - apply (proj2 Hsent); [apply Z.add_nonneg_nonneg; [done|apply zlen_nonneg]|].
      destruct Hw as [Hw1 Hw2]. split; [exact Hw1|].
      assert (zlen (encode_appid (pkcs11_app_id c2)) = 8) as -> by done.
      change (request_bytes GCK_RPC_CALL_C_Initialize "ay" [handshake_part]) with initialize_request. lia.
    - by rewrite Hinc. }
  intros ret c4 [-> Hret]. unfold returned in Hret. change (gives_up CKR_OK) with false in Hret.
  destruct Hret as (cs' & -> & Hready' & Hinc' & Hsent'). cbn [Z.eqb CKR_OK].
  apply runs_modify, runs_ret. split; [done|]. split; [|split; [done|]].
  - pose proof Hc2 as [_ _ _ Hdials _]. cbn [dials c2 set_app_id set_settings] in Hdials.
    split; cbn; try done; [by constructor|]. rewrite Hd in Hdials. by apply Forall_cons in Hdials as [_ ?].
  - exists cs'. split; [done|]. split; [done|]. by eapply sent_over_app.
Qed.

Lemma finalize_exact c0 sent n rest c :
  connected true c0 sent (frame finalize_request ++ rest) c -> 0 <= n ->
  willing (zlen sent + (4 + zlen finalize_request) + n) c0 ->
  sure (rpc_C_Finalize realloc false) (fun ret c' => ret = CKR_OK
    /\ connected false c0 (sent ++ frame finalize_request) rest c') c.
Proof.
  intros (Hc & Hi & cs & Hpool & Hinc & Hsent) Hn Hw. unfold rpc_C_Finalize. apply runs_get. rewrite Hi. cbn [negb].
  pose proof Hc as [Hall Hcount Hmax Hdials Hpath]. rewrite Hpool in Hall, Hcount. apply Forall_cons in Hall as [Hready _].
  pose proof (zlen_nonneg finalize_request).
  eapply runs_then.
  { eapply (plain_call_exact GCK_RPC_CALL_C_Finalize _ "" [] _ c c cs [] rest);
      [done|reflexivity|reflexivity|reflexivity|by apply (lookup_pool realloc)|exact Hready|by rewrite Hcount| | |exact Hinc].
    - intros cs' m Hco Hm. apply wp_ret. split; [done|].
      assert (set_req (Some m) cs' = cs') as -> by (destruct cs'; cbn in *; by rewrite Hm). done.
    - apply (proj2 Hsent); [apply Z.add_nonneg_nonneg; [done|apply zlen_nonneg]|].
      destruct Hw as [Hw1 Hw2]. split; [exact Hw1|]. unfold request_bytes. rewrite app_nil_r.
      change (header GCK_RPC_CALL_C_Finalize (Some ""%string)) with finalize_request. lia. }
  intros ret c1 [_ Hret]. unfold returned in Hret. change (gives_up CKR_OK) with false in Hret.
  destruct Hret as (cs' & -> & Hready' & Hinc' & Hsent'). apply runs_modify, runs_ret. split; [done|].
  split; [|split; [done|]].
  - split; cbn; try done; by constructor.
  - exists cs'. split; [done|]. split; [done|]. eapply sent_over_app; [exact Hsent|].
    unfold request_bytes in Hsent'. by rewrite app_nil_r in Hsent'.
Qed.
End Client.

(** ** The whole life *)

Lemma perform_all_app {realloc garbage} calls1 calls2 B (Q : list Z -> Client -> Prop) c :
  runs B (Api.perform_all realloc garbage calls1)
    (fun codes1 c1 => runs B (Api.perform_all realloc garbage calls2) (fun codes2 => Q (codes1 ++ codes2)) c1) c ->
  runs B (Api.perform_all realloc garbage (calls1 ++ calls2)) Q c.
Proof.
  revert Q c. induction calls1 as [|call calls1 IH]; intros Q c H.
  - cbn [Api.perform_all app] in *. unfold runs, wp in *. cbn in H. exact H.
  - cbn [Api.perform_all app] in *. unfold runs, wp, mbind, Net_bind in H |- *.
    destruct (Api.perform realloc garbage call c) as [[[ret|] c1]|]; [|done..].
    specialize (IH (fun codes => Q (ret :: codes)) c1). unfold runs, wp in IH.
    destruct (Api.perform_all realloc garbage calls1 c1) as [[[codes1|] c2]|]; [| |done].
    + specialize (IH H). by destruct (Api.perform_all realloc garbage (calls1 ++ calls2) c1) as [[[codes|] c3]|].
    + specialize (IH H). by destruct (Api.perform_all realloc garbage (calls1 ++ calls2) c1) as [[[codes|] c3]|].
Qed.

(** No session is left open by [C_Finalize] when it succeeds. *)
Lemma finalized_closes {W} (f : Z -> mfun W unit) st st' :
  finalized f st = (CKR_OK, st') -> Forall (fun s => session_id s = 0) st'.2.
Proof.
  destruct st as [w l]. unfold finalized. cbn [fst snd].
  destruct (close_each _ _ _ l w) as [[r l'] w'] eqn:E. intros [= -> <-]. cbn [snd].
  revert w l' E. induction l as [|s l IH]; intros w l' E; cbn [close_each] in E; [by injection E as <- _|].
  unfold is_open in E at 1. destruct (Z.eqb_spec (session_id s) 0) as [H0|H0]; cbn [negb] in E.
  - destruct (close_each _ _ _ l w) as [[r l2] w2] eqn:E2. injection E as -> <- ->.
    constructor; [done|by apply (IH w)].
  - destruct (f (session_id s) w) as [[ret u] w1]. destruct (Z.eqb_spec ret CKR_OK) as [->|Hne]; [|congruence].
    destruct (close_each _ _ _ l w1) as [[r l2] w2] eqn:E2. injection E as -> <- ->.
    constructor; [done|by apply (IH w1)].
Qed.

Definition lifetime (p : Process) (init_args : option CK_C_INITIALIZE_ARGS) (calls : list Api.ApiCall)
    : list Api.ApiCall :=
  Api.C_Initialize p init_args :: calls ++ [Api.C_Finalize false].

(** The client library through the life of an application. *)
Definition client_lives realloc garbage (calls : list Api.ApiCall) (requests replies : list (list Z))
    (codes : list Z) : Prop :=
  forall p init_args c t d rest, may_start realloc p init_args c t d ->
    stream t (d_recv d) = frames replies ++ rest -> willing (8 + zlen (frames requests)) (fresh_conn t d) ->
    exists c', Api.perform_all realloc garbage (lifetime p init_args calls) c = Ok (Some codes, c')
      /\ connected realloc false (fresh_conn t d) (encode_appid (application_id p) ++ frames requests) rest c'.

Lemma client_makes_lifetime realloc garbage calls requests replies codes :
  AllocatorOk realloc -> gives_memory realloc -> client_makes realloc garbage calls requests replies codes ->
  client_lives realloc garbage calls (initialize_request :: requests ++ [finalize_request])
    (header GCK_RPC_CALL_C_Initialize (Some ""%string) :: replies ++ [finalize_request])
    (CKR_OK :: codes ++ [CKR_OK]).
Proof.
  intros Hok Hmem Hmakes p init_args c t d rest Hstart Hstream Hw.
  rewrite frames_cons, frames_app, <- (assoc_L app), <- (assoc_L app) in Hstream.
  rewrite frames_cons, frames_app, !zlen_app, zlen_frame in Hw.
  assert (frames [finalize_request] = frame finalize_request) as Ef by (unfold frames; apply app_nil_r).
  rewrite Ef in Hstream, Hw. rewrite zlen_frame in Hw. pose proof (zlen_nonneg (frames requests)).
  pose proof (zlen_nonneg finalize_request).
  assert (runs (fun _ => False) (Api.perform_all realloc garbage (lifetime p init_args calls))
    (fun codes' c' => codes' = CKR_OK :: codes ++ [CKR_OK] /\ connected realloc false (fresh_conn t d)
       (encode_appid (application_id p) ++ frames (initialize_request :: requests ++ [finalize_request])) rest c') c) as Hrun;
    [|destruct (wp_inv _ _ _ Hrun) as ([l|] & c' & E & Hpost); [destruct Hpost as [-> ?]; by exists c'|done]].
  unfold lifetime. cbn [Api.perform_all Api.perform]. apply runs_bind.
  eapply runs_mono; [apply (initialize_exact realloc Hok Hmem p init_args c t d
    (zlen (frames requests) + (4 + zlen finalize_request))
    (frames replies ++ frame finalize_request ++ rest) Hstart); [lia| |exact Hstream]|done|].
  { destruct Hw; split; [done|lia]. }
  intros ret c1 (-> & Hc1 & Hi1 & cs1 & Hp1 & Hinc1 & Hsent1). apply runs_bind, perform_all_app.
  assert (zlen (encode_appid (application_id p)) = 8) as Hz8 by done.
  eapply runs_mono; [apply (Hmakes c1 cs1 [] _ (4 + zlen finalize_request) Hc1 Hi1 Hp1 Hinc1); [|lia]|done|].
  { apply (proj2 Hsent1); [lia|]. rewrite zlen_app, zlen_frame, Hz8. destruct Hw; split; [done|lia]. }
  intros codes1 c2 (-> & Hc2 & Hi2 & cs2 & Hp2 & Hinc2 & Hsent2).
  cbn [Api.perform_all Api.perform]. apply runs_bind.
  assert (sent_over (fresh_conn t d) ((encode_appid (application_id p) ++ frame initialize_request) ++ frames requests)
    (conn cs2)) as Hsent by by eapply sent_over_app.
  eapply runs_mono; [apply (finalize_exact realloc Hok Hmem (fresh_conn t d)
    ((encode_appid (application_id p) ++ frame initialize_request) ++ frames requests) 0 rest c2); [|lia|]|done|].
  { split; [exact Hc2|]. split; [exact Hi2|]. exists cs2. by split_and!. }
  { rewrite !zlen_app, zlen_frame, Hz8. destruct Hw; split; [done|lia]. }
  intros ret c3 [-> Hconn]. apply runs_bind, runs_ret, runs_ret. split; [done|].
  rewrite frames_cons, frames_app, Ef. by rewrite <- !(assoc_L app) in Hconn.
Qed.

Lemma daemon_serves_lifetime {W} (M : CK_FUNCTION_LIST W) malloc_ok shutdown_ok f requests replies st st1 st2 :
  C_CloseSession M = Some f -> finalized f st1 = (CKR_OK, st2) ->
  daemon_serves M malloc_ok shutdown_ok requests replies st st1 ->
  daemon_serves M malloc_ok shutdown_ok (initialize_request :: requests ++ [finalize_request])
    (header GCK_RPC_CALL_C_Initialize (Some ""%string) :: replies ++ [finalize_request]) st st2.
Proof.
  intros Hf Hfin Hd. eapply daemon_serves_more; [apply daemon_initialize|].
  eapply daemon_serves_app; [exact Hd|]. by eapply daemon_serves_one, daemon_finalize.
Qed.

(** * Properties *)

(** C2: an application from [C_Initialize] to [C_Finalize].  Take calls that the module,
    called where the application is, answers with [codes], and sessions that it closes
    without an error afterwards.  Then there are requests and replies such that the
    client library, with no connection at first and an attempt to make one that works,
    returns [CKR_OK], the [codes] and [CKR_OK], if it is sent the replies, and what it has
    sent over its one connection is the number of the application and the requests; and
    such that the thread of the daemon that is given just those bytes, the number and the
    requests, however the network cuts them up, sends just those replies, leaves the
    module as the calls and the closing of the sessions do, and has no session left. *)
Theorem application_over_proxy {W} (M : CK_FUNCTION_LIST W) malloc_ok shutdown_ok
    client_realloc daemon_realloc garbage calls w codes st' f st'' :
  module_ok M -> (forall l n, malloc_ok l n = true) ->
  AllocatorOk client_realloc -> gives_memory client_realloc ->
  AllocatorOk daemon_realloc -> gives_memory daemon_realloc ->
  locally_all M garbage calls (w, fresh_sessions) codes st' ->
  C_CloseSession M = Some f -> finalized f st' = (CKR_OK, st'') ->
  Forall (fun s => session_id s = 0) st''.2 /\
  exists requests replies, length requests = S (S (length calls))
    /\ client_lives client_realloc garbage calls requests replies (CKR_OK :: codes ++ [CKR_OK])
    /\ forall sock start_tls stack others c appid,
         0 <= sock -> cn_transport c <> Inetd -> (cn_transport c = Tls -> start_tls = true) ->
         zlen stack = 4 -> zlen appid = 8 -> bytes (incoming c) ->
         incoming c = appid ++ frames requests -> willing (zlen (frames replies)) c ->
         exists r, run_dispatch_loop M malloc_ok shutdown_ok daemon_realloc sock start_tls stack
                     w others c = Ok r
           /\ thread_answered M shutdown_ok (cn_sent c) replies st'' r.
Proof.
  intros HM Hmalloc Hok Hmem Hok2 Hmem2 Hall Hf Hfin. split; [by eapply finalized_closes|].
  destruct (dialog_runs_locally M malloc_ok shutdown_ok client_realloc garbage HM Hmalloc Hok Hmem
    calls _ codes st' Hall) as (requests & replies & Hlen & Hd & Hc).
  exists (initialize_request :: requests ++ [finalize_request]),
    (header GCK_RPC_CALL_C_Initialize (Some ""%string) :: replies ++ [finalize_request]).
  split; [cbn; rewrite length_app; cbn; lia|]. split; [by apply client_makes_lifetime|]. intros.
  eapply (thread_serves_dialog M malloc_ok shutdown_ok daemon_realloc); try eassumption.
  by eapply daemon_serves_lifetime.
Qed.

(** A session is opened, something is signed in it, and the application ends. *)
Definition short_life : list Api.ApiCall := [Api.C_OpenSession 4 6 (Some 0); sample_sign].
Definition toy_close (h : Z) : mfun toy_state unit :=
  fun w => ((CKR_OK, tt), mkToy (toy_last w) (h :: toy_closed w)).

Lemma short_life_local :
  locally_all toy_module 0 short_life (mkToy 0 [], fresh_sessions) [CKR_OK; CKR_OK] (mkToy 1 [], one_session).
Proof.
  do 2 (eapply local_cons; [eapply local_code;
    [reflexivity| |reflexivity|reflexivity|reflexivity|done| |reflexivity]; sample_ok|done|]).
  apply local_nil.
Qed.

(** A network that lets the application connect. *)
Definition silent_dial : dialled := mkDialled true true (fun _ => Some 3) true true true [] [].
Definition just_loaded : Client := mkClient false 0 0 "" "" [] 0 [silent_dial].

Lemma sample_may_start : may_start sample_realloc sample_process None just_loaded Socket silent_dial.
Proof.
  assert (dial_ok silent_dial) as Hd.
  { split; [done|]. intros t. split; [by destruct t|]. by apply (sane_frames [] []); destruct t. }
  split; [split; first [done|apply Forall_nil_2|by apply Forall_cons_2; [|apply Forall_nil_2]]|done|done|by exists []|].
  eexists _, _. split; [reflexivity|]. split; [reflexivity|]. split; [done|]. vm_compute. split_and!; try done. by exists 3.
Qed.

Lemma application_over_proxy_witness :
  may_start sample_realloc sample_process None just_loaded Socket silent_dial /\
  Forall (fun s => session_id s = 0) session_gone /\
  exists requests replies, length requests = 4%nat
    /\ client_lives sample_realloc 0 short_life requests replies (replicate 4 CKR_OK)
    /\ forall sock start_tls stack others c appid,
         0 <= sock -> cn_transport c <> Inetd -> (cn_transport c = Tls -> start_tls = true) ->
         zlen stack = 4 -> zlen appid = 8 -> bytes (incoming c) ->
         incoming c = appid ++ frames requests -> willing (zlen (frames replies)) c ->
         exists r, run_dispatch_loop toy_module (fun _ _ => true) shuts_down sample_realloc sock
                     start_tls stack (mkToy 0 []) others c = Ok r
           /\ thread_answered toy_module shuts_down (cn_sent c) replies (mkToy 1 [1], session_gone) r.
Proof.
  split; [exact sample_may_start|].
  apply (application_over_proxy toy_module (fun _ _ => true) shuts_down sample_realloc sample_realloc 0
    short_life (mkToy 0 []) [CKR_OK; CKR_OK] (mkToy 1 [], one_session) toy_close (mkToy 1 [1], session_gone)).
  - apply toy_module_ok.
  - reflexivity.
  - apply _.
  - apply sample_realloc_gives.
  - apply _.
  - apply sample_realloc_gives.
  - apply short_life_local.
  - reflexivity.
  - reflexivity.
Defined.
