(* ===== verification/Connections.v ===== *)
(** gck-rpc-dispatch.c: several connections served at once.  Every connection has a thread
    that runs the code of Server a part at a time; the threads share the PKCS#11 module
    and see each other on the list of dispatchers.  In whatever order they go on, their
    applications get what the same calls, made one after the other, would get. *)
From S2P Require Import Prelude EggBuffer Pkcs11 RpcUtil Calls Message.
From S2P Require Import DispatchProto Dispatch DispatchReads DispatchReplies DispatchProps.
From S2P Require Import Transport Server ServeExact Client ClientSpecs ClientReads ClientPool ClientExact ClientProps ClientErrors.
From S2P Require Import Remote RemoteServer RemoteClient RemoteResults Forwarding EndToEnd Lifetime.

(** ** The threads of the daemon *)

(** The parts of [run_dispatch_loop] behind [call_init]: of a turn of the loop, and, when
    it is left, [call_uninit]. *)
Inductive place := Receiving | Processing | Answering | Leaving.

(** A thread that is about to enter [run_dispatch_loop], [start_tls] and [stack] as there;
    one that is in it, with its array [buf]; one that has given everything back; and one
    that waits for ever or did not come to the loop, which others see as [o]. *)
Inductive dispatcher :=
  | Starting (sock : Z) (start_tls : bool) (stack : list Z) (c : Conn)
  | Working (part : place) (buf : list Z) (cs : DispatchProto.CallState) (c : Conn)
  | Gone (appid : Z) (c : Conn)
  | Stopped (o : OtherDispatcher) (c : Conn).

(** What others see of it. *)
Definition seen (d : dispatcher) : OtherDispatcher :=
  match d with
  | Starting sock _ _ _ => mkOther 0 sock None
  | Working _ _ cs _ => mkOther (cs_appid cs) (cs_sock cs) (Some (cs_req cs))
  | Gone appid _ => mkOther appid (-1) None
  | Stopped o _ => o
  end.

(** [c->sock = -1], written by another thread. *)
Definition set_sock (sock : Z) (cs : DispatchProto.CallState) : DispatchProto.CallState :=
  DispatchProto.mkCallState (cs_req cs) (cs_resp cs) (cs_allocated cs) (cs_appid cs) sock (cs_sessions cs).
Definition written (d : dispatcher) (o : OtherDispatcher) : dispatcher :=
  match d with
  | Starting _ start_tls stack c => Starting (od_sock o) start_tls stack c
  | Working part buf cs c => Working part buf (set_sock (od_sock o) cs) c
  | Gone appid c => Gone appid c
  | Stopped o' c => Stopped (mkOther (od_appid o') (od_sock o) (od_req o')) c
  end.

(** The daemon: the module, and the list of dispatchers, here in the order in which they
    were accepted. *)
Record Daemon (W : Type) := mkDaemon { module : W; dispatchers : list dispatcher }.
Arguments mkDaemon {W} _ _.
Arguments module {W} _.
Arguments dispatchers {W} _.

Section Threads.
Context {W : Type} (M : CK_FUNCTION_LIST W) (malloc_ok : list Z -> Z -> bool) (shutdown_ok : Z -> bool).
Context (realloc : EggBufferAllocator).

(** A part of the loop; whether it goes on, and the array. *)
Definition run_part (part : place) (buf : list Z) : Net (Server W) (bool * list Z) :=
  match part with
  | Receiving => take_request buf
  | Processing => process_request M malloc_ok shutdown_ok buf
  | Answering => answer_request
  | Leaving => on_proc (call_uninit M shutdown_ok);; mret (true, buf)
  end.

(** Where the thread is then: a part that does not go on is a [break]. *)
Definition after (part : place) (r : option (bool * list Z)) (s : Server W) : dispatcher :=
  let cs := p_cs (sv_proc s) in
  let c := sv_conn s in
  match r, part with
  | None, _ => Stopped (mkOther (cs_appid cs) (cs_sock cs) (Some (cs_req cs))) c
  | Some _, Leaving => Gone (cs_appid cs) c
  | Some (false, buf), _ => Working Leaving buf cs c
  | Some (true, buf), Receiving => Working Processing buf cs c
  | Some (true, buf), Processing => Working Answering buf cs c
  | Some (true, buf), Answering => Working Receiving buf cs c
  end.

(** The thread [d] goes on, with the module and the list as they are now. *)
Definition dispatcher_step (d : dispatcher) (w : W) (others : list OtherDispatcher)
    : res (W * list OtherDispatcher * dispatcher) :=
  match d with
  | Starting sock start_tls stack c =>
      e ← enter_loop realloc sock start_tls w others c;
      match e with
      | inl (Unserved c | BlockedEarly c) => Ok (w, others, Stopped (mkOther 0 sock None) c)
      | inl _ => Ok (w, others, d)
      | inr s => Ok (w, others, Working Receiving stack (p_cs (sv_proc s)) (sv_conn s))
      end
  | Working part buf cs c =>
      '(r, s) ← run_part part buf (mkServer (mkProc cs w others) c);
      Ok (p_module (sv_proc s), p_dispatchers (sv_proc s), after part r s)
  | Gone _ _ | Stopped _ _ => Ok (w, others, d)
  end.

(** The thread is about to go through the list in [rpc_C_Finalize]. *)
Definition finalizes (d : dispatcher) : bool :=
  match d with
  | Working Leaving _ _ _ => true
  | Working Processing _ cs _ => call_id (cs_req cs) =? GCK_RPC_CALL_C_Finalize
  | _ => false
  end.

(** It comes to a message that was freed. *)
Definition dangling (appid : Z) (d : dispatcher) : bool :=
  match d with Gone appid' _ => appid' =? appid | _ => false end.

(** The thread [i] goes on. *)
Definition step (i : nat) (s : Daemon W) : res (Daemon W) :=
  match dispatchers s !! i with
  | None => Ok s
  | Some d =>
      if finalizes d && existsb (dangling (od_appid (seen d))) (dispatchers s) then Crash OutOfBounds else
      '(w, others, d') ← dispatcher_step d (module s) (map seen (dispatchers s));
      Ok (mkDaemon w (<[i := d']> (zip_with written (dispatchers s) others)))
  end.

(** The threads go on in this order. *)
Fixpoint run (schedule : list nat) (s : Daemon W) : res (Daemon W) :=
  match schedule with
  | [] => Ok s
  | i :: schedule => s ← step i s; run schedule s
  end.
End Threads.

(** ** The abstract specification: one call after the other *)

(** What an application asks of the daemon. *)
Inductive item := Initialize | Call (call : Api.ApiCall) | Finalize.
Definition lifetime_items (calls : list Api.ApiCall) : list item := Initialize :: map Call calls ++ [Finalize].

Section Items.
Context {W : Type} (M : CK_FUNCTION_LIST W) (garbage : Z).
Abbreviation state := (W * list SessionState)%type.

Definition item_id (it : item) : Z :=
  match it with
  | Initialize => GCK_RPC_CALL_C_Initialize
  | Call call => from_option (fun fd : Forwarded W => fw_id (fd_call fd)) 0 (forwarded garbage call)
  | Finalize => GCK_RPC_CALL_C_Finalize
  end.
Definition item_parts (it : item) : list part :=
  match it with
  | Initialize => [handshake_part]
  | Call call => from_option (fun fd : Forwarded W => fw_parts (fd_call fd)) [] (forwarded garbage call)
  | Finalize => []
  end.
Definition item_request (it : item) : list Z := call_bytes (item_id it) (item_parts it).

(** The same, where the module is. *)
Inductive item_locally : item -> state -> Z -> state -> Prop :=
| initialize_locally st : item_locally Initialize st CKR_OK st
| call_locally call st code st' :
    locally M garbage call st code st' -> gives_up code = false -> item_locally (Call call) st code st'
| finalize_locally f st st' :
    C_CloseSession M = Some f -> finalized f st = (CKR_OK, st') -> item_locally Finalize st CKR_OK st'.

(** One after the other, each by the application of this number; the applications share
    the module and have each a table of sessions. *)
Inductive in_turn : list (nat * item) -> W * list (list SessionState) -> list (nat * Z) ->
    W * list (list SessionState) -> Prop :=
| in_turn_nil st : in_turn [] st [] st
| in_turn_cons i it l w tables t code w' t' codes st' :
    tables !! i = Some t -> item_locally it (w, t) code (w', t') ->
    in_turn l (w', <[i := t']> tables) codes st' ->
    in_turn ((i, it) :: l) (w, tables) ((i, code) :: codes) st'.
End Items.

(** What is of the application [i]. *)
Definition mine {A} (i : nat) (l : list (nat * A)) : list A :=
  omap (fun x => if decide (x.1 = i) then Some x.2 else None) l.

(** Where a thread is between its application's items. *)
Inductive stage := Begins | Reads | HasRead | Replies | Ends.

(** It goes on: an item takes effect when its request is processed. *)
Definition advance (p : stage * list item) : option item * (stage * list item) :=
  match p with
  | (Begins, l) => (None, (Reads, l))
  | (Reads, []) => (None, (Ends, []))
  | (Reads, l) => (None, (HasRead, l))
  | (HasRead, it :: l) => (Some it, (Replies, l))
  | (HasRead, []) => (None, (Ends, []))
  | (Replies, l) => (None, (Reads, l))
  | (Ends, l) => (None, (Ends, l))
  end.

(** The order in which items take effect when the threads go on in the order
    [schedule]. *)
Fixpoint order (schedule : list nat) (ps : list (stage * list item)) : list (nat * item) :=
  match schedule with
  | [] => []
  | i :: schedule =>
      match ps !! i with
      | None => order schedule ps
      | Some p =>
          let '(e, p') := advance p in
          let l := order schedule (<[i := p']> ps) in
          match e with Some it => (i, it) :: l | None => l end
      end
  end.

(** ** What goes over the connections *)

Lemma mine_cons {A} i j (x : A) l :
  mine i ((j, x) :: l) = if decide (j = i) then x :: mine i l else mine i l.
Proof. unfold mine. cbn. by destruct (decide (j = i)). Qed.

Section Exchanges.
Context {W : Type} (M : CK_FUNCTION_LIST W) (malloc_ok : list Z -> Z -> bool) (shutdown_ok : Z -> bool).
Context (HM : module_ok M) (Hmalloc : forall l n, malloc_ok l n = true).
Context (realloc : EggBufferAllocator) (Hok : AllocatorOk realloc) (Hmem : gives_memory realloc).
Context (garbage : Z).
Abbreviation state := (W * list SessionState)%type.
Abbreviation request := (item_request (W := W) garbage).
Abbreviation id_of := (item_id (W := W) garbage).
Abbreviation parts_of := (item_parts (W := W) garbage).

(** The client library that is sent [reply] returns [code]. *)
Definition exchanged (it : item) (reply : list Z) (code : Z) : Prop :=
  match it with
  | Initialize => reply = initialize_reply /\ code = CKR_OK
  | Call call => forall calls requests replies codes,
      client_makes realloc garbage calls requests replies codes ->
      client_makes realloc garbage (call :: calls) (request it :: requests) (reply :: replies) (code :: codes)
  | Finalize => reply = finalize_request /\ code = CKR_OK
  end.

Lemma item_carried it st code st' :
  item_locally M garbage it st code st' ->
  exists reply, processes M malloc_ok shutdown_ok (id_of it) (parts_of it) reply st st'
    /\ exchanged it reply code.
Proof.
  intros [st0|call st0 code0 st1 Hl Hg|f st0 st1 Hf Hfin].
  - exists initialize_reply. split; [apply initialize_processes|done].
  - destruct Hl as [call fd f st0 st1 rv a Ht Hargs Hf Hz Hrun Hrv Hfair].
    destruct (forwarded_carried_in_parts M malloc_ok shutdown_ok Hmalloc realloc Hok Hmem garbage call fd f st0 st1 rv a)
      as (reply & Hp & Hget); try done.
    exists reply. unfold item_id, item_parts. rewrite Ht. split; [exact Hp|].
    intros calls requests replies codes Hc. unfold item_request, item_id, item_parts. rewrite Ht.
    apply (client_makes_more realloc garbage call (fd_call fd)); try done. by eapply forwarded_performs.
  - exists finalize_request. split; [by eapply finalize_processes|done].
Qed.

(** Items that take effect one after the other, with their replies. *)
Inductive served_in_turn : list (nat * item) -> list (nat * list Z) -> W * list (list SessionState) ->
    W * list (list SessionState) -> Prop :=
| served_nil st : served_in_turn [] [] st st
| served_cons i it l reply replies w tables t w' t' st' :
    tables !! i = Some t ->
    processes M malloc_ok shutdown_ok (id_of it) (parts_of it) reply (w, t) (w', t') ->
    (it = Finalize -> Forall (fun s => session_id s = 0) t') ->
    served_in_turn l replies (w', <[i := t']> tables) st' ->
    served_in_turn ((i, it) :: l) ((i, reply) :: replies) (w, tables) st'.

Lemma in_turn_served l st codes st' :
  in_turn M garbage l st codes st' ->
  exists replies, served_in_turn l replies st st'
    /\ forall i, Forall3 exchanged (mine i l) (mine i replies) (mine i codes).
Proof.
  induction 1 as [st|i it l w tables t code w' t' codes st' Ht Hl _ (replies & Hs & Hx)].
  - exists []. split; [constructor|]. intros i. constructor.
  - destruct (item_carried it _ code _ Hl) as (reply & Hp & Hx1).
    exists ((i, reply) :: replies). split.
    + apply (served_cons i it l reply replies w tables t w' t'); try done. intros ->.
      inversion Hl; subst. by eapply (finalized_closes _ (w, t) (w', t')).
    + intros j. rewrite !mine_cons. destruct (decide (i = j)); [by constructor|done].
Qed.

(** Whole lifetimes. *)
Lemma exchanged_calls calls replies codes :
  Forall3 exchanged (map Call calls ++ [Finalize]) replies codes ->
  exists replies' codes', replies = replies' ++ [finalize_request] /\ codes = codes' ++ [CKR_OK]
    /\ client_makes realloc garbage calls (map request (map Call calls)) replies' codes'.
Proof.
  revert replies codes. induction calls as [|call calls IH]; intros replies codes H; cbn [map app] in H;
    apply Forall3_cons_inv_l in H as (reply & replies0 & code & codes0 & -> & -> & Hx & Hxs).
  - destruct Hx as [-> ->]. inversion Hxs; subst. exists [], []. split; [done|]. split; [done|].
    intros c cs pool rest n Hc Hi Hp Hinc _ _. apply runs_ret. split; [done|]. split; [done|]. split; [done|].
    exists cs. split_and!; try done. by apply sent_over_nothing.
  - destruct (IH _ _ Hxs) as (replies' & codes' & -> & -> & Hc).
    exists (reply :: replies'), (code :: codes'). split; [done|]. split; [done|]. by apply Hx.
Qed.

Lemma exchanged_lifetime calls replies codes :
  Forall3 exchanged (lifetime_items calls) replies codes ->
  client_lives realloc garbage calls (map request (lifetime_items calls)) replies codes.
Proof.
  intros (reply & replies0 & code & codes0 & -> & -> & [-> ->] & Hxs)%Forall3_cons_inv_l.
  destruct (exchanged_calls calls _ _ Hxs) as (replies' & codes' & -> & -> & Hc).
  unfold lifetime_items. cbn [map]. rewrite map_app. cbn [map].
  change (request Initialize) with (call_bytes GCK_RPC_CALL_C_Initialize [handshake_part]).
  change (request Finalize) with (call_bytes GCK_RPC_CALL_C_Finalize []).
  rewrite <- initialize_request_bytes, <- finalize_request_bytes.
  by apply client_makes_lifetime.
Qed.
End Exchanges.

(** ** One thread *)

(** What has been sent to the application, with the response that is about to be. *)
Definition conn_of (d : dispatcher) : Conn :=
  match d with Starting _ _ _ c | Working _ _ _ c | Gone _ c | Stopped _ c => c end.
Definition pending (d : dispatcher) : list Z :=
  match d with Working Answering _ cs _ => frame (contents (buffer (cs_resp cs))) | _ => [] end.
Definition delivered (d : dispatcher) : list Z := cn_sent (conn_of d) ++ pending d.

(** The table of the connection. *)
Definition table_of (d : dispatcher) : option (list SessionState) :=
  match d with
  | Starting _ _ _ _ => Some fresh_sessions
  | Working _ _ cs _ => Some (cs_sessions cs)
  | Gone _ _ | Stopped _ _ => None
  end.

(** The last item is [C_Finalize]. *)
Definition ends_well (l : list item) : Prop := l = [] \/ last l = Some Finalize.
Lemma ends_well_next it l : ends_well (it :: l) -> ends_well l /\ (l = [] -> it = Finalize).
Proof.
  intros [H|H]; [done|]. destruct l as [|x l]; [|split; [by right|done]].
  cbn in H. injection H as ->. split; [by left|done].
Qed.

Section Thread.
Context {W : Type} (M : CK_FUNCTION_LIST W) (malloc_ok : list Z -> Z -> bool) (shutdown_ok : Z -> bool).
Context (HM : module_ok M).
Context (realloc : EggBufferAllocator) (Hok : AllocatorOk realloc) (Hmem : gives_memory realloc).
Context (garbage : Z).
Abbreviation request := (item_request (W := W) garbage).
Abbreviation id_of := (item_id (W := W) garbage).
Abbreviation parts_of := (item_parts (W := W) garbage).
Abbreviation step_of := (dispatcher_step M malloc_ok shutdown_ok realloc).

Definition can_ask (it : item) : Prop := asks (id_of it) (parts_of it).
Definition all_closed (t : list SessionState) : Prop := Forall (fun s => session_id s = 0) t.

(** What is known of the thread's own state does not depend on the others. *)
Definition ready (cs : DispatchProto.CallState) (c : Conn) : Prop :=
  forall (w : W) others, ready_server (mkServer (mkProc cs w others) c).
Definition asked (it : item) (cs : DispatchProto.CallState) : Prop :=
  forall (w : W) others, parsed (id_of it) (parts_of it) (mkProc cs w others).

Lemma dispatcher_ok_any (p : Proc W) (w : W) others : dispatcher_ok p -> dispatcher_ok (mkProc (p_cs p) w others).
Proof. by intros []. Qed.
Lemma ready_of (s : Server W) : ready_server s -> ready (p_cs (sv_proc s)) (sv_conn s).
Proof. intros [[Hd ? ?] Hq Hr] w others. split; [split; [by apply dispatcher_ok_any|done..]|exact Hq|exact Hr]. Qed.
Lemma asked_of it (s : Server W) : parsed (id_of it) (parts_of it) (sv_proc s) -> asked it (p_cs (sv_proc s)).
Proof. by intros [? ? ? ?] w others. Qed.

(** The thread of the application [id] with the table [t], whose replies to come are
    [fut]. *)
Inductive thread_inv (id : Z) (t : list SessionState) (fut : list (list Z)) : stage * list item -> dispatcher -> Prop :=
| inv_begins l sock start_tls stack c appid :
    0 <= sock -> cn_transport c = Socket -> zlen stack = 4 -> zlen appid = 8 -> decode_appid appid = id ->
    bytes (incoming c) -> incoming c = appid ++ frames (map request l) -> willing (zlen (frames fut)) c ->
    t = fresh_sessions -> l <> [] -> thread_inv id t fut (Begins, l) (Starting sock start_tls stack c)
| inv_reads l buf cs c :
    ready cs c -> zlen buf = 4 -> cs_appid cs = id -> cs_sessions cs = t ->
    incoming c = frames (map request l) -> willing (zlen (frames fut)) c -> (l = [] -> all_closed t) ->
    thread_inv id t fut (Reads, l) (Working Receiving buf cs c)
| inv_has_read it l buf cs c :
    ready cs c -> zlen buf = 4 -> cs_appid cs = id -> cs_sessions cs = t ->
    incoming c = frames (map request l) -> willing (zlen (frames fut)) c -> asked it cs ->
    thread_inv id t fut (HasRead, it :: l) (Working Processing buf cs c)
| inv_replies l buf cs c :
    ready cs c -> cs_appid cs = id -> cs_sessions cs = t -> incoming c = frames (map request l) ->
    0 < zlen (contents (buffer (cs_resp cs))) < 4294967296 ->
    willing (4 + zlen (contents (buffer (cs_resp cs))) + zlen (frames fut)) c -> (l = [] -> all_closed t) ->
    thread_inv id t fut (Replies, l) (Working Answering buf cs c)
| inv_leaving buf cs c :
    (forall w : W, dispatcher_ok (mkProc cs w [])) -> cs_appid cs = id -> cs_sessions cs = t -> all_closed t ->
    thread_inv id t fut (Ends, []) (Working Leaving buf cs c)
| inv_gone c : thread_inv id t fut (Ends, []) (Gone id c)
| inv_stopped o c : od_appid o = id -> thread_inv id t fut (Ends, []) (Stopped o c).

(** *** Other threads are left alone *)

Definition harmless (id sock : Z) (o : OtherDispatcher) : Prop :=
  od_appid o <> id \/ od_sock o = sock \/ od_req o = None.

Lemma interrupt_harmless f cs os :
  Forall (harmless (cs_appid cs) (cs_sock cs)) os -> map (interrupt f cs) os = os.
Proof.
  induction 1 as [|o os Ho _ IH]; [done|]. cbn [map]. rewrite IH. f_equal. unfold interrupt.
  destruct (Z.eqb_spec (od_appid o) (cs_appid cs)) as [Ha|]; cbn [negb]; [|done].
  destruct (Z.eqb_spec (od_sock o) (cs_sock cs)) as [|Hs]; [done|].
  destruct Ho as [|[|Hr]]; [done..|]. by rewrite Hr.
Qed.

Lemma notified_harmless (p : Proc W) ds :
  notified p ds -> Forall (harmless (cs_appid (p_cs p)) (cs_sock (p_cs p))) (p_dispatchers p) ->
  ds = p_dispatchers p.
Proof. intros [->|[f ->]] H; [done|by apply interrupt_harmless]. Qed.

(** *** Its steps *)

Lemma begins_step id t fut l sock start_tls stack c w others :
  thread_inv id t fut (Begins, l) (Starting sock start_tls stack c) ->
  exists d', step_of (Starting sock start_tls stack c) w others = Ok (w, others, d')
    /\ thread_inv id t fut (Reads, l) d' /\ delivered d' = cn_sent c.
Proof.
  intros H. inversion H as [? ? ? ? ? appid Hsock Htr Hz Ha Hid Hby Hinc Hw Ht Hl| | | | | |]; subst.
  destruct (enter_loop_exact realloc Hok Hmem sock start_tls w others c appid (frames (map request l)))
    as (s & E & [Hs Hcore Happ _ Ho (_ & Hse & Hst) Hinc']); try done; [by rewrite Htr|by rewrite Htr|].
  cbn [dispatcher_step]. rewrite E, res_bind_ok. eexists. split; [reflexivity|].
  injection Hcore as Hm Hss. split; [|unfold delivered; cbn; by rewrite app_nil_r].
  apply inv_reads; try done; [by apply ready_of|destruct Hw as [? ?]; split; by rewrite Hse].
Qed.

(** A part of the loop, of which nothing but the sequential theory is needed. *)
Lemma working_step part buf cs c w others B P :
  runs B (run_part M malloc_ok shutdown_ok part buf) P (mkServer (mkProc cs w others) c) ->
  exists r s, step_of (Working part buf cs c) w others
      = Ok (p_module (sv_proc s), p_dispatchers (sv_proc s), after part r s)
    /\ match r with Some r => P r s | None => B s end.
Proof.
  intros H. destruct (wp_inv _ _ _ H) as (r & s & E & Hp). exists r, s. cbn [dispatcher_step].
  by rewrite E, res_bind_ok.
Qed.

Lemma core_eq (p : Proc W) w t : core p = (w, t) -> p_module p = w /\ cs_sessions (p_cs p) = t.
Proof. by intros [= <- <-]. Qed.

Lemma takes_step id t fut it l buf cs c w others :
  can_ask it -> thread_inv id t fut (Reads, it :: l) (Working Receiving buf cs c) ->
  exists d', step_of (Working Receiving buf cs c) w others = Ok (w, others, d')
    /\ thread_inv id t fut (HasRead, it :: l) d' /\ delivered d' = delivered (Working Receiving buf cs c).
Proof.
  intros Hask H. inversion H as [|? ? ? ? Hs Hz Hid Ht Hinc Hw _| | | | |]; subst.
  destruct (working_step Receiving buf cs c w others _ _
    (take_request_exact (id_of it) (parts_of it) buf (frames (map request l)) _ Hask (Hs w others) Hz Hinc))
    as ([[ok b]|] & s & -> & Hp); [|done].
  destruct Hp as [Hr Hzb Hs' Hpa Hc [Happ Hsock] Hds (_ & Hse & Hst) Hinc']. cbn in Hr, Hzb, Hc, Happ, Hds, Hse, Hst. subst ok.
  apply core_eq in Hc as [Hm Hss]. rewrite Hm, Hds. eexists. split; [reflexivity|].
  split; [|unfold delivered; cbn; by rewrite Hst].
  apply inv_has_read; try done; [by apply ready_of| |by apply asked_of].
  destruct Hw as [? ?]. split; by rewrite Hse.
Qed.

Lemma over_step id t fut buf cs c w others :
  thread_inv id t fut (Reads, []) (Working Receiving buf cs c) ->
  exists d', step_of (Working Receiving buf cs c) w others = Ok (w, others, d')
    /\ thread_inv id t fut (Ends, []) d' /\ delivered d' = delivered (Working Receiving buf cs c).
Proof.
  intros H. inversion H as [|? ? ? ? Hs Hz Hid Ht Hinc Hw Hcl| | | | |]; subst.
  destruct (working_step Receiving buf cs c w others _ _
    (take_request_over buf _ (rs_ok _ (Hs w others)) Hz Hinc)) as (r & s & -> & Hp).
  assert (over (mkServer (mkProc cs w others) c) s /\ match r with Some (true, _) => False | _ => True end)
    as [(Hd & Hc & Hst & [Happ Hsock] & Hds) Hr].
  { destruct r as [[[|] b]|]; [by destruct Hp|by destruct Hp|done]. }
  cbn in Happ, Hds, Hst. apply core_eq in Hc as [Hm Hss]. rewrite Hm, Hds. eexists. split; [reflexivity|].
  unfold after. destruct r as [[[|] b]|]; [done| |].
  - split; [|unfold delivered; cbn; by rewrite Hst]. apply inv_leaving; [|done|done|by apply Hcl].
    intros w'. by apply dispatcher_ok_any.
  - split; [by apply inv_stopped|]. unfold delivered. cbn. by rewrite Hst.
Qed.

Lemma replies_step id t fut l buf cs c w others :
  thread_inv id t fut (Replies, l) (Working Answering buf cs c) ->
  exists d', step_of (Working Answering buf cs c) w others = Ok (w, others, d')
    /\ thread_inv id t fut (Reads, l) d' /\ delivered d' = delivered (Working Answering buf cs c).
Proof.
  intros H. inversion H as [| | |? ? ? ? Hs Hid Ht Hinc Hz Hw Hcl| | |]; subst.
  pose proof (zlen_nonneg (frames fut)).
  destruct (working_step Answering buf cs c w others _ _
    (answer_request_exact _ (zlen (frames fut)) _ (Hs w others) eq_refl Hz Hw ltac:(done)))
    as ([[ok b]|] & s & -> & Hp); [|done].
  destruct Hp as (Hr & Hzb & _ & Hp & Hs' & [Hct Hcr] & Hsent & Hw'). cbn in Hr, Hzb, Hct, Hcr, Hsent. subst ok.
  rewrite Hp. eexists. split; [reflexivity|]. cbn [after]. rewrite Hp. cbn [p_cs sv_proc].
  split; [|unfold delivered; cbn; by rewrite Hsent, app_nil_r].
  apply ready_of in Hs'. rewrite Hp in Hs'. apply inv_reads; try done.
  unfold incoming. by rewrite Hct, Hcr.
Qed.

Lemma close_each_closed (f : Z -> mfun W unit) t w :
  all_closed t -> close_each f is_open (fun _ => false) t w = (CKR_OK, t, w).
Proof.
  induction 1 as [|s t Hs _ IH]; [done|]. cbn [close_each]. unfold is_open at 1. rewrite Hs, Z.eqb_refl.
  cbn [negb]. by rewrite IH.
Qed.

Lemma leaves_step id t fut buf cs c w others :
  Forall (harmless (cs_appid cs) (cs_sock cs)) others ->
  thread_inv id t fut (Ends, []) (Working Leaving buf cs c) ->
  exists d', step_of (Working Leaving buf cs c) w others = Ok (w, others, d')
    /\ thread_inv id t fut (Ends, []) d' /\ delivered d' = delivered (Working Leaving buf cs c).
Proof.
  intros Ho H. inversion H as [| | | |? ? ? Hd Hid Ht Hcl| |]; subst.
  destruct (mo_C_CloseSession _ HM) as [f Hf].
  assert (dispatcher_ok (mkProc cs w others)) as Hd' by by apply (dispatcher_ok_any (mkProc cs w [])).
  assert (runs (fun _ => False) (run_part M malloc_ok shutdown_ok Leaving buf)
    (fun r s => p_module (sv_proc s) = w /\ p_dispatchers (sv_proc s) = others
      /\ cs_appid (p_cs (sv_proc s)) = cs_appid cs /\ sv_conn s = c)
    (mkServer (mkProc cs w others) c)) as Hrun.
  { apply runs_bind, runs_on_proc. eapply wp_mono; [by apply (call_uninit_spec M shutdown_ok f)|].
    intros [] p (_ & _ & Hm & [Happ _] & Hds). apply runs_ret. cbn in Hm, Happ, Hds.
    change (sessions (mkProc cs w others)) with (cs_sessions cs) in Hm.
    rewrite close_each_closed in Hm by done. rewrite interrupt_harmless in Hds by done. done. }
  destruct (working_step Leaving buf cs c w others _ _ Hrun) as ([[ok b]|] & s & -> & Hp); [|done].
  destruct Hp as (-> & -> & Happ & Hc). eexists. split; [reflexivity|]. cbn [after]. rewrite Happ, Hc.
  split; [by destruct ok; apply inv_gone|by destruct ok].
Qed.

(** A step at which nothing takes effect. *)
Lemma quiet_step id t fut p p' d w others :
  Forall can_ask p.2 -> thread_inv id t fut p d -> advance p = (None, p') ->
  (forall buf cs c, d = Working Leaving buf cs c -> Forall (harmless (cs_appid cs) (cs_sock cs)) others) ->
  exists d', step_of d w others = Ok (w, others, d') /\ thread_inv id t fut p' d' /\ delivered d' = delivered d.
Proof.
  intros Hask Hi Hadv Ho. pose proof Hi as Hi'. destruct Hi; cbn in Hadv; simplify_eq.
  - destruct (begins_step _ _ _ _ _ _ _ _ w others Hi') as (d' & E & Hd' & Hdel). exists d'.
    split; [exact E|]. split; [exact Hd'|]. rewrite Hdel. unfold delivered. cbn. by rewrite app_nil_r.
  - destruct l as [|it l]; simplify_eq; [by apply over_step|]. apply Forall_cons in Hask as [? ?]. by apply takes_step.
  - by apply replies_step.
  - apply leaves_step; [by eapply Ho|done].
  - eexists. by split; [reflexivity|].
  - eexists. by split; [reflexivity|].
Qed.

(** The step at which an item takes effect. *)
Lemma effect_step id t fut p p' it reply d w others w' t' :
  thread_inv id t (reply :: fut) p d -> advance p = (Some it, p') ->
  processes M malloc_ok shutdown_ok (id_of it) (parts_of it) reply (w, t) (w', t') ->
  (p'.2 = [] -> all_closed t') ->
  (forall buf cs c, d = Working Processing buf cs c -> Forall (harmless (cs_appid cs) (cs_sock cs)) others) ->
  exists d', step_of d w others = Ok (w', others, d') /\ thread_inv id t' fut p' d'
    /\ delivered d' = delivered d ++ frame reply.
Proof.
  intros Hi Hadv Hproc Hcl Ho. destruct Hi as [|l|it' l buf cs c Hs Hz Hid Ht Hinc Hw Hask| | | |]; cbn in Hadv;
    [done|by destruct l| |done..]. injection Hadv as <- <-.
  destruct (working_step Processing buf cs c w others _ _
    (Hproc buf (mkServer (mkProc cs w others) c) (Hs w others) (Hask w others) ltac:(by rewrite <- Ht)))
    as (r & s & -> & Hp). destruct r as [r|]; [|done].
  destruct Hp as [-> Hs' Hc Hrep Hz' [Happ Hsock] Hn Hconn]. cbn in Happ, Hconn.
  apply core_eq in Hc as [Hm Hss]. apply notified_harmless in Hn; [|by eapply Ho]. cbn in Hn.
  rewrite Hm, Hn. eexists. split; [reflexivity|]. cbn [after].
  change (DispatchProto.resp (sv_proc s)) with (cs_resp (p_cs (sv_proc s))) in Hrep.
  split; [|unfold delivered; cbn; by rewrite Hconn, Hrep, app_nil_r].
  apply inv_replies; rewrite ?Hrep, ?Hconn; try done; [rewrite <- Hconn; by apply ready_of|congruence|].
  by rewrite frames_cons, zlen_app, zlen_frame in Hw.
Qed.
End Thread.

(** ** All threads *)

Section Daemon.
Context {W : Type} (M : CK_FUNCTION_LIST W) (malloc_ok : list Z -> Z -> bool) (shutdown_ok : Z -> bool).
Context (HM : module_ok M).
Context (realloc : EggBufferAllocator) (Hok : AllocatorOk realloc) (Hmem : gives_memory realloc).
Context (garbage : Z).
Abbreviation request := (item_request (W := W) garbage).
Abbreviation can_ask := (can_ask (W := W) garbage).
Abbreviation thread_inv := (thread_inv (W := W) garbage).
Abbreviation step := (step M malloc_ok shutdown_ok realloc).
Abbreviation run := (run M malloc_ok shutdown_ok realloc).
Abbreviation served := (served_in_turn M malloc_ok shutdown_ok garbage).

(** Application, progress and table of each thread. *)
Record thread_ok (id : Z) (p : stage * list item) (t : list SessionState) (fut : list (list Z))
    (d : dispatcher) : Prop := {
  th_inv : thread_inv id t fut p d;
  th_asks : Forall can_ask p.2;
  th_ends : ends_well p.2;
}.

Definition all_ok (ids : list Z) (ps : list (stage * list item)) (tables : list (list SessionState))
    (fut : nat -> list (list Z)) (ds : list dispatcher) : Prop :=
  forall i, match ids !! i, ps !! i, tables !! i, ds !! i with
  | Some id, Some p, Some t, Some d => thread_ok id p t (fut i) d
  | None, None, None, None => True
  | _, _, _, _ => False
  end.

Lemma all_ok_lookup ids ps tables fut ds i d :
  all_ok ids ps tables fut ds -> ds !! i = Some d ->
  exists id p t, ids !! i = Some id /\ ps !! i = Some p /\ tables !! i = Some t /\ thread_ok id p t (fut i) d.
Proof.
  intros H Hd. specialize (H i). rewrite Hd in H.
  destruct (ids !! i), (ps !! i), (tables !! i); try done. by do 3 eexists.
Qed.

Lemma all_ok_gone ids ps tables fut ds i :
  all_ok ids ps tables fut ds -> ds !! i = None -> ps !! i = None.
Proof.
  intros H Hd. specialize (H i). rewrite Hd in H. by destruct (ids !! i), (ps !! i), (tables !! i).
Qed.

Lemma is_Some_insert {A} (l : list A) i j x : is_Some (<[i := x]> l !! j) <-> is_Some (l !! j).
Proof. by rewrite !lookup_lt_is_Some, length_insert. Qed.

Lemma all_ok_insert ids ps tables fut fut' ds i id p t d :
  all_ok ids ps tables fut ds -> ids !! i = Some id -> is_Some (ds !! i) -> thread_ok id p t (fut' i) d ->
  (forall j, i <> j -> fut' j = fut j) ->
  all_ok ids (<[i := p]> ps) (<[i := t]> tables) fut' (<[i := d]> ds).
Proof.
  intros H Hid [d0 Hd] Hok' Hfut j. destruct (decide (i = j)) as [<-|Hne].
  - destruct (all_ok_lookup _ _ _ _ _ i d0 H Hd) as (? & ? & ? & _ & Hp & Ht & _).
    rewrite Hid, !list_lookup_insert_eq; [done|by apply lookup_lt_Some in Hd|by apply lookup_lt_Some in Ht
      |by apply lookup_lt_Some in Hp].
  - rewrite !list_lookup_insert_ne by done. rewrite Hfut by done. apply H.
Qed.

(** The others are other applications. *)
Lemma others_harmless ids ps tables fut ds i buf cs c part :
  NoDup ids -> all_ok ids ps tables fut ds -> ds !! i = Some (Working part buf cs c) ->
  Forall (harmless (cs_appid cs) (cs_sock cs)) (map seen ds).
Proof.
  intros Hn H Hi. destruct (all_ok_lookup _ _ _ _ _ _ _ H Hi) as (id & p & t & Hid & _ & _ & [Hinv _ _]).
  assert (cs_appid cs = id) as -> by by inversion Hinv.
  apply Forall_map, Forall_lookup. intros j d Hj.
  destruct (all_ok_lookup _ _ _ _ _ _ _ H Hj) as (id' & p' & t' & Hid' & _ & _ & [Hinv' _ _]).
  destruct (decide (i = j)) as [<-|Hne]; [right; left; by rewrite Hi in Hj; injection Hj as <-|].
  assert (id' <> id) as Hids by (intros ->; apply Hne; by eapply NoDup_lookup).
  destruct Hinv'; unfold harmless; cbn; first [by right; right|left; congruence].
Qed.

Lemma nobody_dangles ids ps tables fut ds i d :
  NoDup ids -> all_ok ids ps tables fut ds -> ds !! i = Some d ->
  finalizes d && existsb (dangling (od_appid (seen d))) ds = false.
Proof.
  intros Hn H Hi. destruct (finalizes d) eqn:Hf; [|done]. cbn [andb].
  destruct d as [|part buf cs c| |]; try done.
  destruct (all_ok_lookup _ _ _ _ _ _ _ H Hi) as (id & p & t & Hid & _ & _ & [Hinv _ _]).
  assert (cs_appid cs = id) as Happ by by inversion Hinv.
  destruct (existsb _ ds) eqn:E; [|done]. apply existsb_exists in E as (d' & Hd' & Hg).
  apply list_elem_of_In, list_elem_of_lookup in Hd' as [j Hj]. destruct d' as [| |appid c'|]; try done.
  cbn in Hg. apply Z.eqb_eq in Hg.
  destruct (all_ok_lookup _ _ _ _ _ _ _ H Hj) as (id' & p' & t' & Hid' & _ & _ & [Hinv' _ _]).
  assert (appid = id') as -> by by inversion Hinv'. subst.
  assert (i = j) as <- by (eapply NoDup_lookup; [exact Hn|exact Hid|congruence]). congruence.
Qed.

Lemma written_seen d : written d (seen d) = d.
Proof. by destruct d as [|? ? [] ?|? ?|[] ?]. Qed.
Lemma written_all ds : zip_with written ds (map seen ds) = ds.
Proof. induction ds as [|d ds IH]; [done|]. cbn. by rewrite written_seen, IH. Qed.

(** A step of a thread that leaves the others alone. *)
Lemma step_alone i d d' w' s :
  dispatchers s !! i = Some d ->
  finalizes d && existsb (dangling (od_appid (seen d))) (dispatchers s) = false ->
  dispatcher_step M malloc_ok shutdown_ok realloc d (module s) (map seen (dispatchers s))
    = Ok (w', map seen (dispatchers s), d') ->
  step i s = Ok (mkDaemon w' (<[i := d']> (dispatchers s))).
Proof. intros Hi Hf E. unfold Connections.step. by rewrite Hi, Hf, E, res_bind_ok, written_all. Qed.

Lemma advance_items p e p' :
  advance p = (e, p') -> p.2 = match e with Some it => it :: p'.2 | None => p'.2 end.
Proof. destruct p as [[] [|it l]]; cbn; by intros [= <- <-]. Qed.

(** What a step does to the list, and what it leaves to be done. *)
Lemma quiet_run i ids ps w tables replies s d p p' :
  NoDup ids -> module s = w -> all_ok ids ps tables (fun i => mine i replies) (dispatchers s) ->
  dispatchers s !! i = Some d -> ps !! i = Some p -> advance p = (None, p') ->
  exists d', step i s = Ok (mkDaemon w (<[i := d']> (dispatchers s))) /\ delivered d' = delivered d
    /\ all_ok ids (<[i := p']> ps) tables (fun i => mine i replies) (<[i := d']> (dispatchers s)).
Proof.
  intros Hn Hw H Hd Hp Hadv.
  destruct (all_ok_lookup _ _ _ _ _ _ _ H Hd) as (id & p0 & t & Hid & Hp0 & Ht & [Hinv Hask Hend]).
  rewrite Hp in Hp0. injection Hp0 as <-. pose proof (advance_items _ _ _ Hadv) as Hit. cbn in Hit.
  destruct (quiet_step M malloc_ok shutdown_ok HM realloc Hok Hmem garbage id t _ p p' d w
    (map seen (dispatchers s)) Hask Hinv Hadv) as (d' & Hstep & Hinv' & Hdel).
  { intros buf cs c ->. by eapply others_harmless. }
  exists d'. split; [|split; [exact Hdel|]].
  - rewrite <- Hw in Hstep. rewrite <- Hw. apply (step_alone i d); [done|by eapply nobody_dangles|done].
  - rewrite <- (list_insert_id tables i t Ht). eapply all_ok_insert; try done. rewrite Hit in Hask, Hend. by split.
Qed.

Lemma effect_run i ids ps w tables t it reply replies w' t' s d p p' :
  NoDup ids -> module s = w -> all_ok ids ps tables (fun j => mine j ((i, reply) :: replies)) (dispatchers s) ->
  dispatchers s !! i = Some d -> ps !! i = Some p -> tables !! i = Some t -> advance p = (Some it, p') ->
  processes M malloc_ok shutdown_ok (item_id (W := W) garbage it) (item_parts (W := W) garbage it) reply (w, t) (w', t') ->
  (it = Finalize -> all_closed t') ->
  exists d', step i s = Ok (mkDaemon w' (<[i := d']> (dispatchers s))) /\ delivered d' = delivered d ++ frame reply
    /\ all_ok ids (<[i := p']> ps) (<[i := t']> tables) (fun j => mine j replies) (<[i := d']> (dispatchers s)).
Proof.
  intros Hn Hw H Hd Hp Ht Hadv Hproc Hcl.
  destruct (all_ok_lookup _ _ _ _ _ _ _ H Hd) as (id & p0 & t0 & Hid & Hp0 & Ht0 & [Hinv Hask Hend]).
  rewrite Hp in Hp0. injection Hp0 as <-. rewrite Ht in Ht0. injection Ht0 as <-.
  rewrite mine_cons, decide_True in Hinv by done.
  pose proof (advance_items _ _ _ Hadv) as Hit. cbn in Hit. rewrite Hit in Hask, Hend.
  apply Forall_cons in Hask as [_ Hask]. apply ends_well_next in Hend as [Hend Hlast].
  destruct (effect_step M malloc_ok shutdown_ok realloc garbage id t _ p p' it reply d w
    (map seen (dispatchers s)) w' t' Hinv Hadv Hproc) as (d' & Hstep & Hinv' & Hdel).
  { intros E. by apply Hcl, Hlast. }
  { intros buf cs c ->. by eapply others_harmless. }
  exists d'. split; [|split; [exact Hdel|]].
  - rewrite <- Hw in Hstep. apply (step_alone i d); [done|by eapply nobody_dangles|done].
  - eapply all_ok_insert; try done. intros j Hne. cbv beta. by rewrite mine_cons, decide_False by done.
Qed.

Lemma run_served schedule ids ps w tables replies st' s :
  NoDup ids -> module s = w -> all_ok ids ps tables (fun i => mine i replies) (dispatchers s) ->
  served (order schedule ps) replies (w, tables) st' ->
  exists s' ps', run schedule s = Ok s' /\ module s' = st'.1
    /\ all_ok ids ps' st'.2 (fun _ => []) (dispatchers s')
    /\ forall i d d', dispatchers s !! i = Some d -> dispatchers s' !! i = Some d' ->
         delivered d' = delivered d ++ frames (mine i replies).
Proof.
  revert ps w tables replies s. induction schedule as [|i schedule IH]; intros ps w tables replies s Hn Hw H Hserved.
  { inversion Hserved; subst. exists s, ps. split; [done|]. split; [done|]. split; [done|].
    intros i d d' -> [= ->]. by rewrite app_nil_r. }
  cbn [order] in Hserved. cbn [Connections.run]. destruct (dispatchers s !! i) as [d|] eqn:Hd.
  2: { rewrite (all_ok_gone _ _ _ _ _ _ H Hd) in Hserved. unfold Connections.step at 1. rewrite Hd, res_bind_ok.
       by apply (IH ps w tables). }
  destruct (all_ok_lookup _ _ _ _ _ _ _ H Hd) as (id & p & t & Hid & Hp & Ht & _). rewrite Hp in Hserved.
  assert (forall j d0 d' x, dispatchers s !! j = Some d0 -> x = d0 ->
    <[i := d']> (dispatchers s) !! j = Some (if decide (i = j) then d' else x)) as Hlook.
  { intros j d0 d' x Hj ->. destruct (decide (i = j)) as [<-|Hne].
    - apply list_lookup_insert_eq. by apply lookup_lt_Some in Hd.
    - by rewrite list_lookup_insert_ne. }
  destruct (advance p) as [[it|] p'] eqn:Hadv.
  - inversion Hserved as [|? ? ? reply replies' ? ? t0 w' t' ? Ht0 Hproc Hcl Hrest]; subst.
    rewrite Ht in Ht0. injection Ht0 as <-.
    destruct (effect_run i ids ps _ tables t it reply replies' w' t' s d p p' Hn eq_refl H Hd Hp Ht Hadv Hproc Hcl)
      as (d' & -> & Hdel & H'). rewrite res_bind_ok.
    destruct (IH _ w' _ replies' (mkDaemon w' (<[i := d']> (dispatchers s))) Hn eq_refl H' Hrest)
      as (s' & ps' & Hrun & Hm & Hall & Hsent).
    exists s', ps'. split; [done|]. split; [done|]. split; [done|]. intros j d0 d1 Hj Hj1.
    rewrite (Hsent j _ d1 (Hlook j d0 d' d0 Hj eq_refl) Hj1), mine_cons.
    destruct (decide (i = j)) as [<-|Hne]; [|done]. rewrite Hd in Hj. injection Hj as ->.
    by rewrite Hdel, frames_cons, (assoc_L app).
  - destruct (quiet_run i ids ps w tables replies s d p p' Hn Hw H Hd Hp Hadv) as (d' & -> & Hdel & H').
    rewrite res_bind_ok.
    destruct (IH _ w _ replies (mkDaemon w (<[i := d']> (dispatchers s))) Hn eq_refl H' Hserved)
      as (s' & ps' & Hrun & Hm & Hall & Hsent).
    exists s', ps'. split; [done|]. split; [done|]. split; [done|]. intros j d0 d1 Hj Hj1.
    rewrite (Hsent j _ d1 (Hlook j d0 d' d0 Hj eq_refl) Hj1).
    destruct (decide (i = j)) as [<-|Hne]; [|done]. rewrite Hd in Hj. injection Hj as ->. by rewrite Hdel.
Qed.
End Daemon.

(** *** What takes effect *)

(** How often the thread [i] goes on. *)
Definition turns (i : nat) (schedule : list nat) : nat := length (filter (fun j => j = i) schedule).

(** The items that take effect in [n] steps of one thread. *)
Fixpoint effects (n : nat) (p : stage * list item) : list item :=
  match n with
  | O => []
  | S n => let '(e, p') := advance p in
           match e with Some it => it :: effects n p' | None => effects n p' end
  end.

Lemma order_mine i schedule ps p :
  ps !! i = Some p -> mine i (order schedule ps) = effects (turns i schedule) p.
Proof.
  unfold turns. revert ps p. induction schedule as [|j schedule IH]; intros ps p Hp; [done|].
  cbn [order]. rewrite filter_cons. destruct (decide (j = i)) as [->|Hne].
  - rewrite Hp. cbn [length effects]. destruct (advance p) as [e p'].
    assert (<[i := p']> ps !! i = Some p') as Hp' by (apply list_lookup_insert_eq; by apply lookup_lt_Some in Hp).
    destruct e as [it|]; [|by apply IH]. rewrite mine_cons, decide_True by done. f_equal. by apply IH.
  - destruct (ps !! j) as [q|]; [|by apply IH]. destruct (advance q) as [e q'].
    assert (<[j := q']> ps !! i = Some p) as Hp' by by rewrite list_lookup_insert_ne.
    destruct e as [it|]; [|by apply IH]. rewrite mine_cons, decide_False by done. by apply IH.
Qed.

Lemma effects_reads l n : (3 * length l <= S n)%nat -> effects n (Reads, l) = l.
Proof.
  revert n. induction l as [|it l IH]; intros n Hn; cbn [length] in Hn.
  - assert (forall k, effects k (Ends, []) = []) as He by (intros k; induction k as [|k IHk]; [done|exact IHk]).
    destruct n as [|n]; [done|apply He].
  - destruct n as [|[|n]]; [lia|lia|]. cbn [effects advance]. f_equal. destruct n as [|n]; [|apply IH; lia].
    by destruct l; [|cbn [length] in Hn; lia].
Qed.

(** Three steps for every item are enough. *)
Lemma effects_all l n : (3 * length l <= n)%nat -> effects n (Begins, l) = l.
Proof. intros Hn. destruct n as [|n]; [by destruct l; [|cbn [length] in Hn; lia]|by apply effects_reads]. Qed.

(** * Properties *)

(** The threads of applications with these lives. *)
Definition lives_of (lives : list (list Api.ApiCall)) : list (stage * list item) :=
  map (fun calls => (Begins, lifetime_items calls)) lives.

(** A thread about to serve the application with the number [id], over a network that
    brings these requests and carries the replies. *)
Definition connects (requests replies : list (list Z)) (id : Z) (d : dispatcher) : Prop :=
  match d with
  | Starting sock start_tls stack c =>
      0 <= sock /\ cn_transport c = Socket /\ zlen stack = 4 /\ bytes (incoming c)
      /\ willing (zlen (frames replies)) c
      /\ exists appid, zlen appid = 8 /\ decode_appid appid = id /\ incoming c = appid ++ frames requests
  | _ => False
  end.

Lemma lifetime_asks {W} garbage calls :
  Forall (fun call => can_ask (W := W) garbage (Call call)) calls ->
  Forall (can_ask (W := W) garbage) (lifetime_items calls).
Proof.
  intros H. apply Forall_cons. split; [apply initialize_asks|]. apply Forall_app. split; [by apply Forall_map|].
  apply Forall_singleton, finalize_asks.
Qed.

Lemma connects_inv {W} garbage calls replies id d :
  connects (map (item_request (W := W) garbage) (lifetime_items calls)) replies id d ->
  Forall (fun call => can_ask (W := W) garbage (Call call)) calls ->
  thread_ok (W := W) garbage id (Begins, lifetime_items calls) fresh_sessions replies d
  /\ delivered d = cn_sent (conn_of d).
Proof.
  destruct d as [sock start_tls stack c| | |]; try done.
  intros (Hsock & Ht & Hz & Hby & Hw & appid & Ha & Hid & Hinc) Hask. split; [|apply app_nil_r]. split.
  - by apply (inv_begins _ _ _ _ _ _ _ _ _ appid).
  - by apply lifetime_asks.
  - right. cbn [snd]. unfold lifetime_items. rewrite app_comm_cons. apply last_snoc.
Qed.

Lemma all_connect {W} garbage lives replies ids ds :
  length ids = length lives -> length ds = length lives ->
  Forall (Forall (fun call => can_ask (W := W) garbage (Call call))) lives ->
  (forall i calls id d, lives !! i = Some calls -> ids !! i = Some id -> ds !! i = Some d ->
     connects (map (item_request (W := W) garbage) (lifetime_items calls)) (mine i replies) id d) ->
  all_ok (W := W) garbage ids (lives_of lives) (replicate (length lives) fresh_sessions)
    (fun i => mine i replies) ds
  /\ forall i d, ds !! i = Some d -> delivered d = cn_sent (conn_of d).
Proof.
  intros Hids Hds Hask Hc.
  assert (forall i d, ds !! i = Some d -> exists calls id, lives !! i = Some calls /\ ids !! i = Some id) as Hall.
  { intros i d Hd. apply lookup_lt_Some in Hd. rewrite Hds in Hd.
    destruct (lookup_lt_is_Some_2 lives i Hd) as [calls ?]. rewrite <- Hids in Hd.
    destruct (lookup_lt_is_Some_2 ids i Hd) as [id ?]. by exists calls, id. }
  split.
  - intros i. unfold lives_of. rewrite list_lookup_fmap. destruct (ds !! i) as [d|] eqn:Hd.
    + destruct (Hall i d Hd) as (calls & id & Hl & Hid). rewrite Hl, Hid, lookup_replicate_2 by by eapply lookup_lt_Some.
      apply (connects_inv (W := W) garbage calls); [by apply Hc|]. by eapply Forall_lookup_1.
    + apply lookup_ge_None in Hd. assert (length lives <= i)%nat as Hi by lia.
      rewrite (proj2 (lookup_ge_None ids i)), (proj2 (lookup_ge_None lives i)) by lia. cbn.
      by rewrite (proj2 (lookup_ge_None _ i)) by (rewrite length_replicate; lia).
  - intros i d Hd. destruct (Hall i d Hd) as (calls & id & Hl & Hid).
    apply (connects_inv (W := W) garbage calls (mine i replies) id); [by apply Hc|]. by eapply Forall_lookup_1.
Qed.

(** C1: applications that share the daemon get what they would get if they took turns.
    Several applications with different numbers are served by a thread each, and the
    threads go on in any order, [schedule], a part of a turn of their loops at a time:
    messages are read, processed and answered while other threads are anywhere in
    theirs.  If the calls, made where the module is one after the other, in the order in
    which their requests are processed and each on the sessions of its own connection,
    return [codes], then there are replies such that: the client library of an
    application whose thread gets enough turns, sent its replies, returns its codes
    from [C_Initialize] to [C_Finalize]; the daemon does not crash, and sends each
    application its replies; the module and the tables of sessions are left as the
    calls leave them. *)
Theorem applications_take_turns {W} (M : CK_FUNCTION_LIST W) malloc_ok shutdown_ok
    client_realloc daemon_realloc garbage lives schedule w codes w' tables' :
  module_ok M -> (forall l n, malloc_ok l n = true) ->
  AllocatorOk client_realloc -> gives_memory client_realloc ->
  AllocatorOk daemon_realloc -> gives_memory daemon_realloc ->
  Forall (Forall (fun call => can_ask (W := W) garbage (Call call))) lives ->
  in_turn M garbage (order schedule (lives_of lives)) (w, replicate (length lives) fresh_sessions)
    codes (w', tables') ->
  exists replies : list (nat * list Z),
    (forall i calls, lives !! i = Some calls -> (3 * length (lifetime_items calls) <= turns i schedule)%nat ->
       client_lives client_realloc garbage calls (map (item_request (W := W) garbage) (lifetime_items calls))
         (mine i replies) (mine i codes))
    /\ forall s ids, module s = w -> NoDup ids -> length ids = length lives ->
         length (dispatchers s) = length lives ->
         (forall i calls id d, lives !! i = Some calls -> ids !! i = Some id -> dispatchers s !! i = Some d ->
            connects (map (item_request (W := W) garbage) (lifetime_items calls)) (mine i replies) id d) ->
         exists s', run M malloc_ok shutdown_ok daemon_realloc schedule s = Ok s' /\ module s' = w'
           /\ forall i d d', dispatchers s !! i = Some d -> dispatchers s' !! i = Some d' ->
                delivered d' = cn_sent (conn_of d) ++ frames (mine i replies)
                /\ forall t, table_of d' = Some t -> tables' !! i = Some t.
Proof.
  intros HM Hmalloc Hok Hmem Hok2 Hmem2 Hask Hturn.
  destruct (in_turn_served M malloc_ok shutdown_ok HM Hmalloc client_realloc Hok Hmem garbage _ _ _ _ Hturn)
    as (replies & Hserved & Hx).
  exists replies. split.
  - intros i calls Hi Hn. apply exchanged_lifetime; [done|done|].
    rewrite <- (effects_all (lifetime_items calls) (turns i schedule)) at 1 by done.
    erewrite <- order_mine; [apply Hx|]. unfold lives_of. by rewrite list_lookup_fmap, Hi.
  - intros s ids Hw Hnd Hids Hds Hc.
    destruct (all_connect (W := W) garbage lives replies ids (dispatchers s) Hids Hds Hask Hc) as [Hall Hfirst].
    destruct (run_served M malloc_ok shutdown_ok HM daemon_realloc Hok2 Hmem2 garbage schedule ids
      (lives_of lives) w _ replies _ s Hnd Hw Hall Hserved) as (s' & ps' & Hrun & Hm & Hall' & Hdel).
    exists s'. split; [exact Hrun|]. split; [exact Hm|]. intros i d d' Hd Hd'. split.
    + by rewrite (Hdel i d d' Hd Hd'), (Hfirst i d Hd).
    + intros t Ht. destruct (all_ok_lookup _ _ _ _ _ _ i d' Hall' Hd') as (id & p & t' & _ & _ & Ht' & [Hinv _ _]).
      cbn [snd] in Ht'. rewrite Ht'. f_equal. destruct Hinv; try discriminate Ht; injection Ht as <-; congruence.
Qed.

(** Two applications: one opens a session and signs with it, the other opens one that the
    first, which finalizes before it, leaves alone. *)
Definition other_life : list Api.ApiCall := [Api.C_OpenSession 4 6 (Some 0)].
Definition two_lives : list (list Api.ApiCall) := [short_life; other_life].
Definition mixed_schedule : list nat :=
  [1; 0; 0; 1; 0; 1; 0; 1; 0; 0; 0; 1; 1; 0; 1; 0; 0; 0; 0; 1; 1; 0; 1; 0; 1; 0; 1]%nat.

Definition mixed_codes : list (nat * Z) := map (fun i => (i, CKR_OK)) [0; 1; 0; 1; 0; 0; 1]%nat.

Lemma mixed_order_is : order mixed_schedule (lives_of two_lives) =
  zip [0; 1; 0; 1; 0; 0; 1]%nat
    [Initialize; Initialize; Call (Api.C_OpenSession 4 6 (Some 0)); Call (Api.C_OpenSession 4 6 (Some 0));
     Call sample_sign; Finalize; Finalize].
Proof. reflexivity. Qed.

(** The table of the second application while its session is open. *)
Definition second_session : list SessionState := <[0%nat := mkSessionState 2 4]> fresh_sessions.

(** The next item, with the table it finds and what it leaves. *)
Ltac one_item t w' t' := eapply (in_turn_cons _ _ _ _ _ _ _ t CKR_OK w' t'); [reflexivity| |].
Ltac one_call := apply call_locally; [eapply local_code;
  [reflexivity| |reflexivity|reflexivity|reflexivity|done| |reflexivity]; sample_ok|done].

Lemma mixed_in_turn :
  in_turn toy_module 0 (order mixed_schedule (lives_of two_lives))
    (mkToy 0 [], replicate (length two_lives) fresh_sessions) mixed_codes
    (mkToy 2 [2; 1], [session_gone; session_gone]).
Proof.
  rewrite mixed_order_is. change (length two_lives) with 2%nat. cbn [zip zip_with].
  one_item fresh_sessions (mkToy 0 []) fresh_sessions; [apply initialize_locally|].
  one_item fresh_sessions (mkToy 0 []) fresh_sessions; [apply initialize_locally|].
  one_item fresh_sessions (mkToy 1 []) one_session; [one_call|].
  one_item fresh_sessions (mkToy 2 []) second_session; [one_call|].
  one_item one_session (mkToy 2 []) one_session; [one_call|].
  one_item one_session (mkToy 2 [1]) session_gone; [by apply (finalize_locally _ _ toy_close)|].
  one_item second_session (mkToy 2 [2; 1]) session_gone; [by apply (finalize_locally _ _ toy_close)|].
  apply in_turn_nil.
Qed.

Lemma two_lives_ask :
  Forall (Forall (fun call => can_ask (W := toy_state) 0 (Call call))) two_lives.
Proof.
  repeat first [apply Forall_nil_2 | apply Forall_cons_2];
    (split; [by vm_compute|]; split; [by vm_compute|]; by eexists).
Qed.

Lemma applications_take_turns_witness :
  exists replies : list (nat * list Z),
    (forall i calls, two_lives !! i = Some calls ->
       (3 * length (lifetime_items calls) <= turns i mixed_schedule)%nat ->
       client_lives sample_realloc 0 calls (map (item_request (W := toy_state) 0) (lifetime_items calls))
         (mine i replies) (mine i mixed_codes))
    /\ forall s ids, module s = mkToy 0 [] -> NoDup ids -> length ids = 2%nat ->
         length (dispatchers s) = 2%nat ->
         (forall i calls id d, two_lives !! i = Some calls -> ids !! i = Some id -> dispatchers s !! i = Some d ->
            connects (map (item_request (W := toy_state) 0) (lifetime_items calls)) (mine i replies) id d) ->
         exists s', run toy_module (fun _ _ => true) shuts_down sample_realloc mixed_schedule s = Ok s'
           /\ module s' = mkToy 2 [2; 1]
           /\ forall i d d', dispatchers s !! i = Some d -> dispatchers s' !! i = Some d' ->
                delivered d' = cn_sent (conn_of d) ++ frames (mine i replies)
                /\ forall t, table_of d' = Some t -> [session_gone; session_gone] !! i = Some t.
Proof.
  apply (applications_take_turns toy_module (fun _ _ => true) shuts_down sample_realloc sample_realloc 0
    two_lives mixed_schedule (mkToy 0 []) mixed_codes (mkToy 2 [2; 1]) [session_gone; session_gone]).
  - apply toy_module_ok.
  - reflexivity.
  - apply _.
  - apply sample_realloc_gives.
  - apply _.
  - apply sample_realloc_gives.
  - apply two_lives_ask.
  - exact mixed_in_turn.
Defined.
