(* ===== verification/Threads.v ===== *)
(** gck-rpc-dispatch.c: the threads of the daemon.  The main thread accepts connections
    and starts a thread for each; the threads end when their connections do, and what is
    left of them is cleaned up by the main thread.  The states of the threads are on a
    list under a mutex.  The model is a step relation: what happens between two steps is
    not seen by the other threads. *)
From stdpp Require Import gmap relations.
From S2P Require Import Prelude Calls.

(** ** The state *)

(** A pointer to the message of a request: null, to a message that names a call, or to
    memory that was given back. *)
Inductive pointer := Null | Message (call_id : Z) | Dangling.

(** What other threads see of a [DispatchState]. *)
Record DispatchState := mkDispatch { appid : Z; sock : Z; req : pointer }.
Definition set_sock (z : Z) (d : DispatchState) : DispatchState := mkDispatch (appid d) z (req d).
Definition set_req (p : pointer) (d : DispatchState) : DispatchState := mkDispatch (appid d) (sock d) p.

(** Where a thread is in [run_dispatch_thread]: before the loop, in the loop, behind it;
    and in [rpc_C_Finalize], which is called for the call of this name ([closing] is
    false) and by [call_uninit]: waiting for the mutex, or holding it, with a part of the
    list to look at. *)
Inductive thread :=
  | Starting | Serving | Ending | Ended
  | Locking (closing : bool) | Walking (closing : bool) (rest : list nat).

(** Where the main thread is: in its loop; in [gck_rpc_layer_accept]: waiting for the
    mutex, cleaning up behind the entries [before], waiting for the thread [i] to end,
    at [accept]; the same of [gck_rpc_layer_uninitialize]. *)
Inductive main_thread :=
  | Watching
  | AcceptLocking | Cleaning (before rest : list nat) | Joining (before : list nat) (i : nat) (rest : list nat)
  | Accepting
  | StopLocking | Stopping (rest : list nat) | StopJoining (i : nat) (rest : list nat) | Stopped.

Inductive owner := Main | Thread (i : nat).

(** An assertion that fails, and a use of freed memory, end the process: of a
    [DispatchState], or of a message. *)
Inductive process := Running | Aborted | UsedFreedState | UsedFreedMessage.

(** [heap]: the [DispatchState]s that are allocated, by the number of their thread;
    [threads]: those that have been created and not joined. *)
Record Daemon := mkDaemon {
  heap : gmap nat DispatchState;
  threads : gmap nat thread;
  pkcs11_dispatchers : list nat;
  pkcs11_dispatchers_mutex : option owner;
  main : main_thread;
  status : process;
}.

Definition set_heap h s := mkDaemon h (threads s) (pkcs11_dispatchers s) (pkcs11_dispatchers_mutex s) (main s) (status s).
Definition set_threads t s := mkDaemon (heap s) t (pkcs11_dispatchers s) (pkcs11_dispatchers_mutex s) (main s) (status s).
Definition set_list l s := mkDaemon (heap s) (threads s) l (pkcs11_dispatchers_mutex s) (main s) (status s).
Definition set_mutex m s := mkDaemon (heap s) (threads s) (pkcs11_dispatchers s) m (main s) (status s).
Definition set_main m s := mkDaemon (heap s) (threads s) (pkcs11_dispatchers s) (pkcs11_dispatchers_mutex s) m (status s).
Definition set_status p s := mkDaemon (heap s) (threads s) (pkcs11_dispatchers s) (pkcs11_dispatchers_mutex s) (main s) p.
Definition go_on (i : nat) (t : thread) (s : Daemon) : Daemon := set_threads (<[i := t]> (threads s)) s.
Definition put (i : nat) (d : DispatchState) (s : Daemon) : Daemon := set_heap (<[i := d]> (heap s)) s.

(** [free (ds)] of a thread that has been joined. *)
Definition release (i : nat) (s : Daemon) : Daemon :=
  set_threads (delete i (threads s)) (set_heap (delete i (heap s)) s).

(** ** The steps *)

Inductive accept_step (s : Daemon) : Daemon -> Prop :=
| accept_enter :
    main s = Watching -> accept_step s (set_main AcceptLocking s)
| accept_lock :
    main s = AcceptLocking -> pkcs11_dispatchers_mutex s = None ->
    accept_step s (set_main (Cleaning [] (pkcs11_dispatchers s)) (set_mutex (Some Main) s))
(* Cleanup any completed dispatch threads *)
| accept_keep before i rest d :
    main s = Cleaning before (i :: rest) -> heap s !! i = Some d -> sock d <> -1 ->
    accept_step s (set_main (Cleaning (before ++ [i]) rest) s)
| accept_completed before i rest d :
    main s = Cleaning before (i :: rest) -> heap s !! i = Some d -> sock d = -1 ->
    accept_step s (set_main (Joining before i rest) s)
| accept_join before i rest :
    main s = Joining before i rest -> threads s !! i = Some Ended ->
    accept_step s (set_main (Cleaning before rest) (set_list (before ++ rest) (release i s)))
| accept_cleaned before :
    main s = Cleaning before [] -> accept_step s (set_main Accepting s)
| accept_gone before i rest :
    main s = Cleaning before (i :: rest) -> heap s !! i = None -> accept_step s (set_status UsedFreedState s)
(* [accept], [calloc] and [pthread_create] succeed *)
| accept_new i new_fd :
    main s = Accepting -> 0 <= new_fd -> heap s !! i = None -> threads s !! i = None ->
    accept_step s (set_main Watching (set_mutex None (set_list (i :: pkcs11_dispatchers s)
      (go_on i Starting (put i (mkDispatch 0 new_fd Null) s)))))
(* one of them fails *)
| accept_fails :
    main s = Accepting -> accept_step s (set_main Watching s).

Inductive uninitialize_step (s : Daemon) : Daemon -> Prop :=
| stop_enter :
    main s = Watching -> uninitialize_step s (set_main StopLocking s)
| stop_lock :
    main s = StopLocking -> pkcs11_dispatchers_mutex s = None ->
    uninitialize_step s (set_main (Stopping (pkcs11_dispatchers s)) (set_mutex (Some Main) s))
(* Forcibly shutdown the connection; [shut]: [shutdown] succeeds *)
| stop_connection i rest d (shut : bool) :
    main s = Stopping (i :: rest) -> heap s !! i = Some d ->
    uninitialize_step s (set_main (StopJoining i rest)
      (if shut && negb (sock d =? -1) then put i (set_sock (-1) d) s else s))
| stop_join i rest d :
    main s = StopJoining i rest -> threads s !! i = Some Ended -> heap s !! i = Some d -> sock d = -1 ->
    uninitialize_step s (set_main (Stopping rest) (release i s))
(* This is always closed by dispatch thread *)
| stop_join_open i rest d :
    main s = StopJoining i rest -> threads s !! i = Some Ended -> heap s !! i = Some d -> sock d <> -1 ->
    uninitialize_step s (set_status Aborted s)
| stop_gone i rest :
    main s = Stopping (i :: rest) \/ main s = StopJoining i rest -> heap s !! i = None ->
    uninitialize_step s (set_status UsedFreedState s)
| stop_end :
    main s = Stopping [] -> uninitialize_step s (set_main Stopped (set_mutex None s)).

(** The end of [rpc_C_Finalize], as the thread [i]: [d] is its own state. *)
Inductive finalize_step (i : nat) (s : Daemon) : Daemon -> Prop :=
| finalize_lock closing :
    threads s !! i = Some (Locking closing) -> pkcs11_dispatchers_mutex s = None ->
    finalize_step i s (go_on i (Walking closing (pkcs11_dispatchers s)) (set_mutex (Some (Thread i)) s))
| finalize_skip closing j rest d c :
    threads s !! i = Some (Walking closing (j :: rest)) -> heap s !! i = Some d -> heap s !! j = Some c ->
    appid c <> appid d \/ sock c = sock d \/ req c = Null
      \/ (exists id, req c = Message id /\ (id <> GCK_RPC_CALL_C_WaitForSlotEvent \/ sock c = -1)) ->
    finalize_step i s (go_on i (Walking closing rest) s)
(* Make all C_WaitForSlotEvent calls return; [shut]: [shutdown] succeeds *)
| finalize_interrupt closing j rest d c (shut : bool) :
    threads s !! i = Some (Walking closing (j :: rest)) -> heap s !! i = Some d -> heap s !! j = Some c ->
    appid c = appid d -> sock c <> sock d -> req c = Message GCK_RPC_CALL_C_WaitForSlotEvent -> sock c <> -1 ->
    finalize_step i s (go_on i (Walking closing rest) (if shut then put j (set_sock (-1) c) s else s))
| finalize_dangling closing j rest d c :
    threads s !! i = Some (Walking closing (j :: rest)) -> heap s !! i = Some d -> heap s !! j = Some c ->
    appid c = appid d -> sock c <> sock d -> req c = Dangling ->
    finalize_step i s (set_status UsedFreedMessage s)
(* The [DispatchState] of the entry, or of the thread itself, is no more *)
| finalize_gone closing j rest :
    threads s !! i = Some (Walking closing (j :: rest)) -> heap s !! i = None \/ heap s !! j = None ->
    finalize_step i s (set_status UsedFreedState s)
| finalize_served :
    threads s !! i = Some (Walking false []) ->
    finalize_step i s (go_on i Serving (set_mutex None s))
(* [call_uninit] gives the messages back *)
| finalize_closed d :
    threads s !! i = Some (Walking true []) -> heap s !! i = Some d ->
    finalize_step i s (go_on i Ending (put i (set_req Dangling d) (set_mutex None s))).

(** [run_dispatch_thread] and the loop in it. *)
Inductive thread_step (i : nat) (s : Daemon) : Daemon -> Prop :=
(* [_install_dispatch_syscall_filter] fails: the thread ends, its socket stays open *)
| thread_unfiltered d :
    threads s !! i = Some Starting -> heap s !! i = Some d -> thread_step i s (go_on i Ended s)
(* The client application; the buffers *)
| thread_begins d id :
    threads s !! i = Some Starting -> heap s !! i = Some d ->
    thread_step i s (go_on i Serving (put i (mkDispatch id (sock d) (Message 0)) s))
(* no TLS, no number, no memory: [call_init] leaves the pointer to a message it freed *)
| thread_fails d id p :
    threads s !! i = Some Starting -> heap s !! i = Some d -> p = Null \/ p = Dangling ->
    thread_step i s (go_on i Ending (put i (mkDispatch id (sock d) p) s))
(* A request is parsed, or the message is reset *)
| thread_request d id :
    threads s !! i = Some Serving -> heap s !! i = Some d ->
    thread_step i s (put i (set_req (Message id) d) s)
(* ... [closing]: the loop is left *)
| thread_finalize closing :
    threads s !! i = Some Serving -> thread_step i s (go_on i (Locking closing) s)
(* assert (cs->sock >= 0) of a read or a write *)
| thread_interrupted d :
    threads s !! i = Some Starting \/ threads s !! i = Some Serving -> heap s !! i = Some d ->
    sock d = -1 -> thread_step i s (set_status Aborted s)
(* The thread closes the socket and marks as done *)
| thread_done d :
    threads s !! i = Some Ending -> heap s !! i = Some d -> sock d <> -1 ->
    thread_step i s (go_on i Ended (put i (set_sock (-1) d) s))
| thread_done_interrupted d :
    threads s !! i = Some Ending -> heap s !! i = Some d -> sock d = -1 ->
    thread_step i s (set_status Aborted s)
(* Any of these, if the [DispatchState] is no more *)
| thread_gone t :
    threads s !! i = Some t -> t <> Ended -> heap s !! i = None -> thread_step i s (set_status UsedFreedState s)
| thread_in_finalize s' : finalize_step i s s' -> thread_step i s s'.

Inductive step (s : Daemon) : Daemon -> Prop :=
| step_accept s' : status s = Running -> accept_step s s' -> step s s'
| step_uninitialize s' : status s = Running -> uninitialize_step s s' -> step s s'
| step_thread i s' : status s = Running -> thread_step i s s' -> step s s'.

(** After [gck_rpc_layer_initialize]. *)
Definition initial : Daemon := mkDaemon ∅ ∅ [] None Watching Running.
Definition reachable (s : Daemon) : Prop := rtc step initial s.

(** * The list of dispatchers *)

(** The entries that are on the list or, at the end, still to be released. *)
Definition listed (s : Daemon) : list nat :=
  match main s with
  | Stopping rest => rest
  | StopJoining i rest => i :: rest
  | Stopped => []
  | _ => pkcs11_dispatchers s
  end.

(** The main thread is where it holds the mutex. *)
Definition main_holds (m : main_thread) : Prop :=
  match m with
  | Cleaning _ _ | Joining _ _ _ | Accepting | Stopping _ | StopJoining _ _ => True
  | _ => False
  end.

(** Main is in the middle of the list. *)
Definition main_place (s : Daemon) : Prop :=
  match main s with
  | Cleaning before rest => pkcs11_dispatchers s = before ++ rest
  | Joining before i rest => pkcs11_dispatchers s = before ++ i :: rest
  | _ => True
  end.

Definition is_walking (t : thread) : Prop := match t with Walking _ _ => True | _ => False end.

Record list_inv (s : Daemon) : Prop := {
  li_nodup : NoDup (listed s);
  li_heap i : is_Some (heap s !! i) <-> i ∈ listed s;
  li_threads i : is_Some (threads s !! i) <-> i ∈ listed s;
  li_main : main_holds (main s) -> pkcs11_dispatchers_mutex s = Some Main;
  li_place : main_place s;
  li_walking i t : threads s !! i = Some t -> is_walking t -> pkcs11_dispatchers_mutex s = Some (Thread i);
  li_rest i closing rest j : threads s !! i = Some (Walking closing rest) -> j ∈ rest -> is_Some (heap s !! j);
}.

Lemma initial_inv : list_inv initial.
Proof.
  split; try done; [apply NoDup_nil_2|..]; intros i; cbn; rewrite lookup_empty; by split; [intros []|set_solver].
Qed.

(** A [DispatchState] is written to. *)
Lemma put_inv i d s : list_inv s -> is_Some (heap s !! i) -> list_inv (put i d s).
Proof.
  intros [Hn Hh Ht Hm Hp Hw Hr] Hi.
  assert (forall j, is_Some (<[i := d]> (heap s) !! j) <-> is_Some (heap s !! j)) as Hd.
  { intros j. destruct (decide (i = j)) as [->|]; [|by rewrite lookup_insert_ne].
    rewrite lookup_insert_eq. naive_solver. }
  split; try done; cbn.
  - intros j. rewrite Hd. apply Hh.
  - intros j closing rest k Hj Hk. rewrite Hd. by eapply Hr.
Qed.

(** A thread goes on, without the mutex. *)
Lemma go_on_inv i t t' s :
  list_inv s -> threads s !! i = Some t -> ~ is_walking t' -> list_inv (go_on i t' s).
Proof.
  intros [Hn Hh Ht Hm Hp Hw Hr] Hi Ht'. split; try done; cbn.
  - intros j. rewrite <- Ht. destruct (decide (i = j)) as [->|]; [|by rewrite lookup_insert_ne].
    rewrite lookup_insert_eq, Hi. naive_solver.
  - intros j u. destruct (decide (i = j)) as [->|]; [|rewrite lookup_insert_ne by done; apply Hw].
    rewrite lookup_insert_eq. by intros [= <-].
  - intros j closing rest k. destruct (decide (i = j)) as [->|]; [|rewrite lookup_insert_ne by done; apply Hr].
    rewrite lookup_insert_eq. intros [= ->]. by destruct Ht'.
Qed.

Lemma lock_inv i closing s :
  list_inv s -> threads s !! i = Some (Locking closing) -> pkcs11_dispatchers_mutex s = None ->
  list_inv (go_on i (Walking closing (pkcs11_dispatchers s)) (set_mutex (Some (Thread i)) s)).
Proof.
  intros [Hn Hh Ht Hm Hp Hw Hr] Hi Hmu.
  assert (~ main_holds (main s)) as Hnot by (intros H; specialize (Hm H); congruence).
  assert (forall j t, threads s !! j = Some t -> ~ is_walking t) as Hno
    by (intros j t Hj H; specialize (Hw j t Hj H); congruence).
  split; try done; cbn.
  - intros j. rewrite <- Ht. destruct (decide (i = j)) as [->|]; [|by rewrite lookup_insert_ne].
    rewrite lookup_insert_eq, Hi. naive_solver.
  - intros j u. destruct (decide (i = j)) as [->|]; [done|]. rewrite lookup_insert_ne by done.
    intros Hj Hu. by destruct (Hno j u Hj).
  - intros j c rest k. destruct (decide (i = j)) as [->|].
    + rewrite lookup_insert_eq. intros [= <- <-] Hk. apply Hh. unfold listed.
      destruct (main s) eqn:Em; try done; try (by destruct Hnot; rewrite Em).
      (* the list of a daemon that has stopped is of no use, but its threads are gone *)
      assert (j ∈ listed s) as Hj by (apply Ht; by rewrite Hi). unfold listed in Hj. by rewrite Em in Hj; apply elem_of_nil in Hj.
    + rewrite lookup_insert_ne by done. intros Hj. by destruct (Hno j _ Hj).
Qed.

(** The next entry of the walk. *)
Lemma walk_inv i closing j rest s :
  list_inv s -> threads s !! i = Some (Walking closing (j :: rest)) ->
  list_inv (go_on i (Walking closing rest) s).
Proof.
  intros [Hn Hh Ht Hm Hp Hw Hr] Hi. split; try done; cbn.
  - intros k. rewrite <- Ht. destruct (decide (i = k)) as [->|]; [|by rewrite lookup_insert_ne].
    rewrite lookup_insert_eq, Hi. naive_solver.
  - intros k u. destruct (decide (i = k)) as [->|]; [|rewrite lookup_insert_ne by done; apply Hw].
    intros _ _. by eapply Hw.
  - intros k c r l. destruct (decide (i = k)) as [->|]; [|rewrite lookup_insert_ne by done; apply Hr].
    rewrite lookup_insert_eq. intros [= <- <-] Hl. eapply Hr; [exact Hi|]. by right.
Qed.

Lemma unlock_inv i closing t' s :
  list_inv s -> threads s !! i = Some (Walking closing []) -> ~ is_walking t' ->
  list_inv (go_on i t' (set_mutex None s)).
Proof.
  intros [Hn Hh Ht Hm Hp Hw Hr] Hi Ht'. pose proof (Hw _ _ Hi I) as Hmu.
  assert (~ main_holds (main s)) as Hnot by (intros H; specialize (Hm H); congruence).
  split; try done; cbn.
  - intros j. rewrite <- Ht. destruct (decide (i = j)) as [->|]; [|by rewrite lookup_insert_ne].
    rewrite lookup_insert_eq, Hi. naive_solver.
  - intros j u. destruct (decide (i = j)) as [->|].
    + rewrite lookup_insert_eq. by intros [= <-].
    + rewrite lookup_insert_ne by done. intros Hj Hu. specialize (Hw j u Hj Hu). congruence.
  - intros j c rest k. destruct (decide (i = j)) as [->|]; [|rewrite lookup_insert_ne by done; apply Hr].
    rewrite lookup_insert_eq. intros [= ->]. by destruct Ht'.
Qed.

(** The main thread goes from one place to another; the list stays. *)
Lemma main_inv m s :
  list_inv s -> listed (set_main m s) = listed s -> (main_holds m -> main_holds (main s)) ->
  main_place (set_main m s) -> list_inv (set_main m s).
Proof. intros [Hn Hh Ht Hm Hp Hw Hr] Hl Hmm Hpl. split; rewrite ?Hl; auto. Qed.

Lemma status_inv p s : list_inv s -> list_inv (set_status p s).
Proof. by intros []. Qed.

(** A thread that has ended and been joined is released. *)
Lemma release_inv i m l s :
  list_inv s -> main_holds (main s) -> main_holds m ->
  listed s ≡ₚ i :: listed (set_main m (set_list l s)) ->
  main_place (set_main m (set_list l s)) -> list_inv (set_main m (set_list l (release i s))).
Proof.
  intros [Hn Hh Ht Hm Hp Hw Hr] Hin Hmm Hl Hpl. specialize (Hm Hin).
  rewrite Hl in Hn. apply NoDup_cons in Hn as [Hni Hn].
  change (listed (set_main m (set_list l s))) with (listed (set_main m (set_list l (release i s)))) in *.
  assert (forall j t, threads s !! j = Some t -> ~ is_walking t) as Hno
    by (intros j t Hj H; specialize (Hw j t Hj H); congruence).
  assert (forall X (mp : gmap nat X), (forall j, is_Some (mp !! j) <-> j ∈ listed s) ->
    forall j, is_Some (delete i mp !! j) <-> j ∈ listed (set_main m (set_list l (release i s)))) as Hdel.
  { intros X mp Hmp j. destruct (decide (i = j)) as [->|].
    - rewrite lookup_delete_eq. split; [by intros []|done].
    - rewrite lookup_delete_ne, Hmp, Hl by done. rewrite elem_of_cons. naive_solver. }
  split; try done; try (by apply Hdel); cbn.
  - intros j t Hj Hu. apply lookup_delete_Some in Hj as [_ Hj]. by destruct (Hno j t Hj).
  - intros j c rest k Hj. apply lookup_delete_Some in Hj as [_ Hj]. by destruct (Hno j _ Hj).
Qed.

(** A thread that is there has its state. *)
Lemma thread_has_state s i t : list_inv s -> threads s !! i = Some t -> is_Some (heap s !! i).
Proof. intros Hs Hi. apply (li_heap s Hs), (li_threads s Hs). by exists t. Qed.

Lemma put_if_inv (b : bool) i d d' s :
  list_inv s -> heap s !! i = Some d' -> list_inv (if b then put i d s else s).
Proof. intros Hs Hi. destruct b; [|done]. by apply put_inv. Qed.

(** What a step keeps: the invariant, and that no [DispatchState] is used that is no more. *)
Definition kept (s : Daemon) : Prop := list_inv s /\ status s <> UsedFreedState.

Lemma kept_running s s' : list_inv s' -> status s' = status s -> status s = Running -> kept s'.
Proof. intros Hs E Hr. split; [done|]. by rewrite E, Hr. Qed.

Lemma accept_new_inv i d s :
  list_inv s -> main s = Accepting -> heap s !! i = None -> threads s !! i = None ->
  list_inv (set_main Watching (set_mutex None (set_list (i :: pkcs11_dispatchers s)
    (go_on i Starting (put i d s))))).
Proof.
  intros [Hn Hh Ht Hm Hp Hw Hr] Hmain Hhi Hti. unfold listed in *. rewrite Hmain in *. specialize (Hm I).
  assert (forall j t, threads s !! j = Some t -> ~ is_walking t) as Hno
    by (intros j t Hj H; specialize (Hw j t Hj H); congruence).
  assert (forall X (mp : gmap nat X) (x : X), (forall j, is_Some (mp !! j) <-> j ∈ pkcs11_dispatchers s) ->
    forall j, is_Some (<[i := x]> mp !! j) <-> j ∈ i :: pkcs11_dispatchers s) as Hins.
  { intros X mp x Hmp j. rewrite elem_of_cons, <- Hmp. destruct (decide (i = j)) as [->|].
    - rewrite lookup_insert_eq. naive_solver.
    - rewrite lookup_insert_ne by done. naive_solver. }
  split; try done; cbn.
  - constructor; [|done]. rewrite <- Hh, Hhi. by intros [].
  - by apply Hins.
  - by apply Hins.
  - intros j t. destruct (decide (i = j)) as [->|].
    + rewrite lookup_insert_eq. by intros [= <-].
    + rewrite lookup_insert_ne by done. intros Hj Hu. by destruct (Hno j t Hj).
  - intros j c rest k. destruct (decide (i = j)) as [->|].
    + by rewrite lookup_insert_eq.
    + rewrite lookup_insert_ne by done. intros Hj. by destruct (Hno j _ Hj).
Qed.

(** The mutex is taken by the main thread, or given back. *)
Lemma main_mutex_inv o m s :
  list_inv s -> listed (set_main m s) = listed s -> main_place (set_main m s) ->
  (forall j t, threads s !! j = Some t -> ~ is_walking t) -> (main_holds m -> o = Some Main) ->
  list_inv (set_main m (set_mutex o s)).
Proof.
  intros [Hn Hh Ht Hm Hp Hw Hr] Hl Hpl Hno Ho.
  assert (listed (set_main m (set_mutex o s)) = listed s) as Hl' by exact Hl.
  split; rewrite ?Hl'; try done. intros j t Hj Hu. by destruct (Hno j t Hj).
Qed.

Lemma no_walker s : list_inv s -> pkcs11_dispatchers_mutex s = None \/ main_holds (main s) ->
  forall j t, threads s !! j = Some t -> ~ is_walking t.
Proof.
  intros Hs Hfree j t Hj Hu. pose proof (li_walking s Hs j t Hj Hu).
  destruct Hfree as [|Hm]; [congruence|]. pose proof (li_main s Hs Hm). congruence.
Qed.

Lemma accept_step_kept s s' : list_inv s -> status s = Running -> accept_step s s' -> kept s'.
Proof.
  intros Hs Hrun Hstep. pose proof (li_place s Hs) as Hpl. unfold main_place in Hpl.
  assert (forall m, main s = m -> listed s = listed (set_main m s)) as Hlist
    by (intros m <-; by destruct s).
  destruct Hstep as [Hm|Hm Hmu|before i rest d Hm Hi Hd|before i rest d Hm Hi Hd|before i rest Hm Hi
    |before Hm|before i rest Hm Hi|i new_fd Hm Hfd Hi Ht|Hm];
    try (apply (kept_running s); [|done|done]); rewrite Hm in Hpl.
  - apply main_inv; try done. by rewrite (Hlist _ Hm).
  - apply main_mutex_inv; try done; [by rewrite (Hlist _ Hm)|]. apply no_walker; [done|by left].
  - apply main_inv; try done; [by rewrite (Hlist _ Hm)|by rewrite Hm|]. cbn. by rewrite <- (assoc_L app).
  - apply main_inv; try done; [by rewrite (Hlist _ Hm)|by rewrite Hm].
  - apply release_inv; try done; [by rewrite Hm|]. rewrite (Hlist _ Hm). cbn. rewrite Hpl.
    by rewrite Permutation_middle.
  - apply main_inv; try done; [by rewrite (Hlist _ Hm)|by rewrite Hm].
  - exfalso. assert (is_Some (heap s !! i)) as [d Hd]; [|congruence].
    apply (li_heap s Hs). rewrite (Hlist _ Hm). cbn. rewrite Hpl. set_solver.
  - by apply accept_new_inv.
  - apply main_inv; try done. by rewrite (Hlist _ Hm).
Qed.

Lemma uninitialize_step_kept s s' : list_inv s -> status s = Running -> uninitialize_step s s' -> kept s'.
Proof.
  intros Hs Hrun Hstep.
  assert (forall m, main s = m -> listed s = listed (set_main m s)) as Hlist
    by (intros m <-; by destruct s).
  destruct Hstep as [Hm|Hm Hmu|i rest d shut Hm Hi|i rest d Hm Ht Hi Hd|i rest d Hm Ht Hi Hd|i rest Hm Hi|Hm].
  - apply (kept_running s); [|done|done]. apply main_inv; try done. by rewrite (Hlist _ Hm).
  - apply (kept_running s); [|done|done].
    apply main_mutex_inv; try done; [by rewrite (Hlist _ Hm)|]. apply no_walker; [done|by left].
  - assert (list_inv (if shut && negb (sock d =? -1) then put i (set_sock (-1) d) s else s)) as Hp
      by (by eapply put_if_inv).
    assert (main (if shut && negb (sock d =? -1) then put i (set_sock (-1) d) s else s) = main s) as Em
      by by destruct (_ && _).
    apply (kept_running s); [|by destruct (_ && _)|done].
    apply main_inv; try done; [|by rewrite Em, Hm].
    transitivity (listed s); [by rewrite (Hlist _ Hm)|]. by destruct (_ && _).
  - apply (kept_running s); [|done|done].
    replace (release i s) with (set_list (pkcs11_dispatchers s) (release i s)) by by destruct s.
    apply release_inv; try done; [by rewrite Hm|]. by rewrite (Hlist _ Hm).
  - split; [by apply status_inv|done].
  - exfalso. assert (is_Some (heap s !! i)) as [d Hd]; [|congruence].
    apply (li_heap s Hs). destruct Hm as [Hm|Hm]; rewrite (Hlist _ Hm); left.
  - apply (kept_running s); [|done|done]. apply main_mutex_inv; try done; [by rewrite (Hlist _ Hm)|].
    apply no_walker; [done|right]. by rewrite Hm.
Qed.

Lemma finalize_step_kept i s s' : list_inv s -> status s = Running -> finalize_step i s s' -> kept s'.
Proof.
  intros Hs Hrun Hstep.
  destruct Hstep as [closing Hi Hmu|closing j rest d c Hi _ _ _|closing j rest d c shut Hi _ Hj _ _ _ _
    |closing j rest d c Hi _ _ _ _ _|closing j rest Hi Hgone|Hi|d Hi Hd].
  - apply (kept_running s); [by apply lock_inv|done|done].
  - apply (kept_running s); [by eapply walk_inv|done|done].
  - apply (kept_running s); [|by destruct shut|done].
    apply (walk_inv i closing j); [by eapply put_if_inv|by destruct shut].
  - split; [by apply status_inv|done].
  - exfalso. destruct Hgone as [Hn|Hn].
    + destruct (thread_has_state s i _ Hs Hi). congruence.
    + destruct (li_rest s Hs i closing (j :: rest) j Hi ltac:(left)). congruence.
  - apply (kept_running s); [apply (unlock_inv i false); [done|done|by intros []]|done|done].
  - apply (kept_running s); [|done|done].
    change (list_inv (go_on i Ending (put i (set_req Dangling d) (set_mutex None s))))
      with (list_inv (put i (set_req Dangling d) (go_on i Ending (set_mutex None s)))).
    apply put_inv; [apply (unlock_inv i true); [done|done|by intros []]|by exists d].
Qed.

Lemma thread_step_kept i s s' : list_inv s -> status s = Running -> thread_step i s s' -> kept s'.
Proof.
  intros Hs Hrun Hstep.
  assert (forall d d' t t', heap s !! i = Some d -> threads s !! i = Some t -> ~ is_walking t' ->
    list_inv (go_on i t' (put i d' s))) as Hgo.
  { intros d d' t t' Hd Ht Hw. apply (go_on_inv i t); [by apply put_inv|done|done]. }
  destruct Hstep as [d Hi Hd|d id Hi Hd|d id p Hi Hd Hp|d id Hi Hd|closing Hi|d Hi Hd Hk|d Hi Hd Hk|d Hi Hd Hk
    |t Hi Ht Hn|s' Hf]; try (apply (kept_running s); [|done|done]).
  - eapply go_on_inv; [exact Hs|exact Hi|by intros []].
  - eapply Hgo; [exact Hd|exact Hi|by intros []].
  - eapply Hgo; [exact Hd|exact Hi|by intros []].
  - by apply put_inv.
  - eapply go_on_inv; [exact Hs|exact Hi|by intros []].
  - split; [by apply status_inv|done].
  - eapply Hgo; [exact Hd|exact Hi|by intros []].
  - split; [by apply status_inv|done].
  - exfalso. destruct (thread_has_state s i t Hs Hi). congruence.
  - by eapply finalize_step_kept.
Qed.

Lemma step_kept s s' : list_inv s -> step s s' -> kept s'.
Proof.
  intros Hs [t Hr Hst|t Hr Hst|i t Hr Hst];
    [by eapply accept_step_kept|by eapply uninitialize_step_kept|by eapply thread_step_kept].
Qed.

Lemma reachable_kept s : reachable s -> kept s.
Proof.
  intros Hr. cut (forall s0, rtc step s0 s -> kept s0 -> kept s).
  { intros H. apply (H initial Hr). by split; [apply initial_inv|]. }
  clear. induction 1 as [|s0 s1 s Hst _ IH]; [done|]. intros [Hs _]. apply IH. by eapply step_kept.
Qed.

(** * Waiting while holding the mutex *)

(** The main thread waits for the thread [i] to end. *)
Definition waits_for (m : main_thread) (i : nat) : Prop :=
  match m with
  | Joining _ j _ | StopJoining j _ => j = i
  | _ => False
  end.

(** A thread that has to go through [rpc_C_Finalize] before it ends. *)
Definition not_finalized (t : thread) : Prop :=
  match t with Serving | Locking _ => True | _ => False end.

Definition stuck_join (m : main_thread) (i : nat) (s : Daemon) : Prop :=
  list_inv s /\ main s = m /\ exists t, threads s !! i = Some t /\ not_finalized t.

Lemma waits_holds m i : waits_for m i -> main_holds m.
Proof. by destruct m. Qed.

Lemma stuck_thread m i j s s' :
  waits_for m i -> stuck_join m i s -> thread_step j s s' ->
  main s' = m /\ exists t, threads s' !! i = Some t /\ not_finalized t.
Proof.
  intros Hm (Hs & Em & t & Ht & Hnf) Hstep.
  assert (main_holds (main s)) as Hh by (rewrite Em; by eapply waits_holds).
  pose proof (li_main s Hs Hh) as Hmu.
  assert (forall k u, threads s !! k = Some u -> ~ is_walking u) as Hno
    by (apply no_walker; [done|by right]).
  assert (forall t' u, threads s !! j = Some u -> (not_finalized u -> not_finalized t') ->
    exists t, <[j := t']> (threads s) !! i = Some t /\ not_finalized t) as Hgo.
  { intros t' u Hj Hu. destruct (decide (j = i)) as [->|].
    - exists t'. rewrite lookup_insert_eq. split; [done|]. apply Hu. congruence.
    - exists t. by rewrite lookup_insert_ne. }
  destruct Hstep as [d Hi Hd|d id Hi Hd|d id p Hi Hd Hp|d id Hi Hd|closing Hi|d Hi Hd Hk|d Hi Hd Hk|d Hi Hd Hk
    |u Hi Hu Hn|s' Hf]; try (split; [exact Em|]; first [by eapply Hgo|by exists t]).
  destruct Hf as [closing Hi Hmu'|closing k rest d c Hi _ _ _|closing k rest d c shut Hi _ Hj _ _ _ _
    |closing k rest d c Hi _ _ _ _ _|closing k rest Hi Hgone|Hi|d Hi Hd];
    [congruence|by destruct (Hno _ _ Hi)..].
Qed.

Lemma stuck_step m i s s' : waits_for m i -> stuck_join m i s -> step s s' -> stuck_join m i s'.
Proof.
  intros Hm Hst Hstep. pose proof Hst as (Hs & Em & t & Ht & Hnf).
  split; [by apply (step_kept s s')|].
  destruct Hstep as [s' Hr Ha|s' Hr Hu|j s' Hr Hth]; [..|by eapply stuck_thread].
  - destruct Ha; rewrite Em in *; subst m; try done. cbn in Hm. subst. rewrite Ht in *. simplify_eq. done.
  - destruct Hu; rewrite Em in *; subst m; try done; cbn in Hm; subst;
      try (rewrite Ht in *; simplify_eq; done).
    split; [done|]. by exists t.
Qed.

Lemma stuck_forever m i s s' :
  waits_for m i -> stuck_join m i s -> rtc step s s' -> stuck_join m i s'.
Proof. intros Hm Hs Hr. induction Hr as [|s s1 s' Hst _ IH]; [done|]. apply IH. by eapply stuck_step. Qed.

(** The mutex was not given back, and nobody is left to do it. *)
Definition mutex_lost (s : Daemon) : Prop :=
  list_inv s /\ pkcs11_dispatchers_mutex s = Some Main
  /\ (main s = Watching \/ main s = AcceptLocking \/ main s = StopLocking).

Lemma thread_mutex i s s' :
  list_inv s -> pkcs11_dispatchers_mutex s = Some Main -> thread_step i s s' ->
  pkcs11_dispatchers_mutex s' = Some Main /\ main s' = main s.
Proof.
  intros Hs Hmu Hstep.
  assert (forall k u, threads s !! k = Some u -> ~ is_walking u) as Hno
    by (intros k u Hk Hu; pose proof (li_walking s Hs k u Hk Hu); congruence).
  destruct Hstep as [d Hi Hd|d id Hi Hd|d id p Hi Hd Hp|d id Hi Hd|closing Hi|d Hi Hd Hk|d Hi Hd Hk|d Hi Hd Hk
    |u Hi Hu Hn|s' Hf]; try done.
  destruct Hf as [closing Hi Hmu'|closing k rest d c Hi _ _ _|closing k rest d c shut Hi _ Hj _ _ _ _
    |closing k rest d c Hi _ _ _ _ _|closing k rest Hi Hgone|Hi|d Hi Hd];
    [congruence|by destruct (Hno _ _ Hi)..].
Qed.

Lemma mutex_lost_step s s' : mutex_lost s -> step s s' -> mutex_lost s'.
Proof.
  intros (Hs & Hmu & Hm) Hstep. split; [by apply (step_kept s s')|].
  destruct Hstep as [s' Hr Ha|s' Hr Hu|i s' Hr Hth].
  - destruct Ha; try (destruct Hm as [?|[?|?]]; congruence). split; [done|]. by right; left.
  - destruct Hu; try (destruct Hm as [?|[?|?]]; congruence).
    + split; [done|]. by right; right.
    + exfalso. destruct Hm as [?|[?|?]], H as [?|?]; congruence.
  - destruct (thread_mutex i s s' Hs Hmu Hth) as [-> ->]. done.
Qed.

Lemma mutex_lost_forever s s' : mutex_lost s -> rtc step s s' -> mutex_lost s'.
Proof. intros Hs Hr. induction Hr as [|s s1 s' Hst _ IH]; [done|]. apply IH. by eapply mutex_lost_step. Qed.

(** * Runs *)

(** A run goes on with a step of the rule [c]. *)
Tactic Notation "accepts" uconstr(c) :=
  eapply rtc_l; [apply step_accept; [reflexivity|eapply c; (reflexivity || discriminate || lia)]|].
Tactic Notation "stops" uconstr(c) :=
  eapply rtc_l; [apply step_uninitialize; [reflexivity|eapply c; (reflexivity || discriminate)]|].
Tactic Notation "runs_thread" constr(i) uconstr(c) :=
  eapply rtc_l; [apply (step_thread _ i); [reflexivity|eapply c; (reflexivity || discriminate)]|].
Tactic Notation "finalizes" constr(i) uconstr(c) :=
  eapply rtc_l; [apply (step_thread _ i); [reflexivity|apply thread_in_finalize; eapply c;
    (reflexivity || discriminate || eassumption || idtac)]|].

(** A connection has been accepted and is served. *)
Definition one_served : Daemon :=
  mkDaemon {[ 0%nat := mkDispatch 7 3 (Message 0) ]} {[ 0%nat := Serving ]} [0%nat] None Watching Running.

Lemma one_served_reachable : reachable one_served.
Proof.
  unfold reachable.
  accepts accept_enter. accepts accept_lock. accepts accept_cleaned.
  accepts (accept_new _ 0 3).
  runs_thread 0%nat (thread_begins 0 _ (mkDispatch 0 3 Null) 7).
  apply rtc_refl.
Qed.

(** The daemon is told to terminate while that connection is served. *)
Definition stopping_served : Daemon :=
  mkDaemon {[ 0%nat := mkDispatch 7 (-1) (Message 0) ]} {[ 0%nat := Serving ]} [0%nat] (Some Main)
    (StopJoining 0 []) Running.

Lemma stopping_served_reachable : reachable stopping_served.
Proof.
  unfold reachable. etransitivity; [exact one_served_reachable|].
  stops stop_enter. stops stop_lock.
  stops (stop_connection _ 0 [] (mkDispatch 7 3 (Message 0)) true).
  apply rtc_refl.
Qed.

(** Two connections of one application; over the first a [C_WaitForSlotEvent] is made. *)
Definition two_served : Daemon :=
  mkDaemon {[ 0%nat := mkDispatch 7 3 (Message GCK_RPC_CALL_C_WaitForSlotEvent);
              1%nat := mkDispatch 7 4 (Message 0) ]}
    {[ 0%nat := Serving; 1%nat := Serving ]} [1%nat; 0%nat] None Watching Running.

Lemma two_served_reachable : reachable two_served.
Proof.
  unfold reachable. etransitivity; [exact one_served_reachable|].
  runs_thread 0%nat (thread_request 0 _ (mkDispatch 7 3 (Message 0)) GCK_RPC_CALL_C_WaitForSlotEvent).
  accepts accept_enter. accepts accept_lock.
  accepts (accept_keep _ [] 0 [] (mkDispatch 7 3 (Message GCK_RPC_CALL_C_WaitForSlotEvent))).
  accepts accept_cleaned.
  accepts (accept_new _ 1 4).
  runs_thread 1%nat (thread_begins 1 _ (mkDispatch 0 4 Null) 7).
  apply rtc_refl.
Qed.

(** The other connection finalizes; then a third one comes in. *)
Definition joining_interrupted : Daemon :=
  mkDaemon {[ 0%nat := mkDispatch 7 (-1) (Message GCK_RPC_CALL_C_WaitForSlotEvent);
              1%nat := mkDispatch 7 4 (Message 0) ]}
    {[ 0%nat := Serving; 1%nat := Serving ]} [1%nat; 0%nat] (Some Main) (Joining [1%nat] 0 []) Running.

(** The thread [1] in [rpc_C_Finalize], having passed its own entry. *)
Lemma finalizing (closing : bool) d0 t0 d1 :
  let s t := mkDaemon {[ 0%nat := d0; 1%nat := d1 ]} {[ 0%nat := t0; 1%nat := t ]} [1%nat; 0%nat] in
  rtc step (s Serving None Watching Running) (s (Walking closing [0%nat]) (Some (Thread 1)) Watching Running).
Proof.
  intros s.
  runs_thread 1%nat (thread_finalize 1 _ closing).
  finalizes 1%nat (finalize_lock 1 _ closing).
  finalizes 1%nat (finalize_skip 1 _ closing 1 [0%nat] d1 d1).
  { by right; left. }
  apply rtc_refl.
Qed.

Lemma joining_interrupted_reachable : reachable joining_interrupted.
Proof.
  unfold reachable. etransitivity; [exact two_served_reachable|].
  etransitivity; [apply (finalizing false)|].
  finalizes 1%nat (finalize_interrupt 1 _ false 0 [] (mkDispatch 7 4 (Message 0))
    (mkDispatch 7 3 (Message GCK_RPC_CALL_C_WaitForSlotEvent)) true).
  finalizes 1%nat (finalize_served 1).
  accepts accept_enter. accepts accept_lock.
  accepts (accept_keep _ [] 1 [0%nat] (mkDispatch 7 4 (Message 0))).
  accepts (accept_completed _ [1%nat] 0 [] (mkDispatch 7 (-1) (Message GCK_RPC_CALL_C_WaitForSlotEvent))).
  apply rtc_refl.
Qed.

(** * Properties *)

(** C7: the threads and what they share.  In every state that can be reached, whatever
    the order in which the main thread and the threads of the connections go on:
    nothing uses a [DispatchState] that has been freed; the states that are allocated
    are those of the threads not yet joined, and those on the list, which holds none
    twice; and of all threads only the owner of the mutex is in the middle of the list. *)
Theorem dispatchers_invariant s :
  reachable s ->
  status s <> UsedFreedState
  /\ NoDup (listed s)
  /\ (forall i, is_Some (heap s !! i) <-> i ∈ listed s)
  /\ (forall i, is_Some (threads s !! i) <-> i ∈ listed s)
  /\ (forall i closing rest, threads s !! i = Some (Walking closing rest) ->
       pkcs11_dispatchers_mutex s = Some (Thread i) /\ Forall (fun j => is_Some (heap s !! j)) rest)
  /\ (main_holds (main s) -> pkcs11_dispatchers_mutex s = Some Main).
Proof.
  intros Hr. destruct (reachable_kept s Hr) as [Hs Hst].
  split; [exact Hst|]. split; [apply Hs|]. split; [apply Hs|]. split; [apply Hs|]. split; [|apply Hs].
  intros i closing rest Hi. split; [by eapply (li_walking s Hs)|].
  apply Forall_forall. intros j. by eapply (li_rest s Hs).
Qed.

Lemma dispatchers_invariant_witness :
  status joining_interrupted <> UsedFreedState /\ NoDup (listed joining_interrupted)
  /\ (forall i, is_Some (heap joining_interrupted !! i) <-> i ∈ listed joining_interrupted)
  /\ (forall i, is_Some (threads joining_interrupted !! i) <-> i ∈ listed joining_interrupted)
  /\ (forall i closing rest, threads joining_interrupted !! i = Some (Walking closing rest) ->
       pkcs11_dispatchers_mutex joining_interrupted = Some (Thread i)
       /\ Forall (fun j => is_Some (heap joining_interrupted !! j)) rest)
  /\ (main_holds (main joining_interrupted) -> pkcs11_dispatchers_mutex joining_interrupted = Some Main).
Proof. apply (dispatchers_invariant joining_interrupted), joining_interrupted_reachable. Defined.

(** C16: a deadlock.  The main thread waits for threads to end while it holds the mutex
    that every thread takes before it ends: when it waits for a thread that has not been
    through [rpc_C_Finalize] yet, it waits for ever.  This is so for every connection
    being served when the daemon is told to terminate, and in [gck_rpc_layer_accept] for
    one that another connection's [C_Finalize] has marked as completed. *)
Theorem join_never_ends s s' i t :
  reachable s -> waits_for (main s) i -> threads s !! i = Some t -> not_finalized t ->
  rtc step s s' -> main s' = main s.
Proof.
  intros Hr Hw Ht Hnf Hrun. destruct (reachable_kept s Hr) as [Hs _].
  apply (stuck_forever (main s) i s s'); [done|by split; [|split; [|exists t]]|done].
Qed.

Lemma join_never_ends_witness :
  (forall s', rtc step stopping_served s' -> main s' = StopJoining 0 []) /\
  (forall s', rtc step joining_interrupted s' -> main s' = Joining [1%nat] 0 []).
Proof.
  split; intros s' Hrun.
  - apply (join_never_ends stopping_served s' 0 Serving stopping_served_reachable); done.
  - apply (join_never_ends joining_interrupted s' 0 Serving joining_interrupted_reachable); done.
Defined.

(** C27: when [accept], [calloc] or [pthread_create] fails once, [gck_rpc_layer_accept]
    returns with the mutex locked, and that was the last connection: the main thread
    never gets to [accept] again, nor past the mutex when the daemon is to terminate. *)
Theorem failed_accept_is_the_last s s' :
  reachable s -> main s = Accepting -> status s = Running ->
  let s1 := set_main Watching s in
  step s s1 /\ (rtc step s1 s' -> main s' = Watching \/ main s' = AcceptLocking \/ main s' = StopLocking).
Proof.
  intros Hr Hm Hst s1. destruct (reachable_kept s Hr) as [Hs _].
  assert (step s s1) as Hstep by (by apply step_accept; [|apply accept_fails]).
  split; [done|]. intros Hrun. apply (mutex_lost_forever s1 s'); [|done].
  split; [by apply (step_kept s s1)|]. split; [|by left].
  apply (li_main s Hs). by rewrite Hm.
Qed.

Definition accepting : Daemon := mkDaemon ∅ ∅ [] (Some Main) Accepting Running.

Lemma failed_accept_is_the_last_witness :
  step accepting (set_main Watching accepting) /\
  (forall s', rtc step (set_main Watching accepting) s' ->
    main s' = Watching \/ main s' = AcceptLocking \/ main s' = StopLocking).
Proof.
  assert (reachable accepting) as Hr
    by (unfold reachable; accepts accept_enter; accepts accept_lock; accepts accept_cleaned; apply rtc_refl).
  split.
  - apply (failed_accept_is_the_last accepting accepting); done.
  - intros s' Hrun. by apply (failed_accept_is_the_last accepting s').
Defined.

(** C28: a use after free.  The messages of a connection are freed when it ends, but the
    pointer to them stays in its state, and the state on the list until the next
    connection is accepted: the next connection of the same application to end looks at
    the name of the call in the freed message. *)
Theorem finalize_reads_freed_message :
  exists s, reachable s /\ pkcs11_dispatchers s = [1%nat; 0%nat]
    /\ heap s !! 0%nat = Some (mkDispatch 7 (-1) Dangling) /\ status s = UsedFreedMessage.
Proof.
  set (d0 := mkDispatch 7 3 (Message GCK_RPC_CALL_C_WaitForSlotEvent)). set (d1 := mkDispatch 7 4 (Message 0)).
  eexists. split.
  - unfold reachable. etransitivity; [exact two_served_reachable|].
    (* the first connection ends *)
    runs_thread 0%nat (thread_finalize 0 _ true).
    finalizes 0%nat (finalize_lock 0 _ true).
    finalizes 0%nat (finalize_skip 0 _ true 1 [0%nat] d0 d1).
    { right. right. right. exists 0. split; [done|]. by left. }
    finalizes 0%nat (finalize_skip 0 _ true 0 [] d0 d0).
    { by right; left. }
    finalizes 0%nat (finalize_closed 0 _ d0).
    runs_thread 0%nat (thread_done 0 _ (mkDispatch 7 3 Dangling)).
    (* and then the second *)
    etransitivity; [apply (finalizing true (mkDispatch 7 (-1) Dangling) Ended d1)|].
    finalizes 1%nat (finalize_dangling 1 _ true 0 [] d1 (mkDispatch 7 (-1) Dangling)).
    apply rtc_refl.
  - done.
Qed.
