(* ===== verification/Sockets.v ===== *)
(** The loops over the addresses of a host: [_connect_to_host_port] of
    gck-rpc-module.c and [_get_listening_socket] of gck-rpc-dispatch.c.  What the
    resolver and the system calls answer is a parameter; which descriptors are opened
    and closed is recorded. *)
From S2P Require Import Prelude CString.

(** ** Descriptors *)

Inductive fd_op := Opened (fd : Z) | Closed (fd : Z).

(** The descriptors that are open after [ops], the latest first, if they were [fds]
    before; [None] if one is closed that is not among them. *)
Fixpoint descriptors (fds : list Z) (ops : list fd_op) : option (list Z) :=
  match ops with
  | [] => Some fds
  | Opened fd :: ops => descriptors (fd :: fds) ops
  | Closed fd :: ops =>
      if bool_decide (fd ∈ fds) then descriptors (filter (fun g => g <> fd) fds) ops else None
  end.

(** What the calls that are made for an address answer; with its family, and its host and
    port in numbers.  [getnameinfo] may be called again for the same address: its answer
    depends on how many calls there were. *)
Record addrinfo := mkAddr {
  ai_inet6 : bool;
  ai_numeric : string * string;
  ai_getnameinfo : nat -> bool;
  ai_socket : option Z;
  ai_nodelay : bool;
  ai_option : bool; (* FD_CLOEXEC for the client, SO_REUSEADDR for the daemon *)
  ai_connect : bool; (* connect for the client, bind for the daemon *)
}.

(** [(ai->ai_family == AF_INET6) ? "[%s]:%s" : "%s:%s"] *)
Definition hostport (a : addrinfo) : string :=
  let (host, port) := ai_numeric a in
  if ai_inet6 a then "[" +:+ host +:+ "]:" +:+ port else host +:+ ":" +:+ port.

(** ** The client *)

(** The loop [while (ai)]: the socket, with the operations on descriptors so far.  [None]
    if [fuel] turns are not enough.  [tries]: the turns the first address has had. *)
Fixpoint connect_loop (fuel : nat) (tries : nat) (ai : list addrinfo) (ops : list fd_op) : option (Z * list fd_op) :=
  match fuel, ai with
  | O, _ => None
  | S _, [] => Some (-1, ops)
  | S fuel, a :: next =>
      (* continue, with the same address *)
      if negb (ai_getnameinfo a tries) then connect_loop fuel (S tries) ai ops else
      match ai_socket a with
      | None => connect_loop fuel 0 next ops
      | Some sock =>
          let ops := ops ++ [Opened sock] in
          if negb (ai_nodelay a) || negb (ai_option a) then connect_loop fuel 0 next (ops ++ [Closed sock]) else
          if negb (ai_connect a) then connect_loop fuel 0 next (ops ++ [Closed sock; Closed sock]) else
          Some (sock, ops)
      end
  end.

(** [resolved]: what [getaddrinfo] finds. *)
Definition _connect_to_host_port (fuel : nat) (resolved : option (list addrinfo)) : option (Z * list fd_op) :=
  match resolved with
  | None => Some (-1, [])
  | Some ai => connect_loop fuel 0 ai []
  end.

(** ** The daemon *)

Fixpoint listening_loop (ai : list addrinfo) (ops : list fd_op) : Z * option addrinfo * list fd_op :=
  match ai with
  | [] => (-1, None, ops)
  | a :: next =>
      match ai_socket a with
      | None => listening_loop next ops
      | Some sock =>
          let ops := ops ++ [Opened sock] in
          if ai_nodelay a && ai_option a && ai_connect a then (sock, Some a, ops)
          else listening_loop next (ops ++ [Closed sock])
      end
  end.

(** [listen_ok]: [listen] succeeds.  With the socket, what [pkcs11_socket_path] becomes, or
    [None] if it is left alone. *)
Definition _get_listening_socket (proto : string) (resolved : option (list addrinfo)) (listen_ok : bool)
    : Z * option string * list fd_op :=
  match resolved with
  | None => (-1, None, [])
  | Some ai =>
      let '(sock, a, ops) := listening_loop ai [] in
      match a with
      | None => (-1, None, ops)
      | Some a =>
          if negb listen_ok then (-1, None, ops) else
          (* Format a string describing the socket we're listening on into pkcs11_socket_path *)
          if negb (ai_getnameinfo a 0%nat) then (-1, None, ops) else
          (sock, Some (snprintf_s (string_bytes (proto +:+ "://" +:+ hostport a))), ops)
      end
  end.

(** * Lemmas *)

Lemma descriptors_app fds ops ops' :
  descriptors fds (ops ++ ops') = descriptors fds ops ≫= fun fds => descriptors fds ops'.
Proof.
  revert fds. induction ops as [|[fd|fd] ops IH]; intros fds; cbn; [done|apply IH|].
  case_bool_decide; [apply IH|done].
Qed.

(** A socket that is opened and closed again. *)
Lemma descriptors_close fd : descriptors [] [Opened fd; Closed fd] = Some [].
Proof.
  change (descriptors [] _) with (if bool_decide (fd ∈ [fd]) then Some (filter (fun g => g <> fd) [fd]) else None).
  rewrite bool_decide_true by left. rewrite filter_cons_False; [done|]. intros H. by apply H.
Qed.

(** The address connects. *)
Definition connects (a : addrinfo) : bool :=
  nonnull (ai_socket a) && ai_nodelay a && ai_option a && ai_connect a.

(** The addresses the loop comes to. *)
Fixpoint tried (ai : list addrinfo) : list addrinfo :=
  match ai with
  | [] => []
  | a :: next => a :: if connects a then [] else tried next
  end.

(** [getnameinfo] fails at [k] turns for the address, and then no more. *)
Definition named_after (a : addrinfo) (k : nat) : Prop :=
  ai_getnameinfo a k = true /\ forall j, (j < k)%nat -> ai_getnameinfo a j = false.

(** It succeeds at some turn. *)
Definition named (a : addrinfo) : Prop := exists k, ai_getnameinfo a k = true.

Lemma named_least a : named a -> exists k, named_after a k.
Proof.
  intros [k Hk]. induction k as [k IH] using lt_wf_ind.
  destruct (decide (Exists (fun j => ai_getnameinfo a j = true) (seq 0 k))) as [He|Hn].
  - apply Exists_exists in He as (j & Hj%elem_of_seq & Hb). apply (IH j); [lia|done].
  - exists k. split; [done|]. intros j Hj. destruct (ai_getnameinfo a j) eqn:E; [|done].
    destruct Hn. apply Exists_exists. exists j. split; [apply elem_of_seq; lia|done].
Qed.

(** The turns that fail leave the loop where it is. *)
Lemma connect_loop_turns fuel j n a next ops :
  (forall i, (i < n)%nat -> ai_getnameinfo a (j + i) = false) ->
  connect_loop (n + fuel) j (a :: next) ops = connect_loop fuel (j + n) (a :: next) ops.
Proof.
  revert j. induction n as [|n IH]; intros j Hf; [by rewrite Nat.add_0_r|].
  cbn [Nat.add connect_loop]. specialize (Hf 0%nat) as H0. rewrite Nat.add_0_r in H0.
  rewrite H0 by lia. cbn [negb]. rewrite IH; [by rewrite <- Nat.add_succ_comm|].
  intros i Hi. rewrite Nat.add_succ_comm. apply Hf. lia.
Qed.

Lemma connect_loop_ends ai ops :
  Forall named (tried ai) -> exists fuel, is_Some (connect_loop fuel 0 ai ops).
Proof.
  revert ops. induction ai as [|a ai IH]; intros ops Ht; [exists 1%nat; by eexists|].
  cbn [tried] in Ht. apply Forall_cons in Ht as [(k & Hk & Hless)%named_least Ht].
  assert (exists fuel, is_Some (connect_loop (S fuel) k (a :: ai) ops)) as [fuel Hf].
  { cbn [connect_loop]. rewrite Hk. cbn [negb]. unfold connects in Ht.
    destruct (ai_socket a) as [sock|]; cbn [nonnull andb] in Ht; [|by apply IH].
    destruct (ai_nodelay a), (ai_option a), (ai_connect a); cbn [negb orb andb] in *;
      try (by apply IH); exists 0%nat; by eexists. }
  exists (k + S fuel)%nat. rewrite connect_loop_turns by exact Hless. done.
Qed.

(** A loop that has ended had a name for every address it came to. *)
Lemma connect_loop_named fuel k ai ops :
  is_Some (connect_loop fuel k ai ops) -> Forall named (tried ai).
Proof.
  revert k ai ops. induction fuel as [|fuel IH]; intros k ai ops [r Hr]; [done|].
  destruct ai as [|a ai]; [by constructor|]. cbn [connect_loop] in Hr.
  destruct (ai_getnameinfo a k) eqn:Hk; cbn [negb] in Hr; [|eapply IH; by eexists].
  cbn [tried]. unfold connects. constructor; [by exists k|].
  destruct (ai_socket a) as [sock|]; cbn [nonnull andb]; [|eapply IH; by eexists].
  destruct (ai_nodelay a), (ai_option a), (ai_connect a); cbn [negb orb andb] in *;
    first [by constructor|eapply IH; by eexists].
Qed.

Lemma listening_loop_owned ai ops :
  descriptors [] ops = Some [] ->
  let '(sock, a, ops') := listening_loop ai ops in
  descriptors [] ops' = Some (match a with Some _ => [sock] | None => [] end)
  /\ (a = None -> sock = -1).
Proof.
  revert ops. induction ai as [|a ai IH]; intros ops Hops; [done|]. cbn [listening_loop].
  destruct (ai_socket a) as [sock|]; [|by apply IH].
  destruct (_ && _).
  - split; [|done]. rewrite descriptors_app, Hops. done.
  - apply IH. rewrite <- (assoc_L app). cbn [app]. rewrite descriptors_app, Hops. apply descriptors_close.
Qed.

(** * Properties *)

(** C26: [_connect_to_host_port] returns exactly if [getnameinfo] succeeds at some turn for
    each of the addresses it comes to; if it never does for one, the loop goes on with the
    same address for ever. *)
Theorem connect_to_host_port_terminates ai :
  (exists fuel, is_Some (_connect_to_host_port fuel (Some ai))) <-> Forall named (tried ai).
Proof.
  split.
  - intros [fuel Hr]. by apply (connect_loop_named fuel 0 ai []).
  - intros Ht. by apply connect_loop_ends.
Qed.

(** C29: [_get_listening_socket] closes what it opened, once: if it returns a socket this
    is the only one open, if no address can be used none is.  Only when [listen] or
    [getnameinfo] fails is the socket left open while -1 is returned. *)
Theorem listening_socket_owned proto resolved listen_ok :
  let '(sock, path, ops) := _get_listening_socket proto resolved listen_ok in
  exists fds, descriptors [] ops = Some fds
    /\ (sock <> -1 -> fds = [sock])
    /\ (sock = -1 -> fds = [] \/ exists ai a fd, resolved = Some ai
          /\ listening_loop ai [] = (fd, Some a, ops) /\ fds = [fd]
          /\ (fd = -1 \/ listen_ok = false \/ ai_getnameinfo a 0%nat = false)).
Proof.
  unfold _get_listening_socket. destruct resolved as [ai|]; [|exists []; split; [done|]; by split; [|left]].
  pose proof (listening_loop_owned ai [] eq_refl) as Hl.
  destruct (listening_loop ai []) as [[sock a] ops] eqn:El. destruct Hl as [Hops Hnone].
  destruct a as [a|]; [|exists []; split; [done|]; by split; [|left]].
  destruct listen_ok; cbn [negb].
  - destruct (ai_getnameinfo a 0%nat) eqn:Ha; cbn [negb]; exists [sock]; split; try done; split; try done;
      intros Hs; right; exists ai, a, sock; split_and!; auto.
  - exists [sock]. split; [done|]. split; [done|]. intros _. right. exists ai, a, sock. split_and!; auto.
Qed.

(** When [connect] fails the client closes the socket twice: the second time it may be
    a descriptor that another thread has just been given. *)
Example failed_connect_closes_twice :
  _connect_to_host_port 2 (Some [mkAddr false ("::1", "1")%string (fun _ => true) (Some 5) true true false]) = Some (-1, [Opened 5; Closed 5; Closed 5])
  /\ descriptors [] [Opened 5; Closed 5; Closed 5] = None.
Proof. split; [done|by vm_compute]. Qed.

(** A name that cannot be had at first. *)
Example named_at_last :
  _connect_to_host_port 3 (Some [mkAddr false ("::1", "1")%string (fun k => Nat.leb 2 k) (Some 5) true true true])
    = Some (5, [Opened 5])
  /\ _connect_to_host_port 2 (Some [mkAddr false ("::1", "1")%string (fun k => Nat.leb 2 k) (Some 5) true true true])
    = None.
Proof. by split. Qed.
