(* ===== verification/Reporter.v ===== *)
(** syscall-reporter.c: the handler of SIGSYS, which prints which system call a filter has
    stopped, and ends the process.  It is installed in builds with [DEBUG_SECCOMP]. *)
From S2P Require Import Prelude CString.

(** ** Numbers *)

(** The loop that counts the digits: [for (tens = val; tens; tens /= 10) ++ width;] *)
Fixpoint count_digits (fuel : nat) (tens : Z) : nat :=
  match fuel with
  | O => O
  | S fuel => if tens =? 0 then O else S (count_digits fuel (tens / 10))
  end.

(** The loop that writes them, the last one first. *)
Fixpoint write_digits (fuel : nat) (buf : block) (width : nat) (tens : Z) : res block :=
  match fuel with
  | O => Ok buf
  | S fuel =>
      if tens =? 0 then Ok buf else
      match width with
      | O => Crash OutOfBounds
      | S width => buf ← poke buf width (48 + tens mod 10); write_digits fuel buf width (tens / 10)
      end
  end.

(** An [unsigned int] has no more digits than 10. *)
Definition write_uint (buf : block) (val : Z) : res block :=
  if val =? 0 then mem_write buf 0 [48; 0] else
  let width := count_digits 10 val in
  buf ← poke buf width 0;
  write_digits 10 buf width val.

(** [write_uint (buf + at, val)]. *)
Definition write_uint_at (buf : block) (at_ : Z) (val : Z) : res block :=
  tail ← write_uint (drop (Z.to_nat at_) buf) val;
  Ok (take (Z.to_nat at_) buf ++ tail).

(** [si_code] of a SIGSYS that a filter caused. *)
Definition SYS_SECCOMP : Z := 1.

(** ** The handler *)

(** [const char * const msg_needed]. *)
Definition msg_needed : list Z := string_bytes "Looks like you also need syscall: ".

(** [strcpy (buf + at, s)], with the 0 that ends [s]. *)
Definition strcpy_at (buf : block) (at_ : Z) (s : list Z) : res block := mem_write buf at_ (s ++ [0]).
Definition strcat (buf : block) (s : list Z) : res block :=
  old ← cstring buf 0; strcpy_at buf (zlen old) s.

Section Reporter.
(** The table that mksyscalls.sh generates: [None] for the numbers that it leaves out. *)
Context (syscall_names : list (option (list Z))).

Definition sizeof_syscall_names : Z := 8 * zlen syscall_names.

(** [syscall_names[syscall]], given to a function that reads it. *)
Definition name_of (syscall : Z) : res (list Z) :=
  match syscall_names !! Z.to_nat syscall with
  | None => Crash OutOfBounds
  | Some None => Crash NullDereference
  | Some (Some name) => Ok name
  end.

(** What [reporter] writes to the standard error stream before it ends the process, or
    [None] if it returns.  [si_code] is that of the signal, [reg_syscall] the register of
    the context, if there is one, and [buf] what the array holds. *)
Definition reporter (si_code : Z) (reg_syscall : option Z) (buf : block) : res (option (list Z)) :=
  if negb (si_code =? SYS_SECCOMP) then Ok None else
  match reg_syscall with
  | None => Ok None
  | Some reg =>
      let syscall := wrap32 reg in
      buf ← strcpy_at buf 0 msg_needed;
      buf ← (if syscall <? sizeof_syscall_names then
               name ← name_of syscall;
               buf ← strcat buf name;
               strcat buf [40] (* "(" *)
             else Ok buf);
      len ← cstring buf 0;
      buf ← write_uint_at buf (zlen len) syscall;
      buf ← (if syscall <? sizeof_syscall_names then strcat buf [41] (* ")" *) else Ok buf);
      buf ← strcat buf [10];
      text ← cstring buf 0;
      Ok (Some text)
  end.
End Reporter.

(** [install_syscall_reporter], by whether [sigaction] and [sigprocmask] succeed: what it
    returns, and whether the handler is in place and SIGSYS is let through. *)
Definition install_syscall_reporter (sigaction sigprocmask : bool) : Z * (bool * bool) :=
  if negb sigaction then (-1, (false, false))
  else if negb sigprocmask then (-1, (true, false))
  else (0, (true, true)).

(** * Properties *)

(** The number that decimal digits stand for. *)
Definition of_digits (ds : list Z) : Z := foldl (fun n d => 10 * n + (d - 48)) 0 ds.
Definition digit (d : Z) : Prop := 48 <= d <= 57.

Lemma of_digits_last ds d : of_digits (ds ++ [d]) = 10 * of_digits ds + (d - 48).
Proof. unfold of_digits. by rewrite foldl_app. Qed.

(** The digits that are written, and that they are as many as were counted. *)
Lemma digits_of fuel val :
  0 <= val < 10 ^ Z.of_nat fuel ->
  exists ds, length ds = count_digits fuel val /\ Forall digit ds /\ of_digits ds = val
    /\ forall pre post, length pre = length ds ->
       write_digits fuel (pre ++ post) (length ds) val = Ok (ds ++ post).
Proof.
  revert val. induction fuel as [|fuel IH]; intros val Hv.
  - change (10 ^ Z.of_nat 0) with 1 in Hv. exists []. split; [done|]. split; [done|]. split; [cbn; lia|].
    intros [|? pre] post; [done|done].
  - cbn [count_digits write_digits]. destruct (Z.eqb_spec val 0) as [->|Hne].
    { exists []. split; [done|]. split; [done|]. split; [done|]. by intros [|? pre] post. }
    pose proof (Z.div_mod val 10). pose proof (Z.mod_pos_bound val 10).
    destruct (IH (val / 10)) as (ds & Hl & Hd & Hv' & Hw).
    { split; [apply Z.div_pos; lia|]. apply Z.div_lt_upper_bound; [lia|].
      rewrite Nat2Z.inj_succ, Z.pow_succ_r in Hv; lia. }
    exists (ds ++ [48 + val mod 10]). rewrite length_app, Hl. change (length [_]) with 1%nat.
    split; [lia|]. split; [apply Forall_app; split; [done|]; constructor; [unfold digit; lia|done]|].
    split; [rewrite of_digits_last; lia|].
    intros pre post Hpre. rewrite Nat.add_1_r in *.
    destruct pre as [|x pre _] using rev_ind; [done|].
    rewrite length_app, Nat.add_1_r in Hpre. injection Hpre as Hpre.
    rewrite <- (assoc_L app). cbn [app]. rewrite <- Hpre at 1. rewrite poke_middle.
    unfold mbind, res_bind. rewrite <- Hl. rewrite Hw by congruence. by rewrite <- (assoc_L app).
Qed.

Lemma count_digits_max fuel tens : (count_digits fuel tens <= fuel)%nat.
Proof. revert tens. induction fuel as [|fuel IH]; intros tens; [done|]. cbn. destruct (_ =? _); [lia|]. specialize (IH (tens / 10)). lia. Qed.

(** [write_uint] stays within twelve bytes and leaves there the decimal digits of the
    number, and nothing but them, as a string. *)
Lemma write_uint_digits buf val :
  is_u32 val -> 11 <= zlen buf ->
  exists buf' ds, write_uint buf val = Ok buf' /\ cstring buf' 0 = Ok ds
    /\ Forall digit ds /\ of_digits ds = val /\ ds <> [] /\ length buf' = length buf
    /\ (length ds <= 10)%nat.
Proof.
  intros Hv Hb. unfold write_uint. destruct (Z.eqb_spec val 0) as [->|Hne].
  - destruct buf as [|a [|b buf]]; [by destruct Hb|by destruct Hb|].
    exists (48 :: 0 :: buf), [48]. split; [|split; [done|split; [by repeat constructor|split_and!; cbn; done || lia]]].
    unfold mem_write. rewrite bool_decide_true; [done|].
    split; [lia|]. unfold zlen. cbn [length]. lia.
  - destruct (digits_of 10 val) as (ds & Hl & Hd & Hval & Hw); [assert (10 ^ Z.of_nat 10 = 10000000000) as -> by reflexivity; lia|].
    rewrite <- Hl. pose proof (count_digits_max 10 val) as Hw10. rewrite <- Hl in Hw10.
    assert (length ds < length buf)%nat as Hlen by (unfold zlen in Hb; lia).
    destruct (lookup_lt_is_Some_2 buf (length ds) Hlen) as [x Hx].
    apply list_elem_of_split_length in Hx as (pre & post & -> & Hpre).
    rewrite Hpre, poke_middle. unfold mbind, res_bind. rewrite <- Hpre.
    exists (ds ++ 0 :: post), ds. split; [by apply Hw|].
    assert (Forall (fun b => b <> 0) ds) as Hnz
      by (eapply Forall_impl; [exact Hd|]; unfold digit; intros ??; lia).
    split; [unfold cstring; by rewrite drop_0, until_nul_app|]. split; [done|]. split; [done|].
    split; [by intros ->|]. split; [by rewrite !length_app, Hpre|done].
Qed.

(** [buf] holds the string [s]. *)
Definition holds (buf : block) (s : list Z) : Prop :=
  Forall (fun b => b <> 0) s /\ exists rest, buf = s ++ 0 :: rest.

Lemma holds_cstring buf s : holds buf s -> cstring buf 0 = Ok s.
Proof. intros (Hs & rest & ->). unfold cstring. by rewrite drop_0, until_nul_app. Qed.

Lemma cstring_holds buf s : cstring buf 0 = Ok s -> holds buf s.
Proof.
  unfold cstring. rewrite drop_0. destruct (until_nul buf) as [s'|] eqn:E; intros [= ->].
  revert s E. induction buf as [|b buf IH]; intros s E; [done|]. cbn in E.
  destruct (Z.eqb_spec b 0) as [->|Hb].
  - injection E as <-. split; [done|by exists buf].
  - destruct (until_nul buf) as [t|]; [|done]. injection E as <-.
    destruct (IH t eq_refl) as (Ht & rest & ->). split; [by constructor|by exists rest].
Qed.

(** A string is put behind another one if there is room. *)
Lemma strcpy_holds pre buf s :
  Forall (fun b => b <> 0) (pre ++ s) -> zlen pre + zlen s < zlen (pre ++ buf) ->
  exists buf', strcpy_at (pre ++ buf) (zlen pre) s = Ok buf' /\ holds buf' (pre ++ s)
    /\ zlen buf' = zlen (pre ++ buf).
Proof.
  intros Hs Hroom. unfold strcpy_at, mem_write.
  assert (zlen (s ++ [0]) = zlen s + 1) as E by (by rewrite zlen_app).
  pose proof (zlen_nonneg pre). pose proof (zlen_nonneg s).
  rewrite bool_decide_true by lia. eexists. split; [done|].
  assert (take (Z.to_nat (zlen pre)) (pre ++ buf) = pre) as ->
    by (unfold zlen; by rewrite Nat2Z.id, take_app_length).
  rewrite E. rewrite zlen_app in Hroom. split.
  - split; [done|]. eexists. rewrite <- !(assoc_L app). cbn [app]. done.
  - rewrite !zlen_app, zlen_drop; rewrite ?zlen_app; change (zlen [0]) with 1; lia.
Qed.

Lemma strcat_holds buf s t :
  holds buf s -> Forall (fun b => b <> 0) t -> zlen s + zlen t < zlen buf ->
  exists buf', strcat buf t = Ok buf' /\ holds buf' (s ++ t) /\ zlen buf' = zlen buf.
Proof.
  intros Hb Ht Hroom. unfold strcat. rewrite (holds_cstring _ _ Hb). destruct Hb as (Hs & rest & ->).
  apply strcpy_holds; [by apply Forall_app|done].
Qed.

Lemma write_uint_holds buf s val :
  holds buf s -> is_u32 val -> zlen s + 11 <= zlen buf ->
  exists buf' ds, write_uint_at buf (zlen s) val = Ok buf' /\ holds buf' (s ++ ds)
    /\ Forall digit ds /\ of_digits ds = val /\ ds <> [] /\ zlen ds <= 10 /\ zlen buf' = zlen buf.
Proof.
  intros (Hs & rest & ->) Hv Hroom. unfold write_uint_at.
  assert (Z.to_nat (zlen s) = length s) as -> by (unfold zlen; lia).
  rewrite drop_app_length, take_app_length.
  rewrite zlen_app in Hroom.
  destruct (write_uint_digits (0 :: rest) val Hv) as (tail & ds & -> & Hc & Hd & Hval & Hne & Hl & Hmax); [lia|].
  exists (s ++ tail), ds. split; [done|]. apply cstring_holds in Hc as (Hnz & rest' & ->).
  split; [split; [by apply Forall_app|exists rest'; by rewrite (assoc_L app)]|].
  do 3 (split; [done|]). split; [unfold zlen; lia|]. unfold zlen in *. rewrite !length_app in *. lia.
Qed.

(** The rest of [reporter], once the message with the name is there. *)
Lemma report_ends (named : bool) buf s n :
  holds buf s -> is_u32 n -> zlen s + 13 <= zlen buf ->
  exists ds, Forall digit ds /\ of_digits ds = n /\ ds <> [] /\
    (len ← cstring buf 0;
     buf ← write_uint_at buf (zlen len) n;
     buf ← (if named then strcat buf [41] else Ok buf);
     buf ← strcat buf [10];
     text ← cstring buf 0;
     Ok (Some text)) = Ok (Some (s ++ ds ++ if named then [41; 10] else [10])).
Proof.
  intros Hb Hn Hroom. rewrite (holds_cstring _ _ Hb). unfold mbind, res_bind.
  destruct (write_uint_holds buf s n Hb Hn) as (b1 & ds & -> & H1 & Hd & Hv & Hne & Hmax & L1); [lia|].
  exists ds. do 3 (split; [done|]).
  assert (exists b2, (if named then strcat b1 [41] else Ok b1) = Ok b2
    /\ holds b2 (s ++ ds ++ if named then [41] else []) /\ zlen b2 = zlen b1) as (b2 & -> & H2 & L2).
  { rewrite (assoc_L app). destruct named; [|by exists b1; rewrite app_nil_r].
    apply strcat_holds; [done|by repeat constructor|]. rewrite zlen_app. change (zlen [41]) with 1. lia. }
  destruct (strcat_holds b2 _ [10] H2) as (b3 & -> & H3 & _); [by repeat constructor|..].
  { rewrite !zlen_app. change (zlen [10]) with 1. destruct named; [change (zlen [41]) with 1|change (zlen (@nil Z)) with 0]; lia. }
  rewrite (holds_cstring _ _ H3). do 2 f_equal. rewrite <- !(assoc_L app). by destruct named.
Qed.

(** A name of the table is a string, and short. *)
Definition name_ok (o : option (list Z)) : Prop :=
  forall name, o = Some name -> Forall (fun b => b <> 0) name /\ zlen name <= 80.

(** C37: what the handler reports.  For a system call with a name: the message with the
    name and, in parentheses, the number in decimal; the array of 128 bytes has room for
    it if no name has more than 80.  For a number that is not below the size of the table
    in bytes: the message with the number alone.  But a number the table has no name for
    makes [strcat] follow a null pointer, and one between the number of its entries and
    its size in bytes is looked up behind the end of the table. *)
Theorem reporter_reports syscall_names reg buf :
  Forall name_ok syscall_names -> zlen buf = 128 ->
  exists ds, Forall digit ds /\ of_digits ds = wrap32 reg /\ ds <> [] /\
    reporter syscall_names SYS_SECCOMP (Some reg) buf =
      match syscall_names !! Z.to_nat (wrap32 reg) with
      | Some (Some name) => Ok (Some (msg_needed ++ name ++ [40] ++ ds ++ [41; 10]))
      | Some None => Crash NullDereference
      | None => if wrap32 reg <? 8 * zlen syscall_names then Crash OutOfBounds
                else Ok (Some (msg_needed ++ ds ++ [10]))
      end.
Proof.
  intros Hnames Hbuf. unfold reporter. change (negb _) with false. cbn match.
  pose proof (wrap32_range reg) as Hn. set (n := wrap32 reg) in *. unfold sizeof_syscall_names, name_of.
  destruct (strcpy_holds [] buf msg_needed) as (b0 & E0 & H0 & L0);
    [by repeat constructor|change (zlen [] + zlen msg_needed) with 34; cbn [app]; lia|].
  cbn [app] in E0, H0, L0. change (zlen []) with 0 in E0. rewrite E0. rewrite Hbuf in L0.
  cbn [mbind res_bind].
  destruct (Z.ltb_spec n (8 * zlen syscall_names)) as [Hlt|Hge].
  - destruct (syscall_names !! Z.to_nat n) as [[name|]|] eqn:El.
    + destruct (proj1 (Forall_lookup _ _) Hnames _ _ El name eq_refl) as [Hnz Hshort].
      destruct (strcat_holds b0 _ name H0 Hnz) as (b1 & E1 & H1 & L1);
        [change (zlen msg_needed) with 34; lia|].
      destruct (strcat_holds b1 _ [40] H1) as (b2 & E2 & H2 & L2);
        [by repeat constructor|rewrite zlen_app; change (zlen msg_needed) with 34; change (zlen [40]) with 1; lia|].
      destruct (report_ends true b2 _ n H2 Hn) as (ds & Hd & Hv & Hne & E);
        [rewrite !zlen_app; change (zlen msg_needed) with 34; change (zlen [40]) with 1; lia|].
      exists ds. do 3 (split; [done|]). cbn [mbind res_bind]. rewrite E1. cbn [mbind res_bind].
      rewrite E2. etransitivity; [exact E|]. by rewrite <- !(assoc_L app).
    + destruct (report_ends false b0 _ n H0 Hn) as (ds & Hd & Hv & Hne & _);
        [change (zlen msg_needed) with 34; lia|]. by exists ds.
    + destruct (report_ends false b0 _ n H0 Hn) as (ds & Hd & Hv & Hne & _);
        [change (zlen msg_needed) with 34; lia|]. by exists ds.
  - rewrite lookup_ge_None_2 by (unfold zlen in Hge; lia).
    destruct (report_ends false b0 _ n H0 Hn) as (ds & Hd & Hv & Hne & E);
      [change (zlen msg_needed) with 34; lia|].
    exists ds. by do 3 (split; [done|]).
Qed.

Definition sample_names : list (option (list Z)) :=
  [Some (string_bytes "read"); None; Some (string_bytes "open")].

Lemma reporter_reports_witness :
  exists ds, Forall digit ds /\ of_digits ds = 2 /\ ds <> [] /\
    reporter sample_names SYS_SECCOMP (Some 2) (replicate 128 7)
      = Ok (Some (msg_needed ++ string_bytes "open" ++ [40] ++ ds ++ [41; 10])).
Proof.
  apply (reporter_reports sample_names 2 (replicate 128 7)); [|reflexivity].
  repeat (apply Forall_cons; split); try apply Forall_nil_2; intros ? [= <-];
    (split; [by repeat constructor|by vm_compute]).
Defined.

Example reporter_prints :
  reporter sample_names SYS_SECCOMP (Some 2) (replicate 128 7)
    = Ok (Some (string_bytes "Looks like you also need syscall: open(2)" ++ [10]))
  /\ reporter sample_names SYS_SECCOMP (Some 1) (replicate 128 7) = Crash NullDereference
  /\ reporter sample_names SYS_SECCOMP (Some 3) (replicate 128 7) = Crash OutOfBounds
  /\ reporter sample_names SYS_SECCOMP (Some 24) (replicate 128 7)
    = Ok (Some (string_bytes "Looks like you also need syscall: 24" ++ [10])).
Proof. by vm_compute. Qed.
