(* ===== verification/Seccomp.v ===== *)
(** The system call filters: [install_syscall_filter] of gck-rpc-daemon-standalone.c and
    [_install_dispatch_syscall_filter] of gck-rpc-dispatch.c, which the code installs when
    it is built with [SECCOMP]. *)
From S2P Require Import Prelude CString Reporter.

(** ** Rules *)

(** [seccomp_rule_add (ctx, SCMP_ACT_ALLOW, SCMP_SYS (name), ...)]: the call is allowed,
    or allowed if the argument of this number has this value. *)
Record rule := mkRule { r_name : string; r_arg : option (nat * Z) }.
Definition allow (name : string) : rule := mkRule name None.
Definition allow_if (name : string) (arg : nat) (value : Z) : rule := mkRule name (Some (arg, value)).

(** A filter stops every call that no rule allows. *)
Definition rule_matches (name : string) (args : list Z) (r : rule) : bool :=
  bool_decide (r_name r = name) &&
  match r_arg r with None => true | Some (i, v) => bool_decide (args !! i = Some v) end.
Definition allowed (filter : list rule) (name : string) (args : list Z) : bool :=
  existsb (rule_matches name args) filter.

(** Once loaded a filter stays: of several all have to allow the call. *)
Definition all_allow (filters : list (list rule)) (name : string) (args : list Z) : bool :=
  forallb (fun f => allowed f name args) filters.

Definition O_RDONLY_CLOEXEC : Z := 524288.
Definition PROT_READ_WRITE : Z := 3.

Definition starts_with (prefix s : string) : bool := nonnull (string_strip prefix s).

(** What SoftHSM needs, in both filters. *)
Definition softhsm_calls : list rule :=
  map allow ["getcwd"; "stat"; "open"; "fcntl"; "fstat"; "lseek"; "access"; "fsync"; "unlink";
             "ftruncate"; "select"; "futex"]%string.

Definition basic_calls (debug_seccomp : bool) : list rule :=
  [allow "write"] ++ (if debug_seccomp then [allow "rt_sigreturn"] else [])
  ++ [allow "exit"; allow "exit_group"].

(** The rules of the main thread. *)
Definition main_rules (debug_seccomp : bool) (sock : Z) (path : string) : list rule :=
  basic_calls debug_seccomp
  (* Network related syscalls. *)
  ++ [allow "read"; allow "select"]
  ++ (if negb (sock =? 0) then [allow_if "accept" 0 sock] else [])
  ++ [allow "sendto"]
  ++ (if negb (bool_decide (path = ""%string)) && starts_with "tcp://" path
      then [allow "recvfrom"] else [])
  (* These are probably pthreads-related. *)
  ++ map allow ["mmap"; "munmap"; "mprotect"; "clone"; "set_robust_list"; "madvise"; "munlock"]%string
  ++ [allow_if "open" 1 O_RDONLY_CLOEXEC; allow "close"]
  (* UNIX domain socket *)
  ++ (if negb (bool_decide (path = ""%string)) && negb (starts_with "tcp://" path)
         && negb (starts_with "tls://" path)
      then [allow "unlink"] else [])
  (* Allow spawned threads to initialize a new seccomp policy (subset of this). *)
  ++ [allow "prctl"]
  ++ softhsm_calls.

(** The rules that the thread of a connection adds. *)
Definition dispatch_rules (debug_seccomp use_tls : bool) : list rule :=
  basic_calls debug_seccomp
  (* Network related syscalls. *)
  ++ [allow "read"; allow "sendto"; allow "recvfrom"]
  (* TLS-PSK *)
  ++ (if use_tls then [allow_if "open" 1 O_RDONLY_CLOEXEC] else [])
  ++ [allow "close"]
  (* pthreads? *)
  ++ [allow "madvise"; allow_if "mprotect" 2 PROT_READ_WRITE]
  ++ softhsm_calls.

(** ** Installing them *)

(** What libseccomp answers: whether [seccomp_init] gives a context, and what
    [seccomp_load] returns. *)
Record Scmp := mkScmp { seccomp_init : bool; seccomp_load : Z }.

(** The filters in force afterwards, the newest one first, and the [errno] that is
    returned when a call fails; without a context it is -rc with rc = -1. *)
Definition load_filter (scmp : Scmp) (rules : list rule) (filters : list (list rule))
    : Z * list (list rule) :=
  if seccomp_load scmp <? 0 then (- seccomp_load scmp, filters) else (0, rules :: filters).

(** [reporter] is what [install_syscall_reporter] returns.  The filter goes to the kernel
    when it is complete. *)
Definition install_syscall_filter (debug_seccomp : bool) (scmp : Scmp) (reporter : Z) (sock : Z)
    (path : string) (filters : list (list rule)) : Z * list (list rule) :=
  if negb (seccomp_init scmp) then (1, filters) else
  let rules := main_rules debug_seccomp sock path in
  if debug_seccomp && negb (reporter =? 0) then (1, filters) else
  load_filter scmp rules filters.

Definition _install_dispatch_syscall_filter (debug_seccomp : bool) (scmp : Scmp) (use_tls : bool)
    (filters : list (list rule)) : Z * list (list rule) :=
  if negb (seccomp_init scmp) then (1, filters) else
  load_filter scmp (dispatch_rules debug_seccomp use_tls) filters.

(** * Properties *)

(** Both functions return 0 exactly when their filter is in force. *)
Lemma installed debug scmp reporter sock path filters filters' :
  install_syscall_filter debug scmp reporter sock path filters = (0, filters') ->
  filters' = main_rules debug sock path :: filters.
Proof.
  unfold install_syscall_filter, load_filter. destruct (negb _); [done|]. destruct (_ && _); [done|].
  destruct (Z.ltb_spec (seccomp_load scmp) 0); intros [=]; [lia|done].
Qed.

Lemma dispatch_installed debug scmp use_tls filters filters' :
  _install_dispatch_syscall_filter debug scmp use_tls filters = (0, filters') ->
  filters' = dispatch_rules debug use_tls :: filters.
Proof.
  unfold _install_dispatch_syscall_filter, load_filter. destruct (negb _); [done|].
  destruct (Z.ltb_spec (seccomp_load scmp) 0); intros [=]; [lia|done].
Qed.

(** The calls that the rules of the main thread never let through. *)
Lemma main_rules_stop debug sock path args :
  (starts_with "tcp://" path = false -> allowed (main_rules debug sock path) "recvfrom" args = false)
  /\ (debug = false -> allowed (main_rules debug sock path) "rt_sigreturn" args = false)
  /\ allowed (main_rules debug sock path) "shutdown" args = false.
Proof.
  unfold allowed, main_rules. split_and!.
  - intros ->. rewrite andb_false_r. destruct debug, (negb (sock =? 0)), (_ && _); reflexivity.
  - intros ->. destruct (negb (sock =? 0)), (negb _ && starts_with "tcp://" path), (_ && _); reflexivity.
  - destruct debug, (negb (sock =? 0)), (negb _ && starts_with "tcp://" path), (_ && _); reflexivity.
Qed.

(** C38: the filters stop what the daemon itself does.  When the main thread has
    installed its filter and the thread of a connection its own, then, whatever the
    arguments of the calls: over a socket that is not a tcp:// one nothing can be received,
    since the filter of the main thread stays in force, although the thread's own filter
    allows [recvfrom]; the main thread cannot return from the handler of SIGTERM when built
    without [DEBUG_SECCOMP]; and nobody can [shutdown] a connection, as [rpc_C_Finalize] and
    [gck_rpc_layer_uninitialize] do. *)
Theorem filters_stop_the_daemon debug use_tls scmp scmp' reporter sock path args main_filters thread_filters :
  install_syscall_filter debug scmp reporter sock path [] = (0, main_filters) ->
  _install_dispatch_syscall_filter debug scmp' use_tls main_filters = (0, thread_filters) ->
  (starts_with "tcp://" path = false -> all_allow thread_filters "recvfrom" args = false)
  /\ (debug = false -> all_allow main_filters "rt_sigreturn" args = false)
  /\ all_allow main_filters "shutdown" args = false
  /\ all_allow thread_filters "shutdown" args = false
  /\ allowed (dispatch_rules debug use_tls) "recvfrom" args = true.
Proof.
  intros ->%installed ->%dispatch_installed. unfold all_allow. cbn [forallb]. rewrite !andb_true_r.
  destruct (main_rules_stop debug sock path args) as (Hr & Hs & ->). rewrite andb_false_r.
  split; [|split; [exact Hs|split; [done|split; [done|by destruct debug]]]].
  intros Ht. by rewrite (Hr Ht), andb_false_r.
Qed.

Lemma filters_stop_the_daemon_witness :
  all_allow [dispatch_rules false false; main_rules false 3 "/tmp"] "recvfrom" [4] = false
  /\ all_allow [main_rules false 3 "/tmp"] "rt_sigreturn" [] = false.
Proof.
  split.
  - apply (proj1 (filters_stop_the_daemon false false (mkScmp true 0) (mkScmp true 0) 0 3 "/tmp" [4]
      _ _ eq_refl eq_refl)). reflexivity.
  - apply (proj1 (proj2 (filters_stop_the_daemon false false (mkScmp true 0) (mkScmp true 0) 0 3 "/tmp" []
      _ _ eq_refl eq_refl))). reflexivity.
Defined.
