(* ===== verification/Daemon.v ===== *)
(** The daemon around its connections: [gck_rpc_layer_initialize] and
    [gck_rpc_layer_uninitialize] of gck-rpc-dispatch.c, without the threads, and the main
    program of gck-rpc-daemon-standalone.c.  What the system answers is a parameter. *)
From S2P Require Import Prelude EggBuffer Pkcs11 RpcUtil CString TlsPsk Sockets Seccomp.

(** ** The layer *)

(** The variables of the main thread, the files that were made and unlinked, and what was
    done to descriptors. *)
Record Layer := mkLayer {
  pkcs11_module : bool;
  pkcs11_socket : Z;
  pkcs11_socket_path : string;
  pkcs11_dispatchers : list nat;
  files : list string;
  ops : list fd_op;
}.
Definition set_path (p : string) (l : Layer) : Layer :=
  mkLayer (pkcs11_module l) (pkcs11_socket l) p (pkcs11_dispatchers l) (files l) (ops l).
Definition set_files (f : list string) (l : Layer) : Layer :=
  mkLayer (pkcs11_module l) (pkcs11_socket l) (pkcs11_socket_path l) (pkcs11_dispatchers l) f (ops l).
Definition add_ops (o : list fd_op) (l : Layer) : Layer :=
  mkLayer (pkcs11_module l) (pkcs11_socket l) (pkcs11_socket_path l) (pkcs11_dispatchers l) (files l) (ops l ++ o).
Definition set_layer (module : bool) (sock : Z) (l : Layer) : Layer :=
  mkLayer module sock (pkcs11_socket_path l) (pkcs11_dispatchers l) (files l) (ops l).

Definition unlink (path : string) (l : Layer) : Layer := set_files (filter (fun f => f <> path) (files l)) l.

(** [sizeof (addr.sun_path)] *)
Definition sizeof_sun_path : nat := 108.

(** [strncpy (addr.sun_path, path, sizeof (addr.sun_path))]: the name of the file; all of
    the array if it is not terminated there. *)
Definition sun_path (path : string) : string := of_bytes (take sizeof_sun_path (string_bytes path)).

(** What the system answers while the socket is set up. *)
Record system := mkSystem {
  sy_strdup : bool;
  sy_getaddrinfo : option string -> option string -> option (list addrinfo);
  sy_listen : bool;
  sy_socket : option Z;
  sy_bind : bool;
}.

Definition is_tcp (path : string) : bool := starts_with "tcp://" path.
Definition is_tls (path : string) : bool := starts_with "tls://" path.

(** [prefix + 6] *)
Definition behind_scheme (prefix : string) : string :=
  match string_strip "tcp://" prefix with
  | Some rest => rest
  | None => default prefix (string_strip "tls://" prefix)
  end.

Definition gck_rpc_layer_initialize (prefix : string) (module : bool) (sy : system) (l : Layer)
    : res (Z * Layer) :=
  if negb module then Crash AssertionFailed else
  (* cannot be called more than once *)
  if pkcs11_module l then Crash AssertionFailed else
  if negb (pkcs11_socket l =? -1) then Crash AssertionFailed else
  if negb (bool_decide (pkcs11_dispatchers l = [])) then Crash AssertionFailed else
  if is_tcp prefix || is_tls prefix then
    (* TCP socket *)
    let proto := if is_tcp prefix then "tcp"%string else "tls"%string in
    let '(ok, host, port) := gck_rpc_parse_host_port (sy_strdup sy) (behind_scheme prefix) in
    if negb ok then Ok (-1, l) else
    let '(sock, path, o) := _get_listening_socket proto (sy_getaddrinfo sy host port) (sy_listen sy) in
    let l := add_ops o l in
    let l := match path with Some p => set_path p l | None => l end in
    if sock =? -1 then Ok (-1, l) else Ok (sock, set_layer true sock l)
  else
    (* UNIX domain socket *)
    let path := snprintf_s (string_bytes (prefix +:+ "/socket.pkcs11")) in
    let l := set_path path l in
    match sy_socket sy with
    | None => Ok (-1, l)
    | Some sock =>
        let l := unlink path (add_ops [Opened sock] l) in
        if negb (sy_bind sy) then Ok (-1, l) else
        let l := set_files (sun_path path :: files l) l in
        if negb (sy_listen sy) then Ok (-1, l) else Ok (sock, set_layer true sock l)
    end.

(** But for the threads, which are stopped before the module is forgotten. *)
Definition gck_rpc_layer_uninitialize (l : Layer) : Layer :=
  if negb (pkcs11_module l) then l else
  (* Close our main listening socket *)
  let l := if pkcs11_socket l =? -1 then l else add_ops [Closed (pkcs11_socket l)] l in
  let path := pkcs11_socket_path l in
  (* Delete our unix socket *)
  let l := if negb (bool_decide (path = ""%string)) && negb (is_tcp path) && negb (is_tls path)
           then unlink path l else l in
  set_layer false (-1) (set_path "" l).

(** ** The main program *)

Definition SOCKET_PATH : string := "tcp://127.0.0.1".

(** What [select] reports: an error, interrupted or not, or that the socket is readable or
    not; and whether SIGTERM has been handled before the loop looks at [is_running] again. *)
Inductive watched := WatchFailed (interrupted : bool) | Readable (isset : bool).

(** How the program ends, or that it waits in [select]. *)
Inductive ended := Exit (code : Z) | Return (code : Z) | Waiting.

(** The loop: how often [gck_rpc_layer_accept] is called, and how the loop is left:
    [Return 0] goes on behind it. *)
Fixpoint watch (events : list (watched * bool)) (is_running : bool) (accepted : nat) : nat * ended :=
  if negb is_running then (accepted, Return 0) else
  match events with
  | [] => (accepted, Waiting)
  | (WatchFailed true, term) :: events => watch events (is_running && negb term) accepted
  | (WatchFailed false, _) :: _ => (accepted, Exit 1)
  | (Readable isset, term) :: events =>
      watch events (is_running && negb term) (if isset then S accepted else accepted)
  end.

(** What the program meets.  [argv]: its arguments, without its name. *)
Record environment := mkEnv {
  argv : list string;
  getenv : string -> option string;
  e_dlopen : bool;
  e_dlsym : bool;
  e_get_list : Z * bool;
  e_initialize : Z;
  e_tls_calloc : bool;
  e_ssl_ctx : option Z;
  e_versions : bool;
  e_system : system;
  e_filter : bool;
  e_events : list (watched * bool);
}.

(** How connections are served: not at all, the one of [gck_rpc_layer_inetd], or those that
    [gck_rpc_layer_accept] finds; [tls] is what it is given. *)
Inductive service := NoService | Inetd | Accepts (sock : Z) (tls : option TlsPsk) (n : nat).

Definition no_tls : TlsPsk := mkTlsPsk (mkTlsState false None None None GCK_RPC_TLS_PSK_CLIENT) [] [] [].

Definition socket_path (e : environment) : string :=
  match getenv e "PKCS11_DAEMON_SOCKET" with
  | Some path => path
  | None => match argv e with [_; path] => path | _ => SOCKET_PATH end
  end.

(** Initialize TLS, if appropriate. *)
Definition main_tls (e : environment) (path : string) : option TlsPsk + ended :=
  if negb (is_tls path) then inl None else
  match getenv e "PKCS11_PROXY_TLS_PSK_FILE" with
  | None | Some EmptyString => inr (Exit 1)
  | Some keyfile =>
      if negb (e_tls_calloc e) then inr (Exit 1) else
      let '(ok, t) := gck_rpc_init_tls_psk (e_ssl_ctx e) (e_versions e) (string_bytes keyfile) None
                        GCK_RPC_TLS_PSK_SERVER no_tls in
      if ok =? 0 then inr (Exit 1) else inl (Some t)
  end.

Definition main (e : environment) (l : Layer) : res (service * ended * Layer) :=
  (* The module to load is the argument *)
  if negb ((length (argv e) =? 1)%nat || (length (argv e) =? 2)%nat) then Ok (NoService, Exit 2, l) else
  if negb (e_dlopen e) then Ok (NoService, Exit 1, l) else
  if negb (e_dlsym e) then Ok (NoService, Exit 1, l) else
  if negb ((e_get_list e).1 =? CKR_OK) || negb (e_get_list e).2 then Ok (NoService, Exit 1, l) else
  if negb (e_initialize e =? CKR_OK) then Ok (NoService, Exit 1, l) else
  let path := socket_path e in
  match main_tls e path with
  | inr r => Ok (NoService, r, l)
  | inl tls =>
      if bool_decide (path = "-"%string) then
        (* inetd mode *)
        if negb (e_filter e) then Ok (NoService, Return 1, l) else Ok (Inetd, Return 0, l)
      else
        '(sock, l) ← gck_rpc_layer_initialize path true (e_system e) l;
        if sock =? -1 then Ok (NoService, Exit 1, l) else
        if negb (e_filter e) then Ok (NoService, Return 1, l) else
        let (accepted, r) := watch (e_events e) true 0 in
        match r with
        | Return _ => Ok (Accepts sock tls accepted, Return 0, gck_rpc_layer_uninitialize l)
        | r => Ok (Accepts sock tls accepted, r, l)
        end
  end.

(** * Lemmas *)

Lemma main_tls_spec e path tls :
  main_tls e path = inl tls ->
  if is_tls path then exists t keyfile, tls = Some t /\ getenv e "PKCS11_PROXY_TLS_PSK_FILE" = Some keyfile
      /\ keyfile <> EmptyString /\ initialized (tls_state t) = true /\ ssl_ctx (tls_state t) <> None
      /\ type (tls_state t) = GCK_RPC_TLS_PSK_SERVER
      /\ tls_psk_key_filename t = take (MAXPATHLEN - 1) (string_bytes keyfile)
  else tls = None.
Proof.
  unfold main_tls. destruct (is_tls path); cbn [negb]; [|by intros [= <-]].
  destruct (getenv e _) as [keyfile|]; [|done]. destruct keyfile as [|c keyfile]; [done|].
  destruct (e_tls_calloc e); cbn [negb]; [|done]. unfold gck_rpc_init_tls_psk, no_tls. cbn [tls_state initialized].
  destruct (e_ssl_ctx e) as [ctx|], (e_versions e); cbn; try done. intros [= <-].
  by eexists _, _.
Qed.

(** The paths that the daemon listens on. *)
Lemma remote_path_kept (tls : bool) rest :
  (if tls then is_tls else is_tcp)
    (snprintf_s (string_bytes ((if tls then "tls" else "tcp") +:+ "://" +:+ rest))) = true.
Proof.
  by destruct tls.
Qed.

Lemma descriptors_closed sock o :
  descriptors [] o = Some [sock] -> descriptors [] (o ++ [Closed sock]) = Some [].
Proof. intros Ho. rewrite descriptors_app, Ho. apply (descriptors_close sock). Qed.

(** A daemon that is not listening. *)
Definition idle (l : Layer) : Prop :=
  pkcs11_module l = false /\ pkcs11_socket l = -1 /\ pkcs11_dispatchers l = []
  /\ descriptors [] (ops l) = Some [].

(** A daemon that listens on [sock]. *)
Definition listening (sock : Z) (l : Layer) : Prop :=
  pkcs11_module l = true /\ pkcs11_socket l = sock /\ pkcs11_dispatchers l = []
  /\ descriptors [] (ops l) = Some [sock].

Lemma layer_initialize_spec prefix sy l sock l1 :
  idle l -> gck_rpc_layer_initialize prefix true sy l = Ok (sock, l1) -> sock <> -1 ->
  listening sock l1 /\
  if is_tcp prefix || is_tls prefix then files l1 = files l
    /\ (is_tcp (pkcs11_socket_path l1) || is_tls (pkcs11_socket_path l1) = true)
  else pkcs11_socket_path l1 = snprintf_s (string_bytes (prefix +:+ "/socket.pkcs11"))
    /\ files l1 = sun_path (pkcs11_socket_path l1)
         :: filter (fun f => f <> pkcs11_socket_path l1) (files l).
Proof.
  intros (Hm & Hs & Hd & Ho) Hrun Hsock. unfold gck_rpc_layer_initialize in Hrun.
  rewrite Hm, Hs, Hd in Hrun. cbn [negb] in Hrun. change (negb (-1 =? -1)) with false in Hrun.
  rewrite bool_decide_true in Hrun by done. cbn [negb] in Hrun.
  destruct (is_tcp prefix || is_tls prefix) eqn:Et.
  - destruct (gck_rpc_parse_host_port _ _) as [[ok host] port]. destruct ok; cbn [negb] in Hrun; [|congruence].
    unfold _get_listening_socket in Hrun.
    destruct (sy_getaddrinfo sy host port) as [ai|]; [|cbn in Hrun; congruence].
    pose proof (listening_loop_owned ai [] eq_refl) as Hl.
    destruct (listening_loop ai []) as [[fd a] o]. destruct Hl as [Hops _].
    destruct a as [a|]; [|cbn in Hrun; congruence].
    destruct (sy_listen sy); cbn [negb] in Hrun; [|cbn in Hrun; congruence].
    destruct (ai_getnameinfo a 0%nat); cbn [negb] in Hrun; [|cbn in Hrun; congruence].
    destruct (Z.eqb_spec fd (-1)); [congruence|]. injection Hrun as <- <-.
    split; [|split; [done|]].
    + split_and!; try done. cbn. by rewrite descriptors_app, Ho.
    + change (pkcs11_socket_path _) with (snprintf_s (string_bytes
        ((if is_tcp prefix then "tcp" else "tls") +:+ "://" +:+ hostport a))).
      destruct (is_tcp prefix).
      * by rewrite (remote_path_kept false).
      * rewrite (remote_path_kept true). apply orb_true_r.
  - destruct (sy_socket sy) as [fd|]; [|congruence]. destruct (sy_bind sy); cbn [negb] in Hrun; [|congruence].
    destruct (sy_listen sy); cbn [negb] in Hrun; [|congruence]. injection Hrun as <- <-.
    split; [|by split]. split_and!; try done. cbn. by rewrite descriptors_app, Ho.
Qed.

Lemma layer_uninitialize_spec sock l :
  listening sock l -> sock <> -1 ->
  idle (gck_rpc_layer_uninitialize l) /\ pkcs11_socket_path (gck_rpc_layer_uninitialize l) = ""%string
  /\ files (gck_rpc_layer_uninitialize l) =
       let path := pkcs11_socket_path l in
       if negb (bool_decide (path = ""%string)) && negb (is_tcp path) && negb (is_tls path)
       then filter (fun f => f <> path) (files l) else files l.
Proof.
  intros (Hm & Hs & Hd & Ho) Hsock. unfold gck_rpc_layer_uninitialize. rewrite Hm. cbn [negb].
  rewrite Hs. rewrite (proj2 (Z.eqb_neq _ _)) by done.
  change (pkcs11_socket_path (add_ops _ l)) with (pkcs11_socket_path l).
  destruct (_ && _); (split; [|done]); split_and!; try done; by apply descriptors_closed.
Qed.

Lemma sun_path_short path : strlen path <= 108 -> sun_path path = path.
Proof.
  intros Hl. unfold sun_path. rewrite take_ge; [apply of_string_bytes|].
  pose proof (zlen_string_bytes path). unfold zlen, sizeof_sun_path in *. lia.
Qed.

(** * Properties *)

(** C25: the daemon at the end is as it was before.  If [gck_rpc_layer_initialize] gives a
    socket - over TCP, TLS or a UNIX domain socket - the layer listens on it and it is the
    only descriptor open; and [gck_rpc_layer_uninitialize], the threads having ended,
    closes it, forgets the module and the path, and unlinks the file that was bound, unless
    its name was too long for the address or looks like that of a TCP socket. *)
Theorem layer_lifecycle prefix sy l sock l1 :
  idle l -> gck_rpc_layer_initialize prefix true sy l = Ok (sock, l1) -> sock <> -1 ->
  listening sock l1 /\
  let l2 := gck_rpc_layer_uninitialize l1 in
  idle l2 /\ pkcs11_socket_path l2 = ""%string /\
  (is_tcp prefix || is_tls prefix = true -> files l2 = files l) /\
  (is_tcp prefix || is_tls prefix = false ->
   let path := pkcs11_socket_path l1 in
   path = snprintf_s (string_bytes (prefix +:+ "/socket.pkcs11")) /\ sun_path path ∈ files l1 /\
   (strlen path <= 108 -> path <> ""%string -> is_tcp path = false -> is_tls path = false ->
    files l2 = filter (fun f => f <> path) (files l))).
Proof.
  intros Hl Hrun Hsock. destruct (layer_initialize_spec prefix sy l sock l1 Hl Hrun Hsock) as [Hon Hf].
  destruct (layer_uninitialize_spec sock l1 Hon Hsock) as (Hidle & Hpath & Hfiles).
  split; [done|]. intros l2. split; [done|]. split; [done|].
  split; intros Et; rewrite Et in Hf; destruct Hf as [Hf Hp].
  - unfold l2. rewrite Hfiles. cbv zeta. rewrite <- andb_assoc, <- negb_orb, Hp, andb_false_r. done.
  - intros path. split; [done|]. split; [rewrite Hp; left|]. intros Hshort Hne Htcp Htls.
    unfold l2. rewrite Hfiles. cbv zeta. fold path. rewrite Htcp, Htls, bool_decide_false by done. cbn [negb andb].
    rewrite Hp. fold path. rewrite sun_path_short by done. rewrite filter_cons_False by naive_solver.
    rewrite list_filter_filter. apply list_filter_iff. naive_solver.
Qed.

Definition quiet_layer : Layer := mkLayer false (-1) "" [] ["/run/other"%string] [].
Definition sample_system : system :=
  mkSystem true (fun _ _ => Some [mkAddr false ("127.0.0.1", "2345")%string (fun _ => true) None true true true;
                                  mkAddr true ("::1", "2345")%string (fun _ => true) (Some 5) true true true])
    true (Some 4) true.

Lemma layer_lifecycle_witness :
  exists l1, gck_rpc_layer_initialize "/run/p11" true sample_system quiet_layer = Ok (4, l1)
    /\ listening 4 l1 /\ files l1 = ["/run/p11/socket.pkcs11"; "/run/other"]%string
    /\ idle (gck_rpc_layer_uninitialize l1).
Proof.
  eexists. split; [vm_compute; reflexivity|].
  split; [|split; [reflexivity|]].
  - eapply (layer_lifecycle "/run/p11" sample_system quiet_layer); [by repeat split|vm_compute; reflexivity|done].
  - eapply (layer_lifecycle "/run/p11" sample_system quiet_layer 4); [by repeat split|vm_compute; reflexivity|done].
Defined.

(** C24: TLS is not optional.  When the daemon comes to accept connections, whatever its
    arguments, its environment and the system, it has set up TLS if and only if the socket
    to listen on is a tls:// one: for the server, with the file of keys the environment
    names.  Without a file of keys, or without OpenSSL, it exits before it listens. *)
Theorem tls_socket_means_tls e l service r l' sock tls n :
  main e l = Ok (service, r, l') -> service = Accepts sock tls n ->
  if is_tls (socket_path e) then exists t keyfile, tls = Some t
      /\ getenv e "PKCS11_PROXY_TLS_PSK_FILE" = Some keyfile /\ keyfile <> EmptyString
      /\ initialized (tls_state t) = true /\ ssl_ctx (tls_state t) <> None
      /\ type (tls_state t) = GCK_RPC_TLS_PSK_SERVER
      /\ tls_psk_key_filename t = take (MAXPATHLEN - 1) (string_bytes keyfile)
  else tls = None.
Proof.
  intros Hrun ->. unfold main in Hrun.
  repeat (match type of Hrun with (if ?b then _ else _) = _ => destruct b; [discriminate Hrun|] end).
  destruct (main_tls e (socket_path e)) as [tls'|] eqn:Et; [|discriminate Hrun].
  assert (tls' = tls) as ->; [|by apply main_tls_spec].
  destruct (bool_decide _); [destruct (negb (e_filter e)); discriminate Hrun|].
  destruct (gck_rpc_layer_initialize _ _ _ l) as [[s l1]|]; [|discriminate Hrun].
  unfold mbind, res_bind in Hrun. destruct (s =? -1); [discriminate Hrun|].
  destruct (negb (e_filter e)); [discriminate Hrun|].
  destruct (watch (e_events e) true 0) as [k []]; by injection Hrun.
Qed.

(** A daemon with TLS accepts one connection and is then told to terminate. *)
Definition sample_environment : environment :=
  mkEnv ["/lib/softhsm.so"; "tls://[::1]:2345"]%string
    (fun name => if bool_decide (name = "PKCS11_PROXY_TLS_PSK_FILE"%string) then Some "/etc/keys"%string else None)
    true true (CKR_OK, true) CKR_OK true (Some 1) true sample_system true
    [(Readable true, false); (WatchFailed true, true)].

Lemma tls_socket_means_tls_witness :
  exists service r l' tls, main sample_environment quiet_layer = Ok (service, r, l')
    /\ service = Accepts 5 tls 1 /\ r = Return 0 /\ idle l' /\ is_Some tls.
Proof.
  eexists _, _, _, _. split; [vm_compute; reflexivity|]. split; [reflexivity|]. split; [reflexivity|].
  split; [by repeat split|].
  edestruct (tls_socket_means_tls sample_environment quiet_layer) as (t & k & Ht & _);
    [vm_compute; reflexivity|reflexivity|]. rewrite Ht. by exists t.
Defined.
